(* ===== verification/_CoqProject ===== *)
-Q . S2P
Prelude.v
Bytes.v
UblkCmd.v
Uring.v
QueueTypes.v
Batch.v
Queue.v
QueueSpec.v
QueueSystem.v
Aio.v
AioCtx.v
AioExamples.v
Target.v
Null.v
Loop.v
LoopDisk.v
Endian.v
Nbd.v
NbdExamples.v
QueueExamples.v
LoopDiskExamples.v
DmaBuf.v
Nvme.v
NvmeDma.v
NvmeRing.v
NvmeIo.v
NvmeExamples.v
Params.v
NvmeAdmin.v
NvmeAdminSpec.v
Json.v
JsonExamples.v
Ctrl.v
CtrlExamples.v
SdProto.v
Sheep.v
SheepTgt.v
SheepExamples.v
QueueSetup.v
QueueSetupExamples.v
QueueThread.v
QueueThreadExamples.v
DevSetup.v
NbdHandshake.v
NbdHsExamples.v
Cpuset.v
TgtInit.v
JsonDoc.v
TgtInitSpec.v
TgtInitExamples.v
NbdSetup.v
NbdSetupExamples.v
SheepSetup.v
SheepSetupExamples.v
NvmeVfio.v
NvmeInit.v
NvmeInitSpec.v
NvmeInitExamples.v
EventTgt.v
Nfs.v
LibWorld.v
NfsSetup.v
Iscsi.v
IscsiSetup.v
LibExamples.v
DemoIo.v
DemoUring.v
DemoLoop.v
DemoExamples.v
Daemon.v
DaemonSpec.v
DaemonExamples.v
Report.v
Demo.v
Cli.v
CliExamples.v
