(* ===== verification/Prelude.v ===== *)
(** * Verification of the ublksrv userspace block driver

    ublksrv lets a process serve a Linux block device.  The kernel driver
    hands each block request to the process as the completion of an io_uring
    command, one command per tag of a queue; the process has the request served
    by a target (null, loop, nbd, ...) and gives the result back with the next
    command for that tag.  This library models the program's own logic as
    executable functions and proves what makes it correct.  It is about the
    sources under src/lib, src/include, src/targets and src/utils and the two
    demos.

    ** The parts and how they interact

    - A control device (lib/ublksrv_cmd.c) sends commands to /dev/ublk-control:
      adding, starting, stopping and deleting a device, its parameters, queue
      affinity and recovery.
    - The JSON description (lib/ublksrv_json.cpp) holds what is needed to
      rebuild a device; the daemon stores it behind its pid in a file, and
      recovery reads it back.
    - A queue (lib/ublksrv.c) sends one command per tag, dispatches completions
      to the target, keeps count of what is in flight and ends once the driver
      took the device away.  With batch I/O (lib/ublksrv_batch.c) tags travel
      in buffers of many elements instead.
    - A target implements the callbacks of [struct ublksrv_tgt_type]: it is
      called for a new request, for completions of its own ring entries, for
      events, and once at the end of an iteration.  The bundled targets are
      coroutines (targets/include/ublksrv_tgt.h).  The nvme target drives a
      controller itself: it builds commands in rings shared with the device and
      polls for completions at the end of each iteration.  The nfs and iscsi
      targets hand each request to a client library and complete it in the
      library's callback.
    - I/O offload (lib/ublksrv_aio.c) lets a target hand requests to a worker
      thread, over lists protected by spin locks and an eventfd.  The event demo
      (demo_event.c) is a complete user of it; the null demo (demo_null.c) answers
      in the queue's thread.
    - The daemon (targets/ublksrv_tgt.cpp) adds a device, sets its target up,
      runs one thread per queue, starts the device and tells its parent; or it
      takes a device over from a daemon that died.  The command line program
      (targets/ublk.cpp) runs the target's program for "add" and "recover" and
      deletes, lists and queries devices itself.

    ** Files

    - Prelude: machine-width integers with their wrap-around, bit tests,
      rounding, errno values, tactics.  Bytes: byte buffers with little-endian
      accesses and slices; an access outside the buffer is [None].  Endian: the
      byte order conversions of the targets.
    - UblkCmd: include/ublk_cmd.h and the packed words of include/ublksrv.h
      (user_data, ublk_pos, unique tags, ioctl encodings).
    - Uring: the submission side of io_uring as a class [Uring] of operations
      with its laws [UringLaws], and a bounded ring that satisfies them; slots
      that can be changed after they were filled ([UringSlots]).
    - QueueTypes: [struct _ublksrv_queue], [struct ublk_io] and the target's
      callbacks as records.  Batch, Queue: the operations of
      lib/ublksrv_batch.c and the queue half of lib/ublksrv.c, one definition
      per function, in explicit state passing.  [None] is a failed assertion
      or an access outside an array.
    - QueueSpec: the abstract queue (who owns each tag: driver, ring or target)
      and the simulation relation; the contract a target's callbacks keep.
      QueueSystem: the transition system of driver, ring, queue and target,
      its reachable states and the theorems about them.
    - Aio, AioCtx: lib/ublksrv_aio.c with its lists linked through a heap of
      requests.  A region under a lock is one step.
    - Target: the coroutine framework.  Null, Loop, Nbd: the I/O paths of the
      three targets.  LoopDisk: what the loop target's entries do to the bytes of
      the backing file, against a kernel that executes them (class [LoopKernel]).
    - Params, Json: the structures of a device's description and every reader
      and writer of lib/ublksrv_json.cpp; the text format is a class
      [JsonText] with the law that parsing undoes printing.
    - DmaBuf: targets/dma_buf.c.  Nvme, NvmeDma, NvmeRing, NvmeIo: the nvme
      target (targets/nvme/ublk.nvme_vfio.cpp): data pointers, the buffer pool,
      the submission and completion rings against a controller, the request
      path.  NvmeAdmin, NvmeAdminSpec: registers, admin queue and admin commands
      against a controller (class [NvmeCtrl]); NvmeVfio: binding and opening the
      device over an interface of the system ([VfioSys]); NvmeInit, NvmeInitSpec:
      huge pages ([HugePages]) and the callbacks of set-up and tear-down.
    - EventTgt: what the targets over client libraries share, against a class
      [EventLib] (libnfs and libiscsi are not in the repository).  Nfs, Iscsi: the
      request paths of targets/ublk.nfs.cpp and targets/ublk.iscsi.cpp, with what
      each asks of its library ([NfsLib], [IscsiLib]).  LibWorld: descriptors and
      connections as a ledger; NfsSetup, IscsiSetup: set-up, recovery and
      tear-down of the two targets ([NfsApi], [IscsiApi]).
    - DemoIo: the event demo's requests and its I/O thread; DemoUring: the parts of
      its io_uring thread, and the null demo's callback; DemoLoop: the loop of that
      thread, as a transition system with the queue's thread and the kernel; Demo:
      set-up, signal handlers and main of both demos, and utils/ublk_user_id.c.
    - Ctrl: lib/ublksrv_cmd.c against a class [CtrlKernel] for ring and driver.
    - QueueSetup: set-up and tear-down of a queue in lib/ublksrv.c, in memory
      that holds what it held before; DevSetup: a device of the library, its
      target's set-up and its pid file.  QueueThread: the thread of a queue,
      from set-up to tear-down.
    - Cpuset: the CPU sets of lib/utils.c.
    - TgtInit: the set-up and recovery of the null and loop targets, over an
      interface of the file system; JsonDoc: what a sequence of writes leaves
      in a description; TgtInitSpec: the theorems about them.
    - NbdHandshake: targets/nbd/nbd-client.c and cliserv.c in a monad of a
      byte stream; NbdSetup: the connections of the nbd target, its options and
      its recovery.
    - SdProto, Sheep, SheepTgt, SheepSetup: the sheepdog target: identifiers and
      hashes of objects, messages, requests over a socket to the cluster (class
      [SdSock]), the target's callbacks, its options and its recovery.
    - Daemon, DaemonSpec: targets/ublksrv_tgt.cpp.  Report: what is reported of a
      device (ublksrv_ctrl_dump), the run directory and the options of "recover".
      Cli: targets/ublk.cpp.
    - The files called Examples: concrete rings, targets, drivers, documents,
      servers and clusters, at which the theorems with hypotheses are applied.

    ** What the theorems show

    - Queue: for queues without batch I/O (UBLK_F_BATCH_IO is not set), in
      every reachable state and for every target that keeps its contract,
      handling a completion never fails; cmd_inflight is the number
      of commands the driver holds; each tag follows the
      FETCH/COMMIT/GET_DATA protocol; a queue that reports itself done has
      nothing left anywhere, and the driver's abort of all commands leads
      there.  Start-up hands every tag to the driver, with batch I/O too.
    - Batch: what is completed is what the driver reads from the commit
      buffer; allocation; the double free of a failed allocation.
    - Offload: both workers terminate and process every request exactly once,
      for submission functions with effects too, results reach their own queue,
      and every context that was given work is woken up.
    - Targets: the loop device is a disk: in every copy mode a read or write
      transfers the bytes of the request's sectors and no others, and is answered
      with their number; the NBD wire format, matching of replies to requests by generation, and
      send chains that no other entry cuts.
    - NVMe: with an IOMMU the data pointers, PRPs with their list or an SGL,
      make the controller transfer exactly the bytes of the buffer; every tag has buffers of its own; the submission ring is
      a FIFO between target and controller in every interleaving; the end of
      an iteration completes what the controller has posted, once and in
      order.  Bring-up ends with a controller that has executed the admin commands
      it was sent, in order; a failed set-up closes every descriptor it opened; a
      timed out admin command shifts the answers of all later ones.
    - Client libraries: every request is handed to the library with the offset,
      length and buffer the driver asked for, and every answer of the library
      reaches the driver with its result, for the right tag; the connections
      opened at set-up are the ones tear-down closes, except where stated.
    - Demos: requests that were offloaded are completed with the result of their
      system call, whenever the I/O thread runs; the io_uring thread loses no
      request and keeps its eventfd polled in every reachable state; the device is started in the right
      order and deleted at the end.
    - Description: what is written is what is read, directly and through the
      pid file.  Control: commands are well formed, with the
      arguments of their operation, and the device information is the first the
      driver gives.
    - Life of a queue: what set-up builds is an initial state of the transition
      system, the thread's loop ends only when nothing is left of the queue
      with the driver or in the ring, and tear-down then gives back what set-up
      took, each thing once.
    - Life of a device: the order in which a daemon starts it, recovery of loop,
      nbd and sheepdog devices from their descriptions, deletion after stopping,
      and the bounds of every wait.  The text of a queue thread's CPUs fits its
      buffer for every set; the run directory is made with its parents.
    - Handshake: negotiation with a server for every way the byte stream is cut
      into reads and writes.  Sheepdog: what a read returns of the disk,
      also when the cluster leaves out zero sectors;
      the two hashes of an identifier agree.
    - Several theorems state where the code does not do what it means to; they
      are the ones whose comments say so (an unanswered request, a flag lost to
      a shift, a wrapped counter, an overrun buffer, a wrong stride, a write to
      object 0, a socket closed twice).

    ** Bounds and fuel

    Loops over tags, queues and buffers recurse on their number.  The list
    loops of the offload worker take the size of the heap plus one, since each
    round unlinks a request; the receiving loop of the nbd target takes one
    round per request in flight plus one; writing the description takes 17
    rounds, since each adds 512 bytes and none starts at 8192 or above; polling
    an nvme completion ring takes at most its size plus one rounds, and an
    iteration polls twice; a PRP list has at most 512 entries.  Opening the
    char device takes at most 11 attempts, beginning recovery 300 rounds and the
    test that ends them, waiting for a
    daemon to go away 30; an admin command and the end of a shutdown are polled
    for 5000 times, the controller's ready bit 5001 times, an unbound driver is
    waited for 50 times; parsing CPU sets takes the length of the text plus
    one.  The retries of a sheepdog request and the reading loops of the nbd
    handshake have no bound in the code: their definitions take fuel, and the
    theorems state how much is enough for the cases they are about.
    Theorems that a loop finishes are stated with these bounds, and running out
    of fuel is [None], which they exclude.

    ** What is not modelled

    The JSON library (include/nlohmann), whose printing and parsing are an
    interface; libnfs and libiscsi, which are interfaces too; the TLS branch of
    the nbd client, which is not compiled in; socket options, thread names and
    the protection against the OOM killer (system calls whose result nothing
    depends on); structures of the sheepdog protocol and of zoned devices that the
    program does not use; accessors that only store or return a pointer
    (ublksrv_ctrl_prep_recovery, which no program here calls, and the like).
    A failing epoll_wait(2), after which the library's loop runs past its array,
    and a pid file whose description has no terminator, which is read past its
    end, are outside the model. Memory ordering between threads is not modelled:
    what the code does under a lock is one step. The loop target's effect on the
    backing file is stated for entries the kernel carries out in full; a short
    transfer reaches the driver as its result does (Target, Loop). Logging and
    help texts are left out, and of what is printed the report of a device and
    the driver's features are kept; the words of a command line reach the
    definitions as getopt_long(3) returns them.

    ** Order of the development

    Queue, batch and offload first, then the targets' request paths, the life of
    a queue, of a target and of a device, the demos, and last the composition of
    a target with the kernel that serves its entries (LoopDisk, DemoLoop).  The
    same composition for null and nbd (whose server would be the disk) would come
    next. *)

From stdpp Require Export base tactics list gmap numbers option strings relations.
From Stdlib Require Export ZArith Lia.

#[global] Open Scope Z_scope.

(** ** Machine-width integers

    A C integer of width [w] is a [Z]; every place where the code stores into
    or computes at a fixed width is written with the corresponding wrap. *)
Definition u8 (x : Z) : Z := x mod 2^8.
Definition u16 (x : Z) : Z := x mod 2^16.
Definition u32 (x : Z) : Z := x mod 2^32.
Definition u64 (x : Z) : Z := x mod 2^64.
Definition s32 (x : Z) : Z := (x + 2^31) mod 2^32 - 2^31.

Definition is_u8 (x : Z) : Prop := 0 <= x < 2^8.
Definition is_u16 (x : Z) : Prop := 0 <= x < 2^16.
Definition is_u32 (x : Z) : Prop := 0 <= x < 2^32.
Definition is_u64 (x : Z) : Prop := 0 <= x < 2^64.
Definition is_s32 (x : Z) : Prop := - 2^31 <= x < 2^31.

Lemma u8_bound x : is_u8 (u8 x).
Proof. apply Z.mod_pos_bound. lia. Qed.

Lemma u16_bound x : is_u16 (u16 x).
Proof. apply Z.mod_pos_bound. lia. Qed.

Lemma u32_bound x : is_u32 (u32 x).
Proof. apply Z.mod_pos_bound. lia. Qed.

Lemma u64_bound x : is_u64 (u64 x).
Proof. apply Z.mod_pos_bound. lia. Qed.

Lemma s32_bound x : is_s32 (s32 x).
Proof.
  unfold s32, is_s32. pose proof (Z.mod_pos_bound (x + 2^31) (2^32)). lia.
Qed.

Lemma u8_id x : is_u8 x -> u8 x = x.
Proof. apply Z.mod_small. Qed.

Lemma u16_id x : is_u16 x -> u16 x = x.
Proof. apply Z.mod_small. Qed.

Lemma u32_id x : is_u32 x -> u32 x = x.
Proof. apply Z.mod_small. Qed.

Lemma u64_id x : is_u64 x -> u64 x = x.
Proof. apply Z.mod_small. Qed.

Lemma s32_id x : is_s32 x -> s32 x = x.
Proof. unfold s32, is_s32. intros H. rewrite Z.mod_small; lia. Qed.

(** A signed value stored through an unsigned field of the same width and
    read back signed is unchanged. *)
Lemma s32_u32 x : is_s32 x -> s32 (u32 x) = x.
Proof.
  unfold s32, u32, is_s32. intros H.
  rewrite Zplus_mod_idemp_l, Z.mod_small; lia.
Qed.

Create HintDb width.
Create Rewrite HintDb width_rw.
#[export] Hint Resolve u8_bound u16_bound u32_bound u64_bound s32_bound : width.
#[export] Hint Rewrite u8_id u16_id u32_id u64_id s32_id
  using (unfold is_u8, is_u16, is_u32, is_u64, is_s32 in *; lia) : width_rw.

Ltac unfold_width :=
  unfold u8, u16, u32, u64, s32, is_u8, is_u16, is_u32, is_u64, is_s32 in *.

(** ** Bit tests and bit fields *)

(** [flags & mask] used as a C condition. *)
Definition has (flags mask : Z) : bool := negb (Z.land flags mask =? 0).

(** [1 << k] *)
Definition bit (k : Z) : Z := Z.shiftl 1 k.

Lemma bit_pow2 k : 0 <= k -> bit k = 2^k.
Proof. intros. unfold bit. rewrite Z.shiftl_1_l. done. Qed.

Lemma testbit_bit k i : 0 <= k -> 0 <= i -> Z.testbit (bit k) i = (i =? k).
Proof.
  intros Hk Hi. rewrite bit_pow2 by done.
  rewrite Z.pow2_bits_eqb by done. apply Z.eqb_sym.
Qed.

Lemma has_bit f k : 0 <= k -> has f (bit k) = Z.testbit f k.
Proof.
  intros Hk. unfold has. destruct (Z.testbit f k) eqn:Hb.
  - apply negb_true_iff, Z.eqb_neq. intros H0.
    assert (Z.testbit (Z.land f (bit k)) k = true) as Ht.
    { rewrite Z.land_spec, Hb, testbit_bit by lia. by rewrite Z.eqb_refl. }
    rewrite H0, Z.testbit_0_l in Ht. done.
  - apply negb_false_iff, Z.eqb_eq. apply Z.bits_inj'. intros i Hi.
    rewrite Z.land_spec, Z.testbit_0_l, testbit_bit by lia.
    destruct (Z.eqb_spec i k) as [->|]; [by rewrite Hb | apply andb_false_r].
Qed.

Lemma has_lor_mask f m1 m2 : has f (Z.lor m1 m2) = has f m1 || has f m2.
Proof.
  unfold has. rewrite Z.land_lor_distr_r, <- negb_andb. f_equal.
  apply eq_true_iff_eq. rewrite andb_true_iff, !Z.eqb_eq. apply Z.lor_eq_0_iff.
Qed.

Lemma has_lor_l f g m : has (Z.lor f g) m = has f m || has g m.
Proof.
  unfold has. rewrite Z.land_lor_distr_l, <- negb_andb. f_equal.
  apply eq_true_iff_eq. rewrite andb_true_iff, !Z.eqb_eq. apply Z.lor_eq_0_iff.
Qed.

Lemma has_lor_bit f k j : 0 <= k -> 0 <= j ->
  has (Z.lor f (bit j)) (bit k) = has f (bit k) || (k =? j).
Proof. intros. rewrite !has_bit, Z.lor_spec, testbit_bit by done. done. Qed.

Lemma has_clear_bit f k j : 0 <= k -> 0 <= j ->
  has (Z.land f (Z.lnot (bit j))) (bit k) = has f (bit k) && negb (k =? j).
Proof.
  intros. rewrite !has_bit, Z.land_spec, Z.lnot_spec, testbit_bit by done. done.
Qed.

(** Disjoint fields: [a | (b << n)] is [a + b * 2^n]. *)
Lemma lor_shiftl_add a b n :
  0 <= n -> 0 <= a < 2^n -> Z.lor a (Z.shiftl b n) = a + b * 2^n.
Proof.
  intros Hn Ha. rewrite <- Z.shiftl_mul_pow2 by done.
  symmetry. rewrite <- Z.lxor_lor; [apply Z.add_nocarry_lxor|];
    apply Z.bits_inj'; intros i Hi;
    rewrite Z.land_spec, Z.testbit_0_l, Z.shiftl_spec by done;
    (destruct (Z.ltb_spec i n);
      [rewrite (Z.testbit_neg_r b) by lia; apply andb_false_r
      |rewrite <- (Z.mod_small a (2^n)), Z.mod_pow2_bits_high by lia; done]).
Qed.

Lemma land_ones_mod x n : 0 <= n -> Z.land x (2^n - 1) = x mod 2^n.
Proof. intros. rewrite <- Z.land_ones by done. f_equal. rewrite Z.ones_equiv. lia. Qed.

(** [(val + (rnd - 1)) & ~(rnd - 1)] rounds up to a multiple of a power of two. *)
Definition round_up (val rnd : Z) : Z := Z.land (val + (rnd - 1)) (Z.lnot (rnd - 1)).

Lemma land_lnot_ones x n : 0 <= n -> Z.land x (Z.lnot (2^n - 1)) = x - x mod 2^n.
Proof.
  intros Hn.
  replace (2^n - 1) with (Z.ones n) by (rewrite Z.ones_equiv; lia).
  rewrite <- Z.ldiff_land, Z.ldiff_ones_r by done.
  rewrite Z.shiftr_div_pow2, Z.shiftl_mul_pow2 by done.
  pose proof (Z.div_mod x (2^n)). lia.
Qed.

Lemma round_up_pow2 val k : 0 <= k ->
  round_up val (2^k) = (val + 2^k - 1) / 2^k * 2^k.
Proof.
  intros Hk. unfold round_up. rewrite land_lnot_ones by done.
  replace (val + (2^k - 1)) with (val + 2^k - 1) by lia.
  pose proof (Z.div_mod (val + 2^k - 1) (2^k)). lia.
Qed.

Lemma round_up_spec val k : 0 <= k ->
  val <= round_up val (2^k) < val + 2^k /\ round_up val (2^k) mod 2^k = 0.
Proof.
  intros Hk. rewrite round_up_pow2 by done. split.
  - pose proof (Z.mod_pos_bound (val + 2^k - 1) (2^k)).
    pose proof (Z.div_mod (val + 2^k - 1) (2^k)). lia.
  - apply Z.mod_mul. lia.
Qed.

(** ** Tags below a depth *)

(** Distinct tags below [depth] are at most [depth] many. *)
Lemma nodup_tags_length (tags : list Z) depth :
  NoDup tags -> Forall (fun t => 0 <= t < depth) tags -> Z.of_nat (length tags) <= Z.max 0 depth.
Proof.
  intros Hnd Hall.
  assert (tags ⊆+ seqZ 0 depth) as Hsub.
  { apply NoDup_submseteq; [done|]. intros t Ht. apply elem_of_seqZ.
    rewrite Forall_forall in Hall. specialize (Hall t Ht). lia. }
  apply submseteq_length in Hsub. rewrite length_seqZ in Hsub. lia.
Qed.

(** ** errno values (x86-64 Linux) *)
Definition ENOENT : Z := 2.
Definition EINTR : Z := 4.
Definition EIO : Z := 5.
Definition EBADF : Z := 9.
Definition EAGAIN : Z := 11.
Definition ENOMEM : Z := 12.
Definition EFAULT : Z := 14.
Definition EBUSY : Z := 16.
Definition EEXIST : Z := 17.
Definition ENODEV : Z := 19.
Definition EINVAL : Z := 22.
Definition EPIPE : Z := 32.
Definition ETIME : Z := 62.
Definition EPROTO : Z := 71.
Definition EILSEQ : Z := 84.
Definition ENOTSUP : Z := 95.
Definition EOPNOTSUPP : Z := 95.
Definition ENOBUFS : Z := 105.
Definition ETIMEDOUT : Z := 110.

(** ** Case analysis on C conditions *)
Ltac case_bool :=
  match goal with
  | |- context [if ?b then _ else _] => destruct b eqn:?
  end.

Ltac bool_prop :=
  repeat match goal with
  | H : (_ =? _) = true |- _ => apply Z.eqb_eq in H
  | H : (_ =? _) = false |- _ => apply Z.eqb_neq in H
  | H : (_ <? _) = true |- _ => apply Z.ltb_lt in H
  | H : (_ <? _) = false |- _ => apply Z.ltb_ge in H
  | H : (_ <=? _) = true |- _ => apply Z.leb_le in H
  | H : (_ <=? _) = false |- _ => apply Z.leb_gt in H
  | H : _ && _ = true |- _ => apply andb_true_iff in H as [? ?]
  | H : _ || _ = false |- _ => apply orb_false_iff in H as [? ?]
  | H : negb _ = true |- _ => apply negb_true_iff in H
  | H : negb _ = false |- _ => apply negb_false_iff in H
  end.

(** Invert the first bind of a computation that returned. *)
Ltac inv_bind :=
  match goal with
  | H : (?m ≫= _) = Some _ |- _ => destruct m eqn:?; cbn [mbind option_bind] in H; [|discriminate H]
  end.
