(* ===== verification/Bytes.v ===== *)
(** * Byte buffers

    A buffer is a list of bytes.  [store] and [load] are the little-endian
    accesses the code makes through casted pointers; an access that is not
    inside the buffer is [None]. *)

From S2P Require Import Prelude.

Fixpoint le_bytes (n : nat) (v : Z) : list Z :=
  match n with
  | O => []
  | S n => v mod 2^8 :: le_bytes n (v / 2^8)
  end.

Fixpoint le_value (bs : list Z) : Z :=
  match bs with
  | [] => 0
  | b :: bs => b + 2^8 * le_value bs
  end.

Definition in_range (off : Z) (n : nat) (mem : list Z) : bool :=
  (0 <=? off) && (off + Z.of_nat n <=? Z.of_nat (length mem)).

Definition store_bytes (off : Z) (bs mem : list Z) : option (list Z) :=
  if in_range off (length bs) mem
  then Some (take (Z.to_nat off) mem ++ bs ++ drop (Z.to_nat off + length bs) mem)
  else None.

Definition store (n : nat) (off v : Z) (mem : list Z) : option (list Z) :=
  store_bytes off (le_bytes n v) mem.

Definition load (n : nat) (off : Z) (mem : list Z) : option Z :=
  if in_range off n mem then Some (le_value (take n (drop (Z.to_nat off) mem))) else None.

Lemma length_le_bytes n v : length (le_bytes n v) = n.
Proof. revert v. induction n as [|n IH]; intros v; cbn; [done|]. by rewrite IH. Qed.

Lemma le_value_bytes n v : le_value (le_bytes n v) = v mod 2^(8 * Z.of_nat n).
Proof.
  revert v. induction n as [|n IH]; intros v; cbn [le_bytes le_value].
  - change (8 * Z.of_nat 0) with 0. by rewrite Z.pow_0_r, Z.mod_1_r.
  - rewrite IH. replace (8 * Z.of_nat (S n)) with (8 + 8 * Z.of_nat n) by lia.
    rewrite Z.pow_add_r, Z.rem_mul_r by lia. lia.
Qed.

Lemma le_value_app l1 l2 : le_value (l1 ++ l2) = le_value l1 + 2^(8 * Z.of_nat (length l1)) * le_value l2.
Proof.
  induction l1 as [|b l1 IH]; cbn [le_value app length]; [lia|]. rewrite IH.
  replace (8 * Z.of_nat (S (length l1))) with (8 + 8 * Z.of_nat (length l1)) by lia. rewrite Z.pow_add_r by lia. lia.
Qed.

Lemma in_range_spec off n mem :
  in_range off n mem = true <-> 0 <= off /\ off + Z.of_nat n <= Z.of_nat (length mem).
Proof. unfold in_range. rewrite andb_true_iff, !Z.leb_le. done. Qed.

Lemma store_bytes_length off bs mem mem' :
  store_bytes off bs mem = Some mem' -> length mem' = length mem.
Proof.
  unfold store_bytes. case_match eqn:Hr; [|done]. intros [= <-].
  apply in_range_spec in Hr as [? ?].
  rewrite !length_app, length_take, length_drop. lia.
Qed.

Lemma store_length n off v mem mem' :
  store n off v mem = Some mem' -> length mem' = length mem.
Proof. apply store_bytes_length. Qed.

Lemma store_Some n off v mem :
  0 <= off -> off + Z.of_nat n <= Z.of_nat (length mem) -> is_Some (store n off v mem).
Proof.
  intros ? ?. unfold store, store_bytes. rewrite length_le_bytes.
  assert (in_range off n mem = true) as -> by (by apply in_range_spec). by eexists.
Qed.

Lemma load_store_same n off v mem mem' :
  store n off v mem = Some mem' -> load n off mem' = Some (v mod 2^(8 * Z.of_nat n)).
Proof.
  intros Hs. pose proof (store_length _ _ _ _ _ Hs) as Hl.
  unfold store, store_bytes in Hs. rewrite length_le_bytes in Hs.
  destruct (in_range off n mem) eqn:Hr; [|done]. apply in_range_spec in Hr as [? ?].
  injection Hs as <-. unfold load.
  assert (in_range off n _ = true) as -> by (apply in_range_spec; rewrite Hl; lia).
  f_equal. rewrite <- le_value_bytes. f_equal.
  rewrite drop_app_length' by (rewrite length_take; lia).
  by rewrite take_app_length' by (by rewrite length_le_bytes).
Qed.

Lemma load_store_disjoint n off v m off' mem mem' :
  store n off v mem = Some mem' ->
  off' + Z.of_nat m <= off \/ off + Z.of_nat n <= off' ->
  load m off' mem' = load m off' mem.
Proof.
  intros Hs Hd. pose proof (store_length _ _ _ _ _ Hs) as Hl. unfold load.
  assert (in_range off' m mem' = in_range off' m mem) as ->
    by (unfold in_range; by rewrite Hl).
  destruct (in_range off' m mem) eqn:Hr'; [|done]. apply in_range_spec in Hr' as [? ?].
  unfold store, store_bytes in Hs. rewrite length_le_bytes in Hs.
  destruct (in_range off n mem) eqn:Hr; [|done]. apply in_range_spec in Hr as [? ?].
  injection Hs as <-. do 2 f_equal. apply list_eq. intros i.
  destruct (decide (i < m)%nat); [|rewrite !lookup_take_ge by lia; done].
  rewrite !lookup_take_lt, !lookup_drop by lia.
  destruct Hd.
  - rewrite lookup_app_l by (rewrite length_take; lia). by rewrite lookup_take_lt by lia.
  - rewrite lookup_app_r by (rewrite length_take; lia).
    rewrite lookup_app_r by (rewrite length_take, length_le_bytes; lia).
    rewrite lookup_drop, length_take, length_le_bytes. f_equal. lia.
Qed.

(** ** Slices *)
Definition slice (off : Z) (n : nat) (mem : list Z) : list Z := take n (drop (Z.to_nat off) mem).

Lemma length_slice off n mem : in_range off n mem = true -> length (slice off n mem) = n.
Proof. intros [? ?]%in_range_spec. unfold slice. rewrite length_take, length_drop. lia. Qed.

Lemma store_bytes_Some off bs mem :
  0 <= off -> off + Z.of_nat (length bs) <= Z.of_nat (length mem) -> is_Some (store_bytes off bs mem).
Proof. intros ? ?. unfold store_bytes. rewrite (proj2 (in_range_spec _ _ _)) by done. by eexists. Qed.

Lemma slice_store_same off bs mem mem' :
  store_bytes off bs mem = Some mem' -> slice off (length bs) mem' = bs.
Proof.
  unfold store_bytes. destruct (in_range _ _ _) eqn:Hr; [|done]. apply in_range_spec in Hr as [? ?].
  intros [= <-]. unfold slice. rewrite drop_app_length' by (rewrite length_take; lia). by apply take_app_length'.
Qed.

Lemma slice_store_disjoint off bs off' n mem mem' :
  store_bytes off bs mem = Some mem' -> 0 <= off' ->
  off' + Z.of_nat n <= off \/ off + Z.of_nat (length bs) <= off' ->
  slice off' n mem' = slice off' n mem.
Proof.
  unfold store_bytes. destruct (in_range _ _ _) eqn:Hr; [|done]. apply in_range_spec in Hr as [? ?].
  intros [= <-] Hoff Hd. unfold slice. apply list_eq. intros i.
  destruct (decide (i < n)%nat); [|rewrite !lookup_take_ge by lia; done].
  rewrite !lookup_take_lt, !lookup_drop by lia.
  destruct Hd.
  - rewrite lookup_app_l by (rewrite length_take; lia). by rewrite lookup_take_lt by lia.
  - rewrite lookup_app_r by (rewrite length_take; lia).
    rewrite lookup_app_r by (rewrite length_take; lia).
    rewrite lookup_drop, length_take. f_equal. lia.
Qed.

(** ** Network order, buffers and C strings *)
Definition be_bytes (n : nat) (v : Z) : list Z := rev (le_bytes n v).
Definition be_value (bs : list Z) : Z := le_value (rev bs).

(** Bytes stored at the start of a buffer. *)
Definition overwrite (new old : list Z) : list Z := new ++ drop (length new) old.

(** The bytes of a C string before its terminating zero. *)
Fixpoint c_string (s : list Z) : list Z :=
  match s with
  | [] => []
  | b :: s => if b =? 0 then [] else b :: c_string s
  end.

Lemma overwrite_all new old : length old = length new -> overwrite new old = new.
Proof. intros Hl. unfold overwrite. rewrite drop_ge by lia. apply app_nil_r. Qed.

Lemma length_be_bytes n v : length (be_bytes n v) = n.
Proof. unfold be_bytes. by rewrite length_rev, length_le_bytes. Qed.

Lemma be_value_bytes n v : be_value (be_bytes n v) = v mod 2^(8 * Z.of_nat n).
Proof. unfold be_value, be_bytes. by rewrite rev_involutive, le_value_bytes. Qed.

Lemma c_string_no_nul s : Forall (fun b => b <> 0) s -> c_string s = s.
Proof.
  induction 1 as [|b s Hb Hs IH]; [done|]. cbn [c_string]. rewrite (proj2 (Z.eqb_neq b 0)) by done. by rewrite IH.
Qed.

Lemma c_string_app s t : Forall (fun b => b <> 0) s -> c_string (s ++ 0 :: t) = s.
Proof.
  induction 1 as [|b s Hb Hs IH]; [done|]. cbn [c_string app]. rewrite (proj2 (Z.eqb_neq b 0)) by done. by rewrite IH.
Qed.
