(* ===== verification/UblkCmd.v ===== *)
(** * The ublk command ABI and its packed encodings

    include/ublk_cmd.h (commands, flags, I/O descriptors), the [user_data]
    and offset encodings of include/ublksrv.h and include/ublksrv_priv.h, the
    aio identifiers of include/ublksrv_aio.h, the unique tags of
    targets/include/ublksrv_tgt.h and the control-opcode table of
    lib/ublksrv_cmd.c.  An [assert] that fails is [None]. *)

From S2P Require Import Prelude.

(** ** ioctl numbers (asm-generic/ioctl.h) *)
Definition _IOC_NONE : Z := 0.
Definition _IOC_WRITE : Z := 1.
Definition _IOC_READ : Z := 2.

Definition _IOC (dir type nr size : Z) : Z :=
  u32 (Z.lor (Z.lor (Z.lor (Z.shiftl dir 30) (Z.shiftl type 8)) nr) (Z.shiftl size 16)).
Definition _IOC_NR (op : Z) : Z := Z.land op 255.
Definition _IOC_TYPE (op : Z) : Z := Z.land (Z.shiftr op 8) 255.
Definition _IOC_SIZE (op : Z) : Z := Z.land (Z.shiftr op 16) (2^14 - 1).
Definition _IOC_DIR (op : Z) : Z := Z.land (Z.shiftr op 30) 3.

(** ['u'] *)
Definition UBLK_IOC_TYPE : Z := 117.
Definition sizeof_ublksrv_ctrl_cmd : Z := 32.
Definition sizeof_ublksrv_io_cmd : Z := 16.
Definition sizeof_ublk_batch_io : Z := 16.
Definition sizeof_ublksrv_io_desc : Z := 24.

Definition _IOR (nr size : Z) : Z := _IOC _IOC_READ UBLK_IOC_TYPE nr size.
Definition _IOWR (nr size : Z) : Z := _IOC (Z.lor _IOC_READ _IOC_WRITE) UBLK_IOC_TYPE nr size.

(** ** Admin commands *)
Definition UBLK_CMD_GET_QUEUE_AFFINITY : Z := 0x01.
Definition UBLK_CMD_GET_DEV_INFO : Z := 0x02.
Definition UBLK_CMD_ADD_DEV : Z := 0x04.
Definition UBLK_CMD_DEL_DEV : Z := 0x05.
Definition UBLK_CMD_START_DEV : Z := 0x06.
Definition UBLK_CMD_STOP_DEV : Z := 0x07.
Definition UBLK_CMD_SET_PARAMS : Z := 0x08.
Definition UBLK_CMD_GET_PARAMS : Z := 0x09.
Definition UBLK_CMD_START_USER_RECOVERY : Z := 0x10.
Definition UBLK_CMD_END_USER_RECOVERY : Z := 0x11.
Definition UBLK_CMD_GET_DEV_INFO2 : Z := 0x12.

Definition UBLK_U_CMD_GET_QUEUE_AFFINITY : Z := _IOR UBLK_CMD_GET_QUEUE_AFFINITY sizeof_ublksrv_ctrl_cmd.
Definition UBLK_U_CMD_GET_DEV_INFO : Z := _IOR UBLK_CMD_GET_DEV_INFO sizeof_ublksrv_ctrl_cmd.
Definition UBLK_U_CMD_ADD_DEV : Z := _IOWR UBLK_CMD_ADD_DEV sizeof_ublksrv_ctrl_cmd.
Definition UBLK_U_CMD_DEL_DEV : Z := _IOWR UBLK_CMD_DEL_DEV sizeof_ublksrv_ctrl_cmd.
Definition UBLK_U_CMD_START_DEV : Z := _IOWR UBLK_CMD_START_DEV sizeof_ublksrv_ctrl_cmd.
Definition UBLK_U_CMD_STOP_DEV : Z := _IOWR UBLK_CMD_STOP_DEV sizeof_ublksrv_ctrl_cmd.
Definition UBLK_U_CMD_SET_PARAMS : Z := _IOWR UBLK_CMD_SET_PARAMS sizeof_ublksrv_ctrl_cmd.
Definition UBLK_U_CMD_GET_PARAMS : Z := _IOR UBLK_CMD_GET_PARAMS sizeof_ublksrv_ctrl_cmd.
Definition UBLK_U_CMD_START_USER_RECOVERY : Z := _IOWR UBLK_CMD_START_USER_RECOVERY sizeof_ublksrv_ctrl_cmd.
Definition UBLK_U_CMD_END_USER_RECOVERY : Z := _IOWR UBLK_CMD_END_USER_RECOVERY sizeof_ublksrv_ctrl_cmd.
Definition UBLK_U_CMD_GET_DEV_INFO2 : Z := _IOR UBLK_CMD_GET_DEV_INFO2 sizeof_ublksrv_ctrl_cmd.
Definition UBLK_U_CMD_GET_FEATURES : Z := _IOR 0x13 sizeof_ublksrv_ctrl_cmd.
Definition UBLK_U_CMD_DEL_DEV_ASYNC : Z := _IOR 0x14 sizeof_ublksrv_ctrl_cmd.

(** ** I/O commands *)
Definition UBLK_IO_FETCH_REQ : Z := 0x20.
Definition UBLK_IO_COMMIT_AND_FETCH_REQ : Z := 0x21.
Definition UBLK_IO_NEED_GET_DATA : Z := 0x22.
Definition UBLK_U_IO_REGISTER_IO_BUF : Z := _IOWR 0x23 sizeof_ublksrv_io_cmd.
Definition UBLK_U_IO_UNREGISTER_IO_BUF : Z := _IOWR 0x24 sizeof_ublksrv_io_cmd.
Definition UBLK_U_IO_PREP_IO_CMDS : Z := _IOWR 0x25 sizeof_ublk_batch_io.
Definition UBLK_U_IO_COMMIT_IO_CMDS : Z := _IOWR 0x26 sizeof_ublk_batch_io.
Definition UBLK_U_IO_FETCH_IO_CMDS : Z := _IOWR 0x27 sizeof_ublk_batch_io.

Definition UBLK_IO_RES_OK : Z := 0.
Definition UBLK_IO_RES_NEED_GET_DATA : Z := 1.
Definition UBLK_IO_RES_ABORT : Z := - ENODEV.

Definition UBLKSRV_CMD_BUF_OFFSET : Z := 0.
Definition UBLKSRV_IO_BUF_OFFSET : Z := 0x80000000.
Definition UBLK_MAX_QUEUE_DEPTH : Z := 4096.
Definition UBLK_IO_BUF_BITS : Z := 25.
Definition UBLK_IO_BUF_BITS_MASK : Z := Z.shiftl 1 UBLK_IO_BUF_BITS - 1.
Definition UBLK_TAG_OFF : Z := UBLK_IO_BUF_BITS.
Definition UBLK_TAG_BITS : Z := 16.
Definition UBLK_QID_OFF : Z := UBLK_TAG_OFF + UBLK_TAG_BITS.
Definition UBLK_QID_BITS : Z := 12.
Definition UBLKSRV_IO_BUF_TOTAL_BITS : Z := UBLK_QID_OFF + UBLK_QID_BITS.
Definition UBLKSRV_IO_BUF_TOTAL_SIZE : Z := Z.shiftl 1 UBLKSRV_IO_BUF_TOTAL_BITS.

(** ** Device feature flags and states *)
Definition UBLK_F_SUPPORT_ZERO_COPY : Z := bit 0.
Definition UBLK_F_URING_CMD_COMP_IN_TASK : Z := bit 1.
Definition UBLK_F_NEED_GET_DATA : Z := bit 2.
Definition UBLK_F_USER_RECOVERY : Z := bit 3.
Definition UBLK_F_USER_RECOVERY_REISSUE : Z := bit 4.
Definition UBLK_F_UNPRIVILEGED_DEV : Z := bit 5.
Definition UBLK_F_CMD_IOCTL_ENCODE : Z := bit 6.
Definition UBLK_F_USER_COPY : Z := bit 7.
Definition UBLK_F_ZONED : Z := bit 8.
Definition UBLK_F_USER_RECOVERY_FAIL_IO : Z := bit 9.
Definition UBLK_F_UPDATE_SIZE : Z := bit 10.
Definition UBLK_F_AUTO_BUF_REG : Z := bit 11.
Definition UBLK_F_BATCH_IO : Z := bit 15.

Definition UBLK_S_DEV_DEAD : Z := 0.
Definition UBLK_S_DEV_LIVE : Z := 1.
Definition UBLK_S_DEV_QUIESCED : Z := 2.
Definition UBLK_S_DEV_FAIL_IO : Z := 3.

Definition UBLKSRV_F_NEED_EVENTFD : Z := bit 1.
Definition UBLKSRV_F_NEED_POLL : Z := bit 2.

(** ** I/O descriptors *)
Definition UBLK_IO_OP_READ : Z := 0.
Definition UBLK_IO_OP_WRITE : Z := 1.
Definition UBLK_IO_OP_FLUSH : Z := 2.
Definition UBLK_IO_OP_DISCARD : Z := 3.
Definition UBLK_IO_OP_WRITE_SAME : Z := 4.
Definition UBLK_IO_OP_WRITE_ZEROES : Z := 5.
Definition UBLK_IO_F_FUA : Z := bit 13.
Definition UBLK_IO_F_NOUNMAP : Z := bit 15.

Record ublksrv_io_desc := mk_iod {
  op_flags : Z;      (* __u32: op in bits 0-7, flags in bits 8-31 *)
  nr_sectors : Z;    (* __u32 *)
  start_sector : Z;  (* __u64 *)
  iod_addr : Z       (* __u64 *)
}.

Definition ublksrv_get_op (iod : ublksrv_io_desc) : Z := u8 (Z.land (op_flags iod) 0xff).
Definition ublksrv_get_flags (iod : ublksrv_io_desc) : Z := Z.shiftr (op_flags iod) 8.

(** [struct ublksrv_io_cmd], shipped in the SQE of a per-tag I/O command. *)
Record ublksrv_io_cmd := mk_io_cmd {
  ioc_q_id : Z;    (* __u16 *)
  ioc_tag : Z;     (* __u16 *)
  ioc_result : Z;  (* __s32 *)
  ioc_addr : Z     (* __u64 *)
}.

(** [struct ublk_batch_io], shipped in the SQE of a batch command. *)
Record ublk_batch_io := mk_batch_io {
  bio_q_id : Z;        (* __u16 *)
  bio_flags : Z;       (* __u16 *)
  bio_nr_elem : Z;     (* __u16 *)
  bio_elem_bytes : Z   (* __u8; the reserved fields are always zeroed *)
}.
Definition UBLK_BATCH_F_HAS_BUF_ADDR : Z := bit 1.

(** [struct ublksrv_ctrl_cmd], shipped in the SQE of a control command. *)
Record ublksrv_ctrl_cmd := mk_ctrl_cmd {
  cc_dev_id : Z;        (* __u32 *)
  cc_queue_id : Z;      (* __u16 *)
  cc_len : Z;           (* __u16 *)
  cc_addr : Z;          (* __u64 *)
  cc_data0 : Z;         (* __u64 *)
  cc_dev_path_len : Z   (* __u16 *)
}.

(** ** user_data *)
Definition UBLK_IO_OP_EVENTFD : Z := 0xe0.
Definition UBLK_IO_OP_EPOLLFD : Z := 0xe1.

Definition build_user_data (tag op tgt_data is_target_io : Z) : option Z :=
  if (Z.shiftr tag 16 =? 0) && (Z.shiftr op 8 =? 0) && (Z.shiftr tgt_data 16 =? 0)
  then Some (Z.lor (Z.lor (Z.lor tag (u32 (Z.shiftl op 16)))
                          (u64 (Z.shiftl tgt_data 24)))
                   (u64 (Z.shiftl is_target_io 63)))
  else None.

Definition user_data_to_tag (user_data : Z) : Z := Z.land user_data 0xffff.
Definition user_data_to_op (user_data : Z) : Z := Z.land (Z.shiftr user_data 16) 0xff.
Definition user_data_to_tgt_data (user_data : Z) : Z := Z.land (Z.shiftr user_data 24) 0xffff.

Definition build_internal_data (op : Z) : option Z :=
  if Z.shiftr op 8 =? 0
  then Some (Z.lor (u32 (Z.shiftl op 16)) (u64 (Z.shiftl 3 62)))
  else None.

Definition is_internal_io (user_data : Z) : bool := has user_data (bit 62).
Definition is_target_io (user_data : Z) : bool := has user_data (bit 63).

(** ** Offsets into the ublk char device for user copy *)
Definition ublk_pos (q_id tag offset : Z) : option Z :=
  if Z.land offset (Z.lnot UBLK_IO_BUF_BITS_MASK) =? 0
  then Some (u64 (UBLKSRV_IO_BUF_OFFSET +
               Z.lor (Z.lor (u64 (Z.shiftl q_id UBLK_QID_OFF))
                            (u64 (Z.shiftl tag UBLK_TAG_OFF))) offset))
  else None.

(** ** Automatic buffer registration data *)
Record ublk_auto_buf_reg := mk_auto_buf_reg {
  abr_index : Z;      (* __u16 *)
  abr_flags : Z;      (* __u8 *)
  abr_reserved0 : Z;  (* __u8 *)
  abr_reserved1 : Z   (* __u32 *)
}.

Definition ublk_sqe_addr_to_auto_buf_reg (sqe_addr : Z) : ublk_auto_buf_reg :=
  mk_auto_buf_reg (u16 sqe_addr) (u8 (Z.shiftr sqe_addr 16))
                  (u8 (Z.shiftr sqe_addr 24)) (u32 (Z.shiftr sqe_addr 32)).

Definition ublk_auto_buf_reg_to_sqe_addr (buf : ublk_auto_buf_reg) : Z :=
  Z.lor (Z.lor (Z.lor (abr_index buf) (u64 (Z.shiftl (abr_flags buf) 16)))
               (u64 (Z.shiftl (abr_reserved0 buf) 24)))
        (u64 (Z.shiftl (abr_reserved1 buf) 32)).

(** ** aio request identifiers *)
Definition ublksrv_aio_qid (val : Z) : Z := Z.land (Z.shiftr val 13) 0x7ff.
Definition ublksrv_aio_tag (val : Z) : Z := Z.land val 0x1fff.
Definition ublksrv_aio_pid_tag (qid tag : Z) : Z := Z.lor tag (u32 (Z.shiftl qid 13)).

(** ** Unique tags *)
Definition UBLK_UNIQUE_TAG_BITS : Z := 16.
Definition UBLK_UNIQUE_TAG_MASK : Z := Z.shiftl 1 UBLK_UNIQUE_TAG_BITS - 1.
Definition ublk_unique_tag (hwq tag : Z) : Z :=
  u32 (Z.lor (Z.shiftl hwq UBLK_UNIQUE_TAG_BITS) (Z.land tag UBLK_UNIQUE_TAG_MASK)).
Definition ublk_unique_tag_to_hwq (unique_tag : Z) : Z :=
  u16 (Z.shiftr unique_tag UBLK_UNIQUE_TAG_BITS).
Definition ublk_unique_tag_to_tag (unique_tag : Z) : Z :=
  u16 (Z.land unique_tag UBLK_UNIQUE_TAG_MASK).

(** ** The legacy-to-ioctl table of lib/ublksrv_cmd.c

    A C array with designated initialisers: the indices that are not named
    hold 0. *)
Definition ctrl_cmd_op (op : Z) : Z :=
  if op =? UBLK_CMD_GET_QUEUE_AFFINITY then UBLK_U_CMD_GET_QUEUE_AFFINITY
  else if op =? UBLK_CMD_GET_DEV_INFO then UBLK_U_CMD_GET_DEV_INFO
  else if op =? UBLK_CMD_ADD_DEV then UBLK_U_CMD_ADD_DEV
  else if op =? UBLK_CMD_DEL_DEV then UBLK_U_CMD_DEL_DEV
  else if op =? UBLK_CMD_START_DEV then UBLK_U_CMD_START_DEV
  else if op =? UBLK_CMD_STOP_DEV then UBLK_U_CMD_STOP_DEV
  else if op =? UBLK_CMD_SET_PARAMS then UBLK_U_CMD_SET_PARAMS
  else if op =? UBLK_CMD_GET_PARAMS then UBLK_U_CMD_GET_PARAMS
  else if op =? UBLK_CMD_START_USER_RECOVERY then UBLK_U_CMD_START_USER_RECOVERY
  else if op =? UBLK_CMD_END_USER_RECOVERY then UBLK_U_CMD_END_USER_RECOVERY
  else if op =? UBLK_CMD_GET_DEV_INFO2 then UBLK_U_CMD_GET_DEV_INFO2
  else 0.

Definition legacy_op_to_ioctl (op : Z) : option Z :=
  if (_IOC_TYPE op =? 0) && (_IOC_DIR op =? 0) && (_IOC_SIZE op =? 0) &&
     (UBLK_CMD_GET_QUEUE_AFFINITY <=? op) && (op <=? UBLK_CMD_GET_DEV_INFO2)
  then Some (ctrl_cmd_op op)
  else None.

(** ** Properties of the encodings

    A packed word is first turned into a sum of its fields, after which the
    accessors are divisions and remainders. *)

Lemma user_data_sum tag op tgt_data t :
  is_u16 tag -> is_u8 op -> is_u16 tgt_data -> 0 <= t <= 1 ->
  build_user_data tag op tgt_data t =
    Some (tag + op * 2^16 + tgt_data * 2^24 + t * 2^63).
Proof.
  unfold is_u16, is_u8. intros Htag Hop Htd Ht. unfold build_user_data.
  rewrite !Z.shiftr_div_pow2, !Z.div_small by lia. cbn [Z.eqb andb]. f_equal.
  unfold u32, u64. rewrite !Z.mod_small by (rewrite Z.shiftl_mul_pow2; lia).
  rewrite (lor_shiftl_add tag), (lor_shiftl_add (tag + _)), lor_shiftl_add by lia.
  done.
Qed.

Lemma build_user_data_fits tag op tgt_data t :
  0 <= tag -> 0 <= op -> 0 <= tgt_data ->
  is_Some (build_user_data tag op tgt_data t) <->
  is_u16 tag /\ is_u8 op /\ is_u16 tgt_data.
Proof.
  intros. unfold build_user_data. rewrite !Z.shiftr_div_pow2 by lia.
  unfold is_u16, is_u8. split.
  - intros Hs. destruct (_ && _) eqn:E; [|by apply is_Some_None in Hs].
    bool_prop. repeat match goal with
      | H : _ / _ = 0 |- _ => apply Z.div_small_iff in H; [|lia] end. lia.
  - intros (?&?&?). rewrite !Z.div_small by lia. cbn. by eexists.
Qed.

Ltac packed :=
  unfold user_data_to_tag, user_data_to_op, user_data_to_tgt_data;
  change 0xffff with (2^16 - 1); change 0xff with (2^8 - 1);
  rewrite ?Z.shiftr_div_pow2, ?land_ones_mod by lia;
  Z.div_mod_to_equations; lia.

Lemma testbit_div x k : 0 <= k -> Z.testbit x k = (x / 2^k mod 2 =? 1).
Proof.
  intros Hk. rewrite Z.testbit_odd, Z.shiftr_div_pow2 by done.
  rewrite Zmod_odd. by destruct (Z.odd _).
Qed.

Lemma is_target_io_div ud : is_target_io ud = (ud / 2^63 mod 2 =? 1).
Proof. unfold is_target_io. rewrite has_bit, testbit_div by lia. done. Qed.

Lemma is_internal_io_div ud : is_internal_io ud = (ud / 2^62 mod 2 =? 1).
Proof. unfold is_internal_io. rewrite has_bit, testbit_div by lia. done. Qed.

Lemma user_data_decode tag op tgt_data t :
  is_u16 tag -> is_u8 op -> is_u16 tgt_data -> 0 <= t <= 1 ->
  let ud := tag + op * 2^16 + tgt_data * 2^24 + t * 2^63 in
  user_data_to_tag ud = tag /\ user_data_to_op ud = op /\
  user_data_to_tgt_data ud = tgt_data /\
  is_target_io ud = (t =? 1) /\ is_internal_io ud = false /\ is_u64 ud.
Proof.
  intros Htag Hop Htd Ht ud. subst ud.
  rewrite is_target_io_div, is_internal_io_div. unfold_width.
  assert (t = 0 \/ t = 1) as [-> | ->] by lia; repeat split; first [packed | lia].
Qed.

(** Completion dispatch relies on this: every [user_data] built for a command
    gives back its tag, opcode, payload and target bit, and is never taken
    for an internal event; [build_user_data] succeeds (its assertion holds)
    exactly when the three fields fit their 16, 8 and 16 bits. *)
Theorem user_data_roundtrip tag op tgt_data t :
  0 <= tag -> 0 <= op -> 0 <= tgt_data -> 0 <= t <= 1 ->
  (is_Some (build_user_data tag op tgt_data t) <-> is_u16 tag /\ is_u8 op /\ is_u16 tgt_data) /\
  forall ud, build_user_data tag op tgt_data t = Some ud ->
    user_data_to_tag ud = tag /\ user_data_to_op ud = op /\
    user_data_to_tgt_data ud = tgt_data /\
    is_target_io ud = (t =? 1) /\ is_internal_io ud = false /\ is_u64 ud.
Proof.
  intros Htag Hop Htd Ht. pose proof (build_user_data_fits tag op tgt_data t Htag Hop Htd) as Hfits.
  split; [done|]. intros ud Hud.
  assert (is_u16 tag /\ is_u8 op /\ is_u16 tgt_data) as (H1&H2&H3)
    by (apply Hfits; by eexists).
  rewrite user_data_sum in Hud by done. injection Hud as <-. by apply user_data_decode.
Qed.

Lemma user_data_roundtrip_witness :
  build_user_data 5 0x21 7 1 = Some (5 + 0x21 * 2^16 + 7 * 2^24 + 2^63) /\
  user_data_to_op (5 + 0x21 * 2^16 + 7 * 2^24 + 2^63) = 0x21.
Proof.
  split; [reflexivity|].
  destruct (user_data_roundtrip 5 0x21 7 1 ltac:(lia) ltac:(lia) ltac:(lia) ltac:(lia)) as [_ H].
  exact (proj1 (proj2 (H _ eq_refl))).
Defined.

(** The [user_data] of the library's own poll requests: both marker bits are
    set and the opcode survives. *)
Lemma internal_data_spec op ud :
  0 <= op -> build_internal_data op = Some ud ->
  is_target_io ud = true /\ is_internal_io ud = true /\ user_data_to_op ud = op.
Proof.
  intros Hop Hud. unfold build_internal_data in Hud.
  rewrite Z.shiftr_div_pow2 in Hud by lia.
  destruct (_ =? _) eqn:E; [|done]. bool_prop.
  apply Z.div_small_iff in E; [|lia]. injection Hud as <-.
  unfold u32, u64. rewrite !Z.mod_small by (rewrite Z.shiftl_mul_pow2; lia).
  rewrite lor_shiftl_add, Z.shiftl_mul_pow2 by (rewrite ?Z.shiftl_mul_pow2; lia).
  rewrite is_target_io_div, is_internal_io_div.
  repeat split; first [packed | apply Z.eqb_eq; Z.div_mod_to_equations; lia].
Qed.

(** *** Buffer offsets *)

Ltac pos_consts :=
  unfold UBLKSRV_IO_BUF_TOTAL_BITS, UBLK_QID_OFF, UBLK_TAG_OFF, UBLK_QID_BITS, UBLK_TAG_BITS,
    UBLK_IO_BUF_BITS, UBLKSRV_IO_BUF_OFFSET in *.

Lemma ublk_pos_sum q_id tag off :
  0 <= q_id < 2^UBLK_QID_BITS -> 0 <= tag < 2^UBLK_TAG_BITS -> 0 <= off < 2^UBLK_IO_BUF_BITS ->
  ublk_pos q_id tag off =
    Some (UBLKSRV_IO_BUF_OFFSET + (q_id * 2^UBLK_QID_OFF + tag * 2^UBLK_TAG_OFF + off)).
Proof.
  unfold UBLK_QID_BITS, UBLK_TAG_BITS, UBLK_IO_BUF_BITS. intros Hq Ht Ho. unfold ublk_pos.
  change (Z.lnot UBLK_IO_BUF_BITS_MASK) with (Z.lnot (2^25 - 1)).
  rewrite land_lnot_ones, (Z.mod_small off), Z.sub_diag by lia. cbn [Z.eqb]. f_equal.
  unfold u64, UBLK_QID_OFF, UBLK_TAG_OFF, UBLK_IO_BUF_BITS, UBLK_TAG_BITS, UBLKSRV_IO_BUF_OFFSET.
  rewrite (Z.mod_small (Z.shiftl q_id _)), (Z.mod_small (Z.shiftl tag _))
    by (rewrite Z.shiftl_mul_pow2; lia).
  rewrite (Z.lor_comm _ off), (Z.lor_comm (Z.shiftl q_id _)), Z.lor_assoc.
  rewrite (lor_shiftl_add off), lor_shiftl_add by lia.
  rewrite Z.mod_small; lia.
Qed.

(** Every byte of every I/O buffer has its own offset in the ublk char
    device: for queue, tag and offset within their fields [ublk_pos] succeeds,
    stays inside the window of 2^53 bytes above [UBLKSRV_IO_BUF_OFFSET], and
    two calls return the same position only for the same arguments. *)
Theorem ublk_pos_injective q1 t1 o1 q2 t2 o2 :
  0 <= q1 < 2^UBLK_QID_BITS -> 0 <= t1 < 2^UBLK_TAG_BITS -> 0 <= o1 < 2^UBLK_IO_BUF_BITS ->
  0 <= q2 < 2^UBLK_QID_BITS -> 0 <= t2 < 2^UBLK_TAG_BITS -> 0 <= o2 < 2^UBLK_IO_BUF_BITS ->
  (exists p, ublk_pos q1 t1 o1 = Some p /\
     UBLKSRV_IO_BUF_OFFSET <= p < UBLKSRV_IO_BUF_OFFSET + UBLKSRV_IO_BUF_TOTAL_SIZE) /\
  (ublk_pos q1 t1 o1 = ublk_pos q2 t2 o2 -> q1 = q2 /\ t1 = t2 /\ o1 = o2).
Proof.
  intros. rewrite !ublk_pos_sum by done. split.
  - eexists; split; [done|]. unfold UBLKSRV_IO_BUF_TOTAL_SIZE. rewrite Z.shiftl_1_l. pos_consts. cbn [Z.add Pos.add] in *. lia.
  - intros [= He]. pos_consts. cbn [Z.add] in *. lia.
Qed.

Lemma ublk_pos_injective_witness :
  ublk_pos 1 3 512 = Some (0x80000000 + (2^41 + 3 * 2^25 + 512)) /\
  (ublk_pos 1 3 512 = ublk_pos 1 4 512 -> 1 = 1 /\ 3 = 4 /\ 512 = 512).
Proof.
  split; [reflexivity|].
  exact (proj2 (ublk_pos_injective 1 3 512 1 4 512 ltac:(pos_consts; lia) ltac:(pos_consts; lia)
    ltac:(pos_consts; lia) ltac:(pos_consts; lia) ltac:(pos_consts; lia) ltac:(pos_consts; lia))).
Defined.

(** *** Automatic buffer registration *)
Definition wf_auto_buf_reg (b : ublk_auto_buf_reg) : Prop :=
  is_u16 (abr_index b) /\ is_u8 (abr_flags b) /\ is_u8 (abr_reserved0 b) /\ is_u32 (abr_reserved1 b).

Lemma auto_buf_reg_sum b : wf_auto_buf_reg b ->
  ublk_auto_buf_reg_to_sqe_addr b =
    abr_index b + abr_flags b * 2^16 + abr_reserved0 b * 2^24 + abr_reserved1 b * 2^32.
Proof.
  unfold wf_auto_buf_reg. unfold_width. intros (H1&H2&H3&H4).
  unfold ublk_auto_buf_reg_to_sqe_addr, u64.
  rewrite !Z.mod_small by (rewrite Z.shiftl_mul_pow2; lia).
  rewrite (lor_shiftl_add (abr_index b)), (lor_shiftl_add (_ + _)), lor_shiftl_add by lia.
  done.
Qed.

(** The buffer-registration data stored in [sqe->addr] and its decoded
    structure are in bijection: each conversion undoes the other. *)
Theorem auto_buf_reg_roundtrip b a :
  wf_auto_buf_reg b -> is_u64 a ->
  ublk_sqe_addr_to_auto_buf_reg (ublk_auto_buf_reg_to_sqe_addr b) = b /\
  ublk_auto_buf_reg_to_sqe_addr (ublk_sqe_addr_to_auto_buf_reg a) = a.
Proof.
  intros Hb Ha. split.
  - rewrite auto_buf_reg_sum by done. destruct b as [i f r0 r1].
    unfold wf_auto_buf_reg, ublk_sqe_addr_to_auto_buf_reg in *. unfold_width. cbn [abr_index abr_flags abr_reserved0 abr_reserved1] in *.
    rewrite !Z.shiftr_div_pow2 by lia.
    f_equal; Z.div_mod_to_equations; lia.
  - rewrite auto_buf_reg_sum.
    + unfold ublk_sqe_addr_to_auto_buf_reg. unfold_width. cbn [abr_index abr_flags abr_reserved0 abr_reserved1].
      rewrite !Z.shiftr_div_pow2 by lia. Z.div_mod_to_equations; lia.
    + repeat split; cbn; eauto with width; apply Z.mod_pos_bound; lia.
Qed.

Lemma auto_buf_reg_roundtrip_witness :
  ublk_auto_buf_reg_to_sqe_addr (mk_auto_buf_reg 9 1 0 0) = 65545 /\
  ublk_sqe_addr_to_auto_buf_reg (ublk_auto_buf_reg_to_sqe_addr (mk_auto_buf_reg 9 1 0 0))
    = mk_auto_buf_reg 9 1 0 0.
Proof.
  split; [reflexivity|].
  refine (proj1 (auto_buf_reg_roundtrip (mk_auto_buf_reg 9 1 0 0) 0 _ _));
    unfold wf_auto_buf_reg, is_u64, is_u32, is_u16, is_u8; cbn; lia.
Defined.

(** *** aio identifiers and unique tags *)

Lemma aio_id_roundtrip qid tag : 0 <= qid < 2^11 -> 0 <= tag < 2^13 ->
  ublksrv_aio_qid (ublksrv_aio_pid_tag qid tag) = qid /\
  ublksrv_aio_tag (ublksrv_aio_pid_tag qid tag) = tag.
Proof.
  intros Hq Ht. unfold ublksrv_aio_qid, ublksrv_aio_tag, ublksrv_aio_pid_tag, u32.
  rewrite Z.mod_small by (rewrite Z.shiftl_mul_pow2; lia).
  rewrite lor_shiftl_add by lia.
  change 0x7ff with (2^11 - 1). change 0x1fff with (2^13 - 1).
  rewrite Z.shiftr_div_pow2, !land_ones_mod by lia.
  split; Z.div_mod_to_equations; lia.
Qed.

Lemma unique_tag_roundtrip hwq tag : is_u16 hwq -> is_u16 tag ->
  ublk_unique_tag_to_hwq (ublk_unique_tag hwq tag) = hwq /\
  ublk_unique_tag_to_tag (ublk_unique_tag hwq tag) = tag.
Proof.
  unfold ublk_unique_tag_to_hwq, ublk_unique_tag_to_tag, ublk_unique_tag,
    UBLK_UNIQUE_TAG_MASK, UBLK_UNIQUE_TAG_BITS. unfold_width. intros Hq Ht.
  change (Z.shiftl 1 16 - 1) with (2^16 - 1). rewrite Z.lor_comm.
  rewrite (land_ones_mod tag), (Z.mod_small tag) by lia.
  rewrite lor_shiftl_add, (Z.mod_small (_ + _)), Z.shiftr_div_pow2, land_ones_mod by lia.
  split; Z.div_mod_to_equations; lia.
Qed.

(** The two identifiers that carry a queue and a tag through the target
    code, the aio id (13-bit tag, 11-bit queue) and the unique tag (16 bits
    each), both give back the queue and the tag they were built from. *)
Theorem queue_tag_ids_roundtrip qid tag :
  0 <= qid < 2^11 -> 0 <= tag < 2^13 ->
  ublksrv_aio_qid (ublksrv_aio_pid_tag qid tag) = qid /\
  ublksrv_aio_tag (ublksrv_aio_pid_tag qid tag) = tag /\
  ublk_unique_tag_to_hwq (ublk_unique_tag qid tag) = qid /\
  ublk_unique_tag_to_tag (ublk_unique_tag qid tag) = tag.
Proof.
  intros Hq Ht. destruct (aio_id_roundtrip qid tag) as [? ?]; [done..|].
  destruct (unique_tag_roundtrip qid tag) as [? ?]; unfold_width; [lia..|]. done.
Qed.

Lemma queue_tag_ids_roundtrip_witness :
  ublksrv_aio_pid_tag 2 5 = 16389 /\ ublksrv_aio_qid (ublksrv_aio_pid_tag 2 5) = 2.
Proof.
  split; [reflexivity|].
  exact (proj1 (queue_tag_ids_roundtrip 2 5 ltac:(lia) ltac:(lia))).
Defined.

(** *** Control opcodes *)

(** The opcodes the conversion table covers. *)
Definition legacy_ops : list Z :=
  [UBLK_CMD_GET_QUEUE_AFFINITY; UBLK_CMD_GET_DEV_INFO; UBLK_CMD_ADD_DEV; UBLK_CMD_DEL_DEV;
   UBLK_CMD_START_DEV; UBLK_CMD_STOP_DEV; UBLK_CMD_SET_PARAMS; UBLK_CMD_GET_PARAMS;
   UBLK_CMD_START_USER_RECOVERY; UBLK_CMD_END_USER_RECOVERY; UBLK_CMD_GET_DEV_INFO2].

Lemma legacy_ops_ok : Forall (fun op => exists v, legacy_op_to_ioctl op = Some v /\
  _IOC_NR v = op /\ _IOC_TYPE v = UBLK_IOC_TYPE /\ _IOC_SIZE v = sizeof_ublksrv_ctrl_cmd) legacy_ops.
Proof. repeat constructor; eexists; repeat split; reflexivity. Qed.

Lemma legacy_op_hole op v :
  op ∉ legacy_ops -> legacy_op_to_ioctl op = Some v -> v = 0.
Proof.
  unfold legacy_ops. rewrite !not_elem_of_cons. intros Hn.
  unfold legacy_op_to_ioctl. destruct (_ && _); [|done]. intros [= <-].
  unfold ctrl_cmd_op.
  repeat match goal with |- context [?a =? ?b] => destruct (Z.eqb_spec a b); [tauto|] end.
  done.
Qed.

(** Converting a legacy control opcode to its ioctl encoding keeps the
    command: the result is non-zero exactly for the eleven legacy commands,
    and then its NR field is the opcode, its type is 'u' and its size is that
    of the control command. *)
Theorem legacy_op_to_ioctl_spec op v :
  legacy_op_to_ioctl op = Some v ->
  ((op ∈ legacy_ops) /\ _IOC_NR v = op /\ _IOC_TYPE v = UBLK_IOC_TYPE /\
   _IOC_SIZE v = sizeof_ublksrv_ctrl_cmd) \/ ((op ∉ legacy_ops) /\ v = 0).
Proof.
  intros Hv. destruct (decide (op ∈ legacy_ops)) as [Hin|Hn].
  - left. split; [done|]. pose proof legacy_ops_ok as Hall.
    rewrite Forall_forall in Hall. destruct (Hall _ Hin) as (v1&Hv1&?). congruence.
  - right. split; [done|]. by eapply legacy_op_hole.
Qed.

Lemma legacy_op_to_ioctl_spec_witness :
  legacy_op_to_ioctl UBLK_CMD_ADD_DEV = Some UBLK_U_CMD_ADD_DEV /\
  _IOC_NR UBLK_U_CMD_ADD_DEV = UBLK_CMD_ADD_DEV.
Proof.
  split; [reflexivity|].
  destruct (legacy_op_to_ioctl_spec UBLK_CMD_ADD_DEV _ eq_refl) as [H|[H _]].
  - exact (proj1 (proj2 H)).
  - exfalso. apply H. unfold legacy_ops. do 2 right. left.
Defined.

(** *** Operation and flags of a descriptor *)

Lemma op_flags_split iod : is_u32 (op_flags iod) ->
  op_flags iod = ublksrv_get_op iod + ublksrv_get_flags iod * 2^8.
Proof.
  intros H. unfold ublksrv_get_op, ublksrv_get_flags, u8.
  change 0xff with (2^8 - 1). rewrite land_ones_mod, Z.shiftr_div_pow2 by lia.
  Z.div_mod_to_equations. lia.
Qed.

(** A flag tested on the shifted word is bit [k + 8] of the descriptor. *)
Lemma flag_bit_after_shift iod k : 8 <= k ->
  has (ublksrv_get_flags iod) (bit k) = Z.testbit (op_flags iod) (k + 8).
Proof.
  intros. rewrite has_bit by lia. unfold ublksrv_get_flags.
  rewrite Z.shiftr_spec by lia. done.
Qed.
