(* ===== verification/Uring.v ===== *)
(** * The interface to liburing

    liburing is not part of the repository, so a ring is a type [R] with the
    operations the library calls, given by the class [Uring], and the
    documented behaviour the library relies on, given by [UringLaws].  The
    entries are what the callers store into an SQE; a field that a caller
    leaves as it finds it is [None].  [ring_log] is the sequence of all
    entries handed to the kernel or waiting to be, in order. *)

From S2P Require Import Prelude UblkCmd.

(** ** Submission and completion entries *)

(** The payload of an [IORING_OP_URING_CMD] entry. *)
Inductive uring_cmd_payload :=
| IoCmd (q_id tag : Z) (result : option Z) (addr : Z)
| BatchCmd (cmd : ublk_batch_io)
| CtrlCmd (cmd : ublksrv_ctrl_cmd).

(** What an entry asks for.  [UringCmd] carries the fields stored directly,
    the other constructors the arguments of the [io_uring_prep_*] call. *)
Inductive sqe_op :=
| UringCmd (cmd_op fd flags : Z) (rw_flags sqe_addr len buf_group : option Z)
           (cmd : uring_cmd_payload)
| PrepPollAdd (fd mask : Z)
| PrepPollMultishot (fd mask : Z)
| PrepRead (fd buf len off flags : Z) (fixed_buf : option Z)
| PrepWrite (fd buf len off flags : Z) (fixed_buf : option Z) (rw_flags : Z)
| PrepNop (buf_index rw_flags len flags : Z)
| PrepFsync (fd fsync_flags flags : Z)
| PrepSyncFileRange (fd len off sync_flags flags : Z)
| PrepFallocate (fd mode off len flags : Z)
| PrepSendmsg (fd msg msg_flags : Z) (zc : bool) (flags : Z)
| PrepSend (fd buf len msg_flags : Z) (zc : bool) (flags : Z)
| PrepRecv (fd buf len msg_flags flags : Z)
| PrepBufRegister (tag q_id index : Z) (unregister : bool) (flags : Z).

Record io_uring_sqe := mk_sqe { sqe_user_data : Z; sqe_what : sqe_op }.

Record io_uring_cqe := mk_cqe {
  cqe_user_data : Z;  (* __u64 *)
  cqe_res : Z;        (* __s32 *)
  cqe_flags : Z       (* __u32 *)
}.

Definition IORING_CQE_F_MORE : Z := bit 1.
Definition IOSQE_FIXED_FILE : Z := bit 0.
Definition IOSQE_IO_LINK : Z := bit 2.
Definition IOSQE_BUFFER_SELECT : Z := bit 5.
Definition IOSQE_CQE_SKIP_SUCCESS : Z := bit 6.
Definition IORING_FSYNC_DATASYNC : Z := bit 0.
Definition IORING_NOP_INJECT_RESULT : Z := bit 0.
Definition IORING_NOP_FIXED_BUFFER : Z := bit 3.
Definition RWF_DSYNC : Z := 2.
Definition IORING_URING_CMD_MULTISHOT : Z := bit 1.
Definition IORING_SETUP_CQSIZE : Z := bit 3.
Definition IORING_SETUP_COOP_TASKRUN : Z := bit 8.
Definition POLLIN : Z := 1.

(** ** Rings *)
Class Uring (R : Type) := {
  (** capacity of the submission queue *)
  sq_entries : R -> Z;
  (** entries filled in but not yet consumed by the kernel *)
  sq_pending : R -> list io_uring_sqe;
  (** entries the kernel has consumed *)
  sq_issued : R -> list io_uring_sqe;
  (** [io_uring_get_sqe] followed by the caller's stores; [None] is NULL *)
  io_uring_get_sqe : io_uring_sqe -> R -> option R;
  io_uring_submit : R -> Z * R;
  io_uring_submit_and_wait : Z -> R -> Z * R;
  (** wait count and timeout in seconds ([None] is no timeout) *)
  io_uring_submit_and_wait_timeout : Z -> option Z -> R -> Z * R
}.

Section ring.
Context {R : Type} `{!Uring R}.

Definition io_uring_sq_ready (r : R) : Z := Z.of_nat (length (sq_pending r)).

Definition io_uring_sq_space_left (r : R) : Z := sq_entries r - io_uring_sq_ready r.

Definition ring_log (r : R) : list io_uring_sqe := sq_issued r ++ sq_pending r.

(** [r'] is [r] after the kernel consumed some of the pending entries. *)
Definition submits (r r' : R) : Prop :=
  sq_entries r' = sq_entries r /\
  exists k, sq_issued r' = sq_issued r ++ take k (sq_pending r) /\
            sq_pending r' = drop k (sq_pending r).

(** The caller's entry [s] is stored when the flag is [true]; [false] is a
    NULL entry. *)
Definition ublksrv_alloc_sqe (s : io_uring_sqe) (r : R) : bool * R :=
  let r1 := if io_uring_sq_space_left r <? 1 then (io_uring_submit r).2 else r in
  match io_uring_get_sqe s r1 with
  | Some r2 => (true, r2)
  | None => (false, r1)
  end.
End ring.

(** What the library relies on: an entry is available exactly when the queue
    has space, entries are queued in order, and submitting moves a prefix of
    the pending entries to the kernel. *)
Class UringLaws (R : Type) `{!Uring R} : Prop := {
  get_sqe_push : forall s (r r' : R), io_uring_get_sqe s r = Some r' ->
    sq_entries r' = sq_entries r /\ sq_issued r' = sq_issued r /\
    sq_pending r' = sq_pending r ++ [s];
  get_sqe_space : forall s (r : R),
    is_Some (io_uring_get_sqe s r) <-> 1 <= io_uring_sq_space_left r;
  submit_submits : forall r : R, submits r (io_uring_submit r).2;
  submit_and_wait_submits : forall n (r : R), submits r (io_uring_submit_and_wait n r).2;
  submit_timeout_submits : forall n t (r : R),
    submits r (io_uring_submit_and_wait_timeout n t r).2
}.

(** A submission that is not refused makes room: the kernel consumes at least
    one entry of a full queue.  Only the theorems that say a command is never
    lost use it. *)
Class UringProgress (R : Type) `{!Uring R} : Prop :=
  submit_progress : forall r : R, 1 <= sq_entries r ->
    1 <= io_uring_sq_space_left (io_uring_submit r).2.

(** A submission that is not refused at all: the kernel consumes everything
    that is pending. *)
Class UringDrain (R : Type) `{!Uring R} : Prop :=
  submit_drains : forall r : R, sq_pending (io_uring_submit r).2 = [].

Section laws.
Context {R : Type} `{!Uring R, !UringLaws R}.

Lemma submits_refl (r : R) : submits r r.
Proof. split; [done|]. exists 0%nat. by rewrite take_0, drop_0, app_nil_r. Qed.

Lemma submits_log (r r' : R) : submits r r' -> ring_log r' = ring_log r.
Proof.
  intros [_ (k&Hi&Hp)]. unfold ring_log. rewrite Hi, Hp, <- app_assoc.
  by rewrite take_drop.
Qed.

Lemma submits_entries (r r' : R) : submits r r' -> sq_entries r' = sq_entries r.
Proof. by intros [? _]. Qed.

Lemma alloc_sqe_spec s (r r' : R) b :
  ublksrv_alloc_sqe s r = (b, r') ->
  ring_log r' = ring_log r ++ (if b then [s] else []) /\
  sq_entries r' = sq_entries r.
Proof.
  unfold ublksrv_alloc_sqe. set (r1 := if io_uring_sq_space_left r <? 1 then _ else _).
  assert (submits r r1) as Hs.
  { subst r1. case_match; [apply submit_submits|apply submits_refl]. }
  destruct (io_uring_get_sqe s r1) as [r2|] eqn:Hg; intros [= <- <-].
  - apply get_sqe_push in Hg as (He&Hi&Hp). split.
    + rewrite <- (submits_log _ _ Hs). unfold ring_log.
      by rewrite Hi, Hp, app_assoc.
    + rewrite He. by apply submits_entries.
  - rewrite app_nil_r. split; [by apply submits_log|by apply submits_entries].
Qed.

Lemma alloc_sqe_progress `{!UringProgress R} s (r : R) :
  1 <= sq_entries r -> exists r', ublksrv_alloc_sqe s r = (true, r').
Proof.
  intros He. unfold ublksrv_alloc_sqe. set (r1 := if io_uring_sq_space_left r <? 1 then _ else _).
  assert (1 <= io_uring_sq_space_left r1) as Hl.
  { subst r1. case_match; [by apply submit_progress|by bool_prop]. }
  apply (get_sqe_space s) in Hl as [r2 Hr2]. rewrite Hr2. by eexists.
Qed.

#[export] Instance drain_progress `{!UringDrain R} : UringProgress R.
Proof.
  intros r He. unfold io_uring_sq_space_left, io_uring_sq_ready.
  rewrite submit_drains, (submits_entries _ _ (submit_submits r)). cbn. lia.
Qed.

Lemma alloc_sqe_room s (r : R) :
  1 <= io_uring_sq_space_left r -> exists r', ublksrv_alloc_sqe s r = (true, r').
Proof.
  intros Hl. unfold ublksrv_alloc_sqe.
  replace (_ <? 1) with false by (symmetry; apply Z.ltb_ge; lia).
  apply (get_sqe_space s) in Hl as [r2 Hr2]. rewrite Hr2. by eexists.
Qed.
End laws.

(** ** Entries changed after they were queued

    A pointer to an entry is a slot of the ring's array: the entry at position
    [n] of the log lives in slot [n mod entries]. *)
Definition sqe_flags (s : io_uring_sqe) : Z :=
  match sqe_what s with
  | UringCmd _ _ f _ _ _ _ _ | PrepRead _ _ _ _ f _ | PrepWrite _ _ _ _ f _ _ | PrepNop _ _ _ f
  | PrepFsync _ _ f | PrepSyncFileRange _ _ _ _ f | PrepFallocate _ _ _ _ f
  | PrepSendmsg _ _ _ _ f | PrepSend _ _ _ _ _ f | PrepRecv _ _ _ _ f | PrepBufRegister _ _ _ _ f => f
  | PrepPollAdd _ _ | PrepPollMultishot _ _ => 0
  end.

Definition sqe_set_flags (f : Z) (s : io_uring_sqe) : io_uring_sqe :=
  mk_sqe (sqe_user_data s)
    match sqe_what s with
    | UringCmd a b _ c d e g h => UringCmd a b f c d e g h
    | PrepRead a b c d _ e => PrepRead a b c d f e
    | PrepWrite a b c d _ e g => PrepWrite a b c d f e g
    | PrepNop a b c _ => PrepNop a b c f
    | PrepFsync a b _ => PrepFsync a b f
    | PrepSyncFileRange a b c d _ => PrepSyncFileRange a b c d f
    | PrepFallocate a b c d _ => PrepFallocate a b c d f
    | PrepSendmsg a b c d _ => PrepSendmsg a b c d f
    | PrepSend a b c d e _ => PrepSend a b c d e f
    | PrepRecv a b c d _ => PrepRecv a b c d f
    | PrepBufRegister a b c d _ => PrepBufRegister a b c d f
    | (PrepPollAdd _ _ | PrepPollMultishot _ _) as w => w
    end.

(** [sqe->flags &= ~IOSQE_IO_LINK] *)
Definition unlink_sqe (s : io_uring_sqe) : io_uring_sqe :=
  sqe_set_flags (Z.land (sqe_flags s) (Z.lnot IOSQE_IO_LINK)) s.

Definition slot_of {R} `{!Uring R} (r : R) (pos : nat) : Z := Z.of_nat pos mod sq_entries r.

(** The slot of the entry obtained last. *)
Definition last_slot {R} `{!Uring R} (r : R) : Z := slot_of r (length (ring_log r) - 1).

Class UringSlots (R : Type) `{!Uring R} := sqe_unlink : Z -> R -> R.

(** A store through the pointer reaches the pending entry in that slot, if
    there is one; what the kernel has consumed is not affected. *)
Class UringSlotsLaws (R : Type) `{!Uring R, !UringSlots R} : Prop := {
  sqe_unlink_entries : forall slot (r : R), sq_entries (sqe_unlink slot r) = sq_entries r;
  sqe_unlink_issued : forall slot (r : R), sq_issued (sqe_unlink slot r) = sq_issued r;
  sqe_unlink_pending : forall slot (r : R), sq_pending (sqe_unlink slot r) =
    imap (fun i s => if slot_of r (length (sq_issued r) + i) =? slot then unlink_sqe s else s) (sq_pending r)
}.

(** ** A concrete ring

    A ring whose kernel consumes everything it is handed; it satisfies the
    laws and runs the witnesses. *)
Module ListRing.
Record ring := mk_ring {
  entries : Z;
  pending : list io_uring_sqe;
  issued : list io_uring_sqe
}.

Definition get_sqe (s : io_uring_sqe) (r : ring) : option ring :=
  if Z.of_nat (length (pending r)) <? entries r
  then Some (mk_ring (entries r) (pending r ++ [s]) (issued r)) else None.

Definition submit (r : ring) : Z * ring :=
  (Z.of_nat (length (pending r)), mk_ring (entries r) [] (issued r ++ pending r)).

#[global] Instance list_uring : Uring ring := {|
  sq_entries := entries;
  sq_pending := pending;
  sq_issued := issued;
  io_uring_get_sqe := get_sqe;
  io_uring_submit := submit;
  io_uring_submit_and_wait _ r := submit r;
  io_uring_submit_and_wait_timeout _ _ r := submit r
|}.

Lemma submit_ok r : submits r (submit r).2.
Proof.
  split; [done|]. exists (length (pending r)). cbn.
  by rewrite firstn_all, drop_all.
Qed.

#[global] Instance list_uring_laws : UringLaws ring.
Proof.
  split.
  - intros s r r'. cbn. unfold get_sqe. case_match; [|done]. by intros [= <-].
  - intros s r. cbn. unfold get_sqe, io_uring_sq_space_left, io_uring_sq_ready. cbn.
    case_match; bool_prop.
    + split; [lia|by eexists].
    + split; [intros [? ?]; done|lia].
  - apply submit_ok.
  - intros ?. apply submit_ok.
  - intros ? ?. apply submit_ok.
Qed.

#[global] Instance list_uring_drain : UringDrain ring.
Proof. done. Qed.

#[global] Instance list_uring_slots : UringSlots ring := fun slot r =>
  mk_ring (entries r)
    (imap (fun i s => if slot_of r (length (issued r) + i) =? slot then unlink_sqe s else s) (pending r))
    (issued r).

#[global] Instance list_uring_slots_laws : UringSlotsLaws ring.
Proof. done. Qed.

End ListRing.
