(* ===== verification/QueueTypes.v ===== *)
(** * The data of an I/O queue

    [struct ublk_io], the batch state and [struct _ublksrv_queue] of
    include/ublksrv_priv.h.  A queue is parameterised by the ring type [R] and
    by the type [T] of the target's private data.  Memory the driver shares
    with the daemon (the mapped descriptors, the fetch buffer) is part of the
    state.  System calls whose only effect is outside the process are recorded
    in [trace]. *)

From S2P Require Import Prelude UblkCmd Uring.

(** ** Queue and I/O flags *)
Definition UBLKSRV_QUEUE_STOPPING : Z := bit 0.
Definition UBLKSRV_QUEUE_IDLE : Z := bit 1.
Definition UBLKSRV_QUEUE_IOCTL_OP : Z := bit 2.
Definition UBLKSRV_USER_COPY : Z := bit 3.
Definition UBLKSRV_ZERO_COPY : Z := bit 4.
Definition UBLKSRV_AUTO_ZC : Z := bit 5.
Definition UBLKSRV_QUEUE_POLL : Z := bit 6.
Definition UBLKSRV_QUEUE_BATCH_IO : Z := bit 7.

Definition UBLKSRV_NEED_FETCH_RQ : Z := bit 0.
Definition UBLKSRV_NEED_COMMIT_RQ_COMP : Z := bit 1.
Definition UBLKSRV_IO_FREE : Z := bit 2.
Definition UBLKSRV_NEED_GET_DATA : Z := bit 3.

Definition UBLKSRV_NR_CTX_BATCH : Z := 4.
Definition UBLKSRV_IO_IDLE_SECS : Z := 20.
Definition UBLK_BATCH_NR_FETCH_BUFS : Z := 1.
Definition UBLK_BATCH_NR_COMMIT_BUFS : Z := 2.

(** ** Structures *)
Record ublk_io := mk_ublk_io {
  buf_addr : Z;  (* char * *)
  io_flags : Z;  (* unsigned int *)
  io_result : Z;  (* unsigned int *)
  io_tag : Z;  (* data.tag *)
  io_iod : option Z;  (* data.iod: index into io_cmd_buf, NULL for an extra io *)
  io_private : Z  (* data.private_data *)
}.

(** A registered epoll callback; [ecb_addr] is the node's address, [ecb_cb]
    the function pointer. *)
Record epoll_cb_data := mk_epoll_cb { ecb_addr : Z; ecb_fd : Z; ecb_cb : Z }.

Record batch_commit_buf := mk_commit_buf {
  cb_addr : Z;  (* void *buf *)
  cb_bytes : list Z;  (* the bytes behind buf *)
  cb_done : Z;  (* unsigned short *)
  cb_count : Z  (* unsigned short *)
}.

Record batch_fetch_buf := mk_fetch_buf {
  fb_br : bool;  (* br is not NULL *)
  fetch_buf : Z;  (* void * *)
  fb_bytes : list Z;  (* the bytes behind fetch_buf, written by the driver *)
  fetch_buf_size : Z;  (* unsigned int *)
  fetch_buf_off : Z  (* unsigned int *)
}.

Record ublksrv_queue_batch := mk_batch {
  fetch_bufs : list batch_fetch_buf;
  commit_bufs : list batch_commit_buf;
  commit_buf_mem : Z;  (* void * *)
  commit_buf_size : Z;  (* unsigned int *)
  commit_buf_elem_size : Z;  (* unsigned char *)
  cur_commit_buf : Z;  (* unsigned char *)
  prep_done : Z;  (* unsigned char *)
  cmd_flags : Z  (* __u16 *)
}.

Inductive qevent :=
| EvEfdRead (fd : Z)
| EvEfdWrite (fd : Z)
| EvMadvise (addr len : Z)
| EvCtxWrite (ctx : Z)
| EvEpollWait (fd : Z)
| EvEpollCtl (op fd events data : Z)
| EvIdle (enter : bool)
| EvBufRingAdd (group len : Z)
| EvBufRingFree (group : Z)
| EvMunlock (addr len : Z)
| EvClose (fd : Z)
| EvFree (addr : Z)
| EvMunmap (addr len : Z)
| EvFreeIoBuf (addr tag : Z)   (* ->free_io_buf of the target *)
| EvDeinitQueue                (* ->deinit_queue of the target *)
| EvUnregister (what : Z).     (* io_uring_unregister_*: 0 buffers, 1 ring fd, 2 files *)

#[global] Instance qevent_eq_dec : EqDecision qevent.
Proof. solve_decision. Defined.

Record queue {R T : Type} := mk_queue {
  q_id : Z;  (* int *)
  q_depth : Z;  (* int *)
  io_cmd_buf : list ublksrv_io_desc;  (* mapped, written by the driver *)
  cmd_inflight : Z;  (* unsigned *)
  tgt_io_inflight : Z;  (* unsigned *)
  state : Z;  (* unsigned *)
  epollfd : Z;
  epoll_callbacks : list epoll_cb_data;
  efd : Z;
  ring : R;
  nr_ctxs : Z;  (* int *)
  ctxs : list Z;  (* aio contexts, by address *)
  batch : ublksrv_queue_batch;
  ios : list ublk_io;
  private_data : T;
  trace : list qevent  (* system calls made, oldest first *)
}.
#[global] Arguments queue R T : clear implicits.
#[global] Arguments mk_queue {R T}.

(** ** Field updates *)
Definition set_buf_addr (v : Z) (io : ublk_io) : ublk_io :=
  mk_ublk_io v (io_flags io) (io_result io) (io_tag io) (io_iod io) (io_private io).
Definition set_io_flags (v : Z) (io : ublk_io) : ublk_io :=
  mk_ublk_io (buf_addr io) v (io_result io) (io_tag io) (io_iod io) (io_private io).
Definition set_io_result (v : Z) (io : ublk_io) : ublk_io :=
  mk_ublk_io (buf_addr io) (io_flags io) v (io_tag io) (io_iod io) (io_private io).

Definition set_cb_addr (v : Z) (cb : batch_commit_buf) : batch_commit_buf :=
  mk_commit_buf v (cb_bytes cb) (cb_done cb) (cb_count cb).
Definition set_cb_bytes (v : list Z) (cb : batch_commit_buf) : batch_commit_buf :=
  mk_commit_buf (cb_addr cb) v (cb_done cb) (cb_count cb).
Definition set_cb_done (v : Z) (cb : batch_commit_buf) : batch_commit_buf :=
  mk_commit_buf (cb_addr cb) (cb_bytes cb) v (cb_count cb).
Definition set_cb_count (v : Z) (cb : batch_commit_buf) : batch_commit_buf :=
  mk_commit_buf (cb_addr cb) (cb_bytes cb) (cb_done cb) v.

Definition set_fb_br (v : bool) (fb : batch_fetch_buf) : batch_fetch_buf :=
  mk_fetch_buf v (fetch_buf fb) (fb_bytes fb) (fetch_buf_size fb) (fetch_buf_off fb).
Definition set_fetch_buf (v : Z) (fb : batch_fetch_buf) : batch_fetch_buf :=
  mk_fetch_buf (fb_br fb) v (fb_bytes fb) (fetch_buf_size fb) (fetch_buf_off fb).
Definition set_fb_bytes (v : list Z) (fb : batch_fetch_buf) : batch_fetch_buf :=
  mk_fetch_buf (fb_br fb) (fetch_buf fb) v (fetch_buf_size fb) (fetch_buf_off fb).
Definition set_fetch_buf_size (v : Z) (fb : batch_fetch_buf) : batch_fetch_buf :=
  mk_fetch_buf (fb_br fb) (fetch_buf fb) (fb_bytes fb) v (fetch_buf_off fb).
Definition set_fetch_buf_off (v : Z) (fb : batch_fetch_buf) : batch_fetch_buf :=
  mk_fetch_buf (fb_br fb) (fetch_buf fb) (fb_bytes fb) (fetch_buf_size fb) v.

Definition set_fetch_bufs (v : list batch_fetch_buf) (b : ublksrv_queue_batch) : ublksrv_queue_batch :=
  mk_batch v (commit_bufs b) (commit_buf_mem b) (commit_buf_size b) (commit_buf_elem_size b) (cur_commit_buf b) (prep_done b) (cmd_flags b).
Definition set_commit_bufs (v : list batch_commit_buf) (b : ublksrv_queue_batch) : ublksrv_queue_batch :=
  mk_batch (fetch_bufs b) v (commit_buf_mem b) (commit_buf_size b) (commit_buf_elem_size b) (cur_commit_buf b) (prep_done b) (cmd_flags b).
Definition set_commit_buf_mem (v : Z) (b : ublksrv_queue_batch) : ublksrv_queue_batch :=
  mk_batch (fetch_bufs b) (commit_bufs b) v (commit_buf_size b) (commit_buf_elem_size b) (cur_commit_buf b) (prep_done b) (cmd_flags b).
Definition set_commit_buf_size (v : Z) (b : ublksrv_queue_batch) : ublksrv_queue_batch :=
  mk_batch (fetch_bufs b) (commit_bufs b) (commit_buf_mem b) v (commit_buf_elem_size b) (cur_commit_buf b) (prep_done b) (cmd_flags b).
Definition set_commit_buf_elem_size (v : Z) (b : ublksrv_queue_batch) : ublksrv_queue_batch :=
  mk_batch (fetch_bufs b) (commit_bufs b) (commit_buf_mem b) (commit_buf_size b) v (cur_commit_buf b) (prep_done b) (cmd_flags b).
Definition set_cur_commit_buf (v : Z) (b : ublksrv_queue_batch) : ublksrv_queue_batch :=
  mk_batch (fetch_bufs b) (commit_bufs b) (commit_buf_mem b) (commit_buf_size b) (commit_buf_elem_size b) v (prep_done b) (cmd_flags b).
Definition set_prep_done (v : Z) (b : ublksrv_queue_batch) : ublksrv_queue_batch :=
  mk_batch (fetch_bufs b) (commit_bufs b) (commit_buf_mem b) (commit_buf_size b) (commit_buf_elem_size b) (cur_commit_buf b) v (cmd_flags b).
Definition set_cmd_flags (v : Z) (b : ublksrv_queue_batch) : ublksrv_queue_batch :=
  mk_batch (fetch_bufs b) (commit_bufs b) (commit_buf_mem b) (commit_buf_size b) (commit_buf_elem_size b) (cur_commit_buf b) (prep_done b) v.

Definition set_io_cmd_buf {R T} (v : list ublksrv_io_desc) (q : queue R T) : queue R T :=
  mk_queue (q_id q) (q_depth q) v (cmd_inflight q) (tgt_io_inflight q) (state q) (epollfd q) (epoll_callbacks q) (efd q) (ring q) (nr_ctxs q) (ctxs q) (batch q) (ios q) (private_data q) (trace q).
Definition set_cmd_inflight {R T} (v : Z) (q : queue R T) : queue R T :=
  mk_queue (q_id q) (q_depth q) (io_cmd_buf q) v (tgt_io_inflight q) (state q) (epollfd q) (epoll_callbacks q) (efd q) (ring q) (nr_ctxs q) (ctxs q) (batch q) (ios q) (private_data q) (trace q).
Definition set_tgt_io_inflight {R T} (v : Z) (q : queue R T) : queue R T :=
  mk_queue (q_id q) (q_depth q) (io_cmd_buf q) (cmd_inflight q) v (state q) (epollfd q) (epoll_callbacks q) (efd q) (ring q) (nr_ctxs q) (ctxs q) (batch q) (ios q) (private_data q) (trace q).
Definition set_state {R T} (v : Z) (q : queue R T) : queue R T :=
  mk_queue (q_id q) (q_depth q) (io_cmd_buf q) (cmd_inflight q) (tgt_io_inflight q) v (epollfd q) (epoll_callbacks q) (efd q) (ring q) (nr_ctxs q) (ctxs q) (batch q) (ios q) (private_data q) (trace q).
Definition set_epollfd {R T} (v : Z) (q : queue R T) : queue R T :=
  mk_queue (q_id q) (q_depth q) (io_cmd_buf q) (cmd_inflight q) (tgt_io_inflight q) (state q) v (epoll_callbacks q) (efd q) (ring q) (nr_ctxs q) (ctxs q) (batch q) (ios q) (private_data q) (trace q).
Definition set_epoll_callbacks {R T} (v : list epoll_cb_data) (q : queue R T) : queue R T :=
  mk_queue (q_id q) (q_depth q) (io_cmd_buf q) (cmd_inflight q) (tgt_io_inflight q) (state q) (epollfd q) v (efd q) (ring q) (nr_ctxs q) (ctxs q) (batch q) (ios q) (private_data q) (trace q).
Definition set_efd {R T} (v : Z) (q : queue R T) : queue R T :=
  mk_queue (q_id q) (q_depth q) (io_cmd_buf q) (cmd_inflight q) (tgt_io_inflight q) (state q) (epollfd q) (epoll_callbacks q) v (ring q) (nr_ctxs q) (ctxs q) (batch q) (ios q) (private_data q) (trace q).
Definition set_ring {R T} (v : R) (q : queue R T) : queue R T :=
  mk_queue (q_id q) (q_depth q) (io_cmd_buf q) (cmd_inflight q) (tgt_io_inflight q) (state q) (epollfd q) (epoll_callbacks q) (efd q) v (nr_ctxs q) (ctxs q) (batch q) (ios q) (private_data q) (trace q).
Definition set_nr_ctxs {R T} (v : Z) (q : queue R T) : queue R T :=
  mk_queue (q_id q) (q_depth q) (io_cmd_buf q) (cmd_inflight q) (tgt_io_inflight q) (state q) (epollfd q) (epoll_callbacks q) (efd q) (ring q) v (ctxs q) (batch q) (ios q) (private_data q) (trace q).
Definition set_ctxs {R T} (v : list Z) (q : queue R T) : queue R T :=
  mk_queue (q_id q) (q_depth q) (io_cmd_buf q) (cmd_inflight q) (tgt_io_inflight q) (state q) (epollfd q) (epoll_callbacks q) (efd q) (ring q) (nr_ctxs q) v (batch q) (ios q) (private_data q) (trace q).
Definition set_batch {R T} (v : ublksrv_queue_batch) (q : queue R T) : queue R T :=
  mk_queue (q_id q) (q_depth q) (io_cmd_buf q) (cmd_inflight q) (tgt_io_inflight q) (state q) (epollfd q) (epoll_callbacks q) (efd q) (ring q) (nr_ctxs q) (ctxs q) v (ios q) (private_data q) (trace q).
Definition set_ios {R T} (v : list ublk_io) (q : queue R T) : queue R T :=
  mk_queue (q_id q) (q_depth q) (io_cmd_buf q) (cmd_inflight q) (tgt_io_inflight q) (state q) (epollfd q) (epoll_callbacks q) (efd q) (ring q) (nr_ctxs q) (ctxs q) (batch q) v (private_data q) (trace q).
Definition set_private_data {R T} (v : T) (q : queue R T) : queue R T :=
  mk_queue (q_id q) (q_depth q) (io_cmd_buf q) (cmd_inflight q) (tgt_io_inflight q) (state q) (epollfd q) (epoll_callbacks q) (efd q) (ring q) (nr_ctxs q) (ctxs q) (batch q) (ios q) v (trace q).
Definition set_trace {R T} (v : list qevent) (q : queue R T) : queue R T :=
  mk_queue (q_id q) (q_depth q) (io_cmd_buf q) (cmd_inflight q) (tgt_io_inflight q) (state q) (epollfd q) (epoll_callbacks q) (efd q) (ring q) (nr_ctxs q) (ctxs q) (batch q) (ios q) (private_data q) v.

Ltac qsimpl :=
  cbn [buf_addr io_flags io_result io_tag io_iod io_private cb_addr cb_bytes cb_done cb_count fb_br fetch_buf fb_bytes fetch_buf_size fetch_buf_off fetch_bufs commit_bufs commit_buf_mem commit_buf_size commit_buf_elem_size cur_commit_buf prep_done cmd_flags q_id q_depth io_cmd_buf cmd_inflight tgt_io_inflight state epollfd epoll_callbacks efd ring nr_ctxs ctxs batch ios private_data trace
       set_buf_addr set_io_flags set_io_result set_cb_addr set_cb_bytes set_cb_done set_cb_count set_fb_br set_fetch_buf set_fb_bytes set_fetch_buf_size set_fetch_buf_off set_fetch_bufs set_commit_bufs set_commit_buf_mem set_commit_buf_size set_commit_buf_elem_size set_cur_commit_buf set_prep_done set_cmd_flags set_io_cmd_buf set_cmd_inflight set_tgt_io_inflight set_state set_epollfd set_epoll_callbacks set_efd set_ring set_nr_ctxs set_ctxs set_batch set_ios set_private_data set_trace].
Ltac qsimpl_in H :=
  cbn [buf_addr io_flags io_result io_tag io_iod io_private cb_addr cb_bytes cb_done cb_count fb_br fetch_buf fb_bytes fetch_buf_size fetch_buf_off fetch_bufs commit_bufs commit_buf_mem commit_buf_size commit_buf_elem_size cur_commit_buf prep_done cmd_flags q_id q_depth io_cmd_buf cmd_inflight tgt_io_inflight state epollfd epoll_callbacks efd ring nr_ctxs ctxs batch ios private_data trace
       set_buf_addr set_io_flags set_io_result set_cb_addr set_cb_bytes set_cb_done set_cb_count set_fb_br set_fetch_buf set_fb_bytes set_fetch_buf_size set_fetch_buf_off set_fetch_bufs set_commit_bufs set_commit_buf_mem set_commit_buf_size set_commit_buf_elem_size set_cur_commit_buf set_prep_done set_cmd_flags set_io_cmd_buf set_cmd_inflight set_tgt_io_inflight set_state set_epollfd set_epoll_callbacks set_efd set_ring set_nr_ctxs set_ctxs set_batch set_ios set_private_data set_trace] in H.

Section queue_helpers.
Context {R T : Type}.
Implicit Types q : queue R T.

(** [&q->ios[tag]]; an index outside the array is [None]. *)
Definition get_io (q : queue R T) (tag : Z) : option ublk_io :=
  if 0 <=? tag then ios q !! Z.to_nat tag else None.

(** [data->iod] of a tag: the mapped descriptor. *)
Definition get_iod (q : queue R T) (tag : Z) : option ublksrv_io_desc :=
  io ← get_io q tag; k ← io_iod io; io_cmd_buf q !! Z.to_nat k.

Definition put_io (tag : Z) (io : ublk_io) (q : queue R T) : queue R T :=
  set_ios (<[Z.to_nat tag := io]> (ios q)) q.

Definition log_ev (e : qevent) (q : queue R T) : queue R T :=
  set_trace (trace q ++ [e]) q.

Definition ublksrv_queue_use_buf (q : queue R T) : bool :=
  negb (has (state q) (Z.lor UBLKSRV_USER_COPY UBLKSRV_ZERO_COPY)).

Definition ublksrv_queue_batch_io (q : queue R T) : bool :=
  has (state q) UBLKSRV_QUEUE_BATCH_IO.

Definition ublksrv_queue_alloc_buf (q : queue R T) : bool :=
  negb (has (state q) UBLKSRV_ZERO_COPY).

Definition stopping (q : queue R T) : bool := has (state q) UBLKSRV_QUEUE_STOPPING.

Lemma get_io_put tag tag' io (q : queue R T) :
  is_Some (get_io q tag) ->
  get_io (put_io tag io q) tag' = if tag' =? tag then Some io else get_io q tag'.
Proof.
  unfold get_io, put_io. qsimpl. intros [io0 Hio].
  destruct (Z.leb_spec 0 tag) as [H0|]; [|done].
  destruct (Z.eqb_spec tag' tag) as [->|Hne].
  - replace (0 <=? tag) with true by lia.
    apply list_lookup_insert_eq. by eapply lookup_lt_Some.
  - destruct (Z.leb_spec 0 tag') as [H0'|]; [|done].
    apply list_lookup_insert_ne. lia.
Qed.

Lemma get_io_same_ios q q' tag : ios q' = ios q -> get_io q' tag = get_io q tag.
Proof. unfold get_io. by intros ->. Qed.
End queue_helpers.

Ltac qs := unfold put_io, log_ev; qsimpl.

Definition ublksrv_mark_io_done (io : ublk_io) (res : Z) : ublk_io :=
  set_io_result (u32 res)
    (set_io_flags (Z.lor (io_flags io) (Z.lor UBLKSRV_NEED_COMMIT_RQ_COMP UBLKSRV_IO_FREE)) io).

(** ** Target callbacks

    [struct ublksrv_tgt_type]: the callbacks that run in the queue's thread.
    They act on the queue through the library's functions and on their private
    data; [None] is a failed assertion or an access outside an array. *)
Record ublksrv_tgt_type {R T : Type} := mk_tgt_type {
  handle_io_async : Z -> queue R T -> option (Z * queue R T);
  tgt_io_done : option (Z -> io_uring_cqe -> queue R T -> option (queue R T));
  handle_event : option (queue R T -> option (queue R T));
  handle_io_background : option (Z -> queue R T -> option (queue R T));
  idle_fn : option (bool -> queue R T -> option (queue R T))
}.
#[global] Arguments ublksrv_tgt_type R T : clear implicits.
#[global] Arguments mk_tgt_type {R T}.

(** An optional callback that is absent does nothing. *)
Definition call_opt {A B : Type} (f : option (A -> B -> option B)) (a : A) (b : B) : option B :=
  match f with Some f => f a b | None => Some b end.
