(* ===== verification/Batch.v ===== *)
(** * Batch I/O

    lib/ublksrv_batch.c and [ublksrv_batch_add_complete] of
    include/ublksrv_priv.h: with UBLK_F_BATCH_IO the queue prepares all tags
    once, fetches tags through a multishot command and commits completions in
    batches from two alternating buffers.  Buffers are byte lists and the
    element accesses are the casted stores of the code. *)

From S2P Require Import Prelude Bytes UblkCmd Uring QueueTypes.

Section batch.
Context {R : Type} `{!Uring R} {T : Type}.
(** getpagesize() *)
Variable page_sz : Z.
Implicit Types q : queue R T.

Definition upd_batch (f : ublksrv_queue_batch -> ublksrv_queue_batch) (q : queue R T) : queue R T :=
  set_batch (f (batch q)) q.

(** ** Sizes *)
Definition ublk_batch_elem_buf_size (q : queue R T) : Z :=
  if has (state q) (Z.lor (Z.lor UBLKSRV_ZERO_COPY UBLKSRV_USER_COPY) UBLKSRV_AUTO_ZC)
  then 8 else 16.

Definition ublk_batch_commit_buf_size (q : queue R T) : Z :=
  u32 (round_up (u32 (ublk_batch_elem_buf_size q * q_depth q)) page_sz).

Definition build_batch_user_data (buf_idx op nr_elem : Z) : option Z :=
  build_user_data buf_idx op nr_elem 0.

Definition batch_user_data_to_nr_elem (user_data : Z) : Z :=
  u16 (user_data_to_tgt_data user_data).

(** ** Allocation

    The results of the calls that can fail are arguments: the address
    returned by [posix_memalign] ([None] is a failure), and whether
    [io_uring_setup_buf_ring] returns a ring. *)
Record alloc_results := mk_alloc_results {
  ar_commit : option Z;
  ar_fetch : Z -> option Z;
  ar_buf_ring : Z -> bool;
  (** contents of fresh memory *)
  ar_fresh : Z -> list Z
}.

Definition set_fetch_buf_at (i : Z) (fb : batch_fetch_buf) (b : ublksrv_queue_batch) :=
  set_fetch_bufs (<[Z.to_nat i := fb]> (fetch_bufs b)) b.

(** [fail_fetch]: free the fetch buffers below [i], then the commit buffers. *)
Fixpoint fail_fetch_loop (n : nat) (q : queue R T) : option (queue R T) :=
  match n with
  | O => Some q
  | S n =>
      fb ← fetch_bufs (batch q) !! n;
      let q := log_ev (EvBufRingFree (Z.of_nat n)) q in
      let q := log_ev (EvMunlock (fetch_buf fb) (fetch_buf_size fb)) q in
      fail_fetch_loop n (log_ev (EvFree (fetch_buf fb)) q)
  end.

Definition fail_fetch (i : Z) (q : queue R T) : option (Z * queue R T) :=
  q ← fail_fetch_loop (Z.to_nat i) q;
  let b := batch q in
  let q := log_ev (EvMunlock (commit_buf_mem b) (u32 (commit_buf_size b * UBLK_BATCH_NR_COMMIT_BUFS))) q in
  let q := log_ev (EvFree (commit_buf_mem b)) q in
  Some (- ENOMEM, upd_batch (set_commit_buf_mem 0) q).

(** One round of the fetch-buffer loop: [inl] is the jump to [fail_fetch]. *)
Definition alloc_fetch_buf (ar : alloc_results) (fetch_size i : Z) (q : queue R T)
    : option (queue R T + queue R T) :=
  fb ← fetch_bufs (batch q) !! Z.to_nat i;
  let fb := set_fetch_buf_size fetch_size fb in
  match ar_fetch ar i with
  | None => Some (inl (upd_batch (set_fetch_buf_at i fb) q))
  | Some a =>
      let fb := set_fb_bytes (ar_fresh ar fetch_size) (set_fetch_buf a fb) in
      let fb := set_fb_br (ar_buf_ring ar i) fb in
      if ar_buf_ring ar i
      then Some (inr (upd_batch (set_fetch_buf_at i (set_fetch_buf_off 0 fb)) q))
      else Some (inl (log_ev (EvFree a) (upd_batch (set_fetch_buf_at i fb) q)))
  end.

Fixpoint alloc_fetch_bufs (ar : alloc_results) (fetch_size : Z) (n : nat) (i : Z)
    (q : queue R T) : option (Z * queue R T + queue R T) :=
  match n with
  | O => Some (inr q)
  | S n =>
      r ← alloc_fetch_buf ar fetch_size i q;
      match r with
      | inl q => inl <$> fail_fetch i q
      | inr q => alloc_fetch_bufs ar fetch_size n (i + 1) q
      end
  end.

Definition init_commit_bufs (ar : alloc_results) (base size elem : Z) : list batch_commit_buf :=
  map (fun i => mk_commit_buf (base + i * size) (ar_fresh ar size) 0 (u16 (size / elem)))
      (seqZ 0 UBLK_BATCH_NR_COMMIT_BUFS).

Definition ublksrv_batch_alloc_bufs (ar : alloc_results) (q : queue R T)
    : option (Z * queue R T) :=
  let elem := u8 (ublk_batch_elem_buf_size q) in
  let size := ublk_batch_commit_buf_size q in
  let q := upd_batch (fun b => set_commit_buf_size size (set_commit_buf_elem_size elem b)) q in
  match ar_commit ar with
  | None => Some (- ENOMEM, q)
  | Some buf =>
      let q := upd_batch (fun b => set_commit_bufs (init_commit_bufs ar buf size elem)
                                     (set_commit_buf_mem buf b)) q in
      let fetch_size := u32 (round_up (q_depth q * 2) page_sz) in
      r ← alloc_fetch_bufs ar fetch_size (Z.to_nat UBLK_BATCH_NR_FETCH_BUFS) 0 q;
      match r with
      | inl e => Some e
      | inr q =>
          let flags := if ublksrv_queue_use_buf q then UBLK_BATCH_F_HAS_BUF_ADDR else 0 in
          Some (0, upd_batch (fun b => set_prep_done 0 (set_cur_commit_buf 0
                                         (set_cmd_flags flags b))) q)
      end
  end.

Fixpoint free_fetch_bufs (n : nat) (i : Z) (q : queue R T) : option (queue R T) :=
  match n with
  | O => Some q
  | S n =>
      fb ← fetch_bufs (batch q) !! Z.to_nat i;
      let '(fb, q) := if fb_br fb
        then (set_fb_br false fb, log_ev (EvBufRingFree i) q) else (fb, q) in
      let '(fb, q) := if negb (fetch_buf fb =? 0)
        then (set_fetch_buf 0 fb,
              log_ev (EvFree (fetch_buf fb))
                (log_ev (EvMunlock (fetch_buf fb) (fetch_buf_size fb)) q))
        else (fb, q) in
      free_fetch_bufs n (i + 1) (upd_batch (set_fetch_buf_at i fb) q)
  end.

Definition ublksrv_batch_free_bufs (q : queue R T) : option (queue R T) :=
  q ← free_fetch_bufs (Z.to_nat UBLK_BATCH_NR_FETCH_BUFS) 0 q;
  let b := batch q in
  if negb (commit_buf_mem b =? 0)
  then let q := log_ev (EvMunlock (commit_buf_mem b) (u32 (commit_buf_size b * UBLK_BATCH_NR_COMMIT_BUFS))) q in
       let q := log_ev (EvFree (commit_buf_mem b)) q in
       Some (upd_batch (set_commit_buf_mem 0) q)
  else Some q.

(** ** Elements *)

(** The stores through [struct ublk_batch_elem *] at offset [off]. *)
Definition batch_store_elem (q : queue R T) (off tag result : Z) (bytes : list Z) : option (list Z) :=
  m ← store 2 off tag bytes;
  m ← store 4 (off + 4) result m;
  if has (state q) UBLKSRV_AUTO_ZC then store 2 (off + 2) tag m
  else if ublksrv_queue_use_buf q
  then io ← get_io q tag; store 8 (off + 8) (buf_addr io) m
  else Some m.

Definition set_commit_buf_at (i : Z) (cb : batch_commit_buf) (b : ublksrv_queue_batch) :=
  set_commit_bufs (<[Z.to_nat i := cb]> (commit_bufs b)) b.

Definition ublksrv_batch_add_complete (tag result : Z) (q : queue R T) : option (queue R T) :=
  let b := batch q in
  cb ← commit_bufs b !! Z.to_nat (cur_commit_buf b);
  m ← batch_store_elem q (cb_done cb * commit_buf_elem_size b) tag result (cb_bytes cb);
  Some (upd_batch (set_commit_buf_at (cur_commit_buf b)
          (set_cb_done (u16 (cb_done cb + 1)) (set_cb_bytes m cb))) q).

(** ** Commands *)
Definition ublksrv_batch_io_cmd (cmd_op buf buf_idx nr_elem : Z) (q : queue R T)
    : option (bool * queue R T) :=
  let b := batch q in
  ud ← build_batch_user_data buf_idx (_IOC_NR cmd_op) nr_elem;
  let sqe := mk_sqe ud
    (UringCmd cmd_op 0 IOSQE_FIXED_FILE None (Some buf)
       (Some (u32 (commit_buf_elem_size b * nr_elem))) None
       (BatchCmd (mk_batch_io (u16 (q_id q)) (cmd_flags b) nr_elem (commit_buf_elem_size b)))) in
  let '(ok, r) := ublksrv_alloc_sqe sqe (ring q) in
  let q := set_ring r q in
  Some (if ok then (true, set_cmd_inflight (u32 (cmd_inflight q + 1)) q) else (false, q)).

Fixpoint prep_fill (n : nat) (i : Z) (q : queue R T) (elem_size : Z) (bytes : list Z)
    : option (list Z) :=
  match n with
  | O => Some bytes
  | S n =>
      m ← batch_store_elem q (i * elem_size) i 0 bytes;
      prep_fill n (i + 1) q elem_size m
  end.

Definition ublksrv_batch_queue_prep_io_cmds (q : queue R T) : option (Z * queue R T) :=
  cb ← commit_bufs (batch q) !! 0%nat;
  let nr_elem := u16 (q_depth q) in
  m ← prep_fill (Z.to_nat nr_elem) 0 q (commit_buf_elem_size (batch q)) (cb_bytes cb);
  let q := upd_batch (set_commit_buf_at 0 (set_cb_bytes m cb)) q in
  r ← ublksrv_batch_io_cmd UBLK_U_IO_PREP_IO_CMDS (cb_addr cb) 0 nr_elem q;
  Some (if r.1 : bool then 0 else -1, r.2).

Definition ublksrv_batch_queue_fetch (buf_idx : Z) (q : queue R T) : option (queue R T) :=
  fb ← fetch_bufs (batch q) !! Z.to_nat buf_idx;
  let nr_elem := u16 (fetch_buf_size fb / 2) in
  let q := log_ev (EvBufRingAdd buf_idx (fetch_buf_size fb)) q in
  ud ← build_batch_user_data (u16 buf_idx) (_IOC_NR UBLK_U_IO_FETCH_IO_CMDS) nr_elem;
  let sqe := mk_sqe ud
    (UringCmd UBLK_U_IO_FETCH_IO_CMDS 0 (Z.lor IOSQE_FIXED_FILE IOSQE_BUFFER_SELECT)
       (Some IORING_URING_CMD_MULTISHOT) None None (Some buf_idx)
       (BatchCmd (mk_batch_io (u16 (q_id q)) 0 nr_elem 2))) in
  let '(ok, r) := ublksrv_alloc_sqe sqe (ring q) in
  let q := set_ring r q in
  Some (if ok
        then upd_batch (set_fetch_buf_at buf_idx (set_fetch_buf_off 0 fb))
               (set_cmd_inflight (u32 (cmd_inflight q + 1)) q)
        else q).

Fixpoint queue_fetches (n : nat) (i : Z) (q : queue R T) : option (queue R T) :=
  match n with
  | O => Some q
  | S n => q ← ublksrv_batch_queue_fetch i q; queue_fetches n (i + 1) q
  end.

Definition ublksrv_batch_start_fetch (q : queue R T) : option (queue R T) :=
  r ← ublksrv_batch_queue_prep_io_cmds q;
  q ← queue_fetches (Z.to_nat UBLK_BATCH_NR_FETCH_BUFS) 0 r.2;
  Some (upd_batch (set_prep_done 1) q).

Definition ublksrv_batch_submit_commit (q : queue R T) : option (queue R T) :=
  let b := batch q in
  cb ← commit_bufs b !! Z.to_nat (cur_commit_buf b);
  let nr_elem := cb_done cb in
  if nr_elem =? 0 then Some q
  else
    r ← ublksrv_batch_io_cmd UBLK_U_IO_COMMIT_IO_CMDS (cb_addr cb) (cur_commit_buf b) nr_elem q;
    if negb r.1 then Some r.2
    else
      let q := r.2 in
      let cur := 1 - cur_commit_buf (batch q) in
      cb ← commit_bufs (batch q) !! Z.to_nat cur;
      Some (upd_batch (fun b => set_commit_buf_at cur (set_cb_done 0 cb)
                                  (set_cur_commit_buf cur b)) q).

(** ** Completions *)
Variable tgt_ops : ublksrv_tgt_type R T.

(** The loop over the two-byte tags, [n] iterations from offset [i]. *)
Fixpoint fetch_tags_loop (n : nat) (buf_idx i : Z) (q : queue R T) : option (queue R T) :=
  match n with
  | O => Some q
  | S n =>
      fb ← fetch_bufs (batch q) !! Z.to_nat buf_idx;
      tag ← load 2 i (fb_bytes fb);
      q ← (if q_depth q <=? tag then Some q
           else io ← get_io q tag; snd <$> handle_io_async tgt_ops (io_tag io) q);
      fetch_tags_loop n buf_idx (i + 2) q
  end.

Definition ublksrv_batch_handle_fetch_cqe (cqe : io_uring_cqe) (q : queue R T)
    : option (queue R T) :=
  let buf_idx := u16 (user_data_to_tag (cqe_user_data cqe)) in
  fb ← fetch_bufs (batch q) !! Z.to_nat buf_idx;
  let start := fetch_buf_off fb in
  let end_ := u32 (start + cqe_res cqe) in
  if cqe_res cqe <? 0 then Some q
  else
    q ← fetch_tags_loop (Z.to_nat ((end_ - start + 1) / 2)) buf_idx start q;
    fb ← fetch_bufs (batch q) !! Z.to_nat buf_idx;
    Some (upd_batch (set_fetch_buf_at buf_idx (set_fetch_buf_off end_ fb)) q).

(** What the handler of a PREP or COMMIT completion reports; it changes
    nothing. *)
Inductive commit_report :=
| PrepFailed (res : Z)
| CommitPartial (res expected : Z)
| CommitFailed (res : Z).

Definition ublksrv_batch_handle_commit_cqe (cqe : io_uring_cqe) (op : Z) (q : queue R T)
    : option commit_report :=
  if op =? _IOC_NR UBLK_U_IO_PREP_IO_CMDS then
    if negb (cqe_res cqe =? 0) then Some (PrepFailed (cqe_res cqe)) else None
  else if op =? _IOC_NR UBLK_U_IO_COMMIT_IO_CMDS then
    let nr_elem := batch_user_data_to_nr_elem (cqe_user_data cqe) in
    let expected := u32 (commit_buf_elem_size (batch q) * nr_elem) in
    if negb (cqe_res cqe =? s32 expected) && (0 <=? cqe_res cqe)
    then Some (CommitPartial (cqe_res cqe) expected)
    else if cqe_res cqe <? 0 then Some (CommitFailed (cqe_res cqe))
    else None
  else None.

Definition ublksrv_batch_handle_cqe (cqe : io_uring_cqe) (cmd_op : Z) (q : queue R T)
    : option (bool * queue R T) :=
  if cmd_op =? _IOC_NR UBLK_U_IO_FETCH_IO_CMDS then
    if (cqe_res cqe <? 0) && negb (cqe_res cqe =? - ENOBUFS) then
      let q := set_cmd_inflight (u32 (cmd_inflight q - 1)) q in
      Some (true, set_state (Z.lor (state q) UBLKSRV_QUEUE_STOPPING) q)
    else
      q ← ublksrv_batch_handle_fetch_cqe cqe q;
      if negb (has (cqe_flags cqe) IORING_CQE_F_MORE) || (cqe_res cqe =? - ENOBUFS) then
        let q := set_cmd_inflight (u32 (cmd_inflight q - 1)) q in
        q ← ublksrv_batch_queue_fetch (u16 (user_data_to_tag (cqe_user_data cqe))) q;
        Some (true, q)
      else Some (true, q)
  else if (cmd_op =? _IOC_NR UBLK_U_IO_PREP_IO_CMDS) || (cmd_op =? _IOC_NR UBLK_U_IO_COMMIT_IO_CMDS) then
    let q := set_cmd_inflight (u32 (cmd_inflight q - 1)) q in
    let _ := ublksrv_batch_handle_commit_cqe cqe cmd_op q in
    Some (true, q)
  else Some (false, q).
End batch.

(** ** What the driver reads

    The driver reads [n] elements of [esz] bytes from a commit buffer: the tag
    in the first two bytes, the signed result at offset 4. *)
Definition decode_elem (esz : Z) (bytes : list Z) (i : Z) : option (Z * Z) :=
  tag ← load 2 (i * esz) bytes;
  res ← load 4 (i * esz + 4) bytes;
  Some (tag, s32 res).

Definition decode_batch (esz : Z) (n : nat) (bytes : list Z) : option (list (Z * Z)) :=
  mapM (decode_elem esz bytes) (seqZ 0 (Z.of_nat n)).

Section batch_lemmas.
Context {R : Type} `{!Uring R, !UringLaws R} {T : Type}.
Implicit Types q : queue R T.

Lemma elem_size_cases q :
  ublk_batch_elem_buf_size q = 8 \/
  ublk_batch_elem_buf_size q = 16 /\
    has (state q) UBLKSRV_AUTO_ZC = false /\ ublksrv_queue_use_buf q = true.
Proof.
  unfold ublk_batch_elem_buf_size, ublksrv_queue_use_buf. rewrite !has_lor_mask.
  destruct (has (state q) UBLKSRV_ZERO_COPY), (has (state q) UBLKSRV_USER_COPY),
    (has (state q) UBLKSRV_AUTO_ZC); cbn; auto.
Qed.

(** The address is stored exactly when the element has room for it. *)
Lemma elem_addr_fits q :
  has (state q) UBLKSRV_AUTO_ZC = false -> ublksrv_queue_use_buf q = true ->
  ublk_batch_elem_buf_size q = 16.
Proof.
  unfold ublk_batch_elem_buf_size, ublksrv_queue_use_buf. rewrite !has_lor_mask.
  destruct (has (state q) UBLKSRV_ZERO_COPY), (has (state q) UBLKSRV_USER_COPY),
    (has (state q) UBLKSRV_AUTO_ZC); cbn; done.
Qed.

Lemma decode_store_frame esz n off v m m' j :
  store n off v m = Some m' ->
  off + Z.of_nat n <= j * esz \/ j * esz + 2 <= off /\ off + Z.of_nat n <= j * esz + 4 \/
    j * esz + 8 <= off ->
  decode_elem esz m' j = decode_elem esz m j.
Proof.
  intros Hs Hoff. unfold decode_elem.
  rewrite (load_store_disjoint _ _ _ 2 (j * esz) _ _ Hs) by lia.
  rewrite (load_store_disjoint _ _ _ 4 (j * esz + 4) _ _ Hs) by lia. done.
Qed.

Lemma decode_store_elem esz i tag res m m1 m2 :
  is_u16 tag -> is_s32 res ->
  store 2 (i * esz) tag m = Some m1 -> store 4 (i * esz + 4) res m1 = Some m2 ->
  decode_elem esz m2 i = Some (tag, res).
Proof.
  intros Ht Hr H1 H2. unfold decode_elem.
  rewrite (load_store_disjoint _ _ _ 2 (i * esz) _ _ H2) by lia.
  rewrite (load_store_same _ _ _ _ _ H1), (load_store_same _ _ _ _ _ H2). cbn [mbind option_bind].
  change (8 * Z.of_nat 2) with 16. change (8 * Z.of_nat 4) with 32.
  rewrite Z.mod_small by done. rewrite <- (s32_u32 res) at 2 by done. done.
Qed.

Lemma batch_store_elem_spec q i tag res bytes :
  let esz := ublk_batch_elem_buf_size q in
  0 <= i -> (i + 1) * esz <= Z.of_nat (length bytes) ->
  is_Some (get_io q tag) -> is_u16 tag -> is_s32 res ->
  exists m, batch_store_elem q (i * esz) tag res bytes = Some m /\
    length m = length bytes /\
    decode_elem esz m i = Some (tag, res) /\
    (forall j, 0 <= j -> j <> i -> decode_elem esz m j = decode_elem esz bytes j).
Proof.
  intros esz Hi Hfit [io Hio] Htag Hres. unfold batch_store_elem.
  assert (esz = 8 \/ esz = 16) as Hesz by (subst esz; destruct (elem_size_cases q); tauto).
  destruct (store_Some 2 (i * esz) tag bytes) as [m1 H1]; [lia..|].
  pose proof (store_length _ _ _ _ _ H1) as L1.
  destruct (store_Some 4 (i * esz + 4) res m1) as [m2 H2]; [lia..|].
  pose proof (store_length _ _ _ _ _ H2) as L2.
  assert (D2 : decode_elem esz m2 i = Some (tag, res)) by (by eapply decode_store_elem).
  assert (F2 : forall j, 0 <= j -> j <> i -> decode_elem esz m2 j = decode_elem esz bytes j).
  { intros j Hj Hne. etrans; [eapply (decode_store_frame esz 4)|eapply (decode_store_frame esz 2)];
      eauto; destruct Hesz as [-> | ->]; lia. }
  rewrite H1. cbn [mbind option_bind]. rewrite H2. cbn [mbind option_bind].
  assert (Hdone : forall m n off v, store n off v m2 = Some m ->
    off = i * esz + 2 /\ n = 2%nat \/ off = i * esz + 8 /\ n = 8%nat /\ esz = 16 ->
    length m = length bytes /\ decode_elem esz m i = Some (tag, res) /\
    (forall j, 0 <= j -> j <> i -> decode_elem esz m j = decode_elem esz bytes j)).
  { intros m n off v Hm Hoff. split; [rewrite (store_length _ _ _ _ _ Hm); lia|]. split.
    - rewrite <- D2. eapply decode_store_frame; [done|]. lia.
    - intros j Hj Hne. rewrite <- F2 by done. eapply decode_store_frame; [done|].
      destruct Hesz as [He|He]; rewrite He in *; lia. }
  destruct (has (state q) UBLKSRV_AUTO_ZC) eqn:Haz.
  { destruct (store_Some 2 (i * esz + 2) tag m2) as [m3 H3]; [lia..|].
    exists m3. split; [done|]. eapply Hdone; [done|]. by left. }
  destruct (ublksrv_queue_use_buf q) eqn:Hub.
  { pose proof (elem_addr_fits q Haz Hub) as H16. rewrite Hio. cbn [mbind option_bind].
    destruct (store_Some 8 (i * esz + 8) (buf_addr io) m2) as [m3 H3]; [subst esz; lia..|].
    exists m3. split; [done|]. eapply Hdone; [done|]. right. done. }
  exists m2. split; [done|]. split; [lia|]. done.
Qed.

Lemma decode_batch_spec esz n bytes l :
  decode_batch esz n bytes = Some l <->
  length l = n /\
  forall (i : nat) p, l !! i = Some p -> decode_elem esz bytes (Z.of_nat i) = Some p.
Proof.
  unfold decode_batch. rewrite mapM_Some, Forall2_lookup. split.
  - intros HF. assert (length l = n) as Hlen.
    { apply Forall2_lookup, Forall2_length in HF. rewrite length_seqZ in HF. lia. }
    split; [done|]. intros i p Hp. specialize (HF i). rewrite Hp in HF.
    rewrite lookup_seqZ_lt in HF by (apply lookup_lt_Some in Hp; lia).
    by inversion HF.
  - intros [Hlen Hl] i. destruct (l !! i) as [p|] eqn:Hp.
    + rewrite lookup_seqZ_lt by (apply lookup_lt_Some in Hp; lia).
      constructor. by apply Hl.
    + rewrite lookup_seqZ_ge by (apply lookup_ge_None in Hp; lia). constructor.
Qed.

Lemma decode_batch_snoc esz bytes m l p :
  (forall j, 0 <= j -> j <> Z.of_nat (length l) -> decode_elem esz m j = decode_elem esz bytes j) ->
  decode_elem esz m (Z.of_nat (length l)) = Some p ->
  decode_batch esz (length l) bytes = Some l ->
  decode_batch esz (S (length l)) m = Some (l ++ [p]).
Proof.
  intros Hfr Hp. rewrite !decode_batch_spec. intros [_ Hl]. split.
  - rewrite length_app. cbn. lia.
  - intros i p' Hi. apply lookup_snoc_Some in Hi as [[? Hi]|[-> <-]]; [|done].
    rewrite Hfr by lia. by apply Hl.
Qed.

(** ** The state of the commit buffers *)
Record batch_wf (q : queue R T) : Prop := {
  bw_len : length (commit_bufs (batch q)) = 2%nat;
  bw_cur : cur_commit_buf (batch q) = 0 \/ cur_commit_buf (batch q) = 1;
  bw_esz : commit_buf_elem_size (batch q) = ublk_batch_elem_buf_size q;
  bw_bytes : Forall (fun cb => Z.of_nat (length (cb_bytes cb)) = commit_buf_size (batch q))
               (commit_bufs (batch q));
  bw_cap : ublk_batch_elem_buf_size q * q_depth q <= commit_buf_size (batch q);
  bw_depth : 0 <= q_depth q <= UBLK_MAX_QUEUE_DEPTH
}.

(** The completions waiting in the current commit buffer. *)
Definition pending_commits (q : queue R T) : option (list (Z * Z)) :=
  cb ← commit_bufs (batch q) !! Z.to_nat (cur_commit_buf (batch q));
  decode_batch (commit_buf_elem_size (batch q)) (Z.to_nat (cb_done cb)) (cb_bytes cb).

Definition pending_is (q : queue R T) (l : list (Z * Z)) : Prop :=
  exists cb, commit_bufs (batch q) !! Z.to_nat (cur_commit_buf (batch q)) = Some cb /\
    cb_done cb = Z.of_nat (length l) /\
    decode_batch (ublk_batch_elem_buf_size q) (length l) (cb_bytes cb) = Some l.

Lemma pending_is_commits q l : batch_wf q -> pending_is q l -> pending_commits q = Some l.
Proof.
  intros Hwf (cb&Hcb&Hd&Hdec). unfold pending_commits. rewrite Hcb. cbn [mbind option_bind].
  by rewrite (bw_esz _ Hwf), Hd, Nat2Z.id.
Qed.

Lemma elem_size_bounds q : 8 <= ublk_batch_elem_buf_size q <= 16.
Proof. destruct (elem_size_cases q); lia. Qed.

Lemma add_complete_spec q l tag res :
  batch_wf q -> pending_is q l -> Z.of_nat (length l) < q_depth q ->
  is_Some (get_io q tag) -> is_u16 tag -> is_s32 res ->
  exists q', ublksrv_batch_add_complete tag res q = Some q' /\
    q' = set_batch (batch q') q /\ batch_wf q' /\ pending_is q' (l ++ [(tag, res)]).
Proof.
  intros Hwf (cb&Hcb&Hd&Hdec) Hlt Hio Ht Hr.
  pose proof (elem_size_bounds q) as Hesz. pose proof (bw_cap _ Hwf) as Hcap.
  pose proof (bw_depth _ Hwf) as Hdep. unfold UBLK_MAX_QUEUE_DEPTH in Hdep.
  assert (Z.of_nat (length (cb_bytes cb)) = commit_buf_size (batch q)) as Hlen.
  { pose proof (bw_bytes _ Hwf) as HF. rewrite Forall_lookup in HF. eauto. }
  destruct (batch_store_elem_spec q (Z.of_nat (length l)) tag res (cb_bytes cb))
    as (m&Hm&Hml&Hmd&Hmf); [lia|nia|done..|].
  unfold ublksrv_batch_add_complete. rewrite Hcb. cbn [mbind option_bind].
  rewrite (bw_esz _ Hwf), Hd, Hm. cbn [mbind option_bind].
  eexists. split; [done|]. split; [done|].
  assert (Z.to_nat (cur_commit_buf (batch q)) < 2)%nat as Hcur
    by (destruct (bw_cur _ Hwf); lia).
  split.
  - destruct Hwf. split; unfold upd_batch, set_commit_buf_at; qsimpl; try done.
    + by rewrite length_insert.
    + apply Forall_insert; [done|]. qsimpl. lia.
  - eexists. unfold upd_batch, set_commit_buf_at; qsimpl. split.
    { apply list_lookup_insert_eq. rewrite (bw_len _ Hwf). done. }
    qsimpl. rewrite length_app. cbn [length]. split.
    { rewrite u16_id by (unfold is_u16; lia). lia. }
    rewrite Nat.add_1_r. by eapply decode_batch_snoc.
Qed.

(** The entry of a COMMIT command for the completions of one buffer. *)
Definition commit_sqe (q : queue R T) (cb : batch_commit_buf) (ud : Z) : io_uring_sqe :=
  mk_sqe ud
    (UringCmd UBLK_U_IO_COMMIT_IO_CMDS 0 IOSQE_FIXED_FILE None (Some (cb_addr cb))
       (Some (ublk_batch_elem_buf_size q * cb_done cb)) None
       (BatchCmd (mk_batch_io (u16 (q_id q)) (cmd_flags (batch q)) (cb_done cb)
                    (ublk_batch_elem_buf_size q)))).

Lemma batch_io_cmd_spec op buf idx n q :
  batch_wf q -> 0 <= idx <= 1 -> 0 <= n <= q_depth q -> 0 <= _IOC_NR op < 2^8 ->
  exists (ok : bool) r, let ud := idx + _IOC_NR op * 2^16 + n * 2^24 in
    let esz := ublk_batch_elem_buf_size q in
    let sqe := mk_sqe ud (UringCmd op 0 IOSQE_FIXED_FILE None (Some buf) (Some (esz * n)) None
                 (BatchCmd (mk_batch_io (u16 (q_id q)) (cmd_flags (batch q)) n esz))) in
    ublksrv_batch_io_cmd op buf idx n q =
      Some (ok, if ok then set_cmd_inflight (u32 (cmd_inflight q + 1)) (set_ring r q)
                else set_ring r q) /\
    ublksrv_alloc_sqe sqe (ring q) = (ok, r).
Proof.
  intros Hwf Hidx Hn Hop. pose proof (elem_size_bounds q) as Hesz.
  pose proof (bw_depth _ Hwf) as Hdep. unfold UBLK_MAX_QUEUE_DEPTH in Hdep.
  unfold ublksrv_batch_io_cmd, build_batch_user_data.
  rewrite user_data_sum by (unfold_width; lia). cbn [mbind option_bind].
  rewrite (bw_esz _ Hwf), u32_id by (unfold is_u32; nia).
  replace (idx + _IOC_NR op * 2^16 + n * 2^24 + 0 * 2^63)
    with (idx + _IOC_NR op * 2^16 + n * 2^24) by lia.
  destruct (ublksrv_alloc_sqe _ (ring q)) as [ok r] eqn:Ha.
  exists ok, r. split; [|done]. by destruct ok.
Qed.

(** *** Starting the queue

    The first commit buffer carries one element per tag, for PREP. *)
Definition all_tags (q : queue R T) : list (Z * Z) := (fun i => (i, 0)) <$> seqZ 0 (q_depth q).

Definition prep_sqe (q : queue R T) (cb : batch_commit_buf) : io_uring_sqe :=
  mk_sqe (_IOC_NR UBLK_U_IO_PREP_IO_CMDS * 2^16 + q_depth q * 2^24)
    (UringCmd UBLK_U_IO_PREP_IO_CMDS 0 IOSQE_FIXED_FILE None (Some (cb_addr cb))
       (Some (ublk_batch_elem_buf_size q * q_depth q)) None
       (BatchCmd (mk_batch_io (u16 (q_id q)) (cmd_flags (batch q)) (q_depth q)
                    (ublk_batch_elem_buf_size q)))).

(** A multishot FETCH that gives the driver the whole buffer. *)
Definition fetch_sqe (q : queue R T) (i : Z) (fb : batch_fetch_buf) : io_uring_sqe :=
  mk_sqe (i + _IOC_NR UBLK_U_IO_FETCH_IO_CMDS * 2^16 + fetch_buf_size fb / 2 * 2^24)
    (UringCmd UBLK_U_IO_FETCH_IO_CMDS 0 (Z.lor IOSQE_FIXED_FILE IOSQE_BUFFER_SELECT)
       (Some IORING_URING_CMD_MULTISHOT) None None (Some i)
       (BatchCmd (mk_batch_io (u16 (q_id q)) 0 (fetch_buf_size fb / 2) 2))).

Lemma prep_fill_spec q n bytes l :
  let esz := ublk_batch_elem_buf_size q in
  Z.of_nat (length l + n) * esz <= Z.of_nat (length bytes) -> Z.of_nat (length l + n) <= UBLK_MAX_QUEUE_DEPTH ->
  (forall i, 0 <= i < Z.of_nat (length l + n) -> is_Some (get_io q i)) ->
  decode_batch esz (length l) bytes = Some l ->
  exists m, prep_fill n (Z.of_nat (length l)) q esz bytes = Some m /\ length m = length bytes /\
    decode_batch esz (length l + n) m = Some (l ++ ((fun i => (i, 0)) <$> seqZ (Z.of_nat (length l)) (Z.of_nat n))).
Proof.
  intros esz. revert bytes l. induction n as [|n IH]; intros bytes l Hcap Hmax Hio Hl.
  { exists bytes. rewrite Nat.add_0_r. cbn. by rewrite app_nil_r. }
  unfold UBLK_MAX_QUEUE_DEPTH in Hmax. pose proof (elem_size_bounds q) as Hesz. fold esz in Hesz.
  destruct (batch_store_elem_spec q (Z.of_nat (length l)) (Z.of_nat (length l)) 0 bytes) as (m&Hm&Hlen&Hd&Hfr);
    [lia|fold esz; nia|apply Hio; lia|unfold is_u16; lia|unfold is_s32; lia|]. fold esz in Hm, Hd, Hfr.
  cbn [prep_fill]. rewrite Hm. cbn [mbind option_bind].
  pose proof (decode_batch_snoc esz bytes m l _ Hfr Hd Hl) as Hs.
  assert (Hl1 : length (l ++ [(Z.of_nat (length l), 0)]) = S (length l)) by (rewrite length_app; cbn; lia).
  destruct (IH m (l ++ [(Z.of_nat (length l), 0)])) as (m'&Hm'&Hlen'&Hd').
  { rewrite Hl1, Hlen. lia. }
  { rewrite Hl1. unfold UBLK_MAX_QUEUE_DEPTH. lia. }
  { intros i Hi. apply Hio. rewrite Hl1 in Hi. lia. }
  { by rewrite Hl1. }
  rewrite Hl1 in Hm', Hd'. replace (Z.of_nat (S (length l))) with (Z.of_nat (length l) + 1) in * by lia.
  exists m'. split; [done|]. split; [lia|]. rewrite Nat.add_succ_r, <- Nat.add_succ_l, Hd', (seqZ_cons _ (Z.of_nat (S n))) by lia.
  rewrite <- app_assoc. cbn [app fmap list_fmap]. unfold Z.succ. replace (Z.pred (Z.of_nat (S n))) with (Z.of_nat n) by lia. done.
Qed.

Record batch_fresh (q : queue R T) : Prop := {
  bf_wf : batch_wf q;
  bf_on : ublksrv_queue_batch_io q = true;
  bf_fetch : exists fb, fetch_bufs (batch q) = [fb] /\ 2 * q_depth q <= fetch_buf_size fb < 2^17;
  bf_ios : forall i, 0 <= i < q_depth q -> is_Some (get_io q i);
  bf_entries : 1 <= sq_entries (ring q)
}.

Lemma prep_filled_wf q cb0 rest m : batch_wf q -> commit_bufs (batch q) = cb0 :: rest -> length m = length (cb_bytes cb0) ->
  batch_wf (upd_batch (set_commit_buf_at 0 (set_cb_bytes m cb0)) q).
Proof.
  intros [] Hcbs Hm. split; unfold upd_batch, set_commit_buf_at; qsimpl; try done.
  - by rewrite length_insert.
  - apply Forall_insert; [done|]. qsimpl. rewrite Hm. rewrite Hcbs in bw_bytes0. by apply Forall_cons in bw_bytes0 as [? _].
Qed.

Lemma queue_fetch_spec `{!UringProgress R} q (i : Z) fb :
  fetch_bufs (batch q) !! Z.to_nat i = Some fb -> 0 <= i <= 1 -> 0 <= fetch_buf_size fb < 2^17 -> 1 <= sq_entries (ring q) ->
  exists r, ublksrv_batch_queue_fetch i q =
      Some (upd_batch (set_fetch_buf_at i (set_fetch_buf_off 0 fb)) (set_cmd_inflight (u32 (cmd_inflight q + 1))
              (set_ring r (log_ev (EvBufRingAdd i (fetch_buf_size fb)) q)))) /\
    ublksrv_alloc_sqe (fetch_sqe q i fb) (ring q) = (true, r).
Proof.
  intros Hfb Hi Hs He. destruct (alloc_sqe_progress (fetch_sqe q i fb) (ring q) He) as [r Hr]. exists r. split; [|done].
  unfold ublksrv_batch_queue_fetch. rewrite Hfb. cbn [mbind option_bind].
  assert (0 <= fetch_buf_size fb / 2 < 2^16) by (split; [apply Z.div_pos; lia|apply Z.div_lt_upper_bound; lia]).
  rewrite (u16_id (fetch_buf_size fb / 2)), (u16_id i) by (unfold is_u16; lia).
  unfold build_batch_user_data. rewrite user_data_sum by (unfold_width; change (_IOC_NR UBLK_U_IO_FETCH_IO_CMDS) with 0x27; lia).
  cbn [mbind option_bind]. rewrite Z.mul_0_l, Z.add_0_r. change (q_id (log_ev _ q)) with (q_id q).
  change (ring (log_ev _ q)) with (ring q). unfold fetch_sqe in Hr. by rewrite Hr.
Qed.

Lemma batch_start_spec `{!UringProgress R} q : batch_fresh q ->
  exists q' cb fb, ublksrv_batch_start_fetch q = Some q' /\
    commit_bufs (batch q') !! 0%nat = Some cb /\ decode_batch (ublk_batch_elem_buf_size q) (Z.to_nat (q_depth q)) (cb_bytes cb) = Some (all_tags q) /\
    fetch_bufs (batch q) = [fb] /\ fetch_bufs (batch q') = [set_fetch_buf_off 0 fb] /\
    ring_log (ring q') = ring_log (ring q) ++ [prep_sqe q cb; fetch_sqe q 0 fb] /\
    cmd_inflight q' = u32 (u32 (cmd_inflight q + 1) + 1) /\ efd q' = efd q /\ stopping q' = stopping q.
Proof.
  intros [Hwf _ (fb&Hfb&Hfs) Hio He]. pose proof (bw_depth _ Hwf) as Hdep. unfold UBLK_MAX_QUEUE_DEPTH in Hdep.
  destruct (commit_bufs (batch q)) as [|cb0 rest] eqn:Hcbs; [by pose proof (bw_len _ Hwf) as Hl; rewrite Hcbs in Hl|].
  pose proof (bw_bytes _ Hwf) as Hby. rewrite Hcbs in Hby. apply Forall_cons in Hby as [Hby _]. pose proof (bw_cap _ Hwf).
  destruct (prep_fill_spec q (Z.to_nat (q_depth q)) (cb_bytes cb0) []) as (m&Hm&Hlen&Hd);
    [cbn; lia|cbn; unfold UBLK_MAX_QUEUE_DEPTH; lia|cbn; intros i Hi; apply Hio; lia|done|].
  unfold ublksrv_batch_start_fetch, ublksrv_batch_queue_prep_io_cmds. rewrite Hcbs. cbn [lookup list_lookup mbind option_bind].
  rewrite u16_id by (unfold is_u16; lia). cbn [length Z.of_nat app Nat.add] in Hm, Hd. change (Z.of_nat 0) with 0 in Hm, Hd. rewrite (bw_esz _ Hwf), Hm. cbn [mbind option_bind].
  set (cb := set_cb_bytes m cb0). set (q1 := upd_batch _ q).
  assert (Hwf1 : batch_wf q1) by (by eapply prep_filled_wf).
  destruct (batch_io_cmd_spec UBLK_U_IO_PREP_IO_CMDS (cb_addr cb) 0 (q_depth q) q1 Hwf1) as (ok&r&Hcmd&Ha); [lia|cbn; lia|done|].
  cbv zeta in Ha. destruct (alloc_sqe_progress (prep_sqe q cb) (ring q) He) as [r1 Hr1].
  assert (Ha' : (ok, r) = (true, r1)) by (rewrite <- Ha; exact Hr1). injection Ha' as -> ->.
  change (cb_addr cb0) with (cb_addr cb). rewrite Hcmd. cbn [mbind option_bind fst snd].
  change (Z.to_nat UBLK_BATCH_NR_FETCH_BUFS) with 1%nat. cbn [queue_fetches]. apply alloc_sqe_spec in Hr1 as [Hl1 He1].
  set (q2 := set_cmd_inflight _ (set_ring r1 q1)).
  destruct (queue_fetch_spec q2 0 fb) as (r2&Hr2&Ha2); [by cbn; rewrite Hfb|lia|lia|by cbn; rewrite He1|].
  rewrite Hr2. cbn [mbind option_bind]. apply alloc_sqe_spec in Ha2 as [Hl2 _].
  eexists _, cb, fb. split; [done|]. unfold upd_batch, set_fetch_buf_at. qsimpl. split; [by cbn; rewrite Hcbs|]. split.
  { unfold all_tags. by rewrite Z2Nat.id in Hd by lia. }
  split; [done|]. split; [by cbn; rewrite Hfb|]. split; [|done]. cbn [ring log_ev set_trace]. change (ring q2) with r1 in Hl2. 
  change (fetch_sqe q2 0 fb) with (fetch_sqe q 0 fb) in Hl2. by rewrite Hl2, Hl1, <- app_assoc.
Qed.

(** Nothing pending: no command. *)
Lemma submit_commit_nil q :
  batch_wf q -> pending_is q [] -> ublksrv_batch_submit_commit q = Some q.
Proof.
  intros Hwf (cb&Hcb&Hd&_). unfold ublksrv_batch_submit_commit. rewrite Hcb.
  cbn [mbind option_bind]. by rewrite Hd.
Qed.

Lemma swap_buffer_ok q :
  batch_wf q ->
  exists cb0, commit_bufs (batch q) !! Z.to_nat (1 - cur_commit_buf (batch q)) = Some cb0.
Proof.
  intros Hwf. apply lookup_lt_is_Some. rewrite (bw_len _ Hwf).
  destruct (bw_cur _ Hwf); lia.
Qed.

Lemma submit_commit_spec q l :
  batch_wf q -> pending_is q l -> l <> [] -> Z.of_nat (length l) <= q_depth q ->
  exists cb (ok : bool) q', commit_bufs (batch q) !! Z.to_nat (cur_commit_buf (batch q)) = Some cb /\
    ublksrv_batch_submit_commit q = Some q' /\ batch_wf q' /\
    let ud := cur_commit_buf (batch q) + _IOC_NR UBLK_U_IO_COMMIT_IO_CMDS * 2^16
              + Z.of_nat (length l) * 2^24 in
    ublksrv_alloc_sqe (commit_sqe q cb ud) (ring q) = (ok, ring q') /\
    if ok then
      pending_is q' [] /\ cur_commit_buf (batch q') = 1 - cur_commit_buf (batch q) /\
      commit_bufs (batch q') !! Z.to_nat (cur_commit_buf (batch q)) = Some cb /\
      q' = set_batch (batch q') (set_cmd_inflight (u32 (cmd_inflight q + 1)) (set_ring (ring q') q))
    else pending_is q' l /\ q' = set_ring (ring q') q.
Proof.
  intros Hwf Hpend Hne Hle. pose proof Hpend as (cb&Hcb&Hd&Hdec).
  destruct (swap_buffer_ok q Hwf) as [cb0 Hcb0].
  destruct (batch_io_cmd_spec UBLK_U_IO_COMMIT_IO_CMDS (cb_addr cb) (cur_commit_buf (batch q))
    (Z.of_nat (length l)) q) as (ok&r&Hcmd&Ha); [done|destruct (bw_cur _ Hwf); lia|lia|done|].
  exists cb, ok.
  unfold ublksrv_batch_submit_commit. rewrite Hcb. cbn [mbind option_bind]. rewrite Hd.
  assert (length l <> 0%nat) by (by destruct l).
  replace (Z.of_nat (length l) =? 0) with false by lia.
  rewrite Hcmd. cbn [mbind option_bind fst snd]. unfold commit_sqe. rewrite Hd.
  destruct ok; cbn [negb].
  - qsimpl. rewrite Hcb0. cbn [mbind option_bind]. eexists. split; [done|]. split; [done|].
    assert (Hlt : (Z.to_nat (1 - cur_commit_buf (batch q)) < 2)%nat)
      by (destruct (bw_cur _ Hwf); lia).
    split; [|split; [done|repeat split]].
    + destruct Hwf. split; unfold upd_batch, set_commit_buf_at; qsimpl; try done.
      * by rewrite length_insert.
      * destruct bw_cur0; lia.
      * apply Forall_insert; [done|]. qsimpl.
        rewrite Forall_lookup in bw_bytes0. by eapply bw_bytes0.
    + exists (set_cb_done 0 cb0). unfold upd_batch, set_commit_buf_at; qsimpl. split; [|done].
      apply list_lookup_insert_eq. by rewrite (bw_len _ Hwf).
    + unfold upd_batch, set_commit_buf_at; qsimpl. rewrite list_lookup_insert_ne; [done|].
      destruct (bw_cur _ Hwf); lia.
  - eexists. split; [done|]. split; [done|]. split; [by destruct Hwf|]. done.
Qed.

(** ** A batch of completions, end to end *)
Fixpoint add_completes (l : list (Z * Z)) (q : queue R T) : option (queue R T) :=
  match l with
  | [] => Some q
  | (tag, res) :: l => q ← ublksrv_batch_add_complete tag res q; add_completes l q
  end.

Lemma add_completes_spec q l0 l :
  batch_wf q -> pending_is q l0 -> NoDup (l0 ++ l).*1 ->
  Forall (fun t => 0 <= t < q_depth q) (l0 ++ l).*1 ->
  Forall (fun p => is_Some (get_io q p.1) /\ is_s32 p.2) l ->
  exists q', add_completes l q = Some q' /\ q' = set_batch (batch q') q /\
    batch_wf q' /\ pending_is q' (l0 ++ l).
Proof.
  revert q l0. induction l as [|[tag res] l IH]; intros q l0 Hwf Hp Hnd Hrange Hok; cbn.
  { exists q. rewrite app_nil_r. by destruct q. }
  apply Forall_cons in Hok as [[Hio Hres] Hok].
  pose proof (bw_depth _ Hwf) as Hdep. unfold UBLK_MAX_QUEUE_DEPTH in Hdep.
  pose proof (nodup_tags_length _ _ Hnd Hrange) as Hlen.
  rewrite length_fmap, length_app in Hlen. cbn [length] in Hlen.
  assert (0 <= tag < q_depth q) as Htag.
  { rewrite Forall_forall in Hrange. apply Hrange. rewrite fmap_app. apply elem_of_app.
    right. cbn. left. }
  destruct (add_complete_spec q l0 tag res) as (q1&Hq1&Heq&Hwf1&Hp1);
    [done..|lia|done|unfold is_u16; lia|done|].
  rewrite Hq1. cbn [mbind option_bind].
  rewrite cons_middle, app_assoc in Hnd, Hrange.
  destruct (IH q1 (l0 ++ [(tag, res)])) as (q2&Hq2&Heq2&Hwf2&Hp2); [done..|by rewrite Heq|by rewrite Heq|].
  exists q2. split; [done|]. rewrite <- app_assoc in Hp2. split; [|done].
  rewrite Heq2, Heq. by destruct q.
Qed.

(** C7: Batch commit delivers every completion.  Completing distinct tags
    into the empty commit buffer never writes outside it; the next
    [ublksrv_batch_submit_commit] queues exactly one COMMIT command for that
    buffer with the number of completions, the driver reading the buffer
    back sees the same (tag, result) pairs in the same order, and the queue
    switches to the other buffer, empty.  (The ring makes room when asked.) *)
Theorem batch_commit_delivers `{!UringProgress R} q l :
  batch_wf q -> pending_is q [] -> l <> [] ->
  NoDup l.*1 -> Forall (fun t => 0 <= t < q_depth q) l.*1 ->
  Forall (fun p => is_Some (get_io q p.1) /\ is_s32 p.2) l -> 1 <= sq_entries (ring q) ->
  exists q1 q2 cb ud,
    add_completes l q = Some q1 /\ ublksrv_batch_submit_commit q1 = Some q2 /\
    commit_bufs (batch q2) !! Z.to_nat (cur_commit_buf (batch q1)) = Some cb /\
    build_batch_user_data (cur_commit_buf (batch q1)) (_IOC_NR UBLK_U_IO_COMMIT_IO_CMDS)
      (Z.of_nat (length l)) = Some ud /\
    ring_log (ring q2) = ring_log (ring q) ++ [commit_sqe q1 cb ud] /\
    cb_done cb = Z.of_nat (length l) /\
    decode_batch (commit_buf_elem_size (batch q2)) (Z.to_nat (cb_done cb)) (cb_bytes cb) = Some l /\
    pending_commits q2 = Some [] /\
    cur_commit_buf (batch q2) = 1 - cur_commit_buf (batch q1) /\
    cmd_inflight q2 = u32 (cmd_inflight q + 1).
Proof.
  intros Hwf Hp Hne Hnd Hrange Hok Hent.
  destruct (add_completes_spec q [] l) as (q1&Hq1&Heq1&Hwf1&Hp1); [done..|].
  pose proof (nodup_tags_length _ _ Hnd Hrange) as Hlen. rewrite length_fmap in Hlen.
  pose proof (bw_depth _ Hwf) as Hdep.
  destruct (submit_commit_spec q1 l) as (cb&ok&q2&Hcb&Hq2&Hwf2&Ha&Hok2);
    [done..|rewrite Heq1; qsimpl; lia|].
  assert (ring q1 = ring q) as Hr by (by rewrite Heq1).
  destruct (alloc_sqe_progress (commit_sqe q1 cb (cur_commit_buf (batch q1) +
    _IOC_NR UBLK_U_IO_COMMIT_IO_CMDS * 2^16 + Z.of_nat (length l) * 2^24)) (ring q1))
    as [r Hr1]; [by rewrite Hr|].
  rewrite Hr1 in Ha. injection Ha as <- ->. destruct Hok2 as (Hp2&Hcur&Hcb2&Heq2).
  destruct Hp1 as (cb'&Hcb'&Hd&Hdec). rewrite Hcb in Hcb'. injection Hcb' as <-.
  eexists q1, q2, cb, _. repeat split; try done.
  - unfold build_batch_user_data. rewrite user_data_sum, Z.mul_0_l, Z.add_0_r; [done|..];
      unfold_width; unfold UBLK_MAX_QUEUE_DEPTH in Hdep; change (_IOC_NR UBLK_U_IO_COMMIT_IO_CMDS) with 0x26;
      destruct (bw_cur _ Hwf1); lia.
  - rewrite <- Hr. by apply alloc_sqe_spec in Hr1 as [-> _].
  - rewrite (bw_esz _ Hwf2), Hd, Nat2Z.id, Heq2. done.
  - by apply pending_is_commits.
  - rewrite Heq2. qsimpl. by rewrite Heq1.
Qed.

(** ** Allocation *)
Variable page_shift : Z.
Hypothesis page_shift_range : 12 <= page_shift <= 16.
Let page_sz : Z := 2^page_shift.

Lemma page_sz_range : 2^12 <= page_sz <= 2^16.
Proof. unfold page_sz. split; apply Z.pow_le_mono_r; lia. Qed.

Lemma commit_buf_size_bounds q : 0 <= q_depth q <= UBLK_MAX_QUEUE_DEPTH ->
  ublk_batch_elem_buf_size q * q_depth q <= ublk_batch_commit_buf_size page_sz q < 2^18.
Proof.
  unfold UBLK_MAX_QUEUE_DEPTH. intros Hd. pose proof (elem_size_bounds q).
  pose proof page_sz_range. unfold ublk_batch_commit_buf_size.
  rewrite (u32_id (ublk_batch_elem_buf_size q * q_depth q)) by (unfold is_u32; nia).
  destruct (round_up_spec (ublk_batch_elem_buf_size q * q_depth q) page_shift) as [Hr _]; [lia|].
  fold page_sz in Hr. rewrite u32_id by (unfold is_u32; nia). nia.
Qed.

(** A successful allocation establishes what the commit path relies on:
    both commit buffers hold one element for each tag of the queue, element
    size and stride agree, the current buffer is empty, and the fetch buffer
    holds the two-byte tags of the whole queue. *)
Theorem batch_alloc_ok ar q fb a f :
  ar_commit ar = Some a -> ar_fetch ar 0 = Some f -> ar_buf_ring ar 0 = true ->
  (forall n, 0 <= n -> Z.of_nat (length (ar_fresh ar n)) = n) ->
  fetch_bufs (batch q) = [fb] -> 0 <= q_depth q <= UBLK_MAX_QUEUE_DEPTH ->
  exists q' fb', ublksrv_batch_alloc_bufs page_sz ar q = Some (0, q') /\
    batch_wf q' /\ pending_commits q' = Some [] /\
    fetch_bufs (batch q') = [fb'] /\ 2 * q_depth q <= fetch_buf_size fb' /\
    Z.of_nat (length (fb_bytes fb')) = fetch_buf_size fb' /\ fetch_buf_off fb' = 0 /\
    q' = set_batch (batch q') q.
Proof.
  intros Ha Hf Hbr Hfresh Hfb Hd. pose proof (commit_buf_size_bounds q Hd) as Hsz.
  pose proof (elem_size_bounds q) as Hesz. pose proof page_sz_range as Hpg.
  unfold UBLK_MAX_QUEUE_DEPTH in Hd.
  destruct (round_up_spec (q_depth q * 2) page_shift) as [Hr _]; [lia|]. fold page_sz in Hr.
  unfold ublksrv_batch_alloc_bufs. rewrite Ha. qsimpl.
  change (Z.to_nat UBLK_BATCH_NR_FETCH_BUFS) with 1%nat. cbn [alloc_fetch_bufs].
  unfold alloc_fetch_buf, upd_batch. qsimpl. rewrite Hfb. cbn [lookup list_lookup Z.to_nat mbind option_bind].
  rewrite Hf, Hbr. cbn [mbind option_bind]. eexists _, _. split; [reflexivity|].
  assert (Hfs : 2 * q_depth q <= u32 (round_up (q_depth q * 2) page_sz))
    by (rewrite u32_id by (unfold is_u32; nia); lia).
  split; [split; qsimpl; try done; [by left|by rewrite u8_id by (unfold is_u8; lia)| |exact (proj1 Hsz)]|].
  { unfold init_commit_bufs. apply List.Forall_map, Forall_forall. intros i _.
    unfold set_fetch_buf_at. qsimpl. apply Hfresh. nia. }
  split; [done|]. unfold set_fetch_buf_at. qsimpl. rewrite Hfb. cbn [insert list_insert Z.to_nat].
  split; [done|]. qsimpl. split; [done|]. split; [|done]. apply Hfresh.
  pose proof (u32_bound (round_up (q_depth q * 2) page_sz)) as Hb. unfold is_u32 in Hb. lia.
Qed.

(** C8: A failed set-up of the buffer ring frees the fetch buffer but keeps
    its address, and the clean-up of the queue ([ublksrv_batch_free_bufs],
    called by [ublksrv_queue_deinit] after the failure) frees the same
    address again. *)
Theorem batch_alloc_failure_double_free ar q fb a f :
  ar_commit ar = Some a -> ar_fetch ar 0 = Some f -> ar_buf_ring ar 0 = false ->
  f <> 0 -> f <> a -> fetch_bufs (batch q) = [fb] -> trace q = [] ->
  exists q1 q2, ublksrv_batch_alloc_bufs page_sz ar q = Some (- ENOMEM, q1) /\
    ublksrv_batch_free_bufs q1 = Some q2 /\
    filter (fun e => e = EvFree f) (trace q2) = [EvFree f; EvFree f].
Proof.
  intros Ha Hf Hbr Hnz Hne Hfb Htr. unfold ublksrv_batch_alloc_bufs. rewrite Ha. qsimpl.
  change (Z.to_nat UBLK_BATCH_NR_FETCH_BUFS) with 1%nat. cbn [alloc_fetch_bufs].
  unfold alloc_fetch_buf, upd_batch. qsimpl. rewrite Hfb. cbn [lookup list_lookup Z.to_nat mbind option_bind].
  rewrite Hf, Hbr. cbn [mbind option_bind]. unfold fail_fetch. cbn [fail_fetch_loop Z.to_nat mbind option_bind].
  eexists _, _. split; [reflexivity|]. unfold ublksrv_batch_free_bufs.
  change (Z.to_nat UBLK_BATCH_NR_FETCH_BUFS) with 1%nat. cbn [free_fetch_bufs].
  unfold upd_batch, set_fetch_buf_at, log_ev. qsimpl. rewrite Hfb.
  rewrite Z2Nat.inj_0. cbn [insert list_insert lookup list_lookup mbind option_bind]. qsimpl.
  apply Z.eqb_neq in Hnz as Hnz'. rewrite Hnz'. cbn [negb Z.eqb mbind option_bind]. qsimpl.
  split; [reflexivity|].
  rewrite Htr. cbn [app]. qsimpl. rewrite !filter_cons, filter_nil.
  repeat case_decide; congruence.
Qed.
End batch_lemmas.
