(* ===== verification/Queue.v ===== *)
(** * The I/O queue

    The queue half of lib/ublksrv.c: issuing FETCH, COMMIT and GET_DATA
    commands, completing I/O, the eventfd and epoll requests, the dispatch of
    completions, idle handling and [ublksrv_process_io]. *)

From S2P Require Import Prelude Bytes UblkCmd Uring QueueTypes Batch.

(** [io_uring_prep_poll_add] etc. take the file and the poll mask. *)
Definition EPOLL_MAX_EVENTS : Z := 8.
Definition EPOLL_CTL_ADD : Z := 1.
Definition EPOLL_CTL_MOD : Z := 3.

Section queue.
Context {R : Type} `{!Uring R} {T : Type}.
Variable tgt_ops : ublksrv_tgt_type R T.
Implicit Types q : queue R T.

(** The command a free io asks for. *)
Definition io_cmd_op (flags : Z) : Z :=
  if has flags UBLKSRV_NEED_GET_DATA then UBLK_IO_NEED_GET_DATA
  else if has flags UBLKSRV_NEED_COMMIT_RQ_COMP then UBLK_IO_COMMIT_AND_FETCH_REQ
  else if has flags UBLKSRV_NEED_FETCH_RQ then UBLK_IO_FETCH_REQ
  else 0.

(** The entry stored by [ublksrv_queue_io_cmd]. *)
Definition io_cmd_sqe (q : queue R T) (io : ublk_io) (tag : Z) : option io_uring_sqe :=
  let op0 := io_cmd_op (io_flags io) in
  let result := if op0 =? UBLK_IO_COMMIT_AND_FETCH_REQ then Some (s32 (io_result io)) else None in
  let cmd_op := if has (state q) UBLKSRV_QUEUE_IOCTL_OP
                then _IOWR (_IOC_NR op0) sizeof_ublksrv_io_cmd else op0 in
  let addr := if ublksrv_queue_use_buf q then buf_addr io else 0 in
  let sqe_addr := if has (state q) UBLKSRV_AUTO_ZC
                  then Some (ublk_auto_buf_reg_to_sqe_addr (mk_auto_buf_reg (u16 tag) 0 0 0))
                  else None in
  ud ← build_user_data tag (_IOC_NR cmd_op) 0 0;
  Some (mk_sqe ud (UringCmd cmd_op 0 IOSQE_FIXED_FILE (Some 0) sqe_addr None None
                     (IoCmd (u16 (q_id q)) (u16 tag) result addr))).

Definition ublksrv_queue_io_cmd (tag : Z) (q : queue R T) : option (Z * queue R T) :=
  io ← get_io q tag;
  if negb (has (io_flags io) UBLKSRV_IO_FREE) then Some (0, q)
  else if negb (has (io_flags io)
            (Z.lor (Z.lor UBLKSRV_NEED_FETCH_RQ UBLKSRV_NEED_GET_DATA) UBLKSRV_NEED_COMMIT_RQ_COMP))
  then Some (0, q)
  else
    sqe ← io_cmd_sqe q io tag;
    let '(ok, r) := ublksrv_alloc_sqe sqe (ring q) in
    let q := set_ring r q in
    if negb ok then Some (-1, q)
    else
      let q := put_io tag (set_io_flags 0 io) q in
      Some (1, set_cmd_inflight (u32 (cmd_inflight q + 1)) q).

Definition ublksrv_complete_io (tag res : Z) (q : queue R T) : option (Z * queue R T) :=
  io ← get_io q tag;
  if ublksrv_queue_batch_io q then
    q ← ublksrv_batch_add_complete tag res q;
    io ← get_io q tag;
    Some (1, put_io tag (set_io_flags UBLKSRV_IO_FREE io) q)
  else
    ublksrv_queue_io_cmd tag (put_io tag (ublksrv_mark_io_done io res) q).

Definition ublksrv_queue_inc_tgt_io_inflight (q : queue R T) : queue R T :=
  set_tgt_io_inflight (u32 (tgt_io_inflight q + 1)) q.

Definition ublksrv_queue_dec_tgt_io_inflight (q : queue R T) : queue R T :=
  set_tgt_io_inflight (u32 (tgt_io_inflight q - 1)) q.

(** ** The eventfd request *)
Definition __ublksrv_queue_event (q : queue R T) : option (Z * queue R T) :=
  if 0 <=? efd q then
    ud ← build_internal_data UBLK_IO_OP_EVENTFD;
    if stopping q then Some (- EINVAL, q)
    else
      match io_uring_get_sqe (mk_sqe ud (PrepPollAdd (efd q) POLLIN)) (ring q) with
      | None => Some (-1, q)
      | Some r => Some (0, set_ring r q)
      end
  else Some (0, q).

Definition ublksrv_queue_handled_event (q : queue R T) : option (Z * queue R T) :=
  if 0 <=? efd q then
    let q := log_ev (EvEfdRead (efd q)) q in
    '(ret, q) ← __ublksrv_queue_event q;
    Some (0, if ret =? 0 then set_ring (io_uring_submit_and_wait 0 (ring q)).2 q else q)
  else Some (0, q).

(** [write_ok]: whether write(2) wrote all eight bytes. *)
Definition ublksrv_queue_send_event (write_ok : bool) (q : queue R T) : Z * queue R T :=
  if 0 <=? efd q then
    (if write_ok then 0 else - EPIPE, log_ev (EvEfdWrite (efd q)) q)
  else (0, q).

Fixpoint fetch_loop (n : nat) (i : Z) (q : queue R T) : option (queue R T) :=
  match n with
  | O => Some q
  | S n => '(_, q) ← ublksrv_queue_io_cmd i q; fetch_loop n (i + 1) q
  end.

Definition ublksrv_submit_fetch_commands (q : queue R T) : option (queue R T) :=
  if ublksrv_queue_batch_io q then
    q ← ublksrv_batch_start_fetch q;
    snd <$> __ublksrv_queue_event q
  else
    q ← fetch_loop (Z.to_nat (q_depth q)) 0 q;
    snd <$> __ublksrv_queue_event q.

Definition __ublksrv_queue_is_done (q : queue R T) : bool :=
  stopping q && (io_uring_sq_ready (ring q) =? 0) && (cmd_inflight q =? 0).

(** ** epoll

    [epoll_wait] gives the ready (node, events) pairs of a successful
    epoll_wait(2) in order; when the call fails, the -1 it returns makes the
    loop of [ublkdrv_process_epollfd] run past its array, which is not part of
    the model (with a valid descriptor and no waiting the call has no reason to
    fail).  [epoll_call] is what a registered function does, [epoll_ctl] the result of
    epoll_ctl(2). *)
Variable epoll_wait : queue R T -> list (Z * Z).
Variable epoll_call : Z -> Z -> queue R T -> option (queue R T).
Variable epoll_ctl : Z -> Z -> queue R T -> Z.

Definition ublksrv_prep_epoll_sqe (q : queue R T) : option (Z * queue R T) :=
  ud ← build_internal_data UBLK_IO_OP_EPOLLFD;
  let '(ok, r) := ublksrv_alloc_sqe (mk_sqe ud (PrepPollMultishot (epollfd q) POLLIN)) (ring q) in
  let q := set_ring r q in
  Some (if ok then 0 else -1, q).

Definition find_ecb (addr : Z) (l : list epoll_cb_data) : option epoll_cb_data :=
  snd <$> list_find (fun e => ecb_addr e = addr) l.

Fixpoint epoll_dispatch (evs : list (Z * Z)) (q : queue R T) : option (queue R T) :=
  match evs with
  | [] => Some q
  | (addr, events) :: evs =>
      ecb ← find_ecb addr (epoll_callbacks q);
      q ← epoll_call (ecb_cb ecb) events q;
      epoll_dispatch evs q
  end.

Definition ublkdrv_process_epollfd (cqe : io_uring_cqe) (q : queue R T) : option (queue R T) :=
  let evs := take (Z.to_nat EPOLL_MAX_EVENTS) (epoll_wait q) in
  let q := log_ev (EvEpollWait (epollfd q)) q in
  q ← epoll_dispatch evs q;
  if has (cqe_flags cqe) IORING_CQE_F_MORE then Some q
  else
    '(_, q) ← ublksrv_prep_epoll_sqe q;
    Some (set_ring (io_uring_submit_and_wait 0 (ring q)).2 q).

Definition ublksrv_epoll_mod_fd (fd events : Z) (q : queue R T) : Z * queue R T :=
  match list_find (fun e => ecb_fd e = fd) (epoll_callbacks q) with
  | Some (_, ecd) =>
      (epoll_ctl EPOLL_CTL_MOD fd q, log_ev (EvEpollCtl EPOLL_CTL_MOD fd events (ecb_addr ecd)) q)
  | None => (-1, q)
  end.

(** [new_epollfd] is the result of epoll_create1(2) with its errno,
    [tgt_ring_depth] the target's ring depth. *)
Definition ublksrv_setup_epollfd (tgt_ring_depth : Z) (new_epollfd errno : Z) (q : queue R T)
    : option (Z * queue R T) :=
  if tgt_ring_depth =? 0 then Some (- EINVAL, q)
  else
    let q := set_epollfd new_epollfd q in
    if new_epollfd <? 0 then Some (- errno, q)
    else ublksrv_prep_epoll_sqe q.

(** [node]: the address returned by calloc ([None] is a failure). *)
Definition ublksrv_epoll_add_fd (tgt_ring_depth new_epollfd errno : Z) (node : option Z)
    (fd events cb : Z) (q : queue R T) : option (Z * queue R T) :=
  '(ret0, q) ← (if epollfd q =? -1
                then ublksrv_setup_epollfd tgt_ring_depth new_epollfd errno q
                else Some (0, q));
  if ret0 <? 0 then Some (-1, q)
  else
    match node with
    | None => Some (-1, q)
    | Some a =>
        let q := set_epoll_callbacks (mk_epoll_cb a fd cb :: epoll_callbacks q) q in
        Some (epoll_ctl EPOLL_CTL_ADD fd q, log_ev (EvEpollCtl EPOLL_CTL_ADD fd events a) q)
    end.

Definition ublksrv_kill_eventfd (q : queue R T) : queue R T :=
  if stopping q && (0 <=? efd q) then log_ev (EvEfdWrite (efd q)) q else q.

(** ** Completions *)
Definition ublksrv_handle_tgt_cqe (cqe : io_uring_cqe) (q : queue R T) : option (queue R T) :=
  let tag := user_data_to_tag (cqe_user_data cqe) in
  if is_internal_io (cqe_user_data cqe) then
    let op := Z.land (Z.shiftr (cqe_user_data cqe) 16) 0xff in
    if op =? UBLK_IO_OP_EVENTFD then
      match handle_event tgt_ops with Some f => f q | None => Some q end
    else if op =? UBLK_IO_OP_EPOLLFD then ublkdrv_process_epollfd cqe q
    else Some q
  else
    match tgt_io_done tgt_ops with
    | Some f => io ← get_io q tag; f (io_tag io) cqe q
    | None => Some q
    end.

Definition ublksrv_handle_cqe (cqe : io_uring_cqe) (q : queue R T) : option (queue R T) :=
  let tag := user_data_to_tag (cqe_user_data cqe) in
  let cmd_op := user_data_to_op (cqe_user_data cqe) in
  let fetch := negb (cqe_res cqe =? UBLK_IO_RES_ABORT) && negb (stopping q) in
  if is_target_io (cqe_user_data cqe) then ublksrv_handle_tgt_cqe cqe q
  else
    '(handled, q) ← (if ublksrv_queue_batch_io q
                     then ublksrv_batch_handle_cqe tgt_ops cqe cmd_op q
                     else Some (false, q));
    if handled : bool then Some q
    else
      io ← get_io q tag;
      let q := set_cmd_inflight (u32 (cmd_inflight q - 1)) q in
      let '(io, q) :=
        if negb fetch
        then (set_io_flags (Z.land (io_flags io) (Z.lnot UBLKSRV_NEED_FETCH_RQ)) io,
              set_state (Z.lor (state q) UBLKSRV_QUEUE_STOPPING) q)
        else (io, q) in
      let q := put_io tag io q in
      if cqe_res cqe =? UBLK_IO_RES_OK then
        snd <$> handle_io_async tgt_ops (io_tag io) q
      else if cqe_res cqe =? UBLK_IO_RES_NEED_GET_DATA then
        let io := set_io_flags (Z.lor (io_flags io) (Z.lor UBLKSRV_NEED_GET_DATA UBLKSRV_IO_FREE)) io in
        snd <$> ublksrv_queue_io_cmd tag (put_io tag io q)
      else
        Some (put_io tag (set_io_flags UBLKSRV_IO_FREE io) q).

(** The completions the loop sees, in order. *)
Fixpoint ublksrv_reap_events_uring (cqes : list io_uring_cqe) (q : queue R T)
    : option (Z * queue R T) :=
  match cqes with
  | [] => Some (0, q)
  | cqe :: cqes =>
      q ← ublksrv_handle_cqe cqe q;
      '(count, q) ← ublksrv_reap_events_uring cqes q;
      Some (count + 1, q)
  end.

(** ** Idle handling and aio batches *)
Variable max_io_buf_bytes : Z.

Fixpoint discard_loop (n : nat) (i : Z) (q : queue R T) : option (queue R T) :=
  match n with
  | O => Some q
  | S n =>
      io ← get_io q i;
      discard_loop n (i + 1) (log_ev (EvMadvise (buf_addr io) max_io_buf_bytes) q)
  end.

Definition ublksrv_queue_discard_io_pages (q : queue R T) : option (queue R T) :=
  discard_loop (Z.to_nat (q_depth q)) 0 q.

Definition ublksrv_queue_idle_enter (q : queue R T) : option (queue R T) :=
  if has (state q) UBLKSRV_QUEUE_IDLE then Some q
  else
    q ← ublksrv_queue_discard_io_pages q;
    call_opt (idle_fn tgt_ops) true (set_state (Z.lor (state q) UBLKSRV_QUEUE_IDLE) q).

Definition ublksrv_queue_idle_exit (q : queue R T) : option (queue R T) :=
  if has (state q) UBLKSRV_QUEUE_IDLE then
    call_opt (idle_fn tgt_ops) false
      (set_state (Z.land (state q) (Z.lnot UBLKSRV_QUEUE_IDLE)) q)
  else Some q.

Definition ublksrv_reset_aio_batch (q : queue R T) : queue R T := set_nr_ctxs 0 q.

Fixpoint submit_aio_loop (n : nat) (i : Z) (q : queue R T) : option (queue R T) :=
  match n with
  | O => Some q
  | S n =>
      ctx ← ctxs q !! Z.to_nat i;
      submit_aio_loop n (i + 1) (log_ev (EvCtxWrite ctx) q)
  end.

Definition ublksrv_submit_aio_batch (q : queue R T) : option (queue R T) :=
  submit_aio_loop (Z.to_nat (nr_ctxs q)) 0 q.

(** ** One iteration of the queue's loop

    [cqes] are the completions found after the wait. *)
Definition ublksrv_process_io (cqes : list io_uring_cqe) (q : queue R T)
    : option (Z * queue R T) :=
  let tsp := if has (state q) UBLKSRV_QUEUE_IDLE then None else Some UBLKSRV_IO_IDLE_SECS in
  let wait_nr := if has (state q) UBLKSRV_QUEUE_POLL && negb (tgt_io_inflight q =? 0)
                 then 0 else 1 in
  if __ublksrv_queue_is_done q then Some (- ENODEV, q)
  else
    q ← (if ublksrv_queue_batch_io q then ublksrv_batch_submit_commit q else Some q);
    let '(ret, r) := io_uring_submit_and_wait_timeout wait_nr tsp (ring q) in
    let q := ublksrv_reset_aio_batch (set_ring r q) in
    '(reapped, q) ← ublksrv_reap_events_uring cqes q;
    q ← ublksrv_submit_aio_batch q;
    q ← call_opt (handle_io_background tgt_ops) (io_uring_sq_ready (ring q)) q;
    q ← (if stopping q then Some (ublksrv_kill_eventfd q)
         else if (ret =? - ETIME) && (reapped =? 0) && (io_uring_sq_ready (ring q) =? 0)
         then ublksrv_queue_idle_enter q
         else ublksrv_queue_idle_exit q);
    Some (reapped, q).
End queue.
