(* ===== verification/QueueSpec.v ===== *)
(** * The command protocol of a queue

    An abstract machine for the life of the tags of a queue, the relation
    between it and the queue of Queue.v, and the proof that the library's
    operations refine it, against an interface of what a target's callbacks
    may do. *)

From S2P Require Import Prelude Bytes UblkCmd Uring QueueTypes Batch Queue.

(** ** The abstract machine

    A tag is not yet fetched, held by the driver with one command in flight,
    held by the target, or out of use after an error completion.  [TLost] is
    a tag whose GET_DATA command found no room in the ring. *)
Inductive tag_state :=
| TInit
| TKernel (op : Z)
| TTarget
| TStopped
| TLost.

(** A command sent to the driver. *)
Record io_command := mk_command { c_user_data : Z; c_tag : Z; c_op : Z; c_result : option Z }.

Record aqueue := mk_aqueue {
  a_tags : list tag_state;
  a_stopping : bool;
  a_log : list io_command
}.

Definition cmd_ud (tag op : Z) : Z := tag + op * 2^16.
Definition command (i : nat) (op : Z) (res : option Z) : io_command :=
  mk_command (cmd_ud (Z.of_nat i) op) (Z.of_nat i) op res.

Definition set_tag (i : nat) (t : tag_state) (A : aqueue) : aqueue :=
  mk_aqueue (<[i := t]> (a_tags A)) (a_stopping A) (a_log A).
Definition send (i : nat) (op : Z) (res : option Z) (A : aqueue) : aqueue :=
  mk_aqueue (<[i := TKernel op]> (a_tags A)) (a_stopping A) (a_log A ++ [command i op res]).
Definition stop_on (res : Z) (A : aqueue) : aqueue :=
  mk_aqueue (a_tags A) (a_stopping A || (res =? UBLK_IO_RES_ABORT)) (a_log A).

Inductive label :=
| LFetch (i : nat)
| LRequest (i : nat)
| LGetData (i : nat)
| LGetDataLost (i : nat)
| LError (i : nat) (res : Z)
| LComplete (i : nat) (res : Z).

Inductive astep : aqueue -> label -> aqueue -> Prop :=
| st_fetch A i : a_tags A !! i = Some TInit ->
    astep A (LFetch i) (send i UBLK_IO_FETCH_REQ None A)
| st_request A i op : a_tags A !! i = Some (TKernel op) ->
    astep A (LRequest i) (set_tag i TTarget A)
| st_get_data A i op : a_tags A !! i = Some (TKernel op) ->
    astep A (LGetData i) (send i UBLK_IO_NEED_GET_DATA None A)
| st_get_data_lost A i op : a_tags A !! i = Some (TKernel op) ->
    astep A (LGetDataLost i) (set_tag i TLost A)
| st_error A i op res : a_tags A !! i = Some (TKernel op) ->
    res <> UBLK_IO_RES_OK -> res <> UBLK_IO_RES_NEED_GET_DATA ->
    astep A (LError i res) (stop_on res (set_tag i TStopped A))
| st_complete A i res : a_tags A !! i = Some TTarget ->
    astep A (LComplete i res) (send i UBLK_IO_COMMIT_AND_FETCH_REQ (Some res) A).

(** What a target may do: complete tags it holds. *)
Definition completes : aqueue -> aqueue -> Prop :=
  rtc (fun A A' => exists i res, astep A (LComplete i res) A').

Definition is_kernel (t : tag_state) : Z := match t with TKernel _ => 1 | _ => 0 end.
Definition is_held (t : tag_state) : Z := match t with TTarget => 1 | _ => 0 end.

Definition total (f : tag_state -> Z) (l : list tag_state) : Z := foldr (fun t n => f t + n) 0 l.

Lemma total_cons f t l : total f (t :: l) = f t + total f l.
Proof. done. Qed.

Lemma total_insert f l i t t' : l !! i = Some t ->
  total f (<[i := t']> l) = total f l - f t + f t'.
Proof.
  revert i. induction l as [|x l IH]; intros [|i] Hi; try done.
  - injection Hi as ->. change (<[0%nat := t']> (t :: l)) with (t' :: l).
    rewrite !total_cons. lia.
  - change (<[S i := t']> (x :: l)) with (x :: <[i := t']> l).
    rewrite !total_cons, (IH i Hi). lia.
Qed.

Lemma total_bounds f l : (forall t, 0 <= f t <= 1) -> 0 <= total f l <= Z.of_nat (length l).
Proof.
  intros Hf. induction l as [|x l IH]; [done|]. rewrite total_cons, length_cons.
  specialize (Hf x). lia.
Qed.

Lemma total_pos f l i t : (forall t, 0 <= f t <= 1) -> l !! i = Some t -> f t = 1 -> 1 <= total f l.
Proof.
  intros Hf. revert i. induction l as [|x l IH]; intros [|i] Hi Ht; try done; rewrite total_cons.
  - injection Hi as ->. pose proof (total_bounds f l Hf). lia.
  - specialize (IH _ Hi Ht). specialize (Hf x). lia.
Qed.

Lemma total_zero f l : (forall t, 0 <= f t <= 1) -> total f l = 0 -> Forall (fun t => f t = 0) l.
Proof.
  intros Hf. induction l as [|x l IH]; [done|]. rewrite total_cons. intros H0.
  pose proof (total_bounds f l Hf). pose proof (Hf x). constructor; [lia|apply IH; lia].
Qed.

Lemma is_kernel_range t : 0 <= is_kernel t <= 1.
Proof. destruct t; cbn; lia. Qed.
Lemma is_held_range t : 0 <= is_held t <= 1.
Proof. destruct t; cbn; lia. Qed.

(** ** The commands in a ring *)
Definition io_command_of (s : io_uring_sqe) : option io_command :=
  match sqe_what s with
  | UringCmd cmd_op _ _ _ _ _ _ (IoCmd _ tag res _) =>
      Some (mk_command (sqe_user_data s) tag (_IOC_NR cmd_op) res)
  | _ => None
  end.

Definition io_commands (l : list io_uring_sqe) : list io_command := omap io_command_of l.

Lemma io_commands_app l1 l2 : io_commands (l1 ++ l2) = io_commands l1 ++ io_commands l2.
Proof. apply omap_app. Qed.

Definition flags_ok (t : tag_state) (flags : Z) : Prop :=
  match t with
  | TInit => flags = Z.lor UBLKSRV_NEED_FETCH_RQ UBLKSRV_IO_FREE
  | TKernel op => flags = 0 /\ is_u8 op
  | TTarget => flags = 0 \/ flags = Z.lor UBLKSRV_NEED_COMMIT_RQ_COMP UBLKSRV_IO_FREE
  | TStopped => flags = UBLKSRV_IO_FREE
  | TLost => flags = Z.lor UBLKSRV_NEED_GET_DATA UBLKSRV_IO_FREE
  end.

Record tgt_view {T : Type} := mk_view {
  v_entries : Z;
  v_q_id : Z;
  v_zero_copy : bool;
  v_auto_zc : bool;
  v_user_copy : bool;
  v_data : T
}.
#[global] Arguments tgt_view T : clear implicits.
#[global] Arguments mk_view {T}.

Section sim.
Context {R : Type} `{!Uring R, !UringLaws R} {T : Type}.
Implicit Types q : queue R T.

(** What a target sees of the queue besides the protocol: the ring's size,
    the configuration fixed at start-up and its own data. *)
Definition view (q : queue R T) : tgt_view T :=
  mk_view (sq_entries (ring q)) (q_id q) (has (state q) UBLKSRV_ZERO_COPY)
    (has (state q) UBLKSRV_AUTO_ZC) (has (state q) UBLKSRV_USER_COPY) (private_data q).

(** ** The refinement relation *)
Record qsim (q : queue R T) (A : aqueue) : Prop := {
  qs_len : Z.of_nat (length (a_tags A)) = q_depth q;
  qs_depth : q_depth q <= UBLK_MAX_QUEUE_DEPTH;
  qs_tags : forall i io, ios q !! i = Some io -> io_tag io = Z.of_nat i /\
    io_iod io = (if Z.of_nat i <? q_depth q then Some (Z.of_nat i) else None);
  qs_iods : q_depth q <= Z.of_nat (length (io_cmd_buf q));
  qs_flags : forall i t, a_tags A !! i = Some t ->
    exists io, ios q !! i = Some io /\ flags_ok t (io_flags io);
  qs_inflight : cmd_inflight q = total is_kernel (a_tags A);
  qs_stop : stopping q = a_stopping A;
  qs_log : io_commands (ring_log (ring q)) = a_log A;
  qs_batch : ublksrv_queue_batch_io q = false;
  qs_entries : 1 <= sq_entries (ring q);
  qs_ctxs : 0 <= nr_ctxs q <= UBLKSRV_NR_CTX_BATCH /\
            length (ctxs q) = Z.to_nat UBLKSRV_NR_CTX_BATCH
}.

Lemma qsim_inflight_bound q A : qsim q A -> 0 <= cmd_inflight q <= q_depth q.
Proof.
  intros Hs. rewrite (qs_inflight _ _ Hs), <- (qs_len _ _ Hs).
  apply total_bounds, is_kernel_range.
Qed.

Lemma get_io_nat q (i : nat) : get_io q (Z.of_nat i) = ios q !! i.
Proof.
  unfold get_io. rewrite (proj2 (Z.leb_le 0 (Z.of_nat i))) by lia. by rewrite Nat2Z.id.
Qed.

(** The entry for a command in flight for tag [i]. *)
Lemma io_cmd_sqe_spec q (io : ublk_io) (i : nat) :
  Z.of_nat i < UBLK_MAX_QUEUE_DEPTH ->
  let op := io_cmd_op (io_flags io) in
  exists s, io_cmd_sqe q io (Z.of_nat i) = Some s /\
    io_command_of s = Some (command i op
      (if op =? UBLK_IO_COMMIT_AND_FETCH_REQ then Some (s32 (io_result io)) else None)).
Proof.
  intros Hi op. unfold UBLK_MAX_QUEUE_DEPTH in Hi. unfold io_cmd_sqe. fold op.
  set (cmd_op := if has (state q) _ then _ else op).
  assert (Hnr : _IOC_NR cmd_op = op).
  { subst cmd_op op. unfold io_cmd_op. repeat case_match; reflexivity. }
  assert (Hop : 0 <= op < 2^8).
  { subst op. unfold io_cmd_op. repeat case_match; done. }
  rewrite Hnr, user_data_sum by (unfold_width; lia). cbn [mbind option_bind].
  eexists. split; [done|]. unfold io_command_of, command, cmd_ud. cbn [sqe_what sqe_user_data].
  rewrite Hnr, u16_id by (unfold is_u16; lia). do 2 f_equal. lia.
Qed.

(** Changing one tag on both sides. *)
Lemma qsim_update q A i t t' io io' q' A' :
  qsim q A -> a_tags A !! i = Some t -> ios q !! i = Some io ->
  ios q' = <[i := io']> (ios q) -> io_tag io' = io_tag io -> io_iod io' = io_iod io ->
  flags_ok t' (io_flags io') ->
  a_tags A' = <[i := t']> (a_tags A) ->
  cmd_inflight q' = u32 (cmd_inflight q - is_kernel t + is_kernel t') ->
  stopping q' = a_stopping A' -> io_commands (ring_log (ring q')) = a_log A' ->
  q_depth q' = q_depth q -> ublksrv_queue_batch_io q' = false ->
  sq_entries (ring q') = sq_entries (ring q) ->
  nr_ctxs q' = nr_ctxs q -> ctxs q' = ctxs q -> io_cmd_buf q' = io_cmd_buf q ->
  qsim q' A'.
Proof.
  intros Hs Ht Hio Hios Htag Hiod Hfl Htags Hinf Hstop Hlog Hdep Hb Hent Hn Hc Hbuf.
  pose proof (qsim_inflight_bound q A Hs) as Hib. destruct Hs. unfold UBLK_MAX_QUEUE_DEPTH in *.
  assert (Hi : (i < length (ios q))%nat).
  { by eapply lookup_lt_Some. }
  split; try congruence.
  - by rewrite Htags, length_insert, Hdep.
  - by rewrite Hdep.
  - intros j io1. rewrite Hios, Hdep. destruct (decide (j = i)) as [->|].
    + rewrite list_lookup_insert_eq by done. intros [= <-]. rewrite Htag, Hiod. by apply qs_tags0.
    + rewrite list_lookup_insert_ne by done. apply qs_tags0.
  - intros j t0. rewrite Htags, Hios. destruct (decide (j = i)) as [->|].
    + rewrite !list_lookup_insert_eq by (done || by eapply lookup_lt_Some). intros [= <-].
      by eexists.
    + rewrite !list_lookup_insert_ne by done. apply qs_flags0.
  - rewrite Hinf, Htags, (total_insert _ _ _ t) by done. rewrite qs_inflight0 in *.
    assert (1 <= total is_kernel (a_tags A) \/ is_kernel t = 0) as Hor.
    { destruct (is_kernel_range t). destruct (Z.eq_dec (is_kernel t) 0); [by right|left].
      eapply total_pos; [apply is_kernel_range|done|lia]. }
    pose proof (is_kernel_range t). pose proof (is_kernel_range t').
    rewrite u32_id by (unfold is_u32; lia). lia.
Qed.

(** What the library's own steps leave alone. *)
Definition same_env (q q' : queue R T) : Prop :=
  view q' = view q /\ epoll_callbacks q' = epoll_callbacks q /\
  io_cmd_buf q' = io_cmd_buf q /\ q_id q' = q_id q /\ q_depth q' = q_depth q /\
  (forall i io', ios q' !! i = Some io' ->
     exists io, ios q !! i = Some io /\ buf_addr io' = buf_addr io).

Lemma same_env_refl q : same_env q q.
Proof. repeat split; eauto. Qed.

Lemma same_env_trans q1 q2 q3 : same_env q1 q2 -> same_env q2 q3 -> same_env q1 q3.
Proof.
  intros (?&?&?&?&?&Ha) (?&?&?&?&?&Hb). repeat split; try congruence.
  intros i io3 Hio3. destruct (Hb _ _ Hio3) as (io2&Hio2&?).
  destruct (Ha _ _ Hio2) as (io1&?&?). exists io1. split; [done|congruence].
Qed.

Lemma same_env_put q i io io' :
  ios q !! i = Some io -> buf_addr io' = buf_addr io ->
  same_env q (put_io (Z.of_nat i) io' q).
Proof.
  intros Hio Ha. repeat split; try done. unfold put_io. rewrite Nat2Z.id. qsimpl.
  intros j io1 Hj. destruct (decide (j = i)) as [->|].
  - rewrite list_lookup_insert_eq in Hj by (by eapply lookup_lt_Some).
    injection Hj as <-. eauto.
  - rewrite list_lookup_insert_ne in Hj by done. eauto.
Qed.

Lemma view_set_ring q r : sq_entries r = sq_entries (ring q) -> view (set_ring r q) = view q.
Proof. intros He. unfold view. qsimpl. by rewrite He. Qed.

Lemma view_set_state q st :
  (forall k, 3 <= k <= 5 -> has st (bit k) = has (state q) (bit k)) -> view (set_state st q) = view q.
Proof.
  intros Hst. unfold view. qsimpl. unfold UBLKSRV_ZERO_COPY, UBLKSRV_AUTO_ZC, UBLKSRV_USER_COPY.
  by rewrite !Hst by lia.
Qed.

Lemma same_env_set_ring q r : sq_entries r = sq_entries (ring q) -> same_env q (set_ring r q).
Proof. intros He. split; [by apply view_set_ring|]. repeat split; eauto. Qed.

(** A free io with work to do sends its command, or finds no room. *)
Lemma queue_io_cmd_free q i io :
  ios q !! i = Some io -> Z.of_nat i < UBLK_MAX_QUEUE_DEPTH ->
  has (io_flags io) UBLKSRV_IO_FREE = true ->
  has (io_flags io) (Z.lor (Z.lor UBLKSRV_NEED_FETCH_RQ UBLKSRV_NEED_GET_DATA)
                       UBLKSRV_NEED_COMMIT_RQ_COMP) = true ->
  exists (ok : bool) r s, io_cmd_sqe q io (Z.of_nat i) = Some s /\
    ublksrv_alloc_sqe s (ring q) = (ok, r) /\
    ublksrv_queue_io_cmd (Z.of_nat i) q =
      Some (if ok then (1, set_cmd_inflight (u32 (cmd_inflight q + 1))
                             (put_io (Z.of_nat i) (set_io_flags 0 io) (set_ring r q)))
            else (-1, set_ring r q)).
Proof.
  intros Hio Hi Hfree Hneed. destruct (io_cmd_sqe_spec q io i Hi) as (s&Hs&_).
  destruct (ublksrv_alloc_sqe s (ring q)) as [ok r] eqn:Ha.
  exists ok, r, s. repeat split; [done..|].
  unfold ublksrv_queue_io_cmd. rewrite get_io_nat, Hio. cbn [mbind option_bind].
  rewrite Hfree, Hneed. cbn [negb]. rewrite Hs. cbn [mbind option_bind]. rewrite Ha.
  by destruct ok.
Qed.

(** Which states send, and what. *)
Definition sends (t : tag_state) (io : ublk_io) (op : Z) (res : option Z) : Prop :=
  match t with
  | TInit => op = UBLK_IO_FETCH_REQ /\ res = None
  | TTarget => io_flags io <> 0 /\ op = UBLK_IO_COMMIT_AND_FETCH_REQ /\
               res = Some (s32 (io_result io))
  | TLost => op = UBLK_IO_NEED_GET_DATA /\ res = None
  | _ => False
  end.

Lemma sends_flags t io op res : sends t io op res -> flags_ok t (io_flags io) ->
  has (io_flags io) UBLKSRV_IO_FREE = true /\
  has (io_flags io) (Z.lor (Z.lor UBLKSRV_NEED_FETCH_RQ UBLKSRV_NEED_GET_DATA)
                       UBLKSRV_NEED_COMMIT_RQ_COMP) = true /\
  op = io_cmd_op (io_flags io) /\ is_u8 op /\
  res = (if op =? UBLK_IO_COMMIT_AND_FETCH_REQ then Some (s32 (io_result io)) else None) /\
  is_kernel t = 0.
Proof.
  destruct t; cbn [sends flags_ok]; try done.
  - intros [-> ->] ->. done.
  - intros (?&->&->) [?| ->]; done.
  - intros [-> ->] ->. done.
Qed.

Lemma queue_io_cmd_sim q A i t io op res :
  qsim q A -> a_tags A !! i = Some t -> ios q !! i = Some io -> sends t io op res ->
  exists ret q', ublksrv_queue_io_cmd (Z.of_nat i) q = Some (ret, q') /\ same_env q q' /\
    (ret = 1 /\ qsim q' (send i op res A) \/
     ret = -1 /\ qsim q' A /\ ios q' = ios q /\ exists s, (ublksrv_alloc_sqe s (ring q)).1 = false).
Proof.
  intros Hs Ht Hio Hsend.
  destruct (qs_flags _ _ Hs _ _ Ht) as (io'&Hio'&Hfl). rewrite Hio in Hio'. injection Hio' as <-.
  destruct (sends_flags _ _ _ _ Hsend Hfl) as (Hfree&Hneed&Hop&Hu8&Hres&Hk).
  assert (Hi : Z.of_nat i < UBLK_MAX_QUEUE_DEPTH).
  { pose proof (qs_depth _ _ Hs). pose proof (qs_len _ _ Hs).
    apply lookup_lt_Some in Ht. lia. }
  destruct (queue_io_cmd_free q i io Hio Hi Hfree Hneed) as (ok&r&s&Hsq&Ha&Hcmd).
  destruct (io_cmd_sqe_spec q io i Hi) as (s'&Hs'&Hcmdof).
  rewrite Hsq in Hs'. injection Hs' as <-. cbn zeta in Hcmdof. rewrite <- Hop, <- Hres in Hcmdof.
  pose proof (alloc_sqe_spec _ _ _ _ Ha) as [Hlog Hent].
  rewrite Hcmd. destruct ok.
  - eexists _, _. split; [done|]. split.
    { eapply same_env_trans; [by apply same_env_set_ring|by apply (same_env_put (set_ring r q) i io)]. }
    left. split; [done|].
    eapply (qsim_update q A i t (TKernel op) io (set_io_flags 0 io)); try done; qs.
    + by rewrite Nat2Z.id.
    + by rewrite Hk, Z.sub_0_r.
    + apply Hs.
    + rewrite Hlog, io_commands_app, (qs_log _ _ Hs). unfold io_commands. cbn. by rewrite Hcmdof.
    + apply Hs.
  - eexists _, _. split; [done|]. split; [by apply same_env_set_ring|]. right.
    split; [done|]. split; [|split; [done|exists s; by rewrite Ha]].
    rewrite app_nil_r in Hlog. destruct Hs. split; qsimpl; rewrite ?Hlog, ?Hent; done.
Qed.

Lemma mark_io_done_target io res : is_s32 res -> flags_ok TTarget (io_flags io) ->
  io_flags (ublksrv_mark_io_done io res) = Z.lor UBLKSRV_NEED_COMMIT_RQ_COMP UBLKSRV_IO_FREE /\
  s32 (io_result (ublksrv_mark_io_done io res)) = res.
Proof.
  intros Hr Hf. unfold ublksrv_mark_io_done. qsimpl. split; [|by apply s32_u32].
  by destruct Hf as [-> | ->].
Qed.

Lemma qsim_mark_done q A i io res :
  qsim q A -> a_tags A !! i = Some TTarget -> ios q !! i = Some io -> is_s32 res ->
  qsim (put_io (Z.of_nat i) (ublksrv_mark_io_done io res) q) A.
Proof.
  intros Hs Ht Hio Hr. destruct (qs_flags _ _ Hs _ _ Ht) as (io'&Hio'&Hfl).
  rewrite Hio in Hio'. injection Hio' as <-.
  eapply (qsim_update q A i TTarget TTarget io (ublksrv_mark_io_done io res)); try done; qs.
  - by rewrite Nat2Z.id.
  - right. by apply mark_io_done_target.
  - by rewrite list_insert_id.
  - cbn [is_kernel]. pose proof (qsim_inflight_bound _ _ Hs).
    pose proof (qs_depth _ _ Hs) as Hd. unfold UBLK_MAX_QUEUE_DEPTH in Hd.
    rewrite u32_id by (unfold is_u32; lia). lia.
  - apply Hs.
  - apply Hs.
  - apply Hs.
Qed.

Lemma complete_io_sim q A i res :
  qsim q A -> a_tags A !! i = Some TTarget -> is_s32 res ->
  exists ret q', ublksrv_complete_io (Z.of_nat i) res q = Some (ret, q') /\ same_env q q' /\
    (ret = 1 /\ qsim q' (send i UBLK_IO_COMMIT_AND_FETCH_REQ (Some res) A) \/
     ret = -1 /\ qsim q' A /\ exists s, (ublksrv_alloc_sqe s (ring q)).1 = false).
Proof.
  intros Hs Ht Hr. destruct (qs_flags _ _ Hs _ _ Ht) as (io&Hio&Hfl).
  destruct (mark_io_done_target io res Hr Hfl) as [Hf Hres].
  pose proof (qsim_mark_done _ _ _ _ res Hs Ht Hio Hr) as Hs1.
  set (q1 := put_io (Z.of_nat i) (ublksrv_mark_io_done io res) q) in *.
  assert (ios q1 !! i = Some (ublksrv_mark_io_done io res)) as Hio1.
  { subst q1. qs. rewrite Nat2Z.id. apply list_lookup_insert_eq. by eapply lookup_lt_Some. }
  destruct (queue_io_cmd_sim q1 A i TTarget _ UBLK_IO_COMMIT_AND_FETCH_REQ (Some res) Hs1 Ht Hio1)
    as (ret&q'&Hcmd&Henv&Hcase).
  { cbn [sends]. rewrite Hf, Hres. done. }
  exists ret, q'. unfold ublksrv_complete_io. rewrite get_io_nat, Hio. cbn [mbind option_bind].
  rewrite (qs_batch _ _ Hs). split; [done|]. split.
  { eapply same_env_trans; [|done]. by eapply same_env_put. }
  destruct Hcase as [?|(?&?&_&?)]; auto.
Qed.

Lemma complete_io_progress `{!UringProgress R} q A i res :
  qsim q A -> a_tags A !! i = Some TTarget -> is_s32 res ->
  exists q', ublksrv_complete_io (Z.of_nat i) res q = Some (1, q') /\ same_env q q' /\
    qsim q' (send i UBLK_IO_COMMIT_AND_FETCH_REQ (Some res) A).
Proof.
  intros Hs Ht Hr. destruct (complete_io_sim q A i res Hs Ht Hr) as (ret&q'&?&?&[[-> ?]|(_&_&s&Hf)]).
  - eauto.
  - destruct (alloc_sqe_progress s (ring q)) as [r Hr']; [apply Hs|]. by rewrite Hr' in Hf.
Qed.

Lemma qsim_tag_lt q A i t : qsim q A -> a_tags A !! i = Some t ->
  Z.of_nat i < UBLK_MAX_QUEUE_DEPTH /\ Z.of_nat i < q_depth q.
Proof.
  intros Hs Ht. pose proof (qs_depth _ _ Hs). pose proof (qs_len _ _ Hs).
  apply lookup_lt_Some in Ht. lia.
Qed.

Lemma qsim_get_iod q A i t : qsim q A -> a_tags A !! i = Some t ->
  exists iod, get_iod q (Z.of_nat i) = Some iod /\ io_cmd_buf q !! i = Some iod.
Proof.
  intros Hs Ht. destruct (qsim_tag_lt q A i t Hs Ht) as [_ Hi].
  destruct (qs_flags _ _ Hs _ _ Ht) as (io&Hio&_). destruct (qs_tags _ _ Hs _ _ Hio) as [_ Hiod].
  pose proof (qs_iods _ _ Hs). destruct (lookup_lt_is_Some_2 (io_cmd_buf q) i) as [iod Hl]; [lia|].
  exists iod. split; [|done]. unfold get_iod. rewrite get_io_nat, Hio. cbn [mbind option_bind].
  rewrite Hiod. replace (Z.of_nat i <? q_depth q) with true by lia. cbn [mbind option_bind].
  by rewrite Nat2Z.id.
Qed.

(** ** Requests that are not I/O commands *)
Lemma qsim_set_ring q A r :
  qsim q A -> io_commands (ring_log r) = io_commands (ring_log (ring q)) ->
  sq_entries r = sq_entries (ring q) -> qsim (set_ring r q) A.
Proof. intros [] Hl He. split; qsimpl; rewrite ?Hl, ?He; done. Qed.

Lemma qsim_private q A t : qsim q A -> qsim (set_private_data t q) A.
Proof. intros []. by split. Qed.

Lemma qsim_log_ev q A e : qsim q A -> qsim (log_ev e q) A.
Proof. intros []. split; qs; done. Qed.

Lemma qsim_submit q A r : qsim q A -> submits (ring q) r -> qsim (set_ring r q) A.
Proof.
  intros Hs Hr. apply qsim_set_ring; [done| |by apply submits_entries].
  by rewrite (submits_log _ _ Hr).
Qed.

Lemma qsim_other_sqe q A s r ok :
  qsim q A -> io_command_of s = None -> ublksrv_alloc_sqe s (ring q) = (ok, r) ->
  qsim (set_ring r q) A.
Proof.
  intros Hs Hn Ha. apply alloc_sqe_spec in Ha as [Hl He]. apply qsim_set_ring; [done| |done].
  rewrite Hl, io_commands_app. destruct ok; [|by rewrite app_nil_r].
  unfold io_commands at 2. cbn. by rewrite Hn, app_nil_r.
Qed.

Lemma internal_ops_fit :
  build_internal_data UBLK_IO_OP_EVENTFD = Some (UBLK_IO_OP_EVENTFD * 2^16 + 3 * 2^62) /\
  build_internal_data UBLK_IO_OP_EPOLLFD = Some (UBLK_IO_OP_EPOLLFD * 2^16 + 3 * 2^62).
Proof. done. Qed.


Lemma queue_event_ok q A :
  qsim q A ->
  exists ret q', __ublksrv_queue_event q = Some (ret, q') /\ qsim q' A /\
    view q' = view q /\ io_commands (ring_log (ring q')) = io_commands (ring_log (ring q)).
Proof.
  intros Hs. unfold __ublksrv_queue_event.
  destruct (0 <=? efd q); [|by exists 0, q]. rewrite (proj1 internal_ops_fit). cbn [mbind option_bind].
  destruct (stopping q); [by exists (- EINVAL), q|].
  destruct (io_uring_get_sqe _ (ring q)) as [r|] eqn:Hg; [|by exists (-1), q].
  apply get_sqe_push in Hg as (He&Hiss&Hp). exists 0, (set_ring r q).
  assert (io_commands (ring_log r) = io_commands (ring_log (ring q))) as Hl.
  { unfold ring_log. rewrite Hiss, Hp, app_assoc, io_commands_app. cbn. by rewrite app_nil_r. }
  split; [done|]. split; [by apply qsim_set_ring|]. split; [by apply view_set_ring|done].
Qed.

(** ** The interface of a target

    [tinv v tags] is the target's invariant on its private data and the
    fixed configuration of the queue; it may
    depend on which tags the target holds and on nothing else of the
    protocol.  A callback completes tags the target holds, and otherwise
    leaves the queue's side of the refinement alone. *)
Definition same_held (l l' : list tag_state) : Prop :=
  length l = length l' /\ forall i, l !! i = Some TTarget <-> l' !! i = Some TTarget.

Definition cb_safe (tinv : tgt_view T -> list tag_state -> Prop)
    (f : queue R T -> option (queue R T)) (q : queue R T) (A : aqueue) : Prop :=
  exists q' A', f q = Some q' /\ completes A A' /\ qsim q' A' /\
    tinv (view q') (a_tags A') /\ epoll_callbacks q ⊆ epoll_callbacks q'.

Class TargetLaws (ops : ublksrv_tgt_type R T) := {
  tinv : tgt_view T -> list tag_state -> Prop;
  (** completions of the target's own requests that can arrive *)
  tgt_cqe_ok : tgt_view T -> io_uring_cqe -> Prop;
  tinv_held : forall t l l', same_held l l' -> tinv t l -> tinv t l';
  tl_async : forall q A i op, qsim q A -> a_tags A !! i = Some TTarget ->
    tinv (view q) (<[i := TKernel op]> (a_tags A)) ->
    cb_safe tinv (fun q => snd <$> handle_io_async ops (Z.of_nat i) q) q A;
  tl_done : forall f q A cqe, tgt_io_done ops = Some f -> qsim q A ->
    tinv (view q) (a_tags A) -> tgt_cqe_ok (view q) cqe ->
    cb_safe tinv (fun q => io ← get_io q (user_data_to_tag (cqe_user_data cqe));
                           f (io_tag io) cqe q) q A;
  tl_event : forall f q A, handle_event ops = Some f -> qsim q A ->
    tinv (view q) (a_tags A) -> cb_safe tinv f q A;
  tl_background : forall f n q A, handle_io_background ops = Some f -> qsim q A ->
    tinv (view q) (a_tags A) -> cb_safe tinv (f n) q A;
  tl_idle : forall f b q A, idle_fn ops = Some f -> qsim q A ->
    tinv (view q) (a_tags A) -> cb_safe tinv (f b) q A
}.

(** ** Completions of commands *)
Lemma cmd_ud_decode i op : Z.of_nat i < UBLK_MAX_QUEUE_DEPTH -> is_u8 op ->
  let ud := cmd_ud (Z.of_nat i) op in
  user_data_to_tag ud = Z.of_nat i /\ user_data_to_op ud = op /\ is_target_io ud = false.
Proof.
  intros Hi Hop ud. unfold UBLK_MAX_QUEUE_DEPTH in Hi.
  destruct (user_data_decode (Z.of_nat i) op 0 0) as (Ht&Ho&_&Htgt&_);
    [unfold is_u16; lia|done|done|done|].
  replace (Z.of_nat i + op * 2^16 + 0 * 2^24 + 0 * 2^63) with ud in * by (subst ud; unfold cmd_ud; lia).
  done.
Qed.

Lemma same_held_insert l i t t' :
  l !! i = Some t -> t <> TTarget -> t' <> TTarget -> same_held l (<[i := t']> l).
Proof.
  intros Ht Hn Hn'. split; [by rewrite length_insert|]. intros j.
  destruct (decide (j = i)) as [->|].
  - rewrite list_lookup_insert_eq by (by eapply lookup_lt_Some). rewrite Ht.
    split; congruence.
  - by rewrite list_lookup_insert_ne.
Qed.

(** The queue after the driver gave back tag [i] and before it is handed on. *)
Definition cqe_taken (q : queue R T) (i : nat) (fetch : bool) (io' : ublk_io) : queue R T :=
  put_io (Z.of_nat i) io'
    (set_state (if fetch then state q else Z.lor (state q) UBLKSRV_QUEUE_STOPPING)
       (set_cmd_inflight (u32 (cmd_inflight q - 1)) q)).

Lemma qsim_taken q A i op res io io' t' A' :
  qsim q A -> a_tags A !! i = Some (TKernel op) -> ios q !! i = Some io ->
  io_tag io' = io_tag io -> io_iod io' = io_iod io -> flags_ok t' (io_flags io') -> is_kernel t' = 0 ->
  a_tags A' = <[i := t']> (a_tags A) -> a_log A' = a_log A ->
  a_stopping A' = a_stopping A || (res =? UBLK_IO_RES_ABORT) ->
  qsim (cqe_taken q i (negb (res =? UBLK_IO_RES_ABORT) && negb (stopping q)) io') A'.
Proof.
  intros Hs Ht Hio Htag Hiod Hfl Hk Htags Hlog Hstop.
  eapply (qsim_update q A i (TKernel op) t' io io'); try done; unfold cqe_taken; qs.
  - by rewrite Nat2Z.id.
  - rewrite Hk. cbn [is_kernel]. f_equal. lia.
  - unfold stopping. qsimpl. rewrite Hstop, <- (qs_stop _ _ Hs). unfold stopping.
    destruct (res =? _); cbn [negb andb orb]; [|destruct (has (state q) _) eqn:Hb; cbn [negb]];
      rewrite ?orb_true_r, ?orb_false_r; try done;
      unfold UBLKSRV_QUEUE_STOPPING; rewrite has_lor_bit by lia; by rewrite orb_true_r.
  - rewrite Hlog. apply Hs.
  - pose proof (qs_batch _ _ Hs) as Hb. unfold ublksrv_queue_batch_io in *. qsimpl.
    case_match; [done|]. unfold UBLKSRV_QUEUE_STOPPING, UBLKSRV_QUEUE_BATCH_IO in *.
    rewrite has_lor_bit by lia. by rewrite Hb.
Qed.

Lemma same_env_taken q i fetch io io' :
  ios q !! i = Some io -> buf_addr io' = buf_addr io -> same_env q (cqe_taken q i fetch io').
Proof.
  intros Hio Ha. unfold cqe_taken.
  eapply same_env_trans; [|eapply same_env_put; [qsimpl; done|done]].
  split; [|repeat split; eauto]. apply (view_set_state (set_cmd_inflight _ q)). intros k Hk.
  destruct fetch; [done|]. unfold UBLKSRV_QUEUE_STOPPING. rewrite has_lor_bit by lia.
  replace (k =? 0) with false by lia. apply orb_false_r.
Qed.
End sim.

Section dispatch.
Context {R : Type} `{!Uring R, !UringLaws R} {T : Type}.
Variable ops : ublksrv_tgt_type R T.
Context `{!TargetLaws ops}.
Variable epoll_wait : queue R T -> list (Z * Z).
Variable epoll_call : Z -> Z -> queue R T -> option (queue R T).
(** epoll_wait(2) returns the data of registered descriptors, and the
    registered functions are callbacks of the target. *)
Hypothesis epoll_wait_registered : forall q addr ev,
  (addr, ev) ∈ epoll_wait q -> is_Some (find_ecb addr (epoll_callbacks q)).
Hypothesis epoll_call_safe : forall cb ev q A, qsim q A ->
  tinv (view q) (a_tags A) -> cb_safe tinv (epoll_call cb ev) q A.
Implicit Types q : queue R T.

Notation handle_cqe := (ublksrv_handle_cqe ops epoll_wait epoll_call).

Definition lstep (A : aqueue) (l : label) (A' : aqueue) : Prop :=
  exists A1, astep A l A1 /\ completes A1 A'.

(** What one command completion does to the protocol. *)
Definition cqe_label (i : nat) (res : Z) (l : label) : Prop :=
  if res =? UBLK_IO_RES_OK then l = LRequest i
  else if res =? UBLK_IO_RES_NEED_GET_DATA then l = LGetData i \/ l = LGetDataLost i
  else l = LError i res.

(** The dispatch of a command completion, up to the hand-over. *)
Lemma handle_cqe_unfold q A i op res flags io :
  qsim q A -> a_tags A !! i = Some (TKernel op) -> ios q !! i = Some io ->
  let cqe := mk_cqe (cmd_ud (Z.of_nat i) op) res flags in
  let fetch := negb (res =? UBLK_IO_RES_ABORT) && negb (stopping q) in
  handle_cqe cqe q =
    if res =? UBLK_IO_RES_OK then
      snd <$> handle_io_async ops (Z.of_nat i) (cqe_taken q i fetch io)
    else if res =? UBLK_IO_RES_NEED_GET_DATA then
      snd <$> ublksrv_queue_io_cmd (Z.of_nat i) (cqe_taken q i fetch
        (set_io_flags (Z.lor UBLKSRV_NEED_GET_DATA UBLKSRV_IO_FREE) io))
    else Some (cqe_taken q i fetch (set_io_flags UBLKSRV_IO_FREE io)).
Proof.
  intros Hs Ht Hio cqe fetch.
  destruct (qs_flags _ _ Hs _ _ Ht) as (io'&Hio'&Hfl). rewrite Hio in Hio'. injection Hio' as <-.
  destruct Hfl as [Hfl Hop].
  assert (Hi : Z.of_nat i < UBLK_MAX_QUEUE_DEPTH).
  { pose proof (qs_depth _ _ Hs). pose proof (qs_len _ _ Hs). apply lookup_lt_Some in Ht. lia. }
  destruct (cmd_ud_decode i op Hi Hop) as (Hud1&Hud2&Hud3).
  unfold ublksrv_handle_cqe, cqe. cbn [cqe_user_data cqe_res].
  rewrite Hud1, Hud3, (qs_batch _ _ Hs). cbn [mbind option_bind].
  rewrite get_io_nat, Hio. cbn [mbind option_bind]. fold fetch.
  assert (Htag : io_tag io = Z.of_nat i) by (by eapply (qs_tags _ _ Hs)).
  destruct io as [a f r tg iod pr]. cbn in Hfl, Htag. subst f tg.
  unfold cqe_taken, put_io. destruct fetch; cbn [negb]; qsimpl; rewrite ?Nat2Z.id;
    repeat case_match; qsimpl; rewrite ?list_insert_insert_eq; destruct q; done.
Qed.

Lemma handle_io_cqe_sim q A i op res flags :
  qsim q A -> tinv (view q) (a_tags A) -> a_tags A !! i = Some (TKernel op) ->
  exists q' A' l, handle_cqe (mk_cqe (cmd_ud (Z.of_nat i) op) res flags) q = Some q' /\
    cqe_label i res l /\ lstep A l A' /\ qsim q' A' /\ tinv (view q') (a_tags A') /\
    epoll_callbacks q ⊆ epoll_callbacks q'.
Proof.
  intros Hs Hinv Ht. destruct (qs_flags _ _ Hs _ _ Ht) as (io&Hio&Hfl&Hop).
  rewrite (handle_cqe_unfold q A i op res flags io) by done. unfold cqe_label.
  set (fetch := _ && _).
  destruct (Z.eqb_spec res UBLK_IO_RES_OK) as [->|Hne1].
  - assert (Hs1 : qsim (cqe_taken q i fetch io) (set_tag i TTarget A)).
    { eapply (qsim_taken q A i op UBLK_IO_RES_OK io io TTarget); try done; [by left|].
      cbn. by rewrite orb_false_r. }
    destruct (tl_async (ops := ops) (cqe_taken q i fetch io) (set_tag i TTarget A) i op)
      as (q'&A'&Hq'&Hc&Hs'&Hinv'&Hep); [done| | |].
    { cbn. apply list_lookup_insert_eq. by eapply lookup_lt_Some. }
    { cbn. rewrite list_insert_insert_eq, list_insert_id by done.
      by rewrite (proj1 (same_env_taken q i fetch io io Hio eq_refl)). }
    exists q', A', (LRequest i). split; [done|]. split; [done|]. split; [|done].
    exists (set_tag i TTarget A). split; [by econstructor|done].
  - destruct (Z.eqb_spec res UBLK_IO_RES_NEED_GET_DATA) as [->|Hne2].
    + set (io1 := set_io_flags _ io).
      assert (Hs1 : qsim (cqe_taken q i fetch io1) (set_tag i TLost A)).
      { eapply (qsim_taken q A i op UBLK_IO_RES_NEED_GET_DATA io io1 TLost); try done.
        cbn. by rewrite orb_false_r. }
      assert (Hio1 : ios (cqe_taken q i fetch io1) !! i = Some io1).
      { unfold cqe_taken. qs. rewrite Nat2Z.id. apply list_lookup_insert_eq.
        by eapply lookup_lt_Some. }
      assert (Hlk : a_tags (set_tag i TLost A) !! i = Some TLost)
        by (apply list_lookup_insert_eq; by eapply lookup_lt_Some).
      destruct (queue_io_cmd_sim _ _ i TLost io1 UBLK_IO_NEED_GET_DATA None Hs1 Hlk Hio1)
        as (ret&q'&Hq'&Henv&Hcase); [done|].
      assert (Hp : view q' = view q /\ epoll_callbacks q' = epoll_callbacks q)
        by (destruct (same_env_trans _ _ _ (same_env_taken q i fetch io io1 Hio eq_refl) Henv)
              as (?&?&_); done).
      destruct Hp as [Hp He]. rewrite Hq'. cbn [fmap option_fmap option_map snd].
      destruct Hcase as [[_ Hs']|(_&Hs'&_)].
      * exists q', (send i UBLK_IO_NEED_GET_DATA None A), (LGetData i).
        replace (send i _ None (set_tag i TLost A)) with (send i UBLK_IO_NEED_GET_DATA None A) in Hs'
          by (unfold send, set_tag; cbn; by rewrite list_insert_insert_eq).
        split; [done|]. split; [by left|]. split; [|split; [done|split]].
        -- eexists. split; [by econstructor|apply rtc_refl].
        -- rewrite Hp. eapply tinv_held; [|exact Hinv]. by eapply same_held_insert.
        -- by rewrite He.
      * exists q', (set_tag i TLost A), (LGetDataLost i).
        split; [done|]. split; [by right|]. split; [|split; [done|split]].
        -- eexists. split; [by econstructor|apply rtc_refl].
        -- rewrite Hp. eapply tinv_held; [|exact Hinv]. by eapply same_held_insert.
        -- by rewrite He.
    + exists (cqe_taken q i fetch (set_io_flags UBLKSRV_IO_FREE io)).
      exists (stop_on res (set_tag i TStopped A)), (LError i res).
      split; [done|]. split; [done|]. split; [|split].
      * eexists. split; [by econstructor|apply rtc_refl].
      * by eapply (qsim_taken q A i op res io _ TStopped).
      * split; [|done]. rewrite (proj1 (same_env_taken q i fetch io (set_io_flags UBLKSRV_IO_FREE io) Hio eq_refl)).
        eapply tinv_held; [|exact Hinv]. by eapply same_held_insert.
Qed.

(** ** Completions of target requests *)
Lemma find_ecb_Some addr l :
  is_Some (find_ecb addr l) <-> exists e, e ∈ l /\ ecb_addr e = addr.
Proof.
  unfold find_ecb. split.
  - intros [e He]. destruct (list_find _ l) as [[n e']|] eqn:Hf; [|done].
    apply list_find_Some in Hf as (Hl&?&_). exists e'. split; [by eapply list_elem_of_lookup_2|done].
  - intros (e&He&Ha). destruct (list_find_elem_of (fun e => ecb_addr e = addr) l e He Ha) as [? ->].
    by eexists.
Qed.

Lemma cb_safe_trans (f g : queue R T -> option (queue R T)) q A :
  cb_safe tinv f q A ->
  (forall q' A', f q = Some q' -> completes A A' -> qsim q' A' ->
     tinv (view q') (a_tags A') -> epoll_callbacks q ⊆ epoll_callbacks q' ->
     cb_safe tinv g q' A') ->
  cb_safe tinv (fun q => f q ≫= g) q A.
Proof.
  intros (q1&A1&H1&Hc1&Hs1&Hi1&He1) Hg.
  destruct (Hg q1 A1) as (q2&A2&H2&Hc2&Hs2&Hi2&He2); [done..|].
  exists q2, A2. cbn. rewrite H1. cbn. split; [done|]. split; [by etrans|].
  split; [done|]. split; [done|]. by etrans.
Qed.

Lemma epoll_dispatch_safe evs q A :
  qsim q A -> tinv (view q) (a_tags A) ->
  Forall (fun ev => is_Some (find_ecb ev.1 (epoll_callbacks q))) evs ->
  cb_safe tinv (epoll_dispatch epoll_call evs) q A.
Proof.
  revert q A. induction evs as [|[addr ev] evs IH]; intros q A Hs Hi Hall.
  { exists q, A. split; [done|]. split; [apply rtc_refl|]. done. }
  apply Forall_cons in Hall as [[ecb Hecb] Hall]. cbn in Hecb.
  assert (Hstep : cb_safe tinv (fun q => epoll_call (ecb_cb ecb) ev q ≫= epoll_dispatch epoll_call evs) q A).
  { apply cb_safe_trans; [by apply epoll_call_safe|]. intros q' A' _ _ Hs' Hi' He'.
    apply IH; [done..|]. eapply Forall_impl; [exact Hall|]. cbn. intros x.
    rewrite !find_ecb_Some. intros (e&Hin&?). exists e. split; [by apply He'|done]. }
  destruct Hstep as (q'&A'&Hq'&Hrest). exists q', A'. split; [|done].
  cbn [epoll_dispatch]. by rewrite Hecb.
Qed.

Lemma process_epollfd_safe cqe q A :
  qsim q A -> tinv (view q) (a_tags A) ->
  cb_safe tinv (ublkdrv_process_epollfd epoll_wait epoll_call cqe) q A.
Proof.
  intros Hs Hi. unfold ublkdrv_process_epollfd.
  set (evs := take (Z.to_nat EPOLL_MAX_EVENTS) (epoll_wait q)). set (q0 := log_ev (EvEpollWait (epollfd q)) q).
  assert (H0 : cb_safe tinv (epoll_dispatch epoll_call evs) q0 A).
  { apply epoll_dispatch_safe; [by apply qsim_log_ev|done|]. apply Forall_forall.
    intros [addr ev] Hin. cbn. apply (epoll_wait_registered q addr ev).
    by eapply (subseteq_take (Z.to_nat EPOLL_MAX_EVENTS)). }
  destruct H0 as (q1&A1&Hq1&Hc1&Hs1&Hi1&He1).
  unfold cb_safe. cbn zeta. fold evs q0. rewrite Hq1. cbn [mbind option_bind].
  destruct (has (cqe_flags cqe) IORING_CQE_F_MORE); [exists q1, A1; done|].
  unfold ublksrv_prep_epoll_sqe. rewrite (proj2 internal_ops_fit). cbn [mbind option_bind].
  destruct (ublksrv_alloc_sqe _ (ring q1)) as [ok r] eqn:Ha. cbn [mbind option_bind].
  pose proof (submit_and_wait_submits 0 r) as Hsub. pose proof (alloc_sqe_spec _ _ _ _ Ha) as [_ Hent].
  eexists _, A1. split; [done|]. split; [done|]. qsimpl. split.
  - apply (qsim_submit (set_ring r q1)); [|done]. by eapply qsim_other_sqe; [..|exact Ha].
  - split; [|done]. rewrite !view_set_ring; [done|done|by apply submits_entries].
Qed.

(** A target completion that can arrive in private state [t]. *)
Definition tgt_ud_ok (t : tgt_view T) (cqe : io_uring_cqe) : Prop :=
  is_target_io (cqe_user_data cqe) = true /\
  (is_internal_io (cqe_user_data cqe) = false -> tgt_cqe_ok t cqe).

Lemma handle_tgt_cqe_sim cqe q A :
  qsim q A -> tinv (view q) (a_tags A) -> tgt_ud_ok (view q) cqe ->
  cb_safe tinv (handle_cqe cqe) q A.
Proof.
  intros Hs Hi [Ht Hok]. unfold cb_safe, ublksrv_handle_cqe. rewrite Ht.
  unfold ublksrv_handle_tgt_cqe.
  assert (Hid : cb_safe tinv Some q A).
  { exists q, A. split; [done|]. split; [apply rtc_refl|]. done. }
  destruct (is_internal_io (cqe_user_data cqe)) eqn:Hint.
  - destruct (_ =? UBLK_IO_OP_EVENTFD).
    + destruct (handle_event ops) as [f|] eqn:Hf; [by apply (tl_event (ops := ops))|done].
    + destruct (_ =? UBLK_IO_OP_EPOLLFD); [by apply process_epollfd_safe|done].
  - destruct (tgt_io_done ops) as [f|] eqn:Hf; [|done].
    apply (tl_done (ops := ops) f); auto.
Qed.
End dispatch.

(** ** Completing several requests *)

(** Each (tag, result) completed in order. *)
Definition complete_all (ds : list (nat * Z)) (A : aqueue) : aqueue :=
  foldl (fun A d => send d.1 UBLK_IO_COMMIT_AND_FETCH_REQ (Some d.2) A) A ds.

(** Requests of distinct tags the target holds. *)
Definition completable (ds : list (nat * Z)) (A : aqueue) : Prop :=
  NoDup ds.*1 /\ Forall (fun d => a_tags A !! d.1 = Some TTarget /\ is_s32 d.2) ds.

Lemma completable_cons i res ds A : completable ((i, res) :: ds) A ->
  a_tags A !! i = Some TTarget /\ is_s32 res /\
  completable ds (send i UBLK_IO_COMMIT_AND_FETCH_REQ (Some res) A).
Proof.
  intros [Hnd Hall]. apply Forall_cons in Hall as [[? ?] Hall]. do 2 (split; [done|]).
  apply NoDup_cons in Hnd as [Hnot Hnd]. split; [done|]. rewrite Forall_forall in Hall |- *.
  intros [j r] Hin. destruct (Hall _ Hin) as [? ?]. cbn in *. split; [|done]. rewrite list_lookup_insert_ne; [done|].
  intros ->. apply Hnot. apply list_elem_of_fmap. by exists (j, r).
Qed.
