(* ===== verification/QueueSystem.v ===== *)
(** * The queue in its environment

    The driver completes any command that is outstanding, the kernel consumes
    ring entries, the target's own requests complete.  The invariant of the
    queue is proved for every such step and for whole iterations of
    [ublksrv_process_io]. *)

From S2P Require Import Prelude Bytes UblkCmd Uring QueueTypes Batch Queue QueueSpec.

(** ** Outstanding commands of the abstract machine *)
Definition ud_of (i : nat) (t : tag_state) : list Z :=
  match t with TKernel op => [cmd_ud (Z.of_nat i) op] | _ => [] end.

Fixpoint kernel_uds_from (n : nat) (l : list tag_state) : list Z :=
  match l with
  | [] => []
  | t :: l => ud_of n t ++ kernel_uds_from (S n) l
  end.

Definition kernel_uds (l : list tag_state) : list Z := kernel_uds_from 0 l.

Lemma kernel_uds_insert_from n l i t t' : l !! i = Some t ->
  kernel_uds_from n (<[i := t']> l) ++ ud_of (n + i) t ≡ₚ kernel_uds_from n l ++ ud_of (n + i) t'.
Proof.
  revert n i. induction l as [|x l IH]; intros n [|i] Hi; try done.
  - injection Hi as ->. change (<[0%nat := t']> (t :: l)) with (t' :: l).
    cbn [kernel_uds_from]. rewrite Nat.add_0_r. solve_Permutation.
  - change (<[S i := t']> (x :: l)) with (x :: <[i := t']> l). cbn [kernel_uds_from].
    rewrite <- !app_assoc, <- Nat.add_succ_comm. by rewrite (IH (S n) i Hi).
Qed.

Lemma kernel_uds_insert l i t t' : l !! i = Some t ->
  kernel_uds (<[i := t']> l) ++ ud_of i t ≡ₚ kernel_uds l ++ ud_of i t'.
Proof. apply (kernel_uds_insert_from 0). Qed.

Lemma kernel_uds_length l : Z.of_nat (length (kernel_uds l)) = total is_kernel l.
Proof.
  unfold kernel_uds. generalize 0%nat as n. induction l as [|t l IH]; intros n; [done|].
  cbn [kernel_uds_from]. rewrite length_app, total_cons, Nat2Z.inj_add, IH.
  by destruct t.
Qed.

Lemma elem_of_kernel_uds_from n l ud : ud ∈ kernel_uds_from n l <->
  exists i op, l !! i = Some (TKernel op) /\ ud = cmd_ud (Z.of_nat (n + i)) op.
Proof.
  revert n. induction l as [|t l IH]; intros n; cbn [kernel_uds_from].
  - rewrite elem_of_nil. split; [done|]. intros (i&op&Hi&_). done.
  - rewrite elem_of_app, IH. split.
    + intros [Ht|(i&op&Hi&->)].
      * destruct t; cbn in Ht; try by apply elem_of_nil in Ht.
        apply list_elem_of_singleton in Ht as ->. exists 0%nat, op. by rewrite Nat.add_0_r.
      * exists (S i), op. by rewrite <- Nat.add_succ_comm.
    + intros ([|i]&op&Hi&->).
      * injection Hi as ->. left. rewrite Nat.add_0_r. apply list_elem_of_singleton. done.
      * right. exists i, op. by rewrite Nat.add_succ_comm.
Qed.

Lemma elem_of_kernel_uds l ud : ud ∈ kernel_uds l <->
  exists i op, l !! i = Some (TKernel op) /\ ud = cmd_ud (Z.of_nat i) op.
Proof. apply (elem_of_kernel_uds_from 0). Qed.

(** ** The history of a tag *)
Definition history (i : nat) (log : list io_command) : list Z :=
  c_op <$> filter (fun c => c_tag c = Z.of_nat i) log.

Definition refetch_op (op : Z) : Prop :=
  op = UBLK_IO_COMMIT_AND_FETCH_REQ \/ op = UBLK_IO_NEED_GET_DATA.

(** A tag starts with one FETCH; every later command is a COMMIT_AND_FETCH or
    a GET_DATA, and the driver holds the tag under the last one. *)
Definition history_ok (h : list Z) (t : tag_state) : Prop :=
  match t with
  | TInit => h = []
  | _ => (exists rest, h = UBLK_IO_FETCH_REQ :: rest /\ Forall refetch_op rest) /\
         (forall op, t = TKernel op -> last h = Some op)
  end.

Definition hist_inv (A : aqueue) : Prop :=
  forall i t, a_tags A !! i = Some t -> history_ok (history i (a_log A)) t.

Lemma history_send i j op res log :
  history j (log ++ [command i op res]) = history j log ++ (if decide (j = i) then [op] else []).
Proof.
  unfold history. rewrite filter_app, fmap_app. f_equal. rewrite filter_cons, filter_nil.
  cbn. repeat case_decide; try done; lia.
Qed.

Lemma hist_inv_send A i t op res :
  hist_inv A -> a_tags A !! i = Some t ->
  (t = TInit /\ op = UBLK_IO_FETCH_REQ \/ t <> TInit /\ refetch_op op) ->
  hist_inv (send i op res A).
Proof.
  intros Hinv Ht Hop j t' Hj. unfold send in *. cbn [a_tags a_log] in *. rewrite history_send.
  destruct (decide (j = i)) as [->|Hne].
  - rewrite list_lookup_insert_eq in Hj by (by eapply lookup_lt_Some). injection Hj as <-.
    specialize (Hinv _ _ Ht). destruct Hop as [[-> ->]|[Hn Hop]].
    + cbn in Hinv. rewrite Hinv. split; [by exists []|]. by intros ? [= <-].
    + assert (exists rest, history i (a_log A) = UBLK_IO_FETCH_REQ :: rest /\ Forall refetch_op rest)
        as (rest&->&Hr) by (by destruct t; try destruct Hinv).
      split.
      * exists (rest ++ [op]). split; [done|]. apply Forall_app. split; [done|]. by apply Forall_singleton.
      * intros ? [= <-]. apply last_snoc.
  - rewrite list_lookup_insert_ne in Hj by done. rewrite app_nil_r. by apply Hinv.
Qed.

Lemma hist_inv_set_tag A i t t' :
  hist_inv A -> a_tags A !! i = Some t -> t <> TInit -> t' <> TInit ->
  (forall op, t' <> TKernel op) -> hist_inv (set_tag i t' A).
Proof.
  intros Hinv Ht Hn Hn' Hk j t0 Hj. unfold set_tag in *. cbn [a_tags a_log] in *.
  destruct (decide (j = i)) as [->|Hne].
  - rewrite list_lookup_insert_eq in Hj by (by eapply lookup_lt_Some). injection Hj as <-.
    specialize (Hinv _ _ Ht).
    assert (exists rest, history i (a_log A) = UBLK_IO_FETCH_REQ :: rest /\ Forall refetch_op rest)
      by (by destruct t; try destruct Hinv).
    destruct t' as [|op| | |]; [done|by destruct (Hk op)|..]; (split; [done|by intros ? [=]]).
  - rewrite list_lookup_insert_ne in Hj by done. by apply Hinv.
Qed.

Lemma hist_inv_step A l A' : hist_inv A -> astep A l A' -> hist_inv A'.
Proof.
  intros Hinv Hst. destruct Hst.
  - eapply hist_inv_send; [done..|]. by left.
  - by eapply hist_inv_set_tag.
  - eapply hist_inv_send; [done..|]. right. split; [done|]. by right.
  - by eapply hist_inv_set_tag.
  - assert (Hs : hist_inv (set_tag i TStopped A)) by (by eapply hist_inv_set_tag).
    intros j t Hj. by apply Hs.
  - eapply hist_inv_send; [done..|]. right. split; [done|]. by left.
Qed.

(** ** What a step does to the outstanding commands *)
Definition consumed (A : aqueue) (l : label) : list Z :=
  match l with
  | LFetch _ | LComplete _ _ => []
  | LRequest i | LGetData i | LGetDataLost i | LError i _ =>
      match a_tags A !! i with Some t => ud_of i t | None => [] end
  end.

Lemma astep_uds A l A' : astep A l A' -> exists new, a_log A' = a_log A ++ new /\
  kernel_uds (a_tags A') ++ consumed A l ≡ₚ kernel_uds (a_tags A) ++ (c_user_data <$> new).
Proof.
  intros Hst. destruct Hst; unfold consumed, send, set_tag, stop_on; cbn [a_tags a_log];
    rewrite ?H;
    match goal with
    | |- exists new, ?l ++ ?x = _ /\ _ => exists x
    | _ => exists []
    end; (split; [by rewrite ?app_nil_r|]);
    pose proof (kernel_uds_insert (a_tags A) i) as Hk.
  - by apply (Hk _ (TKernel UBLK_IO_FETCH_REQ)) in H.
  - by apply (Hk _ TTarget) in H.
  - by apply (Hk _ (TKernel UBLK_IO_NEED_GET_DATA)) in H.
  - by apply (Hk _ TLost) in H.
  - by apply (Hk _ TStopped) in H.
  - by apply (Hk _ (TKernel UBLK_IO_COMMIT_AND_FETCH_REQ)) in H.
Qed.

(** Steps that send commands and consume no completion. *)
Definition quiet : aqueue -> aqueue -> Prop :=
  rtc (fun A A' => exists l, consumed A l = [] /\ astep A l A').

Lemma completes_quiet A A' : completes A A' -> quiet A A'.
Proof. apply rtc_subrel. intros A1 A2 (i&res&Hst). by exists (LComplete i res). Qed.

Lemma quiet_uds A A' : quiet A A' -> exists new, a_log A' = a_log A ++ new /\
  kernel_uds (a_tags A') ≡ₚ kernel_uds (a_tags A) ++ (c_user_data <$> new).
Proof.
  induction 1 as [A|A1 A2 A3 (l&Hcons&Hst) _ (new2&Hl2&Hp2)].
  - exists []. by rewrite !app_nil_r.
  - destruct (astep_uds _ _ _ Hst) as (new1&Hl1&Hp1). exists (new1 ++ new2).
    split; [by rewrite Hl2, Hl1, app_assoc|].
    rewrite Hcons, app_nil_r in Hp1. by rewrite Hp2, Hp1, fmap_app, app_assoc.
Qed.

Lemma quiet_hist A A' : quiet A A' -> hist_inv A -> hist_inv A'.
Proof. induction 1 as [|A1 A2 A3 (l&_&Hst) _ IH]; eauto using hist_inv_step. Qed.

Lemma same_held_trans l1 l2 l3 : same_held l1 l2 -> same_held l2 l3 -> same_held l1 l3.
Proof. intros [? H1] [? H2]. split; [congruence|]. intros i. by rewrite H1. Qed.

Section system.
Context {R : Type} `{!Uring R, !UringLaws R} {T : Type}.
Variable ops : ublksrv_tgt_type R T.
Context `{!TargetLaws ops}.
Variable epoll_wait : queue R T -> list (Z * Z).
Variable epoll_call : Z -> Z -> queue R T -> option (queue R T).
Hypothesis epoll_wait_registered : forall q addr ev,
  (addr, ev) ∈ epoll_wait q -> is_Some (find_ecb addr (epoll_callbacks q)).
Hypothesis epoll_call_safe : forall cb ev q A, qsim q A ->
  tinv (view q) (a_tags A) -> cb_safe tinv (epoll_call cb ev) q A.
Implicit Types q : queue R T.

Notation handle_cqe := (ublksrv_handle_cqe ops epoll_wait epoll_call).
Notation reap := (ublksrv_reap_events_uring ops epoll_wait epoll_call).

(** The user data of the commands sent between two states. *)
Definition new_uds (q q' : queue R T) : list Z :=
  c_user_data <$> drop (length (io_commands (ring_log (ring q)))) (io_commands (ring_log (ring q'))).

(** The invariant: the queue refines an abstract state whose outstanding
    commands are [K]. *)
Definition qinv (q : queue R T) (K : list Z) : Prop :=
  exists A, qsim q A /\ tinv (view q) (a_tags A) /\
    K ≡ₚ kernel_uds (a_tags A) /\ hist_inv A.

Lemma new_uds_log q q' A A' new : qsim q A -> qsim q' A' -> a_log A' = a_log A ++ new ->
  new_uds q q' = c_user_data <$> new.
Proof.
  intros Hs Hs' Hl. unfold new_uds. rewrite (qs_log _ _ Hs), (qs_log _ _ Hs'), Hl.
  by rewrite drop_app_length.
Qed.

Lemma qinv_cb_safe f q K A : qsim q A -> K ≡ₚ kernel_uds (a_tags A) -> hist_inv A ->
  cb_safe tinv f q A -> exists q', f q = Some q' /\ qinv q' (K ++ new_uds q q').
Proof.
  intros Hs HK Hh (q'&A'&Hf&Hc&Hs'&Hi'&_). exists q'. split; [done|].
  destruct (quiet_uds _ _ (completes_quiet _ _ Hc)) as (new&Hl&Hp). exists A'. split; [done|]. split; [done|].
  split; [|by eapply quiet_hist, Hh; apply completes_quiet]. by rewrite (new_uds_log q q' A A' new), HK, Hp.
Qed.

Lemma qinv_io_cqe q K K0 ud res flags :
  qinv q K -> K ≡ₚ ud :: K0 ->
  exists q', handle_cqe (mk_cqe ud res flags) q = Some q' /\ qinv q' (K0 ++ new_uds q q').
Proof.
  intros (A&Hs&Hi&HK&Hh) Hud.
  assert (ud ∈ kernel_uds (a_tags A)) as Hin by (rewrite <- HK, Hud; left).
  apply elem_of_kernel_uds in Hin as (i&op&Ht&->).
  destruct (handle_io_cqe_sim ops epoll_wait epoll_call q A i op res flags Hs Hi Ht)
    as (q'&A'&l&Hq'&Hlab&(A1&Hst&Hc)&Hs'&Hi'&_).
  exists q'. split; [done|].
  destruct (astep_uds _ _ _ Hst) as (new1&Hl1&Hp1).
  destruct (quiet_uds _ _ (completes_quiet _ _ Hc)) as (new2&Hl2&Hp2).
  assert (Hcons : consumed A l = [cmd_ud (Z.of_nat i) op]).
  { assert (l = LRequest i \/ l = LGetData i \/ l = LGetDataLost i \/ l = LError i res) as Hl
      by (unfold cqe_label in Hlab; repeat case_match; tauto).
    destruct Hl as [-> |[-> |[-> | ->]]]; cbn [consumed]; by rewrite Ht. }
  exists A'. split; [done|]. split; [done|].
  split; [|by eapply quiet_hist, hist_inv_step; [apply completes_quiet|..]; eauto].
  rewrite (new_uds_log q q' A A' (new1 ++ new2)); [|done..|by rewrite Hl2, Hl1, app_assoc].
  rewrite Hcons in Hp1. rewrite fmap_app, Hp2.
  assert (kernel_uds (a_tags A1) ≡ₚ K0 ++ (c_user_data <$> new1)) as ->; [|by rewrite app_assoc].
  apply (Permutation_app_inv_r [cmd_ud (Z.of_nat i) op]).
  rewrite Hp1, <- HK, Hud. solve_Permutation.
Qed.

(** ** Completions in sequence

    [consumes]: a completion of an outstanding command, or one of the
    target's own requests. *)
Inductive consumes (t : tgt_view T) (K : list Z) : io_uring_cqe -> list Z -> Prop :=
| consumes_io ud res flags K0 : K ≡ₚ ud :: K0 -> consumes t K (mk_cqe ud res flags) K0
| consumes_tgt cqe : tgt_ud_ok ops t cqe -> consumes t K cqe K.

Lemma qinv_cqe q K K0 cqe :
  qinv q K -> consumes (view q) K cqe K0 ->
  exists q', handle_cqe cqe q = Some q' /\ qinv q' (K0 ++ new_uds q q').
Proof.
  intros Hinv [ud res flags K1 HK|cqe1 Hok].
  - by eapply qinv_io_cqe.
  - destruct Hinv as (A&Hs&Hi&HK&Hh). eapply qinv_cb_safe; [done..|].
    by apply handle_tgt_cqe_sim.
Qed.

Inductive legal_cqes : queue R T -> list Z -> list io_uring_cqe -> Prop :=
| legal_nil q K : legal_cqes q K []
| legal_cons q K cqe K0 cqes :
    consumes (view q) K cqe K0 ->
    (forall q', handle_cqe cqe q = Some q' -> legal_cqes q' (K0 ++ new_uds q q') cqes) ->
    legal_cqes q K (cqe :: cqes).

Lemma reap_inv q K cqes :
  qinv q K -> legal_cqes q K cqes ->
  exists q' K', reap cqes q = Some (Z.of_nat (length cqes), q') /\ qinv q' K'.
Proof.
  intros Hinv Hleg. revert Hinv. induction Hleg as [q K|q K cqe K0 cqes Hc _ IH]; intros Hinv.
  { by exists q, K. }
  destruct (qinv_cqe q K K0 cqe Hinv Hc) as (q1&Hq1&Hinv1).
  destruct (IH q1 Hq1 Hinv1) as (q2&K2&Hq2&Hinv2).
  exists q2, K2. cbn [ublksrv_reap_events_uring]. rewrite Hq1. cbn [mbind option_bind].
  rewrite Hq2. cbn [mbind option_bind]. split; [|done]. do 2 f_equal.
  rewrite length_cons. lia.
Qed.

Lemma qinv_set_ring q K r : qinv q K -> submits (ring q) r -> qinv (set_ring r q) K.
Proof.
  intros (A&Hs&Hi&HK&Hh) Hr. exists A. split; [by apply qsim_submit|].
  by rewrite view_set_ring by (by apply submits_entries).
Qed.

(** Steps that touch nothing the invariant looks at. *)
Lemma qinv_ext q q' K :
  (forall A, qsim q A -> qsim q' A) -> view q' = view q -> qinv q K -> qinv q' K.
Proof. intros Hq Hp (A&Hs&Hi&HK&Hh). exists A. rewrite Hp. auto. Qed.

Lemma submit_aio_loop_ok n i q K :
  qinv q K -> 0 <= i -> i + Z.of_nat n <= nr_ctxs q ->
  exists q', submit_aio_loop n i q = Some q' /\ qinv q' K.
Proof.
  revert i q. induction n as [|n IH]; intros i q Hinv Hi Hn; [by exists q|].
  cbn [submit_aio_loop].
  assert (is_Some (ctxs q !! Z.to_nat i)) as [ctx ->].
  { destruct Hinv as (A&Hs&_). destruct (qs_ctxs _ _ Hs) as [Hc Hlen].
    apply lookup_lt_is_Some. rewrite Hlen. unfold UBLKSRV_NR_CTX_BATCH in *. lia. }
  cbn [mbind option_bind]. apply IH; [|lia|qs; lia].
  apply (qinv_ext q); [|done|done]. intros A. apply qsim_log_ev.
Qed.

Lemma qinv_opt {B} (f : option (B -> queue R T -> option (queue R T))) b q K :
  qinv q K ->
  (forall g A, f = Some g -> qsim q A -> tinv (view q) (a_tags A) -> cb_safe tinv (g b) q A) ->
  exists q' K', call_opt f b q = Some q' /\ qinv q' K'.
Proof.
  intros Hinv Hf. destruct f as [g|]; cbn [call_opt]; [|by exists q, K].
  destruct Hinv as (A&Hs&Hi&HK&Hh).
  destruct (qinv_cb_safe (g b) q K A Hs HK Hh) as (q'&?&?); [by apply Hf|]. eauto.
Qed.

(** ** Idle transitions *)
Lemma qsim_idle_bit q A st :
  has st UBLKSRV_QUEUE_STOPPING = stopping q ->
  has st UBLKSRV_QUEUE_BATCH_IO = ublksrv_queue_batch_io q ->
  qsim q A -> qsim (set_state st q) A.
Proof.
  intros H1 H2 []. split; qsimpl; try done.
  - unfold stopping. qsimpl. by rewrite H1.
  - unfold ublksrv_queue_batch_io. qsimpl. by rewrite H2.
Qed.

Lemma discard_loop_ok max n i q K :
  qinv q K -> 0 <= i -> i + Z.of_nat n <= q_depth q ->
  exists q', discard_loop max n i q = Some q' /\ qinv q' K /\ state q' = state q.
Proof.
  revert i q. induction n as [|n IH]; intros i q Hinv Hi Hn; [by exists q|].
  cbn [discard_loop].
  assert (is_Some (get_io q i)) as [io ->].
  { destruct Hinv as (A&Hs&_). pose proof (qs_len _ _ Hs).
    destruct (lookup_lt_is_Some_2 (a_tags A) (Z.to_nat i)) as [t Ht]; [lia|].
    destruct (qs_flags _ _ Hs _ _ Ht) as (io&Hio&_).
    rewrite <- (Z2Nat.id i) by done. rewrite get_io_nat. by eexists. }
  cbn [mbind option_bind].
  destruct (IH (i + 1) (log_ev (EvMadvise (buf_addr io) max) q)) as (q'&?&?&?); [|lia|qs; lia|eauto].
  apply (qinv_ext q); [|done|done]. intros A. apply qsim_log_ev.
Qed.

Lemma idle_enter_inv max q K :
  qinv q K -> 0 <= q_depth q ->
  exists q' K', ublksrv_queue_idle_enter ops max q = Some q' /\ qinv q' K'.
Proof.
  intros Hinv Hd. unfold ublksrv_queue_idle_enter. case_match; [by exists q, K|].
  unfold ublksrv_queue_discard_io_pages.
  destruct (discard_loop_ok max (Z.to_nat (q_depth q)) 0 q K) as (q1&->&Hinv1&Hst); [done|lia|lia|].
  cbn [mbind option_bind]. eapply qinv_opt.
  - apply (qinv_ext q1); [|apply view_set_state; intros k Hk; unfold UBLKSRV_QUEUE_IDLE;
      rewrite has_lor_bit by lia; replace (k =? 1) with false by lia; apply orb_false_r|exact Hinv1].
    intros A. apply qsim_idle_bit;
    unfold stopping, ublksrv_queue_batch_io, UBLKSRV_QUEUE_IDLE, UBLKSRV_QUEUE_STOPPING,
      UBLKSRV_QUEUE_BATCH_IO; rewrite has_lor_bit by lia; apply orb_false_r.
  - intros g A Hg. by apply (tl_idle (ops := ops)).
Qed.

Lemma idle_exit_inv q K :
  qinv q K -> exists q' K', ublksrv_queue_idle_exit ops q = Some q' /\ qinv q' K'.
Proof.
  intros Hinv. unfold ublksrv_queue_idle_exit. case_match; [|by exists q, K].
  eapply qinv_opt.
  - apply (qinv_ext q); [|apply view_set_state; intros k Hk; unfold UBLKSRV_QUEUE_IDLE;
      rewrite has_clear_bit by lia; replace (k =? 1) with false by lia; apply andb_true_r|exact Hinv].
    intros A. apply qsim_idle_bit;
    unfold stopping, ublksrv_queue_batch_io, UBLKSRV_QUEUE_IDLE, UBLKSRV_QUEUE_STOPPING,
      UBLKSRV_QUEUE_BATCH_IO; rewrite has_clear_bit by lia; apply andb_true_r.
  - intros g A Hg. by apply (tl_idle (ops := ops)).
Qed.

(** The queue as the reaping loop finds it. *)
Definition after_wait (q : queue R T) : queue R T :=
  let tsp := if has (state q) UBLKSRV_QUEUE_IDLE then None else Some UBLKSRV_IO_IDLE_SECS in
  let wait_nr := if has (state q) UBLKSRV_QUEUE_POLL && negb (tgt_io_inflight q =? 0)
                 then 0 else 1 in
  ublksrv_reset_aio_batch (set_ring (io_uring_submit_and_wait_timeout wait_nr tsp (ring q)).2 q).

Lemma after_wait_inv q K : qinv q K -> qinv (after_wait q) K.
Proof.
  intros Hinv. set (r := (io_uring_submit_and_wait_timeout
    (if has (state q) UBLKSRV_QUEUE_POLL && negb (tgt_io_inflight q =? 0) then 0 else 1)
    (if has (state q) UBLKSRV_QUEUE_IDLE then None else Some UBLKSRV_IO_IDLE_SECS) (ring q)).2).
  apply (qinv_ext (set_ring r q)); [|done|].
  - intros A Hs. destruct (qs_ctxs _ _ Hs) as [_ Hc]. destruct Hs. split; try done.
  - apply qinv_set_ring; [done|]. apply submit_timeout_submits.
Qed.

Lemma kill_eventfd_inv q K : qinv q K -> qinv (ublksrv_kill_eventfd q) K.
Proof.
  intros Hinv. unfold ublksrv_kill_eventfd. case_match; [|done].
  apply (qinv_ext q); [|done|done]. intros A. apply qsim_log_ev.
Qed.

Lemma qinv_depth q K : qinv q K -> 0 <= q_depth q.
Proof. intros (A&Hs&_). pose proof (qs_len _ _ Hs). lia. Qed.

Lemma process_io_inv max q K cqes :
  qinv q K -> legal_cqes (after_wait q) K cqes ->
  exists ret q' K', ublksrv_process_io ops epoll_wait epoll_call max cqes q = Some (ret, q') /\
    qinv q' K' /\ ret = (if __ublksrv_queue_is_done q then - ENODEV else Z.of_nat (length cqes)).
Proof.
  intros Hinv Hleg. unfold ublksrv_process_io.
  destruct (__ublksrv_queue_is_done q); [by exists (- ENODEV), q, K|].
  assert (ublksrv_queue_batch_io q = false) as -> by (destruct Hinv as (A&Hs&_); apply Hs).
  cbn [mbind option_bind]. unfold after_wait in Hleg.
  pose proof (after_wait_inv q K Hinv) as Hinv0. unfold after_wait in Hinv0.
  destruct (io_uring_submit_and_wait_timeout _ _ _) as [ret r]. cbn [snd] in Hleg, Hinv0.
  destruct (reap_inv _ K cqes Hinv0 Hleg) as (q1&K1&->&Hinv1). cbn [mbind option_bind].
  unfold ublksrv_submit_aio_batch.
  destruct (submit_aio_loop_ok (Z.to_nat (nr_ctxs q1)) 0 q1 K1) as (q2&->&Hinv2); [done|lia| |].
  { destruct Hinv1 as (A&Hs&_). destruct (qs_ctxs _ _ Hs). lia. }
  cbn [mbind option_bind].
  destruct (qinv_opt (handle_io_background ops) (io_uring_sq_ready (ring q2)) q2 K1)
    as (q3&K3&->&Hinv3); [done| |].
  { intros g A Hg. by apply (tl_background (ops := ops)). }
  cbn [mbind option_bind].
  assert (exists q4 K4, (if stopping q3 then Some (ublksrv_kill_eventfd q3)
     else if (ret =? - ETIME) && (Z.of_nat (length cqes) =? 0) && (io_uring_sq_ready (ring q3) =? 0)
     then ublksrv_queue_idle_enter ops max q3 else ublksrv_queue_idle_exit ops q3) = Some q4 /\ qinv q4 K4)
    as (q4&K4&->&Hinv4).
  { destruct (stopping q3); [eexists _, _; split; [done|by apply kill_eventfd_inv]|].
    destruct (_ && _); [|by eapply idle_exit_inv].
    apply (idle_enter_inv max q3 K3 Hinv3). by eapply qinv_depth. }
  cbn [mbind option_bind]. eauto 10.
Qed.

(** ** Start-up *)
Record fresh_queue (q : queue R T) : Prop := {
  fq_depth : 0 <= q_depth q <= UBLK_MAX_QUEUE_DEPTH;
  fq_ios : forall i, (i < Z.to_nat (q_depth q))%nat -> exists io, ios q !! i = Some io /\
    io_flags io = Z.lor UBLKSRV_NEED_FETCH_RQ UBLKSRV_IO_FREE;
  fq_tags : forall i io, ios q !! i = Some io -> io_tag io = Z.of_nat i /\
    io_iod io = (if Z.of_nat i <? q_depth q then Some (Z.of_nat i) else None);
  fq_iods : q_depth q <= Z.of_nat (length (io_cmd_buf q));
  fq_inflight : cmd_inflight q = 0;
  fq_stop : stopping q = false;
  fq_batch : ublksrv_queue_batch_io q = false;
  fq_log : io_commands (ring_log (ring q)) = [];
  fq_entries : 1 <= sq_entries (ring q);
  fq_ctxs : 0 <= nr_ctxs q <= UBLKSRV_NR_CTX_BATCH /\
            length (ctxs q) = Z.to_nat UBLKSRV_NR_CTX_BATCH;
  fq_tinv : tinv (view q) (replicate (Z.to_nat (q_depth q)) TInit)
}.

Definition init_aqueue (n : nat) : aqueue := mk_aqueue (replicate n TInit) false [].

Lemma total_replicate_init n : total is_kernel (replicate n TInit) = 0.
Proof. induction n as [|n IH]; [done|]. cbn [replicate]. by rewrite total_cons, IH. Qed.

Lemma fresh_qsim q : fresh_queue q -> qsim q (init_aqueue (Z.to_nat (q_depth q))).
Proof.
  intros []. split; cbn [init_aqueue a_tags a_stopping a_log]; try done; try lia.
  - rewrite length_replicate. lia.
  - intros i t Ht. apply lookup_replicate in Ht as [-> Hi].
    destruct (fq_ios0 i Hi) as (io&?&?). by exists io.
  - by rewrite total_replicate_init.
Qed.

Lemma fetch_loop_sim n i q A :
  qsim q A -> (forall j, (i <= j < i + n)%nat -> a_tags A !! j = Some TInit) ->
  exists q' A', fetch_loop n (Z.of_nat i) q = Some q' /\ quiet A A' /\ qsim q' A' /\
    same_env q q' /\ same_held (a_tags A) (a_tags A') /\
    (forall j, ~ (i <= j < i + n)%nat -> a_tags A' !! j = a_tags A !! j) /\
    (UringProgress R -> forall j, (i <= j < i + n)%nat ->
       a_tags A' !! j = Some (TKernel UBLK_IO_FETCH_REQ)).
Proof.
  revert i q A. induction n as [|n IH]; intros i q A Hs Hinit.
  { exists q, A. split; [done|]. split; [apply rtc_refl|]. split; [done|].
    split; [apply same_env_refl|]. split; [done|]. split; [done|]. lia. }
  assert (Ht : a_tags A !! i = Some TInit) by (apply Hinit; lia).
  destruct (qs_flags _ _ Hs _ _ Ht) as (io&Hio&Hfl).
  destruct (queue_io_cmd_sim q A i TInit io UBLK_IO_FETCH_REQ None Hs Ht Hio)
    as (ret&q1&Hq1&Henv&Hcase); [done|].
  assert (exists A1, quiet A A1 /\ qsim q1 A1 /\ same_held (a_tags A) (a_tags A1) /\
    (forall j, j <> i -> a_tags A1 !! j = a_tags A !! j) /\
    (UringProgress R -> a_tags A1 !! i = Some (TKernel UBLK_IO_FETCH_REQ)))
    as (A1&Hst1&Hs1&Hh1&Hfr1&Hk1).
  { destruct Hcase as [[_ Hs1]|(_&Hs1&_&s&Hf)].
    - exists (send i UBLK_IO_FETCH_REQ None A). split.
      { apply rtc_once. exists (LFetch i). by split; [|constructor]. }
      split; [done|]. split; [by eapply same_held_insert|]. split.
      + intros j Hj. by apply list_lookup_insert_ne.
      + intros _. apply list_lookup_insert_eq. by eapply lookup_lt_Some.
    - exists A. split; [apply rtc_refl|]. split; [done|]. split; [done|]. split; [done|].
      intros Hprog. destruct (alloc_sqe_progress s (ring q)) as [r Hr]; [apply Hs|].
      by rewrite Hr in Hf. }
  destruct (IH (S i) q1 A1) as (q2&A2&Hq2&Hst2&Hs2&Henv2&Hh2&Hfr2&Hk2); [done| |].
  { intros j Hj. rewrite Hfr1 by lia. apply Hinit. lia. }
  exists q2, A2. split.
  { cbn [fetch_loop]. rewrite Hq1. cbn [mbind option_bind].
    replace (Z.of_nat i + 1) with (Z.of_nat (S i)) by lia. done. }
  split; [by etrans|]. split; [done|]. split; [by eapply same_env_trans|].
  split; [by eapply same_held_trans|]. split.
  - intros j Hj. rewrite Hfr2 by lia. apply Hfr1. lia.
  - intros Hprog j Hj. destruct (decide (j = i)) as [->|]; [|apply Hk2; [done|lia]].
    rewrite Hfr2 by lia. by apply Hk1.
Qed.

Lemma start_sim q :
  fresh_queue q ->
  exists q' A', ublksrv_submit_fetch_commands q = Some q' /\
    qsim q' A' /\ tinv (view q') (a_tags A') /\ hist_inv A' /\
    kernel_uds (a_tags A') ≡ₚ new_uds q q' /\
    (UringProgress R -> forall j t, a_tags A' !! j = Some t -> t = TKernel UBLK_IO_FETCH_REQ).
Proof.
  intros Hf. pose proof (fresh_qsim q Hf) as Hs. pose proof (fq_depth _ Hf) as Hd.
  set (n := Z.to_nat (q_depth q)) in *.
  destruct (fetch_loop_sim n 0 q (init_aqueue n) Hs) as (q1&A1&Hq1&Hst&Hs1&Henv&Hh&Hfr&Hk).
  { intros j Hj. apply lookup_replicate_2. lia. }
  assert (Hi1 : tinv (view q1) (a_tags A1)).
  { destruct Henv as (->&_). eapply tinv_held; [exact Hh|]. apply Hf. }
  destruct (queue_event_ok q1 A1 Hs1) as (ret&q2&Hq2&Hs2&Hp2&Hlog2).
  exists q2, A1. unfold ublksrv_submit_fetch_commands. rewrite (fq_batch _ Hf).
  fold n. change (fetch_loop n 0 q) with (fetch_loop n (Z.of_nat 0) q). rewrite Hq1. cbn [mbind option_bind]. rewrite Hq2. split; [done|]. split; [done|].
  split; [by rewrite Hp2|]. split; [|split].
  - eapply quiet_hist; [done|]. intros i t Ht. apply lookup_replicate in Ht as [-> _]. done.
  - destruct (quiet_uds _ _ Hst) as (new&Hl&Hp). rewrite Hp, (new_uds_log q q2 _ A1 new Hs Hs2 Hl).
    assert (kernel_uds (a_tags (init_aqueue n)) = []) as ->; [|done].
    apply length_zero_iff_nil. apply Nat2Z.inj. rewrite kernel_uds_length. apply total_replicate_init.
  - intros Hprog j t Ht. pose proof (lookup_lt_Some _ _ _ Ht) as Hlt.
    rewrite <- (proj1 Hh) in Hlt. cbn in Hlt. rewrite length_replicate in Hlt.
    rewrite Hk in Ht by (done || lia). congruence.
Qed.

Lemma start_inv q : fresh_queue q ->
  exists q', ublksrv_submit_fetch_commands q = Some q' /\ qinv q' (new_uds q q').
Proof.
  intros Hf. destruct (start_sim q Hf) as (q'&A'&Hq'&Hs&Hi&Hh&Hk&_).
  exists q'. split; [done|]. by exists A'.
Qed.

(** ** Reachable states

    [K] lists the commands the driver holds. *)
Inductive reachable : queue R T -> list Z -> Prop :=
| reach_start q q' : fresh_queue q -> ublksrv_submit_fetch_commands q = Some q' ->
    reachable q' (new_uds q q')
| reach_cqe q K cqe K0 q' : reachable q K -> consumes (view q) K cqe K0 ->
    handle_cqe cqe q = Some q' -> reachable q' (K0 ++ new_uds q q')
| reach_submit q K r : reachable q K -> submits (ring q) r -> reachable (set_ring r q) K
| reach_iod q K iods : reachable q K -> length iods = length (io_cmd_buf q) ->
    reachable (set_io_cmd_buf iods q) K.

Lemma reachable_inv q K : reachable q K -> qinv q K.
Proof.
  induction 1 as [q q' Hf Hq'|q K cqe K0 q' _ IH Hc Hq'|q K r _ IH Hr|q K iods _ IH Hlen].
  - destruct (start_inv q Hf) as (q1&Hq1&?). congruence.
  - destruct (qinv_cqe q K K0 cqe IH Hc) as (q1&Hq1&?). congruence.
  - by apply qinv_set_ring.
  - apply (qinv_ext q); [|done|done]. intros A []. split; try done. qsimpl. by rewrite Hlen.
Qed.

(** ** Consequences *)
Lemma qsim_kernel_op q A i op : qsim q A -> a_tags A !! i = Some (TKernel op) ->
  Z.of_nat i < q_depth q /\ user_data_to_tag (cmd_ud (Z.of_nat i) op) = Z.of_nat i /\
  user_data_to_op (cmd_ud (Z.of_nat i) op) = op.
Proof.
  intros Hs Ht. destruct (qs_flags _ _ Hs _ _ Ht) as (io&_&_&Hop).
  pose proof (qs_len _ _ Hs). pose proof (qs_depth _ _ Hs). pose proof (lookup_lt_Some _ _ _ Ht).
  destruct (cmd_ud_decode i op) as (?&?&_); [lia|done|]. split; [lia|done].
Qed.

Lemma kernel_tags_nodup q A : qsim q A -> NoDup (user_data_to_tag <$> kernel_uds (a_tags A)).
Proof.
  intros Hs. unfold kernel_uds.
  assert (Hall : forall i op, a_tags A !! i = Some (TKernel op) ->
    user_data_to_tag (cmd_ud (Z.of_nat (0 + i)) op) = Z.of_nat (0 + i))
    by (intros; by eapply qsim_kernel_op).
  revert Hall. generalize 0%nat as n. generalize (a_tags A) as l.
  induction l as [|t l IH]; intros n Hall; [constructor|].
  cbn [kernel_uds_from]. rewrite fmap_app. apply NoDup_app.
  assert (Htl : forall i op, l !! i = Some (TKernel op) ->
    user_data_to_tag (cmd_ud (Z.of_nat (S n + i)) op) = Z.of_nat (S n + i)).
  { intros i op Hi. rewrite Nat.add_succ_comm. by apply (Hall (S i)). }
  split; [destruct t; cbn; [constructor|apply NoDup_singleton|constructor..]|].
  split; [|by apply IH]. intros tag Hin Hin'.
  apply list_elem_of_fmap in Hin as (ud&->&Hin). apply list_elem_of_fmap in Hin' as (ud'&Heq&Hin').
  apply elem_of_kernel_uds_from in Hin' as (i&op'&Hi&->). rewrite Htl in Heq by done.
  destruct t; cbn in Hin; try by apply elem_of_nil in Hin.
  apply list_elem_of_singleton in Hin as ->.
  specialize (Hall 0%nat op eq_refl). rewrite Nat.add_0_r in Hall. lia.
Qed.

(** C1: A queue without batch I/O never fails.  In every state reachable by
    any interleaving of driver completions, target completions and ring submissions, with a
    target that keeps to the callback interface, handling the next
    completion neither trips an assertion nor leaves an array, and the loop
    iteration [ublksrv_process_io] returns -ENODEV when the queue is done
    and the number of completions reaped otherwise. *)
Theorem queue_never_fails max q K cqes :
  reachable q K -> legal_cqes (after_wait q) K cqes ->
  (forall cqe K0, consumes (view q) K cqe K0 -> is_Some (handle_cqe cqe q)) /\
  exists ret q', ublksrv_process_io ops epoll_wait epoll_call max cqes q = Some (ret, q') /\
    ret = (if __ublksrv_queue_is_done q then - ENODEV else Z.of_nat (length cqes)) /\
    0 <= cmd_inflight q' <= q_depth q'.
Proof.
  intros Hr Hleg. apply reachable_inv in Hr. split.
  - intros cqe K0 Hc. destruct (qinv_cqe q K K0 cqe Hr Hc) as (q'&->&_). by eexists.
  - destruct (process_io_inv max q K cqes Hr Hleg) as (ret&q'&K'&Hq'&(A'&Hs'&_)&Hret).
    exists ret, q'. split; [done|]. split; [done|]. by eapply qsim_inflight_bound.
Qed.

(** C2: Command accounting of a queue without batch I/O.  In every reachable
    state [cmd_inflight] is the
    number of commands the driver holds, they are for different tags of the
    queue (no tag ever has two commands in flight), so the counter is
    bounded by the queue depth and never wraps. *)
Theorem queue_command_accounting q K :
  reachable q K ->
  cmd_inflight q = Z.of_nat (length K) /\ NoDup (user_data_to_tag <$> K) /\
  Forall (fun ud => 0 <= user_data_to_tag ud < q_depth q) K /\
  Z.of_nat (length K) <= q_depth q.
Proof.
  intros Hr. apply reachable_inv in Hr as (A&Hs&_&HK&_).
  pose proof (qsim_inflight_bound q A Hs) as Hb. rewrite (qs_inflight _ _ Hs) in *.
  rewrite HK, kernel_uds_length. split; [done|]. split; [by eapply kernel_tags_nodup|].
  split; [|lia]. apply Forall_forall. intros ud. rewrite elem_of_kernel_uds.
  intros (i&op&Ht&->). destruct (qsim_kernel_op q A i op Hs Ht) as (?&->&_). lia.
Qed.

(** C3: The command protocol of a tag of a queue without batch I/O.  In every
    reachable state the
    commands sent for a tag are one FETCH followed by COMMIT_AND_FETCH and
    GET_DATA commands only, and the command the driver holds for the tag is
    the last one sent. *)
Theorem tag_command_protocol q K i :
  reachable q K -> (i < Z.to_nat (q_depth q))%nat ->
  let h := history i (io_commands (ring_log (ring q))) in
  (h = [] \/ exists rest, h = UBLK_IO_FETCH_REQ :: rest /\ Forall refetch_op rest) /\
  (forall ud, ud ∈ K -> user_data_to_tag ud = Z.of_nat i -> last h = Some (user_data_to_op ud)).
Proof.
  intros Hr Hi h. apply reachable_inv in Hr as (A&Hs&_&HK&Hh).
  subst h. rewrite (qs_log _ _ Hs). pose proof (qs_len _ _ Hs).
  destruct (lookup_lt_is_Some_2 (a_tags A) i) as [t Ht]; [lia|].
  specialize (Hh _ _ Ht). split.
  - destruct t; cbn in Hh; [by left|right; apply Hh..].
  - intros ud Hin Htag. rewrite HK, elem_of_kernel_uds in Hin. destruct Hin as (j&op&Hj&->).
    destruct (qsim_kernel_op q A j op Hs Hj) as (?&Hj'&->). rewrite Hj' in Htag.
    apply Nat2Z.inj in Htag as ->. rewrite Hj in Ht. injection Ht as <-. by apply Hh.
Qed.

(** C5: A queue without batch I/O that reports itself done is: it is stopping,
    the driver
    holds no command of it and every entry of its ring was consumed. *)
Theorem queue_done_sound q K :
  reachable q K -> __ublksrv_queue_is_done q = true ->
  K = [] /\ sq_pending (ring q) = [] /\ stopping q = true.
Proof.
  intros Hr Hd. unfold __ublksrv_queue_is_done, io_uring_sq_ready in Hd. bool_prop.
  apply reachable_inv in Hr as (A&Hs&_&HK&_). rewrite (qs_inflight _ _ Hs) in *.
  split; [|split; [apply length_zero_iff_nil; lia|done]].
  apply length_zero_iff_nil, Nat2Z.inj. by rewrite HK, kernel_uds_length.
Qed.

(** ** Stopping *)
Definition abort_cqe (ud : Z) : io_uring_cqe := mk_cqe ud UBLK_IO_RES_ABORT 0.

Lemma abort_step q K ud :
  qinv q (ud :: K) ->
  exists q', handle_cqe (abort_cqe ud) q = Some q' /\ qinv q' K /\
    ring q' = ring q /\ stopping q' = true.
Proof.
  intros Hinv. destruct (qinv_io_cqe q _ K ud UBLK_IO_RES_ABORT 0 Hinv) as (q'&Hq'&Hinv'); [done|].
  exists q'. split; [done|].
  assert (ring q' = ring q /\ stopping q' = true) as [Hring Hstop].
  { destruct Hinv as (A&Hs&_&HK&_).
    assert (ud ∈ kernel_uds (a_tags A)) as Hin by (rewrite <- HK; left).
    apply elem_of_kernel_uds in Hin as (i&op&Ht&->).
    destruct (qs_flags _ _ Hs _ _ Ht) as (io&Hio&_).
    unfold abort_cqe in Hq'. rewrite (handle_cqe_unfold ops epoll_wait epoll_call q A i op _ 0 io Hs Ht Hio) in Hq'.
    cbn in Hq'. injection Hq' as <-. split; [done|]. unfold stopping, cqe_taken. qs.
    unfold UBLKSRV_QUEUE_STOPPING. rewrite has_lor_bit by lia. apply orb_true_r. }
  split; [|done]. unfold new_uds in Hinv'. rewrite Hring, drop_all in Hinv'.
  by rewrite app_nil_r in Hinv'.
Qed.

Lemma abort_all q K :
  qinv q K -> K <> [] \/ stopping q = true ->
  exists q', reap (abort_cqe <$> K) q = Some (Z.of_nat (length K), q') /\ qinv q' [] /\
    ring q' = ring q /\ stopping q' = true.
Proof.
  revert q. induction K as [|ud K IH]; intros q Hinv Hor.
  { exists q. destruct Hor; done. }
  destruct (abort_step q K ud Hinv) as (q1&Hq1&Hinv1&Hr1&Hs1).
  destruct (IH q1 Hinv1) as (q2&Hq2&Hinv2&Hr2&Hs2); [by right|].
  exists q2. rewrite fmap_cons. cbn [ublksrv_reap_events_uring]. rewrite Hq1. cbn [mbind option_bind].
  rewrite Hq2.
  cbn [mbind option_bind]. split; [do 2 f_equal; rewrite length_cons; lia|].
  split; [done|]. split; [congruence|done].
Qed.

(** C4: Stopping drains a queue without batch I/O.  When the driver answers every command
    it holds with -ENODEV, reaping them leaves no command in flight and the
    queue stopping; as soon as the ring has no entry left to submit, the
    next [ublksrv_process_io] reports -ENODEV, which ends the daemon's
    loop. *)
Theorem stop_drains max cqes q K :
  reachable q K -> K <> [] ->
  exists q', reap (abort_cqe <$> K) q = Some (Z.of_nat (length K), q') /\
    cmd_inflight q' = 0 /\ stopping q' = true /\
    __ublksrv_queue_is_done q' = (io_uring_sq_ready (ring q) =? 0) /\
    (sq_pending (ring q) = [] ->
     ublksrv_process_io ops epoll_wait epoll_call max cqes q' = Some (- ENODEV, q')).
Proof.
  intros Hr Hne. apply reachable_inv in Hr.
  destruct (abort_all q K Hr) as (q'&Hq'&(A&Hs&_&HK&_)&Hring&Hstop); [by left|].
  assert (Hc : cmd_inflight q' = 0).
  { rewrite (qs_inflight _ _ Hs), <- kernel_uds_length, <- HK. done. }
  assert (Hd : __ublksrv_queue_is_done q' = (io_uring_sq_ready (ring q) =? 0)).
  { unfold __ublksrv_queue_is_done. rewrite Hstop, Hc, Hring. cbn. apply andb_true_r. }
  exists q'. split; [done|]. split; [done|]. split; [done|]. split; [done|].
  intros Hp. unfold ublksrv_process_io. rewrite Hd. unfold io_uring_sq_ready. by rewrite Hp.
Qed.

Lemma start_fetches_tags `{!UringProgress R} q :
  fresh_queue q ->
  exists q', ublksrv_submit_fetch_commands q = Some q' /\ cmd_inflight q' = q_depth q' /\
    forall i, (i < Z.to_nat (q_depth q'))%nat ->
      history i (io_commands (ring_log (ring q'))) = [UBLK_IO_FETCH_REQ].
Proof.
  intros Hf. destruct (start_sim q Hf) as (q'&A'&Hq'&Hs&_&Hh&Hk&Hall).
  specialize (Hall _). exists q'. split; [done|]. split.
  - rewrite (qs_inflight _ _ Hs), <- (qs_len _ _ Hs).
    assert (forall l, (forall j t, l !! j = Some t -> t = TKernel UBLK_IO_FETCH_REQ) ->
      total is_kernel l = Z.of_nat (length l)) as Htot; [|by apply Htot].
    induction l as [|t l IH]; intros Hl; [done|]. rewrite total_cons, length_cons.
    rewrite (Hl 0%nat t eq_refl), IH; [cbn; lia|]. intros j t'. apply (Hl (S j)).
  - intros i Hi. rewrite (qs_log _ _ Hs). pose proof (qs_len _ _ Hs).
    destruct (lookup_lt_is_Some_2 (a_tags A') i) as [t Ht]; [lia|].
    rewrite (Hall _ _ Ht) in Ht. destruct (Hh _ _ Ht) as [(rest&Hr&Hrest) Hlast].
    specialize (Hlast _ eq_refl). rewrite Hr in *. destruct rest as [|x rest]; [done|].
    exfalso. change (last (x :: rest) = Some UBLK_IO_FETCH_REQ) in Hlast.
    apply last_Some_elem_of in Hlast. rewrite Forall_forall in Hrest.
    by destruct (Hrest _ Hlast).
Qed.

(** The poll of the queue's eventfd, when it has one. *)
Definition event_poll (q : queue R T) (ev : list io_uring_sqe) : Prop :=
  ev = [] \/ 0 <= efd q /\ exists ud, build_internal_data UBLK_IO_OP_EVENTFD = Some ud /\ ev = [mk_sqe ud (PrepPollAdd (efd q) POLLIN)].

Lemma queue_event_log q : exists ret q' ev, __ublksrv_queue_event q = Some (ret, q') /\
  ring_log (ring q') = ring_log (ring q) ++ ev /\ event_poll q ev /\ q' = set_ring (ring q') q.
Proof.
  assert (Hq : q = set_ring (ring q) q) by (by destruct q). unfold __ublksrv_queue_event.
  destruct (Z.leb_spec 0 (efd q)); [|exists 0, q, []; rewrite app_nil_r; split; [done|]; by split; [|split; [left|]]].
  assert (Hno : forall ret : Z, exists ret' q' ev, Some (ret, q) = Some (ret', q') /\ ring_log (ring q') = ring_log (ring q) ++ ev /\
    event_poll q ev /\ q' = set_ring (ring q') q).
  { intros ret. exists ret, q, []. rewrite app_nil_r. by split; [|split; [|split; [left|]]]. }
  pose proof (proj1 internal_ops_fit) as Hud. rewrite Hud. cbn [mbind option_bind]. destruct (stopping q); [apply Hno|].
  destruct (io_uring_get_sqe _ (ring q)) as [r|] eqn:Hg; [|apply Hno]. apply get_sqe_push in Hg as (_&Hiss&Hpe).
  eexists 0, (set_ring r q), _. split; [done|]. split; [unfold ring_log; cbn [ring set_ring]; by rewrite Hiss, Hpe, app_assoc|].
  split; [|done]. right. split; [done|]. by eexists.
Qed.

(** C6: Start-up hands every tag to the driver, on a ring whose submissions
    make room: without batch I/O, [ublksrv_submit_fetch_commands] sends exactly
    one FETCH command for each tag of the queue; with batch I/O it sends one
    PREP, whose buffer the driver reads as one element for each tag, and one
    multishot FETCH for the fetch buffer, which has room for all tags, and
    nothing more but the poll of the queue's eventfd. *)
Theorem start_fetches_all_tags `{!UringProgress R} q :
  (fresh_queue q ->
   exists q', ublksrv_submit_fetch_commands q = Some q' /\ cmd_inflight q' = q_depth q' /\
     forall i, (i < Z.to_nat (q_depth q'))%nat ->
       history i (io_commands (ring_log (ring q'))) = [UBLK_IO_FETCH_REQ]) /\
  (batch_fresh q ->
   exists q' cb fb ev, ublksrv_submit_fetch_commands q = Some q' /\
     commit_bufs (batch q') !! 0%nat = Some cb /\ fetch_bufs (batch q) = [fb] /\ 2 * q_depth q <= fetch_buf_size fb /\
     ring_log (ring q') = ring_log (ring q) ++ [prep_sqe q cb; fetch_sqe q 0 fb] ++ ev /\ event_poll q ev /\
     decode_batch (ublk_batch_elem_buf_size q) (Z.to_nat (q_depth q)) (cb_bytes cb) =
       Some ((fun tag => (tag, 0)) <$> seqZ 0 (q_depth q)) /\
     cmd_inflight q' = u32 (u32 (cmd_inflight q + 1) + 1)).
Proof.
  split; [apply start_fetches_tags|]. intros Hb. pose proof (bf_on _ Hb) as Hon. destruct (bf_fetch _ Hb) as (fb0&Hfb0&Hroom).
  destruct (batch_start_spec q Hb) as (q1&cb&fb&Hq1&Hcb&Hd&Hfb&_&Hlog&Hc&Hefd&_).
  assert (fb0 = fb) as -> by congruence.
  destruct (queue_event_log q1) as (ret&q2&ev&He&Hl&Hp&Heq). exists q2, cb, fb, ev.
  unfold ublksrv_submit_fetch_commands. rewrite Hon, Hq1. cbn [mbind option_bind]. rewrite He.
  assert (Hb2 : batch q2 = batch q1 /\ cmd_inflight q2 = cmd_inflight q1) by (by rewrite Heq). destruct Hb2 as [-> ->].
  split; [done|]. split; [done|]. split; [done|]. split; [lia|]. rewrite Hl, Hlog, <- app_assoc. split; [done|].
  unfold event_poll in *. by rewrite Hefd in Hp.
Qed.
End system.
