(* ===== verification/Aio.v ===== *)
(** * I/O offload

    include/ublksrv_aio.h and lib/ublksrv_aio.c: requests are linked through
    their [next] fields into lists that the queue thread and the worker thread
    exchange.  The nodes live in a heap indexed by address; a region under a
    spinlock is one step.  A null or freed pointer that is followed is [None]. *)

From S2P Require Import Prelude Bytes UblkCmd Uring QueueTypes Batch Queue QueueSpec.

Definition UBLKSRV_AIO_QUEUE_WIDE : Z := bit 0.

Record ublksrv_aio := mk_aio {
  aio_io : ublksrv_io_desc;
  aio_res : Z;              (* int, also fd on input *)
  aio_id : Z;               (* unsigned *)
  aio_next : option Z
}.

Definition set_aio_res (v : Z) (n : ublksrv_aio) : ublksrv_aio :=
  mk_aio (aio_io n) v (aio_id n) (aio_next n).
Definition set_aio_next (v : option Z) (n : ublksrv_aio) : ublksrv_aio :=
  mk_aio (aio_io n) (aio_res n) (aio_id n) v.

Notation heap := (gmap Z ublksrv_aio).

Record aio_list := mk_aio_list { al_head : option Z; al_tail : option Z }.

(** ** List operations *)
Definition aio_list_init : aio_list := mk_aio_list None None.

Definition aio_list_empty (al : aio_list) : bool :=
  match al_head al with None => true | Some _ => false end.

(** [a->next = v] *)
Definition store_next (a : Z) (v : option Z) (h : heap) : option heap :=
  n ← h !! a; Some (<[a := set_aio_next v n]> h).

Definition aio_list_add (al : aio_list) (io : Z) (h : heap) : option (heap * aio_list) :=
  h ← store_next io None h;
  match al_tail al with
  | Some t => h ← store_next t (Some io) h; Some (h, mk_aio_list (al_head al) (Some io))
  | None => Some (h, mk_aio_list (Some io) (Some io))
  end.

(** Returns the heap, [n] and [head]. *)
Definition aio_list_splice (n head : aio_list) (h : heap) : option (heap * aio_list * aio_list) :=
  match al_head n with
  | None => Some (h, n, head)
  | Some first =>
      match al_tail head with
      | Some t =>
          h ← store_next t (Some first) h;
          Some (h, aio_list_init, mk_aio_list (al_head head) (al_tail n))
      | None => Some (h, aio_list_init, mk_aio_list (Some first) (al_tail n))
      end
  end.

Definition aio_list_pop (al : aio_list) (h : heap) : option (option Z * heap * aio_list) :=
  match al_head al with
  | None => Some (None, h, al)
  | Some io =>
      n ← h !! io;
      let al := mk_aio_list (aio_next n) (match aio_next n with None => None | Some _ => al_tail al end) in
      h ← store_next io None h;
      Some (Some io, h, al)
  end.

(** ** What a list holds *)
Fixpoint chain (h : heap) (p : option Z) (l : list Z) : Prop :=
  match l with
  | [] => p = None
  | a :: l => p = Some a /\ exists n, h !! a = Some n /\ chain h (aio_next n) l
  end.

Definition list_rep (h : heap) (al : aio_list) (l : list Z) : Prop :=
  chain h (al_head al) l /\ al_tail al = last l /\ NoDup l.

(** Changes to links only: the requests themselves are untouched. *)
Definition node_data (n : ublksrv_aio) : ublksrv_io_desc * Z * Z := (aio_io n, aio_res n, aio_id n).
Definition same_data (h h' : heap) : Prop :=
  forall a, node_data <$> h' !! a = node_data <$> h !! a.

Lemma same_data_refl h : same_data h h.
Proof. done. Qed.

Lemma same_data_trans h1 h2 h3 : same_data h1 h2 -> same_data h2 h3 -> same_data h1 h3.
Proof. intros H1 H2 a. by rewrite H2, H1. Qed.

Lemma chain_frame h h' p l : (forall a, a ∈ l -> h' !! a = h !! a) -> chain h p l -> chain h' p l.
Proof.
  revert p. induction l as [|a l IH]; intros p Hf; [done|]. intros [-> (n&Hn&Hc)].
  split; [done|]. exists n. split.
  - rewrite Hf by left. done.
  - apply IH; [|done]. intros b Hb. apply Hf. by right.
Qed.

Lemma list_rep_frame h h' al l :
  (forall a, a ∈ l -> h' !! a = h !! a) -> list_rep h al l -> list_rep h' al l.
Proof. intros Hf (Hc&Ht&Hn). split; [by eapply chain_frame|done]. Qed.

Lemma chain_lookup h p l a : chain h p l -> a ∈ l -> is_Some (h !! a).
Proof.
  revert p. induction l as [|b l IH]; intros p Hc Ha; [by apply elem_of_nil in Ha|].
  destruct Hc as [_ (n&Hn&Hc)]. apply elem_of_cons in Ha as [->|Ha]; [by eexists|eauto].
Qed.

Lemma store_next_spec a v h : is_Some (h !! a) ->
  exists n, h !! a = Some n /\ store_next a v h = Some (<[a := set_aio_next v n]> h).
Proof. intros [n Hn]. exists n. unfold store_next. by rewrite Hn. Qed.

Lemma same_data_insert h a v n : h !! a = Some n -> same_data h (<[a := set_aio_next v n]> h).
Proof.
  intros Hn b. destruct (decide (b = a)) as [->|].
  - by rewrite lookup_insert_eq, Hn.
  - by rewrite lookup_insert_ne.
Qed.

(** Linking a chain [l2] behind the last node of [l1]. *)
Lemma chain_link h p l1 t n l2 v :
  chain h p (l1 ++ [t]) -> NoDup (l1 ++ [t]) -> h !! t = Some n ->
  chain (<[t := set_aio_next v n]> h) v l2 ->
  chain (<[t := set_aio_next v n]> h) p (l1 ++ [t] ++ l2).
Proof.
  revert p. induction l1 as [|a l1 IH]; intros p Hc Hnd Hn Hc2.
  - destruct Hc as [-> _]. split; [done|]. eexists. split; [apply lookup_insert_eq|done].
  - destruct Hc as [-> (na&Hna&Hc)]. apply NoDup_cons in Hnd as [Hnot Hnd].
    split; [done|]. exists na. split; [|by apply IH].
    rewrite lookup_insert_ne; [done|]. intros ->. apply Hnot. apply elem_of_app. right. left.
Qed.

Lemma aio_list_init_rep h : list_rep h aio_list_init [].
Proof. split; [done|]. split; [done|constructor]. Qed.

Lemma aio_list_empty_spec h al l : list_rep h al l -> aio_list_empty al = bool_decide (l = []).
Proof.
  intros (Hc&_). unfold aio_list_empty. destruct l as [|a l]; cbn in Hc.
  - by rewrite Hc.
  - by destruct Hc as [-> _].
Qed.

Lemma list_rep_tail h al l t : list_rep h al l -> al_tail al = Some t ->
  exists l1, l = l1 ++ [t] /\ is_Some (h !! t).
Proof.
  intros (Hc&Ht&_) Hs. rewrite Hs in Ht. symmetry in Ht. apply last_Some in Ht as [l1 ->].
  exists l1. split; [done|]. eapply chain_lookup; [done|]. apply elem_of_app. right. left.
Qed.

Lemma aio_list_add_rep h al l a :
  list_rep h al l -> is_Some (h !! a) -> a ∉ l ->
  exists h' al', aio_list_add al a h = Some (h', al') /\ list_rep h' al' (l ++ [a]) /\
    same_data h h' /\ (forall b, b <> a -> b ∉ l -> h' !! b = h !! b).
Proof.
  intros Hrep Ha Hnot. unfold aio_list_add.
  destruct (store_next_spec a None h Ha) as (n&Hn&->). cbn [mbind option_bind].
  set (h1 := <[a := set_aio_next None n]> h).
  assert (Hrep1 : list_rep h1 al l).
  { eapply list_rep_frame; [|done]. intros b Hb. apply lookup_insert_ne. naive_solver. }
  assert (Hca : chain h1 (Some a) [a]).
  { split; [done|]. eexists. split; [apply lookup_insert_eq|done]. }
  destruct (al_tail al) as [t|] eqn:Htail.
  - destruct (list_rep_tail h1 al l t Hrep1 Htail) as (l1&->&Ht).
    assert (t <> a) as Hta by (intros ->; apply Hnot, elem_of_app; right; left).
    destruct (store_next_spec t (Some a) h1 Ht) as (nt&Hnt&->). cbn [mbind option_bind].
    eexists _, _. split; [done|]. destruct Hrep1 as (Hc&_&Hnd). split; [split; [|split]|split].
    + cbn [al_head]. rewrite <- app_assoc. apply chain_link; [done|done|done|].
      eapply chain_frame; [|exact Hca]. intros b Hb. apply list_elem_of_singleton in Hb as ->.
      by apply lookup_insert_ne.
    + cbn [al_tail]. by rewrite last_snoc.
    + apply NoDup_app. split; [done|]. split; [|apply NoDup_singleton].
      intros b Hb Hb'. apply list_elem_of_singleton in Hb' as ->. done.
    + eapply same_data_trans; [by apply (same_data_insert h a None)|by apply same_data_insert].
    + intros b Hb1 Hb2. rewrite not_elem_of_app in Hb2. destruct Hb2 as [_ Hb2].
      rewrite lookup_insert_ne by (intros ->; apply Hb2; left). by apply lookup_insert_ne.
  - assert (l = []) as -> by (destruct Hrep as (_&Ht&_); rewrite Htail in Ht; by apply last_None).
    eexists _, _. split; [done|]. split; [|split].
    + split; [done|]. split; [done|apply NoDup_singleton].
    + by apply same_data_insert.
    + intros b Hb _. by apply lookup_insert_ne.
Qed.

Lemma aio_list_splice_rep h n head l1 l2 :
  list_rep h n l1 -> list_rep h head l2 -> l1 ## l2 ->
  exists h' n' head', aio_list_splice n head h = Some (h', n', head') /\
    list_rep h' n' [] /\ list_rep h' head' (l2 ++ l1) /\ same_data h h' /\
    (forall b, b ∉ l2 -> h' !! b = h !! b).
Proof.
  intros Hn Hh Hdisj. unfold aio_list_splice.
  assert (Hnd : NoDup (l2 ++ l1)).
  { apply NoDup_app. split; [apply Hh|]. split; [|apply Hn]. intros b H2 H1. by apply (Hdisj b). }
  destruct l1 as [|a l1].
  { destruct (al_head n) eqn:E; [by destruct Hn as (Hc&_); cbn in Hc; congruence|].
    exists h, n, head. rewrite app_nil_r. done. }
  destruct Hn as (Hc1&Ht1&Hnd1). pose proof Hc1 as [Ha _]. rewrite Ha.
  destruct (al_tail head) as [t|] eqn:Htail.
  - destruct (list_rep_tail h head l2 t Hh Htail) as (l3&->&Ht).
    destruct (store_next_spec t (Some a) h Ht) as (nt&Hnt&->). cbn [mbind option_bind].
    destruct Hh as (Hc2&_&Hnd2). eexists _, _, _. split; [done|].
    split; [apply aio_list_init_rep|]. split; [split; [|split]|split].
    + cbn [al_head]. rewrite <- app_assoc. apply chain_link; [done|done|done|].
      rewrite <- Ha. eapply chain_frame; [|exact Hc1]. intros b Hb. apply lookup_insert_ne.
      intros ->. apply (Hdisj b); [done|]. apply elem_of_app. right. left.
    + cbn [al_tail]. by rewrite Ht1, last_app_cons.
    + done.
    + by apply same_data_insert.
    + intros b Hb. apply lookup_insert_ne. intros ->. apply Hb, elem_of_app. right. left.
  - assert (l2 = []) as -> by (destruct Hh as (_&Ht2&_); rewrite Htail in Ht2; by apply last_None).
    eexists _, _, _. split; [done|]. split; [apply aio_list_init_rep|]. split; [|done].
    split; [cbn [al_head]; by rewrite <- Ha|]. done.
Qed.

Lemma aio_list_pop_rep h al l :
  list_rep h al l ->
  match l with
  | [] => aio_list_pop al h = Some (None, h, al)
  | a :: l' => exists h' al', aio_list_pop al h = Some (Some a, h', al') /\ list_rep h' al' l' /\
      same_data h h' /\ is_Some (h' !! a) /\ (forall b, b <> a -> h' !! b = h !! b)
  end.
Proof.
  intros (Hc&Ht&Hnd). unfold aio_list_pop. destruct l as [|a l]; [by rewrite Hc|].
  destruct Hc as [-> (n&Hn&Hc)]. rewrite Hn. cbn [mbind option_bind].
  destruct (store_next_spec a None h) as (n'&Hn'&->); [by eexists|]. cbn [mbind option_bind].
  rewrite Hn in Hn'. injection Hn' as <-. apply NoDup_cons in Hnd as [Hnot Hnd].
  eexists _, _. split; [done|]. split; [split; [|split]|].
  - cbn [al_head]. eapply chain_frame; [|exact Hc]. intros b Hb. apply lookup_insert_ne. naive_solver.
  - cbn [al_tail]. destruct l as [|b l]; cbn in Hc; [by rewrite Hc|]. by destruct Hc as [-> _].
  - done.
  - split; [by apply same_data_insert|]. split; [rewrite lookup_insert_eq; by eexists|].
    intros b Hb. by apply lookup_insert_ne.
Qed.
