(* ===== verification/AioCtx.v ===== *)
(** * aio contexts

    lib/ublksrv_aio.c over the linked lists of Aio.v: the worker thread that
    submits requests, the hand-over of finished requests to the lists of
    their queues, and the queue's side that wakes a context up and completes
    the tags.  Another thread's use of a list is explicit: [arrivals] are the
    requests added to the submit list while a round of the worker runs. *)

From S2P Require Import Prelude Bytes UblkCmd Uring QueueTypes Batch Queue QueueSpec Aio.

Record ublksrv_aio_ctx := mk_aio_ctx {
  ctx_addr : Z;  (* the context's own address *)
  ctx_submit : aio_list;
  ctx_complete : list aio_list;
  ctx_efd : Z;
  ctx_flags : Z;
  ctx_dead : bool;
  ctx_data : Z
}.

Definition set_ctx_submit (v : aio_list) (c : ublksrv_aio_ctx) : ublksrv_aio_ctx :=
  mk_aio_ctx (ctx_addr c) v (ctx_complete c) (ctx_efd c) (ctx_flags c) (ctx_dead c) (ctx_data c).
Definition set_ctx_complete (v : list aio_list) (c : ublksrv_aio_ctx) : ublksrv_aio_ctx :=
  mk_aio_ctx (ctx_addr c) (ctx_submit c) v (ctx_efd c) (ctx_flags c) (ctx_dead c) (ctx_data c).
Definition set_ctx_dead (v : bool) (c : ublksrv_aio_ctx) : ublksrv_aio_ctx :=
  mk_aio_ctx (ctx_addr c) (ctx_submit c) (ctx_complete c) (ctx_efd c) (ctx_flags c) v (ctx_data c).
Definition set_ctx_data (v : Z) (c : ublksrv_aio_ctx) : ublksrv_aio_ctx :=
  mk_aio_ctx (ctx_addr c) (ctx_submit c) (ctx_complete c) (ctx_efd c) (ctx_flags c) (ctx_dead c) v.

(** ** Life of a context

    [ctx_mem] and [complete_mem] are the results of the two allocations. *)
Definition ublksrv_aio_init_list : aio_list := aio_list_init.

Definition ublksrv_aio_ctx_init (nr_hw_queues ublksrv_flags flags : Z)
    (ctx_mem : option Z) (complete_mem : bool) (new_efd : Z) : option ublksrv_aio_ctx :=
  if negb (has ublksrv_flags UBLKSRV_F_NEED_EVENTFD) then None
  else
    match ctx_mem with
    | None => None
    | Some a =>
        if negb complete_mem then None
        else Some (mk_aio_ctx a ublksrv_aio_init_list
                     (replicate (Z.to_nat nr_hw_queues) ublksrv_aio_init_list) new_efd flags false 0)
    end.

Inductive aio_event := AioWrite (fd : Z) | AioClose (fd : Z) | AioFree (addr : Z).

Definition ublksrv_aio_ctx_shutdown (c : ublksrv_aio_ctx) : ublksrv_aio_ctx * list aio_event :=
  (set_ctx_dead true c, [AioWrite (ctx_efd c)]).

Definition ublksrv_aio_ctx_deinit (c : ublksrv_aio_ctx) : list aio_event :=
  [AioClose (ctx_efd c); AioFree (ctx_addr c)].

Definition sizeof_ublksrv_aio : Z := 40.

(** The size of the allocation: a multiple of eight that holds the header and
    the payload. *)
Definition aio_req_size (payload_size : Z) : Z :=
  Z.land (sizeof_ublksrv_aio + payload_size + 7) (Z.lnot 7).

(** [addr] is calloc's result, a fresh zeroed node. *)
Definition ublksrv_aio_alloc_req (addr : option Z) (h : heap) : option Z * heap :=
  match addr with
  | None => (None, h)
  | Some a => (Some a, <[a := mk_aio (mk_iod 0 0 0 0) 0 0 None]> h)
  end.

(** free(3) of an address that is not allocated is [None]. *)
Definition ublksrv_aio_free_req (req : Z) (h : heap) : option heap :=
  _ ← h !! req; Some (delete req h).

(** ** The worker thread *)
Section worker.
(** The device's queues by address, and the [q_id] field behind an address. *)
Variable queues : list Z.
Variable q_id_of : Z -> Z.

Definition ublksrv_get_queue (qid : Z) : option Z :=
  if 0 <=? qid then queues !! Z.to_nat qid else None.

(** [fn] is the user's submission function: its return value and what it
    leaves in [req->res].  It may work on something of its own, such as a ring. *)
Context {U : Type}.
Variable fn : Z -> ublksrv_io_desc * Z * Z -> U -> Z * Z * U.

(** The [while] loop that pops [sl]; [done = None] is a NULL list. *)
Fixpoint submit_pop_loop (fuel : nat) (h : heap) (sl : aio_list) (done : option aio_list)
    (total : Z) (u : U) : option (heap * option aio_list * Z * U) :=
  match fuel with
  | O => None
  | S fuel =>
      '(req, h, sl) ← aio_list_pop sl h;
      match req with
      | None => Some (h, done, total, u)
      | Some req =>
          n ← h !! req;
          let '(ret, res, u) := fn req (node_data n) u in
          let h := <[req := set_aio_res (if ret <? 0 then ret else res) n]> h in
          '(h, done) ←
            (if ret =? 0 then Some (h, done)
             else match done with
                  | None => Some (h, None)
                  | Some d => '(h, d) ← aio_list_add d req h; Some (h, Some d)
                  end);
          submit_pop_loop fuel h sl done (total + 1) u
      end
  end.

(** From [again:] to the read of the eventfd. *)
Definition submit_round (h : heap) (c : ublksrv_aio_ctx) (done : option aio_list) (total : Z) (u : U)
    : option (heap * aio_list * option aio_list * Z * U) :=
  '(h, submit, sl) ← aio_list_splice (ctx_submit c) aio_list_init h;
  '(h, done, total, u) ← submit_pop_loop (S (size h)) h sl done total u;
  Some (h, submit, done, total, u).

(** Requests added by another thread. *)
Fixpoint add_all (reqs : list Z) (al : aio_list) (h : heap) : option (heap * aio_list) :=
  match reqs with
  | [] => Some (h, al)
  | a :: reqs => '(h, al) ← aio_list_add al a h; add_all reqs al h
  end.

(** One element of [arrivals] per round; with no round left the submit list
    stays as it is. *)
Fixpoint ublksrv_aio_submit_worker (arrivals : list (list Z)) (h : heap) (c : ublksrv_aio_ctx)
    (done : option aio_list) (total : Z) (u : U) : option (heap * ublksrv_aio_ctx * option aio_list * Z * U) :=
  '(h, submit, done, total, u) ← submit_round h c done total u;
  match arrivals with
  | [] =>
      if negb (aio_list_empty submit) then None
      else Some (h, set_ctx_submit submit c, done, total, u)
  | reqs :: arrivals =>
      '(h, submit) ← add_all reqs submit h;
      let c := set_ctx_submit submit c in
      if negb (aio_list_empty submit) then ublksrv_aio_submit_worker arrivals h c done total u
      else Some (h, c, done, total, u)
  end.

Definition move_to_queue_complete_list (c : ublksrv_aio_ctx) (q : Z) (l : aio_list) (h : heap)
    : option (heap * ublksrv_aio_ctx * aio_list) :=
  if aio_list_empty l then Some (h, c, l)
  else
    compl ← (if 0 <=? q_id_of q then ctx_complete c !! Z.to_nat (q_id_of q) else None);
    '(h, l, compl) ← aio_list_splice l compl h;
    Some (h, set_ctx_complete (<[Z.to_nat (q_id_of q) := compl]> (ctx_complete c)) c, l).

(** Moves the requests of queue [this_q] to [this] and the rest to [others]. *)
Fixpoint split_loop (fuel : nat) (this_q : Z) (h : heap) (completed this others : aio_list)
    : option (heap * aio_list * aio_list * aio_list) :=
  match fuel with
  | O => None
  | S fuel =>
      '(req, h, completed) ← aio_list_pop completed h;
      match req with
      | None => Some (h, completed, this, others)
      | Some req =>
          n ← h !! req;
          q ← ublksrv_get_queue (ublksrv_aio_qid (aio_id n));
          if q =? this_q
          then '(h, this) ← aio_list_add this req h; split_loop fuel this_q h completed this others
          else '(h, others) ← aio_list_add others req h; split_loop fuel this_q h completed this others
      end
  end.

(** The queue of the first request of a list. *)
Definition head_queue (al : aio_list) (h : heap) : option Z :=
  a ← al_head al; n ← h !! a; ublksrv_get_queue (ublksrv_aio_qid (aio_id n)).

(** The body of the outer loop; returns the queue the event was sent to. *)
Definition complete_round (h : heap) (c : ublksrv_aio_ctx) (completed this others : aio_list)
    : option (heap * ublksrv_aio_ctx * aio_list * aio_list * aio_list * Z) :=
  this_q ← head_queue completed h;
  '(h, completed, this, others) ← split_loop (S (size h)) this_q h completed this others;
  '(h, c, this) ← move_to_queue_complete_list c this_q this h;
  '(h, others, completed) ← aio_list_splice others completed h;
  Some (h, c, completed, this, others, this_q).

(** The outer loop; [sent] collects the queues an event was sent to. *)
Fixpoint complete_loop (fuel : nat) (h : heap) (c : ublksrv_aio_ctx) (completed this others : aio_list)
    (sent : list Z) : option (heap * ublksrv_aio_ctx * aio_list * list Z) :=
  match fuel with
  | O => None
  | S fuel =>
      if aio_list_empty completed then Some (h, c, completed, sent)
      else
        '(h, c, completed, this, others, this_q) ← complete_round h c completed this others;
        complete_loop fuel h c completed this others (sent ++ [this_q])
  end.

Definition ublksrv_aio_complete_worker (h : heap) (c : ublksrv_aio_ctx) (completed : aio_list)
    : option (heap * ublksrv_aio_ctx * aio_list * list Z) :=
  if aio_list_empty completed then Some (h, c, completed, [])
  else if has (ctx_flags c) UBLKSRV_AIO_QUEUE_WIDE then
    this_q ← head_queue completed h;
    '(h, c, completed) ← move_to_queue_complete_list c this_q completed h;
    Some (h, c, completed, [this_q])
  else complete_loop (S (size h)) h c completed aio_list_init aio_list_init [].
End worker.

(** ** The queue's side *)
Section queue_side.
Context {R : Type} `{!Uring R} {T : Type}.
Implicit Types q : queue R T.

(** The first [n] slots of [ctxs]. *)
Definition ublksrv_aio_add_ctx_for_submit (ctx : Z) (q : queue R T) : bool * queue R T :=
  if bool_decide (ctx ∈ take (Z.to_nat (nr_ctxs q)) (ctxs q)) then (true, q)
  else if nr_ctxs q <? UBLKSRV_NR_CTX_BATCH - 1 then
    (true, set_nr_ctxs (nr_ctxs q + 1) (set_ctxs (<[Z.to_nat (nr_ctxs q) := ctx]> (ctxs q)) q))
  else (false, q).

Definition ublksrv_aio_submit_req (req : Z) (h : heap) (c : ublksrv_aio_ctx) (q : queue R T)
    : option (heap * ublksrv_aio_ctx * queue R T) :=
  '(h, submit) ← aio_list_add (ctx_submit c) req h;
  let '(batched, q) := ublksrv_aio_add_ctx_for_submit (ctx_addr c) q in
  Some (h, set_ctx_submit submit c, if batched then q else log_ev (EvCtxWrite (ctx_addr c)) q).

Definition queue_compl (c : ublksrv_aio_ctx) (q : queue R T) : option aio_list :=
  if 0 <=? q_id q then ctx_complete c !! Z.to_nat (q_id q) else None.

Definition ublksrv_aio_get_completed_reqs (h : heap) (c : ublksrv_aio_ctx) (q : queue R T)
    (al : aio_list) : option (heap * ublksrv_aio_ctx * aio_list) :=
  compl ← queue_compl c q;
  '(h, compl, al) ← aio_list_splice compl al h;
  Some (h, set_ctx_complete (<[Z.to_nat (q_id q) := compl]> (ctx_complete c)) c, al).

Fixpoint complete_reqs (fuel : nat) (h : heap) (al : aio_list) (q : queue R T)
    : option (heap * queue R T) :=
  match fuel with
  | O => None
  | S fuel =>
      '(req, h, al) ← aio_list_pop al h;
      match req with
      | None => Some (h, q)
      | Some req =>
          n ← h !! req;
          '(_, q) ← ublksrv_complete_io (ublksrv_aio_tag (aio_id n)) (aio_res n) q;
          h ← ublksrv_aio_free_req req h;
          complete_reqs fuel h al q
      end
  end.

Definition ublksrv_aio_handle_event (h : heap) (c : ublksrv_aio_ctx) (q : queue R T)
    : option (heap * ublksrv_aio_ctx * queue R T) :=
  '(h, c, al) ← ublksrv_aio_get_completed_reqs h c q aio_list_init;
  '(_, q) ← ublksrv_queue_handled_event q;
  '(h, q) ← complete_reqs (S (size h)) h al q;
  Some (h, c, q).
End queue_side.

(** ** Shared lemmas *)
Lemma same_data_size h h' : same_data h h' -> size h' = size h.
Proof.
  intros Hs. rewrite <- !size_dom. f_equal. apply set_eq. intros a.
  rewrite !elem_of_dom, <- !(fmap_is_Some node_data). by rewrite Hs.
Qed.

Lemma nodup_lookup_size (h : heap) l : NoDup l -> (forall a, a ∈ l -> is_Some (h !! a)) ->
  (length l <= size h)%nat.
Proof.
  intros Hnd Hl. rewrite <- size_dom, <- (size_list_to_set (C := gset Z)) by done.
  apply subseteq_size. intros a Ha. apply elem_of_list_to_set in Ha. apply elem_of_dom. auto.
Qed.

Lemma list_rep_size h al l : list_rep h al l -> (length l <= size h)%nat.
Proof.
  intros (Hc&_&Hnd). apply nodup_lookup_size; [done|]. intros a Ha. by eapply chain_lookup.
Qed.

Lemma list_rep_nodup h al l : list_rep h al l -> NoDup l.
Proof. by intros (_&_&?). Qed.

Lemma list_rep_lookup h al l a : list_rep h al l -> a ∈ l -> is_Some (h !! a).
Proof. intros (?&_). by eapply chain_lookup. Qed.

Lemma same_data_lookup h h' a : same_data h h' -> is_Some (h !! a) -> is_Some (h' !! a).
Proof. intros Hs. rewrite <- !(fmap_is_Some node_data). by rewrite Hs. Qed.

(** The queue index of a request. *)
Definition req_qid (h : heap) (a : Z) : option Z := (fun n => ublksrv_aio_qid (aio_id n)) <$> h !! a.

Lemma req_qid_data h h' a : same_data h h' -> req_qid h' a = req_qid h a.
Proof.
  intros Hs. specialize (Hs a). unfold req_qid.
  destruct (h !! a) as [n|], (h' !! a) as [n'|]; cbn in *; try done.
  unfold node_data in Hs. cbn. congruence.
Qed.

Definition of_queue (h : heap) (k : nat) (l : list Z) : list Z :=
  filter (fun a => req_qid h a = Some (Z.of_nat k)) l.
Definition not_of_queue (h : heap) (k : nat) (l : list Z) : list Z :=
  filter (fun a => req_qid h a <> Some (Z.of_nat k)) l.

Lemma of_queue_data h h' k l : same_data h h' -> of_queue h' k l = of_queue h k l.
Proof. intros Hs. unfold of_queue. apply list_filter_iff. intros a. by rewrite (req_qid_data h h'). Qed.

Lemma not_of_queue_data h h' k l : same_data h h' -> not_of_queue h' k l = not_of_queue h k l.
Proof. intros Hs. unfold not_of_queue. apply list_filter_iff. intros a. by rewrite (req_qid_data h h'). Qed.

Lemma of_queue_others h j k l :
  of_queue h j (not_of_queue h k l) = if decide (j = k) then [] else of_queue h j l.
Proof.
  unfold of_queue, not_of_queue. induction l as [|a l IH]; [by case_decide|].
  rewrite (filter_cons _ a l). destruct (decide (req_qid h a <> _)) as [Hn|Hn].
  - rewrite filter_cons, IH. case_decide; subst; [by rewrite decide_False|].
    rewrite filter_cons. done.
  - rewrite IH. case_decide; [done|]. rewrite filter_cons. apply dec_stable in Hn.
    rewrite decide_False; [done|]. rewrite Hn. intros [= ?%Nat2Z.inj]. congruence.
Qed.

Lemma split_perm h k l : of_queue h k l ++ not_of_queue h k l ≡ₚ l.
Proof. apply filter_app_complement. Qed.

Lemma concat_insert_app {A} (ls : list (list A)) k lk t : ls !! k = Some lk ->
  concat (<[k := lk ++ t]> ls) ≡ₚ t ++ concat ls.
Proof.
  revert k. induction ls as [|x ls IH]; intros [|k] Hk; try done; cbn.
  - injection Hk as ->. solve_Permutation.
  - rewrite IH by done. solve_Permutation.
Qed.

Lemma lookup_concat {A} (ls : list (list A)) k lk a : ls !! k = Some lk -> a ∈ lk -> a ∈ concat ls.
Proof. intros Hk Ha. apply list_elem_of_In, in_concat. exists lk. split; apply list_elem_of_In; [by eapply list_elem_of_lookup_2|done]. Qed.

Lemma nodup_concat_ne {A} (ls : list (list A)) i k l1 l2 b : NoDup (concat ls) -> i <> k ->
  ls !! i = Some l1 -> ls !! k = Some l2 -> b ∈ l1 -> b ∈ l2 -> False.
Proof.
  revert i k. induction ls as [|x ls IH]; intros i k Hnd Hne Hi Hk H1 H2; [done|].
  cbn in Hnd. apply NoDup_app in Hnd as (_&Hd&Hnd).
  destruct i as [|i], k as [|k]; cbn in Hi, Hk; simplify_eq; try done.
  - apply (Hd b); [done|]. by eapply lookup_concat.
  - apply (Hd b); [done|]. by eapply lookup_concat.
  - apply (IH i k); auto.
Qed.

(** A node popped off one list and added to another; a third list is left alone. *)
Lemma pop_add_rep h h1 src src1 dst oth a l d o :
  list_rep h src (a :: l) -> aio_list_pop src h = Some (Some a, h1, src1) ->
  list_rep h dst d -> list_rep h oth o -> NoDup ((a :: l) ++ d ++ o) ->
  exists h2 dst2, aio_list_add dst a h1 = Some (h2, dst2) /\
    list_rep h2 src1 l /\ list_rep h2 dst2 (d ++ [a]) /\ list_rep h2 oth o /\
    NoDup (l ++ (d ++ [a]) ++ o) /\ same_data h h2 /\
    (forall b, b ∉ (a :: l) ++ d ++ o -> h2 !! b = h !! b).
Proof.
  intros Hsrc Hpop Hd Ho Hnd.
  destruct (aio_list_pop_rep _ _ _ Hsrc) as (h1'&src1'&Hpop'&Hl1&Hsd1&Ha1&Hfr1).
  rewrite Hpop in Hpop'. injection Hpop' as <- <-. cbn [app] in Hnd.
  pose proof Hnd as [Hnot Hnd1]%NoDup_cons. rewrite !not_elem_of_app in Hnot.
  destruct Hnot as (Hnl&Hnt&Hno). apply NoDup_app in Hnd1 as (_&Hdl&Hnd1).
  apply NoDup_app in Hnd1 as (_&Hdt&_).
  apply (list_rep_frame h h1) in Hd; [|intros b Hb; apply Hfr1; by intros ->].
  apply (list_rep_frame h h1) in Ho; [|intros b Hb; apply Hfr1; by intros ->].
  destruct (aio_list_add_rep h1 dst d a Hd Ha1 Hnt) as (h2&dst2&->&Hd2&Hsd2&Hfr2).
  exists h2, dst2. split; [done|]. split; [|split; [done|split; [|split; [|split]]]].
  - eapply list_rep_frame; [|done]. intros b Hb. apply Hfr2; [by intros ->|]. set_solver.
  - eapply list_rep_frame; [|done]. intros b Hb. apply Hfr2; [by intros ->|]. set_solver.
  - eapply NoDup_Permutation_proper; [|exact Hnd]. solve_Permutation.
  - by eapply same_data_trans.
  - intros b Hb. rewrite Hfr2, Hfr1; set_solver.
Qed.

(** ** Finished requests reach their queues *)
Section complete_worker.
Variable queues : list Z.
Variable q_id_of : Z -> Z.
Hypothesis queues_id : forall k a, queues !! k = Some a -> q_id_of a = Z.of_nat k.

(** The request's queue exists. *)
Definition has_queue (h : heap) (a : Z) : Prop :=
  exists k, req_qid h a = Some (Z.of_nat k) /\ (k < length queues)%nat.

Lemma has_queue_data h h' a : same_data h h' -> has_queue h a -> has_queue h' a.
Proof. intros Hs (k&Hk&?). exists k. by rewrite (req_qid_data h h'). Qed.

Lemma get_queue_nat k : ublksrv_get_queue queues (Z.of_nat k) = queues !! k.
Proof. unfold ublksrv_get_queue. rewrite (proj2 (Z.leb_le _ _)) by lia. by rewrite Nat2Z.id. Qed.

Lemma queues_inj j k a : queues !! j = Some a -> queues !! k = Some a -> j = k.
Proof. intros Hj%queues_id Hk%queues_id. lia. Qed.

(** The node popped off the list and its queue. *)
Lemma has_queue_node h a : has_queue h a -> exists n k qp, h !! a = Some n /\
  req_qid h a = Some (Z.of_nat k) /\ queues !! k = Some qp /\
  ublksrv_get_queue queues (ublksrv_aio_qid (aio_id n)) = Some qp.
Proof.
  intros (k&Hk&Hlt). unfold req_qid in Hk. destruct (h !! a) as [n|] eqn:Hn; [|done].
  injection Hk as Hq. destruct (lookup_lt_is_Some_2 _ _ Hlt) as [qp Hqp].
  exists n, k, qp. unfold req_qid. rewrite Hn. cbn. by rewrite Hq, get_queue_nat.
Qed.

Lemma split_loop_spec k this_q fuel h completed this others l t o :
  queues !! k = Some this_q ->
  list_rep h completed l -> list_rep h this t -> list_rep h others o ->
  NoDup (l ++ t ++ o) -> (forall a, a ∈ l -> has_queue h a) -> (length l < fuel)%nat ->
  exists h' completed' this' others',
    split_loop queues fuel this_q h completed this others = Some (h', completed', this', others') /\
    list_rep h' completed' [] /\ list_rep h' this' (t ++ of_queue h k l) /\
    list_rep h' others' (o ++ not_of_queue h k l) /\ same_data h h' /\
    (forall b, b ∉ l ++ t ++ o -> h' !! b = h !! b).
Proof.
  intros Hqk. revert fuel h completed this others t o.
  induction l as [|a l IH]; intros [|fuel] h completed this others t o Hl Ht Ho Hnd Hq Hf; try (cbn in Hf; lia).
  { cbn [split_loop]. rewrite (aio_list_pop_rep _ _ _ Hl). cbn [mbind option_bind].
    unfold of_queue, not_of_queue. cbn. exists h, completed, this, others. by rewrite !app_nil_r. }
  cbn [split_loop].
  destruct (aio_list_pop_rep _ _ _ Hl) as (h1&c1&Hpop&Hl1&Hsd1&Ha1&Hfr1).
  rewrite Hpop. cbn [mbind option_bind].
  destruct (has_queue_node h1 a) as (n&j&qp&->&Hj&Hqp&Hget).
  { apply (has_queue_data h); [done|]. apply Hq. left. }
  cbn [mbind option_bind]. rewrite Hget. cbn [mbind option_bind]. rewrite (req_qid_data h h1) in Hj by done.
  unfold of_queue, not_of_queue. rewrite !filter_cons. fold (of_queue h k l) (not_of_queue h k l).
  assert (Hrest : forall h2, same_data h h2 -> forall b, b ∈ l -> has_queue h2 b).
  { intros h2 Hsd b Hb. apply (has_queue_data h); [done|]. apply Hq. by right. }
  destruct (Z.eqb_spec qp this_q) as [->|Hne].
  - rewrite (queues_inj _ _ _ Hqp Hqk) in Hj. rewrite decide_True, decide_False by naive_solver.
    destruct (pop_add_rep h h1 completed c1 this others a l t o Hl Hpop Ht Ho Hnd)
      as (h2&t2&->&Hc2&Ht2&Ho2&Hnd2&Hsd2&Hfr2). cbn [mbind option_bind].
    destruct (IH fuel h2 c1 t2 others (t ++ [a]) o) as (h3&c3&t3&o3&->&Hc3&Ht3&Ho3&Hsd3&Hfr3); auto.
    { cbn in Hf. lia. }
    rewrite (of_queue_data h h2), <- app_assoc in Ht3 by done. rewrite (not_of_queue_data h h2) in Ho3 by done.
    exists h3, c3, t3, o3. do 4 (split; [done|]). split; [by eapply same_data_trans|].
    intros b Hb. rewrite Hfr3, Hfr2; set_solver.
  - assert (j <> k) by (intros ->; congruence).
    rewrite decide_False, decide_True by (rewrite Hj; intros [= ?%Nat2Z.inj]; done).
    destruct (pop_add_rep h h1 completed c1 others this a l o t Hl Hpop Ho Ht)
      as (h2&o2&->&Hc2&Ho2&Ht2&Hnd2&Hsd2&Hfr2); [by rewrite (Permutation_app_comm o t)|].
    cbn [mbind option_bind].
    destruct (IH fuel h2 c1 this o2 t (o ++ [a])) as (h3&c3&t3&o3&->&Hc3&Ht3&Ho3&Hsd3&Hfr3); auto.
    { by rewrite (Permutation_app_comm t). }
    { cbn in Hf. lia. }
    rewrite (of_queue_data h h2) in Ht3 by done. rewrite (not_of_queue_data h h2), <- app_assoc in Ho3 by done.
    exists h3, c3, t3, o3. do 4 (split; [done|]). split; [by eapply same_data_trans|].
    intros b Hb. rewrite Hfr3, Hfr2; set_solver.
Qed.
Definition complete_reps (h : heap) (c : ublksrv_aio_ctx) (ls : list (list Z)) : Prop :=
  Forall2 (list_rep h) (ctx_complete c) ls.

Lemma complete_reps_frame h h' c ls :
  (forall a, a ∈ concat ls -> h' !! a = h !! a) -> complete_reps h c ls -> complete_reps h' c ls.
Proof.
  intros Hf Hr. apply Forall2_same_length_lookup_2; [by eapply Forall2_length|].
  intros i al l Hal Hl. eapply list_rep_frame; [|by eapply Forall2_lookup_lr].
  intros a Ha. apply Hf. by eapply lookup_concat.
Qed.

Lemma move_spec h c k lk q al t ls :
  q_id_of q = Z.of_nat k -> complete_reps h c ls -> ls !! k = Some lk ->
  list_rep h al t -> NoDup (t ++ concat ls) ->
  exists h' c' al', move_to_queue_complete_list q_id_of c q al h = Some (h', c', al') /\
    list_rep h' al' [] /\ complete_reps h' c' (<[k := lk ++ t]> ls) /\
    same_data h h' /\ (forall b, b ∉ concat ls -> h' !! b = h !! b).
Proof.
  intros Hq Hr Hk Hal Hnd. unfold move_to_queue_complete_list.
  rewrite (aio_list_empty_spec _ _ _ Hal). destruct (bool_decide_reflect (t = [])) as [->|Hne].
  { exists h, c, al. by rewrite app_nil_r, list_insert_id. }
  rewrite Hq, (proj2 (Z.leb_le _ _)), Nat2Z.id by lia.
  destruct (Forall2_lookup_r _ _ _ _ _ Hr Hk) as (compl&Hc&Hcr). rewrite Hc. cbn [mbind option_bind].
  apply NoDup_app in Hnd as (Hndt&Hdis&Hndc).
  assert (Hsub : forall b, b ∈ lk -> b ∈ concat ls) by (intros b; by eapply lookup_concat).
  destruct (aio_list_splice_rep h al compl t lk Hal Hcr) as (h'&al'&compl'&->&Ha'&Hc'&Hsd&Hfr).
  { intros b H1 H2. by apply (Hdis b), Hsub. }
  cbn [mbind option_bind]. eexists _, _, _. split; [done|]. split; [done|]. split; [|split; [done|]].
  - apply Forall2_same_length_lookup_2; cbn [ctx_complete set_ctx_complete].
    { rewrite !length_insert. by eapply Forall2_length. }
    intros i al2 l2 Hal2 Hl2. destruct (decide (i = k)) as [->|].
    + rewrite list_lookup_insert_eq in Hal2 by (by eapply lookup_lt_Some).
      rewrite list_lookup_insert_eq in Hl2 by (by eapply lookup_lt_Some). by simplify_eq.
    + rewrite list_lookup_insert_ne in Hal2 by done. rewrite list_lookup_insert_ne in Hl2 by done.
      eapply list_rep_frame; [|by eapply Forall2_lookup_lr]. intros b Hb. apply Hfr. intros Hb'.
      by apply (nodup_concat_ne ls i k l2 lk b).
  - intros b Hb. apply Hfr. naive_solver.
Qed.

(** Every queue's list after the requests [l] were handed over. *)
Definition delivered (h : heap) (l : list Z) (ls : list (list Z)) : list (list Z) :=
  imap (fun k lk => lk ++ of_queue h k l) ls.

Lemma delivered_step h k lk l ls : ls !! k = Some lk ->
  delivered h (not_of_queue h k l) (<[k := lk ++ of_queue h k l]> ls) = delivered h l ls.
Proof.
  intros Hk. apply list_eq. intros j. unfold delivered. rewrite !list_lookup_imap.
  destruct (decide (j = k)) as [->|].
  - rewrite list_lookup_insert_eq by (by eapply lookup_lt_Some). rewrite Hk. cbn.
    by rewrite of_queue_others, decide_True, app_nil_r.
  - rewrite list_lookup_insert_ne by done. destruct (ls !! j); [|done]. cbn.
    by rewrite of_queue_others, decide_False.
Qed.

Lemma delivered_data h h' l ls : same_data h h' -> delivered h' l ls = delivered h l ls.
Proof.
  intros Hs. unfold delivered. apply imap_ext. intros k lk _. by rewrite (of_queue_data h h').
Qed.
Lemma head_queue_spec h al a l : list_rep h al (a :: l) -> has_queue h a ->
  exists k qp, head_queue queues al h = Some qp /\ queues !! k = Some qp /\
    req_qid h a = Some (Z.of_nat k).
Proof.
  intros ([Hh _]&_) (n&k&qp&Hn&Hk&Hqp&Hg)%has_queue_node. exists k, qp. unfold head_queue.
  rewrite Hh. cbn [mbind option_bind]. rewrite Hn. done.
Qed.

Lemma list_rep_nil h h' al : list_rep h al [] -> list_rep h' al [].
Proof. done. Qed.

Lemma delivered_nil h ls : delivered h [] ls = ls.
Proof.
  apply list_eq. intros j. unfold delivered. rewrite list_lookup_imap.
  destruct (ls !! j); [|done]. cbn. by rewrite app_nil_r.
Qed.

Lemma of_queue_ne h j k l : of_queue h k l = l -> j <> k -> of_queue h j l = [].
Proof.
  intros Hk Hne. destruct (of_queue h j l) as [|b l'] eqn:Hj; [done|].
  assert (b ∈ of_queue h j l) as [Hb Hin]%list_elem_of_filter by (rewrite Hj; left).
  rewrite <- Hk in Hin. apply list_elem_of_filter in Hin as [Hb' _]. rewrite Hb in Hb'.
  by injection Hb' as ?%Nat2Z.inj.
Qed.

(** All requests belong to one queue. *)
Lemma delivered_single h k lk l ls : of_queue h k l = l -> ls !! k = Some lk ->
  delivered h l ls = <[k := lk ++ l]> ls.
Proof.
  intros Hk Hlk. apply list_eq. intros j. unfold delivered. rewrite list_lookup_imap.
  destruct (decide (j = k)) as [->|].
  - rewrite list_lookup_insert_eq by (by eapply lookup_lt_Some). rewrite Hlk. cbn. by rewrite Hk.
  - rewrite list_lookup_insert_ne by done. destruct (ls !! j); [|done]. cbn.
    by rewrite (of_queue_ne h j k), app_nil_r.
Qed.

(** Events go to the queues of the requests, and to no other. *)
Definition events_for (h : heap) (l : list Z) (sent : list Z) : Prop :=
  forall k qp, queues !! k = Some qp -> qp ∈ sent <-> of_queue h k l <> [].

Lemma of_queue_cons_ne h k a l : req_qid h a = Some (Z.of_nat k) -> of_queue h k (a :: l) <> [].
Proof. intros Hk. unfold of_queue. by rewrite filter_cons, decide_True. Qed.

Lemma events_for_single h k qp l : of_queue h k l = l -> l <> [] -> queues !! k = Some qp ->
  events_for h l [qp].
Proof.
  intros Hk Hl Hqp j qj Hj. rewrite list_elem_of_singleton. destruct (decide (j = k)) as [->|Hne].
  - rewrite Hk. split; [done|congruence].
  - rewrite (of_queue_ne h j k) by done. split; [|done]. intros ->. exfalso. apply Hne. by eapply queues_inj.
Qed.

Lemma complete_round_spec h c completed this others a l' ls l :
  l = a :: l' ->
  list_rep h completed l -> list_rep h this [] -> list_rep h others [] -> complete_reps h c ls ->
  NoDup (l ++ concat ls) -> (forall a, a ∈ l -> has_queue h a) -> length ls = length queues ->
  exists k lk qp h' c' completed' this' others',
    complete_round queues q_id_of h c completed this others =
      Some (h', c', completed', this', others', qp) /\
    queues !! k = Some qp /\ ls !! k = Some lk /\ req_qid h a = Some (Z.of_nat k) /\
    list_rep h' completed' (not_of_queue h k l) /\ list_rep h' this' [] /\ list_rep h' others' [] /\
    complete_reps h' c' (<[k := lk ++ of_queue h k l]> ls) /\ same_data h h'.
Proof.
  intros El Hl Ht Ho Hc Hnd Hq Hlen. unfold complete_round.
  destruct (head_queue_spec h completed a l') as (k&qp&->&Hqp&Hk); [by subst| |].
  { apply Hq. subst. left. }
  cbn [mbind option_bind].
  destruct (split_loop_spec k qp (S (size h)) h completed this others l [] [])
    as (h1&c1&t1&o1&->&Hl1&Ht1&Ho1&Hsd1&Hfr1); [done..| |done| |].
  { rewrite app_nil_r. by apply NoDup_app in Hnd as (?&_). }
  { pose proof (list_rep_size _ _ _ Hl). lia. }
  cbn [mbind option_bind app] in *. rewrite app_nil_r in Hfr1.
  assert (Hltk : (k < length ls)%nat) by (rewrite Hlen; by eapply lookup_lt_Some).
  destruct (lookup_lt_is_Some_2 _ _ Hltk) as [lk Hlk].
  assert (Hnd' : NoDup (of_queue h k l ++ not_of_queue h k l ++ concat ls)).
  { by rewrite app_assoc, split_perm. }
  destruct (move_spec h1 c k lk qp t1 (of_queue h k l) ls)
    as (h2&c2&t2&->&Ht2&Hc2&Hsd2&Hfr2); [by apply queues_id| |done..| |].
  { eapply complete_reps_frame; [|done]. intros b Hb. apply Hfr1.
    apply NoDup_app in Hnd as (_&Hd&_). intros Hb'. by apply (Hd b). }
  { eapply sublist_NoDup; [exact Hnd'|]. apply sublist_app; [done|]. by apply sublist_inserts_l. }
  cbn [mbind option_bind].
  apply NoDup_app in Hnd' as (_&_&(_&Hd2&_)%NoDup_app).
  apply (list_rep_frame h1 h2) in Ho1; [|intros b Hb; apply Hfr2; by apply Hd2].
  destruct (aio_list_splice_rep h2 o1 c1 (not_of_queue h k l) []) as (h3&o3&c3&->&Ho3&Hc3&Hsd3&Hfr3).
  { done. }
  { by apply (list_rep_nil h1). }
  { set_solver. }
  cbn [mbind option_bind app] in *. exists k, lk, qp, h3, c2, c3, t2, o3. do 5 (split; [done|]).
  split; [by apply (list_rep_nil h2)|]. split; [done|]. split.
  - eapply complete_reps_frame; [|done]. intros b Hb. apply Hfr3. set_solver.
  - do 2 (eapply same_data_trans; [done|]); done.
Qed.

Lemma complete_loop_spec fuel h c completed this others l ls sent :
  list_rep h completed l -> list_rep h this [] -> list_rep h others [] -> complete_reps h c ls ->
  NoDup (l ++ concat ls) -> (forall a, a ∈ l -> has_queue h a) ->
  length ls = length queues -> (length l < fuel)%nat ->
  exists h' c' completed' new,
    complete_loop queues q_id_of fuel h c completed this others sent =
      Some (h', c', completed', sent ++ new) /\
    list_rep h' completed' [] /\ complete_reps h' c' (delivered h l ls) /\
    same_data h h' /\ events_for h l new.
Proof.
  revert h c completed this others l ls sent.
  induction fuel as [|fuel IH]; intros h c completed this others l ls sent Hl Ht Ho Hc Hnd Hq Hlen Hf; [lia|].
  cbn [complete_loop]. rewrite (aio_list_empty_spec _ _ _ Hl).
  destruct l as [|a l'] eqn:El.
  { rewrite bool_decide_true by done. exists h, c, completed, []. rewrite app_nil_r, delivered_nil.
    do 4 (split; [done|]). intros k qp _. split; [by intros ?%elem_of_nil|done]. }
  rewrite <- El in *. rewrite bool_decide_false by (subst; done).
  destruct (complete_round_spec h c completed this others a l' ls l)
    as (k&lk&qp&h3&c2&c3&t2&o3&->&Hqp&Hlk&Hk&Hl3&Ht3&Ho3&Hc3&Hsd); [done..|].
  cbn [mbind option_bind]. pose proof (split_perm h k l) as Hperm.
  destruct (IH h3 c2 c3 t2 o3 (not_of_queue h k l) (<[k := lk ++ of_queue h k l]> ls) (sent ++ [qp]))
    as (h4&c4&cc4&new&->&Hl4&Hc4&Hsd4&Hev); try done.
  - rewrite (concat_insert_app _ _ _ _ Hlk).
    eapply NoDup_Permutation_proper; [|exact Hnd]. rewrite <- Hperm at 3. solve_Permutation.
  - intros b Hb. apply (has_queue_data h); [done|]. apply Hq. rewrite <- Hperm. set_solver.
  - by rewrite length_insert.
  - assert (of_queue h k l <> []) by (subst l; by apply of_queue_cons_ne).
    apply Permutation_length in Hperm. rewrite length_app in Hperm.
    destruct (of_queue h k l); [done|]. cbn in Hperm. lia.
  - exists h4, c4, cc4, (qp :: new). rewrite <- app_assoc. split; [done|]. split; [done|].
    rewrite (delivered_data h h3), (delivered_step _ _ _ _ _ Hlk) in Hc4 by done.
    split; [done|]. split; [by eapply same_data_trans|].
    intros j qj Hj. rewrite elem_of_cons, (Hev j qj Hj), (of_queue_data h h3), of_queue_others by done.
    case_decide as Hjk; subst.
    + rewrite Hqp in Hj. injection Hj as ->. split; [|by left]. intros _. by apply of_queue_cons_ne.
    + split; [|by right]. intros [->|]; [|done]. exfalso. apply Hjk. by eapply queues_inj.
Qed.

(** C9: ublksrv_aio_complete_worker terminates and hands every finished
    request to its queue: [completed] ends up empty, each queue's list is its
    old list followed by that queue's requests in order, the requests
    themselves are unchanged, and an event is sent to exactly the queues that
    received something.  A context that serves one queue takes the whole list
    at once with the same result. *)
Theorem aio_complete_worker_delivers h c completed l ls :
  list_rep h completed l -> complete_reps h c ls -> NoDup (l ++ concat ls) ->
  length ls = length queues -> (forall a, a ∈ l -> has_queue h a) ->
  (has (ctx_flags c) UBLKSRV_AIO_QUEUE_WIDE = true -> exists k, of_queue h k l = l) ->
  exists h' c' completed' sent,
    ublksrv_aio_complete_worker queues q_id_of h c completed = Some (h', c', completed', sent) /\
    list_rep h' completed' [] /\ complete_reps h' c' (delivered h l ls) /\
    same_data h h' /\ events_for h l sent.
Proof.
  intros Hl Hc Hnd Hlen Hq Hwide. unfold ublksrv_aio_complete_worker.
  rewrite (aio_list_empty_spec _ _ _ Hl). destruct l as [|a l'] eqn:El.
  { rewrite bool_decide_true by done. exists h, c, completed, []. rewrite delivered_nil.
    do 4 (split; [done|]). intros k qp _. split; [by intros ?%elem_of_nil|done]. }
  rewrite <- El in *. rewrite bool_decide_false by (subst; done).
  destruct (has (ctx_flags c) UBLKSRV_AIO_QUEUE_WIDE).
  - destruct (Hwide eq_refl) as [k Hk].
    destruct (head_queue_spec h completed a l') as (k'&qp&->&Hqp&Hka); [by subst| |].
    { apply Hq. subst. left. }
    assert (k' = k) as ->.
    { assert (a ∈ of_queue h k l) as [Hak _]%list_elem_of_filter by (rewrite Hk; subst; left).
      rewrite Hka in Hak. by injection Hak as ?%Nat2Z.inj. }
    cbn [mbind option_bind].
    assert (Hltk : (k < length ls)%nat) by (rewrite Hlen; by eapply lookup_lt_Some).
    destruct (lookup_lt_is_Some_2 _ _ Hltk) as [lk Hlk].
    destruct (move_spec h c k lk qp completed l ls) as (h2&c2&t2&->&Ht2&Hc2&Hsd2&_); [by apply queues_id|done..|].
    cbn [mbind option_bind]. exists h2, c2, t2, [qp]. do 2 (split; [done|]).
    split; [|split; [done|apply (events_for_single h k); subst; done]].
    by rewrite (delivered_single h k lk).
  - destruct (complete_loop_spec (S (size h)) h c completed aio_list_init aio_list_init l ls [])
      as (h'&c'&cc&new&->&?); try done; try apply aio_list_init_rep.
    { pose proof (list_rep_size _ _ _ Hl). lia. }
    by exists h', c', cc, new.
Qed.
End complete_worker.

(** ** Completed requests complete their tags *)
Section handle_event.
Context {R : Type} `{!Uring R, !UringLaws R, !UringProgress R} {T : Type}.
Implicit Types q : queue R T.

(** The tag and the result a request carries. *)
Definition req_done (h : heap) (a : Z) : option (nat * Z) :=
  (fun n => (Z.to_nat (ublksrv_aio_tag (aio_id n)), aio_res n)) <$> h !! a.
Definition reqs_done (h : heap) (l : list Z) : list (nat * Z) := omap (req_done h) l.

Lemma req_done_data h h' a : same_data h h' -> req_done h' a = req_done h a.
Proof.
  intros Hs. specialize (Hs a). unfold req_done.
  destruct (h !! a) as [n|], (h' !! a) as [n'|]; cbn in *; try done.
  unfold node_data in Hs. cbn. congruence.
Qed.

Lemma reqs_done_ext h h' l : (forall a, a ∈ l -> req_done h' a = req_done h a) ->
  reqs_done h' l = reqs_done h l.
Proof.
  induction l as [|a l IH]; intros Hf; [done|]. cbn. rewrite Hf by left.
  unfold reqs_done in IH. rewrite IH; [done|]. intros b Hb. apply Hf. by right.
Qed.

Lemma queue_event_epoll q ret q' : __ublksrv_queue_event q = Some (ret, q') -> epoll_callbacks q' = epoll_callbacks q.
Proof.
  unfold __ublksrv_queue_event. destruct (0 <=? efd q); [|by intros [= _ <-]].
  destruct (build_internal_data _); [|done]. cbn [mbind option_bind].
  destruct (stopping q); [by intros [= _ <-]|]. by destruct (io_uring_get_sqe _ _); intros [= _ <-].
Qed.

Lemma handled_event_sim q A : qsim q A ->
  exists ret q', ublksrv_queue_handled_event q = Some (ret, q') /\ qsim q' A /\
    view q' = view q /\ epoll_callbacks q' = epoll_callbacks q.
Proof.
  intros Hs. unfold ublksrv_queue_handled_event. destruct (0 <=? efd q); [|by exists 0, q].
  destruct (queue_event_ok (log_ev (EvEfdRead (efd q)) q) A) as (ret&q1&Hq1&Hs1&Hv&_); [by apply qsim_log_ev|].
  pose proof (queue_event_epoll _ _ _ Hq1) as He. rewrite Hq1.
  cbn [mbind option_bind]. eexists _, _. split; [done|]. destruct (ret =? 0); [|done].
  split; [apply qsim_submit; [done|apply submit_and_wait_submits]|]. split; [|done].
  transitivity (view q1); [|exact Hv]. apply view_set_ring, submits_entries, submit_and_wait_submits.
Qed.

Lemma complete_reqs_spec fuel h al l q A :
  list_rep h al l -> qsim q A -> completable (reqs_done h l) A -> (length l < fuel)%nat ->
  exists h' q', complete_reqs fuel h al q = Some (h', q') /\
    qsim q' (complete_all (reqs_done h l) A) /\
    (forall b, h' !! b = if decide (b ∈ l) then None else h !! b) /\
    view q' = view q /\ epoll_callbacks q' = epoll_callbacks q.
Proof.
  revert fuel h al q A. induction l as [|a l IH]; intros [|fuel] h al q A Hl Hs Hok Hf; try (cbn in Hf; lia).
  { cbn [complete_reqs]. rewrite (aio_list_pop_rep _ _ _ Hl). cbn [mbind option_bind]. exists h, q.
    do 2 (split; [done|]). split; [|done]. intros b. rewrite decide_False; [done|]. apply not_elem_of_nil. }
  cbn [complete_reqs]. destruct (aio_list_pop_rep _ _ _ Hl) as (h1&al1&->&Hl1&Hsd&[n Hn]&Hfr).
  cbn [mbind option_bind]. rewrite Hn. cbn [mbind option_bind].
  set (i := Z.to_nat (ublksrv_aio_tag (aio_id n))).
  assert (Hi : ublksrv_aio_tag (aio_id n) = Z.of_nat i).
  { subst i. rewrite Z2Nat.id; [done|]. unfold ublksrv_aio_tag. rewrite Z.land_nonneg. right. lia. }
  assert (Hd : reqs_done h (a :: l) = (i, aio_res n) :: reqs_done h l).
  { unfold reqs_done. cbn. rewrite <- (req_done_data h h1) by done. unfold req_done at 1. by rewrite Hn. }
  rewrite Hd in *. apply completable_cons in Hok as (Ht&Hr&Hok).
  destruct (complete_io_progress q A i (aio_res n) Hs Ht Hr) as (q1&Hc&(Hv&He&_)&Hs1).
  rewrite Hi, Hc. cbn [mbind option_bind]. unfold ublksrv_aio_free_req. rewrite Hn. cbn [mbind option_bind].
  pose proof (list_rep_nodup _ _ _ Hl) as [Hnot _]%NoDup_cons.
  assert (Hdel : forall b, b ∈ l -> delete a h1 !! b = h1 !! b).
  { intros b Hb. apply lookup_delete_ne. by intros ->. }
  assert (Hsame : reqs_done (delete a h1) l = reqs_done h l).
  { apply reqs_done_ext. intros b Hb. unfold req_done at 1. rewrite Hdel by done.
    by apply (req_done_data h h1). }
  destruct (IH fuel (delete a h1) al1 q1 (send i UBLK_IO_COMMIT_AND_FETCH_REQ (Some (aio_res n)) A))
    as (h'&q'&->&Hs'&Hh'&Hv'&He').
  - by eapply list_rep_frame; [exact Hdel|].
  - done.
  - by rewrite Hsame.
  - cbn in Hf. lia.
  - rewrite Hsame in Hs'. exists h', q'. do 2 (split; [done|]). split; [|split; congruence]. intros b. rewrite Hh'.
    destruct (decide (b = a)) as [->|].
    + rewrite decide_False, decide_True by (done || left). apply lookup_delete_eq.
    + rewrite lookup_delete_ne, Hfr by done. destruct (decide (b ∈ l)).
      * by rewrite decide_True by (by right).
      * by rewrite decide_False by set_solver.
Qed.

Lemma handle_event_spec h c q A compl l :
  queue_compl c q = Some compl -> list_rep h compl l -> qsim q A -> completable (reqs_done h l) A ->
  exists h' compl' q', ublksrv_aio_handle_event h c q =
      Some (h', set_ctx_complete (<[Z.to_nat (q_id q) := compl']> (ctx_complete c)) c, q') /\
    qsim q' (complete_all (reqs_done h l) A) /\ list_rep h' compl' [] /\
    (forall b, h' !! b = if decide (b ∈ l) then None else h !! b) /\
    view q' = view q /\ epoll_callbacks q' = epoll_callbacks q.
Proof.
  intros Hq Hl Hs Hok. unfold ublksrv_aio_handle_event, ublksrv_aio_get_completed_reqs.
  rewrite Hq. cbn [mbind option_bind].
  destruct (aio_list_splice_rep h compl aio_list_init l []) as (h1&compl'&al&->&Hc1&Hl1&Hsd&Hfr);
    [done|apply aio_list_init_rep|set_solver|]. cbn [mbind option_bind app] in *.
  destruct (handled_event_sim q A Hs) as (ret&q1&->&Hs1&Hv1&He1). cbn [mbind option_bind].
  assert (Hd : reqs_done h1 l = reqs_done h l).
  { apply reqs_done_ext. intros b _. by apply req_done_data. }
  destruct (complete_reqs_spec (S (size h1)) h1 al l q1 A) as (h'&q'&->&Hs'&Hh'&Hv'&He'); [done|done|by rewrite Hd| |].
  { pose proof (list_rep_size _ _ _ Hl1). lia. }
  cbn [mbind option_bind]. exists h', compl', q'. split; [done|]. rewrite Hd in Hs'. split; [done|].
  split; [by apply (list_rep_nil h1)|]. split; [|split; congruence].
  intros b. rewrite Hh', (Hfr b); [done|apply not_elem_of_nil].
Qed.

(** C11: ublksrv_aio_handle_event completes every request on the queue's list
    with its own result, in order and one COMMIT command each, frees exactly
    those requests and leaves the list empty. *)
Theorem aio_handle_event_completes h c q A compl l :
  queue_compl c q = Some compl -> list_rep h compl l -> qsim q A -> completable (reqs_done h l) A ->
  exists h' c' q', ublksrv_aio_handle_event h c q = Some (h', c', q') /\
    qsim q' (complete_all (reqs_done h l) A) /\
    (forall b, b ∉ l -> h' !! b = h !! b) /\ (forall b, b ∈ l -> h' !! b = None) /\
    (exists compl', queue_compl c' q = Some compl' /\ list_rep h' compl' []).
Proof.
  intros Hq Hl Hs Hok. destruct (handle_event_spec h c q A compl l Hq Hl Hs Hok) as (h'&compl'&q'&->&Hs'&Hl'&Hh'&_).
  eexists h', _, q'. split; [done|]. split; [done|].
  split; [intros b Hb; by rewrite Hh', decide_False by done|].
  split; [intros b Hb; by rewrite Hh', decide_True by done|].
  exists compl'. split; [|done]. unfold queue_compl in *.
  destruct (0 <=? q_id q); [|done]. cbn. apply list_lookup_insert_eq. by eapply lookup_lt_Some.
Qed.
End handle_event.

(** ** The submitting worker *)
Section submit_worker.
Context {U : Type}.
Variable fn : Z -> ublksrv_io_desc * Z * Z -> U -> Z * Z * U.

(** The run of [fn] on the requests of a list: what it returned and left in
    [req->res] for each, and what it made of its own state. *)
Fixpoint run_fn (h : heap) (l : list Z) (u : U) : list (Z * (Z * Z)) * U :=
  match l with
  | [] => ([], u)
  | a :: l =>
      match h !! a with
      | Some n => let '(ret, res, u) := fn a (node_data n) u in
                  let '(t, u) := run_fn h l u in ((a, (ret, res)) :: t, u)
      | None => run_fn h l u
      end
  end.
End submit_worker.

(** A request's data after it got an answer; the requests that are finished. *)
Definition after_answer (ans : Z * Z) (d : ublksrv_io_desc * Z * Z) : ublksrv_io_desc * Z * Z :=
  (d.1.1, if ans.1 <? 0 then ans.1 else ans.2, d.2).
Definition finishes (x : Z * (Z * Z)) : option Z := if x.2.1 =? 0 then None else Some x.1.

(** [t] tells all that happened to the requests. *)
Definition answered (h h' : heap) (t : list (Z * (Z * Z))) : Prop :=
  forall a, node_data <$> h' !! a =
    (match (list_to_map t : gmap Z (Z * Z)) !! a with Some ans => after_answer ans | None => id end) <$> (node_data <$> h !! a).

Definition done_rep (h : heap) (done : option aio_list) (d : list Z) : Prop :=
  match done with Some al => list_rep h al d | None => True end.

Lemma answered_nil h h' : same_data h h' -> answered h h' [].
Proof. intros Hs a. cbn. rewrite lookup_empty, Hs. by destruct (h !! a). Qed.

Lemma answered_app h h1 h2 t1 t2 : t1.*1 ## t2.*1 -> answered h h1 t1 -> answered h1 h2 t2 -> answered h h2 (t1 ++ t2).
Proof.
  intros Hd H1 H2 a. rewrite H2, H1, list_to_map_app, lookup_union. destruct (h !! a); [|done]. cbn.
  destruct (list_to_map t1 !! a) as [x1|] eqn:E1, (list_to_map t2 !! a) as [x2|] eqn:E2; try done.
  apply elem_of_list_to_map_2, (list_elem_of_fmap_2 fst) in E1, E2. by apply (Hd a) in E1.
Qed.

Lemma answered_keeps h h' t a : answered h h' t -> a ∉ t.*1 -> node_data <$> h' !! a = node_data <$> h !! a.
Proof.
  intros Hr Ha. rewrite Hr, (not_elem_of_list_to_map_1 t a) by done. by destruct (h !! a).
Qed.

Lemma answered_lookup h h' t a : answered h h' t -> is_Some (h' !! a) <-> is_Some (h !! a).
Proof.
  intros Hr. specialize (Hr a). destruct (h' !! a), (h !! a); try done; split; intros; try done; by eexists.
Qed.

Section submit_spec.
Context {U : Type}.
Variable fn : Z -> ublksrv_io_desc * Z * Z -> U -> Z * Z * U.
Implicit Types u : U.

Lemma run_fn_ext h h' l u : (forall a, a ∈ l -> node_data <$> h' !! a = node_data <$> h !! a) ->
  run_fn fn h' l u = run_fn fn h l u.
Proof.
  revert u. induction l as [|a l IH]; intros u Hf; [done|]. cbn [run_fn].
  pose proof (Hf a ltac:(left)) as Ha. assert (Hl : forall u, run_fn fn h' l u = run_fn fn h l u).
  { intros u'. apply IH. intros b Hb. apply Hf. by right. }
  destruct (h' !! a) as [n1|], (h !! a) as [n2|]; try done.
  assert (node_data n1 = node_data n2) as -> by (cbn in Ha; congruence). destruct (fn a (node_data n2) u) as [[ret res] u1].
  by rewrite Hl.
Qed.

Lemma run_fn_app h l1 l2 u :
  run_fn fn h (l1 ++ l2) u =
    ((run_fn fn h l1 u).1 ++ (run_fn fn h l2 (run_fn fn h l1 u).2).1, (run_fn fn h l2 (run_fn fn h l1 u).2).2).
Proof.
  revert u. induction l1 as [|a l1 IH]; intros u; cbn [run_fn app fst snd]; [apply surjective_pairing|].
  destruct (h !! a) as [n|]; [|apply IH]. destruct (fn a (node_data n) u) as [[ret res] u1]. rewrite IH.
  by destruct (run_fn fn h l1 u1).
Qed.

Lemma run_fn_keys h l u : (forall a, a ∈ l -> is_Some (h !! a)) -> (run_fn fn h l u).1.*1 = l.
Proof.
  revert u. induction l as [|a l IH]; intros u Hl; [done|]. cbn [run_fn]. destruct (Hl a ltac:(left)) as [n ->].
  destruct (fn a (node_data n) u) as [[ret res] u1]. specialize (IH u1 ltac:(intros b Hb; apply Hl; by right)).
  destruct (run_fn fn h l u1) as [t u2]. cbn in *. by rewrite IH.
Qed.

Lemma finishes_keys t : sublist (omap finishes t) t.*1.
Proof.
  induction t as [|[a [ret res]] t IH]; [done|]. cbn. unfold finishes at 1. cbn.
  destruct (ret =? 0); [by apply sublist_cons|by apply sublist_skip].
Qed.

(** One request: popped, run, and added to [done] unless [fn] returned 0. *)
Lemma submit_one h sl a l done d u :
  list_rep h sl (a :: l) -> done_rep h done d -> NoDup ((a :: l) ++ d) ->
  exists n h1 sl1 h2 done2, aio_list_pop sl h = Some (Some a, h1, sl1) /\ h1 !! a = Some n /\
    let '(ret, res, u') := fn a (node_data n) u in
    let h1' := <[a := set_aio_res (if ret <? 0 then ret else res) n]> h1 in
    (if ret =? 0 then Some (h1', done)
     else match done with
          | None => Some (h1', None)
          | Some dl => '(h, dl) ← aio_list_add dl a h1'; Some (h, Some dl)
          end) = Some (h2, done2) /\
    run_fn fn h [a] u = ([(a, (ret, res))], u') /\
    list_rep h2 sl1 l /\ done_rep h2 done2 (d ++ omap finishes [(a, (ret, res))]) /\ answered h h2 [(a, (ret, res))] /\
    (forall b, b ∉ (a :: l) ++ d -> h2 !! b = h !! b).
Proof.
  intros Hl Hd Hnd. destruct (aio_list_pop_rep _ _ _ Hl) as (h1&sl1&Hpop&Hl1&Hsd&[n Hn]&Hfr).
  cbn [app] in Hnd. apply NoDup_cons in Hnd as [Hnot Hnd]. rewrite not_elem_of_app in Hnot.
  destruct Hnot as [Hnl Hnotd]. apply NoDup_app in Hnd as (_&Hdis&_).
  pose proof (Hsd a) as Hna. rewrite Hn in Hna. destruct (h !! a) as [n0|] eqn:Hn0; [|done].
  injection Hna as Hna. exists n, h1, sl1. cbn [run_fn]. rewrite Hn0. fold (node_data n) (node_data n0) in Hna.
  assert (node_data n = node_data n0) as Hnd0 by (unfold node_data; congruence). rewrite Hnd0.
  destruct (fn a (node_data n0) u) as [[ret res] u'] eqn:Hfn.
  set (h1' := <[a := _]> h1).
  assert (Hl1' : list_rep h1' sl1 l).
  { eapply list_rep_frame; [|done]. intros b Hb. apply lookup_insert_ne. by intros <-. }
  assert (Hd1' : done_rep h1' done d).
  { destruct done; [|done]. eapply list_rep_frame; [|done]. intros b Hb. unfold h1'.
    rewrite lookup_insert_ne by (by intros <-). apply Hfr. by intros ->. }
  assert (Hran : answered h h1' [(a, (ret, res))]).
  { intros b. unfold h1'. cbn [list_to_map foldr]. destruct (decide (b = a)) as [->|Hb].
    - rewrite !lookup_insert_eq, Hn0. cbn. unfold after_answer. unfold node_data in *. cbn. congruence.
    - rewrite !lookup_insert_ne, lookup_empty by done. rewrite Hsd. by destruct (h !! b). }
  assert (Hfr' : forall b, b <> a -> h1' !! b = h !! b).
  { intros b Hb. unfold h1'. rewrite lookup_insert_ne by done. by apply Hfr. }
  cbn [omap list_omap]. unfold finishes. cbn [fst snd]. destruct (ret =? 0) eqn:Hret.
  { exists h1', done. rewrite app_nil_r. do 7 (split; [done|]). intros b Hb. apply Hfr'. set_solver. }
  destruct done as [dl|]; [|exists h1', None; do 7 (split; [done|]); intros b Hb; apply Hfr'; set_solver].
  destruct (aio_list_add_rep h1' dl d a Hd1') as (h2&dl2&->&Hd2&Hsd2&Hfr2); [|done|].
  { unfold h1'. rewrite lookup_insert_eq. by eexists. }
  exists h2, (Some dl2). do 4 (split; [done|]). split.
  { eapply list_rep_frame; [|done]. intros b Hb. apply Hfr2; [by intros ->|]. by apply Hdis. }
  split; [done|]. split.
  - intros b. rewrite Hsd2. apply Hran.
  - intros b Hb. rewrite Hfr2, Hfr'; set_solver.
Qed.

(** The rest of a run is the same after requests that are not in it were
    answered. *)
Lemma answered_run h h' t l u : answered h h' t -> t.*1 ## l -> run_fn fn h' l u = run_fn fn h l u.
Proof. intros Hr Hd. apply run_fn_ext. intros a Ha. apply (answered_keeps h h' t); [done|]. intros ?. by apply (Hd a). Qed.

Lemma submit_pop_loop_spec fuel h sl l done d total u :
  list_rep h sl l -> done_rep h done d -> NoDup (l ++ d) -> (length l < fuel)%nat ->
  let '(t, u') := run_fn fn h l u in
  exists h' done', submit_pop_loop fn fuel h sl done total u =
      Some (h', done', total + Z.of_nat (length l), u') /\
    done_rep h' done' (d ++ omap finishes t) /\ answered h h' t /\
    (forall b, b ∉ l ++ d -> h' !! b = h !! b).
Proof.
  revert fuel h sl done d total u.
  induction l as [|a l IH]; intros [|fuel] h sl done d total u Hl Hd Hnd Hf; try (cbn in Hf; lia).
  { cbn [submit_pop_loop run_fn]. rewrite (aio_list_pop_rep _ _ _ Hl). cbn [mbind option_bind]. exists h, done.
    rewrite Z.add_0_r, app_nil_r. split; [done|]. split; [done|]. split; [by apply answered_nil|done]. }
  cbn [submit_pop_loop]. change (a :: l) with ([a] ++ l) at 1. rewrite run_fn_app.
  destruct (submit_one h sl a l done d u Hl Hd Hnd) as (n&h1&sl1&h2&done2&->&Hn&Hstep).
  cbn [mbind option_bind]. rewrite Hn. cbn [mbind option_bind].
  destruct (fn a (node_data n) u) as [[ret res] u1]. destruct Hstep as (->&->&Hl2&Hd2&Hran&Hfr).
  cbn [mbind option_bind fst snd].
  pose proof Hnd as [Hnot Hndld]%NoDup_cons. rewrite not_elem_of_app in Hnot. destruct Hnot as [Hnl Hnotd].
  specialize (IH fuel h2 sl1 done2 (d ++ omap finishes [(a, (ret, res))]) (total + 1) u1 Hl2 Hd2).
  rewrite (answered_run h h2 [(a, (ret, res))] l u1) in IH by (done || set_solver).
  destruct (run_fn fn h l u1) as [t u2] eqn:Hrun. cbn [fst snd]. destruct IH as (h3&done3&->&Hd3&Hran3&Hfr3).
  { rewrite app_assoc. apply NoDup_app. split; [done|]. split.
    - intros b Hb Hb'%(sublist_subseteq _ _ (finishes_keys _)). apply list_elem_of_singleton in Hb' as ->. by apply elem_of_app in Hb as [].
    - eapply sublist_NoDup; [|apply finishes_keys]. apply NoDup_singleton. }
  { cbn in Hf. lia. }
  exists h3, done3. split; [do 3 f_equal; rewrite length_cons; lia|]. split; [|split].
  - by rewrite omap_app, app_assoc.
  - apply (answered_app h h2 h3); [|done|done]. cbn. intros b ->%list_elem_of_singleton Hb. apply Hnl.
    assert (Hk : t.*1 = l); [|by rewrite <- Hk].
    change t with (t, u2).1. rewrite <- Hrun. apply run_fn_keys. intros x Hx.
    apply (answered_lookup h h2 [(a, (ret, res))]); [done|]. by eapply list_rep_lookup.
  - intros b Hb. rewrite Hfr3, Hfr; [done|set_solver|].
    apply not_elem_of_app in Hb as [Hb1 Hb2]. rewrite not_elem_of_cons in Hb1. rewrite !not_elem_of_app.
    split; [tauto|]. split; [done|]. intros Hb'%(sublist_subseteq _ _ (finishes_keys _)). apply list_elem_of_singleton in Hb'. tauto.
Qed.

Lemma add_all_spec reqs h al l :
  list_rep h al l -> NoDup (l ++ reqs) -> (forall a, a ∈ reqs -> is_Some (h !! a)) ->
  exists h' al', add_all reqs al h = Some (h', al') /\ list_rep h' al' (l ++ reqs) /\
    same_data h h' /\ (forall b, b ∉ l ++ reqs -> h' !! b = h !! b).
Proof.
  revert h al l. induction reqs as [|a reqs IH]; intros h al l Hl Hnd Hin.
  { exists h, al. by rewrite app_nil_r. }
  pose proof Hnd as (_&Hdis&_)%NoDup_app.
  destruct (aio_list_add_rep h al l a Hl) as (h1&al1&Hadd&Hl1&Hsd1&Hfr1).
  { apply Hin. left. }
  { intros Ha. apply (Hdis a Ha). left. }
  cbn [add_all]. rewrite Hadd. cbn [mbind option_bind].
  destruct (IH h1 al1 (l ++ [a])) as (h2&al2&->&Hl2&Hsd2&Hfr2).
  - done.
  - by rewrite <- app_assoc.
  - intros b Hb. apply (same_data_lookup h); [done|]. apply Hin. by right.
  - exists h2, al2. rewrite <- app_assoc in Hl2. split; [done|]. split; [done|].
    split; [by eapply same_data_trans|]. intros b Hb. rewrite Hfr2, Hfr1; set_solver.
Qed.

Lemma nodup_app_disjoint (l1 l2 l3 : list Z) : NoDup (l1 ++ l2 ++ l3) -> l1 ## l2.
Proof. intros (_&Hd&_)%NoDup_app b H1 H2. apply (Hd b H1). apply elem_of_app. by left. Qed.

Lemma submit_round_spec h c l done d total u :
  list_rep h (ctx_submit c) l -> done_rep h done d -> NoDup (l ++ d) ->
  let '(t, u') := run_fn fn h l u in
  exists h' sub done', submit_round fn h c done total u =
      Some (h', sub, done', total + Z.of_nat (length l), u') /\
    list_rep h' sub [] /\ done_rep h' done' (d ++ omap finishes t) /\ answered h h' t /\
    (forall b, b ∉ l ++ d -> h' !! b = h !! b).
Proof.
  intros Hl Hd Hnd. unfold submit_round.
  destruct (aio_list_splice_rep h (ctx_submit c) aio_list_init l []) as (h1&sub&sl&->&Hsub&Hsl&Hsd&Hfr);
    [done|apply aio_list_init_rep|set_solver|]; cbn [mbind option_bind app] in *.
  pose proof (submit_pop_loop_spec (S (size h1)) h1 sl l done d total u) as Hloop.
  rewrite (run_fn_ext h h1) in Hloop by (intros; apply Hsd). destruct (run_fn fn h l u) as [t u'].
  destruct Hloop as (h2&done2&->&Hd2&Hran&Hfr2).
  - done.
  - destruct done; [|done]. eapply list_rep_frame; [|done]. intros b Hb. apply Hfr, not_elem_of_nil.
  - done.
  - pose proof (list_rep_size _ _ _ Hsl). lia.
  - cbn [mbind option_bind]. eexists _, _, _. split; [done|]. split; [by apply (list_rep_nil h1)|]. split; [done|].
    split; [apply (answered_app h h1 h2 []); [set_solver|by apply answered_nil|done]|].
    intros b Hb. rewrite Hfr2 by done. apply Hfr, not_elem_of_nil.
Qed.

Lemma submit_worker_runs arrivals h c l done d total u :
  list_rep h (ctx_submit c) l -> done_rep h done d ->
  NoDup (l ++ concat arrivals ++ d) -> (forall a, a ∈ concat arrivals -> is_Some (h !! a)) ->
  Forall (fun reqs => reqs <> []) arrivals ->
  let all := l ++ concat arrivals in
  exists h' c' done',
    ublksrv_aio_submit_worker fn arrivals h c done total u =
      Some (h', c', done', total + Z.of_nat (length all), (run_fn fn h all u).2) /\
    list_rep h' (ctx_submit c') [] /\ done_rep h' done' (d ++ omap finishes (run_fn fn h all u).1) /\
    answered h h' (run_fn fn h all u).1.
Proof.
  revert h c l done d total u.
  induction arrivals as [|reqs arrivals IH]; intros h c l done d total u Hl Hd Hnd Hin Hne all; subst all;
    cbn [concat] in *; cbn [ublksrv_aio_submit_worker].
  { pose proof (submit_round_spec h c l done d total u Hl Hd Hnd) as Hr. rewrite !app_nil_r.
    destruct (run_fn fn h l u) as [t u']. destruct Hr as (h2&sub&done2&->&Hsub&Hd2&Hran&_).
    cbn [mbind option_bind]. rewrite (aio_list_empty_spec h2 sub []), bool_decide_true by done. cbn [negb].
    eexists _, _, _. split; [done|]. done. }
  apply Forall_cons in Hne as [Hreqs Hne]. rewrite run_fn_app.
  pose proof (submit_round_spec h c l done d total u Hl Hd) as Hr.
  assert (Hk : (run_fn fn h l u).1.*1 = l) by (apply run_fn_keys; intros; by eapply list_rep_lookup).
  destruct (run_fn fn h l u) as [t u'] eqn:Hrun. cbn [fst snd] in *.
  destruct Hr as (h2&sub&done2&->&Hsub&Hd2&Hran&_).
  { eapply sublist_NoDup; [exact Hnd|]. apply sublist_app; [done|]. by apply sublist_inserts_l. }
  cbn [mbind option_bind].
  assert (Hnd' : NoDup (reqs ++ concat arrivals ++ d ++ l)).
  { eapply NoDup_Permutation_proper; [|exact Hnd]. solve_Permutation. }
  pose proof Hnd' as (Hndr&Hdisr&_)%NoDup_app.
  destruct (add_all_spec reqs h2 sub []) as (h3&sub3&->&Hsub3&Hsd3&Hfr3); [done|done| |].
  { intros a Ha. apply (answered_lookup h h2 t); [done|]. apply Hin. apply elem_of_app. by left. }
  cbn [mbind option_bind app] in *. rewrite (aio_list_empty_spec _ _ _ Hsub3), bool_decide_false by done.
  cbn [negb].
  assert (Hran3 : answered h h3 t).
  { rewrite <- (app_nil_r t). apply (answered_app h h2 h3); [set_solver|done|by apply answered_nil]. }
  assert (Hsubl : sublist (d ++ omap finishes t) (d ++ l)).
  { apply sublist_app; [done|]. rewrite <- Hk. apply finishes_keys. }
  assert (Hdis : l ## reqs ++ concat arrivals) by (by apply (nodup_app_disjoint _ _ d)).
  destruct (IH h3 (set_ctx_submit sub3 c) reqs done2 (d ++ omap finishes t) (total + Z.of_nat (length l)) u')
    as (h4&c4&done4&->&Hs4&Hd4&Hran4).
  - done.
  - destruct done2; [|done]. eapply list_rep_frame; [|done]. intros b Hb. apply Hfr3. intros Hb'.
    apply (Hdisr b Hb'). apply elem_of_app. right. by eapply sublist_subseteq.
  - eapply sublist_NoDup; [exact Hnd'|]. by do 2 (apply sublist_app; [done|]).
  - intros a Ha. apply (answered_lookup h h3 t); [done|]. apply Hin. apply elem_of_app. by right.
  - done.
  - rewrite (answered_run h h3 t) in Hd4, Hran4 |- * by (done || by rewrite Hk).
    exists h4, c4, done4. split; [by rewrite !length_app; do 3 f_equal; lia|]. split; [done|].
    split; [by rewrite omap_app, app_assoc|]. apply (answered_app h h3 h4); [|done|done].
    rewrite Hk, run_fn_keys; [done|]. intros a Ha. apply Hin. by rewrite elem_of_app in Ha |- *.
Qed.

(** C10: ublksrv_aio_submit_worker runs the submission function exactly once
    on every request that is on the submit list, including those other
    threads add while it works, in their order and with what the function made
    of its own state, and returns their number with the list empty: a request
    the function refuses gets the error as its result, and the requests it did
    not leave pending are on [done] in order. *)
Theorem aio_submit_worker_runs_all arrivals h c l done d total u :
  list_rep h (ctx_submit c) l -> done_rep h done d ->
  NoDup (l ++ concat arrivals ++ d) -> (forall a, a ∈ concat arrivals -> is_Some (h !! a)) ->
  Forall (fun reqs => reqs <> []) arrivals ->
  let all := l ++ concat arrivals in
  let '(t, u') := run_fn fn h all u in
  t.*1 = all /\
  exists h' c' done',
    ublksrv_aio_submit_worker fn arrivals h c done total u =
      Some (h', c', done', total + Z.of_nat (length all), u') /\
    list_rep h' (ctx_submit c') [] /\ done_rep h' done' (d ++ omap finishes t) /\ answered h h' t.
Proof.
  intros Hl Hd Hnd Hin Hne all. pose proof (run_fn_keys h all u) as Hkeys.
  assert (Hall : forall a, a ∈ all -> is_Some (h !! a)).
  { intros a [Ha|Ha]%elem_of_app; [by eapply list_rep_lookup|by apply Hin]. }
  specialize (Hkeys Hall). pose proof (submit_worker_runs arrivals h c l done d total u Hl Hd Hnd Hin Hne) as Hw.
  cbv zeta in Hw. fold all in Hw. destruct (run_fn fn h all u) as [t u']. split; [exact Hkeys|exact Hw].
Qed.
End submit_spec.

(** ** Waking contexts up *)
Section wake.
Context {R : Type} `{!Uring R} {T : Type}.
Implicit Types q : queue R T.

Definition ctxs_ok (q : queue R T) : Prop :=
  0 <= nr_ctxs q <= UBLKSRV_NR_CTX_BATCH /\ length (ctxs q) = Z.to_nat UBLKSRV_NR_CTX_BATCH.

Definition submit_step (q q' : queue R T) : Prop :=
  exists req h c h' c', ublksrv_aio_submit_req req h c q = Some (h', c', q').

(** A context is woken already, or the batch at the end of the iteration will. *)
Definition batched (q : queue R T) : list Z := take (Z.to_nat (nr_ctxs q)) (ctxs q).
Definition woken (addr : Z) (q0 q : queue R T) : Prop :=
  exists new, trace q = trace q0 ++ new /\ (EvCtxWrite addr ∈ new \/ addr ∈ batched q).

Lemma add_ctx_spec ctx q b q' : ctxs_ok q -> ublksrv_aio_add_ctx_for_submit ctx q = (b, q') ->
  ctxs_ok q' /\ trace q' = trace q /\ batched q ⊆ batched q' /\
  (b = true -> ctx ∈ batched q').
Proof.
  intros [Hn Hl]. unfold ublksrv_aio_add_ctx_for_submit. fold (batched q).
  case_bool_decide as Hin; [intros [= <- <-]; repeat split; auto; lia|].
  destruct (Z.ltb_spec (nr_ctxs q) (UBLKSRV_NR_CTX_BATCH - 1)) as [Hlt|]; intros [= <- <-]; [|repeat split; auto; try lia; done].
  unfold UBLKSRV_NR_CTX_BATCH in *. set (n := Z.to_nat (nr_ctxs q)).
  assert (Hb : batched (set_nr_ctxs (nr_ctxs q + 1) (set_ctxs (<[n := ctx]> (ctxs q)) q)) = batched q ++ [ctx]).
  { unfold batched. qsimpl. replace (Z.to_nat (nr_ctxs q + 1)) with (S n) by lia.
    rewrite (take_S_r _ _ ctx) by (apply list_lookup_insert_eq; lia).
    f_equal. apply take_insert_ge. lia. }
  rewrite Hb. split; [split; qsimpl; [unfold UBLKSRV_NR_CTX_BATCH; lia|by rewrite length_insert]|]. split; [done|].
  set_solver.
Qed.

Lemma submit_req_woken req h c q h' c' q' : ctxs_ok q ->
  ublksrv_aio_submit_req req h c q = Some (h', c', q') ->
  ctxs_ok q' /\ woken (ctx_addr c) q q' /\ (forall addr q0, woken addr q0 q -> woken addr q0 q').
Proof.
  intros Hok. unfold ublksrv_aio_submit_req.
  destruct (aio_list_add _ _ _) as [[h1 sub]|]; [|done]. cbn [mbind option_bind].
  destruct (ublksrv_aio_add_ctx_for_submit (ctx_addr c) q) as [b q1] eqn:Ha.
  destruct (add_ctx_spec _ _ _ _ Hok Ha) as (Hok1&Htr&Hsub&Hb). intros [= <- <- <-].
  destruct b.
  - split; [done|]. split; [exists []; rewrite app_nil_r; auto|].
    intros addr q0 (new&Hnew&Hw). exists new. rewrite Htr. split; [done|]. set_solver.
  - split; [done|]. split; [exists [EvCtxWrite (ctx_addr c)]; qs; rewrite Htr; set_solver|].
    intros addr q0 (new&Hnew&Hw). exists (new ++ [EvCtxWrite (ctx_addr c)]). qs.
    rewrite Htr, Hnew, app_assoc. split; [done|]. unfold batched in *. qsimpl. set_solver.
Qed.

Lemma submit_aio_loop_trace n i q : 0 <= i -> (Z.to_nat i + n <= length (ctxs q))%nat ->
  exists q', submit_aio_loop n i q = Some q' /\
    trace q' = trace q ++ (EvCtxWrite <$> take n (drop (Z.to_nat i) (ctxs q))).
Proof.
  revert i q. induction n as [|n IH]; intros i q Hi Hl.
  { exists q. by rewrite take_0, app_nil_r. }
  cbn [submit_aio_loop]. destruct (lookup_lt_is_Some_2 (ctxs q) (Z.to_nat i)) as [ctx Hctx]; [lia|].
  rewrite Hctx. cbn [mbind option_bind].
  destruct (IH (i + 1) (log_ev (EvCtxWrite ctx) q)) as (q'&->&Htr); [lia|qs; lia|].
  exists q'. split; [done|]. rewrite Htr. qs. replace (Z.to_nat (i + 1)) with (S (Z.to_nat i)) by lia.
  rewrite (drop_S _ _ _ Hctx). cbn [take fmap list_fmap]. by rewrite <- app_assoc.
Qed.

(** C12: a request handed to a context is never left unnoticed: whether the
    context found a slot in the queue's batch or not, after any number of
    further submissions in the same iteration the write that ends it (or one
    made right away) has woken the context up. *)
Theorem aio_submit_wakes_context req h c q h' c' q1 q2 :
  ctxs_ok q -> ublksrv_aio_submit_req req h c q = Some (h', c', q1) -> rtc submit_step q1 q2 ->
  exists q3 new, ublksrv_submit_aio_batch q2 = Some q3 /\
    trace q3 = trace q ++ new /\ EvCtxWrite (ctx_addr c) ∈ new.
Proof.
  intros Hok Hs Hr. destruct (submit_req_woken _ _ _ _ _ _ _ Hok Hs) as (Hok1&Hw&_). clear Hs Hok.
  assert (ctxs_ok q2 /\ woken (ctx_addr c) q q2) as [[Hn Hl] (new&Hnew&Hw2)].
  { induction Hr as [|x y z (r&h1&c1&h2&c2&Hxy) _ IH]; [done|].
    destruct (submit_req_woken _ _ _ _ _ _ _ Hok1 Hxy) as (?&_&?). auto. }
  unfold ublksrv_submit_aio_batch, UBLKSRV_NR_CTX_BATCH in *.
  destruct (submit_aio_loop_trace (Z.to_nat (nr_ctxs q2)) 0 q2) as (q3&->&Htr); [done|rewrite Hl; lia|].
  exists q3, (new ++ (EvCtxWrite <$> batched q2)). split; [done|].
  rewrite Htr, Hnew, <- app_assoc. split; [done|]. apply elem_of_app.
  destruct Hw2 as [?|Hb]; [by left|right]. apply list_elem_of_fmap. eauto.
Qed.
End wake.
