(* ===== verification/AioExamples.v ===== *)
(** * Concrete offloaded requests

    Two linked requests of two queues, and a queue whose tags the target
    holds: the hypotheses of the theorems of AioCtx.v hold there. *)

From S2P Require Import Prelude Bytes UblkCmd Uring QueueTypes Batch Queue QueueSpec Aio AioCtx.

Definition exa_node (qid tag res : Z) (next : option Z) : ublksrv_aio :=
  mk_aio (mk_iod UBLK_IO_OP_READ 8 0 0) res (ublksrv_aio_pid_tag qid tag) next.

Definition exa_heap : heap :=
  {[ 100 := exa_node 0 0 4096 (Some 200); 200 := exa_node 1 1 512 None; 300 := exa_node 0 1 (-5) None ]}.
Definition exa_list : aio_list := mk_aio_list (Some 100) (Some 200).
Definition exa_queues : list Z := [7000; 8000].
Definition exa_q_id (q : Z) : Z := if q =? 7000 then 0 else 1.
Definition exa_ctx (al : aio_list) (flags : Z) : ublksrv_aio_ctx :=
  mk_aio_ctx 9000 al [mk_aio_list (Some 300) (Some 300); aio_list_init] 5 flags false 0.

Lemma exa_queues_id k a : exa_queues !! k = Some a -> exa_q_id a = Z.of_nat k.
Proof. destruct k as [|[|k]]; [by intros [= <-]..|done]. Qed.

Lemma exa_list_rep : list_rep exa_heap exa_list [100; 200].
Proof.
  split; [|split; [done|]].
  - split; [done|]. eexists. split; [vm_compute; reflexivity|]. split; [done|].
    eexists. split; [vm_compute; reflexivity|done].
  - apply (bool_decide_unpack _). vm_compute. done.
Qed.

Lemma exa_one_rep : list_rep exa_heap (mk_aio_list (Some 300) (Some 300)) [300].
Proof.
  split; [|split; [done|apply NoDup_singleton]]. split; [done|].
  eexists. split; [vm_compute; reflexivity|done].
Qed.

Lemma exa_complete_reps al flags : complete_reps exa_heap (exa_ctx al flags) [[300]; []].
Proof.
  constructor; [apply exa_one_rep|]. constructor; [apply aio_list_init_rep|constructor].
Qed.

Lemma aio_complete_worker_delivers_witness :
  exists h' c' completed' sent,
    ublksrv_aio_complete_worker exa_queues exa_q_id exa_heap (exa_ctx aio_list_init 0) exa_list
      = Some (h', c', completed', sent) /\ complete_reps h' c' [[300; 100]; [200]].
Proof.
  destruct (aio_complete_worker_delivers exa_queues exa_q_id exa_queues_id exa_heap
    (exa_ctx aio_list_init 0) exa_list [100; 200] [[300]; []]) as (h'&c'&cc&sent&Hw&_&Hc&_).
  - exact exa_list_rep.
  - apply exa_complete_reps.
  - apply (bool_decide_unpack _). vm_compute. done.
  - reflexivity.
  - intros a Ha. apply elem_of_cons in Ha as [->|Ha]; [exists 0%nat; split; [reflexivity|cbn; lia]|].
    apply list_elem_of_singleton in Ha as ->. exists 1%nat. split; [reflexivity|cbn; lia].
  - discriminate.
  - exists h', c', cc, sent. split; [exact Hw|exact Hc].
Defined.

(** [fn] finishes requests of queue 0, of which it counts the bytes, and refuses
    the others. *)
Definition exa_fn (a : Z) (d : ublksrv_io_desc * Z * Z) (bytes : Z) : Z * Z * Z :=
  if ublksrv_aio_qid d.2 =? 0 then (1, 4096, bytes + 4096) else (- EINVAL, 0, bytes).

Lemma aio_submit_worker_runs_all_witness :
  exists h' c' done',
    ublksrv_aio_submit_worker exa_fn [[300]] exa_heap (exa_ctx exa_list 0) (Some aio_list_init) 0 0
      = Some (h', c', done', 3, 8192) /\ done_rep h' done' [100; 200; 300].
Proof.
  destruct (aio_submit_worker_runs_all exa_fn [[300]] exa_heap (exa_ctx exa_list 0) [100; 200]
    (Some aio_list_init) [] 0 0) as (_&h'&c'&done'&Hw&_&Hd&_).
  - exact exa_list_rep.
  - apply aio_list_init_rep.
  - apply (bool_decide_unpack _). vm_compute. done.
  - intros a Ha. apply list_elem_of_singleton in Ha as ->. vm_compute. eauto.
  - constructor; [discriminate|constructor].
  - exists h', c', done'. split; [exact Hw|exact Hd].
Defined.

(** A queue of two tags held by the target. *)
Definition exa_queue : queue ListRing.ring unit :=
  mk_queue 0 2 [mk_iod UBLK_IO_OP_READ 8 0 0; mk_iod UBLK_IO_OP_WRITE 16 8 0] 0 0 0 (-1) [] 6
    (ListRing.mk_ring 4 [] []) 0 [0; 0; 0; 0] (mk_batch [] [] 0 0 0 0 0 0)
    [mk_ublk_io 0x10000 0 0 0 (Some 0) 0; mk_ublk_io 0x20000 0 0 1 (Some 1) 0] tt [].
Definition exa_aqueue : aqueue := mk_aqueue [TTarget; TTarget] false [].

Lemma exa_qsim : qsim exa_queue exa_aqueue.
Proof.
  split; try done.
  - intros [|[|i]] io Hio; [by injection Hio as <-..|done].
  - intros [|[|i]] t Ht; [by injection Ht as <-; eexists; split; [done|left]..|done].
Qed.

Lemma aio_handle_event_completes_witness :
  exists h' c' q',
    ublksrv_aio_handle_event exa_heap (exa_ctx aio_list_init 0) exa_queue = Some (h', c', q') /\
    qsim q' (send 1 UBLK_IO_COMMIT_AND_FETCH_REQ (Some (-5)) exa_aqueue) /\ h' !! 300 = None.
Proof.
  destruct (aio_handle_event_completes exa_heap (exa_ctx aio_list_init 0) exa_queue exa_aqueue
    (mk_aio_list (Some 300) (Some 300)) [300]) as (h'&c'&q'&Hq&Hs&_&Hfree&_).
  - reflexivity.
  - exact exa_one_rep.
  - exact exa_qsim.
  - split; [apply (bool_decide_unpack _); vm_compute; done|].
    constructor; [|constructor]. split; [reflexivity|]. vm_compute. split; [discriminate|reflexivity].
  - exists h', c', q'. split; [exact Hq|]. split; [exact Hs|]. apply Hfree. left.
Defined.

Lemma aio_submit_wakes_context_witness :
  exists q3 new, ublksrv_submit_aio_batch
      (set_nr_ctxs 1 (set_ctxs [9000; 0; 0; 0] exa_queue)) = Some q3 /\
    trace q3 = new /\ EvCtxWrite 9000 ∈ new.
Proof.
  apply (aio_submit_wakes_context 300 exa_heap (exa_ctx aio_list_init 0) exa_queue
    (<[300 := set_aio_next None (exa_node 0 1 (-5) None)]> exa_heap)
    (exa_ctx (mk_aio_list (Some 300) (Some 300)) 0)
    (set_nr_ctxs 1 (set_ctxs [9000; 0; 0; 0] exa_queue))).
  - split; [vm_compute; split; discriminate|reflexivity].
  - vm_compute. reflexivity.
  - apply rtc_refl.
Defined.
