(* ===== verification/Target.v ===== *)
(** * Coroutine targets

    targets/include/ublksrv_tgt.h: the helpers of the bundled targets.  A
    target that runs its I/O on the queue's ring handles each request in a
    coroutine that queues some requests, suspends once per completion and then
    completes the tag.  The coroutine of a tag is a value of [co_state]: the
    completions still to come and the result so far. *)

From S2P Require Import Prelude Bytes UblkCmd Uring QueueTypes Batch Queue QueueSpec.

Definition UBLK_USER_COPY_READ : Z := 0x80.
Definition UBLK_USER_COPY_WRITE : Z := 0x81.

Definition ublk_cmd_op_nr (op : Z) : Z := _IOC_NR op.
Definition is_ublk_io_cmd (op : Z) : bool := op <? UBLK_IO_FETCH_REQ.

(** [co_await] with [more] further completions to wait for after the next one. *)
Inductive co_state := CoIdle | CoWait (more io_res : Z).

(** The private data: [struct ublk_io_tgt] of each tag and the target's own
    data. *)
Record co_tgt {D : Type} := mk_co_tgt { cos : list co_state; tdata : D }.
#[global] Arguments co_tgt D : clear implicits.
#[global] Arguments mk_co_tgt {D}.

(** [ublksrv_tgt_process_cqe] and the fold of the result in the callers. *)
Definition ublksrv_tgt_process_cqe (cqe : io_uring_cqe) (io_res : Z) : Z * Z :=
  (cqe_res cqe,
   if is_ublk_io_cmd (user_data_to_op (cqe_user_data cqe)) then cqe_res cqe else io_res).

Definition fold_res (cqe : io_uring_cqe) (io_res : Z) : Z :=
  let '(res, io_res) := ublksrv_tgt_process_cqe cqe io_res in
  if (res <? 0) && (0 <=? io_res) then res else io_res.

Section target.
Context {R : Type} `{!Uring R} {D : Type}.
Notation Q := (queue R (co_tgt D)).
Implicit Types q : Q.

Definition ublksrv_tgt_queue_zc (q : Q) : bool := has (state q) UBLKSRV_ZERO_COPY.
Definition ublksrv_tgt_queue_auto_zc (q : Q) : bool := has (state q) UBLKSRV_AUTO_ZC.

(** Entries are stored in order; the count returned is the number of
    entries obtained. *)
Fixpoint alloc_sqes_loop (ss : list io_uring_sqe) (r : R) : Z * R :=
  match ss with
  | [] => (0, r)
  | s :: ss =>
      match io_uring_get_sqe s r with
      | None => (0, r)
      | Some r => let '(n, r) := alloc_sqes_loop ss r in (n + 1, r)
      end
  end.

Definition ublk_queue_alloc_sqes (ss : list io_uring_sqe) (r : R) : Z * R :=
  let nr_sqes := Z.of_nat (length ss) in
  let r := if io_uring_sq_space_left r <? nr_sqes then (io_uring_submit r).2 else r in
  alloc_sqes_loop ss r.

(** The targets ignore the count and store into every entry they asked for:
    a missing one is an access through an invalid pointer. *)
Definition tgt_queue_sqes (ss : list io_uring_sqe) (q : Q) : option Q :=
  let '(n, r) := ublk_queue_alloc_sqes ss (ring q) in
  if n =? Z.of_nat (length ss) then Some (set_ring r q) else None.

Definition set_co (tag : Z) (c : co_state) (q : Q) : Q :=
  set_private_data (mk_co_tgt (<[Z.to_nat tag := c]> (cos (private_data q)))
                      (tdata (private_data q))) q.

(** ** The coroutine

    [submit_io] queues the requests of a tag and returns how many
    completions to wait for; [zero_ok] says whether zero means done. *)
Variable submit_io : Z -> Q -> option (Z * Q).
Variable zero_ok : bool.

Definition co_start (tag : Z) (q : Q) : option Q :=
  '(ret, q) ← submit_io tag q;
  if 0 <? ret then Some (set_co tag (CoWait (ret - 1) 0) q)
  else if (ret =? 0) && zero_ok then
    '(_, q) ← ublksrv_complete_io tag 0 q; Some (set_co tag CoIdle q)
  else Some (set_co tag CoIdle q).

Definition co_resume (tag : Z) (cqe : io_uring_cqe) (q : Q) : option Q :=
  match cos (private_data q) !! Z.to_nat tag with
  | Some (CoWait more io_res) =>
      let io_res := fold_res cqe io_res in
      if 0 <? more then Some (set_co tag (CoWait (more - 1) io_res) q)
      else if io_res =? - EAGAIN then co_start tag q
      else
        '(_, q) ← ublksrv_complete_io tag io_res q; Some (set_co tag CoIdle q)
  | _ => None
  end.

Definition ublksrv_tgt_io_done (data_tag : Z) (cqe : io_uring_cqe) (q : Q) : option Q :=
  if user_data_to_tag (cqe_user_data cqe) =? data_tag then co_resume data_tag cqe q else None.
End target.

(** ** Coroutine targets keep to the callback interface *)
Section target_laws.
Context {R : Type} `{!Uring R, !UringLaws R} {D : Type}.
Notation Q := (queue R (co_tgt D)).
Implicit Types q : Q.

(** What the target relies on of the fixed configuration: ring size, the
    three copy modes and its own data. *)
Variable cfg : Z -> bool -> bool -> bool -> D -> Prop.
Definition cfg_ok (v : tgt_view (co_tgt D)) : Prop :=
  cfg (v_entries v) (v_zero_copy v) (v_auto_zc v) (v_user_copy v) (tdata (v_data v)).

(** Only tags the target holds have a suspended coroutine. *)
Definition co_inv (v : tgt_view (co_tgt D)) (tags : list tag_state) : Prop :=
  cfg_ok v /\ length (cos (v_data v)) = length tags /\
  forall i more r, cos (v_data v) !! i = Some (CoWait more r) -> tags !! i = Some TTarget /\ is_s32 r.

(** A completion arrives for a suspended coroutine. *)
Definition co_cqe_ok (v : tgt_view (co_tgt D)) (cqe : io_uring_cqe) : Prop :=
  is_s32 (cqe_res cqe) /\
  exists i more r, user_data_to_tag (cqe_user_data cqe) = Z.of_nat i /\
    cos (v_data v) !! i = Some (CoWait more r).

Lemma co_inv_held t l l' : same_held l l' -> co_inv t l -> co_inv t l'.
Proof.
  intros [Hlen Hh] (Hcf&Hl&Hc). split; [done|]. split; [congruence|]. intros i m r Hi.
  destruct (Hc i m r Hi). split; [by apply Hh|done].
Qed.

Lemma fold_res_s32 cqe r : is_s32 (cqe_res cqe) -> is_s32 r -> is_s32 (fold_res cqe r).
Proof. intros. unfold fold_res, ublksrv_tgt_process_cqe. repeat case_match; simplify_eq; done. Qed.

Lemma co_inv_set t tags i c t' tags' :
  co_inv t tags -> (i < length tags)%nat -> length tags' = length tags ->
  (forall j, j <> i -> tags !! j = Some TTarget -> tags' !! j = Some TTarget) ->
  (forall more r, c = CoWait more r -> tags' !! i = Some TTarget /\ is_s32 r) ->
  cos (v_data t') = <[i := c]> (cos (v_data t)) -> (cfg_ok t -> cfg_ok t') -> co_inv t' tags'.
Proof.
  intros (Hcf&Hl&Hc) Hi Hlen Htags Hci Hcos Hcfg. unfold co_inv. rewrite Hcos.
  split; [auto|]. split; [rewrite length_insert; lia|]. intros j m r. destruct (decide (j = i)) as [->|].
  - rewrite list_lookup_insert_eq by lia. intros [= ->]. eauto.
  - rewrite list_lookup_insert_ne by done. intros Hj. destruct (Hc _ _ _ Hj). auto.
Qed.

Lemma set_co_cos i c q :
  cos (v_data (view (set_co (Z.of_nat i) c q))) = <[i := c]> (cos (v_data (view q))).
Proof. unfold set_co, view. qsimpl. cbn [v_data cos]. by rewrite Nat2Z.id. Qed.

(** Ending a coroutine by completing its tag. *)
Lemma complete_safe q A i res op0 :
  qsim q A -> a_tags A !! i = Some TTarget -> is_s32 res ->
  (co_inv (view q) (a_tags A) \/
   co_inv (view q) (<[i := TKernel op0]> (a_tags A))) ->
  cb_safe co_inv (fun q => '(_, q) ← ublksrv_complete_io (Z.of_nat i) res q;
                           Some (set_co (Z.of_nat i) CoIdle q)) q A.
Proof.
  intros Hs Ht Hr Hinv. pose proof (lookup_lt_Some _ _ _ Ht) as Hlt.
  destruct (complete_io_sim q A i res Hs Ht Hr) as (ret&q'&Hq'&(Hp&He&_)&Hcase).
  unfold cb_safe. rewrite Hq'. cbn [mbind option_bind].
  assert (Hset : forall A', length (a_tags A') = length (a_tags A) ->
    (forall j, j <> i -> a_tags A !! j = Some TTarget -> a_tags A' !! j = Some TTarget) ->
    co_inv (view (set_co (Z.of_nat i) CoIdle q')) (a_tags A')).
  { intros A' Hlen Hj. destruct Hinv as [Hinv|Hinv];
      (eapply (co_inv_set _ _ i CoIdle _ _ Hinv);
        [by rewrite ?length_insert|by rewrite ?length_insert| |done| |by rewrite <- Hp]).
    - done.
    - by rewrite set_co_cos, Hp.
    - intros j Hne. rewrite list_lookup_insert_ne by done. by apply Hj.
    - by rewrite set_co_cos, Hp. }
  destruct Hcase as [[_ Hs']|(_&Hs'&_)].
  - eexists _, _. split; [done|]. split; [apply rtc_once; eexists _, res; by constructor|].
    split; [by apply qsim_private|]. split; [|unfold set_co; qsimpl; by rewrite He].
    apply Hset; cbn; [by rewrite length_insert|]. intros j Hne Hj. by rewrite list_lookup_insert_ne.
  - eexists _, A. split; [done|]. split; [apply rtc_refl|].
    split; [by apply qsim_private|]. split; [|unfold set_co; qsimpl; by rewrite He].
    by apply Hset.
Qed.

Variable submit_io : Z -> Q -> option (Z * Q).
Variable zero_ok : bool.
(** Queueing the requests of a held tag leaves the protocol alone. *)
Hypothesis submit_io_ok : forall q A i, qsim q A -> a_tags A !! i = Some TTarget ->
  cfg_ok (view q) ->
  exists ret q', submit_io (Z.of_nat i) q = Some (ret, q') /\ qsim q' A /\
    view q' = view q /\ epoll_callbacks q' = epoll_callbacks q.

Lemma co_start_safe q A i op0 :
  qsim q A -> a_tags A !! i = Some TTarget ->
  (co_inv (view q) (a_tags A) \/
   co_inv (view q) (<[i := TKernel op0]> (a_tags A))) ->
  cb_safe co_inv (co_start submit_io zero_ok (Z.of_nat i)) q A.
Proof.
  intros Hs Ht Hinv. destruct (submit_io_ok q A i Hs Ht) as (ret&q1&Hq1&Hs1&Hp1&He1);
    [by destruct Hinv as [[? _]|[? _]]|].
  unfold cb_safe, co_start. rewrite Hq1. cbn [mbind option_bind].
  pose proof (lookup_lt_Some _ _ _ Ht) as Hlt.
  assert (Hset : forall c, (forall more r, c = CoWait more r -> is_s32 r) ->
    exists q' A', Some (set_co (Z.of_nat i) c q1) = Some q' /\ completes A A' /\ qsim q' A' /\
      co_inv (view q') (a_tags A') /\ epoll_callbacks q ⊆ epoll_callbacks q').
  { intros c Hc. eexists _, A. split; [done|]. split; [apply rtc_refl|].
    split; [by apply qsim_private|]. split; [|unfold set_co; qsimpl; by rewrite He1].
    destruct Hinv as [Hinv|Hinv]; (eapply (co_inv_set _ _ i c _ _ Hinv);
        [by rewrite ?length_insert|by rewrite ?length_insert| |by eauto| |by rewrite <- Hp1]).
    - done.
    - by rewrite set_co_cos, Hp1.
    - intros j Hne. by rewrite list_lookup_insert_ne.
    - by rewrite set_co_cos, Hp1. }
  destruct (0 <? ret); [apply Hset; by intros ? ? [= <- <-]|].
  destruct (_ && _); [|by apply Hset].
  destruct (complete_safe q1 A i 0 op0 Hs1 Ht) as (q'&A'&Hq'&?&?&?&Hep); [done|by rewrite Hp1|].
  exists q', A'. rewrite He1 in Hep. done.
Qed.

Lemma co_resume_safe q A cqe :
  qsim q A -> co_inv (view q) (a_tags A) -> co_cqe_ok (view q) cqe ->
  cb_safe co_inv (fun q => io ← get_io q (user_data_to_tag (cqe_user_data cqe));
                           ublksrv_tgt_io_done submit_io zero_ok (io_tag io) cqe q) q A.
Proof.
  intros Hs Hinv (Hres&i&more&r&Htag&Hco). destruct (proj2 (proj2 Hinv) _ _ _ Hco) as [Ht Hr].
  destruct (qs_flags _ _ Hs _ _ Ht) as (io&Hio&_). unfold cb_safe.
  rewrite Htag, get_io_nat, Hio. cbn [mbind option_bind].
  unfold ublksrv_tgt_io_done. rewrite (proj1 (qs_tags _ _ Hs _ _ Hio)), Htag, Z.eqb_refl.
  unfold co_resume. change (private_data q) with (v_data (view q)). rewrite Nat2Z.id, Hco. pose proof (fold_res_s32 cqe r Hres Hr) as Hfr.
  pose proof (lookup_lt_Some _ _ _ Ht) as Hlt.
  destruct (0 <? more).
  - eexists _, A. split; [done|]. split; [apply rtc_refl|]. split; [by apply qsim_private|].
    split; [|done]. eapply (co_inv_set _ _ i (CoWait (more - 1) (fold_res cqe r)) _ _ Hinv); [done|done|done| | |done].
    + by intros ? ? [= _ <-].
    + by rewrite set_co_cos.
  - destruct (_ =? - EAGAIN); [apply (co_start_safe q A i 0 Hs Ht); by left|].
    apply (complete_safe q A i _ 0 Hs Ht Hfr). by left.
Qed.

(** ** Queueing target requests *)
Lemma io_commands_none ss : Forall (fun s => io_command_of s = None) ss -> io_commands ss = [].
Proof.
  unfold io_commands. induction 1 as [|s ss Hs _ IH]; [done|]. cbn. by rewrite Hs.
Qed.

Lemma alloc_sqes_loop_ok ss (r : R) :
  Z.of_nat (length ss) <= io_uring_sq_space_left r ->
  exists r', alloc_sqes_loop ss r = (Z.of_nat (length ss), r') /\
    ring_log r' = ring_log r ++ ss /\ sq_entries r' = sq_entries r.
Proof.
  revert r. induction ss as [|s ss IH]; intros r Hsp.
  { exists r. by rewrite app_nil_r. }
  rewrite length_cons in Hsp. cbn [alloc_sqes_loop].
  destruct (proj2 (get_sqe_space s r)) as [r1 Hr1]; [lia|]. rewrite Hr1.
  apply get_sqe_push in Hr1 as (He&Hi&Hp).
  destruct (IH r1) as (r2&->&Hl2&He2).
  { unfold io_uring_sq_space_left, io_uring_sq_ready in *. rewrite He, Hp, length_app. cbn. lia. }
  exists r2. split; [f_equal; rewrite length_cons; lia|]. split; [|congruence].
  rewrite Hl2. unfold ring_log. by rewrite Hi, Hp, <- !app_assoc.
Qed.

Lemma tgt_queue_sqes_ok `{!UringDrain R} ss q A :
  qsim q A -> Forall (fun s => io_command_of s = None) ss ->
  Z.of_nat (length ss) <= sq_entries (ring q) ->
  exists r, tgt_queue_sqes ss q = Some (set_ring r q) /\ ring_log r = ring_log (ring q) ++ ss /\
    qsim (set_ring r q) A /\ view (set_ring r q) = view q.
Proof.
  intros Hs Hno Hent. unfold tgt_queue_sqes, ublk_queue_alloc_sqes.
  set (r1 := if io_uring_sq_space_left (ring q) <? _ then _ else _).
  assert (submits (ring q) r1 /\ Z.of_nat (length ss) <= io_uring_sq_space_left r1) as [Hsub Hsp].
  { subst r1. case_match; bool_prop; [|split; [apply submits_refl|lia]].
    split; [apply submit_submits|]. unfold io_uring_sq_space_left, io_uring_sq_ready.
    rewrite submit_drains, (submits_entries _ _ (submit_submits (ring q))). cbn. lia. }
  destruct (alloc_sqes_loop_ok ss r1 Hsp) as (r&->&Hl&He). rewrite Z.eqb_refl.
  rewrite (submits_log _ _ Hsub) in Hl. rewrite (submits_entries _ _ Hsub) in He.
  exists r. split; [done|]. split; [done|]. split; [|by apply view_set_ring].
  apply qsim_set_ring; [done| |done]. rewrite Hl, io_commands_app.
  rewrite (io_commands_none ss Hno). by rewrite app_nil_r.
Qed.

(** ** Facts the targets share *)
Lemma tgt_user_data_ok (i : nat) op :
  Z.of_nat i < UBLK_MAX_QUEUE_DEPTH -> is_u8 op -> is_Some (build_user_data (Z.of_nat i) op 0 1).
Proof.
  unfold UBLK_MAX_QUEUE_DEPTH. intros Hi Hop. rewrite user_data_sum; [by eexists|..];
    unfold_width; lia.
Qed.

(** A request of tag [i]: its completion is dispatched to the target, for
    that tag. *)
Definition tgt_request_of (i : nat) (s : io_uring_sqe) : Prop :=
  is_target_io (sqe_user_data s) = true /\ is_internal_io (sqe_user_data s) = false /\
  user_data_to_tag (sqe_user_data s) = Z.of_nat i.

Lemma tgt_user_data_decode (i : nat) op ud what :
  Z.of_nat i < UBLK_MAX_QUEUE_DEPTH -> is_u8 op ->
  build_user_data (Z.of_nat i) op 0 1 = Some ud -> tgt_request_of i (mk_sqe ud what).
Proof.
  unfold UBLK_MAX_QUEUE_DEPTH. intros Hi Hop Hud.
  rewrite user_data_sum in Hud by (unfold_width; lia). injection Hud as <-.
  destruct (user_data_decode (Z.of_nat i) op 0 1) as (?&_&_&?&?&_); [unfold_width; lia..|].
  done.
Qed.

Lemma get_op_u8 iod : is_u8 (ublksrv_get_op iod).
Proof. apply u8_bound. Qed.

(** Completing a tag outside any coroutine. *)
Lemma complete_now_safe q A i res op0 :
  qsim q A -> a_tags A !! i = Some TTarget -> is_s32 res ->
  co_inv (view q) (<[i := TKernel op0]> (a_tags A)) ->
  cb_safe co_inv (fun q => '(_, q) ← ublksrv_complete_io (Z.of_nat i) res q; Some q) q A.
Proof.
  intros Hs Ht Hr (Hcf&Hlen&Hc).
  destruct (complete_io_sim q A i res Hs Ht Hr) as (ret&q'&Hq'&(Hp&He&_)&Hcase).
  unfold cb_safe. rewrite Hq'. cbn [mbind option_bind]. rewrite length_insert in Hlen.
  assert (Hinv : forall A', length (a_tags A') = length (a_tags A) ->
    (forall j, j <> i -> a_tags A !! j = Some TTarget -> a_tags A' !! j = Some TTarget) ->
    co_inv (view q') (a_tags A')).
  { intros A' Hl Hj. rewrite Hp. split; [done|]. split; [by rewrite Hlen|]. intros j m r Hco.
    destruct (Hc _ _ _ Hco) as [Ht' ?]. split; [|done]. destruct (decide (j = i)) as [->|].
    - rewrite list_lookup_insert_eq in Ht' by (by eapply lookup_lt_Some). done.
    - rewrite list_lookup_insert_ne in Ht' by done. by apply Hj. }
  destruct Hcase as [[_ Hs']|(_&Hs'&_)].
  - eexists _, _. split; [done|]. split; [apply rtc_once; eexists _, res; by constructor|].
    split; [done|]. split; [|by rewrite He]. apply Hinv; cbn; [by rewrite length_insert|].
    intros j Hne Hj. by rewrite list_lookup_insert_ne.
  - eexists _, A. split; [done|]. split; [apply rtc_refl|]. split; [done|].
    split; [by apply Hinv|by rewrite He].
Qed.
End target_laws.

(** Discharge the queueing of target requests in the goal. *)
Ltac queue_sqes Hs :=
  match goal with
  | |- context [tgt_queue_sqes ?ss ?q] =>
      let r := fresh "r" in let Hl := fresh "Hlog" in let Hs' := fresh "Hsim" in
      let Hv := fresh "Hview" in
      destruct (tgt_queue_sqes_ok ss q _ Hs) as (r&->&Hl&Hs'&Hv);
        [by repeat (apply Forall_cons; split; [done|])| |cbn [mbind option_bind]]
  end.
