(* ===== verification/Null.v ===== *)
(** * The null target

    The I/O path of targets/ublk.null.cpp: a request completes at once, or,
    with zero copy, after a NOP on the registered buffer. *)

From S2P Require Import Prelude Bytes UblkCmd Uring QueueTypes Batch Queue QueueSpec Target.

Section null.
Context {R : Type} `{!Uring R}.
Notation Q := (queue R (co_tgt unit)).
Implicit Types q : Q.

Definition null_nop_flags : Z := Z.lor IORING_NOP_FIXED_BUFFER IORING_NOP_INJECT_RESULT.

Definition null_submit_io (tag : Z) (q : Q) : option (Z * Q) :=
  iod ← get_iod q tag;
  let ublk_op := ublksrv_get_op iod in
  let len := u32 (Z.shiftl (nr_sectors iod) 9) in
  if ublksrv_tgt_queue_auto_zc q then
    ud ← build_user_data tag ublk_op 0 1;
    q ← tgt_queue_sqes [mk_sqe ud (PrepNop tag null_nop_flags len IOSQE_FIXED_FILE)] q;
    Some (1, q)
  else if negb (ublksrv_tgt_queue_zc q) then Some (0, q)
  else
    ud0 ← build_user_data tag (ublk_cmd_op_nr UBLK_U_IO_REGISTER_IO_BUF) 0 1;
    ud1 ← build_user_data tag ublk_op 0 1;
    ud2 ← build_user_data tag (ublk_cmd_op_nr UBLK_U_IO_UNREGISTER_IO_BUF) 0 1;
    q ← tgt_queue_sqes
      [mk_sqe ud0 (PrepBufRegister tag (q_id q) tag false
         (Z.lor (Z.lor IOSQE_CQE_SKIP_SUCCESS IOSQE_FIXED_FILE) IOSQE_IO_LINK));
       mk_sqe ud1 (PrepNop tag null_nop_flags len (Z.lor IOSQE_FIXED_FILE IOSQE_IO_LINK));
       mk_sqe ud2 (PrepBufRegister tag (q_id q) tag true IOSQE_FIXED_FILE)] q;
    Some (2, q).

(** The coroutine: [ret >= 0] includes a request that needs no completion. *)
Definition __null_handle_io_async (tag : Z) (q : Q) : option Q :=
  co_start null_submit_io true tag q.

Definition null_handle_io_async (tag : Z) (q : Q) : option (Z * Q) :=
  if ublksrv_tgt_queue_zc q then
    q ← __null_handle_io_async tag q; Some (0, q)
  else
    iod ← get_iod q tag;
    '(_, q) ← ublksrv_complete_io tag (s32 (u32 (Z.shiftl (nr_sectors iod) 9))) q;
    Some (0, q).

Definition null_tgt_io_done (tag : Z) (cqe : io_uring_cqe) (q : Q) : option Q :=
  ublksrv_tgt_io_done null_submit_io true tag cqe q.

Definition null_tgt_type : ublksrv_tgt_type R (co_tgt unit) :=
  mk_tgt_type null_handle_io_async (Some null_tgt_io_done) None None None.
End null.

Section null_laws.
Context {R : Type} `{!Uring R, !UringLaws R, !UringDrain R}.
Notation Q := (queue R (co_tgt unit)).
Implicit Types q : Q.

(** With zero copy the ring must hold the three entries of a request. *)
Definition null_cfg (entries : Z) (zc auto_zc user_copy : bool) (_ : unit) : Prop :=
  zc = true -> 3 <= entries.

Lemma null_submit_io_ok q A i :
  qsim q A -> a_tags A !! i = Some TTarget -> cfg_ok null_cfg (view q) ->
  exists ret q', null_submit_io (Z.of_nat i) q = Some (ret, q') /\ qsim q' A /\
    view q' = view q /\ epoll_callbacks q' = epoll_callbacks q.
Proof.
  intros Hs Ht Hcfg. destruct (qsim_get_iod q A i _ Hs Ht) as (iod&Hiod&_).
  destruct (qsim_tag_lt q A i _ Hs Ht) as [Hi _]. pose proof (qs_entries _ _ Hs) as He.
  destruct (tgt_user_data_ok i (ublksrv_get_op iod) Hi (get_op_u8 iod)) as [ud1 H1].
  destruct (tgt_user_data_ok i (ublk_cmd_op_nr UBLK_U_IO_REGISTER_IO_BUF) Hi) as [ud0 H0]; [done|].
  destruct (tgt_user_data_ok i (ublk_cmd_op_nr UBLK_U_IO_UNREGISTER_IO_BUF) Hi) as [ud2 H2]; [done|].
  unfold null_submit_io. rewrite Hiod. cbn [mbind option_bind].
  destruct (ublksrv_tgt_queue_auto_zc q) eqn:Haz; [|destruct (ublksrv_tgt_queue_zc q) eqn:Hzc];
    cbn [negb]; [| |by exists 0, q].
  - rewrite H1. cbn [mbind option_bind]. queue_sqes Hs; [cbn; lia|]. by eexists _, _.
  - rewrite H0, H1, H2. cbn [mbind option_bind]. queue_sqes Hs; [by apply Hcfg|]. by eexists _, _.
Qed.

#[export] Program Instance null_laws : TargetLaws (null_tgt_type (R := R)) := {|
  tinv := co_inv null_cfg;
  tgt_cqe_ok := co_cqe_ok
|}.
Next Obligation. intros. by eapply co_inv_held. Qed.
Next Obligation.
  intros q A i op Hs Ht Hinv. cbn [null_tgt_type handle_io_async].
  unfold cb_safe, null_handle_io_async. destruct (ublksrv_tgt_queue_zc q).
  - destruct (co_start_safe null_cfg null_submit_io true null_submit_io_ok q A i op Hs Ht)
      as (q'&A'&Hq'&Hrest); [by right|].
    unfold __null_handle_io_async. rewrite Hq'. by eexists q', A'.
  - destruct (qsim_get_iod q A i _ Hs Ht) as (iod&->&_). cbn [mbind option_bind].
    destruct (complete_now_safe null_cfg q A i (s32 (u32 (Z.shiftl (nr_sectors iod) 9))) op Hs Ht)
      as (q'&A'&Hq'&Hrest); [apply s32_bound|done|].
    exists q', A'. split; [|done].
    destruct (ublksrv_complete_io _ _ q) as [[ret q1]|]; cbn in *; congruence.
Qed.
Next Obligation.
  intros f q A cqe [= <-] Hs Hinv Hok. unfold null_tgt_io_done.
  by apply (co_resume_safe null_cfg null_submit_io true null_submit_io_ok).
Qed.
Next Obligation. done. Qed.
Next Obligation. done. Qed.
Next Obligation. done. Qed.

(** The null device answers a request with its size: when the driver
    hands over tag [i] to a queue without zero copy, handling the completion
    sends one COMMIT_AND_FETCH for the tag whose result is the number of bytes
    of the request, and the tag is the driver's again. *)
Theorem null_request_completes epoll_wait epoll_call q A i op flags iod :
  qsim q A -> tinv (TargetLaws := null_laws) (view q) (a_tags A) ->
  a_tags A !! i = Some (TKernel op) -> ublksrv_tgt_queue_zc q = false ->
  get_iod q (Z.of_nat i) = Some iod -> 0 <= nr_sectors iod -> nr_sectors iod * 512 < 2^31 ->
  exists q', ublksrv_handle_cqe null_tgt_type epoll_wait epoll_call
      (mk_cqe (cmd_ud (Z.of_nat i) op) UBLK_IO_RES_OK flags) q = Some q' /\
    io_commands (ring_log (ring q')) = io_commands (ring_log (ring q)) ++
      [command i UBLK_IO_COMMIT_AND_FETCH_REQ (Some (nr_sectors iod * 512))] /\
    cmd_inflight q' = cmd_inflight q.
Proof.
  intros Hs Hinv Ht Hzc Hiod Hn0 Hn. destruct (qs_flags _ _ Hs _ _ Ht) as (io&Hio&Hfl).
  rewrite (handle_cqe_unfold null_tgt_type epoll_wait epoll_call q A i op _ flags io Hs Ht Hio).
  set (fetch := _ && _). set (q1 := cqe_taken q i fetch io). cbn [Z.eqb].
  change (UBLK_IO_RES_OK =? UBLK_IO_RES_OK) with true. cbn iota.
  assert (Hs1 : qsim q1 (set_tag i TTarget A)).
  { eapply (qsim_taken q A i op UBLK_IO_RES_OK io io TTarget); try done; [left; apply Hfl|].
    cbn. by rewrite orb_false_r. }
  destruct (same_env_taken q i fetch io io Hio eq_refl) as (Hv&_&Hbuf&_). fold q1 in Hv, Hbuf.
  assert (Hzc1 : ublksrv_tgt_queue_zc q1 = false).
  { change (v_zero_copy (view q1) = false). by rewrite Hv. }
  assert (Hiod1 : get_iod q1 (Z.of_nat i) = Some iod).
  { rewrite <- Hiod. unfold get_iod. rewrite !get_io_nat, Hbuf. subst q1. unfold cqe_taken. qs.
    rewrite Nat2Z.id, list_lookup_insert_eq by (by eapply lookup_lt_Some). by rewrite Hio. }
  assert (Hres : s32 (u32 (Z.shiftl (nr_sectors iod) 9)) = nr_sectors iod * 512).
  { rewrite Z.shiftl_mul_pow2 by lia. change (2^9) with 512. apply s32_u32. unfold is_s32. lia. }
  cbn [null_tgt_type handle_io_async]. unfold null_handle_io_async. rewrite Hzc1, Hiod1.
  cbn [mbind option_bind]. rewrite Hres.
  destruct (complete_io_progress q1 (set_tag i TTarget A) i (nr_sectors iod * 512))
    as (q'&->&_&Hs'); [done| |unfold is_s32; lia|].
  { apply list_lookup_insert_eq. by eapply lookup_lt_Some. }
  cbn [mbind option_bind fmap option_fmap option_map snd]. exists q'. split; [done|].
  rewrite (qs_log _ _ Hs'), (qs_log _ _ Hs), (qs_inflight _ _ Hs'), (qs_inflight _ _ Hs).
  split; [done|]. unfold send, set_tag. cbn [a_tags]. rewrite list_insert_insert_eq.
  rewrite (total_insert _ _ _ _ _ Ht). cbn. lia.
Qed.
End null_laws.
