(* ===== verification/Loop.v ===== *)
(** * The loop target

    The I/O path of targets/ublk.loop.cpp: reads, writes, flushes and discards
    on a backing file, with the three ways of moving the data (through the
    driver's buffer, user copy, zero copy). *)

From S2P Require Import Prelude Bytes UblkCmd Uring QueueTypes Batch Queue QueueSpec Target.

Definition FALLOC_FL_KEEP_SIZE : Z := 0x01.
Definition FALLOC_FL_PUNCH_HOLE : Z := 0x02.
Definition FALLOC_FL_ZERO_RANGE : Z := 0x10.

Record loop_tgt_data := mk_loop_tgt_data {
  user_copy : bool;
  auto_zc : bool;
  zero_copy : bool;
  block_device : bool;
  offset : Z  (* unsigned long, in sectors *)
}.

Definition loop_fallocate_mode (iod : ublksrv_io_desc) : Z :=
  let ublk_op := ublksrv_get_op iod in
  let flags := ublksrv_get_flags iod in
  let mode := FALLOC_FL_KEEP_SIZE in
  if ublk_op =? UBLK_IO_OP_DISCARD then Z.lor mode FALLOC_FL_PUNCH_HOLE
  else if ublk_op =? UBLK_IO_OP_WRITE_ZEROES then
    if has flags UBLK_IO_F_NOUNMAP then Z.lor mode FALLOC_FL_ZERO_RANGE
    else Z.lor mode FALLOC_FL_PUNCH_HOLE
  else Z.lor mode FALLOC_FL_ZERO_RANGE.

(** The [rw_flags] of the entry after [lo_rw_handle_fua]. *)
Definition lo_rw_handle_fua (iod : ublksrv_io_desc) : Z :=
  if (ublksrv_get_op iod =? UBLK_IO_OP_WRITE) && has (op_flags iod) UBLK_IO_F_FUA
  then RWF_DSYNC else 0.

(** The length and the place in the backing file of a request. *)
Definition lo_len (iod : ublksrv_io_desc) : Z := u32 (Z.shiftl (nr_sectors iod) 9).
Definition lo_off (iod : ublksrv_io_desc) (d : loop_tgt_data) : Z :=
  u64 (Z.shiftl (u64 (start_sector iod + offset d)) 9).

(** [io_uring_prep_rw] with the opcode of [ublk_to_uring_fs_op]: [None] is its
    failing assertion. *)
Definition prep_fs_rw (iod : ublksrv_io_desc) (buf len off flags : Z) (fixed_buf : option Z)
    (rw_flags : Z) : option sqe_op :=
  if ublksrv_get_op iod =? UBLK_IO_OP_READ then Some (PrepRead 1 buf len off flags fixed_buf)
  else if ublksrv_get_op iod =? UBLK_IO_OP_WRITE
  then Some (PrepWrite 1 buf len off flags fixed_buf rw_flags)
  else None.

Section loop.
Context {R : Type} `{!Uring R}.
Notation Q := (queue R (co_tgt loop_tgt_data)).
Implicit Types q : Q.
(** ioctl(fds[1], BLKDISCARD, {start, len}) *)
Variable blkdiscard : Z -> Z -> Z.

Definition ublksrv_queue_get_io_buf (q : Q) (tag : Z) : option Z :=
  if tag <? q_depth q then io ← get_io q tag; Some (buf_addr io) else Some 0.

Definition lo_rw_user_copy (iod : ublksrv_io_desc) (tag : Z) (d : loop_tgt_data) (q : Q)
    : option (Z * Q) :=
  let ublk_op := ublksrv_get_op iod in
  pos ← ublk_pos (u16 (q_id q)) (u16 tag) 0;
  buf ← ublksrv_queue_get_io_buf q tag;
  let linked := Z.lor IOSQE_FIXED_FILE IOSQE_IO_LINK in
  if ublk_op =? UBLK_IO_OP_READ then
    ud0 ← build_user_data tag ublk_op 0 1;
    ud1 ← build_user_data tag UBLK_USER_COPY_WRITE 0 1;
    q ← tgt_queue_sqes
      [mk_sqe ud0 (PrepRead 1 buf (lo_len iod) (lo_off iod d) linked None);
       mk_sqe ud1 (PrepWrite 0 buf (lo_len iod) pos IOSQE_FIXED_FILE None 0)] q;
    Some (2, q)
  else
    ud0 ← build_user_data tag UBLK_USER_COPY_READ 0 1;
    ud1 ← build_user_data tag ublk_op 0 1;
    q ← tgt_queue_sqes
      [mk_sqe ud0 (PrepRead 0 buf (lo_len iod) pos linked None);
       mk_sqe ud1 (PrepWrite 1 buf (lo_len iod) (lo_off iod d) IOSQE_FIXED_FILE None
                     (lo_rw_handle_fua iod))] q;
    Some (2, q).

Definition lo_rw (iod : ublksrv_io_desc) (tag : Z) (d : loop_tgt_data) (q : Q) : option (Z * Q) :=
  let buf := if auto_zc d then 0 else iod_addr iod in
  op ← prep_fs_rw iod buf (lo_len iod) (lo_off iod d) IOSQE_FIXED_FILE
         (if auto_zc d then Some tag else None) (lo_rw_handle_fua iod);
  ud ← build_user_data tag (ublksrv_get_op iod) 0 1;
  q ← tgt_queue_sqes [mk_sqe ud op] q;
  Some (1, q).

Definition lo_rw_zero_copy (iod : ublksrv_io_desc) (tag : Z) (d : loop_tgt_data) (q : Q)
    : option (Z * Q) :=
  op ← prep_fs_rw iod 0 (lo_len iod) (lo_off iod d) (Z.lor IOSQE_FIXED_FILE IOSQE_IO_LINK)
         (Some tag) 0;
  ud0 ← build_user_data tag (ublk_cmd_op_nr UBLK_U_IO_REGISTER_IO_BUF) 0 1;
  ud1 ← build_user_data tag (ublksrv_get_op iod) 0 1;
  ud2 ← build_user_data tag (ublk_cmd_op_nr UBLK_U_IO_UNREGISTER_IO_BUF) 0 1;
  q ← tgt_queue_sqes
    [mk_sqe ud0 (PrepBufRegister tag (q_id q) tag false
       (Z.lor (Z.lor IOSQE_CQE_SKIP_SUCCESS IOSQE_FIXED_FILE) IOSQE_IO_LINK));
     mk_sqe ud1 op;
     mk_sqe ud2 (PrepBufRegister tag (q_id q) tag true IOSQE_FIXED_FILE)] q;
  Some (2, q).

Definition loop_queue_tgt_rw (iod : ublksrv_io_desc) (tag : Z) (d : loop_tgt_data) (q : Q)
    : option (Z * Q) :=
  if auto_zc d then lo_rw iod tag d q
  else if zero_copy d then lo_rw_zero_copy iod tag d q
  else if user_copy d then lo_rw_user_copy iod tag d q
  else lo_rw iod tag d q.

Definition loop_handle_flush (iod : ublksrv_io_desc) (tag : Z) (q : Q) : option (Z * Q) :=
  ud ← build_user_data tag (ublksrv_get_op iod) 0 1;
  q ← tgt_queue_sqes [mk_sqe ud (PrepFsync 1 IORING_FSYNC_DATASYNC IOSQE_FIXED_FILE)] q;
  Some (1, q).

Definition loop_handle_discard (iod : ublksrv_io_desc) (tag : Z) (d : loop_tgt_data) (q : Q)
    : option (Z * Q) :=
  ud ← build_user_data tag (ublksrv_get_op iod) 0 1;
  q ← tgt_queue_sqes [mk_sqe ud (PrepFallocate 1 (loop_fallocate_mode iod) (lo_off iod d)
                                   (lo_len iod) IOSQE_FIXED_FILE)] q;
  Some (1, q).

Definition loop_queue_tgt_io (tag : Z) (q : Q) : option (Z * Q) :=
  iod ← get_iod q tag;
  let ublk_op := ublksrv_get_op iod in
  let d := tdata (private_data q) in
  if ublk_op =? UBLK_IO_OP_FLUSH then loop_handle_flush iod tag q
  else if (ublk_op =? UBLK_IO_OP_WRITE_ZEROES) || (ublk_op =? UBLK_IO_OP_DISCARD)
  then loop_handle_discard iod tag d q
  else if (ublk_op =? UBLK_IO_OP_READ) || (ublk_op =? UBLK_IO_OP_WRITE)
  then loop_queue_tgt_rw iod tag d q
  else Some (- EINVAL, q).

Definition __loop_handle_io_async (tag : Z) (q : Q) : option Q :=
  co_start loop_queue_tgt_io false tag q.

Definition loop_handle_io_async (tag : Z) (q : Q) : option (Z * Q) :=
  iod ← get_iod q tag;
  let d := tdata (private_data q) in
  if block_device d && (ublksrv_get_op iod =? UBLK_IO_OP_DISCARD) then
    let q := set_ring (io_uring_submit (ring q)).2 q in
    let res := blkdiscard (lo_off iod d) (lo_len iod) in
    '(_, q) ← ublksrv_complete_io tag res q;
    Some (0, q)
  else
    q ← __loop_handle_io_async tag q; Some (0, q).

Definition loop_tgt_io_done (tag : Z) (cqe : io_uring_cqe) (q : Q) : option Q :=
  ublksrv_tgt_io_done loop_queue_tgt_io false tag cqe q.

Definition loop_tgt_type : ublksrv_tgt_type R (co_tgt loop_tgt_data) :=
  mk_tgt_type loop_handle_io_async (Some loop_tgt_io_done) None None None.
End loop.

Section loop_laws.
Context {R : Type} `{!Uring R, !UringLaws R, !UringDrain R}.
Notation Q := (queue R (co_tgt loop_tgt_data)).
Implicit Types q : Q.
Variable blkdiscard : Z -> Z -> Z.
Hypothesis blkdiscard_s32 : forall start len, is_s32 (blkdiscard start len).

(** The ring holds the entries of one request in the configured mode. *)
Definition loop_cfg (entries : Z) (_ _ _ : bool) (d : loop_tgt_data) : Prop :=
  (zero_copy d = true -> 3 <= entries) /\ (user_copy d = true -> 2 <= entries).

(** An entry that accesses the backing file: place, length, direction. *)
Definition backing_access (s : io_uring_sqe) : option (Z * Z * bool) :=
  match sqe_what s with
  | PrepRead 1 _ len off _ _ => Some (off, len, false)
  | PrepWrite 1 _ len off _ _ _ => Some (off, len, true)
  | _ => None
  end.

(** An entry whose success is reported by a completion. *)
Definition posts_cqe (s : io_uring_sqe) : bool :=
  match sqe_what s with
  | PrepBufRegister _ _ _ _ flags => negb (has flags IOSQE_CQE_SKIP_SUCCESS)
  | _ => true
  end.

(** What queueing a request for tag [i] does: [ss] is appended to the ring. *)
Definition queued (i : nat) (q : Q) (A : aqueue) (r : option (Z * Q)) (ss : list io_uring_sqe) : Prop :=
  exists q', r = Some (Z.of_nat (length (filter posts_cqe ss)), q') /\
    ring_log (ring q') = ring_log (ring q) ++ ss /\ Forall (tgt_request_of i) ss /\
    qsim q' A /\ view q' = view q /\ epoll_callbacks q' = epoll_callbacks q.

Lemma prep_fs_rw_spec iod buf len off flags fb rw :
  ublksrv_get_op iod = UBLK_IO_OP_READ \/ ublksrv_get_op iod = UBLK_IO_OP_WRITE ->
  exists op, prep_fs_rw iod buf len off flags fb rw = Some op /\
    (forall ud, backing_access (mk_sqe ud op) = Some (off, len, ublksrv_get_op iod =? UBLK_IO_OP_WRITE)) /\
    (forall ud, posts_cqe (mk_sqe ud op) = true) /\
    (forall ud, io_command_of (mk_sqe ud op) = None).
Proof.
  unfold prep_fs_rw. intros [-> | ->]; cbn; eexists; repeat split.
Qed.

Definition is_rw (iod : ublksrv_io_desc) : Prop :=
  ublksrv_get_op iod = UBLK_IO_OP_READ \/ ublksrv_get_op iod = UBLK_IO_OP_WRITE.

(** The one access to the backing file that a read or write makes. *)
Definition rw_access (iod : ublksrv_io_desc) (d : loop_tgt_data) : list (Z * Z * bool) :=
  [(lo_off iod d, lo_len iod, ublksrv_get_op iod =? UBLK_IO_OP_WRITE)].

Section one_request.
Variables (q : Q) (A : aqueue) (i : nat) (iod : ublksrv_io_desc).
Hypothesis Hs : qsim q A.
Hypothesis Ht : a_tags A !! i = Some TTarget.
Let d := tdata (private_data q).
Hypothesis Hcfg : loop_cfg (sq_entries (ring q)) false false false d.

Lemma tag_small : Z.of_nat i < UBLK_MAX_QUEUE_DEPTH.
Proof. by eapply qsim_tag_lt. Qed.

(** Queueing entries of the tag that are no driver commands. *)
Lemma queue_entries ss n :
  Forall (tgt_request_of i) ss -> Forall (fun s => io_command_of s = None) ss ->
  Z.of_nat (length ss) <= sq_entries (ring q) -> n = Z.of_nat (length (filter posts_cqe ss)) ->
  queued i q A (q' ← tgt_queue_sqes ss q; Some (n, q')) ss.
Proof.
  intros Hreq Hno Hlen ->. destruct (tgt_queue_sqes_ok ss q A Hs Hno Hlen) as (r&->&Hlog&Hsim&Hv).
  eexists. split; [done|]. done.
Qed.

Lemma request_ud_ok op : is_u8 op ->
  exists ud, build_user_data (Z.of_nat i) op 0 1 = Some ud /\
    forall what, tgt_request_of i (mk_sqe ud what).
Proof.
  intros Hop. destruct (tgt_user_data_ok i op tag_small Hop) as [ud Hud].
  exists ud. split; [done|]. intros what. by eapply tgt_user_data_decode, Hud; [apply tag_small|].
Qed.

Ltac request_ud op :=
  let ud := fresh "ud" in let Hud := fresh "Hud" in let Hdec := fresh "Hdec" in
  destruct (request_ud_ok op) as (ud&Hud&Hdec); [first [apply get_op_u8|done]|];
  rewrite Hud; cbn [mbind option_bind].

Ltac entries := repeat (apply Forall_cons; split; [auto|]); apply Forall_nil; done.

Lemma lo_rw_ok : is_rw iod ->
  exists ss, queued i q A (lo_rw iod (Z.of_nat i) d q) ss /\ omap backing_access ss = rw_access iod d.
Proof.
  intros Hrw. unfold lo_rw.
  destruct (prep_fs_rw_spec iod (if auto_zc d then 0 else iod_addr iod) (lo_len iod) (lo_off iod d)
    IOSQE_FIXED_FILE (if auto_zc d then Some (Z.of_nat i) else None) (lo_rw_handle_fua iod) Hrw)
    as (op&->&Hacc&Hpost&Hno). cbn [mbind option_bind].
  request_ud (ublksrv_get_op iod). eexists. split.
  - apply queue_entries; [entries|entries|cbn; apply Hs|]. rewrite filter_cons, Hpost. done.
  - cbn. by rewrite Hacc.
Qed.

Lemma lo_rw_zero_copy_ok : is_rw iod -> zero_copy d = true ->
  exists ss, queued i q A (lo_rw_zero_copy iod (Z.of_nat i) d q) ss /\
    omap backing_access ss = rw_access iod d.
Proof.
  intros Hrw Hzc. unfold lo_rw_zero_copy.
  destruct (prep_fs_rw_spec iod 0 (lo_len iod) (lo_off iod d) (Z.lor IOSQE_FIXED_FILE IOSQE_IO_LINK)
    (Some (Z.of_nat i)) 0 Hrw) as (op&->&Hacc&Hpost&Hno). cbn [mbind option_bind].
  request_ud (ublk_cmd_op_nr UBLK_U_IO_REGISTER_IO_BUF). request_ud (ublksrv_get_op iod).
  request_ud (ublk_cmd_op_nr UBLK_U_IO_UNREGISTER_IO_BUF). eexists. split.
  - apply queue_entries; [entries|entries|by apply Hcfg|]. rewrite !filter_cons, Hpost. done.
  - cbn. by rewrite Hacc.
Qed.
Lemma ublk_pos_zero_ok : exists p, ublk_pos (u16 (q_id q)) (u16 (Z.of_nat i)) 0 = Some p.
Proof. unfold ublk_pos. cbn. by eexists. Qed.

Lemma io_buf_ok : exists buf, ublksrv_queue_get_io_buf q (Z.of_nat i) = Some buf.
Proof.
  unfold ublksrv_queue_get_io_buf. case_match; [|by eexists].
  destruct (qs_flags _ _ Hs _ _ Ht) as (io&Hio&_). rewrite get_io_nat, Hio. by eexists.
Qed.

Lemma lo_rw_user_copy_ok : is_rw iod -> user_copy d = true ->
  exists ss, queued i q A (lo_rw_user_copy iod (Z.of_nat i) d q) ss /\
    omap backing_access ss = rw_access iod d.
Proof.
  intros Hrw Huc. unfold lo_rw_user_copy, rw_access.
  destruct ublk_pos_zero_ok as [pos ->]. cbn [mbind option_bind].
  destruct io_buf_ok as [buf ->]. cbn [mbind option_bind].
  destruct (Z.eqb_spec (ublksrv_get_op iod) UBLK_IO_OP_READ) as [Hop|Hop].
  - request_ud (ublksrv_get_op iod). request_ud UBLK_USER_COPY_WRITE. eexists. split.
    + apply queue_entries; [entries|entries|by apply Hcfg|done].
    + by rewrite Hop.
  - request_ud UBLK_USER_COPY_READ. request_ud (ublksrv_get_op iod). eexists. split.
    + apply queue_entries; [entries|entries|by apply Hcfg|done].
    + destruct Hrw as [?| ->]; done.
Qed.

Lemma loop_queue_tgt_rw_ok : is_rw iod ->
  exists ss, queued i q A (loop_queue_tgt_rw iod (Z.of_nat i) d q) ss /\
    omap backing_access ss = rw_access iod d.
Proof.
  intros Hrw. unfold loop_queue_tgt_rw.
  destruct (auto_zc d); [by apply lo_rw_ok|].
  destruct (zero_copy d) eqn:Hzc; [by apply lo_rw_zero_copy_ok|].
  destruct (user_copy d) eqn:Huc; [by apply lo_rw_user_copy_ok|by apply lo_rw_ok].
Qed.

Lemma loop_handle_flush_ok : exists ss, queued i q A (loop_handle_flush iod (Z.of_nat i) q) ss.
Proof.
  unfold loop_handle_flush. request_ud (ublksrv_get_op iod). eexists.
  apply queue_entries; [entries|entries|cbn; apply Hs|done].
Qed.

Lemma loop_handle_discard_ok : exists ss, queued i q A (loop_handle_discard iod (Z.of_nat i) d q) ss.
Proof.
  unfold loop_handle_discard. request_ud (ublksrv_get_op iod). eexists.
  apply queue_entries; [entries|entries|cbn; apply Hs|done].
Qed.
End one_request.

Lemma loop_queue_tgt_io_ok q A i :
  qsim q A -> a_tags A !! i = Some TTarget -> cfg_ok loop_cfg (view q) ->
  exists ret q', loop_queue_tgt_io (Z.of_nat i) q = Some (ret, q') /\ qsim q' A /\
    view q' = view q /\ epoll_callbacks q' = epoll_callbacks q.
Proof.
  intros Hs Ht Hcfg. destruct (qsim_get_iod q A i _ Hs Ht) as (iod&Hiod&_).
  unfold loop_queue_tgt_io. rewrite Hiod. cbn [mbind option_bind].
  assert (Hfin : forall r ss, queued i q A r ss -> exists ret q', r = Some (ret, q') /\ qsim q' A /\
    view q' = view q /\ epoll_callbacks q' = epoll_callbacks q).
  { intros r ss (q'&->&_&_&?&?&?). by eexists _, q'. }
  destruct (ublksrv_get_op iod =? UBLK_IO_OP_FLUSH).
  { destruct (loop_handle_flush_ok q A i iod Hs Ht) as [ss ?]. eauto. }
  destruct (_ || _).
  { destruct (loop_handle_discard_ok q A i iod Hs Ht) as [ss ?]. eauto. }
  destruct (_ || _) eqn:Hrw; [|by eexists _, q].
  destruct (loop_queue_tgt_rw_ok q A i iod Hs Ht) as (ss&?&_); [done| |eauto].
  apply orb_true_iff in Hrw as [?|?]; bool_prop; [by left|by right].
Qed.

(** The loop target keeps to the callback interface. *)
#[export] Program Instance loop_laws : TargetLaws (loop_tgt_type (R := R) blkdiscard) := {|
  tinv := co_inv loop_cfg;
  tgt_cqe_ok := co_cqe_ok
|}.
Next Obligation. intros. by eapply co_inv_held. Qed.
Next Obligation.
  intros q A i op Hs Ht Hinv. cbn [loop_tgt_type handle_io_async].
  unfold cb_safe, loop_handle_io_async.
  destruct (qsim_get_iod q A i _ Hs Ht) as (iod&->&_). cbn [mbind option_bind].
  destruct (_ && _).
  - set (q1 := set_ring (io_uring_submit (ring q)).2 q).
    assert (Hs1 : qsim q1 A) by (apply qsim_submit; [done|apply submit_submits]).
    assert (Hv : view q1 = view q)
      by (apply view_set_ring, submits_entries, submit_submits).
    destruct (complete_now_safe loop_cfg q1 A i (blkdiscard (lo_off iod (tdata (private_data q)))
      (lo_len iod)) op) as (q'&A'&Hq'&Hrest); [done|done|apply blkdiscard_s32|by rewrite Hv|].
    exists q', A'. split; [|done].
    destruct (ublksrv_complete_io _ _ q1) as [[ret q2]|]; cbn in *; congruence.
  - destruct (co_start_safe loop_cfg loop_queue_tgt_io false loop_queue_tgt_io_ok q A i op Hs Ht)
      as (q'&A'&Hq'&Hrest); [by right|].
    unfold __loop_handle_io_async. rewrite Hq'. by eexists q', A'.
Qed.
Next Obligation.
  intros f q A cqe [= <-] Hs Hinv Hok. unfold loop_tgt_io_done.
  by apply (co_resume_safe loop_cfg loop_queue_tgt_io false loop_queue_tgt_io_ok).
Qed.
Next Obligation. done. Qed.
Next Obligation. done. Qed.
Next Obligation. done. Qed.

(** ** What a request does *)

(** A read or write of the loop device becomes exactly one access to the
    backing file, in the request's direction, of the request's length, at the
    request's place shifted by the configured offset, in each of the copy
    modes; all entries queued belong to the request's tag, and the number of
    completions the coroutine then waits for is the number of entries that
    post one. *)
Theorem loop_rw_one_access q A i iod :
  qsim q A -> a_tags A !! i = Some TTarget -> cfg_ok loop_cfg (view q) ->
  get_iod q (Z.of_nat i) = Some iod -> is_rw iod ->
  let d := tdata (private_data q) in
  0 <= nr_sectors iod -> nr_sectors iod * 512 < 2^32 ->
  0 <= start_sector iod -> 0 <= offset d -> (start_sector iod + offset d) * 512 < 2^64 ->
  exists q' ss, loop_queue_tgt_io (Z.of_nat i) q =
      Some (Z.of_nat (length (filter posts_cqe ss)), q') /\
    ring_log (ring q') = ring_log (ring q) ++ ss /\ Forall (tgt_request_of i) ss /\
    omap backing_access ss = [((start_sector iod + offset d) * 512, nr_sectors iod * 512,
                               ublksrv_get_op iod =? UBLK_IO_OP_WRITE)].
Proof.
  intros Hs Ht Hcfg Hiod Hrw d Hn0 Hn Hs0 Ho0 Hso.
  assert (Hoff : lo_off iod d = (start_sector iod + offset d) * 512).
  { unfold lo_off, u64. rewrite !Z.shiftl_mul_pow2, (Z.mod_small (start_sector iod + _)) by lia.
    apply Z.mod_small. lia. }
  assert (Hlen : lo_len iod = nr_sectors iod * 512).
  { unfold lo_len, u32. rewrite Z.shiftl_mul_pow2 by lia. apply Z.mod_small. lia. }
  destruct (loop_queue_tgt_rw_ok q A i iod Hs Ht Hcfg Hrw) as (ss&(q'&Hq'&Hlog&Hreq&_)&Hacc).
  exists q', ss. unfold rw_access in Hacc. fold d in Hacc, Hq'. rewrite Hoff, Hlen in Hacc.
  split; [|done]. unfold loop_queue_tgt_io. rewrite Hiod. cbn [mbind option_bind].
  destruct Hrw as [Hop|Hop]; rewrite Hop; cbn; done.
Qed.

(** The write flags of the entry that writes the backing file. *)
Definition backing_write_flags (s : io_uring_sqe) : option Z :=
  match sqe_what s with PrepWrite 1 _ _ _ _ _ rw_flags => Some rw_flags | _ => None end.

Definition fua_write (iod : ublksrv_io_desc) : Prop :=
  ublksrv_get_op iod = UBLK_IO_OP_WRITE /\ has (op_flags iod) UBLK_IO_F_FUA = true.

Lemma write_is_rw iod : ublksrv_get_op iod = UBLK_IO_OP_WRITE -> is_rw iod.
Proof. by right. Qed.

(** A FUA write reaches the backing file as a synchronous write
    (RWF_DSYNC) in the buffered, automatic zero-copy and user-copy modes; in
    the zero-copy mode the flag is dropped and the write is a plain one. *)
Theorem loop_fua_per_mode q A i iod :
  qsim q A -> a_tags A !! i = Some TTarget -> cfg_ok loop_cfg (view q) -> fua_write iod ->
  let d := tdata (private_data q) in
  exists q' n ss, loop_queue_tgt_rw iod (Z.of_nat i) d q = Some (n, q') /\
    ring_log (ring q') = ring_log (ring q) ++ ss /\
    omap backing_write_flags ss =
      [if negb (auto_zc d) && zero_copy d then 0 else RWF_DSYNC].
Proof.
  intros Hs Ht Hcfg [Hop Hfua] d. pose proof (tag_small q A i Hs Ht) as Hi.
  unfold loop_queue_tgt_rw. fold d.
  assert (Hdsync : lo_rw_handle_fua iod = RWF_DSYNC) by (unfold lo_rw_handle_fua; by rewrite Hop, Hfua).
  assert (Hrw : forall buf len off fl fb rw, prep_fs_rw iod buf len off fl fb rw =
    Some (PrepWrite 1 buf len off fl fb rw)) by (intros; unfold prep_fs_rw; by rewrite Hop).
  assert (Hud : forall op, is_u8 op -> exists ud, build_user_data (Z.of_nat i) op 0 1 = Some ud)
    by (intros op Hu; by apply tgt_user_data_ok).
  destruct (Hud (ublksrv_get_op iod) (get_op_u8 iod)) as [ud1 H1].
  destruct (Hud (ublk_cmd_op_nr UBLK_U_IO_REGISTER_IO_BUF)) as [ud2 H2]; [done|].
  destruct (Hud (ublk_cmd_op_nr UBLK_U_IO_UNREGISTER_IO_BUF)) as [ud3 H3]; [done|].
  destruct (Hud UBLK_USER_COPY_READ) as [ud4 H4]; [done|].
  assert (Hlo : exists q' n ss, lo_rw iod (Z.of_nat i) d q = Some (n, q') /\
    ring_log (ring q') = ring_log (ring q) ++ ss /\ omap backing_write_flags ss = [RWF_DSYNC]).
  { unfold lo_rw. rewrite Hrw. cbn [mbind option_bind]. rewrite H1. cbn [mbind option_bind].
    queue_sqes Hs; [cbn; apply Hs|]. eexists _, _, _. split; [done|]. split; [done|].
    cbn. by rewrite Hdsync. }
  destruct (auto_zc d); [done|]. destruct (zero_copy d) eqn:Hzc.
  - unfold lo_rw_zero_copy. rewrite Hrw. cbn [mbind option_bind]. rewrite H2, H1, H3.
    cbn [mbind option_bind]. queue_sqes Hs; [by apply Hcfg|]. by eexists _, _, _.
  - destruct (user_copy d) eqn:Huc; [|done]. unfold lo_rw_user_copy.
    destruct (ublk_pos_zero_ok q i) as [pos ->]. cbn [mbind option_bind].
    destruct (io_buf_ok q A i Hs Ht) as [buf ->]. cbn [mbind option_bind].
    rewrite Hop. cbn [Z.eqb]. rewrite Hop in H1. change (UBLK_IO_OP_WRITE =? UBLK_IO_OP_READ) with false.
    cbn iota. rewrite H4, H1. cbn [mbind option_bind].
    queue_sqes Hs; [by apply Hcfg|]. eexists _, _, _. split; [done|]. split; [done|].
    cbn. by rewrite Hdsync.
Qed.

(** A request the loop target does not support (neither read, write,
    flush, discard nor write-zeroes) is never answered: the handler sends no
    command and queues no request, and its coroutine has ended, so the tag
    stays with the target for good. *)
Theorem loop_unsupported_op_unanswered q A i iod :
  qsim q A -> a_tags A !! i = Some TTarget -> get_iod q (Z.of_nat i) = Some iod ->
  ublksrv_get_op iod ∉ [UBLK_IO_OP_READ; UBLK_IO_OP_WRITE; UBLK_IO_OP_FLUSH; UBLK_IO_OP_DISCARD;
                         UBLK_IO_OP_WRITE_ZEROES] ->
  exists q', loop_handle_io_async blkdiscard (Z.of_nat i) q = Some (0, q') /\ ring q' = ring q /\
    qsim q' A /\ forall more r, (i < length (cos (private_data q)))%nat ->
      cos (private_data q') !! i <> Some (CoWait more r).
Proof.
  intros Hs Ht Hiod Hop. rewrite !not_elem_of_cons in Hop. destruct Hop as (H1&H2&H3&H4&H5&_).
  apply Z.eqb_neq in H1, H2, H3, H4, H5.
  assert (Hq : loop_queue_tgt_io (Z.of_nat i) q = Some (- EINVAL, q)).
  { unfold loop_queue_tgt_io. rewrite Hiod. cbn [mbind option_bind]. by rewrite H1, H2, H3, H4, H5. }
  exists (set_co (Z.of_nat i) CoIdle q). unfold loop_handle_io_async. rewrite Hiod. cbn [mbind option_bind].
  rewrite H4, andb_false_r. unfold __loop_handle_io_async, co_start. rewrite Hq. cbn [mbind option_bind].
  split; [done|]. split; [done|]. split; [by apply qsim_private|].
  intros more r Hlen. unfold set_co. qsimpl. cbn [cos]. rewrite Nat2Z.id.
  by rewrite list_lookup_insert_eq.
Qed.
End loop_laws.

(** The NOUNMAP flag of a WRITE_ZEROES request is never honoured: the
    mode tests bit 15 of the flags after they were shifted down by 8, so
    whatever bit 15 of [op_flags] says, the range is punched out (the driver
    never sets the bit 23 that is tested). *)
Theorem loop_nounmap_ignored iod :
  ublksrv_get_op iod = UBLK_IO_OP_WRITE_ZEROES -> Z.testbit (op_flags iod) 23 = false ->
  loop_fallocate_mode iod = Z.lor FALLOC_FL_KEEP_SIZE FALLOC_FL_PUNCH_HOLE.
Proof.
  intros Hop Hbit. unfold loop_fallocate_mode. rewrite Hop. cbn [Z.eqb].
  change (UBLK_IO_OP_WRITE_ZEROES =? UBLK_IO_OP_DISCARD) with false.
  change (UBLK_IO_OP_WRITE_ZEROES =? UBLK_IO_OP_WRITE_ZEROES) with true. cbn iota.
  unfold UBLK_IO_F_NOUNMAP. rewrite flag_bit_after_shift by lia.
  change (15 + 8) with 23. by rewrite Hbit.
Qed.

Lemma loop_nounmap_ignored_witness :
  let iod := mk_iod (Z.lor UBLK_IO_OP_WRITE_ZEROES UBLK_IO_F_NOUNMAP) 8 0 0 in
  has (op_flags iod) UBLK_IO_F_NOUNMAP = true /\
  loop_fallocate_mode iod = Z.lor FALLOC_FL_KEEP_SIZE FALLOC_FL_PUNCH_HOLE.
Proof. split; [reflexivity|]. apply loop_nounmap_ignored; reflexivity. Defined.
