(* ===== verification/LoopDisk.v ===== *)
(** * The loop device is a disk

    What a read or write of the loop target does to the bytes of the backing
    file, in each of its copy modes, down to the completion the driver gets.
    The kernel is an interface: a ring entry is executed to its end with a
    result, and one that is done in full moves bytes between the backing file,
    the memory of the process and the pages of the request. *)

From S2P Require Import Prelude Bytes UblkCmd Uring QueueTypes Batch Queue QueueSpec Target Loop.

(** Bytes by address; [len] bytes of [src] replace those at [dst]. *)
Notation bytes := (Z -> Z).
Definition copied (dst len : Z) (src old new : bytes) : Prop :=
  forall a, new a = if (dst <=? a) && (a <? dst + len) then src (a - dst) else old a.

(** [k_pages m qid tag]: the data of the request the driver has for the tag of
    the queue; [k_fixed m index]: the queue and tag whose pages are the buffer
    [index] of the ring.  [k_exec s m res m']: the entry ends with [res]. *)
Class LoopKernel (M : Type) := {
  k_file : M -> bytes;
  k_mem : M -> bytes;
  k_pages : M -> Z -> Z -> bytes;
  k_fixed : M -> Z -> option (Z * Z);
  k_exec : io_uring_sqe -> M -> Z -> M -> Prop
}.

(** The entry's descriptor is an index into the registered files. *)
Definition fixed_file (flags : Z) : bool := has flags IOSQE_FIXED_FILE.

(** The position of the char device where the pages of a tag begin. *)
Definition pages_at (qid tag pos : Z) : Prop :=
  0 <= qid < 2^UBLK_QID_BITS /\ 0 <= tag < 2^UBLK_TAG_BITS /\ ublk_pos qid tag 0 = Some pos.

(** The file is registered as file 1, the char device as file 0. *)
Class LoopKernelLaws (M : Type) `{!LoopKernel M} : Prop := {
  exec_file_to_mem : forall ud buf len off fl m m', fixed_file fl = true ->
    k_exec (mk_sqe ud (PrepRead 1 buf len off fl None)) m len m' ->
    copied buf len (fun j => k_file m (off + j)) (k_mem m) (k_mem m') /\
    k_file m' = k_file m /\ k_pages m' = k_pages m;
  exec_mem_to_file : forall ud buf len off fl rw m m', fixed_file fl = true ->
    k_exec (mk_sqe ud (PrepWrite 1 buf len off fl None rw)) m len m' ->
    copied off len (fun j => k_mem m (buf + j)) (k_file m) (k_file m') /\
    k_mem m' = k_mem m /\ k_pages m' = k_pages m;
  exec_file_to_fixed : forall ud len off fl i qid tag m m', fixed_file fl = true ->
    k_exec (mk_sqe ud (PrepRead 1 0 len off fl (Some i))) m len m' -> k_fixed m i = Some (qid, tag) ->
    copied 0 len (fun j => k_file m (off + j)) (k_pages m qid tag) (k_pages m' qid tag) /\ k_file m' = k_file m;
  exec_fixed_to_file : forall ud len off fl i rw qid tag m m', fixed_file fl = true ->
    k_exec (mk_sqe ud (PrepWrite 1 0 len off fl (Some i) rw)) m len m' -> k_fixed m i = Some (qid, tag) ->
    copied off len (k_pages m qid tag) (k_file m) (k_file m') /\ k_pages m' = k_pages m;
  exec_pages_to_mem : forall ud buf len qid tag pos fl m m', fixed_file fl = true -> pages_at qid tag pos ->
    k_exec (mk_sqe ud (PrepRead 0 buf len pos fl None)) m len m' ->
    copied buf len (k_pages m qid tag) (k_mem m) (k_mem m') /\ k_file m' = k_file m /\ k_pages m' = k_pages m;
  exec_mem_to_pages : forall ud buf len qid tag pos fl rw m m', fixed_file fl = true -> pages_at qid tag pos ->
    k_exec (mk_sqe ud (PrepWrite 0 buf len pos fl None rw)) m len m' ->
    copied 0 len (fun j => k_mem m (buf + j)) (k_pages m qid tag) (k_pages m' qid tag) /\ k_file m' = k_file m;
  exec_register : forall ud tag qid i un fl m m', fixed_file fl = true ->
    k_exec (mk_sqe ud (PrepBufRegister tag qid i un fl)) m 0 m' ->
    k_fixed m' i = (if un then None else Some (qid, tag)) /\ k_file m' = k_file m /\ k_pages m' = k_pages m
}.

(** ** Entries done in full

    A transfer moves all its bytes, anything else returns 0. *)
Definition full_result (w : sqe_op) : Z :=
  match w with
  | PrepRead _ _ len _ _ _ | PrepWrite _ _ len _ _ _ _ => len
  | _ => 0
  end.

(** The entries of a request one after the other, as they are linked, with the
    completions the ring gets. *)
Inductive k_run {M} `{!LoopKernel M} : list io_uring_sqe -> M -> list io_uring_cqe -> M -> Prop :=
| run_nil m : k_run [] m [] m
| run_cons s ss m m1 m2 cqes flags :
    k_exec s m (full_result (sqe_what s)) m1 -> k_run ss m1 cqes m2 ->
    k_run (s :: ss) m
      ((if posts_cqe s then [mk_cqe (sqe_user_data s) (full_result (sqe_what s)) flags] else []) ++ cqes) m2.

(** ** What the target queues for a read or write *)
Section plan.
Variables (iod : ublksrv_io_desc) (d : loop_tgt_data) (tag qid pos buf : Z).
Let op := ublksrv_get_op iod.
Let linked := Z.lor IOSQE_FIXED_FILE IOSQE_IO_LINK.

Definition fs_rw (buf flags : Z) (fixed : option Z) (rw : Z) : sqe_op :=
  if op =? UBLK_IO_OP_READ then PrepRead 1 buf (lo_len iod) (lo_off iod d) flags fixed
  else PrepWrite 1 buf (lo_len iod) (lo_off iod d) flags fixed rw.

(** The operation in the user data, and the entry. *)
Definition rw_plan : list (Z * sqe_op) :=
  if auto_zc d then [(op, fs_rw 0 IOSQE_FIXED_FILE (Some tag) (lo_rw_handle_fua iod))]
  else if zero_copy d then
    [(ublk_cmd_op_nr UBLK_U_IO_REGISTER_IO_BUF, PrepBufRegister tag qid tag false
       (Z.lor (Z.lor IOSQE_CQE_SKIP_SUCCESS IOSQE_FIXED_FILE) IOSQE_IO_LINK));
     (op, fs_rw 0 linked (Some tag) 0);
     (ublk_cmd_op_nr UBLK_U_IO_UNREGISTER_IO_BUF, PrepBufRegister tag qid tag true IOSQE_FIXED_FILE)]
  else if user_copy d then
    if op =? UBLK_IO_OP_READ then
      [(op, PrepRead 1 buf (lo_len iod) (lo_off iod d) linked None);
       (UBLK_USER_COPY_WRITE, PrepWrite 0 buf (lo_len iod) pos IOSQE_FIXED_FILE None 0)]
    else
      [(UBLK_USER_COPY_READ, PrepRead 0 buf (lo_len iod) pos linked None);
       (op, PrepWrite 1 buf (lo_len iod) (lo_off iod d) IOSQE_FIXED_FILE None (lo_rw_handle_fua iod))]
  else [(op, fs_rw (iod_addr iod) IOSQE_FIXED_FILE None (lo_rw_handle_fua iod))].
End plan.

Definition planned (s : io_uring_sqe) (x : Z * sqe_op) : Prop :=
  user_data_to_op (sqe_user_data s) = x.1 /\ sqe_what s = x.2.

Section queueing.
Context {R : Type} `{!Uring R, !UringLaws R, !UringDrain R}.
Notation Q := (queue R (co_tgt loop_tgt_data)).
Implicit Types q : Q.

Lemma request_ud_op i op : Z.of_nat i < UBLK_MAX_QUEUE_DEPTH -> is_u8 op ->
  exists ud, build_user_data (Z.of_nat i) op 0 1 = Some ud /\ user_data_to_op ud = op /\
    forall what, tgt_request_of i (mk_sqe ud what).
Proof.
  intros Hi Hop. destruct (tgt_user_data_ok i op Hi Hop) as [ud Hud]. exists ud. split; [done|].
  split; [|intros what; by eapply tgt_user_data_decode, Hud]. unfold UBLK_MAX_QUEUE_DEPTH in Hi.
  rewrite user_data_sum in Hud by (unfold_width; lia). injection Hud as <-.
  by destruct (user_data_decode (Z.of_nat i) op 0 1) as (_&?&_); [unfold_width; lia..|].
Qed.

Lemma prep_fs_rw_plan iod d buf flags fb rw : is_rw iod ->
  prep_fs_rw iod buf (lo_len iod) (lo_off iod d) flags fb rw = Some (fs_rw iod d buf flags fb rw).
Proof. unfold prep_fs_rw, fs_rw. by intros [-> | ->]. Qed.

Lemma fs_rw_plain iod d buf flags fb rw ud : is_rw iod ->
  posts_cqe (mk_sqe ud (fs_rw iod d buf flags fb rw)) = true /\ io_command_of (mk_sqe ud (fs_rw iod d buf flags fb rw)) = None.
Proof. unfold fs_rw. by intros [-> | ->]. Qed.

Ltac entries := repeat (apply Forall_cons; split; [auto|]); apply Forall_nil; done.
Ltac plan := repeat (apply Forall2_cons; split; [done|]); apply Forall2_nil; done.

Lemma loop_rw_planned q A i iod : qsim q A -> a_tags A !! i = Some TTarget ->
  let d := tdata (private_data q) in
  loop_cfg (sq_entries (ring q)) false false false d -> is_rw iod ->
  0 <= q_id q < 2^UBLK_QID_BITS ->
  exists ss pos buf, queued i q A (loop_queue_tgt_rw iod (Z.of_nat i) d q) ss /\
    pages_at (q_id q) (Z.of_nat i) pos /\
    Forall2 planned ss (rw_plan iod d (Z.of_nat i) (q_id q) pos buf).
Proof.
  intros Hs Ht d Hcfg Hrw Hqid. pose proof (tag_small q A i Hs Ht) as Hi.
  assert (Hpos : exists pos, ublk_pos (u16 (q_id q)) (u16 (Z.of_nat i)) 0 = Some pos) by apply ublk_pos_zero_ok.
  destruct Hpos as [pos Hpos]. destruct (io_buf_ok q A i Hs Ht) as [buf Hbuf].
  pose proof (fun op H => request_ud_op i op Hi H) as Hud.
  assert (Hfin : forall ss n, Forall (tgt_request_of i) ss -> Forall (fun s => io_command_of s = None) ss ->
    Z.of_nat (length ss) <= sq_entries (ring q) -> n = Z.of_nat (length (filter posts_cqe ss)) ->
    queued i q A (q' ← tgt_queue_sqes ss q; Some (n, q')) ss) by (intros; by apply queue_entries).
  unfold UBLK_QID_BITS in Hqid. assert (Hp : pages_at (q_id q) (Z.of_nat i) pos).
  { unfold UBLK_MAX_QUEUE_DEPTH in Hi. unfold pages_at, UBLK_QID_BITS, UBLK_TAG_BITS. split; [done|]. split; [lia|].
    rewrite <- Hpos. f_equal; symmetry; apply u16_id; unfold is_u16; lia. }
  unfold loop_queue_tgt_rw, rw_plan. destruct (Hud (ublksrv_get_op iod) (get_op_u8 iod)) as (ud&Hb&Ho&Hr).
  assert (Hplain : forall addr fb, Z.of_nat 1 <= sq_entries (ring q) -> queued i q A
    (q' ← tgt_queue_sqes [mk_sqe ud (fs_rw iod d addr IOSQE_FIXED_FILE fb (lo_rw_handle_fua iod))] q; Some (1, q'))
    [mk_sqe ud (fs_rw iod d addr IOSQE_FIXED_FILE fb (lo_rw_handle_fua iod))]).
  { intros addr fb He. destruct (fs_rw_plain iod d addr IOSQE_FIXED_FILE fb (lo_rw_handle_fua iod) ud Hrw) as [Hpo Hno].
    apply Hfin; [entries|entries|done|]. by rewrite filter_cons, Hpo. }
  destruct (auto_zc d) eqn:Ha; [|destruct (zero_copy d) eqn:Hz; [|destruct (user_copy d) eqn:Hu]].
  - unfold lo_rw. rewrite Ha, prep_fs_rw_plan by done. cbn [mbind option_bind]. rewrite Hb. cbn [mbind option_bind].
    eexists _, pos, buf. split; [apply Hplain; apply Hs|]. split; [done|]. plan.
  - unfold lo_rw_zero_copy. rewrite prep_fs_rw_plan by done. cbn [mbind option_bind].
    destruct (Hud (ublk_cmd_op_nr UBLK_U_IO_REGISTER_IO_BUF) ltac:(done)) as (ud0&->&Ho0&Hr0). cbn [mbind option_bind].
    rewrite Hb. cbn [mbind option_bind].
    destruct (Hud (ublk_cmd_op_nr UBLK_U_IO_UNREGISTER_IO_BUF) ltac:(done)) as (ud2&->&Ho2&Hr2). cbn [mbind option_bind].
    destruct (fs_rw_plain iod d 0 (Z.lor IOSQE_FIXED_FILE IOSQE_IO_LINK) (Some (Z.of_nat i)) 0 ud Hrw) as [Hpo Hno].
    eexists _, pos, buf. split; [apply Hfin|split; [done|plan]].
    all: [> entries|entries|by apply Hcfg|by rewrite !filter_cons, Hpo].
  - unfold lo_rw_user_copy. rewrite Hpos. cbn [mbind option_bind]. rewrite Hbuf. cbn [mbind option_bind].
    destruct (Z.eqb_spec (ublksrv_get_op iod) UBLK_IO_OP_READ) as [Hop|Hop].
    + rewrite Hb. cbn [mbind option_bind]. destruct (Hud UBLK_USER_COPY_WRITE ltac:(done)) as (ud1&->&Ho1&Hr1). cbn [mbind option_bind].
      eexists _, pos, buf. split; [apply Hfin|split; [done|plan]].
      all: [> entries|entries|by apply Hcfg|done].
    + destruct (Hud UBLK_USER_COPY_READ ltac:(done)) as (ud1&->&Ho1&Hr1). cbn [mbind option_bind]. rewrite Hb. cbn [mbind option_bind].
      eexists _, pos, buf. split; [apply Hfin|split; [done|plan]].
      all: [> entries|entries|by apply Hcfg|done].
  - unfold lo_rw. rewrite Ha, prep_fs_rw_plan by done. cbn [mbind option_bind]. rewrite Hb. cbn [mbind option_bind].
    eexists _, pos, buf. split; [apply Hplain; apply Hs|]. split; [done|]. plan.
Qed.
End queueing.

(** ** What the entries do *)
Section effect.
Context {M : Type} `{!LoopKernel M, !LoopKernelLaws M}.
Variables (iod : ublksrv_io_desc) (d : loop_tgt_data) (tag qid pos buf : Z).
Hypothesis Hpos : pages_at qid tag pos.
Hypothesis Hrw : is_rw iod.

(** Where the data of the request is: at the address the driver gave, or in the
    pages of the request. *)
Definition through_driver : bool := negb (auto_zc d || zero_copy d || user_copy d).
Definition request_data (m : M) : bytes :=
  if through_driver then fun j => k_mem m (iod_addr iod + j) else k_pages m qid tag.

(** The request as an operation of a disk. *)
Definition disk_effect (m m' : M) : Prop :=
  if ublksrv_get_op iod =? UBLK_IO_OP_WRITE
  then copied (lo_off iod d) (lo_len iod) (request_data m) (k_file m) (k_file m')
  else (forall a, k_file m' a = k_file m a) /\
       (forall j, 0 <= j < lo_len iod -> request_data m' j = k_file m (lo_off iod d + j)).

Lemma copied_in dst len src old new j : copied dst len src old new -> 0 <= j < len -> new (dst + j) = src j.
Proof.
  intros Hc Hj. rewrite Hc, (proj2 (Z.leb_le _ _)), (proj2 (Z.ltb_lt _ _)) by lia. cbn. f_equal. lia.
Qed.

Lemma copied_src dst len src src' old new : (forall j, 0 <= j < len -> src j = src' j) ->
  copied dst len src old new -> copied dst len src' old new.
Proof.
  intros Hs Hc a. rewrite Hc. destruct ((dst <=? a) && (a <? dst + len)) eqn:E; [|done].
  apply andb_true_iff in E as [?%Z.leb_le ?%Z.ltb_lt]. apply Hs. lia.
Qed.

Lemma run_one s x m cqes m' : planned s x -> k_run [s] m cqes m' ->
  k_exec (mk_sqe (sqe_user_data s) x.2) m (full_result x.2) m' /\
  exists fl, cqes = if posts_cqe s then [mk_cqe (sqe_user_data s) (full_result x.2) fl] else [].
Proof.
  intros [_ Hw] Hr. inversion Hr as [|? ? ? m1 ? ? fl He Hn]; subst. inversion Hn; subst. rewrite app_nil_r.
  rewrite <- Hw. destruct s as [ud w]. split; [done|]. by exists fl.
Qed.

Lemma run_first s ss x m cqes m' : planned s x -> k_run (s :: ss) m cqes m' ->
  exists m1 fl rest, k_exec (mk_sqe (sqe_user_data s) x.2) m (full_result x.2) m1 /\ k_run ss m1 rest m' /\
    cqes = (if posts_cqe s then [mk_cqe (sqe_user_data s) (full_result x.2) fl] else []) ++ rest.
Proof.
  intros [_ Hw] Hr. inversion Hr as [|? ? ? m1 ? rest fl He Hn]; subst. exists m1, fl, rest. rewrite <- Hw. by destruct s.
Qed.

(** The backing file through the ring's registered pages. *)
Lemma fixed_effect ud flags rw m m' : through_driver = false -> fixed_file flags = true -> k_fixed m tag = Some (qid, tag) ->
  k_exec (mk_sqe ud (fs_rw iod d 0 flags (Some tag) rw)) m (full_result (fs_rw iod d 0 flags (Some tag) rw)) m' ->
  disk_effect m m'.
Proof.
  intros Ht Hfl Hf. unfold fs_rw, disk_effect, request_data. rewrite Ht. destruct Hrw as [-> | ->]; cbn; intros He.
  - eapply exec_file_to_fixed in He as [Hc Hs]; [|done|done]. split; [intros; by rewrite Hs|].
    intros j Hj. by apply (copied_in 0 _ _ _ _ j) in Hc.
  - by eapply exec_fixed_to_file in He as [Hc _].
Qed.

Lemma plan_effect ss m cqes m' : Forall2 planned ss (rw_plan iod d tag qid pos buf) -> k_run ss m cqes m' ->
  (auto_zc d = true -> k_fixed m tag = Some (qid, tag)) -> disk_effect m m'.
Proof.
  unfold rw_plan. intros Hpl Hrun Hfix.
  destruct (auto_zc d) eqn:Ha; [|destruct (zero_copy d) eqn:Hz; [|destruct (user_copy d) eqn:Hu]].
  - apply Forall2_cons_inv_r in Hpl as (s&ss'&Hs&->%Forall2_nil_inv_r&->).
    destruct (run_one _ _ _ _ _ Hs Hrun) as [He _]. eapply (fixed_effect _ IOSQE_FIXED_FILE); [by unfold through_driver; rewrite Ha|done|by apply Hfix|exact He].
  - apply Forall2_cons_inv_r in Hpl as (s0&ss0&Hs0&(s1&ss1&Hs1&(s2&ss2&Hs2&->%Forall2_nil_inv_r&->)%Forall2_cons_inv_r&->)%Forall2_cons_inv_r&->).
    destruct (run_first _ _ _ _ _ _ Hs0 Hrun) as (m1&_&c1&E0&Hr1&_). destruct (run_first _ _ _ _ _ _ Hs1 Hr1) as (m2&_&c2&E1&Hr2&_).
    destruct (run_one _ _ _ _ _ Hs2 Hr2) as [E2 _]. apply exec_register in E0 as (F0&A0&B0), E2 as (_&A2&B2); [|vm_compute; reflexivity..].
    assert (Ht : through_driver = false) by (unfold through_driver; by rewrite Hz, orb_true_r).
    apply fixed_effect in E1; [|done|done|done]. unfold disk_effect, request_data in *. rewrite Ht in *. by rewrite A0, B0, <- A2, <- B2 in E1.
  - assert (Ht : through_driver = false) by (unfold through_driver; by rewrite Hu, orb_true_r).
    unfold disk_effect, request_data. rewrite Ht. destruct Hrw as [Hop|Hop]; rewrite Hop in *; cbn [Z.eqb UBLK_IO_OP_READ UBLK_IO_OP_WRITE] in *;
      apply Forall2_cons_inv_r in Hpl as (s0&ss0&Hs0&(s1&ss1&Hs1&->%Forall2_nil_inv_r&->)%Forall2_cons_inv_r&->);
      destruct (run_first _ _ _ _ _ _ Hs0 Hrun) as (m1&_&c1&E0&Hr1&_); destruct (run_one _ _ _ _ _ Hs1 Hr1) as [E1 _].
    + apply exec_file_to_mem in E0 as (C0&A0&B0); [|done]. eapply exec_mem_to_pages in E1 as [C1 A1]; [|done|exact Hpos].
      split; [intros; by rewrite A1, A0|]. intros j Hj. change j with (0 + j) at 1. rewrite (copied_in _ _ _ _ _ j C1 Hj).
      cbv beta. by rewrite (copied_in _ _ _ _ _ j C0 Hj).
    + eapply exec_pages_to_mem in E0 as (C0&A0&B0); [|done|exact Hpos]. apply exec_mem_to_file in E1 as (C1&_); [|done]. rewrite A0 in C1.
      eapply copied_src; [|exact C1]. intros j Hj. cbv beta. by rewrite (copied_in _ _ _ _ _ j C0 Hj).
  - assert (Ht : through_driver = true) by (unfold through_driver; by rewrite Ha, Hz, Hu).
    apply Forall2_cons_inv_r in Hpl as (s&ss'&Hs&->%Forall2_nil_inv_r&->). destruct (run_one _ _ _ _ _ Hs Hrun) as [He _].
    unfold disk_effect, request_data. rewrite Ht. unfold fs_rw in He. destruct Hrw as [Hop|Hop]; rewrite Hop in *; cbn in He |- *.
    + apply exec_file_to_mem in He as (C&A&_); [|done]. split; [intros; by rewrite A|]. intros j Hj. by rewrite (copied_in _ _ _ _ _ j C Hj).
    + by apply exec_mem_to_file in He as (C&_).
Qed.
End effect.

(** ** The completions *)
Definition completion_of (c : io_uring_cqe) (s : io_uring_sqe) : Prop :=
  cqe_user_data c = sqe_user_data s /\ cqe_res c = full_result (sqe_what s).

Lemma run_completions {M} `{!LoopKernel M} ss (m m' : M) cqes : k_run ss m cqes m' ->
  Forall2 completion_of cqes (filter posts_cqe ss).
Proof.
  induction 1 as [|s ss m m1 m2 cqes fl He Hr IH]; [done|]. rewrite filter_cons. destruct (posts_cqe s); cbn; [|done].
  by constructor.
Qed.

(** The result the coroutine ends up with. *)
Definition result_of (cqes : list io_uring_cqe) (r : Z) : Z := foldl (fun r c => fold_res c r) r cqes.

Lemma fold_planned c s op w r : completion_of c s -> planned s (op, w) ->
  fold_res c r = let io := if is_ublk_io_cmd op then full_result w else r in
                 if (full_result w <? 0) && (0 <=? io) then full_result w else io.
Proof. intros [Hu Hr] [Ho Hw]. unfold fold_res, ublksrv_tgt_process_cqe. cbn in *. by rewrite Hu, Hr, Hw, Ho. Qed.

Lemma plan_result iod d tag qid pos buf ss cqes : is_rw iod -> 0 <= lo_len iod ->
  Forall2 planned ss (rw_plan iod d tag qid pos buf) -> Forall2 completion_of cqes (filter posts_cqe ss) ->
  result_of cqes 0 = lo_len iod.
Proof.
  intros Hrw Hlen. assert (Hop : is_ublk_io_cmd (ublksrv_get_op iod) = true) by (by destruct Hrw as [-> | ->]).
  assert (Hfull : forall buf fl fb rw, full_result (fs_rw iod d buf fl fb rw) = lo_len iod) by (intros; unfold fs_rw; by destruct (_ =? UBLK_IO_OP_READ)).
  assert (Hpost : forall s x buf fl fb rw, planned s (x, fs_rw iod d buf fl fb rw) -> posts_cqe s = true).
  { intros s x b fl fb rw [_ Hw]. cbn in Hw. unfold posts_cqe. rewrite Hw. unfold fs_rw. by destruct (_ =? UBLK_IO_OP_READ). }
  assert (Hneg : (lo_len iod <? 0) = false) by (apply Z.ltb_ge; lia).
  assert (Hmain : forall s c buf fl fb rw r, planned s (ublksrv_get_op iod, fs_rw iod d buf fl fb rw) -> completion_of c s ->
    fold_res c r = lo_len iod).
  { intros s c b fl fb rw r Hs Hc. rewrite (fold_planned c s _ _ r Hc Hs). cbv zeta. by rewrite Hop, Hfull, Hneg. }
  unfold rw_plan, result_of. intros Hpl Hc.
  destruct (auto_zc d); [|destruct (zero_copy d); [|destruct (user_copy d)]].
  - apply Forall2_cons_inv_r in Hpl as (s&ss'&Hs&->%Forall2_nil_inv_r&->). rewrite filter_cons, (Hpost _ _ _ _ _ _ Hs) in Hc.
    apply Forall2_cons_inv_r in Hc as (c&cs&Hc&->%Forall2_nil_inv_r&->). cbn [foldl]. by eapply Hmain.
  - apply Forall2_cons_inv_r in Hpl as (s0&ss0&Hs0&(s1&ss1&Hs1&(s2&ss2&Hs2&->%Forall2_nil_inv_r&->)%Forall2_cons_inv_r&->)%Forall2_cons_inv_r&->).
    rewrite !filter_cons, (Hpost _ _ _ _ _ _ Hs1) in Hc.
    assert (posts_cqe s0 = false) as E0 by (unfold posts_cqe; by rewrite (proj2 Hs0)).
    assert (posts_cqe s2 = true) as E2 by (unfold posts_cqe; by rewrite (proj2 Hs2)). rewrite E0, E2 in Hc. cbn [decide] in Hc.
    apply Forall2_cons_inv_r in Hc as (c1&cs1&Hc1&(c2&cs2&Hc2&->%Forall2_nil_inv_r&->)%Forall2_cons_inv_r&->). cbn [foldl].
    rewrite (Hmain _ _ _ _ _ _ _ Hs1 Hc1), (fold_planned c2 s2 _ _ _ Hc2 Hs2). done.
  - destruct Hrw as [Ho|Ho]; rewrite Ho in *; cbn [Z.eqb UBLK_IO_OP_READ UBLK_IO_OP_WRITE] in *;
      apply Forall2_cons_inv_r in Hpl as (s0&ss0&Hs0&(s1&ss1&Hs1&->%Forall2_nil_inv_r&->)%Forall2_cons_inv_r&->);
      assert (posts_cqe s0 = true) as E0 by (unfold posts_cqe; by rewrite (proj2 Hs0));
      assert (posts_cqe s1 = true) as E1 by (unfold posts_cqe; by rewrite (proj2 Hs1)); rewrite !filter_cons, E0, E1 in Hc; cbn [decide] in Hc;
      apply Forall2_cons_inv_r in Hc as (c1&cs1&Hc1&(c2&cs2&Hc2&->%Forall2_nil_inv_r&->)%Forall2_cons_inv_r&->); cbn [foldl];
      rewrite (fold_planned c1 s0 _ _ _ Hc1 Hs0), (fold_planned c2 s1 _ _ _ Hc2 Hs1); cbn; by rewrite !Hneg.
  - apply Forall2_cons_inv_r in Hpl as (s&ss'&Hs&->%Forall2_nil_inv_r&->). rewrite filter_cons, (Hpost _ _ _ _ _ _ Hs) in Hc.
    apply Forall2_cons_inv_r in Hc as (c&cs&Hc&->%Forall2_nil_inv_r&->). cbn [foldl]. by eapply Hmain.
Qed.

Lemma plan_posts iod d tag qid pos buf ss : is_rw iod -> Forall2 planned ss (rw_plan iod d tag qid pos buf) ->
  (0 < length (filter posts_cqe ss))%nat.
Proof.
  intros Hrw Hpl.
  assert (Hp : Exists (fun x => forall ud, posts_cqe (mk_sqe ud x.2) = true) (rw_plan iod d tag qid pos buf)).
  { assert (Hfs : forall b fl fb rw ud, posts_cqe (mk_sqe ud (fs_rw iod d b fl fb rw)) = true) by (intros; by apply fs_rw_plain).
    unfold rw_plan. destruct (auto_zc d); [|destruct (zero_copy d); [|destruct (user_copy d); [destruct (_ =? _)|]]];
      solve [apply Exists_cons_hd; intros; done || apply Hfs|apply Exists_cons_tl, Exists_cons_hd; intros; done || apply Hfs]. }
  apply Exists_exists in Hp as (x&[k Hk]%list_elem_of_lookup&Hx). destruct (Forall2_lookup_r _ _ _ _ _ Hpl Hk) as (s&Hs&[_ Hw]).
  assert (Hin : s ∈ filter posts_cqe ss).
  { apply list_elem_of_filter. split; [|by eapply list_elem_of_lookup_2]. destruct s as [ud w]. cbn in Hw. subst w. by rewrite Hx. }
  destruct (filter posts_cqe ss); [by apply not_elem_of_nil in Hin|]. cbn. lia.
Qed.

(** ** From the request to its answer *)
Section request.
Context {R : Type} `{!Uring R, !UringLaws R, !UringDrain R}.
Notation Q := (queue R (co_tgt loop_tgt_data)).
Implicit Types q : Q.
Variable blkdiscard : Z -> Z -> Z.

Lemma set_co_lookup i c q : (i < length (cos (private_data q)))%nat -> cos (private_data (set_co (Z.of_nat i) c q)) !! i = Some c.
Proof.
  intros Hi. change (cos (private_data (set_co (Z.of_nat i) c q))) with (cos (v_data (view (set_co (Z.of_nat i) c q)))).
  rewrite set_co_cos. by apply list_lookup_insert_eq.
Qed.

(** The completions of a tag, handed to the target one by one. *)
Fixpoint deliver (tag : Z) (cqes : list io_uring_cqe) (q : Q) : option Q :=
  match cqes with
  | [] => Some q
  | c :: cqes => q ← loop_tgt_io_done tag c q; deliver tag cqes q
  end.

Lemma deliver_completes q A i cqes more r :
  qsim q A -> a_tags A !! i = Some TTarget -> cos (private_data q) !! i = Some (CoWait more r) ->
  Z.of_nat (length cqes) = more + 1 -> 0 <= more ->
  Forall (fun c => user_data_to_tag (cqe_user_data c) = Z.of_nat i) cqes ->
  is_s32 (result_of cqes r) -> result_of cqes r <> - EAGAIN ->
  exists q', deliver (Z.of_nat i) cqes q = Some q' /\ qsim q' (send i UBLK_IO_COMMIT_AND_FETCH_REQ (Some (result_of cqes r)) A).
Proof.
  revert q more r. induction cqes as [|c cqes IH]; intros q more r Hs Ht Hco Hlen Hm Htag Hres Hne; [cbn in Hlen; lia|].
  apply Forall_cons in Htag as [Hc Htag]. cbn [deliver]. unfold loop_tgt_io_done, ublksrv_tgt_io_done, co_resume.
  rewrite Hc, Z.eqb_refl, Nat2Z.id, Hco. unfold result_of in Hres, Hne |- *. cbn [foldl] in Hres, Hne |- *. rewrite length_cons in Hlen.
  destruct (Z.ltb_spec 0 more) as [Hgt|Hle]; cbn [mbind option_bind].
  - apply (IH _ (more - 1) (fold_res c r)); [by apply qsim_private|done| |lia|lia|done|done|done].
    apply set_co_lookup. by eapply lookup_lt_Some.
  - destruct cqes as [|c2 cqes]; [|cbn in Hlen; lia]. cbn [foldl] in Hres, Hne |- *.
    rewrite (proj2 (Z.eqb_neq _ _) Hne).
    destruct (complete_io_progress q A i (fold_res c r) Hs Ht Hres) as (q'&->&_&Hs'). cbn [mbind option_bind deliver].
    eexists. split; [done|]. by apply qsim_private.
Qed.

Lemma completions_tag i ss cqes : Forall (tgt_request_of i) ss -> Forall2 completion_of cqes (filter posts_cqe ss) ->
  Forall (fun c => user_data_to_tag (cqe_user_data c) = Z.of_nat i) cqes.
Proof.
  intros Hss Hc. apply Forall_lookup_2. intros k c Hk. destruct (Forall2_lookup_l _ _ _ _ _ Hc Hk) as (s&Hs&[Hu _]).
  apply list_elem_of_lookup_2, list_elem_of_filter in Hs as [_ Hs]. rewrite Hu. exact (proj2 (proj2 (proj1 (Forall_forall _ _) Hss _ Hs))).
Qed.

Lemma handle_rw q i iod n q0 : get_iod q (Z.of_nat i) = Some iod -> is_rw iod -> 0 < n ->
  loop_queue_tgt_rw iod (Z.of_nat i) (tdata (private_data q)) q = Some (n, q0) ->
  loop_handle_io_async blkdiscard (Z.of_nat i) q = Some (0, set_co (Z.of_nat i) (CoWait (n - 1) 0) q0).
Proof.
  intros Hiod Hrw Hn Hq0. unfold loop_handle_io_async, __loop_handle_io_async, co_start, loop_queue_tgt_io.
  rewrite Hiod. cbn [mbind option_bind].
  destruct Hrw as [Hop|Hop]; rewrite Hop; cbn [Z.eqb UBLK_IO_OP_READ UBLK_IO_OP_WRITE UBLK_IO_OP_FLUSH UBLK_IO_OP_WRITE_ZEROES UBLK_IO_OP_DISCARD Pos.eqb]; rewrite andb_false_r;
    cbn [mbind option_bind orb]; rewrite Hq0; cbn [mbind option_bind]; by rewrite (proj2 (Z.ltb_lt _ _) Hn).
Qed.

(** C16: The loop device is a disk: in each of its copy modes, a read or
    write the target accepts becomes ring entries such that, when the kernel
    carries them out in full, exactly the bytes of the request's sectors
    (shifted by the configured offset) are replaced by the request's data, or
    the request's data become those bytes and the file is unchanged; the
    completions then make the target answer the driver with the number of bytes
    of the request. *)
Theorem loop_refines_disk {M} `{!LoopKernel M, !LoopKernelLaws M} q A i iod :
  qsim q A -> a_tags A !! i = Some TTarget -> cfg_ok loop_cfg (view q) ->
  length (cos (private_data q)) = length (a_tags A) ->
  get_iod q (Z.of_nat i) = Some iod -> is_rw iod -> 0 <= q_id q < 2^UBLK_QID_BITS ->
  let d := tdata (private_data q) in
  0 <= nr_sectors iod -> nr_sectors iod * 512 < 2^31 ->
  0 <= start_sector iod -> 0 <= offset d -> (start_sector iod + offset d) * 512 < 2^64 ->
  exists q1 ss, loop_handle_io_async blkdiscard (Z.of_nat i) q = Some (0, q1) /\ ring_log (ring q1) = ring_log (ring q) ++ ss /\
    forall (m m' : M) cqes, k_run ss m cqes m' -> (auto_zc d = true -> k_fixed m (Z.of_nat i) = Some (q_id q, Z.of_nat i)) ->
      let len := nr_sectors iod * 512 in
      let off := (start_sector iod + offset d) * 512 in
      (if ublksrv_get_op iod =? UBLK_IO_OP_WRITE
       then copied off len (request_data iod d (Z.of_nat i) (q_id q) m) (k_file m) (k_file m')
       else (forall a, k_file m' a = k_file m a) /\
            (forall j, 0 <= j < len -> request_data iod d (Z.of_nat i) (q_id q) m' j = k_file m (off + j))) /\
      exists q2, deliver (Z.of_nat i) cqes q1 = Some q2 /\ qsim q2 (send i UBLK_IO_COMMIT_AND_FETCH_REQ (Some len) A).
Proof.
  intros Hs Ht Hcfg Hcos Hiod Hrw Hqid d Hn0 Hn Hs0 Ho0 Hso.
  assert (Hoff : lo_off iod d = (start_sector iod + offset d) * 512).
  { unfold lo_off, u64. rewrite !Z.shiftl_mul_pow2, (Z.mod_small (start_sector iod + _)) by lia. apply Z.mod_small. lia. }
  assert (Hlen : lo_len iod = nr_sectors iod * 512).
  { unfold lo_len, u32. rewrite Z.shiftl_mul_pow2 by lia. apply Z.mod_small. lia. }
  destruct (loop_rw_planned q A i iod Hs Ht Hcfg Hrw Hqid) as (ss&pos&buf&(q0&Hq0&Hlog&Hreq&Hs0'&Hv0&_)&Hpos&Hplan). fold d in Hq0, Hplan.
  set (n := Z.of_nat (length (filter posts_cqe ss))) in *.
  assert (Hpos0 : 0 < n) by (pose proof (plan_posts _ _ _ _ _ _ _ Hrw Hplan); lia).
  exists (set_co (Z.of_nat i) (CoWait (n - 1) 0) q0), ss. split; [by eapply handle_rw|]. split; [exact Hlog|].
  intros m m' cqes Hrun Hfix len off.
  pose proof (plan_effect iod d (Z.of_nat i) (q_id q) pos buf Hpos Hrw ss m cqes m' Hplan Hrun Hfix) as He.
  unfold disk_effect in He. rewrite Hoff, Hlen in He. split; [exact He|].
  pose proof (run_completions _ _ _ _ Hrun) as Hc. pose proof (plan_result _ _ _ _ _ _ ss cqes Hrw ltac:(lia) Hplan Hc) as Hr.
  assert (Hnc : Z.of_nat (length cqes) = n) by (subst n; f_equal; by eapply Forall2_length).
  rewrite Hlen in Hr. subst len. rewrite <- Hr.
  apply (deliver_completes _ A i cqes (n - 1) 0); [by apply qsim_private|done| |lia|lia| |rewrite Hr; unfold is_s32; lia|rewrite Hr; unfold EAGAIN; lia].
  - apply set_co_lookup. rewrite (f_equal v_data Hv0 : private_data q0 = private_data q), Hcos. by eapply lookup_lt_Some.
  - by eapply completions_tag.
Qed.
End request.
