(* ===== verification/Endian.v ===== *)
(** * Byte order (targets/include/ublksrv_tgt_endian.h, targets/nbd/cliserv.c)

    The conversions of the wire formats on a little-endian host, where the
    components write big-endian bytes directly: what a converted value leaves in
    memory are those bytes. *)

From S2P Require Import Prelude Bytes.
#[local] Open Scope Z_scope.

Definition bswap (n : nat) (v : Z) : Z := le_value (rev (le_bytes n v)).

(** [n] bytes: 2, 4 or 8. *)
Definition cpu_to_be (n : nat) (v : Z) : Z := bswap n v.
Definition be_to_cpu (n : nat) (v : Z) : Z := bswap n v.
Definition cpu_to_le (n : nat) (v : Z) : Z := v.
Definition le_to_cpu (n : nat) (v : Z) : Z := v.

Definition ntohl (v : Z) : Z := be_to_cpu 4 v.

Definition ntohll (a : Z) : Z :=
  let lo := Z.land a 4294967295 in
  let hi := u32 (Z.shiftr a 32) in
  let lo := ntohl lo in
  let hi := ntohl hi in
  Z.lor (u64 (Z.shiftl lo 32)) hi.

(** ** Bytes and values *)
Notation is_byte := (fun b => 0 <= b < 256).

Lemma le_value_bound bs : Forall is_byte bs -> 0 <= le_value bs < 2^(8 * Z.of_nat (length bs)).
Proof.
  induction 1 as [|b bs Hb _ IH]; cbn [le_value length]; [done|].
  replace (8 * Z.of_nat (S (length bs))) with (8 + 8 * Z.of_nat (length bs)) by lia.
  rewrite Z.pow_add_r by lia. change (2^8) with 256. lia.
Qed.

Lemma le_bytes_value bs : Forall is_byte bs -> le_bytes (length bs) (le_value bs) = bs.
Proof.
  induction 1 as [|b bs Hb _ IH]; cbn [le_value length le_bytes]; [done|]. f_equal.
  - replace (b + 2^8 * le_value bs) with (b + le_value bs * 2^8) by lia. rewrite Z.mod_add by done. by apply Z.mod_small.
  - replace (b + 2^8 * le_value bs) with (b + le_value bs * 2^8) by lia. rewrite Z.div_add by done.
    by rewrite (Z.div_small b), Z.add_0_l by done.
Qed.

Lemma le_bytes_are_bytes n v : Forall is_byte (le_bytes n v).
Proof. revert v. induction n as [|n IH]; intros v; cbn [le_bytes]; constructor; [apply Z.mod_pos_bound; lia|done]. Qed.

(** ** The conversions *)

(** A value converted for the wire leaves its big-endian bytes in memory, and
    converting what was read from the wire gives the value of its big-endian bytes. *)
Theorem cpu_to_be_wire n v : le_bytes n (cpu_to_be n v) = be_bytes n v.
Proof.
  pose proof (le_bytes_value (rev (le_bytes n v))) as Hv. rewrite length_rev, length_le_bytes in Hv.
  apply Hv, Forall_rev, le_bytes_are_bytes.
Qed.

Lemma be_to_cpu_wire bs : Forall is_byte bs -> be_to_cpu (length bs) (le_value bs) = be_value bs.
Proof. intros Hb. unfold be_to_cpu, bswap. by rewrite le_bytes_value. Qed.

Theorem be_roundtrip n v : be_to_cpu n (cpu_to_be n v) = v mod 2^(8 * Z.of_nat n).
Proof. unfold be_to_cpu, bswap. rewrite cpu_to_be_wire. unfold be_bytes. by rewrite rev_involutive, le_value_bytes. Qed.

(** The two halves are swapped and each is converted: the value of eight
    bytes read from the wire. *)
Theorem ntohll_wire bs : length bs = 8%nat -> Forall is_byte bs -> ntohll (le_value bs) = be_value bs.
Proof.
  intros Hlen Hb. rewrite <- (take_drop 4 bs) in Hb |- *. set (x := take 4 bs) in *. set (y := drop 4 bs) in *.
  assert (Hx : length x = 4%nat) by (subst x; rewrite length_take; lia).
  assert (Hy : length y = 4%nat) by (subst y; rewrite length_drop; lia).
  apply Forall_app in Hb as [Hbx Hby]. pose proof (le_value_bound x Hbx) as Vx. pose proof (le_value_bound y Hby) as Vy.
  rewrite Hx in Vx. rewrite Hy in Vy.
  assert (Hlo : Z.land (le_value (x ++ y)) 4294967295 = le_value x).
  { change 4294967295 with (Z.ones 32). rewrite Z.land_ones, le_value_app, Hx by lia. cbn [Z.of_nat].
    rewrite (Z.mul_comm (2^_)). change (8 * _) with 32. rewrite Z.mod_add by done. by apply Z.mod_small. }
  assert (Hhi : u32 (Z.shiftr (le_value (x ++ y)) 32) = le_value y).
  { rewrite Z.shiftr_div_pow2, le_value_app, Hx by lia. rewrite (Z.mul_comm (2^_)). change (8 * _) with 32.
    rewrite Z.div_add by done. rewrite Z.div_small by done. apply u32_id. unfold is_u32. lia. }
  unfold ntohll. rewrite Hlo, Hhi. unfold ntohl. rewrite <- Hx at 1. rewrite be_to_cpu_wire by done.
  rewrite <- Hy at 1. rewrite be_to_cpu_wire by done. unfold be_value. rewrite rev_app_distr, le_value_app, length_rev, Hy.
  pose proof (le_value_bound (rev x) ltac:(by apply Forall_rev)) as Wx.
  pose proof (le_value_bound (rev y) ltac:(by apply Forall_rev)) as Wy.
  rewrite length_rev in Wx, Wy. rewrite Hx in Wx. rewrite Hy in Wy. change (2^(8 * Z.of_nat 4)) with (2^32) in *.
  rewrite Z.shiftl_mul_pow2 by done. rewrite u64_id by (unfold is_u64; lia).
  rewrite <- Z.shiftl_mul_pow2, Z.lor_comm, lor_shiftl_add by lia. lia.
Qed.

Lemma ntohll_wire_witness : ntohll (le_value [1; 2; 3; 4; 5; 6; 7; 8]) = 72623859790382856.
Proof. rewrite (ntohll_wire [1; 2; 3; 4; 5; 6; 7; 8]); [done|done|]. repeat constructor; lia. Defined.
