(* ===== verification/Nbd.v ===== *)
(** * The nbd target

    The I/O path of targets/nbd/ublk.nbd.cpp: requests are sent over the
    queue's socket as one chain of linked entries, one receiving coroutine (on
    the extra tag) reads the replies and the data of reads, and resumes the
    request a reply belongs to.  A non-blocking recv(2) takes its result from
    [recvs]; with no result left it would block. *)

From S2P Require Import Prelude Bytes UblkCmd Uring QueueTypes Batch Queue QueueSpec Target.

Definition NBD_CMD_READ : Z := 0.
Definition NBD_CMD_WRITE : Z := 1.
Definition NBD_CMD_FLUSH : Z := 3.
Definition NBD_CMD_TRIM : Z := 4.
Definition NBD_CMD_SHIFT : Z := 16.
Definition NBD_CMD_FLAG_FUA : Z := Z.shiftl (bit 0) NBD_CMD_SHIFT.
Definition NBD_REQUEST_MAGIC : Z := 0x25609513.
Definition NBD_REPLY_MAGIC : Z := 0x67446698.
Definition NBD_OP_READ_REPLY : Z := 0x81.
Definition NBD_COOKIE_BITS : Z := 32.
Definition MSG_DONTWAIT : Z := 0x40.
Definition MSG_WAITALL : Z := 0x100.
Definition MSG_NOSIGNAL : Z := 0x4000.
Definition IORING_CQE_F_NOTIF : Z := bit 3.

(** ** Wire format *)

(** [struct nbd_request], packed; the fields hold the values before they are
    put into network order, [handle] is copied as it is in memory. *)
Record nbd_request := mk_nbd_request {
  req_magic : Z; req_type : Z; req_handle : Z; req_from : Z; req_len : Z
}.
Definition nbd_request_bytes (r : nbd_request) : list Z :=
  be_bytes 4 (req_magic r) ++ be_bytes 4 (req_type r) ++ le_bytes 8 (req_handle r) ++
  be_bytes 8 (req_from r) ++ be_bytes 4 (req_len r).
Definition sizeof_nbd_request : Z := 28.

(** The fields of [struct nbd_reply] in the bytes received. *)
Definition reply_magic (bs : list Z) : Z := be_value (take 4 bs).
Definition reply_error (bs : list Z) : Z := be_value (take 4 (drop 4 bs)).
Definition reply_handle (bs : list Z) : Z := le_value (take 8 (drop 8 bs)).
Definition sizeof_nbd_reply : Z := 16.

Definition req_to_nbd_cmd_type (iod : ublksrv_io_desc) : Z :=
  let op := ublksrv_get_op iod in
  if op =? UBLK_IO_OP_DISCARD then NBD_CMD_TRIM
  else if op =? UBLK_IO_OP_FLUSH then NBD_CMD_FLUSH
  else if op =? UBLK_IO_OP_WRITE then NBD_CMD_WRITE
  else if op =? UBLK_IO_OP_READ then NBD_CMD_READ
  else -1.

Definition nbd_cmd_handle (q_id tag cmd_cookie : Z) : Z :=
  Z.lor (u64 (Z.shiftl cmd_cookie NBD_COOKIE_BITS)) (ublk_unique_tag (u16 q_id) (u16 tag)).
Definition nbd_handle_to_cookie (handle : Z) : Z := u32 (Z.shiftr handle NBD_COOKIE_BITS).
Definition nbd_handle_to_tag (handle : Z) : Z := u32 handle.

Definition __nbd_build_req (q_id tag cmd_cookie : Z) (iod : ublksrv_io_desc) (type : Z)
    (req : nbd_request) : nbd_request :=
  let nbd_cmd_flags := if has (op_flags iod) UBLK_IO_F_FUA then NBD_CMD_FLAG_FUA else 0 in
  let from_len := if type =? NBD_CMD_FLUSH then (req_from req, req_len req)
                  else (u64 (Z.shiftl (start_sector iod) 9), u32 (Z.shiftl (nr_sectors iod) 9)) in
  mk_nbd_request (req_magic req) (Z.lor (u32 type) nbd_cmd_flags) (nbd_cmd_handle q_id tag cmd_cookie)
    from_len.1 from_len.2.

(** ** State *)
Record nbd_io_data := mk_nbd_io { cmd_cookie : Z; nbd_done : Z }.

Record nbd_queue_data := mk_nbd_queue {
  in_flight_ios : Z;  (* unsigned short *)
  recv_started : bool;
  use_send_zc : bool;
  need_handle_recv : bool;
  chain_active : bool;
  chained_send_ios : Z;  (* unsigned *)
  next_chain : list Z;  (* tags *)
  last_send_sqe : option Z;  (* slot *)
  nbd_reply : list Z;  (* bytes *)
  recv_cqe : io_uring_cqe
}.

(** The coroutine of a request: suspended with its message in its frame. *)
Inductive nbd_co := NbdIdle | NbdSent (req : nbd_request) (iov1 : option (Z * Z)).
(** The receiving coroutine: not running, or suspended for a reply or for the
    data of a read. *)
Inductive recv_co := RecvIdle | RecvReply | RecvData (io_tag : Z).

Record nbd_tgt := mk_nbd_tgt {
  nbd_q : nbd_queue_data;
  nbd_ios : list nbd_io_data;  (* one per tag and the extra one *)
  nbd_cos : list nbd_co;
  nbd_recv : recv_co;
  recvs : list (list Z)  (* the bytes each recv(2) gets; none is a result <= 0 *)
}.

(** Field updates *)
Definition set_in_flight_ios (v : Z) (d : nbd_queue_data) : nbd_queue_data :=
  mk_nbd_queue v (recv_started d) (use_send_zc d) (need_handle_recv d) (chain_active d) (chained_send_ios d) (next_chain d) (last_send_sqe d) (nbd_reply d) (recv_cqe d).
Definition set_recv_started (v : bool) (d : nbd_queue_data) : nbd_queue_data :=
  mk_nbd_queue (in_flight_ios d) v (use_send_zc d) (need_handle_recv d) (chain_active d) (chained_send_ios d) (next_chain d) (last_send_sqe d) (nbd_reply d) (recv_cqe d).
Definition set_use_send_zc (v : bool) (d : nbd_queue_data) : nbd_queue_data :=
  mk_nbd_queue (in_flight_ios d) (recv_started d) v (need_handle_recv d) (chain_active d) (chained_send_ios d) (next_chain d) (last_send_sqe d) (nbd_reply d) (recv_cqe d).
Definition set_need_handle_recv (v : bool) (d : nbd_queue_data) : nbd_queue_data :=
  mk_nbd_queue (in_flight_ios d) (recv_started d) (use_send_zc d) v (chain_active d) (chained_send_ios d) (next_chain d) (last_send_sqe d) (nbd_reply d) (recv_cqe d).
Definition set_chain_active (v : bool) (d : nbd_queue_data) : nbd_queue_data :=
  mk_nbd_queue (in_flight_ios d) (recv_started d) (use_send_zc d) (need_handle_recv d) v (chained_send_ios d) (next_chain d) (last_send_sqe d) (nbd_reply d) (recv_cqe d).
Definition set_chained_send_ios (v : Z) (d : nbd_queue_data) : nbd_queue_data :=
  mk_nbd_queue (in_flight_ios d) (recv_started d) (use_send_zc d) (need_handle_recv d) (chain_active d) v (next_chain d) (last_send_sqe d) (nbd_reply d) (recv_cqe d).
Definition set_next_chain (v : list Z) (d : nbd_queue_data) : nbd_queue_data :=
  mk_nbd_queue (in_flight_ios d) (recv_started d) (use_send_zc d) (need_handle_recv d) (chain_active d) (chained_send_ios d) v (last_send_sqe d) (nbd_reply d) (recv_cqe d).
Definition set_last_send_sqe (v : option Z) (d : nbd_queue_data) : nbd_queue_data :=
  mk_nbd_queue (in_flight_ios d) (recv_started d) (use_send_zc d) (need_handle_recv d) (chain_active d) (chained_send_ios d) (next_chain d) v (nbd_reply d) (recv_cqe d).
Definition set_nbd_reply (v : list Z) (d : nbd_queue_data) : nbd_queue_data :=
  mk_nbd_queue (in_flight_ios d) (recv_started d) (use_send_zc d) (need_handle_recv d) (chain_active d) (chained_send_ios d) (next_chain d) (last_send_sqe d) v (recv_cqe d).
Definition set_recv_cqe (v : io_uring_cqe) (d : nbd_queue_data) : nbd_queue_data :=
  mk_nbd_queue (in_flight_ios d) (recv_started d) (use_send_zc d) (need_handle_recv d) (chain_active d) (chained_send_ios d) (next_chain d) (last_send_sqe d) (nbd_reply d) v.
Definition set_nbd_q (v : nbd_queue_data) (d : nbd_tgt) : nbd_tgt :=
  mk_nbd_tgt v (nbd_ios d) (nbd_cos d) (nbd_recv d) (recvs d).
Definition set_nbd_ios (v : list nbd_io_data) (d : nbd_tgt) : nbd_tgt :=
  mk_nbd_tgt (nbd_q d) v (nbd_cos d) (nbd_recv d) (recvs d).
Definition set_nbd_cos (v : list nbd_co) (d : nbd_tgt) : nbd_tgt :=
  mk_nbd_tgt (nbd_q d) (nbd_ios d) v (nbd_recv d) (recvs d).
Definition set_nbd_recv (v : recv_co) (d : nbd_tgt) : nbd_tgt :=
  mk_nbd_tgt (nbd_q d) (nbd_ios d) (nbd_cos d) v (recvs d).
Definition set_recvs (v : list (list Z)) (d : nbd_tgt) : nbd_tgt :=
  mk_nbd_tgt (nbd_q d) (nbd_ios d) (nbd_cos d) (nbd_recv d) v.

Ltac nsimpl := cbn [in_flight_ios recv_started use_send_zc need_handle_recv chain_active chained_send_ios next_chain last_send_sqe nbd_reply recv_cqe nbd_q nbd_ios nbd_cos nbd_recv recvs set_in_flight_ios set_recv_started set_use_send_zc set_need_handle_recv set_chain_active set_chained_send_ios set_next_chain set_last_send_sqe set_nbd_reply set_recv_cqe set_nbd_q set_nbd_ios set_nbd_cos set_nbd_recv set_recvs cmd_cookie nbd_done].

Section nbd.
Context {R : Type} `{!Uring R, !UringSlots R}.
Notation Q := (queue R nbd_tgt).
Implicit Types q : Q.
(** The address of the msghdr in the frame of a tag's coroutine, and of the
    queue's reply buffer. *)
Variable msg_addr : Z -> Z.
Variable reply_addr : Z.

Definition qd (q : Q) : nbd_queue_data := nbd_q (private_data q).
Definition upd (f : nbd_tgt -> nbd_tgt) (q : Q) : Q := set_private_data (f (private_data q)) q.
Definition upd_q (f : nbd_queue_data -> nbd_queue_data) (q : Q) : Q :=
  upd (fun t => set_nbd_q (f (nbd_q t)) t) q.
Definition get_nio (q : Q) (tag : Z) : option nbd_io_data := nbd_ios (private_data q) !! Z.to_nat tag.
Definition put_nio (tag : Z) (d : nbd_io_data) (q : Q) : Q :=
  upd (fun t => set_nbd_ios (<[Z.to_nat tag := d]> (nbd_ios t)) t) q.
Definition put_nco (tag : Z) (c : nbd_co) (q : Q) : Q :=
  upd (fun t => set_nbd_cos (<[Z.to_nat tag := c]> (nbd_cos t)) t) q.
Definition set_done (tag v : Z) (q : Q) : option Q :=
  d ← get_nio q tag; Some (put_nio tag (mk_nbd_io (cmd_cookie d) v) q).

Definition is_recv_io (q : Q) (tag : Z) : bool := q_depth q <=? tag.

(** ** Sending *)
Definition nbd_queue_req (tag : Z) (q : Q) : option (Z * Q) :=
  iod ← get_iod q tag;
  let ublk_op := ublksrv_get_op iod in
  ud ← build_user_data tag ublk_op (if ublk_op =? UBLK_IO_OP_WRITE then nr_sectors iod else 0) 1;
  let '(n, r) := ublk_queue_alloc_sqes
    [mk_sqe ud (PrepSendmsg (q_id q + 1) (msg_addr tag) (Z.lor MSG_NOSIGNAL MSG_WAITALL)
                  (use_send_zc (qd q)) (Z.lor IOSQE_FIXED_FILE IOSQE_IO_LINK))] (ring q) in
  let q := set_ring r q in
  if n =? 0 then Some (- ENOMEM, q)
  else Some (1, upd_q (fun d => set_chained_send_ios (u32 (chained_send_ios d + 1))
                                  (set_last_send_sqe (Some (last_slot r)) d)) q).

(** From [fail:] on. *)
Definition nbd_finish (tag ret : Z) (q : Q) : option Q :=
  d ← get_nio q tag;
  let ret := if ret <? 0 then ret else s32 (u32 (ret + nbd_done d)) in
  '(_, q) ← ublksrv_complete_io tag ret q;
  Some (put_nco tag NbdIdle
          (upd_q (fun d => set_in_flight_ios (u16 (in_flight_ios d - 1)) d) q)).

(** From [again:] on, to the suspension or the end. *)
Definition nbd_again (tag : Z) (req : nbd_request) (iov1 : option (Z * Z)) (q : Q) : option Q :=
  '(ret, q) ← nbd_queue_req tag q;
  if ret <? 0 then nbd_finish tag ret q
  else Some (put_nco tag (NbdSent req iov1) q).

Definition __nbd_handle_io_async (tag : Z) (q : Q) : option Q :=
  iod ← get_iod q tag;
  let type := req_to_nbd_cmd_type iod in
  let op := ublksrv_get_op iod in
  let req := mk_nbd_request NBD_REQUEST_MAGIC 0 0 0 0 in
  let iov1 := if op =? UBLK_IO_OP_WRITE
              then Some (iod_addr iod, u32 (Z.shiftl (nr_sectors iod) 9)) else None in
  if type =? -1 then nbd_finish tag (- EIO) q
  else
    d ← get_nio q tag;
    let cookie := u32 (cmd_cookie d + 1) in
    let req := __nbd_build_req (q_id q) tag cookie iod type req in
    let q := upd_q (fun d => set_in_flight_ios (u16 (in_flight_ios d + 1)) d) q in
    nbd_again tag req iov1 (put_nio tag (mk_nbd_io cookie 0) q).

(** [io->co.resume()] of a request with the result of the reply. *)
Definition nbd_resume_io (tag res : Z) (q : Q) : option Q :=
  match nbd_cos (private_data q) !! Z.to_nat tag with
  | Some (NbdSent req iov1) =>
      if res =? - EAGAIN then nbd_again tag req iov1 q else nbd_finish tag res q
  | _ => None
  end.

(** ** Receiving *)

(** The return value and, when it is positive, the tag of the read. *)
Definition nbd_handle_recv_reply (res : Z) (q : Q) : option (Z * option Z * Q) :=
  let bs := nbd_reply (qd q) in
  d ← get_nio q (q_depth q);
  if res <? 0 then Some (res, None, q)
  else if negb (reply_magic bs =? NBD_REPLY_MAGIC) then Some (- EPROTO, None, q)
  else if negb (u32 (res + nbd_done d) =? sizeof_nbd_reply) then None
  else
    let handle := reply_handle bs in
    let hwq := ublk_unique_tag_to_hwq (nbd_handle_to_tag handle) in
    let tag := ublk_unique_tag_to_tag (nbd_handle_to_tag handle) in
    if q_depth q <=? tag then Some (- EINVAL, None, q)
    else if negb (hwq =? q_id q) then Some (- EINVAL, None, q)
    else
      io ← get_nio q tag;
      if negb (cmd_cookie io =? nbd_handle_to_cookie handle) then Some (- EINVAL, None, q)
      else
        iod ← get_iod q tag;
        let ublk_op := ublksrv_get_op iod in
        if ublk_op =? UBLK_IO_OP_READ then Some (1, Some tag, q)
        else
          let err := s32 (reply_error bs) in
          let res := if negb (err =? 0) then - EIO
                     else if ublk_op =? UBLK_IO_OP_WRITE
                     then s32 (u32 (Z.shiftl (nr_sectors iod) 9)) else 0 in
          q ← nbd_resume_io tag res q;
          Some (0, None, q).

Definition __nbd_resume_read_req (tag res done : Z) (q : Q) : option Q :=
  q ← set_done tag done q; nbd_resume_io tag res q.

Definition nbd_start_recv (buf len : Z) (reply : bool) (done : Z) (q : Q) : option (Z * Q) :=
  let op := if reply then NBD_OP_READ_REPLY else UBLK_IO_OP_READ in
  let tag := q_depth q in
  ud ← build_user_data tag op 0 1;
  let '(n, r) := ublk_queue_alloc_sqes
    [mk_sqe ud (PrepRecv (q_id q + 1) (buf + done) (len - done) MSG_WAITALL IOSQE_FIXED_FILE)] (ring q) in
  let q := set_ring r q in
  if n =? 0 then Some (- ENOMEM, q)
  else
    q ← set_done tag done q;
    if in_flight_ios (qd q) =? 0 then None else Some (0, q).

(** The non-blocking receives: the bytes received and the results left. *)
Fixpoint recv_loop (loops : nat) (len : Z) (bytes : list Z) (rs : list (list Z))
    : list Z * list (list Z) :=
  match loops with
  | O => (bytes, rs)
  | S loops =>
      if Z.of_nat (length bytes) <? len then
        let bytes := bytes ++ default [] (head rs) in
        if Z.of_nat (length bytes) =? 0 then (bytes, tail rs) else recv_loop loops len bytes (tail rs)
      else (bytes, rs)
  end.

(** Returns the bytes received at once with the return value. *)
Definition nbd_do_recv (buf len : Z) (q : Q) : option (Z * list Z * Q) :=
  let loops := if len <? 512 then 16%nat else 32%nat in
  let '(bytes, rs) := recv_loop loops len [] (recvs (private_data q)) in
  let done := Z.of_nat (length bytes) in
  let q := upd (set_recvs rs) q in
  if done =? len then Some (done, bytes, q)
  else '(ret, q) ← nbd_start_recv buf len (len <? 512) done q; Some (ret, bytes, q).

(** The bytes land at the start of the reply buffer. *)
Definition put_reply (bytes : list Z) (q : Q) : Q :=
  upd_q (fun d => set_nbd_reply (bytes ++ drop (length bytes) (nbd_reply d)) d) q.

(** The end of the receiving coroutine. *)
Definition recv_end (q : Q) : Q :=
  upd (set_nbd_recv RecvIdle) (upd_q (set_recv_started false) q).

Section recv_steps.
(** The next iteration of the [while] loop. *)
Variable next : Q -> option Q.

Definition handle_read_io (io_tag res : Z) (q : Q) : option Q :=
  d ← get_nio q (q_depth q);
  q ← __nbd_resume_read_req io_tag res (nbd_done d) q;
  next q.

Definition read_io (io_tag : Z) (q : Q) : option Q :=
  iod ← get_iod q io_tag;
  let len := u32 (Z.shiftl (nr_sectors iod) 9) in
  '(ret, _, q) ← nbd_do_recv (iod_addr iod) len q;
  if ret =? s32 len then q ← set_done (q_depth q) ret q; handle_read_io io_tag 0 q
  else if ret <? 0 then Some (recv_end q)
  else Some (upd (set_nbd_recv (RecvData io_tag)) q).

Definition handle_recv (res : Z) (q : Q) : option Q :=
  '(ret, io_tag, q) ← nbd_handle_recv_reply res q;
  if ret <? 0 then Some (recv_end q)
  else if ret =? 0 then next q
  else io_tag ← io_tag; read_io io_tag q.

Definition read_reply (q : Q) : option Q :=
  '(ret, bytes, q) ← nbd_do_recv reply_addr sizeof_nbd_reply q;
  let q := put_reply bytes q in
  if ret =? sizeof_nbd_reply then q ← set_done (q_depth q) ret q; handle_recv 0 q
  else if ret <? 0 then Some (recv_end q)
  else Some (upd (set_nbd_recv RecvReply) q).
End recv_steps.

(** The [while] loop; an iteration that goes round again has completed a
    request. *)
Fixpoint recv_while (fuel : nat) (q : Q) : option Q :=
  match fuel with
  | O => None
  | S fuel => if 0 <? in_flight_ios (qd q) then read_reply (recv_while fuel) q else Some (recv_end q)
  end.

Definition recv_fuel (q : Q) : nat := S (Z.to_nat (in_flight_ios (qd q))).

Definition __nbd_handle_recv (q : Q) : option Q :=
  recv_while (recv_fuel q) (upd_q (set_recv_started true) q).

(** Resuming the receiving coroutine with the saved completion. *)
Definition nbd_recv_resume (res : Z) (q : Q) : option Q :=
  match nbd_recv (private_data q) with
  | RecvReply => if res =? - EAGAIN then read_reply (recv_while (recv_fuel q)) q
                 else handle_recv (recv_while (recv_fuel q)) res q
  | RecvData io_tag => if res =? - EAGAIN then read_io (recv_while (recv_fuel q)) io_tag q
                       else handle_read_io (recv_while (recv_fuel q)) io_tag res q
  | RecvIdle => None
  end.

(** ** Callbacks *)
Definition nbd_send_chain_busy (d : nbd_queue_data) : bool := (0 <? chained_send_ios d) && chain_active d.

Definition nbd_handle_io_async (tag : Z) (q : Q) : option (Z * Q) :=
  if nbd_send_chain_busy (qd q)
  then Some (0, upd_q (fun d => set_next_chain (next_chain d ++ [tag]) d) q)
  else q ← __nbd_handle_io_async tag q; Some (0, q).

Definition nbd_send_req_done (cqe : io_uring_cqe) (q : Q) : option Q :=
  if has (cqe_flags cqe) IORING_CQE_F_NOTIF then Some q
  else if chained_send_ios (qd q) =? 0 then None
  else
    let n := u32 (chained_send_ios (qd q) - 1) in
    Some (upd_q (fun d => set_chain_active (if n =? 0 then false else chain_active d)
                            (set_chained_send_ios n d)) q).

Definition nbd_tgt_io_done (data_tag : Z) (cqe : io_uring_cqe) (q : Q) : option Q :=
  if negb (user_data_to_tag (cqe_user_data cqe) =? data_tag) then None
  else if is_recv_io q data_tag then Some (upd_q (fun d => set_need_handle_recv true (set_recv_cqe cqe d)) q)
  else nbd_send_req_done cqe q.

Fixpoint send_chain (tags : list Z) (q : Q) : option Q :=
  match tags with
  | [] => Some q
  | tag :: tags =>
      if negb (tag <? q_depth q) then None
      else q ← __nbd_handle_io_async tag q; send_chain tags q
  end.

Definition unlink_last (q : Q) : Q :=
  match last_send_sqe (qd q) with
  | Some slot => upd_q (set_last_send_sqe None) (set_ring (sqe_unlink slot (ring q)) q)
  | None => q
  end.

Definition nbd_handle_send_bg (q : Q) : option Q :=
  q ← (if negb (nbd_send_chain_busy (qd q)) then
         q ← send_chain (next_chain (qd q)) q; Some (upd_q (set_next_chain []) q)
       else Some q);
  Some (unlink_last q).

Definition nbd_handle_recv_bg (q : Q) : option Q :=
  q ← (if negb (in_flight_ios (qd q) =? 0) && negb (recv_started (qd q))
       then __nbd_handle_recv q else Some q);
  if need_handle_recv (qd q) then
    q ← nbd_recv_resume (cqe_res (recv_cqe (qd q))) q;
    Some (upd_q (set_need_handle_recv false) q)
  else Some q.

Definition nbd_handle_io_bg (nr_queued_io : Z) (q : Q) : option Q :=
  q ← nbd_handle_send_bg q;
  q ← nbd_handle_recv_bg q;
  q ← (if (in_flight_ios (qd q) =? 0) && negb (bool_decide (next_chain (qd q) = []))
       then nbd_handle_send_bg q else Some q);
  Some (if 0 <? chained_send_ios (qd q) then upd_q (set_chain_active true) q else q).

Definition nbd_tgt_type : ublksrv_tgt_type R nbd_tgt :=
  mk_tgt_type nbd_handle_io_async (Some nbd_tgt_io_done) None (Some nbd_handle_io_bg) None.
End nbd.

(** ** The wire format *)
Lemma be_value_app bs1 bs2 :
  be_value (bs1 ++ bs2) = be_value bs1 * 2^(8 * Z.of_nat (length bs2)) + be_value bs2.
Proof.
  unfold be_value. rewrite rev_app_distr, <- length_rev. generalize (rev bs1) (rev bs2). clear.
  intros l1 l2. induction l2 as [|b l2 IH]; cbn [app le_value length].
  - cbn. lia.
  - rewrite IH. replace (8 * Z.of_nat (S (length l2))) with (8 + 8 * Z.of_nat (length l2)) by lia.
    rewrite Z.pow_add_r by lia. lia.
Qed.

(** A 32-bit field read as two 16-bit ones. *)
Lemma be_bytes_split v : is_u32 v ->
  be_value (take 2 (be_bytes 4 v)) = v / 2^16 /\ be_value (drop 2 (be_bytes 4 v)) = v mod 2^16.
Proof.
  intros Hv. unfold is_u32 in Hv.
  set (a := take 2 (be_bytes 4 v)). set (b := drop 2 (be_bytes 4 v)).
  assert (Hab : be_value a * 2^16 + be_value b = v).
  { assert (Hb : length b = 2%nat) by (subst b; by rewrite length_drop, length_be_bytes).
    pose proof (be_value_app a b) as H. rewrite Hb in H. unfold a, b in H. rewrite take_drop in H.
    rewrite be_value_bytes in H. change (8 * Z.of_nat 2) with 16 in H.
    change (8 * Z.of_nat 4) with 32 in H. rewrite Z.mod_small in H by lia. subst a b. lia. }
  assert (0 <= be_value b < 2^16).
  { subst b. unfold be_bytes, be_value. cbn [le_bytes rev app drop le_value].
    Z.div_mod_to_equations. lia. }
  Z.div_mod_to_equations. lia.
Qed.

Lemma nbd_handle_decode qid tag cookie : is_u16 qid -> is_u16 tag -> is_u32 cookie ->
  let h := nbd_cmd_handle qid tag cookie in
  is_u64 h /\ nbd_handle_to_cookie h = cookie /\
  ublk_unique_tag_to_hwq (nbd_handle_to_tag h) = qid /\
  ublk_unique_tag_to_tag (nbd_handle_to_tag h) = tag.
Proof.
  intros Hq Ht Hc h. pose proof (unique_tag_roundtrip qid tag Hq Ht) as [H1 H2].
  assert (Hu : is_u32 (ublk_unique_tag qid tag)) by apply u32_bound.
  subst h. unfold nbd_cmd_handle. rewrite (u16_id qid), (u16_id tag) by done.
  unfold is_u16, is_u32 in *. set (u := ublk_unique_tag qid tag) in *.
  unfold NBD_COOKIE_BITS, u64. rewrite Z.mod_small by (rewrite Z.shiftl_mul_pow2; lia).
  rewrite Z.lor_comm, lor_shiftl_add by lia.
  assert (nbd_handle_to_tag (u + cookie * 2^32) = u) as Htag.
  { unfold nbd_handle_to_tag, u32. rewrite Z.mod_add by lia. by apply Z.mod_small. }
  rewrite Htag. split; [unfold is_u64; lia|]. split; [|done].
  unfold nbd_handle_to_cookie, NBD_COOKIE_BITS, u32. rewrite Z.shiftr_div_pow2, Z.div_add by lia.
  rewrite Z.div_small, Z.add_0_l, Z.mod_small by lia. done.
Qed.

(** Reading a field off the front of a byte sequence. *)
Lemma take_field {A} n (l1 l2 : list A) : length l1 = n -> take n (l1 ++ l2) = l1.
Proof. intros <-. apply take_app_length. Qed.
Lemma drop_field {A} n m (l1 l2 : list A) : length l1 = n -> drop (n + m) (l1 ++ l2) = drop m l2.
Proof. intros <-. apply drop_app_add. Qed.

Lemma nbd_request_fields r :
  let bs := nbd_request_bytes r in
  length bs = 28%nat /\ take 4 bs = be_bytes 4 (req_magic r) /\ take 4 (drop 4 bs) = be_bytes 4 (req_type r) /\
  take 8 (drop 8 bs) = le_bytes 8 (req_handle r) /\ take 8 (drop 16 bs) = be_bytes 8 (req_from r) /\
  drop 24 bs = be_bytes 4 (req_len r).
Proof.
  intros bs. subst bs. unfold nbd_request_bytes. split.
  { by rewrite !length_app, !length_be_bytes, length_le_bytes. }
  pose proof length_be_bytes as Hbe. pose proof length_le_bytes as Hle.
  split; [by apply take_field|]. split.
  { change 4%nat with (4 + 0)%nat at 2. rewrite (drop_field 4) by done. by apply take_field. }
  split.
  { change 8%nat with (4 + (4 + 0))%nat at 2. rewrite !(drop_field 4) by done. by apply take_field. }
  split.
  { change 16%nat with (4 + (4 + (8 + 0)))%nat. rewrite !(drop_field 4), (drop_field 8) by done. by apply take_field. }
  change 24%nat with (4 + (4 + (8 + (8 + 0))))%nat. by rewrite !(drop_field 4), !(drop_field 8).
Qed.

(** A request goes out in the NBD wire format: 28 bytes with the magic,
    the FUA flag exactly when the block layer set it, the command of the
    operation, a handle that names the queue, the tag and the generation of
    the request, and (but for a flush) the byte offset and length of the
    sectors asked for. *)
Theorem nbd_request_wire qid tag cookie iod :
  is_u16 qid -> is_u16 tag -> is_u32 cookie ->
  0 <= start_sector iod < 2^55 -> 0 <= nr_sectors iod < 2^23 ->
  let type := req_to_nbd_cmd_type iod in
  type <> -1 ->
  let bs := nbd_request_bytes (__nbd_build_req qid tag cookie iod type
                                 (mk_nbd_request NBD_REQUEST_MAGIC 0 0 0 0)) in
  length bs = 28%nat /\ be_value (take 4 bs) = NBD_REQUEST_MAGIC /\
  be_value (take 2 (drop 4 bs)) = (if has (op_flags iod) UBLK_IO_F_FUA then 1 else 0) /\
  be_value (take 2 (drop 6 bs)) = type /\
  (let h := le_value (take 8 (drop 8 bs)) in
   nbd_handle_to_cookie h = cookie /\ ublk_unique_tag_to_hwq (nbd_handle_to_tag h) = qid /\
   ublk_unique_tag_to_tag (nbd_handle_to_tag h) = tag) /\
  (type <> NBD_CMD_FLUSH ->
   be_value (take 8 (drop 16 bs)) = start_sector iod * 512 /\
   be_value (drop 24 bs) = nr_sectors iod * 512).
Proof.
  intros Hq Ht Hc Hs Hn type Htype. set (r := __nbd_build_req _ _ _ _ _ _). intros bs.
  destruct (nbd_request_fields r) as (Hlen&Hmag&Hty&Hh&Hfrom&Hl). fold bs in Hlen, Hmag, Hty, Hh, Hfrom, Hl.
  assert (Hrange : 0 <= type < 2^16).
  { subst type. unfold req_to_nbd_cmd_type in *. repeat case_match; done. }
  assert (Hrt : req_type r = type + (if has (op_flags iod) UBLK_IO_F_FUA then 1 else 0) * 2^16).
  { subst r. unfold __nbd_build_req. cbn [req_type]. rewrite u32_id by (unfold is_u32; lia).
    case_match; [|rewrite Z.lor_0_r; lia]. unfold NBD_CMD_FLAG_FUA, NBD_CMD_SHIFT.
    rewrite lor_shiftl_add by lia. done. }
  split; [done|]. split; [rewrite Hmag, be_value_bytes; done|].
  destruct (be_bytes_split (req_type r)) as [Hhi Hlo].
  { rewrite Hrt. unfold is_u32. case_match; lia. }
  rewrite <- Hty in Hhi, Hlo. rewrite Hrt, take_take in Hhi. rewrite Hrt in Hlo.
  change (2 `min` 4)%nat with 2%nat in Hhi.
  split; [rewrite Hhi, Z.div_add, Z.div_small by lia; lia|].
  split; [rewrite Z.mod_add, Z.mod_small in Hlo by lia;
          by rewrite skipn_firstn_comm, drop_drop in Hlo|].
  destruct (nbd_handle_decode qid tag cookie Hq Ht Hc) as (Hu&Hd).
  split; [rewrite Hh, le_value_bytes; unfold is_u64 in Hu; rewrite Z.mod_small by exact Hu; exact Hd|].
  intros Hfl. rewrite Hfrom, Hl, !be_value_bytes. subst r. unfold __nbd_build_req.
  rewrite (proj2 (Z.eqb_neq _ _) Hfl). cbn [req_from req_len fst snd]. unfold u64, u32.
  rewrite !Z.shiftl_mul_pow2 by lia. change (8 * Z.of_nat 8) with 64. change (8 * Z.of_nat 4) with 32.
  rewrite !Z.mod_mod by lia. rewrite !Z.mod_small by lia. lia.
Qed.

(** ** Requests and replies *)
Section nbd_proofs.
Context {R : Type} `{!Uring R, !UringLaws R, !UringSlots R, !UringSlotsLaws R}.
Notation Q := (queue R nbd_tgt).
Implicit Types q : Q.
Variable msg_addr : Z -> Z.

(** Tag [i] waits for the reply to [req]. *)
Definition awaiting (i : nat) (req : nbd_request) (q : Q) : Prop :=
  exists cookie iov1, nbd_cos (private_data q) !! i = Some (NbdSent req iov1) /\
    get_nio q (Z.of_nat i) = Some (mk_nbd_io cookie 0) /\ is_u32 cookie /\
    req_handle req = nbd_cmd_handle (q_id q) (Z.of_nat i) cookie.

(** What a server answers: the handle bytes of the request as it got them. *)
Definition server_reply (err : Z) (request : list Z) : list Z :=
  be_bytes 4 NBD_REPLY_MAGIC ++ be_bytes 4 err ++ take 8 (drop 8 request).

Lemma server_reply_fields err req : is_u32 err -> is_u64 (req_handle req) ->
  let bs := server_reply err (nbd_request_bytes req) in
  reply_magic bs = NBD_REPLY_MAGIC /\ reply_error bs = err /\ reply_handle bs = req_handle req.
Proof.
  intros He Hh bs. subst bs. unfold server_reply, reply_magic, reply_error, reply_handle.
  destruct (nbd_request_fields req) as (_&_&_&->&_).
  pose proof length_be_bytes as Hbe. pose proof length_le_bytes as Hle. split; [|split].
  - rewrite take_field by done. by rewrite be_value_bytes.
  - change 4%nat with (4 + 0)%nat at 2. rewrite (drop_field 4), drop_0, take_field by done.
    rewrite be_value_bytes. by apply Z.mod_small.
  - change 8%nat with (4 + (4 + 0))%nat at 2. rewrite !(drop_field 4), drop_0 by done.
    rewrite firstn_all2 by (by rewrite Hle). rewrite le_value_bytes. by apply Z.mod_small.
Qed.

Lemma upd_get_nio f q tag : (forall t, nbd_ios (f t) = nbd_ios t) -> get_nio (upd f q) tag = get_nio q tag.
Proof. intros Hf. unfold get_nio, upd. qsimpl. by rewrite Hf. Qed.

Lemma qsim_upd f q A : qsim q A -> qsim (upd f q) A.
Proof. intros []. by split. Qed.

Lemma get_nio_nat q i : get_nio q (Z.of_nat i) = nbd_ios (private_data q) !! i.
Proof. unfold get_nio. by rewrite Nat2Z.id. Qed.

(** Completing a request: one COMMIT with the result, one request less in flight. *)
Lemma nbd_finish_spec `{!UringProgress R} q A i d ret :
  qsim q A -> a_tags A !! i = Some TTarget -> get_nio q (Z.of_nat i) = Some d -> is_s32 ret ->
  is_s32 (ret + nbd_done d) ->
  let res := if ret <? 0 then ret else ret + nbd_done d in
  exists q', nbd_finish (Z.of_nat i) ret q = Some q' /\
    qsim q' (send i UBLK_IO_COMMIT_AND_FETCH_REQ (Some res) A) /\
    nbd_cos (private_data q') = <[i := NbdIdle]> (nbd_cos (private_data q)) /\
    qd q' = set_in_flight_ios (u16 (in_flight_ios (qd q) - 1)) (qd q).
Proof.
  intros Hs Ht Hd Hr Hr' res. unfold nbd_finish. rewrite Hd. cbn [mbind option_bind].
  assert ((if ret <? 0 then ret else s32 (u32 (ret + nbd_done d))) = res) as ->.
  { subst res. case_match; [done|]. by apply s32_u32. }
  destruct (complete_io_progress q A i res Hs Ht) as (q1&->&(Hv&_)&Hs1); [by subst res; case_match|].
  cbn [mbind option_bind]. eexists. split; [done|].
  assert (Hp : private_data q1 = private_data q) by (by injection Hv).
  split; [unfold put_nco, upd_q; by do 2 apply qsim_upd|]. unfold put_nco, upd_q, upd, qd. qsimpl. nsimpl.
  rewrite Hp, Nat2Z.id. done.
Qed.

(** The result a reply stands for. *)
Definition reply_result (iod : ublksrv_io_desc) (err : Z) : Z :=
  if negb (err =? 0) then - EIO
  else if ublksrv_get_op iod =? UBLK_IO_OP_WRITE then nr_sectors iod * 512 else 0.

Lemma nbd_handle_recv_reply_decode q d res qid tag cookie io iod :
  get_nio q (q_depth q) = Some d -> 0 <= res -> u32 (res + nbd_done d) = sizeof_nbd_reply ->
  reply_magic (nbd_reply (qd q)) = NBD_REPLY_MAGIC ->
  reply_handle (nbd_reply (qd q)) = nbd_cmd_handle qid (Z.of_nat tag) cookie ->
  is_u16 qid -> is_u16 (Z.of_nat tag) -> is_u32 cookie ->
  get_nio q (Z.of_nat tag) = Some io -> get_iod q (Z.of_nat tag) = Some iod ->
  nbd_handle_recv_reply msg_addr res q =
    if (q_depth q <=? Z.of_nat tag) || negb (qid =? q_id q) || negb (cmd_cookie io =? cookie)
    then Some (- EINVAL, None, q)
    else if ublksrv_get_op iod =? UBLK_IO_OP_READ then Some (1, Some (Z.of_nat tag), q)
    else
      q' ← nbd_resume_io msg_addr (Z.of_nat tag)
             (if negb (s32 (reply_error (nbd_reply (qd q))) =? 0) then - EIO
              else if ublksrv_get_op iod =? UBLK_IO_OP_WRITE
              then s32 (u32 (Z.shiftl (nr_sectors iod) 9)) else 0) q;
      Some (0, None, q').
Proof.
  intros Hd Hres Hlen Hm Hh Hq Ht Hc Hio Hiod.
  destruct (nbd_handle_decode qid (Z.of_nat tag) cookie Hq Ht Hc) as (_&Hck&Hhw&Htag).
  unfold nbd_handle_recv_reply. rewrite Hd. cbn [mbind option_bind].
  rewrite (proj2 (Z.ltb_ge _ _)), Hm, Z.eqb_refl, Hlen, Z.eqb_refl by done. cbn [negb].
  rewrite Hh, Hhw, Htag, Hck, Hio, Hiod. cbn [mbind option_bind].
  destruct (q_depth q <=? Z.of_nat tag); [done|]. cbn [orb].
  destruct (qid =? q_id q); [|done]. cbn [negb orb].
  destruct (cmd_cookie io =? cookie); done.
Qed.

(** C17: The reply to a request completes that request and no other: when the
    server echoes the handle of the request tag [i] waits with, a write, flush
    or discard is completed with the bytes written (or zero), or with -EIO when
    the server reports an error, by exactly one COMMIT for tag [i]; for a read
    the receiver goes on to the data of tag [i]. *)
Theorem nbd_reply_completes `{!UringProgress R} q A i req iod d res err :
  qsim q A -> a_tags A !! i = Some TTarget -> get_iod q (Z.of_nat i) = Some iod ->
  is_u16 (q_id q) -> awaiting i req q -> 0 <= nr_sectors iod < 2^22 -> is_u32 err ->
  get_nio q (q_depth q) = Some d -> 0 <= res -> u32 (res + nbd_done d) = sizeof_nbd_reply ->
  nbd_reply (qd q) = server_reply err (nbd_request_bytes req) ->
  if ublksrv_get_op iod =? UBLK_IO_OP_READ
  then nbd_handle_recv_reply msg_addr res q = Some (1, Some (Z.of_nat i), q)
  else exists q', nbd_handle_recv_reply msg_addr res q = Some (0, None, q') /\
    qsim q' (send i UBLK_IO_COMMIT_AND_FETCH_REQ (Some (reply_result iod err)) A) /\
    in_flight_ios (qd q') = u16 (in_flight_ios (qd q) - 1).
Proof.
  intros Hs Ht Hiod Hqid (cookie&iov1&Hco&Hnio&Hck&Hh) Hn He Hd Hres Hlen Hrep.
  pose proof (qsim_tag_lt _ _ _ _ Hs Ht) as [Hi Hid]. unfold UBLK_MAX_QUEUE_DEPTH in Hi.
  assert (Hti : is_u16 (Z.of_nat i)) by (unfold is_u16; lia).
  destruct (nbd_handle_decode (q_id q) (Z.of_nat i) cookie Hqid Hti Hck) as (Hu&_). rewrite <- Hh in Hu.
  destruct (server_reply_fields err req He Hu) as (Hm&Herr&Hhandle). rewrite <- Hrep in Hm, Herr, Hhandle.
  rewrite (nbd_handle_recv_reply_decode q d res (q_id q) i cookie (mk_nbd_io cookie 0) iod); try done;
    [|by rewrite Hhandle].
  cbn [cmd_cookie]. rewrite !Z.eqb_refl, (proj2 (Z.leb_gt _ _)) by lia. cbn [negb orb].
  destruct (ublksrv_get_op iod =? UBLK_IO_OP_READ); [done|].
  rewrite Herr. unfold nbd_resume_io. rewrite Nat2Z.id, Hco.
  set (r := if negb (s32 err =? 0) then _ else _).
  assert (r = reply_result iod err) as Hr.
  { subst r. unfold reply_result. replace (s32 err =? 0) with (err =? 0).
    - case_match; [done|]. case_match; [|done]. rewrite Z.shiftl_mul_pow2 by lia.
      apply s32_u32. unfold is_s32. lia.
    - unfold s32, is_u32 in *. apply eq_bool_prop_intro. rewrite !Is_true_true, !Z.eqb_eq.
      Z.div_mod_to_equations. lia. }
  assert (is_s32 r /\ r <> - EAGAIN) as [Hr32 Hne].
  { rewrite Hr. unfold reply_result, is_s32. split; repeat case_match; unfold EIO, EAGAIN; lia. }
  rewrite (proj2 (Z.eqb_neq _ _) Hne).
  destruct (nbd_finish_spec q A i (mk_nbd_io cookie 0) r Hs Ht Hnio Hr32) as (q'&->&Hs'&_&Hqd);
    [cbn [nbd_done]; by rewrite Z.add_0_r|].
  cbn [mbind option_bind]. exists q'. split; [done|]. cbn [nbd_done] in Hs'.
  rewrite Z.add_0_r, Hr in Hs'. split; [by destruct (_ <? 0)|]. by rewrite Hqd.
Qed.

(** C18: A reply is matched by generation: one that echoes a handle of a tag
    the queue does not have, of another queue, or of an earlier request of one
    of the queue's tags (another cookie than its last request) is refused with
    -EINVAL and changes nothing. *)
Theorem nbd_stale_reply_rejected q d res qid tag cookie :
  get_nio q (q_depth q) = Some d -> 0 <= res -> u32 (res + nbd_done d) = sizeof_nbd_reply ->
  reply_magic (nbd_reply (qd q)) = NBD_REPLY_MAGIC ->
  reply_handle (nbd_reply (qd q)) = nbd_cmd_handle qid tag cookie ->
  is_u16 qid -> is_u16 tag -> is_u32 cookie ->
  q_depth q <= tag \/ qid <> q_id q \/ (exists io, get_nio q tag = Some io /\ cmd_cookie io <> cookie) ->
  nbd_handle_recv_reply msg_addr res q = Some (- EINVAL, None, q).
Proof.
  intros Hd Hres Hlen Hm Hh Hq Ht Hc Hbad.
  destruct (nbd_handle_decode qid tag cookie Hq Ht Hc) as (_&Hck&Hhw&Htag).
  unfold nbd_handle_recv_reply. rewrite Hd. cbn [mbind option_bind].
  rewrite (proj2 (Z.ltb_ge _ _)), Hm, Z.eqb_refl, Hlen, Z.eqb_refl by done. cbn [negb].
  rewrite Hh, Hhw, Htag, Hck. destruct (Z.leb_spec (q_depth q) tag); [done|].
  destruct (Z.eqb_spec qid (q_id q)); [|done]. cbn [negb].
  destruct Hbad as [?|[?|(io&->&Hne)]]; [lia|done|]. cbn [mbind option_bind]. by rewrite (proj2 (Z.eqb_neq _ _) Hne).
Qed.

Lemma alloc_sqes_one s (r : R) :
  ublk_queue_alloc_sqes [s] r = ((if (ublksrv_alloc_sqe s r).1 then 1 else 0), (ublksrv_alloc_sqe s r).2).
Proof.
  unfold ublk_queue_alloc_sqes, ublksrv_alloc_sqe. cbn [length alloc_sqes_loop].
  change (Z.of_nat 1) with 1. by destruct (io_uring_get_sqe s _).
Qed.

(** Queueing the message of a request. *)
Definition send_sqe (q : Q) (tag ud : Z) : io_uring_sqe :=
  mk_sqe ud (PrepSendmsg (q_id q + 1) (msg_addr tag) (Z.lor MSG_NOSIGNAL MSG_WAITALL)
               (use_send_zc (qd q)) (Z.lor IOSQE_FIXED_FILE IOSQE_IO_LINK)).

Lemma nbd_queue_req_spec `{!UringProgress R} q A i iod :
  qsim q A -> a_tags A !! i = Some TTarget -> get_iod q (Z.of_nat i) = Some iod ->
  is_u16 (nr_sectors iod) ->
  exists ud r q', nbd_queue_req msg_addr (Z.of_nat i) q = Some (1, q') /\
    user_data_to_tag ud = Z.of_nat i /\ ring_log r = ring_log (ring q) ++ [send_sqe q (Z.of_nat i) ud] /\
    qsim q' A /\ ring q' = r /\
    q' = upd_q (fun d => set_chained_send_ios (u32 (chained_send_ios d + 1))
                           (set_last_send_sqe (Some (last_slot r)) d)) (set_ring r q).
Proof.
  intros Hs Ht Hiod Hn. pose proof (qsim_tag_lt _ _ _ _ Hs Ht) as [Hi _]. unfold UBLK_MAX_QUEUE_DEPTH in Hi.
  unfold nbd_queue_req. rewrite Hiod. cbn [mbind option_bind].
  set (td := if _ =? UBLK_IO_OP_WRITE then nr_sectors iod else 0).
  assert (is_u16 td) by (subst td; by case_match).
  assert (is_u16 (Z.of_nat i)) by (unfold is_u16; lia).
  rewrite user_data_sum by (done || apply get_op_u8 || lia). cbn [mbind option_bind].
  set (ud := Z.of_nat i + _ + _ + _). rewrite alloc_sqes_one. fold (send_sqe q (Z.of_nat i) ud).
  destruct (alloc_sqe_progress (send_sqe q (Z.of_nat i) ud) (ring q)) as [r Hr]; [apply Hs|].
  pose proof (alloc_sqe_spec _ _ _ _ Hr) as [Hlog _]. rewrite Hr. cbn [fst snd].
  exists ud, r. eexists. split; [done|].
  split; [apply (user_data_decode (Z.of_nat i) (ublksrv_get_op iod) td 1); [done|apply get_op_u8|done|lia]|].
  split; [done|]. split; [|done]. apply qsim_upd. by eapply qsim_other_sqe; [..|exact Hr].
Qed.

(** Accepting a request of a supported operation sends exactly one
    message for it and leaves it awaiting the reply to that message: the
    generation is the next one, the request is counted in flight and linked
    into the chain, and the tag stays with the target until the reply comes. *)
Theorem nbd_request_sent `{!UringProgress R} q A i iod d c :
  qsim q A -> a_tags A !! i = Some TTarget -> get_iod q (Z.of_nat i) = Some iod ->
  is_u16 (nr_sectors iod) -> req_to_nbd_cmd_type iod <> -1 ->
  get_nio q (Z.of_nat i) = Some d -> nbd_cos (private_data q) !! i = Some c ->
  exists q' req ud, __nbd_handle_io_async msg_addr (Z.of_nat i) q = Some q' /\
    awaiting i req q' /\ qsim q' A /\
    ring_log (ring q') = ring_log (ring q) ++ [send_sqe q (Z.of_nat i) ud] /\
    user_data_to_tag ud = Z.of_nat i /\
    req = __nbd_build_req (q_id q) (Z.of_nat i) (u32 (cmd_cookie d + 1)) iod (req_to_nbd_cmd_type iod)
            (mk_nbd_request NBD_REQUEST_MAGIC 0 0 0 0) /\
    in_flight_ios (qd q') = u16 (in_flight_ios (qd q) + 1) /\
    chained_send_ios (qd q') = u32 (chained_send_ios (qd q) + 1) /\
    last_send_sqe (qd q') = Some (last_slot (ring q')).
Proof.
  intros Hs Ht Hiod Hn Htype Hd Hc. unfold __nbd_handle_io_async. rewrite Hiod. cbn [mbind option_bind].
  rewrite (proj2 (Z.eqb_neq _ _) Htype), Hd. cbn [mbind option_bind].
  set (cookie := u32 (cmd_cookie d + 1)). set (req := __nbd_build_req _ _ _ _ _ _).
  set (q1 := put_nio _ _ _). set (iov1 := if _ =? UBLK_IO_OP_WRITE then _ else _).
  assert (Hs1 : qsim q1 A) by (by do 2 apply qsim_upd).
  unfold nbd_again. destruct (nbd_queue_req_spec q1 A i iod Hs1 Ht Hiod Hn)
    as (ud&r&q2&->&Htag&Hlog&Hs2&Hr2&->). cbn [mbind option_bind].
  change (1 <? 0) with false. cbn iota.
  eexists _, req, ud. split; [done|].
  assert (Hlt : (i < length (nbd_ios (private_data q)))%nat).
  { rewrite get_nio_nat in Hd. by eapply lookup_lt_Some. }
  split.
  { exists cookie, iov1. unfold put_nco, upd_q, upd, get_nio, q1, put_nio, upd_q, upd. qsimpl. nsimpl.
    rewrite !Nat2Z.id. split; [apply list_lookup_insert_eq; by eapply lookup_lt_Some|].
    split; [by apply list_lookup_insert_eq|]. split; [apply u32_bound|done]. }
  split; [by apply qsim_upd|]. split; [done|]. split; [done|]. split; [done|].
  split; [done|]. split; [done|]. done.
Qed.

(** An operation the target does not support is answered with -EIO, but
    the request is uncounted without having been counted: with nothing in
    flight the 16-bit counter wraps to 65535. *)
Theorem nbd_unsupported_op_underflow `{!UringProgress R} q A i iod d :
  qsim q A -> a_tags A !! i = Some TTarget -> get_iod q (Z.of_nat i) = Some iod ->
  req_to_nbd_cmd_type iod = -1 -> get_nio q (Z.of_nat i) = Some d -> is_s32 (nbd_done d - EIO) ->
  in_flight_ios (qd q) = 0 ->
  exists q', __nbd_handle_io_async msg_addr (Z.of_nat i) q = Some q' /\
    qsim q' (send i UBLK_IO_COMMIT_AND_FETCH_REQ (Some (- EIO)) A) /\
    in_flight_ios (qd q') = 65535.
Proof.
  intros Hs Ht Hiod Htype Hd Hdone Hinf. unfold __nbd_handle_io_async. rewrite Hiod. cbn [mbind option_bind].
  rewrite Htype, Z.eqb_refl.
  destruct (nbd_finish_spec q A i d (- EIO) Hs Ht Hd) as (q'&->&Hs'&_&Hqd); [done|..].
  { by rewrite Z.add_comm, Z.add_opp_r. }
  exists q'. split; [done|]. split; [done|]. rewrite Hqd, Hinf. done.
Qed.

(** ** The send chain *)
Definition linked (s : io_uring_sqe) : bool := has (sqe_flags s) IOSQE_IO_LINK.
Definition is_send (s : io_uring_sqe) : bool :=
  match sqe_what s with PrepSendmsg _ _ _ _ _ => true | _ => false end.

(** Every linked entry is followed by a send: the chain contains nothing but
    sends and is closed. *)
Definition chain_ok (l : list io_uring_sqe) : Prop :=
  forall i s, l !! i = Some s -> linked s = true -> exists s', l !! S i = Some s' /\ is_send s' = true.

Definition ring_ok (r : R) : Prop := 1 <= sq_entries r.

(** A chain under construction at the end of the pending entries. *)
Definition building (q : Q) : Prop :=
  ring_ok (ring q) /\ exists pre sends, sq_pending (ring q) = pre ++ sends /\ chain_ok pre /\
    Forall (fun s => is_send s = true) sends /\
    (sends <> [] -> last_send_sqe (qd q) = Some (last_slot (ring q))).

Lemma unlink_linked s : linked (unlink_sqe s) = false.
Proof.
  unfold linked, unlink_sqe, has. destruct s as [ud w]. destruct w; cbn [sqe_flags sqe_set_flags sqe_what]; try done.
  all: rewrite <- Z.land_assoc, (Z.land_comm (Z.lnot _)), Z.land_lnot_diag, Z.land_0_r; done.
Qed.

Lemma unlink_send s : is_send (unlink_sqe s) = is_send s.
Proof. by destruct s as [ud []]. Qed.

Lemma chain_ok_drop k l : chain_ok l -> chain_ok (drop k l).
Proof.
  intros Hc i s. rewrite !lookup_drop. intros Hi Hl. destruct (Hc _ _ Hi Hl) as (s'&Hs'&?).
  exists s'. by rewrite <- Nat.add_succ_r in Hs'.
Qed.

Lemma chain_ok_snoc l s : chain_ok l -> linked s = false -> chain_ok (l ++ [s]).
Proof.
  intros Hc Hs i s' Hi Hl. apply lookup_app_Some in Hi as [Hi|[Hge Hi]].
  - destruct (Hc _ _ Hi Hl) as (s2&Hs2&?). exists s2. split; [|done]. by apply lookup_app_l_Some.
  - apply list_lookup_singleton_Some in Hi as [_ <-]. congruence.
Qed.

Lemma alloc_pending `{!UringProgress R} s (r : R) : ring_ok r ->
  exists r' k, ublksrv_alloc_sqe s r = (true, r') /\ sq_pending r' = drop k (sq_pending r) ++ [s] /\ ring_ok r'.
Proof.
  intros Hr. unfold ublksrv_alloc_sqe. set (r1 := if io_uring_sq_space_left r <? 1 then _ else _).
  assert (exists k, sq_pending r1 = drop k (sq_pending r) /\ ring_ok r1 /\ 1 <= io_uring_sq_space_left r1)
    as (k&Hp&Hr1&Hsp).
  { subst r1. unfold ring_ok in *. case_match; bool_prop.
    - destruct (submit_submits r) as [He (k&_&Hp)]. exists k. rewrite He. split; [done|]. split; [done|].
      by apply submit_progress.
    - exists 0%nat. by rewrite drop_0. }
  apply (get_sqe_space s) in Hsp as [r2 Hr2]. rewrite Hr2. apply get_sqe_push in Hr2 as (He&_&Hp2).
  exists r2, k. split; [done|]. unfold ring_ok in *. by rewrite Hp2, Hp, He.
Qed.

(** Another message joins the chain. *)
Lemma building_push `{!UringProgress R} q s r f :
  building q -> is_send s = true -> ublksrv_alloc_sqe s (ring q) = (true, r) ->
  last_send_sqe (f (qd q)) = Some (last_slot r) -> building (upd_q f (set_ring r q)).
Proof.
  intros (Hr&pre&sends&Hp&Hpre&Hsends&_) Hs Ha Hlast.
  destruct (alloc_pending s (ring q) Hr) as (r'&k&Ha'&Hp'&Hr'). rewrite Ha in Ha'. injection Ha' as <-.
  split; [done|]. rewrite Hp, drop_app in Hp'. exists (drop k pre), (drop (k - length pre) sends ++ [s]).
  split; [unfold upd_q, upd; qsimpl; by rewrite Hp', <- app_assoc|]. split; [by apply chain_ok_drop|].
  split; [|done]. apply Forall_app. split; [by apply Forall_drop|by constructor].
Qed.

Definition supported (q : Q) (tag : Z) : Prop :=
  exists iod, get_iod q tag = Some iod /\ req_to_nbd_cmd_type iod <> -1.

(** What sending leaves alone. *)
Definition same_iods (q q' : Q) : Prop :=
  ios q' = ios q /\ io_cmd_buf q' = io_cmd_buf q /\ state q' = state q.

Lemma same_iods_supported q q' tag : same_iods q q' -> supported q tag -> supported q' tag.
Proof.
  intros (Hi&Hb&_) (iod&Hiod&?). exists iod. split; [|done]. unfold get_iod, get_io in *. by rewrite Hi, Hb.
Qed.

Lemma io_async_building `{!UringProgress R} tag q q' :
  building q -> supported q tag -> __nbd_handle_io_async msg_addr tag q = Some q' ->
  (building q' /\ next_chain (qd q') = next_chain (qd q)) /\ same_iods q q'.
Proof.
  intros Hb (iod&Hiod&Htype). unfold __nbd_handle_io_async. rewrite Hiod. cbn [mbind option_bind].
  rewrite (proj2 (Z.eqb_neq _ _) Htype). destruct (get_nio q tag) as [d|]; [|done]. cbn [mbind option_bind].
  set (q1 := put_nio _ _ _). unfold nbd_again, nbd_queue_req.
  change (get_iod q1 tag) with (get_iod q tag). rewrite Hiod. cbn [mbind option_bind].
  destruct (build_user_data _ _ _ _) as [ud|]; [|done]. cbn [mbind option_bind].
  rewrite alloc_sqes_one. set (s := mk_sqe ud _).
  destruct (alloc_pending s (ring q1)) as (r&k&Ha&_&_); [apply Hb|]. rewrite Ha. cbn [fst snd].
  change (1 =? 0) with false. cbn [mbind option_bind]. change (1 <? 0) with false. cbn iota.
  intros [= <-]. split; [|done]. split; [|done]. by apply (building_push q1 s r _ Hb).
Qed.

Lemma send_chain_building `{!UringProgress R} tags q q' :
  building q -> Forall (supported q) tags -> send_chain msg_addr tags q = Some q' ->
  building q' /\ same_iods q q'.
Proof.
  revert q. induction tags as [|tag tags IH]; intros q Hb Hsup; cbn [send_chain].
  { intros [= <-]. done. }
  apply Forall_cons in Hsup as [Hs Hsup]. destruct (negb _); [done|].
  destruct (__nbd_handle_io_async msg_addr tag q) as [q1|] eqn:Hq1; [|done]. cbn [mbind option_bind].
  destruct (io_async_building tag q q1 Hb Hs Hq1) as [[Hb1 _] Hi1]. intros Hrest.
  destruct (IH q1 Hb1) as [Hb2 Hi2]; [|done|].
  - eapply Forall_impl; [exact Hsup|]. intros t. by apply same_iods_supported.
  - split; [done|]. destruct Hi1 as (?&?&?), Hi2 as (?&?&?). repeat split; congruence.
Qed.

(** Clearing the link of the last send closes the chain. *)
Lemma unlink_some_chain l (f : nat -> bool) : chain_ok l ->
  chain_ok (imap (fun i s => if f i then unlink_sqe s else s) l).
Proof.
  intros Hc i s Hi Hl. rewrite list_lookup_imap in Hi. destruct (l !! i) as [s0|] eqn:H0; [|done].
  cbn in Hi. injection Hi as <-. assert (linked s0 = true) as Hl0.
  { destruct (f i); [by rewrite unlink_linked in Hl|done]. }
  destruct (Hc _ _ H0 Hl0) as (s'&Hs'&Hsend). rewrite list_lookup_imap, Hs'. cbn. eexists. split; [done|].
  destruct (f (S i)); by rewrite ?unlink_send.
Qed.

Lemma unlink_last_chain q : building q ->
  chain_ok (sq_pending (ring (unlink_last q))) /\ ring_ok (ring (unlink_last q)) /\ same_iods q (unlink_last q).
Proof.
  intros (Hr&pre&sends&Hp&Hpre&Hsends&Hlast). unfold unlink_last.
  destruct sends as [|s0 sends' _] using rev_ind.
  { rewrite app_nil_r in Hp. destruct (last_send_sqe (qd q)) as [slot|]; [|by rewrite Hp].
    unfold upd_q, upd, ring_ok. qsimpl. rewrite sqe_unlink_pending, sqe_unlink_entries, Hp.
    split; [by apply (unlink_some_chain pre (fun i => _ =? _))|done]. }
  rewrite Hlast by (by destruct sends'). unfold upd_q, upd, ring_ok. qsimpl.
  rewrite sqe_unlink_pending, sqe_unlink_entries, Hp. split; [|done].
  set (f := fun i => slot_of (ring q) (length (sq_issued (ring q)) + i) =? last_slot (ring q)).
  set (n := (length pre + length sends')%nat).
  assert (Hfn : f n = true).
  { subst f. cbn. apply Z.eqb_eq. unfold last_slot. f_equal. unfold ring_log.
    rewrite !length_app, Hp, !length_app. cbn. lia. }
  intros i s Hi Hl. change (imap (fun i s => if f i then unlink_sqe s else s) (pre ++ sends' ++ [s0]) !! i = Some s) in Hi.
  change (exists s', imap (fun i s => if f i then unlink_sqe s else s) (pre ++ sends' ++ [s0]) !! S i = Some s' /\ is_send s' = true).
  rewrite list_lookup_imap in Hi |- *. destruct ((pre ++ sends' ++ [s0]) !! i) as [s1|] eqn:H1; [|done].
  injection Hi as Hi. assert (linked s1 = true) as Hl1.
  { subst s. destruct (f i); [by rewrite unlink_linked in Hl|done]. }
  assert (exists s2, (pre ++ sends' ++ [s0]) !! S i = Some s2 /\ is_send s2 = true) as (s2&H2&Hsend).
  { destruct (decide (i = n)) as [->|Hne]; [subst s; by rewrite Hfn, unlink_linked in Hl|].
    assert (i < length (pre ++ sends' ++ [s0]))%nat as Hlt by (by eapply lookup_lt_Some).
    rewrite !length_app in Hlt. cbn in Hlt. destruct (decide (i < length pre)%nat) as [Hip|Hip].
    - rewrite lookup_app_l in H1 by done. destruct (Hpre _ _ H1 Hl1) as (s2&H2&?).
      exists s2. split; [by apply lookup_app_l_Some|done].
    - rewrite lookup_app_r by lia. destruct (lookup_lt_is_Some_2 (sends' ++ [s0]) (S i - length pre)) as [s2 H2].
      { rewrite length_app. cbn. lia. }
      exists s2. split; [done|]. rewrite Forall_forall in Hsends. apply Hsends. by eapply list_elem_of_lookup_2. }
  rewrite H2. cbn. eexists. split; [done|]. destruct (f (S i)); by rewrite ?unlink_send.
Qed.

(** Everything queued is chained properly. *)
Definition closed (q : Q) : Prop :=
  ring_ok (ring q) /\ chain_ok (sq_pending (ring q)) /\ ublksrv_queue_batch_io q = false.

Lemma send_bg_closed `{!UringProgress R} q q' :
  building q -> Forall (supported q) (next_chain (qd q)) -> ublksrv_queue_batch_io q = false ->
  nbd_handle_send_bg msg_addr q = Some q' -> closed q'.
Proof.
  intros Hb Hsup Hbatch. unfold nbd_handle_send_bg.
  assert (Hcl : forall q1, building q1 -> same_iods q q1 -> closed (unlink_last q1)).
  { intros q1 Hb1 (_&_&Hst). destruct (unlink_last_chain q1 Hb1) as (?&?&_&_&Hst1). split; [done|].
    split; [done|]. unfold ublksrv_queue_batch_io in *. by rewrite Hst1, Hst. }
  destruct (negb _).
  - destruct (send_chain msg_addr (next_chain (qd q)) q) as [q1|] eqn:Hq1; [|done]. cbn [mbind option_bind].
    destruct (send_chain_building _ _ _ Hb Hsup Hq1) as [Hb1 Hi1]. intros [= <-]. by apply Hcl.
  - cbn [mbind option_bind]. intros [= <-]. by apply Hcl.
Qed.

Lemma send_bg_next `{!UringProgress R} q q' :
  building q -> Forall (supported q) (next_chain (qd q)) ->
  nbd_handle_send_bg msg_addr q = Some q' ->
  (forall tag, get_iod q' tag = get_iod q tag) /\ next_chain (qd q') ⊆ next_chain (qd q).
Proof.
  intros Hb Hsup. unfold nbd_handle_send_bg.
  assert (Hun : forall q1, same_iods q q1 -> next_chain (qd q1) ⊆ next_chain (qd q) ->
    (forall tag, get_iod (unlink_last q1) tag = get_iod q tag) /\
    next_chain (qd (unlink_last q1)) ⊆ next_chain (qd q)).
  { intros q1 (Hi&Hbuf&_) Hn. unfold unlink_last. case_match; (split; [|done]); intros tag;
      unfold get_iod, get_io, upd_q, upd; qsimpl; by rewrite Hi, Hbuf. }
  destruct (negb _).
  - destruct (send_chain msg_addr (next_chain (qd q)) q) as [q1|] eqn:Hq1; [|done]. cbn [mbind option_bind].
    destruct (send_chain_building _ _ _ Hb Hsup Hq1) as [_ Hi1]. intros [= <-]. apply Hun; [done|].
    apply list_subseteq_nil.
  - cbn [mbind option_bind]. intros [= <-]. by apply Hun.
Qed.

Lemma unlink_no_last q : last_send_sqe (qd (unlink_last q)) = None.
Proof. unfold unlink_last. by destruct (last_send_sqe (qd q)) eqn:H. Qed.

Lemma send_bg_no_last q q' : nbd_handle_send_bg msg_addr q = Some q' -> last_send_sqe (qd q') = None.
Proof. unfold nbd_handle_send_bg. intros Hq. inv_bind. injection Hq as <-. apply unlink_no_last. Qed.

Lemma closed_building q : closed q -> building q.
Proof. intros (Hr&Hch&_). split; [done|]. exists (sq_pending (ring q)), []. by rewrite app_nil_r. Qed.

Lemma Forall_incl {A} (P : A -> Prop) (l1 l2 : list A) : l1 ⊆ l2 -> Forall P l2 -> Forall P l1.
Proof. rewrite !Forall_forall. auto. Qed.

(** What receiving keeps. *)
Definition pres (q q' : Q) : Prop :=
  closed q' /\ (forall tag, get_iod q' tag = get_iod q tag) /\
  (next_chain (qd q'), last_send_sqe (qd q')) = (next_chain (qd q), last_send_sqe (qd q)).

Lemma pres_refl q : closed q -> pres q q.
Proof. done. Qed.

Lemma pres_trans q1 q2 q3 : pres q1 q2 -> pres q2 q3 -> pres q1 q3.
Proof. intros (_&H1&?) (?&H2&?). split; [done|]. split; [|congruence]. intros tag. by rewrite H2, H1. Qed.

Lemma pres_upd q f : closed q -> (next_chain (nbd_q (f (private_data q))), last_send_sqe (nbd_q (f (private_data q)))) =
  (next_chain (qd q), last_send_sqe (qd q)) -> pres q (upd f q).
Proof. intros Hc Hn. done. Qed.

Lemma closed_alloc `{!UringProgress R} q s b r : closed q -> linked s = false ->
  ublksrv_alloc_sqe s (ring q) = (b, r) -> closed (set_ring r q).
Proof.
  intros (Hr&Hch&Hb) Hs Ha. destruct (alloc_pending s (ring q) Hr) as (r'&k&Ha'&Hp&Hr').
  rewrite Ha in Ha'. injection Ha' as _ <-. split; [done|]. split; [|done]. qsimpl. rewrite Hp.
  apply chain_ok_snoc; [by apply chain_ok_drop|done].
Qed.

Lemma get_iod_put q tag io io' tag' : get_io q tag = Some io -> io_iod io' = io_iod io ->
  get_iod (put_io tag io' q) tag' = get_iod q tag'.
Proof.
  intros Hio Heq. unfold get_iod. rewrite get_io_put by (by eexists).
  destruct (Z.eqb_spec tag' tag) as [->|]; [|done]. rewrite Hio. cbn. by rewrite Heq.
Qed.

Lemma queue_io_cmd_pres `{!UringProgress R} tag q ret q' :
  closed q -> ublksrv_queue_io_cmd tag q = Some (ret, q') -> pres q q'.
Proof.
  intros Hc. unfold ublksrv_queue_io_cmd. destruct (get_io q tag) as [io|] eqn:Hio; [|done].
  cbn [mbind option_bind]. destruct (negb _); [by intros [= <- <-]|].
  destruct (negb _); [by intros [= <- <-]|].
  unfold io_cmd_sqe. destruct (build_user_data _ _ _ _) as [ud|]; [|done]. cbn [mbind option_bind].
  set (s := mk_sqe ud _). destruct (ublksrv_alloc_sqe s (ring q)) as [b r] eqn:Ha.
  pose proof (closed_alloc q s b r Hc eq_refl Ha) as Hc1.
  destruct (negb b); intros [= <- <-]; [done|]. split; [done|]. split; [|done].
  intros tag'. apply (get_iod_put (set_ring r q) tag io); done.
Qed.

Lemma complete_io_pres `{!UringProgress R} tag res q ret q' :
  closed q -> ublksrv_complete_io tag res q = Some (ret, q') -> pres q q'.
Proof.
  intros Hc. unfold ublksrv_complete_io. destruct (get_io q tag) as [io|] eqn:Hio; [|done].
  cbn [mbind option_bind]. rewrite (proj2 (proj2 Hc)). intros Hq.
  eapply pres_trans; [|eapply queue_io_cmd_pres; [|exact Hq]; done].
  split; [done|]. split; [|done]. intros tag'. by apply (get_iod_put q tag io).
Qed.

Lemma nbd_finish_pres `{!UringProgress R} tag ret q q' :
  closed q -> nbd_finish tag ret q = Some q' -> pres q q'.
Proof.
  intros Hc. unfold nbd_finish. intros Hq. inv_bind. inv_bind. destruct p as [x q1].
  injection Hq as <-. eapply complete_io_pres in Heqo0; [|done].
  eapply pres_trans; [done|]. split; [|done]. apply Heqo0.
Qed.

Lemma nbd_resume_io_pres `{!UringProgress R} tag res q q' :
  closed q -> res <> - EAGAIN -> nbd_resume_io msg_addr tag res q = Some q' -> pres q q'.
Proof.
  intros Hc Hne. unfold nbd_resume_io. rewrite (proj2 (Z.eqb_neq _ _) Hne).
  do 2 (case_match; try done). by apply nbd_finish_pres.
Qed.

Lemma set_done_pres tag v q q' : closed q -> set_done tag v q = Some q' -> pres q q'.
Proof. intros Hc. unfold set_done. intros Hq. inv_bind. by injection Hq as <-. Qed.

Lemma nbd_start_recv_pres `{!UringProgress R} buf len reply done q ret q' :
  closed q -> nbd_start_recv buf len reply done q = Some (ret, q') -> pres q q'.
Proof.
  intros Hc. unfold nbd_start_recv. intros Hq. inv_bind. rewrite alloc_sqes_one in Hq.
  set (s := mk_sqe z _) in *. destruct (ublksrv_alloc_sqe s (ring q)) as [b r] eqn:Ha.
  cbn [fst snd] in Hq. pose proof (closed_alloc q s b r Hc eq_refl Ha) as Hc1.
  destruct (_ =? 0); [by injection Hq as <- <-|]. inv_bind. apply set_done_pres in Heqo0; [|done].
  destruct (_ =? 0); [done|]. injection Hq as <- <-. by apply (pres_trans q (set_ring r q)).
Qed.

Lemma nbd_do_recv_pres `{!UringProgress R} buf len q ret bytes q' :
  closed q -> nbd_do_recv buf len q = Some (ret, bytes, q') -> pres q q'.
Proof.
  intros Hc. unfold nbd_do_recv. destruct (recv_loop _ _ _ _) as [bs rs].
  destruct (_ =? len); [by intros [= <- <- <-]|]. intros Hq. inv_bind. destruct p as [r2 q2].
  injection Hq as <- <- <-. apply nbd_start_recv_pres in Heqo; [|done].
  by apply (pres_trans q (upd (set_recvs rs) q)).
Qed.

Lemma sectors_not_eagain n : s32 (u32 (Z.shiftl n 9)) <> - EAGAIN.
Proof.
  rewrite Z.shiftl_mul_pow2 by lia. unfold s32, u32, EAGAIN. Z.div_mod_to_equations. lia.
Qed.

Lemma nbd_handle_recv_reply_pres `{!UringProgress R} res q ret io_tag q' :
  closed q -> nbd_handle_recv_reply msg_addr res q = Some (ret, io_tag, q') -> pres q q'.
Proof.
  intros Hc. unfold nbd_handle_recv_reply. intros Hq. inv_bind.
  destruct (res <? 0); [by simplify_eq|]. destruct (negb _); [by simplify_eq|].
  destruct (negb _); [done|]. destruct (_ <=? _); [by simplify_eq|]. destruct (negb _); [by simplify_eq|].
  inv_bind. destruct (negb _); [by simplify_eq|]. inv_bind. destruct (_ =? UBLK_IO_OP_READ); [by simplify_eq|].
  inv_bind. injection Hq as <- <- <-. eapply nbd_resume_io_pres; [done| |done].
  repeat case_match; try done. apply sectors_not_eagain.
Qed.

Variable reply_addr : Z.

Section recv_closed.
Context `{!UringProgress R}.
Variable next : Q -> option Q.
Hypothesis next_pres : forall q q', closed q -> next q = Some q' -> pres q q'.

Lemma handle_read_io_pres io_tag res q q' : closed q -> res <> - EAGAIN ->
  handle_read_io msg_addr next io_tag res q = Some q' -> pres q q'.
Proof.
  intros Hc Hne. unfold handle_read_io, __nbd_resume_read_req. intros Hq. inv_bind.
  destruct (set_done _ _ q) as [q1|] eqn:H1; [|done]. apply set_done_pres in H1; [|done].
  cbn [mbind option_bind] in Hq. inv_bind. apply nbd_resume_io_pres in Heqo0; [|apply H1|done].
  eapply pres_trans; [done|]. eapply pres_trans; [done|]. eapply next_pres; [apply Heqo0|done].
Qed.

Lemma read_io_pres io_tag q q' : closed q -> read_io msg_addr next io_tag q = Some q' -> pres q q'.
Proof.
  intros Hc. unfold read_io. intros Hq. inv_bind. inv_bind. destruct p as [[ret bytes] q1].
  apply nbd_do_recv_pres in Heqo0; [|done]. eapply pres_trans; [done|]. destruct (ret =? _).
  - inv_bind. apply set_done_pres in Heqo1; [|apply Heqo0].
    eapply pres_trans; [done|]. apply (handle_read_io_pres _ _ _ _ (proj1 Heqo1)) in Hq; done.
  - destruct (ret <? 0); injection Hq as <-; destruct Heqo0 as (?&_); done.
Qed.

Lemma handle_recv_pres res q q' : closed q -> handle_recv msg_addr next res q = Some q' -> pres q q'.
Proof.
  intros Hc. unfold handle_recv. intros Hq. inv_bind. destruct p as [[ret io_tag] q1].
  apply nbd_handle_recv_reply_pres in Heqo; [|done]. pose proof Heqo as (Hc1&_).
  eapply pres_trans; [done|]. destruct (ret <? 0); [by injection Hq as <-|].
  destruct (ret =? 0); [by apply next_pres|]. inv_bind. by apply read_io_pres in Hq.
Qed.

Lemma read_reply_pres q q' : closed q -> read_reply msg_addr reply_addr next q = Some q' -> pres q q'.
Proof.
  intros Hc. unfold read_reply. intros Hq. inv_bind. destruct p as [[ret bytes] q1].
  apply nbd_do_recv_pres in Heqo; [|done]. pose proof Heqo as (Hc1&_).
  eapply pres_trans; [done|]. apply (pres_trans _ (put_reply bytes q1)); [done|].
  destruct (ret =? _); [|by destruct (ret <? 0); injection Hq as <-].
  inv_bind. apply set_done_pres in Heqo0; [|done]. eapply pres_trans; [done|].
  eapply handle_recv_pres; [apply Heqo0|done].
Qed.
End recv_closed.

Lemma recv_while_pres `{!UringProgress R} fuel q q' :
  closed q -> recv_while msg_addr reply_addr fuel q = Some q' -> pres q q'.
Proof.
  revert q q'. induction fuel as [|fuel IH]; intros q q' Hc; cbn [recv_while]; [done|].
  destruct (0 <? _); [|by intros [= <-]]. apply read_reply_pres; [exact IH|done].
Qed.

Lemma recv_bg_pres `{!UringProgress R} q q' :
  closed q -> nbd_handle_recv_bg msg_addr reply_addr q = Some q' -> pres q q'.
Proof.
  intros Hc. unfold nbd_handle_recv_bg. intros Hq. inv_bind.
  assert (Hp : pres q q0).
  { destruct (_ && _); [|by injection Heqo as <-]. unfold __nbd_handle_recv in Heqo.
    by apply (recv_while_pres _ (upd_q (set_recv_started true) q)) in Heqo. }
  eapply pres_trans; [done|]. pose proof Hp as (Hc0&_).
  destruct (need_handle_recv (qd q0)); [|by injection Hq as <-].
  inv_bind. injection Hq as <-.
  assert (Hp1 : pres q0 q1); [|destruct Hp1 as (?&?&?); done].
  unfold nbd_recv_resume in Heqo0. pose proof (recv_while_pres (recv_fuel q0)) as Hw.
  destruct (nbd_recv (private_data q0)); [done|..].
  - destruct (_ =? - EAGAIN); [by apply read_reply_pres in Heqo0|by apply handle_recv_pres in Heqo0].
  - destruct (Z.eqb_spec (cqe_res (recv_cqe (qd q0))) (- EAGAIN)); [by apply read_io_pres in Heqo0|].
    by apply handle_read_io_pres in Heqo0.
Qed.

Lemma io_bg_closed `{!UringProgress R} q nr q' :
  building q -> ublksrv_queue_batch_io q = false -> Forall (supported q) (next_chain (qd q)) ->
  nbd_handle_io_bg msg_addr reply_addr nr q = Some q' -> closed q' /\ last_send_sqe (qd q') = None.
Proof.
  intros Hb Hbatch Hsup. unfold nbd_handle_io_bg. intros Hq.
  destruct (nbd_handle_send_bg msg_addr q) as [q1|] eqn:H1; [|done]. cbn [mbind option_bind] in Hq.
  pose proof (send_bg_closed _ _ Hb Hsup Hbatch H1) as Hc1. pose proof (send_bg_no_last _ _ H1) as Hl1.
  destruct (nbd_handle_recv_bg msg_addr reply_addr q1) as [q2|] eqn:H2; [|done].
  cbn [mbind option_bind] in Hq. destruct (recv_bg_pres _ _ Hc1 H2) as (Hc2&Hiod2&[= Hn2 Hl2]).
  assert (Hsup2 : Forall (supported q2) (next_chain (qd q2))).
  { destruct (send_bg_next q q1 Hb Hsup H1) as [Hi1 Hn1]. rewrite Hn2.
    eapply Forall_impl; [exact (Forall_incl _ _ _ Hn1 Hsup)|]. intros t (iod&Hiod&?). exists iod.
    split; [|done]. by rewrite Hiod2, Hi1. }
  destruct (_ && _).
  - destruct (nbd_handle_send_bg msg_addr q2) as [q3|] eqn:H3; [|done]. cbn [mbind option_bind] in Hq.
    pose proof (send_bg_no_last _ _ H3) as Hl3.
    assert (Hc3 : closed q3).
    { eapply send_bg_closed; [|exact Hsup2|apply Hc2|exact H3]. by apply closed_building. }
    injection Hq as <-. by case_match.
  - cbn [mbind option_bind] in Hq. injection Hq as <-. rewrite Hl1 in Hl2. by case_match.
Qed.

(** *** A whole iteration *)
Variable epoll_wait : Q -> list (Z * Z).
Variable epoll_call : Z -> Z -> Q -> option Q.
Variable max_io_buf_bytes : Z.

(** A completion of an nbd queue whose device does not ask for the data of
    writes (no UBLK_F_NEED_GET_DATA): of the target's own, not of epoll, or of an
    I/O command; a new request is of an operation the protocol has. *)
Definition plain_cqe (q : Q) (c : io_uring_cqe) : Prop :=
  if is_target_io (cqe_user_data c) then is_internal_io (cqe_user_data c) = false
  else cqe_res c <> UBLK_IO_RES_NEED_GET_DATA /\
    (cqe_res c = UBLK_IO_RES_OK -> forall io, get_io q (user_data_to_tag (cqe_user_data c)) = Some io -> supported q (io_tag io)).

(** While completions are handled: [q0] is the queue before them. *)
Record handling (q0 q : Q) : Prop := {
  ha_building : building q;
  ha_iods : forall tag, get_iod q tag = get_iod q0 tag;
  ha_tags : forall tag, io_tag <$> get_io q tag = io_tag <$> get_io q0 tag;
  ha_next : Forall (supported q0) (next_chain (qd q));
  ha_batch : ublksrv_queue_batch_io q = false
}.

Lemma supported_iods q0 q tag : (forall tag, get_iod q tag = get_iod q0 tag) -> supported q0 tag -> supported q tag.
Proof. intros Hi (iod&Hiod&?). exists iod. by rewrite Hi. Qed.

(** Changes of the counters and of an io's flags. *)
Lemma handling_state q0 q n m : handling q0 q -> has m UBLKSRV_QUEUE_BATCH_IO = has (state q) UBLKSRV_QUEUE_BATCH_IO ->
  handling q0 (set_state m (set_cmd_inflight n q)).
Proof. intros [] Hm. split; try done. unfold ublksrv_queue_batch_io in *. qs. by rewrite Hm. Qed.

Lemma handling_put q0 q tag io io' : handling q0 q -> get_io q tag = Some io -> io_iod io' = io_iod io -> io_tag io' = io_tag io ->
  handling q0 (put_io tag io' q).
Proof.
  intros [] Hio Hiod Htag. split; [done| | |done|done].
  - intros t. rewrite <- ha_iods0. by apply (get_iod_put q tag io).
  - intros t. rewrite <- ha_tags0. rewrite get_io_put by (by exists io).
    destruct (Z.eqb_spec t tag) as [->|]; [|done]. by rewrite Hio; cbn; rewrite Htag.
Qed.

Lemma handling_async `{!UringProgress R} q0 q tag ret q' : handling q0 q -> supported q0 tag ->
  nbd_handle_io_async msg_addr tag q = Some (ret, q') -> handling q0 q'.
Proof.
  intros Hh Hs. unfold nbd_handle_io_async. destruct (nbd_send_chain_busy _).
  - intros [= <- <-]. destruct Hh. split; try done. unfold upd_q, upd, qd. qsimpl. nsimpl.
    apply Forall_app. split; [done|by repeat constructor].
  - destruct (__nbd_handle_io_async msg_addr tag q) as [q1|] eqn:H1; [|done]. intros [= <- <-]. pose proof Hh as [].
    destruct (io_async_building tag q q1 ha_building0 (supported_iods _ _ _ ha_iods0 Hs) H1) as [[Hb Hn] (Hi&Hbuf&Hst)].
    split; [done| | |by rewrite Hn|by unfold ublksrv_queue_batch_io in *; rewrite Hst].
    + intros t. rewrite <- ha_iods0. unfold get_iod, get_io. by rewrite Hi, Hbuf.
    + intros t. rewrite <- ha_tags0. unfold get_io. by rewrite Hi.
Qed.

Lemma handling_done q0 q tag cqe q' : handling q0 q -> nbd_tgt_io_done tag cqe q = Some q' -> handling q0 q'.
Proof.
  intros Hh. assert (Hupd : forall f, next_chain (f (qd q)) = next_chain (qd q) -> last_send_sqe (f (qd q)) = last_send_sqe (qd q) ->
    handling q0 (upd_q f q)).
  { intros f Hn Hl. destruct Hh as [(Hr&pre&sends&Hp&Hpre&Hsends&Hlast) ? ? ? ?]. split; try done.
    - split; [done|]. exists pre, sends. split; [done|]. split; [done|]. split; [done|]. intros Hne. unfold upd_q, upd, qd. qsimpl. nsimpl.
      fold (qd q). by rewrite Hl, Hlast.
    - unfold upd_q, upd, qd. qsimpl. nsimpl. fold (qd q). by rewrite Hn. }
  unfold nbd_tgt_io_done, nbd_send_req_done. repeat case_bool; try done; intros [= <-]; try done; by apply Hupd.
Qed.

Lemma handling_cqe `{!UringProgress R} q0 q c q' : handling q0 q -> plain_cqe q0 c ->
  ublksrv_handle_cqe (nbd_tgt_type msg_addr reply_addr) epoll_wait epoll_call c q = Some q' -> handling q0 q'.
Proof.
  intros Hh Hp. unfold ublksrv_handle_cqe, plain_cqe in *. destruct (is_target_io _).
  { unfold ublksrv_handle_tgt_cqe. rewrite Hp. cbn [nbd_tgt_type tgt_io_done]. intros Hq. inv_bind. by eapply handling_done. }
  rewrite (ha_batch _ _ Hh). cbn [mbind option_bind]. destruct Hp as [Hnd Hok]. set (tag := user_data_to_tag _) in *.
  destruct (get_io q tag) as [io|] eqn:Hio; [|done]. cbn [mbind option_bind].
  assert (Htag : exists io0, get_io q0 tag = Some io0 /\ io_tag io0 = io_tag io).
  { pose proof (ha_tags _ _ Hh tag) as Ht. rewrite Hio in Ht. destruct (get_io q0 tag) as [io0|]; [|done]. exists io0. by injection Ht. }
  destruct Htag as (io0&Hio0&Htag).
  set (p := if negb _ then _ else _). assert (Hpp : exists io1 m n, p = (io1, set_state m (set_cmd_inflight n q)) /\ io_iod io1 = io_iod io /\
    io_tag io1 = io_tag io /\ has m UBLKSRV_QUEUE_BATCH_IO = has (state q) UBLKSRV_QUEUE_BATCH_IO).
  { subst p. case_bool; [eexists _, _, _; split; [done|]; split; [done|]; split; [done|]; by rewrite has_lor_l, orb_false_r|].
    exists io, (state q), (u32 (cmd_inflight q - 1)). split; [|done]. by destruct q. }
  destruct Hpp as (io1&m&n&->&Hiod1&Htag1&Hm).
  pose proof (handling_put _ _ tag io io1 (handling_state _ _ n m Hh Hm) Hio Hiod1 Htag1) as Hh1.
  destruct (cqe_res c =? UBLK_IO_RES_OK) eqn:Eok.
  - cbn [nbd_tgt_type handle_io_async]. intros Hq. destruct (nbd_handle_io_async _ _ _) as [[ret q1]|] eqn:H1; [|done]. injection Hq as <-.
    eapply handling_async; [exact Hh1| |exact H1]. rewrite Htag1, <- Htag. apply Hok; [by apply Z.eqb_eq|done].
  - rewrite (proj2 (Z.eqb_neq _ _) Hnd). intros [= <-].
    apply (handling_put _ _ tag io1); [done| |done|done]. rewrite get_io_put by (by exists io). by rewrite Z.eqb_refl.
Qed.

Lemma handling_reap `{!UringProgress R} q0 cqes q n q' : handling q0 q -> Forall (plain_cqe q0) cqes ->
  ublksrv_reap_events_uring (nbd_tgt_type msg_addr reply_addr) epoll_wait epoll_call cqes q = Some (n, q') -> handling q0 q'.
Proof.
  revert q n. induction cqes as [|c cqes IH]; intros q n Hh Hp; cbn [ublksrv_reap_events_uring]; [by intros [= <- <-]|].
  apply Forall_cons in Hp as [Hc Hp]. destruct (ublksrv_handle_cqe _ _ _ c q) as [q1|] eqn:H1; [|done]. cbn [mbind option_bind].
  destruct (ublksrv_reap_events_uring _ _ _ cqes q1) as [[k q2]|] eqn:H2; [|done]. intros [= <- <-].
  eapply IH; [|done|exact H2]. by eapply handling_cqe.
Qed.

(** Between iterations: the chains of the pending entries are closed. *)
Definition chain_inv (q : Q) : Prop := closed q /\ last_send_sqe (qd q) = None.

(** Changes of what neither the ring nor the target's data depend on. *)
Lemma chain_inv_ext q q' : chain_inv q -> ring q' = ring q -> private_data q' = private_data q ->
  has (state q') UBLKSRV_QUEUE_BATCH_IO = has (state q) UBLKSRV_QUEUE_BATCH_IO -> chain_inv q'.
Proof. intros [(Hr&Hch&Hb) Hl] E1 E2 E3. unfold chain_inv, closed, ublksrv_queue_batch_io, qd in *. by rewrite E1, E2, E3. Qed.

Lemma discard_loop_core n i q q' : discard_loop max_io_buf_bytes n i q = Some q' ->
  ring q' = ring q /\ private_data q' = private_data q /\ state q' = state q.
Proof.
  revert i q. induction n as [|n IH]; intros i q; cbn [discard_loop]; [by intros [= <-]|].
  intros Hq. inv_bind. by apply IH in Hq.
Qed.

Lemma submit_aio_loop_core n i q q' : submit_aio_loop n i q = Some q' -> exists t, q' = set_trace t q.
Proof.
  revert i q. induction n as [|n IH]; intros i q; cbn [submit_aio_loop]; [intros [= <-]; exists (trace q); by destruct q|].
  intros Hq. inv_bind. apply IH in Hq as [t ->]. exists t. by destruct q.
Qed.

Lemma chain_inv_idle q q' (stop enter : bool) : chain_inv q ->
  (if stop then Some (ublksrv_kill_eventfd q)
   else if enter then ublksrv_queue_idle_enter (nbd_tgt_type msg_addr reply_addr) max_io_buf_bytes q
   else ublksrv_queue_idle_exit (nbd_tgt_type msg_addr reply_addr) q) = Some q' -> chain_inv q'.
Proof.
  intros Hc. destruct stop.
  { intros [= <-]. eapply chain_inv_ext; [exact Hc|..]; unfold ublksrv_kill_eventfd; by case_match. }
  destruct enter; unfold ublksrv_queue_idle_enter, ublksrv_queue_idle_exit, ublksrv_queue_discard_io_pages.
  - case_bool; [by intros [= <-]|]. intros Hq. inv_bind. apply discard_loop_core in Heqo as (E1&E2&E3). injection Hq as <-.
    eapply chain_inv_ext; [exact Hc|done|done|]. qsimpl. by rewrite E3, has_lor_l, orb_false_r.
  - case_bool; [|by intros [= <-]]. intros [= <-]. eapply chain_inv_ext; [exact Hc|done|done|]. qsimpl.
    unfold UBLKSRV_QUEUE_IDLE, UBLKSRV_QUEUE_BATCH_IO. by rewrite has_clear_bit, andb_true_r by lia.
Qed.

(** The iterations of an nbd queue, from a queue whose pending entries are not
    linked (the fetch commands); before each the driver writes descriptors, of
    other tags than the ones that wait to be sent. *)
Inductive nbd_runs : Q -> Prop :=
| nbd_start q : ring_ok (ring q) -> Forall (fun s => linked s = false) (sq_pending (ring q)) ->
    ublksrv_queue_batch_io q = false -> last_send_sqe (qd q) = None -> nbd_runs q
| nbd_iteration q iods cqes ret q' : nbd_runs q ->
    Forall (supported (set_io_cmd_buf iods q)) (next_chain (qd q)) -> Forall (plain_cqe (set_io_cmd_buf iods q)) cqes ->
    ublksrv_process_io (nbd_tgt_type msg_addr reply_addr) epoll_wait epoll_call max_io_buf_bytes cqes (set_io_cmd_buf iods q) =
      Some (ret, q') -> nbd_runs q'.

Lemma process_io_chain `{!UringProgress R} q cqes ret q' : chain_inv q ->
  Forall (supported q) (next_chain (qd q)) -> Forall (plain_cqe q) cqes ->
  ublksrv_process_io (nbd_tgt_type msg_addr reply_addr) epoll_wait epoll_call max_io_buf_bytes cqes q = Some (ret, q') -> chain_inv q'.
Proof.
  intros Hi Hsup Hp. unfold ublksrv_process_io. destruct (__ublksrv_queue_is_done q); [by intros [= <- <-]|].
  pose proof Hi as [(Hr&Hch&Hb) Hl]. rewrite Hb. cbn [mbind option_bind].
  destruct (io_uring_submit_and_wait_timeout _ _ (ring q)) as [wret r] eqn:Hw.
  assert (Hsub : submits (ring q) r) by (change r with (wret, r).2; rewrite <- Hw; apply submit_timeout_submits).
  set (q1 := ublksrv_reset_aio_batch (set_ring r q)).
  assert (Hh : handling q q1).
  { split; try done. apply closed_building. destruct Hsub as [He (k&_&Hk)]. split; [unfold ring_ok in *; cbn; by rewrite He|].
    split; [|done]. cbn. rewrite Hk. by apply chain_ok_drop. }
  destruct (ublksrv_reap_events_uring _ _ _ cqes q1) as [[reapped q2]|] eqn:H2; [|done]. cbn [mbind option_bind].
  pose proof (handling_reap q cqes q1 reapped q2 Hh Hp H2) as Hh2.
  unfold ublksrv_submit_aio_batch. destruct (submit_aio_loop _ 0 q2) as [q3|] eqn:H3; [|done]. cbn [mbind option_bind].
  apply submit_aio_loop_core in H3 as [t ->]. cbn [nbd_tgt_type handle_io_background call_opt].
  set (nr := io_uring_sq_ready _). destruct (nbd_handle_io_bg msg_addr reply_addr nr (set_trace t q2)) as [q4|] eqn:H4; [|done].
  cbn [mbind option_bind]. destruct Hh2.
  assert (Hc4 : chain_inv q4).
  { eapply (io_bg_closed (set_trace t q2) nr q4); [done|done| |exact H4].
    eapply Forall_impl; [exact ha_next0|]. intros tag (iod&Hiod&?). exists iod. split; [|done]. rewrite <- Hiod. apply ha_iods0. }
  destruct (if stopping q4 then _ else _) as [q5|] eqn:H5; [|done]. cbn [mbind option_bind]. intros [= <- <-].
  by eapply chain_inv_idle in H5.
Qed.

(** C19: No entry cuts into a chain of sends: after any number of iterations of
    the queue's loop, each with any completions and any new requests of
    operations the NBD protocol has, every pending entry that is linked to the
    next one is followed by a send, so the last send of each chain is not linked
    and neither a recv nor an I/O command is in the middle of one.  The queue is
    without batch I/O, its ring's submissions make room, and its device does not
    have UBLK_F_NEED_GET_DATA. *)
Theorem nbd_send_chain_closed `{!UringProgress R} q : nbd_runs q -> chain_ok (sq_pending (ring q)).
Proof.
  intros Hr. assert (Hi : chain_inv q); [|by apply Hi].
  induction Hr as [q Hr Hl Hb Hlast|q iods cqes ret q' _ IH Hsup Hp Hq].
  - split; [|done]. split; [done|]. split; [|done]. intros i s Hi Hs. rewrite Forall_lookup in Hl. rewrite (Hl _ _ Hi) in Hs. done.
  - eapply process_io_chain; [|exact Hsup|exact Hp|exact Hq]. done.
Qed.


(** ** The receiving loop ends *)
Definition inflight (q : Q) : Z := in_flight_ios (qd q).

Lemma complete_io_private tag res q ret q' : ublksrv_queue_batch_io q = false ->
  ublksrv_complete_io tag res q = Some (ret, q') -> private_data q' = private_data q.
Proof.
  intros Hb. unfold ublksrv_complete_io, ublksrv_queue_io_cmd. intros Hq. inv_bind. rewrite Hb in Hq. inv_bind.
  destruct (negb _); [by simplify_eq|]. destruct (negb _); [by simplify_eq|]. inv_bind.
  destruct (ublksrv_alloc_sqe _ _) as [b r]. destruct (negb b); by simplify_eq.
Qed.

Lemma nbd_resume_inflight tag res q q' : ublksrv_queue_batch_io q = false -> res <> - EAGAIN ->
  nbd_resume_io msg_addr tag res q = Some q' -> inflight q' = u16 (inflight q - 1).
Proof.
  intros Hb Hne. unfold nbd_resume_io. rewrite (proj2 (Z.eqb_neq _ _) Hne).
  do 2 (case_match; try done). unfold nbd_finish. intros Hq. inv_bind. inv_bind. destruct p as [x q1].
  injection Hq as <-. apply complete_io_private in Heqo0; [|done]. unfold inflight, qd in *.
  unfold put_nco, upd_q, upd. qsimpl. nsimpl. by rewrite Heqo0.
Qed.

Lemma nbd_do_recv_inflight buf len q ret bytes q' :
  nbd_do_recv buf len q = Some (ret, bytes, q') -> inflight q' = inflight q.
Proof.
  unfold nbd_do_recv, nbd_start_recv. destruct (recv_loop _ _ _ _) as [bs rs].
  destruct (_ =? len); [by intros [= <- <- <-]|]. intros Hq. inv_bind. destruct p as [r2 q2].
  injection Hq as <- <- <-. inv_bind. destruct (ublk_queue_alloc_sqes _ _) as [n r].
  destruct (n =? 0); [by simplify_eq|]. unfold set_done in *. inv_bind.
  destruct (get_nio _ _); [|done]. cbn in Heqo1. simplify_eq. destruct (_ =? 0); by simplify_eq.
Qed.

Lemma set_done_inflight tag v q q' : set_done tag v q = Some q' -> inflight q' = inflight q.
Proof. unfold set_done. intros Hq. inv_bind. by injection Hq as <-. Qed.

Section recv_ext.
Context `{!UringProgress R}.
Variable next next' : Q -> option Q.
Variable n : Z.
Hypothesis next_ext : forall q, closed q -> inflight q = u16 (n - 1) -> next q = next' q.

Lemma handle_read_io_ext io_tag res q : closed q -> inflight q = n -> res <> - EAGAIN ->
  handle_read_io msg_addr next io_tag res q = handle_read_io msg_addr next' io_tag res q.
Proof.
  intros Hc Hn Hne. unfold handle_read_io, __nbd_resume_read_req.
  destruct (get_nio _ _) as [d|]; [|done]. cbn [mbind option_bind].
  destruct (set_done _ _ q) as [q1|] eqn:H1; [|done]. cbn [mbind option_bind].
  pose proof (set_done_pres _ _ _ _ Hc H1) as (Hc1&_). apply set_done_inflight in H1.
  destruct (nbd_resume_io msg_addr io_tag res q1) as [q2|] eqn:H2; [|done]. cbn [mbind option_bind].
  pose proof (nbd_resume_io_pres _ _ _ _ Hc1 Hne H2) as (Hc2&_).
  apply nbd_resume_inflight in H2; [|apply Hc1|done]. apply next_ext; [done|congruence].
Qed.

Lemma read_io_ext io_tag q : closed q -> inflight q = n ->
  read_io msg_addr next io_tag q = read_io msg_addr next' io_tag q.
Proof.
  intros Hc Hn. unfold read_io. destruct (get_iod q io_tag) as [iod|]; [|done]. cbn [mbind option_bind].
  destruct (nbd_do_recv _ _ q) as [[[ret bytes] q1]|] eqn:H1; [|done]. cbn [mbind option_bind].
  pose proof (nbd_do_recv_pres _ _ _ _ _ _ Hc H1) as (Hc1&_). apply nbd_do_recv_inflight in H1.
  destruct (ret =? _); [|done]. destruct (set_done _ _ q1) as [q2|] eqn:H2; [|done]. cbn [mbind option_bind].
  pose proof (set_done_pres _ _ _ _ Hc1 H2) as (Hc2&_). apply set_done_inflight in H2.
  apply handle_read_io_ext; [done|congruence|done].
Qed.

Lemma handle_recv_ext res q : closed q -> inflight q = n ->
  handle_recv msg_addr next res q = handle_recv msg_addr next' res q.
Proof.
  intros Hc Hn. unfold handle_recv.
  destruct (nbd_handle_recv_reply msg_addr res q) as [[[ret io_tag] q1]|] eqn:H1; [|done]. cbn [mbind option_bind].
  pose proof (nbd_handle_recv_reply_pres _ _ _ _ _ Hc H1) as (Hc1&_).
  assert (Hcase : inflight q1 = u16 (n - 1) \/ (q1 = q /\ ret <> 0)).
  { unfold nbd_handle_recv_reply in H1. inv_bind. destruct (Z.ltb_spec res 0); [simplify_eq; right; split; [done|lia]|].
    destruct (negb _); [by simplify_eq; right|]. destruct (negb _); [done|].
    destruct (_ <=? _); [by simplify_eq; right|]. destruct (negb _); [by simplify_eq; right|].
    inv_bind. destruct (negb _); [by simplify_eq; right|]. inv_bind.
    destruct (_ =? UBLK_IO_OP_READ); [by simplify_eq; right|]. inv_bind. injection H1 as <- <- <-. left.
    apply nbd_resume_inflight in Heqo2; [congruence|apply Hc|].
    repeat case_match; try done. apply sectors_not_eagain. }
  destruct (ret <? 0); [done|]. destruct (Z.eqb_spec ret 0) as [Hr0|Hr0].
  - apply next_ext; [done|]. destruct Hcase as [?|[_ ?]]; done.
  - destruct io_tag as [t|]; [|done]. cbn [mbind option_bind].
    destruct (Z.eq_dec (inflight q1) n) as [Hn1|Hn1]; [by apply read_io_ext|].
    destruct Hcase as [Hin|[-> _]]; [|done]. exfalso. unfold nbd_handle_recv_reply in H1.
    inv_bind. repeat (case_match; try (by simplify_eq)); inv_bind;
    repeat (case_match; try (by simplify_eq)); inv_bind; repeat (case_match; try (by simplify_eq)); inv_bind; simplify_eq.
Qed.
Lemma read_reply_ext q : closed q -> inflight q = n ->
  read_reply msg_addr reply_addr next q = read_reply msg_addr reply_addr next' q.
Proof.
  intros Hc Hn. unfold read_reply.
  destruct (nbd_do_recv _ _ q) as [[[ret bytes] q1]|] eqn:H1; [|done]. cbn [mbind option_bind].
  pose proof (nbd_do_recv_pres _ _ _ _ _ _ Hc H1) as (Hc1&_). apply nbd_do_recv_inflight in H1.
  destruct (ret =? _); [|done]. destruct (set_done _ _ _) as [q2|] eqn:H2; [|done]. cbn [mbind option_bind].
  pose proof (set_done_pres _ _ (put_reply bytes q1) _ Hc1 H2) as (Hc2&_). apply set_done_inflight in H2.
  apply handle_recv_ext; [done|]. change (inflight (put_reply bytes q1)) with (inflight q1) in H2. congruence.
Qed.
End recv_ext.

(** The receiving loop goes round at most once per request in flight: the
    number of iterations allowed, one more than the requests in flight, is
    never what ends it, since any larger allowance gives the same result. *)
Theorem nbd_recv_loop_terminates `{!UringProgress R} fuel q :
  closed q -> is_u16 (inflight q) -> (Z.to_nat (inflight q) < fuel)%nat ->
  recv_while msg_addr reply_addr fuel q = recv_while msg_addr reply_addr (recv_fuel q) q.
Proof.
  unfold recv_fuel. fold (inflight q).
  assert (Hgen : forall f1 f2 q, closed q -> is_u16 (inflight q) ->
    (Z.to_nat (inflight q) < f1)%nat -> (Z.to_nat (inflight q) < f2)%nat ->
    recv_while msg_addr reply_addr f1 q = recv_while msg_addr reply_addr f2 q).
  { induction f1 as [|f1 IH]; intros [|f2] q0 Hc Hu H1 H2; [lia..|].
    cbn [recv_while]. fold (inflight q0). destruct (Z.ltb_spec 0 (inflight q0)) as [Hpos|]; [|done].
    apply (read_reply_ext _ _ (inflight q0)); [|done|done]. intros q1 Hc1 Hn1. unfold is_u16 in Hu.
    rewrite u16_id in Hn1 by (unfold is_u16; lia).
    apply IH; [done|unfold is_u16; lia|lia|lia]. }
  intros Hc Hu Hf. apply Hgen; [done|done|done|lia].
Qed.
End nbd_proofs.
