(* ===== verification/NbdExamples.v ===== *)
(** * An nbd queue

    A queue of two tags and the extra receiving tag on the list ring: a write
    is sent, its reply arrives; witnesses for the theorems of Nbd.v. *)

From S2P Require Import Prelude Bytes UblkCmd Uring QueueTypes Batch Queue QueueSpec Target Nbd.

Definition exn_msg (tag : Z) : Z := 0x7000 + tag.
Definition exn_reply : Z := 0x9000.

Definition exn_tgt : nbd_tgt :=
  mk_nbd_tgt (mk_nbd_queue 0 false false false false 0 [] None (replicate 16 0) (mk_cqe 0 0 0))
    [mk_nbd_io 6 0; mk_nbd_io 0 0; mk_nbd_io 0 0] [NbdIdle; NbdIdle; NbdIdle] RecvIdle [].

Definition exn_queue (op : Z) : queue ListRing.ring nbd_tgt :=
  mk_queue 0 2 [mk_iod op 8 16 0x5000; mk_iod UBLK_IO_OP_READ 8 0 0x6000] 0 0 0 (-1) [] (-1)
    (ListRing.mk_ring 8 [] []) 0 [0; 0; 0; 0] (mk_batch [] [] 0 0 0 0 0 0)
    [mk_ublk_io 0x5000 0 0 0 (Some 0) 0; mk_ublk_io 0x6000 0 0 1 (Some 1) 0; mk_ublk_io 0 0 0 2 None 0]
    exn_tgt [].
Definition exn_aqueue : aqueue := mk_aqueue [TTarget; TTarget] false [].

Lemma exn_qsim op : qsim (exn_queue op) exn_aqueue.
Proof.
  split; try done.
  - intros [|[|[|i]]] io Hio; [by injection Hio as <-..|done].
  - intros [|[|i]] t Ht; [by injection Ht as <-; eexists; split; [done|left]..|done].
Qed.

Definition exn_iod : ublksrv_io_desc := mk_iod UBLK_IO_OP_WRITE 8 16 0x5000.

Lemma nbd_request_wire_witness :
  length (nbd_request_bytes (__nbd_build_req 0 0 7 exn_iod 1 (mk_nbd_request NBD_REQUEST_MAGIC 0 0 0 0))) = 28%nat.
Proof.
  apply (nbd_request_wire 0 0 7 exn_iod); unfold is_u16, is_u32; cbn; try lia. discriminate.
Defined.

Lemma nbd_request_sent_witness :
  exists q' req, __nbd_handle_io_async exn_msg 0 (exn_queue UBLK_IO_OP_WRITE) = Some q' /\ awaiting 0 req q'.
Proof.
  destruct (nbd_request_sent exn_msg (exn_queue UBLK_IO_OP_WRITE) exn_aqueue 0 exn_iod (mk_nbd_io 6 0) NbdIdle)
    as (q'&req&ud&Hq&Ha&_).
  - apply exn_qsim.
  - reflexivity.
  - reflexivity.
  - vm_compute. split; [discriminate|reflexivity].
  - discriminate.
  - reflexivity.
  - reflexivity.
  - exists q', req. split; [exact Hq|exact Ha].
Defined.

(** Tag 0 waits with generation 7, the reply has come in. *)
Definition exn_req : nbd_request :=
  __nbd_build_req 0 0 7 exn_iod NBD_CMD_WRITE (mk_nbd_request NBD_REQUEST_MAGIC 0 0 0 0).
Definition exn_waiting : queue ListRing.ring nbd_tgt :=
  set_private_data
    (mk_nbd_tgt (mk_nbd_queue 1 true false false true 1 [] None
                   (server_reply 0 (nbd_request_bytes exn_req)) (mk_cqe 0 16 0))
       [mk_nbd_io 7 0; mk_nbd_io 0 0; mk_nbd_io 0 0] [NbdSent exn_req None; NbdIdle; NbdIdle] RecvReply [])
    (exn_queue UBLK_IO_OP_WRITE).

Lemma exn_waiting_qsim : qsim exn_waiting exn_aqueue.
Proof. apply (qsim_upd (fun _ => private_data exn_waiting) (exn_queue UBLK_IO_OP_WRITE)). apply exn_qsim. Qed.

Lemma nbd_reply_completes_witness :
  exists q', nbd_handle_recv_reply exn_msg 16 exn_waiting = Some (0, None, q') /\
    qsim q' (send 0 UBLK_IO_COMMIT_AND_FETCH_REQ (Some 4096) exn_aqueue).
Proof.
  destruct (nbd_reply_completes exn_msg exn_waiting exn_aqueue 0 exn_req exn_iod (mk_nbd_io 0 0) 16 0)
    as (q'&Hq&Hs&_).
  - exact exn_waiting_qsim.
  - reflexivity.
  - reflexivity.
  - vm_compute. split; [discriminate|reflexivity].
  - exists 7, None. split; [reflexivity|]. split; [reflexivity|].
    split; [vm_compute; split; [discriminate|reflexivity]|reflexivity].
  - cbn. lia.
  - vm_compute. split; [discriminate|reflexivity].
  - reflexivity.
  - lia.
  - reflexivity.
  - reflexivity.
  - exists q'. split; [exact Hq|exact Hs].
Defined.

(** A reply to generation [cookie] of a tag of a queue comes while tag 0 of queue
    0 waits for generation 7. *)
Definition exn_stale (qid tag cookie : Z) : queue ListRing.ring nbd_tgt :=
  set_private_data
    (mk_nbd_tgt (mk_nbd_queue 1 true false false true 1 [] None
                   (server_reply 0 (nbd_request_bytes
                      (__nbd_build_req qid tag cookie exn_iod NBD_CMD_WRITE (mk_nbd_request NBD_REQUEST_MAGIC 0 0 0 0))))
                   (mk_cqe 0 16 0))
       [mk_nbd_io 7 0; mk_nbd_io 0 0; mk_nbd_io 0 0] [NbdSent exn_req None; NbdIdle; NbdIdle] RecvReply [])
    (exn_queue UBLK_IO_OP_WRITE).

Lemma nbd_stale_reply_rejected_witness :
  nbd_handle_recv_reply exn_msg 16 (exn_stale 0 0 6) = Some (- EINVAL, None, exn_stale 0 0 6) /\
  nbd_handle_recv_reply exn_msg 16 (exn_stale 1 0 7) = Some (- EINVAL, None, exn_stale 1 0 7) /\
  nbd_handle_recv_reply exn_msg 16 (exn_stale 0 5 7) = Some (- EINVAL, None, exn_stale 0 5 7).
Proof.
  split; [|split].
  - apply (nbd_stale_reply_rejected exn_msg (exn_stale 0 0 6) (mk_nbd_io 0 0) 16 0 0 6);
      [reflexivity|lia|reflexivity|reflexivity|reflexivity|by vm_compute..|].
    right. right. exists (mk_nbd_io 7 0). split; [reflexivity|discriminate].
  - apply (nbd_stale_reply_rejected exn_msg (exn_stale 1 0 7) (mk_nbd_io 0 0) 16 1 0 7);
      [reflexivity|lia|reflexivity|reflexivity|reflexivity|by vm_compute..|].
    right. left. discriminate.
  - apply (nbd_stale_reply_rejected exn_msg (exn_stale 0 5 7) (mk_nbd_io 0 0) 16 0 5 7);
      [reflexivity|lia|reflexivity|reflexivity|reflexivity|by vm_compute..|].
    left. cbn. lia.
Defined.

Lemma nbd_unsupported_op_underflow_witness :
  exists q', __nbd_handle_io_async exn_msg 0 (exn_queue UBLK_IO_OP_WRITE_ZEROES) = Some q' /\
    in_flight_ios (qd q') = 65535.
Proof.
  destruct (nbd_unsupported_op_underflow exn_msg (exn_queue UBLK_IO_OP_WRITE_ZEROES) exn_aqueue 0
    (mk_iod UBLK_IO_OP_WRITE_ZEROES 8 16 0x5000) (mk_nbd_io 6 0)) as (q'&Hq&_&Hn).
  - apply exn_qsim.
  - reflexivity.
  - reflexivity.
  - reflexivity.
  - reflexivity.
  - vm_compute. split; [discriminate|reflexivity].
  - reflexivity.
  - exists q'. split; [exact Hq|exact Hn].
Defined.

(** Both tags arrive in one iteration. *)
Definition exn_iteration (res : list (Z * Z)) (q : queue ListRing.ring nbd_tgt) : option (Z * queue ListRing.ring nbd_tgt) :=
  ublksrv_process_io (nbd_tgt_type exn_msg exn_reply) (fun _ => []) (fun _ _ q => Some q) 0
    ((fun p => mk_cqe (cmd_ud p.1 UBLK_IO_FETCH_REQ) p.2 0) <$> res) q.
Definition exn_after : queue ListRing.ring nbd_tgt :=
  default (exn_queue UBLK_IO_OP_WRITE) (snd <$> exn_iteration [(0, UBLK_IO_RES_OK); (1, UBLK_IO_RES_OK)] (exn_queue UBLK_IO_OP_WRITE)).

Lemma nbd_send_chain_closed_witness :
  (linked <$> sq_pending (ring exn_after)) = [true; false; false] /\ chain_ok (sq_pending (ring exn_after)).
Proof.
  split; [vm_compute; reflexivity|].
  apply (nbd_send_chain_closed exn_msg exn_reply (fun _ => []) (fun _ _ q => Some q) 0 exn_after).
  apply (nbd_iteration _ _ _ _ _ (exn_queue UBLK_IO_OP_WRITE) (io_cmd_buf (exn_queue UBLK_IO_OP_WRITE))
    ((fun p => mk_cqe (cmd_ud p.1 UBLK_IO_FETCH_REQ) p.2 0) <$> [(0, UBLK_IO_RES_OK); (1, UBLK_IO_RES_OK)]) 2).
  - apply nbd_start; [unfold ring_ok; cbn; lia|constructor|reflexivity|reflexivity].
  - constructor.
  - repeat constructor; try discriminate; intros _ io Hio; vm_compute in Hio; injection Hio as <-; eexists; (split; [reflexivity|discriminate]).
  - vm_compute. reflexivity.
Defined.

(** A device that asks for the data of writes (-g): between two reads a
    GET_DATA command is queued for a write, behind the first read's message,
    which is linked to it. *)
Definition exn_three : queue ListRing.ring nbd_tgt :=
  mk_queue 0 3 [mk_iod UBLK_IO_OP_READ 8 16 0x5000; mk_iod UBLK_IO_OP_WRITE 8 0 0x6000; mk_iod UBLK_IO_OP_READ 8 0 0x8000] 3 0 0 (-1) [] (-1)
    (ListRing.mk_ring 8 [] []) 0 [0; 0; 0; 0] (mk_batch [] [] 0 0 0 0 0 0)
    [mk_ublk_io 0x5000 0 0 0 (Some 0) 0; mk_ublk_io 0x6000 0 0 1 (Some 1) 0; mk_ublk_io 0x8000 0 0 2 (Some 2) 0; mk_ublk_io 0 0 0 3 None 0]
    (mk_nbd_tgt (nbd_q exn_tgt) (replicate 4 (mk_nbd_io 6 0)) (replicate 4 NbdIdle) RecvIdle []) [].

(** A GET_DATA command cuts into a chain of sends. *)
Example nbd_get_data_cuts_chain :
  exists q', exn_iteration [(0, UBLK_IO_RES_OK); (1, UBLK_IO_RES_NEED_GET_DATA); (2, UBLK_IO_RES_OK)] exn_three = Some (3, q') /\
    (fun s => (linked s, is_send s)) <$> take 3 (sq_pending (ring q')) = [(true, true); (false, false); (false, true)] /\
    ~ chain_ok (sq_pending (ring q')).
Proof.
  eexists. split; [vm_compute; reflexivity|]. split; [vm_compute; reflexivity|]. intros Hc.
  destruct (Hc 0%nat _ eq_refl eq_refl) as (s&Hs&Hsend). injection Hs as <-. discriminate Hsend.
Qed.

Lemma nbd_recv_loop_terminates_witness :
  recv_while exn_msg exn_reply 50 exn_waiting = recv_while exn_msg exn_reply 2 exn_waiting.
Proof.
  apply (nbd_recv_loop_terminates exn_msg exn_reply 50 exn_waiting).
  - split; [unfold ring_ok; cbn; lia|]. split; [intros i s Hi; done|reflexivity].
  - vm_compute. split; [discriminate|reflexivity].
  - vm_compute. lia.
Defined.
