(* ===== verification/QueueExamples.v ===== *)
(** * A queue with the null target

    A concrete queue of two tags on the list ring; it satisfies the
    hypotheses of the theorems on queues and runs their witnesses. *)

From S2P Require Import Prelude Bytes UblkCmd Uring QueueTypes Batch Queue QueueSpec QueueSystem Target Null Loop.

Definition ex_io (i : Z) : ublk_io :=
  mk_ublk_io (0x10000 * (i + 1)) (Z.lor UBLKSRV_NEED_FETCH_RQ UBLKSRV_IO_FREE) 0 i (Some i) 0.

Definition ex_batch : ublksrv_queue_batch := mk_batch [] [] 0 0 0 0 0 0.

Definition ex_queue : queue ListRing.ring (co_tgt unit) :=
  mk_queue 0 2 [mk_iod UBLK_IO_OP_READ 8 0 0; mk_iod UBLK_IO_OP_WRITE 16 8 0] 0 0 0 (-1) [] (-1)
    (ListRing.mk_ring 4 [] []) 0 [0; 0; 0; 0] ex_batch [ex_io 0; ex_io 1]
    (mk_co_tgt [CoIdle; CoIdle] tt) [].

Definition ex_epoll_wait (q : queue ListRing.ring (co_tgt unit)) : list (Z * Z) := [].
Definition ex_epoll_call (cb ev : Z) (q : queue ListRing.ring (co_tgt unit)) := Some q.

Lemma ex_epoll_registered (q : queue ListRing.ring (co_tgt unit)) addr ev :
  (addr, ev) ∈ ex_epoll_wait q -> is_Some (find_ecb addr (epoll_callbacks q)).
Proof. intros H. by apply elem_of_nil in H. Defined.

Lemma ex_epoll_safe cb ev (q : queue ListRing.ring (co_tgt unit)) A :
  qsim q A -> tinv (TargetLaws := null_laws) (view q) (a_tags A) ->
  cb_safe (tinv (TargetLaws := null_laws)) (ex_epoll_call cb ev) q A.
Proof. intros Hs Hi. exists q, A. split; [done|]. split; [apply rtc_refl|]. done. Defined.

Lemma ex_fresh : fresh_queue null_tgt_type ex_queue.
Proof.
  split; try done.
  - intros [|[|i]] Hi; cbn in Hi; [by eexists|by eexists|lia].
  - intros [|[|i]] io Hio; [by injection Hio as <-..|done].
  - split; [done|]. split; [done|]. intros [|[|i]] m r Hi; done.
Defined.

(** The queue after start-up. *)
Definition ex_started : queue ListRing.ring (co_tgt unit) :=
  default ex_queue (ublksrv_submit_fetch_commands ex_queue).

Definition ex_outstanding : list Z := [cmd_ud 0 UBLK_IO_FETCH_REQ; cmd_ud 1 UBLK_IO_FETCH_REQ].

Lemma ex_start : ublksrv_submit_fetch_commands ex_queue = Some ex_started.
Proof. vm_compute. reflexivity. Qed.

Lemma ex_new_uds : new_uds ex_queue ex_started = ex_outstanding.
Proof. vm_compute. reflexivity. Qed.

Lemma ex_reachable :
  reachable null_tgt_type ex_epoll_wait ex_epoll_call ex_started ex_outstanding.
Proof. rewrite <- ex_new_uds. exact (reach_start _ _ _ ex_queue ex_started ex_fresh ex_start). Defined.

(** A read request arrives for tag 0; the null target completes it at once. *)
Definition ex_cqe : io_uring_cqe := mk_cqe (cmd_ud 0 UBLK_IO_FETCH_REQ) UBLK_IO_RES_OK 0.

Lemma queue_never_fails_witness :
  exists ret q', ublksrv_process_io null_tgt_type ex_epoll_wait ex_epoll_call 524288 [ex_cqe] ex_started
    = Some (ret, q') /\ ret = 1.
Proof.
  destruct (queue_never_fails null_tgt_type ex_epoll_wait ex_epoll_call ex_epoll_registered
    ex_epoll_safe 524288 ex_started ex_outstanding [ex_cqe] ex_reachable) as [_ (ret&q'&Hq'&Hret&_)].
  - eapply (legal_cons _ _ _ _ _ _ [cmd_ud 1 UBLK_IO_FETCH_REQ]).
    + by apply consumes_io.
    + intros q' _. apply legal_nil.
  - exists ret, q'. split; [exact Hq'|exact Hret].
Defined.

Lemma queue_command_accounting_witness :
  cmd_inflight ex_started = 2 /\ cmd_inflight ex_started = Z.of_nat (length ex_outstanding).
Proof.
  split; [reflexivity|].
  exact (proj1 (queue_command_accounting null_tgt_type ex_epoll_wait ex_epoll_call
    ex_epoll_registered ex_epoll_safe ex_started ex_outstanding ex_reachable)).
Defined.

Lemma tag_command_protocol_witness :
  history 1 (io_commands (ring_log (ring ex_started))) = [UBLK_IO_FETCH_REQ] /\
  last (history 1 (io_commands (ring_log (ring ex_started))))
    = Some (user_data_to_op (cmd_ud 1 UBLK_IO_FETCH_REQ)).
Proof.
  split; [reflexivity|].
  apply (proj2 (tag_command_protocol null_tgt_type ex_epoll_wait ex_epoll_call
    ex_epoll_registered ex_epoll_safe ex_started ex_outstanding 1 ex_reachable ltac:(vm_compute; lia))).
  - do 2 constructor.
  - reflexivity.
Defined.

(** The queue after both commands were aborted. *)
Definition ex_stopped : queue ListRing.ring (co_tgt unit) :=
  match ublksrv_reap_events_uring null_tgt_type ex_epoll_wait ex_epoll_call
          (abort_cqe <$> ex_outstanding) (after_wait ex_started) with
  | Some (_, q) => q
  | None => ex_queue
  end.

Lemma ex_after_wait_reachable :
  reachable null_tgt_type ex_epoll_wait ex_epoll_call
    (set_ring (ListRing.submit (ring ex_started)).2 ex_started) ex_outstanding.
Proof. apply reach_submit; [exact ex_reachable|apply ListRing.submit_ok]. Defined.

Lemma stop_drains_witness :
  exists q', ublksrv_reap_events_uring null_tgt_type ex_epoll_wait ex_epoll_call
      (abort_cqe <$> ex_outstanding) (set_ring (ListRing.submit (ring ex_started)).2 ex_started)
      = Some (2, q') /\
    ublksrv_process_io null_tgt_type ex_epoll_wait ex_epoll_call 524288 [] q' = Some (- ENODEV, q').
Proof.
  destruct (stop_drains null_tgt_type ex_epoll_wait ex_epoll_call ex_epoll_registered ex_epoll_safe
    524288 [] _ _ ex_after_wait_reachable ltac:(discriminate)) as (q'&Hq'&_&_&_&Hp).
  exists q'. split; [exact Hq'|]. apply Hp. reflexivity.
Defined.

(** ** A queue that is done *)
Definition ex_flushed : queue ListRing.ring (co_tgt unit) :=
  set_ring (ListRing.submit (ring ex_started)).2 ex_started.
Definition ex_abort (ud : Z) (q : queue ListRing.ring (co_tgt unit)) :=
  default q (ublksrv_handle_cqe null_tgt_type ex_epoll_wait ex_epoll_call (abort_cqe ud) q).
Definition ex_half : queue ListRing.ring (co_tgt unit) := ex_abort (cmd_ud 0 UBLK_IO_FETCH_REQ) ex_flushed.
Definition ex_done : queue ListRing.ring (co_tgt unit) := ex_abort (cmd_ud 1 UBLK_IO_FETCH_REQ) ex_half.

Lemma ex_half_reachable :
  reachable null_tgt_type ex_epoll_wait ex_epoll_call ex_half [cmd_ud 1 UBLK_IO_FETCH_REQ].
Proof.
  replace [cmd_ud 1 UBLK_IO_FETCH_REQ] with ([cmd_ud 1 UBLK_IO_FETCH_REQ] ++ new_uds ex_flushed ex_half)
    by (vm_compute; reflexivity).
  apply (reach_cqe _ _ _ ex_flushed ex_outstanding (abort_cqe (cmd_ud 0 UBLK_IO_FETCH_REQ))
    [cmd_ud 1 UBLK_IO_FETCH_REQ] ex_half ex_after_wait_reachable).
  - by apply consumes_io.
  - vm_compute. reflexivity.
Defined.

Lemma ex_done_reachable : reachable null_tgt_type ex_epoll_wait ex_epoll_call ex_done [].
Proof.
  replace (@nil Z) with ([] ++ new_uds ex_half ex_done) by (vm_compute; reflexivity).
  apply (reach_cqe _ _ _ ex_half [cmd_ud 1 UBLK_IO_FETCH_REQ] (abort_cqe (cmd_ud 1 UBLK_IO_FETCH_REQ))
    [] ex_done ex_half_reachable).
  - by apply consumes_io.
  - vm_compute. reflexivity.
Defined.

Lemma queue_done_sound_witness :
  __ublksrv_queue_is_done ex_done = true /\ sq_pending (ring ex_done) = [].
Proof.
  split; [vm_compute; reflexivity|].
  refine (proj1 (proj2 (queue_done_sound null_tgt_type ex_epoll_wait ex_epoll_call
    ex_epoll_registered ex_epoll_safe ex_done [] ex_done_reachable _))).
  vm_compute. reflexivity.
Defined.

(** ** Batch mode *)
Definition ex_bytes (n : Z) : list Z := replicate (Z.to_nat n) 0.

Definition ex_batch_with {T} (d : T) : queue ListRing.ring T :=
  mk_queue 0 2 [] 0 0 UBLKSRV_QUEUE_BATCH_IO (-1) [] (-1) (ListRing.mk_ring 4 [] []) 0 [0; 0; 0; 0]
    (mk_batch [mk_fetch_buf true 0x3000 (ex_bytes 4) 4 0]
       [mk_commit_buf 0x1000 (ex_bytes 32) 0 2; mk_commit_buf 0x1020 (ex_bytes 32) 0 2]
       0x1000 32 16 0 1 UBLK_BATCH_F_HAS_BUF_ADDR)
    [ex_io 0; ex_io 1] d [].

Definition ex_batch_queue : queue ListRing.ring unit := ex_batch_with tt.

Lemma ex_batch_wf : batch_wf ex_batch_queue.
Proof. split; try done; [by left|by repeat constructor]. Defined.

Lemma batch_commit_delivers_witness :
  exists q1 q2, add_completes [(1, 4096); (0, -5)] ex_batch_queue = Some q1 /\
    ublksrv_batch_submit_commit q1 = Some q2 /\ cmd_inflight q2 = u32 (0 + 1).
Proof.
  destruct (batch_commit_delivers ex_batch_queue [(1, 4096); (0, -5)])
    as (q1&q2&cb&ud&H1&H2&_&_&_&_&_&_&_&H3); [exact ex_batch_wf| |done| | | |done|].
  - eexists. by split.
  - cbn. repeat constructor; set_solver.
  - repeat constructor; cbn; lia.
  - repeat constructor; try (by eexists); cbn; lia.
  - exists q1, q2. split; [exact H1|]. split; [exact H2|exact H3].
Defined.

Lemma ex_batch_fresh : batch_fresh (ex_batch_with (mk_co_tgt [CoIdle; CoIdle] tt)).
Proof.
  split; [split; try done; [by left|by repeat constructor]|done| |intros i Hi|done].
  - eexists. split; [done|]. cbn. lia.
  - cbn in Hi. assert (i = 0 \/ i = 1) as [-> | ->] by lia; by eexists.
Defined.

Lemma start_fetches_all_tags_witness :
  (exists q', ublksrv_submit_fetch_commands ex_queue = Some q' /\ cmd_inflight q' = q_depth q') /\
  (exists q', ublksrv_submit_fetch_commands (ex_batch_with (mk_co_tgt [CoIdle; CoIdle] tt)) = Some q' /\ cmd_inflight q' = 2).
Proof.
  split.
  - destruct (proj1 (start_fetches_all_tags null_tgt_type ex_queue) ex_fresh) as (q'&Hq'&Hc&_).
    exists q'. split; [exact Hq'|exact Hc].
  - destruct (proj2 (start_fetches_all_tags null_tgt_type _) ex_batch_fresh) as (q'&cb&fb&ev&Hq'&_&_&_&_&_&_&Hc).
    exists q'. split; [exact Hq'|exact Hc].
Defined.

Definition ex_alloc (ring_ok : bool) : alloc_results :=
  mk_alloc_results (Some 0x1000) (fun _ => Some 0x9000) (fun _ => ring_ok) ex_bytes.

Lemma batch_alloc_ok_witness :
  exists q', ublksrv_batch_alloc_bufs (2^12) (ex_alloc true) ex_batch_queue = Some (0, q') /\
    pending_commits q' = Some [].
Proof.
  destruct (batch_alloc_ok 12 ltac:(lia) (ex_alloc true) ex_batch_queue
    (mk_fetch_buf true 0x3000 (ex_bytes 4) 4 0) 0x1000 0x9000) as (q'&fb'&H1&_&H2&_);
    [done..| |done|done|].
  - intros n Hn. cbn. unfold ex_bytes. rewrite length_replicate. lia.
  - exists q'. split; [exact H1|exact H2].
Defined.

Lemma batch_alloc_failure_double_free_witness :
  exists q1 q2, ublksrv_batch_alloc_bufs (2^12) (ex_alloc false) ex_batch_queue = Some (- ENOMEM, q1) /\
    ublksrv_batch_free_bufs q1 = Some q2 /\
    filter (fun e => e = EvFree 0x9000) (trace q2) = [EvFree 0x9000; EvFree 0x9000].
Proof.
  exact (batch_alloc_failure_double_free 12 (ex_alloc false) ex_batch_queue
    (mk_fetch_buf true 0x3000 (ex_bytes 4) 4 0) 0x1000 0x9000 eq_refl eq_refl eq_refl
    ltac:(lia) ltac:(lia) eq_refl eq_refl).
Defined.

(** ** One request of the null and of the loop target *)
Definition ex_started_abs : aqueue :=
  mk_aqueue [TKernel UBLK_IO_FETCH_REQ; TKernel UBLK_IO_FETCH_REQ] false
    [command 0 UBLK_IO_FETCH_REQ None; command 1 UBLK_IO_FETCH_REQ None].

Lemma ex_started_sim : qsim ex_started ex_started_abs.
Proof.
  split; try done; try (vm_compute; reflexivity).
  - intros [|[|i]] io Hio; [by injection Hio as <-..|done].
  - intros [|[|i]] t Ht; [injection Ht as <-..|done]; (eexists; split; [vm_compute; reflexivity|done]).
Defined.

Lemma null_request_completes_witness :
  exists q', ublksrv_handle_cqe null_tgt_type ex_epoll_wait ex_epoll_call
      (mk_cqe (cmd_ud (Z.of_nat 0) UBLK_IO_FETCH_REQ) UBLK_IO_RES_OK 0) ex_started = Some q' /\
    cmd_inflight q' = cmd_inflight ex_started.
Proof.
  destruct (null_request_completes ex_epoll_wait ex_epoll_call ex_started ex_started_abs 0
    UBLK_IO_FETCH_REQ 0 (mk_iod UBLK_IO_OP_READ 8 0 0) ex_started_sim) as (q'&Hq'&_&Hc).
  - split; [done|]. split; [done|]. intros [|[|i]] m r Hi; done.
  - reflexivity.
  - vm_compute. reflexivity.
  - vm_compute. reflexivity.
  - cbn. lia.
  - cbn. lia.
  - exists q'. split; [exact Hq'|exact Hc].
Defined.

(** A loop queue whose first tag is held by the target. *)
Definition ex_loop_queue (op_flags : Z) (zc : bool) : queue ListRing.ring (co_tgt loop_tgt_data) :=
  mk_queue 0 1 [mk_iod op_flags 8 16 0x7000] 0 0 0 (-1) [] (-1) (ListRing.mk_ring 4 [] []) 0 [0; 0; 0; 0]
    ex_batch [set_io_flags 0 (ex_io 0)] (mk_co_tgt [CoIdle] (mk_loop_tgt_data false false zc false 2)) [].

Definition ex_loop_abs : aqueue := mk_aqueue [TTarget] false [].

Lemma ex_loop_sim f zc : qsim (ex_loop_queue f zc) ex_loop_abs.
Proof.
  split; try done.
  - intros [|i] io Hio; [by injection Hio as <-|done].
  - intros [|i] t Ht; [injection Ht as <-|done]. eexists. split; [done|by left].
Defined.

Lemma loop_rw_one_access_witness :
  exists q' ss, loop_queue_tgt_io 0 (ex_loop_queue UBLK_IO_OP_READ true) =
      Some (Z.of_nat (length (filter posts_cqe ss)), q') /\
    omap backing_access ss = [(9216, 4096, false)].
Proof.
  destruct (loop_rw_one_access (ex_loop_queue UBLK_IO_OP_READ true) ex_loop_abs 0
    (mk_iod UBLK_IO_OP_READ 8 16 0x7000) (ex_loop_sim _ _) eq_refl) as (q'&ss&Hq'&_&_&Hss);
    try (cbn; lia).
  - split; cbn; [lia|done].
  - reflexivity.
  - left. reflexivity.
  - exists q', ss. split; [exact Hq'|exact Hss].
Defined.

Lemma loop_fua_per_mode_witness :
  exists q' n ss, loop_queue_tgt_rw (mk_iod (Z.lor UBLK_IO_OP_WRITE UBLK_IO_F_FUA) 8 16 0) 0
      (mk_loop_tgt_data false false true false 2)
      (ex_loop_queue (Z.lor UBLK_IO_OP_WRITE UBLK_IO_F_FUA) true) = Some (n, q') /\
    omap backing_write_flags ss = [0].
Proof.
  destruct (loop_fua_per_mode (ex_loop_queue (Z.lor UBLK_IO_OP_WRITE UBLK_IO_F_FUA) true) ex_loop_abs 0
    (mk_iod (Z.lor UBLK_IO_OP_WRITE UBLK_IO_F_FUA) 8 16 0) (ex_loop_sim _ _) eq_refl)
    as (q'&n&ss&Hq'&_&Hss).
  - split; cbn; [lia|done].
  - split; reflexivity.
  - exists q', n, ss. split; [exact Hq'|exact Hss].
Defined.

Lemma loop_unsupported_op_unanswered_witness :
  exists q', loop_handle_io_async (fun _ _ => 0) (Z.of_nat 0) (ex_loop_queue UBLK_IO_OP_WRITE_SAME false)
      = Some (0, q') /\ ring q' = ring (ex_loop_queue UBLK_IO_OP_WRITE_SAME false).
Proof.
  destruct (loop_unsupported_op_unanswered (fun _ _ => 0) (ex_loop_queue UBLK_IO_OP_WRITE_SAME false)
    ex_loop_abs 0 (mk_iod UBLK_IO_OP_WRITE_SAME 8 16 0x7000) (ex_loop_sim _ _) eq_refl eq_refl)
    as (q'&Hq'&Hr&_).
  - rewrite !not_elem_of_cons. repeat split; try done. apply not_elem_of_nil.
  - exists q'. split; [exact Hq'|exact Hr].
Defined.
