(* ===== verification/LoopDiskExamples.v ===== *)
(** * A kernel for the loop target

    A machine that carries out ring entries in full, an instance of the
    interface of [LoopDisk], and a write of a loop device on it. *)

From S2P Require Import Prelude Bytes UblkCmd Uring QueueTypes Batch Queue QueueSpec Target Loop LoopDisk QueueExamples.

Record machine := mk_machine {
  m_file : bytes;
  m_mem : bytes;
  m_pages : Z -> Z -> bytes;
  m_fixed : Z -> option (Z * Z)
}.

Definition copy_to (dst len : Z) (src old : bytes) : bytes :=
  fun a => if (dst <=? a) && (a <? dst + len) then src (a - dst) else old a.
Definition pages_to (qid tag len : Z) (src : bytes) (old : Z -> Z -> bytes) : Z -> Z -> bytes :=
  fun q t => if (q =? qid) && (t =? tag) then copy_to 0 len src (old q t) else old q t.

(** The queue and tag of a position of the char device. *)
Definition pos_qid (pos : Z) : Z := (pos - UBLKSRV_IO_BUF_OFFSET) / 2^UBLK_QID_OFF.
Definition pos_tag (pos : Z) : Z := (pos - UBLKSRV_IO_BUF_OFFSET) / 2^UBLK_TAG_OFF mod 2^UBLK_TAG_BITS.

Definition m_effect (w : sqe_op) (m : machine) : machine :=
  let '(mk_machine file mem pages fixed) := m in
  match w with
  | PrepRead 1 buf len off _ None => mk_machine file (copy_to buf len (fun j => file (off + j)) mem) pages fixed
  | PrepWrite 1 buf len off _ None _ => mk_machine (copy_to off len (fun j => mem (buf + j)) file) mem pages fixed
  | PrepRead 1 _ len off _ (Some i) =>
      match fixed i with
      | Some (q, t) => mk_machine file mem (pages_to q t len (fun j => file (off + j)) pages) fixed
      | None => m
      end
  | PrepWrite 1 _ len off _ (Some i) _ =>
      match fixed i with
      | Some (q, t) => mk_machine (copy_to off len (pages q t) file) mem pages fixed
      | None => m
      end
  | PrepRead 0 buf len pos _ None => mk_machine file (copy_to buf len (pages (pos_qid pos) (pos_tag pos)) mem) pages fixed
  | PrepWrite 0 buf len pos _ None _ =>
      mk_machine file mem (pages_to (pos_qid pos) (pos_tag pos) len (fun j => mem (buf + j)) pages) fixed
  | PrepBufRegister tag qid i un _ =>
      mk_machine file mem pages (fun j => if j =? i then if un then None else Some (qid, tag) else fixed j)
  | _ => m
  end.

#[export] Instance machine_kernel : LoopKernel machine := {
  k_file := m_file;
  k_mem := m_mem;
  k_pages := m_pages;
  k_fixed := m_fixed;
  k_exec s m res m' := res = full_result (sqe_what s) /\ m' = m_effect (sqe_what s) m
}.

Lemma pages_at_decode qid tag pos : pages_at qid tag pos -> pos_qid pos = qid /\ pos_tag pos = tag.
Proof.
  intros (Hq&Ht&Hp). rewrite ublk_pos_sum in Hp by (done || (pos_consts; lia)). injection Hp as <-.
  unfold pos_qid, pos_tag. pos_consts. cbn [Z.add Pos.add] in *. Z.div_mod_to_equations. lia.
Qed.

Lemma pages_to_same qid tag len src old : copied 0 len src (old qid tag) (pages_to qid tag len src old qid tag).
Proof. intros a. unfold pages_to. by rewrite !Z.eqb_refl. Qed.

#[export] Instance machine_laws : LoopKernelLaws machine.
Proof.
  split; intros *; cbn -[pages_to]; intros Hfl.
  1, 2: intros [_ ->]; by destruct m.
  1, 2: intros [_ ->] Hi; destruct m; cbn -[pages_to] in *; rewrite Hi; cbn -[pages_to]; split; done || apply pages_to_same.
  1, 2: intros [<- <-]%pages_at_decode [_ ->]; destruct m; cbn -[pages_to]; split_and!; done || apply pages_to_same.
  - intros [_ ->]. destruct m. cbn. by rewrite Z.eqb_refl.
Qed.

Lemma machine_runs ss m : exists cqes, k_run ss m cqes (foldl (fun m s => m_effect (sqe_what s) m) m ss).
Proof.
  revert m. induction ss as [|s ss IH]; intros m; [eexists; constructor|].
  destruct (IH (m_effect (sqe_what s) m)) as [cqes Hr]. eexists. by apply (run_cons s ss m (m_effect (sqe_what s) m) _ cqes 0).
Qed.

Definition ex_machine : machine := mk_machine (fun _ => 0) (fun _ => 7) (fun _ _ j => j mod 256) (fun _ => None).

Lemma loop_refines_disk_witness :
  exists q1 ss cqes m' q2, loop_handle_io_async (fun _ _ => 0) 0 (ex_loop_queue UBLK_IO_OP_WRITE true) = Some (0, q1) /\
    k_run ss ex_machine cqes m' /\ copied 9216 4096 (fun j => j mod 256) (fun _ => 0) (k_file m') /\
    deliver 0 cqes q1 = Some q2 /\ qsim q2 (send 0 UBLK_IO_COMMIT_AND_FETCH_REQ (Some 4096) ex_loop_abs).
Proof.
  destruct (loop_refines_disk (fun _ _ => 0) (M := machine) (ex_loop_queue UBLK_IO_OP_WRITE true) ex_loop_abs 0
    (mk_iod UBLK_IO_OP_WRITE 8 16 0x7000) (ex_loop_sim _ _) eq_refl) as (q1&ss&Hq&_&H); try (cbn; lia).
  - split; cbn; [lia|done].
  - reflexivity.
  - right. reflexivity.
  - split; done.
  - destruct (machine_runs ss ex_machine) as [cqes Hrun]. destruct (H _ _ _ Hrun) as (He&q2&Hd&Hs); [done|].
    eexists q1, ss, cqes, _, q2. split; [exact Hq|]. split; [exact Hrun|]. split; [exact He|]. split; [exact Hd|exact Hs].
Defined.
