(* ===== verification/DmaBuf.v ===== *)
(** * The DMA buffer pool (targets/dma_buf.c)

    One mapping of huge pages; without an IOMMU physical addresses are looked
    up in a copy of /proc/self/pagemap. *)

From S2P Require Import Prelude.

Definition PAGE_SIZE : Z := 4096.
Definition DMA_BUF_PHYS_ERROR : Z := u64 (-1).

Record dma_buf_pool := mk_pool {
  pool_base : Z;                       (* void * *)
  pool_size : Z;                       (* size_t *)
  pagemap_cache : option (list Z);     (* None: NULL *)
  pagemap_nr_pages : Z
}.

(** [map]: the address mmap(2) gave, or the errno. *)
Definition dma_buf_pool_init (map : Z + Z) (size : Z) (p : dma_buf_pool) : Z * dma_buf_pool :=
  match map with
  | inl base => (0, mk_pool base size None 0)
  | inr errno => (- errno, mk_pool 0 (pool_size p) (pagemap_cache p) (pagemap_nr_pages p))
  end.

(** [mem]: whether malloc(3) succeeds; [fd]: the descriptor of the pagemap or
    the errno; [pread off n]: the words read from word [off] on, or the errno. *)
Definition dma_buf_pool_read_pagemap (mem : bool) (fd : Z + Z) (pread : Z -> Z -> list Z + Z) (p : dma_buf_pool)
    : Z * dma_buf_pool :=
  let nr_pages := pool_size p / PAGE_SIZE in
  let none := mk_pool (pool_base p) (pool_size p) None (pagemap_nr_pages p) in
  if negb mem then (- ENOMEM, none)
  else match fd with
  | inr errno => (- errno, none)
  | inl _ =>
      match pread (pool_base p / PAGE_SIZE) nr_pages with
      | inr errno => (- errno, none)
      | inl words =>
          if negb (Z.of_nat (length words) =? nr_pages) then (- EIO, none)
          else (0, mk_pool (pool_base p) (pool_size p) (Some words) nr_pages)
      end
  end.

Definition dma_buf_pool_virt_to_phys (p : dma_buf_pool) (va : Z) : option Z :=
  match pagemap_cache p with
  | None => Some DMA_BUF_PHYS_ERROR
  | Some cache =>
      if (va <? pool_base p) || (pool_base p + pool_size p <=? va) then Some DMA_BUF_PHYS_ERROR
      else
        entry ← cache !! Z.to_nat ((va - pool_base p) / PAGE_SIZE);
        if negb (has entry (bit 63)) then Some DMA_BUF_PHYS_ERROR
        else Some (u64 (Z.land entry 0x007fffffffffffff * PAGE_SIZE + Z.land va (PAGE_SIZE - 1)))
  end.

Definition dma_buf_pool_deinit (p : dma_buf_pool) : dma_buf_pool := mk_pool 0 0 None 0.

(** A pool whose pages are all present, with frame numbers below 2^52. *)
Definition pool_mapped (p : dma_buf_pool) (frame : Z -> Z) : Prop :=
  pool_base p mod PAGE_SIZE = 0 /\ pool_size p mod PAGE_SIZE = 0 /\ 0 <= pool_base p /\
  exists cache, pagemap_cache p = Some cache /\ Z.of_nat (length cache) = pool_size p / PAGE_SIZE /\
    forall i, 0 <= i < pool_size p / PAGE_SIZE ->
      exists e, cache !! Z.to_nat i = Some e /\ has e (bit 63) = true /\
        Z.land e 0x007fffffffffffff = frame i /\ 0 <= frame i < 2^52 - 1.

(** Inside a mapped pool the lookup gives the frame of the page and the offset
    in it. *)
Lemma virt_to_phys_mapped p frame va :
  pool_mapped p frame -> pool_base p <= va < pool_base p + pool_size p ->
  dma_buf_pool_virt_to_phys p va =
    Some (frame ((va - pool_base p) / PAGE_SIZE) * PAGE_SIZE + va mod PAGE_SIZE) /\
  frame ((va - pool_base p) / PAGE_SIZE) * PAGE_SIZE + va mod PAGE_SIZE <> DMA_BUF_PHYS_ERROR.
Proof.
  intros (Hb&Hs&Hb0&cache&Hc&Hl&Hm) Hva. unfold dma_buf_pool_virt_to_phys. rewrite Hc.
  rewrite (proj2 (Z.ltb_ge _ _)), (proj2 (Z.leb_gt _ _)) by lia. cbn [orb].
  assert (Hi : 0 <= (va - pool_base p) / PAGE_SIZE < pool_size p / PAGE_SIZE).
  { unfold PAGE_SIZE in *. Z.div_mod_to_equations. lia. }
  destruct (Hm _ Hi) as (e&He&Hbit&Hf&Hfr). rewrite He. cbn [mbind option_bind]. rewrite Hbit, Hf. cbn [negb].
  replace (PAGE_SIZE - 1) with (2^12 - 1) by done. rewrite land_ones_mod by lia.
  pose proof (Z.mod_pos_bound va 4096 ltac:(lia)) as Hmod. unfold PAGE_SIZE in *. change (2^12) with 4096.
  split; [|unfold DMA_BUF_PHYS_ERROR, u64; change (-1 mod 2^64) with (2^64 - 1); lia].
  f_equal. apply u64_id. unfold is_u64. lia.
Qed.
