(* ===== verification/Nvme.v ===== *)
(** * The NVMe target: data, queues and data pointers

    targets/nvme/nvme.h and the parts of targets/nvme/ublk.nvme_vfio.cpp that
    build commands and keep the submission and completion rings.  Memory the
    controller reads or writes (the rings, the PRP page of a tag) is part of
    the state; a doorbell is the last value written to it. *)

From S2P Require Import Prelude UblkCmd DmaBuf.

Definition ADMIN_Q_SIZE : Z := 64.
Definition NVME_CMD_FLUSH : Z := 0.
Definition NVME_CMD_WRITE : Z := 1.
Definition NVME_CMD_READ : Z := 2.
Definition NVME_CMD_DSM : Z := 9.
Definition NVME_RW_FUA : Z := bit 14.
Definition NVME_SGL_FMT_DATA_DESC : Z := 0.
Definition NVME_SGL_FMT_LAST_SEG_DESC : Z := 3.
Definition NVME_SGL_FMT_ADDRESS : Z := 0.
Definition NVME_CMD_SGL_METABUF : Z := bit 6.
Definition NVME_DSMGMT_AD : Z := bit 2.

(** ** Structures *)

(** A data pointer of a command: the two PRP words, or an SGL descriptor
    written over them. *)
Record nvme_sgl_desc := mk_sgl {
  sgl_addr : Z;    (* __le64 *)
  sgl_length : Z;  (* __le32 *)
  sgl_type : Z     (* __u8; the reserved bytes are zero *)
}.

(** The second eight bytes of a descriptor. *)
Definition sgl_word1 (d : nvme_sgl_desc) : Z := Z.lor (sgl_length d) (Z.shiftl (sgl_type d) 56).

Record nvme_rw_command := mk_rw_cmd {
  rw_opcode : Z;   (* __u8 *)
  rw_flags : Z;    (* __u8 *)
  rw_cid : Z;      (* __u16 *)
  rw_nsid : Z;     (* __u32 *)
  rw_prp1 : Z;     (* __u64 *)
  rw_prp2 : Z;     (* __u64 *)
  rw_slba : Z;     (* __u64 *)
  rw_length : Z;   (* __u16 *)
  rw_control : Z   (* __u16; the other fields stay zero *)
}.

Record nvme_common_command := mk_common_cmd {
  c_opcode : Z;  (* __u8 *)
  c_cid : Z;     (* __u16 *)
  c_nsid : Z;    (* __u32 *)
  c_prp1 : Z;    (* __u64 *)
  c_cdw10 : Z;   (* __u32 *)
  c_cdw11 : Z    (* __u32; the other fields stay zero *)
}.

(** Admin commands; flags, command id and the fields not named stay zero. *)
Record nvme_identify := mk_identify {
  id_nsid : Z;  (* __u32 *)
  id_prp1 : Z;  (* __u64 *)
  id_cns : Z    (* __u32 *)
}.

Record nvme_create_cq := mk_create_cq {
  ccq_prp1 : Z;   (* __u64 *)
  ccq_cqid : Z;   (* __u16 *)
  ccq_qsize : Z;  (* __u16 *)
  ccq_flags : Z   (* __u16 *)
}.

Record nvme_create_sq := mk_create_sq {
  csq_prp1 : Z;   (* __u64 *)
  csq_sqid : Z;   (* __u16 *)
  csq_qsize : Z;  (* __u16 *)
  csq_flags : Z;  (* __u16 *)
  csq_cqid : Z    (* __u16 *)
}.

Record nvme_delete_queue := mk_delete_queue { dq_opcode : Z;  (* __u8 *) dq_qid : Z  (* __u16 *) }.

Inductive nvme_admin_command :=
| AdmIdentify (c : nvme_identify)
| AdmCreateCq (c : nvme_create_cq)
| AdmCreateSq (c : nvme_create_sq)
| AdmDelete (c : nvme_delete_queue).

Inductive nvme_sqe := SqeRw (c : nvme_rw_command) | SqeCommon (c : nvme_common_command) | SqeAdmin (c : nvme_admin_command).

Record nvme_completion := mk_completion {
  cq_command_id : Z;  (* __u16 *)
  cq_status : Z       (* __u16: status in bits 1-15, phase in bit 0 *)
}.

Record nvme_dma_mapping := mk_mapping { map_vaddr : Z; map_iova : Z; map_size : Z }.
Definition no_mapping : nvme_dma_mapping := mk_mapping 0 0 0.

(** [prp_list] are the 512 words of the page at [prp_vaddr]. *)
Record nvme_io_priv := mk_io_priv {
  data_mapping : nvme_dma_mapping;
  prp_mapping : nvme_dma_mapping;
  prp_vaddr : Z;
  prp_list : list Z
}.

(** Buffers, mappings and doorbell addresses of a queue. *)
Record nvme_queue_mem := mk_queue_mem {
  sq_buffer : Z;
  cq_buffer : Z;
  sq_iova : Z;
  cq_iova : Z;
  sq_mapping : nvme_dma_mapping;
  cq_mapping : nvme_dma_mapping;
  sq_doorbell : Z;
  cq_doorbell : Z
}.

Record nvme_queue := mk_nvme_queue {
  nq_qid : Z;              (* __u16 *)
  nq_qsize : Z;            (* __u16 *)
  nq_mem : nvme_queue_mem;
  nq_sq : list nvme_sqe;   (* the entries behind sq_buffer *)
  nq_cq : list nvme_completion;  (* the entries behind cq_buffer, written by the controller *)
  sq_tail : Z;             (* __u16 *)
  last_sq_tail : Z;        (* __u16 *)
  cq_head : Z;             (* __u16 *)
  cq_phase : Z;            (* __u8 *)
  sq_db : Z;               (* last value written to the doorbells *)
  cq_db : Z
}.

Definition set_sq (v : list nvme_sqe) (n : nvme_queue) : nvme_queue :=
  mk_nvme_queue (nq_qid n) (nq_qsize n) (nq_mem n) v (nq_cq n) (sq_tail n) (last_sq_tail n) (cq_head n) (cq_phase n) (sq_db n) (cq_db n).
Definition set_sq_tail (v : Z) (n : nvme_queue) : nvme_queue :=
  mk_nvme_queue (nq_qid n) (nq_qsize n) (nq_mem n) (nq_sq n) (nq_cq n) v (last_sq_tail n) (cq_head n) (cq_phase n) (sq_db n) (cq_db n).
Definition ring_sq_doorbell (v : Z) (n : nvme_queue) : nvme_queue :=
  mk_nvme_queue (nq_qid n) (nq_qsize n) (nq_mem n) (nq_sq n) (nq_cq n) (sq_tail n) (last_sq_tail n) (cq_head n) (cq_phase n) v (cq_db n).
Definition set_last_sq_tail (v : Z) (n : nvme_queue) : nvme_queue :=
  mk_nvme_queue (nq_qid n) (nq_qsize n) (nq_mem n) (nq_sq n) (nq_cq n) (sq_tail n) v (cq_head n) (cq_phase n) (sq_db n) (cq_db n).
Definition set_cq_head (h p : Z) (n : nvme_queue) : nvme_queue :=
  mk_nvme_queue (nq_qid n) (nq_qsize n) (nq_mem n) (nq_sq n) (nq_cq n) (sq_tail n) (last_sq_tail n) h p (sq_db n) (cq_db n).
Definition ring_cq_doorbell (v : Z) (n : nvme_queue) : nvme_queue :=
  mk_nvme_queue (nq_qid n) (nq_qsize n) (nq_mem n) (nq_sq n) (nq_cq n) (sq_tail n) (last_sq_tail n) (cq_head n) (cq_phase n) (sq_db n) v.
Definition set_cq (v : list nvme_completion) (n : nvme_queue) : nvme_queue :=
  mk_nvme_queue (nq_qid n) (nq_qsize n) (nq_mem n) (nq_sq n) v (sq_tail n) (last_sq_tail n) (cq_head n) (cq_phase n) (sq_db n) (cq_db n).

(** The layout of the pool, as offsets from its base. *)
Record nvme_layout := mk_layout {
  queue_region_off : Z;
  prp_region_off : Z;
  io_buf_region_off : Z;
  identify_buf_off : Z
}.

Record nvme_vfio_tgt_data := mk_nvme_data {
  nsid : Z;                (* __u32 *)
  lba_shift : Z;           (* __u32 *)
  user_copy : bool;
  use_noiommu : bool;
  force_noiommu : bool;
  io_queues : list nvme_queue;
  nr_io_queues : Z;        (* int *)
  nvme_queue_depth : Z;    (* unsigned int *)
  nvme_max_io_buf : Z;     (* unsigned int max_io_buf_bytes *)
  db_stride : Z;           (* unsigned int *)
  bar0 : Z;
  sgls : Z;                (* __le32 *)
  next_iova : Z;           (* __u64 *)
  dma_pool : dma_buf_pool;
  layout : nvme_layout;
  queue_alloc_off : Z;     (* size_t *)
  hugepage_size : Z        (* size_t *)
}.

Definition set_next_iova (v : Z) (d : nvme_vfio_tgt_data) : nvme_vfio_tgt_data :=
  mk_nvme_data (nsid d) (lba_shift d) (user_copy d) (use_noiommu d) (force_noiommu d) (io_queues d) (nr_io_queues d) (nvme_queue_depth d) (nvme_max_io_buf d) (db_stride d) (bar0 d) (sgls d) v (dma_pool d) (layout d) (queue_alloc_off d) (hugepage_size d).
Definition set_io_queues (v : list nvme_queue) (d : nvme_vfio_tgt_data) : nvme_vfio_tgt_data :=
  mk_nvme_data (nsid d) (lba_shift d) (user_copy d) (use_noiommu d) (force_noiommu d) v (nr_io_queues d) (nvme_queue_depth d) (nvme_max_io_buf d) (db_stride d) (bar0 d) (sgls d) (next_iova d) (dma_pool d) (layout d) (queue_alloc_off d) (hugepage_size d).
Definition set_queue_alloc_off (v : Z) (d : nvme_vfio_tgt_data) : nvme_vfio_tgt_data :=
  mk_nvme_data (nsid d) (lba_shift d) (user_copy d) (use_noiommu d) (force_noiommu d) (io_queues d) (nr_io_queues d) (nvme_queue_depth d) (nvme_max_io_buf d) (db_stride d) (bar0 d) (sgls d) (next_iova d) (dma_pool d) (layout d) v (hugepage_size d).
Definition set_pool_layout (p : dma_buf_pool) (l : nvme_layout) (d : nvme_vfio_tgt_data) : nvme_vfio_tgt_data :=
  mk_nvme_data (nsid d) (lba_shift d) (user_copy d) (use_noiommu d) (force_noiommu d) (io_queues d) (nr_io_queues d) (nvme_queue_depth d) (nvme_max_io_buf d) (db_stride d) (bar0 d) (sgls d) (next_iova d) p l (queue_alloc_off d) (hugepage_size d).

Definition nvme_validate_params (d : nvme_vfio_tgt_data) (cap : Z) : Z :=
  let mqes := Z.land cap 0xffff + 1 in
  if 65535 <? nr_io_queues d then - EINVAL
  else if mqes <? nvme_queue_depth d then - EINVAL
  else 0.

Definition nvme_use_iommu (d : nvme_vfio_tgt_data) : bool := negb (use_noiommu d) && negb (force_noiommu d).
Definition nvme_sgl_supported (d : nvme_vfio_tgt_data) : bool := has (sgls d) 3.

(** [(x + PAGE_SIZE - 1) & ~(PAGE_SIZE - 1)] *)
Definition page_up (x : Z) : Z := round_up x PAGE_SIZE.

(** ** Mapping for DMA *)

(** The address and the data afterwards; [None]: the lookup left the pagemap. *)
Definition nvme_get_iova (vaddr size : Z) (d : nvme_vfio_tgt_data) : option (Z * nvme_vfio_tgt_data) :=
  if negb (nvme_use_iommu d) then
    phys ← dma_buf_pool_virt_to_phys (dma_pool d) vaddr;
    Some (if phys =? DMA_BUF_PHYS_ERROR then 0 else phys, d)
  else Some (next_iova d, set_next_iova (u64 (next_iova d + page_up size)) d).

(** [ioas_map vaddr iova length]: whether the IOMMU_IOAS_MAP ioctl succeeds. *)
Section map_dma.
Variable ioas_map : Z -> Z -> Z -> bool.

Definition nvme_do_vfio_map (d : nvme_vfio_tgt_data) (vaddr iova size : Z) : Z :=
  if negb (nvme_use_iommu d) then 0
  else if ioas_map vaddr iova (page_up size) then 0 else -1.

(** The new mapping, when there is one; the address is 0 otherwise. *)
Definition nvme_map_dma (vaddr size : Z) (m : nvme_dma_mapping) (d : nvme_vfio_tgt_data)
    : option (Z * nvme_dma_mapping * nvme_vfio_tgt_data) :=
  '(iova, d) ← nvme_get_iova vaddr size d;
  if iova =? 0 then Some (0, m, d)
  else if nvme_do_vfio_map d vaddr iova size <? 0 then Some (0, m, d)
  else Some (iova, mk_mapping vaddr iova size, d).

Definition nvme_unmap_dma (m : nvme_dma_mapping) : nvme_dma_mapping :=
  if map_iova m =? 0 then m else no_mapping.

(** ** The pool *)

Definition nvme_pool_alloc_queue_buf (size : Z) (d : nvme_vfio_tgt_data) : option Z * nvme_vfio_tgt_data :=
  let aligned_size := page_up size in
  if queue_region_off (layout d) <? queue_alloc_off d + aligned_size then (None, d)
  else (Some (pool_base (dma_pool d) + queue_alloc_off d), set_queue_alloc_off (queue_alloc_off d + aligned_size) d).

(** The index is computed as an int. *)
Definition nvme_pool_get_prp (d : nvme_vfio_tgt_data) (qid tag : Z) : Z :=
  pool_base (dma_pool d) + u64 (prp_region_off (layout d) + s32 ((qid * nvme_queue_depth d + tag) * PAGE_SIZE)).
Definition nvme_pool_get_io_buf (d : nvme_vfio_tgt_data) (qid tag : Z) : Z :=
  pool_base (dma_pool d) +
    u64 (io_buf_region_off (layout d) + s32 (qid * nvme_queue_depth d + tag) * nvme_max_io_buf d).
Definition nvme_pool_get_identify_buf (d : nvme_vfio_tgt_data) : Z :=
  pool_base (dma_pool d) + identify_buf_off (layout d).

Definition nvme_pool_layout (nr_queues depth io_buf_size : Z) : nvme_layout :=
  let admin_sq_size := page_up (ADMIN_Q_SIZE * 64) in
  let admin_cq_size := page_up (ADMIN_Q_SIZE * 16) in
  let io_sq_size := page_up ((depth + 1) * 64) in
  let io_cq_size := page_up ((depth + 1) * 16) in
  let queue_region := (admin_sq_size + admin_cq_size) + nr_queues * (io_sq_size + io_cq_size) in
  let prp_region := s32 (nr_queues * depth * PAGE_SIZE) in
  let io_buf_region := u64 (s32 (nr_queues * depth) * io_buf_size) in
  mk_layout queue_region queue_region (u64 (queue_region + prp_region)) (u64 (queue_region + prp_region + io_buf_region)).

(** [hugepages total]: the result of nvme_ensure_hugepages; [map total]: what
    mmap(2) gives. *)
Definition nvme_dmabuf_pool_init (hugepages : Z -> Z) (map : Z -> Z + Z) (d : nvme_vfio_tgt_data)
    : Z * nvme_vfio_tgt_data :=
  let l := nvme_pool_layout (nr_io_queues d) (nvme_queue_depth d) (nvme_max_io_buf d) in
  let total := round_up (identify_buf_off l + PAGE_SIZE) (hugepage_size d) in
  let d := set_pool_layout (dma_pool d) l d in
  if hugepages total <? 0 then (hugepages total, d)
  else
    let '(ret, p) := dma_buf_pool_init (map total) total (dma_pool d) in
    let d := set_pool_layout p l d in
    if ret <? 0 then (ret, d) else (0, set_queue_alloc_off 0 d).

(** ** Queues *)

Definition zero_sqe : nvme_sqe := SqeCommon (mk_common_cmd 0 0 0 0 0 0).
Definition zero_cqe : nvme_completion := mk_completion 0 0.

Definition nvme_queue_init (qid depth : Z) (q : nvme_queue) (d : nvme_vfio_tgt_data)
    : option (Z * nvme_queue * nvme_vfio_tgt_data) :=
  let sq_buf_size := page_up (depth * 64) in
  let cq_buf_size := page_up (depth * 16) in
  let '(sq, d) := nvme_pool_alloc_queue_buf sq_buf_size d in
  match sq with
  | None => Some (- ENOMEM, q, d)
  | Some sq =>
      let '(cq, d) := nvme_pool_alloc_queue_buf cq_buf_size d in
      match cq with
      | None => Some (- ENOMEM, q, d)
      | Some cq =>
          '(sqi, sqm, d) ← nvme_map_dma sq sq_buf_size (sq_mapping (nq_mem q)) d;
          '(cqi, cqm, d) ← nvme_map_dma cq cq_buf_size (cq_mapping (nq_mem q)) d;
          let db (n : Z) := bar0 d + 0x1000 + n * db_stride d in
          let mem sqm cqm a b := mk_queue_mem sq cq sqi cqi sqm cqm a b in
          let entries n m := mk_nvme_queue (nq_qid n) (nq_qsize n) m (replicate (Z.to_nat depth) zero_sqe)
            (replicate (Z.to_nat depth) zero_cqe) in
          if (sqi =? 0) || (cqi =? 0)
          then Some (- ENOMEM,
            entries q (mem (nvme_unmap_dma sqm) (nvme_unmap_dma cqm) (sq_doorbell (nq_mem q)) (cq_doorbell (nq_mem q)))
              (sq_tail q) (last_sq_tail q) (cq_head q) (cq_phase q) (sq_db q) (cq_db q), d)
          else Some (0, mk_nvme_queue (u16 qid) (u16 depth) (mem sqm cqm (db (2 * qid)) (db (2 * qid + 1)))
            (replicate (Z.to_nat depth) zero_sqe) (replicate (Z.to_nat depth) zero_cqe) 0 0 0 1 0 0, d)
      end
  end.
End map_dma.

(** ** The rings *)

Definition nvme_sq_flush (n : nvme_queue) : nvme_queue :=
  if negb (sq_tail n =? last_sq_tail n)
  then set_last_sq_tail (sq_tail n) (ring_sq_doorbell (sq_tail n) n) else n.

Definition nvme_sq_submit_cmd (n : nvme_queue) : nvme_queue :=
  let tail := u16 (sq_tail n + 1) in
  let n := set_sq_tail (if tail =? nq_qsize n then 0 else tail) n in
  let pending := u16 (Z.rem (sq_tail n + nq_qsize n - last_sq_tail n) (nq_qsize n)) in
  if 32 <=? pending then nvme_sq_flush n
  else
    let next_tail := u16 (sq_tail n + 1) in
    let next_tail := if next_tail =? nq_qsize n then 0 else next_tail in
    if next_tail =? last_sq_tail n then nvme_sq_flush n else n.

(** The copy of a command into the slot at the tail, and its submission. *)
Definition sq_put (c : nvme_sqe) (n : nvme_queue) : option nvme_queue :=
  if (0 <=? sq_tail n) && (sq_tail n <? Z.of_nat (length (nq_sq n)))
  then Some (nvme_sq_submit_cmd (set_sq (<[Z.to_nat (sq_tail n) := c]> (nq_sq n)) n)) else None.

Definition nvme_cqe_pending (n : nvme_queue) : option bool :=
  cqe ← nq_cq n !! Z.to_nat (cq_head n);
  Some (Z.land (cq_status cqe) 1 =? cq_phase n).

Definition nvme_update_cq_head (n : nvme_queue) : nvme_queue :=
  let tmp := cq_head n + 1 in
  if tmp =? nq_qsize n then set_cq_head 0 (Z.lxor (cq_phase n) 1) n else set_cq_head tmp (cq_phase n) n.

(** ** Data pointers *)

Definition set_prps (prp1 prp2 : Z) (c : nvme_rw_command) : nvme_rw_command :=
  mk_rw_cmd (rw_opcode c) (rw_flags c) (rw_cid c) (rw_nsid c) prp1 prp2 (rw_slba c) (rw_length c) (rw_control c).
Definition set_rw_flags (v : Z) (c : nvme_rw_command) : nvme_rw_command :=
  mk_rw_cmd (rw_opcode c) v (rw_cid c) (rw_nsid c) (rw_prp1 c) (rw_prp2 c) (rw_slba c) (rw_length c) (rw_control c).
Definition set_prp_list (v : list Z) (p : nvme_io_priv) : nvme_io_priv :=
  mk_io_priv (data_mapping p) (prp_mapping p) (prp_vaddr p) v.
Definition set_data_mapping (v : nvme_dma_mapping) (p : nvme_io_priv) : nvme_io_priv :=
  mk_io_priv v (prp_mapping p) (prp_vaddr p) (prp_list p).

(** [while (left > 0 && prp_idx < max_prps)], at most [n] rounds: what is rest
    and the list. *)
Fixpoint prp_loop (n : nat) (idx : nat) (prp_addr rest : Z) (l : list Z) : Z * list Z :=
  match n with
  | O => (rest, l)
  | S n =>
      if 0 <? rest
      then prp_loop n (S idx) (u64 (prp_addr + PAGE_SIZE)) (if PAGE_SIZE <? rest then rest - PAGE_SIZE else 0)
             (<[idx := prp_addr]> l)
      else (rest, l)
  end.

Definition max_prps : nat := 512.

(** The result, the command and the PRP page; [None]: a lookup rest the
    pagemap. *)
Definition nvme_setup_prps (c : nvme_rw_command) (d : nvme_vfio_tgt_data) (priv : nvme_io_priv)
    (io_buf iova len : Z) : option (Z * nvme_rw_command * nvme_io_priv) :=
  let prp1 := iova in
  let first_page_len := PAGE_SIZE - Z.land iova (PAGE_SIZE - 1) in
  let first_page_len := if len <? first_page_len then len else first_page_len in
  let remaining := len - first_page_len in
  let iova := u64 (iova + first_page_len) in
  if remaining =? 0 then Some (0, set_prps prp1 0 c, priv)
  else if remaining <=? PAGE_SIZE then
    if negb (nvme_use_iommu d) then
      let vaddr_page2 := Z.land (u64 (io_buf + first_page_len)) (Z.lnot (PAGE_SIZE - 1)) in
      paddr2 ← dma_buf_pool_virt_to_phys (dma_pool d) vaddr_page2;
      Some (if paddr2 =? DMA_BUF_PHYS_ERROR then (- EINVAL, set_prps prp1 (rw_prp2 c) c, priv)
            else (0, set_prps prp1 paddr2 c, priv))
    else Some (0, set_prps prp1 iova c, priv)
  else
    let '(rest, l) := prp_loop max_prps 0 iova remaining (prp_list priv) in
    Some (if 0 <? rest then - EINVAL else 0, set_prps prp1 (map_iova (prp_mapping priv)) c, set_prp_list l priv).

Definition data_desc (addr len : Z) : nvme_sgl_desc :=
  mk_sgl addr (u32 len) (Z.lor (Z.shiftl NVME_SGL_FMT_DATA_DESC 4) NVME_SGL_FMT_ADDRESS).

Definition nvme_setup_sgl (c : nvme_rw_command) (d : nvme_vfio_tgt_data) (priv : nvme_io_priv)
    (io_buf iova len : Z) : option (Z * nvme_rw_command * nvme_io_priv) :=
  let hps := hugepage_size d in
  let buf_end := u64 (io_buf + len - 1) in
  let c := set_rw_flags (Z.lor (rw_flags c) NVME_CMD_SGL_METABUF) c in
  let need_two_segments := negb (nvme_use_iommu d) && (0 <? hps) && negb (io_buf / hps =? buf_end / hps) in
  let put s c := set_prps (sgl_addr s) (sgl_word1 s) c in
  if negb need_two_segments then Some (0, put (data_desc iova len) c, priv)
  else
    let hp_boundary := (io_buf / hps + 1) * hps in
    let seg1_len := hp_boundary - io_buf in
    let seg2_len := len - seg1_len in
    seg2_phys ← dma_buf_pool_virt_to_phys (dma_pool d) hp_boundary;
    if seg2_phys =? DMA_BUF_PHYS_ERROR then Some (- EFAULT, c, priv)
    else
      let s0 := data_desc iova seg1_len in
      let s1 := data_desc seg2_phys seg2_len in
      let l := <[0%nat := sgl_addr s0]> (<[1%nat := sgl_word1 s0]>
                 (<[2%nat := sgl_addr s1]> (<[3%nat := sgl_word1 s1]> (prp_list priv)))) in
      let seg := mk_sgl (map_iova (prp_mapping priv)) 32
                   (Z.lor (Z.shiftl NVME_SGL_FMT_LAST_SEG_DESC 4) NVME_SGL_FMT_ADDRESS) in
      Some (0, put seg c, set_prp_list l priv).

(** ** What the controller makes of the data pointers *)

(** The (address, length) pieces of a transfer of [len] bytes: PRP1 up to the
    end of its page, then PRP2 for one more page, or the pages listed in the
    memory PRP2 points to. *)
Fixpoint prp_pages (l : list Z) (rest : Z) : list (Z * Z) :=
  match l with
  | [] => []
  | a :: l => if rest <=? 0 then [] else (a, Z.min rest PAGE_SIZE) :: prp_pages l (rest - PAGE_SIZE)
  end.

Definition prp_transfer (prp1 prp2 : Z) (l : list Z) (len : Z) : list (Z * Z) :=
  let first := Z.min len (PAGE_SIZE - prp1 mod PAGE_SIZE) in
  let rest := len - first in
  (prp1, first) ::
    (if rest =? 0 then [] else if rest <=? PAGE_SIZE then [(prp2, rest)] else prp_pages l rest).

Definition transfer_bytes (segs : list (Z * Z)) : list Z :=
  flat_map (fun '(a, n) => seqZ a n) segs.

Lemma seqZ_split a n m : 0 <= n -> 0 <= m -> seqZ a (n + m) = seqZ a n ++ seqZ (a + n) m.
Proof. intros. by rewrite seqZ_app by done. Qed.

(** The loop fills the list from [idx] on; [n] entries are enough for
    [n * 4096] bytes. *)
Lemma prp_loop_ok n idx addr rest l :
  (idx + n <= length l)%nat -> 0 <= addr -> 0 < rest <= Z.of_nat n * PAGE_SIZE -> addr + rest < 2^64 - PAGE_SIZE ->
  exists l', prp_loop n idx addr rest l = (0, l') /\ length l' = length l /\ take idx l' = take idx l /\
    transfer_bytes (prp_pages (drop idx l') rest) = seqZ addr rest.
Proof.
  revert idx addr rest l. induction n as [|n IH]; intros idx addr rest l Hlen Ha Hr Hb; [lia|].
  cbn [prp_loop]. rewrite (proj2 (Z.ltb_lt 0 rest)) by lia.
  assert (Hu : u64 (addr + PAGE_SIZE) = addr + PAGE_SIZE) by (apply u64_id; unfold is_u64, PAGE_SIZE in *; lia).
  rewrite Hu. destruct (Z.ltb_spec PAGE_SIZE rest) as [Hmore|Hlast].
  - destruct (IH (S idx) (addr + PAGE_SIZE) (rest - PAGE_SIZE) (<[idx := addr]> l)) as (l'&->&Hl&Ht&Hs);
      [rewrite length_insert; lia|unfold PAGE_SIZE; lia|unfold PAGE_SIZE in *; lia|lia|].
    rewrite length_insert in Hl. exists l'. split; [done|]. split; [done|].
    assert (Hidx : l' !! idx = Some addr).
    { rewrite <- (lookup_take_lt l' (S idx) idx) by lia. rewrite Ht, lookup_take_lt by lia.
      apply list_lookup_insert_eq. lia. }
    split.
    + assert (take idx (take (S idx) l') = take idx (take (S idx) (<[idx := addr]> l))) as Htt by (by rewrite Ht).
      rewrite !take_take, !Nat.min_l in Htt by lia. rewrite Htt. by rewrite take_insert_ge by lia.
    + rewrite (drop_S _ _ _ Hidx). cbn [prp_pages]. rewrite (proj2 (Z.leb_gt _ _)) by lia.
      rewrite Z.min_r by lia. unfold transfer_bytes in *. cbn [flat_map]. rewrite Hs.
      rewrite <- seqZ_split by (unfold PAGE_SIZE in *; lia). f_equal. lia.
  - exists (<[idx := addr]> l). split; [by destruct n|]. rewrite length_insert. split; [done|].
    split; [by rewrite take_insert_ge by lia|].
    rewrite (drop_S _ addr) by (apply list_lookup_insert_eq; lia). cbn [prp_pages].
    rewrite (proj2 (Z.leb_gt _ _)) by lia. rewrite Z.min_l by lia. unfold transfer_bytes. cbn [flat_map].
    replace (flat_map _ (prp_pages _ (rest - PAGE_SIZE))) with ([] : list Z); [by rewrite app_nil_r|].
    destruct (drop (S idx) _); [done|]. cbn [prp_pages]. by rewrite (proj2 (Z.leb_le _ _)) by lia.
Qed.

Lemma page_off x : Z.land x (PAGE_SIZE - 1) = x mod PAGE_SIZE.
Proof. unfold PAGE_SIZE. change (4096 - 1) with (2^12 - 1). by rewrite land_ones_mod by lia. Qed.

(** The length of the first piece. *)
Definition first_len (iova len : Z) : Z := Z.min len (PAGE_SIZE - iova mod PAGE_SIZE).

Lemma first_len_spec iova len : 0 < len -> 0 < first_len iova len <= PAGE_SIZE /\ first_len iova len <= len.
Proof.
  intros. unfold first_len. pose proof (Z.mod_pos_bound iova PAGE_SIZE ltac:(done)). unfold PAGE_SIZE in *. lia.
Qed.

(** nvme_setup_prps with its first piece computed. *)
Lemma setup_prps_first c d priv io_buf iova len :
  0 <= iova -> 0 < len -> iova + len < 2^64 ->
  nvme_setup_prps c d priv io_buf iova len =
    let rest := len - first_len iova len in
    let next := iova + first_len iova len in
    if rest =? 0 then Some (0, set_prps iova 0 c, priv)
    else if rest <=? PAGE_SIZE then
      if negb (nvme_use_iommu d) then
        paddr2 ← dma_buf_pool_virt_to_phys (dma_pool d) (Z.land (u64 (io_buf + first_len iova len)) (Z.lnot (PAGE_SIZE - 1)));
        Some (if paddr2 =? DMA_BUF_PHYS_ERROR then (- EINVAL, set_prps iova (rw_prp2 c) c, priv)
              else (0, set_prps iova paddr2 c, priv))
      else Some (0, set_prps iova next c, priv)
    else
      let '(r, l) := prp_loop max_prps 0 next rest (prp_list priv) in
      Some (if 0 <? r then - EINVAL else 0, set_prps iova (map_iova (prp_mapping priv)) c, set_prp_list l priv).
Proof.
  intros Hi Hl Hb. unfold nvme_setup_prps. rewrite page_off.
  replace (if len <? PAGE_SIZE - iova mod PAGE_SIZE then len else PAGE_SIZE - iova mod PAGE_SIZE) with (first_len iova len)
    by (unfold first_len; destruct (Z.ltb_spec len (PAGE_SIZE - iova mod PAGE_SIZE)); lia).
  destruct (first_len_spec iova len Hl) as [? ?].
  rewrite (u64_id (iova + first_len iova len)) by (unfold is_u64; lia). done.
Qed.

(** The controller reads the pieces of a command's pointers. *)
Lemma prp_transfer_bytes prp1 prp2 l len rest_bytes :
  0 < len ->
  (let rest := len - first_len prp1 len in
   rest <> 0 -> transfer_bytes (if rest <=? PAGE_SIZE then [(prp2, rest)] else prp_pages l rest) = rest_bytes) ->
  (len = first_len prp1 len -> rest_bytes = []) ->
  transfer_bytes (prp_transfer prp1 prp2 l len) = seqZ prp1 (first_len prp1 len) ++ rest_bytes.
Proof.
  intros Hl Hrest H0. unfold prp_transfer. fold (first_len prp1 len). cbn zeta in *.
  destruct (Z.eqb_spec (len - first_len prp1 len) 0) as [E|E].
  - rewrite H0 by lia. done.
  - rewrite <- Hrest by done. done.
Qed.

(** With an IOMMU the data pointers nvme_setup_prps builds make the
    controller transfer exactly the bytes from [iova] to [iova + len], for every
    offset in the page and every length the 512 entries of the PRP page can
    describe. *)
Theorem nvme_prps_cover c d priv io_buf iova len :
  nvme_use_iommu d = true -> length (prp_list priv) = max_prps ->
  0 <= iova -> 0 < len -> iova + len < 2^64 - PAGE_SIZE ->
  len - first_len iova len <= 512 * PAGE_SIZE ->
  exists c' priv', nvme_setup_prps c d priv io_buf iova len = Some (0, c', priv') /\
    c' = set_prps iova (rw_prp2 c') c /\
    (PAGE_SIZE < len - first_len iova len -> rw_prp2 c' = map_iova (prp_mapping priv)) /\
    transfer_bytes (prp_transfer (rw_prp1 c') (rw_prp2 c') (prp_list priv') len) = seqZ iova len /\
    prp_mapping priv' = prp_mapping priv.
Proof.
  intros Hu Hll Hi Hl Hb Hfit. rewrite setup_prps_first by (unfold PAGE_SIZE in *; lia).
  destruct (first_len_spec iova len Hl) as [Hf1 Hf2]. cbn zeta. rewrite Hu. cbn [negb].
  assert (Hsplit : seqZ iova len = seqZ iova (first_len iova len) ++ seqZ (iova + first_len iova len) (len - first_len iova len)).
  { rewrite <- seqZ_split by lia. f_equal. lia. }
  rewrite Hsplit. destruct (Z.eqb_spec (len - first_len iova len) 0) as [E0|E0];
    [|destruct (Z.leb_spec (len - first_len iova len) PAGE_SIZE) as [E1|E1]].
  - eexists _, _. split; [done|]. split; [done|]. split; [unfold PAGE_SIZE in *; lia|]. split; [|done].
    apply prp_transfer_bytes; [done|by intros|intros; by rewrite E0].
  - eexists _, _. split; [done|]. split; [done|]. split; [unfold PAGE_SIZE in *; lia|]. split; [|done].
    apply prp_transfer_bytes; [done| |lia]. intros rest _. subst rest. rewrite (proj2 (Z.leb_le _ _) E1).
    cbn. by rewrite app_nil_r.
  - destruct (prp_loop_ok max_prps 0 (iova + first_len iova len) (len - first_len iova len) (prp_list priv))
      as (l'&->&Hl'&_&Hs); [rewrite Hll; lia|lia|change (Z.of_nat max_prps) with 512; unfold PAGE_SIZE in *; lia|lia|].
    eexists _, _. split; [done|]. split; [done|]. split; [done|]. split; [|done].
    apply prp_transfer_bytes; [done| |lia]. intros rest _. subst rest. rewrite (proj2 (Z.leb_gt _ _)) by done.
    by rewrite drop_0 in Hs.
Qed.
