(* ===== verification/NvmeDma.v ===== *)
(** * The NVMe target: memory

    Data pointers without an IOMMU, SGL descriptors, and the layout of the
    buffer pool. *)

From S2P Require Import Prelude UblkCmd DmaBuf Nvme.

(** ** Physical addresses *)

(** The physical address of a byte of a mapped pool. *)
Definition phys (p : dma_buf_pool) (frame : Z -> Z) (va : Z) : Z :=
  frame ((va - pool_base p) / PAGE_SIZE) * PAGE_SIZE + va mod PAGE_SIZE.

Definition in_pool (p : dma_buf_pool) (va len : Z) : Prop :=
  pool_base p <= va /\ va + len <= pool_base p + pool_size p.

(** Bytes of one page are consecutive. *)
Lemma phys_page p frame a n :
  pool_base p mod PAGE_SIZE = 0 -> 0 <= n -> a mod PAGE_SIZE + n <= PAGE_SIZE ->
  map (phys p frame) (seqZ a n) = seqZ (phys p frame a) n.
Proof.
  intros Hb Hn Hp. apply list_eq. intros i. rewrite list_lookup_fmap.
  destruct (decide (Z.of_nat i < n)) as [Hi|Hi].
  - rewrite !(lookup_seqZ_lt _ _ _ Hi). cbn. f_equal. unfold phys.
    assert (H1 : (a + Z.of_nat i - pool_base p) / PAGE_SIZE = (a - pool_base p) / PAGE_SIZE).
    { unfold PAGE_SIZE in *. Z.div_mod_to_equations. lia. }
    rewrite H1. unfold PAGE_SIZE in *. Z.div_mod_to_equations. lia.
  - rewrite !lookup_seqZ_ge by lia. done.
Qed.

Lemma phys_mod p frame a : phys p frame a mod PAGE_SIZE = a mod PAGE_SIZE.
Proof.
  unfold phys. rewrite Z.add_comm, Z.mod_add by done. apply Z.mod_mod. done.
Qed.

Lemma map_seqZ_split {A} (f : Z -> A) a n m :
  0 <= n -> 0 <= m -> map f (seqZ a (n + m)) = map f (seqZ a n) ++ map f (seqZ (a + n) m).
Proof. intros. rewrite seqZ_split by done. apply map_app. Qed.

(** ** SGL descriptors as the controller reads them *)
Definition sgl_of_words (w0 w1 : Z) : nvme_sgl_desc := mk_sgl w0 (Z.land w1 (2^32 - 1)) (Z.shiftr w1 56).

Fixpoint sgl_list (n : nat) (l : list Z) : list (Z * Z) :=
  match n, l with
  | S n, w0 :: w1 :: l => (w0, sgl_length (sgl_of_words w0 w1)) :: sgl_list n l
  | _, _ => []
  end.

(** A data block, or the descriptors of a last segment. *)
Definition sgl_transfer (w0 w1 : Z) (l : list Z) : list (Z * Z) :=
  let s := sgl_of_words w0 w1 in
  if sgl_type s =? 0 then [(sgl_addr s, sgl_length s)]
  else if sgl_type s =? Z.shiftl NVME_SGL_FMT_LAST_SEG_DESC 4
  then sgl_list (Z.to_nat (sgl_length s / 16)) l else [].

Lemma sgl_words s : is_u32 (sgl_length s) -> is_u8 (sgl_type s) -> sgl_of_words (sgl_addr s) (sgl_word1 s) = s.
Proof.
  destruct s as [a n ty]. unfold is_u32, is_u8, sgl_of_words, sgl_word1. cbn [sgl_addr sgl_length sgl_type]. intros Hn Ht.
  rewrite lor_shiftl_add by lia. rewrite land_ones_mod, Z.shiftr_div_pow2 by lia. f_equal.
  - replace (n + ty * 2^56) with (n + (ty * 2^24) * 2^32) by lia. rewrite Z.mod_add by lia. by apply Z.mod_small.
  - rewrite Z.div_add by lia. rewrite Z.div_small by lia. lia.
Qed.

Lemma data_desc_words addr len : is_u32 len ->
  sgl_of_words (sgl_addr (data_desc addr len)) (sgl_word1 (data_desc addr len)) = mk_sgl addr len 0.
Proof.
  intros Hl. rewrite sgl_words; [|apply u32_bound|done]. unfold data_desc. by rewrite u32_id.
Qed.

(** The first four words of the page are two descriptors. *)
Lemma sgl_list_two l s0 s1 :
  (4 <= length l)%nat -> is_u32 (sgl_length s0) -> is_u8 (sgl_type s0) -> is_u32 (sgl_length s1) -> is_u8 (sgl_type s1) ->
  sgl_list 2 (<[0%nat := sgl_addr s0]> (<[1%nat := sgl_word1 s0]> (<[2%nat := sgl_addr s1]> (<[3%nat := sgl_word1 s1]> l)))) =
    [(sgl_addr s0, sgl_length s0); (sgl_addr s1, sgl_length s1)].
Proof.
  intros Hl H0 H0' H1 H1'. destruct l as [|a0 [|a1 [|a2 [|a3 l]]]]; cbn [length] in Hl; try lia.
  cbn [insert list_insert sgl_list]. rewrite (sgl_words s0), (sgl_words s1) by done. done.
Qed.

Section noiommu.
Variables (d : nvme_vfio_tgt_data) (frame : Z -> Z).
Hypothesis Hnoiommu : nvme_use_iommu d = false.
Hypothesis Hpool : pool_mapped (dma_pool d) frame.
Hypothesis Htop : pool_base (dma_pool d) + pool_size (dma_pool d) < 2^64.

Notation P := (phys (dma_pool d) frame).

Lemma phys_bounds va : in_pool (dma_pool d) va 1 ->
  dma_buf_pool_virt_to_phys (dma_pool d) va = Some (P va) /\ P va <> DMA_BUF_PHYS_ERROR /\ 0 <= P va < 2^64 - PAGE_SIZE.
Proof.
  intros [H1 H2]. destruct (virt_to_phys_mapped _ _ va Hpool) as [H3 H4]; [lia|]. split; [done|]. split; [done|].
  destruct Hpool as (Hb&Hs&Hb0&cache&Hc&Hl&Hm).
  destruct (Hm ((va - pool_base (dma_pool d)) / PAGE_SIZE)) as (e&_&_&_&Hf).
  { unfold PAGE_SIZE in *. Z.div_mod_to_equations. lia. }
  unfold phys. pose proof (Z.mod_pos_bound va PAGE_SIZE ltac:(done)). unfold PAGE_SIZE in *. lia.
Qed.

(** The page behind the first piece of a buffer. *)
Lemma second_page io_buf len :
  0 < len -> in_pool (dma_pool d) io_buf len -> first_len (P io_buf) len < len ->
  Z.land (u64 (io_buf + first_len (P io_buf) len)) (Z.lnot (PAGE_SIZE - 1)) = io_buf + first_len (P io_buf) len /\
  (io_buf + first_len (P io_buf) len) mod PAGE_SIZE = 0.
Proof.
  intros Hl [H1 H2] Hf. destruct Hpool as (_&_&Hb0&_).
  assert (Hm : (io_buf + first_len (P io_buf) len) mod PAGE_SIZE = 0).
  { unfold first_len in *. rewrite phys_mod in *. rewrite Z.min_r in * by lia.
    unfold PAGE_SIZE in *. Z.div_mod_to_equations. lia. }
  split; [|done]. rewrite u64_id by (unfold is_u64, first_len in *; pose proof (Z.mod_pos_bound (P io_buf) PAGE_SIZE ltac:(done)); unfold PAGE_SIZE in *; lia).
  change (PAGE_SIZE - 1) with (2^12 - 1). rewrite land_lnot_ones by lia.
  change (2^12) with PAGE_SIZE. lia.
Qed.

(** Without an IOMMU the data pointers are right for a buffer of at most
    two pages: the controller transfers the physical bytes of the buffer.  For
    a longer one the PRP list runs on from the physical address of the first
    page, whatever frames the other pages have. *)
Theorem nvme_prps_noiommu c priv io_buf len :
  length (prp_list priv) = max_prps -> 0 < len -> in_pool (dma_pool d) io_buf len ->
  len - first_len (P io_buf) len <= 512 * PAGE_SIZE -> P io_buf + len < 2^64 - PAGE_SIZE ->
  exists c' priv', nvme_setup_prps c d priv io_buf (P io_buf) len = Some (0, c', priv') /\
    transfer_bytes (prp_transfer (rw_prp1 c') (rw_prp2 c') (prp_list priv') len) =
      if len - first_len (P io_buf) len <=? PAGE_SIZE then map P (seqZ io_buf len) else seqZ (P io_buf) len.
Proof.
  intros Hll Hl Hin Hfit Htop'. destruct (phys_bounds io_buf) as (_&_&Hp0); [split; destruct Hin; lia|].
  rewrite setup_prps_first by (unfold PAGE_SIZE in *; lia). cbn zeta. rewrite Hnoiommu. cbn [negb].
  destruct (first_len_spec (P io_buf) len Hl) as [Hf1 Hf2]. pose proof Hpool as (Hb&_).
  set (f := first_len (P io_buf) len) in *.
  assert (Hfirst : map P (seqZ io_buf f) = seqZ (P io_buf) f).
  { apply phys_page; [done|lia|]. subst f. unfold first_len. rewrite phys_mod. lia. }
  destruct (Z.eqb_spec (len - f) 0) as [E0|E0]; [|destruct (Z.leb_spec (len - f) PAGE_SIZE) as [E1|E1]].
  - eexists _, _. split; [done|]. rewrite (proj2 (Z.leb_le _ _)) by (unfold PAGE_SIZE; lia).
    replace len with f at 2 by lia. rewrite Hfirst. rewrite <- (app_nil_r (seqZ _ f)).
    apply prp_transfer_bytes; [done|fold f; lia|done].
  - destruct (second_page io_buf len Hl Hin) as [Hv Hm]; [fold f; lia|]. fold f in Hv, Hm. rewrite Hv.
    destruct (phys_bounds (io_buf + f)) as (->&Hne&_); [destruct Hin; split; lia|]. cbn [mbind option_bind].
    rewrite (proj2 (Z.eqb_neq _ _) Hne). eexists _, _. split; [done|].
    replace len with (f + (len - f)) at 2 by lia. rewrite map_seqZ_split by lia. rewrite Hfirst.
    apply prp_transfer_bytes; [done| |fold f; lia]. fold f. intros rest _. subst rest.
    rewrite (proj2 (Z.leb_le _ _) E1). cbn. rewrite app_nil_r. symmetry. apply phys_page; [done|lia|lia].
  - destruct (prp_loop_ok max_prps 0 (P io_buf + f) (len - f) (prp_list priv))
      as (l'&->&Hl'&_&Hs); [rewrite Hll; lia|lia|change (Z.of_nat max_prps) with 512; unfold PAGE_SIZE in *; lia|lia|].
    eexists _, _. split; [done|]. replace len with (f + (len - f)) at 2 by lia. rewrite seqZ_split by lia.
    apply prp_transfer_bytes; [done| |fold f; lia]. fold f. intros rest _. subst rest.
    rewrite (proj2 (Z.leb_gt _ _)) by done. by rewrite drop_0 in Hs.
Qed.

(** A huge page is physically contiguous. *)
Variable Hhuge : forall va n, 0 <= n -> in_pool (dma_pool d) va n ->
  va / hugepage_size d = (va + n - 1) / hugepage_size d -> map P (seqZ va n) = seqZ (P va) n.
Hypothesis Hhps : 0 < hugepage_size d.

(** Without an IOMMU the SGL descriptors nvme_setup_sgl builds make the
    controller transfer the physical bytes of the buffer, also when it crosses
    from one huge page into another, for every buffer not larger than a huge
    page. *)
Theorem nvme_sgl_cover c priv io_buf len :
  length (prp_list priv) = max_prps -> 0 < len < 2^32 -> len <= hugepage_size d -> in_pool (dma_pool d) io_buf len ->
  exists c' priv', nvme_setup_sgl c d priv io_buf (P io_buf) len = Some (0, c', priv') /\
    has (rw_flags c') NVME_CMD_SGL_METABUF = true /\
    (rw_prp1 c' = map_iova (prp_mapping priv) \/ prp_list priv' = prp_list priv) /\
    transfer_bytes (sgl_transfer (rw_prp1 c') (rw_prp2 c') (prp_list priv')) = map P (seqZ io_buf len).
Proof.
  intros Hll Hl Hhl Hin. pose proof Hpool as (_&_&Hb0&_). pose proof Hin as [Hin1 Hin2].
  assert (Hflag : forall f, has (Z.lor f NVME_CMD_SGL_METABUF) NVME_CMD_SGL_METABUF = true).
  { intros f. rewrite has_lor_l. apply orb_true_r. }
  unfold nvme_setup_sgl. rewrite Hnoiommu, (proj2 (Z.ltb_lt _ _) Hhps). cbn [negb andb].
  rewrite (u64_id (io_buf + len - 1)) by (unfold is_u64; lia).
  destruct (Z.eqb_spec (io_buf / hugepage_size d) ((io_buf + len - 1) / hugepage_size d)) as [E|E]; cbn [negb].
  - eexists _, _. split; [done|]. split; [apply Hflag|]. split; [by right|].
    cbn [rw_prp1 rw_prp2 set_prps]. unfold sgl_transfer. rewrite data_desc_words by (unfold is_u32; lia).
    cbn. rewrite app_nil_r. symmetry. apply Hhuge; [lia|done|done].
  - set (hb := (io_buf / hugepage_size d + 1) * hugepage_size d).
    assert (Hhb : io_buf < hb < io_buf + len /\ hb mod hugepage_size d = 0 /\
      io_buf / hugepage_size d = (hb - 1) / hugepage_size d /\ hb / hugepage_size d = (io_buf + len - 1) / hugepage_size d).
    { subst hb. set (h := hugepage_size d) in *. split; [|split; [apply Z.mod_mul; lia|]].
      - Z.div_mod_to_equations. nia.
      - split; [apply Z.div_unique with (h - 1); Z.div_mod_to_equations; nia|].
        rewrite Z.div_mul by lia. Z.div_mod_to_equations. nia. }
    destruct Hhb as (Hhb&_&Hsame1&Hsame2).
    destruct (phys_bounds hb) as (->&Hne&_); [split; lia|]. cbn [mbind option_bind].
    rewrite (proj2 (Z.eqb_neq _ _) Hne). eexists _, _. split; [done|]. split; [apply Hflag|]. split; [by left|].
    cbn [rw_prp1 rw_prp2 set_prps set_prp_list prp_list]. unfold sgl_transfer.
    rewrite sgl_words by done. cbn [sgl_type sgl_length]. change (Z.to_nat (32 / 16)) with 2%nat.
    change (Z.lor (Z.shiftl NVME_SGL_FMT_LAST_SEG_DESC 4) NVME_SGL_FMT_ADDRESS =? 0) with false.
    change (Z.lor (Z.shiftl NVME_SGL_FMT_LAST_SEG_DESC 4) NVME_SGL_FMT_ADDRESS =? Z.shiftl NVME_SGL_FMT_LAST_SEG_DESC 4) with true.
    cbn iota. rewrite sgl_list_two by
      (done || (unfold max_prps in Hll; lia) || apply u32_bound).
    unfold data_desc. cbn. rewrite app_nil_r, !u32_id by (unfold is_u32; lia).
    replace len with ((hb - io_buf) + (len - (hb - io_buf))) at 2 by lia. rewrite map_seqZ_split by lia.
    replace (io_buf + (hb - io_buf)) with hb by lia.
    rewrite (Hhuge io_buf), (Hhuge hb); [done|lia|split; lia| |lia|split; lia|].
    + rewrite Hsame2. f_equal. lia.
    + rewrite Hsame1. f_equal. lia.
Qed.
End noiommu.

(** ** The pool *)

(** What nvme_vfio_init_tgt checks before it sets the pool up. *)
Definition nvme_params_ok (d : nvme_vfio_tgt_data) : Prop :=
  1 <= nr_io_queues d <= 64 /\ 1 <= nvme_queue_depth d <= 4096 /\
  PAGE_SIZE <= nvme_max_io_buf d <= 2 * 2^20 /\ nvme_max_io_buf d mod PAGE_SIZE = 0 /\
  exists k, 0 <= k < 40 /\ hugepage_size d = 2^k.

Lemma page_up_spec x : 0 <= x -> x <= page_up x < x + PAGE_SIZE /\ page_up x mod PAGE_SIZE = 0.
Proof. intros Hx. apply (round_up_spec x 12). lia. Qed.

Lemma page_up_aligned x : x mod PAGE_SIZE = 0 -> page_up x = x.
Proof.
  intros Hx. unfold page_up. change PAGE_SIZE with (2^12) in *. rewrite round_up_pow2 by lia.
  Z.div_mod_to_equations. lia.
Qed.

(** The layout without its wrap-arounds. *)
Definition queue_region (nr depth : Z) : Z :=
  2 * PAGE_SIZE + nr * (page_up ((depth + 1) * 64) + page_up ((depth + 1) * 16)).

Lemma queue_region_bounds nr depth : 1 <= nr <= 64 -> 1 <= depth <= 4096 ->
  0 <= queue_region nr depth <= 2^26 /\ queue_region nr depth mod PAGE_SIZE = 0.
Proof.
  intros Hn Hd. unfold queue_region.
  destruct (page_up_spec ((depth + 1) * 64)) as [H1 H2]; [lia|].
  destruct (page_up_spec ((depth + 1) * 16)) as [H3 H4]; [lia|].
  set (a := page_up ((depth + 1) * 64)) in *. set (b := page_up ((depth + 1) * 16)) in *.
  unfold PAGE_SIZE in *. split; [nia|].
  assert (Hab : (a + b) mod 4096 = 0) by (Z.div_mod_to_equations; lia).
  apply Z.div_exact in Hab; [|lia]. replace (2 * 4096 + nr * (a + b)) with ((2 + nr * ((a + b) / 4096)) * 4096) by lia.
  apply Z.mod_mul. lia.
Qed.

Lemma pool_layout_plain nr depth sz :
  1 <= nr <= 64 -> 1 <= depth <= 4096 -> PAGE_SIZE <= sz <= 2 * 2^20 ->
  nvme_pool_layout nr depth sz =
    mk_layout (queue_region nr depth) (queue_region nr depth) (queue_region nr depth + nr * depth * PAGE_SIZE)
      (queue_region nr depth + nr * depth * PAGE_SIZE + nr * depth * sz).
Proof.
  intros Hn Hd Hs. unfold nvme_pool_layout. change (page_up (ADMIN_Q_SIZE * 64)) with PAGE_SIZE.
  change (page_up (ADMIN_Q_SIZE * 16)) with PAGE_SIZE.
  replace (PAGE_SIZE + PAGE_SIZE + nr * (page_up ((depth + 1) * 64) + page_up ((depth + 1) * 16)))
    with (queue_region nr depth) by (unfold queue_region; lia).
  destruct (queue_region_bounds nr depth Hn Hd) as [Hq _].
  assert (Hnd : 1 <= nr * depth <= 2^18) by nia.
  unfold PAGE_SIZE in *.
  assert (0 <= nr * depth * sz <= 2^18 * 2^21) by (split; [lia|]; apply Z.mul_le_mono_nonneg; lia).
  rewrite (s32_id (nr * depth * 4096)), (s32_id (nr * depth)) by (unfold is_s32; lia).
  rewrite (u64_id (nr * depth * sz)) by (unfold is_u64; lia). rewrite !u64_id by (unfold is_u64; lia). done.
Qed.

Definition disjoint_at (a n b m : Z) : Prop := a + n <= b \/ b + m <= a.

(** The places of tag [t] of queue [q] in an array of [depth] tags a queue. *)
Lemma slot_index nr depth q t : 0 <= q < nr -> 0 <= t < depth -> 0 <= q * depth + t < nr * depth.
Proof. nia. Qed.

Lemma slot_index_inj depth q t q' t' :
  0 <= t < depth -> 0 <= t' < depth -> (q, t) <> (q', t') -> q * depth + t <> q' * depth + t'.
Proof.
  intros Ht Ht' Hne E. apply Hne. assert (q = q') by nia. subst. f_equal. lia.
Qed.

Lemma slot_disjoint base i j n : 0 <= n -> i <> j -> disjoint_at (base + i * n) n (base + j * n) n.
Proof. intros Hn Hij. unfold disjoint_at. assert (i < j \/ j < i) by lia. nia. Qed.

(** C28: After nvme_dmabuf_pool_init every tag of every queue has a PRP page and
    a data buffer of its own: they lie inside the pool, between the queue
    memory and the identify page, and no two of them overlap. *)
Theorem nvme_pool_regions hugepages map d d' :
  nvme_params_ok d -> (forall n e, map n = inr e -> 0 < e) -> nvme_dmabuf_pool_init hugepages map d = (0, d') ->
  let base := pool_base (dma_pool d') in
  let prp := nvme_pool_get_prp d' in
  let buf := nvme_pool_get_io_buf d' in
  forall q t, 0 <= q < nr_io_queues d -> 0 <= t < nvme_queue_depth d ->
    base + queue_region_off (layout d') <= prp q t /\ prp q t + PAGE_SIZE <= base + io_buf_region_off (layout d') /\
    base + io_buf_region_off (layout d') <= buf q t /\
    buf q t + nvme_max_io_buf d <= nvme_pool_get_identify_buf d' /\
    nvme_pool_get_identify_buf d' + PAGE_SIZE <= base + pool_size (dma_pool d') /\
    forall q' t', 0 <= q' < nr_io_queues d -> 0 <= t' < nvme_queue_depth d -> (q, t) <> (q', t') ->
      disjoint_at (prp q t) PAGE_SIZE (prp q' t') PAGE_SIZE /\
      disjoint_at (buf q t) (nvme_max_io_buf d) (buf q' t') (nvme_max_io_buf d).
Proof.
  intros (Hn&Hd&Hs&Hsm&k&Hk&Hhps) Herr Hinit. unfold nvme_dmabuf_pool_init in Hinit. rewrite pool_layout_plain in Hinit by done.
  set (l := mk_layout _ _ _ _) in Hinit. set (total := round_up _ _) in Hinit.
  destruct (Z.ltb_spec (hugepages total) 0); [injection Hinit as ? _; lia|].
  assert (Htot : identify_buf_off l + PAGE_SIZE <= total) by (subst total; rewrite Hhps; apply round_up_spec; lia).
  unfold dma_buf_pool_init in Hinit. destruct (map total) as [base|errno] eqn:Em.
  2:{ specialize (Herr _ _ Em). rewrite (proj2 (Z.ltb_lt (- errno) 0)) in Hinit by lia. injection Hinit as ? _. lia. }
  cbn [Z.ltb Z.compare] in Hinit. injection Hinit as <-. clear Em Herr.
  destruct (queue_region_bounds _ _ Hn Hd) as [Hq _].
  unfold nvme_pool_get_prp, nvme_pool_get_io_buf, nvme_pool_get_identify_buf.
  cbn [dma_pool layout nvme_queue_depth nvme_max_io_buf set_queue_alloc_off set_pool_layout pool_base pool_size
       prp_region_off io_buf_region_off identify_buf_off queue_region_off l] in *.
  set (Q := queue_region _ _) in *. set (nr := nr_io_queues d) in *. set (depth := nvme_queue_depth d) in *.
  set (sz := nvme_max_io_buf d) in *.
  assert (Hnd : 1 <= nr * depth <= 2^18) by nia.
  assert (Hprp : forall q t, 0 <= q < nr -> 0 <= t < depth ->
    u64 (Q + s32 ((q * depth + t) * PAGE_SIZE)) = Q + (q * depth + t) * PAGE_SIZE).
  { intros q t Hq' Ht. pose proof (slot_index nr depth q t Hq' Ht). unfold PAGE_SIZE in *.
    rewrite s32_id by (unfold is_s32; lia). apply u64_id. unfold is_u64. lia. }
  assert (Hbuf : forall q t, 0 <= q < nr -> 0 <= t < depth ->
    u64 (Q + nr * depth * PAGE_SIZE + s32 (q * depth + t) * sz) = Q + nr * depth * PAGE_SIZE + (q * depth + t) * sz).
  { intros q t Hq' Ht. pose proof (slot_index nr depth q t Hq' Ht). unfold PAGE_SIZE in *.
    rewrite s32_id by (unfold is_s32; lia). apply u64_id.
    assert (0 <= (q * depth + t) * sz <= 2^18 * 2^21) by (split; [nia|]; apply Z.mul_le_mono_nonneg; lia).
    unfold is_u64. lia. }
  intros q t Hq' Ht. rewrite (Hprp q t Hq' Ht), (Hbuf q t Hq' Ht).
  pose proof (slot_index nr depth q t Hq' Ht) as Hi. set (i := q * depth + t) in *.
  assert (Hsz : 0 <= sz) by (unfold PAGE_SIZE in *; lia).
  assert (i * sz + sz <= nr * depth * sz).
  { replace (i * sz + sz) with ((i + 1) * sz) by lia. apply Z.mul_le_mono_nonneg_r; lia. }
  assert (0 <= i * sz) by (apply Z.mul_nonneg_nonneg; lia).
  repeat (split; [unfold PAGE_SIZE in *; lia|]).
  intros q2 t2 Hq2 Ht2 Hne. rewrite (Hprp q2 t2 Hq2 Ht2), (Hbuf q2 t2 Hq2 Ht2).
  pose proof (slot_index_inj depth q t q2 t2 Ht Ht2 Hne) as Hij. fold i in Hij.
  split.
  - rewrite !Z.add_assoc. apply slot_disjoint; [done|done].
  - rewrite !Z.add_assoc. apply slot_disjoint; [unfold PAGE_SIZE in *; lia|done].
Qed.
