(* ===== verification/NvmeRing.v ===== *)
(** * The NVMe target: rings

    The submission ring as a queue between the target and the controller, and
    the completion ring with its phase bits.  Positions are counted without
    wrapping; entry [i] lives in slot [i mod qsize]. *)

From S2P Require Import Prelude UblkCmd DmaBuf Nvme.

(** ** Counting modulo the size of a ring *)

Lemma mod_succ sz k : 0 < sz -> 0 <= k ->
  (if k mod sz + 1 =? sz then 0 else k mod sz + 1) = (k + 1) mod sz.
Proof.
  intros Hs Hk. pose proof (Z.mod_pos_bound k sz Hs). pose proof (Z.div_mod k sz ltac:(lia)).
  destruct (Z.eqb_spec (k mod sz + 1) sz).
  - symmetry. replace (k + 1) with ((k / sz + 1) * sz) by lia. apply Z.mod_mul. lia.
  - apply Z.mod_unique with (k / sz); lia.
Qed.

(** The counter advanced at 16 bits. *)
Lemma u16_succ sz k : 0 < sz < 2^16 -> 0 <= k ->
  (if u16 (k mod sz + 1) =? sz then 0 else u16 (k mod sz + 1)) = (k + 1) mod sz.
Proof.
  intros Hs Hk. pose proof (Z.mod_pos_bound k sz ltac:(lia)). rewrite u16_id by (unfold is_u16; lia).
  apply mod_succ; lia.
Qed.

Lemma mod_ne sz i j : 0 < sz -> 0 < j - i < sz -> i mod sz <> j mod sz.
Proof.
  intros Hs Hd E. pose proof (Z.div_mod i sz ltac:(lia)). pose proof (Z.div_mod j sz ltac:(lia)).
  assert (j - i = sz * (j / sz - i / sz)) by lia. assert (0 < j / sz - i / sz < 1) by nia. lia.
Qed.

Lemma mod_diff sz i j : 0 < sz -> 0 <= j - i < sz -> (j mod sz + sz - i mod sz) mod sz = j - i.
Proof.
  intros Hs Hd. pose proof (Z.div_mod i sz ltac:(lia)). pose proof (Z.div_mod j sz ltac:(lia)).
  replace (j mod sz + sz - i mod sz) with ((j - i) + (1 + i / sz - j / sz) * sz) by lia.
  rewrite Z.mod_add by lia. by apply Z.mod_small.
Qed.

(** ** The submission ring *)

(** The target's queue, every command put into it so far, the commands the
    controller has fetched and the slot it fetches next. *)
Record sq_sys := mk_sq_sys {
  s_q : nvme_queue;
  s_cmds : list nvme_sqe;
  s_fetched : list nvme_sqe;
  s_head : Z
}.

Definition in_controller (s : sq_sys) : Z := Z.of_nat (length (s_cmds s)) - Z.of_nat (length (s_fetched s)).

(** The target puts a command while fewer than [qsize - 1] are waiting (there
    is one tag less than slots), it rings the doorbell, and the controller
    fetches entries up to the doorbell. *)
Inductive sq_step (sz : Z) : sq_sys -> sq_sys -> Prop :=
  | sq_submit s c n :
      in_controller s < sz - 1 -> sq_put c (s_q s) = Some n ->
      sq_step sz s (mk_sq_sys n (s_cmds s ++ [c]) (s_fetched s) (s_head s))
  | sq_flush s :
      sq_step sz s (mk_sq_sys (nvme_sq_flush (s_q s)) (s_cmds s) (s_fetched s) (s_head s))
  | sq_fetch s c :
      s_head s <> sq_db (s_q s) -> nq_sq (s_q s) !! Z.to_nat (s_head s) = Some c ->
      sq_step sz s (mk_sq_sys (s_q s) (s_cmds s) (s_fetched s ++ [c]) ((s_head s + 1) mod sz)).

(** The invariant: [B] commands have been announced by the doorbell. *)
Definition sq_inv (sz : Z) (s : sq_sys) : Prop :=
  let S := Z.of_nat (length (s_cmds s)) in
  let F := Z.of_nat (length (s_fetched s)) in
  exists B, F <= B <= S /\ S - F < sz /\ S - B < 32 /\
    s_fetched s = take (length (s_fetched s)) (s_cmds s) /\
    nq_qsize (s_q s) = sz /\ Z.of_nat (length (nq_sq (s_q s))) = sz /\
    s_head s = F mod sz /\ sq_tail (s_q s) = S mod sz /\
    last_sq_tail (s_q s) = B mod sz /\ sq_db (s_q s) = B mod sz /\
    forall i, F <= i < S -> nq_sq (s_q s) !! Z.to_nat (i mod sz) = s_cmds s !! Z.to_nat i.

(** A flush announces everything. *)
Lemma flush_spec n S B sz :
  0 < sz -> 0 <= S - B < sz -> sq_tail n = S mod sz -> last_sq_tail n = B mod sz -> sq_db n = B mod sz ->
  sq_tail (nvme_sq_flush n) = S mod sz /\ last_sq_tail (nvme_sq_flush n) = S mod sz /\
  sq_db (nvme_sq_flush n) = S mod sz /\ nq_sq (nvme_sq_flush n) = nq_sq n /\ nq_qsize (nvme_sq_flush n) = nq_qsize n.
Proof.
  intros Hs Hd Ht Hl Hdb. unfold nvme_sq_flush. rewrite Ht, Hl.
  destruct (Z.eqb_spec (S mod sz) (B mod sz)) as [E|E]; cbn [negb]; [|done].
  rewrite Ht, Hl, Hdb. by rewrite E.
Qed.

(** A submission advances the tail, and either announces everything or leaves
    fewer than 32 commands unannounced. *)
Lemma submit_spec n S B sz :
  1 < sz < 2^16 -> 0 <= B -> 0 <= S - B -> S + 1 - B < sz -> nq_qsize n = sz ->
  sq_tail n = S mod sz -> last_sq_tail n = B mod sz -> sq_db n = B mod sz ->
  exists B', (B' = B \/ B' = S + 1) /\ S + 1 - B' < 32 /\
    sq_tail (nvme_sq_submit_cmd n) = (S + 1) mod sz /\ last_sq_tail (nvme_sq_submit_cmd n) = B' mod sz /\
    sq_db (nvme_sq_submit_cmd n) = B' mod sz /\ nq_sq (nvme_sq_submit_cmd n) = nq_sq n /\
    nq_qsize (nvme_sq_submit_cmd n) = sz.
Proof.
  intros Hs HB Hd Hd1 Hq Ht Hl Hdb. unfold nvme_sq_submit_cmd. rewrite Ht, Hq, u16_succ by lia.
  set (n1 := set_sq_tail ((S + 1) mod sz) n).
  assert (Hf : sq_tail (nvme_sq_flush n1) = (S + 1) mod sz /\ last_sq_tail (nvme_sq_flush n1) = (S + 1) mod sz /\
    sq_db (nvme_sq_flush n1) = (S + 1) mod sz /\ nq_sq (nvme_sq_flush n1) = nq_sq n1 /\
    nq_qsize (nvme_sq_flush n1) = nq_qsize n1) by (apply (flush_spec n1 (S + 1) B sz); done || lia).
  destruct Hf as (F1&F2&F3&F4&F5). cbn [sq_tail last_sq_tail nq_qsize n1 set_sq_tail] in *. rewrite Hl, Hq in *.
  rewrite Z.rem_mod_nonneg, mod_diff, u16_id by
    (unfold is_u16; pose proof (Z.mod_pos_bound (S + 1) sz); pose proof (Z.mod_pos_bound B sz); lia).
  destruct (Z.leb_spec 32 (S + 1 - B)).
  { exists (S + 1). split; [by right|]. split; [lia|]. done. }
  case_bool.
  - exists (S + 1). split; [by right|]. split; [lia|]. done.
  - exists B. split; [by left|]. split; [lia|]. subst n1. cbn. done.
Qed.

Lemma sq_step_inv sz s s' : 1 < sz < 2^16 -> sq_inv sz s -> sq_step sz s s' -> sq_inv sz s'.
Proof.
  intros Hsz (B&Hb&Hsf&Hsb&Htake&Hq&Hlen&Hh&Ht&Hl&Hdb&Hslots) Hstep. destruct Hstep as [s c n Hroom Hput|s|s c Hne Hc].
  - unfold sq_put in Hput. case_match; [|done]. injection Hput as <-. set (S := Z.of_nat (length (s_cmds s))) in *.
    set (n := set_sq _ (s_q s)). unfold in_controller in Hroom. fold S in Hroom.
    destruct (submit_spec n S B sz) as (B'&HB'&Hsb'&Ht'&Hl'&Hdb'&Hsq'&Hq'); try done; [lia..|].
    exists B'. cbn [s_q s_cmds s_fetched s_head]. rewrite length_app, Nat2Z.inj_add. cbn [length]. fold S.
    split; [lia|]. split; [lia|]. split; [lia|]. rewrite take_app_le by lia. split; [done|]. split; [done|].
    rewrite Hsq'. cbn [n set_sq nq_sq]. rewrite length_insert. split; [done|]. split; [done|]. split; [done|].
    split; [done|]. split; [done|]. intros i Hi.
    pose proof (Z.mod_pos_bound S sz ltac:(lia)). rewrite Ht.
    destruct (decide (i = S)) as [->|].
    + rewrite list_lookup_insert_eq by lia. subst S. rewrite Nat2Z.id, lookup_app_r by lia.
      by rewrite Nat.sub_diag.
    + pose proof (Z.mod_pos_bound i sz ltac:(lia)). pose proof (mod_ne sz i S ltac:(lia) ltac:(lia)).
      rewrite list_lookup_insert_ne by lia. rewrite Hslots by lia. rewrite lookup_app_l by (subst S; lia). done.
  - destruct (flush_spec (s_q s) (Z.of_nat (length (s_cmds s))) B sz) as (F1&F2&F3&F4&F5); try done; [lia..|].
    exists (Z.of_nat (length (s_cmds s))). cbn [s_q s_cmds s_fetched s_head].
    split; [lia|]. split; [lia|]. split; [lia|]. split; [done|]. split; [by rewrite F5|]. rewrite F4. done.
  - cbn [s_q s_cmds s_fetched s_head]. set (F := Z.of_nat (length (s_fetched s))) in *.
    assert (F <> B) by (intros E; apply Hne; by rewrite Hh, Hdb, E). assert (HFB : F < B) by lia.
    exists B. cbn [s_q s_cmds s_fetched s_head]. rewrite length_app, Nat2Z.inj_add. cbn [length]. fold F.
    split; [lia|]. split; [lia|]. split; [lia|].
    rewrite Hh, Hslots in Hc by lia. unfold F in Hc. rewrite Nat2Z.id in Hc. split.
    { rewrite Nat.add_1_r, (take_S_r _ _ _ Hc). by rewrite <- Htake. }
    do 2 (split; [done|]). split.
    { rewrite Hh. by rewrite Zplus_mod_idemp_l. }
    do 3 (split; [done|]). intros i Hi. apply Hslots. lia.
Qed.

(** A queue as nvme_queue_init leaves it. *)
Definition fresh_nvmeq (sz : Z) (n : nvme_queue) : Prop :=
  nq_qsize n = sz /\ Z.of_nat (length (nq_sq n)) = sz /\ sq_tail n = 0 /\ last_sq_tail n = 0 /\ sq_db n = 0 /\
  nq_cq n = replicate (Z.to_nat sz) zero_cqe /\ cq_head n = 0 /\ cq_phase n = 1.

Lemma queue_init_fresh ioas_map qid depth q d q' d' :
  0 < depth < 2^16 -> nvme_queue_init ioas_map qid depth q d = Some (0, q', d') -> fresh_nvmeq depth q'.
Proof.
  intros Hd. unfold nvme_queue_init. destruct (nvme_pool_alloc_queue_buf _ d) as [[sq|] d1]; [|done].
  destruct (nvme_pool_alloc_queue_buf _ d1) as [[cq|] d2]; [|done].
  destruct (nvme_map_dma _ sq _ _ d2) as [[[sqi sqm] d3]|]; cbn [mbind option_bind]; [|done].
  destruct (nvme_map_dma _ cq _ _ d3) as [[[cqi cqm] d4]|]; cbn [mbind option_bind]; [|done].
  destruct (_ || _); [done|]. intros [= <- <-]. unfold fresh_nvmeq. cbn [nq_qsize nq_sq nq_cq sq_tail last_sq_tail sq_db cq_head cq_phase].
  rewrite length_replicate, u16_id by (unfold is_u16; lia). repeat split; lia.
Qed.

Definition sq_start (n : nvme_queue) : sq_sys := mk_sq_sys n [] [] 0.

Lemma sq_start_inv sz n : 1 < sz -> fresh_nvmeq sz n -> sq_inv sz (sq_start n).
Proof.
  intros Hsz (Hq&Hl&Ht&Hlt&Hdb&_). exists 0. cbn [sq_start s_q s_cmds s_fetched s_head length Z.of_nat].
  rewrite Ht, Hlt, Hdb, Z.mod_0_l by lia. do 10 (split; [lia || done|]). lia.
Qed.

Lemma sq_reach_inv sz s s' : 1 < sz < 2^16 -> sq_inv sz s -> rtc (sq_step sz) s s' -> sq_inv sz s'.
Proof. intros Hsz Hi Hr. induction Hr; [done|]. eauto using sq_step_inv. Qed.

(** Once everything is announced the controller can fetch it all. *)
Lemma sq_drain sz k s :
  1 < sz < 2^16 -> sq_inv sz s -> sq_db (s_q s) = Z.of_nat (length (s_cmds s)) mod sz ->
  in_controller s = Z.of_nat k ->
  exists s', rtc (sq_step sz) s s' /\ s_cmds s' = s_cmds s /\ s_fetched s' = s_cmds s.
Proof.
  intros Hsz. revert s. induction k as [|k IH]; intros s Hi Hdb Hk; unfold in_controller in Hk;
    pose proof Hi as (B&Hb&Hsf&_&Htake&_&_&Hh&_&_&_&Hslots).
  - exists s. split; [apply rtc_refl|]. split; [done|]. rewrite Htake. apply take_ge. lia.
  - set (F := Z.of_nat (length (s_fetched s))) in *. set (S' := Z.of_nat (length (s_cmds s))) in *.
    destruct (s_cmds s !! Z.to_nat F) as [c|] eqn:Hc.
    2:{ apply lookup_ge_None in Hc. subst S'. lia. }
    assert (Hstep : sq_step sz s (mk_sq_sys (s_q s) (s_cmds s) (s_fetched s ++ [c]) ((s_head s + 1) mod sz))).
    { apply sq_fetch; [rewrite Hh, Hdb; apply mod_ne; lia|]. rewrite Hh, Hslots by lia. done. }
    destruct (IH _ (sq_step_inv _ _ _ Hsz Hi Hstep)) as (s'&Hr&H1&H2); [done| |].
    { unfold in_controller. cbn. rewrite length_app, Nat2Z.inj_add. cbn [length]. subst F S'. lia. }
    exists s'. split; [by eapply rtc_l|]. done.
Qed.

(** C24: The submission ring is a queue.  From a fresh ring, in every order of
    submissions, doorbell writes and fetches by the controller, where at most
    [qsize - 1] commands are with the controller at a time: the controller
    fetches the commands the target submitted, each once and in order; a
    submission stays inside the ring; fewer than 32 commands are unannounced;
    and after nvme_sq_flush the controller can fetch everything. *)
Theorem nvme_sq_fifo sz n s :
  1 < sz < 2^16 -> fresh_nvmeq sz n -> rtc (sq_step sz) (sq_start n) s ->
  s_fetched s `prefix_of` s_cmds s /\
  (forall c, is_Some (sq_put c (s_q s))) /\
  (sq_tail (s_q s) - sq_db (s_q s)) mod sz < 32 /\
  exists s', rtc (sq_step sz) (mk_sq_sys (nvme_sq_flush (s_q s)) (s_cmds s) (s_fetched s) (s_head s)) s' /\
    s_cmds s' = s_cmds s /\ s_fetched s' = s_cmds s.
Proof.
  intros Hsz Hf Hr. pose proof (sq_reach_inv _ _ _ Hsz (sq_start_inv sz n ltac:(lia) Hf) Hr) as Hi.
  pose proof Hi as (B&Hb&Hsf&Hsb&Htake&Hq&Hlen&Hh&Ht&Hl&Hdb&Hslots). split; [|split; [|split]].
  - rewrite Htake. exists (drop (length (s_fetched s)) (s_cmds s)). by rewrite take_drop.
  - intros c. unfold sq_put. pose proof (Z.mod_pos_bound (Z.of_nat (length (s_cmds s))) sz ltac:(lia)).
    rewrite (proj2 (Z.leb_le _ _)), (proj2 (Z.ltb_lt _ _)) by lia. by eexists.
  - rewrite Ht, Hdb, <- Zminus_mod. rewrite Z.mod_small by lia. lia.
  - destruct (flush_spec (s_q s) (Z.of_nat (length (s_cmds s))) B sz) as (_&_&F3&_&_); try done; [lia..|].
    apply (sq_drain sz (Z.to_nat (in_controller s)) (mk_sq_sys (nvme_sq_flush (s_q s)) (s_cmds s) (s_fetched s) (s_head s)));
      [done|eapply (sq_step_inv sz s); [done..|apply sq_flush]|done|].
    unfold in_controller. cbn [s_cmds s_fetched]. lia.
Qed.

(** ** The completion ring *)

(** The phase bit of the [k]-th entry the controller writes. *)
Definition phase_of (sz k : Z) : Z := 1 - (k / sz) mod 2.

Lemma phase_of_bit sz k : phase_of sz k = 0 \/ phase_of sz k = 1.
Proof. unfold phase_of. pose proof (Z.mod_pos_bound (k / sz) 2 ltac:(lia)). lia. Qed.

Lemma phase_of_lap sz k : 0 < sz -> phase_of sz (k + sz) = 1 - phase_of sz k.
Proof.
  intros Hs. unfold phase_of. replace (k + sz) with (k + 1 * sz) by lia. rewrite Z.div_add by lia.
  Z.div_mod_to_equations. lia.
Qed.

Definition cqe_phase (e : nvme_completion) : Z := Z.land (cq_status e) 1.

(** The target has handled [H] completions, and [post] are the ones it has not
    seen; the other slots hold entries of an earlier lap. *)
Definition cq_at (H : Z) (n : nvme_queue) (post : list nvme_completion) : Prop :=
  let sz := nq_qsize n in
  1 < sz /\ 0 <= H /\ cq_head n = H mod sz /\ cq_phase n = phase_of sz H /\ Z.of_nat (length post) < sz /\
  (forall i e, post !! i = Some e ->
     nq_cq n !! Z.to_nat ((H + Z.of_nat i) mod sz) = Some e /\ cqe_phase e = phase_of sz (H + Z.of_nat i)) /\
  (forall i, Z.of_nat (length post) <= i < sz ->
     exists e, nq_cq n !! Z.to_nat ((H + i) mod sz) = Some e /\ cqe_phase e = 1 - phase_of sz (H + i)).

Lemma cq_start sz n : 1 < sz -> fresh_nvmeq sz n -> cq_at 0 n [].
Proof.
  intros Hsz (Hq&_&_&_&_&Hcq&Hh&Hp). unfold cq_at. rewrite Hq, Hh, Hp, Hcq. rewrite Z.mod_0_l by lia.
  assert (Hph : forall i, 0 <= i < sz -> phase_of sz i = 1).
  { intros i Hi. unfold phase_of. rewrite Z.div_small by lia. done. }
  split; [done|]. split; [lia|]. split; [done|]. split; [by rewrite Hph by lia|]. split; [cbn; lia|]. split; [done|].
  intros i Hi. cbn in Hi. exists zero_cqe. rewrite Z.add_0_l, Z.mod_small by lia. rewrite Hph by lia. split; [|done].
  apply lookup_replicate_2. lia.
Qed.

(** The controller writes the next entry, with the phase of its lap. *)
Lemma cq_post H n post e :
  cq_at H n post -> Z.of_nat (length post) + 1 < nq_qsize n -> Z.of_nat (length (nq_cq n)) = nq_qsize n ->
  cqe_phase e = phase_of (nq_qsize n) (H + Z.of_nat (length post)) ->
  cq_at H (set_cq (<[Z.to_nat ((H + Z.of_nat (length post)) mod nq_qsize n) := e]> (nq_cq n)) n) (post ++ [e]).
Proof.
  intros (Hsz&HH&Hh&Hp&Hl&Hpost&Hold) Hroom Hlen Hph. unfold cq_at. cbn [set_cq nq_qsize cq_head cq_phase nq_cq].
  set (sz := nq_qsize n) in *. set (k := Z.of_nat (length post)) in *.
  assert (Hslot : forall j, 0 <= j < sz -> j <> k -> Z.to_nat ((H + k) mod sz) <> Z.to_nat ((H + j) mod sz)).
  { intros j Hj Hjk. pose proof (Z.mod_pos_bound (H + k) sz ltac:(lia)). pose proof (Z.mod_pos_bound (H + j) sz ltac:(lia)).
    assert ((H + k) mod sz <> (H + j) mod sz); [|lia].
    destruct (Z.lt_total k j) as [?|[?|?]]; [apply mod_ne; lia|lia|apply not_eq_sym, mod_ne; lia]. }
  do 4 (split; [done|]). rewrite length_app, Nat2Z.inj_add. cbn [length]. fold k. split; [lia|]. split.
  - intros i e'. destruct (decide (Z.of_nat i = k)) as [E|E].
    + rewrite lookup_app_r by lia. replace (i - length post)%nat with 0%nat by lia. intros [= <-]. rewrite E.
      split; [|done]. apply list_lookup_insert_eq. pose proof (Z.mod_pos_bound (H + k) sz ltac:(lia)). lia.
    + intros Hi. apply lookup_app_Some in Hi as [Hi|[? Hi]].
      * rewrite list_lookup_insert_ne; [by apply Hpost|]. apply lookup_lt_Some in Hi. apply Hslot; lia.
      * destruct (i - length post)%nat eqn:?; [lia|done].
  - intros i Hi. rewrite list_lookup_insert_ne by (apply Hslot; lia). apply Hold. lia.
Qed.

(** The target looks at the slot at its head. *)
Lemma cq_pending H n post : cq_at H n post -> nvme_cqe_pending n = Some (match post with [] => false | _ => true end).
Proof.
  intros (Hsz&HH&Hh&Hp&Hl&Hpost&Hold). unfold nvme_cqe_pending. rewrite Hh, Hp.
  destruct post as [|e post].
  - destruct (Hold 0) as (e&He&Hph); [cbn; lia|]. rewrite Z.add_0_r in *. rewrite He. cbn [mbind option_bind].
    fold (cqe_phase e). rewrite Hph. f_equal. apply Z.eqb_neq. destruct (phase_of_bit (nq_qsize n) H); lia.
  - destruct (Hpost 0%nat e eq_refl) as [He Hph]. rewrite Z.add_0_r in *. rewrite He. cbn [mbind option_bind].
    fold (cqe_phase e). rewrite Hph. f_equal. apply Z.eqb_refl.
Qed.

Lemma cq_first H n e post : cq_at H n (e :: post) -> nq_cq n !! Z.to_nat (cq_head n) = Some e.
Proof.
  intros (_&_&Hh&_&_&Hpost&_). rewrite Hh. destruct (Hpost 0%nat e eq_refl) as [He _]. by rewrite Z.add_0_r in He.
Qed.

Lemma phase_succ sz H : 1 < sz -> 0 <= H ->
  (if H mod sz + 1 =? sz then Z.lxor (phase_of sz H) 1 else phase_of sz H) = phase_of sz (H + 1).
Proof.
  intros Hs HH. unfold phase_of. pose proof (Z.div_mod H sz ltac:(lia)) as Hd. pose proof (Z.mod_pos_bound H sz ltac:(lia)).
  destruct (Z.eqb_spec (H mod sz + 1) sz) as [E|E].
  - assert ((H + 1) / sz = H / sz + 1) as -> by (symmetry; apply Z.div_unique with 0; lia).
    pose proof (Z.mod_pos_bound (H / sz) 2 ltac:(lia)).
    assert (Hm : (H / sz) mod 2 = 0 \/ (H / sz) mod 2 = 1) by lia.
    destruct Hm as [Hm|Hm]; rewrite Zplus_mod, Hm; done.
  - assert ((H + 1) / sz = H / sz) as -> by (symmetry; apply Z.div_unique with (H mod sz + 1); lia). done.
Qed.

Lemma cq_advance H n e post : cq_at H n (e :: post) -> cq_at (H + 1) (nvme_update_cq_head n) post.
Proof.
  intros (Hsz&HH&Hh&Hp&Hl&Hpost&Hold). cbn [length] in *.
  assert (Hu : nvme_update_cq_head n = set_cq_head ((H + 1) mod nq_qsize n) (phase_of (nq_qsize n) (H + 1)) n).
  { unfold nvme_update_cq_head. rewrite Hh, Hp, <- mod_succ, <- phase_succ by lia.
    destruct (Z.eqb_spec (H mod nq_qsize n + 1) (nq_qsize n)); done. }
  rewrite Hu. unfold cq_at. cbn [set_cq_head nq_qsize cq_head cq_phase nq_cq]. set (sz := nq_qsize n) in *.
  split; [done|]. split; [lia|]. split; [done|]. split; [done|]. split; [lia|]. split.
  - intros i e' Hi. replace (H + 1 + Z.of_nat i) with (H + Z.of_nat (S i)) by lia. by apply Hpost.
  - intros i Hi. destruct (decide (i = sz - 1)) as [->|].
    + exists e. destruct (Hpost 0%nat e eq_refl) as [He Hph]. rewrite Z.add_0_r in He, Hph.
      replace (H + 1 + (sz - 1)) with (H + 1 * sz) by lia. rewrite Z.mod_add by lia. split; [done|].
      rewrite Z.mul_1_l, phase_of_lap by lia. lia.
    + replace (H + 1 + i) with (H + (i + 1)) by lia. apply Hold. lia.
Qed.
