(* ===== verification/NvmeIo.v ===== *)
(** * The NVMe target: requests

    The I/O path of targets/nvme/ublk.nvme_vfio.cpp: building and submitting
    commands, polling the completion ring and the callbacks of the target.
    The controller's writes to the completion ring are in the memory when the
    target looks at it. *)

From S2P Require Import Prelude Bytes UblkCmd Uring QueueTypes Batch Queue QueueSpec DmaBuf Nvme NvmeDma NvmeRing.

(** The target's data and the private data of each tag of the queue. *)
Record nvme_tgt := mk_nvme_tgt { nt_data : nvme_vfio_tgt_data; nt_privs : list nvme_io_priv }.

Section nvme.
Context {R : Type} `{!Uring R}.
Notation Q := (queue R nvme_tgt).
Implicit Types q : Q.

(** Whether an IOMMU_IOAS_MAP succeeds, and the result of pread(2) or pwrite(2)
    on the char device: the number of bytes or -errno. *)
Variable ioas_map : Z -> Z -> Z -> bool.
Variable copy_io : Z -> Z -> Z -> bool -> Z.

Definition tgt_data (q : Q) : nvme_vfio_tgt_data := nt_data (private_data q).
Definition set_data (d : nvme_vfio_tgt_data) (q : Q) : Q :=
  set_private_data (mk_nvme_tgt d (nt_privs (private_data q))) q.

(** [&data->io_queues[q->q_id]] *)
Definition get_nvmeq (q : Q) : option nvme_queue := io_queues (tgt_data q) !! Z.to_nat (q_id q).
Definition put_nvmeq (n : nvme_queue) (q : Q) : Q :=
  set_data (set_io_queues (<[Z.to_nat (q_id q) := n]> (io_queues (tgt_data q))) (tgt_data q)) q.

Definition nvme_get_io_priv (q : Q) (tag : Z) : option nvme_io_priv := nt_privs (private_data q) !! Z.to_nat tag.
Definition put_priv (tag : Z) (p : nvme_io_priv) (q : Q) : Q :=
  set_private_data (mk_nvme_tgt (tgt_data q) (<[Z.to_nat tag := p]> (nt_privs (private_data q)))) q.

Definition nvme_user_copy_sync (q : Q) (tag io_buf len : Z) (to_ublk : bool) : option Z :=
  pos ← ublk_pos (q_id q) tag 0;
  let ret := copy_io pos io_buf len to_ublk in
  Some (if ret <? 0 then ret else if negb (ret =? len) then - EIO else 0).

(** ** Completions *)

(** The result of a completed command. *)
Definition nvme_result (q : Q) (cqe : nvme_completion) : option Z :=
  let tag := cq_command_id cqe in
  let status := Z.shiftr (cq_status cqe) 1 in
  iod ← get_iod q tag;
  if status =? 0 then
    if ublksrv_get_op iod =? UBLK_IO_OP_DISCARD then Some 0
    else
      let result := s32 (u32 (Z.shiftl (nr_sectors iod) 9)) in
      if user_copy (tgt_data q) && (ublksrv_get_op iod =? UBLK_IO_OP_READ) then
        ret ← nvme_user_copy_sync q tag (nvme_pool_get_io_buf (tgt_data q) (q_id q) tag) (u64 result) true;
        Some (if ret <? 0 then ret else result)
      else Some result
  else Some (- EIO).

(** The loop of nvme_poll_cq, at most [fuel] rounds. *)
Fixpoint poll_loop (fuel : nat) (found : bool) (q : Q) : option (bool * Q) :=
  match fuel with
  | O => None
  | S fuel =>
      n ← get_nvmeq q;
      pending ← nvme_cqe_pending n;
      if pending : bool then
        cqe ← nq_cq n !! Z.to_nat (cq_head n);
        result ← nvme_result q cqe;
        let q := ublksrv_queue_dec_tgt_io_inflight q in
        '(_, q) ← ublksrv_complete_io (cq_command_id cqe) result q;
        n ← get_nvmeq q;
        poll_loop fuel true (put_nvmeq (nvme_update_cq_head n) q)
      else Some (found, q)
  end.

(** A lap of the ring is enough: the controller leaves one slot empty. *)
Definition nvme_poll_cq (q : Q) : option (bool * Q) :=
  n ← get_nvmeq q;
  '(found, q) ← poll_loop (S (Z.to_nat (nq_qsize n))) false q;
  n ← get_nvmeq q;
  Some (found, if found : bool then put_nvmeq (ring_cq_doorbell (cq_head n) n) q else q).

(** ** Requests *)

(** Copy a command to the submission ring of the queue. *)
Definition submit_sqe (c : nvme_sqe) (q : Q) : option (Z * Q) :=
  n ← get_nvmeq q; n ← sq_put c n; Some (0, put_nvmeq n q).

(** Get or create the mapping of a tag's buffer; the address is 0 on failure. *)
Definition rw_mapping (tag io_buf : Z) (q : Q) : option (Z * Q) :=
  priv ← nvme_get_io_priv q tag;
  if negb (map_iova (data_mapping priv) =? 0) then Some (map_iova (data_mapping priv), q)
  else
    '(iova, m, d) ← nvme_map_dma ioas_map io_buf (nvme_max_io_buf (tgt_data q)) (data_mapping priv) (tgt_data q);
    Some (iova, put_priv tag (set_data_mapping m priv) (set_data d q)).

(** The command before its data pointers; shifting by a negative amount is
    [None]. *)
Definition rw_command (d : nvme_vfio_tgt_data) (iod : ublksrv_io_desc) (tag : Z) : option nvme_rw_command :=
  if lba_shift d <? 9 then None
  else
    let slba := Z.shiftr (start_sector iod) (lba_shift d - 9) in
    let nlb := u32 (Z.shiftr (nr_sectors iod) (lba_shift d - 9) - 1) in
    let op := ublksrv_get_op iod in
    Some (mk_rw_cmd (if op =? UBLK_IO_OP_WRITE then NVME_CMD_WRITE else NVME_CMD_READ) 0 (u16 tag) (nsid d) 0 0 slba
      (u16 nlb) (if has (ublksrv_get_flags iod) UBLK_IO_F_FUA then NVME_RW_FUA else 0)).

Definition nvme_queue_rw_io (iod : ublksrv_io_desc) (tag : Z) (q : Q) : option (Z * Q) :=
  let len := u32 (Z.shiftl (nr_sectors iod) 9) in
  let io_buf := nvme_pool_get_io_buf (tgt_data q) (q_id q) tag in
  c ← rw_command (tgt_data q) iod tag;
  '(iova, q) ← rw_mapping tag io_buf q;
  if iova =? 0 then Some (- ENOMEM, q)
  else
    ret ← (if user_copy (tgt_data q) && (ublksrv_get_op iod =? UBLK_IO_OP_WRITE)
           then nvme_user_copy_sync q tag io_buf len false else Some 0);
    if ret <? 0 then Some (ret, q)
    else
      priv ← nvme_get_io_priv q tag;
      '(ret, c, priv) ← (if nvme_sgl_supported (tgt_data q) then nvme_setup_sgl c (tgt_data q) priv io_buf iova len
                         else nvme_setup_prps c (tgt_data q) priv io_buf iova len);
      let q := put_priv tag priv q in
      if ret <? 0 then Some (- EINVAL, q) else submit_sqe (SqeRw c) q.

Definition nvme_queue_flush_io (iod : ublksrv_io_desc) (tag : Z) (q : Q) : option (Z * Q) :=
  submit_sqe (SqeCommon (mk_common_cmd NVME_CMD_FLUSH (u16 tag) (nsid (tgt_data q)) 0 0 0)) q.

(** The range is the first sixteen bytes of the zeroed PRP page. *)
Definition nvme_queue_discard_io (iod : ublksrv_io_desc) (tag : Z) (q : Q) : option (Z * Q) :=
  let d := tgt_data q in
  if lba_shift d <? 9 then None
  else
    let slba := Z.shiftr (start_sector iod) (lba_shift d - 9) in
    let nlb := Z.shiftr (nr_sectors iod) (lba_shift d - 9) in
    priv ← nvme_get_io_priv q tag;
    let range := Z.shiftl nlb 32 :: slba :: replicate 510 0 in
    let q := put_priv tag (set_prp_list range priv) q in
    submit_sqe (SqeCommon (mk_common_cmd NVME_CMD_DSM (u16 tag) (nsid d) (map_iova (prp_mapping priv)) 0 NVME_DSMGMT_AD)) q.

Definition nvme_vfio_queue_io (tag : Z) (q : Q) : option (Z * Q) :=
  iod ← get_iod q tag;
  let op := ublksrv_get_op iod in
  '(ret, q) ← (if (op =? UBLK_IO_OP_READ) || (op =? UBLK_IO_OP_WRITE) then nvme_queue_rw_io iod tag q
               else if op =? UBLK_IO_OP_FLUSH then nvme_queue_flush_io iod tag q
               else if op =? UBLK_IO_OP_DISCARD then nvme_queue_discard_io iod tag q
               else Some (- EINVAL, q));
  if ret <? 0 then '(_, q) ← ublksrv_complete_io tag ret q; Some (ret, q)
  else Some (ret, ublksrv_queue_inc_tgt_io_inflight q).

(** [while (nvme_poll_cq(...)) {}], at most [fuel] calls. *)
Fixpoint poll_all (fuel : nat) (q : Q) : option Q :=
  match fuel with
  | O => None
  | S fuel => '(found, q) ← nvme_poll_cq q; if found : bool then poll_all fuel q else Some q
  end.

(** Two calls are enough: the first handles everything in the ring. *)
Definition nvme_vfio_handle_io_background (nr_queued_io : Z) (q : Q) : option Q :=
  n ← get_nvmeq q;
  poll_all 2 (put_nvmeq (nvme_sq_flush n) q).

Definition nvme_vfio_handle_io_async (tag : Z) (q : Q) : option (Z * Q) :=
  '(ret, q) ← nvme_vfio_queue_io tag q;
  Some (if 0 <=? ret then 0 else ret, q).

Definition nvme_vfio_tgt_type : ublksrv_tgt_type R nvme_tgt :=
  mk_tgt_type nvme_vfio_handle_io_async None None (Some nvme_vfio_handle_io_background) None.

Definition nvme_vfio_alloc_io_buf (tag : Z) (q : Q) : Z := nvme_pool_get_io_buf (tgt_data q) (q_id q) tag.
End nvme.

(** ** Polling completes the requests *)
Section nvme_poll.
Context {R : Type} `{!Uring R, !UringLaws R, !UringProgress R}.
Notation Q := (queue R nvme_tgt).
Implicit Types q : Q.
Variable copy_io : Z -> Z -> Z -> bool -> Z.

Lemma qsim_dec q A : qsim q A -> qsim (ublksrv_queue_dec_tgt_io_inflight q) A.
Proof. intros []. by split. Qed.

Lemma put_get_nvmeq q n n' : get_nvmeq q = Some n -> get_nvmeq (put_nvmeq n' q) = Some n'.
Proof. intros Hn. apply list_lookup_insert_eq. by eapply lookup_lt_Some. Qed.

(** Completing a request leaves the target's side of the queue alone. *)
Lemma complete_io_inflight tag res q r q' :
  ublksrv_queue_batch_io q = false -> ublksrv_complete_io tag res q = Some (r, q') ->
  tgt_io_inflight q' = tgt_io_inflight q.
Proof.
  intros Hb. unfold ublksrv_complete_io. destruct (get_io q tag) as [io|]; cbn [mbind option_bind]; [|done].
  rewrite Hb. unfold ublksrv_queue_io_cmd. destruct (get_io _ tag); cbn [mbind option_bind]; [|done].
  destruct (negb _); [intros; by simplify_eq|]. destruct (negb _); [intros; by simplify_eq|].
  destruct (io_cmd_sqe _ _ _); cbn [mbind option_bind]; [|done].
  destruct (ublksrv_alloc_sqe _ _) as [ok r0]. destruct (negb ok); intros; by simplify_eq.
Qed.

(** The tag and the result a completion carries. *)
Definition cqe_done (q : Q) (e : nvme_completion) : option (nat * Z) :=
  (fun res => (Z.to_nat (cq_command_id e), res)) <$> nvme_result copy_io q e.

(** Every completion in [post] is for the (tag, result) in [ds]. *)
Definition cqes_done (q : Q) (post : list nvme_completion) (ds : list (nat * Z)) : Prop :=
  Forall2 (fun e d => 0 <= cq_command_id e /\ cqe_done q e = Some d) post ds.

(** Results depend on the descriptors and on the target's data only. *)
Lemma nvme_result_same q q' A A' e i :
  qsim q A -> qsim q' A' -> length (a_tags A') = length (a_tags A) -> (i < length (a_tags A))%nat ->
  cq_command_id e = Z.of_nat i -> io_cmd_buf q' = io_cmd_buf q -> q_id q' = q_id q ->
  user_copy (tgt_data q') = user_copy (tgt_data q) ->
  nvme_pool_get_io_buf (tgt_data q') = nvme_pool_get_io_buf (tgt_data q) ->
  nvme_result copy_io q' e = nvme_result copy_io q e.
Proof.
  intros Hs Hs' Hlen Hi Hc Hbuf Hid Hu Hp. unfold nvme_result. rewrite Hc.
  destruct (lookup_lt_is_Some_2 (a_tags A) i Hi) as [t Ht].
  destruct (lookup_lt_is_Some_2 (a_tags A') i ltac:(lia)) as [t' Ht'].
  destruct (qsim_get_iod q A i t Hs Ht) as (iod&->&H1). destruct (qsim_get_iod q' A' i t' Hs' Ht') as (iod'&->&H2).
  rewrite Hbuf, H1 in H2. injection H2 as <-. cbn [mbind option_bind]. unfold nvme_user_copy_sync.
  by rewrite Hid, Hu, Hp.
Qed.

Lemma cqes_done_same q q' A A' post ds :
  qsim q A -> qsim q' A' -> length (a_tags A') = length (a_tags A) ->
  Forall (fun d => is_Some (a_tags A !! d.1)) ds ->
  io_cmd_buf q' = io_cmd_buf q -> q_id q' = q_id q ->
  user_copy (tgt_data q') = user_copy (tgt_data q) ->
  nvme_pool_get_io_buf (tgt_data q') = nvme_pool_get_io_buf (tgt_data q) ->
  cqes_done q post ds -> cqes_done q' post ds.
Proof.
  intros Hs Hs' Hlen Hds Hbuf Hid Hu Hp Hf. induction Hf as [|e d post ds [He Hd] Hf IH]; [constructor|].
  apply Forall_cons in Hds as [Hd1 Hds]. constructor; [|by apply IH]. split; [done|]. unfold cqe_done in *.
  assert (Hi : d.1 = Z.to_nat (cq_command_id e)) by (destruct (nvme_result copy_io q e); cbn in Hd; by simplify_eq).
  rewrite (nvme_result_same q q' A A' e d.1); try done; [by apply lookup_lt_is_Some|lia].
Qed.

Lemma completable_lookup ds A : completable ds A -> Forall (fun d => is_Some (a_tags A !! d.1)) ds.
Proof. intros [_ H]. eapply Forall_impl; [exact H|]. intros d [-> _]. by eexists. Qed.

(** The parts of a queue polling does not touch. *)
Definition same_sq (n n' : nvme_queue) : Prop :=
  nq_qsize n' = nq_qsize n /\ nq_sq n' = nq_sq n /\ sq_tail n' = sq_tail n /\ last_sq_tail n' = last_sq_tail n /\
  sq_db n' = sq_db n /\ cq_db n' = cq_db n.

Lemma same_sq_update n : same_sq n (nvme_update_cq_head n).
Proof. unfold nvme_update_cq_head. by destruct (_ =? _). Qed.

Lemma same_sq_trans n1 n2 n3 : same_sq n1 n2 -> same_sq n2 n3 -> same_sq n1 n3.
Proof. intros (?&?&?&?&?&?) (?&?&?&?&?&?). repeat split; congruence. Qed.

Lemma poll_loop_spec fuel post ds H n q A found :
  get_nvmeq q = Some n -> cq_at H n post -> qsim q A -> cqes_done q post ds -> completable ds A ->
  is_u32 (tgt_io_inflight q) -> (length post < fuel)%nat ->
  exists q' n', poll_loop copy_io fuel found q = Some (match post with [] => found | _ => true end, q') /\
    get_nvmeq q' = Some n' /\ cq_at (H + Z.of_nat (length post)) n' [] /\ same_sq n n' /\
    qsim q' (complete_all ds A) /\ tgt_io_inflight q' = u32 (tgt_io_inflight q - Z.of_nat (length post)).
Proof.
  revert post ds H n q A found. induction fuel as [|fuel IH]; intros post ds H n q A found Hn Hcq Hs Hd Hok Hu Hf; [lia|].
  cbn [poll_loop]. rewrite Hn. cbn [mbind option_bind]. rewrite (cq_pending _ _ _ Hcq). cbn [mbind option_bind].
  destruct post as [|e post].
  { inversion Hd; subst. exists q, n. split; [done|]. split; [done|]. rewrite Z.add_0_r, Z.sub_0_r, u32_id by done. done. }
  inversion Hd as [|? d ? ds' [He0 Hed] Hd']; subst. rewrite (cq_first _ _ _ _ Hcq). cbn [mbind option_bind].
  unfold cqe_done in Hed. destruct (nvme_result copy_io q e) as [res|]; [|done]. cbn in Hed. injection Hed as <-.
  cbn [mbind option_bind]. pose proof (completable_lookup _ _ Hok) as Hlk. apply Forall_cons in Hlk as [_ Hlk].
  apply completable_cons in Hok as (Ht&Hr&Hok). set (i := Z.to_nat (cq_command_id e)) in *.
  replace (cq_command_id e) with (Z.of_nat i) by (subst i; lia).
  destruct (complete_io_progress (ublksrv_queue_dec_tgt_io_inflight q) A i res) as (q1&Hc&(Hv&_&Hbuf&Hid&_)&Hs1);
    [by apply qsim_dec|done|done|].
  pose proof (complete_io_inflight _ _ _ _ _ (qs_batch _ _ (qsim_dec _ _ Hs)) Hc) as Hinf.
  rewrite Hc. cbn [mbind option_bind]. apply (f_equal v_data) in Hv. cbn in Hv, Hbuf, Hid, Hinf.
  assert (Hn1 : get_nvmeq q1 = Some n) by (unfold get_nvmeq, tgt_data; rewrite Hv, Hid; exact Hn).
  rewrite Hn1. cbn [mbind option_bind]. set (q2 := put_nvmeq _ q1).
  set (A1 := send i UBLK_IO_COMMIT_AND_FETCH_REQ (Some res) A) in *.
  assert (Hs2 : qsim q2 A1) by (by apply qsim_private).
  destruct (IH post ds' (H + 1) (nvme_update_cq_head n) q2 A1 true) as (q'&n'&Hrun&Hn'&Hcq'&Hsq&Hs'&Hinf').
  - by apply (put_get_nvmeq q1 n).
  - by eapply cq_advance.
  - done.
  - eapply (cqes_done_same q q2 A A1); try done.
    + cbn. by rewrite length_insert.
    + unfold tgt_data. cbn. unfold tgt_data. by rewrite Hv.
    + unfold nvme_pool_get_io_buf, tgt_data. cbn. unfold tgt_data. by rewrite Hv.
  - done.
  - cbn. rewrite Hinf. apply u32_bound.
  - cbn in Hf. lia.
  - exists q', n'. rewrite Hrun. split; [by destruct post|]. split; [done|]. cbn [length].
    split; [by replace (H + Z.of_nat (S (length post))) with (H + 1 + Z.of_nat (length post)) by lia|].
    split; [eapply same_sq_trans; [apply same_sq_update|done]|]. split; [done|].
    rewrite Hinf'. cbn. rewrite Hinf. unfold u32. rewrite Zminus_mod_idemp_l. f_equal. lia.
Qed.

Lemma cq_at_ext H n n' post :
  nq_qsize n' = nq_qsize n -> nq_cq n' = nq_cq n -> cq_head n' = cq_head n -> cq_phase n' = cq_phase n ->
  cq_at H n post -> cq_at H n' post.
Proof. intros H1 H2 H3 H4. unfold cq_at. by rewrite H1, H2, H3, H4. Qed.

Lemma flush_cq n : nq_qsize (nvme_sq_flush n) = nq_qsize n /\ nq_cq (nvme_sq_flush n) = nq_cq n /\
  cq_head (nvme_sq_flush n) = cq_head n /\ cq_phase (nvme_sq_flush n) = cq_phase n /\ sq_tail (nvme_sq_flush n) = sq_tail n.
Proof. unfold nvme_sq_flush. by destruct (negb _). Qed.

(** One call handles everything the controller has posted. *)
Lemma poll_cq_spec H n q A post ds :
  get_nvmeq q = Some n -> cq_at H n post -> qsim q A -> cqes_done q post ds -> completable ds A ->
  is_u32 (tgt_io_inflight q) ->
  exists q' n', nvme_poll_cq copy_io q = Some (match post with [] => false | _ => true end, q') /\
    get_nvmeq q' = Some n' /\ cq_at (H + Z.of_nat (length post)) n' [] /\
    sq_tail n' = sq_tail n /\ sq_db n' = sq_db n /\ (post <> [] -> cq_db n' = cq_head n') /\
    qsim q' (complete_all ds A) /\ tgt_io_inflight q' = u32 (tgt_io_inflight q - Z.of_nat (length post)).
Proof.
  intros Hn Hcq Hs Hd Hok Hu. unfold nvme_poll_cq. rewrite Hn. cbn [mbind option_bind].
  destruct (poll_loop_spec (S (Z.to_nat (nq_qsize n))) post ds H n q A false)
    as (q'&n'&->&Hn'&Hcq'&(?&?&Htl&?&Hdb&Hcdb)&Hs'&Hinf); try done.
  { destruct Hcq as (_&_&_&_&Hl&_). lia. }
  cbn [mbind option_bind]. rewrite Hn'. cbn [mbind option_bind]. destruct post as [|e post].
  - exists q', n'. split; [done|]. split; [done|]. split; [done|]. split; [done|]. split; [done|]. done.
  - exists (put_nvmeq (ring_cq_doorbell (cq_head n') n') q'), (ring_cq_doorbell (cq_head n') n').
    split; [done|]. split; [by apply (put_get_nvmeq q' n')|].
    split; [by apply (cq_at_ext _ n')|]. split; [done|]. split; [done|]. split; [done|].
    split; [by apply qsim_private|done].
Qed.

(** A call that finds nothing changes nothing. *)
Lemma poll_cq_empty H n q :
  get_nvmeq q = Some n -> cq_at H n [] -> nvme_poll_cq copy_io q = Some (false, q).
Proof.
  intros Hn Hcq. unfold nvme_poll_cq. rewrite Hn. cbn [mbind option_bind poll_loop]. rewrite Hn. cbn [mbind option_bind].
  rewrite (cq_pending _ _ _ Hcq). cbn [mbind option_bind]. rewrite Hn. done.
Qed.

Lemma background_completes nr q A n H post ds :
  get_nvmeq q = Some n -> cq_at H n post -> sq_db n = last_sq_tail n ->
  qsim q A -> cqes_done q post ds -> completable ds A -> is_u32 (tgt_io_inflight q) ->
  exists q' n', nvme_vfio_handle_io_background copy_io nr q = Some q' /\
    qsim q' (complete_all ds A) /\ get_nvmeq q' = Some n' /\ cq_at (H + Z.of_nat (length post)) n' [] /\
    sq_tail n' = sq_tail n /\ sq_db n' = sq_tail n' /\ (post <> [] -> cq_db n' = cq_head n') /\
    tgt_io_inflight q' = u32 (tgt_io_inflight q - Z.of_nat (length post)).
Proof.
  intros Hn Hcq Hdb Hs Hd Hok Hu. unfold nvme_vfio_handle_io_background. rewrite Hn. cbn [mbind option_bind].
  set (n1 := nvme_sq_flush n). set (q1 := put_nvmeq n1 q).
  assert (Hcq1 : cq_at H n1 post) by (destruct (flush_cq n) as (?&?&?&?&?); by apply (cq_at_ext _ n)).
  assert (Hs1 : qsim q1 A) by (by apply qsim_private).
  assert (Hd1 : cqes_done q1 post ds) by (apply (cqes_done_same q q1 A A); try done; by apply completable_lookup).
  assert (Hdb1 : sq_db n1 = sq_tail n1).
  { subst n1. unfold nvme_sq_flush. destruct (Z.eqb_spec (sq_tail n) (last_sq_tail n)) as [E|E]; cbn [negb]; [congruence|done]. }
  destruct (poll_cq_spec H n1 q1 A post ds) as (q2&n2&Hrun&Hn2&Hcq2&Htl2&Hdb2&Hc2&Hs2&Hinf2); try done;
    [by apply (put_get_nvmeq q n)|].
  assert (Htl1 : sq_tail n1 = sq_tail n) by apply flush_cq.
  exists q2, n2. split.
  { destruct post as [|e post]; cbn [poll_all]; rewrite Hrun; cbn [mbind option_bind]; [done|].
    by rewrite (poll_cq_empty _ n2 q2 Hn2 Hcq2). }
  do 3 (split; [done|]). split; [congruence|]. split; [congruence|]. done.
Qed.
(** What a completion answers.  Bit 0 of its status word is the phase, the
    rest is 0 for success.  A read with user copy is copied to the driver first,
    at the request's place in the char device. *)
Inductive nvme_answer (q : Q) : nvme_completion -> nat * Z -> Prop :=
  | answer_failed e i iod :
      cq_command_id e = Z.of_nat i -> get_iod q (Z.of_nat i) = Some iod -> 2 <= cq_status e ->
      nvme_answer q e (i, - EIO)
  | answer_discard e i iod :
      cq_command_id e = Z.of_nat i -> get_iod q (Z.of_nat i) = Some iod -> 0 <= cq_status e < 2 ->
      ublksrv_get_op iod = UBLK_IO_OP_DISCARD -> nvme_answer q e (i, 0)
  | answer_done e i iod :
      cq_command_id e = Z.of_nat i -> get_iod q (Z.of_nat i) = Some iod -> 0 <= cq_status e < 2 ->
      ublksrv_get_op iod <> UBLK_IO_OP_DISCARD -> 0 <= nr_sectors iod < 2^22 ->
      user_copy (tgt_data q) = false \/ ublksrv_get_op iod <> UBLK_IO_OP_READ ->
      nvme_answer q e (i, nr_sectors iod * 512)
  | answer_copied e i iod pos r :
      cq_command_id e = Z.of_nat i -> get_iod q (Z.of_nat i) = Some iod -> 0 <= cq_status e < 2 ->
      ublksrv_get_op iod = UBLK_IO_OP_READ -> 0 <= nr_sectors iod < 2^22 ->
      user_copy (tgt_data q) = true -> ublk_pos (q_id q) (Z.of_nat i) 0 = Some pos ->
      copy_io pos (nvme_pool_get_io_buf (tgt_data q) (q_id q) (Z.of_nat i)) (nr_sectors iod * 512) true = r ->
      nvme_answer q e (i, if decide (r < 0) then r else if decide (r = nr_sectors iod * 512) then r else - EIO).

Lemma answer_done_result q e d : nvme_answer q e d -> 0 <= cq_command_id e /\ cqe_done q e = Some d.
Proof.
  assert (Hst : forall c, 0 <= cq_status c < 2 -> Z.shiftr (cq_status c) 1 = 0).
  { intros c Hc. rewrite Z.shiftr_div_pow2 by done. by apply Z.div_small. }
  assert (Hsz : forall iod, 0 <= nr_sectors iod < 2^22 -> s32 (u32 (Z.shiftl (nr_sectors iod) 9)) = nr_sectors iod * 512).
  { intros iod Hi. rewrite Z.shiftl_mul_pow2 by done. change (2^9) with 512. change (2^22) with 4194304 in Hi.
    rewrite u32_id, s32_id by (unfold is_u32, is_s32; lia). done. }
  intros Ha. unfold cqe_done, nvme_result.
  destruct Ha as [e i iod -> Hi Hs|e i iod -> Hi Hs Hop|e i iod -> Hi Hs Hop Hn Hc|e i iod pos r -> Hi Hs Hop Hn Hc Hpos Hr];
    (split; [lia|]); rewrite Hi; cbn [mbind option_bind]; rewrite Nat2Z.id.
  - rewrite Z.shiftr_div_pow2 by done. change (2^1) with 2.
    rewrite (proj2 (Z.eqb_neq _ 0)) by (assert (1 <= cq_status e / 2) by (apply Z.div_le_lower_bound; lia); lia). done.
  - rewrite Hst, Hop by done. done.
  - rewrite Hst, Hsz by done. cbn [Z.eqb]. rewrite (proj2 (Z.eqb_neq _ _) Hop).
    by destruct Hc as [-> | Hc%Z.eqb_neq]; [|rewrite Hc, andb_false_r].
  - rewrite Hst, Hsz, Hop by done. cbn [Z.eqb]. change (UBLK_IO_OP_READ =? UBLK_IO_OP_DISCARD) with false.
    rewrite Hc. cbn [andb]. change (UBLK_IO_OP_READ =? UBLK_IO_OP_READ) with true. cbv iota.
    unfold nvme_user_copy_sync. rewrite Hpos. cbn [mbind option_bind].
    rewrite (u64_id (nr_sectors iod * 512)) by (change (2^22) with 4194304 in Hn; unfold is_u64; lia). rewrite Hr.
    destruct (Z.ltb_spec r 0) as [H1|H1]; destruct (decide (r < 0)); try lia; cbn [mbind option_bind].
    + by rewrite (proj2 (Z.ltb_lt _ _) H1).
    + destruct (Z.eqb_spec r (nr_sectors iod * 512)) as [->|Hne]; destruct (decide _); try done.
Qed.

(** C25: At the end of an iteration the target announces every command it has
    submitted and answers every completion in the ring: each request is
    completed once, in the order the controller posted, with -EIO when the
    controller reports an error, 0 for a discard and its size in bytes for any
    other operation, unless the copy of the data of a read to the driver fails
    (its error, or -EIO when it is short); the ring is left empty, its doorbell
    at the new head, and the requests are no longer in flight.  Requests are
    smaller than 2^31 bytes, and the queue works without batch I/O. *)
Theorem nvme_background_completes nr q A n H post ds :
  get_nvmeq q = Some n -> cq_at H n post -> sq_db n = last_sq_tail n ->
  qsim q A -> Forall2 (nvme_answer q) post ds -> completable ds A -> is_u32 (tgt_io_inflight q) ->
  exists q' n', nvme_vfio_handle_io_background copy_io nr q = Some q' /\
    qsim q' (complete_all ds A) /\ get_nvmeq q' = Some n' /\ cq_at (H + Z.of_nat (length post)) n' [] /\
    sq_tail n' = sq_tail n /\ sq_db n' = sq_tail n' /\ (post <> [] -> cq_db n' = cq_head n') /\
    tgt_io_inflight q' = u32 (tgt_io_inflight q - Z.of_nat (length post)).
Proof.
  intros Hn Hcq Hdb Hs Hd Hok Hu. apply (background_completes nr q A n H post ds); try done.
  eapply Forall2_impl; [exact Hd|]. intros e d. apply answer_done_result.
Qed.
End nvme_poll.

(** ** A read or write becomes one command *)
Section nvme_rw.
Context {R : Type} `{!Uring R}.
Notation Q := (queue R nvme_tgt).
Implicit Types q : Q.
Variable ioas_map : Z -> Z -> Z -> bool.
Variable copy_io : Z -> Z -> Z -> bool -> Z.

(** A request in whole blocks that fits the buffer of its tag. *)
Definition rw_iod_ok (d : nvme_vfio_tgt_data) (iod : ublksrv_io_desc) : Prop :=
  9 <= lba_shift d <= 16 /\ 0 <= start_sector iod /\ start_sector iod mod 2^(lba_shift d - 9) = 0 /\
  0 < nr_sectors iod <= 4096 /\ nr_sectors iod mod 2^(lba_shift d - 9) = 0.

(** The queue can take the command: there is an IOMMU, the buffer of the tag is
    mapped, and the data is not copied through the char device. *)
Definition rw_ready (q : Q) (tag iova : Z) (n : nvme_queue) : Prop :=
  get_nvmeq q = Some n /\ 0 <= sq_tail n < Z.of_nat (length (nq_sq n)) /\
  nvme_use_iommu (tgt_data q) = true /\ user_copy (tgt_data q) = false /\
  is_u16 tag /\ 0 < iova < 2^63 /\
  exists priv, nvme_get_io_priv q tag = Some priv /\ map_iova (data_mapping priv) = iova /\ length (prp_list priv) = max_prps.

Lemma shiftr_exact x k : 0 <= k -> x mod 2^k = 0 -> Z.shiftr x k * 2^k = x.
Proof. intros Hk Hx. rewrite Z.shiftr_div_pow2 by done. pose proof (Z.div_mod x (2^k)). lia. Qed.

(** What the controller transfers for a command: [page] is the page of memory
    at an address, which it reads when the command refers to a list. *)
Definition dptr_transfer (page : Z -> list Z) (c : nvme_rw_command) (len : Z) : list (Z * Z) :=
  if has (rw_flags c) NVME_CMD_SGL_METABUF then sgl_transfer (rw_prp1 c) (rw_prp2 c) (page (rw_prp1 c))
  else prp_transfer (rw_prp1 c) (rw_prp2 c) (page (rw_prp2 c)) len.

(** PRP2 is an address of a list only when more than a page is left. *)
Lemma prp_transfer_list prp1 prp2 l l' len :
  (PAGE_SIZE < len - first_len prp1 len -> l = l') -> prp_transfer prp1 prp2 l len = prp_transfer prp1 prp2 l' len.
Proof.
  intros H. unfold prp_transfer. fold (first_len prp1 len). cbn zeta.
  destruct (_ =? 0); [done|]. destruct (Z.leb_spec (len - first_len prp1 len) PAGE_SIZE); [done|]. by rewrite H.
Qed.

(** With an IOMMU the data pointers describe the buffer, as PRPs or as an SGL. *)
Lemma setup_dptr c d priv io_buf iova len :
  nvme_use_iommu d = true -> length (prp_list priv) = max_prps -> rw_flags c = 0 ->
  0 <= iova -> 0 < len < 2^32 -> iova + len < 2^64 - PAGE_SIZE -> len - first_len iova len <= 512 * PAGE_SIZE ->
  exists c' priv', (if nvme_sgl_supported d then nvme_setup_sgl c d priv io_buf iova len
                    else nvme_setup_prps c d priv io_buf iova len) = Some (0, c', priv') /\
    rw_opcode c' = rw_opcode c /\ rw_cid c' = rw_cid c /\ rw_nsid c' = rw_nsid c /\ rw_slba c' = rw_slba c /\
    rw_length c' = rw_length c /\ rw_control c' = rw_control c /\ prp_mapping priv' = prp_mapping priv /\
    forall page, page (map_iova (prp_mapping priv)) = prp_list priv' ->
      transfer_bytes (dptr_transfer page c' len) = seqZ iova len.
Proof.
  intros Hu Hll Hfl Hi Hl Hb Hfit. destruct (nvme_sgl_supported d).
  - unfold nvme_setup_sgl. rewrite Hu, Hfl. cbn [negb andb]. eexists _, priv. split; [done|]. do 7 (split; [done|]).
    intros page _. unfold dptr_transfer. cbn [rw_flags rw_prp1 rw_prp2 set_prps set_rw_flags].
    change (has (Z.lor 0 NVME_CMD_SGL_METABUF) NVME_CMD_SGL_METABUF) with true. cbv iota. unfold sgl_transfer.
    rewrite data_desc_words by (unfold is_u32; lia). cbn. apply app_nil_r.
  - destruct (nvme_prps_cover c d priv io_buf iova len Hu Hll Hi ltac:(lia) Hb Hfit)
      as (c'&priv'&->&Hc&Hlist&Hbytes&Hmap). exists c', priv'. split; [done|].
    assert (Hf : rw_flags c' = 0 /\ rw_prp1 c' = iova) by (by rewrite Hc). destruct Hf as [Hf Hp1].
    do 6 (split; [by rewrite Hc|]). split; [done|]. intros page Hpage. unfold dptr_transfer. rewrite Hf.
    change (has 0 NVME_CMD_SGL_METABUF) with false. cbv iota. rewrite <- Hbytes. f_equal. apply prp_transfer_list.
    rewrite Hp1. intros Hrest. by rewrite (Hlist Hrest).
Qed.

(** C26: With an IOMMU and without user copy, a read or write of whole blocks
    and at most 2 MiB, on a tag whose buffer is mapped, is sent as exactly one
    command in the slot at the tail of the submission ring: the right operation,
    tag and namespace, the first block and the number of blocks of the request,
    and data pointers, PRPs or an SGL, that make the controller transfer exactly
    the bytes of the tag's buffer, where a list longer than the two PRPs is read
    from the tag's PRP page at the address it is mapped at.  The FUA bit of the
    command follows bit 21 of the request's flags, not UBLK_IO_F_FUA (bit 13),
    so a FUA write is sent as an ordinary one. *)
Theorem nvme_rw_request q tag iova n iod :
  rw_ready q tag iova n -> rw_iod_ok (tgt_data q) iod -> is_u32 (op_flags iod) ->
  exists c q' priv', nvme_queue_rw_io ioas_map copy_io iod tag q = Some (0, q') /\
    get_nvmeq q' = Some (nvme_sq_submit_cmd (set_sq (<[Z.to_nat (sq_tail n) := SqeRw c]> (nq_sq n)) n)) /\
    nvme_get_io_priv q' tag = Some priv' /\
    prp_mapping <$> nvme_get_io_priv q tag = Some (prp_mapping priv') /\
    rw_opcode c = (if ublksrv_get_op iod =? UBLK_IO_OP_WRITE then NVME_CMD_WRITE else NVME_CMD_READ) /\
    rw_cid c = tag /\ rw_nsid c = nsid (tgt_data q) /\
    rw_slba c * 2^(lba_shift (tgt_data q) - 9) = start_sector iod /\
    (rw_length c + 1) * 2^(lba_shift (tgt_data q) - 9) = nr_sectors iod /\
    rw_control c = (if Z.testbit (op_flags iod) 21 then NVME_RW_FUA else 0) /\
    forall page, page (map_iova (prp_mapping priv')) = prp_list priv' ->
      transfer_bytes (dptr_transfer page c (nr_sectors iod * 512)) = seqZ iova (nr_sectors iod * 512).
Proof.
  intros (Hn&Htail&Hiommu&Hcopy&Htag&Hiova&priv&Hpriv&Hmap&Hlist) (Hsh&Hs0&Hsm&Hnr&Hnm) Hfl.
  set (d := tgt_data q) in *. set (sh := lba_shift d - 9) in *.
  assert (Hpow : 1 <= 2^sh <= 128).
  { assert (sh = 0 \/ sh = 1 \/ sh = 2 \/ sh = 3 \/ sh = 4 \/ sh = 5 \/ sh = 6 \/ sh = 7) as Hcase by (subst sh; lia).
    repeat destruct Hcase as [->|Hcase]; [..|rewrite Hcase]; vm_compute; split; discriminate. }
  pose proof (shiftr_exact (start_sector iod) sh ltac:(subst sh; lia) Hsm) as Hslba.
  pose proof (shiftr_exact (nr_sectors iod) sh ltac:(subst sh; lia) Hnm) as Hnlb.
  set (nlb := Z.shiftr (nr_sectors iod) sh) in *. assert (Hb : 1 <= nlb <= 4096) by nia.
  assert (Hlen : u32 (Z.shiftl (nr_sectors iod) 9) = nr_sectors iod * 512).
  { rewrite Z.shiftl_mul_pow2 by lia. change (2^9) with 512. apply u32_id. unfold is_u32. lia. }
  unfold nvme_queue_rw_io, rw_command. fold d. rewrite (proj2 (Z.ltb_ge (lba_shift d) 9)) by lia. cbn [mbind option_bind].
  unfold rw_mapping. rewrite Hpriv. cbn [mbind option_bind]. rewrite Hmap, (proj2 (Z.eqb_neq iova 0)) by lia.
  cbn [negb mbind option_bind]. rewrite (proj2 (Z.eqb_neq iova 0)) by lia. fold d. rewrite Hcopy. cbn [andb mbind option_bind Z.ltb Z.compare].
  rewrite Hpriv. cbn [mbind option_bind]. rewrite Hlen.
  set (c0 := mk_rw_cmd _ _ _ _ _ _ _ _ _).
  destruct (setup_dptr c0 d priv (nvme_pool_get_io_buf d (q_id q) tag) iova (nr_sectors iod * 512))
    as (c&priv'&->&H1&H2&H3&H4&H5&H6&Hpm&Hbytes); try done; [lia|lia|unfold PAGE_SIZE; lia| |].
  { destruct (first_len_spec iova (nr_sectors iod * 512)) as [? ?]; [lia|]. unfold PAGE_SIZE in *. lia. }
  cbn [mbind option_bind Z.ltb Z.compare]. unfold submit_sqe. change (get_nvmeq (put_priv tag priv' q)) with (get_nvmeq q).
  rewrite Hn. cbn [mbind option_bind]. unfold sq_put. rewrite (proj2 (Z.leb_le _ _)), (proj2 (Z.ltb_lt _ _)) by lia.
  cbn [andb mbind option_bind]. exists c. eexists _, priv'. split; [done|].
  split; [by apply (put_get_nvmeq (put_priv tag priv' q) n)|].
  split; [cbn; apply list_lookup_insert_eq; by eapply lookup_lt_Some|].
  split; [by rewrite Hpm|].
  rewrite H1, H2, H3, H4, H5, H6. cbn [rw_opcode rw_cid rw_nsid rw_slba rw_length rw_control c0].
  split; [done|]. split; [by apply u16_id|]. split; [done|]. split; [done|]. split.
  { fold sh nlb. rewrite (u32_id (nlb - 1)), u16_id by (unfold is_u16, is_u32; lia). lia. }
  split; [unfold UBLK_IO_F_FUA, ublksrv_get_flags; rewrite has_bit, Z.shiftr_spec by lia; done|].
  intros page. rewrite Hpm. apply Hbytes.
Qed.
End nvme_rw.
