(* ===== verification/NvmeExamples.v ===== *)
(** * A small NVMe device

    One queue of two tags, an IOMMU or two huge pages of two pages each: the
    hypotheses of the theorems of Nvme, NvmeDma, NvmeRing and NvmeIo hold
    there. *)

From S2P Require Import Prelude Bytes UblkCmd Uring QueueTypes Batch Queue QueueSpec DmaBuf Nvme NvmeDma NvmeRing NvmeIo.

(** ** Memory *)

(** Frames 10, 11 and 20, 21: each huge page of 8192 bytes is contiguous. *)
Definition exv_frame (i : Z) : Z := if i <? 2 then 10 + i else 18 + i.
Definition exv_entry (i : Z) : Z := 2^63 + exv_frame i.
Definition exv_pool : dma_buf_pool := mk_pool 0x10000 16384 (Some (map exv_entry [0; 1; 2; 3])) 4.

Definition exv_data (noiommu : bool) (sgls : Z) (nqs : list nvme_queue) : nvme_vfio_tgt_data :=
  mk_nvme_data 1 12 false noiommu false nqs 1 2 PAGE_SIZE 4 0 sgls 0x100000000 exv_pool (mk_layout 0 0 0 0) 0 8192.

Definition exv_priv : nvme_io_priv :=
  mk_io_priv (mk_mapping 0x10000 0x100000000 PAGE_SIZE) (mk_mapping 0 0x200000000 PAGE_SIZE) 0 (replicate 512 0).
Definition exv_cmd : nvme_rw_command := mk_rw_cmd NVME_CMD_READ 0 0 1 0 0 0 0 0.

Lemma exv_mapped : pool_mapped exv_pool exv_frame.
Proof.
  repeat (split; [done|]). exists (map exv_entry [0; 1; 2; 3]). split; [done|]. split; [done|].
  change (pool_size exv_pool / PAGE_SIZE) with 4. intros i Hi.
  assert (i = 0 \/ i = 1 \/ i = 2 \/ i = 3) as Hc by lia.
  destruct Hc as [->|[->|[->| ->]]]; eexists; (split; [reflexivity|done]).
Qed.

Lemma exv_huge noiommu sg nqs va n :
  0 <= n -> in_pool (dma_pool (exv_data noiommu sg nqs)) va n ->
  va / hugepage_size (exv_data noiommu sg nqs) = (va + n - 1) / hugepage_size (exv_data noiommu sg nqs) ->
  map (phys (dma_pool (exv_data noiommu sg nqs)) exv_frame) (seqZ va n) =
    seqZ (phys (dma_pool (exv_data noiommu sg nqs)) exv_frame va) n.
Proof.
  intros Hn [H1 H2] Hh. cbn [exv_data dma_pool exv_pool pool_base pool_size hugepage_size] in *.
  apply list_eq. intros i. rewrite list_lookup_fmap. destruct (decide (Z.of_nat i < n)).
  - rewrite !lookup_seqZ_lt by done. cbn. f_equal. unfold phys, exv_frame, PAGE_SIZE. change (pool_base exv_pool) with 65536.
    repeat case_bool; bool_prop; Z.div_mod_to_equations; lia.
  - rewrite !lookup_seqZ_ge by lia. done.
Qed.

Lemma nvme_prps_cover_witness :
  exists c' priv', nvme_setup_prps exv_cmd (exv_data false 0 []) exv_priv 0x10000 0x100000400 20000 = Some (0, c', priv') /\
    rw_prp2 c' = 0x200000000 /\
    transfer_bytes (prp_transfer (rw_prp1 c') (rw_prp2 c') (prp_list priv') 20000) = seqZ 0x100000400 20000.
Proof.
  destruct (nvme_prps_cover exv_cmd (exv_data false 0 []) exv_priv 0x10000 0x100000400 20000)
    as (c'&priv'&H1&_&H2&H3&_); [reflexivity|reflexivity|done|done|done|done|].
  exists c', priv'. split; [exact H1|]. split; [apply H2; done|exact H3].
Defined.

(** Two pages in two huge pages are found.  For four pages the list runs from
    0xa000 to 0xe000, and the third page is at 0x14000. *)
Lemma nvme_prps_noiommu_witness :
  (exists c' priv', nvme_setup_prps exv_cmd (exv_data true 0 []) exv_priv 0x11000 (phys exv_pool exv_frame 0x11000) 8192
      = Some (0, c', priv') /\
    transfer_bytes (prp_transfer (rw_prp1 c') (rw_prp2 c') (prp_list priv') 8192) =
      map (phys exv_pool exv_frame) (seqZ 0x11000 8192)) /\
  (exists c' priv', nvme_setup_prps exv_cmd (exv_data true 0 []) exv_priv 0x10000 (phys exv_pool exv_frame 0x10000) 16384
      = Some (0, c', priv') /\
    transfer_bytes (prp_transfer (rw_prp1 c') (rw_prp2 c') (prp_list priv') 16384) = seqZ 0xa000 16384) /\
  phys exv_pool exv_frame 0x12000 = 0x14000.
Proof.
  split; [|split; [|reflexivity]].
  - destruct (nvme_prps_noiommu (exv_data true 0 []) exv_frame eq_refl exv_mapped eq_refl exv_cmd exv_priv 0x11000 8192)
      as (c'&priv'&H1&H2); [reflexivity|done|split; done|done|done|].
    exists c', priv'. split; [exact H1|]. rewrite H2.
    replace (8192 - _ <=? PAGE_SIZE) with true by reflexivity. reflexivity.
  - destruct (nvme_prps_noiommu (exv_data true 0 []) exv_frame eq_refl exv_mapped eq_refl exv_cmd exv_priv 0x10000 16384)
      as (c'&priv'&H1&H2); [reflexivity|done|split; done|done|done|].
    exists c', priv'. split; [exact H1|]. rewrite H2.
    replace (16384 - _ <=? PAGE_SIZE) with false by reflexivity. f_equal.
Defined.

Lemma nvme_sgl_cover_witness :
  exists c' priv', nvme_setup_sgl exv_cmd (exv_data true 1 []) exv_priv 0x11000 (phys exv_pool exv_frame 0x11000) 8192
      = Some (0, c', priv') /\ rw_prp1 c' = 0x200000000 /\
    transfer_bytes (sgl_transfer (rw_prp1 c') (rw_prp2 c') (prp_list priv')) =
      map (phys exv_pool exv_frame) (seqZ 0x11000 8192).
Proof.
  destruct (nvme_sgl_cover (exv_data true 1 []) exv_frame eq_refl exv_mapped eq_refl (exv_huge true 1 []) eq_refl
    exv_cmd exv_priv 0x11000 8192) as (c'&priv'&H1&_&_&H3); [reflexivity|done|done|split; done|].
  exists c', priv'. split; [exact H1|]. split; [vm_compute in H1; injection H1 as <- _; reflexivity|exact H3].
Defined.

(** The pool of a device with two queues of 128 tags and 512 KiB buffers. *)
Definition exv_big : nvme_vfio_tgt_data :=
  mk_nvme_data 1 12 false false false [] 2 128 524288 4 0 0 0x100000000 (mk_pool 0 0 None 0) (mk_layout 0 0 0 0) 0 2097152.
Definition exv_big_init : Z * nvme_vfio_tgt_data := nvme_dmabuf_pool_init (fun _ => 0) (fun _ => inl 0x7f0000000000) exv_big.

Lemma nvme_pool_regions_witness :
  exv_big_init.1 = 0 /\
  disjoint_at (nvme_pool_get_io_buf exv_big_init.2 0 127) 524288 (nvme_pool_get_io_buf exv_big_init.2 1 0) 524288.
Proof.
  split; [reflexivity|].
  refine (proj2 (proj2 (proj2 (proj2 (proj2 (proj2 (nvme_pool_regions (fun _ => 0) (fun _ => inl 0x7f0000000000) exv_big exv_big_init.2
    _ _ eq_refl 0 127 _ _))))) 1 0 _ _ _)).
  - repeat (split; [done|]). exists 21. done.
  - intros n e Hm. discriminate Hm.
  - done.
  - done.
  - done.
  - done.
  - discriminate.
Defined.

(** ** Rings *)
Definition exv_mem : nvme_queue_mem := mk_queue_mem 0 0 0 0 no_mapping no_mapping 0 0.
Definition exv_queue : nvme_queue :=
  mk_nvme_queue 1 3 exv_mem (replicate 3 zero_sqe) (replicate 3 zero_cqe) 0 0 0 1 0 0.

Lemma exv_fresh : fresh_nvmeq 3 exv_queue.
Proof. repeat split. Qed.

Definition exv_flush (cid : Z) : nvme_sqe := SqeCommon (mk_common_cmd NVME_CMD_FLUSH cid 1 0 0 0).
Definition exv_put (c : nvme_sqe) (n : nvme_queue) : nvme_queue := default n (sq_put c n).
Definition exv_two : sq_sys :=
  mk_sq_sys (exv_put (exv_flush 1) (exv_put (exv_flush 0) exv_queue)) [exv_flush 0; exv_flush 1] [] 0.

Lemma exv_two_reach : rtc (sq_step 3) (sq_start exv_queue) exv_two.
Proof.
  eapply rtc_l; [apply (sq_submit 3 (sq_start exv_queue) (exv_flush 0) (exv_put (exv_flush 0) exv_queue)); [done|reflexivity]|].
  eapply rtc_l; [|apply rtc_refl].
  apply (sq_submit 3 (mk_sq_sys (exv_put (exv_flush 0) exv_queue) [exv_flush 0] [] 0) (exv_flush 1)); [done|reflexivity].
Qed.

Lemma nvme_sq_fifo_witness :
  sq_db (s_q exv_two) = 2 /\
  exists s', rtc (sq_step 3) (mk_sq_sys (nvme_sq_flush (s_q exv_two)) (s_cmds exv_two) (s_fetched exv_two) (s_head exv_two)) s' /\
    s_fetched s' = [exv_flush 0; exv_flush 1].
Proof.
  split; [reflexivity|].
  destruct (nvme_sq_fifo 3 exv_queue exv_two ltac:(done) exv_fresh exv_two_reach) as (_&_&_&s'&H1&_&H3).
  exists s'. split; [exact H1|exact H3].
Defined.

(** ** Requests *)

(** Both tags were completed, the read well and the write with an error. *)
Definition exv_cq : list nvme_completion := [mk_completion 0 1; mk_completion 1 5; mk_completion 0 0].
Definition exv_tgt (n : nvme_queue) : nvme_tgt := mk_nvme_tgt (exv_data false 0 [n]) [exv_priv; exv_priv].
Definition exv_q (n : nvme_queue) : queue ListRing.ring nvme_tgt :=
  mk_queue 0 2 [mk_iod UBLK_IO_OP_READ 8 0 0; mk_iod (Z.lor UBLK_IO_OP_WRITE UBLK_IO_F_FUA) 16 8 0] 0 2 0 (-1) [] 6
    (ListRing.mk_ring 4 [] []) 0 [0; 0; 0; 0] (mk_batch [] [] 0 0 0 0 0 0)
    [mk_ublk_io 0x10000 0 0 0 (Some 0) 0; mk_ublk_io 0x20000 0 0 1 (Some 1) 0] (exv_tgt n) [].
Definition exv_q_sgl (sgls : Z) : queue ListRing.ring nvme_tgt :=
  set_private_data (mk_nvme_tgt (exv_data false sgls [exv_queue]) [exv_priv; exv_priv]) (exv_q exv_queue).
Definition exv_aqueue : aqueue := mk_aqueue [TTarget; TTarget] false [].
Definition exv_copy (pos buf len : Z) (to_ublk : bool) : Z := len.
Definition exv_map (va iova len : Z) : bool := true.

Lemma exv_qsim n : qsim (exv_q n) exv_aqueue.
Proof.
  split; try done.
  - intros [|[|i]] io Hio; [by injection Hio as <-..|done].
  - intros [|[|i]] t Ht; [by injection Ht as <-; eexists; split; [done|left]..|done].
Qed.

Lemma exv_cq_at : cq_at 0 (set_cq exv_cq exv_queue) [mk_completion 0 1; mk_completion 1 5].
Proof.
  do 5 (split; [done|]). split.
  - intros [|[|i]] e He; [by injection He as <-..|done].
  - intros i Hi. cbn in Hi. assert (i = 2) as -> by lia. exists (mk_completion 0 0). done.
Qed.

Definition exv_results : list (nat * Z) := [(0%nat, 4096); (1%nat, - EIO)].

Lemma nvme_background_completes_witness :
  exists q', nvme_vfio_handle_io_background exv_copy 0 (exv_q (set_cq exv_cq exv_queue)) = Some q' /\
    qsim q' (complete_all exv_results exv_aqueue) /\ tgt_io_inflight q' = 0.
Proof.
  destruct (nvme_background_completes exv_copy 0 (exv_q (set_cq exv_cq exv_queue)) exv_aqueue (set_cq exv_cq exv_queue) 0
    [mk_completion 0 1; mk_completion 1 5] exv_results) as (q'&n'&H1&H2&_&_&_&_&_&H3).
  - reflexivity.
  - exact exv_cq_at.
  - reflexivity.
  - apply exv_qsim.
  - constructor; [eapply (answer_done _ _ _ 0%nat (mk_iod UBLK_IO_OP_READ 8 0 0)); (reflexivity || done || auto)|].
    constructor; [by eapply (answer_failed _ _ _ 1%nat)|constructor].
  - split; [apply (bool_decide_unpack _); vm_compute; done|]. constructor; [split; [reflexivity|done]|].
    constructor; [split; [reflexivity|done]|constructor].
  - done.
  - exists q'. split; [exact H1|]. split; [exact H2|]. rewrite H3. reflexivity.
Defined.

(** The write of two blocks of 4096 bytes at block 1, with FUA, and a read of
    four pages, which needs a PRP list, or one SGL descriptor. *)
Lemma nvme_rw_request_witness :
  (exists c q', nvme_queue_rw_io exv_map exv_copy (mk_iod (Z.lor UBLK_IO_OP_WRITE UBLK_IO_F_FUA) 16 8 0) 1 (exv_q exv_queue)
      = Some (0, q') /\ rw_slba c * 8 = 8 /\ (rw_length c + 1) * 8 = 16 /\ rw_control c = 0) /\
  Forall (fun sgls => exists c q' priv',
    nvme_queue_rw_io exv_map exv_copy (mk_iod UBLK_IO_OP_READ 32 8 0) 1 (exv_q_sgl sgls) = Some (0, q') /\
    nvme_get_io_priv q' 1 = Some priv' /\
    transfer_bytes (dptr_transfer (fun a => if a =? 0x200000000 then prp_list priv' else []) c 16384) =
      seqZ 0x100000000 16384) [0; 1].
Proof.
  split; [|apply Forall_forall; intros sgls Hsgls].
  - destruct (nvme_rw_request exv_map exv_copy (exv_q exv_queue) 1 0x100000000 exv_queue
      (mk_iod (Z.lor UBLK_IO_OP_WRITE UBLK_IO_F_FUA) 16 8 0)) as (c&q'&priv'&H1&_&_&_&_&_&_&H2&H3&H4&_).
    + split; [reflexivity|]. do 5 (split; [done|]). exists exv_priv. done.
    + repeat split; done.
    + done.
    + exists c, q'. split; [exact H1|]. split; [exact H2|]. split; [exact H3|exact H4].
  - destruct (nvme_rw_request exv_map exv_copy (exv_q_sgl sgls) 1 0x100000000 exv_queue
      (mk_iod UBLK_IO_OP_READ 32 8 0)) as (c&q'&priv'&H1&_&H2&H3&_&_&_&_&_&_&H4).
    + split; [reflexivity|]. do 5 (split; [done|]). exists exv_priv. done.
    + repeat split; done.
    + done.
    + exists c, q', priv'. split; [exact H1|]. split; [exact H2|]. apply H4. injection H3 as H3. rewrite <- H3. reflexivity.
Defined.
