(* ===== verification/Params.v ===== *)
(** * Device information and parameters

    [struct ublksrv_ctrl_dev_info] and [struct ublk_params] of
    include/ublk_cmd.h, JSON values and the conversions that the
    NLOHMANN_DEFINE_TYPE macros of lib/ublksrv_json.cpp generate.  A JSON
    object maps keys to values; a conversion that throws (and is not caught)
    is [None].  A key that is missing takes the field of a local object that
    is not initialised: [dflt]. *)

From S2P Require Import Prelude UblkCmd.

(** ** JSON values *)
Inductive json :=
| JNull
| JBool (b : bool)
| JNum (z : Z)
| JFloat (repr : string) (to_int : Z)
| JStr (s : string)
| JArr (l : list json)
| JObj (m : gmap string json).

(** [j[k] = v]: a null value becomes an object, anything else throws. *)
Definition json_set (k : string) (v : json) (j : json) : option json :=
  match j with
  | JNull => Some (JObj {[k := v]})
  | JObj m => Some (JObj (<[k := v]> m))
  | _ => None
  end.

(** [j[k]] of a value that is not const: a missing key is created as null. *)
Definition json_get (k : string) (j : json) : option json :=
  match j with
  | JNull => Some JNull
  | JObj m => Some (default JNull (m !! k))
  | _ => None
  end.

Definition json_contains (k : string) (j : json) : bool :=
  match j with JObj m => bool_decide (is_Some (m !! k)) | _ => false end.

(** Conversion to an integer type. *)
Definition json_to_int (cast : Z -> Z) (j : json) : option Z :=
  match j with
  | JNum z => Some (cast z)
  | JBool b => Some (if b then 1 else 0)
  | JFloat _ z => Some (cast z)
  | _ => None
  end.

Definition json_to_string (j : json) : option string :=
  match j with JStr s => Some s | _ => None end.

(** [j.value(k, dflt)] with a conversion *)
Definition json_value {A} (conv : json -> option A) (k : string) (j : json) (dflt : A) : option A :=
  match j with
  | JObj m => match m !! k with Some v => conv v | None => Some dflt end
  | _ => None
  end.

Definition json_obj (l : list (string * json)) : json := JObj (list_to_map l).

Definition s64 (x : Z) : Z := (x + 2^63) mod 2^64 - 2^63.

(** ** Structures *)
Record ublksrv_ctrl_dev_info := mk_dev_info {
  nr_hw_queues : Z;      (* __u16 *)
  queue_depth : Z;       (* __u16 *)
  dev_state : Z;         (* __u16 *)
  pad0 : Z;              (* __u16 *)
  max_io_buf_bytes : Z;  (* __u32 *)
  dev_id : Z;            (* __u32 *)
  ublksrv_pid : Z;       (* __s32 *)
  pad1 : Z;              (* __u32 *)
  dev_flags : Z;         (* __u64 *)
  ublksrv_flags : Z;     (* __u64 *)
  owner_uid : Z;         (* __u32 *)
  owner_gid : Z;         (* __u32 *)
  reserved1 : Z;         (* __u64 *)
  reserved2 : Z          (* __u64 *)
}.

Record ublk_param_basic := mk_param_basic {
  attrs : Z;               (* __u32 *)
  logical_bs_shift : Z;    (* __u8 *)
  physical_bs_shift : Z;   (* __u8 *)
  io_opt_shift : Z;        (* __u8 *)
  io_min_shift : Z;        (* __u8 *)
  max_sectors : Z;         (* __u32 *)
  chunk_sectors : Z;       (* __u32 *)
  dev_sectors : Z;         (* __u64 *)
  virt_boundary_mask : Z   (* __u64 *)
}.

Record ublk_param_discard := mk_param_discard {
  discard_alignment : Z;         (* __u32 *)
  discard_granularity : Z;       (* __u32 *)
  max_discard_sectors : Z;       (* __u32 *)
  max_write_zeroes_sectors : Z;  (* __u32 *)
  max_discard_segments : Z;      (* __u16 *)
  discard_reserved0 : Z          (* __u16 *)
}.

Record ublk_param_devt := mk_param_devt {
  char_major : Z; char_minor : Z; disk_major : Z; disk_minor : Z  (* __u32 *)
}.

Record ublk_param_zoned := mk_param_zoned {
  max_open_zones : Z;           (* __u32 *)
  max_active_zones : Z;         (* __u32 *)
  max_zone_append_sectors : Z;  (* __u32 *)
  zoned_reserved : Z;           (* __u32 *)
  zoned_reserved2 : Z;          (* __u64 *)
  zoned_reserved3 : Z           (* __u64 *)
}.

Record ublk_param_dma_align := mk_param_dma { alignment : Z; dma_pad : Z  (* __u32 *) }.

Record ublk_param_segment := mk_param_segment {
  seg_boundary_mask : Z;  (* __u64 *)
  max_segment_size : Z;   (* __u32 *)
  max_segments : Z;       (* __u16 *)
  seg_pad : Z             (* __u16 *)
}.

(** The trailing padding has no JSON key and reads back as zero. *)
Record ublk_param_integrity := mk_param_integrity {
  integrity_flags : Z;         (* __u32 *)
  max_integrity_segments : Z;  (* __u16 *)
  interval_exp : Z;            (* __u8 *)
  metadata_size : Z;           (* __u8 *)
  pi_offset : Z;               (* __u8 *)
  csum_type : Z;               (* __u8 *)
  tag_size : Z                 (* __u8 *)
}.

Record ublk_params := mk_params {
  params_len : Z;    (* __u32 *)
  params_types : Z;  (* __u32 *)
  p_basic : ublk_param_basic;
  p_discard : ublk_param_discard;
  p_devt : ublk_param_devt;
  p_zoned : ublk_param_zoned;
  p_dma : ublk_param_dma_align;
  p_seg : ublk_param_segment;
  p_integrity : ublk_param_integrity
}.

Definition UBLK_ATTR_READ_ONLY : Z := bit 0.
Definition UBLK_ATTR_ROTATIONAL : Z := bit 1.
Definition UBLK_ATTR_VOLATILE_CACHE : Z := bit 2.
Definition UBLK_ATTR_FUA : Z := bit 3.
Definition UBLK_PARAM_TYPE_BASIC : Z := bit 0.
Definition UBLK_PARAM_TYPE_DISCARD : Z := bit 1.
Definition UBLK_PARAM_TYPE_DMA_ALIGN : Z := bit 4.
Definition UBLK_PARAM_TYPE_SEGMENT : Z := bit 5.

(** ** Well-formed values: every field fits its type *)
Definition dev_info_ok (i : ublksrv_ctrl_dev_info) : Prop :=
  is_u16 (nr_hw_queues i) /\ is_u16 (queue_depth i) /\ is_u16 (dev_state i) /\ is_u16 (pad0 i) /\
  is_u32 (max_io_buf_bytes i) /\ is_u32 (dev_id i) /\ is_s32 (ublksrv_pid i) /\ is_u32 (pad1 i) /\
  is_u64 (dev_flags i) /\ is_u64 (ublksrv_flags i) /\ is_u32 (owner_uid i) /\ is_u32 (owner_gid i) /\
  is_u64 (reserved1 i) /\ is_u64 (reserved2 i).

Definition basic_ok (p : ublk_param_basic) : Prop :=
  is_u32 (attrs p) /\ is_u8 (logical_bs_shift p) /\ is_u8 (physical_bs_shift p) /\
  is_u8 (io_opt_shift p) /\ is_u8 (io_min_shift p) /\ is_u32 (max_sectors p) /\
  is_u32 (chunk_sectors p) /\ is_u64 (dev_sectors p) /\ is_u64 (virt_boundary_mask p).
Definition discard_ok (p : ublk_param_discard) : Prop :=
  is_u32 (discard_alignment p) /\ is_u32 (discard_granularity p) /\ is_u32 (max_discard_sectors p) /\
  is_u32 (max_write_zeroes_sectors p) /\ is_u16 (max_discard_segments p) /\ is_u16 (discard_reserved0 p).
Definition devt_ok (p : ublk_param_devt) : Prop :=
  is_u32 (char_major p) /\ is_u32 (char_minor p) /\ is_u32 (disk_major p) /\ is_u32 (disk_minor p).
Definition zoned_ok (p : ublk_param_zoned) : Prop :=
  is_u32 (max_open_zones p) /\ is_u32 (max_active_zones p) /\ is_u32 (max_zone_append_sectors p) /\
  is_u32 (zoned_reserved p) /\ is_u64 (zoned_reserved2 p) /\ is_u64 (zoned_reserved3 p).
Definition dma_ok (p : ublk_param_dma_align) : Prop := is_u32 (alignment p) /\ is_u32 (dma_pad p).
Definition segment_ok (p : ublk_param_segment) : Prop :=
  is_u64 (seg_boundary_mask p) /\ is_u32 (max_segment_size p) /\ is_u16 (max_segments p) /\ is_u16 (seg_pad p).
Definition integrity_ok (p : ublk_param_integrity) : Prop :=
  is_u32 (integrity_flags p) /\ is_u16 (max_integrity_segments p) /\ is_u8 (interval_exp p) /\
  is_u8 (metadata_size p) /\ is_u8 (pi_offset p) /\ is_u8 (csum_type p) /\ is_u8 (tag_size p).
Definition params_ok (p : ublk_params) : Prop :=
  is_u32 (params_len p) /\ is_u32 (params_types p) /\ basic_ok (p_basic p) /\ discard_ok (p_discard p) /\
  devt_ok (p_devt p) /\ zoned_ok (p_zoned p) /\ dma_ok (p_dma p) /\ segment_ok (p_seg p) /\
  integrity_ok (p_integrity p).

(** ** Conversions *)
Definition dev_info_to_json (t : ublksrv_ctrl_dev_info) : json := json_obj
  [("nr_hw_queues"%string, JNum (nr_hw_queues t));
   ("queue_depth"%string, JNum (queue_depth t));
   ("state"%string, JNum (dev_state t));
   ("pad0"%string, JNum (pad0 t));
   ("max_io_buf_bytes"%string, JNum (max_io_buf_bytes t));
   ("dev_id"%string, JNum (dev_id t));
   ("ublksrv_pid"%string, JNum (ublksrv_pid t));
   ("pad1"%string, JNum (pad1 t));
   ("flags"%string, JNum (dev_flags t));
   ("ublksrv_flags"%string, JNum (ublksrv_flags t));
   ("owner_uid"%string, JNum (owner_uid t));
   ("owner_gid"%string, JNum (owner_gid t));
   ("reserved1"%string, JNum (reserved1 t));
   ("reserved2"%string, JNum (reserved2 t))].
Definition dev_info_from_json (dflt : ublksrv_ctrl_dev_info) (j : json) : option ublksrv_ctrl_dev_info :=
  x0 ← json_value (json_to_int u16) "nr_hw_queues" j (nr_hw_queues dflt);
  x1 ← json_value (json_to_int u16) "queue_depth" j (queue_depth dflt);
  x2 ← json_value (json_to_int u16) "state" j (dev_state dflt);
  x3 ← json_value (json_to_int u16) "pad0" j (pad0 dflt);
  x4 ← json_value (json_to_int u32) "max_io_buf_bytes" j (max_io_buf_bytes dflt);
  x5 ← json_value (json_to_int u32) "dev_id" j (dev_id dflt);
  x6 ← json_value (json_to_int s32) "ublksrv_pid" j (ublksrv_pid dflt);
  x7 ← json_value (json_to_int u32) "pad1" j (pad1 dflt);
  x8 ← json_value (json_to_int u64) "flags" j (dev_flags dflt);
  x9 ← json_value (json_to_int u64) "ublksrv_flags" j (ublksrv_flags dflt);
  x10 ← json_value (json_to_int u32) "owner_uid" j (owner_uid dflt);
  x11 ← json_value (json_to_int u32) "owner_gid" j (owner_gid dflt);
  x12 ← json_value (json_to_int u64) "reserved1" j (reserved1 dflt);
  x13 ← json_value (json_to_int u64) "reserved2" j (reserved2 dflt);
  Some (mk_dev_info x0 x1 x2 x3 x4 x5 x6 x7 x8 x9 x10 x11 x12 x13).

Definition basic_to_json (t : ublk_param_basic) : json := json_obj
  [("attrs"%string, JNum (attrs t));
   ("logical_bs_shift"%string, JNum (logical_bs_shift t));
   ("physical_bs_shift"%string, JNum (physical_bs_shift t));
   ("io_opt_shift"%string, JNum (io_opt_shift t));
   ("io_min_shift"%string, JNum (io_min_shift t));
   ("max_sectors"%string, JNum (max_sectors t));
   ("chunk_sectors"%string, JNum (chunk_sectors t));
   ("dev_sectors"%string, JNum (dev_sectors t));
   ("virt_boundary_mask"%string, JNum (virt_boundary_mask t))].
Definition basic_from_json (dflt : ublk_param_basic) (j : json) : option ublk_param_basic :=
  x0 ← json_value (json_to_int u32) "attrs" j (attrs dflt);
  x1 ← json_value (json_to_int u8) "logical_bs_shift" j (logical_bs_shift dflt);
  x2 ← json_value (json_to_int u8) "physical_bs_shift" j (physical_bs_shift dflt);
  x3 ← json_value (json_to_int u8) "io_opt_shift" j (io_opt_shift dflt);
  x4 ← json_value (json_to_int u8) "io_min_shift" j (io_min_shift dflt);
  x5 ← json_value (json_to_int u32) "max_sectors" j (max_sectors dflt);
  x6 ← json_value (json_to_int u32) "chunk_sectors" j (chunk_sectors dflt);
  x7 ← json_value (json_to_int u64) "dev_sectors" j (dev_sectors dflt);
  x8 ← json_value (json_to_int u64) "virt_boundary_mask" j (virt_boundary_mask dflt);
  Some (mk_param_basic x0 x1 x2 x3 x4 x5 x6 x7 x8).

Definition discard_to_json (t : ublk_param_discard) : json := json_obj
  [("discard_alignment"%string, JNum (discard_alignment t));
   ("discard_granularity"%string, JNum (discard_granularity t));
   ("max_discard_sectors"%string, JNum (max_discard_sectors t));
   ("max_write_zeroes_sectors"%string, JNum (max_write_zeroes_sectors t));
   ("max_discard_segments"%string, JNum (max_discard_segments t));
   ("reserved0"%string, JNum (discard_reserved0 t))].
Definition discard_from_json (dflt : ublk_param_discard) (j : json) : option ublk_param_discard :=
  x0 ← json_value (json_to_int u32) "discard_alignment" j (discard_alignment dflt);
  x1 ← json_value (json_to_int u32) "discard_granularity" j (discard_granularity dflt);
  x2 ← json_value (json_to_int u32) "max_discard_sectors" j (max_discard_sectors dflt);
  x3 ← json_value (json_to_int u32) "max_write_zeroes_sectors" j (max_write_zeroes_sectors dflt);
  x4 ← json_value (json_to_int u16) "max_discard_segments" j (max_discard_segments dflt);
  x5 ← json_value (json_to_int u16) "reserved0" j (discard_reserved0 dflt);
  Some (mk_param_discard x0 x1 x2 x3 x4 x5).

Definition devt_to_json (t : ublk_param_devt) : json := json_obj
  [("char_major"%string, JNum (char_major t));
   ("char_minor"%string, JNum (char_minor t));
   ("disk_major"%string, JNum (disk_major t));
   ("disk_minor"%string, JNum (disk_minor t))].
Definition devt_from_json (dflt : ublk_param_devt) (j : json) : option ublk_param_devt :=
  x0 ← json_value (json_to_int u32) "char_major" j (char_major dflt);
  x1 ← json_value (json_to_int u32) "char_minor" j (char_minor dflt);
  x2 ← json_value (json_to_int u32) "disk_major" j (disk_major dflt);
  x3 ← json_value (json_to_int u32) "disk_minor" j (disk_minor dflt);
  Some (mk_param_devt x0 x1 x2 x3).

Definition zoned_to_json (t : ublk_param_zoned) : json := json_obj
  [("max_open_zones"%string, JNum (max_open_zones t));
   ("max_active_zones"%string, JNum (max_active_zones t));
   ("max_zone_append_sectors"%string, JNum (max_zone_append_sectors t));
   ("reserved"%string, JNum (zoned_reserved t));
   ("reserved2"%string, JNum (zoned_reserved2 t));
   ("reserved3"%string, JNum (zoned_reserved3 t))].
Definition zoned_from_json (dflt : ublk_param_zoned) (j : json) : option ublk_param_zoned :=
  x0 ← json_value (json_to_int u32) "max_open_zones" j (max_open_zones dflt);
  x1 ← json_value (json_to_int u32) "max_active_zones" j (max_active_zones dflt);
  x2 ← json_value (json_to_int u32) "max_zone_append_sectors" j (max_zone_append_sectors dflt);
  x3 ← json_value (json_to_int u32) "reserved" j (zoned_reserved dflt);
  x4 ← json_value (json_to_int u64) "reserved2" j (zoned_reserved2 dflt);
  x5 ← json_value (json_to_int u64) "reserved3" j (zoned_reserved3 dflt);
  Some (mk_param_zoned x0 x1 x2 x3 x4 x5).

Definition dma_to_json (t : ublk_param_dma_align) : json := json_obj
  [("alignment"%string, JNum (alignment t));
   ("pad"%string, JNum (dma_pad t))].
Definition dma_from_json (dflt : ublk_param_dma_align) (j : json) : option ublk_param_dma_align :=
  x0 ← json_value (json_to_int u32) "alignment" j (alignment dflt);
  x1 ← json_value (json_to_int u32) "pad" j (dma_pad dflt);
  Some (mk_param_dma x0 x1).

Definition segment_to_json (t : ublk_param_segment) : json := json_obj
  [("seg_boundary_mask"%string, JNum (seg_boundary_mask t));
   ("max_segment_size"%string, JNum (max_segment_size t));
   ("max_segments"%string, JNum (max_segments t));
   ("pad"%string, JNum (seg_pad t))].
Definition segment_from_json (dflt : ublk_param_segment) (j : json) : option ublk_param_segment :=
  x0 ← json_value (json_to_int u64) "seg_boundary_mask" j (seg_boundary_mask dflt);
  x1 ← json_value (json_to_int u32) "max_segment_size" j (max_segment_size dflt);
  x2 ← json_value (json_to_int u16) "max_segments" j (max_segments dflt);
  x3 ← json_value (json_to_int u16) "pad" j (seg_pad dflt);
  Some (mk_param_segment x0 x1 x2 x3).

Definition integrity_to_json (t : ublk_param_integrity) : json := json_obj
  [("flags"%string, JNum (integrity_flags t));
   ("max_integrity_segments"%string, JNum (max_integrity_segments t));
   ("interval_exp"%string, JNum (interval_exp t));
   ("metadata_size"%string, JNum (metadata_size t));
   ("pi_offset"%string, JNum (pi_offset t));
   ("csum_type"%string, JNum (csum_type t));
   ("tag_size"%string, JNum (tag_size t))].
Definition integrity_from_json (dflt : ublk_param_integrity) (j : json) : option ublk_param_integrity :=
  x0 ← json_value (json_to_int u32) "flags" j (integrity_flags dflt);
  x1 ← json_value (json_to_int u16) "max_integrity_segments" j (max_integrity_segments dflt);
  x2 ← json_value (json_to_int u8) "interval_exp" j (interval_exp dflt);
  x3 ← json_value (json_to_int u8) "metadata_size" j (metadata_size dflt);
  x4 ← json_value (json_to_int u8) "pi_offset" j (pi_offset dflt);
  x5 ← json_value (json_to_int u8) "csum_type" j (csum_type dflt);
  x6 ← json_value (json_to_int u8) "tag_size" j (tag_size dflt);
  Some (mk_param_integrity x0 x1 x2 x3 x4 x5 x6).

Definition params_to_json (t : ublk_params) : json := json_obj
  [("len"%string, JNum (params_len t));
   ("types"%string, JNum (params_types t));
   ("basic"%string, basic_to_json (p_basic t));
   ("discard"%string, discard_to_json (p_discard t));
   ("devt"%string, devt_to_json (p_devt t));
   ("zoned"%string, zoned_to_json (p_zoned t));
   ("dma"%string, dma_to_json (p_dma t));
   ("seg"%string, segment_to_json (p_seg t));
   ("integrity"%string, integrity_to_json (p_integrity t))].
(** A nested structure that is present is converted with fresh default objects. *)
Definition params_from_json (dflt : ublk_params) (j : json) : option ublk_params :=
  x0 ← json_value (json_to_int u32) "len" j (params_len dflt);
  x1 ← json_value (json_to_int u32) "types" j (params_types dflt);
  x2 ← json_value (basic_from_json (p_basic dflt)) "basic" j (p_basic dflt);
  x3 ← json_value (discard_from_json (p_discard dflt)) "discard" j (p_discard dflt);
  x4 ← json_value (devt_from_json (p_devt dflt)) "devt" j (p_devt dflt);
  x5 ← json_value (zoned_from_json (p_zoned dflt)) "zoned" j (p_zoned dflt);
  x6 ← json_value (dma_from_json (p_dma dflt)) "dma" j (p_dma dflt);
  x7 ← json_value (segment_from_json (p_seg dflt)) "seg" j (p_seg dflt);
  x8 ← json_value (integrity_from_json (p_integrity dflt)) "integrity" j (p_integrity dflt);
  Some (mk_params x0 x1 x2 x3 x4 x5 x6 x7 x8).

(** ** Conversions undo each other *)
Fixpoint assoc_find (k : string) (l : list (string * json)) : option json :=
  match l with
  | [] => None
  | (k', v) :: l => if String.eqb k k' then Some v else assoc_find k l
  end.

Lemma json_value_obj {A} (conv : json -> option A) k l (d : A) :
  json_value conv k (json_obj l) d = match assoc_find k l with Some v => conv v | None => Some d end.
Proof.
  cbn. assert ((list_to_map l : gmap string json) !! k = assoc_find k l) as ->; [|done].
  induction l as [|[k' v] l IH]; [done|]. cbn [assoc_find list_to_map foldr fst snd].
  destruct (String.eqb_spec k k') as [->|]; [by rewrite lookup_insert_eq|by rewrite lookup_insert_ne].
Qed.

Ltac json_fields :=
  rewrite !json_value_obj;
  cbn [assoc_find String.eqb Ascii.eqb Bool.eqb json_to_int];
  rewrite ?u8_id, ?u16_id, ?u32_id, ?u64_id, ?s32_id by done.

Lemma dev_info_roundtrip d i : dev_info_ok i -> dev_info_from_json d (dev_info_to_json i) = Some i.
Proof.
  intros (?&?&?&?&?&?&?&?&?&?&?&?&?&?). unfold dev_info_from_json, dev_info_to_json. json_fields. by destruct i.
Qed.
Lemma basic_roundtrip d p : basic_ok p -> basic_from_json d (basic_to_json p) = Some p.
Proof. intros (?&?&?&?&?&?&?&?&?). unfold basic_from_json, basic_to_json. json_fields. by destruct p. Qed.
Lemma discard_roundtrip d p : discard_ok p -> discard_from_json d (discard_to_json p) = Some p.
Proof. intros (?&?&?&?&?&?). unfold discard_from_json, discard_to_json. json_fields. by destruct p. Qed.
Lemma devt_roundtrip d p : devt_ok p -> devt_from_json d (devt_to_json p) = Some p.
Proof. intros (?&?&?&?). unfold devt_from_json, devt_to_json. json_fields. by destruct p. Qed.
Lemma zoned_roundtrip d p : zoned_ok p -> zoned_from_json d (zoned_to_json p) = Some p.
Proof. intros (?&?&?&?&?&?). unfold zoned_from_json, zoned_to_json. json_fields. by destruct p. Qed.
Lemma dma_roundtrip d p : dma_ok p -> dma_from_json d (dma_to_json p) = Some p.
Proof. intros (?&?). unfold dma_from_json, dma_to_json. json_fields. by destruct p. Qed.
Lemma segment_roundtrip d p : segment_ok p -> segment_from_json d (segment_to_json p) = Some p.
Proof. intros (?&?&?&?). unfold segment_from_json, segment_to_json. json_fields. by destruct p. Qed.
Lemma integrity_roundtrip d p : integrity_ok p -> integrity_from_json d (integrity_to_json p) = Some p.
Proof. intros (?&?&?&?&?&?&?). unfold integrity_from_json, integrity_to_json. json_fields. by destruct p. Qed.

Lemma params_roundtrip d p : params_ok p -> params_from_json d (params_to_json p) = Some p.
Proof.
  intros (?&?&?&?&?&?&?&?&?). unfold params_from_json, params_to_json. json_fields.
  rewrite basic_roundtrip, discard_roundtrip, devt_roundtrip, zoned_roundtrip, dma_roundtrip,
    segment_roundtrip, integrity_roundtrip by done. by destruct p.
Qed.
