(* ===== verification/NvmeAdmin.v ===== *)
(** * The NVMe target: bringing a controller up

    The registers, the admin queue and the admin commands of
    targets/nvme/ublk.nvme_vfio.cpp.  The controller is an interface: it has
    registers, and while the target sleeps or polls it may fetch commands from
    the admin ring, post completions and fill the identify page. *)

From S2P Require Import Prelude Bytes UblkCmd DmaBuf Nvme NvmeDma NvmeRing Params.

Definition NVME_REG_CAP : Z := 0.
Definition NVME_REG_CC : Z := 0x14.
Definition NVME_REG_CSTS : Z := 0x1c.
Definition NVME_REG_AQA : Z := 0x24.
Definition NVME_REG_ASQ : Z := 0x28.
Definition NVME_REG_ACQ : Z := 0x30.

Definition NVME_CC_ENABLE : Z := bit 0.
Definition NVME_CC_CSS_NVM : Z := Z.shiftl 0 4.
Definition NVME_CC_MPS_4K : Z := Z.shiftl 0 7.
Definition NVME_CC_IOSQES : Z := Z.shiftl 6 16.
Definition NVME_CC_IOCQES : Z := Z.shiftl 4 20.
Definition NVME_CC_SHN_NORMAL : Z := bit 14.
Definition NVME_CSTS_RDY : Z := bit 0.
Definition NVME_CSTS_SHST_MASK : Z := Z.shiftl 3 2.
Definition NVME_CSTS_SHST_COMPLETE : Z := Z.shiftl 2 2.

Definition NVME_ADMIN_DELETE_SQ : Z := 0.
Definition NVME_ADMIN_CREATE_SQ : Z := 1.
Definition NVME_ADMIN_DELETE_CQ : Z := 4.
Definition NVME_ADMIN_CREATE_CQ : Z := 5.
Definition NVME_ADMIN_IDENTIFY : Z := 6.
Definition NVME_ID_CNS_NS : Z := 0.
Definition NVME_ID_CNS_CTRL : Z := 1.
Definition NVME_CTRL_VWC_PRESENT : Z := bit 0.

(** ** Commands in memory *)

Definition zeros (n : nat) : list Z := replicate n 0.

(** The 64 bytes of a command, field by field in the order of its structure. *)
Definition admin_bytes (c : nvme_admin_command) : list Z :=
  match c with
  | AdmIdentify c =>
      le_bytes 1 NVME_ADMIN_IDENTIFY ++ zeros 1 ++ zeros 2 ++ le_bytes 4 (id_nsid c) ++ zeros 16 ++
      le_bytes 8 (id_prp1 c) ++ zeros 8 ++ le_bytes 4 (id_cns c) ++ zeros 20
  | AdmCreateCq c =>
      le_bytes 1 NVME_ADMIN_CREATE_CQ ++ zeros 1 ++ zeros 2 ++ zeros 20 ++ le_bytes 8 (ccq_prp1 c) ++ zeros 8 ++
      le_bytes 2 (ccq_cqid c) ++ le_bytes 2 (ccq_qsize c) ++ le_bytes 2 (ccq_flags c) ++ zeros 2 ++ zeros 16
  | AdmCreateSq c =>
      le_bytes 1 NVME_ADMIN_CREATE_SQ ++ zeros 1 ++ zeros 2 ++ zeros 20 ++ le_bytes 8 (csq_prp1 c) ++ zeros 8 ++
      le_bytes 2 (csq_sqid c) ++ le_bytes 2 (csq_qsize c) ++ le_bytes 2 (csq_flags c) ++ le_bytes 2 (csq_cqid c) ++ zeros 16
  | AdmDelete c => le_bytes 1 (dq_opcode c) ++ zeros 1 ++ zeros 2 ++ zeros 36 ++ le_bytes 2 (dq_qid c) ++ zeros 2 ++ zeros 20
  end.

(** Fields of the identify pages, at the offsets of their structures. *)
Definition page_field (page : list Z) (off n : nat) : Z := le_value (take n (drop off page)).
Definition ctrl_mdts (page : list Z) : Z := page_field page 77 1.
Definition ctrl_vwc (page : list Z) : Z := page_field page 525 1.
Definition ctrl_sgls (page : list Z) : Z := page_field page 536 4.
Definition ns_nsze (page : list Z) : Z := page_field page 0 8.
Definition ns_flbas (page : list Z) : Z := page_field page 26 1.
Definition ns_lbaf_ds (page : list Z) (i : Z) : Z := page_field page (128 + 4 * Z.to_nat i + 2) 1.

(** ** The controller *)

(** [ctrl_run]: what it does on its own between two accesses of the target, given
    the admin queue and the identify page: the completions and the page
    afterwards. *)
Class NvmeCtrl (C : Type) := {
  ctrl_read : Z -> C -> Z;
  ctrl_write : Z -> Z -> C -> C;
  ctrl_run : nvme_queue -> list Z -> C -> list nvme_completion * list Z * C
}.

(** The target's data with what it has read of the controller, and the
    controller. *)
Record nvme_dev {C : Type} := mk_nvme_dev {
  nv : nvme_vfio_tgt_data;
  admin_queue : nvme_queue;
  id_page : list Z;      (* the page at identify_buf_off *)
  nv_vwc : Z;            (* __u8 *)
  nv_mdts : Z;           (* __u8 *)
  nv_dev_size : Z;       (* __u64 *)
  nv_ctrl : C
}.
#[global] Arguments nvme_dev : clear implicits.
#[global] Arguments mk_nvme_dev {C}.

Section admin.
Context {C : Type} `{!NvmeCtrl C}.
Notation D := (nvme_dev C).
Implicit Types d : D.

Definition set_nv (v : nvme_vfio_tgt_data) (d : D) : D :=
  mk_nvme_dev v (admin_queue d) (id_page d) (nv_vwc d) (nv_mdts d) (nv_dev_size d) (nv_ctrl d).
Definition set_admin (v : nvme_queue) (d : D) : D :=
  mk_nvme_dev (nv d) v (id_page d) (nv_vwc d) (nv_mdts d) (nv_dev_size d) (nv_ctrl d).
Definition set_page (v : list Z) (d : D) : D :=
  mk_nvme_dev (nv d) (admin_queue d) v (nv_vwc d) (nv_mdts d) (nv_dev_size d) (nv_ctrl d).
Definition set_caps (vwc mdts : Z) (d : D) : D :=
  mk_nvme_dev (nv d) (admin_queue d) (id_page d) vwc mdts (nv_dev_size d) (nv_ctrl d).
Definition set_nv_dev_size (v : Z) (d : D) : D :=
  mk_nvme_dev (nv d) (admin_queue d) (id_page d) (nv_vwc d) (nv_mdts d) v (nv_ctrl d).
Definition set_ctrl (v : C) (d : D) : D :=
  mk_nvme_dev (nv d) (admin_queue d) (id_page d) (nv_vwc d) (nv_mdts d) (nv_dev_size d) v.

Definition let_run (d : D) : D :=
  let '(cq, page, c) := ctrl_run (admin_queue d) (id_page d) (nv_ctrl d) in
  set_ctrl c (set_page page (set_admin (set_cq cq (admin_queue d)) d)).

Definition nvme_readl (off : Z) (d : D) : Z := u32 (ctrl_read off (nv_ctrl d)).
Definition nvme_writel (off v : Z) (d : D) : D := set_ctrl (ctrl_write off (u32 v) (nv_ctrl d)) d.
Definition nvme_readq (off : Z) (d : D) : Z := u64 (ctrl_read off (nv_ctrl d)).
Definition nvme_writeq (off v : Z) (d : D) : D := set_ctrl (ctrl_write off (u64 v) (nv_ctrl d)) d.

(** ** Admin commands *)

(** [while (timeout-- > 0)], a millisecond each. *)
Fixpoint wait_loop (timeout : nat) (d : D) : option (Z * D) :=
  match timeout with
  | O => Some (- ETIMEDOUT, d)
  | S timeout =>
      let d := let_run d in
      let q := admin_queue d in
      cqe ← nq_cq q !! Z.to_nat (cq_head q);
      if Z.land (cq_status cqe) 1 =? cq_phase q then
        let status := Z.shiftr (cq_status cqe) 1 in
        let head := u16 (Z.rem (cq_head q + 1) (nq_qsize q)) in
        let phase := if head =? 0 then (if cq_phase q =? 0 then 1 else 0) else cq_phase q in
        Some (if status =? 0 then 0 else - EIO, set_admin (ring_cq_doorbell head (set_cq_head head phase q)) d)
      else wait_loop timeout d
  end.

Definition nvme_wait_admin_completion (d : D) : option (Z * D) := wait_loop 5000 d.

(** [None]: the command would be copied outside the ring. *)
Definition nvme_submit_admin_cmd (c : nvme_admin_command) (d : D) : option (Z * D) :=
  let q := admin_queue d in
  if (0 <=? sq_tail q) && (sq_tail q <? Z.of_nat (length (nq_sq q))) then
    let q := set_sq (<[Z.to_nat (sq_tail q) := SqeAdmin c]> (nq_sq q)) q in
    let tail := u16 (Z.rem (sq_tail q + 1) (nq_qsize q)) in
    nvme_wait_admin_completion (set_admin (ring_sq_doorbell tail (set_sq_tail tail q)) d)
  else None.

(** [ioas_map]: as in Nvme, whether a mapping ioctl succeeds. *)
Variable ioas_map : Z -> Z -> Z -> bool.

Definition nvme_create_admin_queue (d : D) : option (Z * D) :=
  '(ret, q, n) ← nvme_queue_init ioas_map 0 ADMIN_Q_SIZE (admin_queue d) (nv d);
  let d := set_admin q (set_nv n d) in
  if ret <? 0 then Some (ret, d)
  else
    let d := nvme_writel NVME_REG_AQA (Z.lor (Z.shiftl (ADMIN_Q_SIZE - 1) 16) (ADMIN_Q_SIZE - 1)) d in
    let d := nvme_writeq NVME_REG_ASQ (sq_iova (nq_mem q)) d in
    Some (0, nvme_writeq NVME_REG_ACQ (cq_iova (nq_mem q)) d).

(** [do { ... } while (timeout-- > 0)]: what is left of the timeout. *)
Fixpoint ready_loop (want : bool) (n : nat) (d : D) : Z * D :=
  match n with
  | O => (-1, d)
  | S n =>
      let d := let_run d in
      if Bool.eqb (has (nvme_readl NVME_REG_CSTS d) NVME_CSTS_RDY) want then (Z.of_nat n, d)
      else ready_loop want n d
  end.

Definition cc_enable : Z :=
  Z.lor (Z.lor (Z.lor (Z.lor NVME_CC_ENABLE NVME_CC_CSS_NVM) NVME_CC_MPS_4K) NVME_CC_IOSQES) NVME_CC_IOCQES.

Definition nvme_init_controller (d : D) : option (Z * D) :=
  let cc := Z.land (nvme_readl NVME_REG_CC d) (Z.lnot NVME_CC_ENABLE) in
  let d := nvme_writel NVME_REG_CC cc d in
  let '(timeout, d) := ready_loop false 5001 d in
  if timeout <=? 0 then Some (-1, d)
  else
    '(ret, d) ← nvme_create_admin_queue d;
    if ret <? 0 then Some (-1, d)
    else
      let d := nvme_writel NVME_REG_CC cc_enable d in
      let '(timeout, d) := ready_loop true 5001 d in
      Some (if timeout <=? 0 then -1 else 0, d).

(** An IDENTIFY into the identify page, zeroed and mapped before and unmapped
    afterwards. *)
Definition identify_into_page (ns cns : Z) (d : D) : option (Z * D) :=
  let d := set_page (zeros 4096) d in
  '(iova, m, n) ← nvme_map_dma ioas_map (nvme_pool_get_identify_buf (nv d)) PAGE_SIZE no_mapping (nv d);
  let d := set_nv n d in
  if iova =? 0 then Some (- ENOMEM, d)
  else nvme_submit_admin_cmd (AdmIdentify (mk_identify ns iova cns)) d.

Definition set_nv_sgls (v : Z) (n : nvme_vfio_tgt_data) : nvme_vfio_tgt_data :=
  mk_nvme_data (nsid n) (lba_shift n) (user_copy n) (use_noiommu n) (force_noiommu n) (io_queues n) (nr_io_queues n)
    (nvme_queue_depth n) (nvme_max_io_buf n) (db_stride n) (bar0 n) v (next_iova n) (dma_pool n) (layout n)
    (queue_alloc_off n) (hugepage_size n).

Definition set_nv_ns (id shift : Z) (n : nvme_vfio_tgt_data) : nvme_vfio_tgt_data :=
  mk_nvme_data id shift (user_copy n) (use_noiommu n) (force_noiommu n) (io_queues n) (nr_io_queues n)
    (nvme_queue_depth n) (nvme_max_io_buf n) (db_stride n) (bar0 n) (sgls n) (next_iova n) (dma_pool n) (layout n)
    (queue_alloc_off n) (hugepage_size n).

Definition nvme_identify_controller (d : D) : option (Z * D) :=
  '(ret, d) ← identify_into_page 0 NVME_ID_CNS_CTRL d;
  if ret <? 0 then Some (ret, d)
  else
    let page := id_page d in
    Some (0, set_nv (set_nv_sgls (ctrl_sgls page) (nv d)) (set_caps (ctrl_vwc page) (ctrl_mdts page) d)).

(** [a << n] of an unsigned type of [w] bits; [None]: undefined. *)
Definition shl (w a n : Z) : option Z :=
  if (0 <=? n) && (n <? w) then Some (Z.shiftl a n mod 2^w) else None.

(** The parameters of the device, from the data and the zeroed [p]. *)
Definition ns_params (d : D) : option ublk_params :=
  let shift := lba_shift (nv d) in
  let max_bytes := nvme_max_io_buf (nv d) in
  max_bytes ← (if nv_mdts d =? 0 then Some max_bytes
               else m ← shl 32 1 (nv_mdts d);
                    let mdts_bytes := u32 (m * PAGE_SIZE) in
                    Some (if mdts_bytes <? max_bytes then mdts_bytes else max_bytes));
  granularity ← shl 32 1 shift;
  let sgl := nvme_sgl_supported (nv d) in
  let types := Z.lor UBLK_PARAM_TYPE_BASIC UBLK_PARAM_TYPE_DISCARD in
  Some (mk_params 0 (if sgl then types else Z.lor types UBLK_PARAM_TYPE_SEGMENT)
    (mk_param_basic (if has (nv_vwc d) NVME_CTRL_VWC_PRESENT then Z.lor UBLK_ATTR_VOLATILE_CACHE UBLK_ATTR_FUA else 0)
       (u8 shift) (u8 shift) (u8 shift) (u8 shift) (Z.shiftr max_bytes 9) 0 (Z.shiftr (nv_dev_size d) 9)
       (if sgl then 0 else PAGE_SIZE - 1))
    (mk_param_discard 0 granularity (Z.shiftr (2^32 - 1) 9) 0 1 0)
    (mk_param_devt 0 0 0 0) (mk_param_zoned 0 0 0 0 0 0) (mk_param_dma 0 0)
    (if sgl then mk_param_segment 0 0 0 0 else mk_param_segment (PAGE_SIZE - 1) (Z.shiftl 32 20) 127 0)
    (mk_param_integrity 0 0 0 0 0 0 0)).

Definition nvme_identify_namespace (d : D) : option (Z * option ublk_params * D) :=
  '(ret, d) ← identify_into_page 1 NVME_ID_CNS_NS d;
  if ret <? 0 then Some (ret, None, d)
  else
    let page := id_page d in
    let shift := ns_lbaf_ds page (Z.land (ns_flbas page) 0xf) in
    size ← shl 64 (ns_nsze page) shift;
    let d := set_nv_dev_size size (set_nv (set_nv_ns 1 shift (nv d)) d) in
    p ← ns_params d;
    Some (0, Some p, d).

(** ** I/O queues *)

(** The queue after [nvme_queue_deinit]. *)
Definition nvme_queue_deinit (q : nvme_queue) : nvme_queue :=
  mk_nvme_queue (nq_qid q) (nq_qsize q)
    (mk_queue_mem 0 0 0 0 (nvme_unmap_dma (sq_mapping (nq_mem q))) (nvme_unmap_dma (cq_mapping (nq_mem q)))
       (sq_doorbell (nq_mem q)) (cq_doorbell (nq_mem q)))
    [] [] (sq_tail q) (last_sq_tail q) (cq_head q) (cq_phase q) (sq_db q) (cq_db q).

Definition put_ioq (i : nat) (q : nvme_queue) (d : D) : D := set_nv (set_io_queues (<[i := q]> (io_queues (nv d))) (nv d)) d.

Definition nvme_create_io_queue (qid qsize : Z) (d : D) : option (Z * D) :=
  let i := Z.to_nat (qid - 1) in
  q ← io_queues (nv d) !! i;
  '(ret, q, n) ← nvme_queue_init ioas_map qid qsize q (nv d);
  let d := put_ioq i q (set_nv n d) in
  if ret <? 0 then Some (ret, d)
  else
    '(ret, d) ← nvme_submit_admin_cmd (AdmCreateCq (mk_create_cq (cq_iova (nq_mem q)) (u16 qid) (u16 (qsize - 1)) 1)) d;
    if ret <? 0 then Some (-1, put_ioq i (nvme_queue_deinit q) d)
    else
      '(ret, d) ← nvme_submit_admin_cmd
        (AdmCreateSq (mk_create_sq (sq_iova (nq_mem q)) (u16 qid) (u16 (qsize - 1)) 1 (u16 qid))) d;
      if ret <? 0 then Some (-1, put_ioq i (nvme_queue_deinit q) d) else Some (0, d).

(** [for (int i = 0; i < nr_io_queues; i++)] of [nvme_vfio_init_tgt]. *)
Fixpoint create_io_queues (n : nat) (i : Z) (d : D) : option (Z * D) :=
  match n with
  | O => Some (0, d)
  | S n =>
      '(ret, d) ← nvme_create_io_queue (i + 1) (nvme_queue_depth (nv d) + 1) d;
      if ret <? 0 then Some (-1, d) else create_io_queues n (i + 1) d
  end.

Definition zero_nvmeq : nvme_queue :=
  mk_nvme_queue 0 0 (mk_queue_mem 0 0 0 0 no_mapping no_mapping 0 0) [] [] 0 0 0 0 0 0.

(** The middle part of [nvme_vfio_init_tgt]: the controller is initialised and
    identified and the I/O queues are created.  [calloc]: whether their array
    can be allocated. *)
Definition start_controller (calloc : bool) (d : D) : option (Z * option ublk_params * D) :=
  '(ret, d) ← nvme_init_controller d;
  if ret <? 0 then Some (-1, None, d)
  else
    '(ret, d) ← nvme_identify_controller d;
    if ret <? 0 then Some (-1, None, d)
    else
      '(ret, p, d) ← nvme_identify_namespace d;
      if ret <? 0 then Some (-1, None, d)
      else if negb calloc then Some (-1, p, d)
      else
        let nr := Z.to_nat (nr_io_queues (nv d)) in
        '(ret, d) ← create_io_queues nr 0 (set_nv (set_io_queues (replicate nr zero_nvmeq) (nv d)) d);
        Some (if ret <? 0 then -1 else 0, p, d).

Definition nvme_delete_io_queue (qid : Z) (d : D) : option (Z * D) :=
  '(_, d) ← nvme_submit_admin_cmd (AdmDelete (mk_delete_queue NVME_ADMIN_DELETE_SQ (u16 qid))) d;
  '(_, d) ← nvme_submit_admin_cmd (AdmDelete (mk_delete_queue NVME_ADMIN_DELETE_CQ (u16 qid))) d;
  Some (0, d).

(** ** Shutdown *)

(** [for (i = 0; i < 5000; i++)] until the status register satisfies [done]. *)
Fixpoint csts_loop (done : Z -> bool) (n : nat) (d : D) : D :=
  match n with
  | O => d
  | S n =>
      let d := let_run d in
      if done (nvme_readl NVME_REG_CSTS d) then d else csts_loop done n d
  end.

Definition nvme_shutdown_controller (d : D) : D :=
  if bar0 (nv d) =? 0 then d
  else
    let cc := Z.lor (nvme_readl NVME_REG_CC d) NVME_CC_SHN_NORMAL in
    let d := nvme_writel NVME_REG_CC cc d in
    let d := csts_loop (fun csts => Z.land csts NVME_CSTS_SHST_MASK =? NVME_CSTS_SHST_COMPLETE) 5000 d in
    let d := nvme_writel NVME_REG_CC (Z.land cc (Z.lnot NVME_CC_ENABLE)) d in
    csts_loop (fun csts => negb (has csts NVME_CSTS_RDY)) 5000 d.
End admin.
