(* ===== verification/NvmeAdminSpec.v ===== *)
(** * The NVMe target: admin commands against a controller

    What the target relies on of a controller, the state of the admin queue
    between them, and the theorems about admin commands and bring-up. *)

From S2P Require Import Prelude Bytes UblkCmd DmaBuf Nvme NvmeDma NvmeRing Params NvmeAdmin.

(** ** What a controller does

    It executes the commands of the admin ring in order, one at a time and only
    while it is enabled, up to the doorbell; for each it posts a completion in
    the next slot of the completion ring with the phase of the lap.  The status
    and what it writes to the identify page are functions of the command and
    of those executed before.  Enabling it starts over; RDY follows the enable
    bit after some time. *)
Class NvmeCtrlLaws (C : Type) `{!NvmeCtrl C} := {
  executed : C -> list nvme_sqe;
  enabled : C -> bool;
  latency : C -> nat;
  ready_latency : C -> nat;
  cmd_status : list nvme_sqe -> nvme_sqe -> Z;
  cmd_page : list nvme_sqe -> nvme_sqe -> list Z -> list Z;
  cmd_status_range : forall h c, 0 <= cmd_status h c < 2^15;
  run_law : forall q page c,
    let sz := nq_qsize q in
    let F := Z.of_nat (length (executed c)) in
    let '(cq, page', c') := ctrl_run q page c in
    enabled c' = enabled c /\
    (has (u32 (ctrl_read NVME_REG_CSTS c')) NVME_CSTS_RDY = enabled c' \/ (ready_latency c' < ready_latency c)%nat) /\
    (cq = nq_cq q /\ page' = page /\ executed c' = executed c /\
       (enabled c = true -> F mod sz <> sq_db q -> is_Some (nq_sq q !! Z.to_nat (F mod sz)) -> (latency c' < latency c)%nat) \/
     exists cmd, enabled c = true /\ F mod sz <> sq_db q /\ nq_sq q !! Z.to_nat (F mod sz) = Some cmd /\
       executed c' = executed c ++ [cmd] /\ page' = cmd_page (executed c) cmd page /\
       cq = <[Z.to_nat (F mod sz) := mk_completion 0 (2 * cmd_status (executed c) cmd + phase_of sz F)]> (nq_cq q));
  write_cc : forall v c,
    enabled (ctrl_write NVME_REG_CC v c) = has v NVME_CC_ENABLE /\
    executed (ctrl_write NVME_REG_CC v c) =
      (if negb (enabled c) && has v NVME_CC_ENABLE then [] else executed c);
  write_other : forall r v c, r <> NVME_REG_CC ->
    enabled (ctrl_write r v c) = enabled c /\ executed (ctrl_write r v c) = executed c;
  read_back : forall r r' v c, r ∈ [NVME_REG_AQA; NVME_REG_ASQ; NVME_REG_ACQ] ->
    ctrl_read r (ctrl_write r' v c) = (if r' =? r then v else ctrl_read r c);
  run_regs : forall r q page c, r ∈ [NVME_REG_AQA; NVME_REG_ASQ; NVME_REG_ACQ] ->
    ctrl_read r (snd (ctrl_run q page c)) = ctrl_read r c
}.

(** ** The admin queue between target and controller *)

Section laws.
Context {C : Type} `{!NvmeCtrl C, !NvmeCtrlLaws C}.
Notation D := (nvme_dev C).
Implicit Types d : D.

Definition cmd_result (h : list nvme_sqe) (c : nvme_sqe) : Z := if cmd_status h c =? 0 then 0 else - EIO.

Definition answer_cqe (sz : Z) (cmds : list nvme_sqe) (i : nat) (c : nvme_sqe) : nvme_completion :=
  mk_completion 0 (2 * cmd_status (take i cmds) c + phase_of sz (Z.of_nat i)).

(** [cmds]: everything submitted since the controller was enabled; the target has
    taken the first [H] completions, the controller has executed as many
    commands as it has posted completions. *)
Definition adm_inv (d : D) (cmds : list nvme_sqe) (H : nat) : Prop :=
  let q := admin_queue d in
  let sz := nq_qsize q in
  let F := length (executed (nv_ctrl d)) in
  1 < sz < 2^16 /\ Z.of_nat (length (nq_sq q)) = sz /\ Z.of_nat (length (nq_cq q)) = sz /\
  enabled (nv_ctrl d) = true /\ executed (nv_ctrl d) = take F cmds /\
  (H <= F <= length cmds)%nat /\ Z.of_nat (length cmds - H) < sz /\
  sq_tail q = Z.of_nat (length cmds) mod sz /\ sq_db q = Z.of_nat (length cmds) mod sz /\
  (forall i, (F <= i < length cmds)%nat -> nq_sq q !! Z.to_nat (Z.of_nat i mod sz) = cmds !! i) /\
  exists post, cq_at (Z.of_nat H) q post /\ length post = (F - H)%nat /\
    forall i c, (H <= i < F)%nat -> cmds !! i = Some c -> post !! (i - H)%nat = Some (answer_cqe sz cmds i c).

(** The same data: only the rings, the page and the controller may change. *)
Definition same_nv (d d' : D) : Prop :=
  nv d' = nv d /\ nv_vwc d' = nv_vwc d /\ nv_mdts d' = nv_mdts d /\ nv_dev_size d' = nv_dev_size d /\
  nq_qsize (admin_queue d') = nq_qsize (admin_queue d) /\ nq_mem (admin_queue d') = nq_mem (admin_queue d).

Lemma answer_phase sz cmds i c : cqe_phase (answer_cqe sz cmds i c) = phase_of sz (Z.of_nat i).
Proof.
  unfold cqe_phase, answer_cqe. cbn [cq_status]. change 1 with (2^1 - 1) at 1. rewrite land_ones_mod by lia.
  pose proof (cmd_status_range (take i cmds) c) as Hs. destruct (phase_of_bit sz (Z.of_nat i)) as [-> | ->].
  - rewrite Z.add_0_r, Z.mul_comm. by apply Z.mod_mul.
  - rewrite Z.add_comm, Z.mul_comm. by rewrite Z.mod_add.
Qed.

Lemma answer_status sz cmds i c : Z.shiftr (cq_status (answer_cqe sz cmds i c)) 1 = cmd_status (take i cmds) c.
Proof.
  unfold answer_cqe. cbn [cq_status]. rewrite Z.shiftr_div_pow2 by lia. change (2^1) with 2.
  destruct (phase_of_bit sz (Z.of_nat i)) as [-> | ->]; symmetry.
  - apply Z.div_unique with 0; lia.
  - apply Z.div_unique with 1; lia.
Qed.

(** What one run of the controller does: nothing, or the next command. *)
Lemma run_step d cmds H :
  adm_inv d cmds H ->
  let F := length (executed (nv_ctrl d)) in
  adm_inv (let_run d) cmds H /\ same_nv d (let_run d) /\
  (executed (nv_ctrl (let_run d)) = executed (nv_ctrl d) /\ id_page (let_run d) = id_page d /\
     ((F < length cmds)%nat -> (latency (nv_ctrl (let_run d)) < latency (nv_ctrl d))%nat) \/
   exists c, cmds !! F = Some c /\ executed (nv_ctrl (let_run d)) = take (S F) cmds /\
     id_page (let_run d) = cmd_page (take F cmds) c (id_page d)).
Proof.
  intros (Hsz&Hls&Hlc&Hen&Hex&HF&Hroom&Ht&Hdb&Hslots&post&Hcq&Hlp&Hpost) F.
  unfold let_run. pose proof (run_law (admin_queue d) (id_page d) (nv_ctrl d)) as Hrun. cbv zeta in Hrun.
  destruct (ctrl_run (admin_queue d) (id_page d) (nv_ctrl d)) as [[cq page'] c'].
  set (q := admin_queue d) in *. set (sz := nq_qsize q) in *. fold F in Hrun, Hex, HF, Hslots, Hlp, Hpost.
  destruct Hrun as (Hen'&_&Hcase). split; [|split; [done|]].
  - destruct Hcase as [(->&->&He&_)|(cmd&_&Hne&Hcmd&He&->&->)].
    + unfold adm_inv. cbn. rewrite He. fold F q sz. replace (set_cq (nq_cq q) q) with q by (by destruct q).
      split; [done|]. do 2 (split; [done|]). split; [congruence|]. do 6 (split; [done|]). eauto.
    + assert (HFS : (F < length cmds)%nat).
      { destruct (decide (F = length cmds)) as [E|]; [|lia]. rewrite Hdb, E in Hne. done. }
      rewrite Hslots in Hcmd by lia.
      assert (Htk : take (S F) cmds = executed (nv_ctrl d) ++ [cmd]) by (rewrite Hex; by apply take_S_r).
      unfold adm_inv. cbn. rewrite He, length_app. fold F q sz. cbn [length]. rewrite Nat.add_1_r.
      split; [done|]. split; [done|]. split; [by rewrite length_insert|]. split; [congruence|].
      split; [done|]. split; [lia|]. do 3 (split; [done|]). split; [intros i Hi; apply Hslots; lia|].
      set (e := mk_completion _ _).
      assert (Ee : e = answer_cqe sz cmds F cmd) by (unfold e, answer_cqe; by rewrite Hex).
      exists (post ++ [e]). split; [|split].
      * replace (Z.to_nat (Z.of_nat F mod sz)) with (Z.to_nat ((Z.of_nat H + Z.of_nat (length post)) mod sz))
          by (do 2 f_equal; lia).
        apply cq_post; [done|fold sz; lia|done|]. fold sz. rewrite Ee, answer_phase. f_equal. lia.
      * rewrite length_app. cbn. lia.
      * intros i c Hi Hc. destruct (decide (i = F)) as [->|].
        -- rewrite lookup_app_r by lia. replace (F - H - length post)%nat with 0%nat by lia. cbn.
           rewrite Hc in Hcmd. injection Hcmd as ->. by rewrite Ee.
        -- rewrite lookup_app_l by lia. apply Hpost; [lia|done].
  - cbn. destruct Hcase as [(->&->&He&Hlat)|(cmd&_&Hne&Hcmd&He&->&->)].
    + left. split; [done|]. split; [done|]. intros HFS. apply Hlat; [done| |].
      * rewrite Hdb. apply mod_ne; lia.
      * rewrite Hslots by lia. by apply lookup_lt_is_Some_2.
    + right. assert (HFS : (F < length cmds)%nat).
      { destruct (decide (F = length cmds)) as [E|]; [|lia]. rewrite Hdb, E in Hne. done. }
      rewrite Hslots in Hcmd by lia. exists cmd. split; [done|]. rewrite He, (take_S_r _ _ _ Hcmd).
      rewrite <- Hex. done.
Qed.

Lemma same_nv_trans d1 d2 d3 : same_nv d1 d2 -> same_nv d2 d3 -> same_nv d1 d3.
Proof. intros (?&?&?&?&?&?) (?&?&?&?&?&?). repeat split; congruence. Qed.

(** Taking the completion at the head. *)
Lemma take_completion d cmds H c n :
  adm_inv d cmds H -> cmds !! H = Some c -> (H < length (executed (nv_ctrl d)))%nat ->
  exists cqe, nq_cq (admin_queue d) !! Z.to_nat (cq_head (admin_queue d)) = Some cqe /\
  Z.land (cq_status cqe) 1 = cq_phase (admin_queue d) /\
  Z.shiftr (cq_status cqe) 1 = cmd_status (take H cmds) c /\
  let q := admin_queue d in
  let head := u16 (Z.rem (cq_head q + 1) (nq_qsize q)) in
  let phase := if head =? 0 then (if cq_phase q =? 0 then 1 else 0) else cq_phase q in
  adm_inv (set_admin (ring_cq_doorbell n (set_cq_head head phase q)) d) cmds (S H).
Proof.
  intros (Hsz&Hls&Hlc&Hen&Hex&HF&Hroom&Ht&Hdb&Hslots&post&Hcq&Hlp&Hpost) Hc Hlt.
  set (F := length (executed (nv_ctrl d))) in *. set (q := admin_queue d) in *.
  destruct post as [|e post]; [cbn in Hlp; lia|].
  pose proof (Hpost H c ltac:(lia) Hc) as He. rewrite Nat.sub_diag in He. injection He as ->.
  set (e := answer_cqe _ _ _ _) in *. exists e. split; [by apply (cq_first (Z.of_nat H) q e post)|].
  pose proof Hcq as (_&HH&Hhead&Hph&_&_&_).
  split; [rewrite Hph; apply answer_phase|]. split; [apply answer_status|].
  intros q' head phase. subst q'.
  assert (Hhd : head = (Z.of_nat H + 1) mod nq_qsize q).
  { unfold head. pose proof (Z.mod_pos_bound (Z.of_nat H) (nq_qsize q) ltac:(lia)).
    rewrite Hhead, Z.rem_mod_nonneg, Zplus_mod_idemp_l by lia. apply u16_id. unfold is_u16.
    pose proof (Z.mod_pos_bound (Z.of_nat H + 1) (nq_qsize q) ltac:(lia)). lia. }
  assert (Hphase : phase = phase_of (nq_qsize q) (Z.of_nat H + 1)).
  { unfold phase. rewrite Hhd, Hph, <- mod_succ, <- phase_succ by lia.
    pose proof (Z.mod_pos_bound (Z.of_nat H) (nq_qsize q) ltac:(lia)).
    destruct (Z.eqb_spec (Z.of_nat H mod nq_qsize q + 1) (nq_qsize q)) as [E|E].
    - destruct (phase_of_bit (nq_qsize q) (Z.of_nat H)) as [-> | ->]; done.
    - by rewrite (proj2 (Z.eqb_neq (Z.of_nat H mod nq_qsize q + 1) 0)) by lia. }
  pose proof (cq_advance _ _ _ _ Hcq) as Hadv.
  unfold adm_inv. cbn. fold F q. do 5 (split; [done|]). split; [lia|]. split; [lia|]. do 3 (split; [done|]).
  exists post. split; [|split; [cbn in Hlp; lia|]].
  - replace (Z.of_nat (S H)) with (Z.of_nat H + 1) by lia.
    destruct Hadv as (?&?&Ha&Hb&?&?&?). unfold cq_at in *. unfold nvme_update_cq_head in *.
    rewrite Hhd, Hphase. cbn. destruct (cq_head q + 1 =? nq_qsize q); cbn in *; rewrite ?Ha, ?Hb in *; done.
  - intros i x Hi Hx. specialize (Hpost i x ltac:(lia) Hx). replace (i - H)%nat with (S (i - S H)) in Hpost by lia. exact Hpost.
Qed.

(** At the head there is nothing yet. *)
Lemma no_completion d cmds H :
  adm_inv d cmds H -> length (executed (nv_ctrl d)) = H ->
  exists cqe, nq_cq (admin_queue d) !! Z.to_nat (cq_head (admin_queue d)) = Some cqe /\
  Z.land (cq_status cqe) 1 <> cq_phase (admin_queue d).
Proof.
  intros (Hsz&Hls&Hlc&Hen&Hex&HF&Hroom&Ht&Hdb&Hslots&post&Hcq&Hlp&Hpost) HF'.
  assert (post = []) as -> by (apply length_zero_iff_nil; lia).
  pose proof (cq_pending _ _ _ Hcq) as Hp. unfold nvme_cqe_pending in Hp.
  destruct (nq_cq (admin_queue d) !! Z.to_nat (cq_head (admin_queue d))) as [e|]; [|done]. cbn in Hp. injection Hp as Hp.
  exists e. split; [done|]. by apply Z.eqb_neq.
Qed.

(** Waiting for the completion of the command [H]: the answer to that command,
    or a timeout that leaves it outstanding. *)
Lemma wait_spec n d cmds H c :
  adm_inv d cmds H -> cmds !! H = Some c ->
  exists r d', wait_loop n d = Some (r, d') /\ same_nv d d' /\
  (r = - ETIMEDOUT /\ adm_inv d' cmds H /\ (n <= latency (nv_ctrl d))%nat \/
   r = cmd_result (take H cmds) c /\ adm_inv d' cmds (S H) /\
   (length cmds = S H -> length (executed (nv_ctrl d)) = H -> id_page d' = cmd_page (take H cmds) c (id_page d))).
Proof.
  revert d. induction n as [|n IH]; intros d Hinv Hc; cbn [wait_loop].
  { exists (- ETIMEDOUT), d. split; [done|]. split; [done|]. left. split; [done|]. split; [done|lia]. }
  destruct (run_step d cmds H Hinv) as (Hinv1&Hsame1&Hcase). cbv zeta in Hcase. set (d1 := let_run d) in *.
  pose proof Hinv as (_&_&_&_&_&HF&_). pose proof Hinv1 as (_&_&_&_&Hex1&HF1&_).
  pose proof (lookup_lt_Some _ _ _ Hc) as Hlen.
  destruct (decide (length (executed (nv_ctrl d1)) = H)) as [E|E].
  - destruct (no_completion d1 cmds H Hinv1 E) as (e&->&Hne). cbn [mbind option_bind].
    rewrite (proj2 (Z.eqb_neq _ _) Hne). destruct (IH d1 Hinv1 Hc) as (r&d'&->&Hs&Hr).
    exists r, d'. split; [done|]. split; [by eapply same_nv_trans|].
    destruct Hcase as [(He&Hpg&Hlat)|(x&Hx&He&_)].
    + rewrite He in E, Hr. destruct Hr as [(->&?&?)|(->&?&Hp)]; [left|right].
      * split; [done|]. split; [done|]. specialize (Hlat ltac:(lia)). lia.
      * split; [done|]. split; [done|]. by rewrite Hpg in Hp.
    + apply lookup_lt_Some in Hx. rewrite He, length_take in E. lia.
  - destruct (take_completion d1 cmds H c (u16 (Z.rem (cq_head (admin_queue d1) + 1) (nq_qsize (admin_queue d1)))) Hinv1 Hc)
      as (e&->&Hph&Hst&Hnext); [lia|]. cbn [mbind option_bind]. rewrite Hph, Z.eqb_refl, Hst.
    eexists _, _. split; [done|]. split; [by eapply same_nv_trans|]. right. split; [done|]. split; [exact Hnext|].
    intros Hl HE. cbn. destruct Hcase as [(He&_)|(x&Hx&He&->)]; [rewrite He in E; lia|].
    rewrite HE in Hx |- *. congruence.
Qed.

(** A command is put behind those submitted before. *)
Lemma submit_admin_spec a d cmds H c :
  adm_inv d cmds H -> Z.of_nat (length cmds - H) + 1 < nq_qsize (admin_queue d) ->
  (cmds ++ [SqeAdmin a]) !! H = Some c ->
  exists r d', nvme_submit_admin_cmd a d = Some (r, d') /\ same_nv d d' /\
  (r = - ETIMEDOUT /\ adm_inv d' (cmds ++ [SqeAdmin a]) H /\ (5000 <= latency (nv_ctrl d))%nat \/
   r = cmd_result (take H (cmds ++ [SqeAdmin a])) c /\ adm_inv d' (cmds ++ [SqeAdmin a]) (S H) /\
   (length cmds = H -> id_page d' = cmd_page cmds c (id_page d))).
Proof.
  intros (Hsz&Hls&Hlc&Hen&Hex&HF&Hroom&Ht&Hdb&Hslots&post&Hcq&Hlp&Hpost) Hroom1 Hc.
  unfold nvme_submit_admin_cmd. set (q := admin_queue d) in *. set (sz := nq_qsize q) in *. set (n := length cmds) in *.
  pose proof (Z.mod_pos_bound (Z.of_nat n) sz ltac:(lia)) as Hm.
  rewrite (proj2 (Z.leb_le _ _)), (proj2 (Z.ltb_lt _ _)) by lia. cbn [andb sq_tail set_sq nq_qsize]. fold sz.
  assert (Htail : u16 (Z.rem (sq_tail q + 1) sz) = Z.of_nat (n + 1) mod sz).
  { rewrite Ht, Z.rem_mod_nonneg, Zplus_mod_idemp_l, u16_id by
      (unfold is_u16; pose proof (Z.mod_pos_bound (Z.of_nat n + 1) sz ltac:(lia)); lia). f_equal. lia. }
  rewrite Htail. unfold nvme_wait_admin_completion. set (q1 := ring_sq_doorbell _ _).
  set (F := length (executed (nv_ctrl d))) in *.
  assert (Hinv1 : adm_inv (set_admin q1 d) (cmds ++ [SqeAdmin a]) H).
  { unfold adm_inv. cbn. fold F sz q. rewrite length_app, length_insert. cbn [length]. fold n.
    split; [done|]. split; [done|]. split; [done|]. split; [done|]. rewrite take_app_le by (unfold n in *; lia).
    split; [done|]. split; [lia|]. split; [lia|]. split; [done|]. split; [done|]. split.
    - intros i Hi. destruct (decide (i = n)) as [->|].
      + rewrite Ht, list_lookup_insert_eq by lia. rewrite lookup_app_r by (unfold n; lia). unfold n. by rewrite Nat.sub_diag.
      + pose proof (Z.mod_pos_bound (Z.of_nat i) sz ltac:(lia)). pose proof (mod_ne sz (Z.of_nat i) (Z.of_nat n) ltac:(lia) ltac:(lia)).
        rewrite Ht, list_lookup_insert_ne by lia. rewrite Hslots, lookup_app_l by (unfold n in *; lia). done.
    - exists post. split; [exact Hcq|]. split; [done|]. intros i x Hi Hx. rewrite lookup_app_l in Hx by (unfold n in *; lia).
      rewrite (Hpost i x Hi Hx). f_equal. unfold answer_cqe. by rewrite take_app_le by (unfold n in *; lia). }
  destruct (wait_spec 5000 _ _ _ c Hinv1 Hc) as (r&d'&->&Hs&Hr). exists r, d'. split; [done|]. split; [done|].
  destruct Hr as [(->&?&?)|(->&?&Hp)]; [by left|right]. split; [done|]. split; [done|]. intros E.
  rewrite length_app in Hp. cbn in Hp. rewrite Hp; [|unfold n in *; lia|fold F; unfold n in *; lia].
  by rewrite take_app_le, firstn_all2 by (unfold n in *; lia).
Qed.

(** An answer after a timeout belongs to the command before: every command has
    the identifier 0 and the target does not look at it.  When a command timed
    out, the next one reports the status of the one that timed out, and the
    queue stays one answer behind. *)
Theorem admin_timeout_shifts_answers a b d cmds d1 r d2 :
  adm_inv d cmds (length cmds) -> 2 < nq_qsize (admin_queue d) ->
  nvme_submit_admin_cmd a d = Some (- ETIMEDOUT, d1) -> nvme_submit_admin_cmd b d1 = Some (r, d2) ->
  r <> - ETIMEDOUT ->
  r = cmd_result cmds (SqeAdmin a) /\ adm_inv d2 ((cmds ++ [SqeAdmin a]) ++ [SqeAdmin b]) (S (length cmds)).
Proof.
  intros Hinv Hsz Ha Hb Hr.
  assert (Hl : (cmds ++ [SqeAdmin a]) !! length cmds = Some (SqeAdmin a)) by (by apply list_lookup_middle).
  destruct (submit_admin_spec a d cmds _ _ Hinv ltac:(lia) Hl) as (r1&d'&E1&Hs&Hcase). rewrite Ha in E1. injection E1 as <- <-.
  destruct Hcase as [(_&Hinv1&_)|(E&_)]; [|unfold cmd_result in E; destruct (cmd_status _ _ =? 0); discriminate E].
  destruct (submit_admin_spec b d1 _ _ (SqeAdmin a) Hinv1) as (r2&d2'&E2&_&Hcase2).
  - destruct Hs as (_&_&_&_&->&_). rewrite length_app. cbn. lia.
  - rewrite lookup_app_l; [done|]. rewrite length_app. cbn. lia.
  - rewrite Hb in E2. injection E2 as <- <-. destruct Hcase2 as [(->&_)|(->&Hinv2&_)]; [done|]. split; [|done].
    f_equal. by rewrite <- app_assoc, take_app_length.
Qed.

(** ** Queues in the pool, with an IOMMU *)

Lemma map_dma_iommu vaddr size m n :
  nvme_use_iommu n = true -> 0 < next_iova n ->
  nvme_map_dma (fun _ _ _ => true) vaddr size m n =
    Some (next_iova n, mk_mapping vaddr (next_iova n) size, set_next_iova (u64 (next_iova n + page_up size)) n).
Proof.
  intros Hi Hn. unfold nvme_map_dma, nvme_get_iova, nvme_do_vfio_map. rewrite Hi. cbn [negb mbind option_bind].
  rewrite (proj2 (Z.eqb_neq _ _)) by lia.
  change (nvme_use_iommu (set_next_iova _ n)) with (nvme_use_iommu n). rewrite Hi. done.
Qed.

(** What stays of the data while queues are made. *)
Definition same_config (n n' : nvme_vfio_tgt_data) : Prop :=
  nvme_use_iommu n' = nvme_use_iommu n /\ nr_io_queues n' = nr_io_queues n /\ nvme_queue_depth n' = nvme_queue_depth n /\
  nvme_max_io_buf n' = nvme_max_io_buf n /\ layout n' = layout n /\ dma_pool n' = dma_pool n /\
  nsid n' = nsid n /\ lba_shift n' = lba_shift n.

Definition sq_bytes (depth : Z) : Z := page_up (depth * 64).
Definition cq_bytes (depth : Z) : Z := page_up (depth * 16).

(** The buffers of a queue in the pool and the addresses they are mapped at. *)
Definition placed (q : nvme_queue) (base off iova depth : Z) : Prop :=
  sq_buffer (nq_mem q) = base + off /\ cq_buffer (nq_mem q) = base + off + sq_bytes depth /\
  sq_iova (nq_mem q) = iova /\ cq_iova (nq_mem q) = iova + sq_bytes depth.

Lemma queue_init_iommu qid depth q n :
  nvme_use_iommu n = true -> 0 < depth < 2^16 -> 0 < next_iova n < 2^63 ->
  queue_alloc_off n + sq_bytes depth + cq_bytes depth <= queue_region_off (layout n) ->
  exists q' n', nvme_queue_init (fun _ _ _ => true) qid depth q n = Some (0, q', n') /\ fresh_nvmeq depth q' /\
    placed q' (pool_base (dma_pool n)) (queue_alloc_off n) (next_iova n) depth /\ same_config n n' /\
    io_queues n' = io_queues n /\ queue_alloc_off n' = queue_alloc_off n + sq_bytes depth + cq_bytes depth /\
    next_iova n' = next_iova n + sq_bytes depth + cq_bytes depth.
Proof.
  intros Hi Hd Hn Hfit.
  destruct (page_up_spec (depth * 64)) as [Hs1 Hs2]; [lia|]. destruct (page_up_spec (depth * 16)) as [Hc1 Hc2]; [lia|].
  fold (sq_bytes depth) in *. fold (cq_bytes depth) in *.
  assert (Es : page_up (sq_bytes depth) = sq_bytes depth) by (by apply page_up_aligned).
  assert (Ec : page_up (cq_bytes depth) = cq_bytes depth) by (by apply page_up_aligned).
  unfold PAGE_SIZE in *.
  destruct (nvme_queue_init (fun _ _ _ => true) qid depth q n) as [[[ret q'] n']|] eqn:E.
  all: pose proof E as E0; unfold nvme_queue_init, nvme_pool_alloc_queue_buf in E0;
    fold (sq_bytes depth) in E0; fold (cq_bytes depth) in E0; rewrite Es, Ec in E0;
    rewrite (proj2 (Z.ltb_ge _ _)) in E0 by lia; cbn [layout queue_alloc_off set_queue_alloc_off dma_pool] in E0;
    rewrite (proj2 (Z.ltb_ge _ _)) in E0 by lia; rewrite map_dma_iommu in E0 by (exact Hi || (cbn; lia)); cbn [mbind option_bind] in E0;
    rewrite map_dma_iommu in E0 by (exact Hi || (cbn; rewrite Es, u64_id by (unfold is_u64; lia); lia));
    cbn [mbind option_bind] in E0; cbn [next_iova set_next_iova set_queue_alloc_off bar0 db_stride] in E0;
    rewrite Es, Ec, !u64_id in E0 by (unfold is_u64; lia);
    rewrite (proj2 (Z.eqb_neq _ _)), (proj2 (Z.eqb_neq (next_iova n + _) 0)) in E0 by lia; cbn [orb] in E0; try discriminate E0.
  injection E0 as <- Eq En. exists q', n'. split; [done|]. split; [by eapply queue_init_fresh|].
  rewrite <- Eq, <- En. unfold placed, same_config. cbn. repeat split; lia.
Qed.

(** ** A controller that keeps up *)
Section prompt.
Hypothesis prompt : forall c : C, (latency c < 5000)%nat /\ (ready_latency c < 5000)%nat.
Hypothesis accepts : forall h c, cmd_status (C := C) h c = 0.

(** The target has taken the answer to every command. *)
Definition in_sync (d : D) (cmds : list nvme_sqe) : Prop :=
  adm_inv d cmds (length cmds) /\ nq_qsize (admin_queue d) = ADMIN_Q_SIZE.

Lemma in_sync_executed d cmds : in_sync d cmds -> executed (nv_ctrl d) = cmds.
Proof. intros [(_&_&_&_&Hex&HF&_) _]. rewrite Hex. apply firstn_all2. lia. Qed.

Lemma in_sync_nv n d cmds : in_sync d cmds -> in_sync (set_nv n d) cmds.
Proof. done. Qed.

Lemma submit_accepted a d cmds :
  in_sync d cmds ->
  exists d', nvme_submit_admin_cmd a d = Some (0, d') /\ same_nv d d' /\ in_sync d' (cmds ++ [SqeAdmin a]) /\
    id_page d' = cmd_page cmds (SqeAdmin a) (id_page d).
Proof.
  intros [Hinv Hsz].
  destruct (submit_admin_spec a d cmds (length cmds) (SqeAdmin a) Hinv) as (r&d'&Hd'&Hs&Hcase).
  - rewrite Hsz, Nat.sub_diag. done.
  - by apply list_lookup_middle.
  - destruct (prompt (nv_ctrl d)) as [Hlat _]. destruct Hcase as [(_&_&?)|(->&Hinv'&Hp)]; [lia|].
    exists d'. unfold cmd_result in Hd'. rewrite accepts in Hd'. split; [done|]. split; [done|].
    split; [|by apply Hp]. split; [|by destruct Hs as (_&_&_&_&->&_)].
    by rewrite length_app, Nat.add_1_r.
Qed.

(** The commands that create queue [qid], whose ring pages are mapped at [iova]. *)
Definition queue_cmds (qsize iova qid : Z) : list nvme_sqe :=
  [SqeAdmin (AdmCreateCq (mk_create_cq (iova + sq_bytes qsize) qid (qsize - 1) 1));
   SqeAdmin (AdmCreateSq (mk_create_sq iova qid (qsize - 1) 1 qid))].

Definition queue_bytes (qsize : Z) : Z := sq_bytes qsize + cq_bytes qsize.

Notation map_all := (fun _ _ _ : Z => true).

Lemma create_io_queue_ok i qsize d cmds :
  in_sync d cmds -> nvme_use_iommu (nv d) = true -> 1 < qsize < 2^16 -> Z.of_nat i < 2^16 - 1 ->
  (i < length (io_queues (nv d)))%nat -> 0 < next_iova (nv d) < 2^63 ->
  queue_alloc_off (nv d) + queue_bytes qsize <= queue_region_off (layout (nv d)) ->
  exists q d', nvme_create_io_queue map_all (Z.of_nat i + 1) qsize d = Some (0, d') /\
    in_sync d' (cmds ++ queue_cmds qsize (next_iova (nv d)) (Z.of_nat i + 1)) /\ same_config (nv d) (nv d') /\
    io_queues (nv d') = <[i := q]> (io_queues (nv d)) /\ fresh_nvmeq qsize q /\
    placed q (pool_base (dma_pool (nv d))) (queue_alloc_off (nv d)) (next_iova (nv d)) qsize /\
    queue_alloc_off (nv d') = queue_alloc_off (nv d) + queue_bytes qsize /\
    next_iova (nv d') = next_iova (nv d) + queue_bytes qsize.
Proof.
  intros Hsync Hi Hq Hi16 Hlt Hn Hfit. unfold queue_bytes in *.
  destruct (lookup_lt_is_Some_2 _ _ Hlt) as [q0 Hq0].
  unfold nvme_create_io_queue. replace (Z.to_nat (Z.of_nat i + 1 - 1)) with i by lia. rewrite Hq0. cbn [mbind option_bind].
  destruct (queue_init_iommu (Z.of_nat i + 1) qsize q0 (nv d) Hi ltac:(lia) Hn ltac:(lia))
    as (q&n&->&Hfresh&Hpl&Hcfg&Hio&Hoff&Hiova). cbn [mbind option_bind Z.ltb Z.compare].
  pose proof Hpl as (_&_&Esq&Ecq). rewrite Esq, Ecq, !u16_id by (unfold is_u16; lia).
  set (d1 := put_ioq i q (set_nv n d)).
  destruct (submit_accepted (AdmCreateCq (mk_create_cq (next_iova (nv d) + sq_bytes qsize) (Z.of_nat i + 1) (qsize - 1) 1)) d1 cmds)
    as (d2&->&Hs2&Hsync2&_); [by apply in_sync_nv|]. cbn [mbind option_bind Z.ltb Z.compare].
  destruct (submit_accepted (AdmCreateSq (mk_create_sq (next_iova (nv d)) (Z.of_nat i + 1) (qsize - 1) 1 (Z.of_nat i + 1))) d2 _ Hsync2)
    as (d3&->&Hs3&Hsync3&_). cbn [mbind option_bind Z.ltb Z.compare].
  exists q, d3. split; [done|]. split; [by rewrite <- app_assoc in Hsync3|].
  assert (Hnv : nv d3 = set_io_queues (<[i := q]> (io_queues n)) n)
    by (destruct (same_nv_trans _ _ _ Hs2 Hs3) as (->&_); done).
  rewrite Hnv. cbn. rewrite Hio. split; [exact Hcfg|]. split; [done|]. split; [done|]. split; [done|]. lia.
Qed.

(** Queues [i] to [i + n - 1], one behind the other in the pool. *)
Lemma create_io_queues_ok n i d cmds :
  let qsize := nvme_queue_depth (nv d) + 1 in
  let B := queue_bytes qsize in
  in_sync d cmds -> nvme_use_iommu (nv d) = true -> 1 < qsize < 2^16 -> Z.of_nat (i + n) < 2^16 ->
  length (io_queues (nv d)) = (i + n)%nat -> 0 < next_iova (nv d) -> next_iova (nv d) + Z.of_nat n * B < 2^63 ->
  queue_alloc_off (nv d) + Z.of_nat n * B <= queue_region_off (layout (nv d)) ->
  exists d', create_io_queues map_all n (Z.of_nat i) d = Some (0, d') /\
    in_sync d' (cmds ++ concat (map (fun j => queue_cmds qsize (next_iova (nv d) + (j - Z.of_nat i) * B) (j + 1))
      (seqZ (Z.of_nat i) (Z.of_nat n)))) /\ same_config (nv d) (nv d') /\
    length (io_queues (nv d')) = (i + n)%nat /\ queue_alloc_off (nv d') = queue_alloc_off (nv d) + Z.of_nat n * B /\
    (forall j, (j < i)%nat -> io_queues (nv d') !! j = io_queues (nv d) !! j) /\
    forall j, (i <= j < i + n)%nat -> exists q, io_queues (nv d') !! j = Some q /\ fresh_nvmeq qsize q /\
      placed q (pool_base (dma_pool (nv d))) (queue_alloc_off (nv d) + Z.of_nat (j - i) * B)
        (next_iova (nv d) + Z.of_nat (j - i) * B) qsize.
Proof.
  revert i d cmds. induction n as [|n IH]; intros i d cmds qsize B Hsync Hi Hq Hin Hlen Hn Hn63 Hfit; cbn [create_io_queues].
  { exists d. split; [done|]. rewrite seqZ_nil, app_nil_r by lia. split; [done|]. split; [done|]. split; [done|].
    split; [lia|]. split; [done|]. lia. }
  assert (HB : 0 <= B).
  { unfold B, queue_bytes, sq_bytes, cq_bytes. destruct (page_up_spec (qsize * 64)); [lia|].
    destruct (page_up_spec (qsize * 16)); [lia|]. lia. }
  destruct (create_io_queue_ok i qsize d cmds) as (q&d1&Hd1&Hsync1&Hcfg1&Hio1&Hfresh&Hpl&Hoff1&Hiova1); try done; [lia..|].
  fold B in Hoff1, Hiova1. fold qsize. rewrite Hd1. cbn [mbind option_bind Z.ltb Z.compare].
  pose proof Hcfg1 as (C1&C2&C3&C4&C5&C6&C7&C8). replace (Z.of_nat i + 1) with (Z.of_nat (S i)) by lia.
  destruct (IH (S i) d1 _ Hsync1) as (d'&->&Hsync'&Hcfg'&Hlen'&Hoff'&Hbefore&Hqs); rewrite ?C3, ?C5, ?Hio1, ?Hoff1, ?Hiova1;
    fold qsize B; try done; rewrite ?length_insert; try lia; [congruence|].
  rewrite C3, C6, Hoff1, Hiova1 in *. fold qsize B in Hsync', Hoff', Hqs. exists d'. split; [done|]. split; [|split; [|split; [lia|split; [lia|split]]]].
  - rewrite <- app_assoc in Hsync'. rewrite (seqZ_cons _ (Z.of_nat (S n))) by lia.
    replace (Z.pred (Z.of_nat (S n))) with (Z.of_nat n) by lia. cbn [map concat].
    replace (next_iova (nv d) + (Z.of_nat i - Z.of_nat i) * B) with (next_iova (nv d)) by lia.
    replace (Z.succ (Z.of_nat i)) with (Z.of_nat (S i)) by lia.
    erewrite map_ext_in; [exact Hsync'|]. intros j _. cbn. f_equal. lia.
  - destruct Hcfg' as (E1&E2&E3&E4&E5&E6&E7&E8). repeat split; congruence.
  - intros j Hj. rewrite Hbefore, Hio1 by lia. by rewrite list_lookup_insert_ne by lia.
  - intros j Hj. destruct (decide (j = i)) as [->|].
    + exists q. rewrite Hbefore, Hio1, list_lookup_insert_eq by lia. split; [done|]. split; [done|].
      rewrite Nat.sub_diag. by rewrite !Z.add_0_r.
    + destruct (Hqs j ltac:(lia)) as (q'&?&?&Hpl'). exists q'. split; [done|]. split; [done|].
      replace (j - i)%nat with (S (j - S i)) by lia. set (k := (j - S i)%nat) in *.
      replace (queue_alloc_off (nv d) + Z.of_nat (S k) * B) with (queue_alloc_off (nv d) + B + Z.of_nat k * B) by lia.
      by replace (next_iova (nv d) + Z.of_nat (S k) * B) with (next_iova (nv d) + B + Z.of_nat k * B) by lia.
Qed.

(** ** Registers *)

(** The registers of the admin queue. *)
Definition aq_regs (d : D) : Z * Z * Z :=
  (ctrl_read NVME_REG_AQA (nv_ctrl d), ctrl_read NVME_REG_ASQ (nv_ctrl d), ctrl_read NVME_REG_ACQ (nv_ctrl d)).

Definition aq_list : list Z := [NVME_REG_AQA; NVME_REG_ASQ; NVME_REG_ACQ].
Lemma aqa_in : NVME_REG_AQA ∈ aq_list.
Proof. left. Qed.
Lemma asq_in : NVME_REG_ASQ ∈ aq_list.
Proof. right. left. Qed.
Lemma acq_in : NVME_REG_ACQ ∈ aq_list.
Proof. right. right. left. Qed.

Lemma run_aq_regs d : aq_regs (let_run d) = aq_regs d.
Proof.
  unfold aq_regs, let_run. pose proof (run_regs NVME_REG_AQA (admin_queue d) (id_page d) (nv_ctrl d) aqa_in) as H1.
  pose proof (run_regs NVME_REG_ASQ (admin_queue d) (id_page d) (nv_ctrl d) asq_in) as H2.
  pose proof (run_regs NVME_REG_ACQ (admin_queue d) (id_page d) (nv_ctrl d) acq_in) as H3.
  destruct (ctrl_run (admin_queue d) (id_page d) (nv_ctrl d)) as [[cq page] c]. cbn in *. by rewrite H1, H2, H3.
Qed.

Lemma write_enabled r v (c : C) : r <> NVME_REG_CC -> enabled (ctrl_write r v c) = enabled c.
Proof. intros H. by apply write_other. Qed.

Lemma polls_5001 : 5001%nat = S 5000.
Proof. vm_compute. reflexivity. Qed.

(** Waiting for RDY to follow the enable bit, while [P] holds. *)
Lemma ready_ok (P : D -> Prop) want n d :
  (forall d, P d -> P (let_run d)) -> (forall d, P d -> enabled (nv_ctrl d) = want) -> P d ->
  (S (ready_latency (nv_ctrl d)) < n)%nat ->
  exists t d', ready_loop want n d = (t, d') /\ 0 < t /\ P d' /\ same_nv d d' /\ aq_regs d' = aq_regs d.
Proof.
  intros Hstep Hen. revert d. induction n as [|n IH]; intros d HP Hlat; [lia|]. cbn [ready_loop].
  pose proof (run_law (admin_queue d) (id_page d) (nv_ctrl d)) as Hrun. pose proof (run_aq_regs d) as Hregs.
  pose proof (Hstep d HP) as HP1. pose proof (Hen _ HP1) as Hen1.
  assert (Hsame : same_nv d (let_run d)).
  { unfold let_run. destruct (ctrl_run _ _ _) as [[cq page] c]. done. }
  assert (Hr : has (nvme_readl NVME_REG_CSTS (let_run d)) NVME_CSTS_RDY = want \/
    (ready_latency (nv_ctrl (let_run d)) < ready_latency (nv_ctrl d))%nat).
  { rewrite <- Hen1. unfold nvme_readl, let_run. cbv zeta in Hrun. destruct (ctrl_run _ _ _) as [[cq page] c].
    destruct Hrun as (_&Hr&_). exact Hr. }
  destruct (Bool.eqb (has (nvme_readl NVME_REG_CSTS (let_run d)) NVME_CSTS_RDY) want) eqn:E.
  - exists (Z.of_nat n), (let_run d). split; [done|]. split; [lia|]. done.
  - destruct Hr as [Hr|Hr]; [by rewrite Hr, Bool.eqb_reflx in E|].
    destruct (IH (let_run d) HP1) as (t&d'&Hl&Ht&HP'&Hs'&Hr'); [lia|].
    exists t, d'. split; [done|]. split; [done|]. split; [done|]. split; [by eapply same_nv_trans|congruence].
Qed.

Lemma fresh_in_sync d q : fresh_nvmeq ADMIN_Q_SIZE q -> enabled (nv_ctrl d) = true -> executed (nv_ctrl d) = [] ->
  in_sync (set_admin q d) [].
Proof.
  intros Hf Hen Hex. pose proof Hf as (Hq&Hl&Ht&_&Hdb&Hcq&_). split; [|done].
  unfold adm_inv. cbn -[cq_at]. rewrite Hex, Hq, Ht, Hdb, Hcq. cbn [length]. split; [done|]. split; [done|].
  split; [by rewrite length_replicate|]. split; [done|]. split; [done|]. split; [lia|]. do 3 (split; [done|]).
  split; [lia|]. exists []. split; [by apply (cq_start ADMIN_Q_SIZE)|]. split; [done|]. lia.
Qed.

Lemma wait_regs n d r d' : wait_loop n d = Some (r, d') -> aq_regs d' = aq_regs d.
Proof.
  revert d. induction n as [|n IH]; intros d; cbn [wait_loop]; [by intros [= _ <-]|].
  destruct (nq_cq _ !! _) as [cqe|]; [|done]. cbn [mbind option_bind]. rewrite <- (run_aq_regs d).
  case_bool; [by intros [= _ <-]|apply IH].
Qed.

Lemma submit_regs a d r d' : nvme_submit_admin_cmd a d = Some (r, d') -> aq_regs d' = aq_regs d.
Proof.
  unfold nvme_submit_admin_cmd, nvme_wait_admin_completion. generalize 5000%nat. intros n. case_bool; [|done]. intros H.
  by rewrite (wait_regs _ _ _ _ H).
Qed.

Lemma create_io_queue_regs qid qsize d r d' :
  nvme_create_io_queue map_all qid qsize d = Some (r, d') -> aq_regs d' = aq_regs d.
Proof.
  unfold nvme_create_io_queue. destruct (_ !! _) as [q|]; [|done]. cbn [mbind option_bind].
  destruct (nvme_queue_init _ _ _ _ _) as [[[ret q1] n]|]; [|done]. cbn [mbind option_bind]. case_bool; [by intros [= _ <-]|].
  destruct (nvme_submit_admin_cmd _ _) as [[r1 d1]|] eqn:H1; [|done]. cbn [mbind option_bind].
  apply submit_regs in H1. case_bool; [by intros [= _ <-]|].
  destruct (nvme_submit_admin_cmd _ d1) as [[r2 d2]|] eqn:H2; [|done]. cbn [mbind option_bind].
  apply submit_regs in H2. rewrite H1 in H2. case_bool; by intros [= _ <-].
Qed.

Lemma create_io_queues_regs n i d r d' : create_io_queues map_all n i d = Some (r, d') -> aq_regs d' = aq_regs d.
Proof.
  revert i d. induction n as [|n IH]; intros i d; cbn [create_io_queues]; [by intros [= _ <-]|].
  destruct (nvme_create_io_queue _ _ _ d) as [[r1 d1]|] eqn:H1; [|done]. cbn [mbind option_bind].
  apply create_io_queue_regs in H1. case_bool; [by intros [= _ <-]|]. intros H. by rewrite (IH _ _ H).
Qed.

Lemma identify_ok ns cns d cmds :
  in_sync d cmds -> nvme_use_iommu (nv d) = true -> 0 < next_iova (nv d) < 2^63 ->
  let cmd := SqeAdmin (AdmIdentify (mk_identify ns (next_iova (nv d)) cns)) in
  exists d', identify_into_page map_all ns cns d = Some (0, d') /\ in_sync d' (cmds ++ [cmd]) /\
    nv d' = set_next_iova (next_iova (nv d) + PAGE_SIZE) (nv d) /\ id_page d' = cmd_page cmds cmd (zeros 4096) /\
    nv_vwc d' = nv_vwc d /\ nv_mdts d' = nv_mdts d /\ aq_regs d' = aq_regs d /\
    nq_mem (admin_queue d') = nq_mem (admin_queue d).
Proof.
  intros Hsync Hi Hn cmd. unfold identify_into_page.
  rewrite map_dma_iommu by (exact Hi || (cbn; lia)). cbn [mbind option_bind].
  change (page_up PAGE_SIZE) with PAGE_SIZE. change (next_iova (nv (set_page _ d))) with (next_iova (nv d)).
  rewrite u64_id, (proj2 (Z.eqb_neq _ _)) by (unfold is_u64, PAGE_SIZE; lia).
  set (d1 := set_nv _ _). assert (Hsync1 : in_sync d1 cmds) by exact Hsync.
  destruct (submit_accepted (AdmIdentify (mk_identify ns (next_iova (nv d)) cns)) d1 cmds Hsync1) as (d'&Hd'&Hs&Hsync'&Hp).
  exists d'. rewrite (submit_regs _ _ _ _ Hd'). destruct Hs as (Hnv&Hv&Hm&_&_&Hmem). done.
Qed.

Lemma init_controller_ok d :
  nvme_use_iommu (nv d) = true -> 0 < next_iova (nv d) < 2^62 ->
  queue_alloc_off (nv d) + 2 * PAGE_SIZE <= queue_region_off (layout (nv d)) ->
  exists d', nvme_init_controller map_all d = Some (0, d') /\ in_sync d' [] /\ same_config (nv d) (nv d') /\
    placed (admin_queue d') (pool_base (dma_pool (nv d))) (queue_alloc_off (nv d)) (next_iova (nv d)) ADMIN_Q_SIZE /\
    queue_alloc_off (nv d') = queue_alloc_off (nv d) + 2 * PAGE_SIZE /\
    next_iova (nv d') = next_iova (nv d) + 2 * PAGE_SIZE /\
    aq_regs d' = (0x3f003f, sq_iova (nq_mem (admin_queue d')), cq_iova (nq_mem (admin_queue d'))).
Proof.
  intros Hi Hn Hfit. unfold nvme_init_controller.
  set (cc := Z.land (nvme_readl NVME_REG_CC d) (Z.lnot NVME_CC_ENABLE)). set (d1 := nvme_writel NVME_REG_CC cc d).
  assert (Hoff : enabled (nv_ctrl d1) = false).
  { unfold d1, nvme_writel. cbn. rewrite (proj1 (write_cc _ _)). unfold NVME_CC_ENABLE, u32.
    rewrite has_bit, Z.mod_pow2_bits_low by lia. rewrite <- has_bit by lia. unfold cc, NVME_CC_ENABLE.
    rewrite has_clear_bit by lia. apply andb_false_r. }
  destruct (ready_ok (fun d => enabled (nv_ctrl d) = false) false 5001 d1) as (t&d2&->&Ht&Hoff2&Hs2&_); try done.
  { intros x Hx. unfold let_run. pose proof (run_law (admin_queue x) (id_page x) (nv_ctrl x)) as Hr. cbv zeta in Hr.
    destruct (ctrl_run _ _ _) as [[cq page] c]. cbn. rewrite <- Hx. apply Hr. }
  { pose proof (prompt (nv_ctrl d1)). rewrite polls_5001. lia. }
  rewrite (proj2 (Z.leb_gt _ _) Ht). destruct Hs2 as (Hnv2&_). change (nv d1) with (nv d) in Hnv2.
  unfold nvme_create_admin_queue. rewrite Hnv2.
  destruct (queue_init_iommu 0 ADMIN_Q_SIZE (admin_queue d2) (nv d) Hi ltac:(done) ltac:(lia)) as
    (q&n&->&Hfresh&Hpl&Hcfg&_&Ho&Hio); [by change (sq_bytes ADMIN_Q_SIZE) with PAGE_SIZE;
      change (cq_bytes ADMIN_Q_SIZE) with PAGE_SIZE; lia|].
  change (sq_bytes ADMIN_Q_SIZE) with PAGE_SIZE in Ho, Hio. change (cq_bytes ADMIN_Q_SIZE) with PAGE_SIZE in Ho, Hio.
  cbn [mbind option_bind Z.ltb Z.compare].
  set (aqa := Z.lor _ _). set (d3 := nvme_writel NVME_REG_CC cc_enable _).
  assert (Hregs3 : aq_regs d3 = (0x3f003f, sq_iova (nq_mem q), cq_iova (nq_mem q))).
  { unfold aq_regs, d3, nvme_writel, nvme_writeq. cbn -[ctrl_read ctrl_write u32 u64].
    rewrite !(read_back _ _ _ _ aqa_in), !(read_back _ _ _ _ asq_in), !(read_back _ _ _ _ acq_in). cbn -[u32 u64]. destruct Hpl as (_&_&->&->).
    change (sq_bytes ADMIN_Q_SIZE) with PAGE_SIZE. by rewrite !u64_id by (unfold is_u64, PAGE_SIZE; lia). }
  assert (Hsync3 : in_sync d3 []).
  { assert (Hen : enabled (nv_ctrl d3) = true /\ executed (nv_ctrl d3) = []).
    { unfold d3, nvme_writel, nvme_writeq. cbn -[ctrl_write u32 u64]. rewrite (proj1 (write_cc _ _)), (proj2 (write_cc _ _)).
      rewrite !write_enabled by discriminate. rewrite Hoff2. done. }
    destruct Hen. exact (fresh_in_sync d3 q Hfresh ltac:(done) ltac:(done)). }
  destruct (ready_ok (fun d => in_sync d []) true 5001 d3) as (t'&d4&->&Ht'&Hsync4&Hs4&Hr4); try done.
  { intros x [Hx Hq]. destruct (run_step x [] 0 Hx) as (Hx'&Hsame&_). split; [done|]. by destruct Hsame as (_&_&_&_&->&_). }
  { intros x [(_&_&_&Hen&_) _]. done. }
  { pose proof (prompt (nv_ctrl d3)). rewrite polls_5001. lia. }
  rewrite (proj2 (Z.leb_gt _ _) Ht'). exists d4. destruct Hs4 as (->&_&_&_&_&Hmem). rewrite Hr4, Hregs3.
  change (nv d3) with n. split; [done|]. split; [done|]. split; [done|].
  unfold placed. rewrite Hmem. change (admin_queue d3) with q. split; [done|]. split; [lia|]. split; [lia|done].
Qed.

(** Bringing a controller up.  With an IOMMU and a controller that executes
    admin commands in order and in time and accepts them, start-up succeeds:
    the registers of the admin queue hold its size and the addresses of its
    rings; the controller has executed an IDENTIFY of itself and one of
    namespace 1, then for every queue first CREATE_CQ and then CREATE_SQ with
    the addresses and the size of its rings; every I/O queue is empty, its
    rings lie behind each other in the pool, and together with the admin queue
    they fill the queue region exactly. *)
Lemma nvme_bring_up d :
  let n := nv d in
  let qsize := nvme_queue_depth n + 1 in
  let B := queue_bytes qsize in
  let iova := 2^32 in
  let idc := SqeAdmin (AdmIdentify (mk_identify 0 (iova + 2 * PAGE_SIZE) NVME_ID_CNS_CTRL)) in
  let idn := SqeAdmin (AdmIdentify (mk_identify 1 (iova + 3 * PAGE_SIZE) NVME_ID_CNS_NS)) in
  let cpage := cmd_page (C := C) [] idc (zeros 4096) in
  let npage := cmd_page (C := C) [idc] idn (zeros 4096) in
  let shift := ns_lbaf_ds npage (Z.land (ns_flbas npage) 0xf) in
  nvme_params_ok n -> nvme_use_iommu n = true -> next_iova n = iova -> queue_alloc_off n = 0 ->
  layout n = nvme_pool_layout (nr_io_queues n) (nvme_queue_depth n) (nvme_max_io_buf n) ->
  0 <= ctrl_mdts cpage < 32 -> 0 <= shift < 32 ->
  exists p d', start_controller map_all true d = Some (0, Some p, d') /\
    aq_regs d' = (0x3f003f, iova, iova + PAGE_SIZE) /\
    executed (nv_ctrl d') = [idc; idn] ++
      concat (map (fun j => queue_cmds qsize (iova + 4 * PAGE_SIZE + j * B) (j + 1)) (seqZ 0 (nr_io_queues n))) /\
    queue_alloc_off (nv d') = queue_region_off (layout (nv d')) /\
    (forall j, (j < Z.to_nat (nr_io_queues n))%nat -> exists q, io_queues (nv d') !! j = Some q /\ fresh_nvmeq qsize q /\
       placed q (pool_base (dma_pool n)) (2 * PAGE_SIZE + Z.of_nat j * B) (iova + 4 * PAGE_SIZE + Z.of_nat j * B) qsize) /\
    nsid (nv d') = 1 /\ lba_shift (nv d') = shift /\
    dev_sectors (p_basic p) = Z.shiftr (Z.shiftl (ns_nsze npage) shift mod 2^64) 9.
Proof.
  intros n qsize B iova idc idn cpage npage shift Hok Hi Hiova Hoff Hlay Hmdts Hshift.
  pose proof Hok as (Hnr&Hdepth&Hbuf&_). rewrite pool_layout_plain in Hlay by done.
  assert (Hreg : queue_region_off (layout n) = 2 * PAGE_SIZE + nr_io_queues n * B).
  { rewrite Hlay. unfold queue_region_off, queue_region, B, queue_bytes, sq_bytes, cq_bytes. done. }
  assert (HB : 0 <= nr_io_queues n * B <= 2^26).
  { destruct (queue_region_bounds _ _ Hnr Hdepth) as [Hb _]. unfold queue_region in Hb.
    unfold B, queue_bytes, sq_bytes, cq_bytes, qsize. destruct (page_up_spec ((nvme_queue_depth n + 1) * 64)); [lia|].
    destruct (page_up_spec ((nvme_queue_depth n + 1) * 16)); [lia|]. unfold PAGE_SIZE in *. nia. }
  unfold start_controller.
  destruct (init_controller_ok d Hi) as (d1&->&Hs1&Hc1&Hp1&Ho1&Hn1&Hr1); [fold n; lia|fold n; lia|].
  cbn [mbind option_bind Z.ltb Z.compare]. fold n in Ho1, Hn1, Hc1, Hp1. rewrite Hoff in Ho1. rewrite Hiova in Hn1.
  destruct Hc1 as (U1&N1&D1&M1&L1&P1&_). unfold nvme_identify_controller.
  destruct (identify_ok 0 NVME_ID_CNS_CTRL d1 [] Hs1) as (d2&->&Hs2&Hn2&Hpg2&_&_&Hr2&Hm2); [congruence|rewrite Hn1; unfold PAGE_SIZE; lia|].
  cbn [mbind option_bind Z.ltb Z.compare app] in *. rewrite Hn1 in Hs2, Hn2, Hpg2. fold idc in Hs2, Hpg2.
  set (d3 := set_nv _ _). unfold nvme_identify_namespace.
  assert (N3 : nv d3 = set_nv_sgls (ctrl_sgls (id_page d2)) (set_next_iova (iova + 3 * PAGE_SIZE) (nv d1))).
  { unfold d3. cbn [nv set_nv set_caps]. rewrite Hn2. reflexivity. }
  destruct (identify_ok 1 NVME_ID_CNS_NS d3 [idc] Hs2) as (d4&->&Hs4&Hn4&Hpg4&_&Hm4&Hr4&Hm4');
    [rewrite N3; exact (eq_trans U1 Hi)|rewrite N3; cbn; unfold PAGE_SIZE; lia|].
  cbn [mbind option_bind Z.ltb Z.compare app] in *. rewrite N3 in Hs4, Hn4, Hpg4. cbn [next_iova set_nv_sgls set_next_iova] in Hs4, Hn4, Hpg4.
  fold idn in Hs4, Hpg4. rewrite Hpg4. fold npage shift.
  unfold shl at 1. rewrite (proj2 (Z.leb_le 0 shift)), (proj2 (Z.ltb_lt shift 64)) by lia. cbn [andb mbind option_bind].
  set (d5 := set_nv_dev_size _ _).
  assert (Hmd : nv_mdts d5 = ctrl_mdts cpage) by (unfold d5; cbn [nv_mdts set_nv_dev_size set_nv]; rewrite Hm4; unfold d3; cbn; by rewrite Hpg2).
  assert (Hpar : exists p, ns_params d5 = Some p /\ dev_sectors (p_basic p) = Z.shiftr (Z.shiftl (ns_nsze npage) shift mod 2^64) 9).
  { unfold ns_params. rewrite Hmd. change (lba_shift (nv d5)) with shift. unfold shl.
    rewrite (proj2 (Z.leb_le 0 shift)), (proj2 (Z.ltb_lt shift 32)) by lia.
    rewrite (proj2 (Z.leb_le 0 (ctrl_mdts cpage))), (proj2 (Z.ltb_lt (ctrl_mdts cpage) 32)) by lia.
    cbn [andb]. destruct (ctrl_mdts cpage =? 0); cbn [mbind option_bind]; eexists; (split; [reflexivity|reflexivity]). }
  destruct Hpar as (p&->&Hsec). cbn [mbind option_bind Z.ltb Z.compare negb].
  assert (Hnr5 : nr_io_queues (nv d5) = nr_io_queues n) by (unfold d5; cbn; rewrite Hn4; exact N1).
  rewrite Hnr5. set (nr := Z.to_nat (nr_io_queues n)). set (d6 := set_nv _ d5).
  assert (F6 : nvme_use_iommu (nv d6) = true /\ nvme_queue_depth (nv d6) = nvme_queue_depth n /\ layout (nv d6) = layout n /\
    dma_pool (nv d6) = dma_pool n /\ queue_alloc_off (nv d6) = 2 * PAGE_SIZE /\ next_iova (nv d6) = iova + 4 * PAGE_SIZE /\
    io_queues (nv d6) = replicate nr zero_nvmeq /\ nsid (nv d6) = 1 /\ lba_shift (nv d6) = shift).
  { unfold d6, d5, nvme_use_iommu. cbn. rewrite Hn4. cbn.
    split; [exact (eq_trans U1 Hi)|]. do 3 (split; [done|]). split; [lia|]. split; [lia|]. done. }
  destruct F6 as (U6&D6&L6&P6&O6&I6&Q6&S6&B6).
  destruct (create_io_queues_ok nr 0 d6 [idc; idn]) as (d7&Hd7&Hs7&Hc7&_&Ho7&_&Hqs);
    rewrite ?D6, ?L6, ?O6, ?I6, ?Q6, ?length_replicate; fold qsize B; try done; try (unfold nr, PAGE_SIZE in *; lia).
  rewrite D6, O6, I6, P6 in *. fold qsize B in Hs7, Ho7, Hqs.
  change 0 with (Z.of_nat 0) in Hd7 |- *. rewrite Hd7. cbn [mbind option_bind Z.ltb Z.compare].
  exists p, d7. split; [done|]. destruct Hc7 as (_&_&_&_&L7&_&S7&B7).
  split; [|split; [|split; [|split; [|split; [congruence|split; [congruence|done]]]]]].
  - rewrite (create_io_queues_regs _ _ _ _ _ Hd7). change (aq_regs d6) with (aq_regs d4). rewrite Hr4.
    change (aq_regs d3) with (aq_regs d2). rewrite Hr2, Hr1. destruct Hp1 as (_&_&->&->). by rewrite Hiova.
  - rewrite (in_sync_executed _ _ Hs7). unfold nr. rewrite Z2Nat.id by lia. cbn [app]. do 3 f_equal.
    apply map_ext. intros j. change (Z.of_nat 0) with 0. by rewrite Z.sub_0_r.
  - rewrite Ho7, L7, L6, Hreg. unfold nr. rewrite Z2Nat.id by lia. done.
  - intros j Hj. destruct (Hqs j ltac:(lia)) as (q&?&?&Hpl). exists q. by rewrite Nat.sub_0_r in Hpl.
Qed.
End prompt.
End laws.

(** ** The parameters of the device *)

(** The parameters of a namespace fit their fields, whole blocks of the
    namespace are sectors of the device, and a request is at most a buffer long
    and, for an MDTS below 20, at most what the controller transfers.  For an
    MDTS of 20 to 31 the limit wraps around at 32 bits and no request fits. *)
Theorem nvme_params_limits {C} (d : nvme_dev C) :
  let shift := lba_shift (nv d) in
  let buf := nvme_max_io_buf (nv d) in
  9 <= shift < 32 -> PAGE_SIZE <= buf < 2^32 -> 0 <= nv_mdts d < 32 -> is_u64 (nv_dev_size d) ->
  exists p, ns_params d = Some p /\ params_ok p /\ logical_bs_shift (p_basic p) = shift /\
    dev_sectors (p_basic p) = nv_dev_size d / 512 /\ discard_granularity (p_discard p) = 2^shift /\
    max_sectors (p_basic p) * 512 <= buf /\
    (0 < nv_mdts d < 20 -> max_sectors (p_basic p) * 512 <= 2^(nv_mdts d) * PAGE_SIZE) /\
    (nv_mdts d < 20 -> 0 < max_sectors (p_basic p)) /\
    (20 <= nv_mdts d -> max_sectors (p_basic p) = 0).
Proof.
  intros shift buf Hs Hb Hm Hu. unfold ns_params. fold shift buf. unfold shl.
  rewrite (proj2 (Z.leb_le 0 shift)), (proj2 (Z.ltb_lt shift 32)) by lia.
  rewrite (proj2 (Z.leb_le 0 (nv_mdts d))), (proj2 (Z.ltb_lt (nv_mdts d) 32)) by lia. cbn [andb mbind option_bind].
  rewrite !Z.shiftl_1_l.
  assert (Hp32 : forall k, 0 <= k < 32 -> 2^k mod 2^32 = 2^k).
  { intros k Hk. apply Z.mod_small. split; [lia|]. apply Z.pow_lt_mono_r; lia. }
  rewrite !Hp32 by lia.
  set (lim := if nv_mdts d =? 0 then buf else
    if u32 (2^nv_mdts d * PAGE_SIZE) <? buf then u32 (2^nv_mdts d * PAGE_SIZE) else buf).
  assert (Hlim : 0 <= lim <= buf /\ (0 < nv_mdts d < 20 -> lim <= 2^nv_mdts d * PAGE_SIZE) /\
    (nv_mdts d < 20 -> PAGE_SIZE <= lim) /\ (20 <= nv_mdts d -> lim = 0)).
  { unfold lim. unfold PAGE_SIZE in *. destruct (Z.eqb_spec (nv_mdts d) 0); [repeat split; lia|].
    destruct (Z.lt_ge_cases (nv_mdts d) 20) as [Hlt|Hge].
    - assert (Hpow : 2 <= 2^nv_mdts d <= 2^19).
      { split; [change 2 with (2^1) at 1|]; apply Z.pow_le_mono_r; lia. }
      rewrite u32_id by (unfold is_u32; lia). destruct (Z.ltb_spec (2^nv_mdts d * 4096) buf); repeat split; lia.
    - assert (u32 (2^nv_mdts d * 4096) = 0) as ->.
      { unfold u32. change 4096 with (2^12). rewrite <- Z.pow_add_r by lia.
        replace (nv_mdts d + 12) with ((nv_mdts d - 20) + 32) by lia. rewrite Z.pow_add_r by lia. apply Z.mod_mul. lia. }
      rewrite (proj2 (Z.ltb_lt 0 buf)) by lia. repeat split; lia. }
  destruct Hlim as (Hl1&Hl2&Hl3&Hl4).
  assert (Hsh : Z.shiftr lim 9 * 512 <= lim < Z.shiftr lim 9 * 512 + 512).
  { rewrite Z.shiftr_div_pow2 by lia. change (2^9) with 512. Z.div_mod_to_equations. lia. }
  assert (Hpow : 2^shift <= 2^31) by (apply Z.pow_le_mono_r; lia). pose proof (Z.pow_pos_nonneg 2 shift ltac:(lia) ltac:(lia)).
  rewrite u8_id by (unfold is_u8; lia).
  eexists. split.
  { unfold lim. destruct (nv_mdts d =? 0); reflexivity. }
  cbn [p_basic p_discard logical_bs_shift dev_sectors discard_granularity max_sectors].
  rewrite !Z.shiftr_div_pow2 in * by lia. change (2^9) with 512 in *. unfold is_u64, PAGE_SIZE in *.
  split; [|repeat split; lia].
  assert (0 <= nv_dev_size d / 512 < 2^64) by (Z.div_mod_to_equations; lia).
  unfold params_ok, basic_ok, discard_ok, devt_ok, zoned_ok, dma_ok, segment_ok, integrity_ok, is_u64, is_u32, is_u16, is_u8.
  cbn [params_len params_types p_basic p_discard p_devt p_zoned p_dma p_seg p_integrity attrs logical_bs_shift
    physical_bs_shift io_opt_shift io_min_shift max_sectors chunk_sectors dev_sectors virt_boundary_mask discard_alignment
    discard_granularity max_discard_sectors max_write_zeroes_sectors max_discard_segments discard_reserved0].
  destruct (nvme_sgl_supported (nv d)), (has (nv_vwc d) NVME_CTRL_VWC_PRESENT); cbn; repeat split; lia || done.
Qed.

(** ** Commands as the controller reads them *)

Definition admin_opcode (c : nvme_admin_command) : Z :=
  match c with
  | AdmIdentify _ => NVME_ADMIN_IDENTIFY
  | AdmCreateCq _ => NVME_ADMIN_CREATE_CQ
  | AdmCreateSq _ => NVME_ADMIN_CREATE_SQ
  | AdmDelete c => dq_opcode c
  end.

(** Namespace, data pointer and the command's first two words of its own, as the
    NVMe specification places them. *)
Definition admin_words (c : nvme_admin_command) : Z * Z * Z * Z :=
  match c with
  | AdmIdentify c => (id_nsid c, id_prp1 c, id_cns c, 0)
  | AdmCreateCq c => (0, ccq_prp1 c, ccq_cqid c + 2^16 * ccq_qsize c, ccq_flags c)
  | AdmCreateSq c => (0, csq_prp1 c, csq_sqid c + 2^16 * csq_qsize c, csq_flags c + 2^16 * csq_cqid c)
  | AdmDelete c => (0, 0, dq_qid c, 0)
  end.

Definition admin_fields_ok (c : nvme_admin_command) : Prop :=
  match c with
  | AdmIdentify c => is_u32 (id_nsid c) /\ is_u64 (id_prp1 c) /\ is_u32 (id_cns c)
  | AdmCreateCq c => is_u64 (ccq_prp1 c) /\ is_u16 (ccq_cqid c) /\ is_u16 (ccq_qsize c) /\ is_u16 (ccq_flags c)
  | AdmCreateSq c => is_u64 (csq_prp1 c) /\ is_u16 (csq_sqid c) /\ is_u16 (csq_qsize c) /\ is_u16 (csq_flags c) /\
      is_u16 (csq_cqid c)
  | AdmDelete c => is_u8 (dq_opcode c) /\ is_u16 (dq_qid c)
  end.

Lemma le_field n v : 0 <= v < 2^(8 * Z.of_nat n) -> le_value (le_bytes n v) = v.
Proof. intros Hv. rewrite le_value_bytes. by apply Z.mod_small. Qed.

Lemma pair4 {A B E F} (a a' : A) (b b' : B) (c c' : E) (d d' : F) :
  a = a' -> b = b' -> c = c' -> d = d' -> (a, b, c, d) = (a', b', c', d').
Proof. by intros -> -> -> ->. Qed.

(** The 64 bytes the target copies into the admin ring are the command as the
    NVMe specification lays it out: operation code, command identifier 0,
    namespace, PRP entry and the command's words are where the controller reads
    them. *)
Theorem admin_command_layout c :
  admin_fields_ok c ->
  let b := admin_bytes c in
  length b = 64%nat /\ page_field b 0 1 = admin_opcode c /\ page_field b 2 2 = 0 /\
  (page_field b 4 4, page_field b 24 8, page_field b 40 4, page_field b 44 4) = admin_words c.
Proof.
  assert (H4 : forall x y, is_u16 x -> is_u16 y -> le_value (le_bytes 2 x ++ le_bytes 2 y) = x + 2^16 * y).
  { intros x y Hx Hy. rewrite le_value_app, !le_field by (cbn; assumption). done. }
  unfold is_u64, is_u32, is_u16, is_u8 in *.
  destruct c as [c|c|c|c]; cbn [admin_fields_ok admin_opcode admin_words];
    unfold is_u64, is_u32, is_u16, is_u8; intros Hok; (split; [reflexivity|]).
  - destruct Hok as (?&?&?). split; [reflexivity|]. split; [reflexivity|].
    apply pair4; [by apply (le_field 4)|by apply (le_field 8)|by apply (le_field 4)|reflexivity].
  - destruct Hok as (?&?&?&?). split; [reflexivity|]. split; [reflexivity|].
    apply pair4; [reflexivity|by apply (le_field 8)|by apply H4|].
    transitivity (le_value (le_bytes 2 (ccq_flags c) ++ le_bytes 2 0)); [reflexivity|]. rewrite H4 by lia. lia.
  - destruct Hok as (?&?&?&?&?). split; [reflexivity|]. split; [reflexivity|].
    apply pair4; [reflexivity|by apply (le_field 8)|by apply H4|by apply H4].
  - destruct Hok as (?&?). split; [by apply (le_field 1)|]. split; [reflexivity|].
    apply pair4; [reflexivity|reflexivity| |reflexivity].
    transitivity (le_value (le_bytes 2 (dq_qid c) ++ le_bytes 2 0)); [reflexivity|]. rewrite H4 by lia. lia.
Qed.
