(* ===== verification/Json.v ===== *)
(** * The JSON description of a device

    lib/ublksrv_json.cpp: the buffer in which a device's description is kept
    (and from which recovery restores the device), its readers and writers,
    and the pid file it is stored in.  nlohmann::json's text format is a
    parameter: [dump] and [parse], which undo each other.  A function that
    writes through a [char *] returns its result with the new contents;
    [None] is an exception that is not caught or a write outside an
    allocation. *)

From S2P Require Import Prelude UblkCmd Params.
From stdpp Require Import pretty.
#[local] Open Scope Z_scope.

Class JsonText := { dump : json -> string; parse : string -> option json }.
(** A document's text parses to the document, and has no NUL (control
    characters are escaped). *)
Class JsonTextLaws `{!JsonText} : Prop := {
  parse_dump : forall j, parse (dump j) = Some j;
  dump_no_nul : forall j, Forall (fun c => c <> Ascii.zero) (String.list_ascii_of_string (dump j))
}.

Definition JSON_OFFSET : Z := 32.
Definition UBLK_TGT_MAX_JBUF_SZ : Z := 8192.
Definition UBLKSRV_TGT_NAME_MAX_LEN : Z := 32.

Definition slen (s : string) : Z := Z.of_nat (String.length s).

Section json_text.
Context `{!JsonText}.

(** Returns the result and what the buffer of [len] bytes then holds. *)
Definition dump_json_to_buf (j : json) (jbuf : string) (len : Z) : Z * string :=
  let s := dump j in
  let j_len := slen s in
  if j_len <? len then (j_len, s) else (- EINVAL, jbuf).

(** The [parse_json] macro: a parse error makes the function return. *)
Definition with_json {A} (jbuf : string) (err : A) (k : json -> option A) : option A :=
  match parse jbuf with None => Some err | Some j => k j end.

(** ** Device information and parameters *)
Definition ublksrv_json_write_dev_info (info : ublksrv_ctrl_dev_info) (jbuf : string) (len : Z)
    : option (Z * string) :=
  j ← json_set "dev_info" (dev_info_to_json info) JNull;
  Some (dump_json_to_buf j jbuf len).

(** The result, and the structure read when it is zero. *)
Definition ublksrv_json_read_dev_info (dflt : ublksrv_ctrl_dev_info) (jbuf : string)
    : option (Z * option ublksrv_ctrl_dev_info) :=
  with_json jbuf (- EINVAL, None) (fun j =>
    if negb (json_contains "dev_info" j) then Some (- EINVAL, None)
    else
      sj ← json_get "dev_info" j;
      info ← dev_info_from_json dflt sj;
      Some (0, Some info)).

Definition ublksrv_json_write_params (p : ublk_params) (jbuf : string) (len : Z) : option (Z * string) :=
  with_json jbuf (- EINVAL, jbuf) (fun j =>
    j ← json_set "params" (params_to_json p) j;
    Some (dump_json_to_buf j jbuf len)).

Definition ublksrv_json_read_params (dflt : ublk_params) (jbuf : string) : option (Z * option ublk_params) :=
  with_json jbuf (- EINVAL, None) (fun j =>
    if negb (json_contains "params" j) then Some (- EINVAL, None)
    else
      sj ← json_get "params" j;
      p ← params_from_json dflt sj;
      Some (0, Some p)).

(** ** Target entries *)
Definition ublksrv_json_read_target_str_info (jbuf : string) (len : Z) (name : string)
    : option (Z * option string) :=
  with_json jbuf (- EINVAL, None) (fun j =>
    if negb (json_contains "target" j) then Some (- EINVAL, None)
    else
      tj ← json_get "target" j;
      if negb (json_contains name tj) then Some (- EINVAL, None)
      else
        str ← json_get name tj ≫= json_to_string;
        Some (if slen str <? len then (0, Some str) else (- EINVAL, None))).

Definition ublksrv_json_read_target_ulong_info (jbuf : string) (name : string) : option (Z * option Z) :=
  with_json jbuf (- EINVAL, None) (fun j =>
    if negb (json_contains "target" j) then Some (- EINVAL, None)
    else
      tj ← json_get "target" j;
      if negb (json_contains name tj) then Some (- EINVAL, None)
      else
        v ← json_get name tj ≫= json_to_int u64;
        Some (0, Some v)).

(** [j["target"][name] = v] *)
Definition json_set_target (name : string) (v : json) (j : json) : option json :=
  tj ← json_get "target" j;
  tj ← json_set name v tj;
  json_set "target" tj j.

Definition write_target (name : string) (v : json) (jbuf : string) (len : Z) : option (Z * string) :=
  with_json jbuf (- EINVAL, jbuf) (fun j =>
    j ← json_set_target name v j;
    Some (dump_json_to_buf j jbuf len)).

Definition ublksrv_json_write_target_str_info (jbuf : string) (len : Z) (name val : string)
    : option (Z * string) := write_target name (JStr val) jbuf len.
Definition ublksrv_json_write_target_long_info (jbuf : string) (len : Z) (name : string) (val : Z)
    : option (Z * string) := write_target name (JNum (s64 val)) jbuf len.
Definition ublksrv_json_write_target_ulong_info (jbuf : string) (len : Z) (name : string) (val : Z)
    : option (Z * string) := write_target name (JNum (u64 val)) jbuf len.

Record ublksrv_tgt_base_json := mk_tgt_base { base_name : string; base_type : Z; base_dev_size : Z }.

Definition ublksrv_json_write_target_base_info (jbuf : string) (len : Z) (tgt : ublksrv_tgt_base_json)
    : option (Z * string) :=
  with_json jbuf (- EINVAL, jbuf) (fun j =>
    j ← json_set_target "name" (JStr (base_name tgt)) j;
    j ← json_set_target "type" (JNum (base_type tgt)) j;
    j ← json_set_target "dev_size" (JNum (base_dev_size tgt)) j;
    Some (dump_json_to_buf j jbuf len)).

Definition ublksrv_json_read_target_base_info (jbuf : string) : option (Z * option ublksrv_tgt_base_json) :=
  with_json jbuf (- EINVAL, None) (fun j =>
    if negb (json_contains "target" j) then Some (- EINVAL, None)
    else
      tj ← json_get "target" j;
      if negb (json_contains "name" tj) || negb (json_contains "type" tj) ||
         negb (json_contains "dev_size" tj) then Some (- EINVAL, None)
      else
        str ← json_get "name" tj ≫= json_to_string;
        if UBLKSRV_TGT_NAME_MAX_LEN <=? slen str then Some (- EINVAL, None)
        else
          type ← json_get "type" tj ≫= json_to_int s32;
          dev_size ← json_get "dev_size" tj ≫= json_to_int u64;
          Some (0, Some (mk_tgt_base str type dev_size))).

(** The text of the target object, when there is one. *)
Definition ublksrv_json_read_target_info (jbuf tgt_buf : string) (len : Z) : option (Z * string) :=
  with_json jbuf (- EINVAL, tgt_buf) (fun j =>
    if json_contains "target" j
    then tj ← json_get "target" j; Some (dump_json_to_buf tj tgt_buf len)
    else Some (0, tgt_buf)).

(** ** Queue entries *)

(** CPUs are printed while they fit: a number that does not fit whole is cut
    off by snprintf and ends the loop. *)
Fixpoint build_cpu_str (cpus : list Z) (buf : string) (len : Z) : string :=
  match cpus with
  | [] => buf
  | cpu :: cpus =>
      let s := (pretty cpu +:+ " ")%string in
      let room := len - slen buf in
      if room <=? slen s then (buf +:+ String.substring 0 (Z.to_nat (room - 1)) s)%string
      else build_cpu_str cpus (buf +:+ s)%string len
  end.
Definition ublksrv_build_cpu_str (len : Z) (nr_cores : Z) (isset : Z -> bool) : string :=
  build_cpu_str (filter (fun c => isset c = true) (seqZ 0 nr_cores)) "" len.

Definition ublksrv_json_write_queue_info (nr_cores : Z) (isset : Z -> bool) (jbuf : string)
    (len qid ubq_daemon_tid : Z) : option (Z * string) :=
  with_json jbuf (- EINVAL, jbuf) (fun j =>
    let name : string := pretty qid in
    let cpus := ublksrv_build_cpu_str 512 nr_cores isset in
    qs ← json_get "queues" j;
    e ← json_get name qs;
    e ← json_set "qid" (JNum qid) e;
    e ← json_set "tid" (JNum ubq_daemon_tid) e;
    e ← json_set "affinity" (JStr cpus) e;
    qs ← json_set name e qs;
    j ← json_set "queues" qs j;
    Some (dump_json_to_buf j jbuf len)).

(** The thread id and the affinity; the thread id is stored even when the
    affinity does not fit. *)
Definition ublksrv_json_read_queue_info (jbuf : string) (qid len : Z)
    : option (Z * option Z * option string) :=
  with_json jbuf (- EINVAL, None, None) (fun j =>
    let name : string := pretty qid in
    qj ← json_get "queues" j ≫= json_get name;
    tid ← json_get "tid" qj ≫= json_to_int u32;
    str ← json_get "affinity" qj ≫= json_to_string;
    Some (if slen str <? len then (0, Some tid, Some str) else (- EINVAL, Some tid, None))).

(** The end null character is counted. *)
Definition ublksrv_json_get_length (jbuf : string) : option Z :=
  j ← parse jbuf; Some (slen (dump j) + 1).

(** ** The buffer of a device

    [jb_alloc] is the size of the allocation behind [jbuf] ([None]: NULL). *)
Record ublksrv_tgt_jbuf := mk_jbuf {
  jbuf_size : Z;  (* int *)
  jb_alloc : option Z;
  jbuf : string
}.

(** A write of the terminated string [s] at [jbuf]. *)
Definition jb_store (s : string) (b : ublksrv_tgt_jbuf) : option ublksrv_tgt_jbuf :=
  match jb_alloc b with
  | Some n => if slen s <? n then Some (mk_jbuf (jbuf_size b) (jb_alloc b) s) else None
  | None => None
  end.

(** [mem n] says whether realloc(3) to [n] bytes succeeds. *)
Variable mem : Z -> bool.

Definition tgt_realloc_jbuf (b : ublksrv_tgt_jbuf) : bool * ublksrv_tgt_jbuf :=
  let size := match jb_alloc b with None => 512 | Some _ => jbuf_size b + 512 end in
  if size <? UBLK_TGT_MAX_JBUF_SZ
  then (true, mk_jbuf size (if mem size then Some size else None) (jbuf b))
  else (false, mk_jbuf size (jb_alloc b) (jbuf b)).

(** [do ret = write(...) while (ret < 0 && tgt_realloc_jbuf(j))]. A write
    that [reads] parses what the buffer holds first, which is [None] for a NULL
    buffer; only ublksrv_json_write_dev_info starts a new document. *)
Fixpoint write_loop (reads : bool) (fuel : nat) (write : string -> Z -> option (Z * string)) (b : ublksrv_tgt_jbuf)
    : option (Z * ublksrv_tgt_jbuf) :=
  match fuel with
  | O => None
  | S fuel =>
      _ ← (if reads then jb_alloc b else Some 0);
      '(ret, s) ← write (jbuf b) (jbuf_size b);
      if ret <? 0 then
        let '(more, b) := tgt_realloc_jbuf b in
        if more : bool then write_loop reads fuel write b else Some (ret, b)
      else b ← jb_store s b; Some (ret, b)
  end.

(** Every round adds 512 bytes and no round starts at 8192 or above. *)
Definition write_fuel : nat := 17.

Definition ublk_json_write_dev_info (info : ublksrv_ctrl_dev_info) (b : ublksrv_tgt_jbuf) :=
  write_loop false write_fuel (ublksrv_json_write_dev_info info) b.
Definition ublk_json_write_params (p : ublk_params) (b : ublksrv_tgt_jbuf) :=
  write_loop true write_fuel (ublksrv_json_write_params p) b.
(** A NULL value writes nothing and returns 0. *)
Definition ublk_json_write_tgt_str (name : string) (val : option string) (b : ublksrv_tgt_jbuf) :=
  match val with
  | None => Some (0, b)
  | Some val => write_loop true write_fuel (fun s len => ublksrv_json_write_target_str_info s len name val) b
  end.
Definition ublk_json_write_tgt_long (name : string) (val : Z) (b : ublksrv_tgt_jbuf) :=
  write_loop true write_fuel (fun s len => ublksrv_json_write_target_long_info s len name val) b.
Definition ublk_json_write_tgt_ulong (name : string) (val : Z) (b : ublksrv_tgt_jbuf) :=
  write_loop true write_fuel (fun s len => ublksrv_json_write_target_ulong_info s len name val) b.
Definition ublk_json_write_target_base (tgt : ublksrv_tgt_base_json) (b : ublksrv_tgt_jbuf) :=
  write_loop true write_fuel (fun s len => ublksrv_json_write_target_base_info s len tgt) b.
Definition ublk_json_write_queue_info (nr_cores : Z) (isset : Z -> bool) (qid tid : Z) (b : ublksrv_tgt_jbuf) :=
  write_loop true write_fuel (fun s len => ublksrv_json_write_queue_info nr_cores isset s len qid tid) b.

Definition ublk_json_read_params (dflt : ublk_params) (b : ublksrv_tgt_jbuf) :=
  _ ← jb_alloc b; ublksrv_json_read_params dflt (jbuf b).
(** The size of the JSON buffer stands for the size of the caller's. *)
Definition ublk_json_read_target_str_info (name : string) (b : ublksrv_tgt_jbuf) :=
  _ ← jb_alloc b; ublksrv_json_read_target_str_info (jbuf b) (jbuf_size b) name.
Definition ublk_json_read_target_ulong_info (name : string) (b : ublksrv_tgt_jbuf) :=
  _ ← jb_alloc b; ublksrv_json_read_target_ulong_info (jbuf b) name.

(** ** The pid file

    The bytes of the file: the daemon's pid as text, and from offset 32 the
    terminated description. *)
Notation file := (list Ascii.ascii).

(** pwrite(2): a gap before the offset reads as zeroes. *)
Definition pwrite (off : nat) (data : file) (f : file) : file :=
  take off (f ++ replicate (off - length f) Ascii.zero) ++ data ++ drop (off + length data) f.

(** The C string at the start of some bytes.  The code reads a file into an
    allocation of exactly its size and relies on the terminator that
    ublk_tgt_store_dev_data wrote; without one it would read on past the
    allocation, and here the string ends there. *)
Fixpoint cstr (f : file) : string :=
  match f with
  | [] => EmptyString
  | c :: f => if Ascii.eqb c Ascii.zero then EmptyString else String c (cstr f)
  end.

(** [fd] of the open pid file; the file afterwards. *)
Definition ublk_tgt_store_dev_data (fd : Z) (b : ublksrv_tgt_jbuf) (f : file) : option (Z * file) :=
  len ← ublksrv_json_get_length (jbuf b);
  if fd <? 0 then Some (fd, f)
  else
    let bytes := String.list_ascii_of_string (jbuf b) ++ [Ascii.zero] in
    Some (len, pwrite (Z.to_nat JSON_OFFSET) (take (Z.to_nat len) bytes) f).

(** The same of a document the caller holds. *)
Definition ublksrv_tgt_store_dev_data (fd : Z) (buf : string) (f : file) : option (Z * file) :=
  len ← ublksrv_json_get_length buf;
  if fd <? 0 then Some (fd, f)
  else
    let bytes := String.list_ascii_of_string buf ++ [Ascii.zero] in
    Some (len, pwrite (Z.to_nat JSON_OFFSET) (take (Z.to_nat len) bytes) f).

(** The description and the size of its allocation; [None] when there is no
    file with a description. *)
Definition ublksrv_tgt_get_dev_data (run_dir : bool) (pid_file : option file) : option (string * Z) :=
  if negb run_dir then None
  else
    f ← pid_file;
    if Z.of_nat (length f) <=? JSON_OFFSET then None
    else Some (cstr (drop (Z.to_nat JSON_OFFSET) f), Z.of_nat (length f) - JSON_OFFSET).

Definition ublksrv_check_dev_data (dflt : ublk_params) (buf : file) : option Z :=
  if Z.of_nat (length buf) <? JSON_OFFSET then Some (- EINVAL)
  else fst <$> ublksrv_json_read_params dflt (cstr (drop (Z.to_nat JSON_OFFSET) buf)).

(** strtol(3), base 10, of the text at the start of the file. *)
Definition digit (c : Ascii.ascii) : option Z :=
  let n := Z.of_nat (Ascii.nat_of_ascii c) in if (48 <=? n) && (n <=? 57) then Some (n - 48) else None.
Fixpoint strtol_digits (f : file) (acc : Z) : Z :=
  match f with
  | [] => acc
  | c :: f => match digit c with Some d => strtol_digits f (acc * 10 + d) | None => acc end
  end.
Fixpoint skip_space (f : file) : file :=
  match f with
  | c :: f' => let n := Z.of_nat (Ascii.nat_of_ascii c) in
               if (n =? 32) || ((9 <=? n) && (n <=? 13)) then skip_space f' else f
  | [] => []
  end.
Definition strtol (f : file) : Z :=
  match skip_space f with
  | c :: f' => if Ascii.eqb c (Ascii.ascii_of_nat 45) then - strtol_digits f' 0
               else if Ascii.eqb c (Ascii.ascii_of_nat 43) then strtol_digits f' 0 else strtol_digits (c :: f') 0
  | [] => 0
  end.

(** [alive p]: kill(p, 0) succeeds.  The allocation made before the file was
    opened, and its release, have no part in the result. *)
Definition ublksrv_get_io_daemon_pid (dflt : ublk_params) (alive : Z -> bool) (run_dir : bool)
    (pid_file : option file) (check_data : bool) : option Z :=
  if negb run_dir then Some (- EINVAL)
  else
    match pid_file with
    | None => Some (-1)
    | Some f =>
        let buf := if check_data then f else take (Z.to_nat JSON_OFFSET) f in
        if Z.of_nat (length buf) <=? 0 then Some (-1)
        else
          let daemon_pid := s32 (strtol buf) in
          if daemon_pid <? 0 then Some (-1)
          else if negb (alive daemon_pid) then Some (-1)
          else if check_data then
            ret ← ublksrv_check_dev_data dflt buf;
            Some (if negb (ret =? 0) then ret else daemon_pid)
          else Some daemon_pid
    end.

(** [ublksrv_tgt_jbuf_init]: a fresh buffer holds whatever [junk] the
    allocation holds; recovery takes the description of the pid file. *)
Definition ublksrv_tgt_jbuf_init (junk : string) (recover : option (option (string * Z)))
    : option ublksrv_tgt_jbuf :=
  match recover with
  | Some (Some (text, size)) =>
      len ← ublksrv_json_get_length text;
      Some (mk_jbuf len (Some size) text)
  | Some None => Some (mk_jbuf 0 None "")
  | None => Some (tgt_realloc_jbuf (mk_jbuf 0 None junk)).2
  end.
End json_text.

(** ** What a write does *)
Section json_proofs.
Context `{!JsonText, !JsonTextLaws}.

(** The recorded size is the size of the allocation. *)
Definition jb_ok (b : ublksrv_tgt_jbuf) : Prop :=
  jb_alloc b = Some (jbuf_size b) /\ 0 <= jbuf_size b < UBLK_TGT_MAX_JBUF_SZ.

(** The largest size the buffer can grow to. *)
Definition grow_max (n : Z) : Z := n + 512 * ((UBLK_TGT_MAX_JBUF_SZ - 1 - n) / 512).

Definition always (n : Z) : bool := true.

Lemma grow_max_step n : 0 <= n -> n + 512 < UBLK_TGT_MAX_JBUF_SZ -> grow_max (n + 512) = grow_max n.
Proof. unfold grow_max, UBLK_TGT_MAX_JBUF_SZ. intros. Z.div_mod_to_equations. lia. Qed.

Lemma grow_max_last n : 0 <= n < UBLK_TGT_MAX_JBUF_SZ -> UBLK_TGT_MAX_JBUF_SZ <= n + 512 -> grow_max n = n.
Proof. unfold grow_max, UBLK_TGT_MAX_JBUF_SZ. intros. Z.div_mod_to_equations. lia. Qed.

Lemma grow_max_ge n : 0 <= n < UBLK_TGT_MAX_JBUF_SZ -> n <= grow_max n.
Proof. unfold grow_max, UBLK_TGT_MAX_JBUF_SZ. intros. Z.div_mod_to_equations. lia. Qed.

Lemma grow_max_lt n : 0 <= n < UBLK_TGT_MAX_JBUF_SZ ->
  grow_max n < UBLK_TGT_MAX_JBUF_SZ <= grow_max n + 512.
Proof. unfold grow_max, UBLK_TGT_MAX_JBUF_SZ. intros. Z.div_mod_to_equations. lia. Qed.

(** The write replaces the document by [j]. *)
Definition writes (write : string -> Z -> option (Z * string)) (s : string) (j : json) : Prop :=
  forall len, write s len = Some (dump_json_to_buf j s len).

Lemma write_loop_spec rd fuel write b j :
  jb_ok b -> writes write (jbuf b) j ->
  (Z.to_nat ((UBLK_TGT_MAX_JBUF_SZ - 1 - jbuf_size b) / 512) < fuel)%nat ->
  write_loop always rd fuel write b =
    Some (if slen (dump j) <? grow_max (jbuf_size b)
          then (slen (dump j), mk_jbuf (if slen (dump j) <? jbuf_size b then jbuf_size b
             else jbuf_size b + 512 * ((slen (dump j) - jbuf_size b) / 512 + 1))
             (Some (if slen (dump j) <? jbuf_size b then jbuf_size b
             else jbuf_size b + 512 * ((slen (dump j) - jbuf_size b) / 512 + 1))) (dump j))
          else (- EINVAL, mk_jbuf (grow_max (jbuf_size b) + 512) (Some (grow_max (jbuf_size b))) (jbuf b))).
Proof.
  revert b. induction fuel as [|fuel IH]; intros b [Ha Hn] Hw Hf; [lia|].
  cbn [write_loop]. rewrite Ha. replace (if rd then Some (jbuf_size b) else Some 0) with (Some (if rd then jbuf_size b else 0)) by (by destruct rd). cbn [mbind option_bind]. rewrite Hw. cbn [mbind option_bind].
  unfold dump_json_to_buf. pose proof (grow_max_ge _ Hn) as Hge.
  assert (0 <= slen (dump j)) by (unfold slen; lia).
  destruct (Z.ltb_spec (slen (dump j)) (jbuf_size b)) as [Hlt|Hnlt].
  { replace (slen (dump j) <? 0) with false by (symmetry; apply Z.ltb_ge; lia).
    unfold jb_store. rewrite Ha. rewrite (proj2 (Z.ltb_lt _ _) Hlt). cbn [mbind option_bind].
    by rewrite (proj2 (Z.ltb_lt (slen (dump j)) (grow_max _))) by lia. }
  change (- EINVAL <? 0) with true. cbn iota. unfold tgt_realloc_jbuf. rewrite Ha.
  destruct (Z.ltb_spec (jbuf_size b + 512) UBLK_TGT_MAX_JBUF_SZ) as [Hm|Hm].
  2:{ rewrite (grow_max_last _ Hn Hm), (proj2 (Z.ltb_ge _ _) Hnlt). done. }
  unfold always at 1. rewrite IH; cbn [jbuf_size jb_alloc jbuf]; [|split; cbn [jbuf_size]; [done|lia]|done|].
  2:{ unfold UBLK_TGT_MAX_JBUF_SZ in *. Z.div_mod_to_equations. lia. }
  rewrite grow_max_step by lia.
  destruct (Z.ltb_spec (slen (dump j)) (grow_max (jbuf_size b))); [|done].
  assert (Hsz : (if slen (dump j) <? jbuf_size b + 512 then jbuf_size b + 512
    else jbuf_size b + 512 + 512 * ((slen (dump j) - (jbuf_size b + 512)) / 512 + 1)) =
    jbuf_size b + 512 * ((slen (dump j) - jbuf_size b) / 512 + 1)).
  { destruct (Z.ltb_spec (slen (dump j)) (jbuf_size b + 512)); Z.div_mod_to_equations; lia. }
  by rewrite Hsz.
Qed.

(** A write that fits succeeds and keeps the buffer consistent; one that does
    not leaves the text alone. *)
Lemma write_loop_ok rd write b j :
  jb_ok b -> writes write (jbuf b) j -> slen (dump j) < grow_max (jbuf_size b) ->
  exists b', write_loop always rd write_fuel write b = Some (slen (dump j), b') /\ jb_ok b' /\ jbuf b' = dump j.
Proof.
  intros Hb Hw Hfit. rewrite (write_loop_spec _ _ _ _ j) by
    (done || (destruct Hb as [_ Hb]; unfold UBLK_TGT_MAX_JBUF_SZ, write_fuel in *; Z.div_mod_to_equations; lia)).
  rewrite (proj2 (Z.ltb_lt _ _) Hfit). eexists. split; [done|]. split; [|done]. destruct Hb as [_ Hn].
  split; [done|]. cbn [jbuf_size]. unfold grow_max, UBLK_TGT_MAX_JBUF_SZ in *.
  assert (0 <= slen (dump j)) by (unfold slen; lia).
  destruct (Z.ltb_spec (slen (dump j)) (jbuf_size b)); Z.div_mod_to_equations; lia.
Qed.

Lemma write_loop_refused rd write b j :
  jb_ok b -> writes write (jbuf b) j -> grow_max (jbuf_size b) <= slen (dump j) ->
  write_loop always rd write_fuel write b =
    Some (- EINVAL, mk_jbuf (grow_max (jbuf_size b) + 512) (Some (grow_max (jbuf_size b))) (jbuf b)).
Proof.
  intros Hb Hw Hfit. rewrite (write_loop_spec _ _ _ _ j) by
    (done || (destruct Hb as [_ Hb]; unfold UBLK_TGT_MAX_JBUF_SZ, write_fuel in *; Z.div_mod_to_equations; lia)).
  by rewrite (proj2 (Z.ltb_ge _ _) Hfit).
Qed.

(** ** The documents written *)
Definition with_params (p : ublk_params) (m : gmap string json) : json := JObj (<["params" := params_to_json p]> m).

Lemma params_writes p s m : parse s = Some (JObj m) -> writes (ublksrv_json_write_params p) s (with_params p m).
Proof. intros Hp len. unfold ublksrv_json_write_params, with_json. by rewrite Hp. Qed.

Lemma json_contains_obj k m : json_contains k (JObj m) = bool_decide (is_Some (m !! k)).
Proof. done. Qed.

Lemma read_params_doc d s m j : parse s = Some (JObj m) -> m !! "params" = Some j ->
  ublksrv_json_read_params d s = (p ← params_from_json d j; Some (0, Some p)).
Proof.
  intros Hp Hk. unfold ublksrv_json_read_params, with_json. rewrite Hp, json_contains_obj, Hk.
  rewrite bool_decide_true by (by eexists). cbn [negb json_get]. by rewrite Hk.
Qed.

(** Parameters survive: when the device's document with the new parameters
    fits, ublk_json_write_params grows the buffer as needed, returns the length
    of the text and leaves every other part of the document as it was, and
    ublk_json_read_params then gives the parameters back field by field. *)
Theorem json_params_roundtrip p d b m :
  jb_ok b -> parse (jbuf b) = Some (JObj m) -> params_ok p ->
  slen (dump (with_params p m)) < grow_max (jbuf_size b) ->
  exists b', ublk_json_write_params always p b = Some (slen (dump (with_params p m)), b') /\ jb_ok b' /\
    ublk_json_read_params d b' = Some (0, Some p) /\
    exists m', parse (jbuf b') = Some (JObj m') /\ forall k, k <> "params"%string -> m' !! k = m !! k.
Proof.
  intros Hb Hp Hok Hfit.
  destruct (write_loop_ok true (ublksrv_json_write_params p) b (with_params p m) Hb) as (b'&Hw&Hb'&Hj);
    [by apply params_writes|done|].
  exists b'. split; [done|]. split; [done|].
  assert (Hp' : parse (jbuf b') = Some (with_params p m)) by (rewrite Hj; apply parse_dump).
  split.
  - unfold ublk_json_read_params. rewrite (proj1 Hb'). cbn [mbind option_bind].
    rewrite (read_params_doc d _ _ (params_to_json p) Hp') by (apply lookup_insert_eq).
    by rewrite params_roundtrip.
  - eexists. split; [done|]. intros k Hk. by apply lookup_insert_ne.
Qed.

(** After a write was refused because the document is too big, the size
    recorded for the buffer is 512 bytes more than what is allocated, and a
    later document whose length lies in between is copied past the end of the
    allocation. *)
Theorem jbuf_overrun_after_refusal p1 p2 b m :
  jb_ok b -> parse (jbuf b) = Some (JObj m) ->
  grow_max (jbuf_size b) <= slen (dump (with_params p1 m)) ->
  grow_max (jbuf_size b) <= slen (dump (with_params p2 m)) < grow_max (jbuf_size b) + 512 ->
  exists b', ublk_json_write_params always p1 b = Some (- EINVAL, b') /\
    jb_alloc b' = Some (grow_max (jbuf_size b)) /\ jbuf_size b' = grow_max (jbuf_size b) + 512 /\
    ublk_json_write_params always p2 b' = None.
Proof.
  intros Hb Hp H1 H2. unfold ublk_json_write_params.
  rewrite (write_loop_refused _ _ _ (with_params p1 m) Hb) by (done || by apply params_writes).
  eexists. do 3 (split; [done|]). unfold write_fuel. cbn [write_loop jb_alloc jbuf jbuf_size mbind option_bind].
  rewrite (params_writes p2 _ m Hp). cbn [mbind option_bind]. unfold dump_json_to_buf.
  rewrite (proj2 (Z.ltb_lt _ _)) by lia.
  replace (slen (dump (with_params p2 m)) <? 0) with false by (symmetry; apply Z.ltb_ge; unfold slen; lia).
  unfold jb_store. cbn [jb_alloc]. rewrite (proj2 (Z.ltb_ge _ _)) by lia. done.
Qed.

Lemma write_success rd write b j ret b' :
  jb_ok b -> writes write (jbuf b) j -> write_loop always rd write_fuel write b = Some (ret, b') -> 0 <= ret ->
  jb_ok b' /\ jbuf b' = dump j.
Proof.
  intros Hb Hw Hrun Hret. destruct (Z_lt_le_dec (slen (dump j)) (grow_max (jbuf_size b))) as [Hfit|Hbig].
  - destruct (write_loop_ok rd write b j Hb Hw Hfit) as (b2&Hrun2&?&?). rewrite Hrun in Hrun2. by simplify_eq.
  - rewrite (write_loop_refused rd write b j Hb Hw Hbig) in Hrun. injection Hrun as <- _. done.
Qed.

(** The target object of a document. *)
Definition target_of (m : gmap string json) : gmap string json :=
  match m !! "target" with Some (JObj t) => t | _ => ∅ end.
Definition target_ok (m : gmap string json) : Prop :=
  match m !! "target" with Some (JObj _) | None => True | _ => False end.
Definition with_target (name : string) (v : json) (m : gmap string json) : gmap string json :=
  <["target" := JObj (<[name := v]> (target_of m))]> m.

Lemma json_set_target_obj name v m : target_ok m ->
  json_set_target name v (JObj m) = Some (JObj (with_target name v m)).
Proof.
  unfold target_ok, json_set_target, with_target, target_of. cbn [json_get].
  destruct (m !! "target") as [[]|]; cbn; try done.
Qed.

Lemma with_target_ok name v m : target_ok (with_target name v m).
Proof. unfold target_ok, with_target. by rewrite lookup_insert_eq. Qed.

Lemma target_of_with name v m : target_of (with_target name v m) = <[name := v]> (target_of m).
Proof. unfold target_of at 1, with_target. by rewrite lookup_insert_eq. Qed.

Lemma write_target_writes name v s m : parse s = Some (JObj m) -> target_ok m ->
  writes (write_target name v) s (JObj (with_target name v m)).
Proof. intros Hp Ht len. unfold write_target, with_json. rewrite Hp, json_set_target_obj by done. done. Qed.

Lemma contains_target m t : m !! "target" = Some (JObj t) ->
  json_contains "target" (JObj m) = true /\ json_get "target" (JObj m) = Some (JObj t).
Proof. intros Ht. cbn. rewrite Ht. split; [by apply bool_decide_true|done]. Qed.

(** Reading an entry of the target object. *)
Lemma read_ulong_doc s m t name v : parse s = Some (JObj m) -> m !! "target" = Some (JObj t) ->
  t !! name = Some v ->
  ublksrv_json_read_target_ulong_info s name = (v ← json_to_int u64 v; Some (0, Some v)).
Proof.
  intros Hp Hm Ht. unfold ublksrv_json_read_target_ulong_info, with_json.
  destruct (contains_target m t Hm) as [Hc Hg]. rewrite Hp, Hc, Hg. cbn [negb mbind option_bind].
  rewrite json_contains_obj, Ht, bool_decide_true by (by eexists). cbn [negb json_get]. by rewrite Ht.
Qed.

(** An entry a target writes into the description is the one it reads
    back after recovery: a non-negative number written with
    ublk_json_write_tgt_long is what ublk_json_read_target_ulong_info returns,
    and no other entry of the target and no other part of the document changes. *)
Theorem json_target_entry_roundtrip name v b m ret b' :
  jb_ok b -> parse (jbuf b) = Some (JObj m) -> target_ok m -> 0 <= v < 2^63 ->
  ublk_json_write_tgt_long always name v b = Some (ret, b') -> 0 <= ret ->
  jb_ok b' /\ ublk_json_read_target_ulong_info name b' = Some (0, Some v) /\
  exists m', parse (jbuf b') = Some (JObj m') /\
    (forall k, k <> name -> target_of m' !! k = target_of m !! k) /\
    (forall k, k <> "target"%string -> m' !! k = m !! k).
Proof.
  intros Hb Hp Ht Hv Hw Hret.
  destruct (write_success true _ _ (JObj (with_target name (JNum (s64 v)) m)) _ _ Hb
    (write_target_writes name (JNum (s64 v)) _ _ Hp Ht) Hw Hret) as [Hb' Hj].
  assert (Hp' : parse (jbuf b') = Some (JObj (with_target name (JNum (s64 v)) m))) by (rewrite Hj; apply parse_dump).
  split; [done|]. split.
  - unfold ublk_json_read_target_ulong_info. rewrite (proj1 Hb'). cbn [mbind option_bind].
    erewrite read_ulong_doc; [|exact Hp'|apply lookup_insert_eq|apply lookup_insert_eq].
    cbn [json_to_int mbind option_bind]. do 3 f_equal. unfold s64, u64.
    rewrite (Z.mod_small (v + 2^63)) by lia. rewrite Z.mod_small; lia.
  - eexists. split; [exact Hp'|]. split; [|intros k Hk; by apply lookup_insert_ne].
    intros k Hk. rewrite target_of_with. by apply lookup_insert_ne.
Qed.

(** ** The description of a device *)
Definition base_ok (t : ublksrv_tgt_base_json) : Prop :=
  slen (base_name t) < UBLKSRV_TGT_NAME_MAX_LEN /\ is_s32 (base_type t) /\ is_u64 (base_dev_size t).

Definition with_base (t : ublksrv_tgt_base_json) (m : gmap string json) : gmap string json :=
  with_target "dev_size" (JNum (base_dev_size t))
    (with_target "type" (JNum (base_type t)) (with_target "name" (JStr (base_name t)) m)).

Lemma base_writes t s m : parse s = Some (JObj m) -> target_ok m ->
  writes (fun s len => ublksrv_json_write_target_base_info s len t) s (JObj (with_base t m)).
Proof.
  intros Hp Ht len. unfold ublksrv_json_write_target_base_info, with_json. rewrite Hp.
  rewrite json_set_target_obj by done. cbn [mbind option_bind].
  rewrite json_set_target_obj by apply with_target_ok. cbn [mbind option_bind].
  rewrite json_set_target_obj by apply with_target_ok. done.
Qed.

Lemma read_base_doc s m t base : parse s = Some (JObj m) -> m !! "target" = Some (JObj t) ->
  t !! "name" = Some (JStr (base_name base)) -> t !! "type" = Some (JNum (base_type base)) ->
  t !! "dev_size" = Some (JNum (base_dev_size base)) -> base_ok base ->
  ublksrv_json_read_target_base_info s = Some (0, Some base).
Proof.
  intros Hp Hm H1 H2 H3 (Hn&Ht&Hd). unfold ublksrv_json_read_target_base_info, with_json.
  destruct (contains_target m t Hm) as [Hc Hg]. rewrite Hp, Hc, Hg. cbn [negb mbind option_bind].
  rewrite !json_contains_obj, H1, H2, H3, !bool_decide_true by (by eexists). cbn [negb orb json_get].
  rewrite H1, H2, H3. cbn [id default from_option mbind option_bind json_to_string json_to_int].
  rewrite (proj2 (Z.leb_gt _ _)) by done. rewrite s32_id, u64_id by done. by destruct base.
Qed.

Lemma read_dev_info_doc d s m info : parse s = Some (JObj m) ->
  m !! "dev_info" = Some (dev_info_to_json info) -> dev_info_ok info ->
  ublksrv_json_read_dev_info d s = Some (0, Some info).
Proof.
  intros Hp Hk Hok. unfold ublksrv_json_read_dev_info, with_json. rewrite Hp, json_contains_obj, Hk.
  rewrite bool_decide_true by (by eexists). cbn [negb json_get]. rewrite Hk. cbn [id default from_option mbind option_bind].
  by rewrite dev_info_roundtrip.
Qed.

Lemma dev_info_writes info s :
  writes (ublksrv_json_write_dev_info info) s (JObj {["dev_info" := dev_info_to_json info]}).
Proof. intros len. done. Qed.

(** C32: A device can be rebuilt from its description.  Writing the device
    information, the target's base information (name, type, size) and the
    parameters, in the order the targets do, into a buffer of any size below
    8192 succeeds when each of the documents is shorter than 7680 characters and
    memory can be had: each write grows the buffer as needed and returns the
    length of its document.  Reading the buffer then gives all three structures
    back exactly, whatever the buffer held before and whatever the structures
    held that they are read into. *)
Theorem json_description_roundtrip info base p b d1 d2 :
  let m1 := {["dev_info" := dev_info_to_json info]} : gmap string json in
  let m2 := with_base base m1 in
  let m3 := <["params" := params_to_json p]> m2 in
  jb_ok b -> dev_info_ok info -> base_ok base -> params_ok p ->
  Forall (fun m => slen (dump (JObj m)) < 7680) [m1; m2; m3] ->
  exists b1 b2 b3,
    ublk_json_write_dev_info always info b = Some (slen (dump (JObj m1)), b1) /\
    ublk_json_write_target_base always base b1 = Some (slen (dump (JObj m2)), b2) /\
    ublk_json_write_params always p b2 = Some (slen (dump (JObj m3)), b3) /\
    jb_ok b3 /\ jbuf b3 = dump (JObj m3) /\
    ublksrv_json_read_dev_info d1 (jbuf b3) = Some (0, Some info) /\
    ublksrv_json_read_target_base_info (jbuf b3) = Some (0, Some base) /\
    ublk_json_read_params d2 b3 = Some (0, Some p).
Proof.
  intros m1 m2 m3 Hb Hinfo Hbase Hparams Hfits. rewrite !Forall_cons in Hfits. destruct Hfits as (F1&F2&F3&_).
  assert (Hgrow : forall b : ublksrv_tgt_jbuf, jb_ok b -> 7680 <= grow_max (jbuf_size b)).
  { intros b' [_ Hb']. pose proof (grow_max_lt _ Hb'). unfold UBLK_TGT_MAX_JBUF_SZ in *. lia. }
  destruct (write_loop_ok false _ b (JObj m1) Hb (dev_info_writes info _)) as (b1&Hw1&Hb1&Hj1);
    [specialize (Hgrow b Hb); lia|].
  assert (Hp1 : parse (jbuf b1) = Some (JObj m1)) by (rewrite Hj1; apply parse_dump).
  assert (Ht1 : target_ok m1) by done.
  destruct (write_loop_ok true _ b1 (JObj m2) Hb1 (base_writes base _ _ Hp1 Ht1)) as (b2&Hw2&Hb2&Hj2);
    [specialize (Hgrow b1 Hb1); lia|].
  assert (Hp2 : parse (jbuf b2) = Some (JObj m2)) by (rewrite Hj2; apply parse_dump).
  destruct (write_loop_ok true _ b2 (JObj m3) Hb2 (params_writes p _ _ Hp2)) as (b3&Hw3&Hb3&Hj3);
    [specialize (Hgrow b2 Hb2); lia|].
  assert (Hp3 : parse (jbuf b3) = Some (JObj m3)) by (rewrite Hj3; apply parse_dump).
  exists b1, b2, b3. do 5 (split; [done|]). split; [|split].
  - eapply read_dev_info_doc; [exact Hp3| |done]. unfold m3, m2. by rewrite lookup_insert_ne.
  - eapply read_base_doc; [exact Hp3| | | | |done].
    + unfold m3. rewrite lookup_insert_ne by done. unfold m2, with_base. unfold with_target at 1. by rewrite lookup_insert_eq.
    + rewrite !target_of_with. by rewrite lookup_insert_ne, lookup_insert_ne, lookup_insert_eq.
    + rewrite !target_of_with. by rewrite lookup_insert_ne, lookup_insert_eq.
    + by rewrite lookup_insert_eq.
  - unfold ublk_json_read_params. rewrite (proj1 Hb3). cbn [mbind option_bind].
    erewrite read_params_doc; [|exact Hp3|apply lookup_insert_eq]. by rewrite params_roundtrip.
Qed.

(** ** Recovery *)
Lemma cstr_string s f : Forall (fun c => c <> Ascii.zero) (String.list_ascii_of_string s) ->
  cstr (String.list_ascii_of_string s ++ Ascii.zero :: f) = s.
Proof.
  induction s as [|c s IH]; intros Hn; [done|]. apply Forall_cons in Hn as [Hc Hn]. cbn.
  destruct (Ascii.eqb_spec c Ascii.zero); [done|]. f_equal. by apply IH.
Qed.

Lemma drop_pwrite off data f : drop off (pwrite off data f) = data ++ drop (off + length data) f.
Proof.
  unfold pwrite. apply drop_app_length'. rewrite length_take, length_app, length_replicate. lia.
Qed.

Lemma length_list_ascii s : length (String.list_ascii_of_string s) = String.length s.
Proof. induction s as [|c s IH]; cbn; [done|]. by rewrite IH. Qed.

(** C29: Recovery finds what the daemon stored: after ublk_tgt_store_dev_data
    wrote the description behind the pid of a fresh pid file,
    ublksrv_tgt_get_dev_data returns exactly that text, the check of ublksrv_get_io_daemon_pid accepts the file,
    and a buffer initialised for recovery from it is consistent and gives the
    device's parameters back. *)
Theorem recovery_reads_stored_data fd b f m p d :
  0 <= fd -> jbuf b = dump (JObj m) -> m !! "params" = Some (params_to_json p) -> params_ok p ->
  slen (jbuf b) < UBLK_TGT_MAX_JBUF_SZ - 1 -> Z.of_nat (length f) <= JSON_OFFSET ->
  exists len f', ublk_tgt_store_dev_data fd b f = Some (len, f') /\ 0 < len /\
    ublksrv_tgt_get_dev_data true (Some f') = Some (jbuf b, len) /\
    ublksrv_check_dev_data d f' = Some 0 /\
    exists b', ublksrv_tgt_jbuf_init always "" (Some (ublksrv_tgt_get_dev_data true (Some f'))) = Some b' /\
      jb_ok b' /\ ublk_json_read_params d b' = Some (0, Some p).
Proof.
  intros Hfd Hj Hm Hp Hlen Hf. unfold ublk_tgt_store_dev_data, ublksrv_json_get_length.
  rewrite Hj, parse_dump. cbn [mbind option_bind]. rewrite (proj2 (Z.ltb_ge _ _)) by lia.
  set (s := dump (JObj m)) in *. assert (0 <= slen s) by (unfold slen; lia).
  set (bytes := String.list_ascii_of_string s ++ [Ascii.zero]).
  assert (Hb : Z.of_nat (length bytes) = slen s + 1).
  { subst bytes. rewrite length_app, length_list_ascii. unfold slen. cbn. lia. }
  rewrite firstn_all2 by lia. set (f' := pwrite _ bytes f). exists (slen s + 1), f'.
  split; [done|]. split; [lia|].
  assert (Hread : cstr (drop (Z.to_nat JSON_OFFSET) f') = s).
  { subst f'. rewrite drop_pwrite. subst bytes. rewrite <- app_assoc. cbn [app]. apply cstr_string, dump_no_nul. }
  assert (Hlf : Z.of_nat (length f') = JSON_OFFSET + (slen s + 1)).
  { subst f'. unfold pwrite, JSON_OFFSET in *.
    rewrite !length_app, length_take, length_app, length_replicate, length_drop. lia. }
  assert (Hget : ublksrv_tgt_get_dev_data true (Some f') = Some (s, slen s + 1)).
  { unfold ublksrv_tgt_get_dev_data. cbn [negb mbind option_bind].
    rewrite (proj2 (Z.leb_gt _ _)) by lia. rewrite Hread. do 2 f_equal. lia. }
  assert (Hrp : ublksrv_json_read_params d s = Some (0, Some p)).
  { rewrite (read_params_doc d s m (params_to_json p)) by (done || apply parse_dump).
    by rewrite params_roundtrip. }
  rewrite Hget. split; [done|]. split.
  { unfold ublksrv_check_dev_data. rewrite (proj2 (Z.ltb_ge _ _)), Hread, Hrp by lia. done. }
  unfold ublksrv_tgt_jbuf_init, ublksrv_json_get_length. subst s. rewrite parse_dump. cbn [mbind option_bind].
  eexists. split; [done|]. split; [split; [done|]; cbn [jbuf_size]; rewrite <- Hj in *; unfold UBLK_TGT_MAX_JBUF_SZ in *; lia|].
  done.
Qed.
End json_proofs.
