(* ===== verification/JsonExamples.v ===== *)
(** * A text format for JSON values

    A concrete [dump] and [parse] that satisfy the laws of Json.v (a packed
    binary form rather than JSON's own syntax, which the theorems do not
    depend on), and witnesses on documents written in it. *)

From S2P Require Import Prelude UblkCmd Params Json.

(** ** Values as trees *)
Fixpoint json_size (j : json) : nat :=
  match j with
  | JArr l => S (foldr (fun j n => json_size j + n)%nat 0%nat l)
  | JObj m => S (map_fold (fun _ j n => json_size j + n)%nat 0%nat m)
  | _ => 1%nat
  end.

Lemma json_size_arr l j : j ∈ l -> (json_size j < json_size (JArr l))%nat.
Proof.
  intros Hin. cbn. induction l as [|x l IH]; [by apply elem_of_nil in Hin|].
  apply elem_of_cons in Hin as [->|Hin]; cbn; [lia|]. specialize (IH Hin). lia.
Qed.

Lemma json_size_obj m k j : m !! k = Some j -> (json_size j < json_size (JObj m))%nat.
Proof.
  intros Hk. cbn. rewrite (map_fold_delete_L _ _ k j m); [lia| |done]. intros. lia.
Qed.

Lemma json_ind_nested (P : json -> Prop) :
  P JNull -> (forall b, P (JBool b)) -> (forall z, P (JNum z)) -> (forall s z, P (JFloat s z)) ->
  (forall s, P (JStr s)) -> (forall l, (forall j, j ∈ l -> P j) -> P (JArr l)) ->
  (forall m, (forall k j, m !! k = Some j -> P j) -> P (JObj m)) -> forall j, P j.
Proof.
  intros H1 H2 H3 H4 H5 H6 H7 j. remember (json_size j) as n eqn:Hn. revert j Hn.
  induction (lt_wf n) as [n _ IH]. intros j ->. destruct j; auto.
  - apply H6. intros j Hj. eapply IH; [by apply json_size_arr|done].
  - apply H7. intros k j Hj. eapply IH; [by eapply json_size_obj|done].
Qed.

Fixpoint json_tree (j : json) : gen_tree (string + Z) :=
  match j with
  | JNull => GenNode 0 []
  | JBool b => GenNode 1 [GenLeaf (inr (if b then 1 else 0))]
  | JNum z => GenNode 2 [GenLeaf (inr z)]
  | JFloat s z => GenNode 3 [GenLeaf (inl s); GenLeaf (inr z)]
  | JStr s => GenNode 4 [GenLeaf (inl s)]
  | JArr l => GenNode 5 (map json_tree l)
  | JObj m => GenNode 6 (map_fold (fun k j acc => GenLeaf (inl k) :: json_tree j :: acc) [] m)
  end.

Fixpoint tree_json (t : gen_tree (string + Z)) : json :=
  match t with
  | GenNode 1 [GenLeaf (inr z)] => JBool (z =? 1)
  | GenNode 2 [GenLeaf (inr z)] => JNum z
  | GenNode 3 [GenLeaf (inl s); GenLeaf (inr z)] => JFloat s z
  | GenNode 4 [GenLeaf (inl s)] => JStr s
  | GenNode 5 l => JArr (map tree_json l)
  | GenNode 6 l =>
      JObj ((fix go (l : list (gen_tree (string + Z))) : gmap string json :=
               match l with
               | GenLeaf (inl k) :: t :: l => <[k := tree_json t]> (go l)
               | _ => ∅
               end) l)
  | _ => JNull
  end.

Lemma tree_json_tree j : tree_json (json_tree j) = j.
Proof.
  induction j as [|[]| | | |l IH|m IH] using json_ind_nested; try done.
  - cbn. f_equal. induction l as [|x l IHl]; [done|]. cbn. rewrite IH by left.
    f_equal. apply IHl. intros j Hj. apply IH. by right.
  - cbn. f_equal. revert IH. apply (map_fold_weak_ind (fun r m =>
      (forall k j, m !! k = Some j -> tree_json (json_tree j) = j) -> _ r = m)); [done|].
    intros k x m' r Hk IHm IH. rewrite (IH k) by apply lookup_insert_eq. f_equal. apply IHm.
    intros k' j Hj. apply (IH k'). rewrite lookup_insert_ne; [done|]. by intros ->; congruence.
Qed.

(** ** Trees as text *)
Fixpoint pos_bits (p : positive) : list bool :=
  match p with xH => [] | xO p => false :: pos_bits p | xI p => true :: pos_bits p end.
Fixpoint bits_pos (l : list bool) : positive :=
  match l with [] => xH | false :: l => xO (bits_pos l) | true :: l => xI (bits_pos l) end.

Lemma bits_pos_bits p : bits_pos (pos_bits p) = p.
Proof. by induction p as [p IH|p IH|]; cbn; rewrite ?IH. Qed.

(** Seven bits to a character while there are seven, then one; no character is
    zero. *)
Fixpoint pack (l : list bool) : string :=
  match l with
  | a :: ((b :: c :: d :: e :: f :: g :: l') as l1) => String (Ascii.Ascii a b c d e f g true) (pack l')
  | a :: l1 => String (Ascii.Ascii a true false false false false false false) (pack l1)
  | [] => EmptyString
  end.
Fixpoint unpack (s : string) : list bool :=
  match s with
  | EmptyString => []
  | String (Ascii.Ascii a b c d e f g true) s => a :: b :: c :: d :: e :: f :: g :: unpack s
  | String (Ascii.Ascii a _ _ _ _ _ _ false) s => a :: unpack s
  end.

Lemma list7_ind (P : list bool -> Prop) :
  (forall l, (length l < 7)%nat -> P l) ->
  (forall a b c d e f g l, P l -> P (a :: b :: c :: d :: e :: f :: g :: l)) -> forall l, P l.
Proof.
  intros H1 H2 l. remember (length l) as n eqn:Hn. revert l Hn. induction (lt_wf n) as [n _ IH]. intros l ->.
  destruct l as [|a [|b [|c [|d [|e [|f [|g l]]]]]]]; try (apply H1; cbn; lia).
  apply H2. eapply IH; [|done]. cbn. lia.
Qed.

Lemma unpack_pack l : unpack (pack l) = l.
Proof.
  induction l as [l Hl|a b c d e f g l IH] using list7_ind; [|cbn; by rewrite IH].
  destruct l as [|a [|b [|c [|d [|e [|f [|g l]]]]]]]; try done. cbn in Hl. lia.
Qed.

Lemma pack_no_nul l : Forall (fun c => c <> Ascii.zero) (String.list_ascii_of_string (pack l)).
Proof.
  induction l as [l Hl|a b c d e f g l IH] using list7_ind; [|by constructor].
  destruct l as [|a [|b [|c [|d [|e [|f [|g l]]]]]]]; cbn in Hl; try lia; repeat constructor; done.
Qed.

#[global] Instance packed_json : JsonText := {
  dump j := pack (pos_bits (encode (json_tree j)));
  parse s := tree_json <$> decode (bits_pos (unpack s))
}.

#[global] Instance packed_json_laws : JsonTextLaws.
Proof.
  split; intros j; cbn.
  - rewrite unpack_pack, bits_pos_bits, decode_encode. cbn. by rewrite tree_json_tree.
  - apply pack_no_nul.
Qed.

(** ** Witnesses *)
Definition exj_params : ublk_params :=
  mk_params 136 3 (mk_param_basic 4 9 12 12 9 1024 0 2097152 0) (mk_param_discard 0 4096 8388607 0 1 0)
    (mk_param_devt 0 0 0 0) (mk_param_zoned 0 0 0 0 0 0) (mk_param_dma 0 0) (mk_param_segment 0 0 0 0)
    (mk_param_integrity 0 0 0 0 0 0 0).
Definition exj_info : ublksrv_ctrl_dev_info := mk_dev_info 1 128 1 0 524288 0 4242 0 0 1 0 0 0 0.
Definition exj_base : ublksrv_tgt_base_json := mk_tgt_base "null" 0 268435456000.

Lemma exj_params_ok : params_ok exj_params.
Proof. vm_compute. repeat split; discriminate. Qed.
Lemma exj_info_ok : dev_info_ok exj_info.
Proof. vm_compute. repeat split; discriminate. Qed.

(** A buffer of 512 bytes that holds an empty document. *)
Definition exj_doc : gmap string json := {["dev_info" := dev_info_to_json exj_info]}.
Definition exj_buf : ublksrv_tgt_jbuf := mk_jbuf 512 (Some 512) (dump (JObj exj_doc)).

Lemma exj_buf_ok : jb_ok exj_buf.
Proof. split; [reflexivity|]. vm_compute. split; [discriminate|reflexivity]. Qed.

Lemma json_params_roundtrip_witness :
  exists b', ublk_json_write_params always exj_params exj_buf
      = Some (slen (dump (with_params exj_params exj_doc)), b') /\
    ublk_json_read_params exj_params b' = Some (0, Some exj_params).
Proof.
  destruct (json_params_roundtrip exj_params exj_params exj_buf exj_doc) as (b'&Hw&_&Hr&_).
  - exact exj_buf_ok.
  - apply parse_dump.
  - exact exj_params_ok.
  - vm_compute. reflexivity.
  - exists b'. split; [exact Hw|exact Hr].
Defined.

(** A document that leaves less than 512 bytes below the limit. *)
Definition exj_big : gmap string json :=
  {["target" := JObj {["cookie" := JStr (String.string_of_list_ascii (replicate 2800 (Ascii.ascii_of_nat 120)))]}]}.
Definition exj_big_buf : ublksrv_tgt_jbuf := mk_jbuf 512 (Some 512) (dump (JObj exj_big)).

Lemma jbuf_overrun_after_refusal_witness :
  exists b', ublk_json_write_params always exj_params exj_big_buf = Some (- EINVAL, b') /\
    jb_alloc b' = Some 7680 /\ jbuf_size b' = 8192 /\
    ublk_json_write_params always exj_params b' = None.
Proof.
  apply (jbuf_overrun_after_refusal exj_params exj_params exj_big_buf exj_big).
  - split; [reflexivity|]. vm_compute. split; [discriminate|reflexivity].
  - apply parse_dump.
  - vm_compute. discriminate.
  - vm_compute. split; [discriminate|reflexivity].
Defined.

Definition exj_after (r : option (Z * ublksrv_tgt_jbuf)) : ublksrv_tgt_jbuf :=
  match r with Some (_, b) => b | None => exj_buf end.
Definition exj_ret (r : option (Z * ublksrv_tgt_jbuf)) : Z :=
  match r with Some (z, _) => z | None => -1 end.

Lemma json_target_entry_roundtrip_witness :
  ublk_json_read_target_ulong_info "offset" (exj_after (ublk_json_write_tgt_long always "offset" 77 exj_buf))
    = Some (0, Some 77).
Proof.
  destruct (json_target_entry_roundtrip "offset" 77 exj_buf exj_doc
    (exj_ret (ublk_json_write_tgt_long always "offset" 77 exj_buf))
    (exj_after (ublk_json_write_tgt_long always "offset" 77 exj_buf))) as (_&Hr&_).
  - exact exj_buf_ok.
  - apply parse_dump.
  - exact I.
  - lia.
  - vm_compute. reflexivity.
  - vm_compute. discriminate.
  - exact Hr.
Defined.

Definition exj_w1 : option (Z * ublksrv_tgt_jbuf) := ublk_json_write_dev_info always exj_info exj_buf.
Definition exj_w2 : option (Z * ublksrv_tgt_jbuf) := ublk_json_write_target_base always exj_base (exj_after exj_w1).
Definition exj_w3 : option (Z * ublksrv_tgt_jbuf) := ublk_json_write_params always exj_params (exj_after exj_w2).

(** What the structures held before they were read into. *)
Definition exj_junk : ublk_params :=
  mk_params 7 7 (mk_param_basic 7 7 7 7 7 7 7 7 7) (mk_param_discard 7 7 7 7 7 7)
    (mk_param_devt 7 7 7 7) (mk_param_zoned 7 7 7 7 7 7) (mk_param_dma 7 7) (mk_param_segment 7 7 7 7)
    (mk_param_integrity 7 7 7 7 7 7 7).

Lemma json_description_roundtrip_witness :
  exists b1 b2 b3, ublk_json_write_dev_info always exj_info exj_buf = Some (exj_ret exj_w1, b1) /\
    ublk_json_write_target_base always exj_base b1 = Some (exj_ret exj_w2, b2) /\
    ublk_json_write_params always exj_params b2 = Some (exj_ret exj_w3, b3) /\
    ublksrv_json_read_target_base_info (jbuf b3) = Some (0, Some exj_base) /\
    ublk_json_read_params exj_junk b3 = Some (0, Some exj_params).
Proof.
  destruct (json_description_roundtrip exj_info exj_base exj_params exj_buf exj_info exj_junk)
    as (b1&b2&b3&H1&H2&H3&_&_&_&Hb&Hp).
  - exact exj_buf_ok.
  - exact exj_info_ok.
  - vm_compute. repeat split; discriminate.
  - exact exj_params_ok.
  - repeat constructor; apply Z.ltb_lt; vm_compute; reflexivity.
  - exists b1, b2, b3. split; [rewrite H1; vm_compute; reflexivity|]. split; [rewrite H2; vm_compute; reflexivity|].
    split; [rewrite H3; vm_compute; reflexivity|]. split; [exact Hb|exact Hp].
Defined.

(** The pid file of process 4242. *)
Definition exj_pid_file : list Ascii.ascii := String.list_ascii_of_string "4242".

Lemma recovery_reads_stored_data_witness :
  exists len f', ublk_tgt_store_dev_data 3 (exj_after exj_w3) exj_pid_file = Some (len, f') /\
    ublksrv_tgt_get_dev_data true (Some f') = Some (jbuf (exj_after exj_w3), len).
Proof.
  destruct (recovery_reads_stored_data 3 (exj_after exj_w3) exj_pid_file
    (<["params" := params_to_json exj_params]> (with_base exj_base exj_doc)) exj_params exj_params)
    as (len&f'&Hs&_&Hg&_).
  - lia.
  - vm_compute. reflexivity.
  - apply lookup_insert_eq.
  - exact exj_params_ok.
  - vm_compute. reflexivity.
  - vm_compute. discriminate.
  - exists len, f'. split; [exact Hs|exact Hg].
Defined.
