(* ===== verification/Ctrl.v ===== *)
(** * Control commands (lib/ublksrv_cmd.c)

    A control device sends commands to /dev/ublk-control through a ring of its
    own and waits for each.  The kernel side (the ring and the driver) is an
    interface: it hands out ring slots, whose earlier contents stay where the
    code does not overwrite them, and answers commands.  Each definition is one
    function of the source; [None] is a failed assertion, a crash, or a wait
    that never ends.  The commands sent are logged in the order of submission. *)

From S2P Require Import Prelude Bytes UblkCmd Params Json.
From stdpp Require Import pretty.
#[local] Open Scope Z_scope.

Definition CTRL_CMD_HAS_DATA : Z := 1.
Definition CTRL_CMD_HAS_BUF : Z := 2.
Definition CTRL_CMD_NO_TRANS : Z := 4.
Definition UBLKC_PATH_MAX : Z := 32.
Definition UBLKC_DEV : string := "/dev/ublkc".
Definition IORING_OP_URING_CMD : Z := 46.

Definition sizeof_dev_info : Z := 64.
Definition sizeof_params : Z := 152.
Definition sizeof_cpu_set : Z := 128.

(** ** Data *)

(** What the buffer of a command holds behind the device path. *)
Inductive ctrl_payload :=
  | PNone
  | PInfo (i : ublksrv_ctrl_dev_info)
  | PParams (p : ublk_params)
  | PFeatures (f : Z)
  | PCpuset (bytes : list Z).

(** The memory a command points to: the path of the char device in its first
    32 bytes, when it has one, and the payload. *)
Record ctrl_buf := mk_ctrl_buf { cb_path : option string; cb_payload : ctrl_payload }.

(** The places whose addresses are given to the driver. *)
Inductive ctrl_loc := LDevInfo | LLocal | LParams | LFeatures | LCpusets.

Record ublksrv_ctrl_cmd_data := mk_cmd_data {
  cmd_op : Z;           (* unsigned int *)
  cmd_flags : Z;        (* unsigned short *)
  cmd_data0 : Z;        (* __u64 *)
  cmd_path_len : Z;     (* __u16 *)
  cmd_addr : Z;         (* __u64 *)
  cmd_len : Z           (* __u32 *)
}.

(** The submission entry of a control command. *)
Record ctrl_sqe := mk_ctrl_sqe {
  cs_fd : Z;
  cs_opcode : Z;
  cs_ioprio : Z;
  cs_cmd_op : Z;
  cs_cmd : ublksrv_ctrl_cmd
}.

Record ublksrv_ctrl_dev := mk_ctrl_dev {
  ctrl_fd : Z;
  dev_info : ublksrv_ctrl_dev_info;
  tgt_jbuf : ublksrv_tgt_jbuf;          (* data->jbuf *)
  recover : bool;                       (* data->recover *)
  run_dir : option string;
  queues_cpuset : option (list Z);      (* the bytes of the array, None: NULL *)
  sent : list (ctrl_sqe * ctrl_buf)     (* every command sent so far *)
}.

Definition set_info (i : ublksrv_ctrl_dev_info) (d : ublksrv_ctrl_dev) :=
  mk_ctrl_dev (ctrl_fd d) i (tgt_jbuf d) (recover d) (run_dir d) (queues_cpuset d) (sent d).
Definition set_cpuset (c : option (list Z)) (d : ublksrv_ctrl_dev) :=
  mk_ctrl_dev (ctrl_fd d) (dev_info d) (tgt_jbuf d) (recover d) (run_dir d) c (sent d).
Definition log_cmd (s : ctrl_sqe) (b : ctrl_buf) (d : ublksrv_ctrl_dev) :=
  mk_ctrl_dev (ctrl_fd d) (dev_info d) (tgt_jbuf d) (recover d) (run_dir d) (queues_cpuset d) (sent d ++ [(s, b)]).
Definition set_pid (pid : Z) (i : ublksrv_ctrl_dev_info) : ublksrv_ctrl_dev_info :=
  mk_dev_info (nr_hw_queues i) (queue_depth i) (dev_state i) (pad0 i) (max_io_buf_bytes i) (dev_id i)
    pid (pad1 i) (dev_flags i) (ublksrv_flags i) (owner_uid i) (owner_gid i) (reserved1 i) (reserved2 i).

(** ** The kernel *)

(** What happens to a submitted command: the results of the calls of
    io_uring_submit_and_wait, the result of io_uring_peek_cqe, the result in
    the completion, what the driver left in the payload of the buffer, and the
    kernel afterwards. *)
Record ctrl_answer {K : Type} := mk_answer {
  an_submits : list Z;
  an_peek : Z;
  an_res : Z;
  an_payload : ctrl_payload;
  an_kernel : K
}.
Arguments ctrl_answer : clear implicits.
Arguments mk_answer {K}.

Class CtrlKernel (K : Type) := {
  k_slot : K -> option ctrl_sqe;                              (* io_uring_get_sqe *)
  k_answer : K -> ctrl_sqe -> ctrl_buf -> ctrl_answer K;
  k_addr : ctrl_loc -> Z                                      (* where things lie in memory *)
}.

Definition ublk_is_unprivileged (d : ublksrv_ctrl_dev) : bool :=
  has (dev_flags (dev_info d)) UBLK_F_UNPRIVILEGED_DEV.

(** [snprintf(buf, UBLKC_PATH_MAX, "%s%d", UBLKC_DEV, dev_id)] *)
Definition dev_path (d : ublksrv_ctrl_dev) : string :=
  String.substring 0 (Z.to_nat (UBLKC_PATH_MAX - 1)) (UBLKC_DEV +:+ pretty (s32 (dev_id (dev_info d)))).

Definition ublksrv_ctrl_init_cmd (d : ublksrv_ctrl_dev) (slot : ctrl_sqe) (data : ublksrv_ctrl_cmd_data)
    : option ctrl_sqe :=
  let old := cs_cmd slot in
  let buf := has (cmd_flags data) CTRL_CMD_HAS_BUF in
  let inl := has (cmd_flags data) CTRL_CMD_HAS_DATA in
  let cmd := mk_ctrl_cmd (dev_id (dev_info d)) (u16 (-1))
    (if buf then u16 (cmd_len data) else cc_len old) (if buf then cmd_addr data else cc_addr old)
    (if inl then cmd_data0 data else cc_data0 old) (if inl then cmd_path_len data else cc_dev_path_len old) in
  op ← (if negb (has (cmd_flags data) CTRL_CMD_NO_TRANS) && has (dev_flags (dev_info d)) UBLK_F_CMD_IOCTL_ENCODE
        then legacy_op_to_ioctl (cmd_op data) else Some (cmd_op data));
  Some (mk_ctrl_sqe (ctrl_fd d) IORING_OP_URING_CMD 0 op cmd).

(** [do ret = submit_and_wait() while (ret == -EINTR)] over the results the
    calls give. *)
Fixpoint submit_wait (rets : list Z) : option Z :=
  match rets with
  | [] => None
  | ret :: rets => if ret =? - EINTR then submit_wait rets else Some ret
  end.

Section ctrl.
Context {K : Type} `{!CtrlKernel K}.

(** The result, the payload of the buffer afterwards, the device and the kernel. *)
Definition __ublksrv_ctrl_cmd (d : ublksrv_ctrl_dev) (k : K) (data : ublksrv_ctrl_cmd_data) (b : ctrl_buf)
    : option (Z * ctrl_payload * ublksrv_ctrl_dev * K) :=
  match k_slot k with
  | None => Some (- EINVAL, cb_payload b, d, k)
  | Some slot =>
      sqe ← ublksrv_ctrl_init_cmd d slot data;
      let a := k_answer k sqe b in
      let d := log_cmd sqe b d in
      ret ← submit_wait (an_submits a);
      Some (if ret <? 0 then ret else if an_peek a <? 0 then an_peek a else an_res a,
            an_payload a, d, an_kernel a)
  end.

(** The macro ublk_un_privileged_prep_data. *)
Definition ublk_un_privileged_prep_data (d : ublksrv_ctrl_dev) (data : ublksrv_ctrl_cmd_data)
    : ublksrv_ctrl_cmd_data * ctrl_buf :=
  if ublk_is_unprivileged d
  then (mk_cmd_data (cmd_op data) (Z.lor (cmd_flags data) (Z.lor CTRL_CMD_HAS_BUF CTRL_CMD_HAS_DATA))
          (cmd_data0 data) UBLKC_PATH_MAX (k_addr LLocal) UBLKC_PATH_MAX,
        mk_ctrl_buf (Some (dev_path d)) PNone)
  else (data, mk_ctrl_buf None PNone).

(** A command without a payload of its own. *)
Definition plain_cmd (d : ublksrv_ctrl_dev) (k : K) (data : ublksrv_ctrl_cmd_data)
    : option (Z * ublksrv_ctrl_dev * K) :=
  let '(data, b) := ublk_un_privileged_prep_data d data in
  '(ret, _, d, k) ← __ublksrv_ctrl_cmd d k data b;
  Some (ret, d, k).

Definition ublksrv_ctrl_start_dev (d : ublksrv_ctrl_dev) (k : K) (daemon_pid : Z) :=
  let '(data, b) := ublk_un_privileged_prep_data d (mk_cmd_data UBLK_CMD_START_DEV CTRL_CMD_HAS_DATA 0 0 0 0) in
  let data := mk_cmd_data (cmd_op data) (cmd_flags data) (u64 daemon_pid) (cmd_path_len data) (cmd_addr data) (cmd_len data) in
  let d := set_info (set_pid (s32 (u64 daemon_pid)) (dev_info d)) d in
  '(ret, _, d, k) ← __ublksrv_ctrl_cmd d k data b;
  Some (ret, d, k).

Definition ublksrv_ctrl_end_recovery (d : ublksrv_ctrl_dev) (k : K) (daemon_pid : Z) :=
  let '(data, b) := ublk_un_privileged_prep_data d (mk_cmd_data UBLK_CMD_END_USER_RECOVERY CTRL_CMD_HAS_DATA 0 0 0 0) in
  let data := mk_cmd_data (cmd_op data) (cmd_flags data) (u64 daemon_pid) (cmd_path_len data) (cmd_addr data) (cmd_len data) in
  let d := set_info (set_pid (s32 (u64 daemon_pid)) (dev_info d)) d in
  '(ret, _, d, k) ← __ublksrv_ctrl_cmd d k data b;
  Some (ret, d, k).

Definition ublksrv_ctrl_del_dev_async (d : ublksrv_ctrl_dev) (k : K) :=
  plain_cmd d k (mk_cmd_data UBLK_U_CMD_DEL_DEV_ASYNC CTRL_CMD_NO_TRANS 0 0 0 0).
Definition ublksrv_ctrl_del_dev (d : ublksrv_ctrl_dev) (k : K) :=
  plain_cmd d k (mk_cmd_data UBLK_CMD_DEL_DEV 0 0 0 0 0).
Definition ublksrv_ctrl_stop_dev (d : ublksrv_ctrl_dev) (k : K) :=
  plain_cmd d k (mk_cmd_data UBLK_CMD_STOP_DEV 0 0 0 0 0).
Definition ublksrv_ctrl_start_recovery (d : ublksrv_ctrl_dev) (k : K) :=
  plain_cmd d k (mk_cmd_data UBLK_CMD_START_USER_RECOVERY 0 0 0 0 0).

(** The driver answers a command with the payload it was given or one of the
    same kind; anything else left the memory alone. *)
Definition reply_info (old : ublksrv_ctrl_dev_info) (p : ctrl_payload) :=
  match p with PInfo i => i | _ => old end.
Definition reply_params (old : ublk_params) (p : ctrl_payload) :=
  match p with PParams q => q | _ => old end.
Definition reply_features (old : Z) (p : ctrl_payload) :=
  match p with PFeatures f => f | _ => old end.

(** The driver writes straight into [dev->dev_info]. *)
Definition __ublksrv_ctrl_add_dev (d : ublksrv_ctrl_dev) (k : K) (op : Z) :=
  '(ret, p, d, k) ← __ublksrv_ctrl_cmd d k
    (mk_cmd_data op (Z.lor CTRL_CMD_HAS_BUF CTRL_CMD_NO_TRANS) 0 0 (k_addr LDevInfo) sizeof_dev_info)
    (mk_ctrl_buf None (PInfo (dev_info d)));
  Some (ret, set_info (reply_info (dev_info d) p) d, k).

Definition ublksrv_ctrl_add_dev (d : ublksrv_ctrl_dev) (k : K) :=
  '(ret, d, k) ← __ublksrv_ctrl_add_dev d k UBLK_U_CMD_ADD_DEV;
  if ret <? 0 then __ublksrv_ctrl_add_dev d k UBLK_CMD_ADD_DEV else Some (ret, d, k).

(** A zeroed [struct ublksrv_ctrl_dev_info]. *)
Definition zero_info : ublksrv_ctrl_dev_info := mk_dev_info 0 0 0 0 0 0 0 0 0 0 0 0 0 0.

Definition __ublksrv_ctrl_get_info_no_trans (d : ublksrv_ctrl_dev) (k : K) (op : Z) :=
  let flags := Z.lor CTRL_CMD_HAS_BUF CTRL_CMD_NO_TRANS in
  if ublk_is_unprivileged d && (_IOC_NR op =? UBLK_CMD_GET_DEV_INFO) then Some (- EINVAL, d, k)
  else if _IOC_NR op =? UBLK_CMD_GET_DEV_INFO2 then
    '(ret, p, d, k) ← __ublksrv_ctrl_cmd d k
      (mk_cmd_data op (Z.lor flags (Z.lor CTRL_CMD_HAS_BUF CTRL_CMD_HAS_DATA)) 0 UBLKC_PATH_MAX
         (k_addr LLocal) (UBLKC_PATH_MAX + sizeof_dev_info))
      (mk_ctrl_buf (Some (dev_path d)) (PInfo zero_info));
    Some (ret, (if 0 <=? ret then set_info (reply_info zero_info p) d else d), k)
  else
    '(ret, p, d, k) ← __ublksrv_ctrl_cmd d k (mk_cmd_data op flags 0 0 (k_addr LDevInfo) sizeof_dev_info)
      (mk_ctrl_buf None (PInfo (dev_info d)));
    Some (ret, set_info (reply_info (dev_info d) p) d, k).

Definition __ublksrv_ctrl_get_info (d : ublksrv_ctrl_dev) (k : K) (op : Z) :=
  new_code ← legacy_op_to_ioctl op;
  '(ret, d, k) ← __ublksrv_ctrl_get_info_no_trans d k new_code;
  if ret <? 0 then __ublksrv_ctrl_get_info_no_trans d k op else Some (ret, d, k).

(** UBLK_CMD_GET_DEV_INFO2 is defined by ublk_cmd.h. *)
Definition ublksrv_ctrl_get_info (d : ublksrv_ctrl_dev) (k : K) :=
  '(ret, d, k) ← __ublksrv_ctrl_get_info d k UBLK_CMD_GET_DEV_INFO2;
  if ret <? 0 then
    if ublk_is_unprivileged d then Some (ret, d, k)
    else __ublksrv_ctrl_get_info d k UBLK_CMD_GET_DEV_INFO
  else Some (ret, d, k).

Definition set_params_len (p : ublk_params) : ublk_params :=
  mk_params sizeof_params (params_types p) (p_basic p) (p_discard p) (p_devt p) (p_zoned p) (p_dma p) (p_seg p)
    (p_integrity p).

(** The command data and the buffer SET_PARAMS and GET_PARAMS share. *)
Definition params_cmd (d : ublksrv_ctrl_dev) (op : Z) (p : ublk_params) : ublksrv_ctrl_cmd_data * ctrl_buf :=
  if ublk_is_unprivileged d
  then (mk_cmd_data op (Z.lor CTRL_CMD_HAS_BUF (Z.lor CTRL_CMD_HAS_BUF CTRL_CMD_HAS_DATA)) 0 UBLKC_PATH_MAX
          (k_addr LLocal) (UBLKC_PATH_MAX + sizeof_params), mk_ctrl_buf (Some (dev_path d)) (PParams p))
  else (mk_cmd_data op CTRL_CMD_HAS_BUF 0 0 (k_addr LParams) sizeof_params, mk_ctrl_buf None (PParams p)).

(** The caller's structure afterwards: the driver writes into it only when it
    was given its address. *)
Definition ublksrv_ctrl_set_params (d : ublksrv_ctrl_dev) (k : K) (p : ublk_params)
    : option (Z * ublk_params * ublksrv_ctrl_dev * K) :=
  let p := set_params_len p in
  let '(data, b) := params_cmd d UBLK_CMD_SET_PARAMS p in
  '(ret, q, d, k) ← __ublksrv_ctrl_cmd d k data b;
  Some (ret, (if ublk_is_unprivileged d then p else reply_params p q), d, k).

Definition ublksrv_ctrl_get_params (d : ublksrv_ctrl_dev) (k : K) (p : ublk_params)
    : option (Z * ublk_params * ublksrv_ctrl_dev * K) :=
  let p := set_params_len p in
  let '(data, b) := params_cmd d UBLK_CMD_GET_PARAMS p in
  '(ret, q, d, k) ← __ublksrv_ctrl_cmd d k data b;
  Some (0, (if ublk_is_unprivileged d then (if 0 <=? ret then reply_params p q else p) else reply_params p q), d, k).

Definition ublksrv_ctrl_get_features (d : ublksrv_ctrl_dev) (k : K) : option (Z * Z * ublksrv_ctrl_dev * K) :=
  '(ret, p, d, k) ← __ublksrv_ctrl_cmd d k
    (mk_cmd_data UBLK_U_CMD_GET_FEATURES CTRL_CMD_HAS_BUF 0 0 (k_addr LFeatures) 8) (mk_ctrl_buf None (PFeatures 0));
  Some (ret, reply_features 0 p, d, k).

(** ** Queue affinity *)

(** One command per queue; the driver's mask lands behind the path, at
    [i * data.len + path_len] of the array. *)
Fixpoint affinity_loop (path_len : Z) (d : ublksrv_ctrl_dev) (k : K) (qs : list Z) (buf : list Z)
    : option (Z * list Z * ublksrv_ctrl_dev * K) :=
  match qs with
  | [] => Some (0, buf, d, k)
  | i :: qs =>
      let len := sizeof_cpu_set + path_len in
      let path := dev_path d in
      buf ← (if 0 <? path_len
             then store_bytes (i * len)
               (map (fun c => Z.of_nat (Ascii.nat_of_ascii c)) (String.list_ascii_of_string path) ++ [0]) buf
             else Some buf);
      let mask := take (Z.to_nat sizeof_cpu_set) (drop (Z.to_nat (i * len + path_len)) buf) in
      '(ret, p, d, k) ← __ublksrv_ctrl_cmd d k
        (mk_cmd_data UBLK_CMD_GET_QUEUE_AFFINITY (Z.lor CTRL_CMD_HAS_DATA CTRL_CMD_HAS_BUF) i path_len
           (k_addr LCpusets + i * len) len)
        (mk_ctrl_buf (if 0 <? path_len then Some path else None) (PCpuset mask));
      buf ← store_bytes (i * len + path_len) (match p with PCpuset m => m | _ => mask end) buf;
      if ret <? 0 then Some (ret, buf, d, k) else affinity_loop path_len d k qs buf
  end.

(** [mem]: whether calloc(3) gives memory. *)
Definition ublksrv_ctrl_get_affinity (mem : bool) (d : ublksrv_ctrl_dev) (k : K)
    : option (Z * ublksrv_ctrl_dev * K) :=
  let path_len := if ublk_is_unprivileged d then UBLKC_PATH_MAX else 0 in
  let nr := nr_hw_queues (dev_info d) in
  if negb mem then Some (- ENOMEM, d, k)
  else
    '(ret, buf, d, k) ← affinity_loop path_len d k (seqZ 0 nr)
       (replicate (Z.to_nat ((sizeof_cpu_set + path_len) * nr)) 0);
    if ret <? 0 then Some (ret, d, k) else Some (0, set_cpuset (Some buf) d, k).

(** ** Life of a control device *)

Record ublksrv_dev_data := mk_dev_data {
  dd_dev_id : Z;            (* int *)
  dd_max_io_buf_bytes : Z;  (* unsigned *)
  dd_nr_hw_queues : Z;      (* unsigned short *)
  dd_queue_depth : Z;       (* unsigned short *)
  dd_run_dir : option string;
  dd_flags : Z;             (* unsigned long *)
  dd_ublksrv_flags : Z      (* unsigned long *)
}.

(** [fd]: what open(2) of the control device gave; [ring]: the result of
    io_uring_queue_init_params; [mem]: whether there is memory for the data;
    [pid_file]: the device's pid file, read on recovery.  The second component
    lists the descriptors left open when no device is returned. *)
Definition __ublksrv_ctrl_init `{!JsonText} (realloc : Z -> bool) (junk : string) (fd ring : Z) (mem : bool)
    (pid_file : option (list Ascii.ascii)) (data : ublksrv_dev_data) (rec : bool)
    : option (option ublksrv_ctrl_dev * list Z) :=
  if fd <? 0 then Some (None, [])
  else if ring <? 0 then Some (None, [fd])
  else if negb mem then Some (None, [fd])
  else
    let info := mk_dev_info (dd_nr_hw_queues data) (dd_queue_depth data) 0 0 (dd_max_io_buf_bytes data)
      (u32 (dd_dev_id data)) 0 0 (dd_flags data) (dd_ublksrv_flags data) 0 0 0 0 in
    jb ← ublksrv_tgt_jbuf_init realloc junk
      (if rec then Some (ublksrv_tgt_get_dev_data (bool_decide (is_Some (dd_run_dir data))) pid_file) else None);
    Some (Some (mk_ctrl_dev fd info jb rec (dd_run_dir data) None []), []).

Definition ublksrv_ctrl_init `{!JsonText} realloc junk fd ring mem data :=
  __ublksrv_ctrl_init realloc junk fd ring mem None data false.
Definition ublksrv_ctrl_recover_init `{!JsonText} realloc junk fd ring mem pid_file data :=
  __ublksrv_ctrl_init realloc junk fd ring mem pid_file data true.

(** [dev] is the control device ublksrv_ctrl_init gave; the result and the
    thread whose affinity was set.  [tid0] is what the variable held before
    ublksrv_json_read_queue_info. *)
Definition ublk_queue_set_affinity `{!JsonText} (cpuset : bool) (dev : option ublksrv_ctrl_dev) (k : K)
    (pid_file : option (list Ascii.ascii)) (tid0 : Z) (qid : Z) : option (Z * option Z) :=
  if negb cpuset then Some (- EINVAL, None)
  else match dev with
  | None => Some (- EOPNOTSUPP, None)
  | Some d =>
      '(ret, d, k) ← ublksrv_ctrl_get_info d k;
      if ret <? 0 then Some (ret, None)
      else match ublksrv_tgt_get_dev_data (bool_decide (is_Some (run_dir d))) pid_file with
      | None => Some (ret, None)
      | Some (jbuf, _) =>
          if nr_hw_queues (dev_info d) <=? qid then Some (ret, None)
          else '(_, tid, _) ← ublksrv_json_read_queue_info jbuf qid 4096;
               Some (0, Some (default tid0 tid))
      end
  end.
End ctrl.

(** The offset in the array and the mask that is read there. *)
Definition ublksrv_get_queue_affinity_off (d : ublksrv_ctrl_dev) (qid : Z) : Z :=
  let off := qid * sizeof_cpu_set in
  if ublk_is_unprivileged d then off + UBLKC_PATH_MAX else off.
Definition ublksrv_get_queue_affinity (d : ublksrv_ctrl_dev) (qid : Z) : option (list Z) :=
  buf ← queues_cpuset d;
  let off := ublksrv_get_queue_affinity_off d qid in
  if in_range off (Z.to_nat sizeof_cpu_set) buf
  then Some (take (Z.to_nat sizeof_cpu_set) (drop (Z.to_nat off) buf)) else None.

(** ** What the kernel promises *)

(** The result of a command as __ublksrv_ctrl_cmd sees it. *)
Definition answer_ret {K} (a : ctrl_answer K) : option Z :=
  ret ← submit_wait (an_submits a);
  Some (if ret <? 0 then ret else if an_peek a <? 0 then an_peek a else an_res a).

(** A payload of the same kind, and of the same size. *)
Definition same_kind (p q : ctrl_payload) : bool :=
  match p, q with
  | PNone, PNone | PInfo _, PInfo _ | PParams _, PParams _ | PFeatures _, PFeatures _ => true
  | PCpuset m, PCpuset m' => bool_decide (length m = length m')
  | _, _ => false
  end.

Class CtrlKernelLaws (K : Type) `{!CtrlKernel K} : Prop := {
  k_free k : is_Some (k_slot k);                                  (* every command is waited for *)
  k_returns k s b : is_Some (answer_ret (k_answer k s b));        (* signals stop at some point *)
  k_kind k s b : same_kind (cb_payload b) (an_payload (k_answer k s b)) = true;
  k_error k s b ret :
    answer_ret (k_answer k s b) = Some ret -> ret < 0 -> an_payload (k_answer k s b) = cb_payload b
}.

(** The public operations. *)
Inductive ctrl_op :=
  | OAdd | ODel | ODelAsync | OStart (pid : Z) | OStop | OGetInfo | OSetParams (p : ublk_params)
  | OGetParams (p : ublk_params) | OStartRecovery | OEndRecovery (pid : Z) | OGetFeatures | OGetAffinity (mem : bool).

Section ctrl_proofs.
Context {K : Type} `{!CtrlKernel K}.

Definition drop_out {A} (r : option (Z * A * ublksrv_ctrl_dev * K)) : option (Z * ublksrv_ctrl_dev * K) :=
  '(ret, _, d, k) ← r; Some (ret, d, k).

Definition run_ctrl (op : ctrl_op) (d : ublksrv_ctrl_dev) (k : K) : option (Z * ublksrv_ctrl_dev * K) :=
  match op with
  | OAdd => ublksrv_ctrl_add_dev d k
  | ODel => ublksrv_ctrl_del_dev d k
  | ODelAsync => ublksrv_ctrl_del_dev_async d k
  | OStart pid => ublksrv_ctrl_start_dev d k pid
  | OStop => ublksrv_ctrl_stop_dev d k
  | OGetInfo => ublksrv_ctrl_get_info d k
  | OSetParams p => drop_out (ublksrv_ctrl_set_params d k p)
  | OGetParams p => drop_out (ublksrv_ctrl_get_params d k p)
  | OStartRecovery => ublksrv_ctrl_start_recovery d k
  | OEndRecovery pid => ublksrv_ctrl_end_recovery d k pid
  | OGetFeatures => drop_out (ublksrv_ctrl_get_features d k)
  | OGetAffinity mem => ublksrv_ctrl_get_affinity mem d k
  end.

(** The command numbers an operation may send. *)
Definition op_nrs (op : ctrl_op) : list Z :=
  match op with
  | OAdd => [UBLK_CMD_ADD_DEV]
  | ODel => [UBLK_CMD_DEL_DEV]
  | ODelAsync => [20]
  | OStart _ => [UBLK_CMD_START_DEV]
  | OStop => [UBLK_CMD_STOP_DEV]
  | OGetInfo => [UBLK_CMD_GET_DEV_INFO2; UBLK_CMD_GET_DEV_INFO]
  | OSetParams _ => [UBLK_CMD_SET_PARAMS]
  | OGetParams _ => [UBLK_CMD_GET_PARAMS]
  | OStartRecovery => [UBLK_CMD_START_USER_RECOVERY]
  | OEndRecovery _ => [UBLK_CMD_END_USER_RECOVERY]
  | OGetFeatures => [19]
  | OGetAffinity _ => [UBLK_CMD_GET_QUEUE_AFFINITY]
  end.

(** Operations whose opcode follows UBLK_F_CMD_IOCTL_ENCODE. *)
Definition translated (op : ctrl_op) : bool :=
  match op with OAdd | ODelAsync | OGetInfo | OGetFeatures => false | _ => true end.

(** Operations that name the device by its path on an unprivileged device. *)
Definition needs_path (op : ctrl_op) : bool := match op with OAdd | OGetFeatures => false | _ => true end.

(** The arguments of an operation as the driver sees them: the inline data, what
    the buffer holds behind the path, and the length of that. *)
Definition op_data0 (op : ctrl_op) : option Z :=
  match op with OStart pid | OEndRecovery pid => Some (u64 pid) | _ => None end.
Definition op_payload (op : ctrl_op) : option ctrl_payload :=
  match op with
  | ODel | ODelAsync | OStart _ | OStop | OStartRecovery | OEndRecovery _ => Some PNone
  | OSetParams p | OGetParams p => Some (PParams (set_params_len p))
  | OGetFeatures => Some (PFeatures 0)
  | OAdd | OGetInfo | OGetAffinity _ => None
  end.
Definition op_len (op : ctrl_op) : option Z :=
  match op with OSetParams _ | OGetParams _ => Some sizeof_params | OGetFeatures => Some 8 | _ => None end.

(** A well-formed command of operation [op] on device [d]. *)
Definition cmd_ok (op : ctrl_op) (d : ublksrv_ctrl_dev) (c : ctrl_sqe * ctrl_buf) : Prop :=
  let '(s, b) := c in
  cs_fd s = ctrl_fd d /\ cs_opcode s = IORING_OP_URING_CMD /\
  cc_dev_id (cs_cmd s) = dev_id (dev_info d) /\ cc_queue_id (cs_cmd s) = 65535 /\
  _IOC_NR (cs_cmd_op s) ∈ op_nrs op /\
  (translated op = true ->
   _IOC_TYPE (cs_cmd_op s) = if has (dev_flags (dev_info d)) UBLK_F_CMD_IOCTL_ENCODE then UBLK_IOC_TYPE else 0) /\
  (needs_path op = true -> ublk_is_unprivileged d = true ->
   cc_dev_path_len (cs_cmd s) = UBLKC_PATH_MAX /\ UBLKC_PATH_MAX <= cc_len (cs_cmd s) /\ cb_path b = Some (dev_path d)) /\
  (forall v, op_data0 op = Some v -> cc_data0 (cs_cmd s) = v) /\
  (forall p, op_payload op = Some p -> cb_payload b = p) /\
  (forall n, op_len op = Some n ->
   cc_len (cs_cmd s) = n + if needs_path op && ublk_is_unprivileged d then UBLKC_PATH_MAX else 0).

(** Two views of a device that name it in the same way. *)
Definition same_dev (d d' : ublksrv_ctrl_dev) : Prop :=
  ctrl_fd d' = ctrl_fd d /\ dev_id (dev_info d') = dev_id (dev_info d) /\
  dev_flags (dev_info d') = dev_flags (dev_info d).

Lemma cmd_ok_same op d d' c : same_dev d d' -> cmd_ok op d' c -> cmd_ok op d c.
Proof.
  intros (H1&H2&H3). destruct c as [s b]. unfold cmd_ok, ublk_is_unprivileged, dev_path.
  by rewrite H1, H2, H3.
Qed.

Lemma same_dev_refl d : same_dev d d.
Proof. done. Qed.

(** The opcode put into the entry. *)
Definition trans_op (d : ublksrv_ctrl_dev) (data : ublksrv_ctrl_cmd_data) : option Z :=
  if negb (has (cmd_flags data) CTRL_CMD_NO_TRANS) && has (dev_flags (dev_info d)) UBLK_F_CMD_IOCTL_ENCODE
  then legacy_op_to_ioctl (cmd_op data) else Some (cmd_op data).

Lemma init_cmd_spec d slot data op :
  trans_op d data = Some op ->
  exists s, ublksrv_ctrl_init_cmd d slot data = Some s /\
    cs_fd s = ctrl_fd d /\ cs_opcode s = IORING_OP_URING_CMD /\ cs_cmd_op s = op /\
    cc_dev_id (cs_cmd s) = dev_id (dev_info d) /\ cc_queue_id (cs_cmd s) = 65535 /\
    (has (cmd_flags data) CTRL_CMD_HAS_BUF = true ->
     cc_len (cs_cmd s) = u16 (cmd_len data) /\ cc_addr (cs_cmd s) = cmd_addr data) /\
    (has (cmd_flags data) CTRL_CMD_HAS_DATA = true ->
     cc_data0 (cs_cmd s) = cmd_data0 data /\ cc_dev_path_len (cs_cmd s) = cmd_path_len data).
Proof.
  intros Hop. unfold trans_op in Hop. eexists. unfold ublksrv_ctrl_init_cmd. rewrite Hop.
  split; [reflexivity|]. cbn. do 5 (split; [done|]). split; intros ->; done.
Qed.

Context `{!CtrlKernelLaws K}.

(** A command whose opcode can be encoded is sent, answered and logged. *)
Lemma ctrl_cmd_run d k data b op :
  trans_op d data = Some op ->
  exists slot s ret, ublksrv_ctrl_init_cmd d slot data = Some s /\
    answer_ret (k_answer k s b) = Some ret /\
    __ublksrv_ctrl_cmd d k data b =
      Some (ret, an_payload (k_answer k s b), log_cmd s b d, an_kernel (k_answer k s b)).
Proof.
  intros Hop. destruct (k_free k) as [slot Hs]. destruct (init_cmd_spec d slot data op Hop) as (s&Hi&_).
  destruct (k_returns k s b) as [ret Hr]. exists slot, s, ret. split; [done|]. split; [done|].
  unfold __ublksrv_ctrl_cmd. rewrite Hs, Hi. cbn [mbind option_bind].
  unfold answer_ret in Hr. destruct (submit_wait _); [|done]. cbn [mbind option_bind] in *. by simplify_eq.
Qed.
End ctrl_proofs.

(** Run the command at the head of the goal, whose opcode is encoded as [op]. *)
Ltac run_cmd op Hop :=
  match goal with
  | |- context [__ublksrv_ctrl_cmd ?d ?k ?data ?b] =>
      let slot := fresh "slot" in let s := fresh "s" in let ret := fresh "ret" in
      let Hi := fresh "Hi" in let Hr := fresh "Hr" in let H := fresh "Hrun" in
      destruct (ctrl_cmd_run d k data b op Hop) as (slot&s&ret&Hi&Hr&H); rewrite H; cbn [mbind option_bind]
  end.

Section ctrl_wf.
Context {K : Type} `{!CtrlKernel K, !CtrlKernelLaws K}.

(** Membership in the conversion table. *)
Ltac legacy_op := repeat (apply elem_of_cons; (by left) || right).

(** The path part of a command that has one. *)
Definition carries_path (d : ublksrv_ctrl_dev) (data : ublksrv_ctrl_cmd_data) (b : ctrl_buf) : Prop :=
  has (cmd_flags data) CTRL_CMD_HAS_BUF = true /\ has (cmd_flags data) CTRL_CMD_HAS_DATA = true /\
  cmd_path_len data = UBLKC_PATH_MAX /\ UBLKC_PATH_MAX <= u16 (cmd_len data) /\ cb_path b = Some (dev_path d).

(** The arguments of an operation in the data of a command. *)
Definition carries_args (op : ctrl_op) (d : ublksrv_ctrl_dev) (data : ublksrv_ctrl_cmd_data) (b : ctrl_buf) : Prop :=
  (forall v, op_data0 op = Some v -> has (cmd_flags data) CTRL_CMD_HAS_DATA = true /\ cmd_data0 data = v) /\
  (forall p, op_payload op = Some p -> cb_payload b = p) /\
  (forall n, op_len op = Some n -> has (cmd_flags data) CTRL_CMD_HAS_BUF = true /\
   u16 (cmd_len data) = n + if needs_path op && ublk_is_unprivileged d then UBLKC_PATH_MAX else 0).

(** An operation that has none. *)
Lemma carries_none op d data b :
  op_data0 op = None -> op_payload op = None -> op_len op = None -> carries_args op d data b.
Proof. intros H1 H2 H3. unfold carries_args. rewrite H1, H2, H3. done. Qed.

Lemma init_cmd_ok op d slot data s b code :
  trans_op d data = Some code -> ublksrv_ctrl_init_cmd d slot data = Some s ->
  _IOC_NR code ∈ op_nrs op ->
  (translated op = true ->
   _IOC_TYPE code = if has (dev_flags (dev_info d)) UBLK_F_CMD_IOCTL_ENCODE then UBLK_IOC_TYPE else 0) ->
  (needs_path op = true -> ublk_is_unprivileged d = true -> carries_path d data b) ->
  carries_args op d data b ->
  cmd_ok op d (s, b).
Proof.
  intros Hop Hi Hnr Hty Hpath (Ha1&Ha2&Ha3). destruct (init_cmd_spec d slot data code Hop) as (s'&Hi'&?&?&Hc&?&?&Hbuf&Hinl).
  simplify_eq. do 6 (split; [done|]). split; [|split; [|split]].
  - intros Hn Hu. destruct (Hpath Hn Hu) as (Hb&Hd&?&?&?).
    destruct (Hbuf Hb) as [-> _]. destruct (Hinl Hd) as [_ ->]. done.
  - intros v Hv. destruct (Ha1 v Hv) as [Hd <-]. by destruct (Hinl Hd).
  - done.
  - intros n Hn. destruct (Ha3 n Hn) as [Hb <-]. by destruct (Hbuf Hb).
Qed.

(** A legacy opcode is encoded as the device asks. *)
Lemma trans_legacy d data :
  cmd_op data ∈ legacy_ops -> has (cmd_flags data) CTRL_CMD_NO_TRANS = false ->
  exists code, trans_op d data = Some code /\ _IOC_NR code = cmd_op data /\
    _IOC_TYPE code = if has (dev_flags (dev_info d)) UBLK_F_CMD_IOCTL_ENCODE then UBLK_IOC_TYPE else 0.
Proof.
  intros Hin Hf. unfold trans_op. rewrite Hf. cbn [negb andb].
  destruct (has (dev_flags _) _).
  - pose proof legacy_ops_ok as Hall. rewrite Forall_forall in Hall.
    destruct (Hall _ Hin) as (v&Hv&Hnr&Hty&_). eauto.
  - exists (cmd_op data). split; [done|]. revert Hin. generalize (cmd_op data). intros o Hin.
    unfold legacy_ops in Hin. repeat (apply elem_of_cons in Hin as [->|Hin]; [done|]). by apply elem_of_nil in Hin.
Qed.

(** An operation that sends only well-formed commands. *)
Definition sends (op : ctrl_op) (d : ublksrv_ctrl_dev) (r : option (Z * ublksrv_ctrl_dev * K)) : Prop :=
  exists ret d' k' new, r = Some (ret, d', k') /\ sent d' = sent d ++ new /\ Forall (cmd_ok op d) new.

(** One translated command. *)
Lemma legacy_cmd op d k data b :
  cmd_op data ∈ legacy_ops -> has (cmd_flags data) CTRL_CMD_NO_TRANS = false ->
  op_nrs op = [cmd_op data] ->
  (ublk_is_unprivileged d = true -> carries_path d data b) -> carries_args op d data b ->
  exists ret s, __ublksrv_ctrl_cmd d k data b =
      Some (ret, an_payload (k_answer k s b), log_cmd s b d, an_kernel (k_answer k s b)) /\
    answer_ret (k_answer k s b) = Some ret /\ cmd_ok op d (s, b).
Proof.
  intros Hin Hf Hnr Hp Hargs. destruct (trans_legacy d data Hin Hf) as (code&Hc&Hn&Ht).
  destruct (ctrl_cmd_run d k data b code Hc) as (slot&s&ret&Hi&Hr&Hrun).
  exists ret, s. split; [done|]. split; [done|].
  eapply init_cmd_ok; [done|done| |done|done|done]. rewrite Hn, Hnr. by apply elem_of_cons; left.
Qed.

Lemma prep_ok d data :
  ublk_is_unprivileged d = true ->
  carries_path d (ublk_un_privileged_prep_data d data).1 (ublk_un_privileged_prep_data d data).2.
Proof.
  intros Hu. unfold ublk_un_privileged_prep_data. rewrite Hu. unfold carries_path. cbn [fst snd cmd_flags cmd_path_len cmd_len cb_path].
  rewrite !(has_lor_l (cmd_flags data)). repeat split; first [apply orb_true_r | done].
Qed.

Lemma prep_keeps d data :
  cmd_op (ublk_un_privileged_prep_data d data).1 = cmd_op data /\
  has (cmd_flags (ublk_un_privileged_prep_data d data).1) CTRL_CMD_NO_TRANS = has (cmd_flags data) CTRL_CMD_NO_TRANS /\
  cb_payload (ublk_un_privileged_prep_data d data).2 = PNone /\
  (has (cmd_flags data) CTRL_CMD_HAS_DATA = true ->
   has (cmd_flags (ublk_un_privileged_prep_data d data).1) CTRL_CMD_HAS_DATA = true).
Proof.
  unfold ublk_un_privileged_prep_data. destruct (ublk_is_unprivileged d); [|done]. split; [done|].
  cbn [fst snd cmd_flags]. rewrite !(has_lor_l (cmd_flags data)). split; [by rewrite orb_false_r|]. split; [done|].
  by intros ->.
Qed.

(** The three shapes of translated commands, each sent once and answered. *)
Definition sent_once (op : ctrl_op) (d0 d : ublksrv_ctrl_dev) (k : K) (r : option (Z * ublksrv_ctrl_dev * K)) : Prop :=
  exists ret s b, r = Some (ret, log_cmd s b d, an_kernel (k_answer k s b)) /\
    answer_ret (k_answer k s b) = Some ret /\ cmd_ok op d0 (s, b).

Lemma sent_once_sends op d0 d k r : sent d = sent d0 -> sent_once op d0 d k r -> sends op d0 r.
Proof.
  intros Hs (ret&s&b&->&_&Hok). eexists _, _, _, [(s, b)]. split; [done|]. split; [by cbn; rewrite Hs|]. by constructor.
Qed.

Lemma plain_once op d k code :
  code ∈ legacy_ops -> op_nrs op = [code] -> op_data0 op = None -> op_payload op = Some PNone -> op_len op = None ->
  sent_once op d d k (plain_cmd d k (mk_cmd_data code 0 0 0 0 0)).
Proof.
  intros Hin Hnr Hd0 Hpl Hln. unfold plain_cmd.
  pose proof (prep_ok d (mk_cmd_data code 0 0 0 0 0)) as Hp.
  destruct (prep_keeps d (mk_cmd_data code 0 0 0 0 0)) as (Ho&Hf&Hb&_).
  destruct (ublk_un_privileged_prep_data d _) as [data b]. cbn [fst snd cmd_op cmd_flags] in *.
  destruct (legacy_cmd op d k data b) as (ret&s&Hrun&Hr&Hok); [by rewrite Ho|done|by rewrite Ho|done| |].
  { unfold carries_args. rewrite Hd0, Hpl, Hln, Hb. split; [done|]. split; [by intros ? [= <-]|done]. }
  rewrite Hrun. cbn [mbind option_bind]. by exists ret, s, b.
Qed.

(** Start and end of recovery record the daemon and pass its pid. *)
Lemma pid_once op d k code pid :
  code ∈ legacy_ops -> op_nrs op = [code] ->
  op_data0 op = Some (u64 pid) -> op_payload op = Some PNone -> op_len op = None ->
  sent_once op d (set_info (set_pid (s32 (u64 pid)) (dev_info d)) d) k
    (let '(data, b) := ublk_un_privileged_prep_data d (mk_cmd_data code CTRL_CMD_HAS_DATA 0 0 0 0) in
     let data := mk_cmd_data (cmd_op data) (cmd_flags data) (u64 pid) (cmd_path_len data) (cmd_addr data) (cmd_len data) in
     let d := set_info (set_pid (s32 (u64 pid)) (dev_info d)) d in
     '(ret, _, d, k) ← __ublksrv_ctrl_cmd d k data b;
     Some (ret, d, k)).
Proof.
  intros Hin Hnr Hd0 Hpl Hln. set (data0 := mk_cmd_data code CTRL_CMD_HAS_DATA 0 0 0 0).
  pose proof (prep_ok d data0) as Hp. destruct (prep_keeps d data0) as (Ho&Hf&Hb&Hd). specialize (Hd eq_refl).
  destruct (ublk_un_privileged_prep_data d data0) as [data b]. cbn [fst snd] in *.
  set (data1 := mk_cmd_data _ _ _ _ _ _). set (d1 := set_info _ d).
  destruct (legacy_cmd op d1 k data1 b) as (ret&s&Hrun&Hr&Hok); [by subst data1; cbn; rewrite Ho|done| |done| |].
  { subst data1. cbn. by rewrite Ho. }
  { unfold carries_args. rewrite Hd0, Hpl, Hln, Hb. split; [by intros v [= <-]|]. split; [by intros ? [= <-]|done]. }
  rewrite Hrun. cbn [mbind option_bind]. exists ret, s, b. split; [done|]. split; [done|].
  by apply (cmd_ok_same op d d1).
Qed.

Lemma params_run {A} op d k code p (f : Z -> ctrl_payload -> ublksrv_ctrl_dev -> A) :
  code ∈ legacy_ops -> op_nrs op = [code] ->
  op_data0 op = None -> op_payload op = Some (PParams p) -> op_len op = Some sizeof_params -> needs_path op = true ->
  exists ret s b,
    (let '(data, b) := params_cmd d code p in
     '(ret, q, d, k) ← __ublksrv_ctrl_cmd d k data b;
     Some (f ret q d, d, k)) =
    Some (f ret (an_payload (k_answer k s b)) (log_cmd s b d), log_cmd s b d, an_kernel (k_answer k s b)) /\
    answer_ret (k_answer k s b) = Some ret /\ cmd_ok op d (s, b).
Proof.
  intros Hin Hnr Hd0 Hpl Hln Hnp.
  assert (Hargs : carries_args op d (params_cmd d code p).1 (params_cmd d code p).2).
  { unfold carries_args, params_cmd. rewrite Hd0, Hpl, Hln, Hnp. cbn [andb].
    destruct (ublk_is_unprivileged d); (split; [done|]; split; [by intros ? [= <-]|by intros ? [= <-]]). }
  assert (Hp : ublk_is_unprivileged d = true -> carries_path d (params_cmd d code p).1 (params_cmd d code p).2).
  { intros Hu. unfold params_cmd. rewrite Hu. done. }
  assert (Ho : cmd_op (params_cmd d code p).1 = code /\
    has (cmd_flags (params_cmd d code p).1) CTRL_CMD_NO_TRANS = false).
  { unfold params_cmd. by destruct (ublk_is_unprivileged d). }
  destruct (params_cmd d code p) as [data b]. cbn [fst snd] in *. destruct Ho as [Ho Hf].
  destruct (legacy_cmd op d k data b) as (ret&s&Hrun&Hr&Hok); [by rewrite Ho|done|by rewrite Ho|done|done|].
  rewrite Hrun. cbn [mbind option_bind]. by exists ret, s, b.
Qed.

Lemma params_sends {A} op d k code p (f : Z -> ctrl_payload -> ublksrv_ctrl_dev -> Z * A) :
  code ∈ legacy_ops -> op_nrs op = [code] ->
  op_data0 op = None -> op_payload op = Some (PParams p) -> op_len op = Some sizeof_params -> needs_path op = true ->
  sends op d (drop_out
    (let '(data, b) := params_cmd d code p in
     '(ret, q, d, k) ← __ublksrv_ctrl_cmd d k data b;
     Some (f ret q d, d, k))).
Proof.
  intros Hin Hnr Hd0 Hpl Hln Hnp. destruct (params_run op d k code p f Hin Hnr Hd0 Hpl Hln Hnp) as (ret&s&b&->&_&Hok). unfold drop_out. cbn [mbind option_bind].
  destruct (f ret _ _) as [r a]. eexists _, _, _, [(s, b)]. split; [done|]. split; [done|]. by constructor.
Qed.

(** *** The operations that start, stop, delete and recover a device *)
Lemma del_dev_once d k : sent_once ODel d d k (ublksrv_ctrl_del_dev d k).
Proof. apply plain_once; [legacy_op|done..]. Qed.

Lemma stop_dev_once d k : sent_once OStop d d k (ublksrv_ctrl_stop_dev d k).
Proof. apply plain_once; [legacy_op|done..]. Qed.

Lemma start_recovery_once d k : sent_once OStartRecovery d d k (ublksrv_ctrl_start_recovery d k).
Proof. apply plain_once; [legacy_op|done..]. Qed.

Definition with_daemon (pid : Z) (d : ublksrv_ctrl_dev) : ublksrv_ctrl_dev :=
  set_info (set_pid (s32 (u64 pid)) (dev_info d)) d.

Lemma start_dev_once d k pid : sent_once (OStart pid) d (with_daemon pid d) k (ublksrv_ctrl_start_dev d k pid).
Proof. apply pid_once; [legacy_op|done..]. Qed.

Lemma end_recovery_once d k pid :
  sent_once (OEndRecovery pid) d (with_daemon pid d) k (ublksrv_ctrl_end_recovery d k pid).
Proof. apply pid_once; [legacy_op|done..]. Qed.

Lemma set_params_once d k p : sent_once (OSetParams p) d d k (drop_out (ublksrv_ctrl_set_params d k p)).
Proof.
  unfold ublksrv_ctrl_set_params. unfold sent_once.
  edestruct (params_run (OSetParams p) d k UBLK_CMD_SET_PARAMS (set_params_len p)
    (fun ret q d => (ret, if ublk_is_unprivileged d then set_params_len p else reply_params (set_params_len p) q)))
    as (ret&s&b&Hrun&Hr&Hok); [legacy_op|done..|]. cbn zeta. rewrite Hrun. by exists ret, s, b.
Qed.

Lemma substring_length n s : (String.length (String.substring 0 n s) <= n)%nat.
Proof. revert s. induction n as [|n IH]; intros [|c s]; cbn; [lia..|]. specialize (IH s). lia. Qed.

Lemma length_dev_path d : (String.length (dev_path d) <= 31)%nat.
Proof. apply substring_length. Qed.

Definition path_bytes (d : ublksrv_ctrl_dev) : list Z :=
  map (fun c => Z.of_nat (Ascii.nat_of_ascii c)) (String.list_ascii_of_string (dev_path d)) ++ [0].

Lemma length_path_bytes d : Z.of_nat (length (path_bytes d)) <= UBLKC_PATH_MAX.
Proof.
  unfold path_bytes. rewrite length_app, length_map, length_list_ascii. pose proof (length_dev_path d).
  unfold UBLKC_PATH_MAX. cbn [length]. lia.
Qed.

Definition path_len_of (d : ublksrv_ctrl_dev) : Z := if ublk_is_unprivileged d then UBLKC_PATH_MAX else 0.

Lemma path_len_of_cases d : path_len_of d = 0 \/ path_len_of d = 32 /\ ublk_is_unprivileged d = true.
Proof. unfold path_len_of. destruct (ublk_is_unprivileged d); [by right|by left]. Qed.

Lemma path_store d at_ buf :
  0 <= at_ -> at_ + path_len_of d <= Z.of_nat (length buf) ->
  exists buf', (if 0 <? path_len_of d then store_bytes at_ (path_bytes d) buf else Some buf) = Some buf' /\
    length buf' = length buf /\
    (forall off n, 0 <= off -> off + Z.of_nat n <= at_ \/ at_ + path_len_of d <= off -> slice off n buf' = slice off n buf).
Proof.
  intros Hat Hlen. pose proof (length_path_bytes d) as Hp. unfold UBLKC_PATH_MAX in Hp.
  destruct (path_len_of_cases d) as [H0|[H32 _]].
  { rewrite H0. exists buf. done. }
  rewrite H32 in *. destruct (store_bytes_Some at_ (path_bytes d) buf) as [buf' Hs]; [lia..|].
  exists buf'. split; [done|]. split; [by eapply store_bytes_length|].
  intros off n Hoff Hd. eapply slice_store_disjoint; [done|done|lia].
Qed.

Ltac aff_arith d :=
  subst; let E := fresh in
  destruct (path_len_of_cases d) as [E|[E _]]; rewrite ?E in *; unfold sizeof_cpu_set in *; lia.

(** One round: the command for queue [i] is sent, and the mask the driver
    gives lands in the slot of the queue and nowhere else. *)
Lemma affinity_step mem i qs d k buf :
  let len := sizeof_cpu_set + path_len_of d in
  0 <= i -> len * (i + 1) <= Z.of_nat (length buf) ->
  exists s b ret m buf',
    affinity_loop (path_len_of d) d k (i :: qs) buf =
      (if ret <? 0 then Some (ret, buf', log_cmd s b d, an_kernel (k_answer k s b))
       else affinity_loop (path_len_of d) (log_cmd s b d) (an_kernel (k_answer k s b)) qs buf') /\
    cc_data0 (cs_cmd s) = i /\
    answer_ret (k_answer k s b) = Some ret /\ an_payload (k_answer k s b) = PCpuset m /\
    cmd_ok (OGetAffinity mem) d (s, b) /\ length buf' = length buf /\
    slice (i * len + path_len_of d) (Z.to_nat sizeof_cpu_set) buf' = m /\
    (forall off, 0 <= off -> off + sizeof_cpu_set <= i * len \/ (i + 1) * len <= off ->
       slice off (Z.to_nat sizeof_cpu_set) buf' = slice off (Z.to_nat sizeof_cpu_set) buf).
Proof.
  intros len. pose proof (eq_refl : len = sizeof_cpu_set + path_len_of d) as Hlen0. clearbody len.
  intros Hi Hlen. cbn [affinity_loop]. rewrite <- Hlen0. fold (path_bytes d).
  destruct (path_store d (i * len) buf) as (buf1&Hs1&Hl1&Ho1);
    [aff_arith d..|].
  rewrite Hs1. cbn [mbind option_bind].
  set (mask := take _ (drop _ buf1)).
  assert (Hm : length mask = 128%nat).
  { apply length_slice, in_range_spec. rewrite Hl1.
    aff_arith d. }
  set (data := mk_cmd_data _ _ _ _ _ _). set (b := mk_ctrl_buf _ _).
  destruct (trans_legacy d data) as (code&Hc&Hn&Ht); [by apply elem_of_cons; left|done|].
  destruct (ctrl_cmd_run d k data b code Hc) as (slot&s&ret&Hi1&Hr&Hrun). rewrite Hrun. cbn [mbind option_bind].
  pose proof (k_kind k s b) as Hk. cbn [b cb_payload] in Hk. destruct (an_payload _) as [| | | |m] eqn:Ep; try done.
  cbn [same_kind] in Hk. apply bool_decide_eq_true in Hk.
  destruct (store_bytes_Some (i * len + path_len_of d) m buf1) as [buf2 Hs2];
    [aff_arith d..|].
  rewrite Hs2. cbn [mbind option_bind]. exists s, b, ret, m, buf2.
  split; [done|]. split.
  { destruct (init_cmd_spec d slot data code Hc) as (s'&Hi'&_&_&_&_&_&_&Hd0). rewrite Hi' in Hi1. simplify_eq.
    by apply Hd0. }
  split; [done|]. split; [done|]. split.
  { eapply init_cmd_ok; [done|done| |done| |by apply carries_none].
    - rewrite Hn. by apply elem_of_cons; left.
    - intros _ Hu. unfold carries_path. cbn. subst len. unfold path_len_of. rewrite Hu. done. }
  split; [by rewrite (store_bytes_length _ _ _ _ Hs2)|]. split.
  { pose proof (slice_store_same _ _ _ _ Hs2) as Hsl. by rewrite <- Hk, Hm in Hsl. }
  intros off Hoff Hd. rewrite (slice_store_disjoint _ _ _ _ _ _ Hs2 Hoff), (Ho1 _ _ Hoff); [done|..];
    aff_arith d.
Qed.

(** The driver reports mask [M i] for queue [i]. *)
Definition reports_masks (M : Z -> list Z) : Prop :=
  forall (k : K) s b ret, _IOC_NR (cs_cmd_op s) = UBLK_CMD_GET_QUEUE_AFFINITY ->
    answer_ret (k_answer k s b) = Some ret -> 0 <= ret ->
    an_payload (k_answer k s b) = PCpuset (M (cc_data0 (cs_cmd s))).

Lemma affinity_loop_run mem qs d k buf :
  let len := sizeof_cpu_set + path_len_of d in
  NoDup qs -> (forall i, i ∈ qs -> 0 <= i /\ len * (i + 1) <= Z.of_nat (length buf)) ->
  exists ret buf' d' k' new, affinity_loop (path_len_of d) d k qs buf = Some (ret, buf', d', k') /\
    ret <= 0 /\ sent d' = sent d ++ new /\ Forall (cmd_ok (OGetAffinity mem) d) new /\
    dev_info d' = dev_info d /\
    (forall off, 0 <= off -> (forall i, i ∈ qs -> off + sizeof_cpu_set <= i * len \/ (i + 1) * len <= off) ->
       slice off (Z.to_nat sizeof_cpu_set) buf' = slice off (Z.to_nat sizeof_cpu_set) buf) /\
    (ret = 0 -> length buf' = length buf /\ forall M i, reports_masks M -> i ∈ qs ->
       slice (i * len + path_len_of d) (Z.to_nat sizeof_cpu_set) buf' = M i).
Proof.
  intros len. revert d k buf len. induction qs as [|i qs IH]; intros d k buf len Hnd Hq.
  { exists 0, buf, d, k, []. split; [done|]. split; [done|]. rewrite app_nil_r. do 4 (split; [done|]).
    intros _. split; [done|]. intros M i _ Hi. by apply elem_of_nil in Hi. }
  apply NoDup_cons in Hnd as [Hni Hnd].
  destruct (Hq i) as [Hi0 Hi1]; [by apply elem_of_cons; left|].
  destruct (affinity_step mem i qs d k buf Hi0 Hi1) as (s&b&ret&m&buf1&Hrun&Hd0&Hret&Hm&Hok&Hl1&Hs1&Ho1).
  fold len in Hs1, Ho1. rewrite Hrun. clear Hrun. destruct (Z.ltb_spec ret 0).
  { eexists _, _, _, _, [(s, b)]. split; [done|]. split; [lia|]. split; [done|]. split; [by constructor|].
    split; [done|]. split; [|lia]. intros off Hoff Hd. apply Ho1; [done|]. apply Hd. by apply elem_of_cons; left. }
  destruct (IH (log_cmd s b d) (an_kernel (k_answer k s b)) buf1 Hnd) as (ret'&buf'&d'&k'&new&H1&H2&H3&H4&H5&H6&H7).
  { intros j Hj. rewrite Hl1. apply Hq. by apply elem_of_cons; right. }
  exists ret', buf', d', k', ((s, b) :: new). split; [done|]. split; [done|].
  split; [rewrite H3; cbn; by rewrite <- app_assoc|]. split; [by constructor|]. split; [done|]. split.
  { intros off Hoff Hd. rewrite (H6 off Hoff) by (intros j Hj; apply Hd; by apply elem_of_cons; right).
    apply Ho1; [done|]. apply Hd. by apply elem_of_cons; left. }
  intros H0. destruct (H7 H0) as [Hl' HM]. split; [by rewrite Hl'|]. intros M j HR Hj.
  apply elem_of_cons in Hj as [->|Hj]; [|by apply HM].
  assert (HMi : m = M i).
  { destruct Hok as (_&_&_&_&Hnr&_). apply elem_of_cons in Hnr as [Hnr|Hnr]; [|by apply elem_of_nil in Hnr].
    rewrite (HR k s b ret Hnr Hret) in Hm by done. by simplify_eq. }
  rewrite <- HMi, <- Hs1. apply H6.
  { subst len. aff_arith d. }
  intros j Hj. assert (j <> i) by congruence. change (path_len_of (log_cmd s b d)) with (path_len_of d).
  subst len. assert (j < i \/ i < j) by lia. aff_arith d.
Qed.

(** A command whose opcode is not translated. *)
Lemma raw_cmd op d k data b :
  trans_op d data = Some (cmd_op data) -> _IOC_NR (cmd_op data) ∈ op_nrs op -> translated op = false ->
  (needs_path op = true -> ublk_is_unprivileged d = true -> carries_path d data b) -> carries_args op d data b ->
  exists s ret, answer_ret (k_answer k s b) = Some ret /\ cs_cmd_op s = cmd_op data /\ cmd_ok op d (s, b) /\
    __ublksrv_ctrl_cmd d k data b =
      Some (ret, an_payload (k_answer k s b), log_cmd s b d, an_kernel (k_answer k s b)).
Proof.
  intros Hop Hnr Htr Hp Hargs. destruct (ctrl_cmd_run d k data b _ Hop) as (slot&s&ret&Hi&Hr&Hrun).
  exists s, ret. split; [done|]. split; [|split; [|done]].
  - destruct (init_cmd_spec d slot data _ Hop) as (s'&Hi'&_&_&?&_). by simplify_eq.
  - eapply init_cmd_ok; [done|done|done| |done|done]. by rewrite Htr.
Qed.

(** *** Getting the device information *)

(** The kernel refused these commands, one after the other. *)
Inductive refused_run : K -> list (ctrl_sqe * ctrl_buf) -> K -> Prop :=
  | refused_nil k : refused_run k [] k
  | refused_cons k s b ret cs k' :
      answer_ret (k_answer k s b) = Some ret -> ret < 0 -> refused_run (an_kernel (k_answer k s b)) cs k' ->
      refused_run k ((s, b) :: cs) k'.

Lemma refused_app k cs k1 cs' k2 : refused_run k cs k1 -> refused_run k1 cs' k2 -> refused_run k (cs ++ cs') k2.
Proof. induction 1; [done|]. intros. rewrite <- app_comm_cons. econstructor; eauto. Qed.

Definition log_all (cs : list (ctrl_sqe * ctrl_buf)) (d : ublksrv_ctrl_dev) :=
  mk_ctrl_dev (ctrl_fd d) (dev_info d) (tgt_jbuf d) (recover d) (run_dir d) (queues_cpuset d) (sent d ++ cs).

Lemma log_all_app cs cs' d : log_all cs' (log_all cs d) = log_all (cs ++ cs') d.
Proof. unfold log_all. cbn. by rewrite <- app_assoc. Qed.

Definition opcodes (cs : list (ctrl_sqe * ctrl_buf)) : list Z := map (fun c => cs_cmd_op (fst c)) cs.

(** The opcodes [tries] were tried in order: the first one that was not
    refused gave the device information, or all were refused and nothing but
    the log changed. *)
Definition found (tries : list Z) (d : ublksrv_ctrl_dev) (k : K) (r : option (Z * ublksrv_ctrl_dev * K)) : Prop :=
  exists ret d' k' cs k1, r = Some (ret, d', k') /\ refused_run k cs k1 /\ Forall (cmd_ok OGetInfo d) cs /\
    ((ret < 0 /\ d' = log_all cs d /\ k' = k1 /\ opcodes cs = tries) \/
     (0 <= ret /\ exists s b i, d' = set_info i (log_all (cs ++ [(s, b)]) d) /\ cmd_ok OGetInfo d (s, b) /\
        answer_ret (k_answer k1 s b) = Some ret /\ an_payload (k_answer k1 s b) = PInfo i /\
        k' = an_kernel (k_answer k1 s b) /\ opcodes (cs ++ [(s, b)]) `prefix_of` tries)).

Lemma found_then t1 t2 d k r f :
  found t1 d k r ->
  (forall ret cs k', ret < 0 -> found t2 (log_all cs d) k' (f ret (log_all cs d) k')) ->
  found (t1 ++ t2) d k ('(ret, d, k) ← r; if ret <? 0 then f ret d k else Some (ret, d, k)).
Proof.
  intros (ret&d'&k'&cs&k1&->&Hr&Hok&Hcase) Hf. cbn [mbind option_bind].
  destruct Hcase as [(Hret&->&->&Hop)|(Hret&s&b&i&->&?&?&?&->&Hpre)].
  - rewrite (proj2 (Z.ltb_lt _ _) Hret). destruct (Hf ret cs k1 Hret) as (ret2&d2&k2&cs2&k3&->&Hr2&Hok2&Hc2).
    exists ret2, d2, k2, (cs ++ cs2), k3. split; [done|]. split; [by eapply refused_app|].
    split; [by apply Forall_app|].
    destruct Hc2 as [(?&->&->&<-)|(?&s&b&i&->&?&?&?&->&Hpre)]; [left|right; split; [done|]; exists s, b, i].
    + rewrite log_all_app. unfold opcodes. rewrite map_app. by rewrite <- Hop.
    + rewrite log_all_app, app_assoc. do 5 (split; [done|]). rewrite <- app_assoc. unfold opcodes in *. rewrite map_app, <- Hop.
      by apply prefix_app.
  - rewrite (proj2 (Z.ltb_ge _ _) Hret). eexists _, _, _, cs, k1. split; [done|]. do 2 (split; [done|]). right.
    split; [done|]. exists s, b, i. do 5 (split; [done|]). by apply prefix_app_r.
Qed.

(** One command: [i] is what the driver left in the buffer. *)
Lemma found_one d k s b ret i op :
  answer_ret (k_answer k s b) = Some ret -> an_payload (k_answer k s b) = PInfo i ->
  cs_cmd_op s = op -> cmd_ok OGetInfo d (s, b) ->
  found [op] d k (Some (ret, (if 0 <=? ret then set_info i (log_cmd s b d) else log_cmd s b d),
                        an_kernel (k_answer k s b))).
Proof.
  intros Hr Hp <- Hok. destruct (Z.leb_spec 0 ret).
  - eexists _, _, _, [], k. split; [done|]. split; [constructor|]. split; [done|]. right. split; [done|].
    exists s, b, i. done.
  - eexists _, _, _, [(s, b)], _. split; [done|]. split; [econstructor; [done..|constructor]|].
    split; [by constructor|]. by left.
Qed.

Lemma get_info_one d k op :
  _IOC_NR op = UBLK_CMD_GET_DEV_INFO2 \/ (_IOC_NR op = UBLK_CMD_GET_DEV_INFO /\ ublk_is_unprivileged d = false) ->
  found [op] d k (__ublksrv_ctrl_get_info_no_trans d k op).
Proof.
  intros Hop. unfold __ublksrv_ctrl_get_info_no_trans.
  destruct (Z.eqb_spec (_IOC_NR op) UBLK_CMD_GET_DEV_INFO2) as [H2|H2].
  - replace (_IOC_NR op =? UBLK_CMD_GET_DEV_INFO) with false by (by rewrite H2). rewrite andb_false_r.
    set (data := mk_cmd_data _ _ _ _ _ _). set (b := mk_ctrl_buf _ _).
    destruct (raw_cmd OGetInfo d k data b) as (s&ret&Hr&Hc&Hok&->);
      [done|by apply elem_of_cons; left|done|done|by apply carries_none|]. cbn [mbind option_bind].
    pose proof (k_kind k s b) as Hk. destruct (an_payload (k_answer k s b)) as [|i| | |] eqn:Ep; try done.
    by apply found_one.
  - destruct Hop as [?|[Hop Hu]]; [done|]. rewrite Hu. cbn [andb].
    set (data := mk_cmd_data _ _ _ _ _ _). set (b := mk_ctrl_buf _ _).
    destruct (raw_cmd OGetInfo d k data b) as (s&ret&Hr&Hc&Hok&->);
      [done|by cbn; rewrite Hop; apply elem_of_cons; right; apply elem_of_cons; left|done|by rewrite Hu|by apply carries_none|].
    cbn [mbind option_bind].
    pose proof (k_kind k s b) as Hk. destruct (an_payload (k_answer k s b)) as [|i| | |] eqn:Ep; try done.
    pose proof (found_one d k s b ret i op Hr Ep Hc Hok) as Hf. destruct (Z.leb_spec 0 ret); [done|].
    pose proof (k_error k s b ret Hr) as He. rewrite Ep in He. cbn [b cb_payload] in He.
    rewrite He by done. done.
Qed.

Lemma get_info_two d k op new_code :
  legacy_op_to_ioctl op = Some new_code ->
  (_IOC_NR op = UBLK_CMD_GET_DEV_INFO2 /\ _IOC_NR new_code = UBLK_CMD_GET_DEV_INFO2) \/
  (_IOC_NR op = UBLK_CMD_GET_DEV_INFO /\ _IOC_NR new_code = UBLK_CMD_GET_DEV_INFO /\ ublk_is_unprivileged d = false) ->
  found [new_code; op] d k (__ublksrv_ctrl_get_info d k op).
Proof.
  intros Hc Hop. unfold __ublksrv_ctrl_get_info. rewrite Hc. cbn [mbind option_bind].
  apply (found_then [new_code] [op] d k _ (fun _ d k => __ublksrv_ctrl_get_info_no_trans d k op)).
  - apply get_info_one. tauto.
  - intros ret cs k' _. apply get_info_one. change (ublk_is_unprivileged (log_all cs d)) with (ublk_is_unprivileged d). tauto.
Qed.

(** The commands tried on a device. *)
Definition info_tries (d : ublksrv_ctrl_dev) : list Z :=
  [UBLK_U_CMD_GET_DEV_INFO2; UBLK_CMD_GET_DEV_INFO2] ++
  (if ublk_is_unprivileged d then [] else [UBLK_U_CMD_GET_DEV_INFO; UBLK_CMD_GET_DEV_INFO]).

Lemma get_info_found d k : found (info_tries d) d k (ublksrv_ctrl_get_info d k).
Proof.
  apply (found_then _ _ d k _ (fun ret d k =>
    if ublk_is_unprivileged d then Some (ret, d, k) else __ublksrv_ctrl_get_info d k UBLK_CMD_GET_DEV_INFO)).
  - apply get_info_two; [done|by left].
  - intros ret cs k' Hret. change (ublk_is_unprivileged (log_all cs d)) with (ublk_is_unprivileged d).
    destruct (ublk_is_unprivileged d) eqn:Hu.
    + eexists _, _, _, [], k'. split; [done|]. split; [constructor|]. split; [done|]. left.
      split; [done|]. split; [|done]. unfold log_all. by rewrite app_nil_r.
    + apply get_info_two; [done|by right].
Qed.

Lemma found_sends tries d k r : found tries d k r -> sends OGetInfo d r.
Proof.
  intros (ret&d'&k'&cs&k1&->&_&Hok&[(_&->&_)|(_&s&b&i&->&?&_)]).
  - exists ret, (log_all cs d), k', cs. done.
  - eexists _, _, _, (cs ++ [(s, b)]). split; [done|]. split; [done|]. by apply Forall_app_2; [|constructor].
Qed.

Lemma set_info_log d s b : set_info (dev_info (log_cmd s b d)) (log_cmd s b d) = log_cmd s b d.
Proof. done. Qed.

Lemma add_dev_one d k op :
  _IOC_NR op = UBLK_CMD_ADD_DEV ->
  exists s b ret d', __ublksrv_ctrl_add_dev d k op = Some (ret, d', an_kernel (k_answer k s b)) /\
    cmd_ok OAdd d (s, b) /\ sent d' = sent d ++ [(s, b)] /\ (ret < 0 -> d' = log_cmd s b d).
Proof.
  intros Hop. unfold __ublksrv_ctrl_add_dev. set (data := mk_cmd_data _ _ _ _ _ _). set (b := mk_ctrl_buf _ _).
  destruct (raw_cmd OAdd d k data b) as (s&ret&Hr&_&Hok&->);
    [done|by cbn; rewrite Hop; apply elem_of_cons; left|done|done|by apply carries_none|]. cbn [mbind option_bind].
  exists s, b, ret. eexists. split; [done|]. split; [done|]. split; [done|]. intros Hret.
  rewrite (k_error k s b ret Hr Hret). apply set_info_log.
Qed.

Lemma add_dev_sends d k : sends OAdd d (ublksrv_ctrl_add_dev d k).
Proof.
  unfold ublksrv_ctrl_add_dev.
  destruct (add_dev_one d k UBLK_U_CMD_ADD_DEV) as (s&b&ret&d1&->&Hok&Hs&Hneg); [done|]. cbn [mbind option_bind].
  destruct (Z.ltb_spec ret 0) as [Hret|].
  - rewrite (Hneg Hret) in *.
    destruct (add_dev_one (log_cmd s b d) (an_kernel (k_answer k s b)) UBLK_CMD_ADD_DEV) as (s2&b2&ret2&d2&->&Hok2&Hs2&_); [done|].
    eexists _, _, _, [(s, b); (s2, b2)]. split; [done|]. split; [by rewrite Hs2; cbn; rewrite <- app_assoc|].
    constructor; [done|]. constructor; [|done]. by apply (cmd_ok_same OAdd d (log_cmd s b d)).
  - eexists _, _, _, [(s, b)]. split; [done|]. split; [done|]. by constructor.
Qed.

Lemma del_async_sends d k : sends ODelAsync d (ublksrv_ctrl_del_dev_async d k).
Proof.
  unfold ublksrv_ctrl_del_dev_async, plain_cmd. set (data0 := mk_cmd_data _ _ _ _ _ _).
  pose proof (prep_ok d data0) as Hp. destruct (prep_keeps d data0) as (Ho&Hf&Hb&_).
  destruct (ublk_un_privileged_prep_data d data0) as [data b]. cbn [fst snd] in *.
  destruct (raw_cmd ODelAsync d k data b) as (s&ret&_&_&Hok&->).
  { unfold trans_op. by rewrite Hf. }
  { rewrite Ho. by apply elem_of_cons; left. }
  { done. }
  { done. }
  { split; [done|]. split; [by intros ? [= <-]|done]. }
  cbn [mbind option_bind]. eexists _, _, _, [(s, b)]. split; [done|]. split; [done|]. by constructor.
Qed.

Lemma features_sends d k :
  has (dev_flags (dev_info d)) UBLK_F_CMD_IOCTL_ENCODE = false ->
  sends OGetFeatures d (drop_out (ublksrv_ctrl_get_features d k)).
Proof.
  intros Hf. unfold ublksrv_ctrl_get_features. set (data := mk_cmd_data _ _ _ _ _ _). set (b := mk_ctrl_buf _ _).
  destruct (raw_cmd OGetFeatures d k data b) as (s&ret&_&_&Hok&->).
  { unfold trans_op. by rewrite Hf, andb_false_r. }
  { by apply elem_of_cons; left. }
  { done. }
  { done. }
  { split; [done|]. split; [by intros ? [= <-]|by intros ? [= <-]]. }
  eexists _, _, _, [(s, b)]. split; [done|]. split; [done|]. by constructor.
Qed.

(** The loop over all queues of a device. *)
Lemma affinity_queues d : 
  0 <= nr_hw_queues (dev_info d) ->
  let buf := replicate (Z.to_nat ((sizeof_cpu_set + path_len_of d) * nr_hw_queues (dev_info d))) 0 in
  forall i, i ∈ seqZ 0 (nr_hw_queues (dev_info d)) ->
    0 <= i /\ (sizeof_cpu_set + path_len_of d) * (i + 1) <= Z.of_nat (length buf).
Proof.
  intros Hn buf i Hi. apply elem_of_seqZ in Hi. subst buf. rewrite length_replicate.
  split; [lia|]. aff_arith d.
Qed.

Lemma affinity_sends mem d k :
  0 <= nr_hw_queues (dev_info d) -> sends (OGetAffinity mem) d (ublksrv_ctrl_get_affinity mem d k).
Proof.
  intros Hn. unfold ublksrv_ctrl_get_affinity. destruct mem; cbn [negb].
  2:{ eexists _, _, _, []. split; [done|]. split; [by rewrite app_nil_r|done]. }
  fold (path_len_of d).
  destruct (affinity_loop_run true _ d k _ (NoDup_seqZ 0 _) (affinity_queues d Hn))
    as (ret&buf'&d'&k'&new&->&_&Hs&Hok&_). cbn [mbind option_bind].
  destruct (ret <? 0); eexists _, _, _, new; split; done.
Qed.

(** C33: Every control operation sends only well-formed commands and finishes:
    to the control device, for this device's id and no queue, with the
    operation's command number, encoded as an ioctl exactly when the device
    asks for it (where the opcode is translated), and on an unprivileged
    device with the path of its char device in front of the buffer; starting a
    device and ending its recovery pass the daemon's pid, setting and getting
    parameters pass the structure (with its length field set) and its size, and
    start, stop, delete and recovery commands have no payload.  The exception is ublksrv_ctrl_get_features, which asks for the translation of
    an opcode that is already encoded: on a device with
    UBLK_F_CMD_IOCTL_ENCODE its assertion fails. *)
Theorem ctrl_commands_well_formed op d k :
  0 <= nr_hw_queues (dev_info d) ->
  ((op = OGetFeatures -> has (dev_flags (dev_info d)) UBLK_F_CMD_IOCTL_ENCODE = false) ->
   exists ret d' k' new, run_ctrl op d k = Some (ret, d', k') /\ sent d' = sent d ++ new /\ Forall (cmd_ok op d) new) /\
  (has (dev_flags (dev_info d)) UBLK_F_CMD_IOCTL_ENCODE = true -> run_ctrl OGetFeatures d k = None).
Proof.
  intros Hn. split.
  - intros Hf. change (sends op d (run_ctrl op d k)). destruct op; cbn [run_ctrl].
    + apply add_dev_sends.
    + eapply sent_once_sends, del_dev_once. done.
    + apply del_async_sends.
    + eapply sent_once_sends, start_dev_once. done.
    + eapply sent_once_sends, stop_dev_once. done.
    + eapply found_sends, get_info_found.
    + eapply sent_once_sends, set_params_once. done.
    + eapply (params_sends _ d k UBLK_CMD_GET_PARAMS (set_params_len p) (fun ret q d => (0, _))); [legacy_op|done..].
    + eapply sent_once_sends, start_recovery_once. done.
    + eapply sent_once_sends, end_recovery_once. done.
    + apply features_sends. by apply Hf.
    + by apply affinity_sends.
  - intros Hf. cbn [run_ctrl]. unfold ublksrv_ctrl_get_features, __ublksrv_ctrl_cmd.
    destruct (k_free k) as [slot ->]. unfold ublksrv_ctrl_init_cmd. cbn [cmd_flags cmd_op]. rewrite Hf. done.
Qed.

(** ublksrv_ctrl_get_info asks for the device information in the encodings
    a driver may know, GET_DEV_INFO2 first and as an ioctl first, and without
    the device path only on a privileged device; it stops at the first command
    the driver accepts and keeps what that command reported, and when all are
    refused it returns an error and leaves the information it had. *)
Theorem ctrl_get_info_first_accepted d k :
  exists ret d' k' refused k1,
    ublksrv_ctrl_get_info d k = Some (ret, d', k') /\ refused_run k refused k1 /\
    ((ret < 0 /\ sent d' = sent d ++ refused /\ opcodes refused = info_tries d /\ dev_info d' = dev_info d) \/
     (0 <= ret /\ exists s b, sent d' = sent d ++ refused ++ [(s, b)] /\
        opcodes (refused ++ [(s, b)]) `prefix_of` info_tries d /\
        answer_ret (k_answer k1 s b) = Some ret /\ an_payload (k_answer k1 s b) = PInfo (dev_info d'))).
Proof.
  destruct (get_info_found d k) as (ret&d'&k'&cs&k1&Hrun&Hr&_&Hcase). exists ret, d', k', cs, k1.
  split; [done|]. split; [done|].
  destruct Hcase as [(?&->&_&?)|(?&s&b&i&->&_&?&?&_&?)]; [by left|right]. split; [done|]. by exists s, b.
Qed.

(** The masks as they lie in memory after ublksrv_ctrl_get_affinity. *)
Lemma get_affinity_masks d k d' k' M :
  0 <= nr_hw_queues (dev_info d) -> reports_masks M ->
  ublksrv_ctrl_get_affinity true d k = Some (0, d', k') ->
  exists buf, queues_cpuset d' = Some buf /\ dev_info d' = dev_info d /\
    Z.of_nat (length buf) = (sizeof_cpu_set + path_len_of d) * nr_hw_queues (dev_info d) /\
    forall i, 0 <= i < nr_hw_queues (dev_info d) ->
      slice (i * (sizeof_cpu_set + path_len_of d) + path_len_of d) (Z.to_nat sizeof_cpu_set) buf = M i.
Proof.
  intros Hn HM. unfold ublksrv_ctrl_get_affinity. cbn [negb]. fold (path_len_of d).
  destruct (affinity_loop_run true _ d k _ (NoDup_seqZ 0 _) (affinity_queues d Hn))
    as (ret&buf'&d1&k1&new&->&Hle&_&_&Hinfo&_&Hm). cbn [mbind option_bind].
  destruct (Z.ltb_spec ret 0); intros Heq; simplify_eq; [done|]. destruct (Hm ltac:(lia)) as [Hl HMi].
  exists buf'. split; [done|]. split; [done|]. split.
  - rewrite Hl, length_replicate. aff_arith d.
  - intros i Hi. apply HMi; [done|]. apply elem_of_seqZ. lia.
Qed.

(** On a privileged device ublksrv_get_queue_affinity gives every queue
    the mask the driver reported for it.  On an unprivileged device only queue
    0 gets its mask: each entry of the array also holds the device path, but
    the lookup steps by the size of the mask alone, so for queue [qid] it reads
    [32 * qid] bytes before the mask of that queue. *)
Theorem queue_affinity_lookup d k d' k' M :
  0 <= nr_hw_queues (dev_info d) -> reports_masks M ->
  ublksrv_ctrl_get_affinity true d k = Some (0, d', k') ->
  forall qid, 0 <= qid < nr_hw_queues (dev_info d) ->
  (ublk_is_unprivileged d = false \/ qid = 0 -> ublksrv_get_queue_affinity d' qid = Some (M qid)) /\
  (ublk_is_unprivileged d = true -> exists buf mask_off, queues_cpuset d' = Some buf /\
     slice mask_off (Z.to_nat sizeof_cpu_set) buf = M qid /\
     ublksrv_get_queue_affinity d' qid = Some (slice (mask_off - 32 * qid) (Z.to_nat sizeof_cpu_set) buf)).
Proof.
  intros Hn HM Hrun qid Hq. destruct (get_affinity_masks d k d' k' M Hn HM Hrun) as (buf&Hb&Hi&Hl&Hm).
  specialize (Hm qid Hq). unfold ublksrv_get_queue_affinity, ublksrv_get_queue_affinity_off. rewrite Hb.
  cbn [mbind option_bind]. replace (ublk_is_unprivileged d') with (ublk_is_unprivileged d) by (unfold ublk_is_unprivileged; by rewrite Hi).
  unfold path_len_of, sizeof_cpu_set, UBLKC_PATH_MAX in *. destruct (ublk_is_unprivileged d) eqn:Hu.
  - rewrite (proj2 (in_range_spec _ _ _)) by lia. split.
    + intros [?|Hq0]; [done|]. rewrite <- Hm, Hq0. reflexivity.
    + intros _. exists buf, (qid * (128 + 32) + 32). split; [done|]. split; [done|].
      unfold slice. do 3 f_equal. lia.
  - split; [|done]. intros _. rewrite (proj2 (in_range_spec _ _ _)) by lia. rewrite <- Hm. unfold slice. do 3 f_equal. lia.
Qed.

(** ublksrv_ctrl_get_params reports success whatever the driver answers:
    accepted, it gives the driver's parameters; refused, it returns 0 all the
    same and the caller keeps what it passed in. *)
Theorem ctrl_get_params_hides_errors d k p :
  exists s b ret params,
    ublksrv_ctrl_get_params d k p = Some (0, params, log_cmd s b d, an_kernel (k_answer k s b)) /\
    answer_ret (k_answer k s b) = Some ret /\
    (0 <= ret -> an_payload (k_answer k s b) = PParams params) /\
    (ret < 0 -> params = set_params_len p).
Proof.
  unfold ublksrv_ctrl_get_params.
  assert (Ho : cmd_op (params_cmd d UBLK_CMD_GET_PARAMS (set_params_len p)).1 = UBLK_CMD_GET_PARAMS /\
    has (cmd_flags (params_cmd d UBLK_CMD_GET_PARAMS (set_params_len p)).1) CTRL_CMD_NO_TRANS = false /\
    cb_payload (params_cmd d UBLK_CMD_GET_PARAMS (set_params_len p)).2 = PParams (set_params_len p)).
  { unfold params_cmd. by destruct (ublk_is_unprivileged d). }
  destruct (params_cmd d _ _) as [data b]. cbn [fst snd] in Ho. destruct Ho as (Ho&Hf&Hb).
  destruct (trans_legacy d data) as (code&Hc&_); [rewrite Ho; legacy_op|done|].
  destruct (ctrl_cmd_run d k data b code Hc) as (slot&s&ret&Hi&Hr&->). cbn [mbind option_bind].
  pose proof (k_kind k s b) as Hk. rewrite Hb in Hk. destruct (an_payload _) as [| |q| |] eqn:Ep; try done.
  exists s, b, ret. eexists. split; [done|]. split; [done|]. cbn [reply_params].
  change (ublk_is_unprivileged (log_cmd s b d)) with (ublk_is_unprivileged d). rewrite Ep. split; intros Hret.
  - rewrite (proj2 (Z.leb_le _ _) Hret). by destruct (ublk_is_unprivileged d).
  - pose proof (k_error k s b ret Hr Hret) as He. rewrite Ep, Hb in He. simplify_eq.
    rewrite (proj2 (Z.leb_gt _ _) Hret). by destruct (ublk_is_unprivileged d).
Qed.
End ctrl_wf.
