(* ===== verification/CtrlExamples.v ===== *)
(** * A driver that answers control commands, and the witnesses of Ctrl

    [exc_kernel] keeps no state.  Its driver is an old one: it does not know
    GET_DEV_INFO2 and GET_PARAMS, reports one device, and gives queue [q] a
    mask of 128 bytes [q + 1].  Ring slots hold an earlier command, and the
    first wait is interrupted by a signal. *)

From S2P Require Import Prelude Bytes UblkCmd Params Json Ctrl.

Definition exc_info : ublksrv_ctrl_dev_info := mk_dev_info 3 64 1 0 524288 7 4242 0 0 0 0 0 0 0.
Definition exc_slot : ctrl_sqe := mk_ctrl_sqe 9 46 0 12345 (mk_ctrl_cmd 99 0 17 4096 5 32).
Definition exc_mask (q : Z) : list Z := replicate 128 (q + 1).

Definition exc_reply (s : ctrl_sqe) (b : ctrl_buf) : Z * ctrl_payload :=
  match cb_payload b with
  | PInfo _ =>
      if (_IOC_NR (cs_cmd_op s) =? UBLK_CMD_GET_DEV_INFO) || (_IOC_NR (cs_cmd_op s) =? UBLK_CMD_ADD_DEV)
      then (0, PInfo exc_info) else (- EOPNOTSUPP, cb_payload b)
  | PCpuset m =>
      if (_IOC_NR (cs_cmd_op s) =? UBLK_CMD_GET_QUEUE_AFFINITY) && bool_decide (length m = 128%nat)
      then (0, PCpuset (exc_mask (cc_data0 (cs_cmd s)))) else (- EINVAL, cb_payload b)
  | PParams _ => (- EOPNOTSUPP, cb_payload b)
  | _ => (- EINVAL, cb_payload b)
  end.

#[global] Instance exc_kernel : CtrlKernel unit := {
  k_slot _ := Some exc_slot;
  k_answer k s b := mk_answer [- EINTR; 1] 0 (exc_reply s b).1 (exc_reply s b).2 k;
  k_addr l := match l with LDevInfo => 4096 | LLocal => 8192 | LParams => 12288 | LFeatures => 16384 | LCpusets => 20480 end
}.

Lemma exc_ret s b (k : unit) : answer_ret (k_answer k s b) = Some (exc_reply s b).1.
Proof. done. Qed.

#[global] Instance exc_kernel_laws : CtrlKernelLaws unit.
Proof.
  split.
  - intros k. by eexists.
  - intros k s b. by eexists.
  - intros k s [path p]. cbn [cb_payload k_answer exc_kernel an_payload]. unfold exc_reply. cbn [cb_payload].
    destruct p as [| | | |m]; cbn [fst snd]; [done| |done|done|].
    + by destruct (_ || _).
    + destruct (_ && _) eqn:Hb; cbn [fst snd]; apply bool_decide_eq_true; [|done].
      apply andb_true_iff in Hb as [_ Hb]. apply bool_decide_eq_true in Hb. unfold exc_mask. by rewrite length_replicate.
  - intros k s [path p] ret. rewrite exc_ret. intros [= <-]. cbn [k_answer exc_kernel an_payload]. unfold exc_reply.
    cbn [cb_payload]. destruct p; cbn; intros Hret; try done; case_match; done.
Qed.

Lemma exc_masks : reports_masks (K := unit) exc_mask.
Proof.
  intros k s [path p] ret Hnr. rewrite exc_ret. intros [= <-] Hret.
  cbn [k_answer exc_kernel an_payload]. unfold exc_reply in *. cbn [cb_payload] in *. rewrite Hnr in *.
  destruct p as [| | | |m]; try done.
  destruct (_ && _); done.
Qed.

Definition exc_dev (flags : Z) : ublksrv_ctrl_dev :=
  mk_ctrl_dev 5 (mk_dev_info 3 64 0 0 524288 7 0 0 flags 0 0 0 0 0) (mk_jbuf 512 (Some 512) "") false (Some "/run/ublksrvd") None [].

Definition exc_priv : ublksrv_ctrl_dev := exc_dev UBLK_F_CMD_IOCTL_ENCODE.
Definition exc_unpriv : ublksrv_ctrl_dev := exc_dev (Z.lor UBLK_F_CMD_IOCTL_ENCODE UBLK_F_UNPRIVILEGED_DEV).

Lemma ctrl_commands_well_formed_witness :
  (exists ret d' k' new, run_ctrl (OStart 4711) exc_unpriv tt = Some (ret, d', k') /\
     sent d' = sent exc_unpriv ++ new /\ Forall (cmd_ok (OStart 4711) exc_unpriv) new) /\
  run_ctrl OGetFeatures exc_unpriv tt = None.
Proof.
  destruct (ctrl_commands_well_formed (OStart 4711) exc_unpriv tt ltac:(done)) as [H1 H2].
  split; [apply H1; done | apply H2; reflexivity].
Defined.

Lemma ctrl_get_info_first_accepted_witness :
  (exists d', ublksrv_ctrl_get_info exc_priv tt = Some (0, d', tt) /\ dev_info d' = exc_info /\
    opcodes (sent d') = [UBLK_U_CMD_GET_DEV_INFO2; UBLK_CMD_GET_DEV_INFO2; UBLK_U_CMD_GET_DEV_INFO]) /\
  (exists ret d' k' refused k1,
    ublksrv_ctrl_get_info exc_unpriv tt = Some (ret, d', k') /\ refused_run tt refused k1 /\
    ((ret < 0 /\ sent d' = sent exc_unpriv ++ refused /\ opcodes refused = info_tries exc_unpriv /\
      dev_info d' = dev_info exc_unpriv) \/
     (0 <= ret /\ exists s b, sent d' = sent exc_unpriv ++ refused ++ [(s, b)] /\
        opcodes (refused ++ [(s, b)]) `prefix_of` info_tries exc_unpriv /\
        answer_ret (k_answer k1 s b) = Some ret /\ an_payload (k_answer k1 s b) = PInfo (dev_info d')))).
Proof.
  split; [eexists; split; [reflexivity|split; reflexivity]|].
  exact (ctrl_get_info_first_accepted exc_unpriv tt).
Defined.

(** The device after its affinity masks were read. *)
Definition exc_after (d : ublksrv_ctrl_dev) : ublksrv_ctrl_dev :=
  match ublksrv_ctrl_get_affinity true d tt with Some (_, d', _) => d' | None => d end.

(** Queue 1 of the unprivileged device is given the device path and a part of
    its mask instead of its mask. *)
Lemma queue_affinity_lookup_witness :
  ublksrv_get_queue_affinity (exc_after exc_priv) 2 = Some (exc_mask 2) /\
  ublksrv_get_queue_affinity (exc_after exc_unpriv) 0 = Some (exc_mask 0) /\
  bool_decide (ublksrv_get_queue_affinity (exc_after exc_unpriv) 1 = Some (exc_mask 1)) = false.
Proof.
  split; [|split; [|vm_compute; reflexivity]].
  - apply (queue_affinity_lookup exc_priv tt (exc_after exc_priv) tt exc_mask); [done|exact exc_masks| |done|by left].
    vm_compute; reflexivity.
  - apply (queue_affinity_lookup exc_unpriv tt (exc_after exc_unpriv) tt exc_mask); [done|exact exc_masks| |done|by right].
    vm_compute; reflexivity.
Defined.

Definition exc_params : ublk_params :=
  mk_params 152 1 (mk_param_basic 0 9 9 9 9 1024 0 2048 0) (mk_param_discard 0 0 0 0 0 0) (mk_param_devt 0 0 0 0)
    (mk_param_zoned 0 0 0 0 0 0) (mk_param_dma 0 0) (mk_param_segment 0 0 0 0) (mk_param_integrity 0 0 0 0 0 0 0).

Lemma ctrl_get_params_hides_errors_witness :
  exists s b ret params,
    ublksrv_ctrl_get_params exc_unpriv tt exc_params = Some (0, params, log_cmd s b exc_unpriv, tt) /\
    answer_ret (k_answer tt s b) = Some ret /\
    (0 <= ret -> an_payload (k_answer tt s b) = PParams params) /\
    (ret < 0 -> params = set_params_len exc_params).
Proof. exact (ctrl_get_params_hides_errors exc_unpriv tt exc_params). Defined.
