(* ===== verification/SdProto.v ===== *)
(** * The sheepdog protocol (targets/sheepdog/sheepdog_proto.h)

    Object identifiers, the FNV-1a hashes over them, the request and response
    headers and the inode of a virtual disk image.  Structures that travel over
    the wire are given with their byte layout; a received structure is a list
    of bytes whose fields are read at their offsets. *)

From S2P Require Import Prelude Bytes.

Definition SD_PROTO_VER : Z := 0x02.
Definition SD_OP_CREATE_AND_WRITE_OBJ : Z := 0x01.
Definition SD_OP_READ_OBJ : Z := 0x02.
Definition SD_OP_WRITE_OBJ : Z := 0x03.
Definition SD_OP_LOCK_VDI : Z := 0x12.
Definition SD_OP_RELEASE_VDI : Z := 0x13.
Definition SD_OP_GET_VDI_INFO : Z := 0x14.

Definition SD_FLAG_CMD_WRITE : Z := 0x01.
Definition SD_FLAG_CMD_COW : Z := 0x02.
Definition SD_FLAG_CMD_DIRECT : Z := 0x08.
Definition SD_FLAG_CMD_TGT : Z := 0x20.

Definition SD_RES_SUCCESS : Z := 0x00.
Definition SD_RES_NO_OBJ : Z := 0x02.
Definition SD_RES_VDI_EXIST : Z := 0x04.
Definition SD_RES_INVALID_PARMS : Z := 0x05.
Definition SD_RES_VDI_LOCKED : Z := 0x07.
Definition SD_RES_NO_VDI : Z := 0x08.
Definition SD_RES_NO_BASE_VDI : Z := 0x09.
Definition SD_RES_READONLY : Z := 0x1A.
Definition SD_RES_INODE_INVALIDATED : Z := 0x1D.

Definition VDI_SPACE_SHIFT : Z := 32.
Definition SD_VDI_MASK : Z := 0x00FFFFFF00000000.
Definition VDI_BIT : Z := bit 63.
Definition VMSTATE_BIT : Z := bit 62.
Definition VDI_ATTR_BIT : Z := bit 61.
Definition VDI_BTREE_BIT : Z := bit 60.
Definition LEDGER_BIT : Z := bit 59.
Definition MAX_DATA_OBJS : Z := bit 32.
Definition SD_MAX_VDI_LEN : nat := 256.
Definition SD_MAX_VDI_TAG_LEN : nat := 256.
Definition SD_NR_VDIS : Z := bit 24.
Definition SD_DATA_OBJ_SIZE : Z := bit 22.
Definition SD_INODE_DATA_INDEX : Z := bit 20.
Definition SD_INODE_DATA_INDEX_SIZE : Z := 4 * SD_INODE_DATA_INDEX.
Definition SD_LEDGER_OBJ_SIZE : Z := bit 22.
Definition CURRENT_VDI_ID : Z := 0.
Definition LOCK_TYPE_SHARED : Z := 1.

(** offsetof(struct sd_inode, data_vdi_id): two names, five 64-bit words, four
    bytes, three 32-bit words and the recycled area of 1024 words. *)
Definition SD_INODE_HEADER_SIZE : Z := 256 + 256 + 5 * 8 + 4 + 3 * 4 + 1024 * 4.
Definition SD_INODE_SIZE : Z := SD_INODE_HEADER_SIZE + 4 * SD_INODE_DATA_INDEX + 8 * SD_INODE_DATA_INDEX.
Definition SD_ATTR_OBJ_SIZE : Z := 256 + 256 + 8 + 4 + 4 + 256 + 65536.

(** ** Hashes *)
Definition FNV1A_64_INIT : Z := 0xcbf29ce484222325.
Definition FNV_64_PRIME : Z := 0x100000001b3.

(** [hval ^= b; hval *= FNV_64_PRIME;] *)
Definition fnv_step (hval b : Z) : Z := u64 (Z.lxor hval b * FNV_64_PRIME).

Definition fnv_64a_buf (buf : list Z) (hval : Z) : Z := fold_left fnv_step buf hval.

Definition fnv_64a_64 (oid hval : Z) : Z :=
  let hval := fnv_step hval (Z.land oid 0xff) in
  let hval := fnv_step hval (Z.land (Z.shiftr oid 8) 0xff) in
  let hval := fnv_step hval (Z.land (Z.shiftr oid 16) 0xff) in
  let hval := fnv_step hval (Z.land (Z.shiftr oid 24) 0xff) in
  let hval := fnv_step hval (Z.land (Z.shiftr oid 32) 0xff) in
  let hval := fnv_step hval (Z.land (Z.shiftr oid 40) 0xff) in
  let hval := fnv_step hval (Z.land (Z.shiftr oid 48) 0xff) in
  let hval := fnv_step hval (Z.land (Z.shiftr oid 56) 0xff) in
  hval.

Definition sd_hash (buf : list Z) : Z :=
  let hval := fnv_64a_buf buf FNV1A_64_INIT in fnv_64a_64 hval hval.

Definition sd_hash_64 (oid : Z) : Z :=
  let hval := fnv_64a_64 oid FNV1A_64_INIT in fnv_64a_64 hval hval.

Definition sd_hash_next (hval : Z) : Z := fnv_64a_64 hval hval.

Definition sd_hash_oid (oid : Z) : Z := sd_hash_64 oid.

(** [name]: the bytes before the terminating zero. *)
Definition sd_hash_vdi (name : list Z) : Z :=
  Z.land (fnv_64a_buf name FNV1A_64_INIT) (SD_NR_VDIS - 1).

Definition hash_64 (val bits : Z) : Z := Z.shiftr (sd_hash_64 val) (64 - bits).

(** ** Object identifiers *)
Definition is_vdi_obj (oid : Z) : bool := has oid VDI_BIT.
Definition is_vmstate_obj (oid : Z) : bool := has oid VMSTATE_BIT.
Definition is_vdi_attr_obj (oid : Z) : bool := has oid VDI_ATTR_BIT.
Definition is_vdi_btree_obj (oid : Z) : bool := has oid VDI_BTREE_BIT.
Definition is_ledger_object (oid : Z) : bool := has oid LEDGER_BIT.
Definition is_data_obj (oid : Z) : bool :=
  negb (is_vdi_obj oid) && negb (is_vmstate_obj oid) && negb (is_vdi_attr_obj oid) &&
  negb (is_vdi_btree_obj oid) && negb (is_ledger_object oid).

Definition get_objsize (oid object_size : Z) : Z :=
  if is_vdi_obj oid then SD_INODE_SIZE
  else if is_vdi_attr_obj oid then SD_ATTR_OBJ_SIZE
  else if is_vdi_btree_obj oid then SD_INODE_DATA_INDEX_SIZE
  else if is_ledger_object oid then SD_LEDGER_OBJ_SIZE
  else object_size.

Definition data_oid_to_idx (oid : Z) : Z := Z.land oid (MAX_DATA_OBJS - 1).
Definition vid_to_vdi_oid (vid : Z) : Z := Z.lor VDI_BIT (u64 (Z.shiftl vid VDI_SPACE_SHIFT)).
Definition vid_to_data_oid (vid idx : Z) : Z := Z.lor (u64 (Z.shiftl vid VDI_SPACE_SHIFT)) idx.
Definition oid_to_vid (oid : Z) : Z := u32 (Z.shiftr (Z.land oid SD_VDI_MASK) VDI_SPACE_SHIFT).
Definition vid_to_attr_oid (vid attrid : Z) : Z :=
  Z.lor (Z.lor (u64 (Z.shiftl vid VDI_SPACE_SHIFT)) VDI_ATTR_BIT) attrid.
Definition vid_to_btree_oid (vid btreeid : Z) : Z :=
  Z.lor (Z.lor (u64 (Z.shiftl vid VDI_SPACE_SHIFT)) VDI_BTREE_BIT) btreeid.
Definition vid_to_vmstate_oid (vid idx : Z) : Z :=
  Z.lor (Z.lor VMSTATE_BIT (u64 (Z.shiftl vid VDI_SPACE_SHIFT))) idx.
Definition ledger_oid_to_data_oid (oid : Z) : Z := Z.ldiff oid LEDGER_BIT.
Definition data_oid_to_ledger_oid (oid : Z) : Z := Z.lor LEDGER_BIT oid.

(** ** Requests and responses *)

(** The union of [struct sd_req]: the members the target fills in. *)
Inductive req_body :=
| ReqObj (oid cow_oid copies copy_policy ec_index reserved tgt_epoch offset : Z)
| ReqVdi (vdi_size base_vdi_id copies copy_policy store_policy block_size_shift snapid type : Z).

Record sd_req := mk_sd_req {
  req_proto_ver : Z;   (* uint8_t *)
  req_opcode : Z;      (* uint8_t *)
  req_flags : Z;       (* uint16_t *)
  req_epoch : Z;
  req_id : Z;
  req_data_length : Z;
  req_union : req_body
}.

Definition zero_obj : req_body := ReqObj 0 0 0 0 0 0 0 0.
Definition zero_vdi : req_body := ReqVdi 0 0 0 0 0 0 0 0.
Definition zero_req : sd_req := mk_sd_req 0 0 0 0 0 0 zero_obj.

Definition body_bytes (b : req_body) : list Z :=
  match b with
  | ReqObj oid cow copies pol ec res epoch off =>
      le_bytes 8 oid ++ le_bytes 8 cow ++ le_bytes 1 copies ++ le_bytes 1 pol ++ le_bytes 1 ec ++
      le_bytes 1 res ++ le_bytes 4 epoch ++ le_bytes 4 off ++ le_bytes 4 0
  | ReqVdi size base copies pol store shift snapid type =>
      le_bytes 8 size ++ le_bytes 4 base ++ le_bytes 1 copies ++ le_bytes 1 pol ++ le_bytes 1 store ++
      le_bytes 1 shift ++ le_bytes 4 snapid ++ le_bytes 4 type ++ le_bytes 8 0
  end.

(** The 48 bytes of a request header. *)
Definition req_bytes (r : sd_req) : list Z :=
  le_bytes 1 (req_proto_ver r) ++ le_bytes 1 (req_opcode r) ++ le_bytes 2 (req_flags r) ++
  le_bytes 4 (req_epoch r) ++ le_bytes 4 (req_id r) ++ le_bytes 4 (req_data_length r) ++
  body_bytes (req_union r).

(** A field of [n] bytes at [off]; bytes that are not there count as zero. *)
Definition field (n : nat) (off : Z) (bs : list Z) : Z :=
  le_value (map (fun i => default 0 (bs !! (Z.to_nat off + i)%nat)) (seq 0 n)).

Definition sizeof_sd_rsp : nat := 48.
Definition sd_rsp := list Z.
Definition rsp_data_length (r : sd_rsp) : Z := field 4 12 r.
Definition rsp_result (r : sd_rsp) : Z := field 4 16 r.
Definition rsp_vdi_id (r : sd_rsp) : Z := field 4 24 r.

(** What the receiver of a request sees of an object request. *)
Definition msg_opcode (m : list Z) : Z := field 1 1 m.
Definition msg_oid (m : list Z) : Z := field 8 16 m.
Definition msg_offset (m : list Z) : Z := field 4 40 m.
Definition msg_length (m : list Z) : Z := field 4 12 m.

(** ** The inode

    The fields the target looks at.  [data_vdi_id] holds the entries that are
    not zero. *)
Record sd_inode := mk_inode {
  in_name : list Z;
  create_time : Z;
  snap_ctime : Z;
  vdi_size : Z;
  nr_copies : Z;          (* uint8_t *)
  block_size_shift : Z;   (* uint8_t *)
  data_vdi_id : gmap Z Z
}.

Definition vdi_is_snapshot (i : sd_inode) : bool := negb (snap_ctime i =? 0).

(** [inode->data_vdi_id[idx]]; the array has [SD_INODE_DATA_INDEX] entries. *)
Definition get_data_vdi_id (i : sd_inode) (idx : Z) : option Z :=
  if (0 <=? idx) && (idx <? SD_INODE_DATA_INDEX) then Some (default 0 (data_vdi_id i !! idx)) else None.

Definition set_data_vdi_id (idx vid : Z) (i : sd_inode) : sd_inode :=
  mk_inode (in_name i) (create_time i) (snap_ctime i) (vdi_size i) (nr_copies i) (block_size_shift i)
    (<[idx := vid]> (data_vdi_id i)).

(** The inode in a zeroed buffer whose first bytes are [bs]. *)
Definition nr_vids (bs : list Z) : Z :=
  Z.min SD_INODE_DATA_INDEX ((Z.of_nat (length bs) - SD_INODE_HEADER_SIZE + 3) / 4).

Definition inode_of_bytes (bs : list Z) : sd_inode :=
  mk_inode (take 256 bs) (field 8 512 bs) (field 8 520 bs) (field 8 536 bs) (field 1 554 bs) (field 1 555 bs)
    (list_to_map (map (fun i => (i, field 4 (SD_INODE_HEADER_SIZE + 4 * i) bs)) (seqZ 0 (nr_vids bs)))).

(** ** The fast hash is the hash of the bytes *)
Lemma byte_of_shift oid k : 0 <= k -> Z.land (Z.shiftr oid k) 0xff = oid / 2^k mod 2^8.
Proof. intros Hk. rewrite Z.shiftr_div_pow2 by done. by apply (land_ones_mod _ 8). Qed.

Lemma fnv_64a_64_bytes oid hval : fnv_64a_64 oid hval = fnv_64a_buf (le_bytes 8 oid) hval.
Proof.
  unfold fnv_64a_64, fnv_64a_buf. cbn [le_bytes fold_left].
  rewrite !byte_of_shift by lia. rewrite !Z.div_div by lia.
  rewrite (land_ones_mod oid 8 ltac:(lia) : Z.land oid 0xff = _). done.
Qed.

(** C23: The hash of an object identifier is the hash of its bytes, as the
    comments of the header promise: [sd_hash_oid], written out for the eight
    bytes of a word, equals [sd_hash] of the identifier in memory, and likewise
    [sd_hash_next] and the second round inside them; the values are 64-bit
    words and a hashed VDI name is a VDI number. *)
Theorem sd_hash_oid_is_sd_hash oid hval name :
  sd_hash_oid oid = sd_hash (le_bytes 8 oid) /\
  fnv_64a_64 oid hval = fnv_64a_buf (le_bytes 8 oid) hval /\
  sd_hash_next hval = fnv_64a_buf (le_bytes 8 hval) hval /\
  is_u64 (sd_hash_oid oid) /\ 0 <= sd_hash_vdi name < SD_NR_VDIS.
Proof.
  unfold sd_hash_oid, sd_hash_64, sd_hash, sd_hash_next. rewrite !fnv_64a_64_bytes.
  split_and!; try done.
  - unfold fnv_64a_buf. cbn [le_bytes fold_left]. apply u64_bound.
  - unfold sd_hash_vdi. change (SD_NR_VDIS - 1) with (2^24 - 1). rewrite land_ones_mod by lia.
    apply Z.mod_pos_bound. done.
  - unfold sd_hash_vdi. change (SD_NR_VDIS - 1) with (2^24 - 1). rewrite land_ones_mod by lia.
    by apply Z.mod_pos_bound.
Qed.

(** ** Identifiers name what they were built from *)
Definition is_vid (vid : Z) : Prop := 0 < vid < SD_NR_VDIS.

Lemma vid_shift vid : 0 <= vid < SD_NR_VDIS -> u64 (Z.shiftl vid VDI_SPACE_SHIFT) = vid * 2^32.
Proof.
  intros Hv. rewrite Z.shiftl_mul_pow2 by done. apply u64_id.
  change SD_NR_VDIS with (2^24) in Hv. unfold is_u64, VDI_SPACE_SHIFT. lia.
Qed.

Lemma data_oid_sum vid idx : 0 <= vid < SD_NR_VDIS -> is_u32 idx -> vid_to_data_oid vid idx = idx + vid * 2^32.
Proof.
  intros Hv Hi. unfold vid_to_data_oid. rewrite vid_shift by done.
  rewrite Z.lor_comm, <- (Z.shiftl_mul_pow2 vid 32) by lia. rewrite lor_shiftl_add by done.
  by rewrite Z.shiftl_mul_pow2.
Qed.

Lemma vdi_oid_sum vid : 0 <= vid < SD_NR_VDIS -> vid_to_vdi_oid vid = vid * 2^32 + 2^63.
Proof.
  intros Hv. unfold vid_to_vdi_oid. rewrite vid_shift by done.
  change VDI_BIT with (Z.shiftl 1 63). rewrite Z.lor_comm, lor_shiftl_add; [lia|done|].
  change SD_NR_VDIS with (2^24) in Hv. lia.
Qed.

Lemma oid_to_vid_div oid : 0 <= oid -> oid_to_vid oid = oid / 2^32 mod 2^24.
Proof.
  intros Ho. unfold oid_to_vid. change SD_VDI_MASK with (Z.shiftl (2^24 - 1) 32).
  unfold VDI_SPACE_SHIFT. rewrite Z.shiftr_land, Z.shiftr_shiftl_l, Z.sub_diag, Z.shiftl_0_r by lia.
  rewrite land_ones_mod, Z.shiftr_div_pow2 by lia. apply u32_id.
  pose proof (Z.mod_pos_bound (oid / 2^32) (2^24)). unfold is_u32. lia.
Qed.

Lemma has_high oid k : 0 <= oid < 2^k -> 0 <= k -> has oid (bit k) = false.
Proof.
  intros Ho Hk. rewrite has_bit by done. destruct (Z.eq_dec oid 0) as [->|]; [apply Z.testbit_0_l|].
  apply Z.bits_above_log2; [lia|]. apply Z.log2_lt_pow2; lia.
Qed.

(** Identifiers of data objects and of inodes name what they were built
    from: the VDI and the index come back, a data object is never taken for
    another kind of object, an inode always is, and two data objects have the
    same identifier only if VDI and index agree. *)
Theorem sd_oid_roundtrip vid idx vid' idx' :
  is_vid vid -> is_u32 idx -> is_vid vid' -> is_u32 idx' ->
  oid_to_vid (vid_to_data_oid vid idx) = vid /\ data_oid_to_idx (vid_to_data_oid vid idx) = idx /\
  is_data_obj (vid_to_data_oid vid idx) = true /\
  oid_to_vid (vid_to_vdi_oid vid) = vid /\ is_vdi_obj (vid_to_vdi_oid vid) = true /\
  get_objsize (vid_to_vdi_oid vid) SD_DATA_OBJ_SIZE = SD_INODE_SIZE /\
  (vid_to_data_oid vid idx = vid_to_data_oid vid' idx' -> vid = vid' /\ idx = idx').
Proof.
  intros [Hv0 Hv] Hi [Hv0' Hv'] Hi'. rewrite !data_oid_sum, !vdi_oid_sum by (done || lia).
  change SD_NR_VDIS with (2^24) in *. unfold is_u32 in *.
  assert (Hvdi : is_vdi_obj (vid * 2^32 + 2^63) = true).
  { unfold is_vdi_obj, VDI_BIT. rewrite has_bit, Z.testbit_true by lia. Z.div_mod_to_equations. lia. }
  split_and!.
  - rewrite oid_to_vid_div by lia. Z.div_mod_to_equations. lia.
  - unfold data_oid_to_idx. change (MAX_DATA_OBJS - 1) with (2^32 - 1). rewrite land_ones_mod by lia.
    Z.div_mod_to_equations. lia.
  - unfold is_data_obj, is_vdi_obj, is_vmstate_obj, is_vdi_attr_obj, is_vdi_btree_obj, is_ledger_object,
      VDI_BIT, VMSTATE_BIT, VDI_ATTR_BIT, VDI_BTREE_BIT, LEDGER_BIT.
    rewrite !has_high by lia. done.
  - rewrite oid_to_vid_div by lia. Z.div_mod_to_equations. lia.
  - done.
  - unfold get_objsize. by rewrite Hvdi.
  - intros He. Z.div_mod_to_equations. lia.
Qed.

Lemma sd_oid_roundtrip_witness :
  oid_to_vid (vid_to_data_oid 0x1234 7) = 0x1234 /\ data_oid_to_idx (vid_to_data_oid 0x1234 7) = 7.
Proof.
  destruct (sd_oid_roundtrip 0x1234 7 0x1234 7) as (H1&H2&_); [done..|]. done.
Defined.
