(* ===== verification/Sheep.v ===== *)
(** * Talking to a sheepdog cluster (targets/sheepdog/sheep.c)

    Every operation sends one request at a time over a socket and waits for
    the response.  The socket is an interface: [sd_sendmsg] takes the bytes of
    a message and says how many were sent, [sd_recvmsg] gives the bytes that
    arrived (with MSG_WAITALL fewer than asked for only when the connection was
    closed or a timeout expired, none at the end of the stream); both may fail
    with an errno.

    The functions retry in loops without a bound of their own; they take fuel,
    and [None] is running out of it or an index outside the inode's array.
    The in-memory inode is shared by the queues of a device under a lock; the
    functions here are those of one queue. *)

From S2P Require Import Prelude Bytes UblkCmd SdProto.

Class SdSock (S : Type) := {
  sd_sendmsg : S -> list Z -> (Z + Z) * S;
  sd_recvmsg : S -> Z -> (Z + list Z) * S
}.

Record sheepdog_vdi := mk_vdi {
  vid : Z;  (* uint32_t *)
  inode : sd_inode
}.

(** [addr] of the structure is an argument or a result of [sd_submit]. *)
Record sd_io_context := mk_sd_io { sdio_req : sd_req; sdio_rsp : sd_rsp }.

Definition zero_rsp : sd_rsp := replicate sizeof_sd_rsp 0.
Definition zero_sd_io : sd_io_context := mk_sd_io zero_req zero_rsp.
Definition set_req (r : sd_req) (io : sd_io_context) : sd_io_context := mk_sd_io r (sdio_rsp io).
Definition set_rsp (r : sd_rsp) (io : sd_io_context) : sd_io_context := mk_sd_io (sdio_req io) r.

(** [UINT32_C(1) << block_size_shift]: undefined from 32 on. *)
Definition SD_OBJECT_SIZE (v : sheepdog_vdi) : option Z :=
  let s := block_size_shift (inode v) in if (0 <=? s) && (s <? 32) then Some (bit s) else None.

Definition sd_inode_get_idx (v : sheepdog_vdi) (idx : Z) : option Z := get_data_vdi_id (inode v) idx.

Definition is_data_obj_writable (v : sheepdog_vdi) (idx : Z) : option bool :=
  d ← get_data_vdi_id (inode v) idx; Some (vid v =? d).

Definition set_inode_idx (idx d : Z) (v : sheepdog_vdi) : sheepdog_vdi :=
  mk_vdi (vid v) (set_data_vdi_id idx d (inode v)).

Definition sd_result_to_errno (io : sd_io_context) : Z :=
  let r := rsp_result (sdio_rsp io) in
  if r =? SD_RES_SUCCESS then 0
  else if (r =? SD_RES_NO_OBJ) || (r =? SD_RES_NO_VDI) || (r =? SD_RES_NO_BASE_VDI) then - ENOENT
  else if r =? SD_RES_VDI_EXIST then - EEXIST
  else if r =? SD_RES_INVALID_PARMS then - EINVAL
  else if r =? SD_RES_VDI_LOCKED then - EILSEQ
  else - EIO.

Section sheep.
Context {S : Type} `{!SdSock S}.

(** [wdata]: the bytes at [addr] for a write.  The result is the return
    value, the bytes received for [addr], the socket and the context. *)
Definition sd_submit (fd : S) (io : sd_io_context) (wdata : list Z) : Z * list Z * S * sd_io_context :=
  let is_write := has (req_flags (sdio_req io)) SD_FLAG_CMD_WRITE in
  let wlen := if is_write then req_data_length (sdio_req io) else 0 in
  let rlen := if is_write then 0 else req_data_length (sdio_req io) in
  let msg := req_bytes (sdio_req io) ++ (if wlen =? 0 then [] else take (Z.to_nat wlen) wdata) in
  match sd_sendmsg fd msg with
  | (inl errno, fd) => (- errno, [], fd, io)
  | (inr _, fd) =>
      match sd_recvmsg fd (Z.of_nat sizeof_sd_rsp) with
      | (inl errno, fd) => (- errno, [], fd, io)
      | (inr bs, fd) =>
          let io := set_rsp (overwrite bs (sdio_rsp io)) io in
          let rlen := if rsp_data_length (sdio_rsp io) <? rlen then rsp_data_length (sdio_rsp io) else rlen in
          if rlen =? 0 then (sd_result_to_errno io, [], fd, io)
          else match sd_recvmsg fd rlen with
          | (inl errno, fd) => (- errno, [], fd, io)
          | (inr data, fd) => (sd_result_to_errno io, data, fd, io)
          end
      end
  end.

(** strncpy of [n] bytes into a zeroed array of [n + 1]. *)
Definition strncpy_pad (n : nat) (s : list Z) : list Z :=
  let s := take n (c_string s) in s ++ replicate (Datatypes.S n - length s) 0.

Definition vdi_name_buf (vdi_name : list Z) (tag : option (list Z)) : list Z :=
  strncpy_pad (SD_MAX_VDI_LEN - 1) vdi_name ++
  match tag with
  | Some tag => strncpy_pad (SD_MAX_VDI_TAG_LEN - 1) tag
  | None => replicate SD_MAX_VDI_TAG_LEN 0
  end.

(** The second result is [*vid], which is stored on success only. *)
Definition sd_vdi_lookup (fd : S) (vdi_name : list Z) (snapid : Z) (tag : option (list Z)) (lock : bool)
    : Z * option Z * S :=
  let req := mk_sd_req SD_PROTO_VER (if lock then SD_OP_LOCK_VDI else SD_OP_GET_VDI_INFO) SD_FLAG_CMD_WRITE 0 0
    (Z.of_nat (SD_MAX_VDI_LEN + SD_MAX_VDI_TAG_LEN))
    (ReqVdi 0 0 0 0 0 0 snapid (if lock then LOCK_TYPE_SHARED else 0)) in
  let '(ret, _, fd, io) := sd_submit fd (set_req req zero_sd_io) (vdi_name_buf vdi_name tag) in
  if ret <? 0 then (ret, None, fd) else (0, Some (rsp_vdi_id (sdio_rsp io)), fd).

Definition sd_vdi_release (fd : S) (v : sheepdog_vdi) : Z * S :=
  let req := mk_sd_req 0 SD_OP_RELEASE_VDI 0 0 0 0 (ReqVdi 0 (vid v) 0 0 0 0 0 LOCK_TYPE_SHARED) in
  let '(ret, _, fd, _) := sd_submit fd (set_req req zero_sd_io) [] in
  if ret <? 0 then (ret, fd) else (0, fd).

(** The request of [sd_read_object], built over the one in the context. *)
Definition read_req (r : sd_req) (oid offset len : Z) : sd_req :=
  let u := match req_union r with
           | ReqObj _ cow copies pol ec res epoch _ => ReqObj oid cow copies pol ec res epoch (u32 offset)
           | ReqVdi _ _ _ _ _ _ _ _ => ReqObj oid 0 0 0 0 0 0 (u32 offset)
           end in
  mk_sd_req SD_PROTO_VER SD_OP_READ_OBJ (Z.lor (req_flags r) SD_FLAG_CMD_TGT) (req_epoch r) (req_id r)
    (u32 len) u.

(** [buf]: the bytes at [buf].  [need_reload]: what was stored there, if
    anything. *)
Fixpoint sd_read_object (fuel : nat) (fd : S) (io : sd_io_context) (oid : Z) (buf : list Z) (offset len : Z)
    : option (Z * option Z * list Z * S * sd_io_context) :=
  match fuel with
  | O => None
  | Datatypes.S fuel =>
      let io := set_req (read_req (sdio_req io) oid offset len) io in
      let '(ret, data, fd, io) := sd_submit fd io [] in
      let buf := overwrite data buf in
      if ret <? 0 then
        let res := rsp_result (sdio_rsp io) in
        if res =? SD_RES_INODE_INVALIDATED then Some (0, Some 2, buf, fd, io)
        else if res =? SD_RES_READONLY then Some (0, Some 1, buf, fd, io)
        else if (res =? SD_RES_NO_OBJ) && has oid VDI_BIT then sd_read_object fuel fd zero_sd_io oid buf offset len
        else Some (ret, None, buf, fd, io)
      else Some (0, None, buf, fd, io)
  end.

(** [mem]: whether calloc(3) succeeds. *)
Variable fuel : nat.
Variable mem : bool.

Definition sd_refresh_required (fd : S) (v : sheepdog_vdi) : option (bool * S) :=
  '(ret, need_reload, _, fd, _) ← sd_read_object fuel fd zero_sd_io (vid_to_vdi_oid (vid v)) (replicate 4 0) 0 4;
  Some (if ret <? 0 then true else 0 <? default 0 need_reload, fd).

(** The snapshot branch of [sd_read_inode]; [buf] is the inode buffer, the
    rest of which is zero. *)
Definition read_inode_snapshot (fd : S) (v : sheepdog_vdi) (io : sd_io_context) (buf : list Z)
    : option (Z * list Z * S) :=
  let '(ret, w, fd) := sd_vdi_lookup fd (in_name (inode v)) CURRENT_VDI_ID None true in
  match w with
  | Some w =>
      '(ret, _, buf, fd, _) ← sd_read_object fuel fd io (vid_to_vdi_oid w) buf 0 SD_INODE_HEADER_SIZE;
      Some (ret, buf, fd)
  | None => Some (ret, buf, fd)
  end.

Definition sd_read_inode (fd : S) (v : sheepdog_vdi) (snapshot : bool)
    : option (Z * sheepdog_vdi * S) :=
  if negb mem then Some (- ENOMEM, v, fd) else
  '(ret, buf, fd) ←
    (if snapshot then read_inode_snapshot fd v zero_sd_io []
     else
       '(ret, _, buf, fd, io) ← sd_read_object fuel fd zero_sd_io (vid_to_vdi_oid (vid v)) [] 0 SD_INODE_SIZE;
       if (ret =? 0) && negb (snap_ctime (inode_of_bytes buf) =? 0) then read_inode_snapshot fd v io buf
       else Some (ret, buf, fd));
  Some (ret, if ret =? 0 then mk_vdi (vid v) (inode_of_bytes buf) else v, fd).

Definition update_req (v : sheepdog_vdi) (req_oid : Z) : sd_req :=
  mk_sd_req SD_PROTO_VER SD_OP_WRITE_OBJ (Z.lor SD_FLAG_CMD_WRITE SD_FLAG_CMD_TGT) 0 0 4
    (ReqObj (vid_to_vdi_oid (vid v)) 0 0 0 0 0 0 (u32 (SD_INODE_HEADER_SIZE + 4 * data_oid_to_idx req_oid))).

Fixpoint sd_update_inode (n : nat) (fd : S) (v : sheepdog_vdi) (req_oid : Z) : option (Z * sheepdog_vdi * S) :=
  match n with
  | O => None
  | Datatypes.S n =>
      let '(ret, _, fd, io) := sd_submit fd (set_req (update_req v req_oid) zero_sd_io) (le_bytes 4 (vid v)) in
      let res := rsp_result (sdio_rsp io) in
      if (res =? SD_RES_INODE_INVALIDATED) || (res =? SD_RES_READONLY) then
        '(ret, v, fd) ← sd_read_inode fd v false;
        if ret =? 0 then sd_update_inode n fd v req_oid else Some (ret, v, fd)
      else Some (ret, v, fd)
  end.

Fixpoint sd_resolve_vid (n : nat) (fd : S) (v : sheepdog_vdi) (idx : Z) : option (Z * sheepdog_vdi * S) :=
  match n with
  | O => None
  | Datatypes.S n =>
      d ← sd_inode_get_idx v idx;
      if negb (d =? 0) then Some (s32 d, v, fd)
      else
        '(refresh, fd) ← sd_refresh_required fd v;
        if negb refresh then Some (0, v, fd)
        else
          '(ret, v, fd) ← sd_read_inode fd v false;
          if ret <? 0 then Some (ret, v, fd) else sd_resolve_vid n fd v idx
  end.

(** memset(addr, 0, total) *)
Definition zero_fill (total : Z) (buf : list Z) : list Z := overwrite (replicate (Z.to_nat total) 0) buf.

Definition io_offset (iod : ublksrv_io_desc) : Z := u64 (Z.shiftl (start_sector iod) 9).
Definition io_total (iod : ublksrv_io_desc) : Z := u32 (Z.shiftl (nr_sectors iod) 9).

(** [buf]: the bytes at [iod->addr]. *)
Definition sd_exec_read (fd : S) (v : sheepdog_vdi) (iod : ublksrv_io_desc) (io : sd_io_context) (buf : list Z)
    : option (Z * sheepdog_vdi * list Z * S * sd_io_context) :=
  object_size ← SD_OBJECT_SIZE v;
  let start := io_offset iod mod object_size in
  let idx := u32 (io_offset iod / object_size) in
  '(ret, v, fd) ← sd_resolve_vid fuel fd v idx;
  if ret <? 0 then Some (ret, v, buf, fd, io)
  else if ret =? 0 then Some (0, v, zero_fill (io_total iod) buf, fd, io)
  else
    '(ret, _, buf, fd, io) ← sd_read_object fuel fd io (vid_to_data_oid ret idx) buf start (io_total iod);
    Some (ret, v, buf, fd, io).

(** The request of [sd_exec_discard] built over the one in the context. *)
Definition discard_req (r : sd_req) (v : sheepdog_vdi) (orig_vid idx : Z) : sd_req :=
  let oid := vid_to_vdi_oid orig_vid in
  let off := u32 (SD_INODE_HEADER_SIZE + 4 * idx) in
  let copies := nr_copies (inode v) in
  let u := match req_union r with
           | ReqObj _ cow _ pol ec res epoch _ => ReqObj oid cow copies pol ec res epoch off
           | ReqVdi _ _ _ _ _ _ _ _ => ReqObj oid 0 copies 0 0 0 0 off
           end in
  mk_sd_req SD_PROTO_VER SD_OP_WRITE_OBJ (Z.lor (Z.lor (req_flags r) SD_FLAG_CMD_WRITE) SD_FLAG_CMD_TGT)
    (req_epoch r) (req_id r) 4 u.

Fixpoint discard_loop (n : nat) (fd : S) (v : sheepdog_vdi) (io : sd_io_context) (idx : Z)
    : option (Z * sheepdog_vdi * S * sd_io_context) :=
  match n with
  | O => None
  | Datatypes.S n =>
      orig_vid ← sd_inode_get_idx v idx;
      let v := set_inode_idx idx 0 v in
      let io := set_req (discard_req (sdio_req io) v orig_vid idx) io in
      let '(ret, _, fd, io) := sd_submit fd io (le_bytes 4 0) in
      let res := rsp_result (sdio_rsp io) in
      if (res =? SD_RES_INODE_INVALIDATED) || (res =? SD_RES_READONLY) || (ret <? 0) then
        '(ret, v, fd) ← sd_read_inode fd v false;
        if ret =? 0 then
          orig_vid ← sd_inode_get_idx v idx;
          if negb (orig_vid =? 0) then discard_loop n fd v io idx else Some (ret, v, fd, io)
        else Some (ret, v, fd, io)
      else Some (ret, v, fd, io)
  end.

Definition sd_exec_discard (fd : S) (v : sheepdog_vdi) (iod : ublksrv_io_desc) (io : sd_io_context)
    (buf : list Z) (write_zeroes : bool) : option (Z * sheepdog_vdi * list Z * S * sd_io_context) :=
  object_size ← SD_OBJECT_SIZE v;
  let idx := u32 (io_offset iod / object_size) in
  '(ret, v, fd) ← sd_resolve_vid fuel fd v idx;
  if ret <? 0 then Some (ret, v, buf, fd, io)
  else if (ret =? 0) && write_zeroes then Some (0, v, zero_fill (io_total iod) buf, fd, io)
  else
    '(ret, v, fd, io) ← discard_loop fuel fd v io idx;
    Some (ret, v, buf, fd, io).

(** [r] is the request of the context; [sd_exec_write] cleared it. *)
Definition sd_prep_write (v : sheepdog_vdi) (r : sd_req) (idx : Z) : option (sheepdog_vdi * sd_req) :=
  let flags := Z.lor (Z.lor SD_FLAG_CMD_WRITE SD_FLAG_CMD_DIRECT) SD_FLAG_CMD_TGT in
  let req op flags oid cow :=
    let u := match req_union r with
             | ReqObj _ _ copies pol ec res epoch off => ReqObj oid cow copies pol ec res epoch off
             | ReqVdi _ _ _ _ _ _ _ _ => ReqObj oid cow 0 0 0 0 0 0
             end in
    mk_sd_req SD_PROTO_VER op flags (req_epoch r) (req_id r) (req_data_length r) u in
  d ← get_data_vdi_id (inode v) idx;
  writable ← is_data_obj_writable v idx;
  if d =? 0 then
    Some (set_inode_idx idx (vid v) v,
          req SD_OP_CREATE_AND_WRITE_OBJ flags (vid_to_data_oid (vid v) idx) 0)
  else if negb writable then
    Some (set_inode_idx idx (vid v) v,
          req SD_OP_CREATE_AND_WRITE_OBJ (Z.lor flags SD_FLAG_CMD_COW)
            (vid_to_data_oid (vid v) idx) (vid_to_data_oid d idx))
  else Some (v, req SD_OP_WRITE_OBJ flags (vid_to_data_oid d idx) 0).

(** What [sd_exec_write] stores into the request after [sd_prep_write]: its
    own [oid] and [cow_oid], which are never assigned, among them. *)
Definition write_req (r : sd_req) (v : sheepdog_vdi) (oid cow_oid start total : Z) : sd_req :=
  let u := match req_union r with
           | ReqObj _ _ _ pol ec res epoch _ =>
               ReqObj oid cow_oid (nr_copies (inode v)) pol ec res epoch (u32 start)
           | ReqVdi _ _ _ _ _ _ _ _ => ReqObj oid cow_oid (nr_copies (inode v)) 0 0 0 0 (u32 start)
           end in
  mk_sd_req (req_proto_ver r) (req_opcode r) (req_flags r) (req_epoch r) (req_id r) total u.

Fixpoint write_loop_sd (n : nat) (fd : S) (v : sheepdog_vdi) (iod : ublksrv_io_desc) (buf : list Z)
    (start idx : Z) : option (Z * sheepdog_vdi * S * sd_io_context) :=
  match n with
  | O => None
  | Datatypes.S n =>
      '(v, r) ← sd_prep_write v zero_req idx;
      let io := set_req (write_req r v 0 0 start (io_total iod)) zero_sd_io in
      let '(ret, _, fd, io) := sd_submit fd io buf in
      let res := rsp_result (sdio_rsp io) in
      let finish (ret : Z) (v : sheepdog_vdi) (fd : S) :=
        if ret <? 0 then Some (ret, v, fd, io)
        else if req_opcode (sdio_req io) =? SD_OP_CREATE_AND_WRITE_OBJ then
          let oid := match req_union (sdio_req io) with ReqObj oid _ _ _ _ _ _ _ => oid | _ => 0 end in
          '(ret, v, fd) ← sd_update_inode fuel fd v oid;
          Some (ret, v, fd, io)
        else Some (ret, v, fd, io) in
      if (res =? SD_RES_INODE_INVALIDATED) || (res =? SD_RES_READONLY) then
        '(ret, v, fd) ← sd_read_inode fd v (res =? SD_RES_READONLY);
        if ret =? 0 then write_loop_sd n fd v iod buf start idx else finish ret v fd
      else finish ret v fd
  end.

Definition sd_exec_write (fd : S) (v : sheepdog_vdi) (iod : ublksrv_io_desc) (buf : list Z)
    : option (Z * sheepdog_vdi * S * sd_io_context) :=
  object_size ← SD_OBJECT_SIZE v;
  write_loop_sd fuel fd v iod buf (io_offset iod mod object_size) (u32 (io_offset iod / object_size)).
End sheep.
