(* ===== verification/SheepTgt.v ===== *)
(** * The sheepdog target (targets/sheepdog/ublk.sheepdog.cpp)

    The I/O path.  A request is served synchronously inside the callback: the
    target talks to the cluster, then completes the tag.  The queue's private
    data are the socket, the image and the bytes of the request buffers, by
    address. *)

From S2P Require Import Prelude Bytes UblkCmd Uring QueueTypes Batch Queue QueueSpec SdProto Sheep.

Record sheepdog_queue_ctx {S : Type} := mk_sdq {
  sdq_fd : S;
  sdq_vdi : sheepdog_vdi;       (* of the device *)
  sdq_mem : gmap Z (list Z)     (* the bytes behind an address *)
}.
#[global] Arguments sheepdog_queue_ctx S : clear implicits.
#[global] Arguments mk_sdq {S}.

Section sheepdog.
Context {R : Type} `{!Uring R} {S : Type} `{!SdSock S}.
Notation Q := (queue R (sheepdog_queue_ctx S)).
Variable fuel : nat.
Variable mem : bool.

Definition buf_at (d : sheepdog_queue_ctx S) (addr : Z) : list Z := default [] (sdq_mem d !! addr).

Definition set_sdq (fd : S) (v : sheepdog_vdi) (addr : Z) (buf : list Z) (q : Q) : Q :=
  set_private_data (mk_sdq fd v (<[addr := buf]> (sdq_mem (private_data q)))) q.

(** The context of the request: cleared, with the tag as identifier. *)
Definition fresh_sd_io (tag : Z) : sd_io_context :=
  set_req (mk_sd_req 0 0 0 0 (u32 tag) 0 zero_obj) zero_sd_io.

(** The check of [total] against the end of the object assigns [ret], which
    every case below assigns again. *)
Definition sheepdog_queue_tgt_io (tag : Z) (q : Q) : option (Z * Q) :=
  iod ← get_iod q tag;
  let d := private_data q in
  let addr := iod_addr iod in
  let buf := buf_at d addr in
  let ublk_op := ublksrv_get_op iod in
  object_size ← SD_OBJECT_SIZE (sdq_vdi d);
  let start := io_offset iod mod object_size in
  let len := object_size - start in
  let ret := if len <? io_total iod then - EIO else 0 in
  '(ret, q) ←
    (if ublk_op =? UBLK_IO_OP_WRITE then
       '(ret, v, fd, _) ← sd_exec_write fuel mem (sdq_fd d) (sdq_vdi d) iod buf;
       Some (ret, set_sdq fd v addr buf q)
     else if ublk_op =? UBLK_IO_OP_READ then
       '(ret, v, buf, fd, _) ← sd_exec_read fuel mem (sdq_fd d) (sdq_vdi d) iod (fresh_sd_io tag) buf;
       Some (ret, set_sdq fd v addr buf q)
     else if (ublk_op =? UBLK_IO_OP_DISCARD) || (ublk_op =? UBLK_IO_OP_WRITE_ZEROES) then
       '(ret, v, buf, fd, _) ← sd_exec_discard fuel mem (sdq_fd d) (sdq_vdi d) iod (fresh_sd_io tag) buf
          (negb (ublk_op =? UBLK_IO_OP_DISCARD));
       Some (ret, set_sdq fd v addr buf q)
     else Some (- EOPNOTSUPP, q));
  Some (if ret <? 0 then ret else s32 (io_total iod), q).

Definition sheepdog_handle_io_async (tag : Z) (q : Q) : option (Z * Q) :=
  '(ret, q) ← sheepdog_queue_tgt_io tag q;
  '(_, q) ← ublksrv_complete_io tag ret q;
  Some (0, q).

Definition sheepdog_tgt_type : ublksrv_tgt_type R (sheepdog_queue_ctx S) :=
  mk_tgt_type sheepdog_handle_io_async None None None None.
End sheepdog.

(** ** What a disk image holds

    The contents of the objects of a cluster, by identifier and position, and
    the disk an image describes: block [idx] is the data object of the VDI the
    inode names, or zeroes when it names none. *)
Definition disk_byte (objs : Z -> Z -> Z) (v : sheepdog_vdi) (osz pos : Z) : Z :=
  match default 0 (data_vdi_id (inode v) !! (pos / osz)) with
  | 0 => 0
  | d => objs (vid_to_data_oid d (pos / osz)) (pos mod osz)
  end.

Definition obj_read (objs : Z -> Z -> Z) (oid off len : Z) : list Z := map (objs oid) (seqZ off len).

Section cluster.
Context {S : Type} `{!SdSock S}.

(** Since version 2 of the protocol a read response may leave out zero sectors
    (SD_PROTO_VER_TRIM_ZERO_SECTORS).  [trim oid off len] is the part of the
    range asked for that the response carries, as a distance from its start and
    a length; what is left out is zero. *)
Definition trims_zeroes (trim : Z -> Z -> Z -> Z * Z) (objs : Z -> Z -> Z) : Prop :=
  forall oid off len lead k, trim oid off len = (lead, k) -> 0 <= len ->
  0 <= lead /\ 0 <= k /\ lead + k <= len /\
  forall p, 0 <= p < len -> ~ (lead <= p < lead + k) -> objs oid (off + p) = 0.

(** A connection in a state of [ready] answers a read of an object with
    success, the number of bytes it carries and those bytes, and is ready again. *)
Definition answers_reads (ready : S -> Prop) (objs : Z -> Z -> Z) (trim : Z -> Z -> Z -> Z * Z) : Prop :=
  forall fd id oid off len lead k, ready fd -> is_u32 id -> is_u64 oid -> is_u32 off -> is_u32 len -> len <> 0 ->
  trim oid off len = (lead, k) ->
  exists sd_sent fd1 rsp fd2 fd3,
    sd_sendmsg fd (req_bytes (mk_sd_req SD_PROTO_VER SD_OP_READ_OBJ SD_FLAG_CMD_TGT 0 id len
      (ReqObj oid 0 0 0 0 0 0 off))) = (inr sd_sent, fd1) /\
    sd_recvmsg fd1 (Z.of_nat sizeof_sd_rsp) = (inr rsp, fd2) /\ length rsp = sizeof_sd_rsp /\
    rsp_result rsp = SD_RES_SUCCESS /\ rsp_data_length rsp = k /\
    (if k =? 0 then fd3 = fd2 else sd_recvmsg fd2 k = (inr (obj_read objs oid (off + lead) k), fd3)) /\
    ready fd3.

(** An image with blocks of [osz] bytes whose entries are VDI numbers. *)
Definition image_ok (v : sheepdog_vdi) (osz : Z) : Prop :=
  SD_OBJECT_SIZE v = Some osz /\ is_vid (vid v) /\
  forall idx d, data_vdi_id (inode v) !! idx = Some d -> 0 <= d < SD_NR_VDIS.

(** A request inside one block of the image. *)
Definition in_block (iod : ublksrv_io_desc) (osz : Z) : Prop :=
  0 <= start_sector iod /\ 0 < nr_sectors iod /\ nr_sectors iod * 512 < 2^31 /\
  start_sector iod * 512 < SD_INODE_DATA_INDEX * osz /\
  start_sector iod * 512 mod osz + nr_sectors iod * 512 <= osz.

Lemma length_overwrite_rsp rsp : length rsp = sizeof_sd_rsp -> overwrite rsp zero_rsp = rsp.
Proof. intros Hl. apply overwrite_all. by rewrite Hl. Qed.

(** One read of an object from a ready connection: the bytes the response
    carries go to the start of the buffer, the rest of which stays. *)
Lemma read_object_ok ready objs trim n fd id oid buf off len lead k :
  answers_reads ready objs trim -> trims_zeroes trim objs -> trim oid off len = (lead, k) ->
  ready fd -> is_u32 id -> is_u64 oid -> is_u32 off -> is_u32 len -> len <> 0 ->
  exists fd' io', sd_read_object (Datatypes.S n) fd (fresh_sd_io id) oid buf off len =
      Some (0, None, overwrite (obj_read objs oid (off + lead) k) buf, fd', io') /\ ready fd'.
Proof.
  intros Hans Htr Htrim Hr Hid Hoid Hoff Hlen Hne.
  destruct (Htr _ _ _ _ _ Htrim) as (Hl0&Hk0&Hlk&_); [apply Hlen|].
  destruct (Hans fd id oid off len lead k) as (sd_sent&fd1&rsp&fd2&fd3&H1&H2&Hl&Hres&Hdl&H3&Hr3); try done.
  eexists fd3, _. split; [|done]. cbn [sd_read_object]. unfold sd_submit.
  change (sdio_req (set_req ?r ?io)) with r. unfold read_req, fresh_sd_io.
  change (sdio_req (set_req ?r ?io)) with r. cbn [req_union req_flags req_epoch req_id zero_obj].
  rewrite (u32_id id), (u32_id off), (u32_id len) by done.
  change (has (Z.lor 0 SD_FLAG_CMD_TGT) SD_FLAG_CMD_WRITE) with false. cbv iota.
  cbn [req_data_length sdio_rsp set_req set_rsp Z.eqb]. rewrite app_nil_r.
  change (Z.lor 0 SD_FLAG_CMD_TGT) with SD_FLAG_CMD_TGT. rewrite H1, H2.
  change (sdio_rsp zero_sd_io) with zero_rsp. rewrite length_overwrite_rsp by done. rewrite Hdl.
  replace (if k <? len then k else len) with k by (destruct (Z.ltb_spec k len); lia).
  unfold sd_result_to_errno. destruct (Z.eqb_spec k 0) as [->|Hk]; [subst fd3|rewrite H3];
    cbn [sdio_rsp set_rsp set_req]; rewrite Hres; done.
Qed.

Lemma io_offset_eq iod osz : 0 < osz <= 2^31 -> in_block iod osz -> io_offset iod = start_sector iod * 512.
Proof.
  intros Ho (H0&_&_&H1&_). unfold io_offset. rewrite Z.shiftl_mul_pow2 by done. apply u64_id.
  change SD_INODE_DATA_INDEX with (2^20) in H1. unfold is_u64. change (2^9) with 512. nia.
Qed.

Lemma io_total_eq iod osz : in_block iod osz -> io_total iod = nr_sectors iod * 512.
Proof.
  intros (_&H0&H1&_). unfold io_total. rewrite Z.shiftl_mul_pow2 by done. apply u32_id.
  unfold is_u32. change (2^9) with 512. lia.
Qed.

Lemma object_size_range v osz : SD_OBJECT_SIZE v = Some osz -> 0 < osz <= 2^31.
Proof.
  unfold SD_OBJECT_SIZE. case_bool; [|done]. intros [= <-]. bool_prop. rewrite bit_pow2 by lia.
  split; [lia|]. apply Z.pow_le_mono_r; lia.
Qed.

Lemma zero_fill_all total buf : length buf = Z.to_nat total -> zero_fill total buf = replicate (Z.to_nat total) 0.
Proof. intros Hl. unfold zero_fill. apply overwrite_all. by rewrite length_replicate. Qed.

(** Positions inside one block. *)
Lemma block_pos off len osz pos :
  0 < osz -> 0 <= off -> off mod osz + len <= osz -> off <= pos < off + len ->
  pos / osz = off / osz /\ pos mod osz = pos - off / osz * osz.
Proof. intros. assert (pos / osz = off / osz) by (Z.div_mod_to_equations; nia). split; [done|]. Z.div_mod_to_equations. nia. Qed.

(** The bytes of a block of the disk are those of its object. *)
Lemma disk_block objs v osz off len d :
  0 < osz -> 0 <= off -> 0 <= len -> off mod osz + len <= osz ->
  default 0 (data_vdi_id (inode v) !! (off / osz)) = d ->
  map (disk_byte objs v osz) (seqZ off len) =
    (if d =? 0 then replicate (Z.to_nat len) 0
     else obj_read objs (vid_to_data_oid d (off / osz)) (off mod osz) len).
Proof.
  intros Ho Hoff Hlen Hb Hd.
  assert (Hpos : forall pos, pos ∈ seqZ off len -> disk_byte objs v osz pos =
    if d =? 0 then 0 else objs (vid_to_data_oid d (off / osz)) (pos - off / osz * osz)).
  { intros pos Hp%elem_of_seqZ. destruct (block_pos off len osz pos) as [H1 H2]; [done..|].
    unfold disk_byte. rewrite H1, Hd, H2. by destruct d. }
  destruct (Z.eqb_spec d 0) as [->|Hne].
  - apply list_eq_Forall2, Forall2_same_length_lookup. split.
    + by rewrite length_map, length_seqZ, length_replicate.
    + intros k x y Hx [-> _]%lookup_replicate. apply list_lookup_fmap_Some in Hx as (pos&Hp&Hl).
      subst x. apply Hpos. by eapply list_elem_of_lookup_2.
  - unfold obj_read.
    replace (seqZ off len) with (map (Z.add (off / osz * osz)) (seqZ (off mod osz) len))
      by (trans (Z.add (off / osz * osz) <$> seqZ (off mod osz) len); [done|];
          rewrite fmap_add_seqZ; f_equal; pose proof (Z.div_mod off osz); lia).
    rewrite map_map. apply map_ext_in. intros k Hk%list_elem_of_In%elem_of_seqZ.
    rewrite Hpos; [f_equal; lia|]. apply elem_of_seqZ. pose proof (Z.div_mod off osz). lia.
Qed.

Lemma image_entry v osz idx : image_ok v osz -> 0 <= default 0 (data_vdi_id (inode v) !! idx) < SD_NR_VDIS.
Proof. intros (_&_&Hd). destruct (_ !! idx) as [d|] eqn:He; cbn; [by eapply Hd|done]. Qed.

(** When the image is up to date, a look at its inode finds no reason to read
    it again. *)
Lemma resolve_vid_ok (ready : S -> Prop) n m mem fd v osz idx :
  (exists b fd' io', sd_read_object (Datatypes.S n) fd zero_sd_io (vid_to_vdi_oid (vid v)) (replicate 4 0) 0 4 =
     Some (0, None, b, fd', io') /\ ready fd') ->
  ready fd -> image_ok v osz -> 0 <= idx < SD_INODE_DATA_INDEX ->
  exists fd', sd_resolve_vid (Datatypes.S n) mem (Datatypes.S m) fd v idx =
      Some (default 0 (data_vdi_id (inode v) !! idx), v, fd') /\ ready fd'.
Proof.
  intros (b&fd'&io'&Hrd&Hr') Hr Hok Hidx. pose proof (image_entry v osz idx Hok) as Hdr.
  cbn [sd_resolve_vid]. unfold sd_inode_get_idx, get_data_vdi_id.
  rewrite (proj2 (Z.leb_le _ _)), (proj2 (Z.ltb_lt _ _)) by lia. cbn [andb mbind option_bind].
  set (d := default 0 _) in *. destruct (Z.eqb_spec d 0) as [->|Hne]; cbn [negb].
  - unfold sd_refresh_required. rewrite Hrd. cbn [mbind option_bind]. by exists fd'.
  - exists fd. split; [|done]. do 3 f_equal. apply s32_id. change SD_NR_VDIS with (2^24) in Hdr. unfold is_s32. lia.
Qed.

(** The part of the range [off, off + len) of the disk that the response to
    the target's read carries; a block without an object is not read. *)
Definition carried (trim : Z -> Z -> Z -> Z * Z) (v : sheepdog_vdi) (osz off len : Z) : Z * Z :=
  match default 0 (data_vdi_id (inode v) !! (off / osz)) with
  | 0 => (0, len)
  | d => trim (vid_to_data_oid d (off / osz)) (off mod osz) len
  end.

Lemma obj_read_sub objs oid off len lead k :
  0 <= lead -> 0 <= k -> lead + k <= len ->
  obj_read objs oid (off + lead) k = take (Z.to_nat k) (drop (Z.to_nat lead) (obj_read objs oid off len)).
Proof.
  intros Hl Hk Hlk. apply list_eq. intros p. unfold obj_read.
  destruct (decide (p < Z.to_nat k)%nat) as [Hp|Hp].
  - rewrite lookup_take_lt, lookup_drop by done.
    transitivity (Some (objs oid (off + lead + Z.of_nat p))); [|symmetry]; apply list_lookup_fmap_Some.
    + eexists. split; [reflexivity|]. apply lookup_seqZ. lia.
    + exists (off + Z.of_nat (Z.to_nat lead + p)). split; [f_equal; lia|]. apply lookup_seqZ. lia.
  - rewrite lookup_take_ge by lia. apply lookup_ge_None_2. rewrite length_map, length_seqZ. lia.
Qed.

Lemma exec_read_disk ready objs trim n mem fd v osz iod id buf lead k :
  answers_reads ready objs trim -> trims_zeroes trim objs -> ready fd -> image_ok v osz -> in_block iod osz -> is_u32 id ->
  length buf = Z.to_nat (nr_sectors iod * 512) ->
  carried trim v osz (start_sector iod * 512) (nr_sectors iod * 512) = (lead, k) ->
  exists fd' io', sd_exec_read (Datatypes.S n) mem fd v iod (fresh_sd_io id) buf =
      Some (0, v, overwrite (take (Z.to_nat k) (drop (Z.to_nat lead)
        (map (disk_byte objs v osz) (seqZ (start_sector iod * 512) (nr_sectors iod * 512))))) buf, fd', io') /\
    ready fd'.
Proof.
  intros Hans Htr Hr Hok Hin Hid Hbuf Hcar. destruct Hok as (Ho&Hv&Hd) eqn:Heq. clear Heq.
  pose proof (object_size_range v osz Ho) as Hosz. unfold sd_exec_read. rewrite Ho. cbn [mbind option_bind].
  rewrite (io_offset_eq iod osz), (io_total_eq iod osz) by done.
  destruct Hin as (H0&Hn&Hn2&Hmax&Hblk). set (off := start_sector iod * 512) in *. set (len := nr_sectors iod * 512) in *.
  assert (Hidx : 0 <= off / osz < SD_INODE_DATA_INDEX).
  { split; [apply Z.div_pos; lia|apply Z.div_lt_upper_bound; lia]. }
  pose proof (Z.mod_pos_bound off osz ltac:(lia)).
  rewrite (u32_id (off / osz)) by (change SD_INODE_DATA_INDEX with (2^20) in Hidx; unfold is_u32; lia).
  destruct (resolve_vid_ok ready n n mem fd v osz (off / osz)) as (fd1&->&Hr1); [|done..|].
  { destruct (trim (vid_to_vdi_oid (vid v)) 0 4) as [lead' k'] eqn:Ht'.
    destruct (read_object_ok ready objs trim n fd 0 (vid_to_vdi_oid (vid v)) (replicate 4 0) 0 4 lead' k')
      as (fd'&io'&Hrd&Hr'); try done; [|by eexists _, fd', io'].
    destruct Hv. rewrite vdi_oid_sum by lia. change SD_NR_VDIS with (2^24) in *. unfold is_u64. lia. }
  cbn [mbind option_bind]. rewrite (disk_block objs v osz off len _ ltac:(lia) ltac:(lia) ltac:(lia) Hblk eq_refl).
  unfold carried in Hcar. set (d := default 0 _) in *.
  pose proof (image_entry v osz (off / osz) Hok) as Hdr. fold d in Hdr.
  rewrite (proj2 (Z.ltb_ge d 0)) by lia. destruct (Z.eqb_spec d 0) as [Hd0|Hne].
  - rewrite Hd0 in Hcar. injection Hcar as <- <-. rewrite drop_0, take_ge by (rewrite length_replicate; lia).
    by eexists fd1, _.
  - assert (Htrim : trim (vid_to_data_oid d (off / osz)) (off mod osz) len = (lead, k)) by (by destruct d).
    change SD_INODE_DATA_INDEX with (2^20) in Hidx.
    destruct (read_object_ok ready objs trim n fd1 id (vid_to_data_oid d (off / osz)) buf (off mod osz) len lead k)
      as (fd'&io'&->&Hr'); try done; try (unfold is_u32; lia).
    { rewrite data_oid_sum by (done || unfold is_u32; lia). change SD_NR_VDIS with (2^24) in Hdr. unfold is_u64. lia. }
    destruct (Htr _ _ _ _ _ Htrim) as (?&?&?&_); [lia|].
    cbn [mbind option_bind]. rewrite <- obj_read_sub by done. by eexists fd', _.
Qed.

(** What is left out of a response is zero on the disk. *)
Lemma carried_rest objs trim v osz off len lead k :
  trims_zeroes trim objs -> 0 < osz -> 0 <= off -> 0 <= len -> off mod osz + len <= osz ->
  carried trim v osz off len = (lead, k) ->
  0 <= lead /\ 0 <= k /\ lead + k <= len /\
  (lead = 0 -> Forall (eq 0) (drop (Z.to_nat k) (map (disk_byte objs v osz) (seqZ off len)))).
Proof.
  intros Htr Ho Hoff Hlen Hblk Hcar. unfold carried in Hcar.
  rewrite (disk_block objs v osz off len _ Ho Hoff Hlen Hblk eq_refl).
  set (d := default 0 _) in *. destruct (Z.eqb_spec d 0) as [Hd0|Hne].
  - rewrite Hd0 in Hcar. injection Hcar as <- <-. split_and!; try lia. intros _. rewrite drop_replicate.
    apply Forall_replicate_eq.
  - assert (Htrim : trim (vid_to_data_oid d (off / osz)) (off mod osz) len = (lead, k)) by (by destruct d).
    destruct (Htr _ _ _ _ _ Htrim Hlen) as (?&?&?&Hz). split_and!; try done. intros ->.
    apply Forall_lookup. intros p x Hx. rewrite lookup_drop in Hx. apply list_lookup_fmap_Some in Hx as (y&->&Hy).
    apply lookup_seqZ in Hy as [-> Hp]. symmetry. apply Hz; lia.
Qed.
End cluster.

Section sheepdog_laws.
Context {R : Type} `{!Uring R, !UringLaws R, !UringProgress R} {S : Type} `{!SdSock S}.
Notation Q := (queue R (sheepdog_queue_ctx S)).
Implicit Types q : Q.

(** Putting the head of [l] over [old] gives [l], whose rest is zero, exactly
    when the rest of [old] is zero. *)
Lemma patched_eq_iff (l old : list Z) k :
  length old = length l -> Forall (eq 0) (drop k l) -> take k l ++ drop k old = l <-> Forall (eq 0) (drop k old).
Proof.
  intros Hl Hz. assert (Hld : length (drop k old) = length (drop k l)) by (rewrite !length_drop; lia). split.
  - intros H. rewrite <- (take_drop k l) in H at 2. apply app_inv_head in H. by rewrite H.
  - intros H. rewrite <- (take_drop k l) at 2. f_equal.
    transitivity (replicate (length (drop k l)) 0); [symmetry|]; by apply replicate_as_Forall_2.
Qed.

(** Completing the tag after the target has done its work. *)
Lemma handle_io_completes fuel mem q A i ret q1 :
  qsim q A -> a_tags A !! i = Some TTarget -> is_s32 ret ->
  sheepdog_queue_tgt_io fuel mem (Z.of_nat i) q = Some (ret, q1) -> qsim q1 A ->
  exists q', sheepdog_handle_io_async fuel mem (Z.of_nat i) q = Some (0, q') /\
    private_data q' = private_data q1 /\
    io_commands (ring_log (ring q')) = io_commands (ring_log (ring q)) ++
      [command i UBLK_IO_COMMIT_AND_FETCH_REQ (Some ret)].
Proof.
  intros Hs Ht Hret Hio Hs1. unfold sheepdog_handle_io_async. rewrite Hio. cbn [mbind option_bind].
  destruct (complete_io_progress q1 A i ret Hs1 Ht Hret) as (q'&->&(Hv&_)&Hs'). cbn [mbind option_bind].
  exists q'. split; [done|]. split; [by injection Hv|]. by rewrite (qs_log _ _ Hs'), (qs_log _ _ Hs).
Qed.

(** C22: What a read returns.  When the cluster answers reads, a READ request
    inside one block of the image completes its tag with the number of bytes by
    one COMMIT_AND_FETCH; the image is unchanged and the connection can be used
    again.  The disk is what the image describes: the object of the VDI the
    inode names for that block, or zeroes when it names none.  The protocol
    version the target asks for allows a response to leave out zero sectors at
    its ends; the bytes it carries are put at the start of the buffer and the
    rest of the buffer keeps what it held.  So the buffer ends as the disk's
    bytes when nothing was left out (or the block has no object), and when only
    the end was left out exactly if the rest of the buffer was zero before. *)
Theorem sd_read_returns_disk ready objs trim n mem q A i iod osz lead k :
  let old := buf_at (private_data q) (iod_addr iod) in
  let off := start_sector iod * 512 in
  let len := nr_sectors iod * 512 in
  let disk := map (disk_byte objs (sdq_vdi (private_data q)) osz) (seqZ off len) in
  qsim q A -> a_tags A !! i = Some TTarget -> get_iod q (Z.of_nat i) = Some iod ->
  ublksrv_get_op iod = UBLK_IO_OP_READ ->
  answers_reads ready objs trim -> trims_zeroes trim objs -> ready (sdq_fd (private_data q)) ->
  image_ok (sdq_vdi (private_data q)) osz -> in_block iod osz -> length old = Z.to_nat len ->
  carried trim (sdq_vdi (private_data q)) osz off len = (lead, k) ->
  exists q', sheepdog_handle_io_async (Datatypes.S n) mem (Z.of_nat i) q = Some (0, q') /\
    buf_at (private_data q') (iod_addr iod) =
      take (Z.to_nat k) (drop (Z.to_nat lead) disk) ++ drop (Z.to_nat k) old /\
    (k = len -> buf_at (private_data q') (iod_addr iod) = disk) /\
    (lead = 0 -> buf_at (private_data q') (iod_addr iod) = disk <-> Forall (eq 0) (drop (Z.to_nat k) old)) /\
    sdq_vdi (private_data q') = sdq_vdi (private_data q) /\ ready (sdq_fd (private_data q')) /\
    io_commands (ring_log (ring q')) = io_commands (ring_log (ring q)) ++
      [command i UBLK_IO_COMMIT_AND_FETCH_REQ (Some len)].
Proof.
  intros old off len disk Hs Ht Hiod Hop Hans Htr Hr Hok Hin Hbuf Hcar. destruct (qsim_tag_lt q A i _ Hs Ht) as [Hi _].
  assert (Hid : is_u32 (Z.of_nat i)) by (change UBLK_MAX_QUEUE_DEPTH with 4096 in Hi; unfold is_u32; lia).
  destruct (exec_read_disk ready objs trim n mem _ _ osz iod (Z.of_nat i) old lead k Hans Htr Hr Hok Hin Hid Hbuf Hcar)
    as (fd'&io'&Hrd&Hr'). fold off len disk in Hrd.
  pose proof (object_size_range _ osz (proj1 Hok)) as Hosz. pose proof Hin as (H0&Hn&Hn2&_&Hblk). fold off len in Hblk.
  destruct (carried_rest objs trim _ osz off len lead k Htr ltac:(lia) ltac:(lia) ltac:(lia) Hblk Hcar)
    as (Hl0&Hk0&Hlk&Hz). fold disk in Hz.
  assert (Hld : length disk = Z.to_nat len) by (unfold disk; by rewrite length_map, length_seqZ).
  unfold overwrite in Hrd. rewrite length_take, length_drop, Hld in Hrd.
  replace (Z.to_nat k `min` (Z.to_nat len - Z.to_nat lead))%nat with (Z.to_nat k) in Hrd by lia.
  set (bytes := _ ++ _) in Hrd.
  assert (Hret : s32 (io_total iod) = len).
  { rewrite (io_total_eq iod osz Hin). apply s32_id. unfold is_s32. lia. }
  destruct (handle_io_completes (Datatypes.S n) mem q A i len
    (set_sdq fd' (sdq_vdi (private_data q)) (iod_addr iod) bytes q)) as (q'&Hq'&Hp&Hlog); try done.
  - unfold is_s32. lia.
  - unfold sheepdog_queue_tgt_io. rewrite Hiod. cbn [mbind option_bind]. rewrite (proj1 Hok).
    cbn [mbind option_bind]. rewrite Hop. change (UBLK_IO_OP_READ =? UBLK_IO_OP_WRITE) with false.
    change (UBLK_IO_OP_READ =? UBLK_IO_OP_READ) with true. cbv iota. fold old. rewrite Hrd. cbn [mbind option_bind].
    change (0 <? 0) with false. cbv iota. by rewrite Hret.
  - by apply qsim_private.
  - exists q'. split; [done|]. rewrite Hp. unfold buf_at, set_sdq. qsimpl. cbn [sdq_mem sdq_vdi sdq_fd].
    rewrite lookup_insert_eq. cbn [default]. split; [done|]. split; [|split; [|done]].
    + intros ->. assert (lead = 0) as -> by lia. unfold bytes. rewrite drop_0, take_ge, drop_ge by lia. apply app_nil_r.
    + intros ->. unfold bytes. rewrite drop_0. by apply patched_eq_iff; [lia|apply Hz].
Qed.
End sheepdog_laws.

(** ** What goes over the wire *)
Lemma field_app n off a v c :
  Z.to_nat off = length a -> field n off (a ++ le_bytes n v ++ c) = v mod 2^(8 * Z.of_nat n).
Proof.
  intros Ha. unfold field. rewrite <- le_value_bytes. f_equal. apply list_eq. intros k.
  destruct (decide (k < n)%nat) as [Hk|Hk].
  - destruct (lookup_lt_is_Some_2 (le_bytes n v) k) as [x Hx]; [by rewrite length_le_bytes|].
    rewrite Hx. apply list_lookup_fmap_Some. exists k. split.
    + rewrite Ha, lookup_app_r by lia. replace (length a + k - length a)%nat with k by lia.
      by rewrite (lookup_app_l_Some _ _ _ _ Hx).
    + by apply lookup_seq.
  - rewrite !lookup_ge_None_2; [done|rewrite length_le_bytes; lia|rewrite length_map, length_seq; lia].
Qed.

(** What the other side reads in the header of an object request. *)
Lemma msg_fields pv op fl ep id len oid cow cp pol ec res te off rest :
  let m := req_bytes (mk_sd_req pv op fl ep id len (ReqObj oid cow cp pol ec res te off)) ++ rest in
  msg_opcode m = op mod 2^8 /\ msg_length m = len mod 2^32 /\ msg_oid m = oid mod 2^64 /\
  msg_offset m = off mod 2^32.
Proof.
  set (b1 := le_bytes 1 pv). set (b2 := le_bytes 2 fl ++ le_bytes 4 ep ++ le_bytes 4 id).
  set (b3 := le_bytes 8 cow ++ le_bytes 1 cp ++ le_bytes 1 pol ++ le_bytes 1 ec ++ le_bytes 1 res ++ le_bytes 4 te).
  assert (H : req_bytes (mk_sd_req pv op fl ep id len (ReqObj oid cow cp pol ec res te off)) ++ rest =
    b1 ++ le_bytes 1 op ++ b2 ++ le_bytes 4 len ++ le_bytes 8 oid ++ b3 ++ le_bytes 4 off ++ le_bytes 4 0 ++ rest).
  { unfold req_bytes, b1, b2, b3. cbn [req_proto_ver req_opcode req_flags req_epoch req_id req_data_length req_union
      body_bytes]. by rewrite <- !app_assoc. }
  intros m. unfold m, msg_opcode, msg_length, msg_oid, msg_offset. rewrite H. split_and!.
  - by rewrite field_app.
  - rewrite (app_assoc b1), (app_assoc _ b2). by rewrite field_app.
  - rewrite (app_assoc b1), (app_assoc _ b2), (app_assoc _ (le_bytes 4 len)). by rewrite field_app.
  - rewrite (app_assoc b1), (app_assoc _ b2), (app_assoc _ (le_bytes 4 len)), (app_assoc _ (le_bytes 8 oid)),
      (app_assoc _ b3). by rewrite field_app.
Qed.

(** A socket that remembers the messages it was given. *)
Class SdLog (S : Type) `{!SdSock S} := {
  sd_sent : S -> list (list Z);
  sent_send : forall fd m, sd_sent (sd_sendmsg fd m).2 = sd_sent fd ++ [m];
  sent_recv : forall fd n, sd_sent (sd_recvmsg fd n).2 = sd_sent fd
}.

Section wire.
Context {S : Type} `{!SdSock S, !SdLog S}.

Definition grows (fd fd' : S) : Prop := exists l, sd_sent fd' = sd_sent fd ++ l.

Lemma grows_refl fd : grows fd fd.
Proof. exists []. by rewrite app_nil_r. Qed.

Lemma grows_trans fd1 fd2 fd3 : grows fd1 fd2 -> grows fd2 fd3 -> grows fd1 fd3.
Proof. intros [l1 H1] [l2 H2]. exists (l1 ++ l2). by rewrite H2, H1, app_assoc. Qed.

(** The message of a submission. *)
Definition message (io : sd_io_context) (wdata : list Z) : list Z :=
  req_bytes (sdio_req io) ++
  (if has (req_flags (sdio_req io)) SD_FLAG_CMD_WRITE then take (Z.to_nat (req_data_length (sdio_req io))) wdata
   else []).

Lemma submit_sends fd io wdata ret data fd' io' :
  sd_submit fd io wdata = (ret, data, fd', io') -> sd_sent fd' = sd_sent fd ++ [message io wdata] /\ sdio_req io' = sdio_req io.
Proof.
  intros H. unfold sd_submit in H.
  assert (Hm : req_bytes (sdio_req io) ++
    (if (if has (req_flags (sdio_req io)) SD_FLAG_CMD_WRITE then req_data_length (sdio_req io) else 0) =? 0 then []
     else take (Z.to_nat (if has (req_flags (sdio_req io)) SD_FLAG_CMD_WRITE then req_data_length (sdio_req io) else 0)) wdata)
    = message io wdata).
  { unfold message. f_equal. destruct (has _ _); [|done]. by destruct (Z.eqb_spec (req_data_length (sdio_req io)) 0) as [->|]. }
  rewrite Hm in H. pose proof (sent_send fd (message io wdata)) as Hs.
  destruct (sd_sendmsg fd _) as [[e|k] fd1]; cbn [snd] in Hs; [by simplify_eq|].
  pose proof (sent_recv fd1 (Z.of_nat sizeof_sd_rsp)) as Hr. destruct (sd_recvmsg fd1 _) as [[e|bs] fd2]; cbn [snd] in Hr;
    [simplify_eq; by rewrite Hr|].
  set (rlen := if _ <? _ then _ else _) in H. destruct (rlen =? 0); [simplify_eq; by rewrite Hr|].
  pose proof (sent_recv fd2 rlen) as Hr2. destruct (sd_recvmsg fd2 _) as [[e|d] fd3]; cbn [snd] in Hr2; simplify_eq; by rewrite Hr2, Hr.
Qed.

Lemma submit_grows fd io wdata ret data fd' io' : sd_submit fd io wdata = (ret, data, fd', io') -> grows fd fd'.
Proof. intros [H _]%submit_sends. by eexists. Qed.

Lemma lookup_grows fd nm sid tag lock ret w fd' : sd_vdi_lookup fd nm sid tag lock = (ret, w, fd') -> grows fd fd'.
Proof.
  unfold sd_vdi_lookup. destruct (sd_submit _ _ _) as [[[r d] f] io] eqn:H. apply submit_grows in H.
  case_bool; intros [= <- <- <-]; done.
Qed.

Lemma read_object_grows n fd io oid buf off len ret nr b fd' io' :
  sd_read_object n fd io oid buf off len = Some (ret, nr, b, fd', io') -> grows fd fd'.
Proof.
  revert fd io buf. induction n as [|n IH]; intros fd io buf; cbn [sd_read_object]; [done|].
  destruct (sd_submit _ _ _) as [[[r d] f] io1] eqn:H. apply submit_grows in H.
  repeat case_bool; intros Heq; simplify_eq; try done. by eapply grows_trans, IH.
Qed.

Lemma read_inode_snapshot_grows fuel fd v io buf ret b fd' :
  read_inode_snapshot fuel fd v io buf = Some (ret, b, fd') -> grows fd fd'.
Proof.
  unfold read_inode_snapshot. destruct (sd_vdi_lookup _ _ _ _ _) as [[r w] f] eqn:H. apply lookup_grows in H.
  destruct w as [w|]; [|by intros [= <- <- <-]].
  destruct (sd_read_object _ _ _ _ _ _ _) as [[[[[r2 nr] b2] f2] io2]|] eqn:H2; [|done]. cbn.
  intros [= <- <- <-]. apply read_object_grows in H2. by eapply grows_trans.
Qed.

Lemma read_inode_grows fuel mem fd v snap ret v' fd' :
  sd_read_inode fuel mem fd v snap = Some (ret, v', fd') -> grows fd fd'.
Proof.
  unfold sd_read_inode. destruct mem; cbn [negb]; [|intros [= <- <- <-]; apply grows_refl].
  destruct snap.
  - destruct (read_inode_snapshot _ _ _ _ _) as [[[r b] f]|] eqn:H; [|done]. cbn.
    intros [= <- <- <-]. by eapply read_inode_snapshot_grows.
  - destruct (sd_read_object _ _ _ _ _ _ _) as [[[[[r nr] b] f] io]|] eqn:H; [|done]. cbn.
    apply read_object_grows in H. case_bool.
    + destruct (read_inode_snapshot _ _ _ _ _) as [[[r1 b1] f1]|] eqn:H1; [|done]. cbn.
      intros [= <- <- <-]. apply read_inode_snapshot_grows in H1. by eapply grows_trans.
    + cbn. by intros [= <- <- <-].
Qed.

Lemma update_inode_grows fuel mem n fd v oid ret v' fd' :
  sd_update_inode fuel mem n fd v oid = Some (ret, v', fd') -> grows fd fd'.
Proof.
  revert fd v. induction n as [|n IH]; intros fd v; cbn [sd_update_inode]; [done|].
  destruct (sd_submit _ _ _) as [[[r d] f] io] eqn:H. apply submit_grows in H.
  case_bool; [|by intros [= <- <- <-]].
  destruct (sd_read_inode _ _ _ _ _) as [[[r1 v1] f1]|] eqn:H1; [|done]. cbn.
  apply read_inode_grows in H1. case_bool; intros Heq; simplify_eq.
  - apply IH in Heq. by eapply grows_trans, grows_trans.
  - by eapply grows_trans.
Qed.

Lemma prep_write_spec v idx v1 r :
  sd_prep_write v zero_req idx = Some (v1, r) ->
  exists oid cow, r = mk_sd_req SD_PROTO_VER (req_opcode r) (req_flags r) 0 0 0 (ReqObj oid cow 0 0 0 0 0 0) /\
    (req_opcode r = SD_OP_WRITE_OBJ \/ req_opcode r = SD_OP_CREATE_AND_WRITE_OBJ) /\
    has (req_flags r) SD_FLAG_CMD_WRITE = true /\ nr_copies (inode v1) = nr_copies (inode v) /\
    vid v1 = vid v /\ block_size_shift (inode v1) = block_size_shift (inode v).
Proof.
  unfold sd_prep_write. destruct (get_data_vdi_id _ _) as [d|]; [|done]. cbn [mbind option_bind].
  destruct (is_data_obj_writable v idx) as [w|]; [|done]. cbn [mbind option_bind].
  destruct (d =? 0); [|destruct w]; intros [= <- <-]; eexists _, _; cbn; eauto 10.
Qed.

(** The message [sd_exec_write] sends for a block, with the operation and the
    flags it chose. *)
Definition write_message (v : sheepdog_vdi) (iod : ublksrv_io_desc) (osz op flags : Z) (buf : list Z) : list Z :=
  req_bytes (mk_sd_req SD_PROTO_VER op flags 0 0 (io_total iod)
    (ReqObj 0 0 (nr_copies (inode v)) 0 0 0 0 (u32 (io_offset iod mod osz)))) ++ take (Z.to_nat (io_total iod)) buf.

Lemma write_loop_first fuel mem n fd v iod buf osz idx ret v' fd' io' :
  write_loop_sd fuel mem n fd v iod buf (io_offset iod mod osz) idx = Some (ret, v', fd', io') ->
  exists op flags rest, (op = SD_OP_WRITE_OBJ \/ op = SD_OP_CREATE_AND_WRITE_OBJ) /\
    sd_sent fd' = sd_sent fd ++ write_message v iod osz op flags buf :: rest.
Proof.
  revert fd v. induction n as [|n IH]; intros fd v; cbn [write_loop_sd]; [done|].
  destruct (sd_prep_write v zero_req idx) as [[v1 r]|] eqn:Hp; [|done]. cbn [mbind option_bind].
  apply prep_write_spec in Hp as (oid&cow&Hr&Hop&Hfl&Hcp&_).
  destruct (sd_submit _ _ _) as [[[ret1 d] fd1] io1] eqn:Hsub. apply submit_sends in Hsub as [Hsent _].
  assert (Hm : message (set_req (write_req r v1 0 0 (io_offset iod mod osz) (io_total iod)) zero_sd_io) buf =
    write_message v iod osz (req_opcode r) (req_flags r) buf).
  { unfold message, write_message, write_req. cbn [sdio_req set_req req_flags req_data_length]. rewrite Hfl.
    rewrite Hr. cbn [req_union req_proto_ver req_opcode req_flags req_epoch req_id]. by rewrite Hcp. }
  rewrite Hm in Hsent. clear Hm.
  assert (Hdone : forall fd2, grows fd1 fd2 -> exists op flags rest,
    (op = SD_OP_WRITE_OBJ \/ op = SD_OP_CREATE_AND_WRITE_OBJ) /\
    sd_sent fd2 = sd_sent fd ++ write_message v iod osz op flags buf :: rest).
  { intros fd2 [l Hl]. exists (req_opcode r), (req_flags r), l. split; [done|].
    by rewrite Hl, Hsent, <- app_assoc. }
  destruct (_ || _).
  - destruct (sd_read_inode _ _ _ _ _) as [[[ret2 v2] fd2]|] eqn:Hri; [|done]. cbn [mbind option_bind].
    apply read_inode_grows in Hri. destruct (ret2 =? 0).
    + intros Heq. apply IH in Heq as (op&fl&rest&_&Hrest). apply Hdone. eapply grows_trans; [done|]. by eexists.
    + destruct (ret2 <? 0); [intros [= <- <- <- <-]; by apply Hdone|].
      destruct (_ =? _); [|intros [= <- <- <- <-]; by apply Hdone].
      destruct (sd_update_inode _ _ _ _ _ _) as [[[ret3 v3] fd3]|] eqn:Hu; [|done]. cbn.
      intros [= <- <- <- <-]. apply update_inode_grows in Hu. by eapply Hdone, grows_trans.
  - destruct (ret1 <? 0); [intros [= <- <- <- <-]; apply Hdone, grows_refl|].
    destruct (_ =? _); [|intros [= <- <- <- <-]; apply Hdone, grows_refl].
    destruct (sd_update_inode _ _ _ _ _ _) as [[[ret3 v3] fd3]|] eqn:Hu; [|done]. cbn.
    intros [= <- <- <- <-]. apply update_inode_grows in Hu. by apply Hdone.
Qed.

(** On a connection in a state of [ready] the cluster never answers that the
    inode is out of date or read-only. *)
Definition never_retries (ready : S -> Prop) : Prop :=
  forall fd io wdata ret data fd' io', ready fd -> sdio_rsp io = zero_rsp ->
  sd_submit fd io wdata = (ret, data, fd', io') -> ready fd' /\
  rsp_result (sdio_rsp io') <> SD_RES_INODE_INVALIDATED /\ rsp_result (sdio_rsp io') <> SD_RES_READONLY.

Lemma update_inode_returns ready n m mem fd v oid :
  never_retries ready -> ready fd -> exists ret fd', sd_update_inode n mem (Datatypes.S m) fd v oid = Some (ret, v, fd').
Proof.
  intros Hn Hr. cbn [sd_update_inode]. destruct (sd_submit _ _ _) as [[[ret d] fd1] io] eqn:Hs.
  apply Hn in Hs as (_&H1%Z.eqb_neq&H2%Z.eqb_neq); [|done..]. rewrite H1, H2. by eexists _, _.
Qed.

Lemma exec_write_returns ready n mem fd v iod buf osz :
  never_retries ready -> ready fd -> SD_OBJECT_SIZE v = Some osz -> io_offset iod / osz < SD_INODE_DATA_INDEX ->
  exists ret v' fd' io', sd_exec_write (Datatypes.S n) mem fd v iod buf = Some (ret, v', fd', io').
Proof.
  intros Hn Hr Ho Hidx. unfold sd_exec_write. rewrite Ho. cbn [mbind option_bind write_loop_sd].
  pose proof (object_size_range v osz Ho). pose proof (u64_bound (Z.shiftl (start_sector iod) 9)) as [Hu _].
  fold (io_offset iod) in Hu. assert (0 <= io_offset iod / osz) by (apply Z.div_pos; lia).
  rewrite (u32_id (io_offset iod / osz)) by (change SD_INODE_DATA_INDEX with (2^20) in Hidx; unfold is_u32; lia).
  destruct (sd_prep_write v zero_req _) as [[v1 r]|] eqn:Hp.
  2:{ exfalso. unfold sd_prep_write, is_data_obj_writable, get_data_vdi_id in Hp.
      rewrite (proj2 (Z.leb_le _ _)), (proj2 (Z.ltb_lt _ _)) in Hp by lia. cbn in Hp. by repeat case_match. }
  cbn [mbind option_bind]. destruct (sd_submit _ _ _) as [[[ret d] fd1] io] eqn:Hs.
  apply Hn in Hs as (Hr1&H1%Z.eqb_neq&H2%Z.eqb_neq); [|done..]. rewrite H1, H2. cbn [orb].
  destruct (ret <? 0); [by eexists _, _, _, _|]. destruct (req_opcode _ =? _); [|by eexists _, _, _, _].
  edestruct (update_inode_returns ready (Datatypes.S n) n mem fd1 v1) as (ret2&fd2&Hu2); [done..|]. rewrite Hu2. by eexists _, _, _, _.
Qed.

(** C38: Writes do not reach the block they are for.  Whatever block of the
    image a WRITE request addresses and whatever the cluster answers, when
    [sd_exec_write] returns, the first message it has sent is a write of the
    request's data at its offset inside the block, of object 0: the object
    [sd_prep_write] chose is overwritten by a variable that is never assigned.
    So it is not the data object of any VDI, where reads of the block look.
    [sd_exec_write] does return, with one round, for every block of the
    inode's array unless the cluster answers that the inode is out of date or
    read-only, after which the code starts over, without a bound of its own. *)
Theorem sd_write_object_zero mem fd v iod buf osz :
  SD_OBJECT_SIZE v = Some osz -> io_offset iod / osz < SD_INODE_DATA_INDEX ->
  (forall fuel ret v' fd' io', sd_exec_write fuel mem fd v iod buf = Some (ret, v', fd', io') ->
    exists m rest, sd_sent fd' = sd_sent fd ++ m :: rest /\
      (msg_opcode m = SD_OP_WRITE_OBJ \/ msg_opcode m = SD_OP_CREATE_AND_WRITE_OBJ) /\
      msg_oid m = 0 /\ msg_offset m = io_offset iod mod osz /\ msg_length m = io_total iod /\
      drop 48 m = take (Z.to_nat (io_total iod)) buf /\
      forall d idx, 0 < d < SD_NR_VDIS -> is_u32 idx -> msg_oid m <> vid_to_data_oid d idx) /\
  (forall ready, never_retries ready -> ready fd -> forall n, exists ret v' fd' io',
    sd_exec_write (Datatypes.S n) mem fd v iod buf = Some (ret, v', fd', io')).
Proof.
  intros Ho Hidx. split; [|intros ready Hn Hr n; by eapply exec_write_returns].
  intros fuel ret v' fd' io' Hw. unfold sd_exec_write in Hw. rewrite Ho in Hw. cbn [mbind option_bind] in Hw.
  apply write_loop_first in Hw as (op&fl&rest&Hop&Hs). eexists _, rest. split; [exact Hs|].
  unfold write_message.
  destruct (msg_fields SD_PROTO_VER op fl 0 0 (io_total iod) 0 0 (nr_copies (inode v)) 0 0 0 0
    (u32 (io_offset iod mod osz)) (take (Z.to_nat (io_total iod)) buf)) as (->&->&->&->).
  pose proof (object_size_range v osz Ho). pose proof (Z.mod_pos_bound (io_offset iod) osz ltac:(lia)).
  split; [by destruct Hop as [-> | ->]; [left|right]|]. split; [done|]. split.
  { rewrite (u32_id (_ mod osz)) by (unfold is_u32; lia). apply Z.mod_small. lia. }
  split; [apply Z.mod_small, u32_bound|]. split; [by rewrite drop_app_length'|].
  intros d idx Hd Hi. rewrite data_oid_sum by (done || lia). change (0 mod 2^64) with 0. destruct Hi. lia.
Qed.
End wire.

(** ** Requests the cluster accepts, or seems to *)
Section accepted.
Context {S : Type} `{!SdSock S}.

(** Every request is answered with success; [P] holds of the data received. *)
Definition accepts (ready : S -> Prop) (P : list Z -> Prop) : Prop :=
  forall fd io wdata, ready fd -> sdio_rsp io = zero_rsp -> 0 <= req_data_length (sdio_req io) ->
  exists data fd' rsp, sd_submit fd io wdata = (0, data, fd', set_rsp rsp io) /\
    rsp_result rsp = SD_RES_SUCCESS /\ P data /\ ready fd'.

(** The cluster has closed the connection: messages still go into the socket,
    and receiving gives nothing. *)
Definition hung_up (closed : S -> Prop) : Prop :=
  forall fd, closed fd ->
    (forall m, exists k fd', sd_sendmsg fd m = (inr k, fd') /\ closed fd') /\
    (forall n, exists fd', sd_recvmsg fd n = (inr [], fd') /\ closed fd').

(** No response counts as success: the response was cleared before. *)
Lemma hung_up_accepts closed : hung_up closed -> accepts closed (eq []).
Proof.
  intros Hh fd io w Hc Hz Hlen. unfold sd_submit. set (m := req_bytes _ ++ _).
  destruct (Hh fd Hc) as [Hs _]. destruct (Hs m) as (k&fd1&->&Hc1).
  destruct (Hh fd1 Hc1) as [_ Hrv]. destruct (Hrv (Z.of_nat sizeof_sd_rsp)) as (fd2&->&Hc2).
  rewrite Hz. change (overwrite [] zero_rsp) with zero_rsp. cbn [sdio_rsp set_rsp].
  change (rsp_data_length zero_rsp) with 0.
  set (rlen := if has _ _ then 0 else _).
  assert (Hr : (if 0 <? rlen then 0 else rlen) = 0).
  { subst rlen. destruct (has _ _); [done|]. destruct (Z.ltb_spec 0 (req_data_length (sdio_req io))); lia. }
  rewrite Hr. exists [], fd2, zero_rsp. done.
Qed.

Section with_accepts.
Context (ready : S -> Prop) (P : list Z -> Prop) (Hacc : accepts ready P).

Lemma read_object_accepted n fd io oid buf off len :
  ready fd -> sdio_rsp io = zero_rsp ->
  exists data fd' io', sd_read_object (Datatypes.S n) fd io oid buf off len =
    Some (0, None, overwrite data buf, fd', io') /\ P data /\ ready fd'.
Proof.
  intros Hr Hz. cbn [sd_read_object].
  destruct (Hacc fd (set_req (read_req (sdio_req io) oid off len) io) []) as (data&fd'&rsp&->&_&HP&Hr'); [done|done| |].
  { apply u32_bound. }
  change (0 <? 0) with false. cbv iota. by eexists data, fd', _.
Qed.

Lemma resolve_accepted n m mem fd v osz idx :
  ready fd -> image_ok v osz -> 0 <= idx < SD_INODE_DATA_INDEX ->
  exists fd', sd_resolve_vid (Datatypes.S n) mem (Datatypes.S m) fd v idx =
    Some (default 0 (data_vdi_id (inode v) !! idx), v, fd') /\ ready fd'.
Proof.
  intros Hr Hok Hidx. apply (resolve_vid_ok ready n m mem fd v osz idx); [|done..].
  destruct (read_object_accepted n fd zero_sd_io (vid_to_vdi_oid (vid v)) (replicate 4 0) 0 4)
    as (data&fd'&io'&->&_&Hr'); [done|done|]. by eexists _, fd', io'.
Qed.

Lemma exec_write_accepted n mem fd v osz iod buf :
  ready fd -> image_ok v osz -> in_block iod osz ->
  exists v' fd' io', sd_exec_write (Datatypes.S n) mem fd v iod buf = Some (0, v', fd', io') /\ ready fd'.
Proof.
  intros Hr (Ho&Hv&Hd) Hin. pose proof (object_size_range v osz Ho) as Hosz.
  unfold sd_exec_write. rewrite Ho. cbn [mbind option_bind write_loop_sd].
  rewrite (io_offset_eq iod osz) by done. pose proof (io_total_eq iod osz Hin) as Htot.
  destruct Hin as (H0&Hn&Hn2&Hmax&_). set (off := start_sector iod * 512) in *.
  assert (Hidx : 0 <= off / osz < SD_INODE_DATA_INDEX).
  { split; [apply Z.div_pos; lia|apply Z.div_lt_upper_bound; lia]. }
  rewrite (u32_id (off / osz)) by (change SD_INODE_DATA_INDEX with (2^20) in Hidx; unfold is_u32; lia).
  destruct (sd_prep_write v zero_req (off / osz)) as [[v1 r]|] eqn:Hp.
  2:{ exfalso. unfold sd_prep_write, is_data_obj_writable, get_data_vdi_id in Hp.
      rewrite (proj2 (Z.leb_le _ _)), (proj2 (Z.ltb_lt _ _)) in Hp by lia. cbn in Hp. by repeat case_match. }
  cbn [mbind option_bind].
  destruct (Hacc fd (set_req (write_req r v1 0 0 (off mod osz) (io_total iod)) zero_sd_io) buf)
    as (data&fd1&rsp&->&Hres&_&Hr1); [done|done| |].
  { cbn [sdio_req set_req write_req req_data_length]. lia. }
  cbn [sdio_rsp set_rsp]. rewrite Hres. change (SD_RES_SUCCESS =? SD_RES_INODE_INVALIDATED) with false.
  change (SD_RES_SUCCESS =? SD_RES_READONLY) with false. cbn [orb]. change (0 <? 0) with false. cbv iota.
  destruct (_ =? _); [|by eexists _, fd1, _]. cbn [sd_update_inode].
  destruct (Hacc fd1 (set_req (update_req v1 0) zero_sd_io) (le_bytes 4 (vid v1))) as (data2&fd2&rsp2&Hs2&Hres2&_&Hr2);
    [done|done|done|].
  unfold write_req. cbn [sdio_req set_rsp set_req req_union].
  destruct (req_union r); rewrite Hs2; cbn [sdio_rsp set_rsp]; rewrite Hres2; by eexists _, fd2, _.
Qed.

Lemma exec_discard_accepted n mem fd v osz iod id buf wz :
  ready fd -> image_ok v osz -> in_block iod osz ->
  default 0 (data_vdi_id (inode v) !! (start_sector iod * 512 / osz)) <> 0 ->
  exists fd' io', sd_exec_discard (Datatypes.S n) mem fd v iod (fresh_sd_io id) buf wz =
    Some (0, set_inode_idx (start_sector iod * 512 / osz) 0 v, buf, fd', io') /\ ready fd'.
Proof.
  intros Hr Hok Hin Hne. pose proof Hok as (Ho&Hv&Hd). pose proof (object_size_range v osz Ho) as Hosz.
  unfold sd_exec_discard. rewrite Ho. cbn [mbind option_bind]. rewrite (io_offset_eq iod osz) by done.
  destruct Hin as (H0&Hn&Hn2&Hmax&_). set (off := start_sector iod * 512) in *.
  assert (Hidx : 0 <= off / osz < SD_INODE_DATA_INDEX).
  { split; [apply Z.div_pos; lia|apply Z.div_lt_upper_bound; lia]. }
  rewrite (u32_id (off / osz)) by (change SD_INODE_DATA_INDEX with (2^20) in Hidx; unfold is_u32; lia).
  destruct (resolve_accepted n n mem fd v osz (off / osz) Hr Hok Hidx) as (fd1&->&Hr1). cbn [mbind option_bind].
  set (d := default 0 _) in *.
  pose proof (image_entry v osz (off / osz) Hok) as [Hdr _]. fold d in Hdr.
  rewrite (proj2 (Z.ltb_ge d 0)), (proj2 (Z.eqb_neq d 0)) by lia. cbn [andb discard_loop].
  unfold sd_inode_get_idx, get_data_vdi_id. rewrite (proj2 (Z.leb_le _ _)), (proj2 (Z.ltb_lt _ _)) by lia.
  cbn [andb mbind option_bind]. fold d.
  destruct (Hacc fd1 (set_req (discard_req (sdio_req (fresh_sd_io id)) (set_inode_idx (off / osz) 0 v) d (off / osz))
    (fresh_sd_io id)) (le_bytes 4 0)) as (data&fd2&rsp&->&Hres&_&Hr2); [done|done|done|].
  cbn [sdio_rsp set_rsp]. rewrite Hres. cbn. by eexists fd2, _.
Qed.
End with_accepts.
End accepted.

Section sheepdog_errors.
Context {R : Type} `{!Uring R, !UringLaws R, !UringProgress R} {S : Type} `{!SdSock S}.
Notation Q := (queue R (sheepdog_queue_ctx S)).
Implicit Types q : Q.

Lemma total_ret iod osz : in_block iod osz -> s32 (io_total iod) = nr_sectors iod * 512 /\ is_s32 (nr_sectors iod * 512).
Proof.
  intros Hin. rewrite (io_total_eq iod osz Hin). destruct Hin as (_&?&?&_).
  assert (is_s32 (nr_sectors iod * 512)) by (unfold is_s32; lia). by rewrite s32_id.
Qed.

(** A lost connection is reported as success.  After the cluster has closed
    the connection (messages still go into the socket, receiving gives nothing)
    a WRITE request is completed with its full size although no response came,
    and so is a READ request of a block the inode names, whose buffer is left as
    it was: a response of no bytes leaves the cleared header, which says
    success. *)
Theorem sd_hangup_is_success closed n mem q A i iod osz :
  qsim q A -> a_tags A !! i = Some TTarget -> get_iod q (Z.of_nat i) = Some iod ->
  hung_up closed -> closed (sdq_fd (private_data q)) ->
  image_ok (sdq_vdi (private_data q)) osz -> in_block iod osz ->
  ublksrv_get_op iod = UBLK_IO_OP_WRITE \/
  ublksrv_get_op iod = UBLK_IO_OP_READ /\
    default 0 (data_vdi_id (inode (sdq_vdi (private_data q))) !! (start_sector iod * 512 / osz)) <> 0 ->
  exists q', sheepdog_handle_io_async (Datatypes.S n) mem (Z.of_nat i) q = Some (0, q') /\
    buf_at (private_data q') (iod_addr iod) = buf_at (private_data q) (iod_addr iod) /\
    io_commands (ring_log (ring q')) = io_commands (ring_log (ring q)) ++
      [command i UBLK_IO_COMMIT_AND_FETCH_REQ (Some (nr_sectors iod * 512))].
Proof.
  intros Hs Ht Hiod Hh%hung_up_accepts Hc Hok Hin Hop. destruct (total_ret iod osz Hin) as [Hret Hret32].
  assert (exists fd' v', sheepdog_queue_tgt_io (Datatypes.S n) mem (Z.of_nat i) q =
    Some (nr_sectors iod * 512, set_sdq fd' v' (iod_addr iod) (buf_at (private_data q) (iod_addr iod)) q))
    as (fd'&v'&Hio).
  { unfold sheepdog_queue_tgt_io. rewrite Hiod. cbn [mbind option_bind]. pose proof Hok as (Ho&_). rewrite Ho.
    cbn [mbind option_bind]. destruct Hop as [->|[-> Hne]].
    - change (UBLK_IO_OP_WRITE =? UBLK_IO_OP_WRITE) with true. cbv iota.
      destruct (exec_write_accepted _ _ Hh n mem _ _ osz iod (buf_at (private_data q) (iod_addr iod)) Hc Hok Hin)
        as (v'&fd'&io'&->&_). cbn [mbind option_bind]. change (0 <? 0) with false. cbv iota. rewrite Hret. by eexists _, _.
    - change (UBLK_IO_OP_READ =? UBLK_IO_OP_WRITE) with false. change (UBLK_IO_OP_READ =? UBLK_IO_OP_READ) with true.
      cbv iota. unfold sd_exec_read. rewrite Ho. cbn [mbind option_bind].
      pose proof (object_size_range _ osz Ho). rewrite (io_offset_eq iod osz) by done.
      assert (Hidx : 0 <= start_sector iod * 512 / osz < SD_INODE_DATA_INDEX).
      { destruct Hin as (?&?&?&?&_). split; [apply Z.div_pos; lia|apply Z.div_lt_upper_bound; lia]. }
      rewrite (u32_id (start_sector iod * 512 / osz))
        by (change SD_INODE_DATA_INDEX with (2^20) in Hidx; unfold is_u32; lia).
      destruct (resolve_accepted _ _ Hh n n mem _ _ osz _ Hc Hok Hidx) as (fd1&->&Hc1). cbn [mbind option_bind].
      pose proof (image_entry _ osz (start_sector iod * 512 / osz) Hok) as [? _].
      rewrite (proj2 (Z.ltb_ge _ 0)), (proj2 (Z.eqb_neq _ 0)) by done.
      edestruct (read_object_accepted _ _ Hh n fd1) as (data&fd2&io2&->&<-&_); [done|done|].
      cbn [mbind option_bind]. change (0 <? 0) with false. cbv iota. rewrite Hret. by eexists _, _. }
  destruct (handle_io_completes (Datatypes.S n) mem q A i _ _ Hs Ht Hret32 Hio) as (q'&Hq'&Hp&Hlog);
    [by apply qsim_private|].
  exists q'. split; [done|]. rewrite Hp. split; [|done]. unfold buf_at at 1, set_sdq. qsimpl. cbn [sdq_mem].
  by rewrite lookup_insert_eq.
Qed.

(** Discarding a part of a block drops all of it.  When the cluster
    accepts the request, a DISCARD or WRITE_ZEROES of any range inside a block
    that has an object takes the whole block out of the image: afterwards every
    byte of that block reads as zero, inside the range and outside, and no other
    block changes. *)
Theorem sd_discard_drops_block ready P n mem q A i iod osz objs :
  qsim q A -> a_tags A !! i = Some TTarget -> get_iod q (Z.of_nat i) = Some iod ->
  accepts ready P -> ready (sdq_fd (private_data q)) ->
  image_ok (sdq_vdi (private_data q)) osz -> in_block iod osz ->
  ublksrv_get_op iod = UBLK_IO_OP_DISCARD \/ ublksrv_get_op iod = UBLK_IO_OP_WRITE_ZEROES ->
  default 0 (data_vdi_id (inode (sdq_vdi (private_data q))) !! (start_sector iod * 512 / osz)) <> 0 ->
  exists q', sheepdog_handle_io_async (Datatypes.S n) mem (Z.of_nat i) q = Some (0, q') /\
    (forall pos, disk_byte objs (sdq_vdi (private_data q')) osz pos =
       if pos / osz =? start_sector iod * 512 / osz then 0 else disk_byte objs (sdq_vdi (private_data q)) osz pos) /\
    io_commands (ring_log (ring q')) = io_commands (ring_log (ring q)) ++
      [command i UBLK_IO_COMMIT_AND_FETCH_REQ (Some (nr_sectors iod * 512))].
Proof.
  intros Hs Ht Hiod Hacc Hr Hok Hin Hop Hne. destruct (total_ret iod osz Hin) as [Hret Hret32].
  set (v1 := set_inode_idx (start_sector iod * 512 / osz) 0 (sdq_vdi (private_data q))).
  assert (exists fd', sheepdog_queue_tgt_io (Datatypes.S n) mem (Z.of_nat i) q =
    Some (nr_sectors iod * 512, set_sdq fd' v1 (iod_addr iod) (buf_at (private_data q) (iod_addr iod)) q))
    as (fd'&Hio).
  { unfold sheepdog_queue_tgt_io. rewrite Hiod. cbn [mbind option_bind]. pose proof Hok as (Ho&_). rewrite Ho.
    cbn [mbind option_bind].
    edestruct (exec_discard_accepted _ _ Hacc n mem _ _ osz iod (Z.of_nat i) (buf_at (private_data q) (iod_addr iod))
      (negb (ublksrv_get_op iod =? UBLK_IO_OP_DISCARD)) Hr Hok Hin Hne) as (fd'&io'&Hd&_).
    exists fd'. rewrite Hd. destruct Hop as [-> | ->]; cbn -[s32 io_total]; by rewrite Hret. }
  destruct (handle_io_completes (Datatypes.S n) mem q A i _ _ Hs Ht Hret32 Hio) as (q'&Hq'&Hp&Hlog);
    [by apply qsim_private|].
  exists q'. split; [done|]. split; [|done]. rewrite Hp. unfold set_sdq. qsimpl. cbn [sdq_vdi].
  intros pos. unfold disk_byte, v1. cbn [inode set_inode_idx set_data_vdi_id data_vdi_id].
  destruct (Z.eqb_spec (pos / osz) (start_sector iod * 512 / osz)) as [->|Hpos].
  - by rewrite lookup_insert_eq.
  - by rewrite lookup_insert_ne.
Qed.
End sheepdog_errors.
