(* ===== verification/SheepExamples.v ===== *)
(** * A small cluster

    A socket whose other side serves reads (whole, or without the zeroes at the
    end of what was asked for), acknowledges everything or has
    hung up, and an image of two blocks of 4096 bytes, at which the theorems of
    SheepTgt are applied. *)

From S2P Require Import Prelude Bytes UblkCmd Uring QueueTypes Batch Queue QueueSpec SdProto Sheep SheepTgt.

Inductive exs_mode := Serves | Trims | Acks | HungUp.

Record exs := mk_exs {
  exs_side : exs_mode;
  exs_out : list (list Z);    (* what the other side has sent *)
  exs_sent : list (list Z)
}.

(** An object whose bytes from 1280 on are zero. *)
Definition exs_objs (oid pos : Z) : Z := if pos <? 1280 then (oid + pos) mod 256 else 0.

(** The sectors of [off, off + len) that are not wholly behind those bytes. *)
Definition exs_kept (off len : Z) : Z := Z.min len (Z.max 0 (1536 - off)).
Definition exs_trim (side : exs_mode) (oid off len : Z) : Z * Z :=
  (0, match side with Trims => exs_kept off len | _ => len end).
Definition exs_rsp (len : Z) : list Z := replicate 12 0 ++ le_bytes 4 len ++ le_bytes 4 0 ++ replicate 28 0.

Definition exs_answer (side : exs_mode) (m : list Z) : list (list Z) :=
  match side with
  | Serves => [exs_rsp (msg_length m); obj_read exs_objs (msg_oid m) (msg_offset m) (msg_length m)]
  | Trims =>
      let k := exs_kept (msg_offset m) (msg_length m) in
      exs_rsp k :: (if k =? 0 then [] else [obj_read exs_objs (msg_oid m) (msg_offset m) k])
  | Acks => [exs_rsp 0]
  | HungUp => []
  end.

#[export] Instance exs_sock : SdSock exs := {|
  sd_sendmsg fd m :=
    (inr (Z.of_nat (length m)), mk_exs (exs_side fd) (exs_out fd ++ exs_answer (exs_side fd) m) (exs_sent fd ++ [m]));
  sd_recvmsg fd n :=
    match exs_out fd with
    | [] => (inr [], fd)
    | c :: cs => (inr c, mk_exs (exs_side fd) cs (exs_sent fd))
    end
|}.

#[export] Program Instance exs_log : SdLog exs := {| sd_sent := exs_sent |}.
Next Obligation. done. Qed.
Next Obligation. intros fd n. cbn. by destruct (exs_out fd). Qed.

Definition exs_ready (side : exs_mode) (fd : exs) : Prop := exs_side fd = side /\ exs_out fd = [].

Lemma exs_rsp_fields len : rsp_data_length (exs_rsp len) = len mod 2^32 /\ rsp_result (exs_rsp len) = SD_RES_SUCCESS.
Proof. split; [by apply (field_app 4 12 (replicate 12 0))|done]. Qed.

Lemma exs_trims side : trims_zeroes (exs_trim side) exs_objs.
Proof.
  intros oid off len lead k Ht Hlen. unfold exs_trim, exs_kept, exs_objs in *.
  destruct side; injection Ht as <- <-; (split_and!; [lia..|]); intros p Hp Hn;
    (destruct (Z.ltb_spec (off + p) 1280); [exfalso; lia|done]).
Qed.

Lemma exs_serves side : side = Serves \/ side = Trims -> answers_reads (exs_ready side) exs_objs (exs_trim side).
Proof.
  intros Hsd [side' out snt] id oid off len lead k [Hside Hout] Hid Hoid Hoff Hlen Hne Ht. cbn in Hside, Hout. subst side' out.
  cbn [sd_sendmsg sd_recvmsg exs_sock exs_side exs_out exs_sent app exs_answer].
  set (m := req_bytes _).
  assert (msg_length m = len /\ msg_oid m = oid /\ msg_offset m = off) as (Hm1&Hm2&Hm3).
  { pose proof (msg_fields SD_PROTO_VER SD_OP_READ_OBJ SD_FLAG_CMD_TGT 0 id len oid 0 0 0 0 0 0 off []) as H.
    cbn zeta in H. rewrite app_nil_r in H. fold m in H.
    rewrite (Z.mod_small len), (Z.mod_small oid), (Z.mod_small off) in H by done. tauto. }
  destruct (exs_trims side oid off len lead k Ht (proj1 Hlen)) as (Hl0&Hk0&Hkl&_).
  destruct (exs_rsp_fields k) as [Hl Hr]. rewrite Z.mod_small in Hl by (destruct Hlen; lia).
  assert (lead = 0 /\ exs_answer side m =
    exs_rsp k :: (if k =? 0 then [] else [obj_read exs_objs oid off k])) as [Hlead Ha].
  { unfold exs_trim in Ht. destruct Hsd as [-> | ->]; simplify_eq; cbn [exs_answer]; rewrite Hm1, Hm2, Hm3; [|done].
    by rewrite (proj2 (Z.eqb_neq _ 0) Hne). }
  subst lead. rewrite Ha. clear Ha.
  eexists _, _, _, _, (mk_exs side [] (snt ++ [m])). split; [reflexivity|]. split; [reflexivity|]. split; [done|].
  split; [done|]. split; [done|]. rewrite Z.add_0_r. split; [|done]. by destruct (k =? 0).
Qed.

Lemma exs_acks : accepts (exs_ready Acks) (eq []).
Proof.
  intros [side out snt] io w [Hside Hout] Hz Hlen. cbn in Hside, Hout. subst side out.
  exists [], (mk_exs Acks [] (snt ++ [message io w])), (exs_rsp 0). unfold sd_submit, message.
  cbn [sd_sendmsg sd_recvmsg exs_sock exs_side exs_out exs_sent app exs_answer]. rewrite Hz.
  change (overwrite (exs_rsp 0) zero_rsp) with (exs_rsp 0). cbn [sdio_rsp set_rsp].
  change (rsp_data_length (exs_rsp 0)) with 0.
  destruct (has _ _); cbn [Z.ltb Z.compare Z.eqb].
  - split; [|done]. by destruct (Z.eqb_spec (req_data_length (sdio_req io)) 0) as [->|].
  - split; [|done]. rewrite app_nil_r. by destruct (req_data_length (sdio_req io)).
Qed.

Lemma exs_hung_up : hung_up (exs_ready HungUp).
Proof.
  intros [side out snt] [Hside Hout]. cbn in Hside, Hout. subst side out. split.
  - intros m. by eexists _, _.
  - intros n. by eexists.
Qed.

(** The image 7: block 0 is its own, block 1 has no object. *)
Definition exs_vdi : sheepdog_vdi := mk_vdi 7 (mk_inode [] 0 0 8192 3 12 {[0 := 7]}).
Definition exs_image_buf : list Z := replicate 512 9.

Definition exs_iod (op start : Z) : ublksrv_io_desc := mk_iod op 1 start 0x5000.
Definition exs_queue (side : exs_mode) (op start : Z) : queue ListRing.ring (sheepdog_queue_ctx exs) :=
  mk_queue 0 1 [exs_iod op start] 0 0 0 (-1) [] (-1)
    (ListRing.mk_ring 8 [] []) 0 [0; 0; 0; 0] (mk_batch [] [] 0 0 0 0 0 0)
    [mk_ublk_io 0x5000 0 0 0 (Some 0) 0]
    (mk_sdq (mk_exs side [] []) exs_vdi {[0x5000 := exs_image_buf]}) [].
Definition exs_aqueue : aqueue := mk_aqueue [TTarget] false [].

Lemma exs_qsim side op start : qsim (exs_queue side op start) exs_aqueue.
Proof.
  split; try done.
  - intros [|i] io Hio; [by injection Hio as <-|done].
  - intros [|i] t Ht; [by injection Ht as <-; eexists; split; [done|left]|done].
Qed.

Lemma exs_image_ok : image_ok exs_vdi 4096.
Proof.
  split; [done|]. split; [done|]. intros idx d. cbn. intros [<- <-]%lookup_singleton_Some. done.
Qed.

(** Sectors 2 and 5 are in block 0, sector 9 in block 1. *)
Lemma exs_in_block op start : start = 2 \/ start = 9 \/ start = 5 -> in_block (exs_iod op start) 4096.
Proof. intros [-> | [-> | ->]]; repeat split; vm_compute; (reflexivity || discriminate). Qed.

(** Sectors 2 and 9 read whole, and sector 5, which is zero, from a cluster
    that trims: the buffer keeps the bytes it held. *)
Lemma sd_read_returns_disk_witness :
  Forall (fun start => exists q',
    sheepdog_handle_io_async 1 true 0 (exs_queue Serves UBLK_IO_OP_READ start) = Some (0, q') /\
    buf_at (private_data q') 0x5000 = map (disk_byte exs_objs exs_vdi 4096) (seqZ (start * 512) 512)) [2; 9] /\
  exists q', sheepdog_handle_io_async 1 true 0 (exs_queue Trims UBLK_IO_OP_READ 5) = Some (0, q') /\
    buf_at (private_data q') 0x5000 = exs_image_buf /\
    buf_at (private_data q') 0x5000 <> map (disk_byte exs_objs exs_vdi 4096) (seqZ (5 * 512) 512).
Proof.
  split; [apply Forall_forall; intros start Hst|].
  - destruct (sd_read_returns_disk (exs_ready Serves) exs_objs (exs_trim Serves) 0 true
      (exs_queue Serves UBLK_IO_OP_READ start) exs_aqueue 0 (exs_iod UBLK_IO_OP_READ start) 4096 0 512)
      as (q'&H1&_&H2&_).
    + apply exs_qsim.
    + reflexivity.
    + reflexivity.
    + reflexivity.
    + apply exs_serves. auto.
    + apply exs_trims.
    + split; reflexivity.
    + exact exs_image_ok.
    + apply exs_in_block. set_solver.
    + reflexivity.
    + assert (start = 2 \/ start = 9) as [-> | ->] by set_solver; reflexivity.
    + exists q'. split; [exact H1|exact (H2 eq_refl)].
  - destruct (sd_read_returns_disk (exs_ready Trims) exs_objs (exs_trim Trims) 0 true
      (exs_queue Trims UBLK_IO_OP_READ 5) exs_aqueue 0 (exs_iod UBLK_IO_OP_READ 5) 4096 0 0)
      as (q'&H1&H2&_&H3&_).
    + apply exs_qsim.
    + reflexivity.
    + reflexivity.
    + reflexivity.
    + apply exs_serves. auto.
    + apply exs_trims.
    + split; reflexivity.
    + exact exs_image_ok.
    + apply exs_in_block. auto.
    + reflexivity.
    + reflexivity.
    + exists q'. split; [exact H1|]. split; [exact H2|]. intros Heq. apply (H3 eq_refl) in Heq.
      apply Forall_inv in Heq. discriminate Heq.
Defined.

Lemma sd_hangup_is_success_witness :
  exists q', sheepdog_handle_io_async 1 true 0 (exs_queue HungUp UBLK_IO_OP_WRITE 2) = Some (0, q') /\
    io_commands (ring_log (ring q')) = [command 0 UBLK_IO_COMMIT_AND_FETCH_REQ (Some 512)].
Proof.
  destruct (sd_hangup_is_success (exs_ready HungUp) 0 true (exs_queue HungUp UBLK_IO_OP_WRITE 2) exs_aqueue 0
    (exs_iod UBLK_IO_OP_WRITE 2) 4096) as (q'&H1&_&H2).
  - apply exs_qsim.
  - reflexivity.
  - reflexivity.
  - exact exs_hung_up.
  - split; reflexivity.
  - exact exs_image_ok.
  - apply exs_in_block; auto.
  - left. reflexivity.
  - exists q'. split; [exact H1|exact H2].
Defined.

(** Discarding sector 2 zeroes sector 0 as well. *)
Lemma sd_discard_drops_block_witness :
  disk_byte exs_objs exs_vdi 4096 5 = 5 /\
  exists q', sheepdog_handle_io_async 1 true 0 (exs_queue Acks UBLK_IO_OP_DISCARD 2) = Some (0, q') /\
    disk_byte exs_objs (sdq_vdi (private_data q')) 4096 5 = 0.
Proof.
  split; [reflexivity|].
  destruct (sd_discard_drops_block (exs_ready Acks) (eq []) 0 true (exs_queue Acks UBLK_IO_OP_DISCARD 2) exs_aqueue 0
    (exs_iod UBLK_IO_OP_DISCARD 2) 4096 exs_objs) as (q'&H1&H2&_).
  - apply exs_qsim.
  - reflexivity.
  - reflexivity.
  - exact exs_acks.
  - split; reflexivity.
  - exact exs_image_ok.
  - apply exs_in_block; auto.
  - left. reflexivity.
  - discriminate.
  - exists q'. split; [exact H1|]. rewrite H2. reflexivity.
Defined.

Lemma exs_final : never_retries (exs_ready Acks).
Proof.
  intros fd io w ret data fd' io' Hr Hz Hs. pose proof Hr as [Hside Hout].
  destruct fd as [side out snt]. cbn in Hside, Hout. subst side out. unfold sd_submit in Hs.
  cbn [sd_sendmsg sd_recvmsg exs_sock exs_side exs_out exs_sent app exs_answer] in Hs. rewrite Hz in Hs.
  change (overwrite (exs_rsp 0) zero_rsp) with (exs_rsp 0) in Hs. cbn [sdio_rsp set_rsp] in Hs.
  destruct (_ =? 0) in Hs; simplify_eq; done.
Qed.

(** A write to a block that has an object and one to a block that has none. *)
Lemma sd_write_object_zero_witness :
  Forall (fun start => exists ret v' fd' io' m rest,
    sd_exec_write 1 true (mk_exs Acks [] []) exs_vdi (exs_iod UBLK_IO_OP_WRITE start) exs_image_buf =
      Some (ret, v', fd', io') /\
    exs_sent fd' = m :: rest /\ msg_oid m = 0 /\ drop 48 m = exs_image_buf) [2; 9].
Proof.
  apply Forall_forall. intros start Hst.
  destruct (sd_write_object_zero true (mk_exs Acks [] []) exs_vdi (exs_iod UBLK_IO_OP_WRITE start) exs_image_buf 4096
    eq_refl) as [H1 H2].
  { assert (start = 2 \/ start = 9) as [-> | ->] by set_solver; reflexivity. }
  destruct (H2 (exs_ready Acks) exs_final (conj eq_refl eq_refl) 0%nat) as (ret&v'&fd'&io'&H).
  destruct (H1 1%nat ret v' fd' io' H) as (m&rest&Hs&_&Hoid&_&_&Hd&_).
  exists ret, v', fd', io', m, rest. split; [exact H|]. split; [exact Hs|]. split; [exact Hoid|exact Hd].
Defined.
