(* ===== verification/QueueSetup.v ===== *)
(** * Setting a queue up and tearing it down

    [ublksrv_queue_init_flags] and [ublksrv_queue_deinit] of lib/ublksrv.c with
    the helpers they use.  The outcomes of system calls and allocations are a
    record [setup_env].  The memory of [struct _ublksrv_queue] comes from
    malloc(3): what it holds before it is assigned is an argument, [g], of
    which nothing is known.  What the clean-up releases is recorded in
    [trace]. *)

From S2P Require Import Prelude Bytes UblkCmd Uring QueueTypes Batch Queue QueueSpec QueueSystem Params.

Definition MAX_NR_HW_QUEUES : Z := 32.
Definition IORING_SETUP_CQSIZE : Z := bit 3.
Definition IORING_SETUP_COOP_TASKRUN : Z := bit 8.
Definition MAP_FAILED : Z := u64 (-1).
Definition sizeof_io_desc : Z := 24.

Record ublksrv_tgt_info := mk_tgt_info {
  dev_size : Z;                  (* unsigned long long *)
  tgt_ring_depth : Z;            (* unsigned int *)
  nr_fds : Z;                    (* unsigned int *)
  tgt_fds : list Z;
  extra_ios : Z;                 (* unsigned int *)
  io_data_size : Z;              (* unsigned int *)
  iowq_max_workers : Z * Z
}.

(** ** Sizes *)

(** [page]: getpagesize(). *)
Definition ublk_queue_single_io_buf_size (page : Z) (info : ublksrv_ctrl_dev_info) : Z :=
  s32 (round_up (max_io_buf_bytes info) page).
Definition ublk_queue_io_buf_size (page : Z) (info : ublksrv_ctrl_dev_info) : Z :=
  s32 (ublk_queue_single_io_buf_size page info * queue_depth info).
Definition ublk_io_buf_size (page : Z) (info : ublksrv_ctrl_dev_info) : Z :=
  s32 (ublk_queue_io_buf_size page info * nr_hw_queues info).

Definition ublksrv_queue_cmd_buf_sz (page depth : Z) : Z := s32 (round_up (s32 (depth * sizeof_io_desc)) page).
Definition queue_max_cmd_buf_sz (page : Z) : Z := s32 (round_up (UBLK_MAX_QUEUE_DEPTH * sizeof_io_desc) page).

(** The offset at which the descriptors of a queue are mapped. *)
Definition cmd_buf_off (page q_id : Z) : Z := u64 (UBLKSRV_CMD_BUF_OFFSET + s32 (q_id * queue_max_cmd_buf_sz page)).

(** Ring depth, completion ring depth and number of ios. *)
Definition ublksrv_calculate_depths (info : ublksrv_ctrl_dev_info) (tgt : ublksrv_tgt_info) (dev_cq_depth : Z)
    : Z * Z * Z :=
  let aio_depth := if has (ublksrv_flags info) UBLKSRV_F_NEED_EVENTFD then 1 else 0 in
  let depth := queue_depth info in
  let tgt_depth := s32 (u32 (tgt_ring_depth tgt + aio_depth)) in
  let nr_ios := s32 (u32 (depth + extra_ios tgt)) in
  let depth := if tgt_depth <? depth then depth else tgt_depth in
  (depth, if dev_cq_depth =? 0 then depth else dev_cq_depth, nr_ios).

(** [p.flags] and [p.cq_entries] *)
Definition ublksrv_setup_ring_params (cq_depth flags : Z) : Z * Z := (Z.lor flags IORING_SETUP_CQSIZE, cq_depth).

Definition initial_state (info : ublksrv_ctrl_dev_info) : Z :=
  let st := if has (dev_flags info) UBLK_F_CMD_IOCTL_ENCODE then UBLKSRV_QUEUE_IOCTL_OP else 0 in
  let st := if has (dev_flags info) UBLK_F_USER_COPY then Z.lor st UBLKSRV_USER_COPY else st in
  let st := if has (dev_flags info) UBLK_F_SUPPORT_ZERO_COPY then Z.lor st UBLKSRV_ZERO_COPY else st in
  let st := if has (dev_flags info) UBLK_F_AUTO_BUF_REG then Z.lor st UBLKSRV_AUTO_ZC else st in
  let st := if has (ublksrv_flags info) UBLKSRV_F_NEED_POLL then Z.lor st UBLKSRV_QUEUE_POLL else st in
  if has (dev_flags info) UBLK_F_BATCH_IO then Z.lor st UBLKSRV_QUEUE_BATCH_IO else st.

Section setup.
Context {R : Type} `{!Uring R} {T : Type}.

(** The queue's memory: the structure, its address, the pointer to the mapped
    descriptors and the descriptor of the ring. *)
Record qalloc := mk_qalloc {
  qa_addr : Z;
  qa_q : queue R T;
  qa_cmd_buf : Z;
  qa_ring_fd : Z
}.
Definition with_q (f : queue R T -> queue R T) (a : qalloc) : qalloc :=
  mk_qalloc (qa_addr a) (f (qa_q a)) (qa_cmd_buf a) (qa_ring_fd a).

Record setup_env := mk_setup_env {
  se_page : Z;
  se_mmap : option (Z * list ublksrv_io_desc);  (* None: MAP_FAILED *)
  se_memalign : Z -> option Z;                  (* the buffer of an io *)
  se_malloc : Z -> Z;                           (* the private data of an io, 0: NULL *)
  se_ring : Z -> Z * Z -> Z + Z * R;            (* the errno, or descriptor and ring *)
  se_register_files : Z;
  se_register_buffers : Z;
  se_batch : alloc_results;
  se_iowq : Z * Z;                              (* limits the ring had *)
  se_eventfd : Z                                (* descriptor, or minus the errno *)
}.

(** The callbacks used here.  [op_init_queue] gets the queue and returns the
    result with the queue: what it left in [*queue_data_ptr] and the descriptors
    it registered for epoll. *)
Record queue_ops := mk_queue_ops {
  op_alloc_io_buf : option (Z -> Z -> Z);
  op_free_io_buf : bool;
  op_init_queue : option (queue R T -> option (Z * queue R T));
  op_deinit_queue : bool;
  op_handle_event : bool
}.

Variable ops : queue_ops.
Variable info : ublksrv_ctrl_dev_info.
Variable tgt : ublksrv_tgt_info.
Variable env : setup_env.

(** ** Tear-down *)
Fixpoint free_epoll_callbacks (cbs : list epoll_cb_data) (q : queue R T) : queue R T :=
  match cbs with
  | [] => set_epoll_callbacks [] q
  | cb :: cbs => free_epoll_callbacks cbs (log_ev (EvFree (ecb_addr cb)) q)
  end.

Fixpoint free_ios (n : nat) (i : Z) (q : queue R T) : option (queue R T) :=
  match n with
  | O => Some q
  | S n =>
      io ← get_io q i;
      let q := if negb (buf_addr io =? 0)
               then put_io i (set_buf_addr 0 io)
                      (log_ev (if op_free_io_buf ops then EvFreeIoBuf (buf_addr io) i else EvFree (buf_addr io)) q)
               else q in
      free_ios n (i + 1) (log_ev (EvFree (io_private io)) q)
  end.

Definition log_if (c : bool) (e : qevent) (q : queue R T) : queue R T := if c then log_ev e q else q.

Definition ublksrv_queue_deinit (a : qalloc) : option qalloc :=
  let q := qa_q a in
  let nr_ios := s32 (u32 (extra_ios tgt + q_depth q)) in
  let q := log_if (op_deinit_queue ops) EvDeinitQueue q in
  let q := log_if (0 <=? epollfd q) (EvClose (epollfd q)) q in
  let q := free_epoll_callbacks (epoll_callbacks q) q in
  let q := log_if (0 <=? efd q) (EvClose (efd q)) q in
  q ← (if ublksrv_queue_batch_io q then ublksrv_batch_free_bufs q else Some q);
  let q := log_ev (EvUnregister 1) (log_ev (EvUnregister 0) q) in
  let '(fd, q) := if 0 <? qa_ring_fd a
                  then (-1, log_ev (EvClose (qa_ring_fd a)) (log_ev (EvUnregister 2) q))
                  else (qa_ring_fd a, q) in
  let '(buf, q) := if negb (qa_cmd_buf a =? 0)
                   then (0, log_ev (EvMunmap (qa_cmd_buf a) (ublksrv_queue_cmd_buf_sz (se_page env) (q_depth q))) q)
                   else (qa_cmd_buf a, q) in
  q ← free_ios (Z.to_nat nr_ios) 0 q;
  Some (mk_qalloc (qa_addr a) (log_ev (EvFree (qa_addr a)) q) buf fd).

(** ** Set-up *)

(** One round of the loop over the ios; [inl] is the jump to [fail]. *)
Definition init_io (i : Z) (q : queue R T) : option (queue R T + queue R T) :=
  io ← get_io q i;
  let io := set_buf_addr 0 io in
  let finish io := Some (inr (put_io i
    (mk_ublk_io (buf_addr io) (Z.lor UBLKSRV_NEED_FETCH_RQ UBLKSRV_IO_FREE) (io_result io) i
       (if i <? q_depth q then Some i else None) (se_malloc env i)) q)) in
  if (q_depth q <=? i) || negb (ublksrv_queue_alloc_buf q) then finish io
  else
    let buf := match op_alloc_io_buf ops with
               | Some alloc => Some (alloc i (s32 (max_io_buf_bytes info)))
               | None => se_memalign env i
               end in
    match buf with
    | None => Some (inl (put_io i io q))
    | Some b => if b =? 0 then Some (inl (put_io i io q)) else finish (set_buf_addr b io)
    end.

Fixpoint init_ios (n : nat) (i : Z) (q : queue R T) : option (queue R T + queue R T) :=
  match n with
  | O => Some (inr q)
  | S n =>
      r ← init_io i q;
      match r with
      | inl q => Some (inl q)
      | inr q => init_ios n (i + 1) q
      end
  end.

Definition ublksrv_setup_eventfd (q : queue R T) : Z * queue R T :=
  if negb (has (ublksrv_flags info) UBLKSRV_F_NEED_EVENTFD) then (0, set_efd (-1) q)
  else if tgt_ring_depth tgt =? 0 then (- EINVAL, q)
  else if negb (op_handle_event ops) then (- EINVAL, q)
  else if se_eventfd env <? 0 then (se_eventfd env, set_efd (-1) q)
  else (0, set_efd (se_eventfd env) q).

(** [dev->tgt.iowq_max_workers] afterwards. *)
Definition ublksrv_queue_adjust_uring_io_wq_workers : Z * Z :=
  let '(b, u) := iowq_max_workers tgt in
  if (b =? 0) && (u =? 0) then (b, u)
  else (if b =? 0 then (se_iowq env).1 else b, if u =? 0 then (se_iowq env).2 else u).

(** The assignments before the first system call. *)
Definition init_fields (g : queue R T) (id : Z) : queue R T :=
  mk_queue id (queue_depth info) [] 0 0 (initial_state info) (-1) [] (efd g) (ring g) (nr_ctxs g) (ctxs g) (batch g)
    (ios g) (private_data g) (trace g).

(** Everything up to the event descriptor; [inl] is the jump to [fail]. *)
Definition init_steps (g : qalloc) (id flags ring_depth cq_depth nr_ios : Z) (queue_data : T)
    : option (qalloc + qalloc) :=
  let a := mk_qalloc (qa_addr g) (init_fields (qa_q g) id) 0 (qa_ring_fd g) in
  match se_mmap env with
  | None => Some (inl (mk_qalloc (qa_addr a) (qa_q a) MAP_FAILED (qa_ring_fd a)))
  | Some (addr, descs) =>
      let a := mk_qalloc (qa_addr a) (set_io_cmd_buf descs (qa_q a)) addr (qa_ring_fd a) in
      r ← init_ios (Z.to_nat nr_ios) 0 (qa_q a);
      match r with
      | inl q => Some (inl (with_q (fun _ => q) a))
      | inr q =>
          let a := with_q (fun _ => q) a in
          match se_ring env ring_depth (ublksrv_setup_ring_params cq_depth flags) with
          | inl _ => Some (inl a)
          | inr (fd, r) =>
              let a := mk_qalloc (qa_addr a) (set_ring r (qa_q a)) (qa_cmd_buf a) fd in
              if negb (se_register_files env =? 0) then Some (inl a)
              else if has (dev_flags info) (Z.lor UBLK_F_SUPPORT_ZERO_COPY UBLK_F_AUTO_BUF_REG) &&
                      negb (se_register_buffers env =? 0) then Some (inl a)
              else
                '(ret, q) ← (if ublksrv_queue_batch_io (qa_q a)
                              then ublksrv_batch_alloc_bufs (se_page env) (se_batch env) (qa_q a)
                              else Some (0, qa_q a));
                if negb (ret =? 0) then Some (inl (with_q (fun _ => q) a))
                else
                  let q := set_private_data queue_data q in
                  match op_init_queue ops with
                  | None => Some (inr (with_q (fun _ => q) a))
                  | Some f =>
                      '(ret, q) ← f q;
                      let a := with_q (fun _ => q) a in
                      Some (if ret =? 0 then inr a else inl a)
                  end
          end
      end
  end.

Inductive init_result :=
| InitRefused              (* too many extra ios: nothing was allocated *)
| InitFailed (a : qalloc)  (* the queue's memory after the clean-up *)
| InitOk (a : qalloc).

Definition fail (a : qalloc) : option init_result := a ← ublksrv_queue_deinit a; Some (InitFailed a).

Definition ublksrv_queue_init_flags (g : qalloc) (dev_cq_depth id : Z) (queue_data : T) (flags : Z)
    : option init_result :=
  let '(ring_depth, cq_depth, nr_ios) := ublksrv_calculate_depths info tgt dev_cq_depth in
  if queue_depth info * 3 <? nr_ios then Some InitRefused
  else if MAX_NR_HW_QUEUES <=? id then None
  else
    r ← init_steps g id flags ring_depth cq_depth nr_ios queue_data;
    match r with
    | inl a => fail a
    | inr a =>
        let '(ret, q) := ublksrv_setup_eventfd (qa_q a) in
        let a := with_q (fun _ => q) a in
        if ret <? 0 then fail a
        else q ← ublksrv_submit_fetch_commands (qa_q a); Some (InitOk (with_q (fun _ => q) a))
    end.

Definition ublksrv_queue_init (g : qalloc) (dev_cq_depth id : Z) (queue_data : T) : option init_result :=
  ublksrv_queue_init_flags g dev_cq_depth id queue_data IORING_SETUP_COOP_TASKRUN.
End setup.
#[global] Arguments qalloc R T : clear implicits.
#[global] Arguments setup_env R : clear implicits.
#[global] Arguments queue_ops R T : clear implicits.
#[global] Arguments init_result R T : clear implicits.

(** ** What is handed out *)
Section setup_laws.
Context {R : Type} `{!Uring R, !UringLaws R} {T : Type}.
Implicit Types q : queue R T.

(** The fields that decide what [ublksrv_queue_deinit] releases. *)
Definition holds (q : queue R T) :=
  (map (fun io => (buf_addr io, io_private io)) (ios q), efd q, epollfd q, epoll_callbacks q, q_depth q,
   ublksrv_queue_batch_io q).

Lemma holds_ios q q' :
  map (fun io => (buf_addr io, io_private io)) (ios q') = map (fun io => (buf_addr io, io_private io)) (ios q) ->
  efd q' = efd q -> epollfd q' = epollfd q -> epoll_callbacks q' = epoll_callbacks q -> q_depth q' = q_depth q ->
  state q' = state q -> holds q' = holds q.
Proof. unfold holds, ublksrv_queue_batch_io. by intros -> -> -> -> -> ->. Qed.

Lemma map_insert_same {A B} (f : A -> B) (l : list A) i x y :
  l !! i = Some x -> f y = f x -> map f (<[i := y]> l) = map f l.
Proof.
  intros Hi Hf. change (f <$> <[i := y]> l = f <$> l). rewrite list_fmap_insert, Hf.
  apply list_insert_id. rewrite list_lookup_fmap, Hi. done.
Qed.

Lemma queue_io_cmd_holds tag q ret q' : ublksrv_queue_io_cmd tag q = Some (ret, q') -> holds q' = holds q.
Proof.
  unfold ublksrv_queue_io_cmd. destruct (get_io q tag) as [io|] eqn:Hio; [|done]. cbn [mbind option_bind].
  case_bool; [by intros [= <- <-]|]. case_bool; [by intros [= <- <-]|].
  destruct (io_cmd_sqe q io tag) as [s|]; [|done]. cbn [mbind option_bind].
  destruct (ublksrv_alloc_sqe s (ring q)) as [ok r]. case_bool; intros [= <- <-]; [done|].
  apply holds_ios; try done. qs. unfold get_io in Hio. destruct (0 <=? tag); [|done].
  by eapply map_insert_same.
Qed.

Lemma fetch_loop_holds n i q q' : fetch_loop n i q = Some q' -> holds q' = holds q.
Proof.
  revert i q. induction n as [|n IH]; intros i q; cbn [fetch_loop]; [by intros [= <-]|].
  destruct (ublksrv_queue_io_cmd i q) as [[ret q1]|] eqn:H; [|done]. cbn [mbind option_bind].
  intros Hn. rewrite (IH _ _ Hn). by eapply queue_io_cmd_holds.
Qed.

Lemma queue_event_holds q ret q' : __ublksrv_queue_event q = Some (ret, q') -> holds q' = holds q.
Proof.
  unfold __ublksrv_queue_event. case_bool; [|by intros [= <- <-]].
  destruct (build_internal_data _) as [ud|]; [|done]. cbn [mbind option_bind].
  case_bool; [by intros [= <- <-]|]. case_match; by intros [= <- <-].
Qed.

Lemma submit_fetch_holds q q' :
  ublksrv_queue_batch_io q = false -> ublksrv_submit_fetch_commands q = Some q' -> holds q' = holds q.
Proof.
  intros Hb. unfold ublksrv_submit_fetch_commands. rewrite Hb.
  destruct (fetch_loop _ 0 q) as [q1|] eqn:H1; [|done]. cbn [mbind option_bind].
  destruct (__ublksrv_queue_event q1) as [[ret q2]|] eqn:H2; [|done]. cbn. intros [= <-].
  rewrite (queue_event_holds _ _ _ H2). by eapply fetch_loop_holds.
Qed.

(** The number of queued contexts plays no part in sending commands: the queue
    starts with whatever was in its memory. *)
Lemma queue_io_cmd_ctxs k tag q :
  ublksrv_queue_io_cmd tag (set_nr_ctxs k q) = (fun '(r, q') => (r, set_nr_ctxs k q')) <$> ublksrv_queue_io_cmd tag q.
Proof.
  unfold ublksrv_queue_io_cmd. change (get_io (set_nr_ctxs k q) tag) with (get_io q tag).
  destruct (get_io q tag) as [io|]; [|done]. cbn [mbind option_bind]. case_bool; [done|]. case_bool; [done|].
  change (io_cmd_sqe (set_nr_ctxs k q) io tag) with (io_cmd_sqe q io tag).
  destruct (io_cmd_sqe q io tag) as [s|]; [|done]. cbn [mbind option_bind]. qsimpl.
  destruct (ublksrv_alloc_sqe s (ring q)) as [ok r]. by case_bool.
Qed.

Lemma fetch_loop_ctxs k n i q : fetch_loop n i (set_nr_ctxs k q) = set_nr_ctxs k <$> fetch_loop n i q.
Proof.
  revert i q. induction n as [|n IH]; intros i q; cbn [fetch_loop]; [done|].
  rewrite queue_io_cmd_ctxs. destruct (ublksrv_queue_io_cmd i q) as [[ret q1]|]; [|done].
  cbn [mbind option_bind fmap option_fmap option_map]. apply IH.
Qed.

Lemma submit_fetch_ctxs k q :
  ublksrv_queue_batch_io q = false ->
  ublksrv_submit_fetch_commands (set_nr_ctxs k q) = set_nr_ctxs k <$> ublksrv_submit_fetch_commands q.
Proof.
  intros Hb. unfold ublksrv_submit_fetch_commands.
  change (ublksrv_queue_batch_io (set_nr_ctxs k q)) with (ublksrv_queue_batch_io q). rewrite Hb, fetch_loop_ctxs.
  qsimpl. destruct (fetch_loop _ 0 q) as [q1|]; [|done]. cbn [mbind option_bind fmap option_fmap option_map].
  unfold __ublksrv_queue_event. qsimpl. change (stopping (set_nr_ctxs k q1)) with (stopping q1).
  case_bool; [|done]. destruct (build_internal_data _) as [ud|]; [|done]. cbn [mbind option_bind].
  case_bool; [done|]. by case_match.
Qed.

(** ** Tear-down *)
Section teardown.
Variable ops : queue_ops R T.
Variable env : setup_env R.
Variable tgt : ublksrv_tgt_info.

Definition free_events (i : nat) (bp : Z * Z) : list qevent :=
  (if bp.1 =? 0 then [] else [if op_free_io_buf ops then EvFreeIoBuf bp.1 (Z.of_nat i) else EvFree bp.1]) ++
  [EvFree bp.2].

Lemma free_ios_trace n i q :
  (i + n <= length (ios q))%nat ->
  exists q', free_ios ops n (Z.of_nat i) q = Some q' /\
    trace q' = trace q ++
      concat (imap (fun k => free_events (i + k))
        (take n (drop i (map (fun io => (buf_addr io, io_private io)) (ios q))))).
Proof.
  revert i q. induction n as [|n IH]; intros i q Hlen; cbn [free_ios].
  { exists q. by rewrite take_0, app_nil_r. }
  destruct (lookup_lt_is_Some_2 (ios q) i) as [io Hio]; [lia|]. rewrite get_io_nat, Hio. cbn [mbind option_bind].
  set (q1 := if negb (buf_addr io =? 0) then _ else q).
  assert (Hq1 : length (ios q1) = length (ios q) /\ drop (S i) (ios q1) = drop (S i) (ios q) /\
    trace q1 = trace q ++ (if buf_addr io =? 0 then [] else
      [if op_free_io_buf ops then EvFreeIoBuf (buf_addr io) (Z.of_nat i) else EvFree (buf_addr io)])).
  { subst q1. destruct (buf_addr io =? 0); cbn [negb]; [by rewrite app_nil_r|]. qs. rewrite Nat2Z.id, length_insert.
    split; [done|]. split; [|done]. apply drop_insert_lt. lia. }
  destruct Hq1 as (Hl1&Hd1&Ht1).
  replace (Z.of_nat i + 1) with (Z.of_nat (S i)) by lia.
  destruct (IH (S i) (log_ev (EvFree (io_private io)) q1)) as (q'&->&Htr); [qs; lia|].
  exists q'. split; [done|]. rewrite Htr. qs. rewrite Ht1, <- !app_assoc. f_equal.
  assert (Hdrop : drop i (map (fun io => (buf_addr io, io_private io)) (ios q)) =
    (buf_addr io, io_private io) :: drop (S i) (map (fun io => (buf_addr io, io_private io)) (ios q))).
  { erewrite <- drop_S; [done|]. change (((fun io => (buf_addr io, io_private io)) <$> ios q) !! i =
      Some (buf_addr io, io_private io)). by rewrite list_lookup_fmap, Hio. }
  rewrite Hdrop. cbn [take imap concat]. rewrite Nat.add_0_r.
  change (free_events i (buf_addr io, io_private io)) with ((if buf_addr io =? 0 then [] else
    [if op_free_io_buf ops then EvFreeIoBuf (buf_addr io) (Z.of_nat i) else EvFree (buf_addr io)]) ++
    [EvFree (io_private io)]). rewrite <- app_assoc. do 2 apply (f_equal (app _)).
  assert (Hmap : forall l l' : list ublk_io, drop (S i) l = drop (S i) l' ->
    drop (S i) (map (fun io => (buf_addr io, io_private io)) l) =
    drop (S i) (map (fun io => (buf_addr io, io_private io)) l')).
  { intros l l' Hl. rewrite !skipn_map. by rewrite Hl. }
  rewrite (Hmap _ _ Hd1). apply f_equal, imap_ext. intros k x _. cbn. f_equal. lia.
Qed.

(** What the clean-up of a queue without batch buffers releases: [bufs] are the
    buffers and private data of its ios. *)
Definition epoll_releases (q : queue R T) : list qevent :=
  (if 0 <=? epollfd q then [EvClose (epollfd q)] else []) ++ map (fun cb => EvFree (ecb_addr cb)) (epoll_callbacks q).

Definition releases (a : qalloc R T) (bufs : list (Z * Z)) : list qevent :=
  (if op_deinit_queue ops then [EvDeinitQueue] else []) ++
  epoll_releases (qa_q a) ++
  (if 0 <=? efd (qa_q a) then [EvClose (efd (qa_q a))] else []) ++
  [EvUnregister 0; EvUnregister 1] ++
  (if 0 <? qa_ring_fd a then [EvUnregister 2; EvClose (qa_ring_fd a)] else []) ++
  (if qa_cmd_buf a =? 0 then []
   else [EvMunmap (qa_cmd_buf a) (ublksrv_queue_cmd_buf_sz (se_page env) (q_depth (qa_q a)))]) ++
  concat (imap free_events bufs) ++ [EvFree (qa_addr a)].

Lemma free_epoll_callbacks_trace cbs q :
  let q' := free_epoll_callbacks cbs q in
  trace q' = trace q ++ map (fun cb => EvFree (ecb_addr cb)) cbs /\ ios q' = ios q /\ efd q' = efd q /\ state q' = state q /\
  q_depth q' = q_depth q.
Proof.
  revert q. induction cbs as [|cb cbs IH]; intros q; cbn [free_epoll_callbacks map]; [by rewrite app_nil_r|].
  destruct (IH (log_ev (EvFree (ecb_addr cb)) q)) as (Ht&Hi&He&Hs&Hd). cbn zeta. rewrite Ht, Hi, He, Hs, Hd. qs.
  by rewrite <- app_assoc.
Qed.

Lemma deinit_trace (a : qalloc R T) bufs :
  holds (qa_q a) = (bufs, efd (qa_q a), epollfd (qa_q a), epoll_callbacks (qa_q a), q_depth (qa_q a), false) ->
  Z.of_nat (length bufs) = extra_ios tgt + q_depth (qa_q a) -> Z.of_nat (length bufs) < 2^31 ->
  exists a', ublksrv_queue_deinit ops tgt env a = Some a' /\
    trace (qa_q a') = trace (qa_q a) ++ releases a bufs.
Proof.
  intros [= Hb Hbatch] Hlen Hlt. set (q := qa_q a) in *.
  assert (Hli : length (ios q) = length bufs) by (by rewrite <- Hb, length_map).
  unfold ublksrv_queue_deinit. fold q.
  assert (Hlog : forall c e q0, trace (log_if c e q0) = trace q0 ++ (if c then [e] else []) /\ ios (log_if c e q0) = ios q0 /\
    efd (log_if c e q0) = efd q0 /\ epollfd (log_if c e q0) = epollfd q0 /\ epoll_callbacks (log_if c e q0) = epoll_callbacks q0
    /\ state (log_if c e q0) = state q0 /\ q_depth (log_if c e q0) = q_depth q0).
  { intros [|] e q0; cbn; [done|by rewrite app_nil_r]. }
  destruct (Hlog (op_deinit_queue ops) EvDeinitQueue q) as (T1&I1&F1&P1&C1&S1&D1).
  set (q1 := log_if _ _ q) in *. destruct (Hlog (0 <=? epollfd q1) (EvClose (epollfd q1)) q1) as (T1'&I1'&F1'&P1'&C1'&S1'&D1').
  set (q1' := log_if _ _ q1) in *. destruct (free_epoll_callbacks_trace (epoll_callbacks q1') q1') as (T2&I2&F2&S2&D2).
  set (q2 := free_epoll_callbacks _ q1') in *. rewrite C1', C1 in T2. rewrite P1 in T1'.
  destruct (Hlog (0 <=? efd q2) (EvClose (efd q2)) q2) as (T3&I3&F3&P3&C3&S3&D3). set (q3 := log_if _ _ q2) in *.
  assert (Hb3 : ublksrv_queue_batch_io q3 = false).
  { unfold ublksrv_queue_batch_io. by rewrite S3, S2, S1', S1. }
  rewrite Hb3. cbn [mbind option_bind].
  set (q4 := log_ev (EvUnregister 1) (log_ev (EvUnregister 0) q3)).
  destruct (0 <? qa_ring_fd a) eqn:Hfd; destruct (qa_cmd_buf a =? 0) eqn:Hcb; cbn [negb];
    (match goal with |- context [free_ios ops ?n 0 ?q5] =>
       destruct (free_ios_trace n 0 q5) as (q6&Hq6&Htr6);
         [subst q4; qs; rewrite I3, I2, I1', I1;
          rewrite u32_id, s32_id by (unfold is_u32, is_s32; lia); lia|] end);
    change (Z.of_nat 0) with 0 in Hq6; rewrite Hq6; cbn [mbind option_bind]; (eexists; split; [reflexivity|]);
    cbn [qa_q]; qs; rewrite Htr6; subst q4; qs; rewrite T3, T2, T1', T1; rewrite I3, I2, I1', I1; qs;
    (replace (Z.to_nat (s32 (u32 (extra_ios tgt + q_depth q)))) with (length bufs)
       by (rewrite u32_id, s32_id by (unfold is_u32, is_s32; lia); lia));
    rewrite drop_0, take_ge by (rewrite length_map; lia); rewrite Hb; rewrite F2, F1', F1;
    (erewrite (imap_ext (fun k => free_events (0 + k)) free_events bufs) by done);
    unfold releases, epoll_releases; fold q; rewrite Hfd, Hcb, ?D3, ?D2, ?D1', ?D1; qs; by rewrite <- !app_assoc.
Qed.
End teardown.
End setup_laws.

(** ** Set-up *)
Lemma initial_state_bits info :
  has (initial_state info) UBLKSRV_QUEUE_STOPPING = false /\
  has (initial_state info) UBLKSRV_QUEUE_BATCH_IO = has (dev_flags info) UBLK_F_BATCH_IO /\
  has (initial_state info) UBLKSRV_ZERO_COPY = has (dev_flags info) UBLK_F_SUPPORT_ZERO_COPY /\
  has (initial_state info) UBLKSRV_AUTO_ZC = has (dev_flags info) UBLK_F_AUTO_BUF_REG /\
  has (initial_state info) UBLKSRV_USER_COPY = has (dev_flags info) UBLK_F_USER_COPY.
Proof.
  unfold initial_state.
  destruct (has (dev_flags info) UBLK_F_CMD_IOCTL_ENCODE), (has (dev_flags info) UBLK_F_USER_COPY),
    (has (dev_flags info) UBLK_F_SUPPORT_ZERO_COPY), (has (dev_flags info) UBLK_F_AUTO_BUF_REG),
    (has (ublksrv_flags info) UBLKSRV_F_NEED_POLL), (has (dev_flags info) UBLK_F_BATCH_IO); done.
Qed.

Section init.
Context {R : Type} `{!Uring R, !UringLaws R} {T : Type}.
Variable ops : queue_ops R T.
Variable info : ublksrv_ctrl_dev_info.
Variable tgt : ublksrv_tgt_info.
Variable env : setup_env R.
Implicit Types q : queue R T.

(** The buffer of io [i] of a queue. *)
Definition io_buf (i : Z) : Z :=
  if (queue_depth info <=? i) || has (dev_flags info) UBLK_F_SUPPORT_ZERO_COPY then 0
  else match op_alloc_io_buf ops with
       | Some alloc => alloc i (s32 (max_io_buf_bytes info))
       | None => default 0 (se_memalign env i)
       end.

(** The io [i] once it is set up; the result field keeps what it held. *)
Definition built_io (i : Z) (io : ublk_io) : ublk_io :=
  mk_ublk_io (io_buf i) (Z.lor UBLKSRV_NEED_FETCH_RQ UBLKSRV_IO_FREE) (io_result io) i
    (if i <? queue_depth info then Some i else None) (se_malloc env i).

(** Every buffer that is needed can be allocated. *)
Definition bufs_ok : Prop :=
  forall i, 0 <= i < queue_depth info -> has (dev_flags info) UBLK_F_SUPPORT_ZERO_COPY = false -> io_buf i <> 0.

Lemma init_io_ok i q io :
  bufs_ok -> q_depth q = queue_depth info -> state q = initial_state info -> ios q !! i = Some io ->
  init_io ops info env (Z.of_nat i) q = Some (inr (put_io (Z.of_nat i) (built_io (Z.of_nat i) io) q)).
Proof.
  intros Hbufs Hd Hst Hio. unfold init_io. rewrite get_io_nat, Hio. cbn [mbind option_bind].
  assert (Ha : negb (ublksrv_queue_alloc_buf q) = has (dev_flags info) UBLK_F_SUPPORT_ZERO_COPY).
  { unfold ublksrv_queue_alloc_buf. rewrite negb_involutive, Hst. apply initial_state_bits. }
  rewrite Ha, Hd. unfold built_io, io_buf. specialize (Hbufs (Z.of_nat i)). unfold io_buf in Hbufs.
  destruct (Z.leb_spec (queue_depth info) (Z.of_nat i)); cbn [orb] in *; [done|].
  destruct (has (dev_flags info) UBLK_F_SUPPORT_ZERO_COPY); [done|].
  specialize (Hbufs ltac:(lia) eq_refl).
  destruct (op_alloc_io_buf ops) as [alloc|]; [|destruct (se_memalign env (Z.of_nat i)) as [b|]; cbn in Hbufs |- *; [|done]];
    by rewrite (proj2 (Z.eqb_neq _ 0)).
Qed.

Lemma init_ios_ok n i q :
  bufs_ok -> q_depth q = queue_depth info -> state q = initial_state info -> (i + n <= length (ios q))%nat ->
  exists l, init_ios ops info env n (Z.of_nat i) q = Some (inr (set_ios l q)) /\ length l = length (ios q) /\
    forall j, l !! j = (if decide (i <= j < i + n)%nat then built_io (Z.of_nat j) <$> ios q !! j else ios q !! j).
Proof.
  intros Hbufs. revert i q. induction n as [|n IH]; intros i q Hd Hst Hlen; cbn [init_ios].
  { exists (ios q). split; [by destruct q|]. split; [done|]. intros j. by rewrite decide_False by lia. }
  destruct (lookup_lt_is_Some_2 (ios q) i) as [io Hio]; [lia|].
  rewrite (init_io_ok i q io) by done. cbn [mbind option_bind].
  replace (Z.of_nat i + 1) with (Z.of_nat (S i)) by lia.
  destruct (IH (S i) (put_io (Z.of_nat i) (built_io (Z.of_nat i) io) q)) as (l&->&Hl&Hlk);
    [done|done|qs; rewrite length_insert; lia|].
  exists l. split; [done|]. revert Hl Hlk. qs. rewrite Nat2Z.id, length_insert. intros Hl Hlk. split; [done|].
  intros j. rewrite Hlk. destruct (decide (j = i)) as [->|Hne].
  - rewrite decide_False, decide_True by lia. rewrite list_lookup_insert_eq by lia. by rewrite Hio.
  - rewrite list_lookup_insert_ne by done. repeat case_decide; done || lia.
Qed.

(** The outcome of every step is a success: [addr] and [descs] are the mapped
    descriptors, [fd] and [r] the ring. *)
Record env_ok (ring_depth cq_depth flags addr : Z) (descs : list ublksrv_io_desc) (fd : Z) (r : R) : Prop := {
  eo_mmap : se_mmap env = Some (addr, descs);
  eo_addr : addr <> 0;
  eo_descs : queue_depth info <= Z.of_nat (length descs);
  eo_bufs : bufs_ok;
  eo_ring : se_ring env ring_depth (ublksrv_setup_ring_params cq_depth flags) = inr (fd, r);
  eo_fd : 0 < fd;
  eo_log : io_commands (ring_log r) = [];
  eo_entries : 1 <= sq_entries r;
  eo_files : se_register_files env = 0;
  eo_buffers : se_register_buffers env = 0;
  eo_event : has (ublksrv_flags info) UBLKSRV_F_NEED_EVENTFD = true ->
    tgt_ring_depth tgt <> 0 /\ op_handle_event ops = true /\ 0 <= se_eventfd env
}.

(** Memory of the right size for a queue of [nr_ios] ios. *)
Definition shaped (g : queue R T) (nr_ios : Z) : Prop :=
  Z.of_nat (length (ios g)) = nr_ios /\ length (ctxs g) = Z.to_nat UBLKSRV_NR_CTX_BATCH.

(** What a target's [init_queue] may do: it leaves its data, registers
    descriptors for epoll and queues entries that are no commands. *)
Definition init_effect (q q' : queue R T) : Prop :=
  exists r e cbs d t,
    q' = set_trace (trace q ++ t) (set_private_data d (set_epoll_callbacks cbs (set_epollfd e (set_ring r q)))) /\
    sq_entries r = sq_entries (ring q) /\ io_commands (ring_log r) = io_commands (ring_log (ring q)).

(** Registering a descriptor has no other effect, whether it succeeds or not. *)
Lemma epoll_add_effect epoll_ctl depth new_epollfd errno node fd events cb q :
  exists ret q', ublksrv_epoll_add_fd epoll_ctl depth new_epollfd errno node fd events cb q = Some (ret, q') /\ init_effect q q'.
Proof.
  assert (Hsame : forall e r, sq_entries r = sq_entries (ring q) -> io_commands (ring_log r) = io_commands (ring_log (ring q)) ->
    init_effect q (set_ring r (set_epollfd e q)) /\
    forall cbs t, init_effect q (set_trace (trace q ++ t) (set_epoll_callbacks cbs (set_ring r (set_epollfd e q))))).
  { intros e r He Hl. split; [exists r, e, (epoll_callbacks q), (private_data q), []; rewrite app_nil_r|
      intros cbs t; exists r, e, cbs, (private_data q), t]; by destruct q. }
  assert (Hstep : exists ret0 e r, (if epollfd q =? -1 then ublksrv_setup_epollfd depth new_epollfd errno q else Some (0, q)) =
    Some (ret0, set_ring r (set_epollfd e q)) /\ sq_entries r = sq_entries (ring q) /\
    io_commands (ring_log r) = io_commands (ring_log (ring q))).
  { assert (Hq : q = set_ring (ring q) (set_epollfd (epollfd q) q)) by (by destruct q).
    destruct (epollfd q =? -1); [|exists 0, (epollfd q), (ring q); by rewrite <- Hq].
    unfold ublksrv_setup_epollfd. destruct (depth =? 0); [exists (- EINVAL), (epollfd q), (ring q); by rewrite <- Hq|].
    destruct (new_epollfd <? 0); [exists (- errno), new_epollfd, (ring q); by destruct q|].
    unfold ublksrv_prep_epoll_sqe. rewrite (proj2 internal_ops_fit). cbn [mbind option_bind]. qsimpl.
    destruct (ublksrv_alloc_sqe _ (ring q)) as [ok r] eqn:Ha. apply alloc_sqe_spec in Ha as [Hl He].
    eexists _, new_epollfd, r. split; [done|]. split; [done|]. rewrite Hl, io_commands_app. destruct ok; by rewrite app_nil_r. }
  destruct Hstep as (ret0&e&r&Hstep&He&Hl). unfold ublksrv_epoll_add_fd. rewrite Hstep. cbn [mbind option_bind].
  destruct (Hsame e r He Hl) as [H1 H2]. destruct (ret0 <? 0); [by eexists _, _|]. destruct node as [a|]; [|by eexists _, _].
  eexists _, _. split; [done|]. exact (H2 _ [_]).
Qed.

Lemma epoll_add_data epoll_ctl depth new_epollfd errno node fd events cb q ret q' :
  ublksrv_epoll_add_fd epoll_ctl depth new_epollfd errno node fd events cb q = Some (ret, q') -> private_data q' = private_data q.
Proof.
  unfold ublksrv_epoll_add_fd.
  destruct (if epollfd q =? -1 then _ else _) as [[ret0 q1]|] eqn:H1; [|done]. cbn [mbind option_bind].
  assert (Hq1 : private_data q1 = private_data q).
  { revert H1. unfold ublksrv_setup_epollfd, ublksrv_prep_epoll_sqe. rewrite (proj2 internal_ops_fit). cbn [mbind option_bind].
    case_bool; [|by intros [= _ <-]]. case_bool; [by intros [= _ <-]|]. case_bool; [by intros [= _ <-]|].
    destruct (ublksrv_alloc_sqe _ _). by intros [= _ <-]. }
  case_bool; [by intros [= _ <-]|]. destruct node; by intros [= _ <-].
Qed.

Definition inits (q q' : queue R T) : Prop :=
  match op_init_queue ops with Some f => f q = Some (0, q') /\ init_effect q q' | None => q' = q end.

Definition init_data (queue_data : T) (q : queue R T) : T :=
  match op_init_queue ops with
  | Some f => match f q with Some (_, q') => private_data q' | None => queue_data end
  | None => queue_data
  end.

(** The queue as it is handed to [ublksrv_submit_fetch_commands]. *)
Record built (id addr : Z) (descs : list ublksrv_io_desc) (r : R) (g q : queue R T) : Prop := {
  bt_id : q_id q = id;
  bt_depth : q_depth q = queue_depth info;
  bt_descs : io_cmd_buf q = descs;
  bt_inflight : cmd_inflight q = 0;
  bt_state : state q = initial_state info;
  bt_efd : efd q = (if has (ublksrv_flags info) UBLKSRV_F_NEED_EVENTFD then se_eventfd env else -1);
  bt_ring : sq_entries (ring q) = sq_entries r;
  bt_log : io_commands (ring_log (ring q)) = io_commands (ring_log r);
  bt_ctxs : ctxs q = ctxs g;
  bt_len : length (ios q) = length (ios g);
  bt_ios : forall j, ios q !! j = built_io (Z.of_nat j) <$> ios g !! j
}.

Lemma init_steps_ok (g : qalloc R T) id flags ring_depth cq_depth nr_ios data addr descs fd r :
  env_ok ring_depth cq_depth flags addr descs fd r ->
  has (dev_flags info) UBLK_F_BATCH_IO = false -> shaped (qa_q g) nr_ios ->
  (forall q, exists q', inits q q') ->
  exists l q', length l = length (ios (qa_q g)) /\ (forall j, l !! j = built_io (Z.of_nat j) <$> ios (qa_q g) !! j) /\
    let q := set_private_data data (set_ring r (set_ios l (set_io_cmd_buf descs (init_fields info (qa_q g) id)))) in
    init_steps ops info env g id flags ring_depth cq_depth nr_ios data =
      Some (inr (mk_qalloc (qa_addr g) q' addr fd)) /\ inits q q'.
Proof.
  intros [] Hbatch [Hlen _] Hinit. unfold init_steps. rewrite eo_mmap0. cbn [qa_addr qa_q qa_ring_fd].
  set (q0 := set_io_cmd_buf descs (init_fields info (qa_q g) id)).
  destruct (init_ios_ok (Z.to_nat nr_ios) 0 q0) as (l&Hl&Hll&Hlk); [done|done|done|cbn; lia|].
  change (Z.of_nat 0) with 0 in Hl. rewrite Hl. cbn [mbind option_bind]. rewrite eo_ring0.
  destruct (Hinit (set_private_data data (set_ring r (set_ios l q0)))) as [q' Hq'].
  exists l, q'. split; [done|]. split.
  { intros j. rewrite Hlk. change (ios q0) with (ios (qa_q g)). case_decide; [done|].
    rewrite lookup_ge_None_2 by lia. done. }
  rewrite eo_files0, eo_buffers0. cbn [negb Z.eqb]. rewrite andb_false_r.
  unfold with_q. cbn [qa_addr qa_q qa_cmd_buf qa_ring_fd].
  assert (ublksrv_queue_batch_io (set_ring r (set_ios l q0)) = false) as ->.
  { unfold ublksrv_queue_batch_io, q0, init_fields. qsimpl. destruct (initial_state_bits info) as (_&->&_). done. }
  cbn [mbind option_bind negb Z.eqb qa_addr qa_q qa_cmd_buf qa_ring_fd]. split; [|done]. unfold inits in Hq'.
  destruct (op_init_queue ops) as [f|]; [|by rewrite Hq']. destruct Hq' as [-> _]. done.
Qed.

(** With all successes the set-up hands the queue over to the fetch commands. *)
Lemma init_built (g : qalloc R T) cq id data flags ring_depth cq_depth addr descs fd r :
  ublksrv_calculate_depths info tgt cq = (ring_depth, cq_depth, queue_depth info + extra_ios tgt) ->
  queue_depth info + extra_ios tgt <= queue_depth info * 3 -> id < MAX_NR_HW_QUEUES ->
  env_ok ring_depth cq_depth flags addr descs fd r ->
  has (dev_flags info) UBLK_F_BATCH_IO = false -> shaped (qa_q g) (queue_depth info + extra_ios tgt) ->
  (forall q, exists q', inits q q') ->
  exists q, built id addr descs r (qa_q g) q /\
    (exists q0, view q = view (set_private_data (init_data data q0) q0) /\
       state q0 = initial_state info /\ q_id q0 = id /\ ring q0 = r /\ private_data q0 = data) /\
    ublksrv_queue_init_flags ops info tgt env g cq id data flags =
      q' ← ublksrv_submit_fetch_commands q; Some (InitOk (mk_qalloc (qa_addr g) q' addr fd)).
Proof.
  intros Hdep H3 Hid Hok Hbatch Hsh Hinit. unfold ublksrv_queue_init_flags. rewrite Hdep.
  rewrite (proj2 (Z.ltb_ge _ _)), (proj2 (Z.leb_gt _ _)) by lia.
  destruct (init_steps_ok g id flags ring_depth cq_depth _ data addr descs fd r Hok Hbatch Hsh Hinit)
    as (l&q1&Hl&Hlk&Hst&Hin). cbn zeta in Hst, Hin. rewrite Hst. cbn [mbind option_bind qa_q].
  set (q0 := set_private_data data _) in *.
  set (efd1 := if has (ublksrv_flags info) UBLKSRV_F_NEED_EVENTFD then se_eventfd env else -1).
  assert (ublksrv_setup_eventfd ops info tgt env q1 = (0, set_efd efd1 q1)) as ->.
  { unfold ublksrv_setup_eventfd, efd1. destruct (has (ublksrv_flags info) UBLKSRV_F_NEED_EVENTFD) eqn:Hev; [|done].
    destruct (eo_event _ _ _ _ _ _ _ Hok Hev) as (Hrd&Hhe&Hefd). cbn [negb].
    rewrite (proj2 (Z.eqb_neq _ 0)), Hhe, (proj2 (Z.ltb_ge _ _)) by done. done. }
  cbn [Z.ltb Z.compare]. unfold with_q. cbn [qa_q qa_addr qa_cmd_buf qa_ring_fd].
  exists (set_efd efd1 q1). split; [|split; [|done]].
  - unfold inits in Hin. destruct (op_init_queue ops) as [f|]; [|by subst q1; split].
    destruct Hin as (_&r1&e&cbs&d&t&->&He&Hlog). by split.
  - exists q0. split; [|done]. unfold inits in Hin. unfold init_data. destruct (op_init_queue ops) as [f|]; [|by subst q1].
    destruct Hin as (->&r1&e&cbs&d&t&->&He&Hlog). unfold view. qsimpl. by rewrite He.
Qed.
End init.

Section setup_theorems.
Context {R : Type} `{!Uring R, !UringLaws R} {T : Type}.
Variable tops : ublksrv_tgt_type R T.
Context `{!TargetLaws tops}.
Variable epoll_wait : queue R T -> list (Z * Z).
Variable epoll_call : Z -> Z -> queue R T -> option (queue R T).
Variable ops : queue_ops R T.
Variable info : ublksrv_ctrl_dev_info.
Variable tgt : ublksrv_tgt_info.
Variable env : setup_env R.
Implicit Types q : queue R T.

(** A configuration in which the set-up can succeed: depth, number of ios and
    queue number are in range, the ring and its files can be had. *)
Record config_ok (g : qalloc R T) (cq id flags addr : Z) (descs : list ublksrv_io_desc) (fd : Z) (r : R) : Prop := {
  co_depth : 0 <= queue_depth info <= UBLK_MAX_QUEUE_DEPTH;
  co_extra : 0 <= extra_ios tgt <= queue_depth info * 2;
  co_id : id < MAX_NR_HW_QUEUES;
  co_batch : has (dev_flags info) UBLK_F_BATCH_IO = false;
  co_shaped : shaped (qa_q g) (queue_depth info + extra_ios tgt);
  co_init : forall q, exists q', inits ops q q';
  co_env : env_ok ops info tgt env (ublksrv_calculate_depths info tgt cq).1.1
             (ublksrv_calculate_depths info tgt cq).1.2 flags addr descs fd r
}.

Lemma depths_eq cq : 0 <= queue_depth info <= UBLK_MAX_QUEUE_DEPTH -> 0 <= extra_ios tgt <= queue_depth info * 2 ->
  ublksrv_calculate_depths info tgt cq =
    ((ublksrv_calculate_depths info tgt cq).1.1, (ublksrv_calculate_depths info tgt cq).1.2,
     queue_depth info + extra_ios tgt).
Proof.
  intros Hd He. unfold ublksrv_calculate_depths. cbn [fst snd]. unfold UBLK_MAX_QUEUE_DEPTH in Hd.
  by rewrite (u32_id (queue_depth info + extra_ios tgt)), (s32_id (queue_depth info + extra_ios tgt))
    by (unfold is_u32, is_s32; lia).
Qed.

Lemma built_fresh id addr descs r g q :
  built ops info env id addr descs r g q -> 0 <= queue_depth info <= UBLK_MAX_QUEUE_DEPTH ->
  queue_depth info <= Z.of_nat (length (ios g)) -> queue_depth info <= Z.of_nat (length descs) ->
  has (dev_flags info) UBLK_F_BATCH_IO = false -> io_commands (ring_log r) = [] -> 1 <= sq_entries r ->
  length (ctxs g) = Z.to_nat UBLKSRV_NR_CTX_BATCH ->
  tinv (TargetLaws := TargetLaws0) (view q) (replicate (Z.to_nat (queue_depth info)) TInit) ->
  fresh_queue tops (set_nr_ctxs 0 q).
Proof.
  intros [] Hd Hlen Hdescs Hb Hlog Hent Hctx Ht. destruct (initial_state_bits info) as (Hs1&Hs2&_).
  split; qsimpl; try (by rewrite ?bt_depth0, ?bt_ring0, ?bt_log0).
  - intros i. rewrite bt_depth0. intros Hi. destruct (lookup_lt_is_Some_2 (ios g) i) as [io Hio]; [lia|].
    eexists. rewrite bt_ios0, Hio. done.
  - intros i io. rewrite bt_ios0. destruct (ios g !! i) as [io0|]; [|done]. intros [= <-]. by rewrite bt_depth0.
  - by rewrite bt_depth0, bt_descs0.
  - unfold stopping. qsimpl. by rewrite bt_state0.
  - unfold ublksrv_queue_batch_io. qsimpl. by rewrite bt_state0, Hs2.
  - split; [done|]. by rewrite bt_ctxs0.
Qed.

(** Setting a queue up establishes the initial state of the queue system.
    When the system calls succeed and the target accepts the queue,
    [ublksrv_queue_init_flags] returns a queue, whatever its memory held
    before; after the reset with which its first iteration begins, the queue is
    in a reachable state of the transition system, with exactly the commands it
    has sent at the driver, so everything shown of reachable states holds of
    it. *)
Theorem queue_init_reachable g cq id flags data addr descs fd r :
  config_ok g cq id flags addr descs fd r ->
  (forall q, state q = initial_state info -> q_id q = id -> ring q = r -> private_data q = data ->
     tinv (TargetLaws := TargetLaws0) (view (set_private_data (init_data ops data q) q))
       (replicate (Z.to_nat (queue_depth info)) TInit)) ->
  exists a, ublksrv_queue_init_flags ops info tgt env g cq id data flags = Some (InitOk a) /\
    reachable tops epoll_wait epoll_call (ublksrv_reset_aio_batch (qa_q a))
      (c_user_data <$> io_commands (ring_log (ring (qa_q a)))).
Proof.
  intros [] Ht. pose proof (depths_eq cq co_depth0 co_extra0) as Hdep.
  destruct (init_built ops info tgt env g cq id data flags _ _ addr descs fd r Hdep)
    as (q&Hbt&(q0&Hview&Hst&Hqid&Hring&Hdata)&Hinit); try done; [lia|].
  destruct co_env0, co_shaped0 as [Hlen Hctx].
  assert (Hf : fresh_queue tops (set_nr_ctxs 0 q)).
  { eapply built_fresh; try done; [lia|]. rewrite Hview. by apply Ht. }
  destruct (start_inv tops (set_nr_ctxs 0 q) Hf) as (q2&Hq2&_).
  rewrite submit_fetch_ctxs in Hq2 by (by apply Hf).
  destruct (ublksrv_submit_fetch_commands q) as [q1|] eqn:Hq1; [|done]. injection Hq2 as <-.
  eexists. rewrite Hinit. split; [done|]. cbn [qa_q].
  pose proof (reach_start tops epoll_wait epoll_call (set_nr_ctxs 0 q) (set_nr_ctxs 0 q1) Hf) as Hr.
  rewrite submit_fetch_ctxs, Hq1 in Hr by (by apply Hf). specialize (Hr eq_refl).
  unfold new_uds in Hr. rewrite (fq_log _ _ Hf) in Hr. exact Hr.
Qed.

(** Tear-down gives back what set-up took, once each.  For a queue that was
    set up successfully, and any later state of it that kept its buffers and
    descriptors, [ublksrv_queue_deinit] calls the target, closes the epoll
    descriptor and frees the nodes of what was registered there, closes the event
    descriptor and the ring, unmaps the descriptors with the length they were
    mapped with, frees the buffer and the private data of each io in order, and
    frees the queue; nothing else is released and nothing twice. *)
Theorem queue_deinit_releases g cq id flags data addr descs fd r :
  config_ok g cq id flags addr descs fd r ->
  forall a q, ublksrv_queue_init_flags ops info tgt env g cq id data flags = Some (InitOk a) ->
  holds q = holds (qa_q a) ->
  exists a', ublksrv_queue_deinit ops tgt env (with_q (fun _ => q) a) = Some a' /\
    trace (qa_q a') = trace q ++
      (if op_deinit_queue ops then [EvDeinitQueue] else []) ++ epoll_releases q ++
      (if has (ublksrv_flags info) UBLKSRV_F_NEED_EVENTFD then [EvClose (se_eventfd env)] else []) ++
      [EvUnregister 0; EvUnregister 1; EvUnregister 2; EvClose fd;
       EvMunmap addr (ublksrv_queue_cmd_buf_sz (se_page env) (queue_depth info))] ++
      concat (imap (free_events ops) (map (fun i => (io_buf ops info env i, se_malloc env i))
        (seqZ 0 (queue_depth info + extra_ios tgt)))) ++
      [EvFree (qa_addr g)].
Proof.
  intros [] a q Hi Hh. pose proof (depths_eq cq co_depth0 co_extra0) as Hdep.
  destruct (init_built ops info tgt env g cq id data flags _ _ addr descs fd r Hdep)
    as (q1&Hbt&_&Hinit); try done; [lia|].
  rewrite Hinit in Hi. destruct (ublksrv_submit_fetch_commands q1) as [q2|] eqn:Hq2; [|done]. cbn in Hi.
  injection Hi as <-. cbn [qa_q qa_addr qa_cmd_buf qa_ring_fd] in *. destruct Hbt, co_env0, co_shaped0 as [Hlen Hctx].
  assert (Hnb : ublksrv_queue_batch_io q1 = false).
  { unfold ublksrv_queue_batch_io. rewrite bt_state0. by destruct (initial_state_bits info) as (_&->&_). }
  rewrite (submit_fetch_holds q1 q2 Hnb Hq2) in Hh. unfold UBLK_MAX_QUEUE_DEPTH in *.
  set (bufs := map (fun i => (io_buf ops info env i, se_malloc env i)) (seqZ 0 (queue_depth info + extra_ios tgt))).
  assert (Hbufs : map (fun io => (buf_addr io, io_private io)) (ios q1) = bufs).
  { apply list_eq. intros j. unfold bufs. change (((fun io => (buf_addr io, io_private io)) <$> ios q1) !! j =
      ((fun i => (io_buf ops info env i, se_malloc env i)) <$> seqZ 0 (queue_depth info + extra_ios tgt)) !! j).
    rewrite !list_lookup_fmap, bt_ios0. destruct (decide (j < length (ios (qa_q g)))%nat) as [Hj|Hj].
    - destruct (lookup_lt_is_Some_2 (ios (qa_q g)) j Hj) as [io ->]. rewrite lookup_seqZ_lt by lia. done.
    - rewrite lookup_ge_None_2, lookup_seqZ_ge by lia. done. }
  assert (Hhq : holds q = (bufs, efd q1, epollfd q1, epoll_callbacks q1, queue_depth info, false)).
  { rewrite Hh. unfold holds. by rewrite Hbufs, bt_depth0, Hnb. }
  injection Hhq as Hm Hefd _ _ Hdq Hbq.
  destruct (deinit_trace ops env tgt (with_q (fun _ => q) (mk_qalloc (qa_addr g) q2 addr fd)) bufs) as (a'&Ha'&Htr).
  - unfold with_q, holds. cbn [qa_q]. by rewrite Hm, Hbq.
  - unfold with_q, bufs. cbn [qa_q]. rewrite length_map, length_seqZ, Hdq. lia.
  - unfold bufs. rewrite length_map, length_seqZ. lia.
  - exists a'. split; [done|]. rewrite Htr. unfold releases, with_q. cbn [qa_q qa_addr qa_cmd_buf qa_ring_fd].
    rewrite Hefd, bt_efd0, Hdq, (proj2 (Z.ltb_lt 0 fd)), (proj2 (Z.eqb_neq addr 0)) by done.
    destruct (has (ublksrv_flags info) UBLKSRV_F_NEED_EVENTFD) eqn:Hev; [|done].
    destruct (eo_event0 eq_refl) as (_&_&Hev0). by rewrite (proj2 (Z.leb_le 0 _)).
Qed.
End setup_theorems.

(** ** Failures *)
Section failures.
Context {R : Type} `{!Uring R, !UringLaws R} {T : Type}.
Variable ops : queue_ops R T.
Variable info : ublksrv_ctrl_dev_info.
Variable tgt : ublksrv_tgt_info.
Variable env : setup_env R.
Implicit Types q : queue R T.
Hypothesis init_effects : forall f q ret q', op_init_queue ops = Some f -> f q = Some (ret, q') -> init_effect q q'.

Definition frame (q q' : queue R T) : Prop :=
  efd q' = efd q /\ state q' = state q /\ q_depth q' = q_depth q /\ length (ios q') = length (ios q).

Lemma frame_trans q1 q2 q3 : frame q1 q2 -> frame q2 q3 -> frame q1 q3.
Proof. unfold frame. intuition congruence. Qed.

Lemma frame_put i io q : frame q (put_io i io q).
Proof. unfold frame. qs. by rewrite length_insert. Qed.

Definition outcome {A} (r : A + A) : A := match r with inl a => a | inr a => a end.

Lemma init_io_frame i q r : init_io ops info env i q = Some r -> frame q (outcome r).
Proof.
  unfold init_io. destruct (get_io q i) as [io|]; [|done]. cbn [mbind option_bind].
  repeat case_match; intros [= <-]; apply frame_put.
Qed.

Lemma init_ios_frame n i q r : init_ios ops info env n i q = Some r -> frame q (outcome r).
Proof.
  revert i q. induction n as [|n IH]; intros i q; cbn [init_ios]; [by intros [= <-]|].
  destruct (init_io ops info env i q) as [[q1|q1]|] eqn:H1; [..|done]; cbn [mbind option_bind];
    apply init_io_frame in H1; cbn [outcome] in H1.
  - by intros [= <-].
  - intros H2. by eapply frame_trans, IH.
Qed.

Lemma init_steps_frame (g : qalloc R T) id flags ring_depth cq_depth nr_ios data r :
  has (dev_flags info) UBLK_F_BATCH_IO = false ->
  init_steps ops info env g id flags ring_depth cq_depth nr_ios data = Some r ->
  frame (init_fields info (qa_q g) id) (qa_q (outcome r)) /\ qa_addr (outcome r) = qa_addr g.
Proof.
  intros Hb. unfold init_steps. destruct (se_mmap env) as [[addr descs]|]; [|by intros [= <-]].
  cbn [qa_addr qa_q qa_ring_fd].
  destruct (init_ios ops info env (Z.to_nat nr_ios) 0 _) as [[q|q]|] eqn:Hi; [..|done]; cbn [mbind option_bind];
    apply init_ios_frame in Hi; cbn [outcome] in Hi; [by intros [= <-]|].
  destruct (se_ring env ring_depth _) as [e|[fd r0]]; [by intros [= <-]|].
  cbn [with_q qa_addr qa_q qa_cmd_buf qa_ring_fd].
  case_bool; [by intros [= <-]|]. case_bool; [by intros [= <-]|].
  assert (ublksrv_queue_batch_io (set_ring r0 q) = false) as ->.
  { unfold ublksrv_queue_batch_io. qsimpl. destruct Hi as (_&->&_). cbn. by destruct (initial_state_bits info) as (_&->&_). }
  cbn [mbind option_bind negb Z.eqb]. destruct (op_init_queue ops) as [f|]; [|by intros [= <-]].
  destruct (f _) as [[ret q1]|] eqn:Hf; [|done]. cbn [mbind option_bind].
  destruct (init_effects f _ _ _ eq_refl Hf) as (r1&e&cbs&d&t&->&_). case_bool; by intros [= <-].
Qed.

(** A set-up that fails releases things it never had.  When a step before
    the event descriptor fails (mapping the descriptors, an allocation, the
    ring, its files, the target's initialisation), the clean-up runs on memory
    that was only partly assigned: it closes whatever non-negative number the
    memory happened to hold as event descriptor.  When the very first step
    fails, every pointer and descriptor it releases is left-over memory: the
    buffers and private data of all ios, the ring's descriptor, and a mapping at
    MAP_FAILED. *)
Theorem queue_init_failure_releases_garbage g cq id flags data a :
  0 <= queue_depth info <= UBLK_MAX_QUEUE_DEPTH -> 0 <= extra_ios tgt <= queue_depth info * 2 ->
  id < MAX_NR_HW_QUEUES -> has (dev_flags info) UBLK_F_BATCH_IO = false ->
  shaped (qa_q g) (queue_depth info + extra_ios tgt) ->
  init_steps ops info env g id flags (ublksrv_calculate_depths info tgt cq).1.1
    (ublksrv_calculate_depths info tgt cq).1.2 (queue_depth info + extra_ios tgt) data = Some (inl a) ->
  exists a', ublksrv_queue_init_flags ops info tgt env g cq id data flags = Some (InitFailed a') /\
    (0 <= efd (qa_q g) -> EvClose (efd (qa_q g)) ∈ trace (qa_q a')) /\
    (se_mmap env = None ->
     trace (qa_q a') = trace (qa_q g) ++
      (if op_deinit_queue ops then [EvDeinitQueue] else []) ++
      (if 0 <=? efd (qa_q g) then [EvClose (efd (qa_q g))] else []) ++
      [EvUnregister 0; EvUnregister 1] ++
      (if 0 <? qa_ring_fd g then [EvUnregister 2; EvClose (qa_ring_fd g)] else []) ++
      [EvMunmap MAP_FAILED (ublksrv_queue_cmd_buf_sz (se_page env) (queue_depth info))] ++
      concat (imap (free_events ops) (map (fun io => (buf_addr io, io_private io)) (ios (qa_q g)))) ++
      [EvFree (qa_addr g)]).
Proof.
  intros Hd He Hid Hb [Hlen _] Hsteps. unfold ublksrv_queue_init_flags. rewrite (depths_eq info tgt cq Hd He).
  rewrite (proj2 (Z.ltb_ge _ _)), (proj2 (Z.leb_gt _ _)) by lia. rewrite Hsteps. cbn [mbind option_bind].
  destruct (init_steps_frame g _ _ _ _ _ _ _ Hb Hsteps) as [(F1&F4&F5&F6) Ha]. cbn [outcome] in *.
  cbn in F1, F4, F5, F6. unfold UBLK_MAX_QUEUE_DEPTH in Hd.
  set (bufs := map (fun io => (buf_addr io, io_private io)) (ios (qa_q a))).
  assert (Hlb : Z.of_nat (length bufs) = extra_ios tgt + queue_depth info) by (unfold bufs; rewrite length_map; lia).
  destruct (deinit_trace ops env tgt a bufs) as (a'&Ha'&Htr).
  - unfold holds. fold bufs. unfold ublksrv_queue_batch_io. rewrite F4.
    by destruct (initial_state_bits info) as (_&->&_); rewrite Hb.
  - by rewrite F5.
  - lia.
  - unfold fail. rewrite Ha'. exists a'. split; [done|]. rewrite Htr. unfold releases. rewrite F1, F5, Ha. split.
    + intros H0. rewrite (proj2 (Z.leb_le 0 _)) by done. set_solver.
    + intros Hmm. unfold init_steps in Hsteps. rewrite Hmm in Hsteps. injection Hsteps as <-. done.
Qed.
End failures.
