(* ===== verification/QueueSetupExamples.v ===== *)
(** * Setting up a small queue

    A queue of two tags for the null target, in memory that held other things
    before: the theorems of QueueSetup applied to it. *)

From S2P Require Import Prelude Bytes UblkCmd Uring QueueTypes Batch Queue QueueSpec QueueSystem Target Null Params QueueSetup.

Definition exu_info : ublksrv_ctrl_dev_info := mk_dev_info 1 2 0 0 4096 0 0 0 0 0 0 0 0 0.
Definition exu_tgt : ublksrv_tgt_info := mk_tgt_info 0 2 0 [] 0 8 (0, 0).
Definition exu_descs : list ublksrv_io_desc := replicate 2 (mk_iod 0 0 0 0).
Definition exu_ring : ListRing.ring := ListRing.mk_ring 2 [] [].

Definition exu_env (mmap_ok : bool) : setup_env ListRing.ring :=
  mk_setup_env 4096 (if mmap_ok then Some (0x7000, exu_descs) else None)
    (fun i => Some (0x10000 + 4096 * i)) (fun i => 0x20000 + 64 * i)
    (fun _ _ => inr (5, exu_ring)) 0 0 (mk_alloc_results None (fun _ => None) (fun _ => false) (fun _ => [])) (0, 0) (-1).

(** The target watches descriptor 9 on a new epoll descriptor, 11. *)
Definition exu_init_queue (q : queue ListRing.ring (co_tgt unit)) : option (Z * queue ListRing.ring (co_tgt unit)) :=
  '(_, q) ← ublksrv_epoll_add_fd (fun _ _ _ => 0) 2 11 0 (Some 0x40000) 9 1 3 q; Some (0, q).

Definition exu_ops : queue_ops ListRing.ring (co_tgt unit) := mk_queue_ops None false (Some exu_init_queue) false false.

Lemma exu_inits q : exists q', exu_init_queue q = Some (0, q') /\ init_effect q q'.
Proof.
  unfold exu_init_queue. destruct (epoll_add_effect (fun _ _ _ => 0) 2 11 0 (Some 0x40000) 9 1 3 q) as (ret&q'&->&He).
  by exists q'.
Qed.

Lemma exu_effects f q ret q' : op_init_queue exu_ops = Some f -> f q = Some (ret, q') -> init_effect q q'.
Proof. intros [= <-] Hq. destruct (exu_inits q) as (q1&H1&He). rewrite H1 in Hq. by injection Hq as _ <-. Qed.

(** What malloc(3) returned still holds the remains of another object. *)
Definition exu_garbage : qalloc ListRing.ring (co_tgt unit) :=
  mk_qalloc 0x30000
    (mk_queue 99 77 [] 3 4 0xff 6 [] 7 exu_ring 1000 [1; 2; 3; 4] (mk_batch [] [] 0 0 0 0 0 0)
       [mk_ublk_io 0xdead 0 0 0 None 0xbeef; mk_ublk_io 0xfeed 0 0 0 None 0xf00d]
       (mk_co_tgt [] tt) []) 0 8.

Definition exu_data : co_tgt unit := mk_co_tgt [CoIdle; CoIdle] tt.

Lemma exu_config flags : config_ok exu_ops exu_info exu_tgt (exu_env true) exu_garbage 0 0 flags 0x7000 exu_descs 5 exu_ring.
Proof.
  split; try done; [exact exu_inits|]. split; try done.
  intros i Hi _. cbn in Hi. unfold io_buf, exu_ops, exu_env. cbn [queue_depth exu_info op_alloc_io_buf se_memalign default].
  destruct (Z.leb_spec 2 i); [lia|].
  change (has (dev_flags exu_info) UBLK_F_SUPPORT_ZERO_COPY) with false. cbn [orb].
  intros H0. assert (0x10000 + 4096 * i = 0) by exact H0. lia.
Qed.

(** Its coroutines have not started. *)
Lemma exu_tinv (q : queue ListRing.ring (co_tgt unit)) : state q = initial_state exu_info -> q_id q = 0 -> ring q = exu_ring -> private_data q = exu_data ->
  tinv (TargetLaws := null_laws) (view (set_private_data (init_data exu_ops exu_data q) q))
    (replicate (Z.to_nat (queue_depth exu_info)) TInit).
Proof.
  intros Hst Hid Hr Hdata. assert (Hd : init_data exu_ops exu_data q = exu_data).
  { unfold init_data. cbn [exu_ops op_init_queue]. unfold exu_init_queue.
    destruct (epoll_add_effect (fun _ _ _ => 0) 2 11 0 (Some 0x40000) 9 1 3 q) as (ret&q'&Hq&_). rewrite Hq. cbn [mbind option_bind].
    rewrite <- Hdata. exact (epoll_add_data _ _ _ _ _ _ _ _ _ _ _ Hq). }
  rewrite Hd. split; [|split].
  - unfold cfg_ok, null_cfg. cbn. rewrite Hst. discriminate.
  - reflexivity.
  - intros [|[|i]] more r H; discriminate H.
Qed.

Lemma queue_init_reachable_witness :
  exists a, ublksrv_queue_init_flags exu_ops exu_info exu_tgt (exu_env true) exu_garbage 0 0 exu_data 0 = Some (InitOk a) /\
    reachable null_tgt_type (fun _ => []) (fun _ _ q => Some q) (ublksrv_reset_aio_batch (qa_q a))
      (c_user_data <$> io_commands (ring_log (ring (qa_q a)))).
Proof.
  apply (queue_init_reachable null_tgt_type (fun _ => []) (fun _ _ q => Some q) exu_ops exu_info exu_tgt (exu_env true)
    exu_garbage 0 0 0 exu_data 0x7000 exu_descs 5 exu_ring (exu_config 0)).
  exact exu_tinv.
Defined.

Lemma queue_deinit_releases_witness :
  exists a a', ublksrv_queue_init_flags exu_ops exu_info exu_tgt (exu_env true) exu_garbage 0 0 exu_data 0 = Some (InitOk a) /\
    ublksrv_queue_deinit exu_ops exu_tgt (exu_env true) a = Some a' /\
    trace (qa_q a') = trace (qa_q a) ++ [EvClose 11; EvFree 0x40000; EvUnregister 0; EvUnregister 1; EvUnregister 2; EvClose 5; EvMunmap 0x7000 4096;
      EvFree 0x10000; EvFree 0x20000; EvFree 0x11000; EvFree 0x20040; EvFree 0x30000].
Proof.
  destruct (ublksrv_queue_init_flags exu_ops exu_info exu_tgt (exu_env true) exu_garbage 0 0 exu_data 0)
    as [[| |a]|] eqn:H; [vm_compute in H; discriminate H..| |vm_compute in H; discriminate H].
  destruct (queue_deinit_releases exu_ops exu_info exu_tgt (exu_env true) exu_garbage 0 0 0 exu_data 0x7000 exu_descs 5
    exu_ring (exu_config 0) a (qa_q a) H eq_refl) as (a'&Ha'&Ht).
  exists a, a'. split; [reflexivity|]. split; [destruct a; exact Ha'|].
  rewrite Ht. vm_compute in H. injection H as <-. vm_compute. reflexivity.
Defined.

Lemma queue_init_failure_releases_garbage_witness :
  exists a', ublksrv_queue_init_flags exu_ops exu_info exu_tgt (exu_env false) exu_garbage 0 0 exu_data 0 =
      Some (InitFailed a') /\ EvClose 7 ∈ trace (qa_q a').
Proof.
  destruct (init_steps exu_ops exu_info (exu_env false) exu_garbage 0 0 2 2 2 exu_data) as [[a|a]|] eqn:H;
    [|vm_compute in H; discriminate H..].
  destruct (queue_init_failure_releases_garbage exu_ops exu_info exu_tgt (exu_env false) exu_effects exu_garbage 0 0 0 exu_data a)
    as (a'&Ha'&Hc&_).
  - split; [discriminate|discriminate].
  - split; [discriminate|discriminate].
  - reflexivity.
  - reflexivity.
  - split; reflexivity.
  - exact H.
  - exists a'. split; [exact Ha'|]. apply Hc. discriminate.
Defined.
