(* ===== verification/QueueThread.v ===== *)
(** * The thread of a queue

    [ublksrv_queue_handler] of targets/ublksrv_tgt.cpp: a thread sets its queue
    up, processes I/O until the queue is done and tears the queue down.  What
    the driver and the ring do meanwhile is given round by round: the
    descriptors the driver has written and the completions it has posted.  The
    entry of the description and the CPU of the thread are in Daemon. *)

From S2P Require Import Prelude UblkCmd Uring QueueTypes Batch Queue QueueSpec QueueSystem Params QueueSetup.

Definition IORING_SETUP_SINGLE_ISSUER : Z := bit 12.
Definition IORING_SETUP_DEFER_TASKRUN : Z := bit 13.

Definition round : Type := list ublksrv_io_desc * list io_uring_cqe.

(** What has become of the thread after some rounds: its queue could not be set
    up; it still runs; it ended, with the queue before and after the
    tear-down. *)
Inductive thread_state {R T : Type} :=
| ThFailed
| ThRunning (q : queue R T)
| ThEnded (q : queue R T) (a : qalloc R T).
#[global] Arguments thread_state R T : clear implicits.

Section thread.
Context {R : Type} `{!Uring R} {T : Type}.
Variable tops : ublksrv_tgt_type R T.
Variable epoll_wait : queue R T -> list (Z * Z).
Variable epoll_call : Z -> Z -> queue R T -> option (queue R T).
Variable ops : queue_ops R T.
Variable info : ublksrv_ctrl_dev_info.
Variable tgt : ublksrv_tgt_info.
Variable env : setup_env R.

(** [do { if (ublksrv_process_io(q) < 0) break; } while (1)]: whether it was
    left, and the queue. *)
Fixpoint process_loop (rounds : list round) (q : queue R T) : option (bool * queue R T) :=
  match rounds with
  | [] => Some (false, q)
  | (iods, cqes) :: rounds =>
      '(ret, q) ← ublksrv_process_io tops epoll_wait epoll_call (max_io_buf_bytes info) cqes (set_io_cmd_buf iods q);
      if ret <? 0 then Some (true, q) else process_loop rounds q
  end.

Definition handler_flags : Z :=
  Z.lor (Z.lor IORING_SETUP_COOP_TASKRUN IORING_SETUP_SINGLE_ISSUER) IORING_SETUP_DEFER_TASKRUN.

(** [g]: the memory the queue gets, [data]: NULL for its private data. *)
Definition ublksrv_queue_handler (g : qalloc R T) (dev_cq_depth id : Z) (data : T) (rounds : list round)
    : option (thread_state R T) :=
  r ← ublksrv_queue_init_flags ops info tgt env g dev_cq_depth id data handler_flags;
  match r with
  | InitOk a =>
      '(ended, q) ← process_loop rounds (qa_q a);
      if ended : bool then a ← ublksrv_queue_deinit ops tgt env (with_q (fun _ => q) a); Some (ThEnded q a)
      else Some (ThRunning q)
  | _ => Some ThFailed
  end.
End thread.

(** ** What the loop keeps

    The buffers, descriptors and event sources of a queue ([holds]) stay as
    they are while it runs, if the target leaves them alone. *)
Section keeps.
Context {R : Type} `{!Uring R} {T : Type}.
Implicit Types q : queue R T.

Definition keeps (f : queue R T -> option (queue R T)) : Prop :=
  forall q q', ublksrv_queue_batch_io q = false -> f q = Some q' -> holds q' = holds q.

Lemma holds_batch q q' : holds q' = holds q -> ublksrv_queue_batch_io q' = ublksrv_queue_batch_io q.
Proof. unfold holds. by intros [= _ _ _ _ _ ->]. Qed.

Lemma keeps_bind f g : keeps f -> keeps g -> keeps (fun q => q ← f q; g q).
Proof.
  intros Hf Hg q q' Hb. destruct (f q) as [q1|] eqn:H1; [|done]. cbn. intros H2.
  pose proof (Hf _ _ Hb H1) as He. rewrite <- He. apply Hg; [|done]. by rewrite (holds_batch _ _ He).
Qed.

Lemma put_io_holds q tag io io' :
  get_io q tag = Some io -> buf_addr io' = buf_addr io -> io_private io' = io_private io ->
  holds (put_io tag io' q) = holds q.
Proof.
  intros Hio Hb Hp. apply holds_ios; try done. qs. unfold get_io in Hio. destruct (0 <=? tag); [|done].
  eapply map_insert_same; [done|]. by rewrite Hb, Hp.
Qed.

Lemma set_state_holds q m : has m UBLKSRV_QUEUE_BATCH_IO = has (state q) UBLKSRV_QUEUE_BATCH_IO ->
  holds (set_state m q) = holds q.
Proof. intros Hm. unfold holds, ublksrv_queue_batch_io. qsimpl. by rewrite Hm. Qed.

Lemma get_io_put_same q tag io io' : get_io q tag = Some io -> get_io (put_io tag io' q) tag = Some io'.
Proof. intros Hio. rewrite get_io_put by (by eexists). by rewrite Z.eqb_refl. Qed.

(** The callbacks of a target, and of what it registered for epoll. *)
Class TargetKeeps (tops : ublksrv_tgt_type R T) (epoll_call : Z -> Z -> queue R T -> option (queue R T)) : Prop := {
  tk_async tag : keeps (fun q => snd <$> handle_io_async tops tag q);
  tk_done f tag cqe : tgt_io_done tops = Some f -> keeps (f tag cqe);
  tk_event f : handle_event tops = Some f -> keeps f;
  tk_background f n : handle_io_background tops = Some f -> keeps (f n);
  tk_idle f b : idle_fn tops = Some f -> keeps (f b);
  tk_epoll cb events : keeps (epoll_call cb events)
}.

Context (tops : ublksrv_tgt_type R T) (epoll_wait : queue R T -> list (Z * Z)).
Context (epoll_call : Z -> Z -> queue R T -> option (queue R T)) `{!TargetKeeps tops epoll_call}.

Lemma complete_io_keeps tag res : keeps (fun q => snd <$> ublksrv_complete_io tag res q).
Proof.
  intros q q' Hb. unfold ublksrv_complete_io. destruct (get_io q tag) as [io|] eqn:Hio; [|done].
  cbn [mbind option_bind]. rewrite Hb. set (q1 := put_io _ _ _).
  destruct (ublksrv_queue_io_cmd tag q1) as [[r q2]|] eqn:H; [|done]. cbn. intros [= <-].
  rewrite (queue_io_cmd_holds _ _ _ _ H). by eapply put_io_holds.
Qed.

Lemma epoll_dispatch_keeps evs : keeps (epoll_dispatch epoll_call evs).
Proof.
  induction evs as [|[addr events] evs IH]; intros q q' Hb; cbn [epoll_dispatch]; [by intros [= <-]|].
  destruct (find_ecb addr _) as [ecb|]; [|done]. cbn [mbind option_bind].
  apply (keeps_bind (epoll_call (ecb_cb ecb) events) _ (tk_epoll _ _) IH q q' Hb).
Qed.

Lemma process_epollfd_keeps cqe : keeps (ublkdrv_process_epollfd epoll_wait epoll_call cqe).
Proof.
  intros q q' Hb. unfold ublkdrv_process_epollfd. set (evs := take _ _). set (q0 := log_ev _ q).
  destruct (epoll_dispatch epoll_call evs q0) as [q1|] eqn:H1; [|done]. cbn [mbind option_bind].
  assert (H01 : holds q1 = holds q) by (by rewrite (epoll_dispatch_keeps evs q0 q1 Hb H1)).
  case_bool; [by intros [= <-]|]. unfold ublksrv_prep_epoll_sqe.
  destruct (build_internal_data _) as [ud|]; [|done]. cbn [mbind option_bind].
  destruct (ublksrv_alloc_sqe _ _) as [ok r]. cbn. by intros [= <-].
Qed.

Lemma handle_tgt_cqe_keeps cqe : keeps (ublksrv_handle_tgt_cqe tops epoll_wait epoll_call cqe).
Proof.
  intros q q' Hb. unfold ublksrv_handle_tgt_cqe. case_bool; [case_bool; [|case_bool]|].
  - destruct (handle_event tops) as [f|] eqn:Hf; [by apply (tk_event f Hf)|by intros [= <-]].
  - by apply process_epollfd_keeps.
  - by intros [= <-].
  - destruct (tgt_io_done tops) as [f|] eqn:Hf; [|by intros [= <-]].
    destruct (get_io q _) as [io|]; [|done]. cbn [mbind option_bind]. by apply (tk_done f _ _ Hf).
Qed.

(** The tag's io and the queue once the completion of its command is noted. *)
Lemma note_completion_holds q tag io (fetch : bool) q1 io1 :
  get_io q tag = Some io ->
  (if negb fetch
   then (set_io_flags (Z.land (io_flags io) (Z.lnot UBLKSRV_NEED_FETCH_RQ)) io,
         set_state (Z.lor (state q) UBLKSRV_QUEUE_STOPPING) (set_cmd_inflight (u32 (cmd_inflight q - 1)) q))
   else (io, set_cmd_inflight (u32 (cmd_inflight q - 1)) q)) = (io1, q1) ->
  holds (put_io tag io1 q1) = holds q /\ get_io (put_io tag io1 q1) tag = Some io1.
Proof.
  intros Hio Heq.
  assert (Hg : get_io q1 tag = Some io /\ holds q1 = holds q /\ buf_addr io1 = buf_addr io /\ io_private io1 = io_private io).
  { destruct fetch; cbn [negb] in Heq; injection Heq as <- <-; [done|].
    split; [done|]. split; [|done]. rewrite set_state_holds; [done|]. qsimpl. rewrite has_lor_l. apply orb_false_r. }
  destruct Hg as (Hg&Hh&Hb&Hp). split; [|by eapply get_io_put_same].
  rewrite <- Hh. by eapply put_io_holds.
Qed.

Lemma handle_cqe_keeps cqe : keeps (ublksrv_handle_cqe tops epoll_wait epoll_call cqe).
Proof.
  intros q q' Hb. unfold ublksrv_handle_cqe. case_bool; [by apply handle_tgt_cqe_keeps|].
  rewrite Hb. cbn [mbind option_bind]. set (tag := user_data_to_tag _).
  destruct (get_io q tag) as [io|] eqn:Hio; [|done]. cbn [mbind option_bind].
  match goal with |- context [if negb ?c then (_, set_state _ _) else _] => set (fetch := c) end.
  change (state (set_cmd_inflight (u32 (cmd_inflight q - 1)) q)) with (state q).
  match goal with |- context [let '(_, _) := ?p in _] => destruct p as [io1 q1] eqn:Hq1 end.
  destruct (note_completion_holds q tag io fetch q1 io1 Hio Hq1) as [Hh Hg].
  case_bool; [|case_bool].
  - intros Ha. rewrite <- Hh. apply (tk_async (io_tag io1) _ q'); [by rewrite (holds_batch _ _ Hh)|done].
  - set (q2 := put_io tag _ (put_io tag io1 q1)).
    destruct (ublksrv_queue_io_cmd tag q2) as [[r q3]|] eqn:H3; [|done]. cbn. intros [= <-].
    rewrite (queue_io_cmd_holds _ _ _ _ H3), <- Hh. by eapply put_io_holds.
  - intros [= <-]. rewrite <- Hh. by eapply put_io_holds.
Qed.

Lemma reap_keeps cqes : keeps (fun q => snd <$> ublksrv_reap_events_uring tops epoll_wait epoll_call cqes q).
Proof.
  induction cqes as [|cqe cqes IH]; intros q q' Hb; cbn [ublksrv_reap_events_uring]; [by intros [= <-]|].
  destruct (ublksrv_handle_cqe tops epoll_wait epoll_call cqe q) as [q1|] eqn:H1; [|done]. cbn [mbind option_bind].
  pose proof (handle_cqe_keeps cqe q q1 Hb H1) as He.
  destruct (ublksrv_reap_events_uring tops epoll_wait epoll_call cqes q1) as [[n q2]|] eqn:H2; [|done]. cbn. intros [= <-].
  rewrite <- He. apply (IH q1 q2); [by rewrite (holds_batch _ _ He)|by rewrite H2].
Qed.

Lemma submit_aio_keeps n i : keeps (submit_aio_loop n i).
Proof.
  revert i. induction n as [|n IH]; intros i q q' Hb; cbn [submit_aio_loop]; [by intros [= <-]|].
  destruct (ctxs q !! _) as [ctx|]; [|done]. cbn [mbind option_bind]. intros H. by rewrite (IH _ (log_ev _ q) _ Hb H).
Qed.

Lemma call_opt_keeps {A} (f : option (A -> queue R T -> option (queue R T))) a :
  (forall g, f = Some g -> keeps (g a)) -> keeps (call_opt f a).
Proof. intros Hf q q' Hb. destruct f as [g|]; cbn [call_opt]; [by apply (Hf g)|by intros [= <-]]. Qed.

Lemma discard_keeps max n i : keeps (discard_loop max n i).
Proof.
  revert i. induction n as [|n IH]; intros i q q' Hb; cbn [discard_loop]; [by intros [= <-]|].
  destruct (get_io q i) as [io|]; [|done]. cbn [mbind option_bind]. intros H. by rewrite (IH _ (log_ev _ q) _ Hb H).
Qed.

Lemma idle_enter_keeps max : keeps (ublksrv_queue_idle_enter tops max).
Proof.
  intros q q' Hb. unfold ublksrv_queue_idle_enter. case_bool; [by intros [= <-]|].
  unfold ublksrv_queue_discard_io_pages. destruct (discard_loop max _ 0 q) as [q1|] eqn:H1; [|done]. cbn [mbind option_bind].
  pose proof (discard_keeps _ _ _ _ _ Hb H1) as He. set (q2 := set_state _ q1).
  assert (H2 : holds q2 = holds q).
  { rewrite <- He. apply set_state_holds. rewrite has_lor_l. apply orb_false_r. }
  intros H. rewrite <- H2. apply (call_opt_keeps _ true (fun g => tk_idle g true) q2 q'); [by rewrite (holds_batch _ _ H2)|done].
Qed.

Lemma idle_exit_keeps : keeps (ublksrv_queue_idle_exit tops).
Proof.
  intros q q' Hb. unfold ublksrv_queue_idle_exit. case_bool; [|by intros [= <-]]. set (q2 := set_state _ q).
  assert (H2 : holds q2 = holds q).
  { apply set_state_holds. unfold UBLKSRV_QUEUE_BATCH_IO, UBLKSRV_QUEUE_IDLE. rewrite has_clear_bit by done. apply andb_true_r. }
  intros H. rewrite <- H2. apply (call_opt_keeps _ false (fun g => tk_idle g false) q2 q'); [by rewrite (holds_batch _ _ H2)|done].
Qed.

Lemma process_io_keeps max cqes : keeps (fun q => snd <$> ublksrv_process_io tops epoll_wait epoll_call max cqes q).
Proof.
  intros q q' Hb. unfold ublksrv_process_io. case_bool; [by intros [= <-]|]. rewrite Hb. cbn [mbind option_bind].
  destruct (io_uring_submit_and_wait_timeout _ _ _) as [ret r]. set (q0 := ublksrv_reset_aio_batch _).
  destruct (ublksrv_reap_events_uring tops epoll_wait epoll_call cqes q0) as [[n q1]|] eqn:H1; [|done]. cbn [mbind option_bind].
  assert (E1 : holds q1 = holds q).
  { change (holds q) with (holds q0). apply (reap_keeps cqes q0 q1 Hb). by rewrite H1. }
  unfold ublksrv_submit_aio_batch. destruct (submit_aio_loop _ 0 q1) as [q2|] eqn:H2; [|done]. cbn [mbind option_bind].
  assert (E2 : holds q2 = holds q).
  { rewrite <- E1. eapply submit_aio_keeps; [by rewrite (holds_batch _ _ E1)|done]. }
  set (nr := io_uring_sq_ready (ring q2)).
  destruct (call_opt (handle_io_background tops) nr q2) as [q3|] eqn:H3; [|done]. cbn [mbind option_bind].
  assert (E3 : holds q3 = holds q).
  { rewrite <- E2. apply (call_opt_keeps (handle_io_background tops) nr (fun g => tk_background g nr) q2 q3); [|done].
    by rewrite (holds_batch _ _ E2). }
  assert (Hb3 : ublksrv_queue_batch_io q3 = false) by (by rewrite (holds_batch _ _ E3)).
  intros Hlast. rewrite <- E3.
  match type of Hlast with context [?m ≫= _] => destruct m as [q4|] eqn:H4 end; [|done]. cbn in Hlast. injection Hlast as <-.
  revert H4. case_bool; [|case_bool].
  - intros [= <-]. unfold ublksrv_kill_eventfd. by case_bool.
  - by apply idle_enter_keeps.
  - by apply idle_exit_keeps.
Qed.
End keeps.

(** ** The life of the thread *)
Section life.
Context {R : Type} `{!Uring R, !UringLaws R} {T : Type}.
Variable tops : ublksrv_tgt_type R T.
Context `{!TargetLaws tops}.
Variable epoll_wait : queue R T -> list (Z * Z).
Variable epoll_call : Z -> Z -> queue R T -> option (queue R T).
Context `{!TargetKeeps tops epoll_call}.
Hypothesis epoll_wait_registered : forall q addr ev,
  (addr, ev) ∈ epoll_wait q -> is_Some (find_ecb addr (epoll_callbacks q)).
Hypothesis epoll_call_safe : forall cb ev q A, qsim q A ->
  tinv (view q) (a_tags A) -> cb_safe tinv (epoll_call cb ev) q A.
Variable ops : queue_ops R T.
Variable info : ublksrv_ctrl_dev_info.
Variable tgt : ublksrv_tgt_info.
Variable env : setup_env R.
Implicit Types q : queue R T.

Notation process_io := (ublksrv_process_io tops epoll_wait epoll_call (max_io_buf_bytes info)).
Notation loop := (process_loop tops epoll_wait epoll_call info).
Notation inv q := (qinv tops (ublksrv_reset_aio_batch q)).

(** Rounds in which the driver answers only commands it holds, and the target's
    entries complete as it expects. *)
Fixpoint legal_rounds (rounds : list round) (q : queue R T) : Prop :=
  match rounds with
  | [] => True
  | (iods, cqes) :: rounds =>
      let q1 := set_io_cmd_buf iods q in
      length iods = length (io_cmd_buf q) /\
      (forall K, inv q1 K -> legal_cqes tops epoll_wait epoll_call (after_wait q1) K cqes) /\
      (forall ret q', process_io cqes q1 = Some (ret, q') -> legal_rounds rounds q')
  end.

(** The contexts that were in the queue's memory at first play no part. *)
Lemma process_io_reset cqes q :
  __ublksrv_queue_is_done q = false -> ublksrv_queue_batch_io q = false ->
  process_io cqes (ublksrv_reset_aio_batch q) = process_io cqes q.
Proof.
  intros Hd Hb. unfold ublksrv_process_io.
  change (__ublksrv_queue_is_done (ublksrv_reset_aio_batch q)) with (__ublksrv_queue_is_done q). rewrite Hd.
  change (ublksrv_queue_batch_io (ublksrv_reset_aio_batch q)) with (ublksrv_queue_batch_io q). by rewrite Hb.
Qed.

Lemma inv_reset q K : qinv tops q K -> inv q K.
Proof. apply qinv_ext; [|done]. intros A Hs. destruct (qs_ctxs _ _ Hs) as [_ Hc]. destruct Hs. by split. Qed.

Lemma inv_iods q K iods : length iods = length (io_cmd_buf q) -> inv q K -> inv (set_io_cmd_buf iods q) K.
Proof. intros Hlen. apply qinv_ext; [|done]. intros A []. split; try done. unfold ublksrv_reset_aio_batch. qsimpl. by rewrite Hlen. Qed.

Lemma inv_not_batch q K : inv q K -> ublksrv_queue_batch_io q = false.
Proof. intros (A&Hs&_). exact (qs_batch _ _ Hs). Qed.

(** A queue that is done: nothing is left with the driver or in the ring. *)
Definition drained (q : queue R T) : Prop :=
  stopping q = true /\ cmd_inflight q = 0 /\ sq_pending (ring q) = [] /\ inv q [].

Lemma done_drained q K : inv q K -> __ublksrv_queue_is_done q = true -> drained q.
Proof.
  intros Hinv Hd. unfold __ublksrv_queue_is_done, io_uring_sq_ready in Hd. bool_prop.
  split; [done|]. split; [done|]. split; [apply length_zero_iff_nil; lia|].
  destruct Hinv as (A&Hs&Hi&HK&Hh). exists A. split; [done|]. split; [done|]. split; [|done].
  assert (kernel_uds (a_tags A) = []) as ->; [|done].
  apply length_zero_iff_nil, Nat2Z.inj. rewrite kernel_uds_length, <- (qs_inflight _ _ Hs). done.
Qed.

Lemma loop_runs rounds q K :
  inv q K -> legal_rounds rounds q ->
  exists ended q', loop rounds q = Some (ended, q') /\ holds q' = holds q /\
    (if ended : bool then drained q' else exists K', inv q' K').
Proof.
  revert q K. induction rounds as [|[iods cqes] rounds IH]; intros q K Hinv Hleg; cbn [process_loop].
  { exists false, q. eauto. }
  destruct Hleg as (Hlen&Hcq&Hnext). set (q1 := set_io_cmd_buf iods q) in *.
  assert (Hinv1 : inv q1 K) by (by apply inv_iods). pose proof (inv_not_batch _ _ Hinv1) as Hb.
  destruct (__ublksrv_queue_is_done q1) eqn:Hd.
  - unfold ublksrv_process_io. rewrite Hd. cbn [mbind option_bind Z.ltb Z.compare Z.opp ENODEV].
    exists true, q1. split; [done|]. split; [done|]. by eapply done_drained.
  - rewrite <- (process_io_reset cqes q1 Hd Hb).
    destruct (process_io_inv tops epoll_wait epoll_call epoll_wait_registered epoll_call_safe (max_io_buf_bytes info) _ K cqes Hinv1 (Hcq K Hinv1))
      as (ret&q'&K'&Hq'&Hinv'&Hret).
    change (__ublksrv_queue_is_done (ublksrv_reset_aio_batch q1)) with (__ublksrv_queue_is_done q1) in Hret. rewrite Hd in Hret.
    rewrite Hq'. cbn [mbind option_bind]. rewrite (proj2 (Z.ltb_ge _ _)) by lia.
    destruct (IH q' K' (inv_reset _ _ Hinv')) as (ended&q2&Hl&Hh&Hc).
    { apply (Hnext ret q'). by rewrite <- (process_io_reset cqes q1 Hd Hb). }
    exists ended, q2. split; [done|]. split; [|done]. rewrite Hh.
    apply (process_io_keeps tops epoll_wait epoll_call (max_io_buf_bytes info) cqes (ublksrv_reset_aio_batch q1) q' Hb).
    by rewrite Hq'.
Qed.

(** C15: The life of a queue's thread, for a queue without batch I/O.  Its queue
    is set up, with what the target registers for epoll; whatever the driver
    and the target's devices then complete, in any number of rounds, no
    assertion fails and no access leaves an array; the loop ends only when the
    queue is stopping and neither the driver nor the ring holds anything of
    it; and the tear-down then calls the target, closes the epoll descriptor and
    frees the node of every registered descriptor, closes the event descriptor
    and the ring, unmaps the descriptors, and frees the buffer and the private
    data of every io and the queue, each once and nothing else. *)
Theorem queue_thread_life g cq id data addr descs fd r rounds :
  config_ok ops info tgt env g cq id handler_flags addr descs fd r ->
  (forall q, state q = initial_state info -> q_id q = id -> ring q = r -> private_data q = data ->
     tinv (TargetLaws := TargetLaws0) (view (set_private_data (init_data ops data q) q))
       (replicate (Z.to_nat (queue_depth info)) TInit)) ->
  (forall a, ublksrv_queue_init_flags ops info tgt env g cq id data handler_flags = Some (InitOk a) ->
     legal_rounds rounds (qa_q a)) ->
  exists th, ublksrv_queue_handler tops epoll_wait epoll_call ops info tgt env g cq id data rounds = Some th /\
  match th with
  | ThFailed => False
  | ThRunning q => exists K, inv q K
  | ThEnded q a => drained q /\
      trace (qa_q a) = trace q ++
        (if op_deinit_queue ops then [EvDeinitQueue] else []) ++
        (if 0 <=? epollfd q then [EvClose (epollfd q)] else []) ++
        map (fun cb => EvFree (ecb_addr cb)) (epoll_callbacks q) ++
        (if has (ublksrv_flags info) UBLKSRV_F_NEED_EVENTFD then [EvClose (se_eventfd env)] else []) ++
        [EvUnregister 0; EvUnregister 1; EvUnregister 2; EvClose fd;
         EvMunmap addr (ublksrv_queue_cmd_buf_sz (se_page env) (queue_depth info))] ++
        concat (imap (free_events ops) (map (fun i => (io_buf ops info env i, se_malloc env i))
          (seqZ 0 (queue_depth info + extra_ios tgt)))) ++
        [EvFree (qa_addr g)]
  end.
Proof.
  intros Hcfg Ht Hleg. unfold ublksrv_queue_handler.
  destruct (queue_init_reachable tops epoll_wait epoll_call ops info tgt env g cq id handler_flags data addr descs fd r Hcfg Ht)
    as (a&Ha&Hreach). rewrite Ha. cbn [mbind option_bind].
  destruct (loop_runs rounds (qa_q a) _ (reachable_inv tops epoll_wait epoll_call epoll_wait_registered epoll_call_safe _ _ Hreach) (Hleg a Ha)) as (ended&q&->&Hh&Hc).
  cbn [mbind option_bind]. destruct ended; [|by eexists].
  destruct (queue_deinit_releases ops info tgt env g cq id handler_flags data addr descs fd r Hcfg a q Ha Hh) as (a'&->&Htr).
  eexists. split; [done|]. split; [by apply Hc|]. rewrite Htr. unfold epoll_releases. by rewrite <- !app_assoc.
Qed.
End life.
