(* ===== verification/QueueThreadExamples.v ===== *)
(** * The thread of a queue of the null target

    Coroutine targets leave the buffers and descriptors of their queue alone;
    a thread of the null target starts, is aborted by the driver and ends. *)

From S2P Require Import Prelude Bytes UblkCmd Uring QueueTypes Batch Queue QueueSpec QueueSystem Target Null Params QueueSetup QueueThread QueueExamples QueueSetupExamples.

Section coroutine.
Context {R : Type} `{!Uring R} {D : Type}.
Notation Q := (queue R (co_tgt D)).
Variable submit_io : Z -> Q -> option (Z * Q).
Hypothesis submit_keeps : forall tag, keeps (fun q => snd <$> submit_io tag q).

Lemma tgt_queue_sqes_keeps ss : keeps (tgt_queue_sqes (R := R) (D := D) ss).
Proof. intros q q' _. unfold tgt_queue_sqes. destruct (ublk_queue_alloc_sqes ss (ring q)) as [n r]. case_bool; [by intros [= <-]|done]. Qed.

Lemma submit_keeps_sqes ss (n : Z) : keeps (fun q : Q => snd <$> (q ← tgt_queue_sqes ss q; Some (n, q))).
Proof.
  intros q q' Hb. destruct (tgt_queue_sqes ss q) as [q1|] eqn:H1; [|done]. cbn. intros [= <-].
  by eapply tgt_queue_sqes_keeps.
Qed.

Lemma complete_co_keeps tag res c :
  keeps (R := R) (T := co_tgt D) (fun q => '(_, q) ← ublksrv_complete_io tag res q; Some (set_co tag c q)).
Proof.
  intros q q' Hb. destruct (ublksrv_complete_io tag res q) as [[r q1]|] eqn:H1; [|done]. cbn. intros [= <-].
  change (holds q1 = holds q). apply (complete_io_keeps tag res q q1 Hb). by rewrite H1.
Qed.

Lemma co_start_keeps zero_ok tag : keeps (co_start submit_io zero_ok tag).
Proof.
  intros q q' Hb. unfold co_start. destruct (submit_io tag q) as [[ret q1]|] eqn:H1; [|done]. cbn [mbind option_bind].
  assert (He : holds q1 = holds q) by (apply (submit_keeps tag q q1 Hb); by rewrite H1).
  case_bool; [by intros [= <-]|]. case_bool; [|by intros [= <-]].
  intros H. rewrite <- He. eapply complete_co_keeps; [by rewrite (holds_batch _ _ He)|exact H].
Qed.

Lemma tgt_io_done_keeps zero_ok tag cqe : keeps (ublksrv_tgt_io_done submit_io zero_ok tag cqe).
Proof.
  intros q q' Hb. unfold ublksrv_tgt_io_done, co_resume. case_bool; [|done].
  destruct (cos (private_data q) !! Z.to_nat tag) as [[|more r]|]; [done| |done].
  case_bool; [by intros [= <-]|]. case_bool; [by apply co_start_keeps|]. by eapply complete_co_keeps.
Qed.
End coroutine.

Lemma null_submit_io_keeps {R : Type} `{!Uring R} tag : keeps (fun q => snd <$> null_submit_io (R := R) tag q).
Proof.
  intros q q' Hb. unfold null_submit_io. destruct (get_iod q tag) as [iod|]; [|done]. cbn [mbind option_bind].
  case_bool; [destruct (build_user_data _ _ _ _); [|done]; cbn [mbind option_bind]; by apply submit_keeps_sqes|].
  case_bool; [by intros [= <-]|].
  destruct (build_user_data tag (ublk_cmd_op_nr UBLK_U_IO_REGISTER_IO_BUF) 0 1); [|done]. cbn [mbind option_bind].
  destruct (build_user_data tag (ublksrv_get_op iod) 0 1); [|done]. cbn [mbind option_bind].
  destruct (build_user_data _ _ _ _); [|done]. cbn [mbind option_bind]. by apply submit_keeps_sqes.
Qed.

#[export] Instance null_keeps {R : Type} `{!Uring R} : TargetKeeps (null_tgt_type (R := R)) (fun _ _ q => Some q).
Proof.
  split; cbn [null_tgt_type handle_io_async tgt_io_done handle_event handle_io_background idle_fn]; try done.
  - intros tag q q' Hb. unfold null_handle_io_async. case_bool.
    + unfold __null_handle_io_async. destruct (co_start _ true tag q) as [q1|] eqn:H1; [|done]. cbn. intros [= <-].
      eapply co_start_keeps; eauto using null_submit_io_keeps.
    + destruct (get_iod q tag) as [iod|]; [|done]. cbn [mbind option_bind].
      destruct (ublksrv_complete_io tag _ q) as [[r q1]|] eqn:H1; [|done]. cbn. intros [= <-].
      eapply (complete_io_keeps tag); [done|]. by rewrite H1.
  - intros f tag cqe [= <-]. by apply tgt_io_done_keeps, null_submit_io_keeps.
  - intros cb ev q q' _. by intros [= <-].
Qed.

(** The driver aborts both fetch commands; the next round ends the loop. *)
Definition ext_rounds : list round :=
  [(exu_descs, [abort_cqe (cmd_ud 0 UBLK_IO_FETCH_REQ); abort_cqe (cmd_ud 1 UBLK_IO_FETCH_REQ)]); (exu_descs, [])].

(** All the driver can hold of a queue with two tags, both in flight, that only
    sent the fetch commands. *)
Lemma two_fetches (q : queue ListRing.ring (co_tgt unit)) K :
  qinv null_tgt_type q K -> cmd_inflight q = 2 -> q_depth q = 2 ->
  history 0 (io_commands (ring_log (ring q))) = [UBLK_IO_FETCH_REQ] ->
  history 1 (io_commands (ring_log (ring q))) = [UBLK_IO_FETCH_REQ] ->
  K ≡ₚ [cmd_ud 0 UBLK_IO_FETCH_REQ; cmd_ud 1 UBLK_IO_FETCH_REQ].
Proof.
  intros (A&Hs&_&HK&Hh) Hc Hd H0 H1. rewrite HK. clear HK.
  pose proof (qs_len _ _ Hs) as Hl. pose proof (qs_inflight _ _ Hs) as Hi. rewrite (qs_log _ _ Hs) in H0, H1.
  rewrite Hd in Hl. rewrite Hc in Hi. unfold hist_inv in Hh.
  destruct (a_tags A) as [|t0 [|t1 [|t2 ts]]]; cbn in Hl; try lia.
  rewrite !total_cons in Hi.
  destruct t0 as [|o0| | |], t1 as [|o1| | |]; cbn in Hi; try lia.
  destruct (Hh 0%nat _ eq_refl) as [_ E0]. destruct (Hh 1%nat _ eq_refl) as [_ E1].
  specialize (E0 _ eq_refl). specialize (E1 _ eq_refl). rewrite H0 in E0. rewrite H1 in E1.
  injection E0 as <-. injection E1 as <-. done.
Qed.

Lemma ext_legal a :
  ublksrv_queue_init_flags exu_ops exu_info exu_tgt (exu_env true) exu_garbage 0 0 exu_data handler_flags = Some (InitOk a) ->
  legal_rounds null_tgt_type ex_epoll_wait ex_epoll_call exu_info ext_rounds (qa_q a).
Proof.
  intros Ha. vm_compute in Ha. injection Ha as <-. split; [reflexivity|]. split.
  - intros K HK. apply two_fetches in HK; [|reflexivity..].
    eapply legal_cons; [apply consumes_io; exact HK|]. intros q' Hq'. vm_compute in Hq'. injection Hq' as <-.
    eapply legal_cons; [apply consumes_io; cbn [app]; reflexivity|]. intros q' _. apply legal_nil.
  - intros ret q' Hq'. vm_compute in Hq'. injection Hq' as _ <-. split; [reflexivity|]. split; [|done].
    intros K _. apply legal_nil.
Qed.

Lemma queue_thread_life_witness :
  exists q a, ublksrv_queue_handler null_tgt_type ex_epoll_wait ex_epoll_call exu_ops exu_info exu_tgt (exu_env true)
      exu_garbage 0 0 exu_data ext_rounds = Some (ThEnded q a) /\
    stopping q = true /\ cmd_inflight q = 0 /\
    trace (qa_q a) = trace q ++ [EvClose 11; EvFree 0x40000; EvUnregister 0; EvUnregister 1; EvUnregister 2; EvClose 5; EvMunmap 0x7000 4096;
      EvFree 0x10000; EvFree 0x20000; EvFree 0x11000; EvFree 0x20040; EvFree 0x30000].
Proof.
  destruct (queue_thread_life null_tgt_type ex_epoll_wait ex_epoll_call ex_epoll_registered ex_epoll_safe
    exu_ops exu_info exu_tgt (exu_env true) exu_garbage 0 0 exu_data 0x7000 exu_descs 5 exu_ring ext_rounds
    (exu_config handler_flags) exu_tinv ext_legal) as (th&Hth&Hc).
  destruct th as [|q|q a]; [destruct Hc|vm_compute in Hth; discriminate Hth|].
  exists q, a. split; [exact Hth|]. destruct Hc as [(Hst&Hin&_) Htr]. split; [exact Hst|]. split; [exact Hin|].
  assert (Hep : epollfd q = 11 /\ epoll_callbacks q = [mk_epoll_cb 0x40000 9 3]).
  { vm_compute in Hth. injection Hth as <- _. split; reflexivity. }
  rewrite Htr, (proj1 Hep), (proj2 Hep). vm_compute. reflexivity.
Defined.
