(* ===== verification/DevSetup.v ===== *)
(** * Setting a device up and tearing it down

    [ublksrv_dev_init] and [ublksrv_dev_deinit] of lib/ublksrv.c with the
    target's set-up, the pid file (also create_pid_file of lib/utils.c) and
    what they call.  Closing, unlinking and freeing are recorded in order.  The
    structure comes from calloc(3), which is taken to succeed, and is all zeroes;
    its [thread] array stays NULL in the library.  The target's private data [D]
    are set by its callbacks. *)

From S2P Require Import Prelude Params Json Ctrl QueueSetup.

Inductive devent :=
| DvClose (fd : Z)
| DvShutdown (fd : Z)
| DvFsync (fd : Z)
| DvDirect (fd : Z)      (* fcntl(fd, F_SETFL, O_DIRECT) *)
| DvUnlinkPid          (* the pid file of this device number *)
| DvFreeData           (* the target's private data *)
| DvFreeDev.

#[global] Instance devent_eq_dec : EqDecision devent.
Proof. solve_decision. Defined.

(** [struct _ublksrv_dev]; [dv_ops]: tgt.ops is not NULL. *)
Record ublksrv_dev {D : Type} := mk_dev {
  dv_tgt : ublksrv_tgt_info;
  dv_ops : bool;
  dv_data : option D;          (* tgt.tgt_data *)
  dv_ctrl : ublksrv_ctrl_dev;
  cdev_fd : Z;
  pid_file_fd : Z;
  dv_cq_depth : Z;
  dv_log : list devent
}.
#[global] Arguments ublksrv_dev D : clear implicits.
#[global] Arguments mk_dev {D}.

Section dev_updates.
Context {D : Type}.
Implicit Types dv : ublksrv_dev D.

Definition dv_set_tgt (t : ublksrv_tgt_info) (dv : ublksrv_dev D) : ublksrv_dev D :=
  mk_dev t (dv_ops dv) (dv_data dv) (dv_ctrl dv) (cdev_fd dv) (pid_file_fd dv) (dv_cq_depth dv) (dv_log dv).
Definition dv_set_ops (b : bool) (dv : ublksrv_dev D) : ublksrv_dev D :=
  mk_dev (dv_tgt dv) b (dv_data dv) (dv_ctrl dv) (cdev_fd dv) (pid_file_fd dv) (dv_cq_depth dv) (dv_log dv).
Definition dv_set_data (d : option D) (dv : ublksrv_dev D) : ublksrv_dev D :=
  mk_dev (dv_tgt dv) (dv_ops dv) d (dv_ctrl dv) (cdev_fd dv) (pid_file_fd dv) (dv_cq_depth dv) (dv_log dv).
Definition dv_set_ctrl (c : ublksrv_ctrl_dev) (dv : ublksrv_dev D) : ublksrv_dev D :=
  mk_dev (dv_tgt dv) (dv_ops dv) (dv_data dv) c (cdev_fd dv) (pid_file_fd dv) (dv_cq_depth dv) (dv_log dv).
Definition dv_set_pid_fd (fd : Z) (dv : ublksrv_dev D) : ublksrv_dev D :=
  mk_dev (dv_tgt dv) (dv_ops dv) (dv_data dv) (dv_ctrl dv) (cdev_fd dv) fd (dv_cq_depth dv) (dv_log dv).
Definition dv_event (e : devent) (dv : ublksrv_dev D) : ublksrv_dev D :=
  mk_dev (dv_tgt dv) (dv_ops dv) (dv_data dv) (dv_ctrl dv) (cdev_fd dv) (pid_file_fd dv) (dv_cq_depth dv)
    (dv_log dv ++ [e]).
Definition ublksrv_dev_set_cq_depth (n : Z) (dv : ublksrv_dev D) : ublksrv_dev D :=
  mk_dev (dv_tgt dv) (dv_ops dv) (dv_data dv) (dv_ctrl dv) (cdev_fd dv) (pid_file_fd dv) n (dv_log dv).
Definition ublksrv_dev_get_cq_depth (dv : ublksrv_dev D) : Z := dv_cq_depth dv.
End dev_updates.

(** [tgt_argc] of the control device; the daemon that recovers has none. *)
Definition ublksrv_is_recovering (tgt_argc : Z) (d : ublksrv_ctrl_dev) : bool := (tgt_argc =? -1) || recover d.

(** ** The pid file *)

(** [fd], [trunc], [wr]: the results of open(2) and ftruncate(2) and whether
    write(2) wrote everything.  The result, what is stored in [*pid_fd], and
    the calls made. *)
Definition create_pid_file (fd trunc : Z) (wr : bool) : Z * option Z * list devent :=
  if fd <? 0 then (fd, None, [])
  else if trunc =? -1 then (-1, None, [DvClose fd; DvUnlinkPid])
  else if negb wr then (-1, None, [DvClose fd; DvUnlinkPid])
  else (0, Some fd, []).

Section dev.
Context {D : Type}.
Notation dev := (ublksrv_dev D).

(** [junk]: what the local variable [pid_fd] held. *)
Definition ublksrv_create_pid_file (junk fd trunc : Z) (wr : bool) (dv : dev) : Z * dev :=
  match run_dir (dv_ctrl dv) with
  | None => (0, dv)
  | Some _ =>
      let '(ret, pid_fd, evs) := create_pid_file fd trunc wr in
      let dv := foldl (fun dv e => dv_event e dv) dv evs in
      if ret <? 0 then
        (ret, if ret =? -1 then dv_event DvUnlinkPid (dv_event (DvClose (default junk pid_fd)) dv) else dv)
      else (0, dv_set_pid_fd (default junk pid_fd) dv)
  end.

Definition ublksrv_remove_pid_file (dv : dev) : dev :=
  match run_dir (dv_ctrl dv) with
  | None => dv
  | Some _ => dv_event DvUnlinkPid (dv_event (DvClose (pid_file_fd dv)) dv)
  end.

(** ** The target *)
Record tgt_type := mk_tgt {
  tt_name : string;
  tt_handle_io_async : bool;
  tt_alloc_io_buf : bool;
  tt_free_io_buf : bool;
  tt_init_tgt : option (dev -> option (Z * dev));
  tt_recovery_tgt : option (dev -> option (Z * dev));
  tt_deinit_tgt : option (dev -> dev)
}.

Definition __ublksrv_tgt_init (argc : Z) (type_name : string) (ops : tgt_type) (dv : dev) : option (Z * dev) :=
  if negb (String.eqb (tt_name ops) type_name) then Some (- EINVAL, dv)
  else if negb (tt_handle_io_async ops) then Some (- EINVAL, dv)
  else if xorb (negb (tt_alloc_io_buf ops)) (negb (tt_free_io_buf ops)) then Some (- EINVAL, dv)
  else
    let dv := dv_set_ops true dv in
    '(ret, dv) ←
      (if negb (ublksrv_is_recovering argc (dv_ctrl dv)) then
         match tt_init_tgt ops with Some f => f dv | None => Some (0, dv) end
       else
         match tt_recovery_tgt ops with
         | Some f => f dv
         | None => match tt_init_tgt ops with Some f => f dv | None => Some (- ENOTSUP, dv) end
         end);
    Some (ret, if ret =? 0 then dv else dv_set_ops false dv).

Definition ublksrv_tgt_init (argc : Z) (type_name : option string) (ops : option tgt_type) (dv : dev)
    : option (Z * dev) :=
  match type_name, ops with
  | Some n, Some o => __ublksrv_tgt_init argc n o dv
  | _, _ => Some (- EINVAL, dv)
  end.

Fixpoint close_fds (fds : list Z) (dv : dev) : dev :=
  match fds with
  | [] => dv
  | fd :: fds => close_fds fds (dv_event (DvClose fd) dv)
  end.

(** [for (i = 1; i < tgt->nr_fds; i++) close(tgt->fds[i])] *)
Definition ublksrv_tgt_exit (dv : dev) : dev :=
  close_fds (take (Z.to_nat (nr_fds (dv_tgt dv) - 1)) (drop 1 (tgt_fds (dv_tgt dv)))) dv.

Definition ublksrv_tgt_deinit (ops : option tgt_type) (dv : dev) : dev :=
  let dv := ublksrv_tgt_exit dv in
  match ops with
  | Some o => match dv_ops dv, tt_deinit_tgt o with true, Some f => f dv | _, _ => dv end
  | None => dv
  end.

(** ** The device *)
Definition close_cdev (dv : dev) : dev :=
  let dv := dv_event (DvClose (cdev_fd dv)) dv in
  mk_dev (dv_tgt dv) (dv_ops dv) (dv_data dv) (dv_ctrl dv) (-1) (pid_file_fd dv) (dv_cq_depth dv) (dv_log dv).

Definition ublksrv_dev_deinit (ops : option tgt_type) (dv : dev) : dev :=
  let dv := ublksrv_remove_pid_file dv in
  let dv := ublksrv_tgt_deinit ops dv in
  let dv := if 0 <=? cdev_fd dv then close_cdev dv else dv in
  dv_event DvFreeDev dv.

(** The loop that opens the char device: [opens k] is the result of the attempt
    [k], a descriptor or minus the errno.  The result is the last one and the
    number of attempts made. *)
Fixpoint open_loop (fuel : nat) (opens : nat -> Z) (tried : nat) : option (Z * nat) :=
  match fuel with
  | O => None
  | S fuel =>
      let ret := opens tried in
      if 0 <=? ret then Some (ret, S tried)
      else if negb (ret =? - EBUSY) || (10 <=? Z.of_nat tried) then Some (ret, S tried)
      else open_loop fuel opens (S tried)
  end.

Definition open_fuel : nat := 11.

(** A device from calloc(3). *)
Definition zero_tgt : ublksrv_tgt_info := mk_tgt_info 0 0 0 (replicate 32 0) 0 0 (0, 0).
Definition fresh_dev (ctrl : ublksrv_ctrl_dev) : dev := mk_dev zero_tgt false None ctrl (-1) 0 0 [].

Definition set_cdev (fd : Z) (dv : dev) : dev :=
  let t := dv_tgt dv in
  mk_dev (mk_tgt_info (dev_size t) (tgt_ring_depth t) (nr_fds t) (<[0%nat := fd]> (tgt_fds t)) (extra_ios t)
            (io_data_size t) (iowq_max_workers t))
    (dv_ops dv) (dv_data dv) (dv_ctrl dv) fd (pid_file_fd dv) (dv_cq_depth dv) (dv_log dv).

(** The result is the device, or NULL with what the clean-up did. *)
Definition ublksrv_dev_init (argc : Z) (type_name : option string) (ops : option tgt_type) (opens : nat -> Z)
    (junk fd trunc : Z) (wr : bool) (ctrl : ublksrv_ctrl_dev) : option (bool * dev) :=
  let dv := fresh_dev ctrl in
  '(ret, _) ← open_loop open_fuel opens 0;
  if ret <? 0 then Some (false, ublksrv_dev_deinit ops dv)
  else
    '(ret, dv) ← ublksrv_tgt_init argc type_name ops (set_cdev ret dv);
    if negb (ret =? 0) then Some (false, ublksrv_dev_deinit ops dv)
    else
      let '(ret, dv) := ublksrv_create_pid_file junk fd trunc wr dv in
      if negb (ret =? 0) then Some (false, ublksrv_dev_deinit ops dv) else Some (true, dv).

(** ** Theorems *)

(** The loop makes at most eleven attempts: it stops at the first one that is
    not refused with EBUSY. *)
Lemma open_loop_spec fuel opens tried :
  (tried <= 10)%nat -> (11 <= fuel + tried)%nat ->
  exists ret n, open_loop fuel opens tried = Some (ret, n) /\ (tried < n <= 11)%nat /\ ret = opens (pred n) /\
    (forall k, (tried <= k < pred n)%nat -> opens k = - EBUSY) /\ (n = 11%nat \/ ret <> - EBUSY).
Proof.
  revert tried. induction fuel as [|fuel IH]; intros tried Ht Hf; [lia|]. cbn [open_loop].
  destruct (Z.leb_spec 0 (opens tried)).
  { exists (opens tried), (S tried). split; [done|]. split; [lia|]. split; [done|]. split; [lia|].
    right. unfold EBUSY. lia. }
  destruct (Z.eqb_spec (opens tried) (- EBUSY)) as [Heq|Hne]; cbn [negb orb].
  - destruct (Z.leb_spec 10 (Z.of_nat tried)).
    + exists (opens tried), (S tried). split; [done|]. split; [lia|]. split; [done|]. split; [lia|]. left. lia.
    + destruct (IH (S tried)) as (ret&n&Hn&Hlt&Hret&Hb&Hor); [lia|lia|].
      exists ret, n. split; [done|]. split; [lia|]. split; [done|]. split; [|done].
      intros k Hk. destruct (decide (k = tried)) as [->|]; [done|]. apply Hb. lia.
  - exists (opens tried), (S tried). split; [done|]. split; [lia|]. split; [done|]. split; [lia|]. by right.
Qed.

(** Opening the char device always finishes: whatever the attempts return,
    the loop of [ublksrv_dev_init] ends within eleven of them, with the result
    of the last one; it goes on only after EBUSY, and gives up on EBUSY only
    after the eleventh. *)
Theorem dev_open_terminates opens :
  exists ret n, open_loop open_fuel opens 0 = Some (ret, n) /\ (0 < n <= 11)%nat /\ ret = opens (pred n) /\
    (forall k, (k < pred n)%nat -> opens k = - EBUSY) /\ (ret = - EBUSY -> n = 11%nat).
Proof.
  destruct (open_loop_spec open_fuel opens 0) as (ret&n&Hn&Hlt&Hret&Hb&Hor); [lia|unfold open_fuel; lia|].
  exists ret, n. split; [done|]. split; [lia|]. split; [done|]. split; [intros k Hk; apply Hb; lia|].
  intros He. by destruct Hor.
Qed.

Lemma close_fds_spec fds dv :
  dv_log (close_fds fds dv) = dv_log dv ++ map DvClose fds /\ dv_ops (close_fds fds dv) = dv_ops dv /\
  cdev_fd (close_fds fds dv) = cdev_fd dv /\ dv_tgt (close_fds fds dv) = dv_tgt dv /\
  dv_ctrl (close_fds fds dv) = dv_ctrl dv.
Proof.
  revert dv. induction fds as [|fd fds IH]; intros dv; cbn [close_fds map]; [by rewrite app_nil_r|].
  destruct (IH (dv_event (DvClose fd) dv)) as (H1&H2&H3&H4&H5). rewrite H1, H2, H3, H4, H5. cbn.
  by rewrite <- app_assoc.
Qed.

(** A device that cannot be set up takes another daemon's file with it.
    When opening the char device fails, or the target refuses it, the clean-up
    of [ublksrv_dev_init] unlinks the pid file of that device number, which this
    process has not created (it belongs to a running daemon, if there is one),
    and closes descriptor 0, which calloc left as [pid_file_fd]. *)
Theorem dev_init_failure_removes_pid_file argc name ops opens junk fd trunc wr ctrl dir ret n :
  run_dir ctrl = Some dir -> open_loop open_fuel opens 0 = Some (ret, n) ->
  (ret < 0 -> exists dv, ublksrv_dev_init argc name ops opens junk fd trunc wr ctrl = Some (false, dv) /\
     dv_log dv = [DvClose 0; DvUnlinkPid; DvFreeDev]) /\
  (0 <= ret -> forall e dv1, ublksrv_tgt_init argc name ops (set_cdev ret (fresh_dev ctrl)) = Some (e, dv1) -> e <> 0 ->
     run_dir (dv_ctrl dv1) = run_dir ctrl -> pid_file_fd dv1 = 0 ->
     exists dv rest, ublksrv_dev_init argc name ops opens junk fd trunc wr ctrl = Some (false, dv) /\
       dv_log dv = dv_log dv1 ++ DvClose 0 :: DvUnlinkPid :: rest).
Proof.
  intros Hdir Hopen. unfold ublksrv_dev_init. rewrite Hopen. cbn [mbind option_bind]. split.
  - intros Hret. rewrite (proj2 (Z.ltb_lt _ _)) by done. eexists. split; [done|].
    unfold ublksrv_dev_deinit, ublksrv_remove_pid_file. cbn [dv_ctrl fresh_dev]. rewrite Hdir.
    unfold ublksrv_tgt_deinit, ublksrv_tgt_exit. cbn. by destruct ops.
  - intros Hret e dv1 Htgt Hne Hctrl Hpid. rewrite (proj2 (Z.ltb_ge _ _)), Htgt by done. cbn [mbind option_bind].
    rewrite (proj2 (Z.eqb_neq e 0)) by done. cbn [negb].
    assert (Hops : dv_ops dv1 = false).
    { unfold ublksrv_tgt_init, __ublksrv_tgt_init in Htgt. destruct name, ops; try (by injection Htgt as <- <-).
      repeat (match type of Htgt with context [if ?b then Some (- EINVAL, _) else _] => destruct b end;
        [by injection Htgt as <- <-|]).
      match type of Htgt with (?m ≫= _) = _ => destruct m as [[ret1 dv2]|] end; [|done]. cbn in Htgt.
      injection Htgt as <- <-. by rewrite (proj2 (Z.eqb_neq ret1 0)). }
    unfold ublksrv_dev_deinit, ublksrv_remove_pid_file. rewrite Hctrl, Hdir, Hpid.
    unfold ublksrv_tgt_deinit, ublksrv_tgt_exit. cbn [dv_event dv_tgt].
    set (dv2 := dv_event DvUnlinkPid (dv_event (DvClose 0) dv1)). set (fds := take _ _).
    destruct (close_fds_spec fds dv2) as (H1&H2&H3&_). set (dv3 := close_fds fds dv2) in *.
    assert ((match ops with Some o => match dv_ops dv3, tt_deinit_tgt o with true, Some f => f dv3 | _, _ => dv3 end
             | None => dv3 end) = dv3) as ->.
    { rewrite H2. change (dv_ops dv2) with (dv_ops dv1). rewrite Hops. by destruct ops. }
    exists (dv_event DvFreeDev (if 0 <=? cdev_fd dv3 then close_cdev dv3 else dv3)),
      (map DvClose fds ++ (if 0 <=? cdev_fd dv3 then [DvClose (cdev_fd dv3)] else []) ++ [DvFreeDev]).
    split; [done|].
    destruct (0 <=? cdev_fd dv3); cbn [close_cdev dv_event dv_log]; rewrite H1; unfold dv2; cbn [dv_event dv_log];
      by rewrite <- !app_assoc.
Qed.
End dev.
#[global] Arguments tgt_type D : clear implicits.
