(* ===== verification/NbdHandshake.v ===== *)
(** * Connecting to an nbd server

    targets/nbd/nbd-client.c and targets/nbd/cliserv.c: opening a socket and the
    negotiation that precedes the transmission phase.  The code is compiled with
    NOTLS.  The socket is an interface; reading and writing may be short, and the
    loops of [readit] and [writeit] have no bound of their own, so everything
    takes fuel.  Most errors end the process: a computation returns, exits, or is
    [HsStuck], which is running out of fuel or touching memory outside a buffer.
    What malloc(3) and the stack hold before they are written is [junk]. *)

From S2P Require Import Prelude Bytes.

Definition cliserv_magic : Z := 0x00420281861253.
Definition opts_magic : Z := 0x49484156454F5054.
Definition rep_magic : Z := 0x3e889045565a9.

Definition NBD_OPT_EXPORT_NAME : Z := 1.
Definition NBD_OPT_ABORT : Z := 2.
Definition NBD_OPT_LIST : Z := 3.
Definition NBD_OPT_GO : Z := 7.
Definition NBD_REP_ACK : Z := 1.
Definition NBD_REP_SERVER : Z := 2.
Definition NBD_REP_INFO : Z := 3.
Definition NBD_REP_FLAG_ERROR : Z := bit 31.
Definition NBD_REP_ERR_UNSUP : Z := Z.lor 1 NBD_REP_FLAG_ERROR.
Definition NBD_REP_ERR_POLICY : Z := Z.lor 2 NBD_REP_FLAG_ERROR.
Definition NBD_FLAG_FIXED_NEWSTYLE : Z := bit 0.
Definition NBD_FLAG_NO_ZEROES : Z := bit 1.
Definition NBD_FLAG_C_FIXED_NEWSTYLE : Z := NBD_FLAG_FIXED_NEWSTYLE.
Definition NBD_FLAG_C_NO_ZEROES : Z := NBD_FLAG_NO_ZEROES.
Definition NBD_INFO_EXPORT : Z := 0.
Definition NBDC_DO_LIST : Z := 1.
Definition BUF_SIZE : nat := 1024.

(** "NBDMAGIC" *)
Definition INIT_PASSWD : list Z := [78; 66; 68; 77; 65; 71; 73; 67].

(** ** Opening the connection *)

(** One address of getaddrinfo(3): what socket(2) and connect(2) return. *)
Record net_addr := mk_addr { ad_sock : Z; ad_connect : Z }.

(** The connected socket, if any, and the descriptors closed on the way. *)
Fixpoint opennet_loop (addrs : list net_addr) : option Z * list Z :=
  match addrs with
  | [] => (None, [])
  | a :: addrs =>
      if ad_sock a =? -1 then opennet_loop addrs
      else if negb (ad_connect a =? -1) then (Some (ad_sock a), [])
      else let '(r, closed) := opennet_loop addrs in (r, ad_sock a :: closed)
  end.

(** [e]: the result of getaddrinfo.  [sdp] is always false here. *)
Definition opennet (e : Z) (addrs : list net_addr) : Z * list Z :=
  if negb (e =? 0) then (-1, [])
  else match opennet_loop addrs with
  | (None, closed) => (-1, closed)
  | (Some sock, closed) => (sock, closed)
  end.

Definition SUN_PATH_LEN : nat := 108.

Definition openunix (path : list Z) (a : net_addr) : Z * list Z :=
  if (SUN_PATH_LEN <=? length (c_string path))%nat then (-1, [])
  else if ad_sock a =? -1 then (-1, [])
  else if ad_connect a =? -1 then (-1, [ad_sock a])
  else (ad_sock a, []).

(** ** Computations on a socket *)

(** [nbd_read]: an errno, or the bytes received (none at the end of the
    stream).  [nbd_write]: the result, and errno. *)
Class NbdSock (S : Type) := {
  nbd_read : S -> Z -> (Z + list Z) * S;
  nbd_write : S -> list Z -> Z * Z * S
}.

Inductive hs_out {S A : Type} :=
| HsRet (a : A) (s : S)
| HsExit (code : Z) (s : S)
| HsStuck.
#[global] Arguments hs_out S A : clear implicits.

Definition hs (S A : Type) : Type := S -> hs_out S A.
#[global] Instance hs_ret S : MRet (hs S) := fun A a s => HsRet a s.
#[global] Instance hs_bind S : MBind (hs S) := fun A B f m s =>
  match m s with
  | HsRet a s => f a s
  | HsExit c s => HsExit c s
  | HsStuck => HsStuck
  end.
Definition hs_exit {S A} (code : Z) : hs S A := fun s => HsExit code s.
Definition hs_stuck {S A} : hs S A := fun _ => HsStuck.

Lemma hs_bind_ret {S A B} (m : hs S A) (f : A -> hs S B) s a s' :
  m s = HsRet a s' -> (m ≫= f) s = f a s'.
Proof. intros H. unfold mbind, hs_bind. by rewrite H. Qed.

Section handshake.
Context {S : Type} `{!NbdSock S}.
Variable fuel : nat.
Variable junk : S -> nat -> list Z.

Definition hs_junk (n : nat) : hs S (list Z) := fun s => HsRet (junk s n) s.

(** ** Reading and writing everything *)

(** [got]: the bytes stored so far; [len]: how many are missing. *)
Fixpoint readit_loop (n : nat) (got : list Z) (len : Z) : hs S (Z * list Z) :=
  if len <=? 0 then mret (0, got)
  else match n with
  | O => hs_stuck
  | Datatypes.S n => fun s =>
      match nbd_read s len with
      | (inl errno, s) => if errno =? EAGAIN then readit_loop n got len s else HsRet (-1, got) s
      | (inr [], s) => HsRet (-1, got) s
      | (inr bs, s) => readit_loop n (got ++ bs) (len - Z.of_nat (length bs)) s
      end
  end.

(** The result, and the buffer [old] with what was received. *)
Definition readit (old : list Z) (len : Z) : hs S (Z * list Z) :=
  '(res, bs) ← readit_loop fuel [] len; mret (res, overwrite bs old).

(** The pointer and the length move by the result of write(2), which is minus
    one after EAGAIN. *)
Fixpoint writeit_loop (n : nat) (buf : list Z) (off len : Z) : hs S Z :=
  if len <=? 0 then mret 0
  else if negb (in_range off (Z.to_nat len) buf) then hs_stuck
  else match n with
  | O => hs_stuck
  | Datatypes.S n => fun s =>
      let '(res, errno, s) := nbd_write s (slice off (Z.to_nat len) buf) in
      if (res <=? 0) && negb (errno =? EAGAIN) then HsRet (-1) s
      else writeit_loop n buf (off + res) (len - res) s
  end.
Definition writeit (buf : list Z) (len : Z) : hs S Z := writeit_loop fuel buf 0 len.

(** ** Options and replies *)

(** [datasize] below zero: the length of the string [data]. *)
Definition send_request (opt datasize : Z) (data : option (list Z)) : hs S unit :=
  let datasize := if datasize <? 0 then Z.of_nat (length (c_string (default [] data))) else datasize in
  _ ← writeit (be_bytes 8 opts_magic ++ be_bytes 4 opt ++ be_bytes 4 datasize) 16;
  match data with
  | Some data => _ ← writeit data datasize; mret tt
  | None => mret tt
  end.

Definition send_info_request (opt : Z) (reqs : list Z) (name : list Z) : hs S unit :=
  let nlen := Z.of_nat (length (c_string name)) in
  let n_reqs := Z.of_nat (length reqs) in
  _ ← send_request opt (4 + nlen + 2 + n_reqs * 2) None;
  _ ← writeit (be_bytes 4 nlen) 4;
  _ ← writeit name nlen;
  _ ← writeit (be_bytes 2 n_reqs) 2;
  if 0 <? n_reqs then _ ← writeit (concat (map (le_bytes 2) reqs)) (n_reqs * 2); mret tt else mret tt.

Record reply := mk_reply {
  rep_opt : Z;
  rep_type : Z;
  rep_datasize : Z;
  rep_data : list Z
}.

(** A failed read leaves what malloc gave in the structure; realloc is taken to
    succeed. *)
Definition read_reply : hs S reply :=
  j ← hs_junk 20;
  '(_, h) ← readit j 20;
  let magic := be_value (take 8 h) in
  let opt := be_value (take 4 (drop 8 h)) in
  let type := be_value (take 4 (drop 12 h)) in
  let datasize := be_value (take 4 (drop 16 h)) in
  if negb (magic =? rep_magic) then hs_exit 1
  else if 0 <? datasize then
    j ← hs_junk (Z.to_nat datasize);
    '(_, d) ← readit j datasize;
    mret (mk_reply opt type datasize d)
  else mret (mk_reply opt type datasize []).

(** The size and the flags, from ten bytes. *)
Definition parse_sizes (buf : list Z) : hs S (Z * Z) :=
  if (length buf <? 10)%nat then hs_stuck
  else mret (be_value (take 8 buf), be_value (take 2 (drop 8 buf))).

Definition send_opt_exportname (can_opt_go : bool) (name : list Z) (global_flags : Z) : hs S (Z * Z) :=
  _ ← send_request NBD_OPT_EXPORT_NAME (-1) (Some name);
  j ← hs_junk 10;
  '(res, b) ← readit j 10;
  if (res <? 0) && can_opt_go then hs_exit 1
  else
    r ← parse_sizes b;
    if negb (has global_flags NBD_FLAG_NO_ZEROES) then
      j ← hs_junk 125;
      _ ← readit j 124;
      mret r
    else mret r.

(** ** Listing the exports *)

(** A plain read(2) of [n] bytes into a variable that held [old]. *)
Definition read_var (old : list Z) (n : Z) : hs S (list Z) := fun s =>
  match nbd_read s n with
  | (inl _, s) => HsExit 1 s
  | (inr bs, s) => if (length old <? length bs)%nat then HsStuck else HsRet (overwrite bs old) s
  end.

(** One round: [magic], [reptype], [len] and [lenn] keep their values (in host
    order) for a read that is short.  [names] collects what is printed. *)
Fixpoint ask_list_loop (n : nat) (magic reptype len lenn : Z) (names : list (list Z)) : hs S (list (list Z)) :=
  match n with
  | O => hs_stuck
  | Datatypes.S n =>
      m ← read_var (le_bytes 8 magic) 8;
      _ ← read_var [0; 0; 0; 0] 4;
      t ← read_var (le_bytes 4 reptype) 4;
      l ← read_var (le_bytes 4 len) 4;
      let magic := be_value m in
      let len := be_value l in
      let reptype := be_value t in
      if negb (magic =? rep_magic) then hs_exit 1
      else if has reptype NBD_REP_FLAG_ERROR then hs_exit 1
      else if reptype =? NBD_REP_ACK then mret names
      else if negb (reptype =? NBD_REP_SERVER) then hs_exit 1
      else
        ln ← read_var (le_bytes 4 lenn) 4;
        let lenn := be_value ln in
        if Z.of_nat BUF_SIZE <=? lenn then hs_exit 1
        else
          buf ← read_var (replicate BUF_SIZE 0) lenn;
          let buf := <[Z.to_nat lenn := 0]> buf in
          let name := c_string buf in
          let len := u32 (len - lenn - 4) in
          if 0 <? len then
            buf ← read_var buf len;
            if Z.of_nat BUF_SIZE <=? len then hs_stuck
            else ask_list_loop n magic reptype len lenn (names ++ [name; c_string (<[Z.to_nat len := 0]> buf)])
          else ask_list_loop n magic reptype len lenn (names ++ [name])
  end.

(** The variables are not initialised. *)
Definition ask_list : hs S (list (list Z)) :=
  _ ← send_request NBD_OPT_LIST 0 None;
  j ← hs_junk 20;
  names ← ask_list_loop fuel (le_value (take 8 j)) (le_value (take 4 (drop 8 j))) (le_value (take 4 (drop 12 j)))
            (le_value (take 4 (drop 16 j))) [];
  _ ← send_request NBD_OPT_ABORT 0 None;
  mret names.

(** ** Negotiation *)

(** The loop on the replies to NBD_OPT_GO. *)
Fixpoint go_loop (n : nat) (can_opt_go : bool) (name : list Z) (global_flags size flags : Z) : hs S (Z * Z) :=
  match n with
  | O => hs_stuck
  | Datatypes.S n =>
      rep ← read_reply;
      if has (rep_type rep) NBD_REP_FLAG_ERROR then
        if rep_type rep =? NBD_REP_ERR_UNSUP then send_opt_exportname can_opt_go name global_flags else hs_exit 1
      else if rep_type rep =? NBD_REP_INFO then
        if (length (rep_data rep) <? 2)%nat then hs_stuck
        else if be_value (take 2 (rep_data rep)) =? NBD_INFO_EXPORT then
          '(size, flags) ← parse_sizes (drop 2 (rep_data rep));
          go_loop n can_opt_go name global_flags size flags
        else go_loop n can_opt_go name global_flags size flags
      else if rep_type rep =? NBD_REP_ACK then mret (size, flags)
      else go_loop n can_opt_go name global_flags size flags
  end.

(** [keyfile]: a TLS key was given.  The result is what is stored through
    [rsize64] and [flags]. *)
Definition negotiate (size flags : Z) (name : list Z) (needed_flags client_flags do_opts : Z) (keyfile can_opt_go : bool)
    : hs S (Z * Z) :=
  '(_, buf) ← readit (replicate 256 0) 8;
  if negb (bool_decide (c_string buf = INIT_PASSWD)) then hs_exit 1
  else
    j ← hs_junk 8;
    '(_, m) ← readit j 8;
    let magic := be_value m in
    if negb (magic =? opts_magic) && (magic =? cliserv_magic) then hs_exit 1
    else
      j ← hs_junk 2;
      '(_, tmp) ← readit j 2;
      let global_flags := be_value tmp in
      if negb (Z.land needed_flags global_flags =? needed_flags) then hs_exit 1
      else
        let client_flags := if has global_flags NBD_FLAG_NO_ZEROES then Z.lor client_flags NBD_FLAG_C_NO_ZEROES
                            else client_flags in
        res ← (fun s => let '(res, _, s) := nbd_write s (be_bytes 4 client_flags) in HsRet res s);
        if res <? 0 then hs_exit 1
        else if keyfile then hs_exit 1
        else if has do_opts NBDC_DO_LIST then _ ← ask_list; hs_exit 0
        else if negb can_opt_go then send_opt_exportname can_opt_go name global_flags
        else
          _ ← send_info_request NBD_OPT_GO [] name;
          go_loop fuel can_opt_go name global_flags size flags.
End handshake.

(** ** A server on a stream

    [pending]: the bytes the server has sent and that are still to be read;
    [written]: the bytes sent to it.  A read gives some of the pending bytes, a
    write takes some of the bytes offered; how many is up to the socket, except
    that a write of a few bytes is not split. *)
Class NbdStream (S : Type) `{!NbdSock S} := {
  pending : S -> list Z;
  written : S -> list Z;
  stream_read : forall s n, 0 < n -> pending s <> [] -> exists bs s', nbd_read s n = (inr bs, s') /\
    bs <> [] /\ Z.of_nat (length bs) <= n /\ pending s = bs ++ pending s' /\ written s' = written s;
  stream_write : forall s bs, bs <> [] -> exists k e s', nbd_write s bs = (k, e, s') /\
    0 < k <= Z.of_nat (length bs) /\ ((length bs <= 4)%nat -> k = Z.of_nat (length bs)) /\
    pending s' = pending s /\ written s' = written s ++ take (Z.to_nat k) bs
}.

Section stream.
Context {S : Type} `{!NbdSock S, !NbdStream S}.
Variable fuel : nat.
Variable junk : S -> nat -> list Z.
Hypothesis junk_length : forall s n, length (junk s n) = n.

Lemma readit_loop_stream n got bs rest s len :
  pending s = bs ++ rest -> len = Z.of_nat (length bs) -> (length bs <= n)%nat ->
  exists s', readit_loop n got len s = HsRet (0, got ++ bs) s' /\ pending s' = rest /\ written s' = written s.
Proof.
  revert got bs s len. induction n as [|n IH]; intros got bs s len Hp -> Hn; cbn [readit_loop].
  - destruct bs; [|cbn in Hn; lia]. exists s. cbn. by rewrite app_nil_r.
  - destruct bs as [|b bs]; [exists s; cbn; by rewrite app_nil_r|].
    rewrite (proj2 (Z.leb_gt _ _)) by (cbn; lia).
    destruct (stream_read s (Z.of_nat (length (b :: bs)))) as (r&s1&Hr&Hne&Hlen&Hp1&Hw); [cbn; lia|by rewrite Hp|].
    rewrite Hr. destruct r as [|r0 r]; [done|]. rewrite Hp in Hp1.
    assert (Htake : r0 :: r = take (length (r0 :: r)) (b :: bs)).
    { apply (f_equal (take (length (r0 :: r)))) in Hp1. rewrite take_app_length in Hp1.
      rewrite take_app_le in Hp1 by lia. done. }
    assert (Hdrop : pending s1 = drop (length (r0 :: r)) (b :: bs) ++ rest).
    { apply (f_equal (drop (length (r0 :: r)))) in Hp1. rewrite drop_app_length in Hp1.
      rewrite drop_app_le in Hp1 by lia. done. }
    set (k := length (r0 :: r)) in *. assert (1 <= k)%nat by (subst k; cbn; lia).
    destruct (IH (got ++ r0 :: r) (drop k (b :: bs)) s1 (Z.of_nat (length (b :: bs)) - Z.of_nat k)) as (s2&Hrun&Hp2&Hw2).
    + done.
    + rewrite length_drop. lia.
    + rewrite length_drop. cbn in *. lia.
    + exists s2. rewrite Hrun, Hp2, Hw2, Hw. split; [|done]. do 2 f_equal.
      rewrite Htake at 1. rewrite <- app_assoc. by rewrite take_drop.
Qed.

Lemma readit_stream bs rest old s len :
  pending s = bs ++ rest -> len = Z.of_nat (length bs) -> (length bs <= fuel)%nat ->
  exists s', readit fuel old len s = HsRet (0, overwrite bs old) s' /\ pending s' = rest /\ written s' = written s.
Proof.
  intros Hp Hl Hf. destruct (readit_loop_stream fuel [] bs rest s len Hp Hl Hf) as (s'&Hrun&?&?).
  exists s'. unfold readit. by rewrite (hs_bind_ret _ _ _ _ _ Hrun).
Qed.

(** The whole of a buffer of that size is replaced. *)
Lemma readit_full bs rest old s len :
  pending s = bs ++ rest -> len = Z.of_nat (length bs) -> (length bs <= fuel)%nat -> length old = length bs ->
  exists s', readit fuel old len s = HsRet (0, bs) s' /\ pending s' = rest /\ written s' = written s.
Proof.
  intros Hp Hl Hf Ho. destruct (readit_stream bs rest old s len Hp Hl Hf) as (s'&Hrun&?).
  exists s'. by rewrite overwrite_all in Hrun.
Qed.

Lemma writeit_loop_stream n buf off len s :
  0 <= off -> 0 <= len -> off + len <= Z.of_nat (length buf) -> len <= Z.of_nat n ->
  exists s', writeit_loop n buf off len s = HsRet 0 s' /\ pending s' = pending s /\
    written s' = written s ++ slice off (Z.to_nat len) buf.
Proof.
  revert off len s. induction n as [|n IH]; intros off len s Ho Hl Hb Hn; cbn [writeit_loop].
  - assert (len = 0) as -> by lia. exists s. unfold slice. cbn. by rewrite app_nil_r.
  - destruct (Z.leb_spec len 0).
    { assert (len = 0) as -> by lia. exists s. unfold slice. cbn. by rewrite app_nil_r. }
    assert (Hir : in_range off (Z.to_nat len) buf = true) by (apply in_range_spec; lia).
    rewrite Hir. cbn [negb]. pose proof (length_slice off _ buf Hir) as Hsl.
    destruct (stream_write s (slice off (Z.to_nat len) buf)) as (k&e&s1&Hw&Hk&_&Hp&Hwr).
    { intros He. rewrite He in Hsl. cbn in Hsl. lia. }
    rewrite Hw. cbv beta iota. rewrite (proj2 (Z.leb_gt k 0)) by lia. cbn [andb].
    rewrite Hsl in Hk.
    destruct (IH (off + k) (len - k) s1) as (s2&Hrun&Hp2&Hw2); try lia.
    exists s2. rewrite Hrun, Hp2, Hw2, Hwr, Hp. split; [done|]. split; [done|].
    rewrite <- app_assoc. f_equal. unfold slice.
    rewrite take_take, Nat.min_l by lia.
    replace (Z.to_nat (off + k)) with (Z.to_nat off + Z.to_nat k)%nat by lia. rewrite <- drop_drop.
    replace (Z.to_nat len) with (Z.to_nat k + Z.to_nat (len - k))%nat by lia.
    generalize (drop (Z.to_nat off) buf). intros l. clear. revert l.
    induction (Z.to_nat k) as [|m IHm]; intros l; [done|]. destruct l; cbn; [by rewrite !take_nil|]. by rewrite IHm.
Qed.

(** What is written is the start of the buffer. *)
Lemma writeit_stream buf len s :
  0 <= len <= Z.of_nat (length buf) -> len <= Z.of_nat fuel ->
  exists s', writeit fuel buf len s = HsRet 0 s' /\ pending s' = pending s /\
    written s' = written s ++ take (Z.to_nat len) buf.
Proof.
  intros Hl Hf. destruct (writeit_loop_stream fuel buf 0 len s) as (s'&?&?&?); try lia. by exists s'.
Qed.

(** ** What the client sends and the server answers *)
Definition opt_header (opt datasize : Z) : list Z := be_bytes 8 opts_magic ++ be_bytes 4 opt ++ be_bytes 4 datasize.

Lemma length_opt_header opt n : length (opt_header opt n) = 16%nat.
Proof. unfold opt_header. by rewrite !length_app, !length_be_bytes. Qed.

(** The request that selects the export [name]. *)
Definition go_request (name : list Z) : list Z :=
  let nlen := Z.of_nat (length (c_string name)) in
  opt_header NBD_OPT_GO (nlen + 6) ++ be_bytes 4 nlen ++ c_string name ++ be_bytes 2 0.

Definition reply_bytes (r : reply) : list Z :=
  be_bytes 8 rep_magic ++ be_bytes 4 (rep_opt r) ++ be_bytes 4 (rep_type r) ++
  be_bytes 4 (Z.of_nat (length (rep_data r))) ++ rep_data r.

(** A reply that carries the size of its data and is not cut short. *)
Definition reply_ok (r : reply) : Prop :=
  is_u32 (rep_opt r) /\ is_u32 (rep_type r) /\ rep_datasize r = Z.of_nat (length (rep_data r)) /\
  is_u32 (rep_datasize r).

Lemma c_string_prefix name : c_string name = take (length (c_string name)) name.
Proof.
  induction name as [|b name IH]; [done|]. cbn [c_string]. destruct (b =? 0); [done|]. cbn. by rewrite <- IH.
Qed.

Lemma c_string_length name : (length (c_string name) <= length name)%nat.
Proof. rewrite c_string_prefix, length_take. lia. Qed.

(** A computation that returns and sends [out], leaving [rest] to be read. *)
Definition hs_sends {A} (m : hs S A) (s : S) (a : A) (rest out : list Z) : Prop :=
  exists s', m s = HsRet a s' /\ pending s' = rest /\ written s' = written s ++ out.

Lemma sends_bind {A B} (m : hs S A) (f : A -> hs S B) s a b rest rest' out out' :
  hs_sends m s a rest out -> (forall s', pending s' = rest -> hs_sends (f a) s' b rest' out') ->
  hs_sends (m ≫= f) s b rest' (out ++ out').
Proof.
  intros (s'&Hm&Hp&Hw) Hf. destruct (Hf s' Hp) as (s2&Hf2&Hp2&Hw2). exists s2.
  rewrite (hs_bind_ret _ _ _ _ _ Hm). split; [done|]. split; [done|]. by rewrite Hw2, Hw, app_assoc.
Qed.

Lemma sends_ret {A} (a : A) s : hs_sends (mret a) s a (pending s) [].
Proof. exists s. by rewrite app_nil_r. Qed.

Lemma sends_read bs rest old s len :
  pending s = bs ++ rest -> len = Z.of_nat (length bs) -> (length bs <= fuel)%nat -> length old = length bs ->
  hs_sends (readit fuel old len) s (0, bs) rest [].
Proof.
  intros Hp Hl Hf Ho. destruct (readit_full bs rest old s len Hp Hl Hf Ho) as (s'&?&?&Hw).
  exists s'. by rewrite Hw, app_nil_r.
Qed.

Lemma sends_write buf len s :
  0 <= len <= Z.of_nat (length buf) -> len <= Z.of_nat fuel ->
  hs_sends (writeit fuel buf len) s 0 (pending s) (take (Z.to_nat len) buf).
Proof. intros Hl Hf. destruct (writeit_stream buf len s Hl Hf) as (s'&?&?&?). by exists s'. Qed.

Lemma sends_junk n s : hs_sends (hs_junk junk n) s (junk s n) (pending s) [].
Proof. exists s. by rewrite app_nil_r. Qed.

Lemma sends_out {A} (m : hs S A) s a rest out out' : out = out' -> hs_sends m s a rest out -> hs_sends m s a rest out'.
Proof. by intros ->. Qed.

Lemma sends_opt opt datasize s : (16 <= fuel)%nat ->
  hs_sends (writeit fuel (opt_header opt datasize) 16) s 0 (pending s) (opt_header opt datasize).
Proof.
  intros Hf. eapply sends_out; [|apply sends_write; rewrite ?length_opt_header; lia].
  apply firstn_all2. rewrite length_opt_header. done.
Qed.

Lemma sends_go_request name s : (16 <= fuel)%nat -> (length name <= fuel)%nat ->
  hs_sends (send_info_request fuel NBD_OPT_GO [] name) s tt (pending s) (go_request name).
Proof.
  intros Hf Hn. pose proof (c_string_length name) as Hc. unfold send_info_request, go_request. cbn [length].
  set (nlen := Z.of_nat (length (c_string name))). change (Z.of_nat 0 * 2) with 0. replace (4 + nlen + 2 + 0) with (nlen + 6) by lia.
  assert (Hreq : hs_sends (send_request fuel NBD_OPT_GO (nlen + 6) None) s tt (pending s) (opt_header NBD_OPT_GO (nlen + 6))).
  { unfold send_request. rewrite (proj2 (Z.ltb_ge _ _)) by lia.
    eapply sends_out; [|eapply sends_bind; [apply sends_opt; done|intros s1 <-; apply sends_ret]]. apply app_nil_r. }
  eapply sends_bind; [exact Hreq|intros s1 <-].
  eapply sends_bind; [apply sends_write; rewrite ?length_be_bytes; lia|intros s2 <-].
  eapply sends_out; [|eapply sends_bind; [apply sends_write; lia|intros s3 <-]; eapply sends_bind;
    [apply sends_write; rewrite ?length_be_bytes; cbn; lia|intros s4 <-; apply sends_ret]].
  rewrite app_nil_r. f_equal. unfold nlen. rewrite Nat2Z.id. symmetry. apply c_string_prefix.
Qed.

Lemma sends_name_request opt name s : (16 <= fuel)%nat -> (length name <= fuel)%nat ->
  hs_sends (send_request fuel opt (-1) (Some name)) s tt (pending s)
    (opt_header opt (Z.of_nat (length (c_string name))) ++ c_string name).
Proof.
  intros Hf Hn. pose proof (c_string_length name) as Hc. unfold send_request. change (-1 <? 0) with true. cbv iota.
  cbn [default from_option id]. eapply sends_bind; [by apply sends_opt|intros s1 <-].
  eapply sends_out; [apply app_nil_r|].
  eapply sends_bind; [eapply sends_out; [|apply sends_write; lia]|intros s2 <-; apply sends_ret].
  rewrite Nat2Z.id. symmetry. apply c_string_prefix.
Qed.

Lemma be_value_id n v : 0 <= v < 2^(8 * Z.of_nat n) -> be_value (be_bytes n v) = v.
Proof. intros Hv. rewrite be_value_bytes. by apply Z.mod_small. Qed.

(** Fields of fixed size one after the other. *)
Lemma take_be n v rest : take n (be_bytes n v ++ rest) = be_bytes n v.
Proof. apply take_app_length'. by rewrite length_be_bytes. Qed.
Lemma drop_be n m v rest : drop (n + m) (be_bytes n v ++ rest) = drop m rest.
Proof. rewrite <- drop_drop. f_equal. apply drop_app_length'. by rewrite length_be_bytes. Qed.

Lemma sends_read_reply r rest s :
  reply_ok r -> pending s = reply_bytes r ++ rest -> (20 + length (rep_data r) <= fuel)%nat ->
  hs_sends (read_reply fuel junk) s r rest [].
Proof.
  intros (Ho&Ht&Hd&Hdl) Hp Hf. unfold read_reply.
  set (h := be_bytes 8 rep_magic ++ be_bytes 4 (rep_opt r) ++ be_bytes 4 (rep_type r) ++
            be_bytes 4 (Z.of_nat (length (rep_data r)))).
  assert (Hh : length h = 20%nat) by (unfold h; by rewrite !length_app, !length_be_bytes).
  assert (Hp1 : pending s = h ++ rep_data r ++ rest).
  { rewrite Hp. unfold reply_bytes, h. by rewrite <- !app_assoc. }
  eapply sends_out; [apply (app_nil_l [])|]. eapply sends_bind; [apply sends_junk|intros s1 Hs1].
  eapply sends_out; [apply (app_nil_l [])|].
  eapply sends_bind; [apply (sends_read h (rep_data r ++ rest)); rewrite ?Hh, ?junk_length; by rewrite ?Hs1 || lia|intros s2 Hs2].
  cbv beta iota.
  assert (Hm : be_value (take 8 h) = rep_magic) by (unfold h; rewrite take_be; by apply be_value_id).
  assert (Hopt : be_value (take 4 (drop 8 h)) = rep_opt r).
  { unfold h. rewrite (drop_be 8 0), drop_0, take_be. by apply be_value_id. }
  assert (Htype : be_value (take 4 (drop 12 h)) = rep_type r).
  { unfold h. rewrite (drop_be 8 4), (drop_be 4 0), drop_0, take_be. by apply be_value_id. }
  assert (Hsize : be_value (take 4 (drop 16 h)) = Z.of_nat (length (rep_data r))).
  { unfold h. rewrite (drop_be 8 8), (drop_be 4 4), (drop_be 4 0), drop_0.
    rewrite <- (app_nil_r (be_bytes 4 (Z.of_nat _))), take_be. apply be_value_id. by rewrite <- Hd. }
  rewrite Hm, Hopt, Htype, Hsize, Z.eqb_refl. cbn [negb].
  destruct (Z.ltb_spec 0 (Z.of_nat (length (rep_data r)))).
  - eapply sends_out; [apply (app_nil_l [])|]. eapply sends_bind; [apply sends_junk|intros s3 Hs3].
    eapply sends_out; [apply (app_nil_l [])|].
    eapply sends_bind; [apply (sends_read (rep_data r) rest); [by rewrite Hs3|done|lia|rewrite junk_length; lia]|intros s4 Hs4].
    cbv beta iota. rewrite <- Hs4. rewrite <- Hd. destruct r. apply sends_ret.
  - destruct r as [opt type size data]. cbn in *. assert (data = []) as -> by (destruct data; [done|cbn in *; lia]).
    cbn in *. subst size. rewrite <- Hs2. apply sends_ret.
Qed.

(** What a reply that is neither an error nor the acknowledgement changes. *)
Definition export_info (r : reply) : option (Z * Z) :=
  if (rep_type r =? NBD_REP_INFO) && (be_value (take 2 (rep_data r)) =? NBD_INFO_EXPORT)
  then Some (be_value (take 8 (drop 2 (rep_data r))), be_value (take 2 (drop 10 (rep_data r)))) else None.
Definition info_step (acc : Z * Z) (r : reply) : Z * Z := default acc (export_info r).

Definition info_ok (r : reply) : Prop :=
  reply_ok r /\ has (rep_type r) NBD_REP_FLAG_ERROR = false /\ rep_type r <> NBD_REP_ACK /\
  (rep_type r = NBD_REP_INFO -> (2 <= length (rep_data r))%nat /\
     (be_value (take 2 (rep_data r)) = NBD_INFO_EXPORT -> (12 <= length (rep_data r))%nat)).

Definition ack : reply := mk_reply NBD_OPT_GO NBD_REP_ACK 0 [].

Lemma sends_go_loop n can name gflags infos rest size flags s :
  Forall info_ok infos -> Forall (fun r => 20 + length (rep_data r) <= fuel)%nat infos -> (20 <= fuel)%nat ->
  pending s = concat (map reply_bytes infos) ++ reply_bytes ack ++ rest -> (length infos < n)%nat ->
  hs_sends (go_loop fuel junk n can name gflags size flags) s (foldl info_step (size, flags) infos) rest [].
Proof.
  intros Hok Hf H20. revert n size flags s. induction infos as [|r infos IH]; intros n size flags s Hp Hn;
    (destruct n as [|n]; [cbn in Hn; lia|]); cbn [go_loop].
  - eapply sends_out; [apply (app_nil_l [])|].
    eapply sends_bind; [apply (sends_read_reply ack rest); [done|done|cbn; lia]|intros s1 <-]. apply sends_ret.
  - apply Forall_cons in Hok as [(Hr&Herr&Hack&Hinfo) Hok]. apply Forall_cons in Hf as [Hfr Hf].
    cbn [map concat] in Hp. rewrite <- app_assoc in Hp.
    eapply sends_out; [apply (app_nil_l [])|].
    eapply sends_bind; [apply (sends_read_reply r _ s Hr Hp Hfr)|intros s1 Hs1]. rewrite Herr.
    cbn [foldl]. unfold info_step at 2, export_info.
    assert (Hgo : forall a b, hs_sends (go_loop fuel junk n can name gflags a b) s1 (foldl info_step (a, b) infos) rest []).
    { intros a b. apply IH; [done|done|done|cbn in Hn; lia]. }
    destruct (Z.eqb_spec (rep_type r) NBD_REP_INFO) as [Ht|Ht]; cbn [andb].
    + destruct (Hinfo Ht) as [H2 H12]. rewrite (proj2 (Nat.ltb_ge _ _)) by lia.
      destruct (Z.eqb_spec (be_value (take 2 (rep_data r))) NBD_INFO_EXPORT) as [He|He]; [|apply Hgo].
      specialize (H12 He). unfold parse_sizes. rewrite (proj2 (Nat.ltb_ge _ _)) by (rewrite length_drop; lia).
      eapply sends_out; [apply (app_nil_l [])|]. eapply sends_bind; [apply sends_ret|intros s2 Hs2]. rewrite drop_drop.
      cbn [default from_option]. apply IH; [done|done|by rewrite Hs2|cbn in Hn; lia].
    + rewrite (proj2 (Z.eqb_neq _ _) Hack). apply Hgo.
Qed.

(** The part both ways of selecting an export share: the greeting is read and
    the client's flags are sent. *)
Definition greeting (magic gflags : Z) : list Z := INIT_PASSWD ++ be_bytes 8 magic ++ be_bytes 2 gflags.
Definition client_flags_for (gflags cflags : Z) : Z :=
  if has gflags NBD_FLAG_NO_ZEROES then Z.lor cflags NBD_FLAG_C_NO_ZEROES else cflags.

Lemma negotiate_greeting size flags name magic gflags needed cflags rest s r rest' out :
  is_u64 magic -> magic <> cliserv_magic -> is_u16 gflags -> Z.land needed gflags = needed -> (20 <= fuel)%nat ->
  pending s = greeting magic gflags ++ rest ->
  (forall s', pending s' = rest ->
     hs_sends (_ ← send_info_request fuel NBD_OPT_GO [] name; go_loop fuel junk fuel true name gflags size flags) s' r rest' out) ->
  hs_sends (negotiate fuel junk size flags name needed cflags 0 false true) s r rest'
    (be_bytes 4 (client_flags_for gflags cflags) ++ out).
Proof.
  intros Hm Hne Hg Hneed Hf Hp Hk. unfold negotiate, greeting in *. rewrite <- !app_assoc in Hp.
  destruct (readit_stream INIT_PASSWD _ (replicate 256 0) s 8 Hp) as (s1&Hr1&Hp1&Hw1); [done|cbn; lia|].
  eapply sends_out; [apply app_nil_l|]. eapply sends_bind; [exists s1; split; [exact Hr1|]; split; [exact Hp1|]; by rewrite Hw1, app_nil_r|].
  clear s1 Hr1 Hp1 Hw1. intros s1 Hs1. cbv beta iota.
  rewrite bool_decide_true by (vm_compute; reflexivity). cbn [negb].
  eapply sends_out; [apply app_nil_l|]. eapply sends_bind; [apply sends_junk|intros s2 Hs2].
  eapply sends_out; [apply app_nil_l|].
  eapply sends_bind; [apply (sends_read (be_bytes 8 magic)); rewrite ?Hs2, ?Hs1, ?length_be_bytes, ?junk_length; done || lia|].
  intros s3 Hs3. cbv beta iota. rewrite be_value_id by done.
  rewrite (proj2 (Z.eqb_neq magic cliserv_magic)) by done. rewrite andb_false_r.
  eapply sends_out; [apply app_nil_l|]. eapply sends_bind; [apply sends_junk|intros s4 Hs4].
  eapply sends_out; [apply app_nil_l|].
  eapply sends_bind; [apply (sends_read (be_bytes 2 gflags)); rewrite ?Hs4, ?Hs3, ?length_be_bytes, ?junk_length; done || lia|].
  intros s5 Hs5. cbv beta iota. rewrite be_value_id by done. rewrite Hneed, Z.eqb_refl. cbn [negb].
  change (if has gflags NBD_FLAG_NO_ZEROES then Z.lor cflags NBD_FLAG_C_NO_ZEROES else cflags)
    with (client_flags_for gflags cflags).
  set (cf := be_bytes 4 _). assert (Hl : length cf = 4%nat) by apply length_be_bytes.
  destruct (stream_write s5 cf) as (k&e&s6&Hw&Hk0&Hk4&Hp6&Hw6); [intros He; by rewrite He in Hl|].
  specialize (Hk4 ltac:(lia)). rewrite Hl in *.
  eapply sends_bind; [exists s6; rewrite Hw; split; [done|]; split; [by rewrite Hp6|]; by rewrite Hw6, firstn_all2 by lia|].
  intros s7 Hs7. rewrite (proj2 (Z.ltb_ge k 0)) by lia. apply Hk. by rewrite Hs7.
Qed.

Lemma reply_bytes_length r : (20 <= length (reply_bytes r) - length (rep_data r))%nat /\
  (length (rep_data r) <= length (reply_bytes r))%nat.
Proof. unfold reply_bytes. rewrite !length_app, !length_be_bytes. lia. Qed.

Lemma replies_length infos :
  (20 * length infos <= length (concat (map reply_bytes infos)))%nat /\
  Forall (fun r => 20 + length (rep_data r) <= length (concat (map reply_bytes infos)))%nat infos.
Proof.
  induction infos as [|r infos [IH1 IH2]]; cbn [map concat length]; [done|].
  pose proof (reply_bytes_length r). rewrite length_app. split; [lia|]. constructor; [lia|].
  eapply Forall_impl; [exact IH2|]. cbn. lia.
Qed.

(** C21: Negotiation with a server that knows NBD_OPT_GO.  However the bytes are
    split into reads and writes, the client sends its flags (agreeing to leave
    the zeroes out exactly when the server offers it) and one request that
    selects the export, reads every reply up to the acknowledgement and nothing
    after it, ignores replies it does not know, and returns the size and the
    flags of the last NBD_INFO_EXPORT.  The option magic is not checked: any
    value but the one of an old server will do. *)
Theorem nbd_negotiate_go size flags name magic gflags needed cflags infos rest s :
  is_u64 magic -> magic <> cliserv_magic -> is_u16 gflags -> Z.land needed gflags = needed ->
  Forall info_ok infos ->
  pending s = greeting magic gflags ++ concat (map reply_bytes infos) ++ reply_bytes ack ++ rest ->
  (length (pending s) <= fuel)%nat -> (length name <= fuel)%nat ->
  hs_sends (negotiate fuel junk size flags name needed cflags 0 false true) s
    (foldl info_step (size, flags) infos) rest
    (be_bytes 4 (client_flags_for gflags cflags) ++ go_request name).
Proof.
  intros Hm Hne Hg Hneed Hok Hp Hf Hn.
  rewrite Hp, !length_app in Hf. destruct (replies_length infos) as [Hl1 Hl2].
  pose proof (reply_bytes_length ack) as [Hla _]. cbn [ack rep_data length] in Hla.
  eapply negotiate_greeting; try done; [lia|]. intros s1 Hs1.
  eapply sends_out; [apply app_nil_r|]. eapply sends_bind; [apply sends_go_request; lia|intros s2 Hs2].
  apply sends_go_loop; [done| |lia|by rewrite Hs2|lia].
  eapply Forall_impl; [exact Hl2|]. cbn. lia.
Qed.

(** A server without NBD_OPT_GO is asked with NBD_OPT_EXPORT_NAME: after the
    reply NBD_REP_ERR_UNSUP the client sends the name again and takes the size
    and the flags from the ten bytes that follow, and reads the 124 bytes of
    zeroes after them exactly when the server did not offer to leave them out. *)
Theorem nbd_negotiate_fallback size flags name magic gflags needed cflags r size' flags' zeroes rest s :
  is_u64 magic -> magic <> cliserv_magic -> is_u16 gflags -> Z.land needed gflags = needed ->
  reply_ok r -> rep_type r = NBD_REP_ERR_UNSUP -> is_u64 size' -> is_u16 flags' ->
  length zeroes = (if has gflags NBD_FLAG_NO_ZEROES then 0 else 124)%nat ->
  pending s = greeting magic gflags ++ reply_bytes r ++ be_bytes 8 size' ++ be_bytes 2 flags' ++ zeroes ++ rest ->
  (length (pending s) <= fuel)%nat -> (length name <= fuel)%nat ->
  hs_sends (negotiate fuel junk size flags name needed cflags 0 false true) s (size', flags') rest
    (be_bytes 4 (client_flags_for gflags cflags) ++ go_request name ++
     opt_header NBD_OPT_EXPORT_NAME (Z.of_nat (length (c_string name))) ++ c_string name).
Proof.
  intros Hm Hne Hg Hneed Hr Ht Hs' Hf' Hz Hp Hf Hn.
  rewrite Hp, !length_app in Hf. destruct (reply_bytes_length r) as [Hl1 Hl2].
  pose proof (c_string_length name) as Hc.
  eapply negotiate_greeting; [exact Hm|exact Hne|exact Hg|exact Hneed|lia|exact Hp|]. intros s1 Hs1.
  eapply sends_bind; [apply sends_go_request; lia|intros s2 Hs2].
  cut (forall n, (0 < n)%nat -> hs_sends (go_loop fuel junk n true name gflags size flags) s2 (size', flags') rest
    (opt_header NBD_OPT_EXPORT_NAME (Z.of_nat (length (c_string name))) ++ c_string name)); [intros Hall; apply Hall; lia|].
  intros [|n] Hn0; [lia|]. cbn [go_loop].
  eapply sends_out; [apply app_nil_l|].
  eapply sends_bind; [apply (sends_read_reply r); [done|rewrite Hs2; exact Hs1|lia]|intros s3 Hs3].
  rewrite Ht. change (has NBD_REP_ERR_UNSUP NBD_REP_FLAG_ERROR) with true. rewrite Z.eqb_refl. cbv iota.
  unfold send_opt_exportname. eapply sends_out; [apply app_nil_r|].
  eapply sends_bind; [apply sends_name_request; lia|].
  intros s5 Hs5. rewrite Hs3 in Hs5. eapply sends_out; [apply app_nil_l|]. eapply sends_bind; [apply sends_junk|intros s6 Hs6].
  eapply sends_out; [apply app_nil_l|].
  eapply sends_bind; [apply (sends_read (be_bytes 8 size' ++ be_bytes 2 flags') (zeroes ++ rest));
    rewrite ?length_app, ?length_be_bytes, ?junk_length; [|done|lia|done]|].
  { rewrite Hs6, Hs5. by rewrite <- app_assoc. }
  intros s7 Hs7. cbv beta iota. cbn [Z.ltb Z.compare andb]. unfold parse_sizes.
  rewrite (proj2 (Nat.ltb_ge _ _)) by (rewrite length_app, !length_be_bytes; lia).
  eapply sends_out; [apply app_nil_l|]. eapply sends_bind; [apply sends_ret|intros s8 Hs8].
  rewrite take_be, (drop_be 8 0), drop_0, firstn_all2 by (by rewrite length_be_bytes).
  rewrite !be_value_id by done. rewrite Hs7 in Hs8. destruct (has gflags NBD_FLAG_NO_ZEROES); cbn [negb].
  - destruct zeroes; [|done]. rewrite <- (app_nil_l rest), <- Hs8. apply sends_ret.
  - eapply sends_out; [apply app_nil_l|]. eapply sends_bind; [apply sends_junk|intros s9 Hs9].
    destruct (readit_stream zeroes rest (junk s8 125) s9 124) as (s10&Hrd&Hp10&Hw10);
      [by rewrite Hs9|by rewrite Hz|lia|].
    eapply sends_out; [apply app_nil_l|].
    eapply sends_bind; [exists s10; split; [exact Hrd|]; split; [exact Hp10|]; by rewrite Hw10, app_nil_r|].
    intros s11 <-. apply sends_ret.
Qed.

(** Replies the client does not survive. *)
Lemma go_loop_refused n can name gflags size flags r rest s :
  reply_ok r -> has (rep_type r) NBD_REP_FLAG_ERROR = true -> rep_type r <> NBD_REP_ERR_UNSUP ->
  pending s = reply_bytes r ++ rest -> (20 + length (rep_data r) <= fuel)%nat ->
  exists s', go_loop fuel junk (Datatypes.S n) can name gflags size flags s = HsExit 1 s'.
Proof.
  intros Hr He Hne Hp Hf. destruct (sends_read_reply r rest s Hr Hp Hf) as (s'&Hrun&_). exists s'.
  cbn [go_loop]. rewrite (hs_bind_ret _ _ _ _ _ Hrun), He. by rewrite (proj2 (Z.eqb_neq _ _) Hne).
Qed.
End stream.

(** After EAGAIN [writeit] takes one byte back: it would send what lies before
    the buffer. *)
Lemma writeit_eagain {S} `{!NbdSock S} fuel buf len s s' :
  0 < len <= Z.of_nat (length buf) -> (0 < fuel)%nat ->
  nbd_write s (take (Z.to_nat len) buf) = (-1, EAGAIN, s') -> writeit fuel buf len s = HsStuck.
Proof.
  intros Hl Hf Hw. unfold writeit. destruct fuel as [|n]; [lia|]. cbn [writeit_loop].
  rewrite (proj2 (Z.leb_gt _ _)) by lia. rewrite (proj2 (in_range_spec 0 (Z.to_nat len) buf)) by lia. cbn [negb].
  change (slice 0 (Z.to_nat len) buf) with (take (Z.to_nat len) buf). rewrite Hw. change ((-1 <=? 0) && negb (EAGAIN =? EAGAIN)) with false. cbv iota.
  assert (Ho : in_range (0 + -1) (Z.to_nat (len - -1)) buf = false).
  { destruct (in_range (0 + -1) _ buf) eqn:E; [|done]. apply in_range_spec in E. lia. }
  destruct n; cbn [writeit_loop]; rewrite (proj2 (Z.leb_gt _ _)) by lia; by rewrite Ho.
Qed.

(** ** Opening a connection leaves no socket behind *)

Definition refuses (a : net_addr) : Prop := ad_sock a = -1 \/ ad_connect a = -1.
Definition opened (l : list net_addr) : list Z := map ad_sock (filter (fun a => ad_sock a <> -1) l).

Lemma opennet_loop_spec addrs :
  (exists before a after, addrs = before ++ a :: after /\ opennet_loop addrs = (Some (ad_sock a), opened before) /\
     ~ refuses a /\ Forall refuses before) \/
  (opennet_loop addrs = (None, opened addrs) /\ Forall refuses addrs).
Proof.
  unfold opened, refuses. induction addrs as [|a addrs IH]; [by right|]. cbn [opennet_loop].
  destruct (Z.eqb_spec (ad_sock a) (-1)) as [Hs|Hs].
  { destruct IH as [(before&b&after&->&Hrun&Hb&Hall)|[Hrun Hall]]; rewrite Hrun.
    - left. exists (a :: before), b, after. rewrite filter_cons_False by tauto.
      do 3 (split; [done|]). constructor; [by left|done].
    - right. rewrite filter_cons_False by tauto. split; [done|]. constructor; [by left|done]. }
  destruct (Z.eqb_spec (ad_connect a) (-1)) as [Hc|Hc]; cbn [negb]; [|left; exists [], a, addrs; by repeat split; [tauto|]].
  destruct IH as [(before&b&after&->&Hrun&Hb&Hall)|[Hrun Hall]]; rewrite Hrun.
  - left. exists (a :: before), b, after. rewrite filter_cons_True by done.
    do 3 (split; [done|]). constructor; [by right|done].
  - right. rewrite filter_cons_True by done. split; [done|]. constructor; [by right|done].
Qed.

(** [opennet] returns the socket of the first address that takes the
    connection and has closed exactly the sockets opened for the addresses tried
    before it; when none does it fails and every socket it opened is closed. *)
Theorem opennet_no_leak addrs :
  (exists before a after, addrs = before ++ a :: after /\ opennet 0 addrs = (ad_sock a, opened before) /\
     ~ refuses a /\ Forall refuses before) \/
  (opennet 0 addrs = (-1, opened addrs) /\ Forall refuses addrs).
Proof.
  unfold opennet. cbn [negb Z.eqb].
  destruct (opennet_loop_spec addrs) as [(before&a&after&->&Hrun&Ha&Hall)|[Hrun Hall]]; rewrite Hrun.
  - left. by exists before, a, after.
  - by right.
Qed.
