(* ===== verification/NbdHsExamples.v ===== *)
(** * Negotiating with small servers

    A stream that gives at most three bytes to a read and takes at most five
    from a write, and the negotiation of NbdHandshake with two servers on it. *)

From S2P Require Import Prelude Bytes NbdHandshake.

Record pipe := mk_pipe { pipe_in : list Z; pipe_out : list Z }.

#[global] Instance pipe_sock : NbdSock pipe := {
  nbd_read s n := let k := Nat.min 3 (Z.to_nat n) in (inr (take k (pipe_in s)), mk_pipe (drop k (pipe_in s)) (pipe_out s));
  nbd_write s bs := let k := Nat.min 5 (length bs) in (Z.of_nat k, 0, mk_pipe (pipe_in s) (pipe_out s ++ take k bs))
}.

#[global] Instance pipe_stream : NbdStream pipe.
Proof.
  refine (Build_NbdStream pipe _ pipe_in pipe_out _ _).
  - intros [inp out] n Hn Hp. cbn [nbd_read pipe_sock pipe_in pipe_out] in *. eexists _, _. split; [reflexivity|].
    cbn [pipe_in pipe_out]. destruct inp as [|b inp]; [done|].
    destruct (Nat.min 3 (Z.to_nat n)) as [|k] eqn:Ek; [lia|]. split; [done|].
    split; [rewrite length_take; lia|]. split; [|done]. by rewrite take_drop.
  - intros [inp out] bs Hb. cbn [nbd_write pipe_sock pipe_in pipe_out]. eexists _, _, _. split; [reflexivity|].
    destruct bs as [|b bs]; [done|]. cbn [pipe_in pipe_out]. split; [cbn [length]; lia|]. split; [cbn [length]; lia|].
    split; [done|]. by rewrite Nat2Z.id.
Defined.

Definition exh_junk (s : pipe) (n : nat) : list Z := replicate n 170.
Lemma exh_junk_length s n : length (exh_junk s n) = n.
Proof. apply length_replicate. Qed.

(** A server with an export of 1 MiB that also sends a name nobody asked for. *)
Definition exh_infos : list reply := [
  mk_reply NBD_OPT_GO NBD_REP_INFO 4 (be_bytes 2 1 ++ [97; 98]);
  mk_reply NBD_OPT_GO NBD_REP_INFO 12 (be_bytes 2 NBD_INFO_EXPORT ++ be_bytes 8 1048576 ++ be_bytes 2 5)
].
Definition exh_go : pipe :=
  mk_pipe (greeting opts_magic 3 ++ concat (map reply_bytes exh_infos) ++ reply_bytes ack ++ [1; 2]) [].

Lemma nbd_negotiate_go_witness :
  hs_sends (negotiate 200 exh_junk 0 0 [97; 98; 0] 0 NBD_FLAG_C_FIXED_NEWSTYLE 0 false true) exh_go (1048576, 5) [1; 2]
    (be_bytes 4 3 ++ go_request [97; 98; 0]).
Proof.
  apply (nbd_negotiate_go 200 exh_junk exh_junk_length 0 0 [97; 98; 0] opts_magic 3 0 NBD_FLAG_C_FIXED_NEWSTYLE exh_infos).
  - done.
  - done.
  - done.
  - reflexivity.
  - repeat constructor; done || (cbn; lia).
  - reflexivity.
  - apply Nat.leb_le. vm_compute. reflexivity.
  - cbn. lia.
Defined.

(** One that knows only NBD_OPT_EXPORT_NAME and sends the zeroes. *)
Definition exh_unsup : reply := mk_reply NBD_OPT_GO NBD_REP_ERR_UNSUP 0 [].
Definition exh_old : pipe :=
  mk_pipe (greeting opts_magic 1 ++ reply_bytes exh_unsup ++ be_bytes 8 4096 ++ be_bytes 2 1 ++ replicate 124 0 ++ []) [].

Lemma nbd_negotiate_fallback_witness :
  hs_sends (negotiate 250 exh_junk 0 0 [97; 0] 0 NBD_FLAG_C_FIXED_NEWSTYLE 0 false true) exh_old (4096, 1) []
    (be_bytes 4 1 ++ go_request [97; 0] ++ opt_header NBD_OPT_EXPORT_NAME 1 ++ [97]).
Proof.
  apply (nbd_negotiate_fallback 250 exh_junk exh_junk_length 0 0 [97; 0] opts_magic 1 0 NBD_FLAG_C_FIXED_NEWSTYLE exh_unsup
    4096 1 (replicate 124 0) []).
  - done.
  - done.
  - done.
  - reflexivity.
  - done.
  - reflexivity.
  - done.
  - done.
  - reflexivity.
  - reflexivity.
  - apply Nat.leb_le. vm_compute. reflexivity.
  - cbn. lia.
Defined.
