(* ===== verification/Cpuset.v ===== *)
(** * CPU sets given as text (ublk_make_cpuset of lib/utils.c)

    The text holds one bracketed, comma separated list of CPUs for every queue,
    such as "[0,1][2]".  The function works on a copy of the string in which it
    replaces separators by NUL; here a pointer into the copy is the rest of the
    text, up to the NUL that ends it. *)

From S2P Require Import Prelude Json.
From stdpp Require Import pretty.
#[local] Open Scope Z_scope.

Notation text := (list Ascii.ascii).

Definition ch_open : Ascii.ascii := Ascii.ascii_of_nat 91.
Definition ch_close : Ascii.ascii := Ascii.ascii_of_nat 93.
Definition ch_comma : Ascii.ascii := Ascii.ascii_of_nat 44.

Definition CPU_SETSIZE : Z := 1024.

(** strchr(3): the text from the first [c] on. *)
Fixpoint strchr (c : Ascii.ascii) (s : text) : option text :=
  match s with
  | [] => None
  | x :: s' => if Ascii.eqb x c then Some s else strchr c s'
  end.

(** The text before the first [c]. *)
Fixpoint before (c : Ascii.ascii) (s : text) : text :=
  match s with
  | [] => []
  | x :: s => if Ascii.eqb x c then [] else x :: before c s
  end.

(** CPU_SET ignores what is outside the set. *)
Definition CPU_SET (cpu : Z) (set : gset Z) : gset Z :=
  if (0 <=? cpu) && (cpu <? CPU_SETSIZE) then {[cpu]} ∪ set else set.

(** The number of bracketed parts. *)
Fixpoint count_sets (n : nat) (ptr : text) (i : Z) : option Z :=
  match n with
  | O => None
  | S n =>
      match strchr ch_open ptr with
      | None => Some i
      | Some ptr =>
          match strchr ch_close ptr with
          | None => Some i
          | Some ptr => count_sets n ptr (i + 1)
          end
      end
  end.

(** The CPUs of one part: [do ... while (ptr && *ptr)]. *)
Fixpoint set_cpus (n : nat) (ptr : text) (set : gset Z) : option (gset Z) :=
  match n with
  | O => None
  | S n =>
      let set := CPU_SET (strtol (before ch_comma ptr)) set in
      match strchr ch_comma ptr with
      | Some (_ :: ((_ :: _) as tmp)) => set_cpus n tmp set
      | _ => Some set
      end
  end.

(** The parts, [k] of them; the inner [None] is [goto finished]. *)
Fixpoint fill_sets (n : nat) (k : nat) (ptr : text) : option (option (list (gset Z))) :=
  match k with
  | O => Some (Some [])
  | S k =>
      match strchr ch_open ptr with
      | None => Some None
      | Some ptr =>
          let ptr := drop 1 ptr in
          match strchr ch_close ptr with
          | None => Some None
          | Some next =>
              set ← set_cpus n (before ch_close ptr) ∅;
              rest ← fill_sets n k (drop 1 next);
              Some (option_map (cons set) rest)
          end
      end
  end.

(** Every round consumes a character. *)
Definition cpuset_fuel (s : text) : nat := S (length s).

(** [mem]: whether calloc(3) succeeds (strdup(3) is taken to).  The inner [None]
    is NULL. *)
Definition ublk_make_cpuset (mem : bool) (num_sets : Z) (cpuset : option text) : option (option (list (gset Z))) :=
  match cpuset with
  | None => Some None
  | Some str =>
      i ← count_sets (cpuset_fuel str) str 0;
      if negb (i =? num_sets) then Some None
      else if negb mem then Some None
      else fill_sets (cpuset_fuel str) (Z.to_nat num_sets) str
  end.

(** ** The function always returns *)
Lemma strchr_length c s t : strchr c s = Some t -> (length t <= length s)%nat /\ t <> [].
Proof.
  induction s as [|x s IH]; cbn [strchr]; [done|]. destruct (Ascii.eqb x c).
  - intros [= <-]. done.
  - intros H. destruct (IH H). cbn. split; [lia|done].
Qed.

Lemma strchr_head c s t : strchr c s = Some t -> exists r, t = c :: r.
Proof.
  induction s as [|x s IH]; cbn [strchr]; [done|]. destruct (Ascii.eqb_spec x c) as [->|]; [|done].
  intros [= <-]. by eexists.
Qed.

Lemma before_length c s : (length (before c s) <= length s)%nat.
Proof. induction s as [|x s IH]; cbn [before]; [done|]. destruct (Ascii.eqb x c); cbn; lia. Qed.

Lemma count_sets_total n ptr i : (length ptr < n)%nat -> is_Some (count_sets n ptr i).
Proof.
  revert ptr i. induction n as [|n IH]; intros ptr i Hn; [lia|]. cbn [count_sets].
  destruct (strchr ch_open ptr) as [p|] eqn:Ho; [|by eexists].
  destruct (strchr ch_close p) as [p'|] eqn:Hc; [|by eexists]. apply IH.
  destruct (strchr_length _ _ _ Ho) as [Hl _]. destruct (strchr_head _ _ _ Ho) as [r ->].
  cbn [strchr] in Hc. change (Ascii.eqb ch_open ch_close) with false in Hc. cbv iota in Hc.
  destruct (strchr_length _ _ _ Hc). cbn in *. lia.
Qed.

Lemma set_cpus_total n ptr set : (length ptr < n)%nat -> is_Some (set_cpus n ptr set).
Proof.
  revert ptr set. induction n as [|n IH]; intros ptr set Hn; [lia|]. cbn [set_cpus].
  destruct (strchr ch_comma ptr) as [[|x [|y t]]|] eqn:Hc; try (by eexists). apply IH.
  apply strchr_length in Hc as [Hl _]. cbn in *. lia.
Qed.

Lemma fill_sets_total n k ptr : (length ptr < n)%nat -> is_Some (fill_sets n k ptr).
Proof.
  revert ptr. induction k as [|k IH]; intros ptr Hn; cbn [fill_sets]; [by eexists|].
  destruct (strchr ch_open ptr) as [p|] eqn:Ho; [|by eexists]. apply strchr_length in Ho as [Hl _].
  destruct (strchr ch_close (drop 1 p)) as [p'|] eqn:Hc; [|by eexists]. apply strchr_length in Hc as [Hl' _].
  pose proof (before_length ch_close (drop 1 p)) as Hb. rewrite length_drop in *.
  destruct (set_cpus_total n (before ch_close (drop 1 p)) ∅) as [set ->]; [lia|]. cbn [mbind option_bind].
  destruct (IH (drop 1 p')) as [r ->]; [rewrite length_drop; lia|]. by eexists.
Qed.

(** Parsing always finishes, on any text: the loops of [ublk_make_cpuset]
    consume a character in every round. *)
Theorem make_cpuset_terminates mem num_sets cpuset : is_Some (ublk_make_cpuset mem num_sets cpuset).
Proof.
  unfold ublk_make_cpuset. destruct cpuset as [s|]; [|by eexists].
  destruct (count_sets_total (cpuset_fuel s) s 0) as [i ->]; [unfold cpuset_fuel; lia|]. cbn [mbind option_bind].
  destruct (negb (i =? num_sets)); [by eexists|]. destruct (negb mem); [by eexists|].
  apply fill_sets_total. unfold cpuset_fuel. lia.
Qed.

(** ** Numbers in text *)
Notation chars := String.list_ascii_of_string.
Definition is_digit (c : Ascii.ascii) : Prop := exists d, digit c = Some d.

Lemma digit_char (x : N) : (x < 10)%N -> digit (pretty_N_char x) = Some (Z.of_N x).
Proof.
  intros Hx. assert (x = 0 \/ x = 1 \/ x = 2 \/ x = 3 \/ x = 4 \/ x = 5 \/ x = 6 \/ x = 7 \/ x = 8 \/ x = 9)%N by lia.
  destruct_or!; subst x; done.
Qed.

Lemma pretty_go_digits (x : N) s : exists ds (k : nat), Forall is_digit ds /\ ((0 < x)%N -> ds <> []) /\
  chars (pretty_N_go x s) = ds ++ chars s /\
  forall acc rest, strtol_digits (ds ++ rest) acc = strtol_digits rest (acc * 10 ^ Z.of_nat k + Z.of_N x).
Proof.
  revert s. induction (N.lt_wf_0 x) as [x _ IH]; intros s. destruct (decide (x = 0%N)) as [->|Hne].
  { exists [], 0%nat. rewrite pretty_N_go_0. do 3 (split; [done || lia|]). intros acc rest. f_equal. lia. }
  rewrite pretty_N_go_step by lia.
  destruct (IH (x `div` 10)%N (N.div_lt x 10 ltac:(lia) ltac:(lia)) (String (pretty_N_char (x `mod` 10)) s))
    as (ds&k&Hds&_&Hch&Hval).
  assert (Hd : digit (pretty_N_char (x mod 10)) = Some (Z.of_N (x mod 10))) by (apply digit_char, N.mod_lt; lia).
  exists (ds ++ [pretty_N_char (x mod 10)]), (S k). split; [apply Forall_app; split; [done|]; repeat constructor; by eexists|].
  split; [by destruct ds|]. split; [rewrite Hch; cbn; by rewrite <- app_assoc|].
  intros acc rest. rewrite <- app_assoc, Hval. cbn [app strtol_digits]. rewrite Hd. f_equal.
  rewrite Nat2Z.inj_succ, Z.pow_succ_r by lia. rewrite N2Z.inj_div, N2Z.inj_mod. pose proof (Z.div_mod (Z.of_N x) 10). lia.
Qed.

Lemma digit_no_space c : is_digit c -> forall f, skip_space (c :: f) = c :: f.
Proof.
  intros [d Hd] f. unfold digit in Hd. cbn [skip_space].
  destruct ((48 <=? Z.of_nat (Ascii.nat_of_ascii c)) && (Z.of_nat (Ascii.nat_of_ascii c) <=? 57)) eqn:E; [|done].
  bool_prop. rewrite (proj2 (Z.eqb_neq _ _)) by lia. rewrite (proj2 (Z.leb_gt _ 13)) by lia. by rewrite andb_false_r.
Qed.

Lemma digit_neq c x : is_digit c -> digit x = None -> Ascii.eqb c x = false.
Proof. intros [d Hd] Hx. destruct (Ascii.eqb_spec c x) as [->|]; [by rewrite Hd in Hx|done]. Qed.

(** A number printed in decimal is read back by strtol, up to the first
    character that is not a digit. *)
Lemma strtol_pretty (z : Z) : 0 <= z -> exists ds, chars (pretty z) = ds /\ ds <> [] /\ Forall is_digit ds /\
  forall rest, (forall c r, rest = c :: r -> digit c = None) -> strtol (ds ++ rest) = z.
Proof.
  intros Hz. assert (Hrest : forall rest v, (forall c r, rest = c :: r -> digit c = None) -> strtol_digits rest v = v).
  { intros [|c r] v Hr; [done|]. cbn. by rewrite (Hr c r). }
  assert (Hstart : forall ds rest, Forall is_digit ds -> ds <> [] -> strtol (ds ++ rest) = strtol_digits (ds ++ rest) 0).
  { intros [|c ds] rest Hd Hne; [done|]. apply Forall_cons in Hd as [Hc _]. unfold strtol. cbn [app].
    rewrite digit_no_space by done. by rewrite !digit_neq. }
  destruct (decide (z = 0)) as [->|Hne].
  { exists [Ascii.Ascii false false false false true true false false]. split; [done|]. split; [done|].
    assert (Hd : Forall is_digit [Ascii.Ascii false false false false true true false false]).
    { repeat constructor. by exists 0. }
    split; [done|]. intros rest Hr. rewrite Hstart by done. cbn. by apply Hrest. }
  destruct z as [|p|p]; try lia. destruct (pretty_go_digits (N.pos p) "") as (ds&k&Hd&Hds&Hch&Hval).
  exists ds. split; [unfold pretty, pretty_Z, pretty_positive, pretty_N; cbn [decide]; by rewrite app_nil_r in Hch|].
  assert (ds <> []) by (apply Hds; lia). split; [done|]. split; [done|].
  intros rest Hr. rewrite Hstart by done. rewrite Hval, Hrest by done. lia.
Qed.

(** ** Reading back what was printed *)
Fixpoint print_cpus (cpus : list Z) : text :=
  match cpus with
  | [] => []
  | [c] => chars (pretty c)
  | c :: cpus => chars (pretty c) ++ ch_comma :: print_cpus cpus
  end.
Definition print_sets (sets : list (list Z)) : text :=
  concat (map (fun cpus => ch_open :: print_cpus cpus ++ [ch_close]) sets).

(** The characters of the lists themselves. *)
Definition plain (c : Ascii.ascii) : Prop := is_digit c \/ c = ch_comma.

Lemma strchr_skip c ds rest : Forall (fun x => Ascii.eqb x c = false) ds -> strchr c (ds ++ rest) = strchr c rest.
Proof. induction 1 as [|x ds Hx _ IH]; [done|]. cbn [strchr app]. by rewrite Hx. Qed.
Lemma before_skip c ds rest : Forall (fun x => Ascii.eqb x c = false) ds -> before c (ds ++ rest) = ds ++ before c rest.
Proof. induction 1 as [|x ds Hx _ IH]; [done|]. cbn [before app]. by rewrite Hx, IH. Qed.

Lemma digits_skip ds x : Forall is_digit ds -> digit x = None -> Forall (fun c => Ascii.eqb c x = false) ds.
Proof. intros Hd Hx. eapply Forall_impl; [exact Hd|]. intros c Hc. by apply digit_neq. Qed.

Lemma print_cpus_plain cpus : Forall (fun c => 0 <= c) cpus -> Forall plain (print_cpus cpus).
Proof.
  induction 1 as [|c cpus Hc Hcs IH]; [constructor|].
  destruct (strtol_pretty c Hc) as (ds&Hds&_&Hd&_).
  assert (Hp : Forall plain (chars (pretty c))) by (rewrite Hds; eapply Forall_impl; [exact Hd|]; by left).
  cbn [print_cpus]. destruct cpus; [done|]. apply Forall_app. split; [done|]. constructor; [by right|done].
Qed.

Lemma plain_skip s x : Forall plain s -> digit x = None -> x <> ch_comma -> Forall (fun c => Ascii.eqb c x = false) s.
Proof.
  intros Hp Hx Hne. eapply Forall_impl; [exact Hp|]. intros c [Hc| ->]; [by apply digit_neq|].
  by apply Ascii.eqb_neq.
Qed.

Definition cpu_ok (c : Z) : Prop := 0 <= c < CPU_SETSIZE.

Lemma set_cpus_print n cpus set :
  Forall cpu_ok cpus -> cpus <> [] -> (length (print_cpus cpus) < n)%nat ->
  set_cpus n (print_cpus cpus) set = Some (list_to_set cpus ∪ set).
Proof.
  intros Hok. revert n set. induction Hok as [|c cpus Hc Hcs IH]; intros n set Hne Hn; [done|].
  destruct n as [|n]; [lia|]. cbn [set_cpus].
  destruct (strtol_pretty c ltac:(unfold cpu_ok in Hc; lia)) as (ds&Hds&Hdne&Hd&Hval).
  pose proof (digits_skip ds ch_comma Hd eq_refl) as Hsk.
  assert (Hset : forall s, CPU_SET c s = {[c]} ∪ s).
  { intros s. unfold CPU_SET, cpu_ok in *. by rewrite (proj2 (Z.leb_le _ _)), (proj2 (Z.ltb_lt _ _)) by lia. }
  cbn [print_cpus] in *. destruct cpus as [|c2 cpus].
  - rewrite Hds, <- (app_nil_r ds), before_skip, strchr_skip by done. cbn [before strchr].
    rewrite Hval by done. rewrite Hset. f_equal. cbn. by rewrite (right_id_L ∅ (∪)).
  - rewrite Hds in *. rewrite before_skip, strchr_skip by done. cbn [before strchr].
    rewrite Ascii.eqb_refl. rewrite Hval by done. rewrite Hset.
    assert (Hp : print_cpus (c2 :: cpus) <> []).
    { destruct (strtol_pretty c2) as (d2&Hd2&Hd2ne&_); [apply Forall_cons in Hcs as [Hc2 _]; unfold cpu_ok in Hc2; lia|].
      cbn [print_cpus]. rewrite Hd2. destruct d2; [done|]. by destruct cpus. }
    destruct (print_cpus (c2 :: cpus)) as [|x t] eqn:Ep; [done|]. rewrite <- Ep in *.
    rewrite IH; [|done|rewrite length_app in Hn; cbn [length] in Hn; lia].
    f_equal. cbn [list_to_set]. set_solver.
Qed.

Lemma sets_plain sets : Forall (fun cpus => Forall cpu_ok cpus /\ cpus <> []) sets ->
  Forall (fun cpus => Forall plain (print_cpus cpus)) sets.
Proof.
  intros Hok. eapply Forall_impl; [exact Hok|]. intros cpus [Hc _]. apply print_cpus_plain.
  eapply Forall_impl; [exact Hc|]. unfold cpu_ok. lia.
Qed.

Lemma count_print n sets i : Forall (fun cpus => Forall plain (print_cpus cpus)) sets ->
  (length (print_sets sets) < n)%nat -> count_sets n (print_sets sets) i = Some (i + Z.of_nat (length sets)).
Proof.
  intros Hp. revert n i. induction Hp as [|cpus sets Hc Hs IH]; intros n i Hn; (destruct n as [|n]; [lia|]).
  { cbn. f_equal. lia. }
  unfold print_sets in *. cbn [map concat] in *. cbn [count_sets]. rewrite <- app_comm_cons, <- app_assoc in *.
  cbn [strchr]. rewrite Ascii.eqb_refl. cbn [strchr]. change (Ascii.eqb ch_open ch_close) with false. cbv iota.
  rewrite strchr_skip by (by apply plain_skip). cbn [app strchr]. rewrite Ascii.eqb_refl.
  destruct n as [|n]; [cbn in Hn; lia|]. 
  transitivity (count_sets (S n) (concat (map (fun cpus0 => ch_open :: print_cpus cpus0 ++ [ch_close]) sets)) (i + 1)).
  - cbn [count_sets strchr]. by change (Ascii.eqb ch_close ch_open) with false.
  - rewrite IH; [f_equal; cbn; lia|]. cbn in Hn. rewrite !length_app in Hn. cbn in Hn. lia.
Qed.

Lemma fill_print n sets : Forall (fun cpus => Forall plain (print_cpus cpus)) sets ->
  Forall (fun cpus => Forall cpu_ok cpus /\ cpus <> []) sets -> (length (print_sets sets) < n)%nat ->
  fill_sets n (length sets) (print_sets sets) = Some (Some (map list_to_set sets)).
Proof.
  intros Hp. induction Hp as [|cpus sets Hc Hs IH]; intros Hok Hn; [done|].
  apply Forall_cons in Hok as [[Hcok Hne] Hok]. unfold print_sets in *. cbn [map concat length] in *. cbn [fill_sets].
  rewrite <- app_comm_cons, <- app_assoc in *. cbn [strchr]. rewrite Ascii.eqb_refl. cbn [drop]. rewrite ?drop_0.
  pose proof (plain_skip _ ch_close Hc eq_refl ltac:(done)) as Hsk.
  rewrite strchr_skip, before_skip by done. cbn [app strchr before]. rewrite Ascii.eqb_refl, app_nil_r. cbn [drop]. rewrite ?drop_0.
  cbn in Hn. rewrite length_app in Hn. rewrite set_cpus_print by (done || lia). cbn [mbind option_bind].
  rewrite IH by (done || (cbn in Hn; lia)). cbn. by rewrite (right_id_L ∅ (∪)).
Qed.

(** What is printed is read back: for any lists of CPUs below CPU_SETSIZE,
    none of them empty, the text "[..,..][..]" with one list per queue gives
    exactly those sets, in that order. *)
Theorem cpuset_roundtrip sets :
  Forall (fun cpus => Forall cpu_ok cpus /\ cpus <> []) sets ->
  ublk_make_cpuset true (Z.of_nat (length sets)) (Some (print_sets sets)) = Some (Some (map list_to_set sets)).
Proof.
  intros Hok. pose proof (sets_plain sets Hok) as Hp. unfold ublk_make_cpuset.
  rewrite count_print by (done || (unfold cpuset_fuel; lia)). cbn [mbind option_bind].
  rewrite Z.add_0_l, Z.eqb_refl, Nat2Z.id. cbn [negb]. apply fill_print; [done|done|unfold cpuset_fuel; lia].
Qed.

(** An empty part does not give an empty set: strtol of the empty text is 0, so
    CPU 0 is selected. *)
Lemma cpuset_empty_part : ublk_make_cpuset true 1 (Some [ch_open; ch_close]) = Some (Some [{[0]}]).
Proof. vm_compute. reflexivity. Qed.

Lemma cpuset_roundtrip_witness :
  ublk_make_cpuset true 2 (Some (print_sets [[0; 12]; [3]])) = Some (Some (map list_to_set [[0; 12]; [3]])).
Proof. apply (cpuset_roundtrip [[0; 12]; [3]]). repeat constructor; unfold cpu_ok, CPU_SETSIZE; try lia; done. Defined.
