(* ===== verification/TgtInit.v ===== *)
(** * Setting up the local targets

    The callbacks init_tgt, recovery and deinit_tgt of targets/ublk.null.cpp and
    targets/ublk.loop.cpp.  A target that is added parses its options, writes the
    description of the device and then sets itself up from that description; one
    that is recovered does only the last.  The options are the ones
    getopt_long(3) returned, in order; what the file system says is a record
    [loop_env].  [None] is a write outside a buffer, a NULL pointer that is used
    or an exception that is not caught. *)

From S2P Require Import Prelude UblkCmd Params Json Ctrl QueueSetup DevSetup Loop.

Definition UINT_MAX : Z := 2^32 - 1.
Definition ULONG_MAX : Z := 2^64 - 1.
Definition PATH_MAX : Z := 4096.
Definition sizeof_io_tgt : Z := 24.

(** strtoul(3), base 10: the value, and whether errno was set to ERANGE. *)
Definition strtoul (f : list Ascii.ascii) : Z * bool :=
  let v := strtol f in
  if ULONG_MAX <? Z.abs v then (ULONG_MAX, true) else (u64 v, false).

(** [unsigned x]; the result of [__builtin_clz] is undefined for zero. *)
Definition ilog2 (x : Z) : option Z := if u32 x =? 0 then None else Some (Z.log2 (u32 x)).

Definition ublk_param_is_valid (p : ublk_params) : bool :=
  let b := p_basic p in
  if (logical_bs_shift b <? 9) || (12 <? logical_bs_shift b) then false
  else negb (physical_bs_shift b <? logical_bs_shift b).

Definition set_jbuf (b : ublksrv_tgt_jbuf) (d : ublksrv_ctrl_dev) : ublksrv_ctrl_dev :=
  mk_ctrl_dev (ctrl_fd d) (dev_info d) b (recover d) (run_dir d) (queues_cpuset d) (sent d).

(** Structures that start as zeroes. *)
Definition zero_discard : ublk_param_discard := mk_param_discard 0 0 0 0 0 0.
Definition zero_params : ublk_params :=
  mk_params 0 0 (mk_param_basic 0 0 0 0 0 0 0 0 0) zero_discard (mk_param_devt 0 0 0 0) (mk_param_zoned 0 0 0 0 0 0)
    (mk_param_dma 0 0) (mk_param_segment 0 0 0 0) (mk_param_integrity 0 0 0 0 0 0 0).
Definition set_types (t : Z) (p : ublk_params) : ublk_params :=
  mk_params (params_len p) t (p_basic p) (p_discard p) (p_devt p) (p_zoned p) (p_dma p) (p_seg p) (p_integrity p).
Definition set_basic (b : ublk_param_basic) (p : ublk_params) : ublk_params :=
  mk_params (params_len p) (params_types p) b (p_discard p) (p_devt p) (p_zoned p) (p_dma p) (p_seg p) (p_integrity p).
Definition set_discard (d : ublk_param_discard) (p : ublk_params) : ublk_params :=
  mk_params (params_len p) (params_types p) (p_basic p) d (p_devt p) (p_zoned p) (p_dma p) (p_seg p) (p_integrity p).
Definition set_bs (lbs pbs : Z) (p : ublk_params) : ublk_params :=
  let b := p_basic p in
  set_basic (mk_param_basic (attrs b) lbs pbs (io_opt_shift b) (io_min_shift b) (max_sectors b) (chunk_sectors b)
    (dev_sectors b) (virt_boundary_mask b)) p.
Definition set_dev_sectors (n : Z) (p : ublk_params) : ublk_params :=
  let b := p_basic p in
  set_basic (mk_param_basic (attrs b) (logical_bs_shift b) (physical_bs_shift b) (io_opt_shift b) (io_min_shift b)
    (max_sectors b) (chunk_sectors b) n (virt_boundary_mask b)) p.

(** ** The description, as a target uses it *)
Section description.
Context `{!JsonText} {D : Type}.
Notation dev := (ublksrv_dev D).

Definition dv_jbuf (dv : dev) : ublksrv_tgt_jbuf := tgt_jbuf (dv_ctrl dv).
Definition dv_set_jbuf (b : ublksrv_tgt_jbuf) (dv : dev) : dev := dv_set_ctrl (set_jbuf b (dv_ctrl dv)) dv.
Definition dv_info (dv : dev) : ublksrv_ctrl_dev_info := dev_info (dv_ctrl dv).

(** The results of the writes are not looked at. *)
Definition jwrite (w : ublksrv_tgt_jbuf -> option (Z * ublksrv_tgt_jbuf)) (dv : dev) : option dev :=
  '(_, b) ← w (dv_jbuf dv); Some (dv_set_jbuf b dv).

(** Reading a string into an array of [cap] bytes: the size the library checks
    against is the one of the JSON buffer. *)
Definition jread_str (cap : Z) (name : string) (dv : dev) : option (Z * option string) :=
  '(ret, s) ← ublk_json_read_target_str_info name (dv_jbuf dv);
  match s with
  | Some s => if slen s <? cap then Some (ret, Some s) else None
  | None => Some (ret, None)
  end.

Definition set_tgt (dev_size ring_depth nr_fds extra_ios io_data_size : Z) (fds : list Z) (dv : dev) : dev :=
  dv_set_tgt (mk_tgt_info dev_size ring_depth nr_fds fds extra_ios io_data_size (iowq_max_workers (dv_tgt dv))) dv.
End description.

(** ** The null target *)
Section null.
Context `{!JsonText} {D : Type}.
Notation dev := (ublksrv_dev D).
Variable mem : Z -> bool.

(** [junk]: what the variable [p] held. *)
Definition null_setup_tgt (junk : ublk_params) (dv : dev) : option (Z * dev) :=
  '(ret, p) ← ublk_json_read_params junk (dv_jbuf dv);
  if negb (ret =? 0) then Some (ret, dv)
  else
    p ← p;
    let depth := queue_depth (dv_info dv) in
    Some (0, set_tgt (u64 (Z.shiftl (dev_sectors (p_basic p)) 9))
      (if has (dev_flags (dv_info dv)) UBLK_F_SUPPORT_ZERO_COPY then depth * 2 else depth) 0
      (extra_ios (dv_tgt dv)) sizeof_io_tgt (tgt_fds (dv_tgt dv)) dv).

Definition null_recover_tgt (junk : ublk_params) (dv : dev) : option (Z * dev) := null_setup_tgt junk dv.

Definition null_dev_size : Z := 250 * 1024 * 1024 * 1024.
Definition null_params (info : ublksrv_ctrl_dev_info) : ublk_params :=
  set_basic (mk_param_basic UBLK_ATTR_VOLATILE_CACHE 9 12 12 9 (Z.shiftr (max_io_buf_bytes info) 9) 0
    (Z.shiftr null_dev_size 9) 0) (set_types UBLK_PARAM_TYPE_BASIC zero_params).

(** The size is put into the base information after that was written. *)
Definition null_init_tgt (argc : Z) (junk : ublk_params) (dv : dev) : option (Z * dev) :=
  let info := dv_info dv in
  if has (dev_flags info) UBLK_F_UNPRIVILEGED_DEV then Some (-1, dv)
  else if ublksrv_is_recovering argc (dv_ctrl dv) then null_recover_tgt junk dv
  else
    dv ← jwrite (ublk_json_write_dev_info mem info) dv;
    dv ← jwrite (ublk_json_write_target_base mem (mk_tgt_base "null" 0 0)) dv;
    dv ← jwrite (ublk_json_write_params mem (null_params info)) dv;
    null_setup_tgt junk dv.

Definition null_tgt (argc : Z) (junk : ublk_params) : tgt_type D :=
  mk_tgt "null" true false false (Some (null_init_tgt argc junk)) None None.
End null.

(** ** The loop target *)
Record file_stat := mk_stat { st_mode : Z; st_size : Z; st_blksize : Z }.
Definition S_IFMT : Z := 61440.
Definition S_ISBLK (mode : Z) : bool := Z.land mode S_IFMT =? 24576.
Definition S_ISREG (mode : Z) : bool := Z.land mode S_IFMT =? 32768.

(** [le_open1], [le_stat1] and the three ioctls are of init, [le_open2] and
    [le_stat2] of set-up; [le_sysfs]: the descriptor of discard_max_hw_bytes and
    what pread(2) returned of it. *)
Record loop_env := mk_loop_env {
  le_open1 : Z;
  le_stat1 : option file_stat;
  le_size64 : option Z;
  le_ssz : option Z;
  le_pbsz : option Z;
  le_sysfs : Z * list Ascii.ascii;
  le_direct : Z;               (* the result of fcntl(F_SETFL, O_DIRECT) *)
  le_open2 : Z;
  le_stat2 : option file_stat
}.

Inductive loop_opt :=
| LoFile (arg : string)                    (* -f, --file *)
| LoOffset (arg : list Ascii.ascii)        (* -o, --offset *)
| LoBuffered.                              (* --buffered_io *)

(** The text is not terminated when it fills the buffer; the attribute is
    shorter. *)
Definition backing_supports_discard (env : loop_env) : bool :=
  let '(fd, val) := le_sysfs env in
  if 0 <? fd then
    let bytes := if (0 <? length val)%nat then u64 (strtol (take 128 val)) else 0 in 0 <? bytes
  else false.

Section loop_setup.
Context `{!JsonText}.
Notation dev := (ublksrv_dev loop_tgt_data).
Variable mem : Z -> bool.

Definition loop_setup_tgt (env : loop_env) (junk : ublk_params) (dv : dev) : option (Z * dev) :=
  '(ret, file) ← jread_str PATH_MAX "backing_file" dv;
  if ret <? 0 then Some (ret, dv)
  else
    '(ret, direct_io) ← ublk_json_read_target_ulong_info "direct_io" (dv_jbuf dv);
    if negb (ret =? 0) then Some (ret, dv)
    else
      '(ret, off) ← ublk_json_read_target_ulong_info "offset" (dv_jbuf dv);
      d ← dv_data dv;
      let d := mk_loop_tgt_data (user_copy d) (auto_zc d) (zero_copy d) (block_device d) (default (offset d) off) in
      let dv := dv_set_data (Some d) dv in
      if negb (ret =? 0) then Some (ret, dv)
      else
        '(ret, p) ← ublk_json_read_params junk (dv_jbuf dv);
        if negb (ret =? 0) then Some (ret, dv)
        else
          p ← p;
          let fd := le_open2 env in
          if fd <? 0 then Some (fd, dv)
          else match le_stat2 env with
          | None => Some (-1, dv)
          | Some sb =>
              let dv := if negb (default 0 direct_io =? 0) then dv_event (DvDirect fd) dv else dv in
              let info := dv_info dv in
              let zc := has (dev_flags info) UBLK_F_SUPPORT_ZERO_COPY in
              let uc := has (dev_flags info) UBLK_F_USER_COPY in
              let d := mk_loop_tgt_data uc (has (dev_flags info) UBLK_F_AUTO_BUF_REG) zc (S_ISBLK (st_mode sb)) (offset d) in
              let depth := queue_depth info in
              let dv := set_tgt (u64 (Z.shiftl (dev_sectors (p_basic p)) 9)) (if zc || uc then depth * 2 else depth) 1
                          (extra_ios (dv_tgt dv)) sizeof_io_tgt (<[1%nat := fd]> (tgt_fds (dv_tgt dv))) dv in
              Some (0, dv_set_data (Some d) dv)
          end.

(** calloc(3) is taken to succeed. *)
Definition zero_loop_data : loop_tgt_data := mk_loop_tgt_data false false false false 0.

Definition loop_recover_tgt (env : loop_env) (junk : ublk_params) (dv : dev) : option (Z * dev) :=
  loop_setup_tgt env junk (dv_set_data (Some zero_loop_data) dv).

Definition loop_params (info : ublksrv_ctrl_dev_info) : ublk_params :=
  mk_params 0 (Z.lor UBLK_PARAM_TYPE_BASIC (Z.lor UBLK_PARAM_TYPE_DISCARD UBLK_PARAM_TYPE_DMA_ALIGN))
    (mk_param_basic (Z.lor UBLK_ATTR_VOLATILE_CACHE UBLK_ATTR_FUA) 9 12 12 9 (Z.shiftr (max_io_buf_bytes info) 9) 0 0 0)
    (mk_param_discard 0 0 (Z.shiftr UINT_MAX 9) 0 1 0) (p_devt zero_params) (p_zoned zero_params) (mk_param_dma 511 0)
    (p_seg zero_params) (p_integrity zero_params).

(** The file, the offset in sectors and whether I/O is buffered. *)
Definition loop_option (acc : option string * Z * bool) (o : loop_opt) : option string * Z * bool :=
  let '(file, off, buffered) := acc in
  match o with
  | LoFile f => (Some f, off, buffered)
  | LoOffset a => (file, fst (strtoul a), buffered)
  | LoBuffered => (file, off, true)
  end.

(** What kind of file backs the device: its size, whether it can discard and the
    parameters with the block sizes, or the value the function returns. *)
Definition loop_backing (env : loop_env) (st : file_stat) (p : ublk_params) : option (Z + (Z * bool * ublk_params)) :=
  if S_ISBLK (st_mode st) then
    match le_size64 env, le_ssz env, le_pbsz env with
    | Some bytes, Some bs, Some pbs =>
        lbs ← ilog2 bs; pb ← ilog2 pbs;
        Some (inr (bytes, backing_supports_discard env, set_bs lbs pb p))
    | _, _, _ => Some (inl (-1))
    end
  else if S_ISREG (st_mode st) then
    s ← ilog2 (st_blksize st);
    Some (inr (u64 (st_size st), true, set_bs s s p))
  else Some (inr (0, false, p)).

(** The part between fstat(2) and the description: whether O_DIRECT is tried,
    whether I/O is buffered in the end, the size and the parameters, or the value
    the function returns (with what was tried). *)
Definition loop_describe (env : loop_env) (st : file_stat) (info : ublksrv_ctrl_dev_info) (off : Z) (buffered : bool)
    : option (Z * bool + bool * bool * Z * ublk_params) :=
  r ← loop_backing env st (loop_params info);
  match r with
  | inl ret => Some (inl (ret, false))
  | inr (bytes, can_discard, p) =>
      let tried := negb (buffered || negb (ublk_param_is_valid p)) in
      let buffered := negb tried || negb (le_direct env =? 0) in
      let p := if buffered then set_bs 9 12 p else p in
      let offset_bytes := u64 (Z.shiftl off 9) in
      if (0 <? bytes) && (bytes <=? offset_bytes) then Some (inl (-2, tried))
      else
        let bytes := if 0 <? bytes then bytes - offset_bytes else bytes in
        let p := set_dev_sectors (Z.shiftr bytes 9) p in
        let p := if negb (st_blksize st =? 0) && can_discard
                 then set_discard (mk_param_discard 0 (u32 (st_blksize st)) (Z.shiftr UINT_MAX 9) 0 1 0) p
                 else set_types (Z.ldiff (params_types p) UBLK_PARAM_TYPE_DISCARD) p in
        Some (inr (tried, buffered, bytes, p))
  end.

(** The descriptor of the first open(2) stays open on every error. *)
Definition loop_init_tgt (argc : Z) (env : loop_env) (opts : list loop_opt) (junk : ublk_params) (dv : dev)
    : option (Z * dev) :=
  let info := dv_info dv in
  if ublksrv_is_recovering argc (dv_ctrl dv) then loop_recover_tgt env junk dv
  else
    let '(file, off, buffered) := foldl loop_option (None, 0, false) opts in
    match file with
    | None => Some (-1, dv)
    | Some file =>
        let fd := le_open1 env in
        if fd <? 0 then Some (-2, dv)
        else match le_stat1 env with
        | None => Some (-2, dv)
        | Some st =>
            let direct (tried : bool) (dv : dev) := if tried then dv_event (DvDirect fd) dv else dv in
            r ← loop_describe env st info off buffered;
            match r with
            | inl (ret, tried) => Some (ret, direct tried dv)
            | inr (tried, buffered, bytes, p) =>
                let dv := direct tried dv in
                dv ← jwrite (ublk_json_write_dev_info mem info) dv;
                dv ← jwrite (ublk_json_write_target_base mem (mk_tgt_base "loop" 0 bytes)) dv;
                dv ← jwrite (ublk_json_write_tgt_str mem "backing_file" (Some file)) dv;
                dv ← jwrite (ublk_json_write_tgt_long mem "direct_io" (if buffered : bool then 0 else 1)) dv;
                dv ← jwrite (ublk_json_write_tgt_ulong mem "offset" off) dv;
                dv ← jwrite (ublk_json_write_params mem p) dv;
                let dv := dv_event (DvClose fd) dv in
                loop_setup_tgt env junk (dv_set_data (Some zero_loop_data) dv)
            end
        end
    end.

(** The private data were set when the target was. *)
Definition loop_deinit_tgt (dv : dev) : dev :=
  let fd := default 0 (tgt_fds (dv_tgt dv) !! 1%nat) in
  dv_event DvFreeData (dv_event (DvClose fd) (dv_event (DvFsync fd) dv)).

Definition loop_tgt (argc : Z) (env : loop_env) (opts : list loop_opt) (junk : ublk_params) : tgt_type loop_tgt_data :=
  mk_tgt "loop" true false false (Some (loop_init_tgt argc env opts junk)) None (Some loop_deinit_tgt).
End loop_setup.
