(* ===== verification/JsonDoc.v ===== *)
(** * Sequences of writes to a device's description

    A target writes its description entry by entry and ignores the results.
    Here is what such a sequence leaves behind as long as every intermediate
    document fits the largest buffer: the document is the map of its entries,
    and every entry reads back. *)

From S2P Require Import Prelude UblkCmd Params Json Ctrl QueueSetup DevSetup Loop TgtInit.

Section docs.
Context `{!JsonText, !JsonTextLaws}.

(** A buffer of at least the first size that can grow up to [cap]. *)
Definition buf_ok (cap : Z) (b : ublksrv_tgt_jbuf) : Prop :=
  jb_ok b /\ 512 <= jbuf_size b /\ grow_max (jbuf_size b) = cap.
Definition fits (cap : Z) (m : gmap string json) : Prop := slen (dump (JObj m)) < cap.
Definition holds (cap : Z) (b : ublksrv_tgt_jbuf) (m : gmap string json) : Prop :=
  buf_ok cap b /\ jbuf b = dump (JObj m).

Lemma holds_parse cap b m : holds cap b m -> parse (jbuf b) = Some (JObj m).
Proof. intros [_ ->]. apply parse_dump. Qed.

Lemma grow_max_add n k : 0 <= n -> 0 <= k -> n + 512 * k < UBLK_TGT_MAX_JBUF_SZ -> grow_max (n + 512 * k) = grow_max n.
Proof. unfold grow_max, UBLK_TGT_MAX_JBUF_SZ. intros. Z.div_mod_to_equations. lia. Qed.

Lemma write_holds rd cap write b m :
  buf_ok cap b -> writes write (jbuf b) (JObj m) -> fits cap m ->
  exists r b', write_loop always rd write_fuel write b = Some (r, b') /\ holds cap b' m.
Proof.
  unfold fits. intros (Hb&H512&Hcap) Hw Hfit. destruct (Hb) as [_ Hn].
  assert (0 <= slen (dump (JObj m))) by (unfold slen; lia).
  destruct (write_loop_ok rd write b (JObj m) Hb Hw ltac:(lia)) as (b'&Hrun&Hb'&Hj).
  exists (slen (dump (JObj m))), b'. split; [done|]. split; [|done]. split; [done|].
  rewrite (write_loop_spec _ _ _ _ (JObj m)) in Hrun by
    (done || (unfold UBLK_TGT_MAX_JBUF_SZ, write_fuel in *; Z.div_mod_to_equations; lia)).
  rewrite Hcap, (proj2 (Z.ltb_lt _ _) Hfit) in Hrun. injection Hrun as <-. cbn [jbuf_size].
  destruct (Z.ltb_spec (slen (dump (JObj m))) (jbuf_size b)); [done|].
  destruct Hb' as [_ Hb']. cbn [jbuf_size] in Hb'.
  assert (0 <= (slen (dump (JObj m)) - jbuf_size b) / 512) by (apply Z.div_pos; lia).
  split; [lia|]. rewrite grow_max_add; lia.
Qed.

Lemma with_target_lookup name v m : with_target name v m !! "target" = Some (JObj (target_of (with_target name v m))).
Proof. rewrite target_of_with. apply lookup_insert_eq. Qed.

(** ** On a device *)
Section on_device.
Context {D : Type}.
Notation dev := (ublksrv_dev D).

Definition jwrite_to (cap : Z) (w : ublksrv_tgt_jbuf -> option (Z * ublksrv_tgt_jbuf)) (dv : dev) (m : gmap string json)
    : Prop :=
  exists b, jwrite w dv = Some (dv_set_jbuf b dv) /\ holds cap b m.

Lemma jwrite_holds rd cap write dv m :
  buf_ok cap (dv_jbuf dv) -> writes write (jbuf (dv_jbuf dv)) (JObj m) -> fits cap m ->
  jwrite_to cap (write_loop always rd write_fuel write) dv m.
Proof.
  intros Hb Hw Hf. destruct (write_holds rd cap write (dv_jbuf dv) m Hb Hw Hf) as (r&b'&Hrun&Hh).
  exists b'. split; [|done]. unfold jwrite. by rewrite Hrun.
Qed.

Definition doc_info (info : ublksrv_ctrl_dev_info) : gmap string json := {["dev_info" := dev_info_to_json info]}.
Definition doc_params (p : ublk_params) (m : gmap string json) : gmap string json :=
  <["params" := params_to_json p]> m.

Lemma jwrite_info cap info dv : buf_ok cap (dv_jbuf dv) -> fits cap (doc_info info) ->
  jwrite_to cap (ublk_json_write_dev_info always info) dv (doc_info info).
Proof. intros Hb Hf. apply jwrite_holds; [done| |done]. apply dev_info_writes. Qed.

Lemma jwrite_base cap t dv m : holds cap (dv_jbuf dv) m -> target_ok m -> fits cap (with_base t m) ->
  jwrite_to cap (ublk_json_write_target_base always t) dv (with_base t m).
Proof. intros Hh Ht Hf. apply jwrite_holds; [apply Hh| |done]. apply base_writes; [by eapply holds_parse|done]. Qed.

Lemma jwrite_params cap p dv m : holds cap (dv_jbuf dv) m -> fits cap (doc_params p m) ->
  jwrite_to cap (ublk_json_write_params always p) dv (doc_params p m).
Proof. intros Hh Hf. apply jwrite_holds; [apply Hh| |done]. apply params_writes. by eapply holds_parse. Qed.

Lemma jwrite_entry cap name v dv m : holds cap (dv_jbuf dv) m -> target_ok m -> fits cap (with_target name v m) ->
  jwrite_to cap (write_loop always true write_fuel (write_target name v)) dv (with_target name v m).
Proof.
  intros Hh Ht Hf. apply jwrite_holds; [apply Hh| |done]. apply write_target_writes; [by eapply holds_parse|done].
Qed.

Lemma jwrite_str cap name v dv m : holds cap (dv_jbuf dv) m -> target_ok m -> fits cap (with_target name (JStr v) m) ->
  jwrite_to cap (ublk_json_write_tgt_str always name (Some v)) dv (with_target name (JStr v) m).
Proof. apply jwrite_entry. Qed.
Lemma jwrite_long cap name v dv m : holds cap (dv_jbuf dv) m -> target_ok m -> fits cap (with_target name (JNum (s64 v)) m) ->
  jwrite_to cap (ublk_json_write_tgt_long always name v) dv (with_target name (JNum (s64 v)) m).
Proof. apply jwrite_entry. Qed.
Lemma jwrite_ulong cap name v dv m : holds cap (dv_jbuf dv) m -> target_ok m -> fits cap (with_target name (JNum (u64 v)) m) ->
  jwrite_to cap (ublk_json_write_tgt_ulong always name v) dv (with_target name (JNum (u64 v)) m).
Proof. apply jwrite_entry. Qed.

(** An optional string writes nothing when there is none. *)
Definition with_opt (name : string) (v : option string) (m : gmap string json) : gmap string json :=
  match v with Some s => with_target name (JStr s) m | None => m end.

Lemma jwrite_opt cap name v dv m : holds cap (dv_jbuf dv) m -> target_ok m -> fits cap (with_opt name v m) ->
  jwrite_to cap (ublk_json_write_tgt_str always name v) dv (with_opt name v m).
Proof.
  destruct v as [s|]; [apply jwrite_str|]. intros Hh _ _. exists (dv_jbuf dv). split; [|done]. by destruct dv as [? ? ? []].
Qed.

(** *** Whole sequences *)
Inductive doc_write :=
| DwBase (t : ublksrv_tgt_base_json)
| DwStr (name : string) (v : option string)
| DwLong (name : string) (v : Z)
| DwUlong (name : string) (v : Z)
| DwParams (p : ublk_params).

Definition dw_run (w : doc_write) : ublksrv_tgt_jbuf -> option (Z * ublksrv_tgt_jbuf) :=
  match w with
  | DwBase t => ublk_json_write_target_base always t
  | DwStr n v => ublk_json_write_tgt_str always n v
  | DwLong n v => ublk_json_write_tgt_long always n v
  | DwUlong n v => ublk_json_write_tgt_ulong always n v
  | DwParams p => ublk_json_write_params always p
  end.

(** The document after a write. *)
Definition dw_doc (m : gmap string json) (w : doc_write) : gmap string json :=
  match w with
  | DwBase t => with_base t m
  | DwStr n v => with_opt n v m
  | DwLong n v => with_target n (JNum (s64 v)) m
  | DwUlong n v => with_target n (JNum (u64 v)) m
  | DwParams p => doc_params p m
  end.

Lemma dw_doc_ok w m : target_ok m -> target_ok (dw_doc m w).
Proof.
  destruct w as [t|n [v|]|n v|n v|p]; cbn [dw_doc with_opt]; intros Ht; try apply with_target_ok; [done|].
  unfold target_ok, doc_params in *. by rewrite lookup_insert_ne.
Qed.

Fixpoint jwrites {A} (ws : list doc_write) (k : dev -> option A) (dv : dev) : option A :=
  match ws with
  | [] => k dv
  | w :: ws => dv ← jwrite (dw_run w) dv; jwrites ws k dv
  end.

(** The documents a sequence goes through. *)
Fixpoint docs_after (m : gmap string json) (ws : list doc_write) : list (gmap string json) :=
  match ws with
  | [] => []
  | w :: ws => dw_doc m w :: docs_after (dw_doc m w) ws
  end.

Lemma jwrites_holds_any cap ws m dv :
  holds cap (dv_jbuf dv) m -> target_ok m -> Forall (fits cap) (docs_after m ws) ->
  exists b, holds cap b (foldl dw_doc m ws) /\ forall A (k : dev -> option A), jwrites ws k dv = k (dv_set_jbuf b dv).
Proof.
  revert m dv. induction ws as [|w ws IH]; intros m dv Hh Ht Hf; cbn [docs_after foldl jwrites] in *.
  - exists (dv_jbuf dv). split; [done|]. intros A k. by destruct dv as [? ? ? []].
  - apply Forall_cons in Hf as [Hw Hf].
    assert (Hstep : jwrite_to cap (dw_run w) dv (dw_doc m w)).
    { destruct w; cbn [dw_run dw_doc] in *; [by apply jwrite_base|by apply jwrite_opt|by apply jwrite_long|
        by apply jwrite_ulong|by apply jwrite_params]. }
    destruct Hstep as (b&Hrun&Hb).
    destruct (IH (dw_doc m w) (dv_set_jbuf b dv) Hb (dw_doc_ok w m Ht) Hf) as (b'&Hb'&Hk).
    exists b'. split; [done|]. intros A k. rewrite Hrun. cbn [mbind option_bind]. by rewrite Hk.
Qed.

(** A description starts with the device's information. *)
Lemma jwrites_new_any cap info ws dv :
  buf_ok cap (dv_jbuf dv) -> Forall (fits cap) (doc_info info :: docs_after (doc_info info) ws) ->
  exists b, holds cap b (foldl dw_doc (doc_info info) ws) /\
    forall A (k : dev -> option A), (dv ← jwrite (ublk_json_write_dev_info always info) dv; jwrites ws k dv) = k (dv_set_jbuf b dv).
Proof.
  intros Hb Hf. apply Forall_cons in Hf as [F1 Hf]. destruct (jwrite_info cap info dv Hb F1) as (b1&->&H1).
  cbn [mbind option_bind]. destruct (jwrites_holds_any cap ws _ (dv_set_jbuf b1 dv) H1 I Hf) as (b&Hh&Hk).
  exists b. split; [done|]. intros A k. by rewrite Hk.
Qed.

(** The same with a continuation that is itself a callback's result. *)
Lemma jwrites_holds cap ws m dv :
  holds cap (dv_jbuf dv) m -> target_ok m -> Forall (fits cap) (docs_after m ws) ->
  exists b, holds cap b (foldl dw_doc m ws) /\
    forall k : dev -> option (Z * dev), jwrites ws k dv = k (dv_set_jbuf b dv).
Proof. intros H1 H2 H3. destruct (jwrites_holds_any cap ws m dv H1 H2 H3) as (b&?&Hk). exists b. split; [done|apply Hk]. Qed.

Lemma jwrites_new cap info ws dv :
  buf_ok cap (dv_jbuf dv) -> Forall (fits cap) (doc_info info :: docs_after (doc_info info) ws) ->
  exists b, holds cap b (foldl dw_doc (doc_info info) ws) /\ forall k : dev -> option (Z * dev),
    (dv ← jwrite (ublk_json_write_dev_info always info) dv; jwrites ws k dv) = k (dv_set_jbuf b dv).
Proof. intros H1 H2. destruct (jwrites_new_any cap info ws dv H1 H2) as (b&?&Hk). exists b. split; [done|apply Hk]. Qed.
End on_device.

(** ** Reading *)

(** A buffer with the text of a document. *)
Definition text_of (b : ublksrv_tgt_jbuf) (m : gmap string json) : Prop :=
  is_Some (jb_alloc b) /\ jbuf b = dump (JObj m).

Lemma holds_text cap b m : holds cap b m -> text_of b m.
Proof. intros [[[Ha _] _] Hj]. split; [by rewrite Ha|done]. Qed.

Lemma text_parse b m : text_of b m -> parse (jbuf b) = Some (JObj m).
Proof. intros [_ ->]. apply parse_dump. Qed.

Lemma read_ulong_text b m t name v : text_of b m -> m !! "target" = Some (JObj t) -> t !! name = Some (JNum v) -> is_u64 v ->
  ublk_json_read_target_ulong_info name b = Some (0, Some v).
Proof.
  intros Hb Hm Ht Hv. unfold ublk_json_read_target_ulong_info. destruct (Hb) as [[n ->] _]. cbn [mbind option_bind].
  rewrite (read_ulong_doc _ _ _ _ _ (text_parse _ _ Hb) Hm Ht). cbn. by rewrite u64_id.
Qed.

Lemma read_str_text b m t name s : text_of b m -> m !! "target" = Some (JObj t) -> t !! name = Some (JStr s) ->
  slen s < jbuf_size b -> ublk_json_read_target_str_info name b = Some (0, Some s).
Proof.
  intros Hb Hm Ht Hs. unfold ublk_json_read_target_str_info. destruct (Hb) as [[n ->] _]. cbn [mbind option_bind].
  unfold ublksrv_json_read_target_str_info, with_json. destruct (contains_target m t Hm) as [Hc Hg].
  rewrite (text_parse _ _ Hb), Hc, Hg. cbn [negb mbind option_bind]. rewrite json_contains_obj, Ht.
  rewrite bool_decide_true by (by eexists). cbn [negb json_get]. rewrite Ht. cbn [default from_option id mbind option_bind json_to_string].
  by rewrite (proj2 (Z.ltb_lt _ _)).
Qed.

(** An entry that is not there. *)
Lemma read_str_missing b m t name : text_of b m -> m !! "target" = Some (JObj t) -> t !! name = None ->
  ublk_json_read_target_str_info name b = Some (- EINVAL, None).
Proof.
  intros Hb Hm Ht. unfold ublk_json_read_target_str_info. destruct (Hb) as [[n ->] _]. cbn [mbind option_bind].
  unfold ublksrv_json_read_target_str_info, with_json. destruct (contains_target m t Hm) as [Hc Hg].
  rewrite (text_parse _ _ Hb), Hc, Hg. cbn [negb mbind option_bind]. rewrite json_contains_obj, Ht.
  by rewrite bool_decide_false by (by intros []).
Qed.

Lemma read_params_text b m p d : text_of b m -> m !! "params" = Some (params_to_json p) -> params_ok p ->
  ublk_json_read_params d b = Some (0, Some p).
Proof.
  intros Hb Hm Hp. unfold ublk_json_read_params. destruct (Hb) as [[n ->] _]. cbn [mbind option_bind].
  rewrite (read_params_doc d _ _ _ (text_parse _ _ Hb) Hm). by rewrite params_roundtrip.
Qed.
End docs.
