(* ===== verification/TgtInitSpec.v ===== *)
(** * What setting up and recovering a local target establishes

    Adding a null or loop device and recovering it later lead to the same
    configuration, and what the loop target opens is what it closes. *)

From S2P Require Import Prelude UblkCmd Params Json Ctrl QueueSetup DevSetup Loop TgtInit JsonDoc.

(** ** Parameters *)
Lemma log2_u8 x : is_u8 (Z.log2 (u32 x)).
Proof.
  pose proof (u32_bound x) as [H0 H1]. split; [apply Z.log2_nonneg|].
  destruct (decide (u32 x = 0)) as [->|]; [done|].
  assert (Z.log2 (u32 x) < 32) by (apply (proj1 (Z.log2_lt_pow2 (u32 x) 32 ltac:(lia))); done). lia.
Qed.

Lemma ilog2_u8 x v : ilog2 x = Some v -> is_u8 v.
Proof. unfold ilog2. destruct (u32 x =? 0); [done|]. intros [= <-]. apply log2_u8. Qed.

Lemma max_sectors_ok info : dev_info_ok info -> is_u32 (Z.shiftr (max_io_buf_bytes info) 9).
Proof.
  intros (_&_&_&_&H&_). unfold is_u32 in *. rewrite Z.shiftr_div_pow2 by lia.
  split; [apply Z.div_pos; lia|]. apply Z.div_lt_upper_bound; lia.
Qed.

Lemma shiftr_u64 x n : 0 <= n -> is_u64 x -> is_u64 (Z.shiftr x n).
Proof.
  intros Hn [H0 H1]. unfold is_u64. rewrite Z.shiftr_div_pow2 by done.
  pose proof (Z.pow_pos_nonneg 2 n). split; [apply Z.div_pos; lia|]. apply Z.div_lt_upper_bound; nia.
Qed.

(** Every width of the structures. *)
Ltac widths := unfold is_u8, is_u16, is_u32, is_u64, is_s32 in *; cbn; lia.

Lemma loop_params_ok info : dev_info_ok info -> params_ok (loop_params info).
Proof.
  intros Hi. pose proof (max_sectors_ok info Hi). unfold params_ok, basic_ok, discard_ok, devt_ok, zoned_ok, dma_ok,
    segment_ok, integrity_ok, loop_params. cbn [p_basic p_discard p_devt p_zoned p_dma p_seg p_integrity params_len
    params_types attrs max_sectors]. repeat split; try done; widths.
Qed.

Lemma set_bs_ok l b p : is_u8 l -> is_u8 b -> params_ok p -> params_ok (set_bs l b p).
Proof. unfold params_ok, basic_ok. cbn. tauto. Qed.
Lemma set_dev_sectors_ok n p : is_u64 n -> params_ok p -> params_ok (set_dev_sectors n p).
Proof. unfold params_ok, basic_ok. cbn. tauto. Qed.
Lemma set_discard_ok d p : discard_ok d -> params_ok p -> params_ok (set_discard d p).
Proof. unfold params_ok. cbn. tauto. Qed.
Lemma set_types_ok t p : is_u32 t -> params_ok p -> params_ok (set_types t p).
Proof. unfold params_ok. cbn. tauto. Qed.

(** What the code computes about the backing file fits the structures. *)
Lemma loop_describe_ok env st info off b0 tried buffered bytes p :
  dev_info_ok info -> (forall n, le_size64 env = Some n -> is_u64 n) ->
  loop_describe env st info off b0 = Some (inr (tried, buffered, bytes, p)) ->
  params_ok p /\ is_u64 bytes /\ dev_sectors (p_basic p) = Z.shiftr bytes 9 /\
  exists size can p0, loop_backing env st (loop_params info) = Some (inr (size, can, p0)) /\
    bytes = (if 0 <? size then size - u64 (Z.shiftl off 9) else size).
Proof.
  intros Hi Hsz. unfold loop_describe. pose proof (loop_params_ok info Hi) as Hp0.
  destruct (loop_backing env st (loop_params info)) as [[ret|[[size can] p0]]|] eqn:Hb; cbn [mbind option_bind]; try done.
  assert (Hback : is_u64 size /\ params_ok p0).
  { unfold loop_backing in Hb. destruct (S_ISBLK (st_mode st)).
    - destruct (le_size64 env) as [n|]; [|done]. specialize (Hsz n eq_refl).
      destruct (le_ssz env) as [bs|]; [|done]. destruct (le_pbsz env) as [pbs|]; [|done].
      destruct (ilog2 bs) as [l|] eqn:E1; [|done]. destruct (ilog2 pbs) as [k|] eqn:E2; [|done].
      cbn in Hb. injection Hb as <- <- <-. split; [done|].
      apply set_bs_ok; [by eapply ilog2_u8|by eapply ilog2_u8|done].
    - destruct (S_ISREG (st_mode st)); [|by injection Hb as <- <- <-].
      destruct (ilog2 (st_blksize st)) as [l|] eqn:E1; [|done]. cbn in Hb. injection Hb as <- <- <-.
      split; [apply u64_bound|]. apply set_bs_ok; [by eapply ilog2_u8|by eapply ilog2_u8|done]. }
  destruct Hback as [Hs Hp]. set (tr := negb (b0 || negb (ublk_param_is_valid p0))).
  set (bf := negb tr || negb (le_direct env =? 0)). set (ob := u64 (Z.shiftl off 9)).
  destruct ((0 <? size) && (size <=? ob)) eqn:Hoff; [done|]. intros [= <- <- <- <-].
  pose proof (u64_bound (Z.shiftl off 9)) as Hob. fold ob in Hob.
  set (by' := if 0 <? size then size - ob else size).
  assert (Hby : is_u64 by').
  { unfold by', is_u64 in *. destruct (Z.ltb_spec 0 size); cbn [andb] in Hoff; [|lia]. apply Z.leb_gt in Hoff. lia. }
  set (p1 := if bf then set_bs 9 12 p0 else p0).
  assert (Hp1 : params_ok p1) by (unfold p1; destruct bf; [by apply set_bs_ok|done]).
  pose proof (set_dev_sectors_ok (Z.shiftr by' 9) p1 (shiftr_u64 by' 9 ltac:(lia) Hby) Hp1) as Hp2.
  split; [|split; [done|split]].
  - destruct (negb (st_blksize st =? 0) && can).
    + apply set_discard_ok; [|done]. pose proof (u32_bound (st_blksize st)). repeat split; try done; widths.
    + apply set_types_ok; [|done]. cbn [set_dev_sectors set_basic params_types].
      assert (Ht : params_types p1 = params_types (loop_params info)).
      { unfold p1. destruct bf; cbn [set_bs set_basic params_types].
        all: unfold loop_backing in Hb; repeat case_match; simplify_eq; try done.
        all: cbn in Hb; repeat (match type of Hb with context [ilog2 ?x] => destruct (ilog2 x) end; cbn in Hb; simplify_eq).
        all: done. }
      rewrite Ht. done.
  - by destruct (negb (st_blksize st =? 0) && can).
  - exists size, can, p0. done.
Qed.

Lemma strtoul_u64 a : is_u64 (fst (strtoul a)).
Proof. unfold strtoul. destruct (ULONG_MAX <? _); cbn; [done|apply u64_bound]. Qed.

Lemma loop_options_u64 opts file0 off0 b0 file off b :
  is_u64 off0 -> foldl loop_option (file0, off0, b0) opts = (file, off, b) -> is_u64 off.
Proof.
  revert file0 off0 b0. induction opts as [|o opts IH]; intros file0 off0 b0 Ho; cbn [foldl].
  - by intros [= <- <- <-].
  - destruct o; cbn [loop_option]; apply IH; try done. apply strtoul_u64.
Qed.

(** ** The loop target *)
Section loop_spec.
Context `{!JsonText, !JsonTextLaws}.
Notation dev := (ublksrv_dev loop_tgt_data).

(** The documents [loop_init_tgt] writes, one after the other. *)
Section docs_of.
Variables (info : ublksrv_ctrl_dev_info) (file : string) (off : Z) (buffered : bool) (bytes : Z) (p : ublk_params).
Definition loop_m1 := doc_info info.
Definition loop_m2 := with_base (mk_tgt_base "loop" 0 bytes) loop_m1.
Definition loop_m3 := with_target "backing_file" (JStr file) loop_m2.
Definition loop_m4 := with_target "direct_io" (JNum (s64 (if buffered then 0 else 1))) loop_m3.
Definition loop_m5 := with_target "offset" (JNum (u64 off)) loop_m4.
Definition loop_doc := doc_params p loop_m5.
Definition loop_docs := [loop_m1; loop_m2; loop_m3; loop_m4; loop_m5; loop_doc].

Lemma loop_doc_target : exists t, loop_doc !! "target" = Some (JObj t) /\
  t !! "backing_file" = Some (JStr file) /\ t !! "offset" = Some (JNum (u64 off)) /\
  t !! "direct_io" = Some (JNum (if buffered then 0 else 1)).
Proof.
  exists (target_of loop_m5). unfold loop_doc, doc_params. rewrite lookup_insert_ne by done.
  split; [apply with_target_lookup|].
  unfold loop_m5, loop_m4, loop_m3. rewrite !target_of_with. split; [|split].
  - by rewrite lookup_insert_ne, lookup_insert_ne, lookup_insert_eq.
  - by rewrite lookup_insert_eq.
  - rewrite lookup_insert_ne, lookup_insert_eq by done. by destruct buffered.
Qed.

Lemma loop_doc_params : loop_doc !! "params" = Some (params_to_json p).
Proof. apply lookup_insert_eq. Qed.
End docs_of.

(** What the I/O path depends on. *)
Definition loop_config (dv : dev) : Z * Z * Z * Z * option loop_tgt_data :=
  let t := dv_tgt dv in (dev_size t, tgt_ring_depth t, nr_fds t, io_data_size t, dv_data dv).

Definition loop_data_for (info : ublksrv_ctrl_dev_info) (blk : bool) (off : Z) : loop_tgt_data :=
  mk_loop_tgt_data (has (dev_flags info) UBLK_F_USER_COPY) (has (dev_flags info) UBLK_F_AUTO_BUF_REG)
    (has (dev_flags info) UBLK_F_SUPPORT_ZERO_COPY) blk off.
Definition loop_depth_for (info : ublksrv_ctrl_dev_info) : Z :=
  if has (dev_flags info) UBLK_F_SUPPORT_ZERO_COPY || has (dev_flags info) UBLK_F_USER_COPY
  then queue_depth info * 2 else queue_depth info.

(** Set-up from a description gives the configuration the description names. *)
Lemma loop_setup_doc env junk dv d0 sb file off buffered bytes p :
  text_of (dv_jbuf dv) (loop_doc (dv_info dv) file off buffered bytes p) ->
  dv_data dv = Some d0 -> slen file < jbuf_size (dv_jbuf dv) -> slen file < PATH_MAX -> is_u64 off -> is_u64 bytes ->
  params_ok p -> dev_sectors (p_basic p) = Z.shiftr bytes 9 -> 0 <= le_open2 env -> le_stat2 env = Some sb ->
  exists dv', loop_setup_tgt env junk dv = Some (0, dv') /\
    loop_config dv' = (512 * (bytes / 512), loop_depth_for (dv_info dv), 1, sizeof_io_tgt,
      Some (loop_data_for (dv_info dv) (S_ISBLK (st_mode sb)) off)) /\
    tgt_fds (dv_tgt dv') = <[1%nat := le_open2 env]> (tgt_fds (dv_tgt dv)) /\ dv_jbuf dv' = dv_jbuf dv /\
    dv_log dv' = dv_log dv ++ (if buffered then [] else [DvDirect (le_open2 env)]).
Proof.
  intros Ht Hd Hl1 Hl2 Hoff Hby Hp Hsec Hfd Hst.
  destruct (loop_doc_target (dv_info dv) file off buffered bytes p) as (t&Htgt&Hf&Ho&Hdio).
  pose proof (loop_doc_params (dv_info dv) file off buffered bytes p) as Hpp.
  unfold loop_setup_tgt, jread_str. rewrite (read_str_text _ _ _ _ _ Ht Htgt Hf Hl1). cbn [mbind option_bind].
  rewrite (proj2 (Z.ltb_lt _ _) Hl2). cbn [mbind option_bind Z.ltb Z.compare].
  rewrite (read_ulong_text _ _ _ _ _ Ht Htgt Hdio) by (destruct buffered; done). cbn [mbind option_bind Z.eqb negb].
  rewrite (read_ulong_text _ _ _ _ _ Ht Htgt Ho) by apply u64_bound. rewrite u64_id by done.
  cbn [mbind option_bind Z.eqb negb]. rewrite Hd. cbn [mbind option_bind default from_option id].
  change (dv_jbuf (dv_set_data _ dv)) with (dv_jbuf dv). rewrite (read_params_text _ _ p junk Ht Hpp Hp).
  cbn [mbind option_bind Z.eqb negb]. rewrite (proj2 (Z.ltb_ge _ _) Hfd), Hst.
  eexists. split; [done|].
  assert (Hsize : u64 (Z.shiftl (dev_sectors (p_basic p)) 9) = 512 * (bytes / 512)).
  { rewrite Hsec, Z.shiftr_div_pow2, Z.shiftl_mul_pow2 by lia. change (2^9) with 512. rewrite Z.mul_comm.
    apply u64_id. unfold is_u64 in *. pose proof (Z.div_mod bytes 512). pose proof (Z.mod_pos_bound bytes 512). lia. }
  rewrite Hsize. destruct buffered; cbn; rewrite ?app_nil_r; repeat split.
Qed.

(** Writing the whole description. *)
Lemma loop_describes cap info file off buffered bytes p (dv : dev) :
  dv_info dv = info -> buf_ok cap (dv_jbuf dv) -> Forall (fits cap) (loop_docs info file off buffered bytes p) ->
  exists b, holds cap b (loop_doc info file off buffered bytes p) /\ forall (k : dev -> option (Z * dev)),
  (dv ← jwrite (ublk_json_write_dev_info always info) dv;
   dv ← jwrite (ublk_json_write_target_base always (mk_tgt_base "loop" 0 bytes)) dv;
   dv ← jwrite (ublk_json_write_tgt_str always "backing_file" (Some file)) dv;
   dv ← jwrite (ublk_json_write_tgt_long always "direct_io" (if buffered : bool then 0 else 1)) dv;
   dv ← jwrite (ublk_json_write_tgt_ulong always "offset" off) dv;
   dv ← jwrite (ublk_json_write_params always p) dv; k dv) = k (dv_set_jbuf b dv).
Proof.
  intros Hinfo Hb Hfits. apply (jwrites_new cap info [DwBase (mk_tgt_base "loop" 0 bytes); DwStr "backing_file" (Some file);
    DwLong "direct_io" (if buffered then 0 else 1); DwUlong "offset" off; DwParams p] dv Hb Hfits).
Qed.

(** A device that is added with these options, over this backing file. *)
Record loop_add (cap argc : Z) (env : loop_env) (opts : list loop_opt) (dv : dev) (file : string) (off : Z) (buffered : bool)
    (bytes : Z) (p : ublk_params) (st sb : file_stat) (b0 tried : bool) : Prop := {
  la_new : ublksrv_is_recovering argc (dv_ctrl dv) = false;
  la_opts : foldl loop_option (None, 0, false) opts = (Some file, off, b0);
  la_open1 : 0 <= le_open1 env;
  la_stat1 : le_stat1 env = Some st;
  la_size : forall n, le_size64 env = Some n -> is_u64 n;
  la_describe : loop_describe env st (dv_info dv) off b0 = Some (inr (tried, buffered, bytes, p));
  la_open2 : 0 <= le_open2 env;
  la_stat2 : le_stat2 env = Some sb;
  la_info : dev_info_ok (dv_info dv);
  la_buf : buf_ok cap (dv_jbuf dv);
  la_fits : Forall (fits cap) (loop_docs (dv_info dv) file off buffered bytes p);
  la_file : slen file < 512
}.

Lemma loop_init_ok cap argc env opts dv file off buffered bytes p st sb b0 tried junk :
  loop_add cap argc env opts dv file off buffered bytes p st sb b0 tried ->
  params_ok p /\ is_u64 off /\ is_u64 bytes /\ dev_sectors (p_basic p) = Z.shiftr bytes 9 /\
  exists dv', loop_init_tgt always argc env opts junk dv = Some (0, dv') /\
    loop_config dv' = (512 * (bytes / 512), loop_depth_for (dv_info dv), 1, sizeof_io_tgt,
      Some (loop_data_for (dv_info dv) (S_ISBLK (st_mode sb)) off)) /\
    tgt_fds (dv_tgt dv') = <[1%nat := le_open2 env]> (tgt_fds (dv_tgt dv)) /\
    holds cap (dv_jbuf dv') (loop_doc (dv_info dv) file off buffered bytes p) /\
    dv_log dv' = dv_log dv ++ (if tried then [DvDirect (le_open1 env)] else []) ++ [DvClose (le_open1 env)] ++
      (if buffered then [] else [DvDirect (le_open2 env)]).
Proof.
  intros [Hnew Hopts Ho1 Hs1 Hsz Hdesc Ho2 Hs2 Hi Hb Hfits Hfile].
  destruct (loop_describe_ok _ _ _ _ _ _ _ _ _ Hi Hsz Hdesc) as (Hp&Hby&Hsec&_).
  pose proof (loop_options_u64 opts None 0 false _ _ _ ltac:(done) Hopts) as Hoff.
  do 4 (split; [done|]). unfold loop_init_tgt. rewrite Hnew, Hopts. rewrite (proj2 (Z.ltb_ge _ _) Ho1), Hs1, Hdesc.
  cbn [mbind option_bind]. set (dv1 := if tried then dv_event (DvDirect (le_open1 env)) dv else dv).
  assert (Hj1 : dv_jbuf dv1 = dv_jbuf dv /\ dv_info dv1 = dv_info dv /\ dv_tgt dv1 = dv_tgt dv /\
    dv_log dv1 = dv_log dv ++ (if tried then [DvDirect (le_open1 env)] else [])).
  { unfold dv1. destruct tried; cbn; rewrite ?app_nil_r; done. }
  destruct Hj1 as (Hj1&Hi1&Ht1&Hl1). rewrite <- Hj1 in Hb.
  destruct (loop_describes cap (dv_info dv) file off buffered bytes p dv1 Hi1 Hb Hfits) as (b&Hh&Hrun).
  rewrite Hrun. clear Hrun.
  set (dv2 := dv_set_data (Some zero_loop_data) (dv_event (DvClose (le_open1 env)) (dv_set_jbuf b dv1))).
  destruct Hh as [Hbok Hbt]. pose proof Hbok as (_&H512&_).
  destruct (loop_setup_doc env junk dv2 zero_loop_data sb file off buffered bytes p) as (dv'&Hset&Hcfg&Hfds&Hjb&Hlog); try done.
  - change (dv_info dv2) with (dv_info dv1). rewrite Hi1. by apply (holds_text cap).
  - change (dv_jbuf dv2) with b. lia.
  - unfold PATH_MAX. lia.
  - exists dv'. change (dv_info dv2) with (dv_info dv1) in Hcfg. rewrite Hi1 in Hcfg.
    change (dv_tgt dv2) with (dv_tgt dv1) in Hfds. rewrite Ht1 in Hfds. change (dv_jbuf dv2) with b in Hjb. rewrite Hjb.
    do 4 (split; [done|]). rewrite Hlog. cbn [dv2 dv_set_data dv_event dv_set_jbuf dv_set_ctrl dv_log].
    by rewrite Hl1, <- !app_assoc.
Qed.

(** The size of the backing file as the system reports it: BLKGETSIZE64 of a
    block device, st_size of a regular file. *)
Definition backing_size (env : loop_env) (st : file_stat) (size : Z) : Prop :=
  if S_ISBLK (st_mode st) then le_size64 env = Some size else S_ISREG (st_mode st) = true /\ st_size st = size.

(** The size described is what is left of the file after the offset. *)
Lemma describe_size env st info off b0 tried buffered bytes p size :
  backing_size env st size -> 0 < size < 2^64 -> 0 <= off < 2^55 ->
  loop_describe env st info off b0 = Some (inr (tried, buffered, bytes, p)) ->
  off * 512 < size /\ bytes = size - off * 512.
Proof.
  intros Hbs Hsize Hoff Hd.
  assert (Hob : u64 (Z.shiftl off 9) = off * 512).
  { rewrite Z.shiftl_mul_pow2 by done. apply u64_id. unfold is_u64. change (2^9) with 512. lia. }
  unfold loop_describe in Hd. destruct (loop_backing env st (loop_params info)) as [[ret|[[n can] p0]]|] eqn:Hb;
    cbn [mbind option_bind] in Hd; try done.
  assert (n = size) as ->.
  { unfold backing_size in Hbs. unfold loop_backing in Hb. destruct (S_ISBLK (st_mode st)).
    - rewrite Hbs in Hb. destruct (le_ssz env) as [bs|], (le_pbsz env) as [pbs|]; try done.
      destruct (ilog2 bs); [|done]. destruct (ilog2 pbs); [|done]. cbn in Hb. by injection Hb.
    - destruct Hbs as [Hreg Hst]. rewrite Hreg in Hb. destruct (ilog2 (st_blksize st)); [|done]. cbn in Hb. injection Hb as <- _ _.
      rewrite Hst. by apply u64_id; unfold is_u64; lia. }
  rewrite Hob, (proj2 (Z.ltb_lt 0 size)) in Hd by lia. cbn [andb] in Hd.
  destruct (Z.leb_spec size (off * 512)); [done|]. injection Hd as _ _ <- _. lia.
Qed.

(** C30: Recovery restores a loop device.  When a device is added over a backing
    file that is not empty, its size is the size of the file less the offset
    (in sectors) of the options, in whole sectors, and it uses the second
    descriptor; when a later daemon sets the target up from the stored
    description (whatever its options are), it gets the same size, the same
    offset into the file, the same ring depth and the same way of moving data,
    as long as the device's flags and the type of the file are the same.  The
    file name is shorter than 512 characters, the descriptions fit the buffer
    and the offset is below 2^55 sectors. *)
Theorem loop_recovery_restores cap argc env opts dv file off buffered bytes p st sb b0 tried junk size :
  loop_add cap argc env opts dv file off buffered bytes p st sb b0 tried ->
  backing_size env st size -> 0 < size < 2^64 -> off < 2^55 ->
  exists dv', loop_init_tgt always argc env opts junk dv = Some (0, dv') /\
    off * 512 < size /\ dev_size (dv_tgt dv') = 512 * (size / 512 - off) /\ (offset <$> dv_data dv') = Some off /\
    tgt_fds (dv_tgt dv') = <[1%nat := le_open2 env]> (tgt_fds (dv_tgt dv)) /\
    forall argc2 env2 opts2 junk2 dv2 sb2,
      ublksrv_is_recovering argc2 (dv_ctrl dv2) = true -> dv_info dv2 = dv_info dv ->
      is_Some (jb_alloc (dv_jbuf dv2)) -> jbuf (dv_jbuf dv2) = jbuf (dv_jbuf dv') -> slen file < jbuf_size (dv_jbuf dv2) ->
      0 <= le_open2 env2 -> le_stat2 env2 = Some sb2 -> S_ISBLK (st_mode sb2) = S_ISBLK (st_mode sb) ->
      exists dv2', loop_init_tgt always argc2 env2 opts2 junk2 dv2 = Some (0, dv2') /\ loop_config dv2' = loop_config dv'.
Proof.
  intros Hadd Hbs Hsize Hoff55. pose proof (la_file _ _ _ _ _ _ _ _ _ _ _ _ _ _ Hadd) as Hfile.
  destruct (loop_init_ok _ _ _ _ _ _ _ _ _ _ _ _ _ _ junk Hadd) as (Hp&Hoff&Hby&Hsec&dv'&Hrun&Hcfg&Hfds&Hh&_).
  exists dv'. split; [done|]. unfold loop_config in Hcfg. injection Hcfg as H1 H2 H3 H4 H5.
  destruct (describe_size _ _ _ _ _ _ _ _ _ size Hbs Hsize (conj (proj1 Hoff) Hoff55)
    (la_describe _ _ _ _ _ _ _ _ _ _ _ _ _ _ Hadd)) as [Hlt Hbytes].
  split; [done|]. split; [rewrite H1, Hbytes; Z.div_mod_to_equations; lia|]. split; [by rewrite H5|]. split; [done|].
  intros argc2 env2 opts2 junk2 dv2 sb2 Hrec Hinfo Halloc Hj Hl Ho2 Hs2 Hblk.
  unfold loop_init_tgt. rewrite Hrec. unfold loop_recover_tgt.
  set (dv3 := dv_set_data (Some zero_loop_data) dv2).
  destruct (loop_setup_doc env2 junk2 dv3 zero_loop_data sb2 file off buffered bytes p) as (dv2'&Hset&Hcfg2&_); try done.
  - change (dv_info dv3) with (dv_info dv2). rewrite Hinfo. split; [done|].
    change (dv_jbuf dv3) with (dv_jbuf dv2). rewrite Hj. apply Hh.
  - unfold PATH_MAX. lia.
  - exists dv2'. split; [done|]. rewrite Hcfg2. change (dv_info dv3) with (dv_info dv2). rewrite Hinfo, Hblk.
    unfold loop_config. by rewrite H1, H2, H3, H4, H5.
Qed.

Definition is_direct (e : devent) : bool := match e with DvDirect _ => true | _ => false end.

(** The loop target closes what it opens: after a device was added, the
    library's tear-down of the target syncs the backing file and closes its
    descriptor exactly once, and the descriptor that was only used to look at
    the file is closed during set-up. *)
Theorem loop_closes_backing_file cap argc env opts dv file off buffered bytes p st sb b0 tried junk tgt :
  loop_add cap argc env opts dv file off buffered bytes p st sb b0 tried -> dv_log dv = [] ->
  (2 <= length (tgt_fds (dv_tgt dv)))%nat -> tt_deinit_tgt tgt = Some loop_deinit_tgt ->
  exists dv', loop_init_tgt always argc env opts junk dv = Some (0, dv') /\
    filter (fun e => is_direct e = false)
      (dv_log (ublksrv_tgt_deinit (Some tgt) (dv_set_ops true dv'))) =
    [DvClose (le_open1 env); DvFsync (le_open2 env); DvClose (le_open2 env); DvFreeData].
Proof.
  intros Hadd Hlog0 Hlen Htgt.
  destruct (loop_init_ok _ _ _ _ _ _ _ _ _ _ _ _ _ _ junk Hadd) as (_&_&_&_&dv'&Hrun&Hcfg&Hfds&_&Hlog).
  exists dv'. split; [done|]. unfold loop_config in Hcfg. injection Hcfg as H1 H2 H3 H4 H5.
  unfold ublksrv_tgt_deinit, ublksrv_tgt_exit. cbn [dv_set_ops dv_tgt]. rewrite H3. change (Z.to_nat (1 - 1)) with 0%nat.
  rewrite take_0. cbn [close_fds dv_set_ops dv_ops]. rewrite Htgt. unfold loop_deinit_tgt. cbn [dv_set_ops dv_tgt dv_event dv_log].
  rewrite Hfds, list_lookup_insert_eq by lia. cbn [default from_option id]. rewrite Hlog, Hlog0.
  by destruct tried, buffered.
Qed.
End loop_spec.

(** ** The null target *)
Section null_spec.
Context `{!JsonText, !JsonTextLaws} {D : Type}.
Notation dev := (ublksrv_dev D).

Definition null_docs (info : ublksrv_ctrl_dev_info) : list (gmap string json) :=
  let m1 := doc_info info in
  let m2 := with_base (mk_tgt_base "null" 0 0) m1 in
  [m1; m2; doc_params (null_params info) m2].

Lemma null_params_ok info : dev_info_ok info -> params_ok (null_params info).
Proof.
  intros Hi. pose proof (max_sectors_ok info Hi). unfold params_ok, basic_ok, discard_ok, devt_ok, zoned_ok, dma_ok,
    segment_ok, integrity_ok, null_params. cbn [p_basic p_discard p_devt p_zoned p_dma p_seg p_integrity params_len
    params_types set_basic set_types attrs max_sectors]. repeat split; try done; widths.
Qed.

Lemma null_setup_doc junk (dv : dev) m info :
  text_of (dv_jbuf dv) m -> m !! "params" = Some (params_to_json (null_params info)) -> dev_info_ok info ->
  null_setup_tgt junk dv = Some (0, set_tgt null_dev_size
    (if has (dev_flags (dv_info dv)) UBLK_F_SUPPORT_ZERO_COPY then queue_depth (dv_info dv) * 2 else queue_depth (dv_info dv)) 0
    (extra_ios (dv_tgt dv)) sizeof_io_tgt (tgt_fds (dv_tgt dv)) dv).
Proof.
  intros Ht Hm Hi. unfold null_setup_tgt. rewrite (read_params_text _ _ _ _ Ht Hm (null_params_ok _ Hi)). done.
Qed.

(** A null device is set up with its 250 GiB and recovered with the same
    size and ring depth.  The description does not say so: the size in its base
    information is zero, because it is assigned after that was written. *)
Theorem null_add_and_recover cap argc junk (dv : dev) :
  has (dev_flags (dv_info dv)) UBLK_F_UNPRIVILEGED_DEV = false -> ublksrv_is_recovering argc (dv_ctrl dv) = false ->
  dev_info_ok (dv_info dv) -> buf_ok cap (dv_jbuf dv) -> Forall (fits cap) (null_docs (dv_info dv)) ->
  exists dv', null_init_tgt always argc junk dv = Some (0, dv') /\
    dev_size (dv_tgt dv') = 250 * 2^30 /\
    ublksrv_json_read_target_base_info (jbuf (dv_jbuf dv')) = Some (0, Some (mk_tgt_base "null" 0 0)) /\
    forall argc2 junk2 (dv2 : dev), ublksrv_is_recovering argc2 (dv_ctrl dv2) = true -> dv_info dv2 = dv_info dv ->
      is_Some (jb_alloc (dv_jbuf dv2)) -> jbuf (dv_jbuf dv2) = jbuf (dv_jbuf dv') ->
      exists dv2', null_init_tgt always argc2 junk2 dv2 = Some (0, dv2') /\
        dev_size (dv_tgt dv2') = dev_size (dv_tgt dv') /\ tgt_ring_depth (dv_tgt dv2') = tgt_ring_depth (dv_tgt dv').
Proof.
  intros Hun Hrec Hi Hb Hfits. unfold null_init_tgt. rewrite Hun, Hrec.
  destruct (jwrites_new cap _ [DwBase (mk_tgt_base "null" 0 0); DwParams (null_params (dv_info dv))] dv Hb Hfits)
    as (b3&H3&Hk). cbn [jwrites dw_run] in Hk. rewrite Hk. cbn [foldl dw_doc] in H3.
  set (m := doc_params _ _) in *. assert (Hm : m !! "params" = Some (params_to_json (null_params (dv_info dv)))) by apply lookup_insert_eq.
  rewrite (null_setup_doc junk (dv_set_jbuf b3 dv) m (dv_info dv) (holds_text _ _ _ H3) Hm Hi).
  eexists. split; [done|]. split; [done|]. split.
  - cbn. eapply read_base_doc; [by eapply holds_parse| | | | |done].
    + unfold m, doc_params. rewrite lookup_insert_ne by done. unfold with_base. unfold with_target at 1. by rewrite lookup_insert_eq.
    + rewrite !target_of_with. by rewrite lookup_insert_ne, lookup_insert_ne, lookup_insert_eq.
    + rewrite !target_of_with. by rewrite lookup_insert_ne, lookup_insert_eq.
    + by rewrite lookup_insert_eq.
  - intros argc2 junk2 dv2 Hr2 Hi2 Ha2 Hj2. rewrite Hi2, Hun, Hr2. unfold null_recover_tgt.
    rewrite (null_setup_doc junk2 dv2 m (dv_info dv)); [|split; [done|rewrite Hj2; apply H3]|done|done].
    eexists. split; [done|]. cbn. by rewrite Hi2.
Qed.
End null_spec.
