(* ===== verification/TgtInitExamples.v ===== *)
(** * Adding and recovering small devices

    The theorems on setting targets and devices up, applied: a loop device over
    a regular file with an offset, a null device, and a device whose char device
    cannot be opened. *)

From S2P Require Import Prelude UblkCmd Params Json JsonExamples Ctrl QueueSetup DevSetup Loop TgtInit JsonDoc TgtInitSpec.

Definition ext_info : ublksrv_ctrl_dev_info := mk_dev_info 1 128 0 0 524288 0 0 0 0 0 0 0 0 0.
Definition ext_ctrl (rec : bool) (b : ublksrv_tgt_jbuf) : ublksrv_ctrl_dev :=
  mk_ctrl_dev 3 ext_info b rec (Some "/run/ublksrvd") None [].
Definition ext_buf : ublksrv_tgt_jbuf := mk_jbuf 512 (Some 512) "".
Definition ext_dev {D} : ublksrv_dev D := set_cdev 4 (fresh_dev (ext_ctrl false ext_buf)).

Definition ext_stat : file_stat := mk_stat 33188 1048676 4096.
Definition ext_env : loop_env := mk_loop_env 5 (Some ext_stat) None None None (-1, []) 0 6 (Some ext_stat).
(** --offset 8 *)
Definition ext_opts : list loop_opt := [LoFile "/data/disk.img"; LoOffset [Ascii.ascii_of_nat 56]].

Lemma fits_compute cap m : (slen (dump (JObj m)) <? cap) = true -> fits cap m.
Proof. apply Z.ltb_lt. Qed.

Definition ext_params : ublk_params :=
  set_discard (mk_param_discard 0 4096 8388607 0 1 0) (set_dev_sectors 2040 (set_bs 12 12 (loop_params ext_info))).

Lemma ext_add : loop_add (grow_max 512) 4 ext_env ext_opts ext_dev "/data/disk.img" 8 false 1044580 ext_params ext_stat ext_stat
  false true.
Proof.
  split.
  - reflexivity.
  - reflexivity.
  - done.
  - reflexivity.
  - done.
  - vm_compute. reflexivity.
  - done.
  - reflexivity.
  - repeat split; done.
  - repeat split; done.
  - repeat constructor; apply fits_compute; vm_compute; reflexivity.
  - done.
Qed.

(** The daemon that takes over: the description in a buffer just large enough,
    the file under another descriptor. *)
Definition ext_dev2 (b : ublksrv_tgt_jbuf) : ublksrv_dev loop_tgt_data :=
  set_cdev 4 (fresh_dev (ext_ctrl true (mk_jbuf (slen (jbuf b) + 1) (Some (slen (jbuf b) + 1)) (jbuf b)))).
Definition ext_env2 : loop_env := mk_loop_env (-1) None None None None (-1, []) 0 9 (Some ext_stat).

Lemma loop_recovery_restores_witness :
  exists dv', loop_init_tgt always 4 ext_env ext_opts zero_params ext_dev = Some (0, dv') /\
    dev_size (dv_tgt dv') = 1044480 /\
    exists dv2', loop_init_tgt always 0 ext_env2 [] zero_params (ext_dev2 (dv_jbuf dv')) = Some (0, dv2') /\
      loop_config dv2' = loop_config dv'.
Proof.
  destruct (loop_recovery_restores _ _ _ _ _ _ _ _ _ _ _ _ _ _ zero_params 1048676 ext_add)
    as (dv'&Hrun&_&Hsize&_&_&Hrec); [split; reflexivity|done|done|].
  exists dv'. split; [exact Hrun|]. split; [exact Hsize|].
  apply (Hrec 0 ext_env2 [] zero_params (ext_dev2 (dv_jbuf dv')) ext_stat).
  - reflexivity.
  - reflexivity.
  - by eexists.
  - reflexivity.
  - assert (E : (slen "/data/disk.img" <? slen (jbuf (dv_jbuf dv')) + 1) = true); [|apply Z.ltb_lt; exact E].
    clear Hrec Hsize. revert Hrun. vm_compute. intros [= <-]. reflexivity.
  - done.
  - reflexivity.
  - reflexivity.
Defined.

Lemma loop_closes_backing_file_witness :
  exists dv', loop_init_tgt always 4 ext_env ext_opts zero_params ext_dev = Some (0, dv') /\
    filter (fun e => is_direct e = false)
      (dv_log (ublksrv_tgt_deinit (Some (loop_tgt always 4 ext_env ext_opts zero_params)) (dv_set_ops true dv'))) =
    [DvClose 5; DvFsync 6; DvClose 6; DvFreeData].
Proof.
  apply (loop_closes_backing_file _ _ _ _ _ _ _ _ _ _ _ _ _ _ zero_params
    (loop_tgt always 4 ext_env ext_opts zero_params) ext_add).
  - reflexivity.
  - cbn. lia.
  - reflexivity.
Defined.

Lemma null_add_and_recover_witness :
  exists dv', null_init_tgt (D := unit) always 4 zero_params ext_dev = Some (0, dv') /\ dev_size (dv_tgt dv') = 268435456000.
Proof.
  destruct (null_add_and_recover (D := unit) (grow_max 512) 4 zero_params ext_dev) as (dv'&Hrun&Hsize&_).
  - reflexivity.
  - reflexivity.
  - repeat split; done.
  - repeat split; done.
  - repeat constructor; apply fits_compute; vm_compute; reflexivity.
  - exists dv'. split; [exact Hrun|exact Hsize].
Defined.

(** The char device of another daemon: every attempt is refused. *)
Lemma dev_init_failure_removes_pid_file_witness :
  exists dv, ublksrv_dev_init (D := unit) 4 (Some "null") (Some (null_tgt always 4 zero_params)) (fun _ => - EBUSY) 0 7 0 true
      (ext_ctrl false ext_buf) = Some (false, dv) /\
    dv_log dv = [DvClose 0; DvUnlinkPid; DvFreeDev].
Proof.
  destruct (dev_init_failure_removes_pid_file (D := unit) 4 (Some "null") (Some (null_tgt always 4 zero_params))
    (fun _ => - EBUSY) 0 7 0 true (ext_ctrl false ext_buf) "/run/ublksrvd" (- EBUSY) 11) as [H _].
  - reflexivity.
  - reflexivity.
  - apply H. reflexivity.
Defined.
