(* ===== verification/NbdSetup.v ===== *)
(** * Setting up the nbd target

    init_tgt, deinit_tgt and the queue callbacks of targets/nbd/ublk.nbd.cpp.
    The target opens one connection per queue and negotiates on it
    (NbdHandshake).  [None] is a callback that does not return: the process
    ended during negotiation, a write outside a buffer, or no fuel left. *)

From S2P Require Import Prelude Bytes UblkCmd Uring Params Json Ctrl QueueSetup DevSetup TgtInit JsonDoc NbdHandshake Nbd.

Definition NBD_MAX_NAME : Z := 512.
Definition NBD_FLAG_READ_ONLY : Z := bit 1.
Definition NBD_FLAG_SEND_FLUSH : Z := bit 2.
Definition NBD_FLAG_SEND_FUA : Z := bit 3.
Definition NBD_FLAG_SEND_TRIM : Z := bit 5.
Definition sizeof_nbd_io_data : Z := 8.

Record nbd_tgt_data := mk_nbd_tgt_data { unix_sock : bool; tgt_send_zc : bool }.

Definition NBD_DEFAULT_PORT : string := "10809".

Inductive nbd_peer := PeerUnix (path : string) | PeerNet (host port : string).

(** What a queue's connection meets, by where it goes: the result of
    getaddrinfo(3) with the outcomes of its addresses, the outcome of a local
    socket, and the stream to the server. *)
Record nbd_conn {S : Type} := mk_conn {
  nc_lookup : string -> string -> Z * list net_addr;
  nc_unix : string -> net_addr;
  nc_stream : nbd_peer -> S
}.
#[global] Arguments nbd_conn S : clear implicits.
#[global] Arguments mk_conn {S}.

Inductive nbd_opt :=
| NoHost (arg : string)
| NoUnix (arg : string)
| NoExport (arg : string)
| NoSendZc
| NoReadOnly.

Definition bytes_of (s : string) : list Z :=
  map (fun c => Z.of_nat (Ascii.nat_of_ascii c)) (String.list_ascii_of_string s).

Definition nbd_parse_flags (p : ublk_params) (flags bs : Z) : ublk_params :=
  let attrs0 := if has flags NBD_FLAG_READ_ONLY then UBLK_ATTR_READ_ONLY else 0 in
  let attrs0 := if has flags NBD_FLAG_SEND_FLUSH then
                  if has flags NBD_FLAG_SEND_FUA then Z.lor attrs0 UBLK_ATTR_FUA
                  else Z.lor attrs0 UBLK_ATTR_VOLATILE_CACHE
                else attrs0 in
  let b := p_basic p in
  let p := set_basic (mk_param_basic (Z.lor (attrs b) attrs0) (logical_bs_shift b) (physical_bs_shift b) (io_opt_shift b)
             (io_min_shift b) (max_sectors b) (chunk_sectors b) (dev_sectors b) (virt_boundary_mask b)) p in
  if has flags NBD_FLAG_SEND_TRIM then
    let d := p_discard p in
    set_types (Z.lor (params_types p) UBLK_PARAM_TYPE_DISCARD)
      (set_discard (mk_param_discard (discard_alignment d) bs (Z.shiftr UINT_MAX 9) (max_write_zeroes_sectors d) 1
        (discard_reserved0 d)) p)
  else p.

Section nbd_setup.
Context `{!JsonText} {S : Type} `{!NbdSock S}.
Notation dev := (ublksrv_dev nbd_tgt_data).
Variable mem : Z -> bool.
Variable fuel : nat.
Variable sjunk : S -> nat -> list Z.

Definition set_fd (i : nat) (fd : Z) (dv : dev) : dev :=
  let t := dv_tgt dv in
  dv_set_tgt (mk_tgt_info (dev_size t) (tgt_ring_depth t) (nr_fds t) (<[i := fd]> (tgt_fds t)) (extra_ios t)
    (io_data_size t) (iowq_max_workers t)) dv.

(** Where the connection goes, and its socket. *)
Definition conn_peer (host_name unix_path : string) : nbd_peer :=
  if negb (slen unix_path =? 0) then PeerUnix unix_path else PeerNet host_name NBD_DEFAULT_PORT.

Definition open_conn (c : nbd_conn S) (host_name unix_path : string) : Z :=
  match conn_peer host_name unix_path with
  | PeerUnix path => fst (openunix (bytes_of path ++ [0]) (nc_unix c path))
  | PeerNet host port => let '(e, addrs) := nc_lookup c host port in fst (opennet e addrs)
  end.

(** The queues from [i] on: the value returned early, or the size and the flags
    of the last negotiation. *)
Fixpoint nbd_connect (conns : list (nbd_conn S)) (i : nat) (host_name unix_path exp_name : string) (size flags : Z) (dv : dev)
    : option (Z + Z * Z) * dev :=
  match conns with
  | [] => (Some (inr (size, flags)), dv)
  | c :: conns =>
      let sock := open_conn c host_name unix_path in
      if 0 <=? sock then
        match negotiate fuel sjunk size flags (bytes_of exp_name ++ [0]) 0 NBD_FLAG_C_FIXED_NEWSTYLE 0 false true
          (nc_stream c (conn_peer host_name unix_path)) with
        | HsRet (size, flags) _ => nbd_connect conns (Datatypes.S i) host_name unix_path exp_name size flags (set_fd (Datatypes.S i) sock dv)
        | _ => (None, dv)
        end
      else (Some (inl sock), dv)
  end.

(** A string that cannot be read leaves the array empty. *)
Definition read_name (name : string) (dv : dev) : option string :=
  '(_, s) ← jread_str NBD_MAX_NAME name dv; Some (default ""%string s).

(** [conns]: one for every queue.  The result, what is stored through [flags] on
    success, and the device. *)
Definition nbd_setup_tgt (conns : list (nbd_conn S)) (flags : Z) (dv : dev) : option (Z * Z * dev) :=
  let info := dv_info dv in
  if has (dev_flags info) UBLK_F_USER_COPY then Some (- EINVAL, flags, dv)
  else
    host_name ← read_name "host" dv;
    unix_path ← read_name "unix" dv;
    exp_name ← read_name "export_name" dv;
    '(_, send_zc) ← ublk_json_read_target_ulong_info "send_zc" (dv_jbuf dv);
    let '(r, dv) := nbd_connect conns 0 host_name unix_path exp_name 0 flags dv in
    r ← r;
    match r with
    | inl sock => Some (sock, flags, dv)
    | inr (size, flags) =>
        _ ← dv_data dv;
        let dv := set_tgt size (u32 (queue_depth info + 1)) (nr_hw_queues info) 1
                    (sizeof_io_tgt + sizeof_nbd_io_data) (tgt_fds (dv_tgt dv)) dv in
        let dv := dv_set_data (Some (mk_nbd_tgt_data (negb (slen unix_path =? 0)) (negb (default 0 send_zc =? 0)))) dv in
        let dv := ublksrv_dev_set_cq_depth (2 * tgt_ring_depth (dv_tgt dv)) dv in
        Some (if has (dev_flags info) (Z.lor UBLK_F_SUPPORT_ZERO_COPY UBLK_F_AUTO_BUF_REG) then - EINVAL else 0, flags, dv)
    end.

Definition zero_nbd_data : nbd_tgt_data := mk_nbd_tgt_data false false.

Definition nbd_recover_tgt (conns : list (nbd_conn S)) (dv : dev) : option (Z * dev) :=
  '(ret, _, dv) ← nbd_setup_tgt conns 0 (dv_set_data (Some zero_nbd_data) dv); Some (ret, dv).

(** The options: host, socket path, export, and the two flags. *)
Definition nbd_option (acc : option string * option string * option string * bool * bool) (o : nbd_opt) :=
  let '(host, path, exp, zc, ro) := acc in
  match o with
  | NoHost s => (Some s, path, exp, zc, ro)
  | NoUnix s => (host, Some s, exp, zc, ro)
  | NoExport s => (host, path, Some s, zc, ro)
  | NoSendZc => (host, path, exp, true, ro)
  | NoReadOnly => (host, path, exp, zc, true)
  end.

(** [read_only] is looked at before the options are. *)
Definition nbd_params (info : ublksrv_ctrl_dev_info) (size : Z) : ublk_params :=
  set_basic (mk_param_basic UBLK_ATTR_VOLATILE_CACHE 9 12 12 9 (Z.shiftr (max_io_buf_bytes info) 9) 0 (Z.shiftr size 9) 0)
    (set_types UBLK_PARAM_TYPE_BASIC zero_params).

(** [have_send_zc]: HAVE_LIBURING_SEND_ZC. *)
Definition nbd_init_tgt (have_send_zc : bool) (argc : Z) (opts : list nbd_opt) (conns : list (nbd_conn S)) (dv : dev)
    : option (Z * dev) :=
  let info := dv_info dv in
  if ublksrv_is_recovering argc (dv_ctrl dv) then nbd_recover_tgt conns dv
  else
    let '(host_name, unix_path, exp_name, send_zc, _) := foldl nbd_option (None, None, None, false, false) opts in
    if negb have_send_zc && send_zc then Some (- EINVAL, dv)
    else
      dv ← jwrite (ublk_json_write_dev_info mem info) dv;
      dv ← jwrite (ublk_json_write_tgt_str mem "host" host_name) dv;
      dv ← jwrite (ublk_json_write_tgt_str mem "unix" unix_path) dv;
      dv ← jwrite (ublk_json_write_tgt_str mem "export_name" exp_name) dv;
      dv ← jwrite (ublk_json_write_tgt_long mem "send_zc" (if send_zc : bool then 1 else 0)) dv;
      '(ret, flags, dv) ← nbd_setup_tgt conns 0 (dv_set_data (Some zero_nbd_data) dv);
      if negb (ret =? 0) then Some (ret, dv)
      else
        let size := dev_size (dv_tgt dv) in
        dv ← jwrite (ublk_json_write_target_base mem (mk_tgt_base "nbd" 0 size)) dv;
        dv ← jwrite (ublk_json_write_params mem (nbd_parse_flags (nbd_params info size) flags 512)) dv;
        Some (0, dv).

(** [for (i = 0; i < info->nr_hw_queues; i++) { shutdown(fd); close(fd); }] *)
Fixpoint close_socks (fds : list Z) (dv : dev) : dev :=
  match fds with
  | [] => dv
  | fd :: fds => close_socks fds (dv_event (DvClose fd) (dv_event (DvShutdown fd) dv))
  end.
Definition nbd_deinit_tgt (dv : dev) : dev :=
  close_socks (take (Z.to_nat (nr_hw_queues (dv_info dv))) (drop 1 (tgt_fds (dv_tgt dv)))) (dv_event DvFreeData dv).

Definition nbd_tgt_ops (have_send_zc : bool) (argc : Z) (opts : list nbd_opt) (conns : list (nbd_conn S))
    : tgt_type nbd_tgt_data :=
  mk_tgt "nbd" true false false (Some (nbd_init_tgt have_send_zc argc opts conns)) None (Some nbd_deinit_tgt).

(** [mem_ok]: calloc(3) succeeded. *)
Definition zero_nbd_queue : nbd_queue_data :=
  mk_nbd_queue 0 false false false false 0 [] None (replicate (Z.to_nat sizeof_nbd_reply) 0) (mk_cqe 0 0 0).
Definition nbd_init_queue (mem_ok : bool) (d : nbd_tgt_data) : Z * option nbd_queue_data :=
  if negb mem_ok then (- ENOMEM, None)
  else (0, Some (set_recv_started false
    (set_use_send_zc (if unix_sock d then false else tgt_send_zc d) zero_nbd_queue))).
End nbd_setup.

(** ** What the server's flags become *)

(** The device's attributes follow the flags of the server: read-only and FUA
    (only together with flush) are passed on, a server that takes trims makes
    the device discard in logical blocks, and nothing else of the parameters
    changes; the device always claims a volatile cache, also when the server
    knows no flush. *)
Theorem nbd_flags_to_attrs info size flags :
  let p := nbd_parse_flags (nbd_params info size) flags 512 in
  has (attrs (p_basic p)) UBLK_ATTR_READ_ONLY = has flags NBD_FLAG_READ_ONLY /\
  has (attrs (p_basic p)) UBLK_ATTR_FUA = has flags NBD_FLAG_SEND_FLUSH && has flags NBD_FLAG_SEND_FUA /\
  has (attrs (p_basic p)) UBLK_ATTR_VOLATILE_CACHE = true /\
  has (params_types p) UBLK_PARAM_TYPE_DISCARD = has flags NBD_FLAG_SEND_TRIM /\
  (has flags NBD_FLAG_SEND_TRIM = true -> discard_granularity (p_discard p) = 512 /\ max_discard_segments (p_discard p) = 1) /\
  dev_sectors (p_basic p) = Z.shiftr size 9 /\ logical_bs_shift (p_basic p) = 9.
Proof.
  cbv zeta. unfold nbd_parse_flags.
  destruct (has flags NBD_FLAG_READ_ONLY), (has flags NBD_FLAG_SEND_FLUSH), (has flags NBD_FLAG_SEND_FUA),
    (has flags NBD_FLAG_SEND_TRIM); repeat split; done.
Qed.

(** ** Connections *)
Section connections.
Context {S : Type} `{!NbdSock S}.
Notation dev := (ublksrv_dev nbd_tgt_data).
Variable fuel : nat.
Variable sjunk : S -> nat -> list Z.

(** The outcome of connecting does not depend on the device. *)
Lemma nbd_connect_result conns i h u e size flags (dv dv2 : dev) :
  fst (nbd_connect fuel sjunk conns i h u e size flags dv) = fst (nbd_connect fuel sjunk conns i h u e size flags dv2).
Proof.
  revert i size flags dv dv2. induction conns as [|c conns IH]; intros i size flags dv dv2; cbn [nbd_connect]; [done|].
  destruct (0 <=? open_conn c h u); [|done].
  destruct (negotiate _ _ _ _ _ _ _ _ _ _ _) as [[size' flags'] s| |]; [apply IH|done|done].
Qed.

(** A queue that does not connect: the others' sockets are in the array, and
    nothing else of the device has changed. *)
Lemma nbd_connect_keeps conns i h u e size flags (dv : dev) :
  let dv' := snd (nbd_connect fuel sjunk conns i h u e size flags dv) in
  dv_log dv' = dv_log dv /\ dv_ctrl dv' = dv_ctrl dv /\ dv_data dv' = dv_data dv /\ dv_ops dv' = dv_ops dv /\
  cdev_fd dv' = cdev_fd dv /\ pid_file_fd dv' = pid_file_fd dv /\
  nr_fds (dv_tgt dv') = nr_fds (dv_tgt dv) /\ length (tgt_fds (dv_tgt dv')) = length (tgt_fds (dv_tgt dv)) /\
  iowq_max_workers (dv_tgt dv') = iowq_max_workers (dv_tgt dv).
Proof.
  cbv zeta. revert i size flags dv. induction conns as [|c conns IH]; intros i size flags dv; cbn [nbd_connect]; [done|].
  destruct (0 <=? open_conn c h u); [|done].
  destruct (negotiate _ _ _ _ _ _ _ _ _ _ _) as [[size' flags'] s| |]; [|done|done].
  destruct (IH (Datatypes.S i) size' flags' (set_fd (Datatypes.S i) (open_conn c h u) dv)) as (->&->&->&->&->&->&->&->&->).
  cbn. by rewrite length_insert.
Qed.

(** The sockets of the queues, when all of them connect. *)
Lemma nbd_connect_fds conns i h u e size flags (dv : dev) r :
  fst (nbd_connect fuel sjunk conns i h u e size flags dv) = Some (inr r) ->
  (i + length conns < length (tgt_fds (dv_tgt dv)))%nat ->
  let fds := tgt_fds (dv_tgt (snd (nbd_connect fuel sjunk conns i h u e size flags dv))) in
  take (length conns) (drop (Datatypes.S i) fds) = map (fun c => open_conn c h u) conns /\
  take (Datatypes.S i) fds = take (Datatypes.S i) (tgt_fds (dv_tgt dv)).
Proof.
  cbv zeta. revert i size flags dv. induction conns as [|c conns IH]; intros i size flags dv; cbn [nbd_connect]; [done|].
  destruct (0 <=? open_conn c h u); [|done].
  destruct (negotiate _ _ _ _ _ _ _ _ _ _ _) as [[size' flags'] s| |]; [|done|done].
  intros Hr Hl. cbn [length map] in *.
  assert (Hl0 : length (tgt_fds (dv_tgt (set_fd (Datatypes.S i) (open_conn c h u) dv))) = length (tgt_fds (dv_tgt dv)))
    by apply length_insert.
  destruct (IH (Datatypes.S i) size' flags' (set_fd (Datatypes.S i) (open_conn c h u) dv)) as [H1 H2]; [done|rewrite Hl0; lia|].
  set (fds := tgt_fds (dv_tgt (snd _))) in *. cbn [set_fd dv_set_tgt dv_tgt tgt_fds] in H2.
  assert (Hfd : fds !! Datatypes.S i = Some (open_conn c h u)).
  { rewrite <- (lookup_take_lt fds (Datatypes.S (Datatypes.S i))) by lia. rewrite H2, lookup_take_lt by lia.
    apply list_lookup_insert_eq. lia. }
  split.
  - erewrite drop_S by exact Hfd. cbn [take]. by rewrite H1.
  - apply (f_equal (take (Datatypes.S i))) in H2. rewrite !take_take, !Nat.min_l in H2 by lia.
    rewrite H2. apply take_insert_ge. lia.
Qed.

Lemma close_socks_spec fds (dv : dev) :
  dv_log (close_socks fds dv) = dv_log dv ++ concat (map (fun fd => [DvShutdown fd; DvClose fd]) fds).
Proof.
  revert dv. induction fds as [|fd fds IH]; intros dv; cbn [close_socks map concat]; [by rewrite app_nil_r|].
  rewrite IH. cbn. by rewrite <- !app_assoc.
Qed.
End connections.

(** ** The description of an nbd device *)
Section nbd_docs.
Context `{!JsonText, !JsonTextLaws} {S : Type} `{!NbdSock S}.
Notation dev := (ublksrv_dev nbd_tgt_data).
Variable fuel : nat.
Variable sjunk : S -> nat -> list Z.

(** The documents written before and after the connections are made. *)
Section docs_of.
Variables (info : ublksrv_ctrl_dev_info) (host path exp : option string) (zc : bool).
Definition nbd_m1 := doc_info info.
Definition nbd_m2 := with_opt "host" host nbd_m1.
Definition nbd_m3 := with_opt "unix" path nbd_m2.
Definition nbd_m4 := with_opt "export_name" exp nbd_m3.
Definition nbd_m5 := with_target "send_zc" (JNum (s64 (if zc then 1 else 0))) nbd_m4.
Definition nbd_m6 (size : Z) := with_base (mk_tgt_base "nbd" 0 size) nbd_m5.
Definition nbd_doc (size : Z) (p : ublk_params) := doc_params p (nbd_m6 size).

(** The names a document gives to the target. *)
Definition names_of (t : gmap string json) : Prop :=
  t !! "unix" = JStr <$> path /\ t !! "export_name" = JStr <$> exp /\ t !! "host" = JStr <$> host /\
  t !! "send_zc" = Some (JNum (if zc then 1 else 0)).

Lemma nbd_m5_names : exists t, nbd_m5 !! "target" = Some (JObj t) /\ names_of t.
Proof.
  exists (target_of nbd_m5). split; [apply with_target_lookup|].
  unfold names_of, nbd_m5, nbd_m4, nbd_m3, nbd_m2. rewrite target_of_with.
  assert (Hne : forall n n' v m, n <> n' -> target_of (with_opt n v m) !! n' = target_of m !! n').
  { intros n n' v m Hn. destruct v; [|done]. cbn. rewrite target_of_with. by apply lookup_insert_ne. }
  assert (Heq : forall n v m, target_of m !! n = None -> target_of (with_opt n v m) !! n = JStr <$> v).
  { intros n v m Hn. destruct v; [|done]. cbn. rewrite target_of_with. apply lookup_insert_eq. }
  assert (Hm1 : forall n, target_of nbd_m1 !! n = None) by done.
  repeat split.
  - rewrite lookup_insert_ne by done. rewrite Hne by done. apply Heq. rewrite Hne by done. apply Hm1.
  - rewrite lookup_insert_ne by done. apply Heq. rewrite !Hne by done. apply Hm1.
  - rewrite lookup_insert_ne by done. rewrite !Hne by done. apply Heq, Hm1.
  - rewrite lookup_insert_eq. by destruct zc.
Qed.

Lemma nbd_doc_names size p : exists t, nbd_doc size p !! "target" = Some (JObj t) /\ names_of t.
Proof.
  destruct nbd_m5_names as (t&Ht&Hn). exists (target_of (nbd_m6 size)). split.
  - unfold nbd_doc, doc_params. rewrite lookup_insert_ne by done. apply with_target_lookup.
  - unfold nbd_m6, with_base. unfold names_of. rewrite !target_of_with. rewrite !lookup_insert_ne by done.
    unfold target_of. by rewrite Ht.
Qed.
End docs_of.

Lemma read_name_text (dv : dev) m t name v :
  text_of (dv_jbuf dv) m -> m !! "target" = Some (JObj t) -> t !! name = JStr <$> v ->
  (forall s, v = Some s -> slen s < NBD_MAX_NAME /\ slen s < jbuf_size (dv_jbuf dv)) ->
  read_name name dv = Some (default ""%string v).
Proof.
  intros Hb Hm Ht Hv. unfold read_name, jread_str. destruct v as [s|].
  - destruct (Hv s eq_refl) as [H1 H2]. rewrite (read_str_text _ _ _ _ _ Hb Hm Ht H2). cbn.
    by rewrite (proj2 (Z.ltb_lt _ _) H1).
  - by rewrite (read_str_missing _ _ _ _ Hb Hm Ht).
Qed.

(** What the I/O path depends on. *)
Definition nbd_config (dv : dev) : Z * Z * Z * Z * Z * Z * option nbd_tgt_data :=
  let t := dv_tgt dv in
  (dev_size t, tgt_ring_depth t, nr_fds t, extra_ios t, io_data_size t, dv_cq_depth dv, dv_data dv).

Definition name_short (v : option string) : Prop := forall s, v = Some s -> slen s < 512.

(** Set-up, once the names are read. *)
Lemma nbd_setup_names (dv : dev) m t host path exp zc conns flags :
  text_of (dv_jbuf dv) m -> m !! "target" = Some (JObj t) -> names_of host path exp zc t ->
  has (dev_flags (dv_info dv)) UBLK_F_USER_COPY = false ->
  name_short host -> name_short path -> name_short exp ->
  (forall s, host = Some s \/ path = Some s \/ exp = Some s -> slen s < jbuf_size (dv_jbuf dv)) ->
  nbd_setup_tgt fuel sjunk conns flags dv =
    (let '(r, dv) := nbd_connect fuel sjunk conns 0 (default ""%string host) (default ""%string path) (default ""%string exp) 0 flags dv in
     r ← r;
     match r with
     | inl sock => Some (sock, flags, dv)
     | inr (size, flags) =>
         _ ← dv_data dv;
         let info := dv_info dv in
         let dv := set_tgt size (u32 (queue_depth info + 1)) (nr_hw_queues info) 1
                     (sizeof_io_tgt + sizeof_nbd_io_data) (tgt_fds (dv_tgt dv)) dv in
         let dv := dv_set_data (Some (mk_nbd_tgt_data (negb (slen (default ""%string path) =? 0)) zc)) dv in
         let dv := ublksrv_dev_set_cq_depth (2 * tgt_ring_depth (dv_tgt dv)) dv in
         Some (if has (dev_flags info) (Z.lor UBLK_F_SUPPORT_ZERO_COPY UBLK_F_AUTO_BUF_REG) then - EINVAL else 0, flags, dv)
     end).
Proof.
  intros Hb Hm (Hu&He&Hh&Hz) Huc Hsh Hsp Hse Hj. unfold nbd_setup_tgt. rewrite Huc.
  rewrite (read_name_text _ _ _ _ host Hb Hm Hh), (read_name_text _ _ _ _ path Hb Hm Hu), (read_name_text _ _ _ _ exp Hb Hm He).
  2-4: intros s Hs; split; [unfold NBD_MAX_NAME; auto|apply Hj; tauto].
  cbn [mbind option_bind]. rewrite (read_ulong_text _ _ _ _ _ Hb Hm Hz) by (destruct zc; done). cbn [mbind option_bind].
  pose proof (nbd_connect_keeps fuel sjunk conns 0 (default ""%string host) (default ""%string path) (default ""%string exp) 0 flags dv) as (_&Hc&_).
  destruct (nbd_connect fuel sjunk conns 0 _ _ _ 0 flags dv) as [r dv1]. cbn [snd] in Hc.
  assert (Hi : dv_info dv1 = dv_info dv) by (unfold dv_info; by rewrite Hc). rewrite Hi. by destruct zc.
Qed.

(** A new nbd device: the options, what the server of the connections of the
    queues answers in the end, and room for the description. *)
Record nbd_add (cap argc : Z) (opts : list nbd_opt) (conns : list (nbd_conn S)) (dv : dev) (host path exp : option string)
    (zc ro : bool) (size flags : Z) : Prop := {
  na_new : ublksrv_is_recovering argc (dv_ctrl dv) = false;
  na_opts : foldl nbd_option (None, None, None, false, false) opts = (host, path, exp, zc, ro);
  na_host : name_short host;
  na_path : name_short path;
  na_exp : name_short exp;
  na_uc : has (dev_flags (dv_info dv)) UBLK_F_USER_COPY = false;
  na_zc : has (dev_flags (dv_info dv)) (Z.lor UBLK_F_SUPPORT_ZERO_COPY UBLK_F_AUTO_BUF_REG) = false;
  na_conn : fst (nbd_connect fuel sjunk conns 0 (default ""%string host) (default ""%string path) (default ""%string exp) 0 0 dv) = Some (inr (size, flags));
  na_buf : buf_ok cap (dv_jbuf dv);
  na_fits : Forall (fits cap) [nbd_m1 (dv_info dv); nbd_m2 (dv_info dv) host; nbd_m3 (dv_info dv) host path;
    nbd_m4 (dv_info dv) host path exp; nbd_m5 (dv_info dv) host path exp zc;
    nbd_m6 (dv_info dv) host path exp zc size;
    nbd_doc (dv_info dv) host path exp zc size (nbd_parse_flags (nbd_params (dv_info dv) size) flags 512)]
}.

(** Writing the names. *)
Lemma nbd_describes cap info host path exp zc (dv : dev) :
  buf_ok cap (dv_jbuf dv) ->
  Forall (fits cap) [nbd_m1 info; nbd_m2 info host; nbd_m3 info host path; nbd_m4 info host path exp; nbd_m5 info host path exp zc] ->
  exists b, holds cap b (nbd_m5 info host path exp zc) /\ forall (k : dev -> option (Z * dev)),
  (dv ← jwrite (ublk_json_write_dev_info always info) dv;
   dv ← jwrite (ublk_json_write_tgt_str always "host" host) dv;
   dv ← jwrite (ublk_json_write_tgt_str always "unix" path) dv;
   dv ← jwrite (ublk_json_write_tgt_str always "export_name" exp) dv;
   dv ← jwrite (ublk_json_write_tgt_long always "send_zc" (if zc : bool then 1 else 0)) dv; k dv) = k (dv_set_jbuf b dv).
Proof.
  intros Hb Hfits. apply (jwrites_new cap info [DwStr "host" host; DwStr "unix" path; DwStr "export_name" exp;
    DwLong "send_zc" (if zc then 1 else 0)] dv Hb Hfits).
Qed.

(** Set-up after all queues connected. *)
Lemma nbd_setup_connected (dv : dev) m t host path exp zc conns size flags :
  text_of (dv_jbuf dv) m -> m !! "target" = Some (JObj t) -> names_of host path exp zc t ->
  has (dev_flags (dv_info dv)) UBLK_F_USER_COPY = false ->
  has (dev_flags (dv_info dv)) (Z.lor UBLK_F_SUPPORT_ZERO_COPY UBLK_F_AUTO_BUF_REG) = false ->
  name_short host -> name_short path -> name_short exp ->
  (forall s, host = Some s \/ path = Some s \/ exp = Some s -> slen s < jbuf_size (dv_jbuf dv)) ->
  is_Some (dv_data dv) ->
  fst (nbd_connect fuel sjunk conns 0 (default ""%string host) (default ""%string path) (default ""%string exp) 0 0 dv) = Some (inr (size, flags)) ->
  exists dv', nbd_setup_tgt fuel sjunk conns 0 dv = Some (0, flags, dv') /\
    nbd_config dv' = (size, u32 (queue_depth (dv_info dv) + 1), nr_hw_queues (dv_info dv), 1,
      sizeof_io_tgt + sizeof_nbd_io_data, 2 * u32 (queue_depth (dv_info dv) + 1),
      Some (mk_nbd_tgt_data (negb (slen (default ""%string path) =? 0)) zc)) /\
    dv_jbuf dv' = dv_jbuf dv /\ dv_info dv' = dv_info dv /\ dv_log dv' = dv_log dv /\
    tgt_fds (dv_tgt dv') =
      tgt_fds (dv_tgt (snd (nbd_connect fuel sjunk conns 0 (default ""%string host) (default ""%string path) (default ""%string exp) 0 0 dv))).
Proof.
  intros Hb Hm Hn Huc Hzc Hsh Hsp Hse Hj [d0 Hd] Hconn.
  rewrite (nbd_setup_names _ _ _ _ _ _ _ _ _ Hb Hm Hn Huc Hsh Hsp Hse Hj).
  pose proof (nbd_connect_keeps fuel sjunk conns 0 (default ""%string host) (default ""%string path) (default ""%string exp) 0 0 dv) as (Hl&Hc&Hdd&_).
  destruct (nbd_connect fuel sjunk conns 0 _ _ _ 0 0 dv) as [r dv1]. cbn [fst snd] in *. subst r. cbn [mbind option_bind].
  rewrite Hdd, Hd. cbn [mbind option_bind].
  assert (Hi : dv_info dv1 = dv_info dv) by (unfold dv_info; by rewrite Hc). rewrite Hi, Hzc.
  eexists. split; [done|]. split; [done|]. unfold dv_jbuf, dv_info. cbn. rewrite Hc, Hl. done.
Qed.

(** C31: Recovery restores an nbd device: the daemon that takes over reads the
    host, the socket path, the export name and the zero-copy switch from the
    description, so that it connects to the same server (what a connection
    meets is a function of the host or the socket path) and, with the same
    answers, arrives at the same size, the same queue and ring sizes and the
    same way of sending.  The names are shorter than 512 characters, the
    descriptions fit the buffer, and the device has neither user copy nor zero
    copy, with which the target refuses to start. *)
Theorem nbd_recovery_restores cap argc opts conns dv host path exp zc ro size flags have_zc :
  nbd_add cap argc opts conns dv host path exp zc ro size flags -> (zc = true -> have_zc = true) ->
  exists dv', nbd_init_tgt always fuel sjunk have_zc argc opts conns dv = Some (0, dv') /\
    dev_size (dv_tgt dv') = size /\ nr_fds (dv_tgt dv') = nr_hw_queues (dv_info dv) /\
    forall argc2 opts2 dv2 have2,
      ublksrv_is_recovering argc2 (dv_ctrl dv2) = true -> dv_info dv2 = dv_info dv ->
      is_Some (jb_alloc (dv_jbuf dv2)) -> jbuf (dv_jbuf dv2) = jbuf (dv_jbuf dv') ->
      (forall s, host = Some s \/ path = Some s \/ exp = Some s -> slen s < jbuf_size (dv_jbuf dv2)) ->
      exists dv2', nbd_init_tgt always fuel sjunk have2 argc2 opts2 conns dv2 = Some (0, dv2') /\
        nbd_config dv2' = nbd_config dv'.
Proof.
  intros [Hnew Hopts Hsh Hsp Hse Huc Hzc Hconn Hb Hfits] Hhave. rewrite !Forall_cons in Hfits.
  destruct Hfits as (F1&F2&F3&F4&F5&F6&F7&_). unfold nbd_init_tgt at 1. rewrite Hnew, Hopts.
  replace (negb have_zc && zc) with false by (destruct zc; [by rewrite Hhave|by rewrite andb_false_r]).
  destruct (nbd_describes cap (dv_info dv) host path exp zc dv Hb) as (b&Hh&->); [by rewrite !Forall_cons|].
  set (dv1 := dv_set_data (Some zero_nbd_data) (dv_set_jbuf b dv)).
  destruct (nbd_m5_names (dv_info dv) host path exp zc) as (t&Ht&Hn). pose proof Hh as [(_&H512&_) _].
  destruct (nbd_setup_connected dv1 _ t host path exp zc conns size flags (holds_text _ _ _ Hh) Ht Hn Huc Hzc Hsh Hsp Hse)
    as (dv2&->&Hcfg&Hjb&Hinf&Hlg&Hfds).
  { change (dv_jbuf dv1) with b. intros s [Hs|[Hs|Hs]]; [specialize (Hsh s Hs)|specialize (Hsp s Hs)|specialize (Hse s Hs)]; lia. }
  { by eexists. }
  { rewrite <- Hconn. apply nbd_connect_result. }
  cbn [mbind option_bind Z.eqb negb]. unfold nbd_config in Hcfg. injection Hcfg as C1 C2 C3 C4 C5 C6 C7. rewrite C1.
  change (dv_jbuf dv1) with b in Hjb. rewrite <- Hjb in Hh.
  destruct (jwrite_base cap (mk_tgt_base "nbd" 0 size) dv2 _ Hh (with_target_ok _ _ _) F6) as (b6&->&H6). cbn [mbind option_bind].
  destruct (jwrite_params cap _ (dv_set_jbuf b6 dv2) _ H6 F7) as (b7&->&H7). cbn [mbind option_bind].
  eexists. split; [done|]. split; [exact C1|]. split; [exact C3|].
  intros argc2 opts2 dv3 have2 Hrec Hinfo Halloc Hj Hnames. unfold nbd_init_tgt. rewrite Hrec. unfold nbd_recover_tgt.
  set (dv4 := dv_set_data (Some zero_nbd_data) dv3).
  set (p := nbd_parse_flags _ flags 512) in *.
  destruct (nbd_doc_names (dv_info dv) host path exp zc size p) as (t2&Ht2&Hn2).
  destruct (nbd_setup_connected dv4 (nbd_doc (dv_info dv) host path exp zc size p) t2 host path exp zc conns size flags) as (dv5&->&Hcfg5&_).
  { split; [done|]. change (dv_jbuf dv4) with (dv_jbuf dv3). rewrite Hj. apply H7. }
  all: try done.
  all: change (dv_info dv4) with (dv_info dv3); rewrite ?Hinfo; try done.
  { rewrite <- Hconn. apply nbd_connect_result. }
  cbn [mbind option_bind]. eexists. split; [done|]. rewrite Hcfg5. change (dv_info dv4) with (dv_info dv3). rewrite Hinfo.
  unfold nbd_config. cbn. by rewrite C1, C2, C3, C4, C5, C6, C7.
Qed.

(** The sockets of a device are closed twice.  After the target was set up
    with a connection for each of its queues, the library's tear-down first
    closes all sockets but the last (it takes [nr_fds] to count the char device
    too), and then [nbd_deinit_tgt] shuts down and closes all of them: every
    descriptor but the last is closed again after another thread may have got
    its number. *)
Theorem nbd_teardown_closes_twice (dv : dev) m t host path exp zc conns size flags tgt :
  text_of (dv_jbuf dv) m -> m !! "target" = Some (JObj t) -> names_of host path exp zc t ->
  has (dev_flags (dv_info dv)) UBLK_F_USER_COPY = false ->
  has (dev_flags (dv_info dv)) (Z.lor UBLK_F_SUPPORT_ZERO_COPY UBLK_F_AUTO_BUF_REG) = false ->
  name_short host -> name_short path -> name_short exp ->
  (forall s, host = Some s \/ path = Some s \/ exp = Some s -> slen s < jbuf_size (dv_jbuf dv)) ->
  is_Some (dv_data dv) ->
  fst (nbd_connect fuel sjunk conns 0 (default ""%string host) (default ""%string path) (default ""%string exp) 0 0 dv) = Some (inr (size, flags)) ->
  Z.of_nat (length conns) = nr_hw_queues (dv_info dv) -> (length conns < length (tgt_fds (dv_tgt dv)))%nat ->
  tt_deinit_tgt tgt = Some nbd_deinit_tgt ->
  let socks := map (fun c => open_conn c (default ""%string host) (default ""%string path)) conns in
  exists dv', nbd_setup_tgt fuel sjunk conns 0 dv = Some (0, flags, dv') /\
    dv_log (ublksrv_tgt_deinit (Some tgt) (dv_set_ops true dv')) =
      dv_log dv ++ map DvClose (take (length conns - 1) socks) ++ DvFreeData ::
      concat (map (fun fd => [DvShutdown fd; DvClose fd]) socks).
Proof.
  intros Hb Hm Hn Huc Hzc Hsh Hsp Hse Hj Hd Hconn Hnr Hlen Htgt socks.
  destruct (nbd_setup_connected dv m t host path exp zc conns size flags Hb Hm Hn Huc Hzc Hsh Hsp Hse Hj Hd Hconn)
    as (dv'&Hrun&Hcfg&Hjb&Hinf&Hlg&Hfds).
  exists dv'. split; [done|]. unfold nbd_config in Hcfg. injection Hcfg as C1 C2 C3 C4 C5 C6 C7.
  destruct (nbd_connect_fds fuel sjunk conns 0 (default ""%string host) (default ""%string path) (default ""%string exp) 0 0 dv _ Hconn ltac:(lia)) as [Htake _].
  rewrite <- Hfds in Htake. fold socks in Htake.
  unfold ublksrv_tgt_deinit, ublksrv_tgt_exit. cbn [dv_set_ops dv_tgt]. rewrite C3, <- Hnr.
  set (fds := take _ (drop 1 _)). destruct (close_fds_spec fds (dv_set_ops true dv')) as (L1&L2&_&L4&L5).
  rewrite L2. cbn [dv_set_ops dv_ops]. rewrite Htgt. unfold nbd_deinit_tgt.
  change (dv_info (close_fds fds (dv_set_ops true dv'))) with (dev_info (dv_ctrl (close_fds fds (dv_set_ops true dv')))).
  rewrite L5, L4. cbn [dv_set_ops dv_ctrl dv_tgt]. change (dev_info (dv_ctrl dv')) with (dv_info dv'). rewrite Hinf, <- Hnr, Nat2Z.id, Htake.
  rewrite close_socks_spec. cbn [dv_event dv_log]. rewrite L1. cbn [dv_set_ops dv_log]. rewrite Hlg.
  assert (Hf : fds = take (length conns - 1) socks).
  { unfold fds. rewrite <- Htake, take_take. f_equal. lia. }
  rewrite Hf. by rewrite <- !app_assoc.
Qed.

(** A queue that cannot connect leaks the connections of the queues before
    it: set-up returns the error of the socket, the library then forgets the
    target's operations, and its tear-down of the target closes nothing, however
    many sockets are in the array. *)
Theorem nbd_setup_failure_leaks (dv : dev) m t host path exp zc conns sock tgt :
  text_of (dv_jbuf dv) m -> m !! "target" = Some (JObj t) -> names_of host path exp zc t ->
  has (dev_flags (dv_info dv)) UBLK_F_USER_COPY = false ->
  name_short host -> name_short path -> name_short exp ->
  (forall s, host = Some s \/ path = Some s \/ exp = Some s -> slen s < jbuf_size (dv_jbuf dv)) ->
  fst (nbd_connect fuel sjunk conns 0 (default ""%string host) (default ""%string path) (default ""%string exp) 0 0 dv) = Some (inl sock) ->
  nr_fds (dv_tgt dv) = 0 ->
  exists dv', nbd_setup_tgt fuel sjunk conns 0 dv = Some (sock, 0, dv') /\
    dv_log (ublksrv_tgt_deinit (Some tgt) (dv_set_ops false dv')) = dv_log dv.
Proof.
  intros Hb Hm Hn Huc Hsh Hsp Hse Hj Hconn Hnr.
  rewrite (nbd_setup_names _ _ _ _ _ _ _ _ _ Hb Hm Hn Huc Hsh Hsp Hse Hj).
  pose proof (nbd_connect_keeps fuel sjunk conns 0 (default ""%string host) (default ""%string path) (default ""%string exp) 0 0 dv)
    as (Hl&_&_&_&_&_&Hfd&_).
  destruct (nbd_connect fuel sjunk conns 0 _ _ _ 0 0 dv) as [r dv1]. cbn [fst snd] in *. subst r. cbn [mbind option_bind].
  exists dv1. split; [done|]. unfold ublksrv_tgt_deinit, ublksrv_tgt_exit. cbn [dv_set_ops dv_tgt]. rewrite Hfd, Hnr.
  change (Z.to_nat (0 - 1)) with 0%nat. rewrite take_0. cbn. exact Hl.
Qed.
End nbd_docs.
