(* ===== verification/NbdSetupExamples.v ===== *)
(** * An nbd device with two queues

    The theorems of NbdSetup on the server of NbdHsExamples: adding and
    recovering the device, its tear-down, and a second queue that cannot
    connect. *)

From S2P Require Import Prelude Bytes UblkCmd Params Json JsonExamples Ctrl QueueSetup DevSetup TgtInit JsonDoc NbdHandshake NbdHsExamples Nbd NbdSetup.

Definition exn_info : ublksrv_ctrl_dev_info := mk_dev_info 2 64 0 0 524288 0 0 0 0 0 0 0 0 0.
Definition exn_ctrl (rec : bool) (b : ublksrv_tgt_jbuf) : ublksrv_ctrl_dev := mk_ctrl_dev 3 exn_info b rec None None [].
Definition exn_dev : ublksrv_dev nbd_tgt_data := set_cdev 4 (fresh_dev (exn_ctrl false (mk_jbuf 512 (Some 512) ""))).
(** Only 10.0.0.7 is known, and it takes the connection at its second address. *)
Definition exn_lookup (addrs : list net_addr) (host port : string) : Z * list net_addr :=
  if bool_decide (host = "10.0.0.7"%string /\ port = NBD_DEFAULT_PORT) then (0, addrs) else (-2, []).
Definition exn_conn (sock : Z) : nbd_conn pipe :=
  mk_conn (exn_lookup [mk_addr 6 (-1); mk_addr sock 0]) (fun _ => mk_addr (-1) (-1)) (fun _ => exh_go).
Definition exn_opts : list nbd_opt := [NoHost "10.0.0.7"; NoExport "ab"; NoReadOnly].

Lemma exn_fits_compute cap m : (slen (dump (JObj m)) <? cap) = true -> fits cap m.
Proof. apply Z.ltb_lt. Qed.

Lemma exn_short s : slen s < 512 -> name_short (Some s).
Proof. intros Hs s' [= <-]. exact Hs. Qed.

Lemma exn_add : nbd_add 200 exh_junk (grow_max 512) 4 exn_opts [exn_conn 7; exn_conn 8] exn_dev (Some "10.0.0.7"%string) None
  (Some "ab"%string) false true 1048576 5.
Proof.
  split.
  - reflexivity.
  - reflexivity.
  - apply exn_short. reflexivity.
  - intros s [=].
  - apply exn_short. reflexivity.
  - reflexivity.
  - reflexivity.
  - vm_compute. reflexivity.
  - repeat split; done.
  - repeat constructor; apply exn_fits_compute; vm_compute; reflexivity.
Qed.

Definition exn_dev2 (b : ublksrv_tgt_jbuf) : ublksrv_dev nbd_tgt_data :=
  set_cdev 4 (fresh_dev (exn_ctrl true (mk_jbuf 8000 (Some 8000) (jbuf b)))).

Lemma nbd_recovery_restores_witness :
  exists dv', nbd_init_tgt always 200 exh_junk false 4 exn_opts [exn_conn 7; exn_conn 8] exn_dev = Some (0, dv') /\
    dev_size (dv_tgt dv') = 1048576 /\
    exists dv2', nbd_init_tgt always 200 exh_junk false 0 [] [exn_conn 7; exn_conn 8] (exn_dev2 (dv_jbuf dv')) = Some (0, dv2') /\
      nbd_config dv2' = nbd_config dv'.
Proof.
  destruct (nbd_recovery_restores 200 exh_junk _ _ _ _ _ _ _ _ _ _ _ _ false exn_add) as (dv'&Hrun&Hsize&_&Hrec).
  - intros [=].
  - exists dv'. split; [exact Hrun|]. split; [exact Hsize|].
    apply (Hrec 0 [] (exn_dev2 (dv_jbuf dv')) false).
    + reflexivity.
    + reflexivity.
    + by eexists.
    + reflexivity.
    + intros s [[= <-]|[[=]|[= <-]]]; reflexivity.
Defined.

(** A device whose description is written and whose private data are there. *)
Definition exn_doc : gmap string json := nbd_m5 exn_info (Some "10.0.0.7"%string) None (Some "ab"%string) false.
Definition exn_ready : ublksrv_dev nbd_tgt_data :=
  dv_set_data (Some zero_nbd_data) (dv_set_jbuf (mk_jbuf 4096 (Some 4096) (dump (JObj exn_doc))) exn_dev).
Definition exn_tgt : tgt_type nbd_tgt_data := nbd_tgt_ops always 200 exh_junk false 4 exn_opts [exn_conn 7; exn_conn 8].

Lemma exn_names : names_of (Some "10.0.0.7"%string) None (Some "ab"%string) false (target_of exn_doc).
Proof. repeat split. Qed.

Lemma nbd_teardown_closes_twice_witness :
  exists dv', nbd_setup_tgt 200 exh_junk [exn_conn 7; exn_conn 8] 0 exn_ready = Some (0, 5, dv') /\
    dv_log (ublksrv_tgt_deinit (Some exn_tgt) (dv_set_ops true dv')) =
      [DvClose 7; DvFreeData; DvShutdown 7; DvClose 7; DvShutdown 8; DvClose 8].
Proof.
  apply (nbd_teardown_closes_twice 200 exh_junk exn_ready exn_doc (target_of exn_doc) (Some "10.0.0.7"%string) None
    (Some "ab"%string) false [exn_conn 7; exn_conn 8] 1048576 5 exn_tgt).
  - split; [by eexists|reflexivity].
  - apply with_target_lookup.
  - exact exn_names.
  - reflexivity.
  - reflexivity.
  - apply exn_short. reflexivity.
  - intros s [=].
  - apply exn_short. reflexivity.
  - intros s [[= <-]|[[=]|[= <-]]]; reflexivity.
  - by eexists.
  - vm_compute. reflexivity.
  - reflexivity.
  - cbn. lia.
  - reflexivity.
Defined.

Definition exn_bad : nbd_conn pipe := mk_conn (exn_lookup [mk_addr 6 (-1)]) (fun _ => mk_addr (-1) (-1)) (fun _ => exh_go).

Lemma nbd_setup_failure_leaks_witness :
  exists dv', nbd_setup_tgt 200 exh_junk [exn_conn 7; exn_bad] 0 exn_ready = Some (-1, 0, dv') /\
    dv_log (ublksrv_tgt_deinit (Some exn_tgt) (dv_set_ops false dv')) = [].
Proof.
  apply (nbd_setup_failure_leaks 200 exh_junk exn_ready exn_doc (target_of exn_doc) (Some "10.0.0.7"%string) None
    (Some "ab"%string) false [exn_conn 7; exn_bad] (-1) exn_tgt).
  - split; [by eexists|reflexivity].
  - apply with_target_lookup.
  - exact exn_names.
  - reflexivity.
  - apply exn_short. reflexivity.
  - intros s [=].
  - apply exn_short. reflexivity.
  - intros s [[= <-]|[[=]|[= <-]]]; reflexivity.
  - vm_compute. reflexivity.
  - reflexivity.
Defined.
