(* ===== verification/SheepSetup.v ===== *)
(** * Setting up the sheepdog target

    [sd_connect] of targets/sheepdog/sheep.c and the callbacks of
    targets/sheepdog/ublk.sheepdog.cpp that set a device and its queues up: the
    image is looked up and locked in the cluster, its inode is read and the
    device is described after it.  [None]: a write outside a buffer, or no fuel
    left for the retries of Sheep.v. *)

From S2P Require Import Prelude Bytes UblkCmd Params Json Ctrl QueueSetup DevSetup TgtInit JsonDoc NbdSetup SdProto Sheep.

Definition ENETUNREACH : Z := 101.
Definition EHOSTUNREACH : Z := 113.
Definition SD_SEND_TMO : Z := 5.
Definition SD_RECV_TMO : Z := 60.
Definition sizeof_sd_io_context : Z := 112.

(** One address: the results of socket(2), of setting the timeouts, and of
    connect(2). *)
Record sd_addr := mk_sd_addr { sa_sock : Z; sa_timeout : Z; sa_connect : Z }.

Fixpoint sd_connect_loop (addrs : list sd_addr) : option Z * list Z :=
  match addrs with
  | [] => (None, [])
  | a :: addrs =>
      if sa_sock a <? 0 then sd_connect_loop addrs
      else if sa_timeout a <? 0 then (None, [sa_sock a])
      else if negb (sa_connect a =? -1) then (Some (sa_sock a), [])
      else let '(r, closed) := sd_connect_loop addrs in (r, sa_sock a :: closed)
  end.

(** The socket or a negative error, and the descriptors closed on the way. *)
Definition sd_connect (e : Z) (addrs : list sd_addr) : Z * list Z :=
  if negb (e =? 0) then (- ENETUNREACH, [])
  else match sd_connect_loop addrs with
  | (None, closed) => (- EHOSTUNREACH, closed)
  | (Some sock, closed) => (sock, closed)
  end.

(** A connection: how opening it went, and the socket. *)
Record sd_conn {S : Type} := mk_sd_conn { sc_gai : Z; sc_addrs : list sd_addr; sc_sock : S }.
#[global] Arguments sd_conn S : clear implicits.
#[global] Arguments mk_sd_conn {S}.

Record sheepdog_dev := mk_sheepdog_dev {
  cluster_host : string;   (* char[256] *)
  cluster_port : string;   (* char[16] *)
  sd_vdi_name : string;    (* char[256] *)
  sd_vdi : sheepdog_vdi;
  send_timeout : Z;        (* unsigned long *)
  recv_timeout : Z;        (* unsigned long *)
  unlock : bool
}.

Definition zero_sd_inode : sd_inode := inode_of_bytes [].
Definition zero_sheepdog_dev : sheepdog_dev := mk_sheepdog_dev "" "" "" (mk_vdi 0 zero_sd_inode) 0 0 false.
Definition sd_set_unlock (b : bool) (d : sheepdog_dev) : sheepdog_dev :=
  mk_sheepdog_dev (cluster_host d) (cluster_port d) (sd_vdi_name d) (sd_vdi d) (send_timeout d) (recv_timeout d) b.
Definition sd_set_vdi (v : sheepdog_vdi) (d : sheepdog_dev) : sheepdog_dev :=
  mk_sheepdog_dev (cluster_host d) (cluster_port d) (sd_vdi_name d) v (send_timeout d) (recv_timeout d) (unlock d).
Definition sd_set_vid (v : Z) (d : sheepdog_dev) : sheepdog_dev := sd_set_vdi (mk_vdi v (inode (sd_vdi d))) d.

Inductive sd_opt :=
| SoVdi (arg : string)                  (* -v, --vdi_name *)
| SoLbs (arg : list Ascii.ascii)        (* -b, --lbs *)
| SoHost (arg : string)                 (* -h, --host *)
| SoPort (arg : string)                 (* -p, --port *)
| SoSendTmo (arg : list Ascii.ascii)    (* -s, --send_tmo *)
| SoRecvTmo (arg : list Ascii.ascii)    (* -r, --read_tmo *)
| SoUnlock.                             (* --unlock *)

Record sd_options := mk_sd_options {
  so_vdi : option string; so_lbs : Z; so_host : string; so_port : string; so_send : Z; so_recv : Z; so_unlock : bool
}.
Definition default_sd_options : sd_options := mk_sd_options None 9 "127.0.0.1" "7000" SD_SEND_TMO SD_RECV_TMO false.

Section sheep_setup.
Context `{!JsonText} {S : Type} `{!SdSock S}.
Notation dev := (ublksrv_dev sheepdog_dev).
Variable mem : Z -> bool.
Variable fuel : nat.
Variable inode_mem : bool.

(** Looking the image up, as often as its lock requires, and reading its inode:
    the result and the device's data. *)
Definition sd_open_image (fd : S) (d : sheepdog_dev) : option (Z * sheepdog_dev) :=
  let name := bytes_of (sd_vdi_name d) in
  let read_inode (fd : S) (d : sheepdog_dev) :=
    '(ret, v, _) ← sd_read_inode fuel inode_mem fd (sd_vdi d) false;
    Some (ret, sd_set_vdi v d) in
  let '(ret, vid, fd) := sd_vdi_lookup fd name 0 None (negb (unlock d)) in
  if ret <? 0 then Some (ret, sd_set_vid 0 d)
  else
    let d := sd_set_vid (default (Sheep.vid (sd_vdi d)) vid) d in
    if unlock d then
      let '(ret, fd) := sd_vdi_release fd (sd_vdi d) in
      if ret <? 0 then Some (ret, d)
      else
        let '(ret, vid, fd) := sd_vdi_lookup fd name 0 None true in
        if ret <? 0 then Some (ret, sd_set_vid 0 d)
        else read_inode fd (sd_set_vid (default (Sheep.vid (sd_vdi d)) vid) d)
    else read_inode fd d.

(** The two timeouts, after the strings. *)
Definition sheepdog_setup_conn (conn : sd_conn S) (d : sheepdog_dev) (dv : dev) : option (Z * dev) :=
  '(ret, tmo) ← ublk_json_read_target_ulong_info "send_timeout" (dv_jbuf dv);
  let d := mk_sheepdog_dev (cluster_host d) (cluster_port d) (sd_vdi_name d) (sd_vdi d) (default (send_timeout d) tmo)
             (recv_timeout d) (unlock d) in
  if negb (ret =? 0) then Some (ret, dv_set_data (Some d) dv)
  else
    '(ret, tmo) ← ublk_json_read_target_ulong_info "recv_timeout" (dv_jbuf dv);
    let d := mk_sheepdog_dev (cluster_host d) (cluster_port d) (sd_vdi_name d) (sd_vdi d) (send_timeout d)
               (default (recv_timeout d) tmo) (unlock d) in
    if negb (ret =? 0) then Some (ret, dv_set_data (Some d) dv)
    else
      let fd := fst (sd_connect (sc_gai conn) (sc_addrs conn)) in
      if fd <? 0 then Some (fd, dv_set_data (Some d) dv)
      else
        '(ret, d) ← sd_open_image (sc_sock conn) d;
        let dv := dv_event (DvClose fd) (dv_set_data (Some d) dv) in
        if ret <? 0 then Some (ret, dv)
        else
          Some (0, set_tgt (Z.shiftr (vdi_size (inode (sd_vdi d))) 9) (queue_depth (dv_info dv)) 0 0
                     (sizeof_io_tgt + sizeof_sd_io_context) (tgt_fds (dv_tgt dv)) dv).

(** The private data are allocated by the callers.  The first string goes
    through an array of its own. *)
Definition sheepdog_setup_tgt (conn : sd_conn S) (dv : dev) : option (Z * dev) :=
  d ← dv_data dv;
  '(ret, name) ← jread_str 256 "vdi_name" dv;
  if ret <? 0 then Some (ret, dv)
  else
    let d := mk_sheepdog_dev (cluster_host d) (cluster_port d) (default ""%string name) (sd_vdi d) (send_timeout d)
               (recv_timeout d) (unlock d) in
    '(ret, host) ← jread_str 256 "sheepdog_host" dv;
    let d := mk_sheepdog_dev (default (cluster_host d) host) (cluster_port d) (sd_vdi_name d) (sd_vdi d) (send_timeout d)
               (recv_timeout d) (unlock d) in
    if negb (ret =? 0) then Some (ret, dv_set_data (Some d) dv)
    else
      '(ret, port) ← jread_str 16 "sheepdog_port" dv;
      let d := mk_sheepdog_dev (cluster_host d) (default (cluster_port d) port) (sd_vdi_name d) (sd_vdi d) (send_timeout d)
                 (recv_timeout d) (unlock d) in
      if negb (ret =? 0) then Some (ret, dv_set_data (Some d) dv)
      else sheepdog_setup_conn conn d dv.

(** calloc(3) is taken to succeed. *)
Definition sheepdog_recover_tgt (conn : sd_conn S) (dv : dev) : option (Z * dev) :=
  sheepdog_setup_tgt conn (dv_set_data (Some (sd_set_unlock true zero_sheepdog_dev)) dv).

(** One option; [None]: the function returns -EINVAL.  [lbs] is an int that is
    compared with ULONG_MAX. *)
Definition sd_option (o : sd_opt) (s : sd_options) : option sd_options :=
  match o with
  | SoVdi a => Some (mk_sd_options (Some a) (so_lbs s) (so_host s) (so_port s) (so_send s) (so_recv s) (so_unlock s))
  | SoLbs a =>
      let '(v, erange) := strtoul a in
      let lbs := s32 v in
      if ((u64 lbs =? ULONG_MAX) && erange) || (lbs <? 9) then None
      else Some (mk_sd_options (so_vdi s) lbs (so_host s) (so_port s) (so_send s) (so_recv s) (so_unlock s))
  | SoHost a => Some (mk_sd_options (so_vdi s) (so_lbs s) a (so_port s) (so_send s) (so_recv s) (so_unlock s))
  | SoPort a => Some (mk_sd_options (so_vdi s) (so_lbs s) (so_host s) a (so_send s) (so_recv s) (so_unlock s))
  | SoSendTmo a =>
      let '(v, erange) := strtoul a in
      if ((v =? ULONG_MAX) && erange) || (v <? 5) then None
      else Some (mk_sd_options (so_vdi s) (so_lbs s) (so_host s) (so_port s) v (so_recv s) (so_unlock s))
  | SoRecvTmo a =>
      let '(v, erange) := strtoul a in
      if ((v =? ULONG_MAX) && erange) || (v <? so_send s) then None
      else Some (mk_sd_options (so_vdi s) (so_lbs s) (so_host s) (so_port s) (so_send s) v (so_unlock s))
  | SoUnlock => Some (mk_sd_options (so_vdi s) (so_lbs s) (so_host s) (so_port s) (so_send s) (so_recv s) true)
  end.

Fixpoint sd_parse (opts : list sd_opt) (s : sd_options) : option sd_options :=
  match opts with
  | [] => Some s
  | o :: opts => s ← sd_option o s; sd_parse opts s
  end.

(** The parameters before the inode is known. *)
Definition sd_params0 (info : ublksrv_ctrl_dev_info) : ublk_params :=
  mk_params 0 (Z.lor UBLK_PARAM_TYPE_BASIC (Z.lor UBLK_PARAM_TYPE_DISCARD UBLK_PARAM_TYPE_DMA_ALIGN))
    (mk_param_basic UBLK_ATTR_FUA 9 12 12 9 (Z.shiftr (max_io_buf_bytes info) 9) 0 0 0)
    (mk_param_discard 0 0 (Z.shiftr SD_DATA_OBJ_SIZE 9) 0 1 0) (p_devt zero_params) (p_zoned zero_params) (mk_param_dma 511 0)
    (p_seg zero_params) (p_integrity zero_params).

(** [1 << (physical_bs_shift - 9)] in an int: undefined outside 0..30. *)
Definition sd_params (info : ublksrv_ctrl_dev_info) (lbs : Z) (i : sd_inode) : option (option ublk_params) :=
  let shift := block_size_shift i in
  if (shift <? 9) || (39 <? shift) then None
  else
    let chunk := bit (shift - 9) in
    let p := sd_params0 info in
    let b := p_basic p in
    if (9 <? lbs) && (shift <? lbs) then Some None
    else
      let lbs := if 9 <? lbs then u8 lbs else logical_bs_shift b in
      Some (Some (set_discard (mk_param_discard 0 chunk chunk 0 1 0)
        (set_basic (mk_param_basic (attrs b) lbs shift (io_opt_shift b) (io_min_shift b) (max_sectors b) chunk
          (Z.shiftr (vdi_size i) 9) 0) p))).

Definition sheepdog_init_tgt (argc : Z) (opts : list sd_opt) (conn : sd_conn S) (dv : dev) : option (Z * dev) :=
  let info := dv_info dv in
  if ublksrv_is_recovering argc (dv_ctrl dv) then sheepdog_recover_tgt conn dv
  else match sd_parse opts default_sd_options with
  | None => Some (- EINVAL, dv)
  | Some o =>
      match so_vdi o with
      | None => Some (- EINVAL, dv)
      | Some vdi_name =>
          dv ← jwrite (ublk_json_write_dev_info mem info) dv;
          dv ← jwrite (ublk_json_write_tgt_str mem "sheepdog_host" (Some (so_host o))) dv;
          dv ← jwrite (ublk_json_write_tgt_str mem "sheepdog_port" (Some (so_port o))) dv;
          dv ← jwrite (ublk_json_write_tgt_str mem "vdi_name" (Some vdi_name)) dv;
          dv ← jwrite (ublk_json_write_tgt_ulong mem "logical_block_shift" (so_lbs o)) dv;
          dv ← jwrite (ublk_json_write_tgt_ulong mem "send_timeout" (so_send o)) dv;
          dv ← jwrite (ublk_json_write_tgt_ulong mem "recv_timeout" (so_recv o)) dv;
          '(ret, dv) ← sheepdog_setup_tgt conn (dv_set_data (Some (sd_set_unlock (so_unlock o) zero_sheepdog_dev)) dv);
          if ret <? 0 then Some (ret, dv)
          else
            d ← dv_data dv;
            dv ← jwrite (ublk_json_write_tgt_ulong mem "vid" (Sheep.vid (sd_vdi d))) dv;
            dv ← jwrite (ublk_json_write_tgt_ulong mem "ctime" (create_time (inode (sd_vdi d)))) dv;
            p ← sd_params info (so_lbs o) (inode (sd_vdi d));
            match p with
            | None => Some (- EINVAL, dv)
            | Some p =>
                dv ← jwrite (ublk_json_write_target_base mem
                       (mk_tgt_base "sheepdog" 0 (u64 (Z.shiftl (dev_sectors (p_basic p)) 9)))) dv;
                dv ← jwrite (ublk_json_write_params mem p) dv;
                Some (ret, dv)
            end
      end
  end.

(** [mem_ok]: calloc(3) succeeded.  The socket the queue uses and its number. *)
Definition sheepdog_init_queue (mem_ok : bool) (conn : sd_conn S) : Z * option (Z * S) :=
  if negb mem_ok then (- ENOMEM, None)
  else
    let fd := fst (sd_connect (sc_gai conn) (sc_addrs conn)) in
    if fd <? 0 then (fd, None) else (0, Some (fd, sc_sock conn)).

(** The descriptors closed, and the socket after the image was released. *)
Definition sheepdog_deinit_queue (priv : option (Z * S)) (d : option sheepdog_dev) : list devent * option S :=
  match priv with
  | None => ([], None)
  | Some (fd, sock) => ([DvClose fd], Some (match d with Some d => snd (sd_vdi_release sock (sd_vdi d)) | None => sock end))
  end.

Definition sheepdog_deinit_tgt (dv : dev) : dev :=
  match dv_data dv with Some _ => dv_event DvFreeData dv | None => dv end.
End sheep_setup.

(** ** Options *)

(** The timeouts and the block size of an accepted command line: a send
    timeout below five seconds and a block size below 512 bytes are refused.  The
    receive timeout is compared with the send timeout known so far, so that the
    order of the options decides whether a shorter one is accepted. *)
Theorem sd_options_checked opts o : sd_parse opts default_sd_options = Some o ->
  5 <= so_send o /\ 9 <= so_lbs o /\
  (Forall (fun x => match x with SoSendTmo _ => False | _ => True end) opts -> so_send o <= so_recv o).
Proof.
  set (P := fun s => 5 <= so_send s /\ 9 <= so_lbs s).
  set (noS := fun x => match x with SoSendTmo _ => False | _ => True end).
  assert (Hall : forall opts s o, P s -> sd_parse opts s = Some o ->
    P o /\ (Forall noS opts -> so_send s <= so_recv s -> so_send o <= so_recv o)).
  { intros l. induction l as [|x l IH]; intros s o' HP; cbn [sd_parse]; [by intros [= <-]|].
    destruct (sd_option x s) as [s'|] eqn:Hx; [|done]. cbn [mbind option_bind]. intros Hp.
    assert (Hs' : P s' /\ (noS x -> so_send s <= so_recv s -> so_send s' <= so_recv s')).
    { unfold P, noS in *. destruct x; cbn [sd_option] in Hx; try (injection Hx as <-; cbn; tauto).
      all: destruct (strtoul arg) as [v er].
      - destruct (((u64 (s32 v) =? ULONG_MAX) && er) || (s32 v <? 9)) eqn:E; [done|]. injection Hx as <-.
        apply orb_false_iff in E as [_ E]. apply Z.ltb_ge in E. cbn. tauto.
      - destruct (((v =? ULONG_MAX) && er) || (v <? 5)) eqn:E; [done|]. injection Hx as <-.
        apply orb_false_iff in E as [_ E]. apply Z.ltb_ge in E. cbn. tauto.
      - destruct (((v =? ULONG_MAX) && er) || (v <? so_send s)) eqn:E; [done|]. injection Hx as <-.
        apply orb_false_iff in E as [_ E]. apply Z.ltb_ge in E. cbn. tauto. }
    destruct Hs' as [HP' Hord]. destruct (IH s' o' HP' Hp) as [HPo Hrec]. split; [done|].
    intros Hf Hle. apply Forall_cons in Hf as [Hn Hf]. auto. }
  intros Hp. destruct (Hall opts default_sd_options o ltac:(done) Hp) as [[H1 H2] H3].
  split; [done|]. split; [done|]. intros Hf. by apply H3.
Qed.

Lemma sd_options_checked_witness :
  exists o, sd_parse [SoVdi "img"; SoRecvTmo [Ascii.ascii_of_nat 57]] default_sd_options = Some o /\ so_send o <= so_recv o.
Proof.
  eexists. split; [vm_compute; reflexivity|].
  apply (sd_options_checked [SoVdi "img"; SoRecvTmo [Ascii.ascii_of_nat 57]]); [vm_compute; reflexivity|repeat constructor].
Defined.

(** ** The description *)
Section sheep_docs.
Context `{!JsonText, !JsonTextLaws} {S : Type} `{!SdSock S}.
Notation dev := (ublksrv_dev sheepdog_dev).
Variable fuel : nat.
Variable inode_mem : bool.

(** The entries a device is connected with. *)
Definition sd_entries (o : sd_options) (name : string) (t : gmap string json) : Prop :=
  t !! "vdi_name" = Some (JStr name) /\ t !! "sheepdog_host" = Some (JStr (so_host o)) /\
  t !! "sheepdog_port" = Some (JStr (so_port o)) /\
  t !! "send_timeout" = Some (JNum (u64 (so_send o))) /\ t !! "recv_timeout" = Some (JNum (u64 (so_recv o))).

(** The device's data after the entries were read. *)
Definition sd_named (o : sd_options) (name : string) (d : sheepdog_dev) : sheepdog_dev :=
  mk_sheepdog_dev (so_host o) (so_port o) name (sd_vdi d) (u64 (so_send o)) (u64 (so_recv o)) (unlock d).

Definition sd_short (o : sd_options) (name : string) (b : ublksrv_tgt_jbuf) : Prop :=
  slen name < 256 /\ slen (so_host o) < 256 /\ slen (so_port o) < 16 /\
  slen name < jbuf_size b /\ slen (so_host o) < jbuf_size b /\ slen (so_port o) < jbuf_size b.

Lemma sd_setup_entries conn (dv : dev) m t o name d :
  text_of (dv_jbuf dv) m -> m !! "target" = Some (JObj t) -> sd_entries o name t -> sd_short o name (dv_jbuf dv) ->
  dv_data dv = Some d ->
  sheepdog_setup_tgt fuel inode_mem conn dv =
    (let d := sd_named o name d in
     let fd := fst (sd_connect (sc_gai conn) (sc_addrs conn)) in
     if fd <? 0 then Some (fd, dv_set_data (Some d) dv)
     else
       '(ret, d) ← sd_open_image fuel inode_mem (sc_sock conn) d;
       let dv := dv_event (DvClose fd) (dv_set_data (Some d) dv) in
       if ret <? 0 then Some (ret, dv)
       else Some (0, set_tgt (Z.shiftr (vdi_size (inode (sd_vdi d))) 9) (queue_depth (dv_info dv)) 0 0
                       (sizeof_io_tgt + sizeof_sd_io_context) (tgt_fds (dv_tgt dv)) dv)).
Proof.
  intros Hb Hm (Hn&Hh&Hp&Hs&Hr) (L1&L2&L3&L4&L5&L6) Hd. unfold sheepdog_setup_tgt, jread_str. rewrite Hd. cbn [mbind option_bind].
  rewrite (read_str_text _ _ _ _ _ Hb Hm Hn L4). cbn [mbind option_bind]. rewrite (proj2 (Z.ltb_lt _ _) L1).
  cbn [mbind option_bind]. change (0 <? 0) with false. cbv iota.
  rewrite (read_str_text _ _ _ _ _ Hb Hm Hh L5). cbn [mbind option_bind]. rewrite (proj2 (Z.ltb_lt _ _) L2).
  cbn [mbind option_bind Z.eqb negb].
  rewrite (read_str_text _ _ _ _ _ Hb Hm Hp L6). cbn [mbind option_bind]. rewrite (proj2 (Z.ltb_lt _ _) L3).
  cbn [mbind option_bind Z.eqb negb]. unfold sheepdog_setup_conn.
  rewrite (read_ulong_text _ _ _ _ _ Hb Hm Hs) by apply u64_bound. cbn [mbind option_bind Z.eqb negb].
  rewrite (read_ulong_text _ _ _ _ _ Hb Hm Hr) by apply u64_bound. done.
Qed.

(** A host name is copied into 256 bytes without a check of its own: a longer
    one that fits the JSON buffer (whose size is the one compared with) is
    written past the end of the array when the device is set up. *)
Theorem sheepdog_long_host_overflows conn (dv : dev) m t o name d :
  text_of (dv_jbuf dv) m -> m !! "target" = Some (JObj t) -> sd_entries o name t -> dv_data dv = Some d ->
  slen name < 256 -> slen name < jbuf_size (dv_jbuf dv) -> 256 <= slen (so_host o) < jbuf_size (dv_jbuf dv) ->
  sheepdog_setup_tgt fuel inode_mem conn dv = None.
Proof.
  intros Hb Hm (Hn&Hh&_) Hd L1 L2 [L3 L4]. unfold sheepdog_setup_tgt, jread_str. rewrite Hd. cbn [mbind option_bind].
  rewrite (read_str_text _ _ _ _ _ Hb Hm Hn L2). cbn [mbind option_bind]. rewrite (proj2 (Z.ltb_lt _ _) L1).
  cbn [mbind option_bind]. change (0 <? 0) with false. cbv iota.
  rewrite (read_str_text _ _ _ _ _ Hb Hm Hh L4). cbn [mbind option_bind]. by rewrite (proj2 (Z.ltb_ge _ _) L3).
Qed.

(** The documents of a device that is added. *)
Section docs_of.
Variables (info : ublksrv_ctrl_dev_info) (o : sd_options) (name : string).
Definition sd_m1 := doc_info info.
Definition sd_m2 := with_target "sheepdog_host" (JStr (so_host o)) sd_m1.
Definition sd_m3 := with_target "sheepdog_port" (JStr (so_port o)) sd_m2.
Definition sd_m4 := with_target "vdi_name" (JStr name) sd_m3.
Definition sd_m5 := with_target "logical_block_shift" (JNum (u64 (so_lbs o))) sd_m4.
Definition sd_m6 := with_target "send_timeout" (JNum (u64 (so_send o))) sd_m5.
Definition sd_m7 := with_target "recv_timeout" (JNum (u64 (so_recv o))) sd_m6.
Section with_inode.
Variables (v ctime size : Z) (p : ublk_params).
Definition sd_m8 := with_target "vid" (JNum (u64 v)) sd_m7.
Definition sd_m9 := with_target "ctime" (JNum (u64 ctime)) sd_m8.
Definition sd_m10 := with_base (mk_tgt_base "sheepdog" 0 size) sd_m9.
Definition sd_doc := doc_params p sd_m10.

Lemma sd_m7_entries : sd_entries o name (target_of sd_m7).
Proof.
  unfold sd_entries, sd_m7, sd_m6, sd_m5, sd_m4, sd_m3, sd_m2. rewrite !target_of_with.
  split; [|split; [|split; [|split]]].
  - rewrite !lookup_insert_ne by done. apply lookup_insert_eq.
  - rewrite !lookup_insert_ne by done. apply lookup_insert_eq.
  - rewrite !lookup_insert_ne by done. apply lookup_insert_eq.
  - rewrite !lookup_insert_ne by done. apply lookup_insert_eq.
  - apply lookup_insert_eq.
Qed.

Lemma sd_doc_entries : sd_doc !! "target" = Some (JObj (target_of sd_m10)) /\ sd_entries o name (target_of sd_m10).
Proof.
  split; [unfold sd_doc, doc_params; rewrite lookup_insert_ne by done; apply with_target_lookup|].
  pose proof sd_m7_entries as He. unfold sd_entries in *. unfold sd_m10, with_base, sd_m9, sd_m8.
  rewrite !target_of_with. by rewrite !lookup_insert_ne by done.
Qed.
End with_inode.
End docs_of.

(** Writing the options. *)
Lemma sd_describes cap info o name (dv : dev) :
  buf_ok cap (dv_jbuf dv) ->
  Forall (fits cap) [sd_m1 info; sd_m2 info o; sd_m3 info o; sd_m4 info o name; sd_m5 info o name; sd_m6 info o name; sd_m7 info o name] ->
  exists b, holds cap b (sd_m7 info o name) /\ forall (k : dev -> option (Z * dev)),
  (dv ← jwrite (ublk_json_write_dev_info always info) dv;
   dv ← jwrite (ublk_json_write_tgt_str always "sheepdog_host" (Some (so_host o))) dv;
   dv ← jwrite (ublk_json_write_tgt_str always "sheepdog_port" (Some (so_port o))) dv;
   dv ← jwrite (ublk_json_write_tgt_str always "vdi_name" (Some name)) dv;
   dv ← jwrite (ublk_json_write_tgt_ulong always "logical_block_shift" (so_lbs o)) dv;
   dv ← jwrite (ublk_json_write_tgt_ulong always "send_timeout" (so_send o)) dv;
   dv ← jwrite (ublk_json_write_tgt_ulong always "recv_timeout" (so_recv o)) dv; k dv) = k (dv_set_jbuf b dv).
Proof.
  intros Hb Hfits. apply (jwrites_new cap info [DwStr "sheepdog_host" (Some (so_host o));
    DwStr "sheepdog_port" (Some (so_port o)); DwStr "vdi_name" (Some name); DwUlong "logical_block_shift" (so_lbs o);
    DwUlong "send_timeout" (so_send o); DwUlong "recv_timeout" (so_recv o)] dv Hb Hfits).
Qed.

(** What a connection is made with. *)
Definition sd_config (d : sheepdog_dev) : string * string * string * Z * Z :=
  (cluster_host d, cluster_port d, sd_vdi_name d, send_timeout d, recv_timeout d).

Lemma sd_open_image_keeps fd d ret d' : sd_open_image fuel inode_mem fd d = Some (ret, d') -> sd_config d' = sd_config d.
Proof.
  unfold sd_open_image. destruct (sd_vdi_lookup fd _ 0 None _) as [[r1 v1] fd1].
  destruct (r1 <? 0); [by intros [= <- <-]|].
  assert (Hread : forall fd x, (('(ret, v, _) ← sd_read_inode fuel inode_mem fd (sd_vdi x) false; Some (ret, sd_set_vdi v x))
    = Some (ret, d')) -> sd_config d' = sd_config x).
  { intros fd' x. destruct (sd_read_inode fuel inode_mem fd' (sd_vdi x) false) as [[[r v] fd2]|]; cbn; [|done].
    by intros [= <- <-]. }
  destruct (unlock (sd_set_vid _ d)); [|intros H'; by apply Hread in H'].
  destruct (sd_vdi_release fd1 _) as [r2 fd2]. destruct (r2 <? 0); [by intros [= <- <-]|].
  destruct (sd_vdi_lookup fd2 _ 0 None true) as [[r3 v3] fd3]. destruct (r3 <? 0); [by intros [= <- <-]|].
  intros H'. by apply Hread in H'.
Qed.

(** A new sheepdog device that connects, finds its image and has room for its
    description. *)
Record sd_add (cap argc : Z) (opts : list sd_opt) (conn : sd_conn S) (dv : dev) (o : sd_options) (name : string)
    (ret : Z) (d : sheepdog_dev) (p : ublk_params) : Prop := {
  ad_new : ublksrv_is_recovering argc (dv_ctrl dv) = false;
  ad_opts : sd_parse opts default_sd_options = Some o;
  ad_name : so_vdi o = Some name;
  ad_short : slen name < 256 /\ slen (so_host o) < 256 /\ slen (so_port o) < 16;
  ad_connected : 0 <= fst (sd_connect (sc_gai conn) (sc_addrs conn));
  ad_image : sd_open_image fuel inode_mem (sc_sock conn) (sd_named o name (sd_set_unlock (so_unlock o) zero_sheepdog_dev)) = Some (ret, d);
  ad_found : 0 <= ret;
  ad_params : sd_params (dv_info dv) (so_lbs o) (inode (sd_vdi d)) = Some (Some p);
  ad_buf : buf_ok cap (dv_jbuf dv);
  ad_fits : Forall (fits cap) [sd_m1 (dv_info dv); sd_m2 (dv_info dv) o; sd_m3 (dv_info dv) o; sd_m4 (dv_info dv) o name;
    sd_m5 (dv_info dv) o name; sd_m6 (dv_info dv) o name; sd_m7 (dv_info dv) o name];
  ad_fits_inode : Forall (fits cap) (docs_after (sd_m7 (dv_info dv) o name) [DwUlong "vid" (Sheep.vid (sd_vdi d));
    DwUlong "ctime" (create_time (inode (sd_vdi d)));
    DwBase (mk_tgt_base "sheepdog" 0 (u64 (Z.shiftl (dev_sectors (p_basic p)) 9))); DwParams p])
}.

(** Recovery reconnects a sheepdog device to its image: after a device was
    added, a daemon that takes over finds the host, the port, the image's name
    and the timeouts in the description; it asks for the image without the lock,
    releases the lock of the daemon that died and takes it again, and ends up
    connected with the same settings. *)
Theorem sheepdog_recovery_restores cap argc opts conn dv o name ret d p :
  sd_add cap argc opts conn dv o name ret d p ->
  exists dv', sheepdog_init_tgt always fuel inode_mem argc opts conn dv = Some (0, dv') /\ dv_data dv' = Some d /\
    dev_size (dv_tgt dv') = Z.shiftr (vdi_size (inode (sd_vdi d))) 9 /\
    forall argc2 opts2 conn2 dv2 ret2 d2,
      ublksrv_is_recovering argc2 (dv_ctrl dv2) = true -> is_Some (jb_alloc (dv_jbuf dv2)) ->
      jbuf (dv_jbuf dv2) = jbuf (dv_jbuf dv') -> sd_short o name (dv_jbuf dv2) ->
      0 <= fst (sd_connect (sc_gai conn2) (sc_addrs conn2)) ->
      sd_open_image fuel inode_mem (sc_sock conn2) (sd_named o name (sd_set_unlock true zero_sheepdog_dev)) = Some (ret2, d2) ->
      0 <= ret2 ->
      exists dv2', sheepdog_init_tgt always fuel inode_mem argc2 opts2 conn2 dv2 = Some (0, dv2') /\
        dv_data dv2' = Some d2 /\ sd_config d2 = sd_config d.
Proof.
  intros [Hnew Hopts Hname (S1&S2&S3) Hconn Himg Hret Hp Hb Hfits Hfits2]. unfold sheepdog_init_tgt at 1. rewrite Hnew, Hopts, Hname.
  destruct (sd_describes cap (dv_info dv) o name dv Hb Hfits) as (b&Hh&->).
  set (dv1 := dv_set_data (Some (sd_set_unlock (so_unlock o) zero_sheepdog_dev)) (dv_set_jbuf b dv)).
  pose proof Hh as [(_&H512&_) _].
  assert (Hs1 : sd_short o name (dv_jbuf dv1)) by (change (dv_jbuf dv1) with b; repeat split; lia).
  rewrite (sd_setup_entries conn dv1 (sd_m7 (dv_info dv) o name) (target_of (sd_m7 (dv_info dv) o name)) o name
    (sd_set_unlock (so_unlock o) zero_sheepdog_dev) (holds_text _ _ _ Hh) (with_target_lookup _ _ _)
    (sd_m7_entries (dv_info dv) o name) Hs1 eq_refl).
  cbv zeta. rewrite (proj2 (Z.ltb_ge _ _) Hconn), Himg. cbn [mbind option_bind]. rewrite (proj2 (Z.ltb_ge _ _) Hret).
  cbn [mbind option_bind]. change (0 <? 0) with false. cbv iota.
  set (dv2 := set_tgt _ _ _ _ _ _ _). change (dv_data dv2) with (Some d). cbn [mbind option_bind].
  destruct (jwrites_holds cap _ _ dv2 Hh (with_target_ok _ _ _) Hfits2) as (b2&Hh2&Hk). cbn [foldl dw_doc] in Hh2.
  assert (Hk2 : forall k, (dv ← jwrite (ublk_json_write_tgt_ulong always "vid" (Sheep.vid (sd_vdi d))) dv2;
     dv ← jwrite (ublk_json_write_tgt_ulong always "ctime" (create_time (inode (sd_vdi d)))) dv;
     dv ← jwrite (ublk_json_write_target_base always (mk_tgt_base "sheepdog" 0 (u64 (Z.shiftl (dev_sectors (p_basic p)) 9)))) dv;
     dv ← jwrite (ublk_json_write_params always p) dv; k dv) = k (dv_set_jbuf b2 dv2)) by exact Hk.
  rewrite Hp. cbn [mbind option_bind]. specialize (Hk2 (fun dv => Some (0, dv))).
  exists (dv_set_jbuf b2 dv2). split; [exact Hk2|]. split; [done|]. split; [done|].
  intros argc2 opts2 conn2 dv3 ret2 d2 Hrec Halloc Hj Hsh Hc2 Himg2 Hr2.
  unfold sheepdog_init_tgt. rewrite Hrec. unfold sheepdog_recover_tgt.
  set (dv4 := dv_set_data (Some (sd_set_unlock true zero_sheepdog_dev)) dv3).
  destruct (sd_doc_entries (dv_info dv) o name (Sheep.vid (sd_vdi d)) (create_time (inode (sd_vdi d)))
    (u64 (Z.shiftl (dev_sectors (p_basic p)) 9)) p) as [Ht He].
  rewrite (sd_setup_entries conn2 dv4 (sd_doc (dv_info dv) o name (Sheep.vid (sd_vdi d)) (create_time (inode (sd_vdi d)))
    (u64 (Z.shiftl (dev_sectors (p_basic p)) 9)) p) _ o name (sd_set_unlock true zero_sheepdog_dev)
    (conj Halloc (eq_trans Hj (proj2 Hh2))) Ht He Hsh eq_refl).
  cbv zeta. rewrite (proj2 (Z.ltb_ge _ _) Hc2), Himg2. cbn [mbind option_bind]. rewrite (proj2 (Z.ltb_ge _ _) Hr2).
  eexists. split; [done|]. split; [done|].
  by rewrite (sd_open_image_keeps _ _ _ _ Himg2), (sd_open_image_keeps _ _ _ _ Himg).
Qed.
End sheep_docs.
