(* ===== verification/SheepSetupExamples.v ===== *)
(** * A sheepdog device on a scripted connection

    The cluster's side of the connection is the list of the messages it sends:
    an image of 1 GiB in blocks of 4 MiB is looked up, locked and read, and the
    theorems of SheepSetup are applied to the device. *)

From S2P Require Import Prelude Bytes UblkCmd Params Json JsonExamples Ctrl QueueSetup DevSetup TgtInit JsonDoc NbdSetup SdProto Sheep SheepSetup.

#[export] Instance script_sock : SdSock (list (list Z)) := {|
  sd_sendmsg fd m := (inr (Z.of_nat (length m)), fd);
  sd_recvmsg fd n := match fd with [] => (inr [], []) | c :: cs => (inr c, cs) end
|}.

Definition exd_rsp (len vid : Z) : list Z := replicate 12 0 ++ le_bytes 4 len ++ le_bytes 4 0 ++ replicate 4 0 ++ le_bytes 4 vid ++ replicate 20 0.
Definition exd_inode : list Z :=
  replicate 512 0 ++ le_bytes 8 77 ++ replicate 16 0 ++ le_bytes 8 (2^30) ++ replicate 11 0 ++ [22] ++ replicate 44 0.
Definition exd_conn (msgs : list (list Z)) : sd_conn (list (list Z)) :=
  mk_sd_conn 0 [mk_sd_addr 5 0 (-1); mk_sd_addr 6 0 0] msgs.

Definition exd_info : ublksrv_ctrl_dev_info := mk_dev_info 1 64 0 0 524288 0 0 0 0 0 0 0 0 0.
Definition exd_ctrl (rec : bool) (b : ublksrv_tgt_jbuf) : ublksrv_ctrl_dev := mk_ctrl_dev 3 exd_info b rec None None [].
Definition exd_dev : ublksrv_dev sheepdog_dev := set_cdev 4 (fresh_dev (exd_ctrl false (mk_jbuf 512 (Some 512) ""))).

Definition exd_opts : list sd_opt := [SoVdi "img"; SoHost "sheep1"].
Definition exd_o : sd_options := mk_sd_options (Some "img"%string) 9 "sheep1" "7000" 5 60 false.
Definition exd_first : list (list Z) := [exd_rsp 0 9; exd_rsp 600 0; exd_inode].
Definition exd_second : list (list Z) := [exd_rsp 0 9; exd_rsp 0 0; exd_rsp 0 9; exd_rsp 600 0; exd_inode].

Definition exd_vdi : sheepdog_vdi := mk_vdi 9 (inode_of_bytes exd_inode).
Definition exd_data (unlock : bool) : sheepdog_dev := mk_sheepdog_dev "sheep1" "7000" "img" exd_vdi 5 60 unlock.
Definition exd_params : ublk_params :=
  set_discard (mk_param_discard 0 8192 8192 0 1 0)
    (set_basic (mk_param_basic UBLK_ATTR_FUA 9 22 12 9 1024 8192 2097152 0) (sd_params0 exd_info)).

Lemma exd_fits_compute cap m : (slen (dump (JObj m)) <? cap) = true -> fits cap m.
Proof. apply Z.ltb_lt. Qed.

Lemma exd_add : sd_add 3 true (grow_max 512) 4 exd_opts (exd_conn exd_first) exd_dev exd_o "img" 0 (exd_data false) exd_params.
Proof.
  split.
  - reflexivity.
  - vm_compute. reflexivity.
  - reflexivity.
  - done.
  - done.
  - vm_compute. reflexivity.
  - done.
  - vm_compute. reflexivity.
  - repeat split; done.
  - repeat constructor; apply exd_fits_compute; vm_compute; reflexivity.
  - repeat constructor; apply exd_fits_compute; vm_compute; reflexivity.
Qed.

Definition exd_dev2 (b : ublksrv_tgt_jbuf) : ublksrv_dev sheepdog_dev :=
  set_cdev 4 (fresh_dev (exd_ctrl true (mk_jbuf 8000 (Some 8000) (jbuf b)))).

Lemma sheepdog_recovery_restores_witness :
  exists dv', sheepdog_init_tgt always 3 true 4 exd_opts (exd_conn exd_first) exd_dev = Some (0, dv') /\
    dv_data dv' = Some (exd_data false) /\ dev_size (dv_tgt dv') = 2097152 /\
    exists dv2', sheepdog_init_tgt always 3 true 0 [] (exd_conn exd_second) (exd_dev2 (dv_jbuf dv')) = Some (0, dv2') /\
      dv_data dv2' = Some (exd_data true).
Proof.
  destruct (sheepdog_recovery_restores 3 true _ _ _ _ _ _ _ _ _ _ exd_add) as (dv'&Hrun&Hd&Hsize&Hrec).
  exists dv'. split; [exact Hrun|]. split; [exact Hd|]. split; [exact Hsize|].
  destruct (Hrec 0 [] (exd_conn exd_second) (exd_dev2 (dv_jbuf dv')) 0 (exd_data true)) as (dv2'&Hrun2&Hd2&_).
  - reflexivity.
  - by eexists.
  - reflexivity.
  - repeat split.
  - done.
  - vm_compute. reflexivity.
  - done.
  - exists dv2'. split; [exact Hrun2|exact Hd2].
Defined.

(** A host name of 300 characters. *)
Fixpoint exd_chars (n : nat) : string := match n with O => EmptyString | S n => String (Ascii.ascii_of_nat 97) (exd_chars n) end.
Definition exd_o2 : sd_options := mk_sd_options (Some "img"%string) 9 (exd_chars 300) "7000" 5 60 false.
Definition exd_long : ublksrv_dev sheepdog_dev :=
  dv_set_data (Some zero_sheepdog_dev)
    (dv_set_jbuf (mk_jbuf 4096 (Some 4096) (dump (JObj (sd_m7 exd_info exd_o2 "img")))) exd_dev).

Lemma sheepdog_long_host_overflows_witness : sheepdog_setup_tgt 3 true (exd_conn exd_first) exd_long = None.
Proof.
  apply (sheepdog_long_host_overflows 3 true (exd_conn exd_first) exd_long (sd_m7 exd_info exd_o2 "img")
    (target_of (sd_m7 exd_info exd_o2 "img")) exd_o2 "img" zero_sheepdog_dev).
  - split; [by eexists|reflexivity].
  - apply with_target_lookup.
  - apply sd_m7_entries.
  - reflexivity.
  - reflexivity.
  - reflexivity.
  - split; [intros H; vm_compute in H; discriminate H|reflexivity].
Defined.
