(* ===== verification/NvmeVfio.v ===== *)
(** * The NVMe target: access to the device

    Binding the device to vfio-pci, opening it through iommufd or a VFIO group,
    and the huge pages, from targets/nvme/ublk.nvme_vfio.cpp.  The system is an
    interface [VfioSys]; what is printed is left out.  Paths fit the buffers they
    are built in, since an address has at most 15 characters. *)

From S2P Require Import Prelude DmaBuf Json.
From stdpp Require Import pretty.
#[local] Open Scope Z_scope.

(** The ioctls of VFIO and iommufd the target uses. *)
Inductive vfio_req :=
| VFIO_GET_API_VERSION
| VFIO_CHECK_EXTENSION_NOIOMMU
| VFIO_SET_IOMMU (noiommu : bool)
| VFIO_GROUP_GET_STATUS
| VFIO_GROUP_SET_CONTAINER (fd : Z)
| VFIO_GROUP_GET_DEVICE_FD (pci : string)
| VFIO_DEVICE_GET_INFO
| VFIO_DEVICE_BIND_IOMMUFD (fd : Z)
| VFIO_DEVICE_ATTACH_IOMMUFD_PT (id : Z)
| VFIO_DEVICE_DETACH_IOMMUFD_PT
| IOMMU_IOAS_ALLOC
| IOMMU_DESTROY (id : Z).

Definition VFIO_API_VERSION : Z := 0.
Definition VFIO_GROUP_FLAGS_VIABLE : Z := bit 0.

(** A negative number is a failure.  [sys_ioctl]: the return value and the word
    the request gives back, if any; [sys_region fd i]: size and offset of a
    region; [sys_pread16], [sys_pwrite16]: two bytes of the device. *)
Class VfioSys (S : Type) := {
  sys_open : string -> S -> Z * S;
  sys_close : Z -> S -> S;
  sys_read : Z -> S -> option (list Ascii.ascii) * S;
  sys_write : Z -> string -> S -> Z * S;
  sys_readlink : string -> S -> option string * S;
  sys_exists : string -> S -> bool;
  sys_readdir : string -> S -> option (list string);
  sys_ioctl : Z -> vfio_req -> S -> Z * Z * S;
  sys_region : Z -> Z -> S -> option (Z * Z);
  sys_pread16 : Z -> Z -> S -> option Z;
  sys_pwrite16 : Z -> Z -> Z -> S -> bool * S;
  sys_mmap : Z -> Z -> S -> option Z * S;
  sys_munmap : Z -> Z -> S -> S
}.

(** The descriptors and modes of [struct nvme_vfio_tgt_data]. *)
Record vfio_data := mk_vfio {
  container_fd : Z;
  group_fd : Z;
  device_fd : Z;
  iommufd : Z;
  ioas_id : Z;
  iommu_group : Z;
  v_use_noiommu : bool;
  v_force_noiommu : bool;
  v_bar0 : Z;
  bar0_size : Z
}.

Definition set_container_fd (x : Z) (v : vfio_data) : vfio_data :=
  mk_vfio x (group_fd v) (device_fd v) (iommufd v) (ioas_id v) (iommu_group v) (v_use_noiommu v) (v_force_noiommu v) (v_bar0 v) (bar0_size v).
Definition set_group_fd (x : Z) (noiommu : bool) (v : vfio_data) : vfio_data :=
  mk_vfio (container_fd v) x (device_fd v) (iommufd v) (ioas_id v) (iommu_group v) noiommu (v_force_noiommu v) (v_bar0 v) (bar0_size v).
Definition set_device_fd (x : Z) (v : vfio_data) : vfio_data :=
  mk_vfio (container_fd v) (group_fd v) x (iommufd v) (ioas_id v) (iommu_group v) (v_use_noiommu v) (v_force_noiommu v) (v_bar0 v) (bar0_size v).
Definition set_iommufd (x : Z) (v : vfio_data) : vfio_data :=
  mk_vfio (container_fd v) (group_fd v) (device_fd v) x (ioas_id v) (iommu_group v) (v_use_noiommu v) (v_force_noiommu v) (v_bar0 v) (bar0_size v).
Definition set_ioas_id (x : Z) (v : vfio_data) : vfio_data :=
  mk_vfio (container_fd v) (group_fd v) (device_fd v) (iommufd v) x (iommu_group v) (v_use_noiommu v) (v_force_noiommu v) (v_bar0 v) (bar0_size v).
Definition set_iommu_group (x : Z) (noiommu : bool) (v : vfio_data) : vfio_data :=
  mk_vfio (container_fd v) (group_fd v) (device_fd v) (iommufd v) (ioas_id v) x noiommu (v_force_noiommu v) (v_bar0 v) (bar0_size v).
Definition set_bar0 (x size : Z) (v : vfio_data) : vfio_data :=
  mk_vfio (container_fd v) (group_fd v) (device_fd v) (iommufd v) (ioas_id v) (iommu_group v) (v_use_noiommu v) (v_force_noiommu v) x size.

(** strstr(3), and the text behind the last slash. *)
Fixpoint str_contains (pat s : string) : bool :=
  String.prefix pat s || match s with String _ s => str_contains pat s | EmptyString => false end.

Fixpoint after_last_slash (s : list Ascii.ascii) : option (list Ascii.ascii) :=
  match s with
  | [] => None
  | c :: s =>
      match after_last_slash s with
      | Some t => Some t
      | None => if Ascii.eqb c (Ascii.ascii_of_nat 47) then Some s else None
      end
  end.

Definition pci_path (pci_addr name : string) : string := "/sys/bus/pci/devices/" +:+ pci_addr +:+ "/" +:+ name.

(** A Y and a newline. *)
Definition yes_line : string := String.String (Ascii.ascii_of_nat 89) (String.String (Ascii.ascii_of_nat 10) EmptyString).

Section vfio.
Context {S : Type} `{!VfioSys S}.
Implicit Types s : S.

(** ** Files of sysfs and proc *)

Definition nvme_enable_noiommu_mode (s : S) : Z * S :=
  let path := "/sys/module/vfio/parameters/enable_unsafe_noiommu_mode" in
  let '(fd, s) := sys_open path s in
  if fd <? 0 then (-1, s)
  else
    let '(buf, s) := sys_read fd s in
    let s := sys_close fd s in
    let enabled := match buf with
                   | Some (c :: _) => Ascii.eqb c (Ascii.ascii_of_nat 89) || Ascii.eqb c (Ascii.ascii_of_nat 49)
                   | _ => false
                   end in
    if enabled : bool then (0, s)
    else
      let '(fd, s) := sys_open path s in
      if fd <? 0 then (-1, s)
      else let '(ret, s) := sys_write fd yes_line s in (if negb (ret =? 2) then -1 else 0, sys_close fd s).

(** The group, and whether there is no IOMMU. *)
Definition get_iommu_group (pci_addr : string) (s : S) : Z * bool * S :=
  let '(link, s) := sys_readlink (pci_path pci_addr "iommu_group") s in
  match link with
  | None => (0, true, s)
  | Some link =>
      match after_last_slash (String.list_ascii_of_string link) with
      | None => (-1, false, s)
      | Some name => (s32 (strtol name), str_contains "noiommu" link, s)
      end
  end.

Definition get_pci_numa_node (pci_addr : string) (s : S) : Z * S :=
  let '(fd, s) := sys_open (pci_path pci_addr "numa_node") s in
  if fd <? 0 then (-1, s)
  else
    let '(buf, s) := sys_read fd s in
    (match buf with Some (_ :: _ as buf) => s32 (strtol buf) | _ => -1 end, sys_close fd s).

(** [for (retry = 0; retry < 50; retry++)], a tenth of a second each. *)
Fixpoint unbind_wait (n : nat) (path : string) (s : S) : S :=
  match n with
  | O => s
  | Datatypes.S n =>
      let '(link, s) := sys_readlink path s in
      match link with None => s | Some _ => unbind_wait n path s end
  end.

Definition unbind_driver (pci_addr : string) (s : S) : Z * S :=
  if 16 <? Z.of_nat (String.length pci_addr) then (-1, s)
  else
    let '(fd, s) := sys_open (pci_path pci_addr "driver/unbind") s in
    if fd <? 0 then (0, s)
    else
      let '(ret, s) := sys_write fd pci_addr s in
      if ret <? 0 then (-1, sys_close fd s)
      else (0, unbind_wait 50 (pci_path pci_addr "driver") (sys_close fd s)).

(** A word written to a file that must exist. *)
Definition write_file (path word : string) (s : S) : Z * S :=
  let '(fd, s) := sys_open path s in
  if fd <? 0 then (-1, s)
  else let '(ret, s) := sys_write fd word s in (if ret <? 0 then -1 else 0, sys_close fd s).

Definition bind_vfio_pci (pci_addr : string) (s : S) : Z * S :=
  let '(ret, s) := write_file (pci_path pci_addr "driver_override") "vfio-pci" s in
  if ret <? 0 then (-1, s) else write_file "/sys/bus/pci/drivers_probe" pci_addr s.

Definition setup_vfio_binding (pci_addr : string) (s : S) : Z * S :=
  if 16 <? Z.of_nat (String.length pci_addr) then (-1, s)
  else
    let '(link, s) := sys_readlink (pci_path pci_addr "driver") s in
    match link with
    | Some ((String _ _) as link) =>
        if str_contains "vfio-pci" link then (0, s)
        else let '(ret, s) := unbind_driver pci_addr s in if ret <? 0 then (-1, s) else bind_vfio_pci pci_addr s
    | _ => bind_vfio_pci pci_addr s
    end.

(** ** VFIO *)

Definition nvme_enable_pci_bus_master (fd : Z) (s : S) : Z * S :=
  match sys_region fd 7 s with
  | None => (-1, s)
  | Some (_, off) =>
      match sys_pread16 fd (off + 4) s with
      | None => (-1, s)
      | Some cmd_reg =>
          let '(ok, s) := sys_pwrite16 fd (off + 4) (Z.lor cmd_reg 0x0404) s in
          if negb ok then (-1, s)
          else match sys_pread16 fd (off + 4) s with
               | None => (-1, s)
               | Some cmd_reg => (if negb (has cmd_reg 4) then -1 else 0, s)
               end
      end
  end.

(** The group's descriptor or -1, and whether there is no IOMMU. *)
Definition nvme_open_vfio_group (group container : Z) (noiommu : bool) (s : S) : Z * bool * S :=
  let plain := "/dev/vfio/" +:+ pretty group in
  let path := if sys_exists plain s then Some (plain, noiommu)
              else let p := "/dev/vfio/noiommu-" +:+ pretty group in
                   if sys_exists p s then Some (p, true) else None in
  match path with
  | None => (-1, noiommu, s)
  | Some (path, noiommu) =>
      let '(fd, s) := sys_open path s in
      if fd <? 0 then (-1, noiommu, s)
      else
        let '(ret, flags, s) := sys_ioctl fd VFIO_GROUP_GET_STATUS s in
        if (ret <? 0) || negb (has flags VFIO_GROUP_FLAGS_VIABLE) then (-1, noiommu, sys_close fd s)
        else
          let '(ret, _, s) := sys_ioctl fd (VFIO_GROUP_SET_CONTAINER container) s in
          if ret <? 0 then (-1, noiommu, sys_close fd s)
          else
            let '(ret, _, s) := sys_ioctl container (VFIO_SET_IOMMU noiommu) s in
            if ret <? 0 then (-1, noiommu, sys_close fd s) else (fd, noiommu, s)
  end.

(** The first entry that does not begin with a dot. *)
Fixpoint first_entry (l : list string) : option string :=
  match l with
  | [] => None
  | String c n :: l => if Ascii.eqb c (Ascii.ascii_of_nat 46) then first_entry l else Some (String c n)
  | EmptyString :: l => Some EmptyString
  end.

Definition nvme_open_vfio_cdev (pci_addr : string) (s : S) : Z * S :=
  match sys_readdir (pci_path pci_addr "vfio-dev") s with
  | None => (-1, s)
  | Some l =>
      match first_entry l with
      | None => (-1, s)
      | Some name => sys_open ("/dev/vfio/devices/" +:+ name) s
      end
  end.

Definition nvme_vfio_setup_iommufd (pci_addr : string) (v : vfio_data) (s : S) : Z * vfio_data * S :=
  let '(fd, s) := sys_open "/dev/iommu" s in
  let v := set_iommufd fd v in
  let close_iommufd v s := (-1, set_iommufd (-1) v, sys_close (iommufd v) s) in
  let close_device v s := close_iommufd (set_device_fd (-1) v) (sys_close (device_fd v) s) in
  if iommufd v <? 0 then (-1, v, s)
  else
    let '(fd, s) := nvme_open_vfio_cdev pci_addr s in
    let v := set_device_fd fd v in
    if device_fd v <? 0 then close_iommufd v s
    else
      let '(ret, _, s) := sys_ioctl (device_fd v) (VFIO_DEVICE_BIND_IOMMUFD (iommufd v)) s in
      if ret <? 0 then close_device v s
      else
        let '(ret, id, s) := sys_ioctl (iommufd v) IOMMU_IOAS_ALLOC s in
        if ret <? 0 then close_device v s
        else
          let v := set_ioas_id id v in
          let '(ret, _, s) := sys_ioctl (device_fd v) (VFIO_DEVICE_ATTACH_IOMMUFD_PT (ioas_id v)) s in
          if ret <? 0 then let '(_, _, s) := sys_ioctl (iommufd v) (IOMMU_DESTROY (ioas_id v)) s in close_device v s
          else (0, v, s).

(** The part without an IOMMU. *)
Definition setup_group (pci_addr : string) (v : vfio_data) (s : S) : Z * vfio_data * S :=
  let '(fd, s) := sys_open "/dev/vfio/vfio" s in
  let v := set_container_fd fd v in
  if fd <? 0 then (-1, v, s)
  else
    let '(version, _, s) := sys_ioctl fd VFIO_GET_API_VERSION s in
    if negb (version =? VFIO_API_VERSION) then (-1, v, s)
    else
      let '(ext, _, s) := sys_ioctl fd VFIO_CHECK_EXTENSION_NOIOMMU s in
      if ext =? 0 then (-1, v, s)
      else
        let '(g, noiommu, s) := nvme_open_vfio_group (iommu_group v) fd (v_use_noiommu v) s in
        let v := set_group_fd g noiommu v in
        if g <? 0 then (-1, v, s)
        else
          let '(dev, _, s) := sys_ioctl g (VFIO_GROUP_GET_DEVICE_FD pci_addr) s in
          let v := set_device_fd dev v in
          if dev <? 0 then (-1, v, s) else (0, v, s).

(** What follows in both modes: bus mastering and the registers. *)
Definition map_bar0 (v : vfio_data) (s : S) : Z * vfio_data * S :=
  let '(ret, _, s) := sys_ioctl (device_fd v) VFIO_DEVICE_GET_INFO s in
  if ret <? 0 then (-1, v, s)
  else
    let '(ret, s) := nvme_enable_pci_bus_master (device_fd v) s in
    if ret <? 0 then (-1, v, s)
    else
      match sys_region (device_fd v) 0 s with
      | None => (-1, v, s)
      | Some (size, _) =>
          let '(bar, s) := sys_mmap (device_fd v) size s in
          match bar with
          | None => (-1, set_bar0 0 size v, s)
          | Some bar => (0, set_bar0 bar size v, s)
          end
      end.

Definition nvme_vfio_setup (pci_addr : string) (v : vfio_data) (s : S) : Z * vfio_data * S :=
  let '(ret, s) := setup_vfio_binding pci_addr s in
  if ret <? 0 then (-1, v, s)
  else
    let '(group, noiommu, s) := get_iommu_group pci_addr s in
    let v := set_iommu_group group noiommu v in
    if group <? 0 then (-1, v, s)
    else
      let '(ret, v, s) :=
        if negb (v_use_noiommu v) && negb (v_force_noiommu v) then nvme_vfio_setup_iommufd pci_addr v s
        else setup_group pci_addr v s in
      if ret <? 0 then (-1, v, s) else map_bar0 v s.

(** The part of [nvme_vfio_cleanup] that gives the device back. *)
Definition close_vfio (v : vfio_data) (s : S) : S :=
  let s := if negb (v_bar0 v =? 0) then sys_munmap (v_bar0 v) (bar0_size v) s else s in
  let close fd s := if 0 <=? fd then sys_close fd s else s in
  if 0 <=? iommufd v then
    let '(_, _, s) := sys_ioctl (device_fd v) VFIO_DEVICE_DETACH_IOMMUFD_PT s in
    let '(_, _, s) := sys_ioctl (iommufd v) (IOMMU_DESTROY (ioas_id v)) s in
    sys_close (iommufd v) (close (device_fd v) s)
  else close (container_fd v) (close (group_fd v) (close (device_fd v) s)).
End vfio.

(** ** Descriptors *)

(** What the system calls do to the open descriptors. *)
Class VfioFds (S : Type) `{!VfioSys S} := {
  fds : S -> list Z;
  open_fds : forall p s, fds (snd (sys_open p s)) ≡ₚ (if fst (sys_open p s) <? 0 then [] else [fst (sys_open p s)]) ++ fds s;
  close_fds : forall fd s, fd ∈ fds s -> fd :: fds (sys_close fd s) ≡ₚ fds s;
  read_fds : forall fd s, fds (snd (sys_read fd s)) ≡ₚ fds s;
  write_fds : forall fd w s, fds (snd (sys_write fd w s)) ≡ₚ fds s;
  readlink_fds : forall p s, fds (snd (sys_readlink p s)) ≡ₚ fds s;
  pwrite_fds : forall fd o w s, fds (snd (sys_pwrite16 fd o w s)) ≡ₚ fds s;
  mmap_fds : forall fd n s, fds (snd (sys_mmap fd n s)) ≡ₚ fds s;
  munmap_fds : forall a n s, fds (sys_munmap a n s) ≡ₚ fds s;
  ioctl_fds : forall fd r s,
    let ret := fst (fst (sys_ioctl fd r s)) in
    fds (snd (sys_ioctl fd r s)) ≡ₚ
      match r with VFIO_GROUP_GET_DEVICE_FD _ => if ret <? 0 then [] else [ret] | _ => [] end ++ fds s
}.

Section no_leak.
Context {S : Type} `{!VfioSys S, !VfioFds S}.
Implicit Types s : S.

(** The descriptor, if there is one. *)
Definition own (fd : Z) : list Z := if fd <? 0 then [] else [fd].

Lemma own_nonneg fd : 0 <= fd -> own fd = [fd].
Proof. intros H. unfold own. by rewrite (proj2 (Z.ltb_ge _ _) H). Qed.
Lemma own_neg fd : fd < 0 -> own fd = [].
Proof. intros H. unfold own. by rewrite (proj2 (Z.ltb_lt _ _) H). Qed.

Lemma open_own p s fd s' : sys_open p s = (fd, s') -> fds s' ≡ₚ own fd ++ fds s.
Proof. intros H. pose proof (open_fds p s) as Hp. by rewrite H in Hp. Qed.

Lemma close_own fd s F : fds s ≡ₚ fd :: F -> fds (sys_close fd s) ≡ₚ F.
Proof.
  intros H. assert (Hin : fd ∈ fds s) by (rewrite H; left). pose proof (close_fds fd s Hin) as Hc. rewrite H in Hc.
  by apply Permutation_cons_inv in Hc.
Qed.

Lemma ioctl_keeps fd r s ret w s' : sys_ioctl fd r s = (ret, w, s') ->
  (forall p, r <> VFIO_GROUP_GET_DEVICE_FD p) -> fds s' ≡ₚ fds s.
Proof. intros H Hr. pose proof (ioctl_fds fd r s) as Hp. cbv zeta in Hp. rewrite H in Hp. cbn in Hp. destruct r; try done. by destruct (Hr pci). Qed.

Lemma read_own fd s b s' : sys_read fd s = (b, s') -> fds s' ≡ₚ fds s.
Proof. intros H. pose proof (read_fds fd s) as Hp. by rewrite H in Hp. Qed.
Lemma write_own fd w s r s' : sys_write fd w s = (r, s') -> fds s' ≡ₚ fds s.
Proof. intros H. pose proof (write_fds fd w s) as Hp. by rewrite H in Hp. Qed.
Lemma readlink_own p s l s' : sys_readlink p s = (l, s') -> fds s' ≡ₚ fds s.
Proof. intros H. pose proof (readlink_fds p s) as Hp. by rewrite H in Hp. Qed.
Lemma pwrite_own fd o w s r s' : sys_pwrite16 fd o w s = (r, s') -> fds s' ≡ₚ fds s.
Proof. intros H. pose proof (pwrite_fds fd o w s) as Hp. by rewrite H in Hp. Qed.
Lemma mmap_own fd n s r s' : sys_mmap fd n s = (r, s') -> fds s' ≡ₚ fds s.
Proof. intros H. pose proof (mmap_fds fd n s) as Hp. by rewrite H in Hp. Qed.

(** Files that are opened, used and closed again. *)
Lemma write_file_keeps path w s r s' : write_file path w s = (r, s') -> fds s' ≡ₚ fds s.
Proof.
  unfold write_file. destruct (sys_open path s) as [fd s1] eqn:E1. apply open_own in E1.
  destruct (Z.ltb_spec fd 0); [intros [= _ <-]; by rewrite own_neg in E1 by lia|]. rewrite own_nonneg in E1 by lia.
  destruct (sys_write fd w s1) as [ret s2] eqn:E2. apply write_own in E2. intros [= _ <-].
  apply close_own. by rewrite E2, E1.
Qed.

Lemma unbind_wait_keeps n path s : fds (unbind_wait n path s) ≡ₚ fds s.
Proof.
  revert s. induction n as [|n IH]; intros s; cbn [unbind_wait]; [done|].
  destruct (sys_readlink path s) as [l s1] eqn:E. apply readlink_own in E. destruct l; [by rewrite IH|done].
Qed.

Lemma unbind_keeps pci s r s' : unbind_driver pci s = (r, s') -> fds s' ≡ₚ fds s.
Proof.
  unfold unbind_driver. generalize 50%nat. intros n. case_bool; [by intros [= _ <-]|]. destruct (sys_open _ s) as [fd s1] eqn:E1. apply open_own in E1.
  destruct (Z.ltb_spec fd 0); [intros [= _ <-]; by rewrite own_neg in E1 by lia|]. rewrite own_nonneg in E1 by lia.
  destruct (sys_write fd pci s1) as [ret s2] eqn:E2. apply write_own in E2.
  assert (Hc : fds (sys_close fd s2) ≡ₚ fds s) by (apply close_own; by rewrite E2, E1).
  case_bool; intros [= _ <-]; [done|]. by rewrite unbind_wait_keeps.
Qed.

Lemma binding_keeps pci s r s' : setup_vfio_binding pci s = (r, s') -> fds s' ≡ₚ fds s.
Proof.
  assert (Hbind : forall s r s', bind_vfio_pci pci s = (r, s') -> fds s' ≡ₚ fds s).
  { intros s0 r0 s0'. unfold bind_vfio_pci. destruct (write_file _ _ s0) as [r1 s1] eqn:E1. apply write_file_keeps in E1.
    case_bool; [by intros [= _ <-]|]. intros E2. apply write_file_keeps in E2. by rewrite E2. }
  unfold setup_vfio_binding. case_bool; [by intros [= _ <-]|].
  destruct (sys_readlink _ s) as [l s1] eqn:E1. apply readlink_own in E1.
  destruct l as [[|c l]|]; [intros H; by rewrite (Hbind _ _ _ H)| |intros H; by rewrite (Hbind _ _ _ H)].
  case_bool; [by intros [= _ <-]|]. destruct (unbind_driver pci s1) as [r2 s2] eqn:E2. apply unbind_keeps in E2.
  case_bool; [intros [= _ <-]; by rewrite E2|]. intros H. by rewrite (Hbind _ _ _ H), E2.
Qed.

Lemma iommu_group_keeps pci s g n s' : get_iommu_group pci s = (g, n, s') -> fds s' ≡ₚ fds s.
Proof.
  unfold get_iommu_group. destruct (sys_readlink _ s) as [l s1] eqn:E1. apply readlink_own in E1.
  destruct l as [l|]; [|by intros [= _ _ <-]]. destruct (after_last_slash _); by intros [= _ _ <-].
Qed.

Lemma bus_master_keeps fd s r s' : nvme_enable_pci_bus_master fd s = (r, s') -> fds s' ≡ₚ fds s.
Proof.
  unfold nvme_enable_pci_bus_master. destruct (sys_region fd 7 s) as [[? off]|]; [|by intros [= _ <-]].
  destruct (sys_pread16 _ _ s) as [c|]; [|by intros [= _ <-]].
  destruct (sys_pwrite16 _ _ _ s) as [ok s1] eqn:E1. apply pwrite_own in E1. case_bool; [by intros [= _ <-]|].
  destruct (sys_pread16 _ _ s1); by intros [= _ <-].
Qed.

(** Opening hands over one descriptor or nothing. *)
Lemma open_group_own group c n s fd n' s' :
  nvme_open_vfio_group group c n s = (fd, n', s') -> fds s' ≡ₚ own fd ++ fds s.
Proof.
  unfold nvme_open_vfio_group.
  match goal with |- context [match ?m with None => _ | Some _ => _ end] => destruct m as [[path n1]|] end; [|by intros [= <- _ <-]].
  destruct (sys_open path s) as [g s1] eqn:E1. apply open_own in E1.
  destruct (Z.ltb_spec g 0) as [|Hg]; [intros [= <- _ <-]; by rewrite E1, own_neg|]. rewrite own_nonneg in E1 by lia.
  assert (Hc : forall s2, fds s2 ≡ₚ fds s1 -> fds (sys_close g s2) ≡ₚ own (-1) ++ fds s) by
    (intros s2 H; apply close_own; by rewrite H, E1).
  destruct (sys_ioctl g VFIO_GROUP_GET_STATUS s1) as [[r2 f2] s2] eqn:E2. apply ioctl_keeps in E2; [|done].
  case_bool; [intros [= <- _ <-]; by apply Hc|].
  destruct (sys_ioctl g _ s2) as [[r3 f3] s3] eqn:E3. apply ioctl_keeps in E3; [|done]. rewrite E2 in E3.
  case_bool; [intros [= <- _ <-]; by apply Hc|].
  destruct (sys_ioctl c _ s3) as [[r4 f4] s4] eqn:E4. apply ioctl_keeps in E4; [|done]. rewrite E3 in E4.
  case_bool; intros [= <- _ <-]; [by apply Hc|]. by rewrite own_nonneg, E4, E1.
Qed.

Lemma open_cdev_own pci s fd s' : nvme_open_vfio_cdev pci s = (fd, s') -> fds s' ≡ₚ own fd ++ fds s.
Proof.
  unfold nvme_open_vfio_cdev. destruct (sys_readdir _ s) as [l|]; [|by intros [= <- <-]].
  destruct (first_entry l); [apply open_own|by intros [= <- <-]].
Qed.

(** The descriptors the data holds: through iommufd, or through a group. *)
Definition owned (v : vfio_data) : list Z :=
  own (device_fd v) ++ if 0 <=? iommufd v then [iommufd v] else own (group_fd v) ++ own (container_fd v).

Lemma setup_iommufd_own pci v s r v' s' :
  nvme_vfio_setup_iommufd pci v s = (r, v', s') -> device_fd v < 0 -> group_fd v < 0 -> container_fd v < 0 ->
  fds s' ≡ₚ owned v' ++ fds s /\ v_bar0 v' = v_bar0 v.
Proof.
  unfold nvme_vfio_setup_iommufd, owned. intros H Hd Hg Hc. revert H.
  destruct (sys_open _ s) as [i s1] eqn:E1. apply open_own in E1. cbn [iommufd device_fd set_iommufd set_device_fd set_ioas_id].
  destruct (Z.ltb_spec i 0) as [|Hi].
  { intros [= <- <- <-]. cbn. rewrite (proj2 (Z.leb_gt 0 i)) by lia. by rewrite E1, !own_neg. }
  rewrite own_nonneg in E1 by lia. destruct (nvme_open_vfio_cdev pci s1) as [d s2] eqn:E2. apply open_cdev_own in E2.
  destruct (Z.ltb_spec d 0) as [|Hdn].
  { intros [= <- <- <-]. cbn. split; [|done]. rewrite !own_neg by done. apply close_own. by rewrite E2, E1, own_neg. }
  rewrite own_nonneg in E2 by lia. rewrite E1 in E2. cbn in E2.
  assert (Hclose : forall s3, fds s3 ≡ₚ fds s2 -> fds (sys_close i (sys_close d s3)) ≡ₚ fds s)
    by (intros s3 H3; do 2 apply close_own; by rewrite H3, E2).
  destruct (sys_ioctl d _ s2) as [[r3 w3] s3] eqn:E3. apply ioctl_keeps in E3; [|done].
  case_bool; [intros [= <- <- <-]; cbn; rewrite !own_neg by done; by rewrite Hclose|].
  destruct (sys_ioctl i _ s3) as [[r4 w4] s4] eqn:E4. apply ioctl_keeps in E4; [|done]. rewrite E3 in E4.
  case_bool; [intros [= <- <- <-]; cbn; rewrite !own_neg by done; by rewrite Hclose|].
  destruct (sys_ioctl d _ s4) as [[r5 w5] s5] eqn:E5. apply ioctl_keeps in E5; [|done]. rewrite E4 in E5.
  case_bool.
  - destruct (sys_ioctl i _ s5) as [[r6 w6] s6] eqn:E6. apply ioctl_keeps in E6; [|done]. rewrite E5 in E6.
    intros [= <- <- <-]; cbn; rewrite !own_neg by done; by rewrite Hclose.
  - intros [= <- <- <-]. cbn. rewrite (proj2 (Z.leb_le 0 i)), (own_nonneg d) by lia. by rewrite E5, E2.
Qed.

Lemma setup_group_own pci v s r v' s' :
  setup_group pci v s = (r, v', s') -> device_fd v < 0 -> group_fd v < 0 -> container_fd v < 0 -> iommufd v < 0 ->
  fds s' ≡ₚ owned v' ++ fds s /\ v_bar0 v' = v_bar0 v.
Proof.
  unfold setup_group, owned. intros H Hd Hg Hc Hi. revert H.
  destruct (sys_open _ s) as [c s1] eqn:E1. apply open_own in E1.
  destruct (Z.ltb_spec c 0) as [|Hcn].
  { intros [= <- <- <-]. cbn. rewrite (proj2 (Z.leb_gt 0 (iommufd v))) by lia. by rewrite E1, !own_neg. }
  assert (Hret : forall s2, fds s2 ≡ₚ fds s1 -> fds s2 ≡ₚ (own (device_fd v) ++ own (group_fd v) ++ own c) ++ fds s).
  { intros s2 H2. by rewrite H2, E1, (own_neg (device_fd v)), (own_neg (group_fd v)) by done. }
  destruct (sys_ioctl c _ s1) as [[r2 w2] s2] eqn:E2. apply ioctl_keeps in E2; [|done].
  case_bool; [intros [= <- <- <-]; cbn; rewrite (proj2 (Z.leb_gt 0 (iommufd v))) by lia; by rewrite Hret|].
  destruct (sys_ioctl c _ s2) as [[r3 w3] s3] eqn:E3. apply ioctl_keeps in E3; [|done]. rewrite E2 in E3.
  case_bool; [intros [= <- <- <-]; cbn; rewrite (proj2 (Z.leb_gt 0 (iommufd v))) by lia; by rewrite Hret|].
  destruct (nvme_open_vfio_group _ c _ s3) as [[g n] s4] eqn:E4. apply open_group_own in E4. rewrite E3, E1 in E4.
  destruct (Z.ltb_spec g 0) as [|Hgn].
  { intros [= <- <- <-]; cbn; rewrite (proj2 (Z.leb_gt 0 (iommufd v))) by lia. by rewrite E4, (own_neg (device_fd v)), app_assoc. }
  destruct (sys_ioctl g _ s4) as [[dv w5] s5] eqn:E5. pose proof (ioctl_fds g (VFIO_GROUP_GET_DEVICE_FD pci) s4) as H5.
  cbv zeta in H5. rewrite E5 in H5. cbn in H5. fold (own dv) in H5. rewrite E4 in H5.
  destruct (dv <? 0); intros [= <- <- <-]; cbn; rewrite (proj2 (Z.leb_gt 0 (iommufd v))) by lia; split; try done;
    rewrite H5; by rewrite <- !app_assoc.
Qed.

Lemma map_bar0_own v s r v' s' : map_bar0 v s = (r, v', s') -> fds s' ≡ₚ fds s /\ owned v' = owned v.
Proof.
  unfold map_bar0. destruct (sys_ioctl _ _ s) as [[r1 w1] s1] eqn:E1. apply ioctl_keeps in E1; [|done].
  case_bool; [by intros [= _ <- <-]|]. destruct (nvme_enable_pci_bus_master _ s1) as [r2 s2] eqn:E2. apply bus_master_keeps in E2.
  rewrite E1 in E2. case_bool; [by intros [= _ <- <-]|]. destruct (sys_region _ 0 s2) as [[size off]|]; [|by intros [= _ <- <-]].
  destruct (sys_mmap _ _ s2) as [bar s3] eqn:E3. apply mmap_own in E3. rewrite E2 in E3. destruct bar; by intros [= _ <- <-].
Qed.

(** Closing gives back what the data holds. *)
Lemma close_vfio_own v s F : fds s ≡ₚ owned v ++ F -> fds (close_vfio v s) ≡ₚ F.
Proof.
  unfold close_vfio, owned. intros H.
  assert (Hm : forall F, fds s ≡ₚ F -> fds (if negb (v_bar0 v =? 0) then sys_munmap (v_bar0 v) (bar0_size v) s else s) ≡ₚ F).
  { intros F0 H0. case_bool; [by rewrite munmap_fds|done]. }
  assert (Hcl : forall fd s G, fds s ≡ₚ own fd ++ G -> fds (if 0 <=? fd then sys_close fd s else s) ≡ₚ G).
  { intros fd s0 G H0. destruct (Z.leb_spec 0 fd); [rewrite own_nonneg in H0 by lia; by apply close_own|].
    by rewrite own_neg in H0 by lia. }
  apply Hm in H. revert H. generalize (if negb (v_bar0 v =? 0) then sys_munmap (v_bar0 v) (bar0_size v) s else s). intros s0 H.
  destruct (0 <=? iommufd v).
  - destruct (sys_ioctl _ _ s0) as [[r1 w1] s1] eqn:E1. apply ioctl_keeps in E1; [|done]. rewrite H in E1.
    destruct (sys_ioctl _ _ s1) as [[r2 w2] s2] eqn:E2. apply ioctl_keeps in E2; [|done]. rewrite E1 in E2.
    apply close_own. apply Hcl. by rewrite E2, <- app_assoc.
  - apply Hcl, Hcl, Hcl. by rewrite H, <- !app_assoc.
Qed.

(** C37: No descriptor of the set-up is lost.  Whatever the system answers, after
    [nvme_vfio_setup] the descriptors that are open are those from before and
    the ones the data names; and the clean-up, which also follows every
    failure, closes exactly these: what is open afterwards is what was open
    before. *)
Theorem vfio_setup_no_leak pci v s :
  device_fd v = -1 -> group_fd v = -1 -> container_fd v = -1 -> iommufd v = -1 ->
  let '(_, v', s') := nvme_vfio_setup pci v s in
  fds s' ≡ₚ owned v' ++ fds s /\ fds (close_vfio v' s') ≡ₚ fds s.
Proof.
  intros Hd Hg Hc Hi. destruct (nvme_vfio_setup pci v s) as [[r v'] s'] eqn:E.
  assert (Hown : fds s' ≡ₚ owned v' ++ fds s); [|split; [done|by apply close_vfio_own]].
  assert (Hnone : forall x, device_fd x = -1 -> group_fd x = -1 -> container_fd x = -1 -> iommufd x = -1 -> owned x = [])
    by (intros x H1 H2 H3 H4; unfold owned; by rewrite H1, H2, H3, H4).
  revert E. unfold nvme_vfio_setup. destruct (setup_vfio_binding pci s) as [r1 s1] eqn:E1. apply binding_keeps in E1.
  case_bool; [intros [= _ <- <-]; by rewrite Hnone, E1|].
  destruct (get_iommu_group pci s1) as [[g n] s2] eqn:E2. apply iommu_group_keeps in E2. rewrite E1 in E2.
  case_bool; [intros [= _ <- <-]; by rewrite Hnone, E2|].
  set (v1 := set_iommu_group g n v).
  assert (H1 : device_fd v1 < 0 /\ group_fd v1 < 0 /\ container_fd v1 < 0 /\ iommufd v1 < 0) by (cbn; lia).
  destruct H1 as (?&?&?&?).
  match goal with |- context [if ?c then nvme_vfio_setup_iommufd ?a ?b ?d else ?e] =>
    destruct (if c then nvme_vfio_setup_iommufd a b d else e) as [[r3 v3] s3] eqn:E3 end.
  assert (Ho : fds s3 ≡ₚ owned v3 ++ fds s).
  { rewrite <- E2. revert E3. case_bool; intros E3; [by eapply setup_iommufd_own|by eapply setup_group_own]. }
  case_bool; [by intros [= _ <- <-]|]. intros E4. apply map_bar0_own in E4 as [E4 ->]. by rewrite E4.
Qed.
End no_leak.
