(* ===== verification/NvmeInit.v ===== *)
(** * The NVMe target: set-up and tear-down

    The callbacks init_tgt, deinit_tgt, init_queue and deinit_queue of
    targets/nvme/ublk.nvme_vfio.cpp, and the huge pages behind its pool. *)

From S2P Require Import Prelude UblkCmd DmaBuf Nvme NvmeDma NvmeRing Params NvmeAdmin Json Ctrl QueueSetup DevSetup TgtInit NvmeVfio.

(** ** Huge pages *)

(** /proc/meminfo and /proc/sys/vm/nr_hugepages: the size of a huge page in kB
    (0: not found), how many are free, how many there are (or errno), and the
    attempt to change their number (0 or errno). *)
Class HugePages (S : Type) := {
  hp_size_kb : S -> Z;
  hp_free : S -> Z;
  hp_total : S -> Z + Z;
  hp_write : Z -> S -> Z * S
}.

Section pages.
Context {S : Type} `{!HugePages S}.

Definition nvme_get_hugepage_size (s : S) : Z := u64 (hp_size_kb s * 1024).
Definition nvme_get_free_hugepages (s : S) : Z := hp_free s.

Definition nvme_adjust_hugepages (delta : Z) (s : S) : Z * S :=
  if delta =? 0 then (0, s)
  else match hp_total s with
  | inr errno => (- errno, s)
  | inl current =>
      let new_pages := current + delta in
      let '(errno, s) := hp_write (if new_pages <? 0 then 0 else new_pages) s in (- errno, s)
  end.

(** The result and how many pages were added. *)
Definition nvme_ensure_hugepages (needed_bytes hugepage_size : Z) (s : S) : Z * Z * S :=
  let needed := (needed_bytes + hugepage_size - 1) / hugepage_size in
  let free := nvme_get_free_hugepages s in
  if needed <=? free then (0, 0, s)
  else
    let extra := needed - free in
    let '(ret, s) := nvme_adjust_hugepages extra s in
    if ret <? 0 then (ret, 0, s)
    else if nvme_get_free_hugepages s <? needed then (- ENOMEM, 0, s)
    else (0, extra, s).

(** [nvme_dmabuf_pool_init] with the pages it takes: [extra_hugepages] is not reset
    when the mapping fails. *)
Definition pool_init_pages (map : Z -> Z + Z) (d : nvme_vfio_tgt_data) (s : S) : Z * Z * nvme_vfio_tgt_data * S :=
  let l := nvme_pool_layout (nr_io_queues d) (nvme_queue_depth d) (nvme_max_io_buf d) in
  let total := round_up (identify_buf_off l + PAGE_SIZE) (hugepage_size d) in
  let '(pages, extra, s) := nvme_ensure_hugepages total (hugepage_size d) s in
  let '(ret, d) := nvme_dmabuf_pool_init (fun _ => pages) map d in
  if (0 <=? pages) && (ret <? 0) then (ret, extra, d, snd (nvme_adjust_hugepages (- extra) s))
  else (ret, extra, d, s).
End pages.

(** ** The target *)

Record nvme_all {C : Type} := mk_nvme_all {
  na_dev : nvme_dev C;
  na_vfio : vfio_data;
  na_extra : Z;       (* extra_hugepages *)
  na_pci : string;
  na_numa : Z
}.
#[global] Arguments nvme_all : clear implicits.
#[global] Arguments mk_nvme_all {C}.

Inductive nvme_opt := NvPci (addr : string) | NvNoiommu.

Definition nvme_option (acc : option string * bool) (o : nvme_opt) : option string * bool :=
  match o with NvPci a => (Some a, snd acc) | NvNoiommu => (fst acc, true) end.

(** What the target asks of the rest of the system: whether a mapping ioctl
    succeeds, what mmap(2) gives the pool, the pagemap (memory, descriptor,
    contents) and whether the array of queues can be allocated. *)
Record nvme_env := mk_nvme_env {
  ne_ioas_map : Z -> Z -> Z -> bool;
  ne_map : Z -> Z + Z;
  ne_pagemap : bool * (Z + Z) * (Z -> Z -> list Z + Z);
  ne_calloc : bool
}.

Section init.
Context `{!JsonText} {C : Type} `{!NvmeCtrl C} {S : Type} `{!VfioSys S, !HugePages S}.
Notation dev := (ublksrv_dev (nvme_all C)).
Variable mem : Z -> bool.
Variable env : nvme_env.

(** What calloc(3) returns, with a controller behind it. *)
Definition zero_nvme_data : nvme_vfio_tgt_data :=
  mk_nvme_data 0 0 false false false [] 0 0 0 0 0 0 0 (mk_pool 0 0 None 0) (mk_layout 0 0 0 0) 0 0.
Definition zero_nvme (c : C) : nvme_all C :=
  mk_nvme_all (mk_nvme_dev zero_nvme_data zero_nvmeq [] 0 0 0 c) (mk_vfio 0 0 0 0 0 0 false false 0 0) 0 "" 0.

Definition na_set_dev (d : nvme_dev C) (a : nvme_all C) : nvme_all C := mk_nvme_all d (na_vfio a) (na_extra a) (na_pci a) (na_numa a).
Definition na_set_vfio (v : vfio_data) (a : nvme_all C) : nvme_all C := mk_nvme_all (na_dev a) v (na_extra a) (na_pci a) (na_numa a).

(** ** Clean-up *)

(** [for (i = 0; i < nr_io_queues; i++)] over the queues there are. *)
Fixpoint delete_queues (n : nat) (i : Z) (d : nvme_dev C) : option (nvme_dev C) :=
  match n with
  | O => Some d
  | Datatypes.S n =>
      '(_, d) ← nvme_delete_io_queue (i + 1) d;
      q ← io_queues (nv d) !! Z.to_nat i;
      delete_queues n (i + 1) (put_ioq (Z.to_nat i) (nvme_queue_deinit q) d)
  end.

(** The controller and the system afterwards; the data is freed.  An array that
    was not allocated is empty. *)
Definition nvme_vfio_cleanup (a : nvme_all C) (shutdown_ctrl : bool) (s : S) : option (C * S) :=
  let d := na_dev a in
  d ← (match io_queues (nv d) with
       | [] => Some d
       | _ => delete_queues (Z.to_nat (nr_io_queues (nv d))) 0 d
       end);
  let d := if shutdown_ctrl then nvme_shutdown_controller d else d in
  let s := close_vfio (na_vfio a) s in
  Some (nv_ctrl d, snd (nvme_adjust_hugepages (- na_extra a) s)).

(** ** init_tgt *)

Definition sizeof_nvme_io_priv : Z := 56.

Definition nvme_vfio_setup_tgt (junk : ublk_params) (dv : dev) : option (Z * dev) :=
  '(ret, p) ← ublk_json_read_params junk (dv_jbuf dv);
  if negb (ret =? 0) then Some (ret, dv)
  else
    p ← p;
    Some (0, set_tgt (u64 (Z.shiftl (dev_sectors (p_basic p)) 9)) (queue_depth (dv_info dv)) 0 (extra_ios (dv_tgt dv))
      (sizeof_io_tgt + sizeof_nvme_io_priv) (tgt_fds (dv_tgt dv)) dv).

Definition nvme_vfio_recover_tgt (junk : ublk_params) (dv : dev) : option (Z * dev) := nvme_vfio_setup_tgt junk dv.

(** The checks of the device information. *)
Definition nvme_check_info (info : ublksrv_ctrl_dev_info) (hps : Z) : bool :=
  let buf := max_io_buf_bytes info in
  negb (has (dev_flags info) UBLK_F_AUTO_BUF_REG) && negb (has (dev_flags info) UBLK_F_SUPPORT_ZERO_COPY) &&
  (1 <=? nr_hw_queues info) && (nr_hw_queues info <=? 64) && (1 <=? queue_depth info) && (queue_depth info <=? 4096) &&
  (PAGE_SIZE <=? buf) && (buf <=? Z.shiftl 2 20) && (buf <=? hps) && (Z.land buf (buf - 1) =? 0).

(** The fields set before the device is opened. *)
Definition nvme_fill (info : ublksrv_ctrl_dev_info) (hps : Z) (force : bool) (d : nvme_vfio_tgt_data) : nvme_vfio_tgt_data :=
  mk_nvme_data (nsid d) (lba_shift d) (has (dev_flags info) UBLK_F_USER_COPY) (use_noiommu d) force (io_queues d)
    (nr_hw_queues info) (queue_depth info) (max_io_buf_bytes info) (db_stride d) (bar0 d) (sgls d) 0x100000000
    (dma_pool d) (layout d) (queue_alloc_off d) hps.

(** What [nvme_vfio_setup] and the capabilities say. *)
Definition nvme_opened (v : vfio_data) (cap : Z) (d : nvme_vfio_tgt_data) : nvme_vfio_tgt_data :=
  mk_nvme_data (nsid d) (lba_shift d) (user_copy d) (v_use_noiommu v) (force_noiommu d) (io_queues d) (nr_io_queues d)
    (nvme_queue_depth d) (nvme_max_io_buf d) (Z.shiftl 1 (Z.land (Z.shiftr cap 32) 0xf) * 4) (v_bar0 v) (sgls d)
    (next_iova d) (dma_pool d) (layout d) (queue_alloc_off d) (hugepage_size d).

Definition set_dma_pool (p : dma_buf_pool) (d : nvme_vfio_tgt_data) : nvme_vfio_tgt_data := set_pool_layout p (layout d) d.

(** From the pool to the running controller: the result (-1: [goto err]), the
    parameters and the data. *)
Definition nvme_start (a : nvme_all C) (s : S) : option (Z * option ublk_params * nvme_all C * S) :=
  let d := na_dev a in
  let '(ret, extra, n, s) := pool_init_pages (ne_map env) (nv d) s in
  let a := mk_nvme_all (set_nv n d) (na_vfio a) extra (na_pci a) (na_numa a) in
  if ret <? 0 then Some (-1, None, a, s)
  else
    let '(ret, p) := if negb (nvme_use_iommu n)
                     then let '(ok, fd, pread) := ne_pagemap env in dma_buf_pool_read_pagemap ok fd pread (dma_pool n)
                     else (0, dma_pool n) in
    let a := na_set_dev (set_nv (set_dma_pool p n) d) a in
    if ret <? 0 then Some (-1, None, a, s)
    else
      '(ret, p, d) ← start_controller (ne_ioas_map env) (ne_calloc env) (na_dev a);
      Some (ret, p, na_set_dev d a, s).

(** Opening the device and starting it: what follows the options. *)
Definition nvme_open_and_start (info : ublksrv_ctrl_dev_info) (hps : Z) (pci : string) (force : bool) (c : C) (s : S)
    : option (Z * option ublk_params * nvme_all C * S) :=
  let a := zero_nvme c in
  let '(ret, s) := if force then nvme_enable_noiommu_mode s else (0, s) in
  if ret <? 0 then Some (-1, None, a, s)
  else
    let d := set_nv (nvme_fill info hps force (nv (na_dev a))) (na_dev a) in
    let a := mk_nvme_all d (mk_vfio (-1) (-1) (-1) (-1) 0 0 false force 0 0) 0 "" 0 in
    if 16 <=? Z.of_nat (String.length pci) then Some (-1, None, a, s)
    else
      let '(numa, s) := get_pci_numa_node pci s in
      let '(ret, v, s) := nvme_vfio_setup pci (na_vfio a) s in
      let a := mk_nvme_all d v 0 pci numa in
      if ret <? 0 then Some (-1, None, a, s)
      else
        let cap := nvme_readq NVME_REG_CAP d in
        let n := nvme_opened v cap (nv d) in
        let a := na_set_dev (set_nv n d) a in
        if nvme_validate_params n cap <? 0 then Some (-1, None, a, s)
        else nvme_start a s.

(** [c]: the controller behind the address; it and the system are given back. *)
Definition nvme_vfio_init_tgt (argc : Z) (opts : list nvme_opt) (junk : ublk_params) (c : C) (dv : dev) (s : S)
    : option (Z * dev * C * S) :=
  let info := dv_info dv in
  let hps := nvme_get_hugepage_size s in
  if hps =? 0 then Some (- EINVAL, dv, c, s)
  else if negb (nvme_check_info info hps) then Some (- EINVAL, dv, c, s)
  else if ublksrv_is_recovering argc (dv_ctrl dv) then
    '(ret, dv) ← nvme_vfio_recover_tgt junk dv; Some (ret, dv, c, s)
  else
    let '(pci, force) := foldl nvme_option (None, false) opts in
    match pci with
    | None => Some (- EINVAL, dv, c, s)
    | Some pci =>
        '(ret, p, a, s) ← nvme_open_and_start info hps pci force c s;
        if ret <? 0 then
          '(c, s) ← nvme_vfio_cleanup a false s;
          Some (-1, dv_set_data None dv, c, s)
        else
          p ← p;
          let dv := dv_set_data (Some a) dv in
          dv ← jwrite (ublk_json_write_dev_info mem info) dv;
          dv ← jwrite (ublk_json_write_target_base mem (mk_tgt_base "nvme_vfio" 0 (nv_dev_size (na_dev a)))) dv;
          dv ← jwrite (ublk_json_write_tgt_str mem "pci_addr" (Some (na_pci a))) dv;
          dv ← jwrite (ublk_json_write_params mem p) dv;
          '(ret, dv) ← nvme_vfio_setup_tgt junk dv;
          Some (ret, dv, nv_ctrl (na_dev a), s)
    end.

(** Nothing is done when there is no data. *)
Definition nvme_vfio_deinit_tgt (dv : dev) (s : S) : option (option C * S) :=
  match dv_data dv with
  | None => Some (None, s)
  | Some a => '(c, s) ← nvme_vfio_cleanup a true s; Some (Some c, s)
  end.

(** ** Queues *)

(** [for (int tag = 0; tag < depth; tag++)]: the private data of the tags; the
    page of a tag is 512 words. *)
Fixpoint init_privs (n : nat) (tag qid : Z) (d : nvme_vfio_tgt_data) : option (Z * list nvme_io_priv * nvme_vfio_tgt_data) :=
  match n with
  | O => Some (0, [], d)
  | Datatypes.S n =>
      let prp := nvme_pool_get_prp d qid tag in
      '(iova, m, d) ← nvme_map_dma (ne_ioas_map env) prp PAGE_SIZE no_mapping d;
      let priv := mk_io_priv no_mapping (mk_mapping (map_vaddr m) iova (map_size m)) prp (replicate 512 0) in
      if iova =? 0 then Some (-1, [priv], d)
      else '(ret, privs, d) ← init_privs n (tag + 1) qid d; Some (ret, priv :: privs, d)
  end.

(** The target's data comes from the device; [None]: it is NULL. *)
Definition nvme_vfio_init_queue (qid : Z) (dv : dev) : option (Z * list nvme_io_priv * nvme_vfio_tgt_data) :=
  a ← dv_data dv;
  let d := nv (na_dev a) in
  init_privs (Z.to_nat (nvme_queue_depth d)) 0 qid d.

Definition nvme_vfio_deinit_queue (privs : list nvme_io_priv) : list nvme_io_priv :=
  map (fun p => mk_io_priv (nvme_unmap_dma (data_mapping p)) (nvme_unmap_dma (prp_mapping p)) (prp_vaddr p) (prp_list p)) privs.
End init.
