(* ===== verification/NvmeInitSpec.v ===== *)
(** * The NVMe target: what set-up achieves

    The checks of the command line's values give what the pool and the
    controller need; starting the controller; what a failure and a recovery
    leave behind. *)

From S2P Require Import Prelude UblkCmd DmaBuf Nvme NvmeDma NvmeRing Params NvmeAdmin NvmeAdminSpec Json Ctrl QueueSetup DevSetup TgtInit NvmeVfio NvmeInit.

(** [x & (x - 1) = 0] of a positive number: a power of two. *)
Lemma power_of_two x : 0 < x -> Z.land x (x - 1) = 0 -> x = 2^(Z.log2 x).
Proof.
  intros Hx Hl. destruct (Z.log2_spec x Hx) as [Hlo Hhi]. set (k := Z.log2 x) in *.
  pose proof (Z.log2_nonneg x) as Hk. fold k in Hk.
  destruct (decide (x = 2^k)) as [|Hne]; [done|]. exfalso.
  assert (Hl1 : Z.log2 (x - 1) = k) by (apply Z.log2_unique; lia).
  assert (Z.testbit (Z.land x (x - 1)) k = true) as Ht.
  { rewrite Z.land_spec. unfold k at 1. rewrite Z.bit_log2 by lia. rewrite <- Hl1. by rewrite Z.bit_log2 by lia. }
  by rewrite Hl, Z.testbit_0_l in Ht.
Qed.

(** The accepted values are those the pool is made for. *)
Lemma check_info_params info hps force d :
  nvme_check_info info hps = true -> (exists k, 0 <= k < 40 /\ hps = 2^k) -> nvme_params_ok (nvme_fill info hps force d).
Proof.
  intros H Hk. unfold nvme_check_info in H. repeat (apply andb_true_iff in H as [H ?]). bool_prop.
  unfold nvme_params_ok. cbn. change (Z.shiftl 2 20) with (2 * 2^20) in *.
  split; [lia|]. split; [lia|]. split; [lia|]. split; [|done].
  set (x := max_io_buf_bytes info) in *. unfold PAGE_SIZE in *.
  rewrite (power_of_two x) by (done || lia).
  assert (12 <= Z.log2 x) by (change 12 with (Z.log2 4096); apply Z.log2_le_mono; lia).
  replace (2^Z.log2 x) with (2^(Z.log2 x - 12) * 4096); [by apply Z.mod_mul|].
  change 4096 with (2^12). rewrite <- Z.pow_add_r by lia. f_equal. lia.
Qed.

Section start.
Context {C : Type} `{!NvmeCtrl C, !NvmeCtrlLaws C} {S : Type} `{!HugePages S}.
Hypothesis prompt : forall c : C, (latency c < 5000)%nat /\ (ready_latency c < 5000)%nat.
Hypothesis accepts : forall h c, cmd_status (C := C) h c = 0.

(** C27: Starting an NVMe device.  With values the target accepts, an IOMMU, huge
    pages and a controller that executes admin commands in order and in time
    and accepts them (the MDTS exponent and the block size shift it
    reports are below 32, so that shifting by them is defined), start-up succeeds: the registers of the admin queue hold
    its size and the addresses of its rings; the controller has executed an
    IDENTIFY of itself and one of namespace 1, then for every queue first
    CREATE_CQ and then CREATE_SQ with the addresses and the size of its rings;
    every I/O queue is empty, its rings lie behind each other in the pool and
    fill the queue region exactly, and the size of the device is that of the
    namespace. *)
Theorem nvme_start_runs info hps v cap (d0 : nvme_dev C) env pm vf pci numa (s s1 : S) base extra :
  let n := nvme_opened v cap (nvme_fill info hps false (nv d0)) in
  let nr := nr_hw_queues info in
  let qsize := queue_depth info + 1 in
  let B := queue_bytes qsize in
  let iova := 2^32 in
  let total := round_up (identify_buf_off (nvme_pool_layout nr (queue_depth info) (max_io_buf_bytes info)) + PAGE_SIZE) hps in
  let idc := SqeAdmin (AdmIdentify (mk_identify 0 (iova + 2 * PAGE_SIZE) NVME_ID_CNS_CTRL)) in
  let idn := SqeAdmin (AdmIdentify (mk_identify 1 (iova + 3 * PAGE_SIZE) NVME_ID_CNS_NS)) in
  let cpage := cmd_page (C := C) [] idc (zeros 4096) in
  let npage := cmd_page (C := C) [idc] idn (zeros 4096) in
  let shift := ns_lbaf_ds npage (Z.land (ns_flbas npage) 0xf) in
  env = mk_nvme_env (fun _ _ _ => true) (fun _ => inl base) pm true ->
  nvme_check_info info hps = true -> (exists k, 0 <= k < 40 /\ hps = 2^k) -> v_use_noiommu v = false ->
  nvme_ensure_hugepages total hps s = (0, extra, s1) ->
  0 <= ctrl_mdts cpage < 32 -> 0 <= shift < 32 ->
  exists p d, nvme_start env (mk_nvme_all (set_nv n d0) vf 0 pci numa) s = Some (0, Some p, mk_nvme_all d vf extra pci numa, s1) /\
    aq_regs d = (0x3f003f, iova, iova + PAGE_SIZE) /\
    executed (nv_ctrl d) = [idc; idn] ++
      concat (map (fun j => queue_cmds qsize (iova + 4 * PAGE_SIZE + j * B) (j + 1)) (seqZ 0 nr)) /\
    queue_alloc_off (nv d) = queue_region_off (layout (nv d)) /\
    (forall j, (j < Z.to_nat nr)%nat -> exists q, io_queues (nv d) !! j = Some q /\ fresh_nvmeq qsize q /\
       placed q base (2 * PAGE_SIZE + Z.of_nat j * B) (iova + 4 * PAGE_SIZE + Z.of_nat j * B) qsize) /\
    nsid (nv d) = 1 /\ lba_shift (nv d) = shift /\
    dev_sectors (p_basic p) = Z.shiftr (Z.shiftl (ns_nsze npage) shift mod 2^64) 9.
Proof.
  intros n nr qsize B iova total idc idn cpage npage shift -> Hinfo Hk Hv Hpages Hmdts Hshift.
  pose proof (check_info_params info hps false (nv d0) Hinfo Hk) as Hok.
  unfold nvme_start, pool_init_pages. cbn [na_dev nv set_nv ne_map ne_ioas_map ne_calloc ne_pagemap].
  change (nr_io_queues n) with nr. change (nvme_queue_depth n) with (queue_depth info).
  change (nvme_max_io_buf n) with (max_io_buf_bytes info). change (hugepage_size n) with hps. fold total. rewrite Hpages.
  unfold nvme_dmabuf_pool_init. change (nr_io_queues n) with nr. change (nvme_queue_depth n) with (queue_depth info).
  change (nvme_max_io_buf n) with (max_io_buf_bytes info). change (hugepage_size n) with hps. fold total.
  cbn [Z.ltb Z.compare dma_buf_pool_init Z.leb andb].
  set (n2 := set_queue_alloc_off 0 _).
  assert (Hi : nvme_use_iommu n2 = true) by (unfold nvme_use_iommu; cbn; by rewrite Hv).
  rewrite Hi. cbn [negb Z.ltb Z.compare]. set (d2 := na_dev _).
  destruct (nvme_bring_up prompt accepts d2) as (p&d&Hd&Hrest); try done.
  rewrite Hd. cbn [mbind option_bind]. exists p, d. split; [done|]. exact Hrest.
Qed.
End start.

Section failures.
Context `{!JsonText} {C : Type} `{!NvmeCtrl C} {S : Type} `{!VfioSys S, !HugePages S}.
Variable mem : Z -> bool.

(** A recovered NVMe device has no target data.  Recovery reads the parameters
    back and reports success, but neither opens the device nor allocates the
    data, and setting up the first queue follows the NULL pointer. *)
Theorem nvme_recovery_has_no_data env argc opts junk (c : C) dv (s : S) p :
  nvme_get_hugepage_size s <> 0 -> nvme_check_info (dv_info dv) (nvme_get_hugepage_size s) = true ->
  ublksrv_is_recovering argc (dv_ctrl dv) = true -> dv_data dv = None ->
  ublk_json_read_params junk (dv_jbuf dv) = Some (0, Some p) ->
  exists dv', nvme_vfio_init_tgt mem env argc opts junk c dv s = Some (0, dv', c, s) /\
    dev_size (dv_tgt dv') = u64 (Z.shiftl (dev_sectors (p_basic p)) 9) /\
    forall qid, nvme_vfio_init_queue env qid dv' = None.
Proof.
  intros Hh Hi Hr Hd Hp. unfold nvme_vfio_init_tgt. rewrite (proj2 (Z.eqb_neq _ _) Hh), Hi, Hr. cbn [negb].
  unfold nvme_vfio_recover_tgt, nvme_vfio_setup_tgt. rewrite Hp. cbn [mbind option_bind Z.eqb negb].
  eexists. split; [done|]. split; [done|]. intros qid. unfold nvme_vfio_init_queue. cbn. by rewrite Hd.
Qed.

(** Writing the number of huge pages succeeds; giving the device back does not
    change it. *)
Hypothesis write_total : forall n (s : S), fst (hp_write n s) = 0 /\ hp_total (snd (hp_write n s)) = inl n.
Hypothesis close_total : forall v (s : S), hp_total (close_vfio v s) = hp_total s.

Lemma adjust_total delta (s : S) T : hp_total s = inl T -> delta <> 0 -> 0 <= T + delta ->
  hp_total (snd (nvme_adjust_hugepages delta s)) = inl (T + delta).
Proof.
  intros HT Hd Hn. unfold nvme_adjust_hugepages. rewrite (proj2 (Z.eqb_neq _ _) Hd), HT.
  rewrite (proj2 (Z.ltb_ge _ _) Hn). destruct (write_total (T + delta) s) as [_ Hw]. by destruct (hp_write (T + delta) s).
Qed.

(** Huge pages that were added are given back twice when the pool cannot be
    mapped: once where that fails and once more by the clean-up, since
    [extra_hugepages] keeps its value.  The system ends with fewer huge pages
    than before. *)
Theorem hugepages_released_twice env (a : nvme_all C) (s s1 : S) T extra errno :
  let n := nv (na_dev a) in
  let l := nvme_pool_layout (nr_io_queues n) (nvme_queue_depth n) (nvme_max_io_buf n) in
  let total := round_up (identify_buf_off l + PAGE_SIZE) (hugepage_size n) in
  io_queues n = [] -> 0 < errno -> ne_map env total = inr errno -> 0 < extra <= T ->
  nvme_ensure_hugepages total (hugepage_size n) s = (0, extra, s1) -> hp_total s1 = inl (T + extra) ->
  exists a' s2 c s3, nvme_start env a s = Some (-1, None, a', s2) /\ hp_total s2 = inl T /\
    nvme_vfio_cleanup a' false s2 = Some (c, s3) /\ hp_total s3 = inl (T - extra).
Proof.
  intros n l total Hio He Hmap Hx Hens HT. unfold nvme_start, pool_init_pages. fold n l total. rewrite Hens.
  unfold nvme_dmabuf_pool_init. fold n l total. rewrite Hmap. cbn [Z.ltb Z.compare dma_buf_pool_init Z.leb andb].
  assert (Hneg : (- errno <? 0) = true) by (apply Z.ltb_lt; lia).
  rewrite Hneg. cbn [Z.leb Z.compare andb]. rewrite !Hneg.
  eexists _, _, _, _. split; [reflexivity|].
  assert (H2 : hp_total (snd (nvme_adjust_hugepages (- extra) s1)) = inl T).
  { rewrite (adjust_total _ _ (T + extra)) by (done || lia). f_equal. lia. }
  split; [exact H2|]. unfold nvme_vfio_cleanup. cbn [na_dev nv set_nv na_vfio na_extra io_queues set_pool_layout].
  rewrite Hio. cbn [mbind option_bind].
  split; [reflexivity|]. rewrite (adjust_total _ _ T); [by rewrite Z.add_opp_r|by rewrite close_total|lia|lia].
Qed.
End failures.
