(* ===== verification/NvmeInitExamples.v ===== *)
(** * A small NVMe controller and system

    A controller that executes the next admin command after at most [k] idle
    polls, and a system with a table of descriptors and a number of huge pages:
    the theorems on the set-up of the NVMe target applied to them. *)

From S2P Require Import Prelude Bytes UblkCmd DmaBuf Nvme NvmeDma NvmeRing Params NvmeAdmin NvmeAdminSpec Json JsonExamples Ctrl QueueSetup DevSetup TgtInit NvmeVfio NvmeInit NvmeInitSpec.

(** ** The controller *)

Record sim (k : nat) := mk_sim {
  sm_en : bool;
  sm_done : list nvme_sqe;
  sm_lat : nat;
  sm_regs : Z * Z * Z    (* AQA, ASQ, ACQ *)
}.
#[global] Arguments mk_sim {k}.
#[global] Arguments sm_en {k}.
#[global] Arguments sm_done {k}.
#[global] Arguments sm_lat {k}.
#[global] Arguments sm_regs {k}.

(** An MDTS of 5; a namespace of 4096 blocks of 512 bytes. *)
Definition ctrl_page : list Z := <[77%nat := 5]> (zeros 4096).
Definition ns_page : list Z := <[130%nat := 9]> (<[1%nat := 16]> (zeros 4096)).

Definition sim_page (c : nvme_sqe) (page : list Z) : list Z :=
  match c with
  | SqeAdmin (AdmIdentify i) => if id_cns i =? NVME_ID_CNS_CTRL then ctrl_page else ns_page
  | _ => page
  end.

Section sim.
Context {k : nat}.

Definition sim_read (r : Z) (c : sim k) : Z :=
  let '(aqa, asq, acq) := sm_regs c in
  if r =? NVME_REG_AQA then aqa else if r =? NVME_REG_ASQ then asq else if r =? NVME_REG_ACQ then acq
  else if r =? NVME_REG_CSTS then (if sm_en c then NVME_CSTS_RDY else 0) else 0.

Definition sim_write (r v : Z) (c : sim k) : sim k :=
  let '(aqa, asq, acq) := sm_regs c in
  if r =? NVME_REG_CC
  then mk_sim (has v NVME_CC_ENABLE) (if negb (sm_en c) && has v NVME_CC_ENABLE then [] else sm_done c) (sm_lat c) (sm_regs c)
  else if r =? NVME_REG_AQA then mk_sim (sm_en c) (sm_done c) (sm_lat c) (v, asq, acq)
  else if r =? NVME_REG_ASQ then mk_sim (sm_en c) (sm_done c) (sm_lat c) (aqa, v, acq)
  else if r =? NVME_REG_ACQ then mk_sim (sm_en c) (sm_done c) (sm_lat c) (aqa, asq, v)
  else c.

Definition sim_latency (c : sim k) : nat := Nat.min (sm_lat c) k.

Definition sim_run (q : nvme_queue) (page : list Z) (c : sim k) : list nvme_completion * list Z * sim k :=
  let sz := nq_qsize q in
  let F := Z.of_nat (length (sm_done c)) in
  if sm_en c && negb (F mod sz =? sq_db q) then
    match sim_latency c with
    | S l => (nq_cq q, page, mk_sim (sm_en c) (sm_done c) l (sm_regs c))
    | O =>
        match nq_sq q !! Z.to_nat (F mod sz) with
        | Some cmd => (<[Z.to_nat (F mod sz) := mk_completion 0 (2 * 0 + phase_of sz F)]> (nq_cq q), sim_page cmd page,
                       mk_sim (sm_en c) (sm_done c ++ [cmd]) k (sm_regs c))
        | None => (nq_cq q, page, c)
        end
    end
  else (nq_cq q, page, c).
End sim.

#[export] Instance sim_ctrl k : NvmeCtrl (sim k) := {| ctrl_read := sim_read; ctrl_write := sim_write; ctrl_run := sim_run |}.

Lemma sim_run_law k q page (c : sim k) :
  let sz := nq_qsize q in
  let F := Z.of_nat (length (sm_done c)) in
  let '(cq, page', c') := sim_run q page c in
  sm_en c' = sm_en c /\
  (has (u32 (sim_read NVME_REG_CSTS c')) NVME_CSTS_RDY = sm_en c' \/ (0 < 0)%nat) /\
  (cq = nq_cq q /\ page' = page /\ sm_done c' = sm_done c /\
     (sm_en c = true -> F mod sz <> sq_db q -> is_Some (nq_sq q !! Z.to_nat (F mod sz)) -> (sim_latency c' < sim_latency c)%nat) \/
   exists cmd, sm_en c = true /\ F mod sz <> sq_db q /\ nq_sq q !! Z.to_nat (F mod sz) = Some cmd /\
     sm_done c' = sm_done c ++ [cmd] /\ page' = sim_page cmd page /\
     cq = <[Z.to_nat (F mod sz) := mk_completion 0 (2 * 0 + phase_of sz F)]> (nq_cq q)).
Proof.
  intros sz F. assert (Hr : forall c : sim k, has (u32 (sim_read NVME_REG_CSTS c)) NVME_CSTS_RDY = sm_en c).
  { intros [[] ? ? [[? ?] ?]]; reflexivity. }
  unfold sim_run. fold sz F. destruct (sm_en c) eqn:Ee; cbn [andb].
  2:{ rewrite Ee. split; [done|]. split; [left; rewrite <- Ee; apply Hr|]. left. done. }
  destruct (Z.eqb_spec (F mod sz) (sq_db q)) as [Ed|Ed]; cbn [negb].
  { rewrite Ee. split; [done|]. split; [left; rewrite <- Ee; apply Hr|]. left. done. }
  destruct (sim_latency c) as [|l] eqn:El.
  - destruct (nq_sq q !! Z.to_nat (F mod sz)) as [cmd|] eqn:Es.
    + split; [done|]. split; [left; apply (Hr (mk_sim true (sm_done c ++ [cmd]) k (sm_regs c)))|]. right. exists cmd. done.
    + rewrite Ee. split; [done|]. split; [left; rewrite <- Ee; apply Hr|]. left. split; [done|]. split; [done|]. split; [done|].
      intros _ _ [? [=]].
  - split; [done|]. split; [left; apply (Hr (mk_sim true (sm_done c) l (sm_regs c)))|]. left. split; [done|]. split; [done|].
    split; [done|]. intros _ _ _. unfold sim_latency in *. cbn. lia.
Qed.

#[export] Program Instance sim_laws k : NvmeCtrlLaws (sim k) := {|
  executed := sm_done;
  enabled := sm_en;
  latency := sim_latency;
  ready_latency := fun _ => O;
  cmd_status := fun _ _ => 0;
  cmd_page := fun _ => sim_page
|}.
Next Obligation. done. Qed.
Next Obligation. intros k q page c. exact (sim_run_law k q page c). Qed.
Next Obligation. intros k v [en dn lat [[? ?] ?]]. done. Qed.
Next Obligation.
  intros k r v [en dn lat [[? ?] ?]] Hr. cbn. unfold sim_write. cbn [sm_regs]. rewrite (proj2 (Z.eqb_neq _ _) Hr).
  by repeat case_bool.
Qed.
Next Obligation.
  intros k r r' v [en dn lat [[aqa asq] acq]] Hr. cbn. unfold sim_read, sim_write. cbn [sm_regs].
  rewrite !elem_of_cons, elem_of_nil in Hr.
  destruct Hr as [-> |[-> |[-> |[]]]]; repeat case_bool; bool_prop; subst; try done; cbn in *; done.
Qed.
Next Obligation.
  intros k r q page c Hr. cbn. unfold sim_run. case_bool; [|done]. destruct (sim_latency c); [destruct (_ !! _)|];
    destruct c as [en dn lat [[aqa asq] acq]]; cbn; unfold sim_read; cbn [sm_regs];
    rewrite !elem_of_cons, elem_of_nil in Hr; destruct Hr as [-> |[-> |[-> |[]]]]; done.
Qed.

Lemma sim_prompt (c : sim 1) : (latency c < 5000)%nat /\ (ready_latency c < 5000)%nat.
Proof. split; [|cbn; lia]. cbn. unfold sim_latency. lia. Qed.

(** ** The system *)

(** The open descriptors, the next one, whether the PCI command register can be
    read, and the huge pages: in all, and how many of them are in use. *)
Record exsys := mk_exsys { xs_fds : list Z; xs_next : Z; xs_pci : bool; xs_pages : Z; xs_used : Z }.

Fixpoint remove_one (fd : Z) (l : list Z) : list Z :=
  match l with [] => [] | x :: l => if x =? fd then l else x :: remove_one fd l end.

Lemma remove_one_perm fd l : fd ∈ l -> fd :: remove_one fd l ≡ₚ l.
Proof.
  induction l as [|x l IH]; intros Hin; [by apply elem_of_nil in Hin|]. cbn. destruct (Z.eqb_spec x fd) as [->|Hne]; [done|].
  apply elem_of_cons in Hin as [->|Hin]; [done|]. by rewrite Permutation_swap, IH.
Qed.

Definition new_fd (s : exsys) : Z * exsys :=
  (Z.max 0 (xs_next s), mk_exsys (Z.max 0 (xs_next s) :: xs_fds s) (Z.max 0 (xs_next s) + 1) (xs_pci s) (xs_pages s) (xs_used s)).

#[export] Instance ex_vfio : VfioSys exsys := {|
  sys_open := fun _ s => new_fd s;
  sys_close := fun fd s => mk_exsys (remove_one fd (xs_fds s)) (xs_next s) (xs_pci s) (xs_pages s) (xs_used s);
  sys_read := fun _ s => (None, s);
  sys_write := fun _ w s => (Z.of_nat (String.length w), s);
  sys_readlink := fun p s => (if str_contains "iommu_group" p then Some "../iommu_groups/7" else None, s);
  sys_exists := fun _ _ => true;
  sys_readdir := fun _ _ => Some ["."; ".."; "vfio0"];
  sys_ioctl := fun _ r s => match r with VFIO_GROUP_GET_DEVICE_FD _ => let '(fd, s) := new_fd s in (fd, 0, s) | _ => (0, 1, s) end;
  sys_region := fun _ _ _ => Some (8192, 0);
  sys_pread16 := fun _ _ s => if xs_pci s then Some 4 else None;
  sys_pwrite16 := fun _ _ _ s => (true, s);
  sys_mmap := fun _ _ s => (Some 0x50000, s);
  sys_munmap := fun _ _ s => s
|}.

#[export] Program Instance ex_fds : VfioFds exsys := {| fds := xs_fds |}.
Next Obligation. intros p s. cbn. rewrite (proj2 (Z.ltb_ge _ _)) by lia. done. Qed.
Next Obligation. intros fd s H. by apply remove_one_perm. Qed.
Next Obligation. done. Qed.
Next Obligation. done. Qed.
Next Obligation. done. Qed.
Next Obligation. done. Qed.
Next Obligation. done. Qed.
Next Obligation. done. Qed.
Next Obligation. intros fd r s. destruct r; cbn; try done. rewrite (proj2 (Z.ltb_ge _ _)) by lia. done. Qed.

#[export] Instance ex_pages : HugePages exsys := {|
  hp_size_kb := fun _ => 2048;
  hp_free := fun s => xs_pages s - xs_used s;
  hp_total := fun s => inl (xs_pages s);
  hp_write := fun n s => (0, mk_exsys (xs_fds s) (xs_next s) (xs_pci s) n (xs_used s))
|}.

(** ** The theorems *)

Definition ex_vfio0 : vfio_data := mk_vfio (-1) (-1) (-1) (-1) 0 0 false false 0 0.

(** The device is opened through iommufd, then bus mastering fails. *)
Lemma vfio_setup_no_leak_witness :
  let '(r, v, s) := nvme_vfio_setup "0000:01:00.0" ex_vfio0 (mk_exsys [0; 1; 2] 3 false 8 2) in
  r = -1 /\ fds (close_vfio v s) ≡ₚ [0; 1; 2].
Proof.
  pose proof (vfio_setup_no_leak "0000:01:00.0" ex_vfio0 (mk_exsys [0; 1; 2] 3 false 8 2) eq_refl eq_refl eq_refl eq_refl) as H.
  destruct (nvme_vfio_setup "0000:01:00.0" ex_vfio0 (mk_exsys [0; 1; 2] 3 false 8 2)) as [[r v] s] eqn:E.
  split; [|exact (proj2 H)]. vm_compute in E. injection E as <- _ _. reflexivity.
Defined.

(** One queue of two tags with buffers of 8 kB. *)
Definition exw_info : ublksrv_ctrl_dev_info := mk_dev_info 1 2 0 0 8192 0 0 0 0 0 0 0 0 0.
Definition exw_hps : Z := 2^21.
Definition exw_env : nvme_env := mk_nvme_env (fun _ _ _ => true) (fun _ => inl 0x40000000) (true, inl 0, fun _ _ => inl []) true.
Definition exw_vfio : vfio_data := mk_vfio (-1) (-1) 6 5 1 7 false false 0x50000 8192.
Definition exw_sim : sim 1 := mk_sim false [] O (0, 0, 0).
Definition exw_dev : nvme_dev (sim 1) := mk_nvme_dev zero_nvme_data zero_nvmeq [] 0 0 0 exw_sim.
Definition exw_sys : exsys := mk_exsys [0; 1; 2; 5; 6] 7 true 8 8.
Definition exw_data : nvme_vfio_tgt_data := nvme_opened exw_vfio 0x2000003ff (nvme_fill exw_info exw_hps false zero_nvme_data).

Lemma nvme_start_runs_witness :
  exists p d, nvme_start exw_env (mk_nvme_all (set_nv exw_data exw_dev) exw_vfio 0 "0000:01:00.0" 0) exw_sys
      = Some (0, Some p, mk_nvme_all d exw_vfio 1 "0000:01:00.0" 0, mk_exsys [0; 1; 2; 5; 6] 7 true 9 8) /\
    executed (nv_ctrl d) = [SqeAdmin (AdmIdentify (mk_identify 0 0x100002000 1)); SqeAdmin (AdmIdentify (mk_identify 1 0x100003000 0));
      SqeAdmin (AdmCreateCq (mk_create_cq 0x100005000 1 2 1)); SqeAdmin (AdmCreateSq (mk_create_sq 0x100004000 1 2 1 1))] /\
    dev_sectors (p_basic p) = 4096.
Proof.
  destruct (nvme_start_runs sim_prompt (fun _ _ => eq_refl) exw_info exw_hps exw_vfio 0x2000003ff exw_dev exw_env
    (true, inl 0, fun _ _ => inl []) exw_vfio "0000:01:00.0" 0 exw_sys (mk_exsys [0; 1; 2; 5; 6] 7 true 9 8) 0x40000000 1)
    as (p&d&Hd&_&Hex&_&_&_&_&Hsec).
  - reflexivity.
  - reflexivity.
  - exists 21. split; [lia|reflexivity].
  - reflexivity.
  - vm_compute. reflexivity.
  - vm_compute. split; [discriminate|reflexivity].
  - vm_compute. split; [discriminate|reflexivity].
  - exists p, d. split; [exact Hd|]. split; [rewrite Hex; vm_compute; reflexivity|]. rewrite Hsec. vm_compute. reflexivity.
Defined.

(** A controller that takes six seconds for a command. *)
Definition exw_slow : sim 6000 := mk_sim true [] 6000 (0, 0, 0).
Definition exw_adminq : nvme_queue :=
  mk_nvme_queue 0 64 (nq_mem zero_nvmeq) (replicate 64 zero_sqe) (replicate 64 zero_cqe) 0 0 0 1 0 0.
Definition exw_busy : nvme_dev (sim 6000) := set_admin exw_adminq (mk_nvme_dev exw_data zero_nvmeq [] 0 0 0 exw_slow).

(** The first command is reported as timed out, the second is told the answer of the first. *)
Example slow_controller :
  (match nvme_submit_admin_cmd (AdmIdentify (mk_identify 0 0x1000 1)) exw_busy with
   | Some (r1, d1) => option_map (fun rd => (r1, rd.1)) (nvme_submit_admin_cmd (AdmDelete (mk_delete_queue 0 1)) d1)
   | None => None
   end) = Some (- ETIMEDOUT, 0).
Proof. vm_compute. reflexivity. Qed.
