(* ===== verification/EventTgt.v ===== *)
(** * Targets that serve requests through a client library

    The nfs and iscsi targets hand each request to an asynchronous client
    library together with the address of the tag's [ios] entry, and wait for
    the library's socket with epoll.  When the socket is ready the target lets
    the library work; the library calls back once for every request that is
    done, and the callback completes the tag.

    The library is an interface: [EventLib] is what the targets use of a
    context, [lib_pending] are the private pointers of the requests it has
    accepted and not called back for. *)

From S2P Require Import Prelude Bytes UblkCmd Uring QueueTypes Batch Queue QueueSpec.

(** One callback: the private pointer, the status, and the data the library
    passes along. *)
Record lib_cb := mk_lib_cb { lcb_private : Z; lcb_status : Z; lcb_data : Z }.

Class EventLib (N : Type) := {
  (** the result, the callbacks made in order, and the context *)
  lib_service : Z -> N -> Z * list lib_cb * N;
  lib_which_events : N -> Z;
  lib_get_fd : N -> Z;
  lib_pending : N -> list Z
}.

(** Servicing calls back for requests that are pending, once each; a status is
    an int. *)
Class EventLibLaws (N : Type) `{!EventLib N} : Prop := {
  service_pending : forall revents n ret cbs n', lib_service revents n = (ret, cbs, n') ->
    lib_pending n ≡ₚ map lcb_private cbs ++ lib_pending n';
  service_status : forall revents n ret cbs n', lib_service revents n = (ret, cbs, n') ->
    Forall (fun c => is_s32 (lcb_status c)) cbs
}.

Section event.
Context {R : Type} `{!Uring R} {T : Type}.
Notation Q := (queue R T).

(** [if (ret) ublksrv_complete_io(q, tag, ret); return ret;] *)
Definition finish_async (ret tag : Z) (q : Q) : option (Z * Q) :=
  if negb (ret =? 0) then '(_, q) ← ublksrv_complete_io tag ret q; Some (ret, q) else Some (ret, q).

(** The callbacks the library makes while it is serviced. *)
Fixpoint run_cbs (cb : lib_cb -> Q -> option Q) (cbs : list lib_cb) (q : Q) : option Q :=
  match cbs with
  | [] => Some q
  | c :: cbs => q ← cb c q; run_cbs cb cbs q
  end.
End event.

(** [(iod->nr_sectors + iod->start_sector) * 512 > capacity]: [nr_sectors] is 32
    bits wide, [start_sector] 64. *)
Definition past_end (iod : ublksrv_io_desc) (capacity : Z) : bool :=
  capacity <? u64 (u64 (nr_sectors iod + start_sector iod) * 512).

(** A block request whose last byte has a 64-bit address and whose length is
    below 4 GB. *)
Definition block_request (iod : ublksrv_io_desc) : Prop :=
  0 <= start_sector iod /\ 0 <= nr_sectors iod /\ nr_sectors iod * 512 < 2^32 /\
  (start_sector iod + nr_sectors iod) * 512 < 2^64.

Lemma past_end_spec iod cap : block_request iod ->
  past_end iod cap = (cap <? start_sector iod * 512 + nr_sectors iod * 512).
Proof.
  intros (H1&H2&H3&H4). unfold past_end. rewrite (u64_id (nr_sectors iod + start_sector iod)) by (unfold is_u64; lia).
  rewrite u64_id by (unfold is_u64; lia). f_equal. lia.
Qed.

(** ** Requests in flight

    The tags a library works for are tags the target holds, one request each. *)
Definition in_library (pending : list Z) (cookie : nat -> Z) (tags : list tag_state) : Prop :=
  exists ids, pending ≡ₚ map cookie ids /\ NoDup ids /\ Forall (fun i => tags !! i = Some TTarget) ids.

Section in_library.
Variable cookie : nat -> Z.
Implicit Types (pending : list Z) (tags : list tag_state).

#[global] Instance in_library_proper : Proper ((≡ₚ) ==> (=) ==> (=) ==> iff) in_library.
Proof.
  intros p p' Hp ? ? -> ? tags ->. unfold in_library.
  by split; intros (ids&H&?); exists ids; (split; [|done]); [rewrite <- Hp|rewrite Hp].
Qed.

Lemma in_library_mono pending tags tags' :
  (forall i, tags !! i = Some TTarget -> tags' !! i = Some TTarget) ->
  in_library pending cookie tags -> in_library pending cookie tags'.
Proof. intros Hm (ids&?&?&Hf). exists ids. split; [done|]. split; [done|]. eapply Forall_impl; [done|]. auto. Qed.

(** A request for a tag that had none. *)
Lemma in_library_submit pending tags i op :
  tags !! i = Some TTarget -> in_library pending cookie (<[i := TKernel op]> tags) ->
  in_library (cookie i :: pending) cookie tags.
Proof.
  intros Hi (ids&Hp&Hnd&Hf). pose proof (lookup_lt_Some _ _ _ Hi).
  assert (Hne : i ∉ ids).
  { intros Hin. rewrite Forall_forall in Hf. specialize (Hf _ Hin). by rewrite list_lookup_insert_eq in Hf. }
  exists (i :: ids). split; [by rewrite Hp|]. split; [by apply NoDup_cons|]. apply Forall_cons. split; [done|].
  rewrite Forall_forall in Hf |- *. intros j Hj. specialize (Hf j Hj).
  by rewrite list_lookup_insert_ne in Hf by (intros ->; done).
Qed.

Lemma in_library_other pending tags tags' i op :
  in_library pending cookie (<[i := TKernel op]> tags) -> (i < length tags)%nat ->
  (forall j, j <> i -> tags !! j = Some TTarget -> tags' !! j = Some TTarget) -> in_library pending cookie tags'.
Proof.
  intros Hin Hi Hm. eapply in_library_mono; [|exact Hin]. intros j. destruct (decide (j = i)) as [->|].
  - by rewrite list_lookup_insert_eq.
  - rewrite list_lookup_insert_ne by done. auto.
Qed.

Lemma in_library_answer c pending tags :
  in_library (c :: pending) cookie tags ->
  exists i, c = cookie i /\ tags !! i = Some TTarget /\
    forall tags', (forall j, j <> i -> tags !! j = Some TTarget -> tags' !! j = Some TTarget) ->
      in_library pending cookie tags'.
Proof.
  intros (ids&Hp&Hnd&Hf). assert (Hin : c ∈ map cookie ids) by (rewrite <- Hp; left).
  apply list_elem_of_fmap in Hin as (i&->&Hi). apply elem_of_Permutation in Hi as (ids'&His).
  rewrite His in Hnd, Hf, Hp. apply NoDup_cons in Hnd as [Hni Hnd]. apply Forall_cons in Hf as [Hti Hf].
  cbn in Hp. apply Permutation_cons_inv in Hp. exists i. split; [done|]. split; [done|]. intros tags' Hm.
  exists ids'. split; [done|]. split; [done|]. rewrite Forall_forall in Hf |- *. intros j Hj. apply Hm; [|auto].
  intros ->. done.
Qed.

Lemma in_library_answers cs pending tags :
  in_library (cs ++ pending) cookie tags ->
  exists ids, cs = map cookie ids /\ NoDup ids /\ Forall (fun i => tags !! i = Some TTarget) ids.
Proof.
  intros Hin. assert (Hgen : forall dead, Forall (fun i => tags !! i = Some TTarget) dead -> forall l,
    in_library (l ++ pending) cookie (foldr (fun i => <[i := TStopped]>) tags dead) ->
    exists ids, l = map cookie ids /\ NoDup ids /\ (forall i, i ∈ ids -> i ∉ dead) /\ Forall (fun i => tags !! i = Some TTarget) ids).
  { intros dead Hd l. revert dead Hd. induction l as [|c l IH]; intros dead Hd Hl; [by exists []; repeat split; [constructor|set_solver|]|].
    cbn [app] in Hl. apply in_library_answer in Hl as (i&->&Hi&Hrest).
    assert (Hlook : forall j, foldr (fun i => <[i := TStopped]>) tags dead !! j = Some TTarget -> j ∉ dead /\ tags !! j = Some TTarget).
    { clear -Hd. induction dead as [|d dead IHd]; intros j; cbn; [set_solver|]. apply Forall_cons in Hd as [_ Hd].
      destruct (decide (j = d)) as [->|].
      - intros H. apply list_lookup_insert_Some in H as [(_&[=]&_)|(?&_)]. done.
      - rewrite list_lookup_insert_ne by done. intros H. apply (IHd Hd) in H as [? ?]. split; [set_solver|done]. }
    destruct (Hlook i Hi) as [Hid Hti].
    destruct (IH (i :: dead)) as (ids&->&Hnd&Hdead&Hf); [by constructor| |].
    - apply Hrest. intros j Hne Hj. cbn. by rewrite list_lookup_insert_ne.
    - exists (i :: ids). split; [done|]. split; [constructor; [intros Hin'; apply (Hdead _ Hin'); set_solver|done]|].
      split; [set_solver|by constructor]. }
  destruct (Hgen [] ltac:(constructor) cs Hin) as (ids&?&?&_&?). by exists ids.
Qed.
End in_library.

(** ** Safety of the callbacks *)
Section event_laws.
Context {R : Type} `{!Uring R, !UringLaws R} {T : Type}.
Notation Q := (queue R T).
Implicit Types q : Q.

(** Completing a held tag: the other tags stay where they are. *)
Lemma complete_keeps q A i res :
  qsim q A -> a_tags A !! i = Some TTarget -> is_s32 res ->
  exists ret q' A', ublksrv_complete_io (Z.of_nat i) res q = Some (ret, q') /\ completes A A' /\ qsim q' A' /\
    view q' = view q /\ epoll_callbacks q' = epoll_callbacks q /\ length (a_tags A') = length (a_tags A) /\
    forall j, j <> i -> a_tags A !! j = Some TTarget -> a_tags A' !! j = Some TTarget.
Proof.
  intros Hs Ht Hr. destruct (complete_io_sim q A i res Hs Ht Hr) as (ret&q'&Hq'&(Hv&He&_)&[[_ Hs']|(_&Hs'&_)]).
  - exists ret, q'. eexists. split; [done|]. split; [apply rtc_once; eexists _, res; by constructor|].
    split; [done|]. split; [done|]. split; [done|]. cbn. split; [by rewrite length_insert|].
    intros j Hne Hj. by rewrite list_lookup_insert_ne.
  - exists ret, q', A. split; [done|]. split; [apply rtc_refl|]. done.
Qed.

(** A request that is handed over sends nothing; an error is committed. *)
Lemma finish_async_log `{!UringProgress R} q A i t ret :
  qsim q A -> a_tags A !! i = Some TTarget -> is_s32 ret ->
  exists q', finish_async ret (Z.of_nat i) (set_private_data t q) = Some (ret, q') /\ private_data q' = t /\
    io_commands (ring_log (ring q')) = io_commands (ring_log (ring q)) ++
      (if ret =? 0 then [] else [command i UBLK_IO_COMMIT_AND_FETCH_REQ (Some ret)]).
Proof.
  intros Hs Ht Hr. unfold finish_async. destruct (ret =? 0); cbn [negb]; [eexists; rewrite app_nil_r; done|].
  destruct (complete_io_progress (set_private_data t q) A i ret) as (q'&->&(Hv&_)&Hs'); [by apply qsim_private|done..|].
  cbn. exists q'. split; [done|]. split; [by apply (f_equal v_data) in Hv|].
  by rewrite (qs_log _ _ Hs'), (qs_log _ _ Hs).
Qed.

Context {N : Type} `{!EventLib N, !EventLibLaws N}.
Variable ctx : T -> N.
Variable cookie : T -> nat -> Z.
(** What else the target's data has to satisfy for a queue of that depth. *)
Variable ok : T -> nat -> Prop.

Definition lib_inv (v : tgt_view T) (tags : list tag_state) : Prop :=
  ok (v_data v) (length tags) /\ in_library (lib_pending (ctx (v_data v))) (cookie (v_data v)) tags.

(** Data with the same requests in flight. *)
Definition same_requests (t t' : T) : Prop :=
  (forall n, ok t n -> ok t' n) /\ cookie t' = cookie t.

Lemma lib_inv_held v l l' : same_held l l' -> lib_inv v l -> lib_inv v l'.
Proof.
  intros [Hlen Hh] [Hok Hin]. split; [by rewrite <- Hlen|]. eapply in_library_mono; [|done]. intros i. apply Hh.
Qed.

(** A handler that submits the request of its tag, or completes the tag with
    an error and leaves the library alone. *)
Lemma finish_async_safe q A i op t ret :
  qsim q A -> a_tags A !! i = Some TTarget -> lib_inv (view q) (<[i := TKernel op]> (a_tags A)) ->
  same_requests (private_data q) t -> is_s32 ret ->
  lib_pending (ctx t) ≡ₚ (if ret =? 0 then [cookie t i] else []) ++ lib_pending (ctx (private_data q)) ->
  cb_safe lib_inv (fun q => snd <$> finish_async ret (Z.of_nat i) (set_private_data t q)) q A.
Proof.
  intros Hs Ht [Hok Hin] [Hok' Hck] Hr Hp. rewrite length_insert in Hok. pose proof (lookup_lt_Some _ _ _ Ht) as Hlt.
  apply (qsim_private _ _ t) in Hs. set (q1 := set_private_data t q) in *.
  change (v_data (view q)) with (private_data q) in *.
  unfold cb_safe, finish_async. fold q1. destruct (ret =? 0); cbn [negb].
  - exists q1, A. split; [done|]. split; [apply rtc_refl|]. split; [done|]. split; [|done]. split; [by apply Hok'|].
    change (v_data (view q1)) with t. rewrite Hp, Hck. by eapply in_library_submit.
  - destruct (complete_keeps q1 A i ret Hs Ht Hr) as (r&q'&A'&->&Hc&Hs'&Hv&He&Hl&Hj). cbn.
    exists q', A'. split; [done|]. split; [done|]. split; [done|]. rewrite Hv. split; [|by rewrite He].
    split; [rewrite Hl; by apply Hok'|]. change (v_data (view q1)) with t. rewrite Hp, Hck. by eapply in_library_other.
Qed.

(** [cb] completes the tag of its pointer. *)
Definition cb_completes (cb : lib_cb -> Q -> option Q) : Prop :=
  forall c q A i, qsim q A -> ok (private_data q) (length (a_tags A)) -> a_tags A !! i = Some TTarget ->
  lcb_private c = cookie (private_data q) i -> is_s32 (lcb_status c) ->
  exists q' A', cb c q = Some q' /\ completes A A' /\ qsim q' A' /\
    same_requests (private_data q) (private_data q') /\
    lib_pending (ctx (private_data q')) = lib_pending (ctx (private_data q)) /\
    epoll_callbacks q' = epoll_callbacks q /\ length (a_tags A') = length (a_tags A) /\
    forall j, j <> i -> a_tags A !! j = Some TTarget -> a_tags A' !! j = Some TTarget.

Lemma run_cbs_safe cb cbs q A :
  cb_completes cb -> qsim q A -> ok (private_data q) (length (a_tags A)) ->
  Forall (fun c => is_s32 (lcb_status c)) cbs ->
  in_library (map lcb_private cbs ++ lib_pending (ctx (private_data q))) (cookie (private_data q)) (a_tags A) ->
  cb_safe lib_inv (run_cbs cb cbs) q A.
Proof.
  intros Hcb. revert q A. induction cbs as [|c cbs IH]; intros q A Hs Hok Hst Hin.
  { exists q, A. split; [done|]. split; [apply rtc_refl|]. done. }
  apply Forall_cons in Hst as [Hst1 Hst]. cbn [map app] in Hin.
  apply in_library_answer in Hin as (i&Hc&Ht&Hrest).
  destruct (Hcb c q A i Hs Hok Ht Hc Hst1) as (q1&A1&Hq1&Hco&Hs1&[Hok1 Hck]&Hp&He&Hl&Hj).
  destruct (IH q1 A1) as (q2&A2&Hq2&Hco2&Hs2&Hinv&He2); [done|rewrite Hl; by apply Hok1|done| |].
  { rewrite Hp, Hck. by apply Hrest. }
  exists q2, A2. unfold run_cbs; fold (run_cbs cb cbs). rewrite Hq1. cbn [mbind option_bind]. split; [done|].
  split; [by etrans|]. split; [done|]. split; [done|]. by rewrite <- He.
Qed.

(** Servicing the library: [t] is the target's data with the serviced
    context. *)
Lemma service_safe cb revents q A ret cbs n' t :
  cb_completes cb -> qsim q A -> lib_inv (view q) (a_tags A) ->
  lib_service revents (ctx (private_data q)) = (ret, cbs, n') -> ctx t = n' -> same_requests (private_data q) t ->
  cb_safe lib_inv (fun q => run_cbs cb cbs (set_private_data t q)) q A.
Proof.
  intros Hcb Hs [Hok Hin] Hsv Ht [Hok' Hck].
  destruct (run_cbs_safe cb cbs (set_private_data t q) A Hcb) as (q'&A'&Hq'&Hrest).
  - by apply qsim_private.
  - by apply Hok'.
  - by eapply service_status.
  - change (private_data (set_private_data t q)) with t. rewrite Ht, Hck, <- (service_pending _ _ _ _ _ Hsv). done.
  - exists q', A'. done.
Qed.

(** ** The results that reach the driver *)

(** [cb] completes the tag of its pointer with the result [res]. *)
Definition cb_answers (cb : lib_cb -> Q -> option Q) (res : T -> nat -> lib_cb -> Z) : Prop :=
  forall c q A i, qsim q A -> ok (private_data q) (length (a_tags A)) -> a_tags A !! i = Some TTarget ->
  lcb_private c = cookie (private_data q) i -> is_s32 (lcb_status c) ->
  exists q', cb c q = Some q' /\
    qsim q' (send i UBLK_IO_COMMIT_AND_FETCH_REQ (Some (res (private_data q) i c)) A) /\
    same_requests (private_data q) (private_data q') /\
    lib_pending (ctx (private_data q')) = lib_pending (ctx (private_data q)) /\
    forall j c', j <> i -> res (private_data q') j c' = res (private_data q) j c'.

Lemma run_cbs_answers cb res ids cbs q A :
  cb_answers cb res -> qsim q A -> ok (private_data q) (length (a_tags A)) ->
  Forall (fun c => is_s32 (lcb_status c)) cbs -> map lcb_private cbs = map (cookie (private_data q)) ids ->
  NoDup ids -> Forall (fun i => a_tags A !! i = Some TTarget) ids ->
  exists q' A', run_cbs cb cbs q = Some q' /\ qsim q' A' /\
    a_log A' = a_log A ++
      zip_with (fun i c => command i UBLK_IO_COMMIT_AND_FETCH_REQ (Some (res (private_data q) i c))) ids cbs /\
    Forall (fun i => a_tags A' !! i = Some (TKernel UBLK_IO_COMMIT_AND_FETCH_REQ)) ids /\
    lib_pending (ctx (private_data q')) = lib_pending (ctx (private_data q)) /\
    (forall j, j ∉ ids -> a_tags A' !! j = a_tags A !! j).
Proof.
  intros Hcb. revert ids q A. induction cbs as [|c cbs IH]; intros [|i ids] q A Hs Hok Hst Hm Hnd Hf; [|done|done|].
  { exists q, A. cbn. rewrite app_nil_r. split_and!; try done; by constructor. }
  cbn [map] in Hm. injection Hm as Hc Hm. apply Forall_cons in Hst as [Hst1 Hst]. apply Forall_cons in Hf as [Ht Hf].
  apply NoDup_cons in Hnd as [Hni Hnd].
  destruct (Hcb c q A i Hs Hok Ht Hc Hst1) as (q1&Hq1&Hs1&[Hok1 Hck]&Hp&Hres).
  set (A1 := send i _ _ A) in *.
  assert (Hstay : forall j, j <> i -> a_tags A1 !! j = a_tags A !! j).
  { intros j Hne. subst A1. cbn. by rewrite list_lookup_insert_ne. }
  destruct (IH ids q1 A1) as (q2&A2&Hq2&Hs2&Hl2&Hf2&Hp2&Ho2); [done| |done|by rewrite Hck|done| |].
  { subst A1. cbn. rewrite length_insert. by apply Hok1. }
  { rewrite Forall_forall in Hf |- *. intros j Hj. rewrite Hstay by (intros ->; done). auto. }
  exists q2, A2. unfold run_cbs; fold (run_cbs cb cbs). rewrite Hq1. cbn [mbind option_bind zip_with]. split; [done|].
  split; [done|]. split.
  - rewrite Hl2. subst A1. cbn [send a_log]. rewrite <- app_assoc. f_equal. cbn [app]. f_equal.
    clear -Hres Hni. revert cbs. induction ids as [|j ids IHj]; intros [|c' cbs]; [done..|]. cbn.
    rewrite Hres by set_solver. f_equal. apply IHj. set_solver.
  - split; [|split; [congruence|]].
    + constructor; [|done]. rewrite Ho2 by done. subst A1. cbn.
      apply list_lookup_insert_eq. by eapply lookup_lt_Some.
    + intros j Hj. rewrite Ho2 by set_solver. apply Hstay. set_solver.
Qed.
End event_laws.
