(* ===== verification/Nfs.v ===== *)
(** * The nfs target (targets/ublk.nfs.cpp): requests

    A request becomes a call of libnfs; [NfsLib] is what the target uses of a
    libnfs context.  The queue's private data are the context, the events the
    socket is watched for and the address of the tags' callback data. *)

From S2P Require Import Prelude Bytes UblkCmd Uring QueueTypes Batch Queue QueueSpec QueueSystem EventTgt.

Inductive nfs_req :=
| NfsPread (fh addr count offset : Z)
| NfsPwrite (fh addr count offset : Z)
| NfsFsync (fh : Z).

(** [nfs_async r p n]: the call for [r] with the private pointer [p]; a
    negative result means that it was not accepted. *)
Class NfsLib (N : Type) := {
  #[global] nfs_event_lib :: EventLib N;
  nfs_async : nfs_req -> Z -> N -> Z * N
}.

Class NfsLibLaws (N : Type) `{!NfsLib N} : Prop := {
  #[global] nfs_event_laws :: EventLibLaws N;
  nfs_async_pending : forall r p n ret n', nfs_async r p n = (ret, n') ->
    lib_pending n' ≡ₚ (if 0 <=? ret then [p] else []) ++ lib_pending n
}.

Record nfs_tgt_data {N : Type} := mk_nfs_tgt_data {
  nd_addr : Z;        (* of the structure *)
  nd_url : string;    (* char url[4096] *)
  nfs : N;            (* struct nfs_context * *)
  nfsfh : Z;          (* struct nfsfh * *)
  nfs_capacity : Z    (* size_t *)
}.
#[global] Arguments nfs_tgt_data N : clear implicits.
#[global] Arguments mk_nfs_tgt_data {N}.

Record nfs_queue_data {N : Type} := mk_nfs_queue_data {
  nq_addr : Z;        (* of the structure *)
  nfs_data : nfs_tgt_data N;
  nfs_events : Z      (* int *)
}.
#[global] Arguments nfs_queue_data N : clear implicits.
#[global] Arguments mk_nfs_queue_data {N}.

Definition sizeof_nfs_cb_data : Z := 24.
(** [offsetof(struct nfs_queue_data, ios)] *)
Definition nfs_ios_offset : Z := 16.

Section nfs.
Context {R : Type} `{!Uring R} {N : Type} `{!NfsLib N}.
Notation D := (nfs_queue_data N).
Notation Q := (queue R D).
Variable epoll_ctl : Z -> Z -> Q -> Z.

Definition set_nfs (n : N) (d : D) : D :=
  let t := nfs_data d in
  mk_nfs_queue_data (nq_addr d) (mk_nfs_tgt_data (nd_addr t) (nd_url t) n (nfsfh t) (nfs_capacity t)) (nfs_events d).
Definition set_nfs_events (e : Z) (d : D) : D := mk_nfs_queue_data (nq_addr d) (nfs_data d) e.

(** [&q_data->ios[tag]] *)
Definition nfs_ios (d : D) (tag : Z) : Z := nq_addr d + nfs_ios_offset + sizeof_nfs_cb_data * tag.

(** [cb->q] is the queue: [nfs_init_queue] stores it in every entry. *)
Definition cb_data_to_tag (cb : Z) (d : D) : Z := s32 (u64 (cb - nfs_ios d 0) / sizeof_nfs_cb_data).

Definition rw_async_cb (c : lib_cb) (q : Q) : option Q :=
  let tag := u32 (cb_data_to_tag (lcb_private c) (private_data q)) in
  let status := if lcb_status c <? 0 then - EIO else lcb_status c in
  '(_, q) ← ublksrv_complete_io tag status q;
  Some q.

(** A failure of [nfs_service] is only reported. *)
Definition nfs_socket_cb (revents : Z) (q : Q) : option Q :=
  let '(_, cbs, n) := lib_service revents (nfs (nfs_data (private_data q))) in
  q ← run_cbs rw_async_cb cbs (set_private_data (set_nfs n (private_data q)) q);
  let n := nfs (nfs_data (private_data q)) in
  let events := lib_which_events n in
  if negb (events =? nfs_events (private_data q)) then
    let '(_, q) := ublksrv_epoll_mod_fd epoll_ctl (lib_get_fd n) events q in
    Some (set_private_data (set_nfs_events events (private_data q)) q)
  else Some q.

Definition nfs_call (r : nfs_req) (tag : Z) (d : D) : Z * D :=
  let '(ret, n) := nfs_async r (nfs_ios d tag) (nfs (nfs_data d)) in
  (if ret <? 0 then - ENOMEM else 0, set_nfs n d).

Definition nfs_tgt_read (iod : ublksrv_io_desc) (tag : Z) (d : D) : Z * D :=
  if past_end iod (nfs_capacity (nfs_data d)) then (- EINVAL, d)
  else nfs_call (NfsPread (nfsfh (nfs_data d)) (iod_addr iod) (u32 (nr_sectors iod * 512)) (u64 (start_sector iod * 512))) tag d.

Definition nfs_tgt_write (iod : ublksrv_io_desc) (tag : Z) (d : D) : Z * D :=
  if past_end iod (nfs_capacity (nfs_data d)) then (- EINVAL, d)
  else nfs_call (NfsPwrite (nfsfh (nfs_data d)) (iod_addr iod) (u32 (nr_sectors iod * 512)) (u64 (start_sector iod * 512))) tag d.

Definition nfs_tgt_flush (tag : Z) (d : D) : Z * D := nfs_call (NfsFsync (nfsfh (nfs_data d))) tag d.

Definition nfs_dispatch (iod : ublksrv_io_desc) (tag : Z) (d : D) : Z * D :=
  let ublk_op := ublksrv_get_op iod in
  if ublk_op =? UBLK_IO_OP_READ then nfs_tgt_read iod tag d
  else if ublk_op =? UBLK_IO_OP_WRITE then nfs_tgt_write iod tag d
  else if ublk_op =? UBLK_IO_OP_DISCARD then (- ENOTSUP, d)
  else if ublk_op =? UBLK_IO_OP_FLUSH then nfs_tgt_flush tag d
  else if ublk_op =? UBLK_IO_OP_WRITE_ZEROES then (- ENOTSUP, d)
  else (- EINVAL, d).

Definition nfs_handle_io_async (tag : Z) (q : Q) : option (Z * Q) :=
  iod ← get_iod q tag;
  let '(ret, d) := nfs_dispatch iod tag (private_data q) in
  finish_async ret tag (set_private_data d q).

Definition nfs_tgt_type : ublksrv_tgt_type R D := mk_tgt_type nfs_handle_io_async None None None None.

(** The only callback the target registers with epoll. *)
Definition nfs_epoll_call (cb revents : Z) (q : Q) : option Q := nfs_socket_cb revents q.
End nfs.

(** ** The target keeps to the callback interface *)
Section nfs_laws.
Context {R : Type} `{!Uring R, !UringLaws R} {N : Type} `{!NfsLib N, !NfsLibLaws N}.
Notation D := (nfs_queue_data N).
Notation Q := (queue R D).
Implicit Types (q : Q) (d : D).

Definition nfs_cookie (d : D) (i : nat) : Z := nfs_ios d (Z.of_nat i).
Definition nfs_ctx (d : D) : N := nfs (nfs_data d).

Lemma cb_tag d i n : (i < n)%nat -> Z.of_nat n <= UBLK_MAX_QUEUE_DEPTH -> cb_data_to_tag (nfs_cookie d i) d = Z.of_nat i.
Proof.
  intros Hi Hn. unfold UBLK_MAX_QUEUE_DEPTH in Hn. unfold cb_data_to_tag, nfs_cookie, nfs_ios, sizeof_nfs_cb_data.
  replace (nq_addr d + nfs_ios_offset + 24 * Z.of_nat i - (nq_addr d + nfs_ios_offset + 24 * 0)) with (Z.of_nat i * 24) by lia.
  rewrite u64_id by (unfold is_u64; lia). rewrite Z.div_mul by done. apply s32_id. unfold is_s32. lia.
Qed.

Definition nfs_inv : tgt_view D -> list tag_state -> Prop := lib_inv nfs_ctx nfs_cookie (fun _ _ => True).

Lemma nfs_dispatch_ok iod i d ret d' :
  nfs_dispatch iod (Z.of_nat i) d = (ret, d') ->
  same_requests nfs_cookie (fun _ _ => True) d d' /\ is_s32 ret /\
  lib_pending (nfs_ctx d') ≡ₚ (if ret =? 0 then [nfs_cookie d' i] else []) ++ lib_pending (nfs_ctx d).
Proof.
  assert (Hcall : forall r, nfs_call r (Z.of_nat i) d = (ret, d') ->
    same_requests nfs_cookie (fun _ _ => True) d d' /\ is_s32 ret /\
    lib_pending (nfs_ctx d') ≡ₚ (if ret =? 0 then [nfs_cookie d' i] else []) ++ lib_pending (nfs_ctx d)).
  { intros r. unfold nfs_call. destruct (nfs_async r _ _) as [k n'] eqn:E. intros [= <- <-].
    split; [done|]. apply nfs_async_pending in E. change (lib_pending (nfs_ctx (set_nfs n' d))) with (lib_pending n').
    rewrite E. destruct (Z.ltb_spec k 0); destruct (Z.leb_spec 0 k); try lia; (split; [done|]); done. }
  unfold nfs_dispatch, nfs_tgt_read, nfs_tgt_write, nfs_tgt_flush.
  repeat (case_match; try apply Hcall); intros [= <- <-]; done.
Qed.

Lemma nfs_cb_completes q A i c :
  qsim q A -> a_tags A !! i = Some TTarget -> lcb_private c = nfs_cookie (private_data q) i ->
  rw_async_cb c q =
    '(_, q) ← ublksrv_complete_io (Z.of_nat i) (if lcb_status c <? 0 then - EIO else lcb_status c) q; Some q.
Proof.
  intros Hs Ht Hc. unfold rw_async_cb. destruct (qsim_tag_lt q A i _ Hs Ht) as [Hi _].
  rewrite Hc, (cb_tag _ i (S i)) by (unfold UBLK_MAX_QUEUE_DEPTH in *; lia).
  rewrite u32_id; [done|]. unfold is_u32, UBLK_MAX_QUEUE_DEPTH in *. lia.
Qed.

Lemma nfs_status_s32 c : is_s32 (lcb_status c) -> is_s32 (if lcb_status c <? 0 then - EIO else lcb_status c).
Proof. intros. by case_match. Qed.

Lemma nfs_cb_ok : cb_completes nfs_ctx nfs_cookie (fun _ _ => True) (rw_async_cb (R := R)).
Proof.
  intros c q A i Hs _ Ht Hc Hst. rewrite (nfs_cb_completes q A i c Hs Ht Hc).
  destruct (complete_keeps q A i _ Hs Ht (nfs_status_s32 c Hst)) as (r&q'&A'&->&Hco&Hs'&Hv&He&Hrest). cbn.
  exists q', A'. split; [done|]. split; [done|]. split; [done|].
  replace (private_data q') with (private_data q); [done|]. by apply (f_equal v_data) in Hv.
Qed.

(** When the socket is ready the library's answers complete tags the target
    holds; the events watched are updated. *)
Lemma nfs_socket_cb_safe epoll_ctl revents q A :
  qsim q A -> nfs_inv (view q) (a_tags A) -> cb_safe nfs_inv (nfs_socket_cb epoll_ctl revents) q A.
Proof.
  intros Hs Hinv. unfold cb_safe, nfs_socket_cb.
  destruct (lib_service revents (nfs (nfs_data (private_data q)))) as [[ret cbs] n] eqn:E.
  destruct (service_safe nfs_ctx nfs_cookie (fun _ _ => True) rw_async_cb revents q A ret cbs n
    (set_nfs n (private_data q)) nfs_cb_ok Hs Hinv E eq_refl) as (q1&A1&->&Hc&Hs1&Hi1&He1); [done|].
  cbn [mbind option_bind]. destruct (negb _); [|by exists q1, A1].
  unfold ublksrv_epoll_mod_fd. destruct (list_find _ _) as [[k e]|].
  - eexists _, A1. split; [done|]. split; [done|]. split; [by apply qsim_private, qsim_log_ev|]. by split.
  - eexists _, A1. split; [done|]. split; [done|]. split; [by apply qsim_private|]. by split.
Qed.

#[export] Program Instance nfs_laws : TargetLaws (nfs_tgt_type (R := R) (N := N)) := {|
  tinv := nfs_inv;
  tgt_cqe_ok _ _ := False
|}.
Next Obligation. intros. by eapply lib_inv_held. Qed.
Next Obligation.
  intros q A i op Hs Ht Hinv. cbn [nfs_tgt_type handle_io_async]. unfold nfs_handle_io_async.
  destruct (qsim_get_iod q A i _ Hs Ht) as (iod&Hiod&_).
  destruct (nfs_dispatch iod (Z.of_nat i) (private_data q)) as [ret d'] eqn:E.
  destruct (nfs_dispatch_ok _ _ _ _ _ E) as (Hsame&Hr&Hp).
  destruct (finish_async_safe nfs_ctx nfs_cookie (fun _ _ => True) q A i op d' ret Hs Ht Hinv Hsame Hr Hp)
    as (q'&A'&Hq'&Hrest).
  exists q', A'. split; [|done]. rewrite Hiod. cbn [mbind option_bind]. by rewrite E.
Qed.
Next Obligation. done. Qed.
Next Obligation. done. Qed.
Next Obligation. done. Qed.
Next Obligation. done. Qed.
End nfs_laws.

(** ** What a request becomes *)
Section nfs_spec.
Context {R : Type} `{!Uring R, !UringLaws R} {N : Type} `{!NfsLib N, !NfsLibLaws N}.
Notation D := (nfs_queue_data N).
Notation Q := (queue R D).
Implicit Types (q : Q) (d : D).

(** The contract: a request is the same bytes of the file, or an error. *)
Definition nfs_request (t : nfs_tgt_data N) (iod : ublksrv_io_desc) : nfs_req + Z :=
  let op := ublksrv_get_op iod in
  let first := start_sector iod * 512 in
  let len := nr_sectors iod * 512 in
  if (op =? UBLK_IO_OP_READ) || (op =? UBLK_IO_OP_WRITE) then
    if nfs_capacity t <? first + len then inr (- EINVAL)
    else inl ((if op =? UBLK_IO_OP_READ then NfsPread else NfsPwrite) (nfsfh t) (iod_addr iod) len first)
  else if op =? UBLK_IO_OP_FLUSH then inl (NfsFsync (nfsfh t))
  else if (op =? UBLK_IO_OP_DISCARD) || (op =? UBLK_IO_OP_WRITE_ZEROES) then inr (- ENOTSUP)
  else inr (- EINVAL).

Lemma nfs_dispatch_spec iod tag d : block_request iod ->
  nfs_dispatch iod tag d = match nfs_request (nfs_data d) iod with inl r => nfs_call r tag d | inr e => (e, d) end.
Proof.
  intros Hb. pose proof Hb as (H1&H2&H3&H4). unfold nfs_dispatch, nfs_request, nfs_tgt_read, nfs_tgt_write, nfs_tgt_flush.
  rewrite (past_end_spec iod _ Hb), (u32_id (nr_sectors iod * 512)), (u64_id (start_sector iod * 512))
    by (unfold is_u32, is_u64; lia).
  destruct (_ =? UBLK_IO_OP_READ); cbn [orb]; [by case_match|].
  destruct (_ =? UBLK_IO_OP_WRITE); cbn [orb]; [by case_match|].
  destruct (Z.eqb_spec (ublksrv_get_op iod) UBLK_IO_OP_DISCARD) as [e|]; cbn [orb]; [by rewrite e|].
  destruct (_ =? UBLK_IO_OP_FLUSH); [done|]. by case_match.
Qed.

(** The nfs target passes on the bytes of a request unchanged: a
    read or write inside the file becomes one library call for the same bytes of
    the file and the request's buffer, a flush becomes an fsync, and the driver
    hears nothing before the library calls back.  What lies past the end of the
    file, what the library refuses and what the target does not know is
    completed at once with the error, and no call is left behind. *)
Theorem nfs_request_exact `{!UringProgress R} q A i iod :
  qsim q A -> a_tags A !! i = Some TTarget -> get_iod q (Z.of_nat i) = Some iod -> block_request iod ->
  exists ret q', nfs_handle_io_async (Z.of_nat i) q = Some (ret, q') /\
    match nfs_request (nfs_data (private_data q)) iod with
    | inl r =>
        let '(k, n) := nfs_async r (nfs_cookie (private_data q) i) (nfs_ctx (private_data q)) in
        ret = (if k <? 0 then - ENOMEM else 0) /\ private_data q' = set_nfs n (private_data q)
    | inr e => ret = e /\ private_data q' = private_data q
    end /\
    io_commands (ring_log (ring q')) = io_commands (ring_log (ring q)) ++
      (if ret =? 0 then [] else [command i UBLK_IO_COMMIT_AND_FETCH_REQ (Some ret)]).
Proof.
  intros Hs Ht Hiod Hb. unfold nfs_handle_io_async. rewrite Hiod. cbn [mbind option_bind].
  destruct (nfs_dispatch iod (Z.of_nat i) (private_data q)) as [ret d'] eqn:E.
  destruct (nfs_dispatch_ok _ _ _ _ _ E) as (_&Hr&_). rewrite nfs_dispatch_spec in E by done.
  destruct (finish_async_log q A i d' ret Hs Ht Hr) as (q'&->&Hd&Hl). exists ret, q'. split; [done|]. split; [|done].
  rewrite Hd. destruct (nfs_request _ iod) as [r|e].
  - unfold nfs_call in E. unfold nfs_cookie, nfs_ctx. destruct (nfs_async r _ _) as [k n]. by injection E as <- <-.
  - by injection E as <- <-.
Qed.








(** A queue of the nfs target never fails: in every state that is reachable by
    completions of the driver, readiness of the library's socket and
    submissions, an iteration of the queue's loop completes, and it reports
    the end exactly when the queue is done. *)
Theorem nfs_queue_runs epoll_wait epoll_ctl max q K cqes :
  (forall (q : Q) addr ev, (addr, ev) ∈ epoll_wait q -> is_Some (find_ecb addr (epoll_callbacks q))) ->
  reachable nfs_tgt_type epoll_wait (nfs_epoll_call epoll_ctl) q K ->
  legal_cqes nfs_tgt_type epoll_wait (nfs_epoll_call epoll_ctl) (after_wait q) K cqes ->
  exists ret q', ublksrv_process_io nfs_tgt_type epoll_wait (nfs_epoll_call epoll_ctl) max cqes q = Some (ret, q') /\
    ret = (if __ublksrv_queue_is_done q then - ENODEV else Z.of_nat (length cqes)) /\
    exists A, qsim q' A /\ nfs_inv (view q') (a_tags A).
Proof.
  intros Hreg Hr Hl.
  assert (Hsafe : forall cb ev (q : Q) A, qsim q A -> tinv (TargetLaws := nfs_laws) (view q) (a_tags A) ->
    cb_safe (tinv (TargetLaws := nfs_laws)) (nfs_epoll_call epoll_ctl cb ev) q A) by (intros; by apply nfs_socket_cb_safe).
  apply (reachable_inv _ _ _ Hreg Hsafe) in Hr.
  destruct (process_io_inv _ _ _ Hreg Hsafe max q K cqes Hr Hl) as (ret&q'&K'&?&(A&?&?&_)&?).
  exists ret, q'. split; [done|]. split; [done|]. by exists A.
Qed.
End nfs_spec.
