(* ===== verification/LibWorld.v ===== *)
(** * Objects held outside the program

    Memory and the objects of a client library that a target creates and has
    to give back: contexts, parsed URLs, open files, sessions, SCSI tasks.
    [live] is the multiset of what is held; every creating call adds what it
    returns, every releasing call removes what was held. *)

From S2P Require Import Prelude.

Inductive lib_obj :=
| OMem (addr : Z)
| OCtx (id : Z)
| OUrl (ptr : Z)
| OFile (fh : Z)
| OSession (id : Z)
| OTask (ptr : Z).

#[global] Instance lib_obj_eq_dec : EqDecision lib_obj.
Proof. solve_decision. Defined.

Class LibWorld (S : Type) := {
  live : S -> list lib_obj;
  sys_calloc : S -> option Z * S;   (* None: NULL *)
  sys_free : Z -> S -> S
}.

Section world.
Context {S : Type} `{!LibWorld S}.
Implicit Types s : S.

(** From [s] to [s'] the objects [os] were added to what is held. *)
Definition gains (os : list lib_obj) (s s' : S) : Prop := live s' ≡ₚ os ++ live s.
(** An object that is held is given back. *)
Definition releases_obj (o : lib_obj) (s s' : S) : Prop := o ∈ live s -> live s ≡ₚ o :: live s'.

Definition opt_obj {A} (f : A -> lib_obj) (r : option A) : list lib_obj :=
  match r with Some a => [f a] | None => [] end.
End world.

Class LibWorldLaws (S : Type) `{!LibWorld S} : Prop := {
  calloc_gains : forall s r s', sys_calloc s = (r, s') -> gains (opt_obj OMem r) s s';
  free_releases : forall a s, releases_obj (OMem a) s (sys_free a s)
}.

Create HintDb ledger discriminated.

Section ledger.
Context {S : Type} `{!LibWorld S}.
Implicit Types s : S.

Lemma gains_refl s : gains [] s s.
Proof. unfold gains. reflexivity. Qed.

Lemma gains_trans os1 os2 s1 s2 s3 : gains os1 s1 s2 -> gains os2 s2 s3 -> gains (os2 ++ os1) s1 s3.
Proof. unfold gains. intros H1 H2. by rewrite H2, H1, app_assoc. Qed.

Lemma gains_add o os s1 s2 s3 : gains os s1 s2 -> gains [o] s2 s3 -> gains (o :: os) s1 s3.
Proof. apply (gains_trans os [o]). Qed.

Lemma gains_keep os s1 s2 s3 : gains os s1 s2 -> gains [] s2 s3 -> gains os s1 s3.
Proof. apply (gains_trans os []). Qed.

(** Giving back one of the objects that were added. *)
Lemma gains_release o os os' s1 s2 s3 :
  gains os s1 s2 -> os ≡ₚ o :: os' -> releases_obj o s2 s3 -> gains os' s1 s3.
Proof.
  unfold gains, releases_obj. intros H1 Ho H2. rewrite Ho in H1. apply (Permutation_cons_inv (a := o)).
  transitivity (live s2); [|by rewrite H1]. symmetry. apply H2. rewrite H1. left.
Qed.

Lemma gains_perm os os' s s' : gains os s s' -> os ≡ₚ os' -> gains os' s s'.
Proof. unfold gains. by intros -> ->. Qed.
End ledger.

#[export] Hint Resolve gains_refl calloc_gains free_releases : ledger.
