(* ===== verification/NfsSetup.v ===== *)
(** * The nfs target: set-up and tear-down

    The callbacks of targets/ublk.nfs.cpp that connect to the server, describe
    the device and set a queue up.  libnfs is the interface [NfsApi]; [url], the
    program's global variable, is passed along ([None]: NULL).  [None] as a
    result is undefined behaviour: a NULL pointer that is followed, or an array
    that is read past its end. *)

From S2P Require Import Prelude Bytes UblkCmd Uring QueueTypes Batch Queue Params Json Ctrl QueueSetup DevSetup TgtInit JsonDoc TgtInitSpec EventTgt Nfs LibWorld.

Definition O_RDWR : Z := 2.
Definition sizeof_nfs_url : Z := 4096.

(** The calls on a context [N]; a URL is named by its pointer. *)
Class NfsApi (N S : Type) `{!LibWorld S} := {
  nfs_ctx_id : N -> Z;
  nfs_init_context : S -> option N * S;
  nfs_parse_url_full : N -> string -> S -> option Z * N * S;
  nfs_mount : N -> Z -> S -> Z * N * S;
  nfs_stat64 : N -> Z -> S -> Z * Z * N * S;          (* result and nfs_size *)
  nfs_open : N -> Z -> Z -> S -> Z * Z * N * S;       (* result and file handle *)
  nfs_close : N -> Z -> S -> N * S;
  nfs_destroy_url : Z -> S -> S;
  nfs_destroy_context : N -> S -> S
}.

Class NfsApiLaws (N S : Type) `{!LibWorld S, !NfsApi N S} : Prop := {
  nfs_context_gains : forall s r s', nfs_init_context s = (r, s') ->
    gains (opt_obj (fun n => OCtx (nfs_ctx_id n)) r) s s';
  nfs_parse_gains : forall n u s r n' s', nfs_parse_url_full n u s = (r, n', s') ->
    gains (opt_obj OUrl r) s s' /\ nfs_ctx_id n' = nfs_ctx_id n;
  nfs_mount_keeps : forall n u s r n' s', nfs_mount n u s = (r, n', s') ->
    gains [] s s' /\ nfs_ctx_id n' = nfs_ctx_id n;
  nfs_stat_keeps : forall n u s r z n' s', nfs_stat64 n u s = (r, z, n', s') ->
    gains [] s s' /\ nfs_ctx_id n' = nfs_ctx_id n;
  nfs_open_gains : forall n u f s r fh n' s', nfs_open n u f s = (r, fh, n', s') ->
    gains (if r =? 0 then [OFile fh] else []) s s' /\ nfs_ctx_id n' = nfs_ctx_id n;
  nfs_close_releases : forall n fh s n' s', nfs_close n fh s = (n', s') ->
    releases_obj (OFile fh) s s' /\ nfs_ctx_id n' = nfs_ctx_id n;
  nfs_destroy_url_releases : forall u s, releases_obj (OUrl u) s (nfs_destroy_url u s);
  nfs_destroy_context_releases : forall n s, releases_obj (OCtx (nfs_ctx_id n)) s (nfs_destroy_context n s)
}.

Inductive nfs_opt := NfNfs (arg : string).   (* --nfs *)

Section nfs_setup.
Context `{!JsonText} {N S D : Type} `{!NfsLib N, !LibWorld S, !NfsApi N S}.
Notation dev := (ublksrv_dev D).
Variable mem : Z -> bool.

(** The data or NULL, the global variable, and the world. *)
Definition nfs_init (nfsurl : string) (url : option Z) (s : S) : option (option (nfs_tgt_data N) * option Z * S) :=
  let '(p, s) := sys_calloc s in
  match p with
  | None => Some (None, url, s)
  | Some addr =>
      let '(c, s) := nfs_init_context s in
      match c with
      | None => Some (None, url, sys_free addr s)
      | Some n =>
          if sizeof_nfs_url <=? slen nfsurl then None
          else
            let '(u, n, s) := nfs_parse_url_full n nfsurl s in
            match u with
            | None => Some (None, None, sys_free addr (nfs_destroy_context n s))
            | Some u =>
                let fail_url n s := Some (None, Some u, sys_free addr (nfs_destroy_context n (nfs_destroy_url u s))) in
                let '(ret, n, s) := nfs_mount n u s in
                if negb (ret =? 0) then fail_url n s
                else
                  let '(ret, size, n, s) := nfs_stat64 n u s in
                  if ret <? 0 then fail_url n s
                  else
                    let '(ret, fh, n, s) := nfs_open n u O_RDWR s in
                    if negb (ret =? 0) then fail_url n s
                    else Some (Some (mk_nfs_tgt_data addr nfsurl n fh (u64 size)), Some u, s)
            end
      end
  end.

Definition nfs_exit (d : option (nfs_tgt_data N)) (s : S) : S :=
  match d with
  | None => s
  | Some d => let '(n, s) := nfs_close (nfs d) (nfsfh d) s in sys_free (nd_addr d) (nfs_destroy_context n s)
  end.

Definition nfs_setup_tgt (junk : ublk_params) (dv : dev) : option (Z * dev) :=
  '(ret, p) ← ublk_json_read_params junk (dv_jbuf dv);
  if negb (ret =? 0) then Some (ret, dv)
  else
    p ← p;
    Some (0, set_tgt (u64 (Z.shiftl (dev_sectors (p_basic p)) 9)) (queue_depth (dv_info dv)) 0
               (extra_ios (dv_tgt dv)) (io_data_size (dv_tgt dv)) (tgt_fds (dv_tgt dv)) dv).

Definition nfs_recover_tgt (junk : ublk_params) (dv : dev) : option (Z * dev) :=
  '(ret, _) ← jread_str PATH_MAX "url" dv;
  if ret <? 0 then Some (ret, dv) else nfs_setup_tgt junk dv.

(** The parameters: everything that is not named is zero. *)
Definition nfs_params (capacity : Z) : ublk_params :=
  set_basic (mk_param_basic UBLK_ATTR_VOLATILE_CACHE 9 12 12 9 0 0 (Z.shiftr capacity 9) 0)
    (set_types UBLK_PARAM_TYPE_BASIC zero_params).

Definition nfs_init_tgt (argc : Z) (opts : list nfs_opt) (junk : ublk_params) (url : option Z) (dv : dev) (s : S)
    : option (Z * dev * option Z * S) :=
  let info := dv_info dv in
  if has (dev_flags info) UBLK_F_UNPRIVILEGED_DEV then Some (-1, dv, url, s)
  else if ublksrv_is_recovering argc (dv_ctrl dv) then
    '(ret, dv) ← nfs_recover_tgt junk dv; Some (ret, dv, url, s)
  else
    match last opts with
    | None => Some (- EINVAL, dv, url, s)
    | Some (NfNfs nfsurl) =>
        '(d, url, s) ← nfs_init nfsurl url s;
        match d with
        | None => Some (- ENOMEM, dv, url, s)
        | Some d =>
            dv ← jwrite (ublk_json_write_dev_info mem info) dv;
            dv ← jwrite (ublk_json_write_target_base mem (mk_tgt_base "nfs" 0 (nfs_capacity d))) dv;
            dv ← jwrite (ublk_json_write_tgt_str mem "url" (Some (nd_url d))) dv;
            dv ← jwrite (ublk_json_write_params mem (nfs_params (nfs_capacity d))) dv;
            let s := nfs_exit (Some d) s in
            '(ret, dv) ← nfs_setup_tgt junk dv;
            Some (ret, dv, url, s)
        end
    end.

Definition nfs_deinit_tgt (url : option Z) (s : S) : S :=
  match url with Some u => nfs_destroy_url u s | None => s end.

(** ** Queues *)
Context {R : Type} `{!Uring R}.
Notation Q := (queue R (nfs_queue_data N)).
Variable epoll_ctl : Z -> Z -> Q -> Z.
(** [epoll_add]: what [ublksrv_epoll_add_fd] gets of the system: the ring depth,
    epoll_create1(2) with its errno, the address of the node. *)
Variable epoll_add : Z * Z * Z * option Z.
(** The address of [nfs_socket_cb]. *)
Variable socket_cb : Z.

(** The result and what [*queue_data_ptr] holds ([None]: it was not set). *)
Definition nfs_init_queue (url : option Z) (dv : dev) (q : Q) (s : S)
    : option (Z * option (nfs_queue_data N) * Q * option Z * S) :=
  let '(p, s) := sys_calloc s in
  '(ret, name) ← jread_str PATH_MAX "url" dv;
  if ret <? 0 then Some (ret, None, q, url, s)
  else
    match p with
    | None => Some (- ENOMEM, None, q, url, s)
    | Some addr =>
        '(d, url, s) ← nfs_init (default ""%string name) url s;
        d ← d;
        let '(depth, new_epollfd, errno, node) := epoll_add in
        '(_, q) ← ublksrv_epoll_add_fd epoll_ctl depth new_epollfd errno node (lib_get_fd (nfs d)) (lib_which_events (nfs d))
                    socket_cb q;
        Some (0, Some (mk_nfs_queue_data addr d 0), q, url, s)
    end.

(** [data]: the queue's private data, NULL when they were not set. *)
Definition nfs_deinit_queue (data : option (nfs_queue_data N)) (s : S) : option S :=
  d ← data; Some (sys_free (nq_addr d) (nfs_exit (Some (nfs_data d)) s)).
End nfs_setup.

(** ** What is held and given back *)
Section nfs_ledger.
Context {N S : Type} `{!NfsLib N, !LibWorld S, !LibWorldLaws S, !NfsApi N S, !NfsApiLaws N S}.

(** What a connection holds besides its URL. *)
Definition nfs_holds (d : nfs_tgt_data N) : list lib_obj :=
  [OFile (nfsfh d); OCtx (nfs_ctx_id (nfs d)); OMem (nd_addr d)].

Lemma nfs_fail_url addr u n (s s1 : S) :
  gains [OUrl u; OCtx (nfs_ctx_id n); OMem addr] s s1 ->
  gains [] s (sys_free addr (nfs_destroy_context n (nfs_destroy_url u s1))).
Proof.
  intros H. eapply gains_release; [eapply gains_release; [eapply gains_release; [exact H|reflexivity|]|reflexivity|]|reflexivity|].
  - apply nfs_destroy_url_releases.
  - apply nfs_destroy_context_releases.
  - apply free_releases.
Qed.

Lemma nfs_init_ledger nfsurl url (s : S) d url' s' :
  nfs_init nfsurl url s = Some (d, url', s') ->
  match d with
  | None => gains [] s s'
  | Some d => exists u, url' = Some u /\ gains (OUrl u :: nfs_holds d) s s'
  end.
Proof.
  unfold nfs_init. destruct (sys_calloc s) as [[addr|] s1] eqn:Ec; apply calloc_gains in Ec; cbn [opt_obj] in Ec; [|by intros [= <- _ <-]].
  destruct (nfs_init_context s1) as [[n|] s2] eqn:E2; pose proof (nfs_context_gains _ _ _ E2) as H2; cbn [opt_obj] in H2.
  2:{ intros [= <- _ <-]. eapply gains_release; [eapply gains_keep; [exact Ec|exact H2]|reflexivity|apply free_releases]. }
  pose proof (gains_add _ _ _ _ _ Ec H2) as G2. destruct (sizeof_nfs_url <=? slen nfsurl); [done|].
  destruct (nfs_parse_url_full n nfsurl s2) as [[[u|] n3] s3] eqn:E3; destruct (nfs_parse_gains _ _ _ _ _ _ E3) as [H3 I3]; cbn [opt_obj] in H3.
  2:{ intros [= <- _ <-]. rewrite <- I3 in G2. eapply gains_release; [|reflexivity|apply free_releases].
      eapply gains_release; [eapply gains_keep; [exact G2|exact H3]|reflexivity|apply nfs_destroy_context_releases]. }
  pose proof (gains_add _ _ _ _ _ G2 H3) as G3. rewrite <- I3 in G3.
  destruct (nfs_mount n3 u s3) as [[r4 n4] s4] eqn:E4; destruct (nfs_mount_keeps _ _ _ _ _ _ E4) as [H4 I4].
  pose proof (gains_keep _ _ _ _ G3 H4) as G4. rewrite <- I4 in G4.
  destruct (negb (r4 =? 0)); [intros [= <- _ <-]; by apply nfs_fail_url|].
  destruct (nfs_stat64 n4 u s4) as [[[r5 z5] n5] s5] eqn:E5; destruct (nfs_stat_keeps _ _ _ _ _ _ _ E5) as [H5 I5].
  pose proof (gains_keep _ _ _ _ G4 H5) as G5. rewrite <- I5 in G5.
  destruct (r5 <? 0); [intros [= <- _ <-]; by apply nfs_fail_url|].
  destruct (nfs_open n5 u O_RDWR s5) as [[[r6 fh] n6] s6] eqn:E6; destruct (nfs_open_gains _ _ _ _ _ _ _ _ E6) as [H6 I6].
  destruct (r6 =? 0); cbn [negb].
  - intros [= <- <- <-]. exists u. split; [done|]. pose proof (gains_add _ _ _ _ _ G5 H6) as G6. rewrite <- I6 in G6.
    eapply gains_perm; [exact G6|]. constructor.
  - intros [= <- _ <-]. pose proof (gains_keep _ _ _ _ G5 H6) as G6. rewrite <- I6 in G6. by apply nfs_fail_url.
Qed.

Lemma nfs_exit_ledger d os os' (s s1 : S) :
  gains os s s1 -> os ≡ₚ nfs_holds d ++ os' -> gains os' s (nfs_exit (Some d) s1).
Proof.
  intros H Ho. unfold nfs_exit. destruct (nfs_close (nfs d) (nfsfh d) s1) as [n s2] eqn:E.
  destruct (nfs_close_releases _ _ _ _ _ E) as [Hc Hi].
  eapply gains_release; [eapply gains_release; [eapply gains_release; [exact H|exact Ho|exact Hc]|reflexivity|]|reflexivity|].
  - rewrite <- Hi. apply nfs_destroy_context_releases.
  - apply free_releases.
Qed.

Lemma nfs_connection_gains nfsurl url (s : S) d url' s' :
  nfs_init nfsurl url s = Some (Some d, url', s') ->
  exists u, url' = Some u /\ gains [OUrl u] s (nfs_exit (Some d) s').
Proof.
  intros Hi. destruct (nfs_init_ledger _ _ _ _ _ _ Hi) as (u&->&Hg). exists u. split; [done|].
  refine (nfs_exit_ledger d _ [OUrl u] s s' Hg _). apply (Permutation_middle (nfs_holds d) [] (OUrl u)).
Qed.

(** Connecting to the nfs server gives back what it took when it fails; a
    connection that was made and ended leaves exactly the parsed URL behind,
    named by the global variable. *)
Theorem nfs_connection_ledger nfsurl url (s : S) d url' s' :
  nfs_init nfsurl url s = Some (d, url', s') ->
  match d with
  | None => live s' ≡ₚ live s
  | Some d => exists u, url' = Some u /\ live (nfs_exit (Some d) s') ≡ₚ OUrl u :: live s
  end.
Proof.
  intros Hi. pose proof (nfs_init_ledger _ _ _ _ _ _ Hi) as Hl. destruct d as [d|]; [|exact Hl].
  by apply nfs_connection_gains in Hi.
Qed.
End nfs_ledger.

(** ** The life of a device *)
Section nfs_life.
Context `{!JsonText, !JsonTextLaws} {N S D R : Type} `{!NfsLib N, !LibWorld S, !NfsApi N S, !Uring R}.
Notation dev := (ublksrv_dev D).
Notation Q := (queue R (nfs_queue_data N)).

Definition nfs_writes (nfsurl : string) (capacity : Z) : list doc_write :=
  [DwBase (mk_tgt_base "nfs" 0 capacity); DwStr "url" (Some nfsurl); DwParams (nfs_params capacity)].
Definition nfs_doc (info : ublksrv_ctrl_dev_info) (nfsurl : string) (capacity : Z) : gmap string json :=
  foldl dw_doc (doc_info info) (nfs_writes nfsurl capacity).

(** A new device whose server answers and whose description fits. *)
Record nfs_add (cap argc : Z) (opts : list nfs_opt) (dv : dev) (s : S) (url : option Z) (nfsurl : string)
    (d : nfs_tgt_data N) (url' : option Z) (s' : S) : Prop := {
  nfa_privileged : has (dev_flags (dv_info dv)) UBLK_F_UNPRIVILEGED_DEV = false;
  nfa_new : ublksrv_is_recovering argc (dv_ctrl dv) = false;
  nfa_url : last opts = Some (NfNfs nfsurl);
  nfa_init : nfs_init nfsurl url s = Some (Some d, url', s');
  nfa_buf : buf_ok cap (dv_jbuf dv);
  nfa_fits : Forall (fits cap) (doc_info (dv_info dv) ::
    docs_after (doc_info (dv_info dv)) (nfs_writes nfsurl (nfs_capacity d)))
}.

Lemma nfs_init_data nfsurl url (s : S) d url' s' :
  nfs_init nfsurl url s = Some (Some d, url', s') -> nd_url d = nfsurl /\ is_u64 (nfs_capacity d) /\ slen nfsurl < 4096.
Proof.
  unfold nfs_init. repeat case_match; intros; simplify_eq; bool_prop; cbn. split; [done|]. split; [apply u64_bound|].
  unfold sizeof_nfs_url in *. lia.
Qed.

Lemma nfs_params_ok c : is_u64 c -> params_ok (nfs_params c).
Proof.
  intros Hc. pose proof (shiftr_u64 c 9 ltac:(done) Hc). unfold params_ok, basic_ok, discard_ok, devt_ok, zoned_ok, dma_ok,
    segment_ok, integrity_ok, nfs_params. cbn [p_basic p_discard p_devt p_zoned p_dma p_seg p_integrity params_len
    params_types set_basic set_types attrs max_sectors dev_sectors]. repeat split; try done; widths.
Qed.

Lemma nfs_doc_entries info u c :
  nfs_doc info u c !! "params" = Some (params_to_json (nfs_params c)) /\
  exists t, nfs_doc info u c !! "target" = Some (JObj t) /\ t !! "url" = Some (JStr u).
Proof.
  unfold nfs_doc, nfs_writes. cbn [foldl dw_doc with_opt]. unfold doc_params. split; [apply lookup_insert_eq|].
  eexists. rewrite lookup_insert_ne by done. split; [apply with_target_lookup|]. rewrite target_of_with.
  apply lookup_insert_eq.
Qed.

(** What the set-up reads from the description of a device. *)
Lemma nfs_setup_doc info u c junk (dv : dev) :
  text_of (dv_jbuf dv) (nfs_doc info u c) -> is_u64 c ->
  nfs_setup_tgt junk dv = Some (0, set_tgt (512 * (c / 512)) (queue_depth (dv_info dv)) 0
    (extra_ios (dv_tgt dv)) (io_data_size (dv_tgt dv)) (tgt_fds (dv_tgt dv)) dv).
Proof.
  intros Hb Hc. destruct (nfs_doc_entries info u c) as [Hp _]. unfold nfs_setup_tgt.
  rewrite (read_params_text _ _ _ junk Hb Hp (nfs_params_ok c Hc)). cbn [mbind option_bind Z.eqb negb].
  change (dev_sectors (p_basic (nfs_params c))) with (Z.shiftr c 9). unfold is_u64 in Hc.
  rewrite Z.shiftl_mul_pow2, Z.shiftr_div_pow2 by done. change (2^9) with 512.
  rewrite u64_id by (unfold is_u64; Z.div_mod_to_equations; lia). by rewrite Z.mul_comm.
Qed.

(** An nfs device survives its daemon: adding it stores the URL and
    the size of the file in whole sectors; the queues then read that URL, and a
    daemon that recovers the device from the stored description gets the same
    size and ring depth, without touching the server. *)
Theorem nfs_recovery_restores cap argc opts dv s url nfsurl d url' s' junk :
  nfs_add cap argc opts dv s url nfsurl d url' s' ->
  exists dv', nfs_init_tgt always argc opts junk url dv s = Some (0, dv', url', nfs_exit (Some d) s') /\
    dev_size (dv_tgt dv') = 512 * (nfs_capacity d / 512) /\ tgt_ring_depth (dv_tgt dv') = queue_depth (dv_info dv) /\
    forall argc2 opts2 junk2 (dv2 : dev) url2 (s2 : S),
      ublksrv_is_recovering argc2 (dv_ctrl dv2) = true -> dv_info dv2 = dv_info dv ->
      is_Some (jb_alloc (dv_jbuf dv2)) -> jbuf (dv_jbuf dv2) = jbuf (dv_jbuf dv') -> slen nfsurl < jbuf_size (dv_jbuf dv2) ->
      jread_str PATH_MAX "url" dv2 = Some (0, Some nfsurl) /\
      exists dv2', nfs_init_tgt always argc2 opts2 junk2 url2 dv2 s2 = Some (0, dv2', url2, s2) /\
        dev_size (dv_tgt dv2') = dev_size (dv_tgt dv') /\ tgt_ring_depth (dv_tgt dv2') = tgt_ring_depth (dv_tgt dv').
Proof.
  intros [Hpriv Hnew Hurl Hinit Hb Hfits]. destruct (nfs_init_data _ _ _ _ _ _ Hinit) as (Hn&Hcap&Hlen).
  unfold nfs_init_tgt at 1. rewrite Hpriv, Hnew, Hurl, Hinit. cbn [mbind option_bind].
  destruct (jwrites_new_any cap (dv_info dv) _ dv Hb Hfits) as (b&Hh&Hk).
  fold (nfs_doc (dv_info dv) nfsurl (nfs_capacity d)) in Hh.
  specialize (Hk _ (fun dv => '(ret, dv) ← nfs_setup_tgt junk dv; Some (ret, dv, url', nfs_exit (Some d) s'))).
  cbn [nfs_writes jwrites dw_run] in Hk. rewrite Hn, Hk, (nfs_setup_doc _ _ _ junk (dv_set_jbuf b dv) (holds_text _ _ _ Hh) Hcap).
  cbn [mbind option_bind]. eexists. split; [done|]. split; [done|]. split; [done|].
  intros argc2 opts2 junk2 dv2 url2 s2 Hrec Hinfo Halloc Hj Hl.
  assert (Ht : text_of (dv_jbuf dv2) (nfs_doc (dv_info dv) nfsurl (nfs_capacity d))).
  { split; [done|]. rewrite Hj. apply Hh. }
  destruct (nfs_doc_entries (dv_info dv) nfsurl (nfs_capacity d)) as [_ (t&Htg&Hu)].
  assert (Hread : jread_str PATH_MAX "url" dv2 = Some (0, Some nfsurl)).
  { unfold jread_str. rewrite (read_str_text _ _ _ _ _ Ht Htg Hu Hl). cbn [mbind option_bind].
    by rewrite (proj2 (Z.ltb_lt _ _)). }
  split; [done|]. unfold nfs_init_tgt. rewrite Hinfo, Hpriv, Hrec. unfold nfs_recover_tgt. rewrite Hread.
  cbn [mbind option_bind]. change (0 <? 0) with false. cbv iota. rewrite (nfs_setup_doc _ _ _ junk2 dv2 Ht Hcap).
  cbn [mbind option_bind]. eexists. split; [done|]. cbn. by rewrite Hinfo.
Qed.
End nfs_life.

(** ** What goes wrong *)
Section nfs_faults.
Context `{!JsonText} {N S D R : Type} `{!NfsLib N, !LibWorld S, !LibWorldLaws S, !NfsApi N S, !NfsApiLaws N S, !Uring R}.
Notation dev := (ublksrv_dev D).
Notation Q := (queue R (nfs_queue_data N)).

Lemma nfs_init_tgt_ledger mem argc opts junk url (dv : dev) (s : S) ret dv' url' s' :
  nfs_init_tgt mem argc opts junk url dv s = Some (ret, dv', url', s') -> ublksrv_is_recovering argc (dv_ctrl dv) = false ->
  0 <= ret -> exists u, url' = Some u /\ gains [OUrl u] s s'.
Proof.
  unfold nfs_init_tgt. intros Ht Hrec Hret. rewrite Hrec in Ht. destruct (has _ _); [injection Ht as <- _ _ _; lia|].
  destruct (last opts) as [[nfsurl]|]; [|injection Ht as <- _ _ _; unfold EINVAL in *; lia].
  destruct (nfs_init nfsurl url s) as [[[d url1] s1]|] eqn:Ei; [|done]. cbn [mbind option_bind] in Ht.
  destruct d as [d|]; [|injection Ht as <- _ _ _; unfold ENOMEM in *; lia].
  destruct (nfs_connection_gains _ _ _ _ _ _ Ei) as (u&->&Hl).
  destruct (jwrite _ dv) as [dv1|]; [|done]. cbn [mbind option_bind] in Ht.
  destruct (jwrite _ dv1) as [dv2|]; [|done]. cbn [mbind option_bind] in Ht.
  destruct (jwrite _ dv2) as [dv3|]; [|done]. cbn [mbind option_bind] in Ht.
  destruct (jwrite _ dv3) as [dv4|]; [|done]. cbn [mbind option_bind] in Ht.
  destruct (nfs_setup_tgt junk dv4) as [[r dv5]|]; [|done]. cbn [mbind option_bind] in Ht. injection Ht as <- <- <- <-.
  exists u. split; [done|]. exact Hl.
Qed.

Lemma nfs_queue_life_ledger epoll_ctl epoll_add cb url (dv : dev) (q : Q) (s : S) ret d q' url' s1 s2 :
  nfs_init_queue epoll_ctl epoll_add cb url dv q s = Some (ret, Some d, q', url', s1) ->
  nfs_deinit_queue (Some d) s1 = Some s2 -> exists u, url' = Some u /\ gains [OUrl u] s s2.
Proof.
  unfold nfs_init_queue. destruct (sys_calloc s) as [p s0] eqn:Ec. apply calloc_gains in Ec.
  destruct (jread_str PATH_MAX "url" dv) as [[r name]|]; [|done]. cbn [mbind option_bind].
  destruct (r <? 0); [done|]. destruct p as [addr|]; [|done].
  destruct (nfs_init _ url s0) as [[[c url1] s3]|] eqn:Ei; [|done]. cbn [mbind option_bind].
  destruct c as [c|]; [|done]. cbn [mbind option_bind]. destruct epoll_add as [[[depth fd] er] node].
  destruct (ublksrv_epoll_add_fd _ _ _ _ _ _ _ _ _) as [[k q1]|]; [|done]. cbn [mbind option_bind].
  intros [= <- <- <- <- <-] [= <-]. destruct (nfs_connection_gains _ _ _ _ _ _ Ei) as (u&->&Hl).
  exists u. split; [done|].
  eapply gains_release; [eapply gains_trans; [exact Ec|exact Hl]| |apply free_releases]. cbn. constructor.
Qed.

(** URLs of an nfs device are leaked: every connection, the one of the device's
    set-up and the one of each queue, parses the URL again into the global
    variable, and tear-down destroys only the last.  After the whole life of a
    device with one queue, the URL of the set-up is still allocated. *)
Theorem nfs_url_leaked mem argc opts junk (dv dv' : dev) (s s1 s2 s3 : S) url1 epoll_ctl epoll_add cb (q q' : Q) d url2 :
  ublksrv_is_recovering argc (dv_ctrl dv) = false ->
  nfs_init_tgt mem argc opts junk None dv s = Some (0, dv', url1, s1) ->
  nfs_init_queue epoll_ctl epoll_add cb url1 dv' q s1 = Some (0, Some d, q', url2, s2) ->
  nfs_deinit_queue (Some d) s2 = Some s3 ->
  exists u, url1 = Some u /\ live (nfs_deinit_tgt url2 s3) ≡ₚ OUrl u :: live s.
Proof.
  intros Hrec Hi Hq Hd. destruct (nfs_init_tgt_ledger _ _ _ _ _ _ _ _ _ _ _ Hi Hrec ltac:(done)) as (u&->&G1).
  destruct (nfs_queue_life_ledger _ _ _ _ _ _ _ _ _ _ _ _ _ Hq Hd) as (u2&->&G2). exists u. split; [done|].
  refine (gains_release (OUrl u2) _ [OUrl u] s s3 _ (gains_trans _ _ _ _ _ G1 G2) _ _); [reflexivity|].
  apply nfs_destroy_url_releases.
Qed.

(** A queue of an nfs device whose URL cannot be read: [nfs_init_queue] returns
    the error without giving back its memory and without setting the queue's
    private data, and the tear-down that follows reads through the NULL pointer. *)
Theorem nfs_failed_queue_crashes epoll_ctl epoll_add cb url (dv : dev) (q : Q) (s s1 : S) addr ret name :
  sys_calloc s = (Some addr, s1) -> jread_str PATH_MAX "url" dv = Some (ret, name) -> ret < 0 ->
  nfs_init_queue epoll_ctl epoll_add cb url dv q s = Some (ret, None, q, url, s1) /\
  live s1 ≡ₚ OMem addr :: live s /\ nfs_deinit_queue (N := N) None s1 = None.
Proof.
  intros Hc Hj Hr. unfold nfs_init_queue. rewrite Hc, Hj. cbn [mbind option_bind].
  rewrite (proj2 (Z.ltb_lt _ _) Hr). split; [done|]. split; [|done]. exact (calloc_gains _ _ _ Hc).
Qed.

(** A queue that cannot connect follows the NULL pointer [nfs_init] returned. *)
Theorem nfs_unreachable_crashes epoll_ctl epoll_add cb url (dv : dev) (q : Q) (s s1 : S) addr name url' s2 :
  sys_calloc s = (Some addr, s1) -> jread_str PATH_MAX "url" dv = Some (0, Some name) ->
  nfs_init (N := N) name url s1 = Some (None, url', s2) ->
  nfs_init_queue epoll_ctl epoll_add cb url dv q s = None.
Proof. intros Hc Hj Hi. unfold nfs_init_queue. rewrite Hc, Hj. cbn. by rewrite Hi. Qed.
End nfs_faults.
