(* ===== verification/Iscsi.v ===== *)
(** * The iscsi target (targets/ublk.iscsi.cpp): requests

    A request becomes a SCSI task of libiscsi; [IscsiLib] is what the target
    uses of a libiscsi context.  The entry of a tag in [ios] remembers the result
    the request will have, the buffer and the range to unmap. *)

From S2P Require Import Prelude Bytes UblkCmd Uring QueueTypes Batch Queue QueueSpec QueueSystem EventTgt.

(** [iov]: the one buffer of the task; protection, cache and group fields of
    the calls are zero. *)
Inductive iscsi_req :=
| IscsiRead16 (lun lba datalen blocksize : Z) (iov : Z * Z)
| IscsiWrite16 (lun lba datalen blocksize : Z) (iov : Z * Z)
| IscsiSyncCache16 (lun lba num_blocks : Z)
| IscsiUnmap (lun lba num : Z)
| IscsiWriteSame16 (lun lba datalen num_blocks : Z).

(** [iscsi_task r p n]: the task for [r] with the private pointer [p]; [false]
    is a NULL task.  [lcb_data] of a callback is the task. *)
Class IscsiLib (N : Type) := {
  #[global] iscsi_event_lib :: EventLib N;
  SCSI_STATUS_GOOD : Z;
  iscsi_task : iscsi_req -> Z -> N -> bool * N;
  scsi_free_scsi_task : Z -> N -> N
}.

Class IscsiLibLaws (N : Type) `{!IscsiLib N} : Prop := {
  #[global] iscsi_event_laws :: EventLibLaws N;
  iscsi_task_pending : forall r p n ok n', iscsi_task r p n = (ok, n') ->
    lib_pending n' ≡ₚ (if ok : bool then [p] else []) ++ lib_pending n;
  iscsi_free_pending : forall t n, lib_pending (scsi_free_scsi_task t n) = lib_pending n
}.

Record iscsi_tgt_data {N : Type} := mk_iscsi_tgt_data {
  id_addr : Z;           (* of the structure *)
  id_url : string;       (* char url[4096] *)
  id_initiator : string; (* char initiator[256] *)
  iscsi : N;             (* struct iscsi_context * *)
  lun : Z;               (* int *)
  iscsi_capacity : Z;    (* size_t *)
  block_size : Z;        (* int *)
  block_shift : Z        (* int *)
}.
#[global] Arguments iscsi_tgt_data N : clear implicits.
#[global] Arguments mk_iscsi_tgt_data {N}.

Record iscsi_cb_data := mk_iscsi_cb {
  icb_iov : Z * Z;    (* struct scsi_iovec: base and length *)
  icb_count : Z;      (* ssize_t *)
  icb_unmap : Z * Z   (* struct unmap_list: lba and num *)
}.
Definition zero_iscsi_cb : iscsi_cb_data := mk_iscsi_cb (0, 0) 0 (0, 0).

Record iscsi_queue_data {N : Type} := mk_iscsi_queue_data {
  iq_addr : Z;        (* of the structure *)
  iscsi_data : iscsi_tgt_data N;
  iscsi_events : Z;   (* int *)
  iq_ios : list iscsi_cb_data
}.
#[global] Arguments iscsi_queue_data N : clear implicits.
#[global] Arguments mk_iscsi_queue_data {N}.

(** [offsetof(struct iscsi_queue_data, ios)] *)
Definition iscsi_ios_offset : Z := 16.

Section iscsi_io.
Context {R : Type} `{!Uring R} {N : Type} `{!IscsiLib N}.
Notation D := (iscsi_queue_data N).
Notation Q := (queue R D).
Variable epoll_ctl : Z -> Z -> Q -> Z.
(** [sizeof(iscsi_cb_data_t)], which holds two structures of libiscsi. *)
Variable cb_size : Z.

Definition set_iscsi (n : N) (d : D) : D :=
  let t := iscsi_data d in
  mk_iscsi_queue_data (iq_addr d) (mk_iscsi_tgt_data (id_addr t) (id_url t) (id_initiator t) n (lun t) (iscsi_capacity t)
    (block_size t) (block_shift t)) (iscsi_events d) (iq_ios d).
Definition set_iscsi_events (e : Z) (d : D) : D := mk_iscsi_queue_data (iq_addr d) (iscsi_data d) e (iq_ios d).
Definition put_cb (tag : Z) (c : iscsi_cb_data) (d : D) : D :=
  mk_iscsi_queue_data (iq_addr d) (iscsi_data d) (iscsi_events d) (<[Z.to_nat tag := c]> (iq_ios d)).

(** [&q_data->ios[tag]] *)
Definition iscsi_ios (d : D) (tag : Z) : Z := iq_addr d + iscsi_ios_offset + cb_size * tag.

(** [cb->q] is the queue: [iscsi_init_queue] stores it in every entry. *)
Definition cb_data_to_tag (cb : Z) (d : D) : Z := s32 (u64 (cb - iscsi_ios d 0) / cb_size).

Definition rw_async_cb (c : lib_cb) (q : Q) : option Q :=
  let tag := u32 (cb_data_to_tag (lcb_private c) (private_data q)) in
  cb ← iq_ios (private_data q) !! Z.to_nat tag;
  let cb := if negb (lcb_status c =? SCSI_STATUS_GOOD) then mk_iscsi_cb (icb_iov cb) (- EIO) (icb_unmap cb) else cb in
  let q := set_private_data (put_cb tag cb (private_data q)) q in
  '(_, q) ← ublksrv_complete_io tag (s32 (icb_count cb)) q;
  let n := scsi_free_scsi_task (lcb_data c) (iscsi (iscsi_data (private_data q))) in
  Some (set_private_data (set_iscsi n (private_data q)) q).

(** A failure of [iscsi_service] is only reported. *)
Definition iscsi_socket_cb (revents : Z) (q : Q) : option Q :=
  let '(_, cbs, n) := lib_service revents (iscsi (iscsi_data (private_data q))) in
  q ← run_cbs rw_async_cb cbs (set_private_data (set_iscsi n (private_data q)) q);
  let n := iscsi (iscsi_data (private_data q)) in
  let events := lib_which_events n in
  if negb (events =? iscsi_events (private_data q)) then
    let '(_, q) := ublksrv_epoll_mod_fd epoll_ctl (lib_get_fd n) events q in
    Some (set_private_data (set_iscsi_events events (private_data q)) q)
  else Some q.

(** Handing a task to the library: -ENOMEM when it gives none. *)
Definition iscsi_call (r : iscsi_req) (tag : Z) (d : D) : Z * D :=
  let '(ok, n) := iscsi_task r (iscsi_ios d tag) (iscsi (iscsi_data d)) in
  (if ok then 0 else - ENOMEM, set_iscsi n d).

Definition bytes32 (iod : ublksrv_io_desc) : Z := u32 (nr_sectors iod * 512).
Definition lba_of (iod : ublksrv_io_desc) (t : iscsi_tgt_data N) : Z := Z.shiftr (start_sector iod) (block_shift t).
Definition blocks_of (iod : ublksrv_io_desc) (t : iscsi_tgt_data N) : Z := Z.shiftr (nr_sectors iod) (block_shift t).

Definition iscsi_tgt_read (iod : ublksrv_io_desc) (tag : Z) (d : D) : option (Z * D) :=
  let t := iscsi_data d in
  cb ← iq_ios d !! Z.to_nat tag;
  if past_end iod (iscsi_capacity t) then Some (- EINVAL, d)
  else
    let iov := (iod_addr iod, bytes32 iod) in
    Some (iscsi_call (IscsiRead16 (lun t) (lba_of iod t) (bytes32 iod) (block_size t) iov) tag
            (put_cb tag (mk_iscsi_cb iov (bytes32 iod) (icb_unmap cb)) d)).

Definition iscsi_tgt_write (iod : ublksrv_io_desc) (tag : Z) (d : D) : option (Z * D) :=
  let t := iscsi_data d in
  cb ← iq_ios d !! Z.to_nat tag;
  if past_end iod (iscsi_capacity t) then Some (- EINVAL, d)
  else
    let iov := (iod_addr iod, bytes32 iod) in
    Some (iscsi_call (IscsiWrite16 (lun t) (lba_of iod t) (bytes32 iod) (block_size t) iov) tag
            (put_cb tag (mk_iscsi_cb iov (bytes32 iod) (icb_unmap cb)) d)).

Definition iscsi_tgt_flush (tag : Z) (d : D) : option (Z * D) :=
  cb ← iq_ios d !! Z.to_nat tag;
  Some (iscsi_call (IscsiSyncCache16 (lun (iscsi_data d)) 0 0) tag (put_cb tag (mk_iscsi_cb (icb_iov cb) 0 (icb_unmap cb)) d)).

Definition iscsi_tgt_unmap (iod : ublksrv_io_desc) (tag : Z) (d : D) : option (Z * D) :=
  let t := iscsi_data d in
  cb ← iq_ios d !! Z.to_nat tag;
  if past_end iod (iscsi_capacity t) then Some (- EINVAL, d)
  else
    let range := (lba_of iod t, blocks_of iod t) in
    Some (iscsi_call (IscsiUnmap (lun t) range.1 range.2) tag (put_cb tag (mk_iscsi_cb (icb_iov cb) 0 range) d)).

(** The data is one block of [zero_page]. *)
Definition iscsi_tgt_write_zeroes (iod : ublksrv_io_desc) (tag : Z) (d : D) : option (Z * D) :=
  let t := iscsi_data d in
  cb ← iq_ios d !! Z.to_nat tag;
  if past_end iod (iscsi_capacity t) then Some (- EINVAL, d)
  else Some (iscsi_call (IscsiWriteSame16 (lun t) (lba_of iod t) (block_size t) (blocks_of iod t)) tag
               (put_cb tag (mk_iscsi_cb (icb_iov cb) 0 (icb_unmap cb)) d)).

Definition iscsi_dispatch (iod : ublksrv_io_desc) (tag : Z) (d : D) : option (Z * D) :=
  let ublk_op := ublksrv_get_op iod in
  if ublk_op =? UBLK_IO_OP_READ then iscsi_tgt_read iod tag d
  else if ublk_op =? UBLK_IO_OP_WRITE then iscsi_tgt_write iod tag d
  else if ublk_op =? UBLK_IO_OP_DISCARD then iscsi_tgt_unmap iod tag d
  else if ublk_op =? UBLK_IO_OP_FLUSH then iscsi_tgt_flush tag d
  else if ublk_op =? UBLK_IO_OP_WRITE_ZEROES then iscsi_tgt_write_zeroes iod tag d
  else Some (- EINVAL, d).

Definition iscsi_handle_io_async (tag : Z) (q : Q) : option (Z * Q) :=
  iod ← get_iod q tag;
  '(ret, d) ← iscsi_dispatch iod tag (private_data q);
  finish_async ret tag (set_private_data d q).

Definition iscsi_tgt_type : ublksrv_tgt_type R D := mk_tgt_type iscsi_handle_io_async None None None None.

(** The only callback the target registers with epoll. *)
Definition iscsi_epoll_call (cb revents : Z) (q : Q) : option Q := iscsi_socket_cb revents q.
End iscsi_io.

(** ** The target keeps to the callback interface *)
Section iscsi_laws.
Context {R : Type} `{!Uring R, !UringLaws R} {N : Type} `{!IscsiLib N, !IscsiLibLaws N}.
Notation D := (iscsi_queue_data N).
Notation Q := (queue R D).
Implicit Types (q : Q) (d : D).
Variable cb_size : Z.
Hypothesis cb_size_ok : 0 < cb_size < 2^32.

Definition iscsi_cookie (d : D) (i : nat) : Z := iscsi_ios cb_size d (Z.of_nat i).
Definition iscsi_ctx (d : D) : N := iscsi (iscsi_data d).
(** There is an entry for every tag. *)
Definition iscsi_ok (d : D) (n : nat) : Prop := length (iq_ios d) = n.

Lemma iscsi_cb_tag d i n : (i < n)%nat -> Z.of_nat n <= UBLK_MAX_QUEUE_DEPTH ->
  cb_data_to_tag cb_size (iscsi_cookie d i) d = Z.of_nat i.
Proof.
  intros Hi Hn. unfold UBLK_MAX_QUEUE_DEPTH in Hn. unfold cb_data_to_tag, iscsi_cookie, iscsi_ios.
  replace (iq_addr d + iscsi_ios_offset + cb_size * Z.of_nat i - (iq_addr d + iscsi_ios_offset + cb_size * 0))
    with (Z.of_nat i * cb_size) by lia.
  rewrite u64_id by (unfold is_u64; nia). rewrite Z.div_mul by lia. apply s32_id. unfold is_s32. lia.
Qed.

Definition iscsi_inv : tgt_view D -> list tag_state -> Prop := lib_inv iscsi_ctx iscsi_cookie iscsi_ok.

Lemma same_put_cb d tag c n : same_requests iscsi_cookie iscsi_ok d (set_iscsi n (put_cb tag c d)).
Proof. split; [|done]. intros k <-. unfold iscsi_ok. cbn. by rewrite length_insert. Qed.

Lemma iscsi_dispatch_ok iod i d n :
  iscsi_ok d n -> (i < n)%nat ->
  exists ret d', iscsi_dispatch cb_size iod (Z.of_nat i) d = Some (ret, d') /\
    same_requests iscsi_cookie iscsi_ok d d' /\ is_s32 ret /\
    lib_pending (iscsi_ctx d') ≡ₚ (if ret =? 0 then [iscsi_cookie d' i] else []) ++ lib_pending (iscsi_ctx d).
Proof.
  intros Hok Hi. destruct (lookup_lt_is_Some_2 (iq_ios d) i) as [cb Hcb]; [by rewrite Hok|].
  assert (Hcall : forall r c, exists ret d', Some (iscsi_call cb_size r (Z.of_nat i) (put_cb (Z.of_nat i) c d)) = Some (ret, d') /\
    same_requests iscsi_cookie iscsi_ok d d' /\ is_s32 ret /\
    lib_pending (iscsi_ctx d') ≡ₚ (if ret =? 0 then [iscsi_cookie d' i] else []) ++ lib_pending (iscsi_ctx d)).
  { intros r c. unfold iscsi_call. destruct (iscsi_task r _ _) as [b n'] eqn:E. eexists _, _. split; [done|].
    split; [apply same_put_cb|]. apply iscsi_task_pending in E.
    change (lib_pending (iscsi_ctx (set_iscsi n' (put_cb (Z.of_nat i) c d)))) with (lib_pending n').
    rewrite E. by destruct b. }
  assert (Herr : forall e, is_s32 e -> e <> 0 -> exists ret d', Some (e, d) = Some (ret, d') /\
    same_requests iscsi_cookie iscsi_ok d d' /\ is_s32 ret /\
    lib_pending (iscsi_ctx d') ≡ₚ (if ret =? 0 then [iscsi_cookie d' i] else []) ++ lib_pending (iscsi_ctx d)).
  { intros e He Hne. exists e, d. by rewrite (proj2 (Z.eqb_neq _ _) Hne). }
  unfold iscsi_dispatch, iscsi_tgt_read, iscsi_tgt_write, iscsi_tgt_unmap, iscsi_tgt_flush, iscsi_tgt_write_zeroes.
  rewrite Nat2Z.id, Hcb. cbn [mbind option_bind]. repeat case_match; first [apply Hcall|by apply Herr].
Qed.

Definition iscsi_result (d : D) (i : nat) (c : lib_cb) : Z :=
  if negb (lcb_status c =? SCSI_STATUS_GOOD) then - EIO
  else s32 (default 0 (icb_count <$> iq_ios d !! i)).

Lemma iscsi_result_s32 d i c : is_s32 (iscsi_result d i c).
Proof. unfold iscsi_result. case_match; [done|apply s32_bound]. Qed.

(** The callback, in terms of the tag. *)
Lemma iscsi_cb_unfold q A i c :
  qsim q A -> iscsi_ok (private_data q) (length (a_tags A)) -> a_tags A !! i = Some TTarget ->
  lcb_private c = iscsi_cookie (private_data q) i ->
  exists cb, rw_async_cb cb_size c q =
    ('(_, q) ← ublksrv_complete_io (Z.of_nat i) (iscsi_result (private_data q) i c)
       (set_private_data (put_cb (Z.of_nat i) cb (private_data q)) q);
     Some (set_private_data (set_iscsi (scsi_free_scsi_task (lcb_data c) (iscsi (iscsi_data (private_data q))))
       (private_data q)) q)).
Proof.
  intros Hs Hok Ht Hc. unfold rw_async_cb. destruct (qsim_tag_lt q A i _ Hs Ht) as [Hi _].
  rewrite Hc, (iscsi_cb_tag _ i (S i)) by (unfold UBLK_MAX_QUEUE_DEPTH in *; lia).
  rewrite u32_id by (unfold is_u32, UBLK_MAX_QUEUE_DEPTH in *; lia). rewrite Nat2Z.id.
  destruct (lookup_lt_is_Some_2 (iq_ios (private_data q)) i) as [cb Hcb].
  { rewrite Hok. by eapply lookup_lt_Some. }
  unfold iscsi_result. rewrite Hcb. cbn [mbind option_bind fmap option_fmap option_map default from_option id].
  destruct (negb _); eexists; reflexivity.
Qed.

Lemma iscsi_freed d t :
  same_requests iscsi_cookie iscsi_ok d (set_iscsi (scsi_free_scsi_task t (iscsi (iscsi_data d))) d) /\
  lib_pending (iscsi_ctx (set_iscsi (scsi_free_scsi_task t (iscsi (iscsi_data d))) d)) = lib_pending (iscsi_ctx d).
Proof. split; [done|]. apply iscsi_free_pending. Qed.

Lemma iscsi_cb_ok : cb_completes iscsi_ctx iscsi_cookie iscsi_ok (rw_async_cb (R := R) cb_size).
Proof.
  intros c q A i Hs Hok Ht Hc Hst. destruct (iscsi_cb_unfold q A i c Hs Hok Ht Hc) as (cb&->).
  set (q0 := set_private_data _ q). assert (Hs0 : qsim q0 A) by (by apply qsim_private).
  destruct (complete_keeps q0 A i _ Hs0 Ht (iscsi_result_s32 (private_data q) i c)) as (r&q'&A'&->&Hco&Hs'&Hv&He&Hrest).
  cbn [mbind option_bind]. eexists _, A'. split; [done|]. split; [done|]. split; [by apply qsim_private|].
  assert (Hd : private_data q' = put_cb (Z.of_nat i) cb (private_data q)) by (by apply (f_equal v_data) in Hv).
  change (private_data (set_private_data ?t ?x)) with t. rewrite Hd.
  split; [apply same_put_cb|]. split; [apply (iscsi_freed (put_cb _ cb (private_data q)))|]. done.
Qed.

(** When the socket is ready the library's answers complete tags the target
    holds; the events watched are updated. *)
Lemma iscsi_socket_cb_safe epoll_ctl revents q A :
  qsim q A -> iscsi_inv (view q) (a_tags A) -> cb_safe iscsi_inv (iscsi_socket_cb epoll_ctl cb_size revents) q A.
Proof.
  intros Hs Hinv. unfold cb_safe, iscsi_socket_cb.
  destruct (lib_service revents (iscsi (iscsi_data (private_data q)))) as [[ret cbs] n] eqn:E.
  destruct (service_safe iscsi_ctx iscsi_cookie iscsi_ok (rw_async_cb cb_size) revents q A ret cbs n
    (set_iscsi n (private_data q)) iscsi_cb_ok Hs Hinv E eq_refl) as (q1&A1&->&Hc&Hs1&Hi1&He1); [done|].
  cbn [mbind option_bind]. destruct (negb _); [|by exists q1, A1].
  unfold ublksrv_epoll_mod_fd. destruct (list_find _ _) as [[k e]|].
  - eexists _, A1. split; [done|]. split; [done|]. split; [by apply qsim_private, qsim_log_ev|]. by split.
  - eexists _, A1. split; [done|]. split; [done|]. split; [by apply qsim_private|]. by split.
Qed.

#[export] Program Instance iscsi_laws : TargetLaws (iscsi_tgt_type (R := R) (N := N) cb_size) := {|
  tinv := iscsi_inv;
  tgt_cqe_ok _ _ := False
|}.
Next Obligation. intros. by eapply lib_inv_held. Qed.
Next Obligation.
  intros q A i op Hs Ht Hinv. cbn [iscsi_tgt_type handle_io_async]. unfold iscsi_handle_io_async.
  destruct (qsim_get_iod q A i _ Hs Ht) as (iod&Hiod&_). pose proof (lookup_lt_Some _ _ _ Ht) as Hlt.
  destruct Hinv as [Hok Hin]. rewrite length_insert in Hok.
  destruct (iscsi_dispatch_ok iod i (private_data q) _ Hok Hlt) as (ret&d'&E&Hsame&Hr&Hp).
  destruct (finish_async_safe iscsi_ctx iscsi_cookie iscsi_ok q A i op d' ret Hs Ht) as (q'&A'&Hq'&Hrest); [|done..|].
  { split; [by rewrite length_insert|done]. }
  exists q', A'. split; [|done]. rewrite Hiod. cbn [mbind option_bind]. rewrite E. done.
Qed.
Next Obligation. done. Qed.
Next Obligation. done. Qed.
Next Obligation. done. Qed.
Next Obligation. done. Qed.
End iscsi_laws.

(** ** What a request becomes *)
Section iscsi_spec.
Context {R : Type} `{!Uring R, !UringLaws R} {N : Type} `{!IscsiLib N, !IscsiLibLaws N}.
Notation D := (iscsi_queue_data N).
Notation Q := (queue R D).
Implicit Types (q : Q) (d : D) (t : iscsi_tgt_data N).
Variable cb_size : Z.
Hypothesis cb_size_ok : 0 < cb_size < 2^32.

(** The bytes of the LUN a command reads or writes. *)
Definition scsi_range (bs : Z) (r : iscsi_req) : option (Z * Z) :=
  match r with
  | IscsiRead16 _ lba datalen _ _ | IscsiWrite16 _ lba datalen _ _ => Some (lba * bs, datalen)
  | IscsiUnmap _ lba num | IscsiWriteSame16 _ lba _ num => Some (lba * bs, num * bs)
  | IscsiSyncCache16 _ _ _ => None
  end.

(** The command for an operation, with the number of bytes it reports. *)
Definition iscsi_request t (iod : ublksrv_io_desc) : (iscsi_req * Z) + Z :=
  let op := ublksrv_get_op iod in
  let len := nr_sectors iod * 512 in
  let buf := (iod_addr iod, len) in
  let ranged (r : iscsi_req * Z) := if iscsi_capacity t <? start_sector iod * 512 + len then inr (- EINVAL) else inl r in
  if op =? UBLK_IO_OP_READ then ranged (IscsiRead16 (lun t) (lba_of iod t) len (block_size t) buf, len)
  else if op =? UBLK_IO_OP_WRITE then ranged (IscsiWrite16 (lun t) (lba_of iod t) len (block_size t) buf, len)
  else if op =? UBLK_IO_OP_DISCARD then ranged (IscsiUnmap (lun t) (lba_of iod t) (blocks_of iod t), 0)
  else if op =? UBLK_IO_OP_FLUSH then inl (IscsiSyncCache16 (lun t) 0 0, 0)
  else if op =? UBLK_IO_OP_WRITE_ZEROES then
    ranged (IscsiWriteSame16 (lun t) (lba_of iod t) (block_size t) (blocks_of iod t), 0)
  else inr (- EINVAL).

(** A block request in whole blocks of the LUN. *)
Definition lun_request t (iod : ublksrv_io_desc) : Prop :=
  block_request iod /\ 0 <= block_shift t /\ block_size t = 512 * 2^block_shift t /\
  (2^block_shift t | start_sector iod) /\ (2^block_shift t | nr_sectors iod).

(** Whole blocks: shifting the sectors loses nothing. *)
Lemma shifted_blocks s t x : 0 <= block_shift t -> block_size t = 512 * 2^block_shift t -> (2^block_shift t | x) ->
  x = s -> Z.shiftr s (block_shift t) * block_size t = s * 512.
Proof.
  intros H0 Hb [k Hk] <-. rewrite Z.shiftr_div_pow2 by done. rewrite Hk, Z.div_mul, Hb; [lia|].
  pose proof (Z.pow_pos_nonneg 2 (block_shift t)). lia.
Qed.

Lemma iscsi_request_range t iod r n : lun_request t iod -> iscsi_request t iod = inl (r, n) ->
  r = IscsiSyncCache16 (lun t) 0 0 \/
  scsi_range (block_size t) r = Some (start_sector iod * 512, nr_sectors iod * 512) /\
  start_sector iod * 512 + nr_sectors iod * 512 <= iscsi_capacity t.
Proof.
  intros (_&H5&H6&H7&H8).
  pose proof (shifted_blocks (start_sector iod) t _ H5 H6 H7 eq_refl) as Hs.
  pose proof (shifted_blocks (nr_sectors iod) t _ H5 H6 H8 eq_refl) as Hn.
  unfold iscsi_request, lba_of, blocks_of.
  repeat case_match; intros [= <- <-]; try (by left); right; bool_prop; cbn [scsi_range]; rewrite ?Hs, ?Hn; split; (done || lia).
Qed.

Lemma iscsi_dispatch_spec iod i d cb : lun_request (iscsi_data d) iod -> iq_ios d !! i = Some cb ->
  exists cb', iscsi_dispatch cb_size iod (Z.of_nat i) d = Some (match iscsi_request (iscsi_data d) iod with
    | inl (r, n) => iscsi_call cb_size r (Z.of_nat i) (put_cb (Z.of_nat i) cb' d)
    | inr e => (e, d)
    end) /\ forall r n, iscsi_request (iscsi_data d) iod = inl (r, n) -> icb_count cb' = n.
Proof.
  intros Hb Hcb. destruct Hb as [Hb _]. pose proof Hb as (H1&H2&H3&_).
  unfold iscsi_dispatch, iscsi_request, iscsi_tgt_read, iscsi_tgt_write, iscsi_tgt_unmap, iscsi_tgt_flush, iscsi_tgt_write_zeroes.
  assert (Hbytes : bytes32 iod = nr_sectors iod * 512) by (apply u32_id; unfold is_u32; lia).
  rewrite (past_end_spec iod _ Hb), Nat2Z.id, Hcb, Hbytes. cbn [mbind option_bind].
  repeat case_match; try done; eexists; (split; [reflexivity|]); (intros ? ? [= <- <-]; reflexivity) || done.
Unshelve. all: exact cb.
Qed.

(** C39: The iscsi target turns a request into one SCSI command for the
    same bytes of the LUN: with blocks of 512 or 4096 bytes the command's
    blocks are exactly the sectors of the request, inside the capacity, to or
    from its buffer, and the entry of the tag remembers the bytes to report
    (none for a flush, discard or write of zeroes).  What lies past the end and
    what the library refuses is completed at once with the error. *)
Theorem iscsi_request_exact `{!UringProgress R} q A i iod :
  qsim q A -> iscsi_ok (private_data q) (length (a_tags A)) -> a_tags A !! i = Some TTarget ->
  get_iod q (Z.of_nat i) = Some iod -> lun_request (iscsi_data (private_data q)) iod ->
  exists ret q', iscsi_handle_io_async cb_size (Z.of_nat i) q = Some (ret, q') /\
    match iscsi_request (iscsi_data (private_data q)) iod with
    | inl (r, bytes) =>
        let '(ok, n) := iscsi_task r (iscsi_cookie cb_size (private_data q) i) (iscsi_ctx (private_data q)) in
        ret = (if ok : bool then 0 else - ENOMEM) /\ iscsi_ctx (private_data q') = n /\
        (icb_count <$> iq_ios (private_data q') !! i) = Some bytes /\
        (r = IscsiSyncCache16 (lun (iscsi_data (private_data q))) 0 0 \/
         scsi_range (block_size (iscsi_data (private_data q))) r =
           Some (start_sector iod * 512, nr_sectors iod * 512))
    | inr e => ret = e /\ private_data q' = private_data q
    end /\
    io_commands (ring_log (ring q')) = io_commands (ring_log (ring q)) ++
      (if ret =? 0 then [] else [command i UBLK_IO_COMMIT_AND_FETCH_REQ (Some ret)]).
Proof.
  intros Hs Hok Ht Hiod Hb. pose proof (lookup_lt_Some _ _ _ Ht) as Hlt.
  destruct (lookup_lt_is_Some_2 (iq_ios (private_data q)) i) as [cb Hcb]; [by rewrite Hok|].
  destruct (iscsi_dispatch_ok cb_size iod i (private_data q) _ Hok Hlt) as (ret&d'&E&_&Hr&_).
  destruct (iscsi_dispatch_spec iod i (private_data q) cb Hb Hcb) as (cb'&Esp&Hcount).
  unfold iscsi_handle_io_async. rewrite Hiod. cbn [mbind option_bind]. rewrite E. cbn [mbind option_bind].
  rewrite Esp in E. injection E as E.
  destruct (finish_async_log q A i d' ret Hs Ht Hr) as (q'&->&Hd&Hl). exists ret, q'. split; [done|]. split; [|done].
  rewrite Hd. destruct (iscsi_request _ iod) as [[r n]|e] eqn:Erq; [|by injection E as <- <-].
  unfold iscsi_call in E. unfold iscsi_cookie, iscsi_ctx.
  change (iscsi_ios cb_size (put_cb _ cb' (private_data q)) ?x) with (iscsi_ios cb_size (private_data q) x) in E.
  change (iscsi (iscsi_data (put_cb _ cb' (private_data q)))) with (iscsi (iscsi_data (private_data q))) in E.
  destruct (iscsi_task r _ _) as [okb n']. injection E as <- <-. split; [done|]. split; [done|]. split.
  - cbn. rewrite Nat2Z.id, list_lookup_insert_eq by (by rewrite Hok). cbn. f_equal. by eapply Hcount.
  - destruct (iscsi_request_range _ _ _ _ Hb Erq) as [?|[? _]]; auto.
Qed.

Lemma iscsi_cb_answers `{!UringProgress R} :
  cb_answers iscsi_ctx (iscsi_cookie cb_size) iscsi_ok (rw_async_cb (R := R) cb_size) iscsi_result.
Proof.
  intros c q A i Hs Hok Ht Hc Hst. destruct (iscsi_cb_unfold cb_size cb_size_ok q A i c Hs Hok Ht Hc) as (cb&->).
  set (q0 := set_private_data _ q). assert (Hs0 : qsim q0 A) by (by apply qsim_private).
  destruct (complete_io_progress q0 A i _ Hs0 Ht (iscsi_result_s32 (private_data q) i c)) as (q'&->&(Hv&_)&Hs').
  cbn [mbind option_bind]. eexists. split; [done|]. split; [by apply qsim_private|].
  assert (Hd : private_data q' = put_cb (Z.of_nat i) cb (private_data q)) by (by apply (f_equal v_data) in Hv).
  change (private_data (set_private_data ?t ?x)) with t. rewrite Hd.
  split; [apply same_put_cb|]. split; [apply (iscsi_freed cb_size (put_cb _ cb (private_data q)))|].
  intros j c' Hne. unfold iscsi_result. cbn. rewrite Nat2Z.id, list_lookup_insert_ne by done. done.
Qed.

(** Every task that ends reaches the driver once: when the socket is
    ready and the library calls back for some tasks, the tags of exactly those
    tasks are committed, in the order of the callbacks, with the bytes noted when
    the request was submitted or with -EIO when the SCSI status is not good; the
    requests still pending are those the library keeps. *)
Theorem iscsi_answers_reach_driver `{!UringProgress R} epoll_ctl revents q A ret cbs n :
  qsim q A -> iscsi_inv cb_size (view q) (a_tags A) ->
  lib_service revents (iscsi_ctx (private_data q)) = (ret, cbs, n) ->
  exists q' ids, iscsi_socket_cb epoll_ctl cb_size revents q = Some q' /\
    map lcb_private cbs = map (iscsi_cookie cb_size (private_data q)) ids /\ NoDup ids /\
    io_commands (ring_log (ring q')) = io_commands (ring_log (ring q)) ++
      zip_with (fun i c => command i UBLK_IO_COMMIT_AND_FETCH_REQ (Some (iscsi_result (private_data q) i c))) ids cbs /\
    lib_pending (iscsi_ctx (private_data q')) = lib_pending n /\
    iscsi_events (private_data q') = lib_which_events (iscsi_ctx (private_data q')).
Proof.
  intros Hs [Hok Hin] Hsv. unfold iscsi_socket_cb. unfold iscsi_ctx in Hsv. rewrite Hsv.
  pose proof (service_pending _ _ _ _ _ Hsv) as Hp. change (v_data (view q)) with (private_data q) in *.
  unfold iscsi_ctx in Hin. rewrite Hp in Hin. apply in_library_answers in Hin as (ids&Hids&Hnd&Hf).
  set (q0 := set_private_data (set_iscsi n (private_data q)) q).
  destruct (run_cbs_answers iscsi_ctx (iscsi_cookie cb_size) iscsi_ok (rw_async_cb cb_size) iscsi_result ids cbs q0 A
    iscsi_cb_answers) as (q1&A1&->&Hs1&Hl1&_&Hp1&_); [by apply qsim_private|done|by eapply service_status|done|done|done|].
  cbn [mbind option_bind].
  assert (Hlog : io_commands (ring_log (ring q1)) = io_commands (ring_log (ring q)) ++
      zip_with (fun i c => command i UBLK_IO_COMMIT_AND_FETCH_REQ (Some (iscsi_result (private_data q) i c))) ids cbs)
    by (by rewrite (qs_log _ _ Hs1), Hl1, (qs_log _ _ Hs)).
  destruct (Z.eqb_spec (lib_which_events (iscsi (iscsi_data (private_data q1)))) (iscsi_events (private_data q1))) as [He|He];
    cbn [negb]; [by exists q1, ids|].
  unfold ublksrv_epoll_mod_fd. destruct (list_find _ _) as [[k e]|]; by eexists _, ids.
Qed.

(** A queue of the iscsi target never fails: in every reachable state an
    iteration of the queue's loop completes, and it reports the end exactly when
    the queue is done. *)
Theorem iscsi_queue_runs epoll_wait epoll_ctl max q K cqes :
  (forall (q : Q) addr ev, (addr, ev) ∈ epoll_wait q -> is_Some (find_ecb addr (epoll_callbacks q))) ->
  reachable (iscsi_tgt_type cb_size) epoll_wait (iscsi_epoll_call epoll_ctl cb_size) q K ->
  legal_cqes (iscsi_tgt_type cb_size) epoll_wait (iscsi_epoll_call epoll_ctl cb_size) (after_wait q) K cqes ->
  exists ret q', ublksrv_process_io (iscsi_tgt_type cb_size) epoll_wait (iscsi_epoll_call epoll_ctl cb_size) max cqes q = Some (ret, q') /\
    ret = (if __ublksrv_queue_is_done q then - ENODEV else Z.of_nat (length cqes)) /\
    exists A, qsim q' A /\ iscsi_inv cb_size (view q') (a_tags A).
Proof.
  intros Hreg Hr Hl.
  assert (Hsafe : forall cb ev (q : Q) A, qsim q A -> tinv (TargetLaws := iscsi_laws cb_size) (view q) (a_tags A) ->
    cb_safe (tinv (TargetLaws := iscsi_laws cb_size)) (iscsi_epoll_call epoll_ctl cb_size cb ev) q A)
    by (intros; by apply (iscsi_socket_cb_safe cb_size cb_size_ok)).
  apply (reachable_inv _ _ _ Hreg Hsafe) in Hr.
  destruct (process_io_inv _ _ _ Hreg Hsafe max q K cqes Hr Hl) as (ret&q'&K'&?&(A&?&?&_)&?).
  exists ret, q'. split; [done|]. split; [done|]. by exists A.
Qed.
End iscsi_spec.
