(* ===== verification/IscsiSetup.v ===== *)
(** * The iscsi target: set-up and tear-down

    The callbacks of targets/ublk.iscsi.cpp that log in to the LUN, describe
    the device and set a queue up.  libiscsi is the interface [IscsiApi]; [url],
    the program's global variable, is passed along ([None]: NULL).  [None] as a
    result is undefined behaviour: a NULL pointer that is followed, or an array
    that is read past its end. *)

From S2P Require Import Prelude Bytes UblkCmd Uring QueueTypes Batch Queue Params Json Ctrl QueueSetup DevSetup TgtInit JsonDoc TgtInitSpec EventTgt Iscsi LibWorld.

Definition sizeof_iscsi_url : Z := 4096.
Definition sizeof_initiator : Z := 256.

(** The calls on a context [N]; a URL and a task are named by their pointers. *)
Class IscsiApi (N S : Type) `{!LibWorld S} := {
  iscsi_ctx_id : N -> Z;
  iscsi_create_context : string -> S -> option N * S;
  iscsi_parse_full_url : N -> string -> S -> option Z * N * S;
  url_lun : Z -> S -> Z;
  iscsi_set_session : N -> N;                                (* normal session, header digest *)
  iscsi_full_connect_sync : N -> Z -> S -> Z * N * S;
  iscsi_readcapacity16_sync : N -> Z -> S -> option Z * N * S;
  task_status : Z -> S -> Z;
  scsi_datain_unmarshall : Z -> S -> option (Z * Z);         (* block_length and returned_lba *)
  scsi_free_task : Z -> S -> S;
  iscsi_logout_sync : N -> S -> N * S;
  iscsi_destroy_url : Z -> S -> S;
  iscsi_destroy_context : N -> S -> S
}.

Class IscsiApiLaws (N S : Type) `{!LibWorld S, !IscsiApi N S} : Prop := {
  iscsi_context_gains : forall i s r s', iscsi_create_context i s = (r, s') ->
    gains (opt_obj (fun n => OCtx (iscsi_ctx_id n)) r) s s';
  iscsi_parse_gains : forall n u s r n' s', iscsi_parse_full_url n u s = (r, n', s') ->
    gains (opt_obj OUrl r) s s' /\ iscsi_ctx_id n' = iscsi_ctx_id n;
  iscsi_set_session_id : forall n, iscsi_ctx_id (iscsi_set_session n) = iscsi_ctx_id n;
  iscsi_connect_gains : forall n u s r n' s', iscsi_full_connect_sync n u s = (r, n', s') ->
    gains (if r =? 0 then [OSession (iscsi_ctx_id n)] else []) s s' /\ iscsi_ctx_id n' = iscsi_ctx_id n;
  iscsi_readcap_gains : forall n l s r n' s', iscsi_readcapacity16_sync n l s = (r, n', s') ->
    gains (opt_obj OTask r) s s' /\ iscsi_ctx_id n' = iscsi_ctx_id n;
  iscsi_task_releases : forall t s, releases_obj (OTask t) s (scsi_free_task t s);
  iscsi_logout_releases : forall n s n' s', iscsi_logout_sync n s = (n', s') ->
    releases_obj (OSession (iscsi_ctx_id n)) s s' /\ iscsi_ctx_id n' = iscsi_ctx_id n;
  iscsi_destroy_url_releases : forall u s, releases_obj (OUrl u) s (iscsi_destroy_url u s);
  iscsi_destroy_context_releases : forall n s, releases_obj (OCtx (iscsi_ctx_id n)) s (iscsi_destroy_context n s)
}.

Inductive iscsi_opt :=
| IoIscsi (arg : string)        (* --iscsi *)
| IoInitiator (arg : string).   (* --initiator-name *)

Section iscsi_setup.
Context `{!JsonText} {N S D : Type} `{!IscsiLib N, !LibWorld S, !IscsiApi N S}.
Notation dev := (ublksrv_dev D).
Variable mem : Z -> bool.

(** The ends of [iscsi_init] that fail, from the last label to the first. *)
Definition iscsi_fail_url (addr u : Z) (n : N) (s : S) : option (iscsi_tgt_data N) * option Z * S :=
  (None, Some u, sys_free addr (iscsi_destroy_context n (iscsi_destroy_url u s))).
Definition iscsi_fail_disconnect (task : option Z) (addr u : Z) (n : N) (s : S) : option (iscsi_tgt_data N) * option Z * S :=
  let s := match task with Some t => scsi_free_task t s | None => s end in
  let '(n, s) := iscsi_logout_sync n s in
  iscsi_fail_url addr u n s.

(** After the login: the capacity. *)
Definition iscsi_read_capacity (iscsiurl initiator : string) (addr u lun : Z) (n : N) (s : S)
    : option (iscsi_tgt_data N) * option Z * S :=
  let '(task, n, s) := iscsi_readcapacity16_sync n lun s in
  match task with
  | None => iscsi_fail_disconnect None addr u n s
  | Some t =>
      if negb (task_status t s =? SCSI_STATUS_GOOD) then iscsi_fail_disconnect task addr u n s
      else
        match scsi_datain_unmarshall t s with
        | None => iscsi_fail_disconnect task addr u n s
        | Some (block_length, returned_lba) =>
            let capacity := u64 (block_length * u64 (returned_lba + 1)) in
            let block_size := s32 block_length in
            let done shift :=
              (Some (mk_iscsi_tgt_data addr iscsiurl initiator n lun capacity block_size shift), Some u, scsi_free_task t s) in
            if block_size =? 512 then done 0
            else if block_size =? 4096 then done 3
            else iscsi_fail_disconnect task addr u n s
        end
  end.

(** The data or NULL, the global variable, and the world. *)
Definition iscsi_init (iscsiurl initiator : string) (url : option Z) (s : S) : option (iscsi_tgt_data N) * option Z * S :=
  let '(p, s) := sys_calloc s in
  match p with
  | None => (None, url, s)
  | Some addr =>
      let '(c, s) := iscsi_create_context initiator s in
      match c with
      | None => (None, url, sys_free addr s)
      | Some n =>
          let '(u, n, s) := iscsi_parse_full_url n iscsiurl s in
          match u with
          | None => (None, None, sys_free addr (iscsi_destroy_context n s))
          | Some u =>
              let lun := url_lun u s in
              let '(ret, n, s) := iscsi_full_connect_sync (iscsi_set_session n) u s in
              if negb (ret =? 0) then iscsi_fail_url addr u n s
              else iscsi_read_capacity iscsiurl initiator addr u lun n s
          end
      end
  end.

Definition iscsi_exit (d : option (iscsi_tgt_data N)) (s : S) : S :=
  match d with
  | None => s
  | Some d => let '(n, s) := iscsi_logout_sync (iscsi d) s in sys_free (id_addr d) (iscsi_destroy_context n s)
  end.

Definition iscsi_setup_tgt (junk : ublk_params) (dv : dev) : option (Z * dev) :=
  '(ret, p) ← ublk_json_read_params junk (dv_jbuf dv);
  if negb (ret =? 0) then Some (ret, dv)
  else
    p ← p;
    Some (0, set_tgt (u64 (Z.shiftl (dev_sectors (p_basic p)) 9)) (queue_depth (dv_info dv)) 0
               (extra_ios (dv_tgt dv)) (io_data_size (dv_tgt dv)) (tgt_fds (dv_tgt dv)) dv).

Definition iscsi_recover_tgt (junk : ublk_params) (dv : dev) : option (Z * dev) :=
  '(ret, _) ← jread_str PATH_MAX "url" dv;
  if ret <? 0 then Some (ret, dv)
  else
    '(ret, _) ← jread_str PATH_MAX "initiator-name" dv;
    if ret <? 0 then Some (ret, dv) else iscsi_setup_tgt junk dv.

Definition iscsi_params (logical_bs_shift capacity : Z) : ublk_params :=
  set_basic (mk_param_basic UBLK_ATTR_VOLATILE_CACHE logical_bs_shift 12 12 9 0 0 (Z.shiftr capacity 9) 0)
    (set_types UBLK_PARAM_TYPE_BASIC zero_params).

Definition iscsi_option (acc : option string * option string) (o : iscsi_opt) : option string * option string :=
  match o with IoIscsi a => (Some a, acc.2) | IoInitiator a => (acc.1, Some a) end.

(** Describing the device; a string that fills its array has no terminator. *)
Definition iscsi_describe (info : ublksrv_ctrl_dev_info) (d : iscsi_tgt_data N) (lbs : Z) (dv : dev) : option dev :=
  if (sizeof_iscsi_url <=? slen (id_url d)) || (sizeof_initiator <=? slen (id_initiator d)) then None
  else
    dv ← jwrite (ublk_json_write_dev_info mem info) dv;
    dv ← jwrite (ublk_json_write_target_base mem (mk_tgt_base "iscsi" 0 (iscsi_capacity d))) dv;
    dv ← jwrite (ublk_json_write_tgt_str mem "url" (Some (id_url d))) dv;
    dv ← jwrite (ublk_json_write_tgt_str mem "initiator-name" (Some (id_initiator d))) dv;
    jwrite (ublk_json_write_params mem (iscsi_params lbs (iscsi_capacity d))) dv.

(** The result of [iscsi_init] is not checked. *)
Definition iscsi_init_tgt (argc : Z) (opts : list iscsi_opt) (junk : ublk_params) (url : option Z) (dv : dev) (s : S)
    : option (Z * dev * option Z * S) :=
  let info := dv_info dv in
  if has (dev_flags info) UBLK_F_UNPRIVILEGED_DEV then Some (-1, dv, url, s)
  else if ublksrv_is_recovering argc (dv_ctrl dv) then
    '(ret, dv) ← iscsi_recover_tgt junk dv; Some (ret, dv, url, s)
  else
    match foldl iscsi_option (None, None) opts with
    | (Some iscsiurl, Some initiator) =>
        let '(d, url, s) := iscsi_init iscsiurl initiator url s in
        d ← d;
        let described lbs :=
          dv ← iscsi_describe info d lbs dv;
          let s := iscsi_exit (Some d) s in
          '(ret, dv) ← iscsi_setup_tgt junk dv;
          Some (ret, dv, url, s) in
        if block_size d =? 512 then described 9
        else if block_size d =? 4096 then described 12
        else Some (- EINVAL, dv, url, s)
    | _ => Some (- EINVAL, dv, url, s)
    end.

(** [url] may be NULL here. *)
Definition iscsi_deinit_tgt (url : option Z) (s : S) : S :=
  match url with Some u => iscsi_destroy_url u s | None => s end.

(** ** Queues

    The memory of a queue: its address and the connection, NULL until
    [iscsi_init] returned. *)
Context {R : Type} `{!Uring R}.
Notation Q := (queue R (iscsi_queue_data N)).
Variable epoll_ctl : Z -> Z -> Q -> Z.
(** As in NfsSetup. *)
Variable epoll_add : Z * Z * Z * option Z.
Variable socket_cb : Z.

Definition iscsi_init_queue (url : option Z) (dv : dev) (q : Q) (s : S)
    : option (Z * option (Z * option (iscsi_tgt_data N)) * Q * option Z * S) :=
  let '(p, s) := sys_calloc s in
  match p with
  | None => Some (- ENOMEM, None, q, url, s)
  | Some addr =>
      '(ret, name) ← jread_str PATH_MAX "url" dv;
      if ret <? 0 then Some (ret, Some (addr, None), q, url, s)
      else
        '(ret, initiator) ← jread_str PATH_MAX "initiator-name" dv;
        if ret <? 0 then Some (ret, Some (addr, None), q, url, s)
        else
          let '(d, url, s) := iscsi_init (default ""%string name) (default ""%string initiator) url s in
          d ← d;
          let '(depth, new_epollfd, errno, node) := epoll_add in
          '(_, q) ← ublksrv_epoll_add_fd epoll_ctl depth new_epollfd errno node (lib_get_fd (iscsi d))
                      (lib_which_events (iscsi d)) socket_cb q;
          Some (0, Some (addr, Some d), q, url, s)
  end.

(** The private data the callbacks of the queue work on. *)
Definition iscsi_queue_of (addr : Z) (d : iscsi_tgt_data N) (depth : Z) : iscsi_queue_data N :=
  mk_iscsi_queue_data addr d 0 (replicate (Z.to_nat depth) zero_iscsi_cb).

Definition iscsi_deinit_queue (data : option (Z * option (iscsi_tgt_data N))) (s : S) : option S :=
  '(addr, d) ← data; Some (sys_free addr (iscsi_exit d s)).
End iscsi_setup.

(** ** What is held and given back *)
Section iscsi_ledger.
Context {N S : Type} `{!IscsiLib N, !LibWorld S, !LibWorldLaws S, !IscsiApi N S, !IscsiApiLaws N S}.

(** What a connection holds besides its URL. *)
Definition iscsi_holds (d : iscsi_tgt_data N) : list lib_obj :=
  [OSession (iscsi_ctx_id (iscsi d)); OCtx (iscsi_ctx_id (iscsi d)); OMem (id_addr d)].

Lemma iscsi_fail_url_ledger addr u n (s s1 : S) :
  gains [OUrl u; OCtx (iscsi_ctx_id n); OMem addr] s s1 -> gains [] s (iscsi_fail_url addr u n s1).2.
Proof.
  intros Hg. cbn. eapply gains_release; [eapply gains_release; [eapply gains_release; [exact Hg|reflexivity|]|reflexivity|]|reflexivity|].
  - apply iscsi_destroy_url_releases.
  - apply iscsi_destroy_context_releases.
  - apply free_releases.
Qed.

Lemma iscsi_fail_disconnect_ledger task addr u n (s s1 : S) :
  gains (opt_obj OTask task ++ [OSession (iscsi_ctx_id n); OUrl u; OCtx (iscsi_ctx_id n); OMem addr]) s s1 ->
  gains [] s (iscsi_fail_disconnect task addr u n s1).2.
Proof.
  intros Hg. unfold iscsi_fail_disconnect.
  assert (G2 : gains [OSession (iscsi_ctx_id n); OUrl u; OCtx (iscsi_ctx_id n); OMem addr] s
    (match task with Some t => scsi_free_task t s1 | None => s1 end)).
  { destruct task as [t|]; cbn [opt_obj app] in Hg; [|exact Hg]. eapply gains_release; [exact Hg|reflexivity|apply iscsi_task_releases]. }
  destruct (iscsi_logout_sync n _) as [n' s3] eqn:E. destruct (iscsi_logout_releases _ _ _ _ E) as [Hr Hi].
  apply iscsi_fail_url_ledger. rewrite Hi. eapply gains_release; [exact G2|reflexivity|exact Hr].
Qed.

Definition iscsi_outcome (s : S) (r : option (iscsi_tgt_data N) * option Z * S) : Prop :=
  match r.1.1 with
  | None => gains [] s r.2
  | Some d => exists u, r.1.2 = Some u /\ gains (OUrl u :: iscsi_holds d) s r.2 /\
      (block_size d = 512 /\ block_shift d = 0 \/ block_size d = 4096 /\ block_shift d = 3) /\ is_u64 (iscsi_capacity d)
  end.

Lemma iscsi_read_capacity_ledger iscsiurl initiator addr u l n (s s1 : S) :
  gains [OSession (iscsi_ctx_id n); OUrl u; OCtx (iscsi_ctx_id n); OMem addr] s s1 ->
  iscsi_outcome s (iscsi_read_capacity iscsiurl initiator addr u l n s1).
Proof.
  intros Hg. unfold iscsi_read_capacity.
  destruct (iscsi_readcapacity16_sync n l s1) as [[task n2] s2] eqn:E. destruct (iscsi_readcap_gains _ _ _ _ _ _ E) as [H2 I2].
  pose proof (gains_trans _ _ _ _ _ Hg H2) as G2. rewrite <- I2 in G2.
  assert (Hfail : iscsi_outcome s (iscsi_fail_disconnect task addr u n2 s2)).
  { unfold iscsi_outcome. unfold iscsi_fail_disconnect at 1. destruct (iscsi_logout_sync _ _). cbn.
    by apply iscsi_fail_disconnect_ledger. }
  destruct task as [t|]; cbn [opt_obj app] in G2; [|exact Hfail]. destruct (negb _); [exact Hfail|].
  destruct (scsi_datain_unmarshall t s2) as [[bl lba]|]; [|exact Hfail].
  assert (Hok : forall shift, (s32 bl = 512 /\ shift = 0 \/ s32 bl = 4096 /\ shift = 3) ->
    iscsi_outcome s (Some (mk_iscsi_tgt_data addr iscsiurl initiator n2 l (u64 (bl * u64 (lba + 1))) (s32 bl) shift),
      Some u, scsi_free_task t s2)).
  { intros shift Hsh. exists u. split; [done|]. split; [|split; [done|apply u64_bound]].
    eapply gains_perm; [eapply gains_release; [exact G2|reflexivity|apply iscsi_task_releases]|]. constructor. }
  destruct (Z.eqb_spec (s32 bl) 512); [apply Hok; by left|].
  destruct (Z.eqb_spec (s32 bl) 4096); [apply Hok; by right|exact Hfail].
Qed.

Lemma iscsi_init_outcome iscsiurl initiator url (s : S) : iscsi_outcome s (iscsi_init iscsiurl initiator url s).
Proof.
  unfold iscsi_init. destruct (sys_calloc s) as [[addr|] s1] eqn:Ec; apply calloc_gains in Ec; cbn [opt_obj] in Ec; [|exact Ec].
  destruct (iscsi_create_context initiator s1) as [[n|] s2] eqn:E2; pose proof (iscsi_context_gains _ _ _ _ E2) as H2; cbn [opt_obj] in H2.
  2:{ unfold iscsi_outcome. cbn. eapply gains_release; [eapply gains_keep; [exact Ec|exact H2]|reflexivity|apply free_releases]. }
  pose proof (gains_add _ _ _ _ _ Ec H2) as G2.
  destruct (iscsi_parse_full_url n iscsiurl s2) as [[[u|] n3] s3] eqn:E3; destruct (iscsi_parse_gains _ _ _ _ _ _ E3) as [H3 I3]; cbn [opt_obj] in H3.
  2:{ unfold iscsi_outcome. cbn. rewrite <- I3 in G2. eapply gains_release; [|reflexivity|apply free_releases].
      eapply gains_release; [eapply gains_keep; [exact G2|exact H3]|reflexivity|apply iscsi_destroy_context_releases]. }
  pose proof (gains_add _ _ _ _ _ G2 H3) as G3. rewrite <- I3, <- iscsi_set_session_id in G3.
  destruct (iscsi_full_connect_sync _ u s3) as [[r4 n4] s4] eqn:E4; destruct (iscsi_connect_gains _ _ _ _ _ _ E4) as [H4 I4].
  destruct (r4 =? 0); cbn [negb].
  - apply iscsi_read_capacity_ledger. rewrite I4. by apply (gains_add _ _ _ _ _ G3).
  - apply iscsi_fail_url_ledger. rewrite I4. by apply (gains_keep _ _ _ _ G3).
Qed.

Lemma iscsi_exit_ledger d os os' (s s1 : S) :
  gains os s s1 -> os ≡ₚ iscsi_holds d ++ os' -> gains os' s (iscsi_exit (Some d) s1).
Proof.
  intros Hg Ho. unfold iscsi_exit. destruct (iscsi_logout_sync (iscsi d) s1) as [n s2] eqn:E.
  destruct (iscsi_logout_releases _ _ _ _ E) as [Hc Hi].
  eapply gains_release; [eapply gains_release; [eapply gains_release; [exact Hg|exact Ho|exact Hc]|reflexivity|]|reflexivity|].
  - rewrite <- Hi. apply iscsi_destroy_context_releases.
  - apply free_releases.
Qed.

(** C40: Logging in to a LUN is all or nothing: when it fails, at whatever
    step, the memory, the context, the URL, the session and the task are all
    given back; when it succeeds the blocks have 512 or 4096 bytes with the
    matching shift, and after [iscsi_exit] exactly the parsed URL is left. *)
Theorem iscsi_connection_ledger iscsiurl initiator url (s : S) d url' s' :
  iscsi_init iscsiurl initiator url s = (d, url', s') ->
  match d with
  | None => live s' ≡ₚ live s
  | Some d => exists u, url' = Some u /\ live (iscsi_exit (Some d) s') ≡ₚ OUrl u :: live s /\
      0 <= block_shift d /\ block_size d = 512 * 2^block_shift d /\ (block_size d = 512 \/ block_size d = 4096)
  end.
Proof.
  intros Hi. pose proof (iscsi_init_outcome iscsiurl initiator url s) as Ho. rewrite Hi in Ho. unfold iscsi_outcome in Ho.
  cbn [fst snd] in Ho. destruct d as [d|]; [|exact Ho]. destruct Ho as (u&->&Hg&Hb&_). exists u. split; [done|]. split.
  - refine (iscsi_exit_ledger d _ [OUrl u] s s' Hg _). apply (Permutation_middle (iscsi_holds d) [] (OUrl u)).
  - destruct Hb as [[-> ->]|[-> ->]]; (split; [done|]); (split; [done|]); auto.
Qed.
End iscsi_ledger.

(** ** The life of a device *)
Section iscsi_life.
Context `{!JsonText, !JsonTextLaws} {N S D R : Type} `{!IscsiLib N, !LibWorld S, !LibWorldLaws S, !IscsiApi N S, !IscsiApiLaws N S, !Uring R}.
Notation dev := (ublksrv_dev D).
Notation Q := (queue R (iscsi_queue_data N)).

Definition iscsi_writes (u i : string) (lbs capacity : Z) : list doc_write :=
  [DwBase (mk_tgt_base "iscsi" 0 capacity); DwStr "url" (Some u); DwStr "initiator-name" (Some i);
   DwParams (iscsi_params lbs capacity)].
Definition iscsi_doc (info : ublksrv_ctrl_dev_info) (u i : string) (lbs capacity : Z) : gmap string json :=
  foldl dw_doc (doc_info info) (iscsi_writes u i lbs capacity).

(** The logical block size announced to the driver. *)
Definition iscsi_lbs (d : iscsi_tgt_data N) : Z := 9 + block_shift d.

(** A new device whose LUN answers and whose description fits. *)
Record iscsi_add (cap argc : Z) (opts : list iscsi_opt) (dv : dev) (s : S) (url : option Z) (u i : string)
    (d : iscsi_tgt_data N) (url' : option Z) (s' : S) : Prop := {
  ia_privileged : has (dev_flags (dv_info dv)) UBLK_F_UNPRIVILEGED_DEV = false;
  ia_new : ublksrv_is_recovering argc (dv_ctrl dv) = false;
  ia_opts : foldl iscsi_option (None, None) opts = (Some u, Some i);
  ia_init : iscsi_init u i url s = (Some d, url', s');
  ia_short : slen u < sizeof_iscsi_url /\ slen i < sizeof_initiator;
  ia_buf : buf_ok cap (dv_jbuf dv);
  ia_fits : Forall (fits cap) (doc_info (dv_info dv) ::
    docs_after (doc_info (dv_info dv)) (iscsi_writes u i (iscsi_lbs d) (iscsi_capacity d)))
}.

Lemma iscsi_init_names u i url (s : S) d url' s' :
  iscsi_init u i url s = (Some d, url', s') -> id_url d = u /\ id_initiator d = i.
Proof.
  unfold iscsi_init, iscsi_read_capacity, iscsi_fail_disconnect, iscsi_fail_url.
  repeat case_match; intros; simplify_eq; done.
Qed.

Lemma iscsi_params_ok l c : 0 <= l < 256 -> is_u64 c -> params_ok (iscsi_params l c).
Proof.
  intros Hl Hc. pose proof (shiftr_u64 c 9 ltac:(done) Hc). unfold params_ok, basic_ok, discard_ok, devt_ok, zoned_ok, dma_ok,
    segment_ok, integrity_ok, iscsi_params. cbn [p_basic p_discard p_devt p_zoned p_dma p_seg p_integrity params_len
    params_types set_basic set_types attrs max_sectors dev_sectors logical_bs_shift]. repeat split; try done; widths.
Qed.

Lemma iscsi_doc_entries info u i l c :
  iscsi_doc info u i l c !! "params" = Some (params_to_json (iscsi_params l c)) /\
  exists t, iscsi_doc info u i l c !! "target" = Some (JObj t) /\ t !! "url" = Some (JStr u) /\
    t !! "initiator-name" = Some (JStr i).
Proof.
  unfold iscsi_doc, iscsi_writes. cbn [foldl dw_doc with_opt]. unfold doc_params. split; [apply lookup_insert_eq|].
  eexists. rewrite lookup_insert_ne by done. split; [apply with_target_lookup|]. rewrite !target_of_with.
  split; [|apply lookup_insert_eq]. rewrite lookup_insert_ne by done. apply lookup_insert_eq.
Qed.

Lemma iscsi_setup_doc info u i l c junk (dv : dev) :
  text_of (dv_jbuf dv) (iscsi_doc info u i l c) -> 0 <= l < 256 -> is_u64 c ->
  iscsi_setup_tgt junk dv = Some (0, set_tgt (512 * (c / 512)) (queue_depth (dv_info dv)) 0
    (extra_ios (dv_tgt dv)) (io_data_size (dv_tgt dv)) (tgt_fds (dv_tgt dv)) dv).
Proof.
  intros Hb Hl Hc. destruct (iscsi_doc_entries info u i l c) as [Hp _]. unfold iscsi_setup_tgt.
  rewrite (read_params_text _ _ _ junk Hb Hp (iscsi_params_ok l c Hl Hc)). cbn [mbind option_bind Z.eqb negb].
  change (dev_sectors (p_basic (iscsi_params l c))) with (Z.shiftr c 9). unfold is_u64 in Hc.
  rewrite Z.shiftl_mul_pow2, Z.shiftr_div_pow2 by done. change (2^9) with 512.
  rewrite u64_id by (unfold is_u64; Z.div_mod_to_equations; lia). by rewrite Z.mul_comm.
Qed.

(** Describing the device. *)
Lemma iscsi_describe_ok cap info (d : iscsi_tgt_data N) lbs (dv : dev) :
  buf_ok cap (dv_jbuf dv) -> slen (id_url d) < sizeof_iscsi_url -> slen (id_initiator d) < sizeof_initiator ->
  Forall (fits cap) (doc_info info :: docs_after (doc_info info) (iscsi_writes (id_url d) (id_initiator d) lbs (iscsi_capacity d))) ->
  exists b, iscsi_describe always info d lbs dv = Some (dv_set_jbuf b dv) /\
    holds cap b (iscsi_doc info (id_url d) (id_initiator d) lbs (iscsi_capacity d)).
Proof.
  intros Hb Hu Hi Hf. destruct (jwrites_new_any cap info _ dv Hb Hf) as (b&Hh&Hk). exists b. split; [|exact Hh].
  unfold iscsi_describe. rewrite (proj2 (Z.leb_gt _ _) Hu), (proj2 (Z.leb_gt _ _) Hi). cbn [orb].
  rewrite <- (Hk _ Some). cbn [iscsi_writes jwrites dw_run].
  by repeat (let x := fresh in destruct (jwrite _ _) as [x|]; cbn [mbind option_bind]; [|done]).
Qed.

Lemma iscsi_recover_doc info u i l c junk (dv : dev) :
  text_of (dv_jbuf dv) (iscsi_doc info u i l c) -> 0 <= l < 256 -> is_u64 c -> slen u < PATH_MAX -> slen i < PATH_MAX ->
  slen u < jbuf_size (dv_jbuf dv) -> slen i < jbuf_size (dv_jbuf dv) ->
  jread_str PATH_MAX "url" dv = Some (0, Some u) /\ jread_str PATH_MAX "initiator-name" dv = Some (0, Some i) /\
  iscsi_recover_tgt junk dv = iscsi_setup_tgt junk dv.
Proof.
  intros Ht Hl Hc Pu Pi Bu Bi. destruct (iscsi_doc_entries info u i l c) as [_ (t&Htg&Hu&Hi)].
  assert (H1 : jread_str PATH_MAX "url" dv = Some (0, Some u)).
  { unfold jread_str. rewrite (read_str_text _ _ _ _ _ Ht Htg Hu Bu). cbn [mbind option_bind]. by rewrite (proj2 (Z.ltb_lt _ _)). }
  assert (H2 : jread_str PATH_MAX "initiator-name" dv = Some (0, Some i)).
  { unfold jread_str. rewrite (read_str_text _ _ _ _ _ Ht Htg Hi Bi). cbn [mbind option_bind]. by rewrite (proj2 (Z.ltb_lt _ _)). }
  split; [done|]. split; [done|]. unfold iscsi_recover_tgt. by rewrite H1, H2.
Qed.

(** An iscsi device survives its daemon: adding it stores the URL, the
    initiator's name and the capacity in whole sectors, with logical blocks of
    the size of the LUN's blocks; the queues then log in with the same URL and
    name, and a daemon that recovers the device gets the same size and ring
    depth, without touching the server. *)
Theorem iscsi_recovery_restores cap argc opts dv s url u i d url' s' junk :
  iscsi_add cap argc opts dv s url u i d url' s' ->
  exists dv', iscsi_init_tgt always argc opts junk url dv s = Some (0, dv', url', iscsi_exit (Some d) s') /\
    dev_size (dv_tgt dv') = 512 * (iscsi_capacity d / 512) /\ tgt_ring_depth (dv_tgt dv') = queue_depth (dv_info dv) /\
    block_size d = 2^iscsi_lbs d /\
    forall argc2 opts2 junk2 (dv2 : dev) url2 (s2 : S),
      ublksrv_is_recovering argc2 (dv_ctrl dv2) = true -> dv_info dv2 = dv_info dv ->
      is_Some (jb_alloc (dv_jbuf dv2)) -> jbuf (dv_jbuf dv2) = jbuf (dv_jbuf dv') ->
      slen u < jbuf_size (dv_jbuf dv2) -> slen i < jbuf_size (dv_jbuf dv2) ->
      jread_str PATH_MAX "url" dv2 = Some (0, Some u) /\ jread_str PATH_MAX "initiator-name" dv2 = Some (0, Some i) /\
      exists dv2', iscsi_init_tgt always argc2 opts2 junk2 url2 dv2 s2 = Some (0, dv2', url2, s2) /\
        dev_size (dv_tgt dv2') = dev_size (dv_tgt dv') /\ tgt_ring_depth (dv_tgt dv2') = tgt_ring_depth (dv_tgt dv').
Proof.
  intros [Hpriv Hnew Hopts Hinit [Su Si] Hb Hfits]. destruct (iscsi_init_names _ _ _ _ _ _ _ Hinit) as [Hu Hi].
  pose proof (iscsi_init_outcome u i url s) as Ho. rewrite Hinit in Ho. destruct Ho as (u0&_&_&Hbs&Hcap). cbn in Hbs, Hcap.
  rewrite <- Hu in Hfits, Su. rewrite <- Hi in Hfits, Si.
  destruct (iscsi_describe_ok cap (dv_info dv) d (iscsi_lbs d) dv Hb Su Si Hfits) as (b&Hd&Hh).
  assert (Hl : 0 <= iscsi_lbs d < 256) by (unfold iscsi_lbs; lia).
  exists (set_tgt (512 * (iscsi_capacity d / 512)) (queue_depth (dv_info dv)) 0 (extra_ios (dv_tgt dv)) (io_data_size (dv_tgt dv))
    (tgt_fds (dv_tgt dv)) (dv_set_jbuf b dv)). split.
  { unfold iscsi_init_tgt. rewrite Hpriv, Hnew, Hopts, Hinit. cbn [mbind option_bind].
    destruct Hbs as [[-> Hsh]|[-> Hsh]]; cbn [Z.eqb Pos.eqb]; unfold iscsi_lbs in Hd; rewrite Hsh in Hd; change (9 + 0) with 9 in Hd; change (9 + 3) with 12 in Hd;
      rewrite Hd; cbn [mbind option_bind];
      by rewrite (iscsi_setup_doc _ _ _ _ _ junk (dv_set_jbuf b dv) (holds_text _ _ _ Hh) Hl Hcap). }
  split; [done|]. split; [done|]. split; [unfold iscsi_lbs; by destruct Hbs as [[-> ->]|[-> ->]]|].
  intros argc2 opts2 junk2 dv2 url2 s2 Hrec Hinfo Halloc Hj B1 B2. unfold sizeof_iscsi_url, sizeof_initiator in *.
  assert (Ht : text_of (dv_jbuf dv2) (iscsi_doc (dv_info dv) u i (iscsi_lbs d) (iscsi_capacity d))).
  { split; [done|]. rewrite Hj, <- Hu, <- Hi. apply Hh. }
  destruct (iscsi_recover_doc _ _ _ _ _ junk2 dv2 Ht Hl Hcap) as (R1&R2&R3); [rewrite <- Hu; unfold PATH_MAX; lia|rewrite <- Hi; unfold PATH_MAX; lia|done|done|].
  split; [done|]. split; [done|]. unfold iscsi_init_tgt. rewrite Hinfo, Hpriv, Hrec, R3, (iscsi_setup_doc _ _ _ _ _ junk2 dv2 Ht Hl Hcap).
  cbn [mbind option_bind]. eexists. split; [done|]. cbn. by rewrite Hinfo.
Qed.

(** What the driver sends to a device with these logical blocks is in whole
    blocks of the LUN. *)
Theorem iscsi_whole_blocks u i url (s : S) (d : iscsi_tgt_data N) url' s' iod :
  iscsi_init u i url s = (Some d, url', s') -> block_request iod ->
  (2^(iscsi_lbs d - 9) | start_sector iod) -> (2^(iscsi_lbs d - 9) | nr_sectors iod) -> lun_request d iod.
Proof.
  intros Hinit Hb H1 H2. pose proof (iscsi_init_outcome u i url s) as Ho. rewrite Hinit in Ho.
  destruct Ho as (_&_&_&Hbs&_). cbn in Hbs. unfold iscsi_lbs in H1, H2. replace (9 + block_shift d - 9) with (block_shift d) in * by lia.
  split; [done|]. destruct Hbs as [[-> Hs]|[-> Hs]]; rewrite Hs in *; done.
Qed.

(** ** What goes wrong *)

(** A LUN that cannot be reached when the device is added: [iscsi_init_tgt]
    reads the block size through the NULL pointer it got. *)
Theorem iscsi_unreachable_crashes mem argc opts junk url (dv : dev) (s : S) u i url' s' :
  has (dev_flags (dv_info dv)) UBLK_F_UNPRIVILEGED_DEV = false -> ublksrv_is_recovering argc (dv_ctrl dv) = false ->
  foldl iscsi_option (None, None) opts = (Some u, Some i) -> iscsi_init (N := N) u i url s = (None, url', s') ->
  iscsi_init_tgt mem argc opts junk url dv s = None.
Proof. intros Hp Hn Ho Hi. unfold iscsi_init_tgt. by rewrite Hp, Hn, Ho, Hi. Qed.

(** A queue whose description cannot be read fails cleanly: the tear-down that
    follows finds no connection and frees the queue's memory. *)
Theorem iscsi_failed_queue_clean epoll_ctl epoll_add cb url (dv : dev) (q : Q) (s : S) ret data q' url' s1 :
  iscsi_init_queue epoll_ctl epoll_add cb url dv q s = Some (ret, data, q', url', s1) -> ret < 0 -> is_Some data ->
  q' = q /\ url' = url /\ exists s2, iscsi_deinit_queue data s1 = Some s2 /\ live s2 ≡ₚ live s.
Proof.
  unfold iscsi_init_queue. destruct (sys_calloc s) as [[addr|] s0] eqn:Ec; [|by intros [= _ <- _ _ _] _ []].
  apply calloc_gains in Ec. cbn [opt_obj] in Ec.
  assert (Hclean : exists s2, iscsi_deinit_queue (N := N) (Some (addr, None)) s0 = Some s2 /\ live s2 ≡ₚ live s).
  { eexists. split; [done|]. refine (gains_release _ _ [] s s0 _ Ec _ _); [reflexivity|apply free_releases]. }
  intros Hq Hr _. destruct (jread_str PATH_MAX "url" dv) as [[r name]|]; [|done]. cbn [mbind option_bind] in Hq.
  destruct (r <? 0); [by injection Hq as <- <- <- <- <-|].
  destruct (jread_str PATH_MAX "initiator-name" dv) as [[r2 ini]|]; [|done]. cbn [mbind option_bind] in Hq.
  destruct (r2 <? 0); [by injection Hq as <- <- <- <- <-|].
  destruct (iscsi_init _ _ url s0) as [[[d|] url1] s2]; [|done]. cbn [mbind option_bind] in Hq.
  destruct epoll_add as [[[depth fd] er] node]. destruct (ublksrv_epoll_add_fd _ _ _ _ _ _ _ _ _) as [[k q1]|]; [|done].
  injection Hq as <- _ _ _ _. lia.
Qed.
End iscsi_life.
