(* ===== verification/LibExamples.v ===== *)
(** * A small client library

    A library that accepts sixteen requests at a time and answers all of them
    when it is serviced, with the world it lives in; queues and devices of the
    nfs and iscsi targets on it, and the theorems applied to them. *)

From S2P Require Import Prelude Bytes UblkCmd Uring QueueTypes Batch Queue QueueSpec Params Json JsonExamples Ctrl QueueSetup DevSetup TgtInit JsonDoc TgtInitSpec EventTgt Nfs LibWorld NfsSetup Iscsi IscsiSetup.

(** A context: its number, and the private pointers of the requests with the
    status each will have. *)
Record mini_lib := mk_mini { ml_id : Z; ml_reqs : list (Z * Z) }.
Definition mini_answer (r : Z * Z) : lib_cb := mk_lib_cb r.1 (s32 r.2) 0.
Definition mini_accept (p status : Z) (n : mini_lib) : bool * mini_lib :=
  if Nat.ltb (length (ml_reqs n)) 16 then (true, mk_mini (ml_id n) (ml_reqs n ++ [(p, status)])) else (false, n).

#[global] Instance mini_event : EventLib mini_lib := {|
  lib_service _ n := (0, map mini_answer (ml_reqs n), mk_mini (ml_id n) []);
  lib_which_events n := match ml_reqs n with [] => 1 | _ => 5 end;
  lib_get_fd n := 40 + ml_id n;
  lib_pending n := map fst (ml_reqs n)
|}.

#[global] Instance mini_event_laws : EventLibLaws mini_lib.
Proof.
  split; intros ? n ret cbs n' [= <- <- <-].
  - cbn. by rewrite map_map, app_nil_r.
  - apply Forall_forall. intros c (r&->&_)%list_elem_of_fmap. apply s32_bound.
Qed.

Lemma mini_accept_pending p st n ok n' : mini_accept p st n = (ok, n') ->
  lib_pending n' ≡ₚ (if ok then [p] else []) ++ lib_pending n.
Proof.
  unfold mini_accept. case_match; intros [= <- <-]; [|done]. cbn. rewrite map_app. cbn. by rewrite Permutation_app_comm.
Qed.

Definition nfs_bytes (r : nfs_req) : Z :=
  match r with NfsPread _ _ count _ | NfsPwrite _ _ count _ => count | NfsFsync _ => 0 end.

#[global] Instance mini_nfs : NfsLib mini_lib := {|
  nfs_async r p n := let '(ok, n) := mini_accept p (nfs_bytes r) n in (if ok then 0 else -1, n)
|}.
#[global] Instance mini_nfs_laws : NfsLibLaws mini_lib.
Proof.
  split; [exact _|]. intros r p n ret n'. cbn. destruct (mini_accept p (nfs_bytes r) n) as [ok n1] eqn:E. intros [= <- <-].
  rewrite (mini_accept_pending _ _ _ _ _ E). by destruct ok.
Qed.

#[global] Instance mini_iscsi : IscsiLib mini_lib := {|
  SCSI_STATUS_GOOD := 0;
  iscsi_task _ p n := mini_accept p 0 n;
  scsi_free_scsi_task _ n := n
|}.
#[global] Instance mini_iscsi_laws : IscsiLibLaws mini_lib.
Proof. split; [exact _| |done]. intros r p n ok n'. apply mini_accept_pending. Qed.

(** ** The world *)
Record mini_world := mk_world { mw_live : list lib_obj; mw_next : Z }.

Fixpoint remove_obj (o : lib_obj) (l : list lib_obj) : list lib_obj :=
  match l with [] => [] | x :: l => if decide (o = x) then l else x :: remove_obj o l end.

Lemma remove_obj_perm o l : o ∈ l -> l ≡ₚ o :: remove_obj o l.
Proof.
  induction l as [|x l IH]; [by intros ?%not_elem_of_nil|]. intros Hin. cbn. destruct (decide (o = x)) as [->|]; [done|].
  rewrite IH at 1 by set_solver. constructor.
Qed.

(** A new object gets the next number. *)
Definition mw_new (f : Z -> lib_obj) (s : mini_world) : Z * mini_world :=
  (mw_next s, mk_world (f (mw_next s) :: mw_live s) (mw_next s + 1)).
Definition mw_drop (o : lib_obj) (s : mini_world) : mini_world := mk_world (remove_obj o (mw_live s)) (mw_next s).

#[global] Instance mini_libworld : LibWorld mini_world := {|
  live := mw_live;
  sys_calloc s := let '(a, s) := mw_new OMem s in (Some a, s);
  sys_free a := mw_drop (OMem a)
|}.

Lemma mw_drop_releases o s : releases_obj o s (mw_drop o s).
Proof. intros Hin. by apply remove_obj_perm. Qed.

#[global] Instance mini_libworld_laws : LibWorldLaws mini_world.
Proof. split; intros; simplify_eq/=; [by unfold gains|]. apply mw_drop_releases. Qed.

(** Files have 1 MB and one byte. *)
#[global] Instance mini_nfs_api : NfsApi mini_lib mini_world := {|
  nfs_ctx_id := ml_id;
  nfs_init_context s := let '(c, s) := mw_new OCtx s in (Some (mk_mini c []), s);
  nfs_parse_url_full n u s := let '(p, s) := mw_new OUrl s in (Some p, n, s);
  nfs_mount n u s := (0, n, s);
  nfs_stat64 n u s := (0, 1048577, n, s);
  nfs_open n u f s := let '(fh, s) := mw_new OFile s in (0, fh, n, s);
  nfs_close n fh s := (n, mw_drop (OFile fh) s);
  nfs_destroy_url u := mw_drop (OUrl u);
  nfs_destroy_context n := mw_drop (OCtx (ml_id n))
|}.
#[global] Instance mini_nfs_api_laws : NfsApiLaws mini_lib mini_world.
Proof.
  split; intros; simplify_eq/=; try (split; [|done]); first [apply mw_drop_releases|by unfold gains|done].
Qed.

(** The LUN has 256 blocks of 4096 bytes. *)
#[global] Instance mini_iscsi_api : IscsiApi mini_lib mini_world := {|
  iscsi_ctx_id := ml_id;
  iscsi_create_context _ s := let '(c, s) := mw_new OCtx s in (Some (mk_mini c []), s);
  iscsi_parse_full_url n u s := let '(p, s) := mw_new OUrl s in (Some p, n, s);
  url_lun _ _ := 1;
  iscsi_set_session n := n;
  iscsi_full_connect_sync n u s := (0, n, (mw_new (fun _ => OSession (ml_id n)) s).2);
  iscsi_readcapacity16_sync n l s := let '(t, s) := mw_new OTask s in (Some t, n, s);
  task_status _ _ := 0;
  scsi_datain_unmarshall _ _ := Some (4096, 255);
  scsi_free_task t := mw_drop (OTask t);
  iscsi_logout_sync n s := (n, mw_drop (OSession (ml_id n)) s);
  iscsi_destroy_url u := mw_drop (OUrl u);
  iscsi_destroy_context n := mw_drop (OCtx (ml_id n))
|}.
#[global] Instance mini_iscsi_api_laws : IscsiApiLaws mini_lib mini_world.
Proof.
  split; intros; simplify_eq/=; try (split; [|done]); first [apply mw_drop_releases|by unfold gains|done].
Qed.

(** ** A queue of the nfs target with two requests in flight *)
Definition exf_data (reqs : list (Z * Z)) : nfs_queue_data mini_lib :=
  mk_nfs_queue_data 1000 (mk_nfs_tgt_data 900 "nfs://h/f" (mk_mini 1 reqs) 7 1048577) 1.
Definition exf_iods : list ublksrv_io_desc :=
  [mk_iod UBLK_IO_OP_READ 8 16 0x5000; mk_iod UBLK_IO_OP_WRITE 16 24 0x6000].
Definition exf_queue {T} (d : T) : queue ListRing.ring T :=
  mk_queue 0 2 exf_iods 0 0 0 (-1) [] (-1)
    (ListRing.mk_ring 8 [] []) 0 [0; 0; 0; 0] (mk_batch [] [] 0 0 0 0 0 0)
    [mk_ublk_io 0x5000 0 0 0 (Some 0) 0; mk_ublk_io 0x6000 0 0 1 (Some 1) 0] d [].
Definition exf_aqueue : aqueue := mk_aqueue [TTarget; TTarget] false [].

Lemma exf_qsim {T} (d : T) : qsim (exf_queue d) exf_aqueue.
Proof.
  split; try done.
  - intros [|[|i]] io Hio; [by injection Hio as <-..|done].
  - intros [|[|i]] t Ht; [by injection Ht as <-; eexists; split; [done|left]..|done].
Qed.





Lemma nfs_request_exact_witness :
  exists q', nfs_handle_io_async (Z.of_nat 1) (exf_queue (exf_data [])) = Some (0, q') /\
    private_data q' = exf_data [(1040, 8192)].
Proof.
  destruct (nfs_request_exact (exf_queue (exf_data [])) exf_aqueue 1 (mk_iod UBLK_IO_OP_WRITE 16 24 0x6000)) as (ret&q'&Hq&H&_).
  - apply exf_qsim.
  - reflexivity.
  - reflexivity.
  - unfold block_request. cbn. lia.
  - vm_compute in H. destruct H as [-> Hd]. exists q'. split; [exact Hq|exact Hd].
Defined.

(** ** A queue of the iscsi target *)
Definition exi_data (reqs : list (Z * Z)) : iscsi_queue_data mini_lib :=
  mk_iscsi_queue_data 2000 (mk_iscsi_tgt_data 1900 "iscsi://h/t/1" "iqn.me" (mk_mini 1 reqs) 1 1048576 4096 3) 1
    [mk_iscsi_cb (0x5000, 4096) 4096 (0, 0); zero_iscsi_cb].
Definition exi_size : Z := 48.

Lemma iscsi_request_exact_witness :
  exists q', iscsi_handle_io_async exi_size (Z.of_nat 1) (exf_queue (exi_data [])) = Some (0, q') /\
    icb_count <$> iq_ios (private_data q') !! 1%nat = Some 8192.
Proof.
  destruct (iscsi_request_exact exi_size (exf_queue (exi_data [])) exf_aqueue 1
    (mk_iod UBLK_IO_OP_WRITE 16 24 0x6000)) as (ret&q'&Hq&H&_).
  - apply exf_qsim.
  - reflexivity.
  - reflexivity.
  - reflexivity.
  - split; [unfold block_request; cbn; lia|]. cbn. split; [lia|]. split; [lia|].
    split; [exists 3; reflexivity|exists 2; reflexivity].
  - vm_compute in H. destruct H as (->&_&Hc&_). exists q'. split; [exact Hq|exact Hc].
Defined.

Lemma iscsi_answers_reach_driver_witness :
  exists q', iscsi_socket_cb (R := ListRing.ring) (fun _ _ _ => 0) exi_size 5 (exf_queue (exi_data [(2016, 0)])) = Some q' /\
    lib_pending (iscsi_ctx (private_data q')) = [] /\
    io_commands (ring_log (ring q')) = [command 0 UBLK_IO_COMMIT_AND_FETCH_REQ (Some 4096)].
Proof.
  destruct (iscsi_answers_reach_driver exi_size ltac:(unfold exi_size; lia) (fun _ _ _ => 0) 5 (exf_queue (exi_data [(2016, 0)]))
    exf_aqueue 0 [mini_answer (2016, 0)] (mk_mini 1 [])) as (q'&ids&Hq&Hids&_&Hlog&Hp&_).
  - apply exf_qsim.
  - split; [reflexivity|]. exists [0%nat]. split; [reflexivity|]. split; [|by repeat constructor].
    repeat constructor; set_solver.
  - reflexivity.
  - exists q'. split; [exact Hq|]. split; [exact Hp|]. rewrite Hlog. destruct ids as [|i [|]]; [done| |done].
    assert (i = 0%nat) as ->; [|reflexivity]. injection Hids as Hids. cbv [iscsi_cookie iscsi_ios exi_size iscsi_ios_offset] in Hids.
    cbn in Hids. lia.
Defined.

(** ** Devices *)
Definition exw : mini_world := mk_world [OMem 1] 100.
Definition exl_info : ublksrv_ctrl_dev_info := mk_dev_info 1 64 0 0 524288 0 0 0 0 0 0 0 0 0.
Definition exl_dev (rec : bool) (text : string) : ublksrv_dev unit :=
  let n := Z.max 512 (slen text + 1) in
  set_cdev 4 (fresh_dev (mk_ctrl_dev 3 exl_info (mk_jbuf n (Some n) text) rec None None [])).

Lemma exl_fits cap m : (slen (dump (JObj m)) <? cap) = true -> fits cap m.
Proof. apply Z.ltb_lt. Qed.

Lemma iscsi_connection_ledger_witness :
  exists d u s', iscsi_init (N := mini_lib) "iscsi://h/t/1" "iqn.me" None exw = (Some d, Some u, s') /\
    live (iscsi_exit (Some d) s') ≡ₚ [OUrl u; OMem 1] /\ block_size d = 512 * 2^block_shift d.
Proof.
  destruct (iscsi_connection_ledger (N := mini_lib) "iscsi://h/t/1" "iqn.me" None exw
    (Some (mk_iscsi_tgt_data 100 "iscsi://h/t/1" "iqn.me" (mk_mini 101 []) 1 1048576 4096 3)) (Some 102)
    (iscsi_init (N := mini_lib) "iscsi://h/t/1" "iqn.me" None exw).2) as (u&[= <-]&Hl&_&Hb&_).
  - vm_compute. reflexivity.
  - eexists _, _, _. split; [vm_compute; reflexivity|]. split; [exact Hl|exact Hb].
Defined.

Definition exf_url : string := "nfs://h/f".
Definition exf_conn : nfs_tgt_data mini_lib := mk_nfs_tgt_data 100 exf_url (mk_mini 101 []) 103 1048577.
Definition exf_connected : mini_world := mk_world [OFile 103; OUrl 102; OCtx 101; OMem 100; OMem 1] 104.

Lemma exf_add : nfs_add (grow_max 512) 3 [NfNfs exf_url] (exl_dev false "") exw None exf_url exf_conn (Some 102) exf_connected.
Proof.
  split.
  - reflexivity.
  - reflexivity.
  - reflexivity.
  - vm_compute. reflexivity.
  - repeat split; done.
  - repeat constructor; apply exl_fits; vm_compute; reflexivity.
Qed.

Lemma nfs_recovery_restores_witness :
  exists dv', nfs_init_tgt always 3 [NfNfs exf_url] zero_params None (exl_dev false "") exw =
      Some (0, dv', Some 102, nfs_exit (Some exf_conn) exf_connected) /\
    dev_size (dv_tgt dv') = 1048576 /\
    exists dv2', nfs_init_tgt (N := mini_lib) always 0 [] zero_params None (exl_dev true (jbuf (dv_jbuf dv'))) exw =
        Some (0, dv2', None, exw) /\ dev_size (dv_tgt dv2') = 1048576.
Proof.
  destruct (nfs_recovery_restores _ _ _ _ _ _ _ _ _ _ zero_params exf_add) as (dv'&Hrun&Hsize&_&Hrec).
  exists dv'. split; [exact Hrun|]. split; [exact Hsize|].
  destruct (Hrec 0 [] zero_params (exl_dev true (jbuf (dv_jbuf dv'))) None exw) as (_&dv2'&Hrun2&Hsize2&_).
  - reflexivity.
  - reflexivity.
  - by eexists.
  - reflexivity.
  - change (slen exf_url) with 9. cbn. lia.
  - exists dv2'. split; [exact Hrun2|]. rewrite Hsize2. exact Hsize.
Defined.

Definition exi_url : string := "iscsi://h/t/1".
Definition exi_conn : iscsi_tgt_data mini_lib := mk_iscsi_tgt_data 100 exi_url "iqn.me" (mk_mini 101 []) 1 1048576 4096 3.
Definition exi_opts : list iscsi_opt := [IoInitiator "iqn.me"; IoIscsi exi_url].
Definition exi_connected : mini_world := mk_world [OSession 101; OUrl 102; OCtx 101; OMem 100; OMem 1] 105.

Lemma exi_add : iscsi_add (grow_max 512) 5 exi_opts (exl_dev false "") exw None exi_url "iqn.me" exi_conn (Some 102) exi_connected.
Proof.
  split.
  - reflexivity.
  - reflexivity.
  - reflexivity.
  - vm_compute. reflexivity.
  - done.
  - repeat split; done.
  - repeat constructor; apply exl_fits; vm_compute; reflexivity.
Qed.

Lemma iscsi_recovery_restores_witness :
  exists dv', iscsi_init_tgt always 5 exi_opts zero_params None (exl_dev false "") exw =
      Some (0, dv', Some 102, iscsi_exit (Some exi_conn) exi_connected) /\
    dev_size (dv_tgt dv') = 1048576 /\
    exists dv2', iscsi_init_tgt (N := mini_lib) always 0 [] zero_params None (exl_dev true (jbuf (dv_jbuf dv'))) exw =
        Some (0, dv2', None, exw) /\ dev_size (dv_tgt dv2') = 1048576.
Proof.
  destruct (iscsi_recovery_restores _ _ _ _ _ _ _ _ _ _ _ zero_params exi_add) as (dv'&Hrun&Hsize&_&_&Hrec).
  exists dv'. split; [exact Hrun|]. split; [exact Hsize|].
  destruct (Hrec 0 [] zero_params (exl_dev true (jbuf (dv_jbuf dv'))) None exw) as (_&_&dv2'&Hrun2&Hsize2&_).
  - reflexivity.
  - reflexivity.
  - by eexists.
  - reflexivity.
  - change (slen exi_url) with 13. cbn. lia.
  - change (slen "iqn.me") with 6. cbn. lia.
  - exists dv2'. split; [exact Hrun2|]. rewrite Hsize2. exact Hsize.
Defined.
