(* ===== verification/DemoIo.v ===== *)
(** * The event demo: requests (demo_event.c)

    The demo offloads its requests: the thread of a queue puts each request on
    the submit list of an aio context, a second thread does the I/O with
    system calls and hands the request back, and an event makes the queue's
    thread complete the tag.

    The program has one queue.  The two threads share the context and the
    requests (AioCtx); the model runs the passes of the second thread between
    the callbacks of the queue: [dm_passes] tells how many passes it made before
    each callback.  The lists are exchanged under locks, one step each. *)

From S2P Require Import Prelude Bytes UblkCmd Uring QueueTypes Batch Queue QueueSpec QueueSystem Loop Aio AioCtx EventTgt.

(** The system calls of the I/O thread. *)
Inductive file_call :=
| CPread (fd buf len offset : Z)
| CPwrite (fd buf len offset : Z)
| CFdatasync (fd : Z)
| CFallocate (fd mode offset len : Z).

(** ** The I/O thread *)
Section io_thread.
(** What the call made for a request returns: a function of the request and the
    call, so the number of calls made for a request is not observed. *)
Variable sys : Z -> file_call -> Z.
(** The address of the one queue. *)
Variable the_queue : Z.

(** [req->res] and [req->fd] are the same memory. *)
Definition sync_io_submitter (req : Z) (d : ublksrv_io_desc * Z * Z) : Z * Z :=
  let '(iod, fd, _) := d in
  let ublk_op := ublksrv_get_op iod in
  let buf := iod_addr iod in
  let len := u32 (Z.shiftl (nr_sectors iod) 9) in
  let offset := u64 (Z.shiftl (start_sector iod) 9) in
  let finished call := (1, s32 (sys req call)) in
  if ublk_op =? UBLK_IO_OP_READ then finished (CPread fd buf len offset)
  else if ublk_op =? UBLK_IO_OP_WRITE then finished (CPwrite fd buf len offset)
  else if ublk_op =? UBLK_IO_OP_FLUSH then finished (CFdatasync fd)
  else if ublk_op =? UBLK_IO_OP_WRITE_ZEROES then
    finished (CFallocate fd (Z.lor FALLOC_FL_KEEP_SIZE FALLOC_FL_ZERO_RANGE) offset len)
  else if ublk_op =? UBLK_IO_OP_DISCARD then finished (CFallocate fd FALLOC_FL_KEEP_SIZE offset len)
  else (- EINVAL, fd).

Definition io_submit_worker (req : Z) (d : ublksrv_io_desc * Z * Z) : Z * Z :=
  let '(iod, fd, _) := d in
  if fd <? 0 then (1, s32 (u32 (Z.shiftl (nr_sectors iod) 9))) else sync_io_submitter req d.

(** A submission function with no state of its own. *)
Definition pure_fn (f : Z -> ublksrv_io_desc * Z * Z -> Z * Z) (a : Z) (d : ublksrv_io_desc * Z * Z) (u : unit)
    : Z * Z * unit := (f a d, u).

(** One iteration: the queues an event was sent to come last. *)
Definition real_io_pass (h : heap) (c : ublksrv_aio_ctx) : option (heap * ublksrv_aio_ctx * list Z) :=
  '(h, c, compl, _, _) ← ublksrv_aio_submit_worker (pure_fn io_submit_worker) [] h c (Some aio_list_init) 0 tt;
  compl ← compl;
  '(h, c, _, sent) ← ublksrv_aio_complete_worker [the_queue] (fun _ => 0) h c compl;
  Some (h, c, sent).

(** [n] iterations, fewer when the context is shut down. *)
Fixpoint demo_event_real_io_handler_fn (n : nat) (h : heap) (c : ublksrv_aio_ctx) : option (heap * ublksrv_aio_ctx) :=
  match n with
  | O => Some (h, c)
  | S n =>
      if ctx_dead c then Some (h, c)
      else '(h, c, _) ← real_io_pass h c; demo_event_real_io_handler_fn n h c
  end.

(** ** The queue's thread *)
Record demo_state := mk_demo { dm_heap : heap; dm_ctx : ublksrv_aio_ctx; dm_passes : list nat }.

Context {R : Type} `{!Uring R}.
Notation Q := (queue R demo_state).
Variable backing_fd : Z.
(** calloc(3): a fresh address, or NULL. *)
Variable calloc : heap -> option Z.

(** What the I/O thread did since the last callback. *)
Definition io_thread_ran (q : Q) : option Q :=
  let s := private_data q in
  '(h, c) ← demo_event_real_io_handler_fn (default 0%nat (head (dm_passes s))) (dm_heap s) (dm_ctx s);
  Some (set_private_data (mk_demo h c (tail (dm_passes s))) q).

(** The result of the allocation is not checked. *)
Definition handle_request (tag : Z) (q : Q) : option (Z * Q) :=
  let s := private_data q in
  let '(req, h) := ublksrv_aio_alloc_req (calloc (dm_heap s)) (dm_heap s) in
  req ← req;
  n ← h !! req;
  iod ← get_iod q tag;
  let h := <[req := mk_aio iod backing_fd (ublksrv_aio_pid_tag (q_id q) tag) (aio_next n)]> h in
  '(h, c, q) ← ublksrv_aio_submit_req req h (dm_ctx s) q;
  Some (0, set_private_data (mk_demo h c (dm_passes s)) q).

Definition handle_completions (q : Q) : option Q :=
  let s := private_data q in
  '(h, c, q) ← ublksrv_aio_handle_event (dm_heap s) (dm_ctx s) q;
  Some (set_private_data (mk_demo h c (dm_passes s)) q).

Definition demo_handle_io_async (tag : Z) (q : Q) : option (Z * Q) := q ← io_thread_ran q; handle_request tag q.
Definition demo_handle_event (q : Q) : option Q := q ← io_thread_ran q; handle_completions q.

Definition demo_event_tgt_type : ublksrv_tgt_type R demo_state :=
  mk_tgt_type demo_handle_io_async None (Some demo_handle_event) None None.
End io_thread.

(** ** What the two threads keep *)

(** A list of finished requests stays one. *)
Lemma submit_pop_done {U} (fn : Z -> ublksrv_io_desc * Z * Z -> U -> Z * Z * U) fuel h sl d total u h' d' t u' :
  submit_pop_loop fn fuel h sl (Some d) total u = Some (h', d', t, u') -> is_Some d'.
Proof.
  revert h sl d total u. induction fuel as [|fuel IH]; intros h sl d total u; [done|]. cbn [submit_pop_loop].
  destruct (aio_list_pop sl h) as [[[req h1] sl1]|]; [|done]. cbn [mbind option_bind].
  destruct req as [req|]; [|by intros [= _ <- _ _]]. destruct (h1 !! req) as [n|]; [|done]. cbn [mbind option_bind].
  destruct (fn req (node_data n) u) as [[ret res] u1]. destruct (ret =? 0); cbn [mbind option_bind]; [apply IH|].
  destruct (aio_list_add d req _) as [[h2 d2]|]; [|done]. apply IH.
Qed.

(** A worker whose list is not added to meanwhile. *)
Lemma submit_worker_once {U} (fn : Z -> ublksrv_io_desc * Z * Z -> U -> Z * Z * U) h c l u :
  list_rep h (ctx_submit c) l ->
  let '(t, u') := run_fn fn h l u in
  exists h' sub al k, ublksrv_aio_submit_worker fn [] h c (Some aio_list_init) 0 u = Some (h', set_ctx_submit sub c, Some al, k, u') /\
    list_rep h' sub [] /\ list_rep h' al (omap finishes t) /\ answered h h' t /\ (forall b, b ∉ l -> h' !! b = h !! b).
Proof.
  intros Hl. cbn [ublksrv_aio_submit_worker].
  pose proof (submit_round_spec fn h c l (Some aio_list_init) [] 0 u Hl (aio_list_init_rep h)) as Hr. rewrite app_nil_r in Hr.
  specialize (Hr ltac:(by eapply list_rep_nodup)). destruct (run_fn fn h l u) as [t u'].
  destruct Hr as (h'&sub&done'&Hr&Hsub&Hd&Hran&Hfr). rewrite Hr. cbn [mbind option_bind].
  rewrite (aio_list_empty_spec h' sub []), bool_decide_true by done. cbn [negb].
  assert (is_Some done') as [al ->].
  { unfold submit_round in Hr. destruct (aio_list_splice _ _ _) as [[[h1 sub1] sl1]|]; [|done]. cbn [mbind option_bind] in Hr.
    destruct (submit_pop_loop _ _ _ _ _ _ _) as [[[[h2 d2] t2] u2]|] eqn:E; [|done]. injection Hr as _ _ <- _ _.
    by eapply submit_pop_done. }
  by exists h', sub, al, (0 + Z.of_nat (length l)).
Qed.

(** ** Submission functions with no state *)
Section pure.
Variable fn : Z -> ublksrv_io_desc * Z * Z -> Z * Z.

(** A request's data after [fn] ran on it. *)
Definition after_fn (a : Z) (d : ublksrv_io_desc * Z * Z) : ublksrv_io_desc * Z * Z := after_answer (fn a d) d.

(** [fn] ran exactly once on each of [l] and on nothing else. *)
Definition ran_on (h h' : heap) (l : list Z) : Prop :=
  forall a, node_data <$> h' !! a =
    (if decide (a ∈ l) then after_fn a else id) <$> (node_data <$> h !! a).

Lemma run_pure h l u : run_fn (pure_fn fn) h l u = (omap (fun a => (fun n => (a, fn a (node_data n))) <$> h !! a) l, u).
Proof.
  revert u. induction l as [|a l IH]; intros u; cbn [run_fn omap list_omap]; [done|]. destruct (h !! a) as [n|]; [|apply IH].
  cbn [fmap option_fmap option_map pure_fn]. unfold pure_fn at 1. destruct (fn a (node_data n)) as [ret res]. by rewrite IH.
Qed.

Lemma pure_ran_on h h' l u : NoDup l -> answered h h' (run_fn (pure_fn fn) h l u).1 -> ran_on h h' l.
Proof.
  intros Hnd Hr a. rewrite Hr, run_pure. cbn [fst]. destruct (h !! a) as [n|] eqn:Hn; [|done]. cbn [fmap option_fmap option_map].
  set (t := omap _ l). assert (Hk : forall b x, (b, x) ∈ t -> b ∈ l /\ exists m, h !! b = Some m /\ x = fn b (node_data m)).
  { intros b x (c&Hc&Hx)%list_elem_of_omap. destruct (h !! c) as [m|] eqn:Hm; [|done]. injection Hx as <- <-. eauto. }
  destruct (list_to_map t !! a) as [x|] eqn:E.
  - apply elem_of_list_to_map_2, Hk in E as (Hin&m&Hm&->). rewrite decide_True by done. unfold after_fn. by simplify_eq.
  - apply not_elem_of_list_to_map_2 in E. rewrite decide_False; [done|]. intros Hin. apply E.
    apply list_elem_of_fmap. exists (a, fn a (node_data n)). split; [done|]. apply list_elem_of_omap. exists a. by rewrite Hn.
Qed.
End pure.

(** Handing finished requests over changes the lists of the queues only. *)
Definition only_complete (c c' : ublksrv_aio_ctx) : Prop := exists v, c' = set_ctx_complete v c.

Lemma only_complete_refl c : only_complete c c.
Proof. exists (ctx_complete c). by destruct c. Qed.

Lemma only_complete_trans c1 c2 c3 : only_complete c1 c2 -> only_complete c2 c3 -> only_complete c1 c3.
Proof. intros [v ->] [w ->]. by exists w. Qed.

Lemma move_ctx qid c q l h h' c' l' : move_to_queue_complete_list qid c q l h = Some (h', c', l') -> only_complete c c'.
Proof.
  unfold move_to_queue_complete_list. destruct (aio_list_empty l); [intros [= _ <- _]; apply only_complete_refl|].
  destruct (if 0 <=? qid q then _ else _) as [compl|]; [|done]. cbn [mbind option_bind].
  destruct (aio_list_splice l compl h) as [[[h1 l1] compl1]|]; [|done]. intros [= _ <- _]. by eexists.
Qed.

Lemma complete_loop_ctx qs qid fuel h c al this others sent h' c' al' sent' :
  complete_loop qs qid fuel h c al this others sent = Some (h', c', al', sent') -> only_complete c c'.
Proof.
  revert h c al this others sent. induction fuel as [|fuel IH]; intros h c al this others sent; [done|].
  cbn [complete_loop]. destruct (aio_list_empty al); [intros [= _ <- _ _]; apply only_complete_refl|].
  unfold complete_round. destruct (head_queue qs al h) as [tq|]; [|done]. cbn [mbind option_bind].
  destruct (split_loop qs (S (size h)) tq h al this others) as [[[[h1 al1] this1] others1]|]; [|done]. cbn [mbind option_bind].
  destruct (move_to_queue_complete_list qid c tq this1 h1) as [[[h2 c2] this2]|] eqn:Em; [|done]. cbn [mbind option_bind].
  destruct (aio_list_splice others1 al1 h2) as [[[h3 others3] al3]|]; [|done]. cbn [mbind option_bind].
  intros Hl. eapply only_complete_trans; [by eapply move_ctx|by eapply IH].
Qed.

Lemma completes_all ds A : completable ds A -> completes A (complete_all ds A).
Proof.
  revert A. induction ds as [|[i res] ds IH]; intros A Hc; [apply rtc_refl|].
  apply completable_cons in Hc as (Ht&_&Hc). eapply rtc_l; [exists i, res; by constructor|]. by apply IH.
Qed.

Lemma omap_ext_list {A B} (f g : A -> option B) (l : list A) : (forall a, a ∈ l -> f a = g a) -> omap f l = omap g l.
Proof.
  induction l as [|a l IH]; intros Hf; [done|]. cbn. rewrite (Hf a) by left. rewrite IH; [done|]. intros b Hb. apply Hf. by right.
Qed.

Lemma complete_all_other ds A j : j ∉ ds.*1 -> a_tags (complete_all ds A) !! j = a_tags A !! j.
Proof.
  revert A. induction ds as [|[i res] ds IH]; intros A Hj; [done|]. cbn [complete_all foldl].
  apply not_elem_of_cons in Hj as [Hne Hj]. fold (complete_all ds). cbn in Hne.
  etransitivity; [by apply IH|]. cbn. by rewrite list_lookup_insert_ne.
Qed.

(** ** Requests in flight *)

(** The request at [a] belongs to tag [i]. *)
Definition flight (h : heap) (a : Z) (i : nat) : Prop :=
  Z.of_nat i < UBLK_MAX_QUEUE_DEPTH /\ exists n, h !! a = Some n /\ aio_id n = ublksrv_aio_pid_tag 0 (Z.of_nat i).

(** [l] are the requests to be done, [d] those to be completed, [ids] the tags
    of both; nothing else is allocated. *)
Record in_flight (s : demo_state) (l d : list Z) (ids : list nat) : Prop := {
  fl_submit : list_rep (dm_heap s) (ctx_submit (dm_ctx s)) l;
  fl_complete : exists compl, ctx_complete (dm_ctx s) = [compl] /\ list_rep (dm_heap s) compl d;
  fl_nodup : NoDup (l ++ d);
  fl_dom : forall a, is_Some (dm_heap s !! a) <-> a ∈ l ++ d;
  fl_ids : Forall2 (flight (dm_heap s)) (l ++ d) ids;
  fl_res : forall a n, a ∈ d -> dm_heap s !! a = Some n -> is_s32 (aio_res n);
  fl_flags : ctx_flags (dm_ctx s) = 0
}.

Definition demo_inv (v : tgt_view demo_state) (tags : list tag_state) : Prop :=
  v_q_id v = 0 /\ exists l d ids, in_flight (v_data v) l d ids /\ NoDup ids /\
    Forall (fun i => tags !! i = Some TTarget) ids.

Lemma flight_id i : Z.of_nat i < UBLK_MAX_QUEUE_DEPTH ->
  ublksrv_aio_qid (ublksrv_aio_pid_tag 0 (Z.of_nat i)) = 0 /\
  ublksrv_aio_tag (ublksrv_aio_pid_tag 0 (Z.of_nat i)) = Z.of_nat i.
Proof. intros Hi. unfold UBLK_MAX_QUEUE_DEPTH in Hi. apply aio_id_roundtrip; lia. Qed.

Lemma flight_done h a i : flight h a i -> exists n, h !! a = Some n /\ req_done h a = Some (i, aio_res n).
Proof.
  intros [Hi (n&Hn&Hid)]. exists n. split; [done|]. unfold req_done. rewrite Hn. cbn.
  by rewrite Hid, (proj2 (flight_id i Hi)), Nat2Z.id.
Qed.

Lemma flight_qid h a i : flight h a i -> req_qid h a = Some 0.
Proof. intros [Hi (n&Hn&Hid)]. unfold req_qid. rewrite Hn. cbn. by rewrite Hid, (proj1 (flight_id i Hi)). Qed.

Lemma flight_node h h' a i : node_data <$> h' !! a = node_data <$> h !! a -> flight h a i -> flight h' a i.
Proof.
  intros Hd [Hi (n&Hn&Hid)]. split; [done|]. rewrite Hn in Hd. destruct (h' !! a) as [n'|] eqn:Hn'; [|done].
  exists n'. split; [done|]. injection Hd as _ _ Hd. congruence.
Qed.

Lemma flights_tags h l ids : Forall2 (flight h) l ids -> (reqs_done h l).*1 = ids.
Proof.
  induction 1 as [|a i l ids Ha _ IH]; [done|]. unfold reqs_done. cbn.
  destruct (flight_done _ _ _ Ha) as (n&_&->). cbn. f_equal. exact IH.
Qed.

Lemma flights_has_queue qp h l ids a : Forall2 (flight h) l ids -> a ∈ l -> has_queue [qp] h a.
Proof.
  intros Hf Ha. apply list_elem_of_lookup in Ha as [k Hk].
  destruct (Forall2_lookup_l _ _ _ _ _ Hf Hk) as (i&_&Hi). exists 0%nat. split; [by rewrite (flight_qid _ _ _ Hi)|cbn; lia].
Qed.

Lemma flights_of_queue h l ids : Forall2 (flight h) l ids -> of_queue h 0 l = l.
Proof.
  induction 1 as [|a i l ids Ha _ IH]; [done|]. unfold of_queue. rewrite filter_cons, decide_True.
  - f_equal. exact IH.
  - by rewrite (flight_qid _ _ _ Ha).
Qed.

(** ** One pass of the I/O thread *)
Section pass.
Variable sys : Z -> file_call -> Z.
Variable the_queue : Z.
Notation fn := (io_submit_worker sys).

(** The tag of a request and the result it will have. *)
Definition served (h : heap) (a : Z) : option (nat * Z) :=
  (fun n => (Z.to_nat (ublksrv_aio_tag (aio_id n)), (after_fn fn a (node_data n)).1.2)) <$> h !! a.

Lemma fn_finishes a d : (fn a d).1 <> 0.
Proof. destruct d as [[iod fd] id]. unfold io_submit_worker, sync_io_submitter. repeat case_match; done. Qed.

Lemma fn_result a d : is_s32 (after_fn fn a d).1.2.
Proof.
  destruct d as [[iod fd] id]. unfold after_fn, io_submit_worker, sync_io_submitter.
  repeat case_match; simplify_eq/=; try done; apply s32_bound.
Qed.

Lemma all_finish h l u : (forall a, a ∈ l -> is_Some (h !! a)) -> omap finishes (run_fn (pure_fn fn) h l u).1 = l.
Proof.
  rewrite run_pure. cbn [fst]. induction l as [|a l IH]; intros Hl; [done|]. cbn [omap list_omap].
  destruct (Hl a ltac:(left)) as [n ->]. cbn [fmap option_fmap option_map omap list_omap]. unfold finishes at 1. cbn [fst snd].
  rewrite (proj2 (Z.eqb_neq _ _) (fn_finishes a (node_data n))). f_equal. apply IH. intros b Hb. apply Hl. by right.
Qed.

(** The submitting half. *)
Lemma pass_submit h c l :
  list_rep h (ctx_submit c) l ->
  exists h' sub al t, ublksrv_aio_submit_worker (pure_fn fn) [] h c (Some aio_list_init) 0 tt = Some (h', set_ctx_submit sub c, Some al, t, tt) /\
    list_rep h' sub [] /\ list_rep h' al l /\ ran_on fn h h' l /\ (forall b, b ∉ l -> h' !! b = h !! b).
Proof.
  intros Hl. pose proof (submit_worker_once (pure_fn fn) h c l tt Hl) as Hw.
  pose proof (all_finish h l tt ltac:(intros; by eapply list_rep_lookup)) as Hall.
  pose proof (fun h' => pure_ran_on fn h h' l tt ltac:(by eapply list_rep_nodup)) as Hran.
  destruct (run_fn (pure_fn fn) h l tt) as [t []]. cbn [fst] in *. destruct Hw as (h'&sub&al&k&Hw&Hsub&Hal&Ha&Hfr).
  rewrite Hall in Hal. exists h', sub, al, k. split; [done|]. split; [done|]. split; [done|]. split; [by apply Hran|done].
Qed.

(** The completing half, on the list of the one queue. *)
Lemma pass_complete h c al l d compl :
  ctx_flags c = 0 -> ctx_complete c = [compl] -> list_rep h compl d -> list_rep h al l -> NoDup (l ++ d) ->
  (forall a, a ∈ l -> has_queue [the_queue] h a) -> of_queue h 0 l = l ->
  exists h' c' al' sent compl', ublksrv_aio_complete_worker [the_queue] (fun _ => 0) h c al = Some (h', c', al', sent) /\
    c' = set_ctx_complete [compl'] c /\ list_rep h' compl' (d ++ l) /\ same_data h h'.
Proof.
  intros Hfl Hc Hd Hl Hnd Hq Hof. unfold ublksrv_aio_complete_worker.
  rewrite (aio_list_empty_spec _ _ _ Hl). destruct (bool_decide_reflect (l = [])) as [->|Hne].
  { exists h, c, al, [], compl. split; [done|]. rewrite app_nil_r. split; [|done]. destruct c. cbn in Hc. by subst. }
  rewrite Hfl. change (has 0 UBLKSRV_AIO_QUEUE_WIDE) with false. cbv iota.
  destruct (complete_loop_spec [the_queue] (fun _ => 0)) with (fuel := S (size h)) (h := h) (c := c) (completed := al)
    (this := aio_list_init) (others := aio_list_init) (l := l) (ls := [d]) (sent := @nil Z)
    as (h'&c'&al'&new&Hw&_&Hcr&Hsd&_).
  - intros [|[|k]] a Ha; [done|done|done].
  - done.
  - apply aio_list_init_rep.
  - apply aio_list_init_rep.
  - unfold complete_reps. rewrite Hc. constructor; [exact Hd|apply Forall2_nil_2].
  - cbn. by rewrite app_nil_r.
  - done.
  - done.
  - pose proof (list_rep_size _ _ _ Hl). lia.
  - rewrite Hw. destruct (complete_loop_ctx _ _ _ _ _ _ _ _ _ _ _ _ _ Hw) as [v ->].
    rewrite (delivered_single h 0 d) in Hcr by done. apply Forall2_cons_inv_r in Hcr as (compl'&rest&Hr&Hrest&Hv).
    apply Forall2_nil_inv_r in Hrest as ->. cbn in Hv. subst v.
    exists h', (set_ctx_complete [compl'] c), al', new, compl'. done.
Qed.

(** What a pass does to the requests: [l] were done. *)
Definition ran (h h' : heap) (l : list Z) : Prop :=
  forall a, node_data <$> h' !! a = (if decide (a ∈ l) then after_fn fn a else id) <$> (node_data <$> h !! a).

Lemma ran_flight h h' l a i : ran h h' l -> flight h a i -> flight h' a i.
Proof.
  intros Hr [Hi (n&Hn&Hid)]. specialize (Hr a). split; [done|]. rewrite Hn in Hr. cbn in Hr.
  destruct (h' !! a) as [n'|]; [|done]. exists n'. split; [done|]. injection Hr as Hr. apply (f_equal snd) in Hr.
  destruct (decide (a ∈ l)); [|cbn in Hr; congruence].
  unfold after_fn in Hr. destruct (fn a (node_data n)) in Hr. cbn in Hr. congruence.
Qed.

Lemma ran_res h h' l a n n' : ran h h' l -> h !! a = Some n -> h' !! a = Some n' ->
  aio_res n' = if decide (a ∈ l) then (after_fn fn a (node_data n)).1.2 else aio_res n.
Proof.
  intros Hr Hn Hn'. specialize (Hr a). rewrite Hn, Hn' in Hr. cbn in Hr. injection Hr as Hr.
  change (aio_res n') with (node_data n').1.2. rewrite Hr. by destruct (decide (a ∈ l)).
Qed.

Lemma ran_dom h h' l a : ran h h' l -> is_Some (h' !! a) <-> is_Some (h !! a).
Proof.
  intros Hr. specialize (Hr a). destruct (h' !! a), (h !! a); try done; split; intros; try done; by eexists.
Qed.

(** Requests that were waiting are left alone, the others have their result. *)
Lemma ran_results h h' l d ids1 ids2 : ran h h' l -> (forall a, a ∈ l -> a ∉ d) ->
  Forall2 (flight h) l ids1 -> Forall2 (flight h) d ids2 ->
  reqs_done h' (d ++ l) = reqs_done h d ++ omap (served h) l.
Proof.
  intros Hr Hdis H1 H2. unfold reqs_done. rewrite omap_app.
  assert (Hone : forall a i n, h !! a = Some n -> flight h a i ->
    req_done h' a = Some (i, if decide (a ∈ l) then (after_fn fn a (node_data n)).1.2 else aio_res n)).
  { intros a i n Hn Hf. destruct (flight_done h' a i (ran_flight h h' l a i Hr Hf)) as (n'&Hn'&->).
    by rewrite (ran_res h h' l a n n'). }
  f_equal; apply omap_ext_list; intros a [k Hk]%list_elem_of_lookup.
  - destruct (Forall2_lookup_l _ _ _ _ _ H2 Hk) as (i&_&Hf). destruct (flight_done _ _ _ Hf) as (n&Hn&->).
    rewrite (Hone a i n Hn Hf), decide_False; [done|]. intros Ha. apply (Hdis a Ha). by eapply list_elem_of_lookup_2.
  - destruct (Forall2_lookup_l _ _ _ _ _ H1 Hk) as (i&_&Hf). pose proof Hf as [Hi (n&Hn&Hid)].
    rewrite (Hone a i n Hn Hf), decide_True by (by eapply list_elem_of_lookup_2). unfold served. rewrite Hn. cbn.
    by rewrite Hid, (proj2 (flight_id i Hi)), Nat2Z.id.
Qed.

Lemma pass_spec s l d ids :
  in_flight s l d ids ->
  exists h' c' sent ids', real_io_pass sys the_queue (dm_heap s) (dm_ctx s) = Some (h', c', sent) /\
    ctx_dead c' = ctx_dead (dm_ctx s) /\ ids' ≡ₚ ids /\
    (forall ps, in_flight (mk_demo h' c' ps) [] (d ++ l) ids') /\
    reqs_done h' (d ++ l) = reqs_done (dm_heap s) d ++ omap (served (dm_heap s)) l.
Proof.
  intros [Hl (compl&Hc&Hd) Hnd Hdom Hids Hres Hflags]. set (h := dm_heap s) in *. set (c := dm_ctx s) in *.
  unfold real_io_pass. destruct (pass_submit h c l Hl) as (h1&sub&al&t&->&Hsub&Hal&Hran1&Hfr). cbn [mbind option_bind].
  pose proof Hids as (ids1&ids2&H1&H2&->)%Forall2_app_inv_l. pose proof (proj1 (NoDup_app _ _) Hnd) as (Hndl&Hdis&Hndd).
  assert (H1' : Forall2 (flight h1) l ids1) by (eapply Forall2_impl; [exact H1|]; intros a i; by apply (ran_flight h h1 l)).
  destruct (pass_complete h1 (set_ctx_submit sub c) al l d compl) as (h2&c2&al2&sent&compl'&->&->&Hc2&Hsd); try done.
  - eapply list_rep_frame; [|exact Hd]. intros a Ha. apply Hfr. intros Ha'. by apply (Hdis a).
  - intros a Ha. by apply (flights_has_queue the_queue h1 l ids1).
  - by apply (flights_of_queue h1 l ids1).
  - assert (Hran : ran h h2 l) by (intros a; rewrite Hsd; apply Hran1).
    cbn [mbind option_bind]. eexists h2, _, sent, (ids2 ++ ids1). split; [done|]. split; [done|].
    split; [apply Permutation_app_comm|]. split; [|by apply (ran_results h h2 l d ids1 ids2)].
    intros ps. split; cbn [dm_heap dm_ctx ctx_submit ctx_complete set_ctx_complete set_ctx_submit ctx_flags app].
    + by apply (list_rep_nil h1).
    + by exists compl'.
    + by rewrite Permutation_app_comm.
    + intros a. rewrite (ran_dom h h2 l a Hran), Hdom, !elem_of_app. tauto.
    + apply Forall2_app; (eapply Forall2_impl; [first [exact H2|exact H1]|]); intros a i; by apply (ran_flight h h2 l).
    + intros a n Ha Hn. destruct (proj1 (ran_dom h h2 l a Hran) ltac:(by eexists)) as [n0 Hn0].
      rewrite (ran_res h h2 l a n0 n) by done. destruct (decide (a ∈ l)); [apply fn_result|].
      apply (Hres a); [|done]. by apply elem_of_app in Ha as [|].
    + done.
Qed.
End pass.

(** ** The callbacks *)
Section callbacks.
Context {R : Type} `{!Uring R, !UringLaws R, !UringProgress R}.
Notation Q := (queue R demo_state).
Implicit Types q : Q.
Lemma add_ctx_keeps ctx q A b q' : qsim q A -> ublksrv_aio_add_ctx_for_submit ctx q = (b, q') ->
  qsim q' A /\ view q' = view q /\ epoll_callbacks q' = epoll_callbacks q.
Proof.
  intros Hs Ha. destruct (add_ctx_spec ctx q b q' (qs_ctxs _ _ Hs) Ha) as (Hok&_).
  unfold ublksrv_aio_add_ctx_for_submit in Ha. case_bool_decide; [by injection Ha as _ <-|].
  destruct (nr_ctxs q <? UBLKSRV_NR_CTX_BATCH - 1); injection Ha as _ <-; [|done].
  split; [|done]. destruct Hs. by split.
Qed.

(** A fresh request for tag [i] on the submit list. *)
Lemma flight_new s l d ids a i n :
  in_flight s l d ids -> dm_heap s !! a = None -> Z.of_nat i < UBLK_MAX_QUEUE_DEPTH ->
  aio_id n = ublksrv_aio_pid_tag 0 (Z.of_nat i) ->
  exists h' sub ids', aio_list_add (ctx_submit (dm_ctx s)) a (<[a := n]> (dm_heap s)) = Some (h', sub) /\
    (forall ps, in_flight (mk_demo h' (set_ctx_submit sub (dm_ctx s)) ps) (l ++ [a]) d ids') /\ ids' ≡ₚ i :: ids.
Proof.
  intros [Hl (compl&Hc&Hd) Hnd Hdom Hids Hres Hflags] Hnone Hi Hid. set (h := dm_heap s) in *. set (h1 := <[a := n]> h).
  assert (a ∉ l /\ a ∉ d) as [Hal Had] by (rewrite <- not_elem_of_app, <- Hdom, Hnone; by intros []).
  assert (Hh1 : forall b, b <> a -> h1 !! b = h !! b) by (intros b Hb; by apply lookup_insert_ne).
  assert (Ha1 : h1 !! a = Some n) by apply lookup_insert_eq.
  destruct (aio_list_add_rep h1 (ctx_submit (dm_ctx s)) l a) as (h2&sub&->&Hl2&Hsd&Hfr); [|by eexists|done|].
  { eapply list_rep_frame; [|exact Hl]. intros b Hb. apply Hh1. by intros ->. }
  pose proof Hids as (ids1&ids2&H1&H2&->)%Forall2_app_inv_l.
  assert (Hkeep : forall k ks, a ∉ k -> Forall2 (flight h) k ks -> Forall2 (flight h2) k ks).
  { intros k ks Hk Hf. induction Hf as [|x y k ks Hx Hf IHf]; constructor; [|apply IHf; set_solver].
    apply (flight_node h); [|done]. rewrite Hsd, Hh1 by set_solver. done. }
  exists h2, sub, (ids1 ++ [i] ++ ids2). split; [done|]. split; [|solve_Permutation]. intros ps.
  split; cbn [dm_heap dm_ctx ctx_submit ctx_complete set_ctx_submit ctx_flags]; rewrite <- ?app_assoc; cbn [app].
  - done.
  - exists compl. split; [done|]. eapply list_rep_frame; [|exact Hd]. intros x Hx.
    rewrite Hfr, Hh1; [done|by intros ->..|]. intros Hx'. by apply (proj1 (NoDup_app _ _) Hnd) in Hx'.
  - rewrite <- Permutation_middle. apply NoDup_cons. split; [set_solver|done].
  - intros x. specialize (Hsd x). destruct (decide (x = a)) as [->|Hne].
    + split; [set_solver|intros _]. rewrite Ha1 in Hsd. destruct (h2 !! a); [by eexists|done].
    + rewrite Hh1 in Hsd by done. specialize (Hdom x). destruct (h2 !! x), (h !! x); set_solver.
  - apply Forall2_app; [by apply Hkeep|]. constructor; [|by apply Hkeep].
    split; [done|]. specialize (Hsd a). rewrite Ha1 in Hsd. destruct (h2 !! a) as [n2|]; [|done].
    exists n2. split; [done|]. injection Hsd as _ _ ->. done.
  - intros x n1 Hx Hn. assert (x <> a) by (by intros ->). specialize (Hsd x). rewrite Hh1, Hn in Hsd by done.
    destruct (h !! x) as [n0|] eqn:Hn0; [|done]. injection Hsd as _ Hsd _. rewrite Hsd. by apply (Hres x).
  - done.
Qed.

(** The requests that are done are completed and freed. *)
Lemma handle_completions_spec q A l d ids :
  qsim q A -> q_id q = 0 -> in_flight (private_data q) l d ids -> NoDup ids ->
  Forall (fun i => a_tags A !! i = Some TTarget) ids ->
  exists q' ids1, handle_completions q = Some q' /\
    qsim q' (complete_all (reqs_done (dm_heap (private_data q)) d) A) /\
    completable (reqs_done (dm_heap (private_data q)) d) A /\
    q_id q' = 0 /\ epoll_callbacks q' = epoll_callbacks q /\
    in_flight (private_data q') l [] ids1 /\ ids ≡ₚ ids1 ++ (reqs_done (dm_heap (private_data q)) d).*1.
Proof.
  intros Hs Hq [Hl (compl&Hc&Hd) Hnd Hdom Hids Hres Hflags] Hndi Hheld. set (h := dm_heap (private_data q)) in *.
  pose proof Hids as (ids1&ids2&H1&H2&->)%Forall2_app_inv_l. apply NoDup_app in Hndi as (_&_&Hnd2). apply Forall_app in Hheld as [_ Hheld2].
  assert (Hcomp : completable (reqs_done h d) A).
  { split; [by rewrite (flights_tags h d ids2)|]. rewrite Forall_forall in Hheld2. apply Forall_forall. intros [i r] Hin.
    assert (Hi : i ∈ ids2) by (rewrite <- (flights_tags h d ids2) by done; apply list_elem_of_fmap; by exists (i, r)).
    split; [by apply Hheld2|]. apply list_elem_of_omap in Hin as (a&Ha&Hr). unfold req_done in Hr.
    destruct (h !! a) as [n|] eqn:Hn; [|done]. injection Hr as _ <-. by apply (Hres a). }
  destruct (handle_event_spec h (dm_ctx (private_data q)) q A compl d) as (h'&compl'&q'&Hev&Hs'&Hl'&Hh'&Hv&He); [|done..|].
  { unfold queue_compl. rewrite Hq, Hc. done. }
  unfold handle_completions. fold h. rewrite Hev. cbn [mbind option_bind]. pose proof (proj1 (NoDup_app _ _) Hnd) as (Hndl&Hdis&_).
  assert (Hsame : forall b, b ∈ l -> h' !! b = h !! b).
  { intros b Hb. rewrite Hh', decide_False; [done|]. intros Hb'. by apply (Hdis b). }
  eexists _, ids1. split; [done|]. split; [by apply qsim_private|]. split; [done|].
  split; [apply (f_equal v_q_id) in Hv; cbn in *; congruence|]. split; [done|]. split; [|by rewrite (flights_tags h d ids2)].
  split; cbn [dm_heap dm_ctx private_data set_private_data ctx_submit ctx_complete set_ctx_complete ctx_flags]; rewrite ?app_nil_r.
  - by eapply list_rep_frame.
  - exists compl'. rewrite Hq, Hc. done.
  - done.
  - intros a. rewrite Hh'. specialize (Hdom a). destruct (decide (a ∈ d)) as [Ha|Ha].
    + split; [by intros []|]. intros Ha'. by apply (Hdis a) in Ha'.
    + rewrite Hdom, elem_of_app. tauto.
  - apply Forall2_same_length_lookup_2; [by eapply Forall2_length|]. intros k a i Ha Hi.
    apply (flight_node h); [by rewrite Hsame by (by eapply list_elem_of_lookup_2)|]. exact (Forall2_lookup_lr _ _ _ _ _ _ H1 Ha Hi).
  - by intros a n ?%not_elem_of_nil.
  - done.
Qed.

Section new_request.
Variable backing_fd : Z.
Variable calloc : heap -> option Z.
(** There is memory. *)
Hypothesis calloc_fresh : forall h : heap, exists a, calloc h = Some a /\ h !! a = None.

(** A new request: it waits to be done. *)
Lemma handle_request_spec q A i l d ids :
  qsim q A -> a_tags A !! i = Some TTarget -> q_id q = 0 -> in_flight (private_data q) l d ids ->
  exists q' a ids', handle_request backing_fd calloc (Z.of_nat i) q = Some (0, q') /\ qsim q' A /\
    q_id q' = 0 /\ epoll_callbacks q' = epoll_callbacks q /\
    in_flight (private_data q') (l ++ [a]) d ids' /\ ids' ≡ₚ i :: ids.
Proof.
  intros Hs Ht Hq Hf. destruct (qsim_tag_lt q A i _ Hs Ht) as [Hi _]. destruct (qsim_get_iod q A i _ Hs Ht) as (iod&Hiod&_).
  unfold handle_request. destruct (calloc_fresh (dm_heap (private_data q))) as (a&Ha&Hnone). rewrite Ha.
  cbn [ublksrv_aio_alloc_req mbind option_bind]. rewrite lookup_insert_eq. cbn [mbind option_bind]. rewrite Hiod.
  cbn [mbind option_bind]. rewrite insert_insert_eq. unfold ublksrv_aio_submit_req.
  destruct (flight_new (private_data q) l d ids a i
    (mk_aio iod backing_fd (ublksrv_aio_pid_tag (q_id q) (Z.of_nat i)) None) Hf Hnone Hi) as (h'&sub&ids'&Hadd&Hf'&Hp).
  { cbn. by rewrite Hq. }
  cbn [aio_next]. rewrite Hadd. cbn [mbind option_bind].
  destruct (ublksrv_aio_add_ctx_for_submit _ q) as [b q1] eqn:Eq. destruct (add_ctx_keeps _ _ _ _ _ Hs Eq) as (Hs1&Hv1&He1).
  cbn [mbind option_bind]. eexists _, a, ids'. split; [done|].
  split; [apply qsim_private; destruct b; [done|by apply qsim_log_ev]|].
  split; [apply (f_equal v_q_id) in Hv1; cbn in Hv1; destruct b; cbn; congruence|].
  split; [by destruct b|]. split; [apply Hf'|done].
Qed.
End new_request.

Lemma io_thread_spec sys the_queue n s l d ids ps :
  in_flight s l d ids ->
  exists h' c' l' d' ids', demo_event_real_io_handler_fn sys the_queue n (dm_heap s) (dm_ctx s) = Some (h', c') /\
    in_flight (mk_demo h' c' ps) l' d' ids' /\ ids' ≡ₚ ids.
Proof.
  revert s l d ids. induction n as [|n IH]; intros s l d ids Hf; cbn [demo_event_real_io_handler_fn].
  { exists (dm_heap s), (dm_ctx s), l, d, ids. split; [done|]. split; [|done]. by destruct Hf; split. }
  destruct (ctx_dead (dm_ctx s)).
  { exists (dm_heap s), (dm_ctx s), l, d, ids. split; [done|]. split; [|done]. by destruct Hf; split. }
  destruct (pass_spec sys the_queue s l d ids Hf) as (h1&c1&sent&ids1&->&_&Hp&Hf1&_). cbn [mbind option_bind].
  destruct (IH _ _ _ _ (Hf1 [])) as (h2&c2&l2&d2&ids2&Hr&Hf2&Hp2). exists h2, c2, l2, d2, ids2. split; [exact Hr|].
  split; [done|]. by rewrite Hp2.
Qed.
End callbacks.

(** ** The demo keeps to the callback interface *)
Section demo_laws.
Context {R : Type} `{!Uring R, !UringLaws R, !UringProgress R}.
Notation Q := (queue R demo_state).
Implicit Types q : Q.
Variable sys : Z -> file_call -> Z.
Variable the_queue backing_fd : Z.
Variable calloc : heap -> option Z.
Hypothesis calloc_fresh : forall h : heap, exists a, calloc h = Some a /\ h !! a = None.

Lemma demo_inv_held v tags tags' :
  (forall i, tags !! i = Some TTarget -> tags' !! i = Some TTarget) -> demo_inv v tags -> demo_inv v tags'.
Proof.
  intros Hm (Hq&l&d&ids&Hf&Hnd&Hh). split; [done|]. exists l, d, ids. split; [done|]. split; [done|].
  eapply Forall_impl; [done|]. intros i. apply Hm.
Qed.

(** The I/O thread changes neither the queue nor the tags in flight. *)
Lemma io_thread_ran_spec q A tags :
  qsim q A -> demo_inv (view q) tags ->
  exists q', io_thread_ran sys the_queue q = Some q' /\ qsim q' A /\ demo_inv (view q') tags /\
    epoll_callbacks q' = epoll_callbacks q.
Proof.
  intros Hs (Hq&l&d&ids&Hf&Hnd&Hh). unfold io_thread_ran.
  destruct (io_thread_spec sys the_queue (default 0%nat (head (dm_passes (private_data q)))) (private_data q) l d ids
    (tail (dm_passes (private_data q))) Hf) as (h'&c'&l'&d'&ids'&->&Hf'&Hp).
  cbn [mbind option_bind]. eexists. split; [done|]. split; [by apply qsim_private|]. split; [|done]. split; [done|].
  exists l', d', ids'. split; [done|]. by rewrite Hp.
Qed.

#[export] Program Instance demo_laws :
  TargetLaws (demo_event_tgt_type sys the_queue (R := R) backing_fd calloc) := {|
  tinv := demo_inv;
  tgt_cqe_ok _ _ := False
|}.
Next Obligation. intros v l l' [_ Hh]. apply demo_inv_held. intros i. by apply Hh. Qed.
Next Obligation.
  intros q A i op Hs Ht Hinv. cbn [demo_event_tgt_type handle_io_async]. unfold cb_safe, demo_handle_io_async.
  destruct (io_thread_ran_spec q A _ Hs Hinv) as (q1&->&Hs1&(Hq1&l&d&ids&Hf&Hnd&Hh)&He1). cbn [mbind option_bind].
  destruct (handle_request_spec backing_fd calloc calloc_fresh q1 A i l d ids) as (q2&a&ids2&->&Hs2&Hq2&He2&Hf2&Hp); [done..|].
  exists q2, A. split; [done|]. split; [apply rtc_refl|]. split; [done|]. split; [|by rewrite He2, He1].
  pose proof (lookup_lt_Some _ _ _ Ht) as Hlt. assert (Hni : i ∉ ids).
  { intros Hi. rewrite Forall_forall in Hh. specialize (Hh i Hi). by rewrite list_lookup_insert_eq in Hh. }
  split; [done|]. exists (l ++ [a]), d, ids2. split; [done|]. rewrite Hp. split; [by apply NoDup_cons|]. constructor; [done|].
  rewrite Forall_forall in Hh. apply Forall_forall. intros j Hj. specialize (Hh j Hj).
  by rewrite list_lookup_insert_ne in Hh by (intros ->; done).
Qed.
Next Obligation. done. Qed.
Next Obligation.
  intros f q A [= <-] Hs Hinv. unfold cb_safe, demo_handle_event.
  destruct (io_thread_ran_spec q A _ Hs Hinv) as (q1&->&Hs1&(Hq1&l&d&ids&Hf&Hnd&Hh)&He1). cbn [mbind option_bind].
  destruct (handle_completions_spec q1 A l d ids) as (q2&ids1&->&Hs2&Hc&Hq2&He2&Hf2&Hp); [done..|].
  eexists q2, _. split; [done|]. split; [by apply completes_all|]. split; [done|]. split; [|by rewrite He2, He1].
  split; [done|]. exists l, [], ids1. change (v_data (view q1)) with (private_data q1) in *. rewrite Hp in Hnd, Hh.
  apply NoDup_app in Hnd as (Hnd1&Hdis&_). apply Forall_app in Hh as [Hh1 _]. split; [done|]. split; [done|].
  rewrite Forall_forall in Hh1. apply Forall_forall. intros j Hj. rewrite complete_all_other by (by apply Hdis). by apply Hh1.
Qed.
Next Obligation. done. Qed.
Next Obligation. done. Qed.

(** A queue of the demo never fails, whatever the I/O thread does in between. *)
Theorem demo_queue_runs epoll_wait epoll_call max q K cqes :
  (forall (q : Q) addr ev, (addr, ev) ∈ epoll_wait q -> is_Some (find_ecb addr (epoll_callbacks q))) ->
  (forall cb ev (q : Q) A, qsim q A -> demo_inv (view q) (a_tags A) -> cb_safe demo_inv (epoll_call cb ev) q A) ->
  reachable (demo_event_tgt_type sys the_queue backing_fd calloc) epoll_wait epoll_call q K ->
  legal_cqes (demo_event_tgt_type sys the_queue backing_fd calloc) epoll_wait epoll_call (after_wait q) K cqes ->
  exists ret q', ublksrv_process_io (demo_event_tgt_type sys the_queue backing_fd calloc) epoll_wait epoll_call max cqes q = Some (ret, q') /\
    ret = (if __ublksrv_queue_is_done q then - ENODEV else Z.of_nat (length cqes)) /\
    exists A, qsim q' A /\ demo_inv (view q') (a_tags A).
Proof.
  intros Hreg Hcb Hr Hl.
  assert (Hsafe : forall cb ev (q : Q) A, qsim q A -> tinv (TargetLaws := demo_laws) (view q) (a_tags A) ->
    cb_safe (tinv (TargetLaws := demo_laws)) (epoll_call cb ev) q A) by exact Hcb.
  apply (reachable_inv _ _ _ Hreg Hsafe) in Hr.
  destruct (process_io_inv _ _ _ Hreg Hsafe max q K cqes Hr Hl) as (ret&q'&K'&?&(A&?&?&_)&?).
  exists ret, q'. split; [done|]. split; [done|]. by exists A.
Qed.
End demo_laws.

(** ** What becomes of a request *)
Section demo_spec.
Context {R : Type} `{!Uring R, !UringLaws R, !UringProgress R}.
Notation Q := (queue R demo_state).
Implicit Types q : Q.
Variable sys : Z -> file_call -> Z.
Variable the_queue : Z.

(** The result of the request at [a]: without a file everything succeeds, with
    one the request is one system call on the bytes of the request. *)
Definition demo_result (a fd : Z) (iod : ublksrv_io_desc) : Z :=
  let op := ublksrv_get_op iod in
  let first := start_sector iod * 512 in
  let len := nr_sectors iod * 512 in
  if fd <? 0 then s32 len
  else if op =? UBLK_IO_OP_READ then s32 (sys a (CPread fd (iod_addr iod) len first))
  else if op =? UBLK_IO_OP_WRITE then s32 (sys a (CPwrite fd (iod_addr iod) len first))
  else if op =? UBLK_IO_OP_FLUSH then s32 (sys a (CFdatasync fd))
  else if op =? UBLK_IO_OP_WRITE_ZEROES then
    s32 (sys a (CFallocate fd (Z.lor FALLOC_FL_KEEP_SIZE FALLOC_FL_ZERO_RANGE) first len))
  else if op =? UBLK_IO_OP_DISCARD then s32 (sys a (CFallocate fd FALLOC_FL_KEEP_SIZE first len))
  else - EINVAL.

Lemma after_fn_result a iod fd id : block_request iod ->
  (after_fn (io_submit_worker sys) a (iod, fd, id)).1.2 = demo_result a fd iod.
Proof.
  intros (H1&H2&H3&H4). unfold after_fn, io_submit_worker, sync_io_submitter, demo_result.
  rewrite !Z.shiftl_mul_pow2 by done. change (2^9) with 512.
  rewrite (u32_id (nr_sectors iod * 512)), (u64_id (start_sector iod * 512)) by (unfold is_u32, is_u64; lia).
  repeat (case_match; simplify_eq/=; try done).
Qed.

(** C13: The demo serves every request: in any state the two threads can
    reach, one pass of the I/O thread and the event that follows complete all
    tags in flight, first those that were done already, then those that waited,
    each with the result of the one system call made for it; afterwards both
    lists are empty and no request is left in memory. *)
Theorem demo_requests_served q A l d ids ps :
  qsim q A -> q_id q = 0 -> in_flight (private_data q) l d ids -> NoDup ids ->
  Forall (fun i => a_tags A !! i = Some TTarget) ids ->
  ctx_dead (dm_ctx (private_data q)) = false -> dm_passes (private_data q) = 1%nat :: ps ->
  (forall a n, a ∈ l -> dm_heap (private_data q) !! a = Some n -> block_request (aio_io n)) ->
  exists q' results, demo_handle_event sys the_queue q = Some q' /\ qsim q' (complete_all results A) /\
    results.*1 ≡ₚ ids /\
    results = omap (fun a => (fun n => (Z.to_nat (ublksrv_aio_tag (aio_id n)), aio_res n)) <$> dm_heap (private_data q) !! a) d ++
      omap (fun a => (fun n => (Z.to_nat (ublksrv_aio_tag (aio_id n)), demo_result a (aio_res n) (aio_io n))) <$>
              dm_heap (private_data q) !! a) l /\
    in_flight (private_data q') [] [] [] /\ dm_heap (private_data q') = ∅.
Proof.
  intros Hs Hq Hf Hnd Hh Hdead Hps Hb. unfold demo_handle_event, io_thread_ran. rewrite Hps. cbn [head tail default from_option id].
  cbn [demo_event_real_io_handler_fn]. rewrite Hdead.
  destruct (pass_spec sys the_queue (private_data q) l d ids Hf) as (h1&c1&sent&ids1&->&_&Hp&Hf1&Hdone). cbn [mbind option_bind].
  destruct (handle_completions_spec (set_private_data (mk_demo h1 c1 ps) q) A [] (d ++ l) ids1)
    as (q'&ids2&->&Hs'&_&_&_&Hf'&Hp').
  - by apply qsim_private.
  - done.
  - apply Hf1.
  - by rewrite Hp.
  - by rewrite Hp.
  - cbn [dm_heap private_data set_private_data] in Hs', Hp'. rewrite Hdone in Hs', Hp'. eexists q', _. split; [done|]. split; [exact Hs'|].
    pose proof (fl_ids _ _ _ _ Hf') as Hn. cbn in Hn. apply Forall2_nil_inv_l in Hn as ->.
    split; [by rewrite <- Hp, Hp'|]. split; [|split; [done|]].
    + f_equal. apply omap_ext_list. intros a Ha. unfold served. specialize (Hb a).
      destruct (dm_heap (private_data q) !! a) as [n|]; [|done]. cbn. do 2 f_equal.
      exact (after_fn_result a (aio_io n) (aio_res n) (aio_id n) (Hb n Ha eq_refl)).
    + apply map_empty. intros a. destruct (dm_heap (private_data q') !! a) eqn:E; [|done].
      assert (a ∈ @nil Z) as ?%not_elem_of_nil by (apply (fl_dom _ _ _ _ Hf'); by rewrite E). done.
Qed.
End demo_spec.
