(* ===== verification/DemoUring.v ===== *)
(** * The event demo with io_uring, and the null demo (demo_event.c, demo_null.c)

    With --use_aio the I/O thread of the event demo does not make system calls:
    it puts the requests on a ring of its own, whose completions it reaps, and
    polls the eventfd of the context on the same ring (user data 0).  The null
    demo completes a request as soon as it gets it. *)

From S2P Require Import Prelude Bytes UblkCmd Uring QueueTypes Batch Queue QueueSpec Loop Aio AioCtx DemoIo EventTgt.

Section uring.
Context {R : Type} `{!Uring R}.
(** What the slot of a new entry held. *)
Variable slot : sqe_op.
Variable slot_data : Z.

(** The mode follows the loop target. *)
Definition queue_fallocate_async (fd : Z) (iod : ublksrv_io_desc) : sqe_op :=
  PrepFallocate fd (loop_fallocate_mode iod) (u64 (Z.shiftl (start_sector iod) 9)) (u32 (Z.shiftl (nr_sectors iod) 9)) 0.

(** The entry of a request, [None] for an operation that is not known. *)
Definition async_entry (fd : Z) (iod : ublksrv_io_desc) : option sqe_op :=
  let op := ublksrv_get_op iod in
  let len := u32 (Z.shiftl (nr_sectors iod) 9) in
  let offset := u64 (Z.shiftl (start_sector iod) 9) in
  if (op =? UBLK_IO_OP_DISCARD) || (op =? UBLK_IO_OP_WRITE_ZEROES) then Some (queue_fallocate_async fd iod)
  else if op =? UBLK_IO_OP_FLUSH then Some (PrepFsync fd IORING_FSYNC_DATASYNC 0)
  else if op =? UBLK_IO_OP_READ then Some (PrepRead fd (iod_addr iod) len offset 0 None)
  else if op =? UBLK_IO_OP_WRITE then Some (PrepWrite fd (iod_addr iod) len offset 0 None 0)
  else None.

(** The entry is taken first, and stays taken when the request is refused:
    without its user data when there is no file, with it otherwise. *)
Definition async_io_submitter (req : Z) (d : ublksrv_io_desc * Z * Z) (r : R) : Z * R :=
  let '(iod, fd, _) := d in
  let '(ret, s) :=
    if fd <? 0 then (- EINVAL, mk_sqe slot_data slot)
    else match async_entry fd iod with
         | Some e => (0, mk_sqe req e)
         | None => (- EINVAL, mk_sqe req slot)
         end in
  match io_uring_get_sqe s r with
  | None => (- ENOMEM, r)
  | Some r => (ret, r)
  end.

Definition queue_event (ctx_efd : Z) (r : R) : Z * R :=
  match io_uring_get_sqe (mk_sqe 0 (PrepPollAdd ctx_efd POLLIN)) r with
  | None => (-1, r)
  | Some r => (0, r)
  end.

(** The completions; a request that has to be tried again is put on the ring
    again, and what that returns is not looked at. *)
Fixpoint reap_uring (cqes : list io_uring_cqe) (h : heap) (al : aio_list) (r : R) (got_efd : bool) (count : Z)
    : option (heap * aio_list * R * bool * Z) :=
  match cqes with
  | [] => Some (h, al, r, got_efd, count)
  | cqe :: cqes =>
      if negb (cqe_user_data cqe =? 0) then
        let req := cqe_user_data cqe in
        n ← h !! req;
        if cqe_res cqe =? - EAGAIN then
          reap_uring cqes h al (async_io_submitter req (node_data n) r).2 got_efd (count + 1)
        else
          '(h, al) ← aio_list_add al req (<[req := set_aio_res (cqe_res cqe) n]> h);
          reap_uring cqes h al r got_efd (count + 1)
      else reap_uring cqes h al r true (count + 1)
  end.

(** ** What reaping does *)

(** The requests that are done, and those to be tried again. *)
Definition finished (cqes : list io_uring_cqe) : list Z :=
  omap (fun c => if (cqe_user_data c =? 0) || (cqe_res c =? - EAGAIN) then None else Some (cqe_user_data c)) cqes.
Definition retried (cqes : list io_uring_cqe) : list Z :=
  omap (fun c => if negb (cqe_user_data c =? 0) && (cqe_res c =? - EAGAIN) then Some (cqe_user_data c) else None) cqes.
Definition resubmit (h : heap) (r : R) (a : Z) : R :=
  match h !! a with Some n => (async_io_submitter a (node_data n) r).2 | None => r end.

Lemma resubmit_same h h' l r : (forall a, a ∈ l -> node_data <$> h' !! a = node_data <$> h !! a) ->
  foldl (resubmit h') r l = foldl (resubmit h) r l.
Proof.
  revert r. induction l as [|a l IH]; intros r Hl; [done|]. cbn. rewrite IH by (intros b Hb; apply Hl; by right).
  f_equal. specialize (Hl a ltac:(left)). unfold resubmit. destruct (h' !! a) as [n1|], (h !! a) as [n2|]; try done.
  assert (node_data n1 = node_data n2) as -> by (cbn in Hl; congruence). done.
Qed.

(** The result a completion carries for the request at [a]. *)
Definition cqe_result (cqes : list io_uring_cqe) (a : Z) (res : Z) : Prop :=
  exists c, c ∈ cqes /\ cqe_user_data c = a /\ cqe_res c = res.

(** A request gets its result and goes to the end of the list. *)
Lemma reap_add h al l a n res :
  list_rep h al l -> a ∉ l -> h !! a = Some n ->
  exists h' al', aio_list_add al a (<[a := set_aio_res res n]> h) = Some (h', al') /\ list_rep h' al' (l ++ [a]) /\
    (forall b, b <> a -> node_data <$> h' !! b = node_data <$> h !! b) /\
    (fun n' => (aio_res n', aio_id n')) <$> h' !! a = Some (res, aio_id n) /\ (forall b, is_Some (h' !! b) <-> is_Some (h !! b)) /\
    (forall b, b ∉ l ++ [a] -> h' !! b = h !! b).
Proof.
  intros Hl Ha Hn. set (h1 := <[a := _]> h).
  assert (Hh1 : forall b, b <> a -> h1 !! b = h !! b) by (intros; by apply lookup_insert_ne).
  assert (Ha1 : h1 !! a = Some (set_aio_res res n)) by apply lookup_insert_eq.
  destruct (aio_list_add_rep h1 al l a) as (h'&al'&->&Hl'&Hsd&Hfr); [|by eexists|done|].
  { eapply list_rep_frame; [|exact Hl]. intros b Hb. apply Hh1. by intros ->. }
  assert (Hother : forall b, b <> a -> node_data <$> h' !! b = node_data <$> h !! b) by (intros; by rewrite Hsd, Hh1).
  exists h', al'. split; [done|]. split; [done|]. split; [done|]. specialize (Hsd a). rewrite Ha1 in Hsd.
  destruct (h' !! a) as [n'|] eqn:Hn'; [|done]. split; [cbn in Hsd |- *; unfold node_data in Hsd; cbn in Hsd; congruence|].
  split; [|intros b Hb; rewrite Hfr, Hh1; set_solver].
  intros b. destruct (decide (b = a)) as [->|Hb]; [rewrite Hn, Hn'; by split; eexists|].
  specialize (Hother b Hb). destruct (h' !! b), (h !! b); try done; split; by intros [].
Qed.

(** Reaping is complete: every completion of a request that is done puts
    the request on the list, in order and with its result; a request that has to
    be tried again is put on the ring again unchanged and is on no list; the
    completions are all counted, and the poll of the eventfd is noticed. *)
Theorem reap_uring_complete cqes h al l r got count :
  list_rep h al l -> NoDup (l ++ finished cqes ++ retried cqes) ->
  (forall a, a ∈ finished cqes ++ retried cqes -> is_Some (h !! a)) ->
  exists h' al', reap_uring cqes h al r got count =
      Some (h', al', foldl (resubmit h) r (retried cqes),
            got || existsb (fun c => cqe_user_data c =? 0) cqes, count + Z.of_nat (length cqes)) /\
    list_rep h' al' (l ++ finished cqes) /\
    (forall a n', a ∈ finished cqes -> h' !! a = Some n' -> cqe_result cqes a (aio_res n') /\ aio_id <$> h !! a = Some (aio_id n')) /\
    (forall a, a ∉ finished cqes -> node_data <$> h' !! a = node_data <$> h !! a) /\
    (forall a, is_Some (h' !! a) <-> is_Some (h !! a)) /\ (forall a, a ∉ l ++ finished cqes -> h' !! a = h !! a).
Proof.
  revert h al l r got count. induction cqes as [|c cqes IH]; intros h al l r got count Hl Hnd Hin.
  { exists h, al. cbn. rewrite orb_false_r, Z.add_0_r, app_nil_r. split; [done|]. split; [done|].
    split; [by intros ? ? ?%not_elem_of_nil|done]. }
  assert (Hmono : forall a res, cqe_result cqes a res -> cqe_result (c :: cqes) a res).
  { intros a res (c'&?&?). exists c'. split; [by right|done]. }
  assert (Hlen : forall n, n + Z.of_nat (length (c :: cqes)) = n + 1 + Z.of_nat (length cqes)) by (intros; rewrite length_cons; lia).
  rewrite Hlen. cbn [reap_uring existsb]. unfold finished, retried in Hnd, Hin |- *. cbn [omap list_omap] in Hnd, Hin |- *.
  fold (finished cqes) (retried cqes) in Hnd, Hin |- *.
  destruct (Z.eqb_spec (cqe_user_data c) 0) as [H0|H0]; cbn [negb orb andb] in *.
  { rewrite orb_true_r. destruct (IH h al l r true (count + 1) Hl Hnd Hin) as (h'&al'&->&Hl'&Hres&Hrest).
    exists h', al'. split; [done|]. split; [done|]. split; [|done]. intros b n' Hb Hn'. destruct (Hres b n' Hb Hn'). eauto. }
  set (a := cqe_user_data c) in *. destruct (Z.eqb_spec (cqe_res c) (- EAGAIN)) as [He|He]; cbn [negb orb andb] in *.
  - destruct (Hin a) as [n Hn]; [apply elem_of_app; right; left|]. rewrite Hn. cbn [mbind option_bind].
    destruct (IH h al l (async_io_submitter a (node_data n) r).2 got (count + 1) Hl) as (h'&al'&->&Hl'&Hres&Hrest).
    { eapply sublist_NoDup; [exact Hnd|]. do 2 (apply sublist_app; [done|]). by apply sublist_cons. }
    { intros b Hb. apply Hin. set_solver. }
    exists h', al'. split; [cbn [foldl]; unfold resubmit at 3; by rewrite Hn|]. split; [done|]. split; [|done].
    intros b n' Hb Hn'. destruct (Hres b n' Hb Hn'). eauto.
  - destruct (Hin a) as [n Hn]; [left|]. rewrite Hn. cbn [mbind option_bind].
    assert (NoDup (a :: l ++ finished cqes ++ retried cqes)) as [Ha Hnd']%NoDup_cons by (by rewrite Permutation_middle).
    destruct (reap_add h al l a n (cqe_res c) Hl) as (h2&al2&->&Hl2&Hother&Hnew&Hdom2&Hfr2); [set_solver|done|].
    cbn [mbind option_bind]. destruct (IH h2 al2 (l ++ [a]) r got (count + 1)) as (h'&al'&->&Hl'&Hres&Hkeep&Hdom&Hfr).
    { done. }
    { by rewrite <- app_assoc. }
    { intros b Hb. apply Hdom2, Hin. by right. }
    exists h', al'. rewrite <- app_assoc in Hl'. split; [|split; [done|split; [|split; [|split]]]].
    + rewrite (resubmit_same h h2); [done|]. intros b Hb. apply Hother. set_solver.
    + intros b n' [->|Hb]%elem_of_cons Hn'.
      * specialize (Hkeep a ltac:(set_solver)). rewrite Hn' in Hkeep. destruct (h2 !! a) as [n2|]; [|done].
        cbn in Hkeep, Hnew. unfold node_data in Hkeep. rewrite Hn. cbn. split; [|congruence].
        exists c. split; [left|]. split; [done|congruence].
      * destruct (Hres b n' Hb Hn') as [Hr Hid]. split; [by apply Hmono|]. rewrite <- Hid.
        assert (b <> a) as Hne by (intros ->; apply Ha, elem_of_app; right; apply elem_of_app; by left). specialize (Hother b Hne).
        destruct (h !! b), (h2 !! b); cbn in *; unfold node_data in Hother; congruence.
    + intros b Hb. rewrite Hkeep by set_solver. apply Hother. set_solver.
    + intros b. by rewrite Hdom, Hdom2.
    + intros b Hb. rewrite Hfr, Hfr2; set_solver.
Qed.

(** A request with an operation the demo does not know is refused with -EINVAL,
    but its entry stays on the ring under the address of the request, which is
    completed and freed: the completion that follows names freed memory. *)
Theorem refused_entry_submitted req iod fd id (r r' : R) :
  0 <= fd -> async_entry fd iod = None -> io_uring_get_sqe (mk_sqe req slot) r = Some r' ->
  async_io_submitter req (iod, fd, id) r = (- EINVAL, r').
Proof. intros Hfd He Hg. unfold async_io_submitter. rewrite (proj2 (Z.ltb_ge _ _) Hfd), He. cbn. by rewrite Hg. Qed.
End uring.

(** ** The null demo *)
Section null_demo.
Context {R : Type} `{!Uring R} {T : Type}.
Notation Q := (queue R T).

Definition demo_null_handle_io_async (tag : Z) (q : Q) : option (Z * Q) :=
  iod ← get_iod q tag;
  '(_, q) ← ublksrv_complete_io tag (s32 (u32 (Z.shiftl (nr_sectors iod) 9))) q;
  Some (0, q).

Definition demo_null_tgt_type : ublksrv_tgt_type R T := mk_tgt_type demo_null_handle_io_async None None None None.

Context `{!UringLaws R}.

#[export] Program Instance demo_null_laws : TargetLaws demo_null_tgt_type := {| tinv _ _ := True; tgt_cqe_ok _ _ := False |}.
Next Obligation. done. Qed.
Next Obligation.
  intros q A i op Hs Ht _. cbn [demo_null_tgt_type handle_io_async]. unfold cb_safe, demo_null_handle_io_async.
  destruct (qsim_get_iod q A i _ Hs Ht) as (iod&->&_). cbn [mbind option_bind].
  destruct (complete_keeps q A i (s32 (u32 (Z.shiftl (nr_sectors iod) 9))) Hs Ht ltac:(apply s32_bound))
    as (r&q'&A'&->&Hc&Hs'&_&He&_). cbn. exists q', A'. split; [done|]. split; [done|]. split; [done|]. split; [done|]. by rewrite He.
Qed.
Next Obligation. done. Qed.
Next Obligation. done. Qed.
Next Obligation. done. Qed.
Next Obligation. done. Qed.

(** Whatever the operation, the null demo answers with the length of the
    request. *)
Theorem demo_null_completes `{!UringProgress R} (q : Q) A i iod :
  qsim q A -> a_tags A !! i = Some TTarget -> get_iod q (Z.of_nat i) = Some iod ->
  0 <= nr_sectors iod -> nr_sectors iod * 512 < 2^31 ->
  exists q', demo_null_handle_io_async (Z.of_nat i) q = Some (0, q') /\
    qsim q' (send i UBLK_IO_COMMIT_AND_FETCH_REQ (Some (nr_sectors iod * 512)) A).
Proof.
  intros Hs Ht Hiod H0 Hlt. unfold demo_null_handle_io_async. rewrite Hiod. cbn [mbind option_bind].
  rewrite Z.shiftl_mul_pow2 by done. change (2^9) with 512.
  rewrite u32_id, s32_id by (unfold is_u32, is_s32; lia).
  destruct (complete_io_progress q A i (nr_sectors iod * 512) Hs Ht) as (q'&->&_&Hs'); [unfold is_s32; lia|].
  by exists q'.
Qed.
End null_demo.
