(* ===== verification/DemoLoop.v ===== *)
(** * The event demo's io_uring thread (demo_event.c)

    With --use_aio the I/O thread puts the requests on a ring of its own and
    polls the eventfd of the context on the same ring.  The definitions are the
    thread's iteration and its loop; the transition system lets the queue's
    thread and the kernel run between the iterations, and the theorem accounts
    for every request. *)

From S2P Require Import Prelude Bytes UblkCmd Uring QueueTypes Batch Queue QueueSpec Aio AioCtx DemoIo DemoUring.

Section thread.
Context {R : Type} `{!Uring R}.
(** What the slot of a new entry held. *)
Variable slot : sqe_op.
Variable slot_data : Z.
(** The address of the one queue. *)
Variable the_queue : Z.

(** The size asked for. *)
Definition uring_qd (queue_depth nr_hw_queues : Z) : Z := u32 (queue_depth * nr_hw_queues * 2).

(** [req->res] is the same memory as [req->fd], which is not changed. *)
Definition async_fn (req : Z) (d : ublksrv_io_desc * Z * Z) (r : R) : Z * Z * R :=
  let '(ret, r) := async_io_submitter slot slot_data req d r in (ret, d.1.2, r).

(** One iteration; [cqes]: the completions there are.  The queues an event was
    sent to come last. *)
Definition uring_io_pass (cqes : list io_uring_cqe) (h : heap) (c : ublksrv_aio_ctx) (r : R)
    : option (heap * ublksrv_aio_ctx * R * list Z) :=
  '(h, c, compl, _, r) ← ublksrv_aio_submit_worker async_fn [] h c (Some aio_list_init) 0 r;
  compl ← compl;
  '(h, compl, r, got_efd, _) ← reap_uring slot slot_data cqes h compl r false 0;
  '(h, c, _, sent) ← ublksrv_aio_complete_worker [the_queue] (fun _ => 0) h c compl;
  let r := if got_efd : bool then (queue_event (ctx_efd c) r).2 else r in
  Some (h, c, (io_uring_submit_and_wait 1 r).2, sent).

(** Iterations until the context is shut down, or there are no more [cqess]. *)
Fixpoint uring_loop (cqess : list (list io_uring_cqe)) (h : heap) (c : ublksrv_aio_ctx) (r : R)
    : option (heap * ublksrv_aio_ctx * R) :=
  match cqess with
  | [] => Some (h, c, r)
  | cqes :: cqess =>
      if ctx_dead c then Some (h, c, r)
      else '(h, c, r, _) ← uring_io_pass cqes h c r; uring_loop cqess h c r
  end.

(** Before the loop the eventfd is polled for the first time. *)
Definition uring_start (efd : Z) (r : R) : R := (io_uring_submit_and_wait 0 (queue_event efd r).2).2.

(** [registered]: what registering the eventfd with the new ring [r] returned. *)
Definition demo_event_uring_io_handler_fn (registered : Z) (cqess : list (list io_uring_cqe)) (h : heap)
    (c : ublksrv_aio_ctx) (r : R) : option (heap * ublksrv_aio_ctx * R) :=
  if negb (registered =? 0) then Some (h, c, r) else uring_loop cqess h c (uring_start (ctx_efd c) r).

(** ** The thread, the queue's thread and the kernel

    [us_kernel]: the user data of the entries the kernel has taken and not
    completed; [us_cq]: the completions the thread has not seen. *)
Record ustate := mk_u {
  us_heap : heap;
  us_ctx : ublksrv_aio_ctx;
  us_ring : R;
  us_kernel : list Z;
  us_cq : list io_uring_cqe
}.

Definition issued_since (r r' : R) : list Z :=
  sqe_user_data <$> drop (length (sq_issued r)) (sq_issued r').

(** A request the demo can put on the ring: it has a file and an operation that
    is known, and it belongs to a tag of the one queue. *)
Definition uring_request (n : ublksrv_aio) : Prop :=
  0 <= aio_res n /\ is_Some (async_entry (aio_res n) (aio_io n)) /\
  exists i, Z.of_nat i < UBLK_MAX_QUEUE_DEPTH /\ aio_id n = ublksrv_aio_pid_tag 0 (Z.of_nat i).

(** [depth]: there are no more requests than tags. *)
Inductive ustep (depth : nat) : ustate -> ustate -> Prop :=
| UNew h c r K cq a n h' sub :
    h !! a = None -> a <> 0 -> uring_request n -> (size h < depth)%nat ->
    aio_list_add (ctx_submit c) a (<[a := n]> h) = Some (h', sub) ->
    ustep depth (mk_u h c r K cq) (mk_u h' (set_ctx_submit sub c) r K cq)
| UKernel h c r K1 ud K2 cq res flags :
    ustep depth (mk_u h c r (K1 ++ ud :: K2) cq) (mk_u h c r (K1 ++ K2) (cq ++ [mk_cqe ud res flags]))
| UPass h c r K cq h' c' r' sent :
    ctx_dead c = false -> uring_io_pass cq h c r = Some (h', c', r', sent) ->
    ustep depth (mk_u h c r K cq) (mk_u h' c' r' (K ++ issued_since r r') [])
| UTake {T} h c r K cq (q q' : queue R T) A h' c' :
    q_id q = 0 -> qsim q A ->
    (forall compl d, queue_compl c q = Some compl -> list_rep h compl d -> completable (reqs_done h d) A) ->
    ublksrv_aio_handle_event h c q = Some (h', c', q') ->
    ustep depth (mk_u h c r K cq) (mk_u h' c' r K cq).

(** The thread has started; no request yet. *)
Definition uinit (depth : nat) (s : ustate) : Prop :=
  exists addr efd data r, sq_pending r = [] /\ Z.of_nat depth + 1 <= sq_entries r /\
    s = mk_u ∅ (mk_aio_ctx addr aio_list_init [aio_list_init] efd 0 false data) (uring_start efd r)
             (issued_since r (uring_start efd r)) [].
End thread.

(** ** Entries on the ring *)
Section entries.
Context {R : Type} `{!Uring R, !UringLaws R}.
Variable slot : sqe_op.
Variable slot_data : Z.
Implicit Types r : R.

(** The user data of the entries the kernel has not taken. *)
Definition queued r : list Z := sqe_user_data <$> sq_pending r.

(** [r'] is [r] with entries for [l]. *)
Definition pushed r (l : list Z) r' : Prop :=
  queued r' = queued r ++ l /\ sq_issued r' = sq_issued r /\ sq_entries r' = sq_entries r.

Definition room r (n : nat) : Prop := Z.of_nat (length (queued r) + n) <= sq_entries r.

Lemma pushed_nil r : pushed r [] r.
Proof. by split; [rewrite app_nil_r|]. Qed.

Lemma pushed_app r r1 r2 l1 l2 : pushed r l1 r1 -> pushed r1 l2 r2 -> pushed r (l1 ++ l2) r2.
Proof. intros (Q1&I1&E1) (Q2&I2&E2). split; [by rewrite Q2, Q1, app_assoc|]. split; congruence. Qed.

Lemma pushed_room r r' l n : pushed r l r' -> room r (length l + n) -> room r' n.
Proof. intros (Q&_&E). unfold room. rewrite Q, E, length_app. by rewrite Nat.add_assoc. Qed.

Lemma room_le r n m : (n <= m)%nat -> room r m -> room r n.
Proof. unfold room. lia. Qed.

Lemma get_sqe_pushed s r : room r 1 -> exists r', io_uring_get_sqe s r = Some r' /\ pushed r [sqe_user_data s] r'.
Proof.
  intros Hr. destruct (proj2 (get_sqe_space s r)) as [r' Hg].
  { unfold room, queued in Hr. rewrite length_fmap in Hr. unfold io_uring_sq_space_left, io_uring_sq_ready. lia. }
  exists r'. split; [done|]. apply get_sqe_push in Hg as (He&Hi&Hp). split; [|done]. unfold queued. by rewrite Hp, fmap_app.
Qed.

(** A request that can be put on the ring is. *)
Lemma async_pushed a n r : uring_request n -> room r 1 ->
  exists r', async_io_submitter slot slot_data a (node_data n) r = (0, r') /\ pushed r [a] r'.
Proof.
  intros (Hfd&[e He]&_) Hr. unfold async_io_submitter, node_data. rewrite (proj2 (Z.ltb_ge _ _) Hfd), He.
  destruct (get_sqe_pushed (mk_sqe a e) r Hr) as (r'&->&Hp). by exists r'.
Qed.

(** Those of a heap, at the addresses of a list. *)
Definition requests (h : heap) (l : list Z) : Prop := forall a, a ∈ l -> exists n, h !! a = Some n /\ uring_request n.

Lemma requests_data h h' l : (forall a, a ∈ l -> node_data <$> h' !! a = node_data <$> h !! a) -> requests h l -> requests h' l.
Proof.
  intros Hd Hr a Ha. destruct (Hr a Ha) as (n&Hn&Hok). specialize (Hd a Ha). rewrite Hn in Hd.
  destruct (h' !! a) as [n'|]; [|done]. exists n'. split; [done|]. injection Hd as H1 H2 H3.
  unfold uring_request. by rewrite H1, H2, H3.
Qed.

Definition sent_answers (h : heap) (l : list Z) : list (Z * (Z * Z)) :=
  (fun a => (a, (0, from_option aio_res 0 (h !! a)))) <$> l.

Lemma run_async h l r : requests h l -> room r (length l) ->
  exists r', run_fn (async_fn slot slot_data) h l r = (sent_answers h l, r') /\ pushed r l r'.
Proof.
  revert r. induction l as [|a l IH]; intros r Hl Hr; [exists r; split; [done|apply pushed_nil]|].
  destruct (Hl a ltac:(left)) as (n&Hn&Hok). cbn [run_fn]. rewrite Hn. unfold async_fn at 1.
  destruct (async_pushed a n r Hok) as (r1&->&Hp1); [by eapply room_le; [|exact Hr]; cbn; lia|].
  destruct (IH r1) as (r2&->&Hp2); [intros b Hb; apply Hl; by right|by eapply (pushed_room r r1 [a])|].
  exists r2. split; [|by apply (pushed_app r r1 r2 [a] l)]. unfold sent_answers. cbn [fmap list_fmap]. by rewrite Hn.
Qed.

(** Nothing is finished and nothing changed. *)
Lemma sent_unfinished h l : omap finishes (sent_answers h l) = [].
Proof. induction l as [|a l IH]; [done|]. exact IH. Qed.

Lemma sent_same h h' l : answered h h' (sent_answers h l) -> same_data h h'.
Proof.
  intros Ha a. rewrite Ha. destruct (h !! a) as [n|] eqn:Hn; [|done]. cbn [fmap option_fmap option_map].
  destruct (list_to_map (sent_answers h l) !! a) as [x|] eqn:E; [|done].
  apply elem_of_list_to_map_2, list_elem_of_fmap in E as (b&[= <- ->]&_). rewrite Hn. by destruct n.
Qed.

Lemma resubmit_pushed h l r : requests h l -> room r (length l) ->
  pushed r l (foldl (resubmit slot slot_data h) r l).
Proof.
  revert r. induction l as [|a l IH]; intros r Hl Hr; [apply pushed_nil|]. cbn [foldl].
  destruct (Hl a ltac:(left)) as (n&Hn&Hok). unfold resubmit at 2. rewrite Hn.
  destruct (async_pushed a n r Hok) as (r1&->&Hp1); [by eapply room_le; [|exact Hr]; cbn; lia|]. cbn [snd].
  apply (pushed_app r r1 _ [a] l); [done|]. apply IH; [intros b Hb; apply Hl; by right|by eapply (pushed_room r r1 [a])].
Qed.

Lemma event_pushed efd r : room r 1 -> pushed r [0] (queue_event efd r).2.
Proof. intros Hr. unfold queue_event. by destruct (get_sqe_pushed (mk_sqe 0 (PrepPollAdd efd POLLIN)) r Hr) as (r'&->&Hp). Qed.

(** Submitting only hands entries over. *)
Lemma submitted n r :
  let r' := (io_uring_submit_and_wait n r).2 in
  queued r' ++ issued_since r r' ≡ₚ queued r /\ sq_entries r' = sq_entries r.
Proof.
  cbn. destruct (submit_and_wait_submits n r) as [He (k&Hi&Hp)]. split; [|done]. unfold queued, issued_since.
  rewrite Hi, Hp, drop_app_length, <- fmap_app, Permutation_app_comm, take_drop. done.
Qed.

Lemma issued_since_trans r r1 r2 : sq_issued r1 = sq_issued r -> issued_since r r2 = issued_since r1 r2.
Proof. intros He. unfold issued_since. by rewrite He. Qed.
End entries.

(** ** Where the requests are *)
Section accounting.
Context {R : Type} `{!Uring R, !UringLaws R, !UringProgress R}.
Variable slot : sqe_op.
Variable slot_data : Z.
Variable the_queue : Z.
Variable depth : nat.
Notation ustate := (ustate (R := R)).
Implicit Types s : ustate.

(** [l] wait to be put on the ring, [p] are on it, with the kernel or have a
    completion, [d] are done; the poll of the eventfd is under way once. *)
Record uinv s (l p d : list Z) : Prop := {
  ui_submit : list_rep (us_heap s) (ctx_submit (us_ctx s)) l;
  ui_complete : exists compl, ctx_complete (us_ctx s) = [compl] /\ list_rep (us_heap s) compl d;
  ui_nodup : NoDup (l ++ p ++ d);
  ui_dom : forall a, is_Some (us_heap s !! a) <-> a ∈ l ++ p ++ d;
  ui_out : queued (us_ring s) ++ us_kernel s ++ (cqe_user_data <$> us_cq s) ≡ₚ 0 :: p;
  ui_requests : requests (us_heap s) (l ++ p);
  ui_nonzero : 0 ∉ l ++ p;
  ui_depth : (length (l ++ p ++ d) <= depth)%nat;
  ui_room : Z.of_nat depth + 1 <= sq_entries (us_ring s);
  ui_flags : ctx_flags (us_ctx s) = 0
}.

(** The completions by what they are for. *)
Lemma cqes_split cqes :
  cqe_user_data <$> cqes ≡ₚ filter (fun x => x = 0) (cqe_user_data <$> cqes) ++ finished cqes ++ retried cqes.
Proof.
  induction cqes as [|c cqes IH]; [done|]. unfold finished, retried. cbn [fmap list_fmap omap list_omap].
  fold (finished cqes) (retried cqes). rewrite filter_cons.
  destruct (Z.eqb_spec (cqe_user_data c) 0) as [E|E]; cbn [orb negb andb].
  - rewrite decide_True by done. cbn [app]. by constructor.
  - rewrite decide_False by done. destruct (cqe_res c =? - EAGAIN); cbn [orb negb andb]; rewrite IH at 1; solve_Permutation.
Qed.

Lemma polled cqes : NoDup (cqe_user_data <$> cqes) ->
  filter (fun x => x = 0) (cqe_user_data <$> cqes) = if existsb (fun c => cqe_user_data c =? 0) cqes then [0] else [].
Proof.
  induction cqes as [|c cqes IH]; [done|]. cbn [fmap list_fmap existsb]. intros [Hc Hnd]%NoDup_cons. rewrite filter_cons.
  destruct (Z.eqb_spec (cqe_user_data c) 0) as [E|E]; cbn [orb].
  - rewrite decide_True, E by done. f_equal.
    destruct (filter _ _) as [|x xs] eqn:Ef; [done|]. assert (x ∈ filter (fun x => x = 0) (cqe_user_data <$> cqes)) as Hx by (rewrite Ef; left).
    apply list_elem_of_filter in Hx as [-> Hx]. by rewrite E in Hc.
  - rewrite decide_False by done. by apply IH.
Qed.

Lemma finished_nonzero cqes : 0 ∉ finished cqes ++ retried cqes.
Proof.
  rewrite not_elem_of_app. unfold finished, retried.
  split; intros (c&_&Hc)%list_elem_of_omap; destruct (Z.eqb_spec (cqe_user_data c) 0), (cqe_res c =? - EAGAIN); naive_solver.
Qed.

(** Which requests stay with the kernel. *)
Lemma outstanding q K cqes p :
  q ++ K ++ (cqe_user_data <$> cqes) ≡ₚ 0 :: p -> NoDup p -> 0 ∉ p ->
  exists p0, p ≡ₚ finished cqes ++ p0 /\
    q ++ K ++ retried cqes ++ (if existsb (fun c => cqe_user_data c =? 0) cqes then [0] else []) ≡ₚ 0 :: p0 /\
    NoDup (finished cqes ++ retried cqes) /\ finished cqes ⊆ p /\ retried cqes ⊆ p.
Proof.
  intros Hp Hnd H0. assert (Hud : NoDup (cqe_user_data <$> cqes)).
  { assert (NoDup (q ++ K ++ (cqe_user_data <$> cqes))) as Hq by (rewrite Hp; by constructor).
    by apply NoDup_app in Hq as (_&_&(_&_&?)%NoDup_app). }
  rewrite <- polled by done. set (z := filter _ _). rewrite cqes_split in Hp. fold z in Hp.
  assert (0 ∈ q ++ K ++ retried cqes ++ z) as Hin.
  { assert (0 ∈ q ++ K ++ z ++ finished cqes ++ retried cqes) as Hin by (rewrite Hp; left).
    pose proof (finished_nonzero cqes) as Hn. clearbody z. clear -Hin Hn. set_solver. }
  apply elem_of_Permutation in Hin as [p0 Hp0]. exists p0. assert (Hp1 : p ≡ₚ finished cqes ++ p0).
  { apply (Permutation_cons_inv (a := 0)). rewrite <- Hp. transitivity (finished cqes ++ (q ++ K ++ retried cqes ++ z)).
    - solve_Permutation.
    - rewrite Hp0. solve_Permutation. }
  split; [done|]. split; [done|]. rewrite cqes_split in Hud. apply NoDup_app in Hud as (_&_&Hud). split; [done|].
  split; intros a Ha; [rewrite Hp1; apply elem_of_app; by left|].
  assert (a ∈ 0 :: p) as [->|?]%elem_of_cons; [|by destruct (finished_nonzero cqes); apply elem_of_app; right|done].
  rewrite <- Hp, !elem_of_app. auto.
Qed.

Lemma request_qid h l a : requests h l -> a ∈ l -> req_qid h a = Some 0.
Proof.
  intros Hr Ha. destruct (Hr a Ha) as (n&Hn&_&_&i&Hi&Hid). apply (flight_qid h a i). split; [done|]. by exists n.
Qed.

Lemma same_id_qid h h' a q : is_Some (h' !! a) -> (forall n, h' !! a = Some n -> aio_id <$> h !! a = Some (aio_id n)) ->
  req_qid h a = q -> req_qid h' a = q.
Proof.
  intros [n Hn] Hid <-. specialize (Hid n Hn). unfold req_qid. rewrite Hn. destruct (h !! a); [|done].
  cbn in Hid |- *. congruence.
Qed.

Lemma qids_of_queue h l : (forall a, a ∈ l -> req_qid h a = Some 0) -> of_queue h 0 l = l.
Proof.
  intros Hr. unfold of_queue. induction l as [|a l IH]; [done|]. rewrite filter_cons, decide_True by (apply Hr; left).
  f_equal. apply IH. intros b Hb. apply Hr. by right.
Qed.

(** The entries an iteration adds fit in the ring. *)
Lemma uinv_room s l p d p0 : uinv s l p d -> p ≡ₚ finished (us_cq s) ++ p0 ->
  queued (us_ring s) ++ us_kernel s ++ retried (us_cq s) ++ (if existsb (fun c => cqe_user_data c =? 0) (us_cq s) then [0] else []) ≡ₚ 0 :: p0 ->
  room (us_ring s) (length l + (length (retried (us_cq s)) + length (if existsb (fun c => cqe_user_data c =? 0) (us_cq s) then [0] else []))).
Proof.
  intros Hu Hp Ho. pose proof (ui_depth _ _ _ _ Hu) as Hd. pose proof (ui_room _ _ _ _ Hu) as Hr.
  apply Permutation_length in Hp, Ho. rewrite !length_app in *. cbn [length] in Ho. unfold room. lia.
Qed.

(** What an iteration does to the ring. *)
Lemma pass_ring h l T (got : bool) efd r r1 :
  requests h T -> pushed r l r1 -> room r1 (length T + length (if got then [0] else [])) ->
  let r2 := foldl (resubmit slot slot_data h) r1 T in
  let r' := (io_uring_submit_and_wait 1 (if got then (queue_event efd r2).2 else r2)).2 in
  queued r' ++ issued_since r r' ≡ₚ queued r ++ l ++ T ++ (if got then [0] else []) /\ sq_entries r' = sq_entries r.
Proof.
  intros HT Hp1 Hr1 r2. assert (Hp2 : pushed r1 T r2) by (apply resubmit_pushed; [done|]; eapply room_le; [|exact Hr1]; lia).
  set (r3 := if got then _ else _). intros r'. assert (Hp3 : pushed r (l ++ T ++ (if got then [0] else [])) r3).
  { apply (pushed_app r r1); [done|]. apply (pushed_app r1 r2); [done|]. subst r3. destruct got; [|apply pushed_nil].
    apply event_pushed. by apply (pushed_room r1 r2 T). }
  destruct Hp3 as (Hq&Hi&He). destruct (submitted 1 r3) as [Hs Hse]. fold r' in Hs, Hse.
  rewrite (issued_since_trans r r3 r' Hi), Hs, Hq, Hse. done.
Qed.

(** An iteration in any such state. *)
Lemma uring_pass_spec h c r K cq l p d : uinv (mk_u h c r K cq) l p d ->
  exists h' c' r' sent p0, uring_io_pass slot slot_data the_queue cq h c r = Some (h', c', r', sent) /\
    p ≡ₚ finished cq ++ p0 /\
    uinv (mk_u h' c' r' (K ++ issued_since r r') []) [] (p0 ++ l) (d ++ finished cq) /\
    (forall a n, a ∈ finished cq -> h' !! a = Some n -> cqe_result cq a (aio_res n)) /\
    (forall a, a ∉ finished cq -> node_data <$> h' !! a = node_data <$> h !! a).
Proof.
  intros Hu. pose proof Hu as [Hl (compl&Hc&Hd) Hnd Hdom Hout Hreq Hnz Hdep Hent Hfl].
  cbn [us_heap us_ctx us_ring us_kernel us_cq] in *.
  assert (Hndp : NoDup p) by (by apply NoDup_app in Hnd as (_&_&(?&_)%NoDup_app)).
  destruct (outstanding _ _ _ _ Hout Hndp ltac:(set_solver)) as (p0&Hp&Ho&HndFT&HF&HT).
  pose proof (uinv_room _ _ _ _ p0 Hu Hp Ho) as Hroom. cbn [us_ring us_cq] in Hroom.
  set (F := finished cq) in *. set (T := retried cq) in *. set (got := existsb _ cq) in *. set (z := if got then [0] else []) in *.
  unfold uring_io_pass. pose proof (submit_worker_once (async_fn slot slot_data) h c l r Hl) as Hw.
  destruct (run_async slot slot_data h l r) as (r1&Hrun&Hp1).
  { intros a Ha. apply Hreq, elem_of_app. by left. }
  { eapply room_le; [|exact Hroom]. lia. }
  rewrite Hrun in Hw. destruct Hw as (h1&sub&al&k&->&Hsub&Hal&Hans&Hfr1). apply sent_same in Hans. rewrite sent_unfinished in Hal.
  cbn [mbind option_bind].
  destruct (reap_uring_complete slot slot_data cq h1 al [] r1 false 0) as (h2&al2&->&Hal2&Hres&Hkeep&Hdom2&Hfr2).
  { done. } { done. }
  { intros a Ha. apply (same_data_lookup h); [done|]. apply Hdom. set_solver. }
  fold F T got in Hal2, Hres, Hkeep, Hfr2 |- *. cbn [mbind option_bind app orb] in *.
  assert (Hdata : forall a, a ∉ F -> node_data <$> h2 !! a = node_data <$> h !! a).
  { intros a Ha. rewrite Hkeep by done. apply Hans. }
  assert (Hdoms : forall a, is_Some (h2 !! a) <-> is_Some (h !! a)).
  { intros a. rewrite Hdom2. pose proof (Hans a) as Ha. destruct (h1 !! a), (h !! a); try done; split; intros; by eexists. }
  assert (Hqid : forall a, a ∈ F -> req_qid h2 a = Some 0).
  { intros a Ha. assert (Hap : a ∈ l ++ p) by (apply elem_of_app; right; by apply HF). apply (same_id_qid h1); [apply Hdoms, Hdom; set_solver| |].
    - intros n Hn. by destruct (Hres a n Ha Hn).
    - rewrite (req_qid_data h h1 a Hans). by apply (request_qid h (l ++ p)). }
  assert (Hdis : forall a, a ∈ d -> a ∉ F /\ a ∉ l).
  { intros a Ha. apply NoDup_app in Hnd as (_&Hd1&(_&Hd2&_)%NoDup_app). split; [intros Hf; exact (Hd2 a (HF a Hf) Ha)|].
    intros Ha'. apply (Hd1 a Ha'). apply elem_of_app. by right. }
  assert (Hperm : l ++ p ++ d ≡ₚ (p0 ++ l) ++ d ++ F) by (rewrite Hp; solve_Permutation).
  destruct (pass_complete the_queue h2 (set_ctx_submit sub c) al2 F d compl) as (h3&c3&al3&sent&compl'&->&->&Hc3&Hsd3); try done.
  { eapply list_rep_frame; [|exact Hd]. intros a Ha. destruct (Hdis a Ha). by rewrite Hfr2, Hfr1. }
  { rewrite Hperm in Hnd. apply NoDup_app in Hnd as (_&_&Hnd). by rewrite Permutation_app_comm. }
  { intros a Ha. exists 0%nat. split; [by apply Hqid|cbn; lia]. }
  { apply qids_of_queue. done. }
  cbn [mbind option_bind]. eexists _, _, _, sent, p0. split; [done|]. split; [done|].
  assert (Hh3 : forall a, a ∉ F -> node_data <$> h3 !! a = node_data <$> h !! a).
  { intros a Ha. rewrite Hsd3. by apply Hdata. }
  assert (Hlp : forall a, a ∈ p0 ++ l -> a ∈ l ++ p /\ a ∉ F).
  { intros a Ha. rewrite Hperm, Permutation_app_swap_app in Hnd. apply NoDup_app in Hnd as (_&_&(_&Hd1&_)%NoDup_app).
    split; [rewrite Hp; clear -Ha; set_solver|by apply Hd1]. }
  destruct (pass_ring h1 l T got (ctx_efd c) r r1) as [Hq He].
  { apply (requests_data h); [intros; apply Hans|]. intros a Ha. apply Hreq, elem_of_app. right. by apply HT. }
  { done. } { by apply (pushed_room r r1 l). }
  fold z in Hq. split; [|split].
  - split; cbn [us_heap us_ctx us_ring us_kernel us_cq ctx_submit ctx_complete ctx_flags set_ctx_submit set_ctx_complete].
    + by apply (list_rep_nil h1).
    + by exists compl'.
    + by rewrite <- Hperm.
    + intros a. cbn [app]. rewrite <- Hperm, <- Hdom, <- Hdoms. specialize (Hsd3 a).
      destruct (h3 !! a), (h2 !! a); try done; split; intros; by eexists.
    + cbn [fmap list_fmap]. rewrite app_nil_r, Permutation_app_swap_app, Hq.
      transitivity ((queued r ++ K ++ T ++ z) ++ l); [solve_Permutation|by rewrite Ho].
    + apply (requests_data h); [intros a Ha; by apply Hh3, Hlp|]. intros a Ha. by apply Hreq, Hlp.
    + intros H0. by apply Hnz, (Hlp 0).
    + cbn [app]. by rewrite <- Hperm.
    + cbn in He |- *. by rewrite He.
    + done.
  - intros a n Ha Hn. specialize (Hsd3 a). rewrite Hn in Hsd3. destruct (h2 !! a) as [n2|] eqn:Hn2; [|done].
    destruct (Hres a n2 Ha Hn2) as [Hr _]. injection Hsd3 as _ -> _. exact Hr.
  - done.
Qed.
Lemma dom_size (h : heap) (l : list Z) : NoDup l -> (forall a, is_Some (h !! a) <-> a ∈ l) -> size h = length l.
Proof.
  intros Hnd Hd. rewrite <- (size_list_to_set (C := gset Z) l Hnd), <- size_dom. f_equal. apply set_eq.
  intros a. by rewrite elem_of_dom, elem_of_list_to_set.
Qed.

Lemma uinv_new h c r K cq l p d a n h' sub : uinv (mk_u h c r K cq) l p d ->
  h !! a = None -> a <> 0 -> uring_request n -> (size h < depth)%nat ->
  aio_list_add (ctx_submit c) a (<[a := n]> h) = Some (h', sub) ->
  uinv (mk_u h' (set_ctx_submit sub c) r K cq) (l ++ [a]) p d.
Proof.
  intros [Hl (compl&Hc&Hd) Hnd Hdom Hout Hreq Hnz Hdep Hent Hfl] Ha Ha0 Hn Hsz Hadd.
  cbn [us_heap us_ctx us_ring us_kernel us_cq] in *.
  assert (Hnot : a ∉ l ++ p ++ d) by (rewrite <- Hdom, Ha; by intros []).
  assert (Hne : forall b, b ∈ l ++ p ++ d -> b <> a) by (intros b Hb ->; done).
  set (h1 := <[a := n]> h) in *. assert (Hh1 : forall b, b <> a -> h1 !! b = h !! b) by (intros; by apply lookup_insert_ne).
  assert (Ha1 : h1 !! a = Some n) by apply lookup_insert_eq.
  assert (Hfrl : list_rep h1 (ctx_submit c) l).
  { eapply list_rep_frame; [|exact Hl]. intros b Hb. apply Hh1, Hne. set_solver. }
  destruct (aio_list_add_rep h1 (ctx_submit c) l a Hfrl) as (h2&sub2&Hadd2&Hl2&Hsd&Hfr).
  { by eexists. } { set_solver. }
  rewrite Hadd in Hadd2. injection Hadd2 as <- <-.
  assert (Hperm : (l ++ [a]) ++ p ++ d ≡ₚ a :: l ++ p ++ d) by solve_Permutation.
  split; cbn [us_heap us_ctx us_ring us_kernel us_cq ctx_submit ctx_complete ctx_flags set_ctx_submit]; try done.
  - exists compl. split; [done|]. eapply list_rep_frame; [|exact Hd]. intros b Hb.
    rewrite Hfr, Hh1; [done|apply Hne; set_solver|apply Hne; set_solver|].
    intros Hbl. apply NoDup_app in Hnd as (_&Hnd&_). apply (Hnd b Hbl). set_solver.
  - rewrite Hperm. by apply NoDup_cons.
  - intros b. rewrite Hperm, elem_of_cons, <- Hdom. specialize (Hsd b). destruct (decide (b = a)) as [->|Hb].
    + rewrite Ha1 in Hsd. destruct (h' !! a); [|done]. split; [by left|by eexists].
    + rewrite Hh1 in Hsd by done. destruct (h' !! b), (h !! b); try done; naive_solver.
  - intros b Hb. destruct (decide (b = a)) as [->|Hba].
    + apply (requests_data h1 h' [a]); [intros; apply Hsd| |left]. intros x ->%list_elem_of_singleton. exists n.
      done.
    + apply (requests_data h h' (l ++ p)); [|done|set_solver]. intros x Hx. rewrite Hsd, Hh1; [done|]. apply Hne. set_solver.
  - set_solver.
  - rewrite Hperm. cbn. rewrite <- (dom_size h (l ++ p ++ d) Hnd Hdom). lia.
Qed.

Lemma uinv_take {T} h c r K cq l p d (q q' : queue R T) A h' c' : uinv (mk_u h c r K cq) l p d ->
  q_id q = 0 -> qsim q A ->
  (forall compl d, queue_compl c q = Some compl -> list_rep h compl d -> completable (reqs_done h d) A) ->
  ublksrv_aio_handle_event h c q = Some (h', c', q') -> uinv (mk_u h' c' r K cq) l p [].
Proof.
  intros [Hl (compl&Hc&Hd) Hnd Hdom Hout Hreq Hnz Hdep Hent Hfl] Hq Hs Hok Hev.
  cbn [us_heap us_ctx us_ring us_kernel us_cq] in *.
  assert (Hqc : queue_compl c q = Some compl) by (unfold queue_compl; by rewrite Hq, Hc).
  destruct (handle_event_spec h c q A compl d Hqc Hd Hs (Hok _ _ Hqc Hd)) as (h2&compl2&q2&He&_&Hl2&Hh2&_).
  rewrite Hev in He. injection He as <- -> <-. rewrite Hq, Hc. cbn [Z.to_nat].
  apply NoDup_app in Hnd as (Hndl&Hd1&(Hndp&Hd2&_)%NoDup_app).
  assert (Hkeep : forall a, a ∈ l ++ p -> h' !! a = h !! a).
  { intros a Ha. rewrite Hh2, decide_False; [done|]. apply elem_of_app in Ha as [Ha|Ha]; [|by apply Hd2].
    intros Hb. apply (Hd1 a Ha). set_solver. }
  split; cbn [us_heap us_ctx us_ring us_kernel us_cq ctx_submit ctx_complete ctx_flags set_ctx_complete]; rewrite ?app_nil_r; try done.
  - eapply list_rep_frame; [|exact Hl]. intros b Hb. apply Hkeep. set_solver.
  - by exists compl2.
  - apply NoDup_app. split; [done|]. split; [|done]. intros x Hx Hx'. apply (Hd1 x Hx). set_solver.
  - intros a. specialize (Hdom a). rewrite Hh2. destruct (decide (a ∈ d)) as [Ha|Ha].
    + split; [by intros []|]. intros [Hb|Hb]%elem_of_app; [destruct (Hd1 a Hb); set_solver|by destruct (Hd2 a Hb)].
    + rewrite Hdom, !elem_of_app. tauto.
  - apply (requests_data h); [|done]. intros a Ha. by rewrite Hkeep.
  - rewrite !length_app in *. lia.
Qed.

Lemma uinv_step s s' l p d : uinv s l p d -> ustep slot slot_data the_queue depth s s' -> exists l' p' d', uinv s' l' p' d'.
Proof.
  intros Hu Hstep. destruct Hstep as [h c r K cq a n h' sub|h c r K1 ud K2 cq res fl|h c r K cq h' c' r' sent Hdead Hp|T h c r K cq q q' A h' c'].
  - eexists _, _, _. by eapply uinv_new.
  - exists l, p, d. destruct Hu as [? ? ? ? Hout]. split; try done. cbn [us_ring us_kernel us_cq] in *. rewrite fmap_app. cbn [fmap list_fmap cqe_user_data].
    rewrite <- Hout. solve_Permutation.
  - destruct (uring_pass_spec h c r K cq l p d Hu) as (h2&c2&r2&sent2&p0&Hp2&_&Hu2&_). rewrite Hp in Hp2. injection Hp2 as <- <- <- <-.
    by eexists _, _, _.
  - eexists _, _, _. by eapply uinv_take.
Qed.

Lemma uinv_init s : uinit depth s -> uinv s [] [] [].
Proof.
  intros (addr&efd&data&r&Hp&Hd&->). assert (Hpush : pushed r [0] (queue_event efd r).2).
  { apply event_pushed. unfold room, queued. rewrite Hp. cbn. lia. }
  destruct Hpush as (Hq&Hi&He). destruct (submitted 0 (queue_event efd r).2) as [Hs Hse]. rewrite <- issued_since_trans with (r := r) in Hs by done.
  unfold queued in Hq at 2. rewrite Hp in Hq. cbn [fmap list_fmap app] in Hq. rewrite Hq in Hs.
  split; cbn [us_heap us_ctx us_ring us_kernel us_cq ctx_submit ctx_complete ctx_flags app length fmap list_fmap]; try done.
  - apply aio_list_init_rep.
  - exists aio_list_init. split; [done|apply aio_list_init_rep].
  - constructor.
  - intros a. rewrite lookup_empty. split; [by intros []|by intros ?%not_elem_of_nil].
  - by rewrite app_nil_r.
  - by intros a ?%not_elem_of_nil.
  - apply not_elem_of_nil.
  - lia.
  - unfold uring_start. by rewrite Hse, He.
Qed.

(** C14: The event demo loses no request on its ring: in every state the
    I/O thread, the queue's thread and the kernel can reach, each allocated
    request waits for the thread, is under way on the ring exactly once, or is
    on the list of finished requests, in one of these places only, and the
    eventfd is polled exactly once; the thread's next iteration does not fail,
    puts all waiting requests and those to be tried again on the ring, hands the
    finished ones over in order, each with the result of its completion, and
    leaves the eventfd polled. *)
Theorem demo_uring_accounting s0 s :
  uinit depth s0 -> rtc (ustep slot slot_data the_queue depth) s0 s ->
  let h := us_heap s in let cq := us_cq s in
  exists l p d compl,
    list_rep h (ctx_submit (us_ctx s)) l /\ ctx_complete (us_ctx s) = [compl] /\ list_rep h compl d /\
    NoDup (l ++ p ++ d) /\ (forall a, is_Some (h !! a) <-> a ∈ l ++ p ++ d) /\
    queued (us_ring s) ++ us_kernel s ++ (cqe_user_data <$> cq) ≡ₚ 0 :: p /\
    exists h' c' r' sent p0 compl',
      uring_io_pass slot slot_data the_queue cq h (us_ctx s) (us_ring s) = Some (h', c', r', sent) /\
      p ≡ₚ finished cq ++ p0 /\ list_rep h' (ctx_submit c') [] /\
      ctx_complete c' = [compl'] /\ list_rep h' compl' (d ++ finished cq) /\
      (forall a n, a ∈ finished cq -> h' !! a = Some n -> cqe_result cq a (aio_res n)) /\
      queued r' ++ us_kernel s ++ issued_since (us_ring s) r' ≡ₚ 0 :: p0 ++ l.
Proof.
  intros Hi Hr h cq. assert (exists l p d, uinv s l p d) as (l&p&d&Hu).
  { revert s Hr h cq. apply (rtc_ind_r (fun s => forall (h := us_heap s) (cq := us_cq s), exists l p d, uinv s l p d)).
    - intros _ _. exists [], [], []. by apply uinv_init.
    - intros s1 s2 _ Hs IH _ _. destruct IH as (l&p&d&Hu). by eapply uinv_step. }
  destruct s as [h0 c r K cq0]. subst h cq. pose proof Hu as [Hl (compl&Hc&Hd) Hnd Hdom Hout _ _ _ _ _].
  exists l, p, d, compl. do 6 (split; [done|]).
  destruct (uring_pass_spec h0 c r K cq0 l p d Hu) as (h'&c'&r'&sent&p0&Hp&Hperm&[Hl' (compl'&Hc'&Hd') _ _ Hout' _ _ _ _ _]&Hres&_).
  cbn [us_heap us_ctx us_ring us_kernel us_cq] in *. exists h', c', r', sent, p0, compl'. do 6 (split; [done|]).
  cbn [fmap list_fmap] in Hout'. by rewrite app_nil_r in Hout'.
Qed.
End accounting.

(** The ring that is asked for has room for every tag and the poll. *)
Theorem uring_qd_fits depth nr : 1 <= depth * nr -> depth * nr < 2^31 -> depth * nr + 1 <= uring_qd depth nr.
Proof. intros H1 H2. unfold uring_qd. rewrite u32_id by (unfold is_u32; lia). lia. Qed.
