(* ===== verification/DemoExamples.v ===== *)
(** * Requests of the event demo

    A queue with a read that waits to be done and a write that is done; the
    theorems of DemoIo, DemoUring and DemoLoop applied to it. *)

From S2P Require Import Prelude Bytes UblkCmd Uring QueueTypes Batch Queue QueueSpec Loop Aio AioCtx EventTgt DemoIo DemoUring DemoLoop.

Definition exd_read : ublksrv_io_desc := mk_iod UBLK_IO_OP_READ 8 16 0x5000.
Definition exd_write : ublksrv_io_desc := mk_iod UBLK_IO_OP_WRITE 16 24 0x6000.
(** Reads get all their bytes, everything else fails. *)
Definition exd_sys (req : Z) (c : file_call) : Z := match c with CPread _ _ len _ => len | _ => -1 end.

Definition exd_heap : heap :=
  <[500 := mk_aio exd_read 7 (ublksrv_aio_pid_tag 0 0) None]>
  (<[600 := mk_aio exd_write (-1) (ublksrv_aio_pid_tag 0 1) None]> ∅).
Definition exd_one (a : Z) : aio_list := mk_aio_list (Some a) (Some a).
Definition exd_state : demo_state := mk_demo exd_heap (mk_aio_ctx 900 (exd_one 500) [exd_one 600] 9 0 false 0) [1%nat].

Definition exd_queue : queue ListRing.ring demo_state :=
  mk_queue 0 2 [exd_read; exd_write] 0 0 0 (-1) [] 6
    (ListRing.mk_ring 8 [] []) 0 [0; 0; 0; 0] (mk_batch [] [] 0 0 0 0 0 0)
    [mk_ublk_io 0x5000 0 0 0 (Some 0) 0; mk_ublk_io 0x6000 0 0 1 (Some 1) 0] exd_state [].
Definition exd_aqueue : aqueue := mk_aqueue [TTarget; TTarget] false [].

Lemma exd_qsim : qsim exd_queue exd_aqueue.
Proof.
  split; try done.
  - intros [|[|i]] io Hio; [by injection Hio as <-..|done].
  - intros [|[|i]] t Ht; [by injection Ht as <-; eexists; split; [done|left]..|done].
Qed.

Lemma exd_rep a n : exd_heap !! a = Some n -> aio_next n = None -> list_rep exd_heap (exd_one a) [a].
Proof. intros Hn He. split; [split; [done|]; by exists n|]. split; [done|apply NoDup_singleton]. Qed.

Lemma exd_in_flight : in_flight exd_state [500] [600] [0%nat; 1%nat].
Proof.
  split.
  - by eapply exd_rep.
  - exists (exd_one 600). split; [done|]. by eapply exd_rep.
  - apply (bool_decide_unpack _). vm_compute. done.
  - intros a. cbn. unfold exd_heap. rewrite !lookup_insert_is_Some, lookup_empty, !elem_of_cons, elem_of_nil.
    split; [|by intros [->|[->|[]]]; [left|right; split; [done|left]]].
    intros [->|(_&[->|(_&[? ?])])]; [by left|by right; left|done].
  - constructor; [|constructor; [|constructor]]; (split; [unfold UBLK_MAX_QUEUE_DEPTH; lia|]); eexists; (split; [reflexivity|done]).
  - intros a n Ha%list_elem_of_singleton Hn. subst a. vm_compute in Hn. injection Hn as <-. unfold is_s32. cbn. lia.
  - done.
Qed.

Lemma demo_requests_served_witness :
  exists q', demo_handle_event exd_sys 0x100 exd_queue = Some q' /\
    qsim q' (complete_all [(1%nat, -1); (0%nat, 4096)] exd_aqueue) /\ dm_heap (private_data q') = ∅.
Proof.
  destruct (demo_requests_served exd_sys 0x100 exd_queue exd_aqueue [500] [600] [0%nat; 1%nat] [])
    as (q'&res&Hq&Hs&_&Hres&_&Hh).
  - exact exd_qsim.
  - reflexivity.
  - exact exd_in_flight.
  - apply (bool_decide_unpack _). vm_compute. done.
  - by repeat constructor.
  - reflexivity.
  - reflexivity.
  - intros a n Ha Hn. apply list_elem_of_singleton in Ha as ->. vm_compute in Hn. injection Hn as <-.
    unfold block_request. cbn. lia.
  - vm_compute in Hres. subst res. exists q'. split; [exact Hq|]. split; [exact Hs|exact Hh].
Defined.

(** The read is done, the write has to be tried again, the eventfd is ready. *)
Definition exd_cqes : list io_uring_cqe := [mk_cqe 500 4096 0; mk_cqe 0 1 0; mk_cqe 600 (- EAGAIN) 0].
Definition exd_ring : ListRing.ring := ListRing.mk_ring 8 [] [].

Lemma reap_uring_complete_witness :
  exists h' al' r', reap_uring (PrepFsync 0 0 0) 0 exd_cqes exd_heap aio_list_init exd_ring false 0 =
      Some (h', al', r', true, 3) /\ list_rep h' al' [500].
Proof.
  destruct (reap_uring_complete (PrepFsync 0 0 0) 0 exd_cqes exd_heap aio_list_init [] exd_ring false 0) as (h'&al'&Hr&Hl&_).
  - apply aio_list_init_rep.
  - apply (bool_decide_unpack _). vm_compute. done.
  - intros a Ha. change (finished exd_cqes ++ retried exd_cqes) with [500; 600] in Ha. rewrite !elem_of_cons, elem_of_nil in Ha. destruct Ha as [->|[->|[]]]; by eexists.
  - eexists h', al', _. split; [exact Hr|exact Hl].
Defined.

(** The io_uring thread: a read is put on the ring, the kernel completes it and
    the poll of the eventfd, and a write arrives. *)
Definition exd_slot : sqe_op := PrepFsync 0 0 0.
Definition exd_empty : ublksrv_aio_ctx := mk_aio_ctx 900 aio_list_init [aio_list_init] 9 0 false 0.
Notation exd_ustate := (ustate (R := ListRing.ring)).
Definition exd_u0 : exd_ustate :=
  mk_u ∅ exd_empty (uring_start 9 exd_ring) (issued_since exd_ring (uring_start 9 exd_ring)) [].
Definition exd_new (a : Z) (n : ublksrv_aio) (s : exd_ustate) : exd_ustate :=
  match aio_list_add (ctx_submit (us_ctx s)) a (<[a := n]> (us_heap s)) with
  | Some (h', sub) => mk_u h' (set_ctx_submit sub (us_ctx s)) (us_ring s) (us_kernel s) (us_cq s)
  | None => s
  end.
Definition exd_pass (s : exd_ustate) : exd_ustate :=
  match uring_io_pass exd_slot 0 0x100 (us_cq s) (us_heap s) (us_ctx s) (us_ring s) with
  | Some (h', c', r', _) => mk_u h' c' r' (us_kernel s ++ issued_since (us_ring s) r') []
  | None => s
  end.
Definition exd_rd : ublksrv_aio := mk_aio exd_read 7 (ublksrv_aio_pid_tag 0 0) None.
Definition exd_wr : ublksrv_aio := mk_aio exd_write 7 (ublksrv_aio_pid_tag 0 1) None.
Definition exd_u1 : exd_ustate := exd_new 500 exd_rd exd_u0.
Definition exd_u2 : exd_ustate := exd_pass exd_u1.
Definition exd_u3 : exd_ustate := mk_u (us_heap exd_u2) (us_ctx exd_u2) (us_ring exd_u2) [0] [mk_cqe 500 4096 0].
Definition exd_u4 : exd_ustate := mk_u (us_heap exd_u2) (us_ctx exd_u2) (us_ring exd_u2) [] [mk_cqe 500 4096 0; mk_cqe 0 1 0].
Definition exd_u5 : exd_ustate := exd_new 600 exd_wr exd_u4.

Notation exd_step := (ustep exd_slot 0 0x100 2).

Lemma exd_new_step s a n : us_heap s !! a = None -> a <> 0 -> uring_request n -> (size (us_heap s) < 2)%nat ->
  is_Some (aio_list_add (ctx_submit (us_ctx s)) a (<[a := n]> (us_heap s))) -> exd_step s (exd_new a n s).
Proof.
  intros Ha H0 Hn Hs [[h' sub] Hadd]. destruct s as [h c r K cq].
  cbn [us_heap us_ctx us_ring us_kernel us_cq] in *. unfold exd_new. cbn [us_heap us_ctx us_ring us_kernel us_cq].
  rewrite Hadd. by eapply UNew.
Qed.

Lemma exd_pass_step s : ctx_dead (us_ctx s) = false ->
  is_Some (uring_io_pass exd_slot 0 0x100 (us_cq s) (us_heap s) (us_ctx s) (us_ring s)) -> exd_step s (exd_pass s).
Proof.
  intros Hd [[[[h' c'] r'] sent] Hp]. destruct s as [h c r K cq].
  cbn [us_heap us_ctx us_ring us_kernel us_cq] in *. unfold exd_pass. cbn [us_heap us_ctx us_ring us_kernel us_cq].
  rewrite Hp. by eapply UPass.
Qed.

Lemma exd_request iod i : is_Some (async_entry 7 iod) -> Z.of_nat i < UBLK_MAX_QUEUE_DEPTH ->
  uring_request (mk_aio iod 7 (ublksrv_aio_pid_tag 0 (Z.of_nat i)) None).
Proof. intros He Hi. split; [cbn; lia|]. split; [done|]. by exists i. Qed.

Lemma exd_reached : rtc exd_step exd_u0 exd_u5.
Proof.
  apply rtc_l with exd_u1; [|apply rtc_l with exd_u2; [|apply rtc_l with exd_u3; [|apply rtc_l with exd_u4; [|apply rtc_once]]]].
  - apply exd_new_step; [done|done|apply (exd_request exd_read 0); by eexists|vm_compute; lia|by eexists].
  - apply exd_pass_step; [done|vm_compute; by eexists].
  - assert (exd_u2 = mk_u (us_heap exd_u2) (us_ctx exd_u2) (us_ring exd_u2) ([0] ++ 500 :: []) []) as -> by by vm_compute.
    exact (UKernel _ _ _ 2 _ _ _ [0] 500 [] [] 4096 0).
  - exact (UKernel _ _ _ 2 _ _ _ [] 0 [] [mk_cqe 500 4096 0] 1 0).
  - apply exd_new_step; [by vm_compute|done|apply (exd_request exd_write 1); by eexists|vm_compute; lia|vm_compute; by eexists].
Qed.

Lemma demo_uring_accounting_witness :
  exists h' c' r' sent compl,
    uring_io_pass exd_slot 0 0x100 (us_cq exd_u5) (us_heap exd_u5) (us_ctx exd_u5) (us_ring exd_u5) = Some (h', c', r', sent) /\
    ctx_complete c' = [compl] /\ list_rep h' compl [500].
Proof.
  destruct (demo_uring_accounting exd_slot 0 0x100 2 exd_u0 exd_u5)
    as (l&p&d&compl&_&Hc&Hd&_&_&_&h'&c'&r'&sent&p0&compl'&Hp&_&_&Hc'&Hd'&_).
  - exists 900, 9, 0, exd_ring. split; [reflexivity|]. split; [vm_compute; discriminate|reflexivity].
  - exact exd_reached.
  - exists h', c', r', sent, compl'. split; [exact Hp|]. split; [exact Hc'|].
    apply aio_list_empty_spec in Hd. vm_compute in Hc. injection Hc as <-. destruct d; [|discriminate Hd]. exact Hd'.
Defined.
