(* ===== verification/Daemon.v ===== *)
(** * The daemon of a target (targets/ublksrv_tgt.cpp)

    The commands "add" and "recover" of a target's program, the daemon they
    start and the threads of its queues.  The control device and the driver
    behind it (Ctrl), the device (DevSetup) and the pid file are threaded
    through; what is written to the event descriptor is collected.  [None] is
    a call that does not return normally (see the components).

    The threads of the queues touch shared state in one place before the device
    is started: each writes its entry of the description, under the buffer's
    lock; [de_order] is the order in which they get it.  A thread posts the
    semaphore also when its queue cannot be set up, so the handler does not
    learn about it. *)

From S2P Require Import Prelude Bytes UblkCmd Params Json Ctrl QueueSetup DevSetup Loop TgtInit.

Definition ERROR_EVTFD_DEVID : Z := 0xfffffffffffffffe.
Definition DEF_NR_HW_QUEUES : Z := 1.
Definition DEF_QD : Z := 128.
Definition MAX_QD : Z := 4096.
Definition DEF_BUF_SIZE : Z := Z.shiftl 512 10.

(** ** One CPU for a queue

    The loop of [ublk_set_queue_pthread_affinity] over the CPUs that are set, in
    order: all but the one at place [idx] are cleared. *)
Fixpoint keep_cpu (cpus : list Z) (idx j : Z) : list Z :=
  match cpus with
  | [] => []
  | c :: cpus => if j =? idx then c :: keep_cpu cpus idx (j + 1) else keep_cpu cpus idx (j + 1)
  end.

(** [cpus]: the CPUs of the thread ([None]: sched_getaffinity failed), [rnd]:
    rand(3).  The affinity set, if any; [% 0] is undefined. *)
Definition ublk_set_queue_pthread_affinity (cpus : option (list Z)) (rnd : Z) : option (option (list Z)) :=
  match cpus with
  | None => Some None
  | Some cpus =>
      if (length cpus =? 0)%nat then None
      else Some (Some (keep_cpu cpus (rnd mod Z.of_nat (length cpus)) 0))
  end.

(** ** Options of "add" *)
Notation text := (list Ascii.ascii).

Inductive add_opt :=
| AoNumber (arg : text) | AoType (arg : string) | AoZerocopy | AoBatch | AoQueues (arg : text) | AoDepth (arg : text)
| AoUringComp (arg : text) | AoGetData (arg : text) | AoRecovery (arg : text) | AoFailIo (arg : text) | AoReissue (arg : text)
| AoUnprivileged | AoUsercopy | AoEventfd (arg : text) | AoMaxBuf (arg : text)
| AoOther.   (* the debug mask, and what belongs to the target *)

(** strtol(3) stops at the limits of a long. *)
Definition strtol_long (a : text) : Z := Z.max (- 2^63) (Z.min (2^63 - 1) (strtol a)).

Record add_opts := mk_add_opts {
  ao_data : ublksrv_dev_data;
  ao_type : option string;
  ao_efd : Z;
  ao_uring : Z; ao_get_data : Z; ao_recovery : Z; ao_fail_io : Z; ao_reissue : Z;   (* int *)
  ao_unprivileged : bool; ao_zero_copy : bool; ao_batch : bool
}.

Definition ao_set_data (d : ublksrv_dev_data) (o : add_opts) : add_opts :=
  mk_add_opts d (ao_type o) (ao_efd o) (ao_uring o) (ao_get_data o) (ao_recovery o) (ao_fail_io o) (ao_reissue o)
    (ao_unprivileged o) (ao_zero_copy o) (ao_batch o).
Definition dd_set_flags (f : Z) (d : ublksrv_dev_data) : ublksrv_dev_data :=
  mk_dev_data (dd_dev_id d) (dd_max_io_buf_bytes d) (dd_nr_hw_queues d) (dd_queue_depth d) (dd_run_dir d) f (dd_ublksrv_flags d).

Definition add_option (o : add_opts) (x : add_opt) : add_opts :=
  let d := ao_data o in
  match x with
  | AoNumber a => ao_set_data (mk_dev_data (s32 (strtol_long a)) (dd_max_io_buf_bytes d) (dd_nr_hw_queues d) (dd_queue_depth d)
                    (dd_run_dir d) (dd_flags d) (dd_ublksrv_flags d)) o
  | AoQueues a => ao_set_data (mk_dev_data (dd_dev_id d) (dd_max_io_buf_bytes d) (u16 (strtol_long a)) (dd_queue_depth d)
                    (dd_run_dir d) (dd_flags d) (dd_ublksrv_flags d)) o
  | AoDepth a => ao_set_data (mk_dev_data (dd_dev_id d) (dd_max_io_buf_bytes d) (dd_nr_hw_queues d) (u16 (strtol_long a))
                   (dd_run_dir d) (dd_flags d) (dd_ublksrv_flags d)) o
  | AoMaxBuf a => ao_set_data (mk_dev_data (dd_dev_id d) (u32 (strtol_long a)) (dd_nr_hw_queues d) (dd_queue_depth d)
                    (dd_run_dir d) (dd_flags d) (dd_ublksrv_flags d)) o
  | AoUsercopy => ao_set_data (dd_set_flags (Z.lor (dd_flags d) UBLK_F_USER_COPY) d) o
  | AoType s => mk_add_opts d (Some s) (ao_efd o) (ao_uring o) (ao_get_data o) (ao_recovery o) (ao_fail_io o) (ao_reissue o)
                  (ao_unprivileged o) (ao_zero_copy o) (ao_batch o)
  | AoEventfd a => mk_add_opts d (ao_type o) (s32 (strtol_long a)) (ao_uring o) (ao_get_data o) (ao_recovery o) (ao_fail_io o)
                     (ao_reissue o) (ao_unprivileged o) (ao_zero_copy o) (ao_batch o)
  | AoUringComp a => mk_add_opts d (ao_type o) (ao_efd o) (s32 (strtol_long a)) (ao_get_data o) (ao_recovery o) (ao_fail_io o)
                       (ao_reissue o) (ao_unprivileged o) (ao_zero_copy o) (ao_batch o)
  | AoGetData a => mk_add_opts d (ao_type o) (ao_efd o) (ao_uring o) (s32 (strtol_long a)) (ao_recovery o) (ao_fail_io o)
                     (ao_reissue o) (ao_unprivileged o) (ao_zero_copy o) (ao_batch o)
  | AoRecovery a => mk_add_opts d (ao_type o) (ao_efd o) (ao_uring o) (ao_get_data o) (s32 (strtol_long a)) (ao_fail_io o)
                      (ao_reissue o) (ao_unprivileged o) (ao_zero_copy o) (ao_batch o)
  | AoFailIo a => mk_add_opts d (ao_type o) (ao_efd o) (ao_uring o) (ao_get_data o) (ao_recovery o) (s32 (strtol_long a))
                    (ao_reissue o) (ao_unprivileged o) (ao_zero_copy o) (ao_batch o)
  | AoReissue a => mk_add_opts d (ao_type o) (ao_efd o) (ao_uring o) (ao_get_data o) (ao_recovery o) (ao_fail_io o)
                     (s32 (strtol_long a)) (ao_unprivileged o) (ao_zero_copy o) (ao_batch o)
  | AoUnprivileged => mk_add_opts d (ao_type o) (ao_efd o) (ao_uring o) (ao_get_data o) (ao_recovery o) (ao_fail_io o)
                        (ao_reissue o) true (ao_zero_copy o) (ao_batch o)
  | AoZerocopy => mk_add_opts d (ao_type o) (ao_efd o) (ao_uring o) (ao_get_data o) (ao_recovery o) (ao_fail_io o)
                    (ao_reissue o) (ao_unprivileged o) true (ao_batch o)
  | AoBatch => mk_add_opts d (ao_type o) (ao_efd o) (ao_uring o) (ao_get_data o) (ao_recovery o) (ao_fail_io o)
                 (ao_reissue o) (ao_unprivileged o) (ao_zero_copy o) true
  | AoOther => o
  end.

(** Flags added for options that are set. *)
Definition set_if (c : bool) (mask flags : Z) : Z := if c then Z.lor flags mask else flags.
Definition add_flags (o : add_opts) (f : Z) : Z :=
  let f := set_if (negb (ao_uring o =? 0)) UBLK_F_URING_CMD_COMP_IN_TASK f in
  let f := set_if (negb (ao_get_data o =? 0)) UBLK_F_NEED_GET_DATA f in
  let f := set_if (negb (ao_recovery o =? 0)) UBLK_F_USER_RECOVERY f in
  let f := set_if (negb (ao_fail_io o =? 0)) (Z.lor UBLK_F_USER_RECOVERY UBLK_F_USER_RECOVERY_FAIL_IO) f in
  let f := set_if (negb (ao_reissue o =? 0)) (Z.lor UBLK_F_USER_RECOVERY UBLK_F_USER_RECOVERY_REISSUE) f in
  let f := set_if (ao_unprivileged o) UBLK_F_UNPRIVILEGED_DEV f in
  let f := set_if (ao_zero_copy o) UBLK_F_SUPPORT_ZERO_COPY f in
  set_if (ao_batch o) UBLK_F_BATCH_IO f.

(** [run_dir] from ublksrv_get_pid_dir; its directories are made with mkpath,
    whose result is not used.  The event descriptor starts as -1. *)
Definition ublksrv_parse_add_opts (run_dir : option string) (xs : list add_opt) : add_opts :=
  let o := mk_add_opts (mk_dev_data (-1) DEF_BUF_SIZE DEF_NR_HW_QUEUES DEF_QD run_dir 0 0) None (-1) 0 0 0 0 0 false false false in
  let o := foldl add_option o xs in
  let d := ao_data o in
  let nr := if MAX_NR_HW_QUEUES <? dd_nr_hw_queues d then MAX_NR_HW_QUEUES else dd_nr_hw_queues d in
  let qd := if MAX_QD <? dd_queue_depth d then MAX_QD else dd_queue_depth d in
  ao_set_data (mk_dev_data (dd_dev_id d) (dd_max_io_buf_bytes d) nr qd (dd_run_dir d) (add_flags o (dd_flags d))
    (dd_ublksrv_flags d)) o.

(** ** Telling the parent *)

(** [ok]: write(2) wrote everything.  The result and what was written. *)
Definition ublksrv_tgt_send_dev_event (ok : bool) (evtfd dev_id : Z) : Z * list Z :=
  if evtfd <? 0 then (- EBADF, [])
  else
    let id := if 0 <=? dev_id then u64 (s32 (dev_id + 1)) else ERROR_EVTFD_DEVID in
    if ok then (0, [id]) else (- EINVAL, []).

(** [opens]: what each attempt to open the char device returns.  The loop makes
    ten attempts; the result is the number made. *)
Fixpoint check_dev_loop (fuel : nat) (opens : nat -> Z) (tried : nat) : nat :=
  match fuel with
  | O => tried
  | S fuel => if 0 <? opens tried then S tried else check_dev_loop fuel opens (S tried)
  end.
Definition ublksrv_check_dev (opens : nat -> Z) : nat := check_dev_loop 10 opens 0.

(** ** The daemon *)
Record daemon_env {D : Type} := mk_daemon_env {
  de_argc : Z;
  de_name : string;                  (* of the target *)
  de_ops : tgt_type D;
  de_opens : nat -> Z;               (* the char device, for ublksrv_dev_init *)
  de_pidfd : Z; de_trunc : Z; de_wr : bool; de_junkfd : Z;   (* the pid file *)
  de_pid_text : text;
  de_params : ublk_params;           (* what local variables held *)
  de_pid : Z;
  de_order : list (Z * Z);           (* queue and thread ids *)
  de_cores : Z;
  de_isset : Z -> Z -> bool;         (* the affinity of a queue *)
  de_realloc : Z -> bool;
  de_affinity_mem : bool;
  de_event_ok : bool
}.
#[global] Arguments daemon_env D : clear implicits.

Section daemon.
Context `{!JsonText} {D : Type} {K : Type} `{!CtrlKernel K}.
Variable env : daemon_env D.

(** The control device, the driver and the pid file, and for every time the
    description was written to it the number of commands sent before. *)
Record world := mk_world { w_ctrl : ublksrv_ctrl_dev; w_k : K; w_file : text; w_stores : list nat }.

Definition store_file (file : text) (w : world) : world :=
  mk_world (w_ctrl w) (w_k w) file (w_stores w ++ [length (sent (w_ctrl w))]).

Definition ublk_tgt_set_params (w : world) : option world :=
  '(ret, p) ← ublk_json_read_params (de_params env) (tgt_jbuf (w_ctrl w));
  if 0 <=? ret then
    p ← p;
    '(_, _, d, k) ← ublksrv_ctrl_set_params (w_ctrl w) (w_k w) p;
    Some (mk_world d k (w_file w) (w_stores w))
  else Some w.

(** [fd]: the descriptor of the pid file.  The result, the world and the
    events. *)
Definition ublksrv_tgt_start_dev (fd evtfd : Z) (w : world) : option (Z * world * list Z) :=
  '(_, file) ← ublk_tgt_store_dev_data fd (tgt_jbuf (w_ctrl w)) (w_file w);
  let w := store_file file w in
  '(ret, w) ←
    (if ublksrv_is_recovering (de_argc env) (w_ctrl w) then
       '(ret, d, k) ← ublksrv_ctrl_end_recovery (w_ctrl w) (w_k w) (de_pid env);
       Some (ret, mk_world d k (w_file w) (w_stores w))
     else
       w ← ublk_tgt_set_params w;
       '(ret, d, k) ← ublksrv_ctrl_start_dev (w_ctrl w) (w_k w) (de_pid env);
       Some (ret, mk_world d k (w_file w) (w_stores w)));
  if ret <? 0 then Some (ret, w, [])
  else
    '(ret, d, k) ← ublksrv_ctrl_get_info (w_ctrl w) (w_k w);
    let dev_id := s32 (dev_id (dev_info (w_ctrl w))) in
    let w := mk_world d k (w_file w) (w_stores w) in
    if ret <? 0 then Some (ret, w, [])
    else if evtfd =? -1 then Some (0, w, [])
    else
      let '(ret, ev) := ublksrv_tgt_send_dev_event (de_event_ok env) evtfd dev_id in
      Some (if negb (ret =? 0) then - EINVAL else 0, w, ev).

(** The entries the queues' threads write before they post the semaphore. *)
Fixpoint write_queue_infos (order : list (Z * Z)) (b : ublksrv_tgt_jbuf) : option ublksrv_tgt_jbuf :=
  match order with
  | [] => Some b
  | (qid, tid) :: order =>
      '(_, b) ← ublk_json_write_queue_info (de_realloc env) (de_cores env) (de_isset env qid) qid tid b;
      write_queue_infos order b
  end.

(** The result, the world, the events, and what was closed and unlinked.  Once
    the device is started the handler waits for the threads, which end when the
    device is stopped. *)
Definition ublksrv_device_handler (evtfd : Z) (w : world) : option (Z * world * list Z * list devent) :=
  '(ok, dv) ← ublksrv_dev_init (de_argc env) (Some (de_name env)) (Some (de_ops env)) (de_opens env) (de_junkfd env)
                (de_pidfd env) (de_trunc env) (de_wr env) (w_ctrl w);
  if negb ok then
    '(_, d, k) ← ublksrv_ctrl_del_dev (dv_ctrl dv) (w_k w);
    Some (- EINVAL, mk_world d k (w_file w) (w_stores w), [], dv_log dv)
  else
    b ← write_queue_infos (de_order env) (tgt_jbuf (dv_ctrl dv));
    let w := mk_world (set_jbuf b (dv_ctrl dv)) (w_k w) (de_pid_text env) (w_stores w) in
    '(ret, w, ev) ← ublksrv_tgt_start_dev (pid_file_fd dv) evtfd w;
    let dv := ublksrv_dev_deinit (Some (de_ops env)) (dv_set_ctrl (w_ctrl w) dv) in
    if negb (ret =? 0) then
      '(_, d, k) ← ublksrv_ctrl_del_dev (w_ctrl w) (w_k w);
      Some (ret, mk_world d k (w_file w) (w_stores w), ev, dv_log dv)
    else Some (ret, w, ev, dv_log dv).

(** The wait for the char device changes nothing. *)
Definition ublksrv_start_daemon (evtfd : Z) (w : world) : option (Z * world * list Z * list devent) :=
  '(ret, d, k) ← ublksrv_ctrl_get_affinity (de_affinity_mem env) (w_ctrl w) (w_k w);
  let w := mk_world d k (w_file w) (w_stores w) in
  if ret <? 0 then Some (ret, w, [], []) else ublksrv_device_handler evtfd w.

(** *** Adding a device *)

(** What opening the control device gives: the descriptor, the result of the
    ring's set-up and whether there was memory. *)
Definition ctrl_try : Type := Z * Z * bool.

Definition open_ctrl (junk : string) (t : ctrl_try) (data : ublksrv_dev_data) : option (option ublksrv_ctrl_dev) :=
  let '(fd, ring, m) := t in
  '(d, _) ← ublksrv_ctrl_init (de_realloc env) junk fd ring m data; Some d.

(** The check of the driver's features: the value returned, or the device to go
    on with. *)
Definition check_features (junk : string) (t2 : ctrl_try) (data : ublksrv_dev_data) (d : ublksrv_ctrl_dev) (k : K)
    : option (Z + ublksrv_ctrl_dev * K) :=
  let flags := dd_flags data in
  if has flags (Z.lor UBLK_F_SUPPORT_ZERO_COPY UBLK_F_BATCH_IO) then
    '(ret, features, d, k) ← ublksrv_ctrl_get_features d k;
    if negb (ret =? 0) then Some (inl ret)
    else if has flags UBLK_F_SUPPORT_ZERO_COPY && negb (has features UBLK_F_SUPPORT_ZERO_COPY) then Some (inl (- ENOTSUP))
    else if has flags UBLK_F_BATCH_IO && negb (has features UBLK_F_BATCH_IO) then Some (inl (- ENOTSUP))
    else if has flags UBLK_F_SUPPORT_ZERO_COPY && negb (has features UBLK_F_AUTO_BUF_REG) then
      d ← open_ctrl junk t2 (dd_set_flags (Z.ldiff flags UBLK_F_AUTO_BUF_REG) data);
      d ← d;                                   (* a NULL device is used *)
      Some (inr (d, k))
    else Some (inr (d, k))
  else Some (inr (d, k)).

(** [tflags]: the flags of the target's type.  The result, the world when there
    is one, and the events. *)
Definition ublksrv_cmd_dev_add (tflags : Z * Z) (junk : string) (t1 t2 : ctrl_try) (run_dir : option string)
    (xs : list add_opt) (k : K) : option (Z * option world * list Z) :=
  let o := ublksrv_parse_add_opts run_dir xs in
  if (match ao_type o with Some t => negb (String.eqb t (de_name env)) | None => false end) then Some (- EINVAL, None, [])
  else
    let d0 := ao_data o in
    let flags := Z.lor (dd_flags d0) (fst tflags) in
    let flags := if has flags UBLK_F_SUPPORT_ZERO_COPY then Z.lor flags UBLK_F_AUTO_BUF_REG else flags in
    let data := mk_dev_data (dd_dev_id d0) (dd_max_io_buf_bytes d0) (dd_nr_hw_queues d0) (dd_queue_depth d0) (dd_run_dir d0)
                  flags (Z.lor (dd_ublksrv_flags d0) (snd tflags)) in
    let event dev_id := snd (ublksrv_tgt_send_dev_event (de_event_ok env) (ao_efd o) dev_id) in
    d ← open_ctrl junk t1 data;
    match d with
    | None => Some (- EOPNOTSUPP, None, event (-1))
    | Some d =>
        r ← check_features junk t2 data d k;
        match r with
        | inl ret => Some (ret, None, [])
        | inr (d, k) =>
            '(ret, d, k) ← ublksrv_ctrl_add_dev d k;
            if ret <? 0 then Some (ret, Some (mk_world d k [] []), event (-1))
            else
              '(ret, w, ev, _) ← ublksrv_start_daemon (ao_efd o) (mk_world d k [] []);
              if ret <? 0 then
                '(_, d, k) ← ublksrv_ctrl_del_dev (w_ctrl w) (w_k w);
                Some (ret, Some (mk_world d k (w_file w) (w_stores w)), ev ++ event (-1))
              else Some (0, Some w, ev)
        end
    end.

(** *** Recovering a device *)

(** [while (elapsed < 30000000)], with at most [fuel] tests of the condition;
    the usleep(3) between two rounds has no effect here.  The result is whether
    the function gives up, and the value of [ret] after the loop. *)
Fixpoint recovery_loop (fuel : nat) (elapsed ret : Z) (d : ublksrv_ctrl_dev) (k : K)
    : option (bool * Z * ublksrv_ctrl_dev * K) :=
  match fuel with
  | O => None
  | S fuel =>
      if elapsed <? 30000000 then
        let unit := 100000 in
        '(ret, d, k) ← ublksrv_ctrl_start_recovery d k;
        if (ret <? 0) && negb (ret =? - EBUSY) then Some (true, ret, d, k)
        else if 0 <=? ret then Some (false, ret, d, k)
        else recovery_loop fuel (u32 (elapsed + unit)) ret d k
      else Some (false, ret, d, k)
  end.

(** 300 rounds, and the test that ends the loop. *)
Definition recovery_fuel : nat := 301.

(** After the loop: the description is read and checked, and the daemon is
    started.  [info0]: what the structure on the stack held; [event]: what is
    written to the event descriptor in the end. *)
Definition recover_from_description (run_dir : option string) (pid_file : option text)
    (info0 : ublksrv_ctrl_dev_info) (number evtfd : Z) (event : list Z) (d : ublksrv_ctrl_dev) (k : K)
    : option (Z * option world * list Z) :=
  let fail (ret : Z) := Some (ret, Some (mk_world d k [] []), event) in
  match ublksrv_tgt_get_dev_data (bool_decide (is_Some run_dir)) pid_file with
  | None => fail (-1)
  | Some (buf, _) =>
      '(ret, info) ← ublksrv_json_read_dev_info info0 buf;
      if ret <? 0 then fail ret
      else if negb (dev_id (default info0 info) =? u32 number) then fail ret
      else
        '(ret, _) ← ublksrv_json_read_target_base_info buf;
        if ret <? 0 then fail ret
        else
          '(ret, w, ev, _) ← ublksrv_start_daemon evtfd (mk_world d k [] []);
          Some (ret, Some w, ev ++ event)
  end.

(** [pid_file]: the one the daemon that died left. *)
Definition __cmd_dev_user_recover (junk : string) (t : ctrl_try) (run_dir : option string) (pid_file : option text)
    (info0 : ublksrv_ctrl_dev_info) (number evtfd : Z) (k : K) : option (Z * option world * list Z) :=
  let event := snd (ublksrv_tgt_send_dev_event (de_event_ok env) evtfd (-1)) in
  let data := mk_dev_data number 0 0 0 run_dir 0 0 in
  let '(fd, ring, m) := t in
  '(d, _) ← ublksrv_ctrl_recover_init (de_realloc env) junk fd ring m pid_file data;
  match d with
  | None => Some (- EOPNOTSUPP, None, event)
  | Some d =>
      '(ret, d, k) ← ublksrv_ctrl_get_info d k;
      if ret <? 0 then Some (ret, Some (mk_world d k [] []), event)
      else
        '(refused, ret, d, k) ← recovery_loop recovery_fuel 0 ret d k;
        if refused : bool then Some (ret, Some (mk_world d k [] []), event)
        else recover_from_description run_dir pid_file info0 number evtfd event d k
  end.
End daemon.

(** ** Commands *)

(** [argv] with the program's name first; the command and what is left. *)
Definition ublksrv_pop_cmd (argv : list string) : option (string * list string) :=
  match argv with
  | prog :: cmd :: args => Some (cmd, prog :: args)
  | _ => None
  end.

Inductive main_cmd := CmdMissing | CmdAdd | CmdRecover | CmdHelp | CmdUnknown.
Definition ublksrv_main_cmd (argv : list string) : main_cmd :=
  match ublksrv_pop_cmd argv with
  | None => CmdMissing
  | Some (cmd, _) =>
      if String.eqb cmd "add" then CmdAdd
      else if String.eqb cmd "recover" then CmdRecover
      else if String.eqb cmd "help" || String.eqb cmd "-h" || String.eqb cmd "--help" then CmdHelp
      else CmdUnknown
  end.
