(* ===== verification/DaemonSpec.v ===== *)
(** * What the daemon does

    The thread of a queue runs on one CPU; the options of "add" stay within the
    limits; the order of the commands that start a device; what happens when
    starting or recovering it fails. *)

From S2P Require Import Prelude Bytes UblkCmd Params Json Ctrl QueueSetup DevSetup Loop TgtInit Daemon.

(** ** One CPU for a queue *)

Lemma keep_cpu_nth cpus idx j :
  j <= idx < j + Z.of_nat (length cpus) ->
  exists c, cpus !! Z.to_nat (idx - j) = Some c /\ keep_cpu cpus idx j = [c].
Proof.
  assert (Hnone : forall cpus j, idx < j -> keep_cpu cpus idx j = []).
  { intros l. induction l as [|c l IH]; intros i Hi; cbn [keep_cpu]; [done|].
    rewrite (proj2 (Z.eqb_neq _ _)) by lia. apply IH. lia. }
  revert j. induction cpus as [|c cpus IH]; intros j; cbn [length keep_cpu]; [lia|]. intros Hj.
  destruct (Z.eqb_spec j idx) as [->|Hne].
  - exists c. rewrite Z.sub_diag, Hnone by lia. done.
  - destruct (IH (j + 1)) as (c'&Hc&Hk); [lia|]. exists c'. split; [|done].
    rewrite <- Hc. replace (Z.to_nat (idx - j)) with (S (Z.to_nat (idx - (j + 1)))) by lia. done.
Qed.

(** A queue's thread is bound to exactly one CPU, and to one of those the
    process may run on: the one whose place the random number selects. *)
Theorem queue_thread_one_cpu cpus rnd :
  cpus <> [] -> 0 <= rnd ->
  exists c, ublk_set_queue_pthread_affinity (Some cpus) rnd = Some (Some [c]) /\
    cpus !! Z.to_nat (rnd mod Z.of_nat (length cpus)) = Some c.
Proof.
  intros Hne Hrnd. unfold ublk_set_queue_pthread_affinity.
  assert (0 < Z.of_nat (length cpus)) by (destruct cpus; cbn; [done|lia]).
  rewrite (proj2 (Nat.eqb_neq _ _)) by lia.
  pose proof (Z.mod_pos_bound rnd (Z.of_nat (length cpus))).
  destruct (keep_cpu_nth cpus (rnd mod Z.of_nat (length cpus)) 0) as (c&Hc&Hk); [lia|].
  exists c. by rewrite Hk, <- Hc, Z.sub_0_r.
Qed.

Lemma queue_thread_one_cpu_witness :
  ublk_set_queue_pthread_affinity (Some [2; 5; 7]) 1804289383 = Some (Some [5]).
Proof.
  destruct (queue_thread_one_cpu [2; 5; 7] 1804289383 ltac:(done) ltac:(lia)) as (c&Hs&Hc).
  rewrite Hs. vm_compute in Hc. injection Hc as <-. reflexivity.
Defined.

(** ** Options *)

(** What every option keeps. *)
Definition add_opts_ok (o : add_opts) : Prop :=
  is_s32 (dd_dev_id (ao_data o)) /\ is_u32 (dd_max_io_buf_bytes (ao_data o)) /\
  is_u16 (dd_nr_hw_queues (ao_data o)) /\ is_u16 (dd_queue_depth (ao_data o)) /\
  has (dd_flags (ao_data o)) (Z.lor UBLK_F_USER_RECOVERY_FAIL_IO UBLK_F_USER_RECOVERY_REISSUE) = false /\
  dd_ublksrv_flags (ao_data o) = 0.

Lemma add_option_ok o x : add_opts_ok o -> add_opts_ok (add_option o x).
Proof.
  intros (H1&H2&H3&H4&H5&H6). unfold add_opts_ok.
  destruct x; cbn; repeat split; try (by auto with width); try apply s32_bound; try apply u32_bound; try apply u16_bound;
    try (apply H1); try (apply H2); try (apply H3); try (apply H4).
  by rewrite has_lor_l, H5.
Qed.

Lemma add_options_ok xs o : add_opts_ok o -> add_opts_ok (foldl add_option o xs).
Proof. revert o. induction xs as [|x xs IH]; intros o Ho; cbn; [done|]. by apply IH, add_option_ok. Qed.

Lemma has_set_if c m f m' : has (set_if c m f) m' = has f m' || c && has m m'.
Proof. unfold set_if. destruct c; [by rewrite has_lor_l|by rewrite orb_false_r]. Qed.

(** Whatever the command line says, the device that "add" asks for stays
    within the limits: at most 32 queues, at most 4096 tags, a buffer size of 32
    bits; and a device that fails or reissues requests after its daemon died is
    recoverable. *)
Theorem add_opts_bounds run_dir xs :
  let d := ao_data (ublksrv_parse_add_opts run_dir xs) in
  is_s32 (dd_dev_id d) /\ is_u32 (dd_max_io_buf_bytes d) /\
  0 <= dd_nr_hw_queues d <= MAX_NR_HW_QUEUES /\ 0 <= dd_queue_depth d <= MAX_QD /\
  dd_run_dir d = dd_run_dir (ao_data (ublksrv_parse_add_opts run_dir [])) /\
  (has (dd_flags d) UBLK_F_USER_RECOVERY_FAIL_IO = true \/ has (dd_flags d) UBLK_F_USER_RECOVERY_REISSUE = true ->
   has (dd_flags d) UBLK_F_USER_RECOVERY = true).
Proof.
  set (o0 := mk_add_opts (mk_dev_data (-1) DEF_BUF_SIZE DEF_NR_HW_QUEUES DEF_QD run_dir 0 0) None (-1) 0 0 0 0 0 false false false).
  assert (Hdir : forall o, dd_run_dir (ao_data (foldl add_option o xs)) = dd_run_dir (ao_data o)).
  { induction xs as [|x xs' IH]; intros o; cbn; [done|]. rewrite IH. by destruct x. }
  assert (H0 : add_opts_ok o0) by (repeat split; done).
  pose proof (add_options_ok xs o0 H0) as (H1&H2&H3&H4&H5&_). specialize (Hdir o0).
  rewrite has_lor_mask in H5. apply orb_false_iff in H5 as [H5 H6].
  unfold ublksrv_parse_add_opts. fold o0. set (o := foldl add_option o0 xs) in *. cbv zeta.
  cbn [ao_data ao_set_data dd_dev_id dd_max_io_buf_bytes dd_nr_hw_queues dd_queue_depth dd_run_dir dd_flags].
  split; [done|]. split; [done|]. unfold is_u16, MAX_NR_HW_QUEUES, MAX_QD in *.
  split; [destruct (Z.ltb_spec 32 (dd_nr_hw_queues (ao_data o))); lia|].
  split; [destruct (Z.ltb_spec 4096 (dd_queue_depth (ao_data o))); lia|]. split; [done|].
  unfold add_flags. rewrite !has_set_if, H5, H6.
  change (has UBLK_F_URING_CMD_COMP_IN_TASK UBLK_F_USER_RECOVERY_FAIL_IO) with false.
  destruct (negb (ao_fail_io o =? 0)), (negb (ao_reissue o =? 0)); cbn; rewrite ?andb_false_r, ?orb_true_r; cbn; try done.
  intros [?|?]; done.
Qed.

(** ** Starting a device *)
Section daemon.
Context `{!JsonText} {D : Type} {K : Type} `{!CtrlKernel K, !CtrlKernelLaws K}.
Variable env : daemon_env D.

Notation w_sent w := (sent (w_ctrl w)).

Lemma same_dev_daemon pid d : same_dev d (with_daemon pid d).
Proof. done. Qed.







(** ** When it fails *)

(** A handler that fails has had the device deleted. *)
Lemma handler_failure_deletes evtfd (w : world (K := K)) ret w' ev log :
  ublksrv_device_handler env evtfd w = Some (ret, w', ev, log) -> ret <> 0 ->
  exists d s b, w_ctrl w' = log_cmd s b d /\ cmd_ok ODel d (s, b).
Proof.
  intros Hrun Hne. unfold ublksrv_device_handler in Hrun.
  inv_bind. destruct p as [ok dv]. destruct ok; cbn [negb] in Hrun.
  - inv_bind. inv_bind. destruct p as [[r w1] ev1]. destruct (Z.eqb_spec r 0) as [->|Hr]; cbn [negb] in Hrun; [by simplify_eq|].
    destruct (del_dev_once (w_ctrl w1) (w_k w1)) as (r1&s&b1&Hdel&_&Hok). rewrite Hdel in Hrun. cbn in Hrun.
    injection Hrun as <- <- <- <-. by exists (w_ctrl w1), s, b1.
  - destruct (del_dev_once (dv_ctrl dv) (w_k w)) as (r1&s&b1&Hdel&_&Hok). rewrite Hdel in Hrun. cbn in Hrun.
    injection Hrun as <- <- <- <-. by exists (dv_ctrl dv), s, b1.
Qed.

(** The command line that adds a device of this target, up to the daemon. *)
Definition adds_device (tflags : Z * Z) (junk : string) (t1 t2 : ctrl_try) (dir : option string) (xs : list add_opt)
    (k : K) (d : ublksrv_ctrl_dev) (k' : K) : Prop :=
  let o := ublksrv_parse_add_opts dir xs in
  (ao_type o = None \/ ao_type o = Some (de_name env)) /\
  exists data d0 d1 k1 ret,
    data = (let f := Z.lor (dd_flags (ao_data o)) (fst tflags) in
            mk_dev_data (dd_dev_id (ao_data o)) (dd_max_io_buf_bytes (ao_data o)) (dd_nr_hw_queues (ao_data o))
              (dd_queue_depth (ao_data o)) (dd_run_dir (ao_data o))
              (if has f UBLK_F_SUPPORT_ZERO_COPY then Z.lor f UBLK_F_AUTO_BUF_REG else f)
              (Z.lor (dd_ublksrv_flags (ao_data o)) (snd tflags))) /\
    open_ctrl env junk t1 data = Some (Some d0) /\ check_features env junk t2 data d0 k = Some (inr (d1, k1)) /\
    ublksrv_ctrl_add_dev d1 k1 = Some (ret, d, k') /\ 0 <= ret.

(** A device that cannot be started is deleted twice: once by the handler
    of the daemon, when it fails, and again by the command that added it, which
    cannot tell; the number may belong to another device by then.  The command
    returns the handler's error, and the parent is told about it once. *)
Theorem failed_add_deletes_twice tflags junk t1 t2 dir xs k d k' d2 k2 ret w ev log :
  adds_device tflags junk t1 t2 dir xs k d k' ->
  ublksrv_ctrl_get_affinity (de_affinity_mem env) d k' = Some (0, d2, k2) ->
  ublksrv_device_handler env (ao_efd (ublksrv_parse_add_opts dir xs)) (mk_world d2 k2 [] []) = Some (ret, w, ev, log) -> ret < 0 ->
  exists w' pre s1 b1 s2 b2,
    ublksrv_cmd_dev_add env tflags junk t1 t2 dir xs k =
      Some (ret, Some w', ev ++ snd (ublksrv_tgt_send_dev_event (de_event_ok env) (ao_efd (ublksrv_parse_add_opts dir xs)) (-1))) /\
    w_sent w = pre ++ [(s1, b1)] /\ w_sent w' = pre ++ [(s1, b1); (s2, b2)] /\
    cmd_ok ODel (w_ctrl w) (s1, b1) /\ cmd_ok ODel (w_ctrl w) (s2, b2).
Proof.
  intros (Htype&data&d0&d1&k1&ret1&Hdata&Ho&Hc&Ha&Hret1) Haff Hh Hret.
  destruct (handler_failure_deletes _ _ _ _ _ _ Hh ltac:(lia)) as (d3&s1&b1&Hw&Hok1).
  destruct (del_dev_once (w_ctrl w) (w_k w)) as (r2&s2&b2&Hdel&_&Hok2).
  eexists (mk_world _ _ (w_file w) (w_stores w)), (sent d3), s1, b1, s2, b2. split.
  - unfold ublksrv_cmd_dev_add. cbv zeta.
    match goal with |- (if ?c then _ else _) = _ => assert (c = false) as -> end.
    { destruct Htype as [-> | ->]; [done|]. by rewrite String.eqb_refl. }
    cbv zeta in Hdata. rewrite <- Hdata, Ho. cbn [mbind option_bind]. rewrite Hc. cbn [mbind option_bind]. rewrite Ha.
    cbn [mbind option_bind]. rewrite (proj2 (Z.ltb_ge _ _) Hret1). unfold ublksrv_start_daemon. cbn [w_ctrl w_k w_file w_stores].
    rewrite Haff. cbn [mbind option_bind Z.ltb Z.compare]. rewrite Hh. cbn [mbind option_bind].
    rewrite (proj2 (Z.ltb_lt _ _) Hret), Hdel. done.
  - rewrite Hw in *. cbn [w_ctrl log_cmd sent]. split; [done|]. split; [by rewrite <- app_assoc|]. by split.
Qed.

(** ** Recovery *)

(** The driver answered each of these commands, one after the other, that it is
    busy. *)
Inductive busy_run : K -> list (ctrl_sqe * ctrl_buf) -> K -> Prop :=
  | busy_nil k : busy_run k [] k
  | busy_cons k s b cs k' :
      answer_ret (k_answer k s b) = Some (- EBUSY) -> busy_run (an_kernel (k_answer k s b)) cs k' ->
      busy_run k ((s, b) :: cs) k'.

Lemma recovery_loop_step fuel elapsed ret d (k : K) :
  recovery_loop (S fuel) elapsed ret d k =
    if elapsed <? 30000000 then
      '(ret, d, k) ← ublksrv_ctrl_start_recovery d k;
      if (ret <? 0) && negb (ret =? - EBUSY) then Some (true, ret, d, k)
      else if 0 <=? ret then Some (false, ret, d, k)
      else recovery_loop fuel (u32 (elapsed + 100000)) ret d k
    else Some (false, ret, d, k).
Proof. done. Qed.

(** Asking until an answer other than busy, or for the last time with [n]
    rounds left: the commands answered busy before, and the last one. *)
Lemma recovery_loop_spec n elapsed ret d (k : K) :
  0 <= elapsed <= 30000000 -> elapsed + 100000 * Z.of_nat (S n) = 30000000 ->
  exists busy s b k1 r,
    recovery_loop (S (S n)) elapsed ret d k =
      Some ((r <? 0) && negb (r =? - EBUSY), r, log_all (busy ++ [(s, b)]) d, an_kernel (k_answer k1 s b)) /\
    busy_run k busy k1 /\ answer_ret (k_answer k1 s b) = Some r /\ (length busy <= n)%nat /\
    Forall (cmd_ok OStartRecovery d) (busy ++ [(s, b)]) /\ (r = - EBUSY -> length busy = n).
Proof.
  revert elapsed ret d k. induction n as [|n IH]; intros elapsed ret d k He Hn;
    rewrite recovery_loop_step, (proj2 (Z.ltb_lt _ _)) by lia;
    destruct (start_recovery_once d k) as (r&s&b&->&Hr&Hok); cbn [mbind option_bind].
  - exists [], s, b, k, r. split; [|split; [apply busy_nil|]; split; [done|]; split; [done|]; split; [by constructor|done]].
    destruct (Z.ltb_spec r 0) as [Hneg|Hpos]; cbn [andb]; [|by rewrite (proj2 (Z.leb_le _ _) Hpos)].
    destruct (Z.eqb_spec r (- EBUSY)) as [->|Hne]; cbn [negb]; [|done].
    change (0 <=? - EBUSY) with false. cbv iota. rewrite recovery_loop_step.
    rewrite u32_id by (unfold is_u32; lia). by rewrite (proj2 (Z.ltb_ge _ _)) by lia.
  - destruct (Z.eqb_spec r (- EBUSY)) as [->|Hne]; cbn [negb].
    + change (- EBUSY <? 0) with true. change (0 <=? - EBUSY) with false. cbn [andb]. cbv iota.
      rewrite u32_id by (unfold is_u32; lia).
      destruct (IH (elapsed + 100000) (- EBUSY) (log_cmd s b d) (an_kernel (k_answer k s b)))
        as (busy&s1&b1&k1&r1&Hrun&Hb&Hr1&Hl&Hcs&Hlast); [lia|lia|]. rewrite Hrun.
      exists ((s, b) :: busy), s1, b1, k1, r1. split; [by unfold log_all; cbn; rewrite <- app_assoc|].
      split; [by constructor|]. split; [done|]. cbn [length]. split; [lia|]. split; [by constructor|].
      intros H1. by rewrite (Hlast H1).
    + exists [], s, b, k, r. split; [|split; [apply busy_nil|]; split; [done|]; split; [cbn; lia|]; split; [by constructor|done]].
      destruct (Z.ltb_spec r 0) as [Hneg|Hpos]; cbn [andb]; [by rewrite (proj2 (Z.eqb_neq _ _) Hne)|].
      by rewrite (proj2 (Z.leb_le _ _) Hpos).
Qed.

(** C36: Recovery asks the driver at most 300 times to begin, 100 ms apart (30
    seconds).  Once the device is known, "recover" sends START_USER_RECOVERY
    again exactly as long as the driver answers that it is busy: the last
    command, the 300th at the latest, is the first with another answer.  Any
    other error ends the command with that error and nothing more is sent; when
    the driver agrees, no further request is made and the description of the
    device is used; and when the 300th answer is still busy the command goes on
    in the same way, as if the driver had agreed. *)
Theorem recovery_attempts_bounded junk t dir pid_file info0 number evtfd (k : K) d log r0 d0 k0 :
  let event := snd (ublksrv_tgt_send_dev_event (de_event_ok env) evtfd (-1)) in
  ublksrv_ctrl_recover_init (de_realloc env) junk t.1.1 t.1.2 t.2 pid_file (mk_dev_data number 0 0 0 dir 0 0) =
    Some (Some d, log) ->
  ublksrv_ctrl_get_info d k = Some (r0, d0, k0) -> 0 <= r0 ->
  exists busy s b k1 r,
    busy_run k0 busy k1 /\ answer_ret (k_answer k1 s b) = Some r /\ (length busy < 300)%nat /\
    Forall (cmd_ok OStartRecovery d0) (busy ++ [(s, b)]) /\ (r = - EBUSY -> length busy = 299%nat) /\
    __cmd_dev_user_recover env junk t dir pid_file info0 number evtfd k =
      (let d1 := log_all (busy ++ [(s, b)]) d0 in
       let k2 := an_kernel (k_answer k1 s b) in
       if decide (0 <= r \/ r = - EBUSY)
       then recover_from_description env dir pid_file info0 number evtfd event d1 k2
       else Some (r, Some (mk_world d1 k2 [] []), event)).
Proof.
  intros event Hinit Hinfo Hr0. destruct t as [[fd ring] m]. cbn [fst snd] in Hinit.
  destruct (recovery_loop_spec 299 0 r0 d0 k0) as (busy&s&b&k1&r&Hrun&Hb&Hr&Hl&Hcs&Hlast); [lia|lia|].
  exists busy, s, b, k1, r. split; [done|]. split; [done|]. split; [lia|]. split; [done|]. split; [done|].
  unfold __cmd_dev_user_recover. rewrite Hinit. cbn [mbind option_bind]. rewrite Hinfo. cbn [mbind option_bind].
  rewrite (proj2 (Z.ltb_ge _ _) Hr0). change recovery_fuel with (S (S 299)). rewrite Hrun. cbn [mbind option_bind].
  fold event. destruct (decide _) as [Hgo|Hno].
  - destruct Hgo as [Hpos| ->]; [by rewrite (proj2 (Z.ltb_ge _ _) Hpos)|done].
  - destruct (Z.ltb_spec r 0); [|tauto]. destruct (Z.eqb_spec r (- EBUSY)); [tauto|]. done.
Qed.

(** What "recover" reports does not tell success from failure.  The parent
    is always told in the end that recovery failed, also after the daemon ran;
    and when the description belongs to another device number the command
    returns success without having started a daemon. *)
Theorem recover_reports junk fd ring m dir pid_file info0 number evtfd (k : K) d0 log :
  0 <= evtfd -> de_event_ok env = true ->
  ublksrv_ctrl_recover_init (de_realloc env) junk fd ring m pid_file (mk_dev_data number 0 0 0 dir 0 0) = Some (d0, log) ->
  (forall ret w ev, __cmd_dev_user_recover env junk (fd, ring, m) dir pid_file info0 number evtfd k = Some (ret, w, ev) ->
     exists ev', ev = ev' ++ [ERROR_EVTFD_DEVID]) /\
  (forall d r1 d1 k1 r2 d2 k2 buf sz info, d0 = Some d ->
     ublksrv_ctrl_get_info d k = Some (r1, d1, k1) -> 0 <= r1 -> recovery_loop recovery_fuel 0 r1 d1 k1 = Some (false, r2, d2, k2) ->
     ublksrv_tgt_get_dev_data (bool_decide (is_Some dir)) pid_file = Some (buf, sz) ->
     ublksrv_json_read_dev_info info0 buf = Some (0, Some info) -> dev_id info <> u32 number ->
     __cmd_dev_user_recover env junk (fd, ring, m) dir pid_file info0 number evtfd k =
       Some (0, Some (mk_world d2 k2 [] []), [ERROR_EVTFD_DEVID])).
Proof.
  intros Hfd Hok Hinit. unfold __cmd_dev_user_recover. rewrite Hinit. cbn [mbind option_bind].
  assert (Hev : snd (ublksrv_tgt_send_dev_event (de_event_ok env) evtfd (-1)) = [ERROR_EVTFD_DEVID]).
  { unfold ublksrv_tgt_send_dev_event. by rewrite (proj2 (Z.ltb_ge _ _) Hfd), Hok. }
  rewrite Hev. split.
  - intros ret w ev Hrun. destruct d0 as [d|]; [|simplify_eq; by exists []].
    unfold recover_from_description in Hrun.
    repeat first
      [ match type of Hrun with Some _ = Some _ => injection Hrun as <- <- <-; (by exists []) || (eexists; reflexivity) end
      | inv_bind; repeat match goal with p : _ * _ |- _ => destruct p end
      | match type of Hrun with (if ?c then _ else _) = _ => destruct c end
      | match type of Hrun with (match ?c with None => _ | Some _ => _ end) = _ => destruct c as [[? ?]|] end ].
  - intros d r1 d1 k1 r2 d2 k2 buf sz info -> H1 Hr1 H2 H3 H4 Hne. rewrite H1. cbn [mbind option_bind].
    rewrite (proj2 (Z.ltb_ge _ _) Hr1), H2. cbn [mbind option_bind]. unfold recover_from_description. rewrite H3, H4. cbn [mbind option_bind Z.ltb Z.compare default].
    cbn [from_option id]. by rewrite (proj2 (Z.eqb_neq (dev_id info) (u32 number)) Hne).
Qed.
End daemon.
