(* ===== verification/DaemonExamples.v ===== *)
(** * A daemon of the null target

    [exd_kernel]: a driver that agrees to everything, after it has been busy for
    a while when recovery begins.  The theorems on the daemon are applied to
    adding a null device and recovering it. *)

From S2P Require Import Prelude Bytes UblkCmd Params Json JsonExamples Ctrl QueueSetup DevSetup Loop TgtInit TgtInitExamples Daemon DaemonSpec.

(** How often START_USER_RECOVERY will still be refused, and whether START_DEV
    is. *)
Record driver := mk_driver { drv_busy : nat; drv_refuse : bool }.

Definition exd_info : ublksrv_ctrl_dev_info := mk_dev_info 2 64 2 0 524288 0 4711 0 0 0 0 0 0 0.
Definition exd_nr (s : ctrl_sqe) : Z := _IOC_NR (cs_cmd_op s).

Definition exd_reply (k : driver) (s : ctrl_sqe) (b : ctrl_buf) : Z * ctrl_payload * driver :=
  match cb_payload b with
  | PInfo _ => (0, PInfo exd_info, k)
  | p =>
      if exd_nr s =? UBLK_CMD_START_USER_RECOVERY then
        match drv_busy k with S n => (- EBUSY, p, mk_driver n (drv_refuse k)) | O => (0, p, k) end
      else if (exd_nr s =? UBLK_CMD_START_DEV) && drv_refuse k then (- EINVAL, p, k)
      else (0, p, k)
  end.

#[global] Instance exd_kernel : CtrlKernel driver := {
  k_slot _ := Some (mk_ctrl_sqe 0 0 0 0 (mk_ctrl_cmd 0 0 0 0 0 0));
  k_answer k s b := mk_answer [1] 0 (exd_reply k s b).1.1 (exd_reply k s b).1.2 (exd_reply k s b).2;
  k_addr _ := 4096
}.

Lemma exd_ret (k : driver) s b : answer_ret (k_answer k s b) = Some (exd_reply k s b).1.1.
Proof. done. Qed.

#[global] Instance exd_kernel_laws : CtrlKernelLaws driver.
Proof.
  split.
  - intros k. by eexists.
  - intros k s b. by eexists.
  - intros k s [path p]. cbn [cb_payload k_answer exd_kernel an_payload]. unfold exd_reply. cbn [cb_payload].
    destruct p; repeat case_match; cbn; try done; by apply bool_decide_eq_true.
  - intros k s [path p] ret. rewrite exd_ret. intros [= <-]. cbn [k_answer exd_kernel an_payload]. unfold exd_reply.
    cbn [cb_payload]. destruct p; repeat case_match; cbn; done.
Qed.

Definition exd_env : daemon_env unit :=
  mk_daemon_env _ 4 "null" (null_tgt always 4 zero_params) (fun _ => 5) 6 0 true 0 [Ascii.ascii_of_nat 52] zero_params 4711
    [(1, 4713); (0, 4712)] 4 (fun q c => q =? c) always true true.

Definition exd_ctrl (rec : bool) (b : ublksrv_tgt_jbuf) : ublksrv_ctrl_dev :=
  mk_ctrl_dev 3 ext_info b rec (Some "/run/ublksrvd") None [].

(** The description of a null device. *)
Definition exd_params : ublk_params := null_params ext_info.
Definition exd_doc : gmap string json :=
  {["dev_info" := dev_info_to_json ext_info; "params" := params_to_json exd_params]}.
Definition exd_buf : ublksrv_tgt_jbuf := mk_jbuf 4096 (Some 4096) (dump (JObj exd_doc)).


(** Adding a device that the driver does not start. *)
Definition exd_refusing : driver := mk_driver 0 true.
Definition exd_opts : list add_opt := [AoQueues [Ascii.ascii_of_nat 50]; AoEventfd [Ascii.ascii_of_nat 57]].
Definition exd_dev : ublksrv_ctrl_dev :=
  match open_ctrl exd_env "" (3, 0, true) (ao_data (ublksrv_parse_add_opts (Some "/run/ublksrvd") exd_opts)) with
  | Some (Some d) => d
  | _ => exd_ctrl false exd_buf
  end.
Definition exd_added : ublksrv_ctrl_dev :=
  match ublksrv_ctrl_add_dev exd_dev exd_refusing with Some (_, d, _) => d | None => exd_dev end.
Definition exd_bound : ublksrv_ctrl_dev :=
  match ublksrv_ctrl_get_affinity true exd_added exd_refusing with Some (_, d, _) => d | None => exd_dev end.

Lemma failed_add_deletes_twice_witness :
  exists w' pre s1 b1 s2 b2 ev,
    ublksrv_cmd_dev_add exd_env (0, 0) "" (3, 0, true) (3, 0, true) (Some "/run/ublksrvd") exd_opts exd_refusing =
      Some (- EINVAL, Some w', ev ++ [ERROR_EVTFD_DEVID]) /\
    sent (w_ctrl w') = pre ++ [(s1, b1); (s2, b2)] /\
    exd_nr s1 = UBLK_CMD_DEL_DEV /\ exd_nr s2 = UBLK_CMD_DEL_DEV.
Proof.
  destruct (ublksrv_device_handler exd_env 9 (mk_world exd_bound exd_refusing [] [])) as [[[[ret w] ev] log]|] eqn:Eh;
    [|vm_compute in Eh; discriminate Eh].
  assert (Hret : ret = - EINVAL).
  { pose proof (f_equal (fun o => match o with Some (r, _, _, _) => r | None => 0 end) Eh) as E. cbn in E.
    rewrite <- E. vm_compute. reflexivity. }
  subst ret.
  destruct (failed_add_deletes_twice exd_env (0, 0) "" (3, 0, true) (3, 0, true) (Some "/run/ublksrvd") exd_opts exd_refusing
    exd_added exd_refusing exd_bound exd_refusing (- EINVAL) w ev log) as (w'&pre&s1&b1&s2&b2&Hrun&_&Hs&Hok1&Hok2).
  - split; [by left|]. eexists _, exd_dev, exd_dev, exd_refusing, 0. split; [reflexivity|].
    do 3 (split; [vm_compute; reflexivity|]). lia.
  - vm_compute. reflexivity.
  - exact Eh.
  - done.
  - exists w', pre, s1, b1, s2, b2, ev. split; [exact Hrun|]. split; [exact Hs|].
    destruct Hok1 as (_&_&_&_&H1&_). destruct Hok2 as (_&_&_&_&H2&_). cbn in H1, H2.
    apply list_elem_of_singleton in H1. apply list_elem_of_singleton in H2. by split.
Defined.

(** Recovering device 7 from the description of device 0. *)
Definition exd_pid_file : list Ascii.ascii :=
  replicate 32 Ascii.zero ++ String.list_ascii_of_string (dump (JObj exd_doc)) ++ [Ascii.zero].

Definition exd_rec : option ublksrv_ctrl_dev :=
  match ublksrv_ctrl_recover_init always "" 3 0 true (Some exd_pid_file)
    (mk_dev_data 7 0 0 0 (Some "/run/ublksrvd") 0 0) with Some (d, _) => d | None => None end.
Definition exd_rec_dev : ublksrv_ctrl_dev := default exd_dev exd_rec.
Definition exd_rec_info : ublksrv_ctrl_dev :=
  match ublksrv_ctrl_get_info exd_rec_dev (mk_driver 1 false) with Some (_, d, _) => d | None => exd_dev end.
Definition exd_rec_started : ublksrv_ctrl_dev :=
  match recovery_loop recovery_fuel 0 0 exd_rec_info (mk_driver 1 false) with Some (_, _, d, _) => d | None => exd_dev end.

(** A driver that is busy three times, and one that is still busy after 30
    seconds. *)
Lemma recovery_attempts_bounded_witness :
  Forall (fun n => exists busy s b k1 r, busy_run (mk_driver n false) busy k1 /\
    answer_ret (k_answer k1 s b) = Some r /\ (length busy < 300)%nat /\ (r = - EBUSY -> length busy = 299%nat) /\
    __cmd_dev_user_recover exd_env "" (3, 0, true) (Some "/run/ublksrvd") (Some exd_pid_file) zero_info 7 9 (mk_driver n false) =
      (if decide (0 <= r \/ r = - EBUSY)
       then recover_from_description exd_env (Some "/run/ublksrvd") (Some exd_pid_file) zero_info 7 9 [ERROR_EVTFD_DEVID]
              (log_all (busy ++ [(s, b)]) exd_rec_info) (an_kernel (k_answer k1 s b))
       else Some (r, Some (mk_world (log_all (busy ++ [(s, b)]) exd_rec_info) (an_kernel (k_answer k1 s b)) [] []),
              [ERROR_EVTFD_DEVID]))) [3%nat; 400%nat].
Proof.
  repeat constructor.
  - destruct (recovery_attempts_bounded exd_env "" (3, 0, true) (Some "/run/ublksrvd") (Some exd_pid_file) zero_info 7 9
      (mk_driver 3 false) exd_rec_dev [] 0 exd_rec_info (mk_driver 3 false))
      as (busy&s&b&k1&r&Hb&Hr&Hl&_&Hlast&Hrun); [vm_compute; reflexivity|vm_compute; reflexivity|lia|].
    exists busy, s, b, k1, r. do 4 (split; [assumption|]). exact Hrun.
  - destruct (recovery_attempts_bounded exd_env "" (3, 0, true) (Some "/run/ublksrvd") (Some exd_pid_file) zero_info 7 9
      (mk_driver 400 false) exd_rec_dev [] 0 exd_rec_info (mk_driver 400 false))
      as (busy&s&b&k1&r&Hb&Hr&Hl&_&Hlast&Hrun); [vm_compute; reflexivity|vm_compute; reflexivity|lia|].
    exists busy, s, b, k1, r. do 4 (split; [assumption|]). exact Hrun.
Defined.

Lemma recover_reports_witness :
  __cmd_dev_user_recover exd_env "" (3, 0, true) (Some "/run/ublksrvd") (Some exd_pid_file) zero_info 7 9 (mk_driver 1 false) =
  Some (0, Some (mk_world exd_rec_started (mk_driver 0 false) [] []), [ERROR_EVTFD_DEVID]).
Proof.
  destruct (recover_reports exd_env "" 3 0 true (Some "/run/ublksrvd") (Some exd_pid_file) zero_info 7 9 (mk_driver 1 false)
    exd_rec []) as [_ H].
  - lia.
  - reflexivity.
  - vm_compute. reflexivity.
  - apply (H exd_rec_dev 0 exd_rec_info (mk_driver 1 false) 0 exd_rec_started (mk_driver 0 false) (dump (JObj exd_doc))
      (slen (dump (JObj exd_doc)) + 1) ext_info).
    + vm_compute. reflexivity.
    + vm_compute. reflexivity.
    + lia.
    + vm_compute. reflexivity.
    + vm_compute. reflexivity.
    + vm_compute. reflexivity.
    + vm_compute. discriminate.
Defined.
