(* ===== verification/Report.v ===== *)
(** * What "list" reports, and the run directory

    [ublksrv_ctrl_dump] of lib/ublksrv_cmd.c: the device information, its
    parameters and the threads of its queues, as the values that are printed;
    [__mkpath] of targets/ublksrv_tgt.cpp, which makes the run directory; the
    options of "recover", and the signals of the daemon. *)

From S2P Require Import Prelude Bytes UblkCmd Params Json Ctrl QueueSetup DevSetup TgtInit Cpuset Daemon.
From stdpp Require Import pretty.
#[local] Open Scope Z_scope.

Definition SIGINT : Z := 2.
Definition SIGTERM : Z := 15.

(** Signals with a handler of the daemon's own, and those blocked in the thread
    that calls this and in the threads it makes later.  [installed]: whether
    signal(2) succeeded. *)
Record sig_state := mk_sig { sig_handled : gset Z; sig_blocked : gset Z }.
Definition setup_pthread_sigmask (fg installed : bool) (s : sig_state) : sig_state :=
  if fg then s
  else if negb installed then s
  else mk_sig ({[SIGTERM]} ∪ sig_handled s) ({[SIGINT; SIGTERM]} ∪ sig_blocked s).

Definition UBLK_F_QUIESCE : Z := bit 12.
Definition UBLK_F_PER_IO_DAEMON : Z := bit 13.
Definition UBLK_F_BUF_REG_OFF_DAEMON : Z := bit 14.
Definition UBLK_F_INTEGRITY : Z := bit 16.
Definition UBLK_F_SAFE_STOP_DEV : Z := bit 17.
Definition UBLK_F_NO_AUTO_PART_SCAN : Z := bit 18.

Definition ublksrv_dev_state_desc (state : Z) : string :=
  if state =? UBLK_S_DEV_DEAD then "DEAD"
  else if state =? UBLK_S_DEV_LIVE then "LIVE"
  else if state =? UBLK_S_DEV_QUIESCED then "QUIESCED"
  else if state =? UBLK_S_DEV_FAIL_IO then "FAIL_IO"
  else "UNKNOWN".

Definition flag_names : list (Z * string) :=
  [(UBLK_F_SUPPORT_ZERO_COPY, "SUPPORT_ZERO_COPY"); (UBLK_F_AUTO_BUF_REG, "AUTO_ZC");
   (UBLK_F_URING_CMD_COMP_IN_TASK, "URING_CMD_COMP_IN_TASK"); (UBLK_F_NEED_GET_DATA, "NEED_GET_DATA");
   (UBLK_F_UNPRIVILEGED_DEV, "UNPRIVILEGED_DEV"); (UBLK_F_USER_RECOVERY, "RECOVERY");
   (UBLK_F_USER_RECOVERY_REISSUE, "RECOVERY_REISSUE"); (UBLK_F_CMD_IOCTL_ENCODE, "CMD_IOCTL_ENCODE");
   (UBLK_F_USER_COPY, "USER_COPY"); (UBLK_F_ZONED, "ZONED"); (UBLK_F_USER_RECOVERY_FAIL_IO, "RECOVERY_FAIL_IO");
   (UBLK_F_UPDATE_SIZE, "UPDATE_SIZE"); (UBLK_F_QUIESCE, "QUIESCE"); (UBLK_F_PER_IO_DAEMON, "PER_IO_DAEMON");
   (UBLK_F_BUF_REG_OFF_DAEMON, "BUF_REG_OFF_DAEMON"); (UBLK_F_BATCH_IO, "BATCH_IO"); (UBLK_F_INTEGRITY, "INTEGRITY");
   (UBLK_F_SAFE_STOP_DEV, "SAFE_STOP_DEV"); (UBLK_F_NO_AUTO_PART_SCAN, "NO_AUTO_PART_SCAN")]%string.
Definition dump_flags (flags : Z) : list string :=
  omap (fun mn : Z * string => if has flags mn.1 then Some mn.2 else None) flag_names.

(** ** The CPUs of a thread

    [done] counts what would have been written; when it passes [size], the next
    [size - done] wraps around and the text is written past the buffer. *)
Definition cpu_text (cpu : Z) : string := String.append (pretty cpu) " ".

Fixpoint affinity_loop_text (cpus : list Z) (size done : Z) (buf : string) : option string :=
  match cpus with
  | [] => Some buf
  | c :: cpus =>
      if size <? done then None
      else
        let s := cpu_text c in
        affinity_loop_text cpus size (done + slen s)
          (String.append buf (String.substring 0 (Z.to_nat (size - done - 1)) s))
  end.

(** [set]: the thread's CPUs ([None]: sched_getaffinity failed); [buf]: what the
    buffer held.  With no CPU set it is left as it was. *)
Definition ublksrv_fill_q_thread_affinity (set : option (Z -> bool)) (buf : string) (size : Z) : option (Z * string) :=
  match set with
  | None => Some (-1, buf)
  | Some isset =>
      match List.filter isset (seqZ 0 CPU_SETSIZE) with
      | [] => Some (0, buf)
      | cpus => text ← affinity_loop_text cpus size 0 ""%string; Some (0, text)
      end
  end.

(** ** The report *)
Record dump_report := mk_report {
  rp_dev : Z * Z * Z * Z * Z;       (* id, queues, depth, block size, capacity *)
  rp_run : Z * Z * string;          (* request size, daemon, state *)
  rp_flags : Z * list string;
  rp_devt : Z * Z * Z * Z;          (* char and disk device *)
  rp_owner : Z * Z;
  rp_threads : list (Z * Z * string);
  rp_target : option string
}.

Section dump.
Context `{!JsonText} {K : Type} `{!CtrlKernel K}.
(** The CPUs of a thread, and what the local variables held. *)
Variable thread_cpus : Z -> option (Z -> bool).
Variable junk_params : ublk_params.
Variable junk_tid : Z.

(** The buffer is used for all queues. *)
Fixpoint dump_queues (jbuf : string) (qs : list Z) (buf : string) : option (list (Z * Z * string) * string) :=
  match qs with
  | [] => Some ([], buf)
  | i :: qs =>
      '(_, tid, str) ← ublksrv_json_read_queue_info jbuf i 4096;
      let tid := default junk_tid tid in
      '(_, buf) ← ublksrv_fill_q_thread_affinity (thread_cpus (s32 tid)) (default buf str) 4096;
      '(rest, last) ← dump_queues jbuf qs buf;
      Some ((i, tid, buf) :: rest, last)
  end.

(** A shift by 31 or more is undefined. *)
Definition ublksrv_ctrl_dump (buf : string) (jbuf : option string) (d : ublksrv_ctrl_dev) (k : K)
    : option (option dump_report * ublksrv_ctrl_dev * K) :=
  '(ret, p, d, k) ← ublksrv_ctrl_get_params d k junk_params;
  if ret <? 0 then Some (None, d, k)
  else
    let i := dev_info d in
    let b := p_basic p in
    if 31 <=? logical_bs_shift b then None
    else
      '(threads, target) ←
        (match jbuf with
         | None => Some ([], None)
         | Some j =>
             '(threads, buf) ← dump_queues j (seqZ 0 (nr_hw_queues i)) buf;
             '(_, target) ← ublksrv_json_read_target_info j buf 512;
             Some (threads, Some target)
         end);
      Some (Some (mk_report
        (dev_id i, nr_hw_queues i, queue_depth i, Z.shiftl 1 (logical_bs_shift b), dev_sectors b)
        (max_io_buf_bytes i, ublksrv_pid i, ublksrv_dev_state_desc (dev_state i))
        (dev_flags i, dump_flags (dev_flags i))
        (char_major (p_devt p), char_minor (p_devt p), disk_major (p_devt p), disk_minor (p_devt p))
        (owner_uid i, owner_gid i) threads target), d, k).
End dump.

(** ** Making the run directory

    A path as its components, the last one first: [dirname] of it is its tail, and
    the path of no component, the root or the current directory, is its own
    [dirname].  [fs_dirs]: what stat(2) finds; [fs_umask]: the mask of the process. *)
Notation path := (list string).
Record fs := mk_fs { fs_dirs : gset path; fs_umask : Z }.
Definition dirname (p : path) : path := tail p.

Section mkpath.
(** [allowed p]: the process may write to the parent of [p]. *)
Variable allowed : path -> bool.

(** mkdir(2): the result and the mode the directory was made with. *)
Definition mkdir (p : path) (mode : Z) (f : fs) : Z * option Z * fs :=
  if bool_decide (p ∈ fs_dirs f) then (-1, None, f)
  else if bool_decide (dirname p ∈ fs_dirs f) && allowed p
  then (0, Some (Z.ldiff mode (fs_umask f)), mk_fs ({[p]} ∪ fs_dirs f) (fs_umask f))
  else (-1, None, f).

(** What the call on the parent returns is not looked at.  The recursion is on the
    components; [[]] is always found. *)
Fixpoint __mkpath (p : path) (mode : Z) (f : fs) : Z * fs :=
  if bool_decide (p ∈ fs_dirs f) then (0, f)
  else
    let f := match p with [] => f | _ :: parent => snd (__mkpath parent mode f) end in
    let mask := fs_umask f in
    let f := mk_fs (fs_dirs f) 0 in
    let '(ret, _, f) := mkdir p mode f in
    (ret, mk_fs (fs_dirs f) mask).

Definition mkpath (p : path) (f : fs) : Z * fs := __mkpath p 511 f.   (* 0777 *)
End mkpath.

(** ** Options of "recover"

    As getopt_long returns them.  The long option "number" is declared without an
    argument: given so, [optarg] is null and strtol(3) reads through it. *)
Inductive recover_opt :=
| RcNumber (arg : option text) | RcVerbose | RcEventfd (arg : text) | RcOther.

Definition recover_option (o : Z * Z) (x : recover_opt) : option (Z * Z) :=
  match x with
  | RcNumber a => a ← a; Some (s32 (strtol_long a), snd o)
  | RcEventfd a => Some (fst o, s32 (strtol_long a))
  | RcVerbose | RcOther => Some o
  end.

Section recover.
Context `{!JsonText} {D K : Type} `{!CtrlKernel K}.
Variable env : daemon_env D.
Definition ublksrv_cmd_dev_user_recover (junk : string) (t : ctrl_try) (run_dir : option string) (pid_file : option text)
    (info0 : ublksrv_ctrl_dev_info) (xs : list recover_opt) (k : K) : option (Z * option world * list Z) :=
  '(number, evtfd) ← foldl (fun o x => o ← o; recover_option o x) (Some (-1, -1)) xs;
  __cmd_dev_user_recover env junk t run_dir pid_file info0 number evtfd k.
End recover.

(** ** The text of a thread's CPUs *)
Definition cpus_text (cpus : list Z) : string := foldr (fun c s => String.append (cpu_text c) s) ""%string cpus.

Lemma substring_all (s : string) (n : nat) : (String.length s <= n)%nat -> String.substring 0 n s = s.
Proof.
  revert n. induction s as [|c s IH]; intros [|n] H; cbn [String.length String.substring] in *; [done|done|lia|].
  by rewrite IH by lia.
Qed.

Lemma append_assoc (a b c : string) : String.append (String.append a b) c = String.append a (String.append b c).
Proof. induction a as [|x a IH]; [done|exact (f_equal (String.String x) IH)]. Qed.

Lemma append_nil (a : string) : String.append a "" = a.
Proof. induction a as [|x a IH]; [done|exact (f_equal (String.String x) IH)]. Qed.

Lemma slen_append (a b : string) : slen (String.append a b) = slen a + slen b.
Proof.
  unfold slen. induction a as [|x a IH]; [done|].
  change (String.append (String.String x a) b) with (String.String x (String.append a b)). cbn [String.length]. lia.
Qed.

Lemma slen_nonneg (a : string) : 0 <= slen a.
Proof. unfold slen. lia. Qed.

Lemma affinity_loop_fits (cpus : list Z) (size done : Z) (buf : string) : 0 <= done ->
  done + slen (cpus_text cpus) < size ->
  affinity_loop_text cpus size done buf = Some (String.append buf (cpus_text cpus)).
Proof.
  revert done buf. induction cpus as [|c cpus IH]; intros done buf Hd Hs; cbn [affinity_loop_text cpus_text foldr].
  { by rewrite append_nil. }
  cbn [cpus_text foldr] in Hs. fold (cpus_text cpus) in *. rewrite slen_append in Hs.
  pose proof (slen_nonneg (cpus_text cpus)). pose proof (slen_nonneg (cpu_text c)).
  destruct (Z.ltb_spec size done); [lia|]. rewrite IH by lia.
  rewrite substring_all by (unfold slen in *; lia). by rewrite append_assoc.
Qed.

Lemma cpus_text_filter (f : Z -> bool) (cpus : list Z) : slen (cpus_text (List.filter f cpus)) <= slen (cpus_text cpus).
Proof.
  induction cpus as [|c cpus IH]; [done|]. cbn [List.filter]. destruct (f c); cbn [cpus_text foldr];
    fold (cpus_text cpus); fold (cpus_text (List.filter f cpus)); rewrite ?slen_append.
  - lia.
  - pose proof (slen_nonneg (cpu_text c)). lia.
Qed.

(** With the buffer of "list", every set of CPUs is printed whole: the text of
    all of them takes 4010 bytes, so [done] never passes the size of the buffer. *)
Theorem affinity_text_fits (isset : Z -> bool) (buf : string) :
  let cpus := List.filter isset (seqZ 0 CPU_SETSIZE) in
  ublksrv_fill_q_thread_affinity (Some isset) buf 4096 =
    Some (0, if bool_decide (cpus = []) then buf else cpus_text cpus) /\
  slen (cpus_text cpus) <= 4010.
Proof.
  intros cpus. assert (Hlen : slen (cpus_text cpus) <= 4010).
  { subst cpus. etrans; [apply cpus_text_filter|]. vm_compute. discriminate. }
  split; [|done]. unfold ublksrv_fill_q_thread_affinity. fold cpus. destruct cpus as [|c cpus]; [done|].
  rewrite bool_decide_false by done. rewrite affinity_loop_fits by lia. done.
Qed.

(** ** The report

    One command is sent. *)
Lemma ctrl_dump_sent `{!JsonText} {K : Type} `{!CtrlKernel K, !CtrlKernelLaws K} thread_cpus junk_params junk_tid buf jbuf d (k : K) r d' k' :
  ublksrv_ctrl_dump thread_cpus junk_params junk_tid buf jbuf d k = Some (r, d', k') ->
  exists s b, d' = log_cmd s b d /\ k' = an_kernel (k_answer k s b).
Proof.
  unfold ublksrv_ctrl_dump. destruct (ctrl_get_params_hides_errors d k junk_params) as (s&b&r6&p6&->&_).
  cbn [mbind option_bind]. cbn [Z.ltb Z.compare]. destruct (31 <=? _); [done|].
  intros Hr. apply bind_Some in Hr as ([threads target]&_&[= <- <- <-]). by exists s, b.
Qed.

(** ** The run directory *)
Lemma __mkpath_spec (allowed : path -> bool) (p : path) (mode : Z) (f : fs) : [] ∈ fs_dirs f ->
  let '(ret, f') := __mkpath allowed p mode f in
  (ret = 0 <-> p ∈ fs_dirs f') /\ fs_dirs f ⊆ fs_dirs f' /\ fs_umask f' = fs_umask f /\
  (forall q, q ∈ fs_dirs f' -> q ∈ fs_dirs f \/ q `suffix_of` p) /\
  ((forall q, q `suffix_of` p -> allowed q = true) -> ret = 0).
Proof.
  intros Hroot. induction p as [|c p IH]; cbn [__mkpath]; case_bool_decide as Hp; try done.
  all: try (split_and!; [done|done|done|by left|done]).
  destruct (__mkpath allowed p mode f) as [r f1]. destruct IH as (Hr&Hsub&Hm&Hadd&Hall). cbn [snd].
  unfold mkdir. cbn [fs_dirs fs_umask dirname tail]. assert (Hc : forall q, q `suffix_of` p -> q `suffix_of` c :: p).
  { intros q Hq. by apply suffix_cons_r. }
  case_bool_decide as Hp1.
  { apply Hadd in Hp1 as [?|Hs]; [done|]. apply suffix_length in Hs. cbn in Hs. lia. }
  case_bool_decide as Hpar; [destruct (allowed (c :: p)) eqn:Ha|]; cbn [andb fs_dirs fs_umask].
  - split_and!; try done; [set_solver|set_solver|]. intros q [Hq%elem_of_singleton|Hq]%elem_of_union; [right; by subst|].
    destruct (Hadd q Hq); auto.
  - split_and!; try done; [intros q Hq; destruct (Hadd q Hq); auto|].
    intros H. rewrite (H (c :: p)) in Ha by done. done.
  - split_and!; try done; [intros q Hq; destruct (Hadd q Hq); auto|].
    intros H. exfalso. apply Hpar, Hr, Hall. auto.
Qed.

(** The run directory is made with all the directories it is in, where the process
    may write: 0 is returned exactly when it is there afterwards, nothing but its
    own parents is made, nothing is removed and the mask of the process is as before. *)
Theorem mkpath_makes_parents (allowed : path -> bool) (p : path) (f : fs) : [] ∈ fs_dirs f ->
  let '(ret, f') := mkpath allowed p f in
  (ret = 0 <-> p ∈ fs_dirs f') /\ fs_dirs f ⊆ fs_dirs f' /\ fs_umask f' = fs_umask f /\
  (forall q, q ∈ fs_dirs f' -> q ∈ fs_dirs f \/ q `suffix_of` p) /\
  ((forall q, q `suffix_of` p -> allowed q = true) -> ret = 0).
Proof. exact (__mkpath_spec allowed p 511 f). Qed.

Lemma mkpath_makes_parents_witness :
  mkpath (fun _ => true) ["ublksrvd"; "run"; "var"] (mk_fs {[ []; ["var"] ]} 18) =
    (0, mk_fs {[ []; ["var"]; ["run"; "var"]; ["ublksrvd"; "run"; "var"] ]} 18) /\
  ["ublksrvd"; "run"; "var"] ∈ fs_dirs (snd (mkpath (fun _ => true) ["ublksrvd"; "run"; "var"] (mk_fs {[ []; ["var"] ]} 18))).
Proof.
  split; [by vm_compute|].
  pose proof (mkpath_makes_parents (fun _ => true) ["ublksrvd"; "run"; "var"] (mk_fs {[ []; ["var"] ]} 18)
    ltac:(set_solver)) as H.
  destruct (mkpath _ _ _) as [r f]. destruct H as (Hr&_&_&_&H). apply Hr, H. done.
Defined.

(** ** Recovering by "--number" *)

(** The long form of the only option "recover" needs is never read. *)
Theorem recover_long_number `{!JsonText} {D K : Type} `{!CtrlKernel K} (env : daemon_env D) (junk : string) (t : ctrl_try)
    (run_dir : option string) (file : option text) (info0 : ublksrv_ctrl_dev_info) (xs ys : list recover_opt) (k : K) :
  ublksrv_cmd_dev_user_recover env junk t run_dir file info0 (xs ++ RcNumber None :: ys) k = None.
Proof.
  unfold ublksrv_cmd_dev_user_recover. rewrite foldl_app. cbn [foldl].
  assert (Hn : forall zs, foldl (fun o x => o ← o; recover_option o x) None zs = None) by (induction zs; done).
  destruct (foldl _ _ xs) as [[n e]|]; cbn; by rewrite Hn.
Qed.

(** ** Signals

    The comment in the code means to keep SIGTERM unblocked; a daemon in the
    background blocks it, together with SIGINT, and no other signal changes; one
    in the foreground keeps what it had. *)
Theorem background_blocks_sigterm (fg : bool) (s : sig_state) :
  let s' := setup_pthread_sigmask fg true s in
  (SIGTERM ∈ sig_blocked s' <-> fg = false \/ SIGTERM ∈ sig_blocked s) /\
  (forall n, n <> SIGINT -> n <> SIGTERM -> n ∈ sig_blocked s' <-> n ∈ sig_blocked s) /\
  (fg = true -> s' = s).
Proof. destruct fg; cbn; [naive_solver|]. split; [set_solver|]. split; [set_solver|done]. Qed.
