(* ===== verification/Demo.v ===== *)
(** * The demos and the user id helper: devices

    How demo_null.c and demo_event.c describe, start and delete their device,
    and utils/ublk_user_id.c, which looks up the owner of a device.  The world
    is that of Daemon.  The threads of the queues write their entry of the
    description and store it in the pid file; [late] are those that get there
    after the parameters were written. *)

From S2P Require Import Prelude Bytes UblkCmd Uring QueueTypes Params Json Ctrl QueueSetup QueueThread DevSetup Loop TgtInit Aio AioCtx Daemon Report.

(** What is freed is not recorded. *)
Definition ublksrv_ctrl_deinit (ring_fd : Z) (d : ublksrv_ctrl_dev) : list Z := [ring_fd; ctrl_fd d].

Section demo_tgt.
Context `{!JsonText} {D : Type}.
Notation dev := (ublksrv_dev D).
Variable mem : Z -> bool.

Definition demo_size : Z := 250 * 1024 * 1024 * 1024.

(** Both demos, with the name they write and their size. *)
Definition demo_describe (name : string) (size : Z) (dv : dev) : option (Z * dev) :=
  let dv := set_tgt size (queue_depth (dv_info dv)) 0 (extra_ios (dv_tgt dv)) (io_data_size (dv_tgt dv)) (tgt_fds (dv_tgt dv)) dv in
  dv ← jwrite (ublk_json_write_dev_info mem (dv_info dv)) dv;
  dv ← jwrite (ublk_json_write_target_base mem (mk_tgt_base name 0 size)) dv;
  Some (0, dv).

Definition demo_null_init_tgt (dv : dev) : option (Z * dev) := demo_describe "null" demo_size dv.

(** [st]: what fstat(2) left in the structure, [blk]: the size of a block device
    ([None]: the ioctl failed). *)
Definition demo_event_init_tgt (backing_fd : Z) (st : file_stat) (blk : option Z) (dv : dev) : option (Z * dev) :=
  if 0 <? backing_fd then
    if S_ISBLK (st_mode st) then
      match blk with None => Some (-1, dv) | Some bytes => demo_describe "demo_event" bytes dv end
    else demo_describe "demo_event" (if S_ISREG (st_mode st) then u64 (st_size st) else 0) dv
  else demo_describe "demo_event" demo_size dv.

Definition demo_null_tgt : tgt_type D := mk_tgt "demo_null" true false false (Some demo_null_init_tgt) None None.
(** With --buf. *)
Definition demo_null_buf_tgt : tgt_type D := mk_tgt "demo_null" true true true (Some demo_null_init_tgt) None None.
Definition demo_event_tgt (backing_fd : Z) (st : file_stat) (blk : option Z) : tgt_type D :=
  mk_tgt "demo_event" true false false (Some (demo_event_init_tgt backing_fd st blk)) None None.
End demo_tgt.

(** Options: the flags, the descriptor of the backing file and [use_aio]. *)
Inductive demo_opt := DoGetData | DoFile (opened : Z) | DoAio.
Definition demo_option (acc : Z * Z * bool) (o : demo_opt) : Z * Z * bool :=
  let '(flags, fd, aio) := acc in
  match o with
  | DoGetData => (Z.lor flags UBLK_F_NEED_GET_DATA, fd, aio)
  | DoFile opened => (flags, if opened <? 0 then -1 else opened, aio)
  | DoAio => (flags, fd, true)
  end.
Definition demo_options (xs : list demo_opt) : Z * Z * bool :=
  let '(flags, fd, aio) := foldl demo_option (0, -1, false) xs in
  (flags, fd, if fd <? 0 then false else aio).

Definition demo_data (flags uflags : Z) (run_dir : option string) : ublksrv_dev_data :=
  mk_dev_data (-1) DEF_BUF_SIZE DEF_NR_HW_QUEUES DEF_QD run_dir flags uflags.

Section demo.
Context `{!JsonText} {D : Type} {K : Type} `{!CtrlKernel K}.
Variable env : daemon_env D.
Notation W := (world (K := K)).

Definition demo_params (info : ublksrv_ctrl_dev_info) (dev_size : Z) : ublk_params :=
  set_basic (mk_param_basic 0 9 12 12 9 (Z.shiftr (max_io_buf_bytes info) 9) 0 (Z.shiftr dev_size 9) 0)
    (set_types UBLK_PARAM_TYPE_BASIC zero_params).

(** A refused SET_PARAMS is only reported. *)
Definition demo_set_parameters (dev_size : Z) (w : W) : option W :=
  let p := demo_params (dev_info (w_ctrl w)) dev_size in
  '(_, b) ← ublk_json_write_params (de_realloc env) p (tgt_jbuf (w_ctrl w));
  '(_, _, d, k) ← ublksrv_ctrl_set_params (set_jbuf b (w_ctrl w)) (w_k w) p;
  Some (mk_world d k (w_file w) (w_stores w)).

(** What the threads do before they set their queue up. *)
Fixpoint demo_threads (fd : Z) (order : list (Z * Z)) (w : W) : option W :=
  match order with
  | [] => Some w
  | (qid, tid) :: order =>
      '(_, b) ← ublk_json_write_queue_info (de_realloc env) (de_cores env) (de_isset env qid) qid tid (tgt_jbuf (w_ctrl w));
      '(_, file) ← ublk_tgt_store_dev_data fd b (w_file w);
      demo_threads fd order (store_file file (mk_world (set_jbuf b (w_ctrl w)) (w_k w) (w_file w) (w_stores w)))
  end.

(** The CPUs of each thread, and what the local variables of [ublksrv_ctrl_dump] held. *)
Variable thread_cpus : Z -> option (Z -> bool).
Variable junk_tid : Z.
Variable junk_buf : string.

(** What is printed is left out. *)
Definition ublk_ctrl_dump (w : W) : option W :=
  let b := tgt_jbuf (w_ctrl w) in
  '(_, d, k) ← ublksrv_ctrl_dump thread_cpus (de_params env) junk_tid junk_buf
                 (if bool_decide (is_Some (jb_alloc b)) then Some (jbuf b) else None) (w_ctrl w) (w_k w);
  Some (mk_world d k (w_file w) (w_stores w)).

(** From the threads to the end of the device. *)
Definition demo_run (late : list (Z * Z)) (dv : ublksrv_dev D) (w : W) : option (Z * W) :=
  w ← demo_threads (pid_file_fd dv) (de_order env) w;
  w ← demo_set_parameters (dev_size (dv_tgt dv)) w;
  w ← demo_threads (pid_file_fd dv) late w;
  '(ret, d, k) ← ublksrv_ctrl_start_dev (w_ctrl w) (w_k w) (de_pid env);
  let w := mk_world d k (w_file w) (w_stores w) in
  if ret <? 0 then Some (ret, w)
  else
    '(_, d, k) ← ublksrv_ctrl_get_info (w_ctrl w) (w_k w);
    w ← ublk_ctrl_dump (mk_world d k (w_file w) (w_stores w));
    Some (ret, w).

(** [arr]: whether there is memory for the threads; [aio]: for demo_event what
    the allocations of the context gave.  The result, the world, what happened
    to the device and to the context. *)
Definition demo_io_handler (arr : bool) (aio : option (option Z * bool * Z)) (late : list (Z * Z)) (w : W)
    : option (Z * W * list devent * list aio_event) :=
  if negb arr then Some (- ENOMEM, w, [], [])
  else
    '(ok, dv) ← ublksrv_dev_init (de_argc env) (Some (de_name env)) (Some (de_ops env)) (de_opens env) (de_junkfd env)
                  (de_pidfd env) (de_trunc env) (de_wr env) (w_ctrl w);
    let w := mk_world (dv_ctrl dv) (w_k w) (de_pid_text env) (w_stores w) in
    let deinit w := dv_log (ublksrv_dev_deinit (Some (de_ops env)) (dv_set_ctrl (w_ctrl w) dv)) in
    if negb ok then Some (- ENOMEM, w, dv_log dv, [])
    else
      match aio with
      | None => '(ret, w) ← demo_run late dv w; Some (ret, w, deinit w, [])
      | Some (ctx_mem, complete_mem, efd) =>
          match ublksrv_aio_ctx_init (nr_hw_queues (dv_info dv)) (ublksrv_flags (dv_info dv)) 0 ctx_mem complete_mem efd with
          | None => Some (- ENOMEM, w, deinit w, [])
          | Some c =>
              '(ret, w) ← demo_run late dv w;
              if ret <? 0 then Some (ret, w, deinit w, [])
              else
                let '(c, ev) := ublksrv_aio_ctx_shutdown c in
                Some (ret, w, deinit w, ev ++ ublksrv_aio_ctx_deinit c)
          end
      end.

Definition demo_start_daemon (arr : bool) (aio : option (option Z * bool * Z)) (late : list (Z * Z)) (w : W)
    : option (Z * W * list devent * list aio_event) :=
  '(ret, d, k) ← ublksrv_ctrl_get_affinity (de_affinity_mem env) (w_ctrl w) (w_k w);
  let w := mk_world d k (w_file w) (w_stores w) in
  if ret <? 0 then Some (-1, w, [], []) else demo_io_handler arr aio late w.

(** The exit status, the world when there is one, and the descriptors of the
    control device that were closed. *)
Definition demo_main (junk : string) (t : ctrl_try) (ring_fd : Z) (data : ublksrv_dev_data)
    (arr : bool) (aio : option (option Z * bool * Z)) (late : list (Z * Z)) (k : K) : option (Z * option W * list Z) :=
  d ← open_ctrl env junk t data;
  match d with
  | None => Some (1, None, [])
  | Some d =>
      '(ret, d, k) ← ublksrv_ctrl_add_dev d k;
      if ret <? 0 then Some (1, Some (mk_world d k [] []), ublksrv_ctrl_deinit ring_fd d)
      else
        '(ret, w, _, _) ← demo_start_daemon arr aio late (mk_world d k [] []);
        '(_, d, k) ← ublksrv_ctrl_del_dev (w_ctrl w) (w_k w);
        Some (if ret <? 0 then 1 else 0, Some (mk_world d k (w_file w) (w_stores w)), ublksrv_ctrl_deinit ring_fd d)
  end.

(** The two programs.  [t]: what opening the control device gives. *)
Definition demo_null_set_parameters (dev_size : Z) (w : W) : option W := demo_set_parameters dev_size w.
Definition demo_null_io_handler (arr : bool) (late : list (Z * Z)) (w : W) := demo_io_handler arr None late w.
Definition null_start_daemon (arr : bool) (late : list (Z * Z)) (w : W) := demo_start_daemon arr None late w.

Definition demo_null_main (junk : string) (t : ctrl_try) (ring_fd : Z) (run_dir : option string) (get_data : bool)
    (arr : bool) (late : list (Z * Z)) (k : K) : option (Z * option W * list Z) :=
  demo_main junk t ring_fd (demo_data (if get_data then UBLK_F_NEED_GET_DATA else 0) 0 run_dir) arr None late k.

Definition demo_event_main (junk : string) (t : ctrl_try) (ring_fd : Z) (run_dir : option string) (xs : list demo_opt)
    (arr : bool) (aio : option Z * bool * Z) (late : list (Z * Z)) (k : K) : option (Z * option W * list Z) :=
  let '(flags, _, _) := demo_options xs in
  demo_main junk t ring_fd (demo_data flags UBLKSRV_F_NEED_EVENTFD run_dir) arr (Some aio) late k.

(** The handlers of SIGTERM and SIGINT.  [None]: a null pointer is
    dereferenced.  [queues]: the device, with the state of each of its queues
    ([None]: the queue is not there yet, or no more). *)
Definition demo_null_sig_handler (this_dev : option ublksrv_ctrl_dev) (k : K) : option (Z * ublksrv_ctrl_dev * K) :=
  d ← this_dev; ublksrv_ctrl_stop_dev d k.

Definition demo_event_sig_handler (this_dev : option (list (option Z))) (this_ctrl_dev : option ublksrv_ctrl_dev) (k : K)
    : option (Z * ublksrv_ctrl_dev * K) :=
  queues ← this_dev;
  q ← queues !! 0%nat;
  _ ← q;
  d ← this_ctrl_dev;
  ublksrv_ctrl_stop_dev d k.

(** ** utils/ublk_user_id.c

    The owner printed, and the result. *)
Definition print_dev_owner_id (junk : string) (t : ctrl_try) (number : Z) (k : K) : option (Z * option (Z * Z) * K) :=
  d ← open_ctrl env junk t (mk_dev_data number 0 0 0 None 0 0);
  match d with
  | None => Some (- EOPNOTSUPP, None, k)
  | Some d =>
      '(ret, d, k) ← ublksrv_ctrl_get_info d k;
      let i := dev_info d in
      let owner :=
        if 0 <=? ret then if has (dev_flags i) UBLK_F_UNPRIVILEGED_DEV then (s32 (owner_uid i), s32 (owner_gid i)) else (-1, -1)
        else (-1, -1) in
      Some (ret, Some owner, k)
  end.

(** [path]: the one argument, ublkcN or ublkbN; a shorter one is read past its
    end.  A number above the limit of an int loses its upper bits. *)
Definition user_id_main (junk : string) (t : ctrl_try) (args : list text) (k : K) : option (Z * option (Z * Z) * K) :=
  match args with
  | [path] =>
      if (length path <? 5)%nat then None
      else
        let number := strtol_long (drop 5 path) in
        if 0 <=? number then '(_, owner, k) ← print_dev_owner_id junk t (s32 number) k; Some (0, owner, k)
        else Some (0, None, k)
  | _ => Some (-1, None, k)
  end.
End demo.

(** ** The thread of a queue

    It runs after the entry of the description was written; the ring's flags are
    those of ublksrv_queue_init. *)
Section queue_thread.
Context {R : Type} `{!Uring R} {T : Type}.
Variable tops : ublksrv_tgt_type R T.
Variable epoll_wait : queue R T -> list (Z * Z).
Variable epoll_call : Z -> Z -> queue R T -> option (queue R T).
Variable ops : queue_ops R T.
Variable info : ublksrv_ctrl_dev_info.
Variable tgt : ublksrv_tgt_info.
Variable env : setup_env R.

Definition demo_event_io_handler_fn (g : qalloc R T) (dev_cq_depth id : Z) (data : T) (rounds : list round)
    : option (thread_state R T) :=
  r ← ublksrv_queue_init ops info tgt env g dev_cq_depth id data;
  match r with
  | InitOk a =>
      '(ended, q) ← process_loop tops epoll_wait epoll_call info rounds (qa_q a);
      if ended : bool then a ← ublksrv_queue_deinit ops tgt env (with_q (fun _ => q) a); Some (ThEnded q a)
      else Some (ThRunning q)
  | _ => Some ThFailed
  end.

(** In demo_null.c too. *)
Definition demo_null_io_handler_fn := demo_event_io_handler_fn.
End queue_thread.

(** ** Theorems *)
Section demo_spec.
Context `{!JsonText} {D : Type} {K : Type} `{!CtrlKernel K, !CtrlKernelLaws K}.
Variable env : daemon_env D.
Variable thread_cpus : Z -> option (Z -> bool).
Variable junk_tid : Z.
Variable junk_buf : string.
Notation W := (world (K := K)).

(** The same device for the driver: only the description differs. *)
Definition same_ctrl (w w' : W) : Prop :=
  same_dev (w_ctrl w) (w_ctrl w') /\ dev_info (w_ctrl w') = dev_info (w_ctrl w) /\
  sent (w_ctrl w') = sent (w_ctrl w) /\ w_k w' = w_k w.

Lemma demo_threads_same fd order (w w' : W) : demo_threads env fd order w = Some w' -> same_ctrl w w'.
Proof.
  revert w. induction order as [|[qid tid] order IH]; intros w; cbn [demo_threads]; [by intros [= <-]|].
  destruct (ublk_json_write_queue_info _ _ _ _ _ _) as [[r b]|]; [|done]. cbn [mbind option_bind].
  destruct (ublk_tgt_store_dev_data _ _ _) as [[r2 file]|]; [|done]. cbn [mbind option_bind].
  intros Hr. by apply IH in Hr.
Qed.

Lemma demo_set_parameters_sent size (w w' : W) :
  demo_set_parameters env size w = Some w' ->
  exists s b, sent (w_ctrl w') = sent (w_ctrl w) ++ [(s, b)] /\ same_dev (w_ctrl w) (w_ctrl w') /\
    cmd_ok (OSetParams (demo_params (dev_info (w_ctrl w)) size)) (w_ctrl w) (s, b).
Proof.
  unfold demo_set_parameters. destruct (ublk_json_write_params _ _ _) as [[r b0]|]; [|done]. cbn [mbind option_bind].
  set (p := demo_params _ _). set (d := set_jbuf b0 (w_ctrl w)).
  destruct (set_params_once d (w_k w) p) as (ret&s&b&Hrun&_&Hok). unfold drop_out in Hrun.
  destruct (ublksrv_ctrl_set_params d (w_k w) p) as [[[[r1 r2] d1] k1]|]; [|done]. cbn in Hrun |- *. simplify_eq.
  intros [= <-]. exists s, b. done.
Qed.

(** The demos start their device in the right order, whenever the threads
    of the queues get to write their entries: the parameters (the size in
    sectors, as announced by the target) and then START_DEV with the pid of the
    process, both well-formed commands for this device; nothing more is sent
    when the driver refuses to start it. *)
Theorem demo_start_order late dv (w w' : W) ret :
  demo_run env thread_cpus junk_tid junk_buf late dv w = Some (ret, w') ->
  exists s1 b1 s2 b2 rest, sent (w_ctrl w') = sent (w_ctrl w) ++ [(s1, b1); (s2, b2)] ++ rest /\
    cmd_ok (OSetParams (demo_params (dev_info (w_ctrl w)) (dev_size (dv_tgt dv)))) (w_ctrl w) (s1, b1) /\
    cmd_ok (OStart (de_pid env)) (w_ctrl w) (s2, b2) /\ (ret < 0 -> rest = []).
Proof.
  unfold demo_run. destruct (demo_threads env _ (de_order env) w) as [w1|] eqn:E1; [|done]. cbn [mbind option_bind].
  destruct (demo_set_parameters env _ w1) as [w2|] eqn:E2; [|done]. cbn [mbind option_bind].
  destruct (demo_threads env _ late w2) as [w3|] eqn:E3; [|done]. cbn [mbind option_bind].
  apply demo_threads_same in E1 as (S1&I1&L1&_), E3 as (S3&I3&L3&_). apply demo_set_parameters_sent in E2 as (s1&b1&L2&S2&Ok1).
  destruct (start_dev_once (w_ctrl w3) (w_k w3) (de_pid env)) as (r&s2&b2&->&_&Ok2). cbn [mbind option_bind].
  rewrite I1 in Ok1. apply (cmd_ok_same _ (w_ctrl w)) in Ok1; [|done].
  assert (Ok2' : cmd_ok (OStart (de_pid env)) (w_ctrl w) (s2, b2)).
  { apply (cmd_ok_same _ _ (w_ctrl w3)); [|done]. unfold same_dev in *. intuition congruence. }
  set (d4 := log_cmd s2 b2 _). assert (L4 : sent d4 = sent (w_ctrl w) ++ [(s1, b1); (s2, b2)]).
  { subst d4. cbn. by rewrite L3, L2, L1, <- app_assoc. }
  destruct (Z.ltb_spec r 0).
  { intros [= <- <-]. exists s1, b1, s2, b2, []. rewrite app_nil_r. done. }
  cbn [w_ctrl w_k w_file]. destruct (get_info_found d4 (an_kernel (k_answer (w_k w3) s2 b2))) as (r5&d5&k5&infos&k6&->&_&_&Hcase).
  cbn [mbind option_bind]. unfold ublk_ctrl_dump. cbn [w_ctrl w_k w_file].
  destruct (ublksrv_ctrl_dump _ _ _ _ _ d5 k5) as [[[rp d6] k7]|] eqn:Ed; [|done]. cbn [mbind option_bind].
  apply ctrl_dump_sent in Ed as (s6&b6&->&->). intros [= <- <-]. cbn [w_ctrl].
  assert (exists cs, sent d5 = sent d4 ++ cs) as [cs Hcs].
  { destruct Hcase as [(_&->&->&_)|(_&s&b&i&->&_)]; cbn; eexists; by rewrite <- ?app_assoc. }
  exists s1, b1, s2, b2, (cs ++ [(s6, b6)]). split; [by cbn [log_cmd sent]; rewrite Hcs, L4, <- !app_assoc|].
  split; [done|]. split; [done|lia].
Qed.

(** A device that a demo added is deleted before the program ends, whether
    it could be started or not: DEL_DEV is the last command it sends, and the
    status tells whether the device was served. *)
Theorem demo_deletes_device junk t ring_fd data arr aio late (k : K) d0 r d1 k1 st w closed :
  open_ctrl env junk t data = Some (Some d0) -> ublksrv_ctrl_add_dev d0 k = Some (r, d1, k1) -> 0 <= r ->
  demo_main env thread_cpus junk_tid junk_buf junk t ring_fd data arr aio late k = Some (st, w, closed) ->
  exists ret w1 w2 ev1 ev2 s b, demo_start_daemon env thread_cpus junk_tid junk_buf arr aio late (mk_world d1 k1 [] []) = Some (ret, w1, ev1, ev2) /\
    w = Some w2 /\ sent (w_ctrl w2) = sent (w_ctrl w1) ++ [(s, b)] /\ cmd_ok ODel (w_ctrl w1) (s, b) /\
    (st = 0 <-> 0 <= ret).
Proof.
  intros Ho Ha Hr. unfold demo_main. rewrite Ho. cbn [mbind option_bind]. rewrite Ha. cbn [mbind option_bind].
  rewrite (proj2 (Z.ltb_ge _ _) Hr). destruct (demo_start_daemon env thread_cpus junk_tid junk_buf arr aio late _) as [[[[ret w1] ev1] ev2]|]; [|done].
  cbn [mbind option_bind]. destruct (del_dev_once (w_ctrl w1) (w_k w1)) as (r2&s&b&->&_&Hok). cbn [mbind option_bind].
  intros [= <- <- <-]. eexists ret, w1, _, ev1, ev2, s, b. split; [done|]. split; [done|]. split; [done|]. split; [done|].
  destruct (Z.ltb_spec ret 0); lia.
Qed.

(** A signal asks the driver to stop the device, with one well-formed
    STOP_DEV; in the event demo only once the first queue is there: before
    its thread made it, and after the thread freed it, the handler reads through
    a null pointer, although the device may be live. *)
Theorem demo_signal_stops queues (d : ublksrv_ctrl_dev) (k : K) :
  sent_once OStop d d k (demo_null_sig_handler (Some d) k) /\
  ((exists st rest, queues = Some st :: rest) -> sent_once OStop d d k (demo_event_sig_handler (Some queues) (Some d) k)) /\
  (forall rest, demo_event_sig_handler (Some (None :: rest)) (Some d) k = None) /\
  demo_event_sig_handler None (Some d) k = None.
Proof. split; [apply stop_dev_once|]. split; [|done]. intros (st&rest&->). apply stop_dev_once. Qed.

(** The helper for udev prints the owner the driver reports, and only for
    devices of unprivileged users. *)
Theorem user_id_owner junk t number (k : K) d :
  open_ctrl env junk t (mk_dev_data number 0 0 0 None 0 0) = Some (Some d) ->
  exists ret owner k', print_dev_owner_id env junk t number k = Some (ret, Some owner, k') /\
    (owner = (-1, -1) \/ 0 <= ret /\ exists k1 s b i, cmd_ok OGetInfo d (s, b) /\ an_payload (k_answer k1 s b) = PInfo i /\
       has (dev_flags i) UBLK_F_UNPRIVILEGED_DEV = true /\ owner = (s32 (owner_uid i), s32 (owner_gid i))).
Proof.
  intros Ho. unfold print_dev_owner_id. rewrite Ho. cbn [mbind option_bind].
  destruct (get_info_found d k) as (ret&d'&k'&cs&k1&->&_&_&Hcase). cbn [mbind option_bind].
  destruct Hcase as [(Hneg&->&->&_)|(Hpos&s&b&i&->&Hok&_&Hp&_)].
  - rewrite (proj2 (Z.leb_gt _ _) Hneg). eexists _, _, _. split; [done|]. by left.
  - rewrite (proj2 (Z.leb_le _ _) Hpos). cbn [dev_info set_info]. eexists _, _, _. split; [done|].
    destruct (has (dev_flags i) UBLK_F_UNPRIVILEGED_DEV) eqn:Hu; [right|by left]. split; [done|]. by exists k1, s, b, i.
Qed.
End demo_spec.
