(* ===== verification/Cli.v ===== *)
(** * The ublk program (targets/ublk.cpp)

    The command line tool: it hands "add", "recover" and "help" to the program
    of the target, and deletes, lists and describes devices itself.  Options are
    given as getopt_long returns them.  Of what is printed, the reports of "list"
    and the names of the driver's features are kept. *)

From S2P Require Import Prelude Bytes UblkCmd Params Json Ctrl Cpuset TgtInit Daemon Report.
From stdpp Require Import pretty.
#[local] Open Scope Z_scope.

(** ** Running the program of a target *)

(** [xe_link]: the path readlink(2) stored and the length it returned; [xe_fork]
    and [xe_read]: fork(2) and read(2), minus the errno on failure. *)
Record exec_env := mk_exec_env {
  xe_link : string * Z;
  xe_mem : bool;
  xe_pipe : Z + (Z * Z);     (* minus the errno, or the two ends *)
  xe_fork : Z;
  xe_read : Z * Z            (* the result and the number read *)
}.

(** What becomes of the process: it returns; it calls execv(2) with [path],
    which replaces it; or it asks for device [number] to be listed and returns what that returns. *)
Inductive exec_result :=
| ExReturn (ret : Z)
| ExExec (path : string) (argv : list string)
| ExList (number : Z).

Definition exec_argv (type : string) (argv : list string) (evtfd : option Z) : list string :=
  ("ublk." +:+ type) :: drop 1 argv ++
  match evtfd with Some fd => ["--eventfd"; pretty fd] | None => [] end.

(** [argv] has the program and the command.  In the child of fork(2),
    [xe_fork] is 0. *)
Definition ublksrv_execv_helper (env : exec_env) (type : string) (argv : list string) : exec_result :=
  let daemon := negb (bool_decide (argv !! 1%nat = Some "help")) in
  if existsb (String.eqb "--eventfd") (drop 1 argv) then ExReturn (- EINVAL)
  else
    let '(full_path, fp_len) := xe_link env in
    if (fp_len <? 0) || (256 <=? fp_len) then ExReturn (- EINVAL)
    else
      let fp := full_path +:+ "." +:+ type in
      if negb (xe_mem env) then ExReturn (- ENOMEM)
      else if negb daemon then ExExec fp (exec_argv type argv None)
      else match xe_pipe env with
      | inl err => ExReturn err
      | inr (_, wr) =>
          if xe_fork env =? 0 then ExExec fp (exec_argv type argv (Some wr))
          else if 0 <? xe_fork env then
            let '(res, id) := xe_read env in
            let res := if res =? 0 then - EINVAL else res in
            if res =? 8 then ExList (s32 (id - 1)) else ExReturn res
          else ExReturn (xe_fork env)
      end.

(** ** Deleting devices *)
Section cli.
Context `{!JsonText} {K : Type} `{!CtrlKernel K}.

(** The files and processes the tool looks at, for each device, and what
    opening the control device gives: [ce_file n t] is the pid file of device [n] when it
    is looked at for the [t]-th time. *)
Record cli_env := mk_cli_env {
  ce_run_dir : option string;
  ce_realloc : Z -> bool;
  ce_junk : string;
  ce_open : Z -> Z * Z * bool;
  ce_file : Z -> nat -> option (list Ascii.ascii);
  ce_alive : nat -> Z -> bool
}.
Variable env : cli_env.

Definition cli_data (number : Z) : ublksrv_dev_data := mk_dev_data number 0 0 0 (ce_run_dir env) 0 0.
Definition cli_init (number : Z) : option (option ublksrv_ctrl_dev) :=
  let '(fd, ring, m) := ce_open env number in
  '(d, _) ← ublksrv_ctrl_init (ce_realloc env) (ce_junk env) fd ring m (cli_data number); Some d.

(** [do ... while (daemon_pid > 0 && cnt < 30)]; [cnt] looks have found the
    daemon. *)
Fixpoint stop_daemon_loop (fuel : nat) (number : Z) (cnt : nat) : option Z :=
  match fuel with
  | O => None
  | S fuel =>
      daemon_pid ← ublksrv_get_io_daemon_pid zero_params
        (ce_alive env cnt) (bool_decide (is_Some (ce_run_dir env))) (ce_file env number cnt) false;
      if 0 <? daemon_pid then
        if (S cnt <? 30)%nat then stop_daemon_loop fuel number (S cnt) else Some (-1)
      else Some 0
  end.
Definition ublksrv_stop_io_daemon (number : Z) : option Z := stop_daemon_loop 30 number 0.

(** The result, the control device when there is one, and the kernel. *)
Definition __cmd_dev_del (number : Z) (async : bool) (k : K) : option (Z * option ublksrv_ctrl_dev * K) :=
  d ← cli_init number;
  match d with
  | None => Some (- EOPNOTSUPP, None, k)
  | Some d =>
      '(ret, d, k) ← ublksrv_ctrl_get_info d k;
      if ret <? 0 then Some (0, Some d, k)
      else
        '(ret, d, k) ← ublksrv_ctrl_stop_dev d k;
        if ret <? 0 then Some (ret, Some d, k)
        else
          _ ← ublksrv_stop_io_daemon (s32 (dev_id (dev_info d)));
          '(ret, d, k) ← (if async then ublksrv_ctrl_del_dev_async d k else ublksrv_ctrl_del_dev d k);
          Some (ret, Some d, k)
  end.

(** The devices of /sys/class/ublk-char, in the order of the directory: the
    ones [f] was applied to, and its last result. *)
Fixpoint for_each_dev (f : Z -> K -> option (Z * K)) (devs : list Z) (ret : Z) (done : list Z) (k : K)
    : option (Z * list Z * K) :=
  match devs with
  | [] => Some (ret, done, k)
  | n :: devs =>
      if negb (ret =? - EOPNOTSUPP) then
        '(ret, k) ← f n k; for_each_dev f devs ret (done ++ [n]) k
      else for_each_dev f devs ret done k
  end.

Inductive del_opt := DoNumber (arg : list Ascii.ascii) | DoAsync | DoOther.
Definition del_option (o : Z * bool) (x : del_opt) : Z * bool :=
  match x with
  | DoNumber a => (s32 (strtol_long a), snd o)
  | DoAsync => (fst o, true)
  | DoOther => o
  end.

(** [devs]: the devices there are. *)
Definition cmd_dev_del (xs : list del_opt) (devs : list Z) (k : K) : option (Z * list Z * K) :=
  let '(number, async) := foldl del_option (-1, false) xs in
  let del n k := '(ret, _, k) ← __cmd_dev_del n async k; Some (ret, k) in
  if 0 <=? number then '(ret, k) ← del number k; Some (ret, [number], k)
  else for_each_dev (fun n k => del (s32 n) k) devs 0 [] k.

(** ** Listing *)

(** What is printed of a device: the report, or with "-v" its JSON text. *)
Inductive list_out := LoReport (r : dump_report) | LoJson (j : json).

(** The CPUs of each thread, and what the local variables of [ublksrv_ctrl_dump] held. *)
Variable thread_cpus : Z -> option (Z -> bool).
Variable junk_params : ublk_params.
Variable junk_tid : Z.
Variable junk_buf : string.

Definition list_one_dev (number : Z) (verbose : bool) (k : K) : option (Z * option list_out * option ublksrv_ctrl_dev * K) :=
  d ← cli_init number;
  match d with
  | None => Some (- EOPNOTSUPP, None, None, k)
  | Some d =>
      '(ret, d, k) ← ublksrv_ctrl_get_info d k;
      if ret <? 0 then Some (ret, None, Some d, k)
      else
        let buf := option_map fst (ublksrv_tgt_get_dev_data (bool_decide (is_Some (ce_run_dir env))) (ce_file env number 0)) in
        match buf with
        | Some text =>
            if verbose then j ← parse text; Some (ret, Some (LoJson j), Some d, k)
            else
              '(r, d, k) ← ublksrv_ctrl_dump thread_cpus junk_params junk_tid junk_buf buf d k;
              Some (ret, option_map LoReport r, Some d, k)
        | None =>
            '(r, d, k) ← ublksrv_ctrl_dump thread_cpus junk_params junk_tid junk_buf None d k;
            Some (ret, option_map LoReport r, Some d, k)
        end
  end.

(** The long option "number" is declared without an argument, so that strtol(3) is
    given a null pointer. *)
Inductive list_opt := LsNumber (arg : option (list Ascii.ascii)) | LsVerbose | LsOther.
Definition list_option (o : Z * bool) (x : list_opt) : option (Z * bool) :=
  match x with
  | LsNumber a => a ← a; Some (s32 (strtol_long a), snd o)
  | LsVerbose => Some (fst o, true)
  | LsOther => Some o
  end.

(** The result, the devices asked for and the kernel. *)
Definition cmd_list_dev_info (xs : list list_opt) (devs : list Z) (k : K) : option (Z * list Z * K) :=
  '(number, verbose) ← foldl (fun o x => o ← o; list_option o x) (Some (-1, false)) xs;
  let one n k := '(ret, _, _, k) ← list_one_dev n verbose k; Some (ret, k) in
  if 0 <=? number then '(ret, k) ← one number k; Some (ret, [number], k)
  else '(_, listed, k) ← for_each_dev (fun n k => one (s32 n) k) devs 0 [] k; Some (0, listed, k).

(** ** Features *)
Definition feat_map : list string :=
  ["ZERO_COPY"; "COMP_IN_TASK"; "GET_DATA"; "USER_RECOVERY"; "RECOVERY_REISSUE"; "UNPRIVILEGED_DEV"; "CMD_IOCTL_ENCODE";
   "USER_COPY"; "ZONED"; "RECOVERY_FAIL_IO"; "UPDATE_SIZE"; "AUTO_ZC"; "QUIESCE"; "PER_IO_DAEMON"; "BUF_REG_OFF_DAEMON";
   "BATCH_IO"; "INTEGRITY"; "SAFE_STOP_DEV"; "NO_AUTO_PART_SCAN"].

(** The lines printed: a name and a bit each. *)
Definition print_features (features : Z) : list (string * Z) :=
  omap (fun i => if has features (bit (Z.of_nat i)) then Some (default "unknown" (feat_map !! i), bit (Z.of_nat i)) else None)
    (seq 0 64).

Definition cmd_dev_get_features (k : K) : option (Z * list (string * Z) * K) :=
  d ← cli_init (-1);
  match d with
  | None => Some (- EOPNOTSUPP, [], k)
  | Some d =>
      '(ret, features, _, k) ← ublksrv_ctrl_get_features d k;
      Some (ret, if ret =? 0 then print_features features else [], k)
  end.

(** ** CPU affinity of a queue *)
Inductive aff_opt := AfNumber (arg : list Ascii.ascii) | AfQueue (arg : list Ascii.ascii) | AfCpuset (arg : list Ascii.ascii).
Definition aff_option (o : Z * Z * option (list Ascii.ascii)) (x : aff_opt) : Z * Z * option (list Ascii.ascii) :=
  let '(number, qid, cpuset) := o in
  match x with
  | AfNumber a => (s32 (strtol_long a), qid, cpuset)
  | AfQueue a => (number, s32 (strtol_long a), cpuset)
  | AfCpuset a => (number, qid, Some a)
  end.

(** The result and the thread whose affinity was set, with the set. *)
Definition cmd_dev_set_affinity (mem : bool) (tid0 : Z) (xs : list aff_opt) (k : K) : option (Z * option (Z * gset Z)) :=
  let '(number, qid, cpuset) := foldl aff_option (-1, -1, None) xs in
  if number <? 0 then Some (- EINVAL, None)
  else if qid <? 0 then Some (- EINVAL, None)
  else match cpuset with
  | None => Some (- EINVAL, None)
  | Some cpuset =>
      set ← ublk_make_cpuset mem 1 (Some cpuset);
      d ← (if bool_decide (is_Some set) then cli_init number else Some None);
      '(ret, tid) ← ublk_queue_set_affinity (bool_decide (is_Some set)) d k (ce_file env number 0) tid0 qid;
      Some (ret, tid ← tid; sets ← set; s ← head sets; Some (tid, s))
  end.

(** ** Commands handed to a target *)
Inductive nt_opt := NtNumber (arg : list Ascii.ascii) | NtType (arg : string) | NtOther.
Definition args_parse_number_type (o : Z * option string) (xs : list nt_opt) : Z * option string :=
  foldl (fun o x => match x with
                    | NtNumber a => (s32 (strtol_long a), snd o)
                    | NtType t => (fst o, Some t)
                    | NtOther => o
                    end) o xs.

Definition cmd_dev_add (xenv : exec_env) (xs : list nt_opt) (argv : list string) : exec_result :=
  match snd (args_parse_number_type (0, None) xs) with
  | None => ExReturn (- EINVAL)
  | Some type => ublksrv_execv_helper xenv type argv
  end.

(** Without a type the usage is printed. *)
Definition cmd_dev_help (xenv : exec_env) (xs : list nt_opt) (argv : list string) : exec_result :=
  match snd (args_parse_number_type (0, None) xs) with
  | None => ExReturn 0
  | Some type => ublksrv_execv_helper xenv type argv
  end.

Definition cmd_dev_recover (xenv : exec_env) (xs : list nt_opt) (argv : list string) : option exec_result :=
  let '(number, _) := args_parse_number_type (-1, None) xs in
  if number <? 0 then Some (ExReturn 1)
  else
    d ← cli_init number;
    match d with
    | None => Some (ExReturn 1)
    | Some d =>
        match ublksrv_tgt_get_dev_data (bool_decide (is_Some (ce_run_dir env))) (ce_file env number 0) with
        | None => Some (ExReturn 1)
        | Some (buf, _) =>
            '(ret, type) ← ublksrv_json_read_target_str_info buf 32 "name";
            if ret <? 0 then Some (ExReturn 1)
            else Some (ublksrv_execv_helper xenv (default EmptyString type) argv)
        end
    end.
End cli.

Inductive cli_cmd := ClNoModule | ClMissing | ClAdd | ClDel | ClSetAffinity | ClList | ClRecover | ClFeatures | ClHelp | ClVersion | ClUnknown.
Definition cli_main (module_loaded : bool) (argv : list string) : cli_cmd :=
  if negb module_loaded then ClNoModule
  else match argv !! 1%nat with
  | None => ClMissing
  | Some cmd =>
      if String.eqb cmd "add" then ClAdd
      else if String.eqb cmd "del" then ClDel
      else if String.eqb cmd "set_affinity" then ClSetAffinity
      else if String.eqb cmd "list" then ClList
      else if String.eqb cmd "recover" then ClRecover
      else if String.eqb cmd "features" then ClFeatures
      else if String.eqb cmd "help" || String.eqb cmd "-h" || String.eqb cmd "--help" then ClHelp
      else if String.eqb cmd "-v" || String.eqb cmd "--version" then ClVersion
      else ClUnknown
  end.

(** ** Theorems *)

(** The program of the target runs the command the user gave: the process
    that is started gets the same command and arguments, with the write end of
    the pipe appended for "add" and "recover", so that the target's main takes
    the command off and sees the user's options; a user cannot pass an event
    descriptor of their own. *)
Theorem exec_same_command env type prog cmd args path len rd wr :
  xe_link env = (path, len) -> 0 <= len < 256 -> xe_mem env = true -> xe_pipe env = inr (rd, wr) -> xe_fork env = 0 ->
  (existsb (String.eqb "--eventfd") (cmd :: args) = true ->
     ublksrv_execv_helper env type (prog :: cmd :: args) = ExReturn (- EINVAL)) /\
  (existsb (String.eqb "--eventfd") (cmd :: args) = false ->
     exists argv, ublksrv_execv_helper env type (prog :: cmd :: args) = ExExec (path +:+ "." +:+ type) argv /\
       ublksrv_main_cmd argv = ublksrv_main_cmd (prog :: cmd :: args) /\
       ublksrv_pop_cmd argv = Some (cmd, ("ublk." +:+ type) :: args ++
         (if String.eqb cmd "help" then [] else ["--eventfd"; pretty wr]))).
Proof.
  intros Hl Hlen Hm Hp Hf. unfold ublksrv_execv_helper. rewrite Hl. change (drop 1 (prog :: cmd :: args)) with (cmd :: args).
  split; intros He; rewrite He; [done|].
  rewrite (proj2 (Z.ltb_ge _ _)), (proj2 (Z.leb_gt _ _)), Hm by lia. cbn [orb negb].
  change ((prog :: cmd :: args) !! 1%nat) with (Some cmd).
  destruct (String.eqb_spec cmd "help") as [->|Hne].
  - rewrite bool_decide_true by done. cbn [negb]. eexists. split; [done|]. by split.
  - rewrite bool_decide_false by (intros [= ?]; done). cbn [negb]. rewrite Hp, Hf. cbn [Z.eqb].
    eexists. by split.
Qed.

Lemma exec_same_command_witness :
  exists argv, ublksrv_execv_helper (mk_exec_env ("/usr/sbin/ublk", 14) true (inr (3, 4)) 0 (0, 0)) "null" ["ublk"; "add"; "-t"; "null"] =
      ExExec "/usr/sbin/ublk.null" argv /\
    ublksrv_pop_cmd argv = Some ("add", ["ublk.null"; "-t"; "null"; "--eventfd"; "4"]).
Proof.
  destruct (exec_same_command (mk_exec_env ("/usr/sbin/ublk", 14) true (inr (3, 4)) 0 (0, 0)) "null" "ublk" "add" ["-t"; "null"]
    "/usr/sbin/ublk" 14 3 4) as [_ H]; [reflexivity|lia|reflexivity|reflexivity|reflexivity|].
  destruct (H eq_refl) as (argv&Hx&_&Hpop). exists argv. split; [exact Hx|exact Hpop].
Defined.

(** What the daemon tells its parent comes through: the number the parent
    reads from the pipe makes it list the device the daemon started; after an
    error it asks for device -3, which no driver knows. *)
Theorem daemon_event_roundtrip env type prog cmd args path len rd wr evtfd dev id :
  xe_link env = (path, len) -> 0 <= len < 256 -> xe_mem env = true -> xe_pipe env = inr (rd, wr) -> 0 < xe_fork env ->
  cmd <> "help" -> existsb (String.eqb "--eventfd") (cmd :: args) = false ->
  - 2^31 <= dev < 2^31 - 1 -> ublksrv_tgt_send_dev_event true evtfd dev = (0, [id]) -> xe_read env = (8, id) ->
  ublksrv_execv_helper env type (prog :: cmd :: args) = ExList (if 0 <=? dev then dev else -3).
Proof.
  intros Hl Hlen Hm Hp Hf Hh He Hdev Hev Hr. unfold ublksrv_execv_helper. rewrite Hl.
  change (drop 1 (prog :: cmd :: args)) with (cmd :: args). rewrite He.
  rewrite (proj2 (Z.ltb_ge _ _)), (proj2 (Z.leb_gt _ _)), Hm by lia. cbn [orb negb].
  change ((prog :: cmd :: args) !! 1%nat) with (Some cmd). rewrite bool_decide_false by (intros [= ?]; done). cbn [negb].
  rewrite Hp, (proj2 (Z.eqb_neq _ _)), (proj2 (Z.ltb_lt _ _)), Hr by lia. cbn [Z.eqb Pos.eqb]. f_equal.
  unfold ublksrv_tgt_send_dev_event in Hev. destruct (evtfd <? 0); [done|]. injection Hev as <-.
  destruct (Z.leb_spec 0 dev); [|reflexivity].
  rewrite (s32_id (dev + 1)), u64_id by (unfold is_s32, is_u64; lia). replace (dev + 1 - 1) with dev by lia.
  apply s32_id. unfold is_s32. lia.
Qed.

Lemma daemon_event_roundtrip_witness :
  ublksrv_execv_helper (mk_exec_env ("/usr/sbin/ublk", 14) true (inr (3, 4)) 77 (8, 8)) "null" ["ublk"; "add"; "-t"; "null"] = ExList 7.
Proof.
  apply (daemon_event_roundtrip (mk_exec_env ("/usr/sbin/ublk", 14) true (inr (3, 4)) 77 (8, 8)) "null" "ublk" "add" ["-t"; "null"]
    "/usr/sbin/ublk" 14 3 4 4 7 8); try reflexivity; try lia; done.
Defined.

Section del.
Context `{!JsonText} {K : Type} `{!CtrlKernel K, !CtrlKernelLaws K}.
Variable env : cli_env.





End del.
