(* ===== verification/CliExamples.v ===== *)
(** * Deleting a device

    The driver of DaemonExamples and a daemon that takes three looks to go. *)

From S2P Require Import Prelude Bytes UblkCmd Params Json JsonExamples Ctrl Cpuset TgtInit Daemon DaemonExamples Cli.



